(* ===== verification/_CoqProject ===== *)
-Q . S2P
Prelude.v
RustStr.v
Json.v
Externals.v
Proto.v
Util.v
Database.v
Schema.v
SharedTable.v
Processors.v
GapDetector.v
TransactionFilter.v
MovingAverage.v
Fetcher.v
Worker.v
Pipeline.v
PipelineStops.v
Startup.v
Metrics.v
Signatures.v
UserTransactions.v
Events.v
DefaultModels.v
DefaultProcessor.v
TokenResources.v
AccountTransactions.v
FungibleResources.v
Objects.v
Coins.v
FungibleAssets.v
Stake.v
StakeLaws.v
Ans.v
AnsLaws.v
TokenUtils.v
TokensV1.v
TokensV1Laws.v
TokensV2.v
TokensV2Example.v
TokensV2Owners.v
TokensV2Laws.v
TokensV2Burns.v
TransactionMetadata.v
NftMetadata.v
NftMetadataLaws.v
Rows.v
RowsLaws.v
RowsFit.v
Lookups.v
EndToEnd.v
EndToEndTables.v
EndToEndNames.v
EndToEndHistory.v
EndToEndAll.v
Serde.v
SerdeLaws.v
RowsSerde.v
Cleaning.v
RowsSerdeLaws.v
Retries.v
MoveTypes.v
MoveTypesLaws.v
Endpoints.v
