(* ===== verification/Prelude.v ===== *)
(** * Aptos indexer processors: verification development

    The program is the Rust workspace under src/rust: an indexer that reads
    transactions from a gRPC stream and writes rows to a PostgreSQL
    database.  One [Worker] (processor/src/worker.rs) runs three kinds of
    tasks that communicate over channels:

    - the _fetcher_ (grpc_stream.rs) reads the stream, checks that versions
      follow each other, reconnects when it must, filters the transactions
      (transaction_filter.rs), splits a response into chunks and sends them
      on a bounded channel;
    - the _processor tasks_ take one chunk each, turn it into rows (models/)
      and upsert the rows in concurrent, parameter-limited statements
      (processors/, utils/database.rs);
    - the _status tracker_ (gap_detector.rs) receives the finished ranges in
      any order, computes the contiguous frontier and records it as the
      version a restart begins at.

    ** Files

    - [Prelude]: panics ([outcome]) and errors ([result]) with their monads
      and the [outcome_step] tactic, machine integers with wrap-around, the
      iteration order of a hash map as a permutation ([HashOrder]), indexing
      of rows and lemmas on lists and maps shared by the components.
    - [RustStr], [Json]: the operations of Rust strings (as their
      UTF-8 bytes) and of serde_json values that the code uses.
    - [Externals]: what the code calls and src/ does not contain (SHA-256,
      BCS, chrono, hex, number parsing) as type classes of functions, with
      documented laws stated only where a theorem needs them, and concrete
      instances for the witnesses.
    - [Proto]: the protobuf messages a transaction is made of.
    - [Util]: utils/util.rs and the property map parser.
    - [Database]: utils/database.rs.  Tables are finite maps from primary key
      to row; an [Upsert] is a statement with its ON CONFLICT clause;
      [write_task_step] interleaves the spawned statements one by one.
    - [Schema]: the tables of schema.rs with keys and columns.
    - [Processors]: processors/mod.rs, models/processor_status.rs.  The class
      [ProcessorTrait] is the trait, [ProcessorLaws] what the pipeline needs
      of an implementation.
    - [GapDetector]: gap_detector.rs.
    - [TransactionFilter]: transaction_filter.rs.
    - [MovingAverage]: moving-average/src/lib.rs.
    - [Fetcher]: grpc_stream.rs; the network is an arbitrary
      function that answers each attempt and each read.
    - [Worker]: worker.rs (start version, chain id, the body of a task).
    - [Pipeline]: the composition, as a step relation over fetcher, channels,
      tasks, tracker and database; [PipelineStops]: why a run with an ending
      version stops.
    - [Startup]: config.rs, the connection pool, the start of [Worker::run]
      and server-framework/src/lib.rs, up to the first state of [Pipeline].
    - [Metrics]: utils/counters.rs, what the loops record, and the
      indexer-metrics service.
    - [Signatures], [UserTransactions]: the user transaction processor with
      its models.
    - [DefaultModels], [DefaultProcessor]: the default processor with its
      models (transactions, block metadata, write-set changes, modules,
      resources, tables).
    - [Events]: events_processor.rs and the event model.
    - [TokenResources], [FungibleResources]: the resources and events of the
      object, token and fungible asset modules, and how they are recognised in
      write sets and events (v2_token_utils.rs, v2_object_utils.rs,
      v2_fungible_asset_utils.rs).  Derived deserialization is a class whose
      instances are in [MoveTypes].
    - [AccountTransactions]: the accounts a transaction touches and their
      processor.
    - [Objects]: object history and current owners; what the database answers
      to a lookup is a parameter.
    - [Coins]: coin_models and coin_processor.rs.
    - [FungibleAssets]: activities, balances and metadata of fungible assets
      and of coins in the same tables, with fungible_asset_processor.rs.
    - [Stake], [StakeLaws]: stake_models and stake_processor.rs.
    - [Ans], [AnsLaws]: ans_models and ans_processor.rs.
    - [TokenUtils]: the data of the first token contract (token_utils.rs).
    - [TokensV1], [TokensV1Laws]: token_models and token_processor.rs.
    - [SharedTable]: two calls of execute_in_chunks on one table, awaited
      together; a _view_ keeps the columns that both of their queries set.
    - [TokensV2]: token_v2_models and token_v2_processor.rs;
      [TokensV2Example] has concrete batches of it, [TokensV2Owners],
      [TokensV2Laws] and [TokensV2Burns] its theorems.
    - [TransactionMetadata]: transaction_metadata_model, its processor and
      monitoring_processor.rs.
    - [NftMetadata], [NftMetadataLaws]: nft_metadata_processor.rs; the message
      queue is a parameter with laws.
    - [Rows], [RowsLaws], [RowsFit]: the derived [Insertable] implementations,
      which put the fields of a model into the columns of [Schema].
    - [Lookups]: the [Queryable] structs and the select statements, answered
      from the tables that the processors write.
    - [EndToEnd]: runs of [Pipeline] with stops and restarts on one database,
      and what they leave in a table; [EndToEndTables] and [EndToEndNames] have
      the tables of newest rows it applies to, [EndToEndHistory] those that keep
      every row, and [EndToEndAll] the list of both with the theorems.
    - [Serde], [SerdeLaws]: what serde derives for a struct from the list of
      its fields, and its laws.
    - [RowsSerde], [RowsSerdeLaws], [Cleaning], [Retries]: the derived
      serialization of the rows, what a cleaned text is, and what the retry of utils/database.rs makes of them.
    - [MoveTypes], [MoveTypesLaws]: the derived deserialization of resources,
      events and table items with its attributes; the instances of the classes
      that [Coins], [FungibleAssets], [Stake], [Ans], [TokenUtils] and
      [TokenResources] take.
    - [Endpoints]: indexer-metrics/src/util.rs with the answers its main.rs
      reads, and the probes of server-framework/src/lib.rs.

    The components meet at interfaces: [ProcessorTrait] with [ProcessorLaws]
    between pipeline and processors, [PgTable] with [PgLaws] between the writes
    and the server, [Lww] between a conflict clause and the convergence lemmas,
    [BatchTable] and [HistoryTable] between the rows of a processor and
    [EndToEnd], [CodecSpec] and
    [FieldsSpec] between a field and the struct that has it, and the codec
    classes between the processors and [MoveTypes].

    ** What the theorems show

    - _The whole indexer refines a sequential one_ ([EndToEnd], [EndToEndAll]).
      However often the process is stopped and started again, and however its tasks
      and statements interleave, a table of newest rows ends up as if the
      transactions had been processed one at a time, and so does a table that
      keeps every row.  The current table items of the default processor, the
      voters and balances of the pools of the stake processor and the current
      names are tables of newest rows; the history tables of the default, user
      transaction, account transaction, name and transaction metadata processors
      keep every row.  The conditions: an ordered ledger, every response smaller
      than a chunk, no configured starting version, an empty table at the
      beginning, rows that need no cleaning, no printed query that hides a WHERE,
      and a last run that has reached the last version with all its tasks exited.
    - _Progress is recorded honestly_ ([Pipeline], [GapDetector]).  The gap
      detector refines a set of received ranges: its frontier is the longest
      contiguous run and what it keeps is exactly the rest, for every order
      of arrival.  In every reachable state of the pipeline the recorded
      version covers processed messages only, and a restart without a configured
      starting version loses nothing.  These theorems assume that no response is
      split into several chunks; [Pipeline.split_batches_run_ahead] is a run that
      shows what happens otherwise.  [Startup] derives the same from a configuration with the
      default chunk size, and that a run starts on a database of its own chain
      only; [Metrics] that the counters agree with the versions processed.
    - _A bounded run stops_ ([PipelineStops]).  With an ending version and a
      processor whose batches end, every interleaving of the steps is finite, and
      one that cannot go on has crashed or has fetched everything up to the ending
      version and processed every message once.  The process does not wait for the
      status tracker when its tasks have exited; in the theorem the tracker takes
      its remaining steps.
    - _The stream is read completely_ ([Fetcher]).  For every behaviour of
      the network the batches are gapless; with an ending version, and responses whose
      versions are in order, the loop terminates; and connecting is bounded by the retry budget.
    - _Writes converge_ ([Database]).  A chunked write that reports success
      has stored all rows for every interleaving, when the keys are distinct and kept
      by cleaning and no printed query contains the word _where_; a current-state table,
      whose conflict clause compares versions, is independent of the order of
      the writes, unchanged by replays, and keeps the newest row.
    - _Rows are right_ ([UserTransactions], [DefaultProcessor], [Signatures],
      [Events], [AccountTransactions], [Objects], [Coins], [FungibleAssets],
      [StakeLaws], [AnsLaws], [TokensV1Laws], [TokensV2Laws]).  The rows of a
      batch are exactly those of its transactions; they have distinct keys (an
      upsert that touches a key twice fails in PostgreSQL), do not depend on
      the iteration order of hash maps, and are all stored when the batch
      succeeds; current rows are the last (for coin infos the first) of the
      batch.  The convergence theorems speak of the rows that the batches emit;
      for the stake processor, whose batches keep the last row of a pool and one
      balance per delegator, pool and kind, the reduction inside a batch is part of
      the statement.  The lemmas [batches_coherent] and [appended_rows_NoDup] of
      [Processors] carry these arguments for every processor.
    - _One processor covers another_: the fungible asset processor records
      every coin balance and activity the coin processor records, for coin types
      within the length limit ([FungibleAssets]), and the names of the first contract are also in the
      tables of the second ([AnsLaws]).
    - _Statements fit the schema_ ([RowsLaws], [RowsFit]): every row has the
      columns of its table with values of their types, every conflict target is
      a primary key, every chunk stays below the limit of parameters, and the
      texts of the token processor are within the lengths of their columns.
    - _Retries store the same rows_ ([Retries]): for each statement that is run in
      chunks, cleaning a row never panics and takes out exactly the NUL characters
      and then the literal text of their JSON escape (and the JSON nulls of columns
      that can be NULL), and a call that succeeds has stored every row as given or
      cleaned, under the conditions of chunked writes.  [Cleaning] says what a
      cleaned text is without the functions of the code.
    - _Contracts may be upgraded_ ([MoveTypesLaws]): a value with more fields is
      read as the value without them.
    - _Messages agree with tables_ ([NftMetadataLaws]): the messages of a batch
      are about the tokens and collections of the token processor, and a batch that
      succeeds has published every one at least once, the guarantee of the queue.
    - _Known state is not lost_: a default voter never replaces a voter that an
      earlier batch has stored, and a deleted object keeps its owner
      ([Lookups]); a burned token ends up deleted and a moved token has one
      owner ([TokensV2Burns], [TokensV2Owners]).
    - _Where the code falls short_ is a theorem too: a token that comes back
      in one transaction has no owner, a token minted again stays deleted, the
      data of a burned token depends on the order of the writes
      ([TokensV2Owners], [TokensV2Burns]); split responses let the status run
      ahead ([Pipeline]); a value that contains the word _where_ disables the
      version condition ([Database]); a lookup that the database does not answer
      replaces a voter, and a deleted share hides its pool ([Lookups]); a NUL byte
      in the key of a JSON object is not cleaned, and the batch with it never
      succeeds ([Retries]).
    - _Helpers_ ([Util], [TransactionFilter], [MovingAverage], [Worker]):
      address standardisation is a canonical form, cleaning removes every NUL,
      the filter is the conjunction of its criteria, and so on.  [Endpoints]:
      every failed request to a full node is counted, and a probe ends the
      process only when the metrics cannot be encoded.

    ** Conventions

    Integers are [Z] at the width of the source; the release profile does not
    check overflow, so sums and products that could overflow wrap ([as_u64],
    [as_i64]), as the [as] casts do.  A
    log line has no counterpart; metrics are in [Metrics] only.  Loops that are not structural
    take fuel computed from their input, and a theorem shows that the fuel is
    enough: draining the gap detector takes at most one round per stored
    range, expiring a moving average one round per entry, the fetcher
    seven rounds for each version up to its end and six more (a reconnection
    is tried five times in a row), connecting one round per retry.

    ** Not modelled

    Reading YAML and files, log lines, the command line and the runtime are I/O;
    what they return is a parameter where a component goes on with it
    ([Startup]).  TLS, migrations, the profiler, the network and the message queue
    are parameters too, as are the regular expression crate, the grammar of JSON and
    the texts of decimals and times.  The processors are proved for every instance
    of their codec classes; [MoveTypes] has the one that serde derives.
    In [EndToEnd] the streams serve one ledger.
    Rows that depend on other transactions of the batch, on the database or on the
    absence of hash collisions (owners of token tables, delegated voters, coin
    balances, assets) have no instance of [BatchTable]; the convergence theorems of their
    processors start from the rows of given batches.  The Python and TypeScript
    processors of the repository are separate programs. *)

From stdpp Require Export base tactics numbers list sorting gmap strings.
From Stdlib Require Export ZArith Lia.

#[export] Set Warnings "-clear-no-such-hyp,-register-all".

(** ** Panics

    A Rust function that may panic (an [unwrap] or [expect] on [None], an
    explicit [panic!], an index out of range) returns an [outcome].  The
    message of a panic is only logged, so it carries no payload. *)
Inductive outcome (A : Type) : Type :=
| Ret (a : A)
| Panic.
Arguments Ret {A} _.
Arguments Panic {A}.

#[export] Instance outcome_ret : MRet outcome := fun A a => Ret a.
#[export] Instance outcome_bind : MBind outcome := fun A B f m =>
  match m with Ret a => f a | Panic => Panic end.
#[export] Instance outcome_fmap : FMap outcome := fun A B f m =>
  match m with Ret a => Ret (f a) | Panic => Panic end.

(** A [Result] whose error value is only logged or wrapped into another
    message: the error carries no payload. *)
Inductive result (A : Type) : Type :=
| Ok (a : A)
| Err.
Arguments Ok {A} _.
Arguments Err {A}.

#[export] Instance outcome_eq_dec `{EqDecision A} : EqDecision (outcome A).
Proof. solve_decision. Defined.
#[export] Instance result_eq_dec `{EqDecision A} : EqDecision (result A).
Proof. solve_decision. Defined.

#[export] Instance result_ret : MRet result := fun A a => Ok a.
#[export] Instance result_bind : MBind result := fun A B f m =>
  match m with Ok a => f a | Err => Err end.
#[export] Instance result_fmap : FMap result := fun A B f m =>
  match m with Ok a => Ok (f a) | Err => Err end.

(** Running a computation on a concrete input. *)
Definition is_ret {A} (m : outcome A) : bool := match m with Ret _ => true | Panic => false end.
Definition ret_or {A} (d : A) (m : outcome A) : A := match m with Ret a => a | Panic => d end.
Lemma ret_or_eq {A} (d : A) (m : outcome A) : is_ret m = true -> m = Ret (ret_or d m).
Proof. by destruct m. Qed.

(** [Option::unwrap] and [Result::unwrap]. *)
Definition unwrap {A} (o : option A) : outcome A :=
  match o with Some a => Ret a | None => Panic end.
Definition unwrap_result {A} (r : result A) : outcome A :=
  match r with Ok a => Ret a | Err => Panic end.
(** [Result::ok] and [Option::context]. *)
Definition result_ok {A} (r : result A) : option A :=
  match r with Ok a => Some a | Err => None end.
Definition context {A} (o : option A) : result A :=
  match o with Some a => Ok a | None => Err end.

(** The [?] operator inside a function that returns a [Result] and may
    panic. *)
Definition try_bind {A B} (m : outcome (result A)) (k : A -> outcome (result B))
  : outcome (result B) :=
  match m with
  | Ret (Ok a) => k a
  | Ret Err => Ret Err
  | Panic => Panic
  end.

Declare Scope rust_scope.
Delimit Scope rust_scope with rust.
Notation "x '<-?' m ; k" := (try_bind m (fun x => k))
  (at level 20, m at level 100, k at level 200, right associativity) : rust_scope.
Notation "' x '<-?' m ; k" := (try_bind m (fun x => k))
  (at level 20, x pattern, m at level 100, k at level 200, right associativity) : rust_scope.
Open Scope rust_scope.

(** A [for] loop whose body updates accumulated state and may panic. *)
Fixpoint foldM {A B} (f : B -> A -> outcome B) (b : B) (l : list A) : outcome B :=
  match l with
  | [] => Ret b
  | x :: l => b' ← f b x; foldM f b' l
  end.

(** A [for] loop with the [?] operator in its body. *)
Fixpoint foldTry {A B} (f : B -> A -> outcome (result B)) (b : B) (l : list A) : outcome (result B) :=
  match l with
  | [] => Ret (Ok b)
  | x :: l => b' <-? f b x; foldTry f b' l
  end.

(** [Iterator::map] followed by [collect], with a body that may panic. *)
Fixpoint traverse {A B} (f : A -> outcome B) (l : list A) : outcome (list B) :=
  match l with
  | [] => Ret []
  | x :: l => y ← f x; ys ← traverse f l; Ret (y :: ys)
  end.

(** [iter().enumerate()] from a start index, the index as the [i64] the code
    casts it to. *)
Fixpoint enumerate_from {A} (i : Z) (l : list A) : list (Z * A) :=
  match l with
  | [] => []
  | x :: l => (i, x) :: enumerate_from (i + 1) l
  end.
Abbreviation enumerate := (enumerate_from 0%Z).

(** ** Automation

    [outcome_inv] splits a hypothesis [m = Ret _] along the binds of [m];
    [indexer] is the development's hint database. *)
Create HintDb indexer.

Lemma bind_Ret {A B} (m : outcome A) (f : A -> outcome B) b :
  (m ≫= f) = Ret b <-> exists a, m = Ret a /\ f a = Ret b.
Proof. destruct m; simpl; naive_solver. Qed.

Lemma fmap_Ret {A B} (m : outcome A) (f : A -> B) b :
  f <$> m = Ret b <-> exists a, m = Ret a /\ b = f a.
Proof. destruct m; simpl; naive_solver. Qed.

Lemma unwrap_Ret {A} (o : option A) a : unwrap o = Ret a <-> o = Some a.
Proof. destruct o; simpl; naive_solver. Qed.

Lemma unwrap_result_Ret {A} (o : result A) a : unwrap_result o = Ret a <-> o = Ok a.
Proof. destruct o; simpl; naive_solver. Qed.

Lemma try_bind_Ok {A B} (m : outcome (result A)) (k : A -> outcome (result B)) b :
  try_bind m k = Ret (Ok b) <-> exists a, m = Ret (Ok a) /\ k a = Ret (Ok b).
Proof. destruct m as [[|]|]; simpl; naive_solver. Qed.

Ltac outcome_step :=
  match goal with
  | H : (_ ≫= _) = Ret _ |- _ => apply bind_Ret in H as (? & ? & H)
  | H : (_ <$> _) = Ret _ |- _ => apply fmap_Ret in H as (? & ? & H)
  | H : try_bind _ _ = Ret (Ok _) |- _ => apply try_bind_Ok in H as (? & ? & H)
  | H : unwrap _ = Ret _ |- _ => apply unwrap_Ret in H
  | H : unwrap_result _ = Ret _ |- _ => apply unwrap_result_Ret in H
  | H : (let '(_, _) := ?x in _) = Ret _ |- _ => destruct x eqn:?; simpl in H
  | H : Ret _ = Ret _ |- _ => injection H as H
  | H : Panic = Ret _ |- _ => discriminate H
  | H : Ret _ = Panic |- _ => discriminate H
  end.
Ltac outcome_inv := repeat (outcome_step; simplify_eq/=).

Lemma option_bind_total {A B} (m : option A) (f : A -> option B) :
  is_Some m -> (forall a, is_Some (f a)) -> is_Some (m ≫= f).
Proof. intros [a ->] Hf. apply Hf. Qed.

(** ** Loops *)

Lemma traverse_Ret {A B} (f : A -> outcome B) l k :
  traverse f l = Ret k <-> Forall2 (fun x y => f x = Ret y) l k.
Proof.
  revert k. induction l as [|x l IH]; intros k; simpl.
  - split; [naive_solver|]. inversion 1; done.
  - split.
    + intros H. outcome_inv. constructor; naive_solver.
    + inversion 1 as [|? y ? ys Hy Hys]; subst. rewrite Hy; simpl.
      by rewrite (proj2 (IH ys) Hys).
Qed.

Lemma traverse_total {A B} (f : A -> outcome B) l :
  Forall (fun x => exists y, f x = Ret y) l -> exists k, traverse f l = Ret k.
Proof.
  induction 1 as [|x l [y Hy] _ [k Hk]]; simpl; [by eexists|].
  rewrite Hy; simpl. rewrite Hk; simpl. by eexists.
Qed.

Lemma foldM_app {A B} (f : B -> A -> outcome B) b l1 l2 :
  foldM f b (l1 ++ l2) = foldM f b l1 ≫= fun b' => foldM f b' l2.
Proof.
  revert b. induction l1 as [|x l1 IH]; intros b; simpl; [done|].
  destruct (f b x); simpl; [apply IH|done].
Qed.

(** A loop that ends without error is a loop whose rounds all succeed. *)
Lemma foldTry_Ok {A B} (f : B -> A -> outcome (result B)) b l b' :
  foldTry f b l = Ret (Ok b') <-> foldM (fun b x => r ← f b x; unwrap_result r) b l = Ret b'.
Proof.
  revert b. induction l as [|x l IH]; intros b; simpl; [naive_solver|].
  destruct (f b x) as [[c|]|]; simpl; [apply IH|done..].
Qed.

(** The invariant rule for a [for] loop. *)
Lemma foldM_ind {A B} (P : B -> Prop) (f : B -> A -> outcome B) b l b' :
  P b ->
  (forall c x c', x ∈ l -> P c -> f c x = Ret c' -> P c') ->
  foldM f b l = Ret b' -> P b'.
Proof.
  revert b. induction l as [|x l IH]; intros b Hb Hstep Hf; simpl in *.
  - outcome_inv. done.
  - outcome_inv. eapply IH; [|by intros; eapply Hstep; [right| |]|done].
    by eapply Hstep; [left| |].
Qed.

Lemma foldTry_ind {A B} (P : B -> Prop) (f : B -> A -> outcome (result B)) b l b' :
  P b ->
  (forall c x c', x ∈ l -> P c -> f c x = Ret (Ok c') -> P c') ->
  foldTry f b l = Ret (Ok b') -> P b'.
Proof.
  intros Hb Hstep Hf%foldTry_Ok. eapply foldM_ind; [exact Hb| |exact Hf].
  intros c x c' Hx Hc Hr. apply bind_Ret in Hr as (r & Hr & ->%unwrap_result_Ret). eauto.
Qed.

(** A loop that logs: [L s rows s'] says that [s'] is [s] with the rows
    written.  When every round keeps the invariant [I] and logs rows that
    satisfy [P], the loop logs their concatenation. *)
Lemma foldM_log {S A R} (I : S -> Prop) (L : S -> list R -> S -> Prop) (P : A -> list R -> Prop)
    (f : S -> A -> outcome S) s l s' :
  (forall s, L s [] s) ->
  (forall s1 l1 s2 l2 s3, L s1 l1 s2 -> L s2 l2 s3 -> L s1 (l1 ++ l2) s3) ->
  (forall c x c', x ∈ l -> I c -> f c x = Ret c' -> I c' /\ exists rows, L c rows c' /\ P x rows) ->
  I s -> foldM f s l = Ret s' ->
  I s' /\ exists logs, Forall2 P l logs /\ L s (concat logs) s'.
Proof.
  intros Hrefl Htrans. revert s. induction l as [|x l IH]; intros s Hstep Hi Hf; simpl in Hf.
  - outcome_inv. split; [done|]. by exists [].
  - outcome_inv. destruct (Hstep s x x0) as (Hi' & rows & HL & HP); [left|done..|].
    destruct (IH x0) as (Hi'' & logs & Hlogs & HL'); [by intros; eapply Hstep; [right|..]|done..|].
    split; [done|]. exists (rows :: logs). split; [by constructor|]. simpl. by eapply Htrans.
Qed.

Lemma elem_of_concat {A} (x : A) ls : x ∈ concat ls <-> exists l, l ∈ ls /\ x ∈ l.
Proof. rewrite list_elem_of_In, in_concat. by setoid_rewrite list_elem_of_In. Qed.

(** An element of a flattened list comes from one of the inputs. *)
Lemma elem_of_concat_Forall2 {A B} (P : A -> list B -> Prop) l ls y :
  Forall2 P l ls -> y ∈ concat ls -> exists x k, x ∈ l /\ P x k /\ y ∈ k.
Proof.
  intros Hf (k & [i Hi]%list_elem_of_lookup & Hy)%elem_of_concat.
  destruct (Forall2_lookup_r _ _ _ _ _ Hf Hi) as (x & Hx & HP). exists x, k.
  split; [by eapply list_elem_of_lookup_2|done].
Qed.
Lemma Forall2_elem_of_concat {A B} (P : A -> list B -> Prop) l ls x :
  Forall2 P l ls -> x ∈ l -> exists k, P x k /\ forall y, y ∈ k -> y ∈ concat ls.
Proof.
  intros Hf [i Hi]%list_elem_of_lookup.
  destruct (Forall2_lookup_l _ _ _ _ _ Hf Hi) as (k & Hk & HP). exists k. split; [done|].
  intros y Hy. apply elem_of_concat. exists k. split; [by eapply list_elem_of_lookup_2|done].
Qed.

Lemma omap_concat {A B} (f : A -> option B) (ls : list (list A)) :
  omap (M := list) f (concat ls) = concat (fmap (M := list) (omap (M := list) f) ls).
Proof. induction ls as [|l ls IH]; simpl; [done|]. by rewrite omap_app, IH. Qed.

Lemma length_enumerate_from {A} i (l : list A) : length (enumerate_from i l) = length l.
Proof. revert i. induction l; intros; simpl; auto. Qed.

Lemma enumerate_from_snd {A} i (l : list A) : (enumerate_from i l).*2 = l.
Proof. revert i. induction l as [|x l IH]; intros; simpl; [done|]. by rewrite IH. Qed.

Lemma enumerate_from_fst {A} i (l : list A) :
  (enumerate_from i l).*1 = (fun n => i + Z.of_nat n)%Z <$> seq 0 (length l).
Proof.
  revert i. induction l as [|x l IH]; intros i; simpl; [done|].
  rewrite IH, <- fmap_S_seq, <- list_fmap_compose. f_equal; [lia|].
  apply list_fmap_ext. intros; simpl; lia.
Qed.

Lemma NoDup_enumerate_from {A} i (l : list A) : NoDup (enumerate_from i l).*1.
Proof.
  rewrite enumerate_from_fst. apply NoDup_fmap_2; [intros ??; lia|apply NoDup_seq].
Qed.

Lemma enumerate_from_lookup {A} i (l : list A) n :
  enumerate_from i l !! n = (fun x => (i + Z.of_nat n, x)%Z) <$> l !! n.
Proof.
  revert i n. induction l as [|x l IH]; intros i [|n]; simpl; try done.
  - by rewrite Z.add_0_r.
  - rewrite IH. destruct (l !! n); simpl; [|done]. do 2 f_equal. lia.
Qed.

Lemma elem_of_enumerate_from {A} i (l : list A) j x :
  (j, x) ∈ enumerate_from i l <-> exists n, j = (i + Z.of_nat n)%Z /\ l !! n = Some x.
Proof.
  rewrite list_elem_of_lookup. setoid_rewrite enumerate_from_lookup. split.
  - intros [n Hn]. destruct (l !! n) eqn:E; simplify_eq/=. eauto.
  - intros (n & -> & Hn). exists n. by rewrite Hn.
Qed.

(** A log of at most one entry per element, numbered like the elements. *)
Lemma enumerate_log_NoDup {A R} (idx : R -> Z) k (l : list A) (logs : list (list R)) :
  Forall2 (fun ix rows => length rows <= 1 /\ Forall (fun r => idx r = ix.1) rows)
    (enumerate_from k l) logs ->
  NoDup (idx <$> concat logs) /\ Forall (fun r => k <= idx r)%Z (concat logs).
Proof.
  revert k logs. induction l as [|x l IH]; intros k logs; simpl.
  - inversion 1; subst. split; constructor.
  - intros (rows & logs' & [Hl Hi] & Hf & ->)%Forall2_cons_inv_l. simpl.
    destruct (IH _ _ Hf) as [Hn Hk].
    destruct rows as [|r [|]]; simpl in *; [|..|lia].
    + split; [done|]. eapply Forall_impl; [exact Hk|]. simpl. lia.
    + rewrite Forall_singleton in Hi. split.
      * constructor; [|done]. rewrite list_elem_of_fmap. intros (r' & Hr & Hin).
        rewrite Forall_forall in Hk. specialize (Hk r' Hin). simpl in Hk. lia.
      * constructor; [lia|]. eapply Forall_impl; [exact Hk|]. simpl. lia.
Qed.

Lemma omap_fmap {A B C} (f : A -> B) (pick : B -> option C) (g : A -> option C) (l : list A) :
  (forall a, pick (f a) = g a) -> omap (M := list) pick (f <$> l) = omap (M := list) g l.
Proof. intros Hg. induction l as [|a l IH]; csimpl; [done|]. by rewrite Hg, IH. Qed.
Lemma omap_none {A B} (l : list A) : omap (M := list) (fun _ => @None B) l = [].
Proof. by induction l. Qed.
Lemma omap_some {A} (l : list A) : omap (M := list) Some l = l.
Proof. induction l as [|a l IH]; csimpl; [done|]. by rewrite IH. Qed.

(** The rows of one kind in a log of at most one of them per element. *)
Lemma log_rows_NoDup {A L R} (P : Z * A -> list L -> Prop) (pick : L -> option R) (idx : R -> Z)
    (l : list A) logs :
  (forall ix rows, P ix rows -> length (omap (M := list) pick rows) <= 1 /\
     Forall (fun r => idx r = ix.1) (omap (M := list) pick rows)) ->
  Forall2 P (enumerate l) logs ->
  NoDup (idx <$> omap (M := list) pick (concat logs)) /\ Forall (fun r => 0 <= idx r)%Z (omap (M := list) pick (concat logs)).
Proof.
  intros HP Hf. rewrite omap_concat. apply (enumerate_log_NoDup idx 0 l).
  apply Forall2_fmap_r. eapply Forall2_impl; [exact Hf|]. simpl. intros ix rows Hr. by apply HP.
Qed.

(** The rows of one kind in a log that has none of them. *)
Lemma log_rows_nil {A L R} (P : A -> list L -> Prop) (pick : L -> option R) l logs :
  (forall x rows, P x rows -> omap (M := list) pick rows = []) -> Forall2 P l logs -> omap (M := list) pick (concat logs) = [].
Proof.
  intros HP Hf. induction Hf as [|x rows l logs Hx _ IH]; [done|].
  csimpl. by rewrite omap_app, IH, (HP x rows Hx).
Qed.

(** Every row of one kind in a log comes from an element. *)
Lemma elem_of_log {A L R} (P : A -> list L -> Prop) (pick : L -> option R) l logs r :
  Forall2 P l logs -> r ∈ omap (M := list) pick (concat logs) ->
  exists x rows, x ∈ l /\ P x rows /\ r ∈ omap (M := list) pick rows.
Proof.
  intros Hf. rewrite list_elem_of_omap. intros (y & Hy & Hr).
  destruct (elem_of_concat_Forall2 _ _ _ _ Hf Hy) as (x & rows & Hx & HP & Hin).
  exists x, rows. split_and!; [done..|]. apply list_elem_of_omap. eauto.
Qed.

(** ** Lists with distinct keys *)

(** Lists of lists flattened by a key that tells the segments apart. *)
Lemma NoDup_concat_keys {A K} (key : A -> K) (ls : list (list A)) :
  Forall (fun l => NoDup (key <$> l)) ls ->
  (forall i j l1 l2 x y, ls !! i = Some l1 -> ls !! j = Some l2 ->
     x ∈ l1 -> y ∈ l2 -> key x = key y -> i = j) ->
  NoDup (key <$> concat ls).
Proof.
  induction ls as [|l ls IH]; intros Hn Hd; simpl; [constructor|].
  apply Forall_cons in Hn as [Hl Hls]. rewrite fmap_app. apply NoDup_app. split_and!.
  - done.
  - intros k (x & -> & Hx)%list_elem_of_fmap (y & Hy & Hin)%list_elem_of_fmap.
    apply list_elem_of_In, in_concat in Hin as (l' & Hl' & Hyl').
    apply list_elem_of_In, list_elem_of_lookup in Hl' as [j Hj].
    assert (0 = S j) as H0; [|lia].
    apply (Hd 0 (S j) l l' x y); simpl; try done; by apply list_elem_of_In.
  - apply IH; [done|]. intros i j l1 l2 x y H1 H2 Hx Hy Hk.
    assert (S i = S j) as Heq; [|lia]. by apply (Hd (S i) (S j) l1 l2 x y).
Qed.

(** A key that is distinct over a flattened list tells the segments apart. *)
Lemma NoDup_concat_index {A K} (key : A -> K) (ls : list (list A)) i j l1 l2 k :
  NoDup (key <$> concat ls) -> ls !! i = Some l1 -> ls !! j = Some l2 ->
  k ∈ key <$> l1 -> k ∈ key <$> l2 -> i = j.
Proof.
  revert i j. induction ls as [|l ls IH]; intros i j Hn Hi Hj H1 H2; [done|].
  simpl in Hn. rewrite fmap_app in Hn. apply NoDup_app in Hn as (_ & Hd & Hn).
  assert (forall n l', ls !! n = Some l' -> k ∈ key <$> l' -> k ∈ key <$> concat ls) as Hin.
  { intros n l' Hl' (x & -> & Hx)%list_elem_of_fmap. apply list_elem_of_fmap_2.
    apply list_elem_of_In, in_concat. exists l'. rewrite <- !list_elem_of_In.
    split; [by eapply list_elem_of_lookup_2|done]. }
  destruct i as [|i], j as [|j]; simpl in *; simplify_eq; try done.
  - exfalso. apply (Hd k); eauto.
  - exfalso. apply (Hd k); eauto.
  - f_equal. by eapply IH.
Qed.

Lemma NoDup_fmap_key_inj {A K} (key : A -> K) (l : list A) x y :
  NoDup (key <$> l) -> x ∈ l -> y ∈ l -> key x = key y -> x = y.
Proof.
  intros Hn (i & Hi)%list_elem_of_lookup (j & Hj)%list_elem_of_lookup Hk.
  assert (i = j) as ->; [|congruence].
  eapply (NoDup_lookup (key <$> l)); [done|..]; rewrite list_lookup_fmap.
  - by rewrite Hi.
  - rewrite Hj; simpl. by rewrite Hk.
Qed.

Lemma NoDup_fmap_coarser {A K1 K2} (key1 : A -> K1) (key2 : A -> K2) (l : list A) :
  NoDup (key1 <$> l) -> (forall a b, a ∈ l -> b ∈ l -> key2 a = key2 b -> key1 a = key1 b) ->
  NoDup (key2 <$> l).
Proof.
  intros Hn Hk. apply NoDup_fmap_2_strong; [|by eapply NoDup_fmap_1].
  intros a b Ha Hb Heq. eapply (NoDup_fmap_key_inj key1); eauto.
Qed.

Lemma filter_nil_iff {A} (P : A -> Prop) `{!forall x, Decision (P x)} (l : list A) :
  filter P l = [] <-> forall x, x ∈ l -> ~ P x.
Proof.
  split.
  - intros Hf x Hx HP. apply (not_elem_of_nil x). rewrite <- Hf. by apply list_elem_of_filter.
  - intros Hn. destruct (filter P l) as [|x f] eqn:Hf; [done|]. exfalso.
    assert (x ∈ filter P l) as [HP Hx]%list_elem_of_filter by (rewrite Hf; left). by eapply Hn.
Qed.

Lemma filter_within {A} (P Q : A -> Prop) `{!forall x, Decision (P x), !forall x, Decision (Q x)} (l : list A) :
  (forall x, x ∈ l -> P x -> Q x) -> filter P (filter Q l) = filter P l.
Proof.
  induction l as [|x l IH]; intros HPQ; [done|]. rewrite !filter_cons.
  assert (filter P (filter Q l) = filter P l) as He by (apply IH; set_solver).
  destruct (decide (Q x)); rewrite ?filter_cons, He; destruct (decide (P x)); try done.
  exfalso. apply n, HPQ; [left|done].
Qed.

Lemma filter_fmap_key {A B K} `{EqDecision K} (f : A -> B) (key : B -> K) k (l : list A) :
  filter (fun b => key b = k) (f <$> l) = f <$> filter (fun a => key (f a) = k) l.
Proof.
  induction l as [|a l IH]; [done|]. rewrite fmap_cons, !filter_cons.
  destruct (decide (key (f a) = k)); simpl; by rewrite IH.
Qed.

(** ** Machine integers

    Integers are [Z]; the [as] casts of the source are the two's complement
    reductions below.  The release build ([cargo build --release], no
    [overflow-checks]) wraps on overflow, so [a + b] on [u64] is
    [as_u64 (a + b)]. *)
Definition as_u64 (z : Z) : Z := (z mod 18446744073709551616)%Z.
Definition as_i64 (z : Z) : Z :=
  ((z + 9223372036854775808) mod 18446744073709551616 - 9223372036854775808)%Z.
Definition as_u32 (z : Z) : Z := (z mod 4294967296)%Z.
Definition in_u64 (z : Z) : Prop := (0 <= z < 18446744073709551616)%Z.
Definition in_i64 (z : Z) : Prop := (-9223372036854775808 <= z < 9223372036854775808)%Z.

#[export] Instance in_u64_dec z : Decision (in_u64 z).
Proof. unfold in_u64. apply _. Defined.
#[export] Instance in_i64_dec z : Decision (in_i64 z).
Proof. unfold in_i64. apply _. Defined.

Ltac word_lia :=
  unfold as_u64, as_i64, as_u32, in_u64, in_i64 in *;
  Z.to_euclidean_division_equations; lia.

Lemma as_u64_range z : in_u64 (as_u64 z).
Proof. word_lia. Qed.
Lemma as_i64_range z : in_i64 (as_i64 z).
Proof. word_lia. Qed.
Lemma as_u64_id z : in_u64 z -> as_u64 z = z.
Proof. word_lia. Qed.
Lemma as_i64_id z : in_i64 z -> as_i64 z = z.
Proof. word_lia. Qed.
Lemma as_u64_as_i64 z : in_u64 z -> as_u64 (as_i64 z) = z.
Proof. word_lia. Qed.
(** Casting [u64] versions to the [i64] columns loses nothing. *)
Lemma as_i64_inj a b : in_u64 a -> in_u64 b -> as_i64 a = as_i64 b -> a = b.
Proof. word_lia. Qed.
#[export] Hint Resolve as_u64_range as_i64_range : indexer.

(** ** Sorting by a key

    [slice::sort_by] with a comparison of keys: a stable sort.  The
    insertion sort below is one; the theorems only use that the result is a
    sorted permutation. *)
Class KeyOrder (K : Type) := key_le : relation K.
Class KeyOrderLaws (K : Type) `{KeyOrder K} := {
  key_le_dec :: RelDecision (key_le (K := K));
  key_le_partial :: PartialOrder (key_le (K := K));
  key_le_total :: Total (key_le (K := K));
}.

#[export] Instance string_key : KeyOrder string := String.le.
#[export] Instance string_key_laws : KeyOrderLaws string.
Proof. split; unfold key_le, string_key; apply _. Defined.
#[export] Instance Z_key : KeyOrder Z := Z.le.
#[export] Instance Z_key_laws : KeyOrderLaws Z.
Proof. split; unfold key_le, Z_key; apply _. Defined.

(** Tuples compare lexicographically, as [Ord] for tuples does. *)
#[export] Instance pair_key {A B} `{KeyOrder A, KeyOrder B} : KeyOrder (A * B) :=
  fun p q => (p.1 ≠ q.1 /\ key_le p.1 q.1) \/ (p.1 = q.1 /\ key_le p.2 q.2).

#[export] Instance pair_key_dec {A B} `{KeyOrderLaws A, KeyOrderLaws B}
  `{EqDecision A} : RelDecision (key_le (K := A * B)).
Proof. intros p q. unfold key_le, pair_key. apply _. Defined.

Lemma pair_key_trans {A B} `{KeyOrderLaws A, KeyOrderLaws B} :
  Transitive (key_le (K := A * B)).
Proof.
  intros [a1 b1] [a2 b2] [a3 b3]; unfold key_le, pair_key; simpl.
  intros [[Hne H12]|[-> H12]] [[Hne' H23]|[-> H23]].
  - left. split; [|by etrans]. intros ->. apply Hne. by apply (anti_symm key_le).
  - by left.
  - by left.
  - right. split; [done|by etrans].
Qed.

Lemma pair_key_antisym {A B} `{KeyOrderLaws A, KeyOrderLaws B} :
  AntiSymm (=) (key_le (K := A * B)).
Proof.
  intros [a1 b1] [a2 b2]; unfold key_le, pair_key; simpl.
  intros [[Hne H12]|[-> H12]] [[Hne' H21]|[? H21]]; try done.
  - destruct Hne. by apply (anti_symm key_le).
  - f_equal. by apply (anti_symm key_le).
Qed.

#[export] Instance pair_key_laws {A B} `{KeyOrderLaws A, KeyOrderLaws B}
  `{EqDecision A} : KeyOrderLaws (A * B).
Proof.
  split; [apply _|split; [split|]|].
  - intros [a b]. right. split; [done|]. simpl. reflexivity.
  - apply pair_key_trans.
  - apply pair_key_antisym.
  - intros [a1 b1] [a2 b2]. unfold key_le, pair_key; simpl.
    destruct (decide (a1 = a2)) as [->|Hne].
    + destruct (total key_le b1 b2); auto.
    + destruct (total key_le a1 a2); [left|right]; left; auto.
Defined.

Section SortBy.
Context {A K : Type} `{KeyOrderLaws K} (key : A -> K).

Fixpoint insert_by (x : A) (l : list A) : list A :=
  match l with
  | [] => [x]
  | y :: l' => if decide (key_le (key x) (key y)) then x :: l else y :: insert_by x l'
  end.

Fixpoint sort_by (l : list A) : list A :=
  match l with
  | [] => []
  | x :: l => insert_by x (sort_by l)
  end.

Definition key_sorted : list A -> Prop := StronglySorted (fun x y => key_le (key x) (key y)).

Lemma insert_by_perm x l : insert_by x l ≡ₚ x :: l.
Proof.
  induction l as [|y l IH]; simpl; [done|]. case_decide; [done|].
  rewrite IH. apply Permutation_swap.
Qed.

Lemma sort_by_perm l : sort_by l ≡ₚ l.
Proof. induction l as [|x l IH]; simpl; [done|]. by rewrite insert_by_perm, IH. Qed.

Lemma insert_by_sorted x l : key_sorted l -> key_sorted (insert_by x l).
Proof.
  induction 1 as [|y l Hl IH Hy]; simpl; [by repeat constructor|].
  case_decide as Hxy.
  - constructor; [by constructor|]. constructor; [done|].
    eapply Forall_impl; [exact Hy|]. intros z; simpl. by intros; etrans.
  - constructor; [done|]. rewrite insert_by_perm. constructor; [|done].
    by destruct (total key_le (key x) (key y)).
Qed.

Lemma sort_by_sorted l : key_sorted (sort_by l).
Proof. induction l; simpl; [constructor|]. by apply insert_by_sorted. Qed.

(** With distinct keys the result does not depend on the input order. *)
Lemma sort_by_unique l1 l2 :
  NoDup (key <$> l1) -> l1 ≡ₚ l2 -> sort_by l1 = sort_by l2.
Proof.
  intros Hn Hp. eapply (StronglySorted_unique_strong (fun x y => key_le (key x) (key y)));
    [|apply sort_by_sorted|apply sort_by_sorted|by rewrite !sort_by_perm].
  intros x y Hx Hy Hxy Hyx. rewrite sort_by_perm in Hx, Hy. rewrite <- Hp in Hy.
  eapply NoDup_fmap_key_inj; [done..|]. by apply (anti_symm key_le).
Qed.
End SortBy.
#[export] Hint Resolve sort_by_perm sort_by_sorted : indexer.

(** ** Hash maps

    [AHashMap] is [std::collections::HashMap] with another hasher: a finite
    map whose iteration order is unspecified.  Code that iterates a map takes
    the order from this class; theorems hold for every instance. *)
Class HashOrder := {
  hash_iter : forall {K V} `{Countable K}, gmap K V -> list (K * V);
  hash_iter_perm : forall {K V} `{Countable K} (m : gmap K V),
    hash_iter m ≡ₚ map_to_list m;
}.

(** One order, for the examples, and its reverse. *)
Definition map_order : HashOrder.
Proof. refine {| hash_iter := fun K V _ _ m => map_to_list m |}. done. Defined.
Definition rev_order : HashOrder.
Proof.
  refine {| hash_iter := fun K V _ _ m => reverse (map_to_list m) |}.
  intros. apply reverse_Permutation.
Defined.

(** [HashMap::into_values]. *)
Definition into_values `{HashOrder} {K V} `{Countable K} (m : gmap K V) : list V :=
  (hash_iter m).*2.

(** [HashMap::extend]: later entries replace earlier ones. *)
Definition extend {K V} `{Countable K} (m1 m2 : gmap K V) : gmap K V := m2 ∪ m1.

Lemma into_values_perm `{HashOrder} {K V} `{Countable K} (m : gmap K V) :
  into_values m ≡ₚ (map_to_list m).*2.
Proof. unfold into_values. by rewrite hash_iter_perm. Qed.

Lemma elem_of_into_values `{HashOrder} {K V} `{Countable K} (m : gmap K V) v :
  v ∈ into_values m <-> exists k, m !! k = Some v.
Proof.
  rewrite into_values_perm, list_elem_of_fmap. split.
  - intros ([k v'] & -> & Hin). exists k. by apply elem_of_map_to_list.
  - intros [k Hk]. exists (k, v). split; [done|]. by apply elem_of_map_to_list.
Qed.

(** A map filled in a loop: the last value inserted for a key stays. *)
Definition index_by {K V} `{Countable K} (key : V -> K) (l : list V) : gmap K V :=
  foldl (fun m x => <[key x := x]> m) ∅ l.

Lemma index_by_lookup {K V} `{Countable K} (key : V -> K) (l : list V) k :
  index_by key l !! k = last (filter (fun x => key x = k) l).
Proof.
  unfold index_by. induction l as [|x l IH] using rev_ind; [done|].
  rewrite foldl_app, filter_app. simpl. rewrite filter_cons, filter_nil. case_decide as Hk.
  - subst. by rewrite lookup_insert_eq, last_snoc.
  - by rewrite lookup_insert_ne, app_nil_r, IH.
Qed.

(** The entries of a list written into a map, in order. *)
Definition inserts {K V} `{Countable K} (key : V -> K) (m : gmap K V) (l : list V) : gmap K V :=
  foldl (fun m x => <[key x := x]> m) m l.
Lemma inserts_app {K V} `{Countable K} (key : V -> K) m (l1 l2 : list V) :
  inserts key m (l1 ++ l2) = inserts key (inserts key m l1) l2.
Proof. apply foldl_app. Qed.

Lemma index_by_app {K V} `{Countable K} (key : V -> K) (l1 l2 : list V) :
  index_by key (l1 ++ l2) = extend (index_by key l1) (index_by key l2).
Proof.
  apply map_eq. intros k. unfold extend.
  rewrite lookup_union, !index_by_lookup, filter_app, last_app.
  destruct (last (filter _ l2)); [by destruct (last _)|]. by destruct (last _).
Qed.

(** A map whose entries are filed under a key computed from the value. *)
Definition keyed {K V} `{Countable K} (key : V -> K) (m : gmap K V) : Prop :=
  forall k v, m !! k = Some v -> key v = k.

Lemma keyed_index_by {K V} `{Countable K} (key : V -> K) (l : list V) : keyed key (index_by key l).
Proof.
  intros k v. rewrite index_by_lookup. intros Hl%last_Some_elem_of.
  by apply list_elem_of_filter in Hl as [? _].
Qed.

Lemma into_values_NoDup `{HashOrder} {K V} `{Countable K} (key : V -> K) (m : gmap K V) :
  keyed key m -> NoDup (key <$> into_values m).
Proof.
  intros Hk. rewrite into_values_perm, <- list_fmap_compose.
  rewrite (list_fmap_ext (compose key snd) fst (map_to_list m));
    [apply NoDup_fst_map_to_list|].
  intros i [k v] Hi. simpl. apply Hk, elem_of_map_to_list, list_elem_of_lookup. eauto.
Qed.

(** Values of a keyed map, sorted by that key: independent of the hasher. *)
Lemma sort_into_values_unique {K V} `{Countable K} `{KeyOrderLaws K}
    (key : V -> K) (o1 o2 : HashOrder) (m : gmap K V) :
  keyed key m ->
  sort_by key (@into_values o1 K V _ _ m) = sort_by key (@into_values o2 K V _ _ m).
Proof.
  intros Hk. apply sort_by_unique; [by apply into_values_NoDup|].
  by rewrite !into_values_perm.
Qed.

Lemma sorted_values_NoDup `{HashOrder} {K V} `{Countable K} `{!KeyOrder K, !KeyOrderLaws K}
    (key : V -> K) (l : list V) :
  NoDup (key <$> sort_by key (into_values (index_by key l))).
Proof. rewrite sort_by_perm. apply into_values_NoDup, keyed_index_by. Qed.

Lemma elem_of_sorted_values `{HashOrder} {K V} `{Countable K} `{!KeyOrder K, !KeyOrderLaws K}
    (key : V -> K) (l : list V) v :
  v ∈ sort_by key (into_values (index_by key l)) <-> last (filter (fun x => key x = key v) l) = Some v.
Proof.
  rewrite sort_by_perm, elem_of_into_values, <- index_by_lookup. split; [|eauto].
  intros [k Hk]. by rewrite (keyed_index_by key _ _ _ Hk).
Qed.

Lemma index_by_rows `{HashOrder} {K V} `{Countable K} (key : V -> K) (l rows : list V) :
  rows ≡ₚ into_values (index_by key l) ->
  NoDup (key <$> rows) /\ (forall c, c ∈ rows <-> last (filter (fun x => key x = key c) l) = Some c) /\
  forall c, c ∈ rows -> c ∈ l.
Proof.
  intros Hp.
  assert (forall c, c ∈ rows <-> last (filter (fun x => key x = key c) l) = Some c) as Hc.
  { intros c. rewrite Hp, elem_of_into_values, <- index_by_lookup. split; [|eauto].
    intros [k Hk]. by rewrite (keyed_index_by key _ _ _ Hk). }
  split_and!; [|done|].
  - rewrite Hp. apply into_values_NoDup, keyed_index_by.
  - intros c Hin%Hc%last_Some_elem_of. by apply list_elem_of_filter in Hin as [_ ?].
Qed.

(** ** What a map holds

    [files key P m]: the map is filed under [key] and holds exactly the keys
    in [P].  Maps that are merged in a loop are described by the union of
    what each round adds. *)
Definition files {K V} `{Countable K} (key : V -> K) (P : K -> Prop) (m : gmap K V) : Prop :=
  keyed key m /\ forall k, is_Some (m !! k) <-> P k.

Section Files.
Context {K V : Type} `{Countable K} (key : V -> K).

#[export] Instance files_proper :
  Proper (pointwise_relation K iff ==> eq ==> iff) (files (V := V) key).
Proof. intros P Q HPQ m ? <-. unfold files. by setoid_rewrite HPQ. Qed.

Lemma files_empty : files key (fun _ => False) (∅ : gmap K V).
Proof. split; [by intros k v Hk; rewrite lookup_empty in Hk|]. intros k. rewrite lookup_empty. by split; [intros []|]. Qed.

Lemma files_insert P m k v :
  files key P m -> key v = k -> files key (fun k' => P k' \/ k' = k) (<[k := v]> m).
Proof.
  intros [Hk HP] <-. split.
  - intros k' v'. rewrite lookup_insert_Some. intros [[<- <-]|[_ Hl]]; [done|by apply Hk].
  - intros k'. rewrite lookup_insert_is_Some, HP. destruct (decide (key v = k')); naive_solver.
Qed.

Lemma files_extend P1 P2 m1 m2 :
  files key P1 m1 -> files key P2 m2 -> files key (fun k => P1 k \/ P2 k) (extend m1 m2).
Proof.
  intros [Hk1 HP1] [Hk2 HP2]. unfold extend. split.
  - intros k v [Hl|[_ Hl]]%lookup_union_Some_raw; [by apply Hk2|by apply Hk1].
  - intros k. rewrite lookup_union_is_Some, HP1, HP2. tauto.
Qed.

(** A loop whose rounds add the keys [Q x]. *)
Lemma files_foldM {A} (f : gmap K V -> A -> outcome (gmap K V)) (Q : A -> K -> Prop) P m l m' :
  (forall P m x m', x ∈ l -> files key P m -> f m x = Ret m' -> files key (fun k => P k \/ Q x k) m') ->
  files key P m -> foldM f m l = Ret m' ->
  files key (fun k => P k \/ exists x, x ∈ l /\ Q x k) m'.
Proof.
  revert P m. induction l as [|x l IH]; intros P m Hf Hm Hr; simpl in Hr.
  - outcome_inv. revert Hm. apply files_proper; [|done]. intros k. set_solver.
  - outcome_inv. eapply Hf in Hm; [|left|done]. eapply IH in Hm; [|by intros; eapply Hf; [right|..]|done].
    revert Hm. apply files_proper; [|done]. intros k. set_solver.
Qed.

Lemma files_foldl {A} (f : gmap K V -> A -> gmap K V) (Q : A -> K -> Prop) P m l :
  (forall P m x, x ∈ l -> files key P m -> files key (fun k => P k \/ Q x k) (f m x)) ->
  files key P m -> files key (fun k => P k \/ exists x, x ∈ l /\ Q x k) (foldl f m l).
Proof.
  revert P m. induction l as [|x l IH]; intros P m Hf Hm; simpl.
  - revert Hm. apply files_proper; [|done]. intros k. set_solver.
  - eapply Hf in Hm; [|left]. eapply IH in Hm; [|by intros; eapply Hf; [right|..]].
    revert Hm. apply files_proper; [|done]. intros k. set_solver.
Qed.
End Files.

(** [holds key P m]: the entries are filed under their key and satisfy [P]. *)
Definition holds {K V} `{Countable K} (key : V -> K) (P : V -> Prop) (m : gmap K V) : Prop :=
  forall k v, m !! k = Some v -> key v = k /\ P v.

Section Holds.
Context {K V : Type} `{Countable K} (key : V -> K) (P : V -> Prop).

Lemma holds_empty : holds key P ∅.
Proof. intros k v Hk. by rewrite lookup_empty in Hk. Qed.
Lemma holds_insert m k v : holds key P m -> key v = k -> P v -> holds key P (<[k := v]> m).
Proof. intros Hm Hk Hv j w. rewrite lookup_insert_Some. intros [[<- <-]|[_ ?]]; auto. Qed.
Lemma holds_extend m1 m2 : holds key P m1 -> holds key P m2 -> holds key P (extend m1 m2).
Proof. intros Hm1 Hm2 k v [?|[_ ?]]%lookup_union_Some_raw; auto. Qed.
Lemma holds_inserts m l :
  holds key P m -> Forall P l -> holds key P (inserts key m l).
Proof.
  unfold inserts. revert m. induction l as [|x l IH]; intros m Hm Hl; simpl; [done|].
  apply Forall_cons in Hl as [Hx Hl]. apply IH; [|done]. by apply holds_insert.
Qed.
Lemma holds_foldl {A} (k : A -> K) (f : A -> V) m l :
  (forall x, key (f x) = k x /\ P (f x)) -> holds key P m ->
  holds key P (foldl (fun m x => <[k x := f x]> m) m l).
Proof.
  intros Hf. revert m. induction l as [|x l IH]; intros m Hm; simpl; [done|].
  destruct (Hf x). apply IH. by apply holds_insert.
Qed.
Lemma holds_impl (Q : V -> Prop) m : (forall v, P v -> Q v) -> holds key P m -> holds key Q m.
Proof. intros HPQ Hm k v Hk. destruct (Hm k v Hk). auto. Qed.
Lemma holds_keyed m : holds key P m -> keyed key m.
Proof. intros Hm k v Hk. by apply Hm. Qed.

Lemma holds_rows `{HashOrder} m l :
  holds key P m -> l ≡ₚ into_values m -> NoDup (key <$> l) /\ forall v, v ∈ l -> P v.
Proof.
  intros Hm Hl. split.
  - rewrite Hl. by eapply into_values_NoDup, holds_keyed.
  - intros v. rewrite Hl, elem_of_into_values. intros [k Hk]. by apply (Hm k).
Qed.
End Holds.

(** Maps merged one after another: the last map that has a key decides. *)
Lemma foldl_extend_lookup {K V} `{Countable K} (ms : list (gmap K V)) k v :
  foldl extend ∅ ms !! k = Some v <->
  exists i m, ms !! i = Some m /\ m !! k = Some v /\
    forall j m', i < j -> ms !! j = Some m' -> m' !! k = None.
Proof.
  induction ms as [|m ms IH] using rev_ind.
  { simpl. rewrite lookup_empty. split; [done|]. by intros (i & m & Hi & _). }
  rewrite foldl_app. simpl. unfold extend at 1. rewrite lookup_union_Some_raw, IH. split.
  - intros [Hm|[Hm (i & m' & Hi & Hv & Hlast)]].
    + exists (length ms), m. split_and!; [by apply list_lookup_middle|done|].
      intros j m' Hj Hl%lookup_lt_Some. rewrite length_app in Hl. simpl in Hl. lia.
    + exists i, m'. split_and!; [by apply lookup_app_l_Some|done|].
      intros j m'' Hj [Hs|[Hl Hs]]%lookup_app_Some; [eauto|].
      by apply list_lookup_singleton_Some in Hs as [_ <-].
  - intros (i & m' & [Hs|[Hl Hs]]%lookup_app_Some & Hv & Hlast).
    + right. split; [|by exists i, m'; split_and!; [done..|]; intros j m'' Hj Hjm;
        apply (Hlast j m'' Hj), lookup_app_l_Some].
      apply (Hlast (length ms) m); [by eapply lookup_lt_Some|by apply list_lookup_middle].
    + left. by apply list_lookup_singleton_Some in Hs as [_ <-].
Qed.

(** ** Chunks

    [slice::chunks]: runs of [n] elements, the last one possibly shorter.
    [n = 0] panics in the code; the fuel is the length, since every run takes
    at least one element. *)
Fixpoint chunks_go {A} (fuel n : nat) (l : list A) : list (list A) :=
  match fuel, l with
  | S fuel, _ :: _ => take n l :: chunks_go fuel n (drop n l)
  | _, _ => []
  end.
Definition chunks {A} (n : nat) (l : list A) : list (list A) := chunks_go (length l) n l.

Lemma chunks_go_concat {A} fuel n (l : list A) :
  0 < n -> length l <= fuel -> concat (chunks_go fuel n l) = l.
Proof.
  intros Hn. revert l. induction fuel as [|fuel IH]; intros [|x l] Hl; simpl in *; try done; [lia|].
  rewrite IH by (rewrite length_drop; simpl; lia). apply take_drop.
Qed.

Lemma chunks_concat {A} n (l : list A) : 0 < n -> concat (chunks n l) = l.
Proof. intros. by apply chunks_go_concat. Qed.

Lemma chunks_go_bounds {A} fuel n (l : list A) :
  0 < n -> Forall (fun c => 0 < length c <= n) (chunks_go fuel n l).
Proof.
  intros Hn. revert l. induction fuel as [|fuel IH]; intros [|x l]; simpl; try constructor.
  - rewrite length_take. simpl. lia.
  - apply IH.
Qed.

Lemma chunks_bounds {A} n (l : list A) :
  0 < n -> Forall (fun c => 0 < length c <= n) (chunks n l).
Proof. apply chunks_go_bounds. Qed.

(** ** Folds over reordered lists *)
Lemma foldl_perm {A B} (f : B -> A -> B) b l1 l2 :
  (forall x y c, x ∈ l1 -> y ∈ l1 -> f (f c x) y = f (f c y) x) ->
  l1 ≡ₚ l2 -> foldl f b l1 = foldl f b l2.
Proof.
  intros Hc Hp. revert b Hc. induction Hp as [|x l1 l2 _ IH|x y l|l1 l2 l3 Hp1 IH1 Hp2 IH2];
    intros b Hc; simpl.
  - done.
  - apply IH. intros; apply Hc; by right.
  - by rewrite Hc by set_solver.
  - rewrite IH1 by done. apply IH2. intros x y c Hx Hy. apply Hc; by rewrite Hp1.
Qed.
