(* ===== verification/RustStr.v ===== *)
(** * Rust strings

    The parts of [str] and [String] the indexer uses.  A Rust string is its
    UTF-8 byte sequence, so a [string] here is a list of bytes: [len] counts
    bytes, formatting widths count characters, and cutting a string inside a
    character panics. *)
From S2P Require Import Prelude.
From Stdlib Require Import Ascii.

(** ** Characters *)

(** A UTF-8 continuation byte, [0b10xxxxxx]. *)
Definition is_continuation (c : ascii) : bool :=
  match c with Ascii _ _ _ _ _ _ b6 b7 => b7 && negb b6 end.

(** [str::chars().count()]: the bytes that start a character. *)
Fixpoint char_count (s : string) : nat :=
  match s with
  | EmptyString => 0
  | String c s => (if is_continuation c then 0 else 1) + char_count s
  end.

(** [str::is_char_boundary]. *)
Fixpoint is_char_boundary (s : string) (n : nat) : bool :=
  match n, s with
  | 0, _ => true
  | S n', String _ s' =>
      match s' with
      | EmptyString => bool_decide (n' = 0)
      | String c _ => if decide (n' = 0) then negb (is_continuation c)
                      else is_char_boundary s' n'
      end
  | S _, EmptyString => false
  end.

Fixpoint str_take (n : nat) (s : string) : string :=
  match n, s with
  | S n, String c s => String c (str_take n s)
  | _, _ => EmptyString
  end.

(** [String::truncate]: no effect beyond the length, a panic inside a
    character. *)
Definition truncate (n : nat) (s : string) : outcome string :=
  if decide (n <= String.length s) then
    if is_char_boundary s n then Ret (str_take n s) else Panic
  else Ret s.

Fixpoint str_drop (n : nat) (s : string) : string :=
  match n, s with
  | S n, String _ s => str_drop n s
  | _, _ => s
  end.

(** [&s[n..]]: a panic beyond the length or inside a character. *)
Definition slice_from (n : nat) (s : string) : outcome string :=
  if is_char_boundary s n then Ret (str_drop n s) else Panic.

(** ** Prefixes and padding *)

Fixpoint strip_prefix (p s : string) : option string :=
  match p, s with
  | EmptyString, _ => Some s
  | String a p, String b s => if decide (a = b) then strip_prefix p s else None
  | String _ _, EmptyString => None
  end.

Fixpoint repeat_char (c : ascii) (n : nat) : string :=
  match n with 0 => EmptyString | S n => String c (repeat_char c n) end.

(** The format [{:c>w}]: pad on the left with [c] to [w] characters. *)
Definition pad_left (c : ascii) (w : nat) (s : string) : string :=
  repeat_char c (w - char_count s) +:+ s.

Definition starts_with (p s : string) : bool :=
  match strip_prefix p s with Some _ => true | None => false end.

(** [str::contains]. *)
Fixpoint contains (p s : string) : bool :=
  starts_with p s || match s with EmptyString => false | String _ s => contains p s end.

(** ** Splitting and replacing

    [skip] counts the bytes of a match that are still to be consumed. *)

(** [str::split] by a non-empty separator. *)
Fixpoint split_go (sep : string) (skip : nat) (cur s : string) : list string :=
  match s with
  | EmptyString => [cur]
  | String c s' =>
      match skip with
      | S k => split_go sep k cur s'
      | 0 => if starts_with sep s
             then cur :: split_go sep (Nat.pred (String.length sep)) EmptyString s'
             else split_go sep 0 (cur +:+ String c EmptyString) s'
      end
  end.
Definition split (sep s : string) : list string := split_go sep 0 EmptyString s.

(** [str::replace] of a non-empty pattern by the empty string. *)
Fixpoint remove_go (pat : string) (skip : nat) (s : string) : string :=
  match s with
  | EmptyString => EmptyString
  | String c s' =>
      match skip with
      | S k => remove_go pat k s'
      | 0 => if starts_with pat s then remove_go pat (Nat.pred (String.length pat)) s'
             else String c (remove_go pat 0 s')
      end
  end.
Definition remove_all (pat s : string) : string := remove_go pat 0 s.

(** [str::to_lowercase].  Letters outside ASCII keep their bytes here; the
    only such letters with an ASCII letter in their lowercase form are U+212A
    (k) and U+0130 (i), so a search for a word without k and i sees the same
    matches. *)
Definition lower_char (c : ascii) : ascii :=
  let n := N_of_ascii c in
  if decide (65 <= n /\ n <= 90)%N then ascii_of_N (n + 32) else c.
Fixpoint to_lowercase (s : string) : string :=
  match s with
  | EmptyString => EmptyString
  | String c s => String (lower_char c) (to_lowercase s)
  end.

(** ** UTF-8

    [String::from_utf8] checks well-formedness: no overlong form, no
    surrogate, nothing above U+10FFFF. *)
Definition byte_in (lo hi : N) (c : ascii) : bool :=
  bool_decide (lo <= N_of_ascii c /\ N_of_ascii c <= hi)%N.

Fixpoint utf8_valid (s : string) : bool :=
  match s with
  | EmptyString => true
  | String a s1 =>
      if byte_in 0 127 a then utf8_valid s1 else
      match s1 with
      | EmptyString => false
      | String b s2 =>
          if byte_in 194 223 a then byte_in 128 191 b && utf8_valid s2 else
          match s2 with
          | EmptyString => false
          | String c s3 =>
              if byte_in 224 239 a then
                byte_in (if byte_in 224 224 a then 160 else 128)
                        (if byte_in 237 237 a then 159 else 191) b
                && byte_in 128 191 c && utf8_valid s3
              else
              match s3 with
              | EmptyString => false
              | String d s4 =>
                  byte_in 240 244 a
                  && byte_in (if byte_in 240 240 a then 144 else 128)
                             (if byte_in 244 244 a then 143 else 191) b
                  && byte_in 128 191 c && byte_in 128 191 d && utf8_valid s4
              end
          end
      end
  end.

Definition from_utf8 (b : string) : option string := if utf8_valid b then Some b else None.

(** ** Lemmas *)

Lemma str_app_nil_r s : s +:+ EmptyString = s.
Proof. induction s as [|c s IH]; [done|]. unfold String.app in *; simpl. by f_equal. Qed.

Lemma str_app_assoc s1 s2 s3 : (s1 +:+ s2) +:+ s3 = s1 +:+ s2 +:+ s3.
Proof. induction s1 as [|c s1 IH]; [done|]. unfold String.app in *; simpl. by f_equal. Qed.

Lemma str_app_cons c s1 s2 : String c s1 +:+ s2 = String c (s1 +:+ s2).
Proof. done. Qed.

Lemma length_str_app s1 s2 : String.length (s1 +:+ s2) = String.length s1 + String.length s2.
Proof. induction s1 as [|c s1 IH]; [done|]. rewrite str_app_cons. simpl. by rewrite IH. Qed.

Lemma char_count_app s1 s2 : char_count (s1 +:+ s2) = char_count s1 + char_count s2.
Proof. induction s1 as [|c s1 IH]; [done|]. rewrite str_app_cons. simpl. rewrite IH. lia. Qed.

Lemma char_count_le s : char_count s <= String.length s.
Proof. induction s as [|c s IH]; simpl; [done|]. destruct (is_continuation c); lia. Qed.

Lemma char_count_repeat c n :
  is_continuation c = false -> char_count (repeat_char c n) = n.
Proof. intros Hc. induction n as [|n IH]; simpl; [done|]. by rewrite Hc, IH. Qed.

Lemma length_repeat_char c n : String.length (repeat_char c n) = n.
Proof. induction n; simpl; auto. Qed.

Lemma strip_prefix_app p s : strip_prefix p (p +:+ s) = Some s.
Proof.
  induction p as [|c p IH]; [done|]. rewrite str_app_cons. simpl.
  by rewrite decide_True by done.
Qed.

Lemma strip_prefix_Some p s t : strip_prefix p s = Some t <-> s = p +:+ t.
Proof.
  split; [|intros ->; apply strip_prefix_app].
  revert s. induction p as [|c p IH]; intros s Hs; simpl in *; [naive_solver|].
  destruct s as [|d s]; [done|]. case_decide; [|done]. subst.
  rewrite str_app_cons. f_equal. by apply IH.
Qed.

Lemma pad_left_id c w s : w <= char_count s -> pad_left c w s = s.
Proof. intros Hw. unfold pad_left. by replace (w - char_count s) with 0 by lia. Qed.

Lemma char_count_pad_left c w s :
  is_continuation c = false -> char_count (pad_left c w s) = Nat.max w (char_count s).
Proof.
  intros Hc. unfold pad_left. rewrite char_count_app, char_count_repeat by done. lia.
Qed.

Lemma starts_with_spec p s : starts_with p s = true <-> exists t, s = p +:+ t.
Proof.
  unfold starts_with. split.
  - destruct (strip_prefix p s) as [t|] eqn:E; [|done]. intros _. exists t.
    by apply strip_prefix_Some.
  - intros [t ->]. by rewrite strip_prefix_app.
Qed.

Lemma contains_spec p s : contains p s = true <-> exists s1 s2, s = s1 +:+ p +:+ s2.
Proof.
  induction s as [|c s IH]; simpl; rewrite orb_true_iff, starts_with_spec.
  - split.
    + intros [[t Ht]|]; [|done]. by exists EmptyString, t.
    + intros (s1 & s2 & Hs). left. destruct s1; [by exists s2|done].
  - rewrite IH. split.
    + intros [[t Ht]|(s1 & s2 & ->)]; [by exists EmptyString, t|].
      by exists (String c s1), s2.
    + intros (s1 & s2 & Hs). destruct s1 as [|d s1]; [left; by exists s2|right].
      rewrite str_app_cons in Hs. simplify_eq. by exists s1, s2.
Qed.

Lemma contains_app_l p s1 s2 : contains p s2 = true -> contains p (s1 +:+ s2) = true.
Proof.
  rewrite !contains_spec. intros (a & b & ->). exists (s1 +:+ a), b.
  by rewrite str_app_assoc.
Qed.

Lemma contains_app_r p s1 s2 : contains p s1 = true -> contains p (s1 +:+ s2) = true.
Proof.
  rewrite !contains_spec. intros (a & b & ->). exists a, (b +:+ s2).
  by rewrite !str_app_assoc.
Qed.

Lemma to_lowercase_app s1 s2 : to_lowercase (s1 +:+ s2) = to_lowercase s1 +:+ to_lowercase s2.
Proof. induction s1 as [|c s1 IH]; [done|]. rewrite !str_app_cons. simpl. by rewrite IH. Qed.

Lemma length_str_take n s : n <= String.length s -> String.length (str_take n s) = n.
Proof. revert s. induction n; intros [|c s] H; simpl in *; try lia. rewrite IHn; lia. Qed.

Lemma str_take_prefix n s : exists t, s = str_take n s +:+ t.
Proof.
  revert s. induction n as [|n IH]; intros s; [by exists s|].
  destruct s as [|c s]; [by exists EmptyString|]. destruct (IH s) as [t Ht].
  exists t. simpl. rewrite str_app_cons. by f_equal.
Qed.

(** An ASCII string has a character boundary everywhere. *)
Definition is_ascii_str (s : string) : bool :=
  forallb (fun c => negb (is_continuation c)) (String.list_ascii_of_string s).

Lemma is_char_boundary_ascii s n :
  is_ascii_str s = true -> n <= String.length s -> is_char_boundary s n = true.
Proof.
  revert n. induction s as [|c s IH]; intros n Ha Hn; destruct n as [|n]; simpl in *; try done.
  { lia. }
  apply andb_true_iff in Ha as [_ Ha].
  destruct s as [|d s]; [rewrite bool_decide_eq_true; simpl in Hn; lia|].
  case_decide; [|apply IH; [done|lia]]. simpl in Ha. by apply andb_true_iff in Ha as [-> _].
Qed.

Lemma truncate_ascii n s :
  is_ascii_str s = true -> truncate n s = Ret (if decide (n <= String.length s) then str_take n s else s).
Proof.
  intros Ha. unfold truncate. case_decide; [|done].
  by rewrite is_char_boundary_ascii.
Qed.

(** Removal never invents a byte. *)
Lemma remove_go_subset pat k s c :
  c ∈ String.list_ascii_of_string (remove_go pat k s) -> c ∈ String.list_ascii_of_string s.
Proof.
  revert k. induction s as [|d s IH]; intros k; simpl; [done|].
  destruct k as [|k]; [|intros ?; right; eauto].
  case_match; [intros ?; right; eauto|]. simpl.
  intros [->|?]%elem_of_cons; [left|right; eauto].
Qed.

(** Removing a one-byte pattern removes every occurrence of the byte. *)
Lemma remove_char_gone a s : a ∉ String.list_ascii_of_string (remove_all (String a EmptyString) s).
Proof.
  unfold remove_all. induction s as [|d s IH]; simpl; [set_solver|].
  unfold starts_with; simpl. case_decide; simpl; [by destruct s|].
  rewrite elem_of_cons. intros [->|?]; [done|]. by apply IH.
Qed.

Lemma starts_with_empty_inv p : p ≠ EmptyString -> starts_with p EmptyString = false.
Proof. by destruct p. Qed.

(** No match, no change. *)
Lemma remove_all_id pat s : contains pat s = false -> remove_all pat s = s.
Proof.
  unfold remove_all. induction s as [|c s IH]; simpl; [done|].
  intros [-> Hs]%orb_false_iff. by rewrite IH.
Qed.

(** ** Splitting *)

Lemma starts_with_cons c p s d t :
  s = String d t -> d ≠ c -> starts_with (String c p) s = false.
Proof. intros -> Hne. unfold starts_with. simpl. by rewrite decide_False by congruence. Qed.

Lemma starts_with_app p s : starts_with p (p +:+ s) = true.
Proof. apply starts_with_spec. eauto. Qed.

(** Text without the first byte of the separator is copied. *)
Lemma split_go_copy c p cur a s :
  c ∉ String.list_ascii_of_string a ->
  split_go (String c p) 0 cur (a +:+ s) = split_go (String c p) 0 (cur +:+ a) s.
Proof.
  revert cur. induction a as [|d a IH]; intros cur Hc; simpl in *.
  - by rewrite str_app_nil_r.
  - apply not_elem_of_cons in Hc as [Hd Hc].
    change (String d a +:+ s) with (String d (a +:+ s)). simpl.
    rewrite (starts_with_cons c p _ d (a +:+ s)) by done.
    rewrite IH by done. by rewrite str_app_assoc.
Qed.

Lemma split_go_skip sep cur a s :
  split_go sep (String.length a) cur (a +:+ s) = split_go sep 0 cur s.
Proof. induction a as [|d a IH]; [done|]. simpl. apply IH. Qed.

Lemma split_cons c p a s :
  c ∉ String.list_ascii_of_string a ->
  split (String c p) (a +:+ String c p +:+ s) = a :: split (String c p) s.
Proof.
  intros Hc. unfold split. rewrite split_go_copy by done.
  change (String c p +:+ s) with (String c (p +:+ s)). simpl.
  change (String c (p +:+ s)) with (String c p +:+ s). rewrite starts_with_app.
  f_equal. apply split_go_skip.
Qed.

Lemma split_nil c p a : c ∉ String.list_ascii_of_string a -> split (String c p) a = [a].
Proof.
  intros Hc. unfold split. rewrite <- (str_app_nil_r a) at 1. by rewrite split_go_copy.
Qed.

(** The first piece starts with the text copied so far. *)
Lemma split_go_head sep k cur s : exists x l, split_go sep k cur s = (cur +:+ x) :: l.
Proof.
  revert k cur. induction s as [|c s IH]; intros k cur; simpl.
  - exists EmptyString, []. by rewrite str_app_nil_r.
  - destruct k as [|k]; [|apply IH]. destruct (starts_with _ _).
    + exists EmptyString. rewrite str_app_nil_r. eauto.
    + destruct (IH 0 (cur +:+ String c EmptyString)) as (x & l & ->).
      exists (String c x), l. by rewrite str_app_assoc.
Qed.
