(* ===== verification/Json.v ===== *)
(** * JSON values

    [serde_json::Value] as the indexer matches on it.  The crate is built
    with the feature [preserve_order], so an object is the list of its
    entries in insertion order, with distinct keys. *)
From S2P Require Import Prelude RustStr.

Inductive JsonNumber :=
| JInt (z : Z)
| JFloat (text : string).

Inductive Value :=
| Null
| Bool (b : bool)
| Number (n : JsonNumber)
| Str (s : string)
| Array (l : list Value)
| Object (o : list (string * Value)).

(** Induction that reaches into arrays and objects. *)
Section ValueInd.
Variable P : Value -> Prop.
Hypothesis P_Null : P Null.
Hypothesis P_Bool : forall b, P (Bool b).
Hypothesis P_Number : forall n, P (Number n).
Hypothesis P_Str : forall s, P (Str s).
Hypothesis P_Array : forall l, Forall P l -> P (Array l).
Hypothesis P_Object : forall o, Forall (fun kv => P kv.2) o -> P (Object o).

Fixpoint Value_rect' (v : Value) : P v :=
  match v with
  | Null => P_Null
  | Bool b => P_Bool b
  | Number n => P_Number n
  | Str s => P_Str s
  | Array l => P_Array l
      ((fix go l : Forall P l :=
          match l with
          | [] => Forall_nil_2 P
          | v :: l => Forall_cons_2 P v l (Value_rect' v) (go l)
          end) l)
  | Object o => P_Object o
      ((fix go o : Forall (fun kv => P kv.2) o :=
          match o with
          | [] => Forall_nil_2 _
          | kv :: o => Forall_cons_2 _ kv o (Value_rect' kv.2) (go o)
          end) o)
  end.
End ValueInd.

(** ** Accessors *)

Fixpoint assoc_get {V} (k : string) (o : list (string * V)) : option V :=
  match o with
  | [] => None
  | (k', v) :: o => if decide (k = k') then Some v else assoc_get k o
  end.

(** [Map::insert]: an existing key keeps its place. *)
Fixpoint assoc_insert {V} (k : string) (v : V) (o : list (string * V)) : list (string * V) :=
  match o with
  | [] => [(k, v)]
  | (k', v') :: o => if decide (k = k') then (k', v) :: o else (k', v') :: assoc_insert k v o
  end.

(** [Value::get] by a string, [as_object], [as_array], [as_str], [as_u64]. *)
Definition value_get (k : string) (v : Value) : option Value :=
  match v with Object o => assoc_get k o | _ => None end.
Definition as_object (v : Value) : option (list (string * Value)) :=
  match v with Object o => Some o | _ => None end.
Definition as_array (v : Value) : option (list Value) :=
  match v with Array l => Some l | _ => None end.
Definition as_str (v : Value) : option string :=
  match v with Str s => Some s | _ => None end.
Definition value_as_u64 (v : Value) : option Z :=
  match v with
  | Number (JInt z) => if decide (in_u64 z) then Some z else None
  | _ => None
  end.

Lemma assoc_get_insert_eq {V} k (v : V) o : assoc_get k (assoc_insert k v o) = Some v.
Proof.
  induction o as [|[k' v'] o IH]; simpl; [by rewrite decide_True|].
  case_decide as Hk; simpl; [by rewrite decide_True|by rewrite decide_False].
Qed.

Lemma assoc_get_insert_ne {V} k k' (v : V) o :
  k ≠ k' -> assoc_get k (assoc_insert k' v o) = assoc_get k o.
Proof.
  intros Hne. induction o as [|[j w] o IH]; simpl; [by rewrite decide_False|].
  case_decide; subst; simpl; [by rewrite !decide_False by done|].
  case_decide; [done|apply IH].
Qed.

Lemma assoc_insert_keys {V} k (v : V) o j :
  j ∈ (assoc_insert k v o).*1 <-> j = k \/ j ∈ o.*1.
Proof.
  induction o as [|[k' v'] o IH]; simpl.
  - rewrite list_elem_of_singleton. set_solver.
  - case_decide; subst; simpl; rewrite ?elem_of_cons, ?IH; naive_solver.
Qed.

Lemma assoc_insert_NoDup {V} k (v : V) o : NoDup o.*1 -> NoDup (assoc_insert k v o).*1.
Proof.
  induction o as [|[k' v'] o IH]; simpl; [constructor; [set_solver|constructor]|].
  intros [Hk Ho]%NoDup_cons. case_decide; subst; simpl; constructor; auto.
  rewrite assoc_insert_keys. naive_solver.
Qed.
