(* ===== verification/Externals.v ===== *)
(** * Code outside the repository

    What the indexer takes from third-party crates, as parameters.  Each
    class gives the operations the code calls; a separate class of laws
    states the documented behaviour a theorem relies on.  Concrete instances
    for the examples are at the end of the file. *)
From stdpp Require Import pretty.
From Stdlib Require Import Ascii.
From S2P Require Import Prelude RustStr Json.

(** A [Vec<u8>] or [&[u8]] is the byte sequence, written as a [string]. *)
Abbreviation bytes := string (only parsing).

(** ** chrono: [NaiveDateTime::from_timestamp_opt], [format] with the ISO
    pattern, and [NaiveDateTime::default] *)
Class Chrono := {
  NaiveDateTime : Type;
  NaiveDateTime_dec :: EqDecision NaiveDateTime;
  from_timestamp_opt : Z -> Z -> option NaiveDateTime;
  format_iso : NaiveDateTime -> string;
  naive_default : NaiveDateTime;
}.
(** The documentation: [None] on an out-of-range number of seconds or an
    invalid nanosecond; seconds up to year 9999 are in range. *)
Class ChronoLaws `{Chrono} :=
  from_timestamp_opt_in_range : forall secs nanos,
    (0 <= secs <= 253402300799)%Z -> (0 <= nanos < 1000000000)%Z ->
    is_Some (from_timestamp_opt secs nanos).

(** ** bigdecimal

    [bd_div] is [None] where the division panics. *)
Class BigDec := {
  BigDecimal : Type;
  BigDecimal_dec :: EqDecision BigDecimal;
  bd_from_u64 : Z -> BigDecimal;
  bd_zero : BigDecimal;
  bd_is_negative : BigDecimal -> bool;
  bd_to_u64 : BigDecimal -> option Z;
  bd_parse : string -> option BigDecimal;
  bd_to_string : BigDecimal -> string;
  bd_div : BigDecimal -> BigDecimal -> option BigDecimal;
}.
Class BigDecLaws `{BigDec} := {
  bd_to_u64_from_u64 : forall n, in_u64 n -> bd_to_u64 (bd_from_u64 n) = Some n;
  bd_zero_not_negative : bd_is_negative bd_zero = false;
}.

(** Decimals as keys of maps and in sorted rows: [Eq], [Hash] and [Ord]. *)
Class BigDecKey `{BigDec} := {
  bd_countable :: Countable BigDecimal;
  bd_key_order :: KeyOrder BigDecimal;
  bd_key_laws :: KeyOrderLaws BigDecimal;
}.

(** ** hex: [hex::encode], [hex::decode] *)
Class HexCodec := {
  hex_encode : bytes -> string;
  hex_decode : string -> option bytes;
}.
Class HexLaws `{HexCodec} := {
  hex_decode_encode : forall b, hex_decode (hex_encode b) = Some b;
  hex_encode_length : forall b, String.length (hex_encode b) = 2 * String.length b;
  hex_encode_ascii : forall b, is_ascii_str (hex_encode b) = true;
}.

(** ** sha2: [Sha256::digest] *)
Class Sha256 := sha256_digest : bytes -> bytes.

(** ** sha3: [Sha3_256] over the concatenated updates *)
Class Sha3_256 := sha3_256_digest : bytes -> bytes.

(** ** serde_json

    [serde_json::from_str::<Value>], and for a type with derived code
    [from_str::<T>], [from_value::<T>] and [to_value]; [None] is the error. *)
Class JsonParse := json_from_str : string -> option Value.
Class Deserialize (A : Type) := {
  de_from_str : string -> option A;
  de_from_value : Value -> option A;
}.
Class Serialize (A : Type) := to_value : A -> option Value.

(** ** bcs: [bcs::from_bytes] at the types of a property value *)
Class Bcs `{BigDec} := {
  bcs_bool : bytes -> option bool;
  bcs_u8 : bytes -> option Z;
  bcs_u16 : bytes -> option Z;
  bcs_u32 : bytes -> option Z;
  bcs_u64 : bytes -> option Z;
  bcs_u128 : bytes -> option Z;
  bcs_BigDecimal : bytes -> option BigDecimal;
  bcs_String : bytes -> option string;
  bcs_bytes : bytes -> option bytes;
}.

(** ** unescape: [unescape::unescape] *)
Class Unescape := unescape : string -> option string.

(** ** Concrete instances *)

(** Date-times as pairs of seconds and nanoseconds, in chrono's ranges. *)
Definition pair_from_timestamp_opt (secs nanos : Z) : option (Z * Z) :=
  if decide (-8334632851200 <= secs <= 8210298412799 /\ 0 <= nanos < 2000000000)%Z
  then Some (secs, nanos) else None.
Definition pair_chrono : Chrono :=
  {| NaiveDateTime := Z * Z; from_timestamp_opt := pair_from_timestamp_opt;
     format_iso := fun _ => EmptyString; naive_default := (0, 0)%Z |}.
Lemma pair_chrono_laws : @ChronoLaws pair_chrono.
Proof.
  intros secs nanos Hs Hn. simpl. unfold pair_from_timestamp_opt.
  rewrite decide_True by lia. by eexists.
Defined.

(** Decimals restricted to integers. *)
Definition digit_value (c : ascii) : option Z :=
  let n := Z.of_N (N_of_ascii c) in
  if decide (48 <= n <= 57)%Z then Some (n - 48)%Z else None.
Fixpoint parse_digits (acc : Z) (s : string) : option Z :=
  match s with
  | EmptyString => Some acc
  | String c s => d ← digit_value c; parse_digits (10 * acc + d)%Z s
  end.
Definition int_parse (s : string) : option Z :=
  match s with EmptyString => None | _ => parse_digits 0 s end.
Definition int_bigdec : BigDec :=
  {| BigDecimal := Z; BigDecimal_dec := numbers.Z.eq_dec; bd_from_u64 := id; bd_zero := 0%Z;
     bd_is_negative := fun z => bool_decide (z < 0)%Z;
     bd_to_u64 := fun z => if decide (in_u64 z) then Some z else None;
     bd_parse := int_parse; bd_to_string := fun z => pretty z;
     bd_div := fun a b => if decide (b = 0%Z) then None else Some (a / b)%Z |}.
Definition int_bigdec_key : @BigDecKey int_bigdec := @Build_BigDecKey int_bigdec Z_countable Z_key Z_key_laws.
Lemma int_bigdec_laws : @BigDecLaws int_bigdec.
Proof. split; [intros n Hn; simpl; by rewrite decide_True|done]. Defined.

(** Hexadecimal, two digits per byte. *)
Definition hex_digit (n : N) : ascii :=
  ascii_of_N (if decide (n < 10)%N then 48 + n else 87 + n)%N.
Fixpoint hex_bytes (b : bytes) : string :=
  match b with
  | EmptyString => EmptyString
  | String c b => let n := N_of_ascii c in
      String (hex_digit (n / 16)) (String (hex_digit (n mod 16)) (hex_bytes b))
  end.
Definition hex_value (c : ascii) : option N :=
  let n := N_of_ascii c in
  if decide (48 <= n <= 57)%N then Some (n - 48)%N
  else if decide (97 <= n <= 102)%N then Some (n - 87)%N
  else if decide (65 <= n <= 70)%N then Some (n - 55)%N
  else None.
Fixpoint unhex_bytes (s : string) : option bytes :=
  match s with
  | EmptyString => Some EmptyString
  | String a (String b s) =>
      x ← hex_value a; y ← hex_value b; r ← unhex_bytes s;
      Some (String (ascii_of_N (16 * x + y)) r)
  | String _ EmptyString => None
  end.
Definition plain_hex : HexCodec := {| hex_encode := hex_bytes; hex_decode := unhex_bytes |}.

Definition hex_pair_ok (c : ascii) : bool :=
  let n := N_of_ascii c in
  bool_decide (hex_value (hex_digit (n / 16)) = Some (n / 16)%N) &&
  bool_decide (hex_value (hex_digit (n mod 16)) = Some (n mod 16)%N) &&
  bool_decide (ascii_of_N (16 * (n / 16) + n mod 16) = c) &&
  negb (is_continuation (hex_digit (n / 16))) &&
  negb (is_continuation (hex_digit (n mod 16))).
Lemma hex_pair_all c : hex_pair_ok c = true.
Proof. by destruct c as [[] [] [] [] [] [] [] []]. Qed.
Lemma plain_hex_laws : @HexLaws plain_hex.
Proof.
  split; intros b; induction b as [|c b IH]; simpl; try done; try (simpl in IH; lia);
    pose proof (hex_pair_all c) as Hc; unfold hex_pair_ok in Hc;
    rewrite !andb_true_iff, !bool_decide_eq_true in Hc;
    destruct Hc as ((((H1 & H2) & H3) & H4) & H5); simpl in *.
  - rewrite H1; simpl. rewrite H2; simpl. rewrite IH; simpl. by rewrite H3.
  - unfold is_ascii_str in *; simpl. by rewrite H4, H5.
Qed.

(** A digest and a parser that keep the text. *)
Definition plain_sha : Sha256 := fun b => b.
Definition plain_sha3 : Sha3_256 := fun b => b.
Definition text_json : JsonParse := fun s => Some (Str s).
