(* ===== verification/Proto.v ===== *)
(** * Transaction protobufs

    The messages of [aptos_protos::transaction::v1] with the fields the
    indexer reads.  They are generated code of another repository; only their
    shape is used.  Optional message fields and [oneof]s are [option]s, as
    prost generates them; enumerations are their [i32] value. *)
From S2P Require Import Prelude RustStr Json Externals.

Record Timestamp := { seconds : Z; nanos : Z }.
#[export] Instance Timestamp_dec : EqDecision Timestamp.
Proof. solve_decision. Defined.

(** ** Move types *)

(** [MoveType], its content and [MoveStructTag]; the content cases other than
    a struct are not inspected by the code. *)
Inductive MoveType := mk_MoveType (mt_type : Z) (mt_content : option MoveTypeContent)
with MoveTypeContent :=
| ContentVector (t : MoveType)
| ContentStruct (tag : MoveStructTag)
| ContentGenericTypeParamIndex (i : Z)
| ContentReference (is_mutable : bool) (to : option MoveType)
| ContentUnparsable (s : string)
with MoveStructTag := mk_MoveStructTag
  (st_address st_module st_name : string) (st_generic_type_params : list MoveType).

Definition mt_content (t : MoveType) := let 'mk_MoveType _ c := t in c.
Definition st_address (t : MoveStructTag) := let 'mk_MoveStructTag a _ _ _ := t in a.
Definition st_module (t : MoveStructTag) := let 'mk_MoveStructTag _ m _ _ := t in m.
Definition st_name (t : MoveStructTag) := let 'mk_MoveStructTag _ _ n _ := t in n.
Definition st_generic_type_params (t : MoveStructTag) :=
  let 'mk_MoveStructTag _ _ _ p := t in p.

Record MoveModuleId := { mmi_address : string; mmi_name : string }.

(** Messages the code only passes on to the serializer: their encoding. *)
Abbreviation MoveFunction := bytes (only parsing).
Abbreviation MoveStruct := bytes (only parsing).
Abbreviation MoveScriptBytecode := bytes (only parsing).

Record MoveModulePB := {
  mm_address : string;
  mm_name : string;
  mm_friends : list MoveModuleId;
  mm_exposed_functions : list MoveFunction;
  mm_structs : list MoveStruct;
}.
Record MoveModuleBytecode := { mmb_bytecode : bytes; mmb_abi : option MoveModulePB }.

(** ** Write sets *)

Record DeleteModule := {
  dm_address : string; dm_state_key_hash : bytes; dm_module : option MoveModuleId }.
Record DeleteResource := {
  dr_address : string; dr_state_key_hash : bytes;
  dr_type : option MoveStructTag; dr_type_str : string }.
Record DeleteTableData := { dtd_key : string; dtd_key_type : string }.
Record DeleteTableItem := {
  dti_state_key_hash : bytes; dti_handle : string; dti_key : string;
  dti_data : option DeleteTableData }.
Record WriteModule := {
  wm_address : string; wm_state_key_hash : bytes; wm_data : option MoveModuleBytecode }.
Record WriteResource := {
  wr_address : string; wr_state_key_hash : bytes; wr_type : option MoveStructTag;
  wr_type_str : string; wr_data : string }.
Record WriteTableData := {
  wtd_key : string; wtd_key_type : string; wtd_value : string; wtd_value_type : string }.
Record WriteTableItem := {
  wti_state_key_hash : bytes; wti_handle : string; wti_key : string;
  wti_data : option WriteTableData }.

Inductive ChangeEnum :=
| ChangeDeleteModule (c : DeleteModule)
| ChangeDeleteResource (c : DeleteResource)
| ChangeDeleteTableItem (c : DeleteTableItem)
| ChangeWriteModule (c : WriteModule)
| ChangeWriteResource (c : WriteResource)
| ChangeWriteTableItem (c : WriteTableItem).
Record WriteSetChangePB := { wsc_type : Z; wsc_change : option ChangeEnum }.

(** [write_set_change::Type]. *)
Inductive WriteSetChangeType :=
| WscUnspecified | WscDeleteModule | WscDeleteResource | WscDeleteTableItem
| WscWriteModule | WscWriteResource | WscWriteTableItem.

(** ** Payloads *)

Record EntryFunctionId := { efi_module : option MoveModuleId; efi_name : string }.
Record EntryFunctionPayload := {
  efp_function : option EntryFunctionId;
  efp_type_arguments : list MoveType;
  efp_arguments : list string;
  efp_entry_function_id_str : string }.
Record ScriptPayload := {
  sp_code : option MoveScriptBytecode;
  sp_type_arguments : list MoveType;
  sp_arguments : list string }.
Record ScriptWriteSet := { sws_execute_as : string; sws_script : option ScriptPayload }.
Inductive WriteSetEnum :=
| WsScriptWriteSet (w : ScriptWriteSet)
| WsDirectWriteSet (w : bytes).
Record WriteSet := { ws_write_set : option WriteSetEnum }.
Record WriteSetPayload := { wsp_write_set : option WriteSet }.
Inductive MultisigPayloadEnum :=
| MpEntryFunctionPayload (p : EntryFunctionPayload).
Record MultisigTransactionPayload := { mtp_payload : option MultisigPayloadEnum }.
Record MultisigPayload := {
  mp_multisig_address : string;
  mp_transaction_payload : option MultisigTransactionPayload }.
Inductive PayloadEnum :=
| PlEntryFunctionPayload (p : EntryFunctionPayload)
| PlScriptPayload (p : ScriptPayload)
| PlWriteSetPayload (p : WriteSetPayload)
| PlMultisigPayload (p : MultisigPayload).
Record TransactionPayload := { tp_type : Z; tp_payload : option PayloadEnum }.

(** ** Signatures *)

Record Ed25519SignaturePB := { ed_public_key : bytes; ed_signature : bytes }.
Record MultiEd25519SignaturePB := {
  me_public_keys : list bytes;
  me_signatures : list bytes;
  me_threshold : Z;
  me_public_key_indices : list Z }.
(** [any_signature::SignatureVariant]; every variant carries its bytes. *)
Inductive SignatureVariant :=
| SvEd25519 (sig : bytes)
| SvSecp256k1Ecdsa (sig : bytes)
| SvWebauthn (sig : bytes)
| SvKeyless (sig : bytes).
Record AnySignature := {
  as_type : Z; as_signature : bytes; as_signature_variant : option SignatureVariant }.
Record AnyPublicKey := { apk_public_key : bytes }.
Record SingleKeySignaturePB := {
  sk_public_key : option AnyPublicKey; sk_signature : option AnySignature }.
Record IndexedSignature := { is_index : Z; is_signature : option AnySignature }.
Record MultiKeySignaturePB := {
  mk_public_keys : list AnyPublicKey;
  mk_signatures : list IndexedSignature;
  mk_signatures_required : Z }.
Inductive AccountSignatureEnum :=
| AcEd25519 (s : Ed25519SignaturePB)
| AcMultiEd25519 (s : MultiEd25519SignaturePB)
| AcSingleKeySignature (s : SingleKeySignaturePB)
| AcMultiKeySignature (s : MultiKeySignaturePB).
Record AccountSignature := { ac_signature : option AccountSignatureEnum }.
Record MultiAgentSignature := {
  ma_sender : option AccountSignature;
  ma_secondary_signer_addresses : list string;
  ma_secondary_signers : list AccountSignature }.
Record FeePayerSignature := {
  fp_sender : option AccountSignature;
  fp_secondary_signer_addresses : list string;
  fp_secondary_signers : list AccountSignature;
  fp_fee_payer_address : string;
  fp_fee_payer_signer : option AccountSignature }.
Record SingleSender := { ss_sender : option AccountSignature }.
Inductive SignatureEnum :=
| SgEd25519 (s : Ed25519SignaturePB)
| SgMultiEd25519 (s : MultiEd25519SignaturePB)
| SgMultiAgent (s : MultiAgentSignature)
| SgFeePayer (s : FeePayerSignature)
| SgSingleSender (s : SingleSender).
Record SignaturePB := { sg_signature : option SignatureEnum }.

(** [any_signature::Type]. *)
Inductive AnySignatureType := AstUnspecified | AstEd25519 | AstSecp256k1Ecdsa | AstWebauthn | AstKeyless.

(** ** Transactions *)

Record EventKey := { ek_creation_number : Z; ek_account_address : string }.
Record EventPB := {
  ev_key : option EventKey;
  ev_sequence_number : Z;
  ev_type : option MoveType;
  ev_type_str : string;
  ev_data : string }.
Record UserTransactionRequest := {
  utr_sender : string;
  utr_sequence_number : Z;
  utr_max_gas_amount : Z;
  utr_gas_unit_price : Z;
  utr_expiration_timestamp_secs : option Timestamp;
  utr_payload : option TransactionPayload;
  utr_signature : option SignaturePB }.
Record UserTransactionPB := {
  ut_request : option UserTransactionRequest; ut_events : list EventPB }.
Record GenesisTransactionPB := { gt_payload : option WriteSet; gt_events : list EventPB }.
Record BlockMetadataTransactionPB := {
  bm_id : string;
  bm_round : Z;
  bm_events : list EventPB;
  bm_previous_block_votes_bitvec : bytes;
  bm_proposer : string;
  bm_failed_proposer_indices : list Z }.
Inductive TxnData :=
| TdBlockMetadata (t : BlockMetadataTransactionPB)
| TdGenesis (t : GenesisTransactionPB)
| TdStateCheckpoint
| TdUser (t : UserTransactionPB)
| TdValidator.
Record TransactionInfo := {
  ti_hash : bytes;
  ti_state_change_hash : bytes;
  ti_event_root_hash : bytes;
  ti_state_checkpoint_hash : option bytes;
  ti_gas_used : Z;
  ti_success : bool;
  ti_vm_status : string;
  ti_accumulator_root_hash : bytes;
  ti_changes : list WriteSetChangePB }.
(** The sizes of a transaction in bytes, as [u32]. *)
Record EventSizeInfo := { esi_type_tag_bytes : Z; esi_total_bytes : Z }.
Record WriteOpSizeInfo := { wos_key_bytes : Z; wos_value_bytes : Z }.
Record TransactionSizeInfo := {
  tsi_transaction_bytes : Z;
  tsi_event_size_info : list EventSizeInfo;
  tsi_write_op_size_info : list WriteOpSizeInfo }.
Record Transaction := {
  t_timestamp : option Timestamp;
  t_version : Z;
  t_info : option TransactionInfo;
  t_epoch : Z;
  t_block_height : Z;
  t_type : Z;
  t_size_info : option TransactionSizeInfo;
  t_txn_data : option TxnData }.

(** ** Enumerations

    The numbering and the proto names of the enumerations: [try_from] on the
    [i32] value ([None] for an unknown one) and [as_str_name]. *)
Class ProtoEnums := {
  write_set_change_type : Z -> option WriteSetChangeType;
  any_signature_type : Z -> option AnySignatureType;
  transaction_type_name : Z -> option string;
  transaction_type_user : Z;
  payload_type_name : Z -> string;
}.

(** The numbering of the published protos, for the examples. *)
Definition published_enums : ProtoEnums := {|
  write_set_change_type := fun n => [WscUnspecified; WscDeleteModule; WscDeleteResource;
    WscDeleteTableItem; WscWriteModule; WscWriteResource; WscWriteTableItem] !! Z.to_nat n;
  any_signature_type := fun n => [AstUnspecified; AstEd25519; AstSecp256k1Ecdsa;
    AstWebauthn; AstKeyless] !! Z.to_nat n;
  transaction_type_name := fun n => ["TRANSACTION_TYPE_UNSPECIFIED"; "TRANSACTION_TYPE_GENESIS";
    "TRANSACTION_TYPE_BLOCK_METADATA"; "TRANSACTION_TYPE_STATE_CHECKPOINT";
    "TRANSACTION_TYPE_USER"] !! Z.to_nat n;
  transaction_type_user := 4%Z;
  payload_type_name := fun n => default "TYPE_UNSPECIFIED" (["TYPE_UNSPECIFIED";
    "TYPE_ENTRY_FUNCTION_PAYLOAD"; "TYPE_SCRIPT_PAYLOAD"] !! Z.to_nat n);
|}.

(** A response of the transaction stream. *)
Record TransactionsResponse := {
  tr_transactions : list Transaction; tr_chain_id : option Z }.
