(* ===== verification/Util.v ===== *)
(** * Shared utilities: [rust/processor/src/utils/util.rs] and
    [models/property_map.rs]

    Addresses, truncation, timestamps, the cleaning of payloads and of NUL
    bytes, and the decoding of BCS property maps. *)
From stdpp Require Import pretty.
From Stdlib Require Import Ascii.
From S2P Require Import Prelude RustStr Json Externals Proto.

Definition MAX_TIMESTAMP_SECS : Z := 253402300799.
Definition MAX_ENTRY_FUNCTION_LENGTH : nat := 1000.

(** ** Addresses and strings *)

Definition zero_char : ascii := "0"%char.

Definition standardize_address (handle : string) : string :=
  match strip_prefix "0x" handle with
  | Some handle => "0x" +:+ pad_left zero_char 64 handle
  | None => "0x" +:+ pad_left zero_char 64 handle
  end.

Definition hash_str `{HexCodec, Sha256} (val : string) : string :=
  hex_encode (sha256_digest val).

Definition truncate_str (val : string) (max_chars : nat) : outcome string :=
  truncate max_chars val.

Definition u64_to_bigdecimal `{BigDec} (val : Z) : BigDecimal := bd_from_u64 val.
Definition bigdecimal_to_u64 `{BigDec} (val : BigDecimal) : outcome Z := unwrap (bd_to_u64 val).
Definition ensure_not_negative `{BigDec} (val : BigDecimal) : BigDecimal :=
  if bd_is_negative val then bd_zero else val.

(** ** Entry functions and payloads *)

(** In the multisig case the inner identifier is computed and dropped, and
    the function returns [None]. *)
Definition get_entry_function_from_user_request (user_request : UserTransactionRequest)
  : outcome (option string) :=
  payload ← unwrap (utr_payload user_request);
  match tp_payload payload with
  | Some (PlEntryFunctionPayload p) =>
      s ← truncate_str (efp_entry_function_id_str p) MAX_ENTRY_FUNCTION_LENGTH;
      Ret (Some s)
  | Some (PlMultisigPayload p) =>
      match mp_transaction_payload p with
      | Some inner => '(MpEntryFunctionPayload _) ← unwrap (mtp_payload inner); Ret None
      | None => Ret None
      end
  | _ => Ret None
  end.

Definition get_payload_type `{ProtoEnums} (payload : TransactionPayload) : string :=
  payload_type_name (tp_type payload).

Record EntryFunctionPayloadClean := {
  epc_function : option EntryFunctionId;
  epc_type_arguments : list MoveType;
  epc_arguments : list Value }.
Record ScriptPayloadClean := {
  spc_code : option MoveScriptBytecode;
  spc_type_arguments : list MoveType;
  spc_arguments : list Value }.
Record MultisigPayloadClean := {
  mpc_multisig_address : string;
  mpc_transaction_payload : option Value }.

Section CleanPayload.
Context `{JsonParse, Serialize EntryFunctionPayloadClean, Serialize ScriptPayloadClean,
          Serialize MultisigPayloadClean}.

Definition get_clean_entry_function_payload (payload : EntryFunctionPayload) (version : Z)
  : outcome EntryFunctionPayloadClean :=
  arguments ← traverse (fun arg => unwrap (json_from_str arg)) (efp_arguments payload);
  Ret {| epc_function := efp_function payload;
         epc_type_arguments := efp_type_arguments payload;
         epc_arguments := arguments |}.

Definition get_clean_script_payload (payload : ScriptPayload) (version : Z)
  : outcome ScriptPayloadClean :=
  arguments ← traverse (fun arg => unwrap (json_from_str arg)) (sp_arguments payload);
  Ret {| spc_code := sp_code payload;
         spc_type_arguments := sp_type_arguments payload;
         spc_arguments := arguments |}.

Definition get_clean_writeset (writeset : WriteSet) (version : Z) : outcome (option Value) :=
  ws ← unwrap (ws_write_set writeset);
  match ws with
  | WsScriptWriteSet inner =>
      payload ← unwrap (sws_script inner);
      clean ← get_clean_script_payload payload version;
      v ← unwrap (to_value clean);
      Ret (Some v)
  | WsDirectWriteSet _ => Ret None
  end.

Definition get_clean_payload (payload : TransactionPayload) (version : Z)
  : outcome (option Value) :=
  match tp_payload payload with
  | None => Ret None
  | Some (PlEntryFunctionPayload inner) =>
      clean ← get_clean_entry_function_payload inner version;
      v ← unwrap (to_value clean);
      Ret (Some v)
  | Some (PlScriptPayload inner) =>
      clean ← get_clean_script_payload inner version;
      v ← unwrap (to_value clean);
      Ret (Some v)
  | Some (PlWriteSetPayload inner) =>
      match wsp_write_set inner with
      | Some writeset => get_clean_writeset writeset version
      | None => Ret None
      end
  | Some (PlMultisigPayload inner) =>
      clean ← match mp_transaction_payload inner with
              | Some payload =>
                  '(MpEntryFunctionPayload p) ← unwrap (mtp_payload payload);
                  clean ← get_clean_entry_function_payload p version;
                  v ← unwrap (to_value clean);
                  Ret {| mpc_multisig_address := mp_multisig_address inner;
                         mpc_transaction_payload := Some v |}
              | None =>
                  Ret {| mpc_multisig_address := mp_multisig_address inner;
                         mpc_transaction_payload := None |}
              end;
      v ← unwrap (to_value clean);
      Ret (Some v)
  end.
End CleanPayload.

(** ** Timestamps *)

Definition parse_timestamp `{Chrono} (ts : Timestamp) (version : Z) : outcome NaiveDateTime :=
  let final_ts :=
    if decide (MAX_TIMESTAMP_SECS <= seconds ts)%Z
    then {| seconds := MAX_TIMESTAMP_SECS; nanos := 0 |} else ts in
  unwrap (from_timestamp_opt (seconds final_ts) (as_u32 (nanos final_ts))).

Definition parse_timestamp_secs `{Chrono} (ts : Z) (version : Z) : outcome NaiveDateTime :=
  unwrap (from_timestamp_opt (as_i64 (Z.min ts (as_u64 MAX_TIMESTAMP_SECS))) 0).

Definition timestamp_to_iso `{Chrono} (timestamp : Timestamp) : outcome string :=
  dt ← parse_timestamp timestamp 0;
  Ret (format_iso dt).

(** ** NUL bytes *)

Definition nul_str : string := String Ascii.zero EmptyString.

(** [value.replace('\u{0000}', "").replace("\\u0000", "")]. *)
Definition string_null_byte_replacement (value : string) : string :=
  remove_all "\u0000" (remove_all nul_str value).

Fixpoint recurse_remove_null_bytes_from_json (sub_json : Value) : Value :=
  match sub_json with
  | Array array => Array (map recurse_remove_null_bytes_from_json array)
  | Object object =>
      Object (map (fun kv => (kv.1, recurse_remove_null_bytes_from_json kv.2)) object)
  | Str str => match str with
               | EmptyString => Str str
               | _ => Str (string_null_byte_replacement str)
               end
  | _ => sub_json
  end.

Definition remove_null_bytes {T} `{Serialize T, Deserialize T} (input : T) : outcome T :=
  txn_json ← unwrap (to_value input);
  unwrap (de_from_value (recurse_remove_null_bytes_from_json txn_json)).

(** ** Hexadecimal and BCS values *)

Definition strip_0x (value : string) : string := default value (strip_prefix "0x" value).

Definition convert_hex `{HexCodec} (val : string) : option string :=
  decoded ← hex_decode (strip_0x val);
  from_utf8 decoded.

Definition deserialize_string_from_hexstring `{HexCodec} (s : string) : string :=
  default s (convert_hex s).

Definition bool_to_string (b : bool) : string := if b then "true" else "false".

Section BcsValues.
Context `{HexCodec, Bcs}.

Definition convert_bcs_hex (typ value : string) : option string :=
  decoded ← hex_decode (strip_0x value);
  if decide (typ = "0x1::string::String") then bcs_String decoded
  else if decide (typ = "u8") then pretty <$> bcs_u8 decoded
  else if decide (typ = "u64") then pretty <$> bcs_u64 decoded
  else if decide (typ = "u128") then pretty <$> bcs_u128 decoded
  else if decide (typ = "bool") then bool_to_string <$> bcs_bool decoded
  else if decide (typ = "address") then (fun e => "0x" +:+ e) <$> bcs_String decoded
  else Some value.

Definition convert_bcs_hex_new (typ : Z) (value : string) : option string :=
  decoded ← hex_decode (strip_0x value);
  match typ with
  | 0 => bool_to_string <$> bcs_bool decoded
  | 1 => pretty <$> bcs_u8 decoded
  | 2 => pretty <$> bcs_u16 decoded
  | 3 => pretty <$> bcs_u32 decoded
  | 4 => pretty <$> bcs_u64 decoded
  | 5 => pretty <$> bcs_u128 decoded
  | 6 => bd_to_string <$> bcs_BigDecimal decoded
  | 7 => (fun e => "0x" +:+ e) <$> bcs_String decoded
  | 8 => (fun e => "0x" +:+ hex_encode e) <$> bcs_bytes decoded
  | 9 => bcs_String decoded
  | _ => Some value
  end%Z.

(** *** [PropertyMap] *)

Record PropertyValue := { pv_value : string; pv_typ : string }.

Definition create_property_value (typ value : string) : PropertyValue :=
  {| pv_value := default value (convert_bcs_hex typ value); pv_typ := typ |}.

Fixpoint property_records (pm : gmap string PropertyValue) (records : list Value)
  : option (gmap string PropertyValue) :=
  match records with
  | [] => Some pm
  | entry :: records =>
      key ← value_get "key" entry ≫= as_str;
      val ← (value_get "value" entry ≫= value_get "value") ≫= as_str;
      typ ← (value_get "value" entry ≫= value_get "type") ≫= as_str;
      property_records (<[key := create_property_value typ val]> pm) records
  end.

Context `{HashOrder}.

Definition to_flat_json (val : gmap string PropertyValue) : Value :=
  Object ((fun kv => (kv.1, Str kv.2)) <$> hash_iter (pv_value <$> val)).

Definition from_bcs_encode_str (val : Value) : option Value :=
  records ← (value_get "map" val ≫= value_get "data") ≫= as_array;
  pm ← property_records ∅ records;
  Some (to_flat_json pm).

Definition convert_bcs_propertymap (s : Value) : option Value :=
  match from_bcs_encode_str s with
  | Some e => Some e
  | None => None
  end.

Definition deserialize_property_map_from_bcs_hexstring (s : Value) : Value :=
  default s (convert_bcs_propertymap s).

(** *** [TokenObjectPropertyMap] *)

Record TokenObjectPropertyValue := { tov_value : string; tov_typ : Z }.

Definition create_token_object_property_value (typ : Z) (value : string)
  : TokenObjectPropertyValue :=
  {| tov_value := default value (convert_bcs_hex_new typ value); tov_typ := typ |}.

Fixpoint token_object_records (pm : gmap string TokenObjectPropertyValue) (records : list Value)
  : option (gmap string TokenObjectPropertyValue) :=
  match records with
  | [] => Some pm
  | entry :: records =>
      key ← value_get "key" entry ≫= as_str;
      val ← (value_get "value" entry ≫= value_get "value") ≫= as_str;
      typ ← (value_get "value" entry ≫= value_get "type") ≫= value_as_u64;
      token_object_records
        (<[key := create_token_object_property_value (typ mod 256) val]> pm) records
  end.

Definition to_flat_json_new (val : gmap string TokenObjectPropertyValue) : Value :=
  Object ((fun kv => (kv.1, Str kv.2)) <$> hash_iter (tov_value <$> val)).

Definition from_bcs_encode_str_new (val : Value) : option Value :=
  records ← value_get "data" val ≫= as_array;
  pm ← token_object_records ∅ records;
  Some (to_flat_json_new pm).

Definition convert_bcs_token_object_propertymap (s : Value) : option Value :=
  match from_bcs_encode_str_new s with
  | Some e => Some e
  | None => None
  end.

Definition deserialize_token_object_property_map_from_bcs_hexstring (s : Value) : Value :=
  default s (convert_bcs_token_object_propertymap s).
End BcsValues.

Definition get_name_from_unnested_move_type (move_type : string) : outcome string :=
  unwrap (last (split "::" move_type)).

(** ** Addresses: canonical form *)

Lemma standardize_address_unfold s :
  standardize_address s = "0x" +:+ pad_left zero_char 64 (strip_0x s).
Proof. unfold standardize_address, strip_0x. by destruct (strip_prefix "0x" s). Qed.

Lemma strip_0x_prefixed s : strip_0x ("0x" +:+ s) = s.
Proof. unfold strip_0x. by rewrite strip_prefix_app. Qed.

(** Leading zeros carry no information in an address. *)
Fixpoint drop_zeros (s : string) : string :=
  match s with
  | String c s' => if decide (c = zero_char) then drop_zeros s' else s
  | EmptyString => EmptyString
  end.

Lemma drop_zeros_repeat n s : drop_zeros (repeat_char zero_char n +:+ s) = drop_zeros s.
Proof. induction n as [|n IH]; [done|]. cbn [repeat_char]. rewrite str_app_cons. apply IH. Qed.

Lemma drop_zeros_split s : exists n, s = repeat_char zero_char n +:+ drop_zeros s.
Proof.
  induction s as [|c s [n Hn]]; [by exists 0|]. simpl. case_decide as Hc.
  - exists (S n). subst. cbn [repeat_char]. rewrite str_app_cons. by f_equal.
  - by exists 0.
Qed.

Lemma repeat_char_app c n m : repeat_char c n +:+ repeat_char c m = repeat_char c (n + m).
Proof.
  induction n as [|n IH]; [done|]. cbn [repeat_char Nat.add]. rewrite str_app_cons. by f_equal.
Qed.

(** The padded form is a function of the significant digits alone. *)
Lemma pad_left_drop_zeros w s :
  char_count s <= w -> pad_left zero_char w s = pad_left zero_char w (drop_zeros s).
Proof.
  intros Hw. destruct (drop_zeros_split s) as [n Hn]. set (d := drop_zeros s) in *.
  assert (char_count s = n + char_count d) as Hc.
  { rewrite Hn, char_count_app, char_count_repeat; done. }
  unfold pad_left. rewrite Hc, Hn at 1. rewrite <- str_app_assoc, repeat_char_app.
  do 2 f_equal. lia.
Qed.

Lemma pad_left_eq_iff w s t :
  char_count s <= w -> char_count t <= w ->
  pad_left zero_char w s = pad_left zero_char w t <-> drop_zeros s = drop_zeros t.
Proof.
  intros Hs Ht. split.
  - intros H%(f_equal drop_zeros). unfold pad_left in H. by rewrite !drop_zeros_repeat in H.
  - intros H. by rewrite (pad_left_drop_zeros w s), (pad_left_drop_zeros w t), H by done.
Qed.

(** a standardized address is a fixed point of standardization, starts
    with [0x], and has 66 characters whenever the hexadecimal part has at
    most 64. *)
Theorem standardize_address_stable (s : string) :
  standardize_address (standardize_address s) = standardize_address s /\
  starts_with "0x" (standardize_address s) = true /\
  char_count (standardize_address s) = 2 + Nat.max 64 (char_count (strip_0x s)).
Proof.
  rewrite !standardize_address_unfold, strip_0x_prefixed. split_and!.
  - f_equal. apply pad_left_id. rewrite char_count_pad_left by done. lia.
  - apply starts_with_spec. by eexists.
  - rewrite char_count_app. simpl. by rewrite char_count_pad_left.
Qed.

(** standardization identifies exactly the handles with the same
    significant digits: with at most 64 characters after an optional [0x],
    two handles have the same standard form if and only if they agree after
    dropping the prefix and the leading zeros. *)
Theorem standardize_address_eq_iff (s t : string) :
  char_count (strip_0x s) <= 64 -> char_count (strip_0x t) <= 64 ->
  standardize_address s = standardize_address t <->
  drop_zeros (strip_0x s) = drop_zeros (strip_0x t).
Proof.
  intros Hs Ht. rewrite !standardize_address_unfold, <- (pad_left_eq_iff 64) by done.
  split; [by intros ?%(inj (String.append "0x"))|by intros ->].
Qed.

Lemma standardize_address_eq_iff_witness :
  standardize_address "0x1" = standardize_address "0x0001" <->
  drop_zeros (strip_0x "0x1") = drop_zeros (strip_0x "0x0001").
Proof. apply standardize_address_eq_iff; vm_compute; lia. Defined.

(** ** Entry functions *)

(** for a transaction sent through a multisig account the entry
    function is never reported, whatever the inner payload names. *)
Theorem multisig_entry_function_dropped (r : UserTransactionRequest) p (m : MultisigPayload) inner e :
  utr_payload r = Some p -> tp_payload p = Some (PlMultisigPayload m) ->
  mp_transaction_payload m = Some inner -> mtp_payload inner = Some (MpEntryFunctionPayload e) ->
  get_entry_function_from_user_request r = Ret None.
Proof.
  intros Hp Hm Hi He. unfold get_entry_function_from_user_request.
  rewrite Hp; simpl. rewrite Hm, Hi; simpl. by rewrite He.
Qed.

Definition example_multisig_request : UserTransactionRequest :=
  {| utr_sender := "0x1"; utr_sequence_number := 0; utr_max_gas_amount := 0;
     utr_gas_unit_price := 0; utr_expiration_timestamp_secs := None;
     utr_payload := Some {| tp_type := 5; tp_payload := Some (PlMultisigPayload
       {| mp_multisig_address := "0x2"; mp_transaction_payload := Some
         {| mtp_payload := Some (MpEntryFunctionPayload
           {| efp_function := None; efp_type_arguments := []; efp_arguments := [];
              efp_entry_function_id_str := "0x1::aptos_account::transfer" |}) |} |}) |};
     utr_signature := None |}.

Lemma multisig_entry_function_dropped_witness :
  get_entry_function_from_user_request example_multisig_request = Ret None.
Proof. by eapply multisig_entry_function_dropped. Defined.

Lemma truncate_str_ascii n s :
  is_ascii_str s = true ->
  exists t rest, truncate_str s n = Ret t /\ s = t +:+ rest /\
    String.length t = Nat.min n (String.length s).
Proof.
  intros Ha. unfold truncate_str. rewrite truncate_ascii by done. case_decide as Hl.
  - destruct (str_take_prefix n s) as [t Ht]. eexists _, t. split_and!; [done..|].
    rewrite length_str_take by done. lia.
  - eexists _, EmptyString. split_and!; [done|by rewrite str_app_nil_r|lia].
Qed.

(** For an entry-function payload the reported identifier is a prefix
    of the real one, of at most 1000 bytes, and an ASCII identifier never
    makes the function panic. *)
Theorem entry_function_reported (r : UserTransactionRequest) p e :
  utr_payload r = Some p -> tp_payload p = Some (PlEntryFunctionPayload e) ->
  is_ascii_str (efp_entry_function_id_str e) = true ->
  exists s rest, get_entry_function_from_user_request r = Ret (Some s) /\
    efp_entry_function_id_str e = s +:+ rest /\
    String.length s = Nat.min MAX_ENTRY_FUNCTION_LENGTH (String.length (efp_entry_function_id_str e)).
Proof.
  intros Hp He Ha.
  destruct (truncate_str_ascii MAX_ENTRY_FUNCTION_LENGTH _ Ha) as (s & rest & Hs & ? & ?).
  exists s, rest. split_and!; [|done..]. unfold get_entry_function_from_user_request.
  rewrite Hp; cbn -[truncate_str MAX_ENTRY_FUNCTION_LENGTH].
  rewrite He; cbn -[truncate_str MAX_ENTRY_FUNCTION_LENGTH]. by rewrite Hs.
Qed.

Definition example_transfer_payload : EntryFunctionPayload :=
  {| efp_function := None; efp_type_arguments := []; efp_arguments := [];
     efp_entry_function_id_str := "0x1::aptos_account::transfer" |}.
Definition example_transfer_request : UserTransactionRequest :=
  {| utr_sender := "0x1"; utr_sequence_number := 0; utr_max_gas_amount := 0;
     utr_gas_unit_price := 0; utr_expiration_timestamp_secs := None;
     utr_payload := Some {| tp_type := 1;
                            tp_payload := Some (PlEntryFunctionPayload example_transfer_payload) |};
     utr_signature := None |}.

Lemma entry_function_reported_witness :
  exists s rest, get_entry_function_from_user_request example_transfer_request = Ret (Some s) /\
    "0x1::aptos_account::transfer" = s +:+ rest /\
    String.length s = Nat.min MAX_ENTRY_FUNCTION_LENGTH (String.length "0x1::aptos_account::transfer").
Proof.
  by eapply (entry_function_reported example_transfer_request _ example_transfer_payload).
Defined.

(** ** Timestamps *)

(** a non-negative timestamp with valid nanoseconds always parses; one
    at or beyond the last second of year 9999 parses as that second. *)
Theorem parse_timestamp_total `{ChronoLaws} (ts : Timestamp) (version : Z) :
  (0 <= seconds ts)%Z -> (0 <= nanos ts < 1000000000)%Z ->
  exists dt, parse_timestamp ts version = Ret dt /\
    if decide (MAX_TIMESTAMP_SECS <= seconds ts)%Z
    then from_timestamp_opt MAX_TIMESTAMP_SECS 0 = Some dt
    else from_timestamp_opt (seconds ts) (nanos ts) = Some dt.
Proof.
  intros Hs Hn. unfold parse_timestamp, MAX_TIMESTAMP_SECS. case_decide; cbn [seconds nanos].
  - destruct (from_timestamp_opt_in_range 253402300799 0) as [dt Hdt]; [lia..|].
    exists dt. change (as_u32 0) with 0%Z. by rewrite Hdt.
  - assert (as_u32 (nanos ts) = nanos ts) as -> by word_lia.
    destruct (from_timestamp_opt_in_range (seconds ts) (nanos ts)) as [dt Hdt]; [lia..|].
    exists dt. by rewrite Hdt.
Qed.

Lemma parse_timestamp_total_witness :
  exists dt, @parse_timestamp pair_chrono {| seconds := 1649560602; nanos := 5 |} 1 = Ret dt /\
    if decide (MAX_TIMESTAMP_SECS <= 1649560602)%Z
    then @from_timestamp_opt pair_chrono MAX_TIMESTAMP_SECS 0 = Some dt
    else @from_timestamp_opt pair_chrono 1649560602 5 = Some dt.
Proof.
  apply (@parse_timestamp_total pair_chrono pair_chrono_laws {| seconds := 1649560602; nanos := 5 |});
    simpl; lia.
Defined.

(** ** NUL bytes *)

(** The strings a JSON value holds, object keys excepted. *)
Fixpoint json_strings (v : Value) : list string :=
  match v with
  | Str s => [s]
  | Array l => concat (map json_strings l)
  | Object o => concat (map (fun kv => json_strings kv.2) o)
  | _ => []
  end.

Lemma replacement_no_nul s :
  zero ∉ String.list_ascii_of_string (string_null_byte_replacement s).
Proof. intros H%remove_go_subset. by apply remove_char_gone in H. Qed.

Lemma replacement_id s :
  contains nul_str s = false -> contains "\u0000" s = false ->
  string_null_byte_replacement s = s.
Proof.
  intros H1 H2. unfold string_null_byte_replacement.
  by rewrite (remove_all_id nul_str), remove_all_id.
Qed.

Lemma Forall_concat_map {A B} (P : B -> Prop) (f : A -> list B) l :
  Forall (fun x => Forall P (f x)) l -> Forall P (concat (map f l)).
Proof. induction 1; simpl; [constructor|]. by apply Forall_app. Qed.

(** after cleaning, no string value of the JSON tree contains a NUL
    byte, at any depth (object keys are not cleaned). *)
Theorem remove_null_bytes_no_nul (v : Value) :
  Forall (fun s => zero ∉ String.list_ascii_of_string s)
    (json_strings (recurse_remove_null_bytes_from_json v)).
Proof.
  induction v as [| | |s|l IH|o IH] using Value_rect'; simpl; try by constructor.
  - destruct s; simpl; (constructor; [|done]); [set_solver|apply replacement_no_nul].
  - rewrite map_map. by apply Forall_concat_map.
  - rewrite map_map. simpl. by apply Forall_concat_map.
Qed.

(** cleaning changes nothing in a value whose strings contain neither a
    NUL byte nor the six characters of its JSON escape. *)
Theorem remove_null_bytes_clean_id (v : Value) :
  Forall (fun s => contains nul_str s = false /\ contains "\u0000" s = false) (json_strings v) ->
  recurse_remove_null_bytes_from_json v = v.
Proof.
  induction v as [| | |s|l IH|o IH] using Value_rect'; intros Hv; try done.
  - apply Forall_singleton in Hv as [H1 H2]. simpl. destruct s; [done|].
    by rewrite replacement_id.
  - simpl in *. f_equal. induction l as [|x l IHl]; simpl in *; [done|].
    apply Forall_cons in IH as [IHx IH]. apply Forall_app in Hv as [Hx Hl].
    rewrite IHx by done. f_equal. by apply IHl.
  - simpl in *. f_equal. induction o as [|[k x] o IHo]; simpl in *; [done|].
    apply Forall_cons in IH as [IHx IH]. apply Forall_app in Hv as [Hx Ho]. simpl in *.
    rewrite IHx by done. f_equal. by apply IHo.
Qed.

Lemma remove_null_bytes_clean_id_witness :
  recurse_remove_null_bytes_from_json (Object [("name", Array [Str "coin"; Number (JInt 3)])]) =
  Object [("name", Array [Str "coin"; Number (JInt 3)])].
Proof. apply remove_null_bytes_clean_id. by vm_compute; repeat constructor. Defined.
