(* ===== verification/Database.v ===== *)
(** * Database writes: [rust/processor/src/utils/database.rs]

    Every table write of the indexer is an
    [INSERT .. ON CONFLICT (key) DO NOTHING | DO UPDATE SET .. [WHERE ..]],
    sent through [execute_in_chunks].  PostgreSQL itself is a parameter: the
    class [PgTable] with the documented behaviour of such statements. *)
From S2P Require Import Prelude RustStr Json Externals Util.

(** ** Statements *)

Inductive OnConflict (row : Type) : Type :=
| DoNothing
| DoUpdate (set : row -> row -> row).
Arguments DoNothing {row}.
Arguments DoUpdate {row} _.

(** What [build_query] returns besides the values: the conflict target, the
    action ([set existing excluded] is the row after the update) and the
    additional [WHERE] clause on the existing and the excluded row. *)
Record Upsert (row key : Type) := {
  up_key : row -> key;
  up_action : OnConflict row;
  up_where : option (row -> row -> bool);
}.
Arguments up_key {row key} _ _.
Arguments up_action {row key} _.
Arguments up_where {row key} _.

Definition set_where {row key} (u : Upsert row key) (w : option (row -> row -> bool))
  : Upsert row key :=
  {| up_key := up_key u; up_action := up_action u; up_where := w |}.

(** The documented effect of one proposed row on a table. *)
Definition upsert_row {row key} `{Countable key} (u : Upsert row key)
    (t : gmap key row) (r : row) : gmap key row :=
  match t !! up_key u r with
  | None => <[up_key u r := r]> t
  | Some old =>
      match up_action u with
      | DoNothing => t
      | DoUpdate set =>
          if from_option (fun w => w old r) true (up_where u)
          then <[up_key u r := set old r]> t else t
      end
  end.

Definition upsert_rows {row key} `{Countable key} (u : Upsert row key)
    (t : gmap key row) (rows : list row) : gmap key row :=
  foldl (upsert_row u) t rows.

(** ** The server *)

Class PgTable (row key : Type) `{Countable key} := {
  pg_state : Type;
  pg_rows : pg_state -> gmap key row;
  pg_execute : Upsert row key -> list row -> pg_state -> pg_state * result nat;
}.
(** A statement that succeeds has its documented effect; one that fails
    changes nothing; a [DO UPDATE] without a condition may not affect one row
    twice. *)
Class PgLaws (row key : Type) `{PgTable row key} := {
  pg_execute_ok : forall u rows s s' n,
    NoDup (up_key u <$> rows) -> pg_execute u rows s = (s', Ok n) ->
    pg_rows s' = upsert_rows u (pg_rows s) rows;
  pg_execute_err : forall u rows s s',
    pg_execute u rows s = (s', Err) -> pg_rows s' = pg_rows s;
  pg_execute_twice : forall u set rows s,
    up_action u = DoUpdate set -> up_where u = None ->
    ~ NoDup (up_key u <$> rows) -> (pg_execute u rows s).2 = Err;
}.

(** [diesel::debug_query(..).to_string()]: the SQL text followed by the
    values of the bind parameters. *)
Class DebugQuery (row key : Type) := debug_query : Upsert row key -> list row -> string.

(** ** Chunk sizes *)

(** [#[derive(FieldCount)]]. *)
Class FieldCount (T : Type) := field_count : nat.

Definition MAX_DIESEL_PARAM_SIZE : nat := Z.to_nat (65535 / 2).

Definition get_config_table_chunk_size (T : Type) `{FieldCount T} (table_name : string)
    (per_table_chunk_sizes : gmap string nat) : outcome nat :=
  match per_table_chunk_sizes !! table_name with
  | Some n => Ret n
  | None => if decide (field_count (T := T) = 0) then Panic
            else Ret (MAX_DIESEL_PARAM_SIZE / field_count (T := T))
  end.

(** ** Executing *)

Definition clean_data_for_db {T} `{Serialize T, Deserialize T} (items : list T)
    (should_remove_null_bytes : bool) : outcome (list T) :=
  if should_remove_null_bytes then traverse remove_null_bytes items else Ret items.

Section Execute.
Context {row key : Type} `{PgTable row key, DebugQuery row key}.

(** The condition sent with the query: dropped when the printed query
    contains the word [where]. *)
Definition additional_where (u : Upsert row key) (rows : list row)
  : option (row -> row -> bool) :=
  if contains "where" (to_lowercase (debug_query u rows)) then None else up_where u.

Definition execute_with_better_error (u : Upsert row key) (rows : list row) (s : pg_state)
  : pg_state * result nat :=
  pg_execute (set_where u (additional_where u rows)) rows s.

(** [execute_with_better_error_conn] differs in using a given connection. *)
Definition execute_with_better_error_conn (u : Upsert row key) (rows : list row) (s : pg_state)
  : pg_state * result nat :=
  pg_execute (set_where u (additional_where u rows)) rows s.

Context `{Serialize row, Deserialize row}.

(** [execute_or_retry_cleaned] as a task: it runs one statement, and after a
    failure a second one on the cleaned items. *)
Inductive WriteTask :=
| FirstTry (items : list row)
| Retry (cleaned : list row)
| Finished (res : result unit)
| TaskPanicked.

Definition write_task_step (u : Upsert row key) (t : WriteTask) (s : pg_state)
  : WriteTask * pg_state :=
  match t with
  | FirstTry items =>
      let '(s', r) := execute_with_better_error u items s in
      match r with
      | Ok _ => (Finished (Ok tt), s')
      | Err => match clean_data_for_db items true with
               | Ret cleaned => (Retry cleaned, s')
               | Panic => (TaskPanicked, s')
               end
      end
  | Retry cleaned =>
      let '(s', r) := execute_with_better_error u cleaned s in
      match r with
      | Ok _ => (Finished (Ok tt), s')
      | Err => (Finished Err, s')
      end
  | _ => (t, s)
  end.

Definition task_done (t : WriteTask) : bool :=
  match t with Finished _ | TaskPanicked => true | _ => false end.

(** The tasks of [execute_in_chunks] run concurrently: any task that is not
    finished may take the next step. *)
Inductive tasks_step (u : Upsert row key)
  : list WriteTask * pg_state -> list WriteTask * pg_state -> Prop :=
| tasks_step_at i ts t s t' s' :
    ts !! i = Some t -> task_done t = false -> write_task_step u t s = (t', s') ->
    tasks_step u (ts, s) (<[i := t']> ts, s').

(** [execute_in_chunks]: one task per chunk.  The call panics as soon as a
    task has; otherwise it waits for all tasks and returns an error if any of
    them failed. *)
Definition spawn_chunks (items : list row) (chunk_size : nat) : outcome (list WriteTask) :=
  if decide (chunk_size = 0) then Panic else Ret (FirstTry <$> chunks chunk_size items).

Definition task_failed (t : WriteTask) : bool :=
  match t with Finished Err => true | _ => false end.

Definition join_tasks (ts : list WriteTask) (res : outcome (result unit)) : Prop :=
  (TaskPanicked ∈ ts /\ res = Panic) \/
  (~ (TaskPanicked ∈ ts) /\ forallb task_done ts = true /\
   res = Ret (if existsb task_failed ts then Err else Ok tt)).

Definition execute_in_chunks (u : Upsert row key) (items : list row) (chunk_size : nat)
    (s s' : pg_state) (res : outcome (result unit)) : Prop :=
  match spawn_chunks items chunk_size with
  | Panic => s' = s /\ res = Panic
  | Ret ts => exists ts', rtc (tasks_step u) (ts, s) (ts', s') /\ join_tasks ts' res
  end.
End Execute.

(** ** Rows with distinct keys *)

Section Rows.
Context {row key : Type} `{Countable key}.
Implicit Types (u : Upsert row key) (t : gmap key row).

Lemma upsert_rows_app u t l1 l2 :
  upsert_rows u t (l1 ++ l2) = upsert_rows u (upsert_rows u t l1) l2.
Proof. apply foldl_app. Qed.

Lemma upsert_row_ne u t r k : k ≠ up_key u r -> upsert_row u t r !! k = t !! k.
Proof.
  intros Hk. unfold upsert_row. repeat case_match; try done; by rewrite lookup_insert_ne.
Qed.

(** What one row does at its own key depends on the old entry only. *)
Definition upsert_at u (old : option row) (r : row) : option row :=
  match old with
  | None => Some r
  | Some o => match up_action u with
              | DoNothing => Some o
              | DoUpdate set => if from_option (fun w => w o r) true (up_where u)
                                then Some (set o r) else Some o
              end
  end.

Lemma upsert_row_lookup u t r k :
  upsert_row u t r !! k = if decide (up_key u r = k) then upsert_at u (t !! k) r else t !! k.
Proof.
  case_decide as Hk; [|by apply upsert_row_ne]. subst. unfold upsert_row, upsert_at.
  destruct (t !! up_key u r) eqn:Ht; [|by rewrite lookup_insert_eq].
  repeat case_match; rewrite ?lookup_insert_eq; done.
Qed.

Lemma upsert_row_comm_ne u t a b :
  up_key u a ≠ up_key u b -> upsert_row u (upsert_row u t a) b = upsert_row u (upsert_row u t b) a.
Proof.
  intros Hne. apply map_eq. intros k. rewrite !upsert_row_lookup.
  repeat case_decide; congruence.
Qed.

Lemma upsert_rows_perm u t l1 l2 :
  NoDup (up_key u <$> l1) -> l1 ≡ₚ l2 -> upsert_rows u t l1 = upsert_rows u t l2.
Proof.
  intros Hn. apply foldl_perm. intros a b c Ha Hb.
  destruct (decide (up_key u a = up_key u b)) as [Heq|Hne]; [|by apply upsert_row_comm_ne].
  by rewrite (NoDup_fmap_key_inj (up_key u) l1 a b).
Qed.

Lemma upsert_row_some u t r k : is_Some (t !! k) -> is_Some (upsert_row u t r !! k).
Proof.
  intros [o Ho]. rewrite upsert_row_lookup, Ho. case_decide; [|by eexists].
  unfold upsert_at. repeat case_match; by eexists.
Qed.

Lemma upsert_rows_some u t l k : is_Some (t !! k) -> is_Some (upsert_rows u t l !! k).
Proof.
  revert t. induction l as [|r l IH]; intros t Ht; simpl; [done|]. by apply IH, upsert_row_some.
Qed.

Lemma upsert_rows_dom u t l r : r ∈ l -> is_Some (upsert_rows u t l !! up_key u r).
Proof.
  revert t. induction l as [|x l IH]; intros t Hr; [by apply elem_of_nil in Hr|].
  apply elem_of_cons in Hr as [->|Hr]; simpl; [|by apply IH].
  apply upsert_rows_some. rewrite upsert_row_lookup, decide_True by done.
  unfold upsert_at. repeat case_match; by eexists.
Qed.

Lemma upsert_rows_notin u t l k : k ∉ up_key u <$> l -> upsert_rows u t l !! k = t !! k.
Proof.
  revert t. induction l as [|r l IH]; intros t Hk; simpl in *; [done|].
  apply not_elem_of_cons in Hk as [Hr Hl]. rewrite IH by done. by apply upsert_row_ne.
Qed.
End Rows.

(** ** Current-state tables: the newest version wins

    The [current_*] tables keep one row per key and update it only with a row
    of at least the same version.  [lww_rank] is that version (negated for a
    table that keeps the oldest), [lww_static] the columns the update leaves
    alone. *)
Class Lww {row key : Type} (u : Upsert row key) := {
  lww_rank : row -> Z;
  lww_static_type : Type;
  lww_static : row -> lww_static_type;
  lww_set : row -> row -> row;
  lww_action : up_action u = DoUpdate lww_set;
  lww_where : match up_where u with
              | Some w => forall old new, w old new = bool_decide (lww_rank old <= lww_rank new)%Z
              | None => False
              end;
  lww_set_full : forall old new, up_key u old = up_key u new ->
    lww_static old = lww_static new -> lww_set old new = new;
}.

Section LwwTheory.
Context {row key : Type} `{Countable key} (u : Upsert row key) `{!Lww u}.
Implicit Types (t : gmap key row) (l : list row).

(** Rows of one key agree on the columns that are never updated, and rows of
    one key and version are the same row. *)
Definition lww_coherent (l : list row) : Prop :=
  forall a b, a ∈ l -> b ∈ l -> up_key u a = up_key u b ->
    lww_static a = lww_static b /\ (lww_rank a = lww_rank b -> a = b).
(** The table was filled by rows of this kind. *)
Definition lww_table (t : gmap key row) (l : list row) : Prop :=
  forall k o r, t !! k = Some o -> r ∈ l -> up_key u r = k ->
    up_key u o = k /\ lww_static o = lww_static r.

Definition newest (old : option row) (r : row) : option row :=
  match old with
  | None => Some r
  | Some o => if decide (lww_rank o <= lww_rank r)%Z then Some r else Some o
  end.

Lemma upsert_at_newest old r :
  from_option (fun o => up_key u o = up_key u r /\ lww_static o = lww_static r) True old ->
  upsert_at u old r = newest old r.
Proof.
  destruct old as [o|]; simpl; [|done]. intros [Hk Hs].
  rewrite lww_action, (lww_set_full o r) by done.
  pose proof lww_where as Hw. destruct (up_where u) as [w|]; [|done]. simpl. rewrite Hw.
  case_bool_decide; case_decide; done.
Qed.

Lemma newest_comm old a b :
  (lww_rank a = lww_rank b -> a = b) -> newest (newest old a) b = newest (newest old b) a.
Proof.
  intros Hab. unfold newest. destruct old as [o|]; repeat (case_decide || simpl);
    try done; try (exfalso; lia); f_equal; solve [lia | apply Hab; lia | symmetry; apply Hab; lia].
Qed.

Lemma newest_idem old a : newest (newest old a) a = newest old a.
Proof. unfold newest. destruct old; repeat (case_decide || simpl); done || lia. Qed.

(** The table as a fold of [newest] at each key. *)
Definition newest_rows (k : key) (old : option row) (l : list row) : option row :=
  foldl newest old (filter (fun r => up_key u r = k) l).

Lemma upsert_rows_newest t l k :
  lww_coherent l -> lww_table t l ->
  upsert_rows u t l !! k = newest_rows k (t !! k) l.
Proof.
  unfold newest_rows. revert t. induction l as [|r l IH]; intros t Hc Ht; simpl; [done|].
  rewrite IH.
  - rewrite upsert_row_lookup, filter_cons. case_decide as Hk; [|done]. simpl. f_equal.
    apply upsert_at_newest. destruct (t !! k) as [o|] eqn:Ho; [simpl|done]. subst.
    apply (Ht (up_key u r)); [done|by left|done].
  - intros a b Ha Hb. apply Hc; by right.
  - intros k' o r' Ho Hr' Hk'. rewrite upsert_row_lookup in Ho. case_decide as Hkr.
    + assert (up_key u r = up_key u r') as Hrr by congruence. clear Hkr. subst k'.
      rewrite upsert_at_newest in Ho.
      2: { destruct (t !! up_key u r') as [o'|] eqn:Ho'; [simpl|done].
           rewrite Hrr. apply (Ht (up_key u r')); [done|by left|done]. }
      destruct (Hc r r') as [Hs _]; [by left|by right|done|].
      unfold newest in Ho. destruct (t !! up_key u r') as [o'|] eqn:Ho'; [case_decide|]; simplify_eq;
        try done. apply (Ht (up_key u r')); [done|by right|done].
    + apply (Ht k'); [done|by right|done].
Qed.

Lemma lww_coherent_perm l1 l2 : l1 ≡ₚ l2 -> lww_coherent l1 -> lww_coherent l2.
Proof. intros Hp Hc a b. rewrite <- !Hp. apply Hc. Qed.

Lemma lww_table_perm t l1 l2 : l1 ≡ₚ l2 -> lww_table t l1 -> lww_table t l2.
Proof. intros Hp Ht k o r Ho. rewrite <- Hp. by apply Ht. Qed.

Lemma newest_rows_perm k old l1 l2 :
  lww_coherent l1 -> l1 ≡ₚ l2 -> newest_rows k old l1 = newest_rows k old l2.
Proof.
  intros Hc Hp. unfold newest_rows. apply foldl_perm; [|by rewrite Hp].
  intros a b c [Hka Ha]%list_elem_of_filter [Hkb Hb]%list_elem_of_filter. apply newest_comm.
  apply Hc; congruence.
Qed.

Lemma lww_rows_perm t l1 l2 :
  lww_coherent l1 -> lww_table t l1 -> l1 ≡ₚ l2 ->
  upsert_rows u t l1 = upsert_rows u t l2.
Proof.
  intros Hc Ht Hp. apply map_eq. intros k.
  rewrite !upsert_rows_newest by eauto using lww_coherent_perm, lww_table_perm.
  by apply newest_rows_perm.
Qed.

Lemma lww_empty_perm l1 l2 :
  lww_coherent l1 -> l1 ≡ₚ l2 -> upsert_rows u ∅ l1 = upsert_rows u ∅ l2.
Proof.
  intros Hc Hp. apply lww_rows_perm; [done| |done]. intros k o r Ho. by rewrite lookup_empty in Ho.
Qed.

(** The table that [order] leaves is the one [all] leaves, and holds for each
    key the row of the largest rank. *)
Definition settles (order all : list row) : Prop :=
  upsert_rows u ∅ order = upsert_rows u ∅ all /\
  forall k r, upsert_rows u ∅ order !! k = Some r ->
    r ∈ order /\ up_key u r = k /\
    forall r', r' ∈ order -> up_key u r' = k -> (lww_rank r' <= lww_rank r)%Z.

Lemma newest_absorbs old l r :
  lww_coherent l -> r ∈ l -> (forall a, a ∈ l -> up_key u a = up_key u r) ->
  newest (foldl newest old l) r = foldl newest old l.
Proof.
  intros Hc [l' Hl']%elem_of_Permutation Hk.
  assert (l ≡ₚ l' ++ [r]) as Hp by (rewrite Hl'; solve_Permutation).
  rewrite (foldl_perm newest old l (l' ++ [r])), foldl_app; simpl; [apply newest_idem| |done].
  intros a b c Ha Hb. apply newest_comm. apply Hc; [done..|].
  by rewrite (Hk a Ha), (Hk b Hb).
Qed.

(** replaying rows that were already applied, as a restart after a crash
    does, leaves a current-state table unchanged. *)
Theorem lww_replay t l l' :
  lww_coherent l -> lww_table t l -> l' ⊆ l ->
  upsert_rows u (upsert_rows u t l) l' = upsert_rows u t l.
Proof.
  intros Hc Ht Hsub. rewrite <- upsert_rows_app.
  assert (forall a, a ∈ l ++ l' -> a ∈ l) as Hin by set_solver.
  apply map_eq. intros k. rewrite !upsert_rows_newest; try done.
  2: intros a b Ha Hb; apply Hc; auto.
  2: intros j o r Ho Hr; apply Ht; auto.
  unfold newest_rows. rewrite filter_app, foldl_app.
  assert (Forall (fun r => r ∈ filter (fun r => up_key u r = k) l)
            (filter (fun r => up_key u r = k) l')) as Hf.
  { apply Forall_forall. intros r [? ?]%list_elem_of_filter. apply list_elem_of_filter. auto. }
  revert Hf. generalize (filter (fun r => up_key u r = k) l') as m. intros m Hf.
  induction Hf as [|r m Hr _ IH]; simpl; [done|]. rewrite newest_absorbs; [done|..|done|].
  - intros a b [_ Ha]%list_elem_of_filter [_ Hb]%list_elem_of_filter. by apply Hc.
  - intros a [-> _]%list_elem_of_filter. by apply list_elem_of_filter in Hr as [-> _].
Qed.

Lemma newest_fold_max l r :
  foldl newest None l = Some r -> r ∈ l /\ Forall (fun a => lww_rank a <= lww_rank r)%Z l.
Proof.
  revert r. induction l as [|a l IH] using rev_ind; intros r; [done|].
  rewrite foldl_app. simpl. unfold newest at 1. destruct (foldl newest None l) as [m|] eqn:Hm.
  - destruct (IH m) as [Hin Hall]; [done|]. case_decide; intros; simplify_eq; split.
    + set_solver.
    + apply Forall_app. split; [|by constructor].
      eapply Forall_impl; [done|]. intros; simpl in *; lia.
    + set_solver.
    + apply Forall_app. split; [done|]. constructor; [lia|done].
  - intros; simplify_eq. split; [set_solver|]. apply Forall_app. split; [|by constructor].
    destruct l as [|b l]; [done|]. exfalso. revert Hm. clear. simpl.
    assert (forall c, exists d, foldl newest (Some c) l = Some d) as H; [|destruct (H b); congruence].
    induction l as [|e l IH]; intros c; simpl; [eauto|]. case_decide; apply IH.
Qed.

Lemma lww_rows_newest l k r :
  lww_coherent l -> upsert_rows u ∅ l !! k = Some r ->
  r ∈ l /\ up_key u r = k /\
  forall r', r' ∈ l -> up_key u r' = k -> (lww_rank r' <= lww_rank r)%Z.
Proof.
  intros Hc. rewrite upsert_rows_newest; [|done|intros ???; by rewrite lookup_empty].
  rewrite lookup_empty. intros [Hin Hmax]%newest_fold_max.
  apply list_elem_of_filter in Hin as [<- Hin]. split_and!; [done..|].
  intros r' Hr' Hk. rewrite Forall_forall in Hmax. apply Hmax. by apply list_elem_of_filter.
Qed.

Lemma lww_settles order all : lww_coherent order -> order ≡ₚ all -> settles order all.
Proof.
  intros Hc Hp. split; [by apply lww_empty_perm|]. intros k r. by apply lww_rows_newest.
Qed.

(** starting from an empty table, the row kept for a key is one of the
    written rows with the largest version for that key. *)
Theorem lww_keeps_newest l k r :
  lww_coherent l -> upsert_rows u ∅ l !! k = Some r ->
  r ∈ l /\ up_key u r = k /\
  forall r', r' ∈ l -> up_key u r' = k -> (lww_rank r' <= lww_rank r)%Z.
Proof. apply lww_rows_newest. Qed.

(** *** Columns that are never updated

    When an update leaves a column alone and rows of one key differ in it, the
    table still settles in the other columns: [erase] sets the column to a
    fixed value. *)
Class Erasure (erase : row -> row) : Prop := {
  erase_key : forall r, up_key u (erase r) = up_key u r;
  erase_rank : forall r, lww_rank (erase r) = lww_rank r;
  erase_static : forall a b, lww_static (erase a) = lww_static (erase b);
  erase_set : forall a b, erase (lww_set a b) = lww_set (erase a) (erase b);
}.

Lemma upsert_row_erase (erase : row -> row) `{!Erasure erase} t r :
  erase <$> upsert_row u t r = upsert_row u (erase <$> t) (erase r).
Proof.
  apply map_eq. intros k. rewrite lookup_fmap, !upsert_row_lookup, lookup_fmap, erase_key.
  case_decide; [|done]. destruct (t !! k) as [o|]; simpl; [|done].
  unfold upsert_at. rewrite lww_action. pose proof lww_where as Hw.
  destruct (up_where u) as [w|]; [|done]. simpl. rewrite !Hw, !erase_rank.
  case_bool_decide; simpl; [|done]. by rewrite erase_set.
Qed.
Lemma upsert_rows_erase (erase : row -> row) `{!Erasure erase} t l :
  erase <$> upsert_rows u t l = upsert_rows u (erase <$> t) (erase <$> l).
Proof.
  revert t. induction l as [|r l IH]; intros t; csimpl; [done|]. by rewrite IH, upsert_row_erase.
Qed.

(** [settles] up to the erased column. *)
Definition settles_up_to (erase : row -> row) (order all : list row) : Prop :=
  erase <$> upsert_rows u ∅ order = erase <$> upsert_rows u ∅ all /\
  forall k r, upsert_rows u ∅ order !! k = Some r -> exists r0,
    r0 ∈ order /\ erase r = erase r0 /\ up_key u r0 = k /\
    forall r', r' ∈ order -> up_key u r' = k -> (lww_rank r' <= lww_rank r0)%Z.

Lemma lww_settles_up_to (erase : row -> row) `{!Erasure erase} order all :
  lww_coherent (erase <$> order) -> order ≡ₚ all -> settles_up_to erase order all.
Proof.
  intros Hc Hp. split.
  - rewrite !(upsert_rows_erase erase), fmap_empty. apply lww_empty_perm; [done|]. by rewrite Hp.
  - intros k r Hk. assert ((erase <$> upsert_rows u ∅ order) !! k = Some (erase r)) as He.
    { by rewrite lookup_fmap, Hk. }
    rewrite (upsert_rows_erase erase), fmap_empty in He.
    apply lww_rows_newest in He as (Hin & Hkey & Hmax); [|done].
    apply list_elem_of_fmap in Hin as (r0 & He0 & Hr0). exists r0. split_and!; [done..| |].
    + by rewrite <- (erase_key r0), <- He0.
    + intros r' Hr' Hk'. rewrite <- (erase_rank r'), <- (erase_rank r0), <- He0.
      apply Hmax; [by apply list_elem_of_fmap_2|]. by rewrite erase_key.
Qed.
End LwwTheory.

(** ** Chunked execution *)

Lemma concat_perm {A} (l1 l2 : list (list A)) : l1 ≡ₚ l2 -> concat l1 ≡ₚ concat l2.
Proof. induction 1; simpl; [done|by f_equiv|solve_Permutation|by etrans]. Qed.

Section ChunkedWrites.
Context {row key : Type} `{PgLaws row key, DebugQuery row key, Serialize row, Deserialize row}.
Variable u : Upsert row key.

(** Cleaning a row does not change its key. *)
Definition clean_keeps_key (r : row) : Prop :=
  forall r', remove_null_bytes r = Ret r' -> up_key u r' = up_key u r.

Lemma execute_ok rows s s' n :
  additional_where u rows = up_where u ->
  NoDup (up_key u <$> rows) -> execute_with_better_error u rows s = (s', Ok n) ->
  pg_rows s' = upsert_rows u (pg_rows s) rows.
Proof.
  unfold execute_with_better_error. intros -> Hn He.
  apply pg_execute_ok in He; [by destruct u|done].
Qed.

Lemma execute_err rows s s' :
  execute_with_better_error u rows s = (s', Err) -> pg_rows s' = pg_rows s.
Proof. apply pg_execute_err. Qed.

Lemma clean_keys items cleaned :
  Forall clean_keeps_key items ->
  clean_data_for_db items true = Ret cleaned -> up_key u <$> cleaned = up_key u <$> items.
Proof.
  intros Hk Hc%traverse_Ret. induction Hc as [|r r' items cleaned Hr _ IH]; [done|].
  apply Forall_cons in Hk as [Hk Hks]. by rewrite !fmap_cons, IH, (Hk r').
Qed.

(** The rows a chunk may commit: itself, or its cleaned form. *)
Definition chunk_rows (c rows : list row) : Prop :=
  rows = c \/ clean_data_for_db c true = Ret rows.

Lemma chunk_rows_keys c rows :
  Forall clean_keeps_key c -> chunk_rows c rows -> up_key u <$> rows = up_key u <$> c.
Proof. intros Hk [->|Hc]; [done|by apply clean_keys]. Qed.

(** No chunk, cleaned or not, prints a query with the word [where] in it; the
    keys within a chunk are distinct and survive the cleaning. *)
Definition chunk_ok (c : list row) : Prop :=
  NoDup (up_key u <$> c) /\ Forall clean_keeps_key c /\
  forall rows, chunk_rows c rows -> additional_where u rows = up_where u.

(** What holds of the tasks while they run, [done] being the committed chunks
    in commit order. *)
Definition task_inv (cs : list (list row)) (done : list (nat * list row)) (ts : list WriteTask) : Prop :=
  NoDup done.*1 /\ length ts = length cs /\
  (forall i rows, (i, rows) ∈ done ->
     ts !! i = Some (Finished (Ok tt)) /\ exists c, cs !! i = Some c /\ chunk_rows c rows) /\
  (forall i t, ts !! i = Some t ->
     match t with
     | FirstTry items => cs !! i = Some items
     | Retry cleaned => exists c, cs !! i = Some c /\ clean_data_for_db c true = Ret cleaned
     | Finished (Ok _) => i ∈ done.*1
     | _ => True
     end).

Lemma task_inv_commit cs done ts i c rows :
  task_inv cs done ts -> cs !! i = Some c -> chunk_rows c rows ->
  (exists t, ts !! i = Some t /\ task_done t = false) ->
  task_inv cs (done ++ [(i, rows)]) (<[i := Finished (Ok tt)]> ts).
Proof.
  intros (Hnd & Hlen & Hdone & Hts) Hc Hcr (t & Ht & Htd).
  assert (i ∉ done.*1) as Hi.
  { intros ([j r] & Hj & Hin)%list_elem_of_fmap. simpl in Hj. subst.
    apply Hdone in Hin as [Hin _]. simpl in Hin. rewrite Ht in Hin. by simplify_eq. }
  split_and!.
  - rewrite fmap_app. apply NoDup_app. split_and!; [done| |by apply NoDup_singleton].
    intros j Hj ->%list_elem_of_singleton. done.
  - by rewrite length_insert.
  - intros j r [Hj|Hj%list_elem_of_singleton]%elem_of_app; simplify_eq.
    + destruct (Hdone j r Hj) as [Hf Hx]. split; [|done]. rewrite list_lookup_insert_ne; [done|].
      intros ->. by rewrite Ht in Hf; simplify_eq.
    + split; [|eauto]. apply list_lookup_insert_eq, lookup_lt_is_Some. eauto.
  - intros j t' Hj. rewrite fmap_app. destruct (decide (i = j)) as [->|Hne].
    + rewrite list_lookup_insert_eq in Hj by (apply lookup_lt_is_Some; eauto).
      simplify_eq. set_solver.
    + rewrite list_lookup_insert_ne in Hj by done. specialize (Hts j t' Hj).
      destruct t' as [| |[|]|]; try done. set_solver.
Qed.

(** A failed statement, or a panic, commits nothing. *)
Lemma task_inv_keep cs done ts i t t' :
  task_inv cs done ts -> ts !! i = Some t -> task_done t = false -> t' ≠ Finished (Ok tt) ->
  match t' with
  | FirstTry _ => False
  | Retry cleaned => exists c, cs !! i = Some c /\ clean_data_for_db c true = Ret cleaned
  | _ => True
  end ->
  task_inv cs done (<[i := t']> ts).
Proof.
  intros (Hnd & Hlen & Hdone & Hts) Ht Htd Hne Hm.
  split_and!; [done|by rewrite length_insert|..].
  - intros j r Hj. destruct (Hdone j r Hj) as [Hf Hx]. split; [|done].
    rewrite list_lookup_insert_ne; [done|]. intros ->. by rewrite Ht in Hf; simplify_eq.
  - intros j t'' Hj. destruct (decide (i = j)) as [->|Hij].
    + rewrite list_lookup_insert_eq in Hj by (apply lookup_lt_is_Some; eauto).
      simplify_eq. by destruct t'' as [| |[[]|]|].
    + rewrite list_lookup_insert_ne in Hj by done. by apply Hts.
Qed.

(** One step of the tasks commits the rows of at most one chunk. *)
Lemma task_inv_step cs done ts s ts' s' :
  Forall chunk_ok cs -> task_inv cs done ts -> tasks_step u (ts, s) (ts', s') ->
  exists new, task_inv cs (done ++ new) ts' /\ pg_rows s' = upsert_rows u (pg_rows s) (concat new.*2).
Proof.
  intros Hn Hi Hstep. inversion Hstep as [i ts0 t s0 t' s0' Ht Hd Hw]; subst.
  pose proof Hi as (_ & _ & _ & Hts). specialize (Hts i t Ht).
  assert (forall c rows n, cs !! i = Some c -> chunk_rows c rows ->
    execute_with_better_error u rows s = (s', Ok n) ->
    exists new, task_inv cs (done ++ new) (<[i := Finished (Ok tt)]> ts)  /\
      pg_rows s' = upsert_rows u (pg_rows s) (concat new.*2)) as Hcommit.
  { intros c rows n Hc Hcr He. exists [(i, rows)]. split; [by eapply task_inv_commit; eauto|].
    rewrite Forall_lookup in Hn. destruct (Hn i c Hc) as (Hk & Hck & Hwh).
    rewrite <- (chunk_rows_keys c rows) in Hk by done. simpl. rewrite app_nil_r.
    by eapply execute_ok; eauto. }
  assert (forall t'', t'' ≠ Finished (Ok tt) ->
    match t'' with
    | FirstTry _ => False
    | Retry cleaned => exists c, cs !! i = Some c /\ clean_data_for_db c true = Ret cleaned
    | _ => True
    end -> pg_rows s' = pg_rows s ->
    exists new, task_inv cs (done ++ new) (<[i := t'']> ts)  /\
      pg_rows s' = upsert_rows u (pg_rows s) (concat new.*2)) as Hkeep.
  { intros t'' Hne Hm Hs. exists []. rewrite app_nil_r. split; [by eapply task_inv_keep|done]. }
  destruct t as [items|cleaned| |]; try done; simpl in Hw.
  - destruct (execute_with_better_error u items s) as [s1 [n|]] eqn:He; simplify_eq.
    + eapply Hcommit; [done|by left|done].
    + apply execute_err in He.
      destruct (traverse remove_null_bytes items) as [cl|] eqn:Hc; simplify_eq; apply Hkeep; eauto; done.
  - destruct Hts as (c & Hc & Hcl).
    destruct (execute_with_better_error u cleaned s) as [s1 [n|]] eqn:He; simplify_eq.
    + eapply Hcommit; [done|by right|done].
    + apply execute_err in He. apply Hkeep; eauto; done.
Qed.

Definition chunk_inv (cs : list (list row)) (s0 : pg_state) (done : list (nat * list row))
    (st : list WriteTask * pg_state) : Prop :=
  pg_rows st.2 = upsert_rows u (pg_rows s0) (concat done.*2) /\ task_inv cs done st.1.

Lemma chunk_inv_steps cs s0 done st st' :
  Forall chunk_ok cs ->
  chunk_inv cs s0 done st -> rtc (tasks_step u) st st' -> exists done', chunk_inv cs s0 done' st'.
Proof.
  intros Hn Hi Hr. revert done Hi.
  induction Hr as [|[ts1 s1] [ts2 s2] st3 Hs _ IH]; intros done [Hrows Hi]; [by exists done|].
  destruct (task_inv_step cs done ts1 s1 ts2 s2) as (new & Hi' & Hrows'); [done..|].
  apply (IH (done ++ new)). split; [|done]. simpl in *.
  by rewrite Hrows', Hrows, fmap_app, concat_app, upsert_rows_app.
Qed.

(** Once every task has succeeded, the committed chunks are all chunks. *)
Lemma task_inv_complete cs done ts :
  task_inv cs done ts -> Forall (fun t => t = Finished (Ok tt)) ts ->
  exists eff, Forall2 chunk_rows cs eff /\ concat done.*2 ≡ₚ concat eff.
Proof.
  intros (Hnd & Hlen & Hdone & Hts) Hall.
  set (m := list_to_map done : gmap nat (list row)).
  exists ((fun i => default [] (m !! i)) <$> seq 0 (length cs)).
  assert (forall i, i < length cs -> exists c rows, cs !! i = Some c /\ chunk_rows c rows /\
            m !! i = Some rows /\ (i, rows) ∈ done) as Hi.
  { intros i Hi. rewrite <- Hlen in Hi. apply lookup_lt_is_Some in Hi as [t Ht].
    pose proof (Hts i t Ht) as Hd. rewrite Forall_lookup in Hall. rewrite (Hall i t Ht) in Hd.
    apply list_elem_of_fmap in Hd as ([i' rows] & -> & Hin). destruct (Hdone _ _ Hin) as (_ & c & ? & ?).
    exists c, rows. split_and!; try done. by apply elem_of_list_to_map. }
  split.
  - apply Forall2_same_length_lookup. rewrite length_fmap, length_seq. split; [done|].
    intros i c rows Hc (j & -> & Hj)%list_lookup_fmap_Some. apply lookup_seq in Hj as [-> Hlt].
    destruct (Hi i Hlt) as (c' & rows' & Hc' & Hr & Hm & _). simpl. rewrite Hm. by simplify_eq/=.
  - apply concat_perm.
    assert (done ≡ₚ (fun i => (i, default [] (m !! i))) <$> seq 0 (length cs)) as Hp.
    { apply NoDup_Permutation; [by eapply NoDup_fmap_1| |].
      - apply NoDup_fmap_2; [|apply NoDup_seq]. by intros ?? [=].
      - intros [i rows]. rewrite list_elem_of_fmap. setoid_rewrite elem_of_seq. split.
        + intros Hin. exists i. destruct (Hdone i rows Hin) as (_ & c & Hc & _).
          apply lookup_lt_Some in Hc. split; [|lia].
          assert (m !! i = Some rows) as -> by (by apply elem_of_list_to_map). done.
        + intros (j & [= -> ->] & Hj). destruct (Hi j) as (c & rows' & _ & _ & -> & ?); [lia|done]. }
    rewrite Hp. rewrite <- list_fmap_compose. done.
Qed.

Lemma task_inv_init cs : task_inv cs [] (FirstTry <$> cs).
Proof.
  split_and!; simpl; [constructor|by rewrite length_fmap|by intros ?? ?%elem_of_nil|].
  by intros i t (c & -> & Hc)%list_lookup_fmap_Some.
Qed.

Lemma join_tasks_ok (ts : list (@WriteTask row)) : join_tasks ts (Ret (Ok tt)) -> Forall (fun t => t = Finished (Ok tt)) ts.
Proof.
  intros [[_ ?]|(Hp & Hd & Hf)]; [done|]. apply Forall_forall. intros t Ht.
  rewrite forallb_forall in Hd. specialize (Hd t (proj1 (list_elem_of_In _ _) Ht)).
  destruct (existsb task_failed ts) eqn:He; [done|].
  destruct t as [| |[[]|]|]; try done. exfalso.
  assert (existsb task_failed ts = true) as Ht'; [|congruence].
  apply existsb_exists. exists (Finished Err). by rewrite <- list_elem_of_In.
Qed.

Lemma concat_chunk_keys cs eff :
  Forall chunk_ok cs ->
  Forall2 chunk_rows cs eff -> up_key u <$> concat eff = up_key u <$> concat cs.
Proof.
  intros Hok. induction 1 as [|c rows cs eff Hc _ IH]; simpl; [done|].
  apply Forall_cons in Hok as [(_ & Hck & _) Hok].
  by rewrite !fmap_app, IH, (chunk_rows_keys c rows).
Qed.

Lemma spawned_chunks_ok items chunk_size :
  0 < chunk_size -> NoDup (up_key u <$> items) -> Forall clean_keeps_key items ->
  (forall c rows, c ∈ chunks chunk_size items -> chunk_rows c rows -> additional_where u rows = up_where u) ->
  Forall chunk_ok (chunks chunk_size items).
Proof.
  intros Hpos Hn Hck Hw. apply Forall_forall. intros c Hc.
  rewrite <- (chunks_concat chunk_size items), Forall_concat, Forall_forall in Hck by lia.
  split_and!; [|by apply Hck|by intros; eapply Hw].
  rewrite <- (chunks_concat chunk_size items) in Hn by lia.
  apply list_elem_of_split in Hc as (l1 & l2 & Hl). rewrite Hl in Hn.
  rewrite concat_app, !fmap_app in Hn. simpl in Hn. rewrite fmap_app in Hn.
  by apply NoDup_app in Hn as (_ & _ & [? _]%NoDup_app).
Qed.

Lemma execute_in_chunks_rows items chunk_size s s' :
  NoDup (up_key u <$> items) -> Forall clean_keeps_key items ->
  (forall c rows, c ∈ chunks chunk_size items -> chunk_rows c rows ->
     additional_where u rows = up_where u) ->
  execute_in_chunks u items chunk_size s s' (Ret (Ok tt)) ->
  exists eff, Forall2 chunk_rows (chunks chunk_size items) eff /\
    pg_rows s' = upsert_rows u (pg_rows s) (concat eff).
Proof.
  intros Hn Hck Hw Hex. unfold execute_in_chunks, spawn_chunks in Hex.
  destruct (decide (chunk_size = 0)) as [|Hpos]; [naive_solver|].
  destruct Hex as (ts' & Hsteps & Hjoin).
  assert (Forall chunk_ok (chunks chunk_size items)) as Hok by (apply spawned_chunks_ok; [lia|done..]).
  destruct (chunk_inv_steps (chunks chunk_size items) s [] (FirstTry <$> chunks chunk_size items, s)
              (ts', s')) as [dn Hd]; [done|split; [done|apply task_inv_init]|done|].
  destruct (task_inv_complete _ _ _ (proj2 Hd)) as (eff & Heff & Hp).
  { by apply join_tasks_ok. }
  exists eff. split; [done|]. destruct Hd as (Hrows & _). simpl in Hrows. rewrite Hrows.
  apply upsert_rows_perm; [|done]. rewrite Hp, (concat_chunk_keys _ _ Hok Heff).
  by rewrite chunks_concat by lia.
Qed.

(** C8: [execute_in_chunks] is one upsert.  If the rows have distinct keys,
    cleaning keeps their keys, and no printed query contains the word [where], then
    a call that returns success has stored exactly the upsert of all items in
    chunk order, each chunk as given or cleaned, whatever the interleaving of
    its tasks. *)
Theorem execute_in_chunks_effect items chunk_size s s' :
  NoDup (up_key u <$> items) -> Forall clean_keeps_key items ->
  (forall c rows, c ∈ chunks chunk_size items -> chunk_rows c rows ->
     additional_where u rows = up_where u) ->
  execute_in_chunks u items chunk_size s s' (Ret (Ok tt)) ->
  exists eff, Forall2 chunk_rows (chunks chunk_size items) eff /\
    pg_rows s' = upsert_rows u (pg_rows s) (concat eff).
Proof.
  apply execute_in_chunks_rows.
Qed.

(** Every key of the items is in the table after a successful call. *)
Lemma execute_in_chunks_keys items chunk_size s s' :
  NoDup (up_key u <$> items) -> Forall clean_keeps_key items ->
  (forall c rows, c ∈ chunks chunk_size items -> chunk_rows c rows ->
     additional_where u rows = up_where u) ->
  execute_in_chunks u items chunk_size s s' (Ret (Ok tt)) ->
  Forall (fun r => is_Some (pg_rows s' !! up_key u r)) items.
Proof.
  intros Hn Hck Hw Hex. pose proof Hex as Hex'.
  apply execute_in_chunks_rows in Hex as (eff & Heff & ->); try done.
  assert (0 < chunk_size) as Hpos.
  { unfold execute_in_chunks, spawn_chunks in Hex'. case_decide; [naive_solver|lia]. }
  assert (up_key u <$> concat eff = up_key u <$> items) as Hk.
  { rewrite <- (chunks_concat chunk_size items Hpos), Forall_concat in Hck.
    rewrite <- (chunks_concat chunk_size items Hpos) at 1. clear -Heff Hck.
    induction Heff as [|c rows cs eff Hc _ IH]; simpl; [done|].
    apply Forall_cons in Hck as [Hck Hcs]. rewrite !fmap_app, IH by done.
    by rewrite (chunk_rows_keys c rows). }
  apply Forall_forall. intros r Hr.
  assert (up_key u r ∈ up_key u <$> concat eff) as (r' & -> & Hr')%list_elem_of_fmap
    by (rewrite Hk; by apply list_elem_of_fmap_2).
  by apply upsert_rows_dom.
Qed.

(** ** One statement with a repeated key *)

(** A write of one chunk that repeats a key under an unconditional
    [DO UPDATE] cannot succeed: the first statement and the retry both fail. *)
Lemma repeated_key_steps set (items : list row) (s : pg_state) (cfg : list WriteTask * pg_state) :
  up_action u = DoUpdate set -> up_where u = None -> ~ NoDup (up_key u <$> items) ->
  Forall clean_keeps_key items ->
  rtc (tasks_step u) ([FirstTry items], s) cfg ->
  exists t : WriteTask, cfg.1 = [t] /\
    match t with
    | FirstTry rows | Retry rows => ~ NoDup (up_key u <$> rows)
    | Finished r => r = Err
    | TaskPanicked => True
    end.
Proof.
  intros Ha Hw Hn Hc Hsteps.
  assert (forall rows s1, ~ NoDup (up_key u <$> rows) ->
            exists s2, execute_with_better_error u rows s1 = (s2, Err)) as Herr.
  { intros rows s1 Hr. unfold execute_with_better_error.
    pose proof (pg_execute_twice (set_where u (additional_where u rows)) set rows s1) as Ht.
    destruct (pg_execute _ _ _) as [s2 r]. exists s2. f_equal. apply Ht; [done| |done].
    simpl. unfold additional_where. rewrite Hw. by destruct (contains _ _). }
  set (P := fun c : list WriteTask * pg_state => exists t, c.1 = [t] /\
    match t with
    | FirstTry rows => rows = items
    | Retry rows => ~ NoDup (up_key u <$> rows)
    | Finished r => r = Err
    | TaskPanicked => True
    end).
  assert (P cfg) as (t & Ht & Hp).
  { refine (rtc_ind_r P ([FirstTry items], s) _ _ cfg Hsteps); [by exists (FirstTry items)|].
    intros c c' _ Hstep (t & Ht & Hp). destruct Hstep as [i ts t0 s0 t' s1 Hi Hd Hst]. simpl in *. subst.
    destruct i as [|i]; [|done]. simplify_eq/=. exists t'. split; [done|].
    destruct t0 as [rows|rows|r|]; try done; unfold write_task_step in Hst.
    - subst. destruct (Herr items s0 Hn) as [s2 He]. rewrite He in Hst.
      destruct (clean_data_for_db items true) as [cl|] eqn:Hcl; simplify_eq; [|done].
      by rewrite (clean_keys _ _ Hc Hcl).
    - destruct (Herr rows s0 Hp) as [s2 He]. rewrite He in Hst. by simplify_eq. }
  exists t. split; [done|]. destruct t; subst; done.
Qed.

Lemma chunks_one {A} n (l : list A) : l ≠ [] -> length l <= n -> chunks n l = [l].
Proof.
  unfold chunks. destruct l as [|x l]; [done|]. intros _ Hl. simpl.
  rewrite take_ge, drop_ge by done. by destruct (length l).
Qed.

Lemma repeated_key_fails set (items : list row) n s s' :
  up_action u = DoUpdate set -> up_where u = None -> ~ NoDup (up_key u <$> items) ->
  Forall clean_keeps_key items -> length items <= n ->
  ~ execute_in_chunks u items n s s' (Ret (Ok tt)).
Proof.
  intros Ha Hw Hn Hc Hl Hex. unfold execute_in_chunks, spawn_chunks in Hex. case_decide; [naive_solver|].
  assert (items ≠ []) as Hne by (intros ->; apply Hn; constructor).
  rewrite (chunks_one n items) in Hex by done. destruct Hex as (ts & Hsteps & Hj).
  eapply repeated_key_steps in Hsteps as (t & Ht & Hp); [|done..]. simpl in Ht. subst ts.
  apply join_tasks_ok, Forall_cons in Hj as [-> _]. discriminate Hp.
Qed.
End ChunkedWrites.

(** ** Writing one table of a processor *)

Section WriteTable.
Context {row key : Type} `{PgTable row key, DebugQuery row key, Serialize row, Deserialize row}.
Context `{FieldCount row}.

(** [execute_in_chunks] with the configured chunk size of the table. *)
Definition write_table (u : Upsert row key) (table_name : string) (sizes : gmap string nat)
    (items : list row) (s s' : pg_state) (res : outcome (result unit)) : Prop :=
  match get_config_table_chunk_size row table_name sizes with
  | Ret n => execute_in_chunks u items n s s' res
  | Panic => s' = s /\ res = Panic
  end.

Context `{!PgLaws row key}.

Lemma write_table_keys u name sizes items s s' :
  NoDup (up_key u <$> items) -> Forall (clean_keeps_key u) items -> up_where u = None ->
  write_table u name sizes items s s' (Ret (Ok tt)) ->
  Forall (fun r => is_Some (pg_rows s' !! up_key u r)) items.
Proof.
  unfold write_table. intros Hn Hc Hw Hwr. destruct (get_config_table_chunk_size _ _ _) as [n|];
    [|naive_solver].
  eapply execute_in_chunks_keys; [done..| |exact Hwr]. intros c rows _ _.
  unfold additional_where. rewrite Hw. by destruct (contains _ _).
Qed.
End WriteTable.

(** A table as a processor uses it: the server, the printer of queries and the
    derived serialization of its rows. *)
Class Table (row key : Type) `{Countable key} := {
  table_pg :: PgTable row key;
  table_debug :: DebugQuery row key;
  table_serialize :: Serialize row;
  table_deserialize :: Deserialize row;
}.
Definition table_state (row key : Type) `{Table row key} : Type := pg_state (row := row) (key := key).

(** The results of concurrently awaited writes: a panic in any of them, else
    the first error. *)
Fixpoint join_results (rs : list (outcome (result unit))) : outcome (result unit) :=
  match rs with
  | [] => Ret (Ok tt)
  | r :: rs =>
      match r, join_results rs with
      | Panic, _ | _, Panic => Panic
      | Ret Err, _ => Ret Err
      | Ret (Ok _), rest => rest
      end
  end.

Lemma join_results_ok rs : join_results rs = Ret (Ok tt) -> Forall (eq (Ret (Ok tt))) rs.
Proof.
  induction rs as [|r rs IH]; simpl; intros Hr; [constructor|].
  destruct r as [[[]|]|], (join_results rs) as [[[]|]|]; try done. constructor; auto.
Qed.

(** ** Parameter limits *)

(** with no configured size, a chunk is not empty and no statement binds
    more than [MAX_DIESEL_PARAM_SIZE] parameters, for a table of at most that
    many columns. *)
Theorem default_chunk_size_bound (T : Type) `{FieldCount T} name (sizes : gmap string nat) (items : list T) :
  sizes !! name = None -> 0 < field_count (T := T) <= MAX_DIESEL_PARAM_SIZE ->
  exists n, get_config_table_chunk_size T name sizes = Ret n /\ 0 < n /\
    Forall (fun c => length c * field_count (T := T) <= MAX_DIESEL_PARAM_SIZE) (chunks n items).
Proof.
  intros Hn Hf. unfold get_config_table_chunk_size. rewrite Hn, decide_False by lia.
  generalize dependent MAX_DIESEL_PARAM_SIZE. intros M Hf.
  assert (0 < M / field_count (T := T)) as Hpos by (apply Nat.div_str_pos; lia).
  eexists. split_and!; [done..|]. eapply Forall_impl; [by apply chunks_bounds|].
  intros c [_ Hc]. etrans; [apply Nat.mul_le_mono_r, Hc|].
  rewrite Nat.mul_comm. apply Nat.Div0.mul_div_le.
Qed.

(** ** The word [where] in the data *)

(** Characters printed as themselves by the debug format of a string. *)
Definition plain_char (c : Ascii.ascii) : bool :=
  let n := Ascii.N_of_ascii c in
  bool_decide ((48 <= n <= 57) \/ (65 <= n <= 90) \/ (97 <= n <= 122) \/ n = 32)%N.
Definition plain_text (s : string) : bool := forallb plain_char (String.list_ascii_of_string s).

(** The documentation of [debug_query]: the values of the bind parameters
    are part of the text. *)
Class DebugQueryLaws (row key : Type) `{DebugQuery row key} := {
  bind_texts : row -> list string;
  debug_query_prints : forall u rows r v,
    r ∈ rows -> v ∈ bind_texts r -> plain_text v = true ->
    exists before after, debug_query u rows = before +:+ v +:+ after;
}.

Lemma printed_where {row key} `{DebugQueryLaws row key} (u : Upsert row key) rows r v :
  r ∈ rows -> v ∈ bind_texts r -> plain_text v = true -> contains "where" (to_lowercase v) = true ->
  additional_where u rows = None.
Proof.
  intros Hr Hv Hp Hc. unfold additional_where.
  destruct (debug_query_prints u rows r v) as (b & a & ->); [done..|].
  rewrite !to_lowercase_app. by rewrite contains_app_l; [|apply contains_app_r].
Qed.

(** C38: the version check is lost when a value contains the word [where].
    A statement for a current-state table whose data mentions the word in any
    case is sent without its condition, so an older row replaces a newer
    one. *)
Theorem where_in_data_overwrites {row key} `{PgLaws row key, !DebugQuery row key, !DebugQueryLaws row key}
    (u : Upsert row key) `{!Lww u} s s' old new v n :
  pg_rows s !! up_key u new = Some old -> (lww_rank new < lww_rank old)%Z ->
  v ∈ bind_texts new -> plain_text v = true -> contains "where" (to_lowercase v) = true ->
  execute_with_better_error u [new] s = (s', Ok n) ->
  pg_rows s' !! up_key u new = Some (lww_set old new) /\
  upsert_row u (pg_rows s) new = pg_rows s.
Proof.
  intros Hold Hlt Hv Hp Hc Hex. unfold execute_with_better_error in Hex.
  rewrite (printed_where u [new] new v) in Hex by (done || set_solver).
  apply pg_execute_ok in Hex; [|apply NoDup_singleton]. rewrite Hex. split.
  - simpl. rewrite (upsert_row_lookup (set_where u None)), decide_True by done.
    unfold upsert_at. simpl. by rewrite Hold, lww_action.
  - unfold upsert_row. rewrite Hold, lww_action. pose proof (lww_where (u := u)) as Hwh.
    destruct (up_where u) as [w|]; [|done]. simpl. rewrite Hwh.
    by rewrite bool_decide_eq_false_2 by lia.
Qed.

(** ** A table in memory *)

Section MemTable.
Context (row key : Type) `{Countable key}.

Definition mem_execute (u : Upsert row key) (rows : list row) (t : gmap key row)
  : gmap key row * result nat :=
  match up_action u with
  | DoNothing => (upsert_rows u t rows, Ok (length rows))
  | DoUpdate _ => if decide (NoDup (up_key u <$> rows))
                  then (upsert_rows u t rows, Ok (length rows)) else (t, Err)
  end.

Definition mem_table : PgTable row key :=
  {| pg_state := gmap key row; pg_rows := id; pg_execute := mem_execute |}.

Lemma mem_laws : @PgLaws row key _ _ mem_table.
Proof.
  split; simpl; unfold mem_execute.
  - intros u rows s s' n Hn. repeat case_match; intros; by simplify_eq/=.
  - intros u rows s s'. repeat case_match; intros; by simplify_eq/=.
  - intros u set rows s -> _ Hn. by rewrite decide_False.
Defined.
End MemTable.

(** ** A small table for the examples

    A key, a version and a text; newer versions replace older ones. *)
Record Note := { note_id : string; note_version : Z; note_text : string }.
#[export] Instance Note_dec : EqDecision Note.
Proof. solve_decision. Defined.

Definition note_upsert : Upsert Note string :=
  {| up_key := note_id; up_action := DoUpdate (fun _ new => new);
     up_where := Some (fun old new => bool_decide (note_version old <= note_version new)%Z) |}.
Definition note_lww : Lww note_upsert.
Proof.
  refine {| lww_rank := note_version; lww_static_type := unit; lww_static := fun _ => tt;
            lww_set := fun _ new => new |}; done.
Defined.
Definition note_debug : DebugQuery Note string := fun _ rows =>
  foldr (fun r s => note_id r +:+ ", " +:+ note_text r +:+ "; " +:+ s)%string EmptyString rows.
Lemma note_debug_laws : @DebugQueryLaws Note string note_debug.
Proof.
  refine {| bind_texts := fun r => [note_id r; note_text r] |}.
  intros u rows r v (l1 & l2 & ->)%list_elem_of_split Hv _. unfold debug_query, note_debug.
  induction l1 as [|a l1 (b & e & IH)]; simpl.
  - apply elem_of_cons in Hv as [->|Hv]; [exists EmptyString; eexists; reflexivity|].
    apply list_elem_of_singleton in Hv as ->. exists (note_id r +:+ ", ")%string.
    eexists. rewrite str_app_assoc. reflexivity.
  - rewrite IH. exists (note_id a +:+ ", " +:+ note_text a +:+ "; " +:+ b)%string, e.
    rewrite !str_app_assoc. reflexivity.
Defined.
Definition note (id : string) (v : Z) (s : string) : Note :=
  {| note_id := id; note_version := v; note_text := s |}.

Lemma lww_replay_witness :
  let t := upsert_rows note_upsert ∅ [note "a" 1 "x"; note "a" 2 "y"] in
  upsert_rows note_upsert t [note "a" 1 "x"] = t.
Proof.
  apply (lww_replay note_upsert (Lww0 := note_lww)).
  - intros a b. set_solver.
  - intros k o r Ho. by rewrite lookup_empty in Ho.
  - set_solver.
Defined.

Lemma lww_keeps_newest_witness :
  note "a" 2 "y" ∈ [note "a" 2 "y"; note "a" 1 "x"].
Proof.
  destruct (lww_keeps_newest note_upsert (Lww0 := note_lww)
              [note "a" 2 "y"; note "a" 1 "x"] "a" (note "a" 2 "y")) as [Hin _].
  - intros a b. set_solver.
  - vm_compute. reflexivity.
  - exact Hin.
Defined.

Definition note_ser : Serialize Note := fun r =>
  Some (Object [("id", Str (note_id r)); ("version", Number (JInt (note_version r)));
                ("text", Str (note_text r))]).
Definition note_de : Deserialize Note :=
  {| de_from_str := fun _ => None;
     de_from_value := fun v =>
       match v with
       | Object [(_, Str i); (_, Number (JInt n)); (_, Str t)] => Some (note i n t)
       | _ => None
       end |}.
Definition note_field_count : FieldCount Note := 3.

Lemma execute_in_chunks_effect_witness :
  exists eff, Forall2 (@chunk_rows Note note_ser note_de)
    (chunks 1 [note "a" 1 "x"; note "b" 2 "y"]) eff /\
  upsert_rows note_upsert ∅ [note "b" 2 "y"; note "a" 1 "x"] =
  upsert_rows note_upsert ∅ (concat eff).
Proof.
  apply (@execute_in_chunks_effect Note string _ _ (mem_table Note string) (mem_laws Note string)
           note_debug note_ser note_de note_upsert [note "a" 1 "x"; note "b" 2 "y"] 1
           ∅ (upsert_rows note_upsert ∅ [note "b" 2 "y"; note "a" 1 "x"])).
  - apply (bool_decide_unpack _). vm_compute. exact I.
  - repeat constructor; intros r' Hr; vm_compute in Hr; simplify_eq; done.
  - intros c rows Hc Hr. simpl in Hc.
    apply elem_of_cons in Hc as [->|Hc]; [|apply list_elem_of_singleton in Hc as ->];
      destruct Hr as [->|Hr]; try (vm_compute in Hr; simplify_eq); done.
  - exists [Finished (Ok tt); Finished (Ok tt)]. split; [|right; split_and!; try done; set_solver].
    eapply rtc_l; [|eapply rtc_l; [|apply rtc_refl]].
    + apply (tasks_step_at _ 1 _ (FirstTry [note "b" 2 "y"])); reflexivity.
    + apply (tasks_step_at _ 0 [_; _] (FirstTry [note "a" 1 "x"])); reflexivity.
Defined.

Lemma default_chunk_size_bound_witness :
  exists n, @get_config_table_chunk_size Note note_field_count "notes" ∅ = Ret n /\ 0 < n /\
    Forall (fun c => length c * 3 <= MAX_DIESEL_PARAM_SIZE) (chunks n [note "a" 1 "x"]).
Proof.
  apply (@default_chunk_size_bound Note note_field_count "notes" ∅ [note "a" 1 "x"]).
  - reflexivity.
  - unfold field_count, note_field_count, MAX_DIESEL_PARAM_SIZE.
    change (65535 / 2)%Z with 32767%Z. lia.
Defined.

Definition notes_new : gmap string Note := {[ "a" := note "a" 5 "new" ]}.
Definition notes_old : gmap string Note := {[ "a" := note "a" 3 "Somewhere" ]}.

Lemma where_in_data_overwrites_witness :
  notes_old !! "a" = Some (note "a" 3 "Somewhere") /\
  upsert_row note_upsert notes_new (note "a" 3 "Somewhere") = notes_new.
Proof.
  apply (@where_in_data_overwrites Note string _ _ (mem_table Note string) (mem_laws Note string)
           note_debug note_debug_laws note_upsert note_lww notes_new notes_old
           (note "a" 5 "new") (note "a" 3 "Somewhere") "Somewhere" 1).
  - reflexivity.
  - reflexivity.
  - right. left.
  - reflexivity.
  - reflexivity.
  - vm_compute. reflexivity.
Defined.
