(* ===== verification/Schema.v ===== *)
(** * The database schema

    [rust/processor/src/schema.rs]: the tables with their primary keys and
    columns, as the [diesel::table!] declarations have them.  A column has its
    name in the program and its name in the database, which differs where the
    latter is a keyword of Rust. *)
From S2P Require Import Prelude.

(** ** Types and tables *)

Inductive SqlType :=
| TBool | TBytea | TInt4 | TInt8 | TJsonb | TNumeric | TText | TTimestamp
| TVarchar (max_length : option Z).
#[export] Instance SqlType_dec : EqDecision SqlType.
Proof. solve_decision. Defined.
Record Column := {
  c_name : string;
  c_sql_name : string;
  c_type : SqlType;
  c_nullable : bool;
}.
#[export] Instance Column_dec : EqDecision Column.
Proof. solve_decision. Defined.
Record TableDef := {
  table_name : string;
  primary_key : list string;
  columns : list Column;
}.
#[export] Instance TableDef_dec : EqDecision TableDef.
Proof. solve_decision. Defined.
Definition column (t : TableDef) (name : string) : option Column :=
  list_find (fun c => c_name c = name) (columns t) ≫= fun ic => Some ic.2.

Definition varchar (n : Z) : SqlType := TVarchar (Some n).
Definition sql_col (name sql_name : string) (t : SqlType) : Column :=
  {| c_name := name; c_sql_name := sql_name; c_type := t; c_nullable := false |}.
Definition col (name : string) (t : SqlType) : Column := sql_col name name t.
Definition nullable (name : string) (t : SqlType) : Column :=
  {| c_name := name; c_sql_name := name; c_type := t; c_nullable := true |}.

(** ** The tables *)

Module schema.
Definition account_transactions : TableDef := {|
  table_name := "account_transactions";
  primary_key := ["account_address"; "transaction_version"];
  columns := [
    col "transaction_version" TInt8;
    col "account_address" (varchar 66);
    col "inserted_at" TTimestamp] |}.

Definition ans_lookup : TableDef := {|
  table_name := "ans_lookup";
  primary_key := ["transaction_version"; "write_set_change_index"];
  columns := [
    col "transaction_version" TInt8;
    col "write_set_change_index" TInt8;
    col "domain" (varchar 64);
    col "subdomain" (varchar 64);
    nullable "registered_address" (varchar 66);
    nullable "expiration_timestamp" TTimestamp;
    col "token_name" (varchar 140);
    col "is_deleted" TBool;
    col "inserted_at" TTimestamp] |}.

Definition ans_lookup_v2 : TableDef := {|
  table_name := "ans_lookup_v2";
  primary_key := ["transaction_version"; "write_set_change_index"];
  columns := [
    col "transaction_version" TInt8;
    col "write_set_change_index" TInt8;
    col "domain" (varchar 64);
    col "subdomain" (varchar 64);
    col "token_standard" (varchar 10);
    nullable "registered_address" (varchar 66);
    nullable "expiration_timestamp" TTimestamp;
    col "token_name" (varchar 140);
    col "is_deleted" TBool;
    col "inserted_at" TTimestamp;
    nullable "subdomain_expiration_policy" TInt8] |}.

Definition ans_primary_name : TableDef := {|
  table_name := "ans_primary_name";
  primary_key := ["transaction_version"; "write_set_change_index"];
  columns := [
    col "transaction_version" TInt8;
    col "write_set_change_index" TInt8;
    col "registered_address" (varchar 66);
    nullable "domain" (varchar 64);
    nullable "subdomain" (varchar 64);
    nullable "token_name" (varchar 140);
    col "is_deleted" TBool;
    col "inserted_at" TTimestamp] |}.

Definition ans_primary_name_v2 : TableDef := {|
  table_name := "ans_primary_name_v2";
  primary_key := ["transaction_version"; "write_set_change_index"];
  columns := [
    col "transaction_version" TInt8;
    col "write_set_change_index" TInt8;
    col "registered_address" (varchar 66);
    nullable "domain" (varchar 64);
    nullable "subdomain" (varchar 64);
    col "token_standard" (varchar 10);
    nullable "token_name" (varchar 140);
    col "is_deleted" TBool;
    col "inserted_at" TTimestamp] |}.

Definition block_metadata_transactions : TableDef := {|
  table_name := "block_metadata_transactions";
  primary_key := ["version"];
  columns := [
    col "version" TInt8;
    col "block_height" TInt8;
    col "id" (varchar 66);
    col "round" TInt8;
    col "epoch" TInt8;
    col "previous_block_votes_bitvec" TJsonb;
    col "proposer" (varchar 66);
    col "failed_proposer_indices" TJsonb;
    col "timestamp" TTimestamp;
    col "inserted_at" TTimestamp] |}.

Definition coin_activities : TableDef := {|
  table_name := "coin_activities";
  primary_key := ["transaction_version"; "event_account_address"; "event_creation_number"; "event_sequence_number"];
  columns := [
    col "transaction_version" TInt8;
    col "event_account_address" (varchar 66);
    col "event_creation_number" TInt8;
    col "event_sequence_number" TInt8;
    col "owner_address" (varchar 66);
    col "coin_type" (varchar 5000);
    col "amount" TNumeric;
    col "activity_type" (varchar 200);
    col "is_gas_fee" TBool;
    col "is_transaction_success" TBool;
    nullable "entry_function_id_str" (varchar 1000);
    col "block_height" TInt8;
    col "transaction_timestamp" TTimestamp;
    col "inserted_at" TTimestamp;
    nullable "event_index" TInt8;
    nullable "gas_fee_payer_address" (varchar 66);
    col "storage_refund_amount" TNumeric] |}.

Definition coin_balances : TableDef := {|
  table_name := "coin_balances";
  primary_key := ["transaction_version"; "owner_address"; "coin_type_hash"];
  columns := [
    col "transaction_version" TInt8;
    col "owner_address" (varchar 66);
    col "coin_type_hash" (varchar 64);
    col "coin_type" (varchar 5000);
    col "amount" TNumeric;
    col "transaction_timestamp" TTimestamp;
    col "inserted_at" TTimestamp] |}.

Definition coin_infos : TableDef := {|
  table_name := "coin_infos";
  primary_key := ["coin_type_hash"];
  columns := [
    col "coin_type_hash" (varchar 64);
    col "coin_type" (varchar 5000);
    col "transaction_version_created" TInt8;
    col "creator_address" (varchar 66);
    col "name" (varchar 32);
    col "symbol" (varchar 10);
    col "decimals" TInt4;
    col "transaction_created_timestamp" TTimestamp;
    col "inserted_at" TTimestamp;
    nullable "supply_aggregator_table_handle" (varchar 66);
    nullable "supply_aggregator_table_key" TText] |}.

Definition coin_supply : TableDef := {|
  table_name := "coin_supply";
  primary_key := ["transaction_version"; "coin_type_hash"];
  columns := [
    col "transaction_version" TInt8;
    col "coin_type_hash" (varchar 64);
    col "coin_type" (varchar 5000);
    col "supply" TNumeric;
    col "transaction_timestamp" TTimestamp;
    col "transaction_epoch" TInt8;
    col "inserted_at" TTimestamp] |}.

Definition collection_datas : TableDef := {|
  table_name := "collection_datas";
  primary_key := ["collection_data_id_hash"; "transaction_version"];
  columns := [
    col "collection_data_id_hash" (varchar 64);
    col "transaction_version" TInt8;
    col "creator_address" (varchar 66);
    col "collection_name" (varchar 128);
    col "description" TText;
    col "metadata_uri" (varchar 512);
    col "supply" TNumeric;
    col "maximum" TNumeric;
    col "maximum_mutable" TBool;
    col "uri_mutable" TBool;
    col "description_mutable" TBool;
    col "inserted_at" TTimestamp;
    col "table_handle" (varchar 66);
    col "transaction_timestamp" TTimestamp] |}.

Definition collections_v2 : TableDef := {|
  table_name := "collections_v2";
  primary_key := ["transaction_version"; "write_set_change_index"];
  columns := [
    col "transaction_version" TInt8;
    col "write_set_change_index" TInt8;
    col "collection_id" (varchar 66);
    col "creator_address" (varchar 66);
    col "collection_name" (varchar 128);
    col "description" TText;
    col "uri" (varchar 512);
    col "current_supply" TNumeric;
    nullable "max_supply" TNumeric;
    nullable "total_minted_v2" TNumeric;
    nullable "mutable_description" TBool;
    nullable "mutable_uri" TBool;
    nullable "table_handle_v1" (varchar 66);
    col "token_standard" (varchar 10);
    col "transaction_timestamp" TTimestamp;
    col "inserted_at" TTimestamp] |}.

Definition current_ans_lookup : TableDef := {|
  table_name := "current_ans_lookup";
  primary_key := ["domain"; "subdomain"];
  columns := [
    col "domain" (varchar 64);
    col "subdomain" (varchar 64);
    nullable "registered_address" (varchar 66);
    col "expiration_timestamp" TTimestamp;
    col "last_transaction_version" TInt8;
    col "inserted_at" TTimestamp;
    col "token_name" (varchar 140);
    col "is_deleted" TBool] |}.

Definition current_ans_lookup_v2 : TableDef := {|
  table_name := "current_ans_lookup_v2";
  primary_key := ["domain"; "subdomain"; "token_standard"];
  columns := [
    col "domain" (varchar 64);
    col "subdomain" (varchar 64);
    col "token_standard" (varchar 10);
    nullable "token_name" (varchar 140);
    nullable "registered_address" (varchar 66);
    col "expiration_timestamp" TTimestamp;
    col "last_transaction_version" TInt8;
    col "is_deleted" TBool;
    col "inserted_at" TTimestamp;
    nullable "subdomain_expiration_policy" TInt8] |}.

Definition current_ans_primary_name : TableDef := {|
  table_name := "current_ans_primary_name";
  primary_key := ["registered_address"];
  columns := [
    col "registered_address" (varchar 66);
    nullable "domain" (varchar 64);
    nullable "subdomain" (varchar 64);
    nullable "token_name" (varchar 140);
    col "is_deleted" TBool;
    col "last_transaction_version" TInt8;
    col "inserted_at" TTimestamp] |}.

Definition current_ans_primary_name_v2 : TableDef := {|
  table_name := "current_ans_primary_name_v2";
  primary_key := ["registered_address"; "token_standard"];
  columns := [
    col "registered_address" (varchar 66);
    col "token_standard" (varchar 10);
    nullable "domain" (varchar 64);
    nullable "subdomain" (varchar 64);
    nullable "token_name" (varchar 140);
    col "is_deleted" TBool;
    col "last_transaction_version" TInt8;
    col "inserted_at" TTimestamp] |}.

Definition current_coin_balances : TableDef := {|
  table_name := "current_coin_balances";
  primary_key := ["owner_address"; "coin_type_hash"];
  columns := [
    col "owner_address" (varchar 66);
    col "coin_type_hash" (varchar 64);
    col "coin_type" (varchar 5000);
    col "amount" TNumeric;
    col "last_transaction_version" TInt8;
    col "last_transaction_timestamp" TTimestamp;
    col "inserted_at" TTimestamp] |}.

Definition current_collection_datas : TableDef := {|
  table_name := "current_collection_datas";
  primary_key := ["collection_data_id_hash"];
  columns := [
    col "collection_data_id_hash" (varchar 64);
    col "creator_address" (varchar 66);
    col "collection_name" (varchar 128);
    col "description" TText;
    col "metadata_uri" (varchar 512);
    col "supply" TNumeric;
    col "maximum" TNumeric;
    col "maximum_mutable" TBool;
    col "uri_mutable" TBool;
    col "description_mutable" TBool;
    col "last_transaction_version" TInt8;
    col "inserted_at" TTimestamp;
    col "table_handle" (varchar 66);
    col "last_transaction_timestamp" TTimestamp] |}.

Definition current_collections_v2 : TableDef := {|
  table_name := "current_collections_v2";
  primary_key := ["collection_id"];
  columns := [
    col "collection_id" (varchar 66);
    col "creator_address" (varchar 66);
    col "collection_name" (varchar 128);
    col "description" TText;
    col "uri" (varchar 512);
    col "current_supply" TNumeric;
    nullable "max_supply" TNumeric;
    nullable "total_minted_v2" TNumeric;
    nullable "mutable_description" TBool;
    nullable "mutable_uri" TBool;
    nullable "table_handle_v1" (varchar 66);
    col "token_standard" (varchar 10);
    col "last_transaction_version" TInt8;
    col "last_transaction_timestamp" TTimestamp;
    col "inserted_at" TTimestamp] |}.

Definition current_delegated_staking_pool_balances : TableDef := {|
  table_name := "current_delegated_staking_pool_balances";
  primary_key := ["staking_pool_address"];
  columns := [
    col "staking_pool_address" (varchar 66);
    col "total_coins" TNumeric;
    col "total_shares" TNumeric;
    col "last_transaction_version" TInt8;
    col "inserted_at" TTimestamp;
    col "operator_commission_percentage" TNumeric;
    col "inactive_table_handle" (varchar 66);
    col "active_table_handle" (varchar 66)] |}.

Definition current_delegated_voter : TableDef := {|
  table_name := "current_delegated_voter";
  primary_key := ["delegation_pool_address"; "delegator_address"];
  columns := [
    col "delegation_pool_address" (varchar 66);
    col "delegator_address" (varchar 66);
    nullable "table_handle" (varchar 66);
    nullable "voter" (varchar 66);
    nullable "pending_voter" (varchar 66);
    col "last_transaction_version" TInt8;
    col "last_transaction_timestamp" TTimestamp;
    col "inserted_at" TTimestamp] |}.

Definition current_delegator_balances : TableDef := {|
  table_name := "current_delegator_balances";
  primary_key := ["delegator_address"; "pool_address"; "pool_type"; "table_handle"];
  columns := [
    col "delegator_address" (varchar 66);
    col "pool_address" (varchar 66);
    col "pool_type" (varchar 100);
    col "table_handle" (varchar 66);
    col "last_transaction_version" TInt8;
    col "inserted_at" TTimestamp;
    col "shares" TNumeric;
    col "parent_table_handle" (varchar 66)] |}.

Definition current_fungible_asset_balances : TableDef := {|
  table_name := "current_fungible_asset_balances";
  primary_key := ["storage_id"];
  columns := [
    col "storage_id" (varchar 66);
    col "owner_address" (varchar 66);
    col "asset_type" (varchar 1000);
    col "is_primary" TBool;
    col "is_frozen" TBool;
    col "amount" TNumeric;
    col "last_transaction_timestamp" TTimestamp;
    col "last_transaction_version" TInt8;
    col "token_standard" (varchar 10);
    col "inserted_at" TTimestamp] |}.

Definition current_objects : TableDef := {|
  table_name := "current_objects";
  primary_key := ["object_address"];
  columns := [
    col "object_address" (varchar 66);
    col "owner_address" (varchar 66);
    col "state_key_hash" (varchar 66);
    col "allow_ungated_transfer" TBool;
    col "last_guid_creation_num" TNumeric;
    col "last_transaction_version" TInt8;
    col "is_deleted" TBool;
    col "inserted_at" TTimestamp] |}.

Definition current_staking_pool_voter : TableDef := {|
  table_name := "current_staking_pool_voter";
  primary_key := ["staking_pool_address"];
  columns := [
    col "staking_pool_address" (varchar 66);
    col "voter_address" (varchar 66);
    col "last_transaction_version" TInt8;
    col "inserted_at" TTimestamp;
    col "operator_address" (varchar 66)] |}.

Definition current_table_items : TableDef := {|
  table_name := "current_table_items";
  primary_key := ["table_handle"; "key_hash"];
  columns := [
    col "table_handle" (varchar 66);
    col "key_hash" (varchar 64);
    col "key" TText;
    col "decoded_key" TJsonb;
    nullable "decoded_value" TJsonb;
    col "is_deleted" TBool;
    col "last_transaction_version" TInt8;
    col "inserted_at" TTimestamp] |}.

Definition current_token_datas : TableDef := {|
  table_name := "current_token_datas";
  primary_key := ["token_data_id_hash"];
  columns := [
    col "token_data_id_hash" (varchar 64);
    col "creator_address" (varchar 66);
    col "collection_name" (varchar 128);
    col "name" (varchar 128);
    col "maximum" TNumeric;
    col "supply" TNumeric;
    col "largest_property_version" TNumeric;
    col "metadata_uri" (varchar 512);
    col "payee_address" (varchar 66);
    col "royalty_points_numerator" TNumeric;
    col "royalty_points_denominator" TNumeric;
    col "maximum_mutable" TBool;
    col "uri_mutable" TBool;
    col "description_mutable" TBool;
    col "properties_mutable" TBool;
    col "royalty_mutable" TBool;
    col "default_properties" TJsonb;
    col "last_transaction_version" TInt8;
    col "inserted_at" TTimestamp;
    col "collection_data_id_hash" (varchar 64);
    col "last_transaction_timestamp" TTimestamp;
    col "description" TText] |}.

Definition current_token_datas_v2 : TableDef := {|
  table_name := "current_token_datas_v2";
  primary_key := ["token_data_id"];
  columns := [
    col "token_data_id" (varchar 66);
    col "collection_id" (varchar 66);
    col "token_name" (varchar 128);
    nullable "maximum" TNumeric;
    nullable "supply" TNumeric;
    nullable "largest_property_version_v1" TNumeric;
    col "token_uri" (varchar 512);
    col "description" TText;
    col "token_properties" TJsonb;
    col "token_standard" (varchar 10);
    nullable "is_fungible_v2" TBool;
    col "last_transaction_version" TInt8;
    col "last_transaction_timestamp" TTimestamp;
    col "inserted_at" TTimestamp;
    nullable "decimals" TInt8;
    nullable "is_deleted_v2" TBool] |}.

Definition current_token_ownerships : TableDef := {|
  table_name := "current_token_ownerships";
  primary_key := ["token_data_id_hash"; "property_version"; "owner_address"];
  columns := [
    col "token_data_id_hash" (varchar 64);
    col "property_version" TNumeric;
    col "owner_address" (varchar 66);
    col "creator_address" (varchar 66);
    col "collection_name" (varchar 128);
    col "name" (varchar 128);
    col "amount" TNumeric;
    col "token_properties" TJsonb;
    col "last_transaction_version" TInt8;
    col "inserted_at" TTimestamp;
    col "collection_data_id_hash" (varchar 64);
    col "table_type" TText;
    col "last_transaction_timestamp" TTimestamp] |}.

Definition current_token_ownerships_v2 : TableDef := {|
  table_name := "current_token_ownerships_v2";
  primary_key := ["token_data_id"; "property_version_v1"; "owner_address"; "storage_id"];
  columns := [
    col "token_data_id" (varchar 66);
    col "property_version_v1" TNumeric;
    col "owner_address" (varchar 66);
    col "storage_id" (varchar 66);
    col "amount" TNumeric;
    nullable "table_type_v1" (varchar 66);
    nullable "token_properties_mutated_v1" TJsonb;
    nullable "is_soulbound_v2" TBool;
    col "token_standard" (varchar 10);
    nullable "is_fungible_v2" TBool;
    col "last_transaction_version" TInt8;
    col "last_transaction_timestamp" TTimestamp;
    col "inserted_at" TTimestamp;
    nullable "non_transferrable_by_owner" TBool] |}.

Definition current_token_pending_claims : TableDef := {|
  table_name := "current_token_pending_claims";
  primary_key := ["token_data_id_hash"; "property_version"; "from_address"; "to_address"];
  columns := [
    col "token_data_id_hash" (varchar 64);
    col "property_version" TNumeric;
    col "from_address" (varchar 66);
    col "to_address" (varchar 66);
    col "collection_data_id_hash" (varchar 64);
    col "creator_address" (varchar 66);
    col "collection_name" (varchar 128);
    col "name" (varchar 128);
    col "amount" TNumeric;
    col "table_handle" (varchar 66);
    col "last_transaction_version" TInt8;
    col "inserted_at" TTimestamp;
    col "last_transaction_timestamp" TTimestamp;
    col "token_data_id" (varchar 66);
    col "collection_id" (varchar 66)] |}.

Definition current_token_v2_metadata : TableDef := {|
  table_name := "current_token_v2_metadata";
  primary_key := ["object_address"; "resource_type"];
  columns := [
    col "object_address" (varchar 66);
    col "resource_type" (varchar 128);
    col "data" TJsonb;
    col "state_key_hash" (varchar 66);
    col "last_transaction_version" TInt8;
    col "inserted_at" TTimestamp] |}.

Definition delegated_staking_activities : TableDef := {|
  table_name := "delegated_staking_activities";
  primary_key := ["transaction_version"; "event_index"];
  columns := [
    col "transaction_version" TInt8;
    col "event_index" TInt8;
    col "delegator_address" (varchar 66);
    col "pool_address" (varchar 66);
    col "event_type" TText;
    col "amount" TNumeric;
    col "inserted_at" TTimestamp] |}.

Definition delegated_staking_pool_balances : TableDef := {|
  table_name := "delegated_staking_pool_balances";
  primary_key := ["transaction_version"; "staking_pool_address"];
  columns := [
    col "transaction_version" TInt8;
    col "staking_pool_address" (varchar 66);
    col "total_coins" TNumeric;
    col "total_shares" TNumeric;
    col "inserted_at" TTimestamp;
    col "operator_commission_percentage" TNumeric;
    col "inactive_table_handle" (varchar 66);
    col "active_table_handle" (varchar 66)] |}.

Definition delegated_staking_pools : TableDef := {|
  table_name := "delegated_staking_pools";
  primary_key := ["staking_pool_address"];
  columns := [
    col "staking_pool_address" (varchar 66);
    col "first_transaction_version" TInt8;
    col "inserted_at" TTimestamp] |}.

Definition delegator_balances : TableDef := {|
  table_name := "delegator_balances";
  primary_key := ["transaction_version"; "write_set_change_index"];
  columns := [
    col "transaction_version" TInt8;
    col "write_set_change_index" TInt8;
    col "delegator_address" (varchar 66);
    col "pool_address" (varchar 66);
    col "pool_type" (varchar 100);
    col "table_handle" (varchar 66);
    col "shares" TNumeric;
    col "parent_table_handle" (varchar 66);
    col "inserted_at" TTimestamp] |}.

Definition event_size_info : TableDef := {|
  table_name := "event_size_info";
  primary_key := ["transaction_version"; "index"];
  columns := [
    col "transaction_version" TInt8;
    col "index" TInt8;
    col "type_tag_bytes" TInt8;
    col "total_bytes" TInt8;
    col "inserted_at" TTimestamp] |}.

Definition events : TableDef := {|
  table_name := "events";
  primary_key := ["transaction_version"; "event_index"];
  columns := [
    col "sequence_number" TInt8;
    col "creation_number" TInt8;
    col "account_address" (varchar 66);
    col "transaction_version" TInt8;
    col "transaction_block_height" TInt8;
    sql_col "type_" "type" TText;
    col "data" TJsonb;
    col "inserted_at" TTimestamp;
    col "event_index" TInt8;
    col "indexed_type" (varchar 600);
    col "from" (TVarchar None);
    col "entry_function_id_str" (TVarchar None);
    col "entry_function_payload" TJsonb;
    col "module_address" (TVarchar None);
    col "module_name" (TVarchar None);
    col "event_name" (TVarchar None)] |}.

Definition fungible_asset_activities : TableDef := {|
  table_name := "fungible_asset_activities";
  primary_key := ["transaction_version"; "event_index"];
  columns := [
    col "transaction_version" TInt8;
    col "event_index" TInt8;
    col "owner_address" (varchar 66);
    col "storage_id" (varchar 66);
    col "asset_type" (varchar 1000);
    nullable "is_frozen" TBool;
    nullable "amount" TNumeric;
    sql_col "type_" "type" (TVarchar None);
    col "is_gas_fee" TBool;
    nullable "gas_fee_payer_address" (varchar 66);
    col "is_transaction_success" TBool;
    nullable "entry_function_id_str" (varchar 1000);
    col "block_height" TInt8;
    col "token_standard" (varchar 10);
    col "transaction_timestamp" TTimestamp;
    col "inserted_at" TTimestamp;
    col "storage_refund_amount" TNumeric] |}.

Definition fungible_asset_balances : TableDef := {|
  table_name := "fungible_asset_balances";
  primary_key := ["transaction_version"; "write_set_change_index"];
  columns := [
    col "transaction_version" TInt8;
    col "write_set_change_index" TInt8;
    col "storage_id" (varchar 66);
    col "owner_address" (varchar 66);
    col "asset_type" (varchar 1000);
    col "is_primary" TBool;
    col "is_frozen" TBool;
    col "amount" TNumeric;
    col "transaction_timestamp" TTimestamp;
    col "token_standard" (varchar 10);
    col "inserted_at" TTimestamp] |}.

Definition fungible_asset_metadata : TableDef := {|
  table_name := "fungible_asset_metadata";
  primary_key := ["asset_type"];
  columns := [
    col "asset_type" (varchar 1000);
    col "creator_address" (varchar 66);
    col "name" (varchar 32);
    col "symbol" (varchar 10);
    col "decimals" TInt4;
    nullable "icon_uri" (varchar 512);
    nullable "project_uri" (varchar 512);
    col "last_transaction_version" TInt8;
    col "last_transaction_timestamp" TTimestamp;
    nullable "supply_aggregator_table_handle_v1" (varchar 66);
    nullable "supply_aggregator_table_key_v1" TText;
    col "token_standard" (varchar 10);
    col "inserted_at" TTimestamp;
    nullable "is_token_v2" TBool;
    nullable "supply_v2" TNumeric;
    nullable "maximum_v2" TNumeric] |}.

Definition indexer_status : TableDef := {|
  table_name := "indexer_status";
  primary_key := ["db"];
  columns := [
    col "db" (varchar 50);
    col "is_indexer_up" TBool;
    col "inserted_at" TTimestamp] |}.

Definition ledger_infos : TableDef := {|
  table_name := "ledger_infos";
  primary_key := ["chain_id"];
  columns := [
    col "chain_id" TInt8] |}.

Definition move_modules : TableDef := {|
  table_name := "move_modules";
  primary_key := ["transaction_version"; "write_set_change_index"];
  columns := [
    col "transaction_version" TInt8;
    col "write_set_change_index" TInt8;
    col "transaction_block_height" TInt8;
    col "name" TText;
    col "address" (varchar 66);
    nullable "bytecode" TBytea;
    nullable "friends" TJsonb;
    nullable "exposed_functions" TJsonb;
    nullable "structs" TJsonb;
    col "is_deleted" TBool;
    col "inserted_at" TTimestamp] |}.

Definition move_resources : TableDef := {|
  table_name := "move_resources";
  primary_key := ["transaction_version"; "write_set_change_index"];
  columns := [
    col "transaction_version" TInt8;
    col "write_set_change_index" TInt8;
    col "transaction_block_height" TInt8;
    col "name" TText;
    col "address" (varchar 66);
    sql_col "type_" "type" TText;
    col "module" TText;
    nullable "generic_type_params" TJsonb;
    nullable "data" TJsonb;
    col "is_deleted" TBool;
    col "inserted_at" TTimestamp;
    col "state_key_hash" (varchar 66)] |}.

Definition nft_points : TableDef := {|
  table_name := "nft_points";
  primary_key := ["transaction_version"];
  columns := [
    col "transaction_version" TInt8;
    col "owner_address" (varchar 66);
    col "token_name" TText;
    col "point_type" TText;
    col "amount" TNumeric;
    col "transaction_timestamp" TTimestamp;
    col "inserted_at" TTimestamp] |}.

Definition objects : TableDef := {|
  table_name := "objects";
  primary_key := ["transaction_version"; "write_set_change_index"];
  columns := [
    col "transaction_version" TInt8;
    col "write_set_change_index" TInt8;
    col "object_address" (varchar 66);
    col "owner_address" (varchar 66);
    col "state_key_hash" (varchar 66);
    col "guid_creation_num" TNumeric;
    col "allow_ungated_transfer" TBool;
    col "is_deleted" TBool;
    col "inserted_at" TTimestamp] |}.

Definition processor_status : TableDef := {|
  table_name := "processor_status";
  primary_key := ["processor"];
  columns := [
    col "processor" (varchar 50);
    col "last_success_version" TInt8;
    col "last_updated" TTimestamp;
    nullable "last_transaction_timestamp" TTimestamp] |}.

Definition proposal_votes : TableDef := {|
  table_name := "proposal_votes";
  primary_key := ["transaction_version"; "proposal_id"; "voter_address"];
  columns := [
    col "transaction_version" TInt8;
    col "proposal_id" TInt8;
    col "voter_address" (varchar 66);
    col "staking_pool_address" (varchar 66);
    col "num_votes" TNumeric;
    col "should_pass" TBool;
    col "transaction_timestamp" TTimestamp;
    col "inserted_at" TTimestamp] |}.

Definition signatures : TableDef := {|
  table_name := "signatures";
  primary_key := ["transaction_version"; "multi_agent_index"; "multi_sig_index"; "is_sender_primary"];
  columns := [
    col "transaction_version" TInt8;
    col "multi_agent_index" TInt8;
    col "multi_sig_index" TInt8;
    col "transaction_block_height" TInt8;
    col "signer" (varchar 66);
    col "is_sender_primary" TBool;
    sql_col "type_" "type" (TVarchar None);
    col "public_key" (varchar 136);
    col "signature" TText;
    col "threshold" TInt8;
    col "public_key_indices" TJsonb;
    col "inserted_at" TTimestamp] |}.

Definition spam_assets : TableDef := {|
  table_name := "spam_assets";
  primary_key := ["asset"];
  columns := [
    col "asset" (varchar 1100);
    col "is_spam" TBool;
    col "last_updated" TTimestamp] |}.

Definition table_items : TableDef := {|
  table_name := "table_items";
  primary_key := ["transaction_version"; "write_set_change_index"];
  columns := [
    col "key" TText;
    col "transaction_version" TInt8;
    col "write_set_change_index" TInt8;
    col "transaction_block_height" TInt8;
    col "table_handle" (varchar 66);
    col "decoded_key" TJsonb;
    nullable "decoded_value" TJsonb;
    col "is_deleted" TBool;
    col "inserted_at" TTimestamp] |}.

Definition table_metadatas : TableDef := {|
  table_name := "table_metadatas";
  primary_key := ["handle"];
  columns := [
    col "handle" (varchar 66);
    col "key_type" TText;
    col "value_type" TText;
    col "inserted_at" TTimestamp] |}.

Definition token_activities : TableDef := {|
  table_name := "token_activities";
  primary_key := ["transaction_version"; "event_account_address"; "event_creation_number"; "event_sequence_number"];
  columns := [
    col "transaction_version" TInt8;
    col "event_account_address" (varchar 66);
    col "event_creation_number" TInt8;
    col "event_sequence_number" TInt8;
    col "collection_data_id_hash" (varchar 64);
    col "token_data_id_hash" (varchar 64);
    col "property_version" TNumeric;
    col "creator_address" (varchar 66);
    col "collection_name" (varchar 128);
    col "name" (varchar 128);
    col "transfer_type" (varchar 50);
    nullable "from_address" (varchar 66);
    nullable "to_address" (varchar 66);
    col "token_amount" TNumeric;
    nullable "coin_type" TText;
    nullable "coin_amount" TNumeric;
    col "inserted_at" TTimestamp;
    col "transaction_timestamp" TTimestamp;
    nullable "event_index" TInt8] |}.

Definition token_activities_v2 : TableDef := {|
  table_name := "token_activities_v2";
  primary_key := ["transaction_version"; "event_index"];
  columns := [
    col "transaction_version" TInt8;
    col "event_index" TInt8;
    col "event_account_address" (varchar 66);
    col "token_data_id" (varchar 66);
    col "property_version_v1" TNumeric;
    sql_col "type_" "type" (TVarchar None);
    nullable "from_address" (varchar 66);
    nullable "to_address" (varchar 66);
    col "token_amount" TNumeric;
    nullable "before_value" TText;
    nullable "after_value" TText;
    nullable "entry_function_id_str" (varchar 1000);
    col "token_standard" (varchar 10);
    nullable "is_fungible_v2" TBool;
    col "transaction_timestamp" TTimestamp;
    col "inserted_at" TTimestamp] |}.

Definition token_datas : TableDef := {|
  table_name := "token_datas";
  primary_key := ["token_data_id_hash"; "transaction_version"];
  columns := [
    col "token_data_id_hash" (varchar 64);
    col "transaction_version" TInt8;
    col "creator_address" (varchar 66);
    col "collection_name" (varchar 128);
    col "name" (varchar 128);
    col "maximum" TNumeric;
    col "supply" TNumeric;
    col "largest_property_version" TNumeric;
    col "metadata_uri" (varchar 512);
    col "payee_address" (varchar 66);
    col "royalty_points_numerator" TNumeric;
    col "royalty_points_denominator" TNumeric;
    col "maximum_mutable" TBool;
    col "uri_mutable" TBool;
    col "description_mutable" TBool;
    col "properties_mutable" TBool;
    col "royalty_mutable" TBool;
    col "default_properties" TJsonb;
    col "inserted_at" TTimestamp;
    col "collection_data_id_hash" (varchar 64);
    col "transaction_timestamp" TTimestamp;
    col "description" TText] |}.

Definition token_datas_v2 : TableDef := {|
  table_name := "token_datas_v2";
  primary_key := ["transaction_version"; "write_set_change_index"];
  columns := [
    col "transaction_version" TInt8;
    col "write_set_change_index" TInt8;
    col "token_data_id" (varchar 66);
    col "collection_id" (varchar 66);
    col "token_name" (varchar 128);
    nullable "maximum" TNumeric;
    nullable "supply" TNumeric;
    nullable "largest_property_version_v1" TNumeric;
    col "token_uri" (varchar 512);
    col "token_properties" TJsonb;
    col "description" TText;
    col "token_standard" (varchar 10);
    nullable "is_fungible_v2" TBool;
    col "transaction_timestamp" TTimestamp;
    col "inserted_at" TTimestamp;
    nullable "decimals" TInt8;
    nullable "is_deleted_v2" TBool] |}.

Definition token_ownerships : TableDef := {|
  table_name := "token_ownerships";
  primary_key := ["token_data_id_hash"; "property_version"; "transaction_version"; "table_handle"];
  columns := [
    col "token_data_id_hash" (varchar 64);
    col "property_version" TNumeric;
    col "transaction_version" TInt8;
    col "table_handle" (varchar 66);
    col "creator_address" (varchar 66);
    col "collection_name" (varchar 128);
    col "name" (varchar 128);
    nullable "owner_address" (varchar 66);
    col "amount" TNumeric;
    nullable "table_type" TText;
    col "inserted_at" TTimestamp;
    col "collection_data_id_hash" (varchar 64);
    col "transaction_timestamp" TTimestamp] |}.

Definition token_ownerships_v2 : TableDef := {|
  table_name := "token_ownerships_v2";
  primary_key := ["transaction_version"; "write_set_change_index"];
  columns := [
    col "transaction_version" TInt8;
    col "write_set_change_index" TInt8;
    col "token_data_id" (varchar 66);
    col "property_version_v1" TNumeric;
    nullable "owner_address" (varchar 66);
    col "storage_id" (varchar 66);
    col "amount" TNumeric;
    nullable "table_type_v1" (varchar 66);
    nullable "token_properties_mutated_v1" TJsonb;
    nullable "is_soulbound_v2" TBool;
    col "token_standard" (varchar 10);
    nullable "is_fungible_v2" TBool;
    col "transaction_timestamp" TTimestamp;
    col "inserted_at" TTimestamp;
    nullable "non_transferrable_by_owner" TBool] |}.

Definition tokens : TableDef := {|
  table_name := "tokens";
  primary_key := ["token_data_id_hash"; "property_version"; "transaction_version"];
  columns := [
    col "token_data_id_hash" (varchar 64);
    col "property_version" TNumeric;
    col "transaction_version" TInt8;
    col "creator_address" (varchar 66);
    col "collection_name" (varchar 128);
    col "name" (varchar 128);
    col "token_properties" TJsonb;
    col "inserted_at" TTimestamp;
    col "collection_data_id_hash" (varchar 64);
    col "transaction_timestamp" TTimestamp] |}.

Definition transaction_size_info : TableDef := {|
  table_name := "transaction_size_info";
  primary_key := ["transaction_version"];
  columns := [
    col "transaction_version" TInt8;
    col "size_bytes" TInt8;
    col "inserted_at" TTimestamp] |}.

Definition transactions : TableDef := {|
  table_name := "transactions";
  primary_key := ["version"];
  columns := [
    col "version" TInt8;
    col "block_height" TInt8;
    col "hash" (varchar 66);
    sql_col "type_" "type" (TVarchar None);
    nullable "payload" TJsonb;
    col "state_change_hash" (varchar 66);
    col "event_root_hash" (varchar 66);
    nullable "state_checkpoint_hash" (varchar 66);
    col "gas_used" TNumeric;
    col "success" TBool;
    col "vm_status" TText;
    col "accumulator_root_hash" (varchar 66);
    col "num_events" TInt8;
    col "num_write_set_changes" TInt8;
    col "inserted_at" TTimestamp;
    col "epoch" TInt8;
    nullable "payload_type" (varchar 50)] |}.

Definition user_transactions : TableDef := {|
  table_name := "user_transactions";
  primary_key := ["version"];
  columns := [
    col "version" TInt8;
    col "block_height" TInt8;
    col "parent_signature_type" (varchar 50);
    col "sender" (varchar 66);
    col "sequence_number" TInt8;
    col "max_gas_amount" TNumeric;
    col "expiration_timestamp_secs" TTimestamp;
    col "gas_unit_price" TNumeric;
    col "timestamp" TTimestamp;
    col "entry_function_id_str" (varchar 1000);
    col "inserted_at" TTimestamp;
    col "epoch" TInt8] |}.

Definition write_set_changes : TableDef := {|
  table_name := "write_set_changes";
  primary_key := ["transaction_version"; "index"];
  columns := [
    col "transaction_version" TInt8;
    col "index" TInt8;
    col "hash" (varchar 66);
    col "transaction_block_height" TInt8;
    sql_col "type_" "type" TText;
    col "address" (varchar 66);
    col "inserted_at" TTimestamp] |}.

Definition write_set_size_info : TableDef := {|
  table_name := "write_set_size_info";
  primary_key := ["transaction_version"; "index"];
  columns := [
    col "transaction_version" TInt8;
    col "index" TInt8;
    col "key_bytes" TInt8;
    col "value_bytes" TInt8;
    col "inserted_at" TTimestamp] |}.

(** The tables of [allow_tables_to_appear_in_same_query!]: all of them. *)
Definition allow_tables_to_appear_in_same_query : list TableDef :=
  [account_transactions; ans_lookup; ans_lookup_v2; ans_primary_name;
   ans_primary_name_v2; block_metadata_transactions; coin_activities; coin_balances;
   coin_infos; coin_supply; collection_datas; collections_v2;
   current_ans_lookup; current_ans_lookup_v2; current_ans_primary_name; current_ans_primary_name_v2;
   current_coin_balances; current_collection_datas; current_collections_v2; current_delegated_staking_pool_balances;
   current_delegated_voter; current_delegator_balances; current_fungible_asset_balances; current_objects;
   current_staking_pool_voter; current_table_items; current_token_datas; current_token_datas_v2;
   current_token_ownerships; current_token_ownerships_v2; current_token_pending_claims; current_token_v2_metadata;
   delegated_staking_activities; delegated_staking_pool_balances; delegated_staking_pools; delegator_balances;
   event_size_info; events; fungible_asset_activities; fungible_asset_balances;
   fungible_asset_metadata; indexer_status; ledger_infos; move_modules;
   move_resources; nft_points; objects; processor_status;
   proposal_votes; signatures; spam_assets; table_items;
   table_metadatas; token_activities; token_activities_v2; token_datas;
   token_datas_v2; token_ownerships; token_ownerships_v2; tokens;
   transaction_size_info; transactions; user_transactions; write_set_changes;
   write_set_size_info].
End schema.
