(* ===== verification/SharedTable.v ===== *)
(** * A table written by two queries

    The token processor awaits two calls of [execute_in_chunks] on the same
    table together: one for the current rows, one for the deleted ones.  Their
    statements interleave.  The two queries update different columns, so the
    table settles only in the columns that both of them set. *)
From S2P Require Import Prelude RustStr Json Externals Util Database.

(** ** Both calls *)

Section Both.
Context {row key : Type} `{PgTable row key, DebugQuery row key, Serialize row, Deserialize row}.

(** The tasks of either call may take the next step. *)
Inductive both_step (u1 u2 : Upsert row key)
  : list WriteTask * list WriteTask * pg_state -> list WriteTask * list WriteTask * pg_state -> Prop :=
| both_step_l ts1 ts1' ts2 s s' :
    tasks_step u1 (ts1, s) (ts1', s') -> both_step u1 u2 (ts1, ts2, s) (ts1', ts2, s')
| both_step_r ts1 ts2 ts2' s s' :
    tasks_step u2 (ts2, s) (ts2', s') -> both_step u1 u2 (ts1, ts2, s) (ts1, ts2', s').

(** [tokio::join!] of two calls of [execute_in_chunks] with one chunk size. *)
Definition execute_both (u1 : Upsert row key) (items1 : list row) (u2 : Upsert row key) (items2 : list row)
    (chunk_size : nat) (s s' : pg_state) (res1 res2 : outcome (result unit)) : Prop :=
  match spawn_chunks items1 chunk_size, spawn_chunks items2 chunk_size with
  | Ret ts1, Ret ts2 =>
      exists ts1' ts2', rtc (both_step u1 u2) (ts1, ts2, s) (ts1', ts2', s') /\
        join_tasks ts1' res1 /\ join_tasks ts2' res2
  | _, _ => s' = s /\ res1 = Panic /\ res2 = Panic
  end.

Definition write_table_both `{FieldCount row} (u1 u2 : Upsert row key) (table_name : string)
    (sizes : gmap string nat) (items1 items2 : list row) (s s' : pg_state)
    (res1 res2 : outcome (result unit)) : Prop :=
  match get_config_table_chunk_size row table_name sizes with
  | Ret chunk_size => execute_both u1 items1 u2 items2 chunk_size s s' res1 res2
  | Panic => s' = s /\ res1 = Panic /\ res2 = Panic
  end.
End Both.

(** ** Rows with their query *)

Section WriteRows.
Context {row key : Type} `{Countable key}.
Implicit Types (t : gmap key row) (l : list (Upsert row key * row)).

Definition write_rows t l : gmap key row := foldl (fun t w => upsert_row w.1 t w.2) t l.
Definition tag (u : Upsert row key) (rows : list row) : list (Upsert row key * row) := pair u <$> rows.

Lemma write_rows_app t l1 l2 : write_rows t (l1 ++ l2) = write_rows (write_rows t l1) l2.
Proof. apply foldl_app. Qed.
Lemma write_rows_tag t u rows : write_rows t (tag u rows) = upsert_rows u t rows.
Proof. revert t. induction rows as [|r rows IH]; intros t; csimpl; [done|]. apply IH. Qed.
Lemma tag_app u r1 r2 : tag u (r1 ++ r2) = tag u r1 ++ tag u r2.
Proof. apply fmap_app. Qed.

Lemma write_rows_some t l k : is_Some (t !! k) -> is_Some (write_rows t l !! k).
Proof.
  revert t. induction l as [|[u r] l IH]; intros t Hk; simpl; [done|]. by apply IH, upsert_row_some.
Qed.
End WriteRows.

Section BothEffect.
Context {row key : Type} `{PgLaws row key, DebugQuery row key, Serialize row, Deserialize row}.
Variables u1 u2 : Upsert row key.

(** What holds while both calls run: the table is the result of the rows
    committed so far by either, in commit order. *)
Definition both_inv (cs1 cs2 : list (list row)) (s0 : pg_state)
    (st : list WriteTask * list WriteTask * pg_state) : Prop :=
  exists done1 done2 order, task_inv cs1 done1 st.1.1 /\ task_inv cs2 done2 st.1.2 /\
    pg_rows st.2 = write_rows (pg_rows s0) order /\
    order ≡ₚ tag u1 (concat done1.*2) ++ tag u2 (concat done2.*2).

Lemma both_inv_steps cs1 cs2 s0 st st' :
  Forall (chunk_ok u1) cs1 -> Forall (chunk_ok u2) cs2 ->
  both_inv cs1 cs2 s0 st -> rtc (both_step u1 u2) st st' -> both_inv cs1 cs2 s0 st'.
Proof.
  intros Hok1 Hok2 Hi Hr. induction Hr as [|st1 st2 st3 Hs _ IH]; [done|]. apply IH.
  destruct Hi as (d1 & d2 & order & Ht1 & Ht2 & Hrows & Hp).
  destruct Hs as [ts1 ts1' ts2 s s' Hs|ts1 ts2 ts2' s s' Hs]; simpl in *.
  - destruct (task_inv_step u1 cs1 d1 ts1 s ts1' s') as (new & Hi & Hrows'); [done..|].
    exists (d1 ++ new), d2, (order ++ tag u1 (concat new.*2)). split_and!; simpl; [done..| |].
    + by rewrite Hrows', Hrows, write_rows_app, write_rows_tag.
    + rewrite fmap_app, concat_app, tag_app, Hp. solve_Permutation.
  - destruct (task_inv_step u2 cs2 d2 ts2 s ts2' s') as (new & Hi & Hrows'); [done..|].
    exists d1, (d2 ++ new), (order ++ tag u2 (concat new.*2)). split_and!; simpl; [done..| |].
    + by rewrite Hrows', Hrows, write_rows_app, write_rows_tag.
    + rewrite fmap_app, concat_app, tag_app, Hp. solve_Permutation.
Qed.

(** Two calls that both succeed have stored their rows, each chunk as given or
    cleaned, in some interleaving. *)
Lemma execute_both_effect items1 items2 chunk_size s s' :
  NoDup (up_key u1 <$> items1) -> Forall (clean_keeps_key u1) items1 ->
  NoDup (up_key u2 <$> items2) -> Forall (clean_keeps_key u2) items2 ->
  (forall c rows, c ∈ chunks chunk_size items1 -> chunk_rows c rows -> additional_where u1 rows = up_where u1) ->
  (forall c rows, c ∈ chunks chunk_size items2 -> chunk_rows c rows -> additional_where u2 rows = up_where u2) ->
  execute_both u1 items1 u2 items2 chunk_size s s' (Ret (Ok tt)) (Ret (Ok tt)) ->
  exists eff1 eff2 order, Forall2 chunk_rows (chunks chunk_size items1) eff1 /\
    Forall2 chunk_rows (chunks chunk_size items2) eff2 /\
    order ≡ₚ tag u1 (concat eff1) ++ tag u2 (concat eff2) /\
    pg_rows s' = write_rows (pg_rows s) order.
Proof.
  intros Hn1 Hk1 Hn2 Hk2 Hw1 Hw2 Hex. unfold execute_both, spawn_chunks in Hex.
  destruct (decide (chunk_size = 0)) as [|Hpos]; [naive_solver|].
  destruct Hex as (ts1 & ts2 & Hsteps & Hj1%join_tasks_ok & Hj2%join_tasks_ok).
  assert (both_inv (chunks chunk_size items1) (chunks chunk_size items2) s (ts1, ts2, s'))
    as (d1 & d2 & order & Hi1 & Hi2 & Hrows & Hp).
  { eapply both_inv_steps; [apply spawned_chunks_ok; [lia|done..]|apply spawned_chunks_ok; [lia|done..]| |done].
    exists [], [], []. split_and!; simpl; [apply task_inv_init..|done|done]. }
  destruct (task_inv_complete _ _ _ Hi1 Hj1) as (eff1 & He1 & Hp1).
  destruct (task_inv_complete _ _ _ Hi2 Hj2) as (eff2 & He2 & Hp2).
  exists eff1, eff2, order. split_and!; [done..| |done].
  rewrite Hp. unfold tag. by rewrite Hp1, Hp2.
Qed.
End BothEffect.

(** ** The columns both queries set

    [view] keeps the key, the version and the columns that every query on the
    table sets; on these columns a query is the query [v]. *)
Class Projects {row vrow key} (view : row -> vrow) (v : Upsert vrow key) (u : Upsert row key) : Prop := {
  projects_key : forall r, up_key v (view r) = up_key u r;
  projects_where : match up_where u, up_where v with
                   | Some w, Some w' => forall old new, w old new = w' (view old) (view new)
                   | None, None => True
                   | _, _ => False
                   end;
  projects_action : match up_action u, up_action v with
                    | DoUpdate set, DoUpdate set' => forall old new, view (set old new) = set' (view old) (view new)
                    | DoNothing, DoNothing => True
                    | _, _ => False
                    end;
}.

Section Views.
Context {row vrow key : Type} `{Countable key} (view : row -> vrow) (v : Upsert vrow key).
Implicit Types (t : gmap key row) (l order all : list (Upsert row key * row)).

Lemma upsert_row_view u `{!Projects view v u} t r :
  view <$> upsert_row u t r = upsert_row v (view <$> t) (view r).
Proof.
  apply map_eq. intros k. rewrite lookup_fmap, !upsert_row_lookup, lookup_fmap, (projects_key (u := u)).
  case_decide; [|done]. destruct (t !! k) as [o|]; simpl; [|done].
  unfold upsert_at. pose proof (projects_where (u := u)) as Hw. pose proof (projects_action (u := u)) as Ha.
  assert (from_option (fun w => w o r) true (up_where u) =
          from_option (fun w => w (view o) (view r)) true (up_where v)) as Hcond.
  { destruct (up_where u), (up_where v); simpl in *; first [done|apply Hw]. }
  destruct (up_action u) as [|set], (up_action v) as [|set']; try done.
  rewrite Hcond. destruct (from_option _ true (up_where v)); simpl; [|done]. by rewrite Ha.
Qed.

Lemma write_rows_view t l :
  Forall (fun w => Projects view v w.1) l ->
  view <$> write_rows t l = upsert_rows v (view <$> t) ((fun w => view w.2) <$> l).
Proof.
  intros Hl. revert t. induction Hl as [|[u r] l Hu _ IH]; intros t; csimpl; [done|].
  by rewrite IH, upsert_row_view.
Qed.

Context `{!Lww v}.

(** The view of the table does not depend on the order of the writes, and the
    row of a key has the columns of a newest write of that key. *)
Definition view_settles order all : Prop :=
  view <$> write_rows ∅ order = view <$> write_rows ∅ all /\
  forall k r, write_rows ∅ order !! k = Some r -> exists w,
    w ∈ order /\ view r = view w.2 /\ up_key v (view w.2) = k /\
    forall w', w' ∈ order -> up_key v (view w'.2) = k -> (lww_rank (view w'.2) <= lww_rank (view w.2))%Z.

Lemma lww_view_settles order all :
  Forall (fun w => Projects view v w.1) all ->
  lww_coherent v ((fun w => view w.2) <$> all) -> order ≡ₚ all -> view_settles order all.
Proof.
  intros Hall Hc Hp.
  assert (Forall (fun w => Projects view v w.1) order) as Hord by (by rewrite Hp).
  assert (lww_coherent v ((fun w => view w.2) <$> order)) as Hco.
  { eapply (lww_coherent_perm v); [|exact Hc]. by rewrite Hp. }
  split.
  - rewrite !write_rows_view, fmap_empty by done. apply (lww_empty_perm v); [done|]. by rewrite Hp.
  - intros k r Hk. assert ((view <$> write_rows ∅ order) !! k = Some (view r)) as He.
    { by rewrite lookup_fmap, Hk. }
    rewrite write_rows_view, fmap_empty in He by done.
    apply (lww_rows_newest v) in He as (Hin & Hkey & Hmax); [|done].
    apply list_elem_of_fmap in Hin as (w & Hw & Hin). exists w. split_and!; [done..|by rewrite <- Hw|].
    intros w' Hw' Hk'. rewrite <- Hw. apply Hmax; [by apply (list_elem_of_fmap_2 (fun w => view w.2))|done].
Qed.
End Views.

(** ** The newest write

    The least view: the key and the version of a row, which guards every
    update. *)
Definition version_query {key} : Upsert (key * Z) key :=
  {| up_key := fst;
     up_action := DoUpdate (fun old new => (old.1, new.2));
     up_where := Some (fun old new => bool_decide (old.2 <= new.2)%Z) |}.
#[export] Instance version_query_lww {key} : Lww (@version_query key).
Proof.
  refine {| lww_rank := snd; lww_static_type := unit; lww_static := fun _ => tt;
            lww_set := fun old new => (old.1, new.2) |}; try done.
  intros [] [] Hk _. simpl in *. by subst.
Defined.

Section Newest.
Context {row key : Type} `{Countable key} (view : row -> key * Z).
Implicit Types (t : gmap key row) (w : Upsert row key * row) (l : list (Upsert row key * row)).
Abbreviation version r := (view r).2.

(** The row is the written one, or an old one updated with it. *)
Definition stamped w (r : row) : Prop :=
  r = w.2 \/ exists set old, up_action w.1 = DoUpdate set /\ r = set old w.2.

Lemma guarded_upsert_at u `{!Projects view version_query u} o n :
  (version n < version o -> upsert_at u (Some o) n = Some o)%Z /\
  (version o <= version n -> exists set, up_action u = DoUpdate set /\
     upsert_at u (Some o) n = Some (set o n) /\ version (set o n) = version n)%Z.
Proof.
  pose proof (projects_where (u := u)) as Hw. pose proof (projects_action (u := u)) as Ha. unfold upsert_at.
  destruct (up_where u) as [cond|]; [|done]. destruct (up_action u) as [|set]; [done|]. simpl in *. rewrite Hw.
  split; intros Hv.
  - by rewrite bool_decide_false by lia.
  - rewrite bool_decide_true by lia. exists set. by rewrite Ha.
Qed.

(** The table has the write [w]; or only older rows of its key. *)
Definition decided w t : Prop :=
  exists r, t !! (view w.2).1 = Some r /\ stamped w r /\ version r = version w.2.
Definition older w t : Prop := forall r, t !! (view w.2).1 = Some r -> (version r < version w.2)%Z.

Lemma write_newest u `{!Projects view version_query u} t n :
  decided (u, n) t \/ older (u, n) t -> decided (u, n) (upsert_row u t n).
Proof.
  intros Ht. unfold decided. simpl.
  rewrite upsert_row_lookup, decide_True by (by rewrite <- (projects_key (u := u))).
  destruct (t !! _) as [o|] eqn:Ho; [|exists n; split_and!; [done|by left|done]].
  destruct (guarded_upsert_at u o n) as [_ (set & Hset & -> & Hv)].
  { destruct Ht as [(r & Hr & _ & Hv)|Hlt]; simpl in *; [rewrite Ho in Hr; injection Hr as <-; by rewrite Hv|].
    by apply Z.lt_le_incl, Hlt. }
  exists (set o n). split_and!; [done| |done]. right. by exists set, o.
Qed.
Lemma write_older w u `{!Projects view version_query u} t n :
  ((view n).1 = (view w.2).1 -> version n < version w.2)%Z ->
  (decided w t -> decided w (upsert_row u t n)) /\ (older w t -> older w (upsert_row u t n)).
Proof.
  intros Hn. unfold decided, older. rewrite upsert_row_lookup, <- (projects_key (u := u)).
  case_decide as Hk; [|done]. simpl in Hk. specialize (Hn Hk). split.
  - intros (r & Hr & Hs & Hv). rewrite Hr. rewrite (proj1 (guarded_upsert_at u r n)) by lia. eauto.
  - intros Hlow r. destruct (t !! _) as [o|] eqn:Ho; [|by intros [= <-]].
    destruct (Z.lt_ge_cases (version n) (version o)) as [Hc|Hc].
    + rewrite (proj1 (guarded_upsert_at u o n)) by done. intros [= <-]. by apply Hlow.
    + destruct (guarded_upsert_at u o n) as [_ (set & _ & -> & Hv)]; [done|]. intros [= <-]. by rewrite Hv.
Qed.

(** A write that is newer than all others of its key decides the row, in any
    order of the writes. *)
Lemma newest_write w l :
  Forall (fun w => Projects view version_query w.1) l -> w ∈ l ->
  (forall w', w' ∈ l -> (view w'.2).1 = (view w.2).1 -> w' = w \/ (version w'.2 < version w.2)%Z) ->
  decided w (write_rows ∅ l).
Proof.
  intros Hp Hin Hnew.
  assert (forall t, (decided w t \/ (w ∈ l /\ older w t)) -> decided w (write_rows t l)) as Hind.
  { clear Hin. induction l as [|[u n] l IH]; intros t Ht; simpl.
    { destruct Ht as [?|[[]%elem_of_nil _]]; done. }
    apply Forall_cons in Hp as [Hu Hp]. simpl in Hu.
    apply IH; [done|intros; apply Hnew; [by right|done]|].
    destruct (decide ((view n).1 = (view w.2).1)) as [Hk|Hk].
    - destruct (Hnew (u, n)) as [<-|Hlt]; [by left|done| |].
      { left. apply write_newest; [done|]. naive_solver. }
      destruct (write_older w u t n) as [H1 H2]; [done|]. destruct Ht as [?|[[->|?]%elem_of_cons ?]]; simpl in *; [auto|lia|auto].
    - destruct (write_older w u t n) as [H1 H2]; [done|].
      destruct Ht as [?|[[->|?]%elem_of_cons ?]]; simpl in *; [auto|done|auto]. }
  apply Hind. right. split; [done|]. intros r. by rewrite lookup_empty.
Qed.
End Newest.
