(* ===== verification/Processors.v ===== *)
(** * The processor interface

    [rust/processor/src/processors/mod.rs], [models/processor_status.rs] and
    [build_processor] of [worker.rs]: what a batch reports, the interface a
    processor offers to the worker, the status row it writes, and how a
    processor is built from its configuration. *)
From S2P Require Import Prelude RustStr Json Externals Proto Util Database.

(** ** Results

    The two [f64] durations are only reported to metrics: their bit patterns. *)
Record ProcessingResult := {
  start_version : Z;
  end_version : Z;
  last_transaction_timestamp : option Timestamp;
  processing_duration_in_secs : Z;
  db_insertion_duration_in_secs : Z;
}.
#[export] Instance ProcessingResult_dec : EqDecision ProcessingResult.
Proof. solve_decision. Defined.

(** ** The interface between the worker and a processor

    [process_transactions txns start end db_chain_id db db' res]: processing
    the batch may turn the database [db] into [db'] and return [res].  It is a
    relation because the writes of one batch run concurrently. *)
Class ProcessorTrait (db : Type) := {
  processor_name : string;
  process_transactions : list Transaction -> Z -> Z -> option Z ->
    db -> db -> outcome (result ProcessingResult) -> Prop;
}.
(** What the gap detector relies on: a successful result covers the versions
    of the batch. *)
Class ProcessorLaws (db : Type) `{ProcessorTrait db} :=
  process_transactions_versions : forall txns s e chain d d' r,
    process_transactions txns s e chain d d' (Ret (Ok r)) ->
    start_version r = s /\ end_version r = e.

(** The body every database processor shares: the last timestamp of the
    batch, the rows computed from the transactions, the write, and the result.
    The durations are whatever the clock says. *)
Definition process_batch {rows db : Type} (compute : list Transaction -> outcome rows)
    (insert_to_db : rows -> db -> db -> outcome (result unit) -> Prop)
    (transactions : list Transaction) (s e : Z) (db_chain_id : option Z) (d d' : db)
    (res : outcome (result ProcessingResult)) : Prop :=
  match (lst ← unwrap (last transactions); r ← compute transactions; Ret (lst, r)) with
  | Panic => d' = d /\ res = Panic
  | Ret (lst, r) =>
      exists tx_result processing_duration db_duration,
        insert_to_db r d d' tx_result /\
        res = (tx ← tx_result;
               Ret (_ ← tx;
                    Ok {| start_version := s; end_version := e;
                          last_transaction_timestamp := t_timestamp lst;
                          processing_duration_in_secs := processing_duration;
                          db_insertion_duration_in_secs := db_duration |}))
  end.

Lemma process_batch_ok {rows db} (compute : list Transaction -> outcome rows)
    (ins : rows -> db -> db -> outcome (result unit) -> Prop) txns s e chain d d' r :
  process_batch compute ins txns s e chain d d' (Ret (Ok r)) ->
  (start_version r = s /\ end_version r = e) /\
  exists rs, compute txns = Ret rs /\ ins rs d d' (Ret (Ok tt)).
Proof.
  unfold process_batch. destruct (last txns) as [lst|]; simpl; [|naive_solver].
  destruct (compute txns) as [rs|]; simpl; [|naive_solver].
  intros (tx & pd & dd & Hins & Hr). symmetry in Hr. outcome_inv.
  destruct x as [[]|]; simplify_eq/=. eauto.
Qed.

(** The same for a processor whose computation of the rows may also fail with
    an error, which is returned without a write. *)
Definition process_batch_try {rows db : Type} (compute : list Transaction -> outcome (result rows))
    (insert_to_db : rows -> db -> db -> outcome (result unit) -> Prop)
    (transactions : list Transaction) (s e : Z) (db_chain_id : option Z) (d d' : db)
    (res : outcome (result ProcessingResult)) : Prop :=
  match last transactions, compute transactions with
  | Some _, Ret Err => d' = d /\ res = Ret Err
  | _, _ => process_batch (fun ts => r ← compute ts; unwrap_result r) insert_to_db
              transactions s e db_chain_id d d' res
  end.

Lemma process_batch_try_ok {rows db} (compute : list Transaction -> outcome (result rows))
    (ins : rows -> db -> db -> outcome (result unit) -> Prop) txns s e chain d d' r :
  process_batch_try compute ins txns s e chain d d' (Ret (Ok r)) ->
  (start_version r = s /\ end_version r = e) /\
  exists rs, compute txns = Ret (Ok rs) /\ ins rs d d' (Ret (Ok tt)).
Proof.
  unfold process_batch_try. intros Hr.
  assert (process_batch (fun ts => r ← compute ts; unwrap_result r) ins txns s e chain d d' (Ret (Ok r))) as Hp.
  { destruct (last txns), (compute txns) as [[]|]; try done. by destruct Hr. }
  apply process_batch_ok in Hp as [Hv (rs & Hc & Hi)]. split; [done|]. exists rs. split; [|done].
  by destruct (compute txns) as [[]|]; simplify_eq/=.
Qed.

(** ** Lookups in the database

    The [while] loop around a query: it is repeated until it answers or the
    retries are used up.  [query n] is the answer to the [n]-th attempt. *)
Fixpoint retry_lookup_from {A} (remaining tried : nat) (query : nat -> result A) : result A :=
  match remaining with
  | 0 => Err
  | S remaining => match query tried with
              | Ok res => Ok res
              | Err => retry_lookup_from remaining (S tried) query
              end
  end.
Definition retry_lookup {A} (query_retries : nat) (query : nat -> result A) : result A :=
  retry_lookup_from query_retries 0 query.

Lemma retry_lookup_from_Ok {A} remaining tried (query : nat -> result A) a :
  retry_lookup_from remaining tried query = Ok a <->
  exists n, tried <= n < tried + remaining /\ query n = Ok a /\ forall m, tried <= m < n -> query m = Err.
Proof.
  revert tried. induction remaining as [|remaining IH]; intros tried; simpl.
  - split; [done|]. intros (n & ? & _). lia.
  - destruct (query tried) as [b|] eqn:Hq.
    + split.
      * intros [= ->]. exists tried. split_and!; [lia..|done|]. intros m Hm. lia.
      * intros (n & Hn & Hqn & Hall). destruct (decide (n = tried)) as [->|]; [congruence|].
        rewrite Hall in Hq by lia. done.
    + rewrite IH. split; intros (n & Hn & Hqn & Hall).
      * exists n. split_and!; [lia..|done|]. intros m Hm.
        destruct (decide (m = tried)) as [->|]; [done|]. apply Hall. lia.
      * destruct (decide (n = tried)) as [->|]; [congruence|].
        exists n. split_and!; [lia..|done|]. intros m Hm. apply Hall. lia.
Qed.

(** The first answer within the retries is returned; an error means that
    every attempt failed. *)
Lemma retry_lookup_Ok {A} query_retries (query : nat -> result A) a :
  retry_lookup query_retries query = Ok a <->
  exists n, n < query_retries /\ query n = Ok a /\ forall m, m < n -> query m = Err.
Proof.
  unfold retry_lookup. rewrite retry_lookup_from_Ok. split; intros (n & Hn & Hq & Hall); exists n;
    split_and!; try done; try lia; intros; apply Hall; lia.
Qed.

Lemma retry_lookup_Err {A} query_retries (query : nat -> result A) :
  retry_lookup query_retries query = Err <-> forall n, n < query_retries -> query n = Err.
Proof.
  unfold retry_lookup.
  assert (forall tried, retry_lookup_from query_retries tried query = Err <->
    forall n, tried <= n < tried + query_retries -> query n = Err) as Hgen.
  { induction query_retries as [|k IH]; intros tried; simpl.
    - split; [intros _ n ?; lia|done].
    - destruct (query tried) eqn:Hq; [split; [done|intros Hall; by rewrite Hall in Hq by lia]|].
      rewrite IH. split; intros Hall n Hn; [|apply Hall; lia].
      destruct (decide (n = tried)) as [->|]; [done|]. apply Hall. lia. }
  rewrite Hgen. split; intros Hall n Hn; apply Hall; lia.
Qed.

(** ** Batches of transactions *)

(** The versions of a batch, as they are stored. *)
Definition txn_versions (transactions : list Transaction) : list Z :=
  (fun t => as_i64 (t_version t)) <$> transactions.

Lemma batch_versions_NoDup (transactions : list Transaction) :
  Forall (fun t => in_u64 (t_version t)) transactions -> NoDup (t_version <$> transactions) ->
  NoDup (txn_versions transactions).
Proof.
  unfold txn_versions.
  induction transactions as [|t ts IH]; intros Hv Hn; [constructor|].
  apply Forall_cons in Hv as [Ht Hv]. rewrite fmap_cons in Hn |- *.
  apply NoDup_cons in Hn as [Hnot Hn]. constructor; [|by apply IH].
  intros (t' & He & Hin)%list_elem_of_fmap. apply Hnot, list_elem_of_fmap. exists t'.
  split; [|done]. rewrite Forall_forall in Hv. apply as_i64_inj; auto.
Qed.

(** Rows of a current-state table from batches with distinct versions: if the
    rows of one batch with the same key and version are the same and carry
    versions of the batch, and rows of one key agree on the columns that are never updated, then the rows
    of all batches can be written in any order. *)
Lemma batches_coherent_gen {rows row key} (u : Upsert row key) `{!Lww u}
    (computed : list Transaction -> rows -> Prop) (current : rows -> list row) (version : row -> Z)
    (batches : list (list Transaction)) (rs : list rows) :
  (forall a b, lww_rank (u := u) a = lww_rank (u := u) b -> version a = version b) ->
  (forall a b, a ∈ concat (current <$> rs) -> b ∈ concat (current <$> rs) -> up_key u a = up_key u b ->
     lww_static (u := u) a = lww_static (u := u) b) ->
  (forall b r, r ∈ rs -> computed b r ->
     (forall c c', c ∈ current r -> c' ∈ current r -> up_key u c = up_key u c' -> version c = version c' -> c = c') /\
     forall c, c ∈ current r -> version c ∈ txn_versions b) ->
  NoDup (txn_versions (concat batches)) ->
  Forall2 computed batches rs ->
  lww_coherent u (concat (current <$> rs)).
Proof.
  intros Hrank Hst Hrow Hn Hrs a b Ha Hb Hk. split; [by apply Hst|]. intros Hv%Hrank.
  assert (forall c, c ∈ concat (current <$> rs) -> exists i bt r,
    batches !! i = Some bt /\ rs !! i = Some r /\ computed bt r /\ c ∈ current r) as Hsrc.
  { intros c (l & Hl & Hc)%list_elem_of_In%in_concat.
    apply list_elem_of_In, list_elem_of_fmap in Hl as (r & -> & [i Hi]%list_elem_of_lookup).
    destruct (Forall2_lookup_r _ _ _ _ _ Hrs Hi) as (bt & Hbt & Hr).
    exists i, bt, r. by rewrite list_elem_of_In. }
  destruct (Hsrc a Ha) as (i & b1 & r1 & Hb1 & Hr1 & Hd1 & Ha1).
  destruct (Hsrc b Hb) as (j & b2 & r2 & Hb2 & Hr2 & Hd2 & Hb2').
  destruct (Hrow b1 r1) as [Hn1 Hv1]; [by eapply list_elem_of_lookup_2|done|].
  destruct (Hrow b2 r2) as [_ Hv2]; [by eapply list_elem_of_lookup_2|done|].
  assert (i = j) as ->.
  { specialize (Hv1 _ Ha1). specialize (Hv2 _ Hb2'). rewrite Hv in Hv1.
    clear -Hn Hb1 Hb2 Hv1 Hv2. by eapply NoDup_concat_index. }
  assert (r1 = r2) as -> by congruence. by apply Hn1.
Qed.

(** The case of one row per key in a batch. *)
Lemma batches_coherent_rel {rows row key} (u : Upsert row key) `{!Lww u}
    (computed : list Transaction -> rows -> Prop) (current : rows -> list row) (version : row -> Z)
    (batches : list (list Transaction)) (rs : list rows) :
  (forall a b, lww_rank (u := u) a = lww_rank (u := u) b -> version a = version b) ->
  (forall a b, a ∈ concat (current <$> rs) -> b ∈ concat (current <$> rs) -> up_key u a = up_key u b ->
     lww_static (u := u) a = lww_static (u := u) b) ->
  (forall b r, r ∈ rs -> computed b r -> NoDup (up_key u <$> current r) /\
     forall c, c ∈ current r -> version c ∈ txn_versions b) ->
  NoDup (txn_versions (concat batches)) ->
  Forall2 computed batches rs ->
  lww_coherent u (concat (current <$> rs)).
Proof.
  intros Hrank Hst Hrow. eapply batches_coherent_gen; [exact Hrank|exact Hst|].
  intros b r Hr Hb. destruct (Hrow b r Hr Hb) as [Hd Hv]. split; [|done].
  intros c c' Hc Hc' Hk _. by eapply (NoDup_fmap_key_inj (up_key u) (current r)).
Qed.

Lemma batches_coherent {rows row key} (u : Upsert row key) `{!Lww u}
    (compute : list Transaction -> outcome rows) (current : rows -> list row) (version : row -> Z)
    (batches : list (list Transaction)) (rs : list rows) :
  (forall a b, lww_rank (u := u) a = lww_rank (u := u) b -> version a = version b) ->
  (forall a b, a ∈ concat (current <$> rs) -> b ∈ concat (current <$> rs) -> up_key u a = up_key u b ->
     lww_static (u := u) a = lww_static (u := u) b) ->
  (forall b r, r ∈ rs -> compute b = Ret r -> NoDup (up_key u <$> current r) /\
     forall c, c ∈ current r -> version c ∈ txn_versions b) ->
  NoDup (txn_versions (concat batches)) ->
  Forall2 (fun b r => compute b = Ret r) batches rs ->
  lww_coherent u (concat (current <$> rs)).
Proof. apply batches_coherent_rel. Qed.

(** The same for a table whose update sets every column, as a statement about
    the resulting table. *)
Lemma batches_settle {rows row key} `{Countable key} (u : Upsert row key) `{!Lww u}
    (computed : list Transaction -> rows -> Prop) (current : rows -> list row) (version : row -> Z)
    (batches : list (list Transaction)) (rs : list rows) (order : list row) :
  (forall a b, lww_rank (u := u) a = lww_rank (u := u) b -> version a = version b) ->
  (forall a b, lww_static (u := u) a = lww_static (u := u) b) ->
  (forall b r, computed b r -> NoDup (up_key u <$> current r) /\
     forall c, c ∈ current r -> version c ∈ txn_versions b) ->
  NoDup (txn_versions (concat batches)) -> Forall2 computed batches rs ->
  order ≡ₚ concat (current <$> rs) -> settles u order (concat (current <$> rs)).
Proof.
  intros Hrank Hst Hrow Hn Hrs Hp. apply lww_settles; [|done].
  eapply lww_coherent_perm; [symmetry; exact Hp|].
  eapply (batches_coherent_rel u computed current version); eauto.
Qed.

(** The same for a table with a column that is never updated. *)
Lemma batches_settle_up_to {rows row key} `{Countable key} (u : Upsert row key) `{!Lww u}
    (erase : row -> row) `{!Erasure u erase}
    (computed : list Transaction -> rows -> Prop) (current : rows -> list row) (version : row -> Z)
    (batches : list (list Transaction)) (rs : list rows) (order : list row) :
  (forall a b, lww_rank (u := u) a = lww_rank (u := u) b -> version a = version b) ->
  (forall b r, computed b r -> NoDup (up_key u <$> current r) /\
     forall c, c ∈ current r -> version c ∈ txn_versions b) ->
  NoDup (txn_versions (concat batches)) -> Forall2 computed batches rs ->
  order ≡ₚ concat (current <$> rs) -> settles_up_to u erase order (concat (current <$> rs)).
Proof.
  intros Hrank Hrow Hn Hrs Hp. apply lww_settles_up_to; [done| |done].
  assert (erase <$> concat (current <$> rs) = concat ((fun r => erase <$> current r) <$> rs)) as He.
  { clear. induction rs as [|r rs IH]; csimpl; [done|]. by rewrite fmap_app, IH. }
  eapply lww_coherent_perm; [rewrite Hp, He; reflexivity|].
  eapply (batches_coherent_rel u computed (fun r => erase <$> current r) version); [done| | |done|done].
  - intros a b Ha Hb _. rewrite <- He in Ha, Hb. apply list_elem_of_fmap in Ha as (a' & -> & _), Hb as (b' & -> & _).
    apply (erase_static u).
  - intros b r _ Hbr. destruct (Hrow b r Hbr) as [Hd Hv]. split.
    + rewrite <- list_fmap_compose. rewrite (list_fmap_ext _ (up_key u) (current r)); [done|].
      intros i c _. simpl. apply (erase_key u).
    + intros c (c' & -> & Hc)%list_elem_of_fmap. rewrite <- (Hrank c' (erase c')); [by apply Hv|].
      symmetry. apply (erase_rank u).
Qed.

(** A loop over a batch that appends, for each transaction, rows of its
    version with distinct keys: the keys of the batch are distinct. *)
Lemma appended_rows_NoDup {st row K} (step : st -> Transaction -> outcome st) (rows : st -> list row)
    (version : row -> Z) (key : row -> K) (init : st) (transactions : list Transaction) (s' : st) :
  (forall s t s', t ∈ transactions -> step s t = Ret s' -> exists new, rows s' = rows s ++ new /\
     NoDup (key <$> new) /\ Forall (fun r => version r = as_i64 (t_version t)) new) ->
  (forall r r', key r = key r' -> version r = version r') ->
  rows init = [] -> NoDup (txn_versions transactions) -> foldM step init transactions = Ret s' ->
  NoDup (key <$> rows s') /\ Forall (fun r => version r ∈ txn_versions transactions) (rows s').
Proof.
  intros Hstep Hkey Hinit. unfold txn_versions. revert s'.
  induction transactions as [|txn txns IH] using rev_ind; intros s' Hn Hf.
  { simpl in Hf. outcome_inv. rewrite Hinit. split; constructor. }
  rewrite foldM_app in Hf. apply bind_Ret in Hf as (s0 & Hf0 & Hf). simpl in Hf. outcome_inv.
  rewrite fmap_app in Hn. apply NoDup_app in Hn as (Hn & Hdis & _).
  destruct (IH ltac:(intros; eapply Hstep; [set_solver|done]) s0 Hn Hf0) as [IHn IHv].
  destruct (Hstep s0 txn s') as (new & -> & Hnn & Hnv); [set_solver|done|].
  rewrite !fmap_app. split.
  - apply NoDup_app. split_and!; [done| |done].
    intros k (r & -> & Hr)%list_elem_of_fmap (r' & Hk & Hr')%list_elem_of_fmap.
    rewrite Forall_forall in IHv. rewrite Forall_forall in Hnv.
    apply (Hdis (version r)); [by apply IHv|]. rewrite (Hkey _ _ Hk), (Hnv r' Hr'). by left.
  - apply Forall_app. split.
    + eapply Forall_impl; [exact IHv|]. set_solver.
    + eapply Forall_impl; [exact Hnv|]. simpl. intros r ->. set_solver.
Qed.

(** The rows of one kind in the logs of a batch: they carry versions of the
    batch, and when they are told apart by an index within a transaction, the
    version and the index tell them apart in the batch. *)
Section BatchLogs.
Context {L R K : Type} (P : Transaction -> list L -> Prop) (pick : L -> option R) (version : R -> Z).
Variables (transactions : list Transaction) (logs : list (list L)).
Hypothesis Hlogs : Forall2 P transactions logs.
Hypothesis Hversion : forall t rows, P t rows ->
  Forall (fun r => version r = as_i64 (t_version t)) (omap (M := list) pick rows).

Lemma batch_log_version r :
  r ∈ omap (M := list) pick (concat logs) -> version r ∈ txn_versions transactions.
Proof.
  intros Hr. destruct (elem_of_log _ _ _ _ _ Hlogs Hr) as (t & rows & Ht & HP & Hin).
  pose proof (Hversion t rows HP) as Hv. rewrite Forall_forall in Hv. rewrite (Hv r Hin).
  by apply (list_elem_of_fmap_2 (fun t => as_i64 (t_version t))).
Qed.

Lemma batch_log_NoDup (idx : R -> K) :
  (forall t rows, P t rows -> NoDup (idx <$> omap (M := list) pick rows)) ->
  NoDup (txn_versions transactions) ->
  NoDup ((fun r => (version r, idx r)) <$> omap (M := list) pick (concat logs)).
Proof.
  intros Hidx Hn. rewrite omap_concat. apply NoDup_concat_keys.
  - apply Forall_fmap, Forall_lookup. intros i rows Hi.
    destruct (Forall2_lookup_r _ _ _ _ _ Hlogs Hi) as (t & _ & HP). simpl.
    eapply NoDup_fmap_coarser; [by eapply Hidx|]. by intros a b _ _ [=].
  - intros i j l1 l2 x y. rewrite !list_lookup_fmap, !fmap_Some.
    intros (r1 & Hi & ->) (r2 & Hj & ->) Hx Hy [= Hv _].
    destruct (Forall2_lookup_r _ _ _ _ _ Hlogs Hi) as (t1 & Ht1 & HP1).
    destruct (Forall2_lookup_r _ _ _ _ _ Hlogs Hj) as (t2 & Ht2 & HP2).
    pose proof (Hversion t1 r1 HP1) as Hv1. pose proof (Hversion t2 r2 HP2) as Hv2.
    rewrite Forall_forall in Hv1. rewrite Forall_forall in Hv2.
    eapply (NoDup_lookup (txn_versions transactions)); [done|unfold txn_versions; rewrite list_lookup_fmap..].
    + by rewrite Ht1.
    + rewrite Ht2. simpl. by rewrite <- (Hv1 x Hx), <- (Hv2 y Hy), Hv.
Qed.
End BatchLogs.

(** ** The status row *)

Section Status.
Context `{Chrono}.

(** The column [last_updated] is not part of the inserted struct: the server
    fills it with the time of the statement. *)
Record ProcessorStatus := {
  processor : string;
  last_success_version : Z;
  status_transaction_timestamp : option NaiveDateTime;
}.

Definition processor_status_upsert : Upsert ProcessorStatus string :=
  {| up_key := processor;
     up_action := DoUpdate (fun old new =>
       {| processor := processor old;
          last_success_version := last_success_version new;
          status_transaction_timestamp := status_transaction_timestamp new |});
     up_where := Some (fun old new =>
       bool_decide (last_success_version old <= last_success_version new)%Z) |}.

#[export] Instance processor_status_lww : Lww processor_status_upsert.
Proof.
  refine {| lww_rank := last_success_version; lww_static_type := unit; lww_static := fun _ => tt;
            lww_set := fun old new =>
              {| processor := processor old;
                 last_success_version := last_success_version new;
                 status_transaction_timestamp := status_transaction_timestamp new |} |}; try done.
  intros [] [] Hk _. simpl in *. by subst.
Defined.

Context `{!PgTable ProcessorStatus string, !DebugQuery ProcessorStatus string}.

Definition update_last_processed_version (name : string) (version : Z)
    (ts : option Timestamp) (s : pg_state) : outcome (pg_state * result unit) :=
  timestamp ← match ts with
              | Some t => Some <$> parse_timestamp t (as_i64 version)
              | None => Ret None
              end;
  let status := {| processor := name; last_success_version := as_i64 version;
                   status_transaction_timestamp := timestamp |} in
  let '(s', r) := execute_with_better_error processor_status_upsert [status] s in
  Ret (s', match r with Ok _ => Ok tt | Err => Err end).

(** [ProcessorStatusQuery::get_by_processor] on the rows of the table. *)
Definition get_by_processor (name : string) (rows : gmap string ProcessorStatus)
  : option ProcessorStatus := rows !! name.

Context `{!PgLaws ProcessorStatus string}.

(** Whatever becomes of the condition, a status update leaves the row of the
    processor alone or stores the version, and touches no other row. *)
Lemma update_last_processed_version_cases name version ts s s' k row :
  update_last_processed_version name version ts s = Ret (s', Ok tt) ->
  pg_rows s' !! k = Some row ->
  pg_rows s !! k = Some row \/ (k = name /\ last_success_version row = as_i64 version).
Proof.
  intros Hu Hrow. unfold update_last_processed_version in Hu. outcome_inv.
  match goal with H : execute_with_better_error _ [?st] _ = (_, ?r) |- _ =>
    set (status := st) in *; rename H into He; destruct r; [|done] end.
  apply pg_execute_ok in He; [|apply NoDup_singleton]. rewrite He in Hrow. simpl in Hrow.
  rewrite upsert_row_lookup in Hrow. simpl in Hrow. case_decide as Hk; [|by left].
  unfold upsert_at in Hrow. destruct (pg_rows s !! k); simpl in Hrow; [case_match|];
    simplify_eq; by auto.
Qed.

Lemma update_last_processed_version_kept name version ts s s' k :
  update_last_processed_version name version ts s = Ret (s', Ok tt) ->
  is_Some (pg_rows s !! k) -> is_Some (pg_rows s' !! k).
Proof.
  intros Hu Hk. unfold update_last_processed_version in Hu. outcome_inv.
  match goal with H : execute_with_better_error _ [?st] _ = (_, ?r) |- _ => rename H into He; destruct r; [|done] end.
  apply pg_execute_ok in He; [|apply NoDup_singleton]. rewrite He. by apply upsert_row_some.
Qed.

(** A successful status update either stores the version or finds a larger
    one, provided the printed query does not contain the word [where]. *)
Lemma update_last_processed_version_row name version ts s s' :
  in_u64 version ->
  (forall status, processor status = name ->
     additional_where processor_status_upsert [status] = up_where processor_status_upsert) ->
  update_last_processed_version name version ts s = Ret (s', Ok tt) ->
  exists row, pg_rows s' !! name = Some row /\
    (last_success_version row = as_i64 version \/
     pg_rows s !! name = Some row /\ (as_i64 version < last_success_version row)%Z).
Proof.
  intros Hv Hw Hu. unfold update_last_processed_version in Hu. outcome_inv.
  match goal with H : execute_with_better_error _ [?st] _ = (_, ?r) |- _ =>
    set (status := st) in *; rename H into He; destruct r; [|done] end.
  apply (execute_ok processor_status_upsert) in He; [|by apply Hw|apply NoDup_singleton].
  rewrite He. simpl. unfold upsert_row. simpl.
  destruct (pg_rows s !! name) as [old|] eqn:Hold; simpl.
  - case_bool_decide; [rewrite lookup_insert_eq|]; eauto.
    eexists. split; [done|]. right. split; [done|]. lia.
  - rewrite lookup_insert_eq. eauto.
Qed.
End Status.

(** ** Configurations and processors *)

Record QueryRetryConfig := { query_retries : Z; query_retry_delay_ms : Z }.
Record AnsProcessorConfig := {
  ans_v1_primary_names_table_handle : string;
  ans_v1_name_records_table_handle : string;
  ans_v2_contract_address : string;
}.
Record NftMetadataProcessorConfig := {
  pubsub_topic_name : string;
  google_application_credentials : option string;
  nft_retry : QueryRetryConfig;
}.
Record TokenProcessorConfig := {
  nft_points_contract : option string;
  token_retry : QueryRetryConfig;
}.

Inductive ProcessorConfig :=
| CfgAccountTransactions
| CfgAns (c : AnsProcessorConfig)
| CfgCoin
| CfgDefault
| CfgEvents
| CfgFungibleAsset
| CfgMonitoring
| CfgNftMetadata (c : NftMetadataProcessorConfig)
| CfgObjects (c : QueryRetryConfig)
| CfgStake (c : QueryRetryConfig)
| CfgToken (c : TokenProcessorConfig)
| CfgTokenV2 (c : QueryRetryConfig)
| CfgTransactionMetadata
| CfgUserTransaction.

(** [strum::IntoStaticStr] with [serialize_all = snake_case]. *)
Definition config_name (c : ProcessorConfig) : string :=
  match c with
  | CfgAccountTransactions => "account_transactions_processor"
  | CfgAns _ => "ans_processor"
  | CfgCoin => "coin_processor"
  | CfgDefault => "default_processor"
  | CfgEvents => "events_processor"
  | CfgFungibleAsset => "fungible_asset_processor"
  | CfgMonitoring => "monitoring_processor"
  | CfgNftMetadata _ => "nft_metadata_processor"
  | CfgObjects _ => "objects_processor"
  | CfgStake _ => "stake_processor"
  | CfgToken _ => "token_processor"
  | CfgTokenV2 _ => "token_v2_processor"
  | CfgTransactionMetadata => "transaction_metadata_processor"
  | CfgUserTransaction => "user_transaction_processor"
  end.

(** The processor structs without the shared connection pool. *)
Abbreviation ChunkSizes := (gmap string nat) (only parsing).
Inductive Processor :=
| PAccountTransactions (sizes : ChunkSizes)
| PAns (c : AnsProcessorConfig) (sizes : ChunkSizes)
| PCoin (sizes : ChunkSizes)
| PDefault (sizes : ChunkSizes)
| PEvents (sizes : ChunkSizes)
| PFungibleAsset (sizes : ChunkSizes)
| PMonitoring
| PNftMetadata (chain_id : Z) (c : NftMetadataProcessorConfig)
| PObjects (c : QueryRetryConfig) (sizes : ChunkSizes)
| PStake (c : QueryRetryConfig) (sizes : ChunkSizes)
| PToken (c : TokenProcessorConfig) (sizes : ChunkSizes)
| PTokenV2 (c : QueryRetryConfig) (sizes : ChunkSizes)
| PTransactionMetadata (sizes : ChunkSizes)
| PUserTransaction (sizes : ChunkSizes).

Definition build_processor (config : ProcessorConfig) (sizes : ChunkSizes) : Processor :=
  match config with
  | CfgAccountTransactions => PAccountTransactions sizes
  | CfgAns c => PAns c sizes
  | CfgCoin => PCoin sizes
  | CfgDefault => PDefault sizes
  | CfgEvents => PEvents sizes
  | CfgFungibleAsset => PFungibleAsset sizes
  | CfgMonitoring => PMonitoring
  | CfgNftMetadata c => PNftMetadata 0 c
  | CfgObjects c => PObjects c sizes
  | CfgStake c => PStake c sizes
  | CfgToken c => PToken c sizes
  | CfgTokenV2 c => PTokenV2 c sizes
  | CfgTransactionMetadata => PTransactionMetadata sizes
  | CfgUserTransaction => PUserTransaction sizes
  end.

(** [ProcessorTrait::name] of every processor. *)
Definition name (p : Processor) : string :=
  match p with
  | PAccountTransactions _ => "account_transactions_processor"
  | PAns _ _ => "ans_processor"
  | PCoin _ => "coin_processor"
  | PDefault _ => "default_processor"
  | PEvents _ => "events_processor"
  | PFungibleAsset _ => "fungible_asset_processor"
  | PMonitoring => "monitoring_processor"
  | PNftMetadata _ _ => "nft_metadata_processor"
  | PObjects _ _ => "objects_processor"
  | PStake _ _ => "stake_processor"
  | PToken _ _ => "token_processor"
  | PTokenV2 _ _ => "token_v2_processor"
  | PTransactionMetadata _ => "transaction_metadata_processor"
  | PUserTransaction _ => "user_transaction_processor"
  end.

Definition variant (c : ProcessorConfig) : nat :=
  match c with
  | CfgAccountTransactions => 0 | CfgAns _ => 1 | CfgCoin => 2 | CfgDefault => 3
  | CfgEvents => 4 | CfgFungibleAsset => 5 | CfgMonitoring => 6 | CfgNftMetadata _ => 7
  | CfgObjects _ => 8 | CfgStake _ => 9 | CfgToken _ => 10 | CfgTokenV2 _ => 11
  | CfgTransactionMetadata => 12 | CfgUserTransaction => 13
  end.

(** The status row is keyed by the processor.  The processor built from a
    configuration has the configuration's name, and configurations of
    different processors have different names, so processors sharing a
    database never read or overwrite each other's progress. *)
Theorem processor_names (c c' : ProcessorConfig) (sizes : ChunkSizes) :
  name (build_processor c sizes) = config_name c /\
  (config_name c = config_name c' <-> variant c = variant c').
Proof. destruct c, c'; split; done. Qed.
