(* ===== verification/GapDetector.v ===== *)
(** * The gap detector: [rust/processor/src/gap_detector.rs]

    The batches of a stream are processed concurrently and finish in any
    order.  The detector keeps the end of the contiguous prefix that has been
    processed, and the status tracker writes it to the database. *)
From S2P Require Import Prelude RustStr Json Externals Proto Util Database Processors.

Definition DEFAULT_GAP_DETECTION_BATCH_SIZE : Z := 500.
Definition UPDATE_PROCESSOR_STATUS_SECS : Z := 1.

Record GapDetector := {
  next_version_to_process : Z;
  seen_versions : gmap Z ProcessingResult;
  last_success_batch : option ProcessingResult;
}.

Record GapDetectorResult := {
  res_next_version_to_process : Z;
  num_gaps : Z;
  res_last_success_batch : option ProcessingResult;
}.

Definition new (starting_version : Z) : GapDetector :=
  {| next_version_to_process := starting_version;
     seen_versions := ∅;
     last_success_batch := None |}.

(** [end_version + 1] on [u64]. *)
Definition version_after (r : ProcessingResult) : Z := as_u64 (end_version r + 1).

(** The [while let] loop of [update_prev_batch]: [None] is out of fuel. *)
Fixpoint drain_seen (fuel : nat) (seen : gmap Z ProcessingResult) (new_prev_batch : ProcessingResult)
  : option (gmap Z ProcessingResult * ProcessingResult) :=
  match fuel with
  | O => None
  | S fuel =>
      match seen !! version_after new_prev_batch with
      | Some next_version =>
          drain_seen fuel (delete (version_after new_prev_batch) seen) next_version
      | None => Some (seen, new_prev_batch)
      end
  end.

(** Every round of the loop removes an entry, so one more round than there
    are entries is enough ([drain_seen_total]). *)
Definition update_prev_batch (g : GapDetector) (r : ProcessingResult) : option GapDetector :=
  '(seen, new_prev_batch) ← drain_seen (S (size (seen_versions g))) (seen_versions g) r;
  Some {| next_version_to_process := version_after new_prev_batch;
          seen_versions := seen;
          last_success_batch := Some new_prev_batch |}.

Definition detector_result (g : GapDetector) : GapDetectorResult :=
  {| res_next_version_to_process := next_version_to_process g;
     num_gaps := as_u64 (Z.of_nat (size (seen_versions g)));
     res_last_success_batch := last_success_batch g |}.

Definition process_versions (g : GapDetector) (r : ProcessingResult)
  : option (GapDetector * result GapDetectorResult) :=
  g' ← if decide (next_version_to_process g ≠ start_version r)
       then Some {| next_version_to_process := next_version_to_process g;
                    seen_versions := <[start_version r := r]> (seen_versions g);
                    last_success_batch := last_success_batch g |}
       else update_prev_batch g r;
  Some (g', Ok (detector_result g')).

(** The detector after a sequence of results. *)
Fixpoint process_all (g : GapDetector) (l : list ProcessingResult) : option GapDetector :=
  match l with
  | [] => Some g
  | r :: l => '(g', _) ← process_versions g r; process_all g' l
  end.

(** ** Termination *)

Lemma drain_seen_total seen r fuel :
  size seen < fuel -> is_Some (drain_seen fuel seen r).
Proof.
  revert seen r. induction fuel as [|fuel IH]; intros seen r Hf; simpl; [lia|].
  destruct (seen !! version_after r) as [r'|] eqn:Hr; [|by eexists].
  apply IH. rewrite map_size_delete_Some by eauto.
  assert (size seen ≠ 0); [|lia]. intros H0%map_size_empty_inv. subst.
  by rewrite lookup_empty in Hr.
Qed.

Lemma process_versions_total g r : is_Some (process_versions g r).
Proof.
  unfold process_versions. case_decide; simpl; [by eexists|]. unfold update_prev_batch.
  destruct (drain_seen_total (seen_versions g) r (S (size (seen_versions g)))) as [[] ->]; [lia|].
  by eexists.
Qed.

Lemma process_all_total g l : is_Some (process_all g l).
Proof.
  revert g. induction l as [|r l IH]; intros g; simpl; [by eexists|].
  destruct (process_versions_total g r) as [[g' res] ->]. apply IH.
Qed.

Lemma process_all_snoc g l r :
  process_all g (l ++ [r]) = process_all g l ≫= fun g' => fst <$> process_versions g' r.
Proof.
  revert g. induction l as [|x l IH]; intros g; simpl.
  - by destruct (process_versions g r) as [[]|].
  - destruct (process_versions g x) as [[g' res]|]; simpl; [apply IH|done].
Qed.

(** ** Specification: contiguous prefixes *)

(** A run of results, each starting where the previous one ended. *)
Fixpoint contiguous (s : Z) (c : list ProcessingResult) : Prop :=
  match c with
  | [] => True
  | r :: c => start_version r = s /\ contiguous (version_after r) c
  end.
Definition run_end (s : Z) (c : list ProcessingResult) : Z :=
  from_option version_after s (last c).

(** [c] is the longest contiguous run from [s] among [l], [rest] what is left. *)
Definition frontier (s : Z) (l c rest : list ProcessingResult) : Prop :=
  l ≡ₚ c ++ rest /\ contiguous s c /\ Forall (fun r => start_version r ≠ run_end s c) rest.

Lemma run_end_cons s r c : run_end s (r :: c) = run_end (version_after r) c.
Proof. unfold run_end. rewrite (last_cons r). by destruct (last c). Qed.

Lemma run_end_snoc s c r : run_end s (c ++ [r]) = version_after r.
Proof. unfold run_end. by rewrite last_snoc. Qed.

Lemma contiguous_app s c d :
  contiguous s (c ++ d) <-> contiguous s c /\ contiguous (run_end s c) d.
Proof.
  revert s. induction c as [|r c IH]; intros s; simpl; [tauto|].
  rewrite IH, run_end_cons. tauto.
Qed.

(** The longest run is determined by the set of results. *)
Lemma frontier_unique s l c1 r1 c2 r2 :
  NoDup (start_version <$> l) -> frontier s l c1 r1 -> frontier s l c2 r2 ->
  c1 = c2 /\ r1 ≡ₚ r2.
Proof.
  revert s l c2. induction c1 as [|x c1 IH]; intros s l c2 Hn (Hp1 & Hc1 & Hm1) (Hp2 & Hc2 & Hm2).
  - destruct c2 as [|y c2]; [split; [done|]; by rewrite <- Hp1|]. exfalso.
    destruct Hc2 as [Hy _]. rewrite Forall_forall in Hm1. apply (Hm1 y); [|done].
    simpl in Hp1. rewrite <- Hp1, Hp2. by left.
  - destruct Hc1 as [Hx Hc1]. destruct c2 as [|y c2].
    + exfalso. rewrite Forall_forall in Hm2. apply (Hm2 x); [|done].
      simpl in Hp2. rewrite <- Hp2, Hp1. by left.
    + destruct Hc2 as [Hy Hc2].
      assert (x = y) as ->.
      { eapply (NoDup_fmap_key_inj start_version l); [done|rewrite Hp1; by left|
          rewrite Hp2; by left|congruence]. }
      rewrite run_end_cons in Hm1, Hm2.
      destruct (IH (version_after y) (c1 ++ r1) c2) as [-> ?]; try done.
      * rewrite Hp1 in Hn. simpl in Hn. by apply NoDup_cons in Hn as [_ Hn].
      * split_and!; try done. rewrite Hp2 in Hp1. simpl in Hp1.
        by apply Permutation_cons_inv in Hp1.
Qed.

(** ** The detector implements the specification *)

(** The detector's state against the results received so far. *)
Definition detector_state (s : Z) (l c : list ProcessingResult) (g : GapDetector) : Prop :=
  frontier s l c (map_to_list (seen_versions g)).*2 /\
  keyed start_version (seen_versions g) /\
  next_version_to_process g = run_end s c /\
  last_success_batch g = last c.

Lemma keyed_lookup_value (m : gmap Z ProcessingResult) r :
  keyed start_version m -> r ∈ (map_to_list m).*2 <-> m !! start_version r = Some r.
Proof.
  intros Hk. rewrite list_elem_of_fmap. split.
  - intros ([k v] & -> & Hin%elem_of_map_to_list). simpl. by rewrite (Hk k v).
  - intros Hr. exists (start_version r, r). split; [done|]. by apply elem_of_map_to_list.
Qed.

Lemma keyed_next_free (m : gmap Z ProcessingResult) v :
  keyed start_version m ->
  Forall (fun r => start_version r ≠ v) (map_to_list m).*2 <-> m !! v = None.
Proof.
  intros Hk. rewrite Forall_forall. split.
  - intros Hf. destruct (m !! v) as [r|] eqn:Hr; [|done]. exfalso.
    apply (Hf r); [|by apply Hk]. apply keyed_lookup_value; [done|]. by rewrite (Hk v r).
  - intros Hv r Hr <-. apply keyed_lookup_value in Hr; [|done]. congruence.
Qed.

Lemma keyed_delete (m : gmap Z ProcessingResult) k :
  keyed start_version m -> keyed start_version (delete k m).
Proof. intros Hk j r [_ Hj]%lookup_delete_Some. by apply Hk. Qed.

(** The loop moves the run [d] out of the seen batches. *)
Lemma drain_seen_spec fuel seen r seen' r' :
  keyed start_version seen -> drain_seen fuel seen r = Some (seen', r') ->
  exists d, contiguous (version_after r) d /\ default r (last d) = r' /\
    keyed start_version seen' /\ seen' !! version_after r' = None /\
    (map_to_list seen).*2 ≡ₚ d ++ (map_to_list seen').*2.
Proof.
  revert seen r. induction fuel as [|fuel IH]; intros seen r Hk Hd; simpl in Hd; [done|].
  destruct (seen !! version_after r) as [x|] eqn:Hx.
  - destruct (IH _ _ (keyed_delete _ _ Hk) Hd) as (d & Hc & Hl & Hk' & Hn & Hp).
    exists (x :: d). split_and!; try done.
    + split; [by apply Hk|done].
    + destruct d as [|y d]; [by simpl in *|]. rewrite last_cons_cons.
      rewrite <- Hl. rewrite (last_cons y). by destruct (last d).
    + rewrite <- (insert_delete_id seen _ x Hx) at 1.
      rewrite map_to_list_insert by apply lookup_delete_eq. simpl. by rewrite Hp.
  - simplify_eq. exists []. by split_and!.
Qed.

Lemma process_versions_state s l c g r g' res :
  detector_state s l c g -> start_version r ∉ start_version <$> l ->
  process_versions g r = Some (g', res) ->
  exists c', detector_state s (l ++ [r]) c' g'.
Proof.
  intros ((Hp & Hc & Hm) & Hk & Hnext & Hlast) Hfresh Hpv. unfold process_versions in Hpv.
  apply keyed_next_free in Hm; [|done].
  assert (seen_versions g !! start_version r = None) as Hnone.
  { destruct (seen_versions g !! start_version r) as [x|] eqn:Hx; [|done]. exfalso.
    apply Hfresh, list_elem_of_fmap. exists x. split; [symmetry; by apply Hk|].
    rewrite Hp. apply elem_of_app. right. apply keyed_lookup_value; [done|]. by rewrite (Hk _ _ Hx). }
  case_decide as Hne.
  - simplify_eq/=. exists c.
    assert (keyed start_version (<[start_version r := r]> (seen_versions g))) as Hk'.
    { intros k v [[<- <-]|[_ Hv]]%lookup_insert_Some; [done|by apply Hk]. }
    split; [split_and!; try done|by split_and!].
    + simpl. rewrite map_to_list_insert by done. simpl. rewrite Hp. solve_Permutation.
    + simpl. apply keyed_next_free; [done|]. rewrite lookup_insert_ne by congruence. done.
  - unfold update_prev_batch in Hpv. revert Hpv. generalize (S (size (seen_versions g))) as fuel. intros fuel Hpv.
    destruct (drain_seen _ _ _) as [[seen' r']|] eqn:Hd; simplify_eq/=.
    apply drain_seen_spec in Hd as (d & Hcd & Hl & Hk' & Hn & Hpd); [|done].
    assert (last (c ++ r :: d) = Some r') as Hlast'.
    { rewrite (cons_middle r c d), app_assoc, last_app, last_snoc, <- Hl. by destruct (last d). }
    exists (c ++ r :: d). split; [split_and!|split_and!]; simpl; try done.
    + rewrite Hp, Hpd. solve_Permutation.
    + apply contiguous_app. split; [done|]. simpl. split; [congruence|done].
    + unfold run_end. rewrite Hlast'. by apply keyed_next_free.
    + unfold run_end. by rewrite Hlast'.
Qed.

Lemma process_all_state s l g :
  NoDup (start_version <$> l) -> process_all (new s) l = Some g ->
  exists c, detector_state s l c g.
Proof.
  revert g. induction l as [|r l IH] using rev_ind; intros g Hn Hp.
  - simplify_eq/=. exists []. split_and!; simpl; done.
  - rewrite fmap_app in Hn. apply NoDup_app in Hn as (Hn & Hd & _).
    rewrite process_all_snoc in Hp.
    destruct (process_all (new s) l) as [g0|] eqn:H0; simplify_eq/=.
    destruct (process_versions g0 r) as [[g' res]|] eqn:Hr; simplify_eq/=.
    destruct (IH g0) as [c Hc]; [done..|].
    eapply process_versions_state; [done| |done].
    intros Hin. apply (Hd _ Hin). by left.
Qed.

(** C6: the gap detector refines its specification.  For results with
    distinct start versions, arriving in any order, [process_versions] always
    terminates, the next version to process is the end of the longest
    contiguous run of results from the starting version, the last success
    batch is the last result of that run, and exactly the other results are
    kept as gaps. *)
Theorem gap_detector_frontier (s : Z) (l : list ProcessingResult) :
  NoDup (start_version <$> l) ->
  exists g c rest, process_all (new s) l = Some g /\ frontier s l c rest /\
    next_version_to_process g = run_end s c /\ last_success_batch g = last c /\
    seen_versions g = list_to_map ((fun r => (start_version r, r)) <$> rest) /\
    size (seen_versions g) = length rest.
Proof.
  intros Hn. destruct (process_all_total (new s) l) as [g Hg].
  destruct (process_all_state s l g Hn Hg) as (c & Hf & Hk & Hnext & Hlast).
  exists g, c, (map_to_list (seen_versions g)).*2. split_and!; try done.
  - rewrite <- (list_to_map_to_list (seen_versions g)) at 1. f_equal.
    rewrite <- list_fmap_compose. trans (id <$> map_to_list (seen_versions g)).
    { by rewrite list_fmap_id. }
    apply list_fmap_ext. intros i [k r] Hi. simpl. f_equal. symmetry.
    apply Hk, elem_of_map_to_list, list_elem_of_lookup. eauto.
  - by rewrite length_fmap, length_map_to_list.
Qed.

Lemma detector_state_eq s l1 l2 c1 c2 g1 g2 :
  NoDup (start_version <$> l1) -> l1 ≡ₚ l2 ->
  detector_state s l1 c1 g1 -> detector_state s l2 c2 g2 -> g1 = g2.
Proof.
  intros Hn Hp (Hf1 & Hk1 & Hx1 & Hl1) ((Hp2 & Hc2 & Hm2) & Hk2 & Hx2 & Hl2).
  rewrite <- Hp in Hp2.
  destruct (frontier_unique s l1 c1 (map_to_list (seen_versions g1)).*2 c2
              (map_to_list (seen_versions g2)).*2) as [-> Hr]; [done..|by split_and!|].
  assert (seen_versions g1 = seen_versions g2) as Hs.
  { apply map_eq. intros k. apply option_eq. intros r. split; intros Hr'.
    - assert (start_version r = k) as <- by (by apply Hk1).
      apply keyed_lookup_value; [done|]. rewrite <- Hr. by apply keyed_lookup_value.
    - assert (start_version r = k) as <- by (by apply Hk2).
      apply keyed_lookup_value; [done|]. rewrite Hr. by apply keyed_lookup_value. }
  destruct g1, g2; simpl in *. congruence.
Qed.

(** the order in which the concurrent tasks finish does not matter.  Two
    arrival orders of the same results leave the detector in the same state. *)
Theorem gap_detector_order_independent (s : Z) (l1 l2 : list ProcessingResult) :
  NoDup (start_version <$> l1) -> l1 ≡ₚ l2 ->
  process_all (new s) l1 = process_all (new s) l2.
Proof.
  intros Hn Hp. destruct (process_all_total (new s) l1) as [g1 H1].
  destruct (process_all_total (new s) l2) as [g2 H2].
  destruct (process_all_state s l1 g1 Hn H1) as [c1 Hs1].
  destruct (process_all_state s l2 g2) as [c2 Hs2]; [by rewrite <- Hp|done|].
  rewrite H1, H2. f_equal. by eapply detector_state_eq.
Qed.

(** ** The status tracker loop *)

Section Tracker.
Context `{Chrono, !PgTable ProcessorStatus string, !DebugQuery ProcessorStatus string}.

(** [last_update_time] is an [Instant], in nanoseconds; the gauge is
    [PROCESSOR_DATA_GAP_COUNT]. *)
Record Tracker := {
  gap_detector : GapDetector;
  last_update_time : Z;
  gap_count : Z;
  status_table : pg_state;
}.

Definition as_secs (nanos : Z) : Z := (nanos / 1000000000)%Z.

Definition start_tracker (starting_version now : Z) (s : pg_state) : Tracker :=
  {| gap_detector := new starting_version; last_update_time := now;
     gap_count := 0; status_table := s |}.

(** One round of [create_gap_detector_status_tracker_loop] on a received
    result: [now] is the clock at the elapsed check, [after] the clock once
    the status has been written. *)
Definition tracker_step (processor_name : string) (now after : Z) (t : Tracker) (r : ProcessingResult)
  : option (outcome Tracker) :=
  '(g, res) ← process_versions (gap_detector t) r;
  Some (match res with
        | Err => Panic
        | Ok res =>
            let t' := {| gap_detector := g; last_update_time := last_update_time t;
                         gap_count := as_i64 (num_gaps res); status_table := status_table t |} in
            match res_last_success_batch res with
            | None => Ret t'
            | Some b =>
                if decide (UPDATE_PROCESSOR_STATUS_SECS <= as_secs (now - last_update_time t))%Z
                then '(s, u) ← update_last_processed_version processor_name (end_version b)
                                 (last_transaction_timestamp b) (status_table t);
                     _ ← unwrap_result u;
                     Ret {| gap_detector := g; last_update_time := after;
                            gap_count := as_i64 (num_gaps res); status_table := s |}
                else Ret t'
            end
        end).

Lemma tracker_step_total name now after t r : is_Some (tracker_step name now after t r).
Proof.
  unfold tracker_step. destruct (process_versions_total (gap_detector t) r) as [[g res] ->].
  by eexists.
Qed.

(** A round runs the detector, and leaves the status alone or writes the end
    of the last success batch. *)
Lemma tracker_step_inv name now after t r t' :
  tracker_step name now after t r = Some (Ret t') ->
  (exists res, process_versions (gap_detector t) r = Some (gap_detector t', res)) /\
  (status_table t' = status_table t \/
   exists b, last_success_batch (gap_detector t') = Some b /\
     update_last_processed_version name (end_version b) (last_transaction_timestamp b)
       (status_table t) = Ret (status_table t', Ok tt)).
Proof.
  unfold tracker_step. destruct (process_versions (gap_detector t) r) as [[g res]|] eqn:Hp; [|done].
  assert (res = Ok (detector_result g)) as ->.
  { unfold process_versions in Hp. case_decide; simplify_eq/=; [done|].
    destruct (update_prev_batch _ _); by simplify_eq/=. }
  simpl. intros Hs. simplify_eq.
  destruct (last_success_batch g) as [b|] eqn:Hb; [case_decide|]; simplify_eq/=;
    try (split; [by eexists|by left]).
  outcome_inv. split; [by eexists|]. right. exists b. split; [done|].
  by match goal with u : unit |- _ => destruct u end.
Qed.
End Tracker.

(** ** Concrete results *)

Definition batch (s e : Z) : ProcessingResult :=
  {| start_version := s; end_version := e; last_transaction_timestamp := None;
     processing_duration_in_secs := 0; db_insertion_duration_in_secs := 0 |}.

Lemma gap_detector_frontier_witness :
  exists g c rest,
    process_all (new 0) [batch 100 199; batch 0 99; batch 300 399] = Some g /\
    frontier 0 [batch 100 199; batch 0 99; batch 300 399] c rest /\
    next_version_to_process g = run_end 0 c /\ last_success_batch g = last c /\
    seen_versions g = list_to_map ((fun r => (start_version r, r)) <$> rest) /\
    size (seen_versions g) = length rest.
Proof.
  apply gap_detector_frontier. apply (bool_decide_unpack _). vm_compute. exact I.
Defined.

Lemma gap_detector_order_independent_witness :
  process_all (new 0) [batch 100 199; batch 0 99] = process_all (new 0) [batch 0 99; batch 100 199].
Proof.
  apply gap_detector_order_independent; [|apply Permutation_swap].
  apply (bool_decide_unpack _). vm_compute. exact I.
Defined.

(** The unit test of the source: after gaps, the missing batch closes them. *)
Example detect_gap_test :
  (fun g => (next_version_to_process g, size (seen_versions g))) <$>
    process_all (new 0) ((fun i => batch (100 + Z.of_nat i * 100) (199 + Z.of_nat i * 100)) <$> seq 0 500)
  = Some (0%Z, 500) /\
  (fun g => (next_version_to_process g, size (seen_versions g), last_success_batch g)) <$>
    process_all (new 0)
      (((fun i => batch (100 + Z.of_nat i * 100) (199 + Z.of_nat i * 100)) <$> seq 0 500) ++ [batch 0 99])
  = Some (50100%Z, 0, Some (batch 50000 50099)).
Proof. split; vm_compute; reflexivity. Qed.
