(* ===== verification/TransactionFilter.v ===== *)
(** * Transaction filters: [rust/processor/src/transaction_filter.rs] *)
From S2P Require Import Prelude RustStr Json Externals Proto.

Record TransactionFilter := {
  focus_contract_addresses : option (gset string);
  skip_sender_addresses : option (gset string);
  focus_user_transactions : bool;
}.

Definition new_filter (focus skip : option (gset string)) (user : bool) : TransactionFilter :=
  {| focus_contract_addresses := focus; skip_sender_addresses := skip;
     focus_user_transactions := user |}.

Section Include.
Context `{ProtoEnums}.

Definition is_user_txn (transaction : Transaction) : bool :=
  bool_decide (t_type transaction = transaction_type_user).

(** The nested [if let]s of the two address checks, inside out. *)
Definition skips_sender (f : TransactionFilter) (utr : UserTransactionRequest) : bool :=
  match skip_sender_addresses f with
  | Some skip => bool_decide (utr_sender utr ∈ skip)
  | None => false
  end.

Definition outside_focus (f : TransactionFilter) (utr : UserTransactionRequest) : bool :=
  match focus_contract_addresses f with
  | Some focus =>
      match utr_payload utr with
      | Some payload =>
          match tp_payload payload with
          | Some (PlEntryFunctionPayload efp) =>
              match efp_function efp with
              | Some function =>
                  match efi_module function with
                  | Some module => negb (bool_decide (mmi_address module ∈ focus))
                  | None => false
                  end
              | None => false
              end
          | _ => false
          end
      | None => false
      end
  | None => false
  end.

Definition include (f : TransactionFilter) (transaction : Transaction) : bool :=
  if focus_user_transactions f && negb (is_user_txn transaction) then false
  else if negb (is_user_txn transaction) then true
  else
    match t_txn_data transaction with
    | Some (TdUser user_transaction) =>
        match ut_request user_transaction with
        | Some utr =>
            if skips_sender f utr then false
            else if outside_focus f utr then false
            else true
        | None => true
        end
    | _ => true
    end.

(** ** The criteria *)

(** The request of a transaction, when it is typed as a user transaction. *)
Definition user_request (t : Transaction) : option UserTransactionRequest :=
  match t_txn_data t with Some (TdUser u) => ut_request u | _ => None end.
(** The address of the module whose entry function a request calls. *)
Definition called_contract (utr : UserTransactionRequest) : option string :=
  p ← utr_payload utr;
  match tp_payload p with
  | Some (PlEntryFunctionPayload e) => f ← efp_function e; m ← efi_module f; Some (mmi_address m)
  | _ => None
  end.

(** the filter is the conjunction of its criteria.  A transaction is
    included exactly when: it is a user transaction if only those are wanted;
    and, for a user transaction, the sender is not skipped and a called
    contract is among the focused ones.  An unset criterion is ignored. *)
Theorem include_spec (f : TransactionFilter) (t : Transaction) :
  include f t = true <->
  (focus_user_transactions f = true -> t_type t = transaction_type_user) /\
  (t_type t = transaction_type_user -> forall utr, user_request t = Some utr ->
     (forall skip, skip_sender_addresses f = Some skip -> utr_sender utr ∉ skip) /\
     (forall focus a, focus_contract_addresses f = Some focus ->
        called_contract utr = Some a -> a ∈ focus)).
Proof.
  unfold include, is_user_txn, user_request.
  case_bool_decide as Ht; simpl; [|destruct (focus_user_transactions f); naive_solver].
  rewrite andb_false_r.
  destruct (t_txn_data t) as [[| | |u|]|]; try naive_solver.
  destruct (ut_request u) as [utr|]; [|naive_solver].
  assert (skips_sender f utr = true <->
    exists skip, skip_sender_addresses f = Some skip /\ utr_sender utr ∈ skip) as Hs.
  { unfold skips_sender. destruct (skip_sender_addresses f) as [skip|]; [|naive_solver].
    rewrite bool_decide_eq_true. naive_solver. }
  assert (outside_focus f utr = true <-> exists focus a, focus_contract_addresses f = Some focus /\
    called_contract utr = Some a /\ a ∉ focus) as Ho.
  { unfold outside_focus, called_contract.
    destruct (focus_contract_addresses f) as [focus|]; [|naive_solver].
    destruct (utr_payload utr) as [p|]; [simpl|naive_solver].
    destruct (tp_payload p) as [[e| | |]|]; try naive_solver.
    destruct (efp_function e) as [fn|]; [simpl|naive_solver].
    destruct (efi_module fn) as [m|]; [simpl|naive_solver].
    rewrite negb_true_iff, bool_decide_eq_false. naive_solver. }
  destruct (skips_sender f utr).
  { destruct Hs as [(skip & Hk & Hin) _]; [done|]. split; [done|]. naive_solver. }
  destruct (outside_focus f utr).
  { destruct Ho as [(focus & a & Hk & Hc & Hin) _]; [done|]. split; [done|]. naive_solver. }
  split; [intros _|done]. split; [done|]. intros _ utr' [= <-]. split.
  - intros skip Hk Hin. destruct Hs as [_ Hs]. enough (false = true) by done. eauto.
  - intros focus a Hk Hc. destruct (decide (a ∈ focus)); [done|].
    destruct Ho as [_ Ho]. enough (false = true) by done. eauto 10.
Qed.

(** a focus on contracts does not filter requests without an entry
    function.  Script, multisig and write-set transactions are included
    whatever contracts they touch, unless their sender is skipped. *)
Theorem focus_passes_other_payloads (focus : gset string) (user : bool) (t : Transaction) utr :
  t_type t = transaction_type_user -> user_request t = Some utr -> called_contract utr = None ->
  include (new_filter (Some focus) None user) t = true.
Proof.
  unfold include, is_user_txn, user_request, called_contract, skips_sender, outside_focus, new_filter.
  intros Ht Hu Hc. rewrite bool_decide_eq_true_2, andb_false_r by done. simpl.
  destruct (t_txn_data t) as [[| | |u|]|]; try done. rewrite Hu.
  destruct (utr_payload utr) as [p|]; [simpl in Hc|done].
  destruct (tp_payload p) as [[e| | |]|]; try done.
  destruct (efp_function e) as [fn|]; [simpl in Hc|done]. by destruct (efi_module fn).
Qed.
End Include.

(** ** A script transaction *)

Definition script_request : UserTransactionRequest :=
  {| utr_sender := "0xa"; utr_sequence_number := 0; utr_max_gas_amount := 10;
     utr_gas_unit_price := 100; utr_expiration_timestamp_secs := None;
     utr_payload := Some {| tp_type := 2; tp_payload := Some (PlScriptPayload
       {| sp_code := None; sp_type_arguments := []; sp_arguments := [] |}) |};
     utr_signature := None |}.
Definition user_txn (version : Z) (utr : UserTransactionRequest) : Transaction :=
  {| t_timestamp := Some {| seconds := 1; nanos := 0 |}; t_version := version; t_info := None;
     t_epoch := 0; t_block_height := 0; t_type := 4;
     t_size_info := None; t_txn_data := Some (TdUser {| ut_request := Some utr; ut_events := [] |}) |}.

Lemma focus_passes_other_payloads_witness :
  @include published_enums (new_filter (Some {[ "0x1" ]}) None true) (user_txn 7 script_request) = true.
Proof.
  apply (@focus_passes_other_payloads published_enums {[ "0x1" ]} true
           (user_txn 7 script_request) script_request); reflexivity.
Defined.
