(* ===== verification/MovingAverage.v ===== *)
(** * Moving averages: [rust/moving-average/src/lib.rs]

    A window of [(timestamp, value)] pairs with their running sum, used for
    the transactions-per-second figures of the fetcher and the worker. *)
From S2P Require Import Prelude.

Record MovingAverage := {
  window_millis : Z;
  values : list (Z * Z);
  sum : Z;
}.

Definition new_average (window now : Z) : MovingAverage :=
  {| window_millis := window; values := [(now, 0%Z)]; sum := 0 |}.

(** The [while] loop of [tick]; subtraction wraps on [u64].  [None] is out of
    fuel. *)
Fixpoint expire (fuel : nat) (window timestamp : Z) (vs : list (Z * Z)) (s : Z)
  : option (list (Z * Z) * Z) :=
  match fuel with
  | O => None
  | S fuel =>
      if decide (2 < length vs) then
        match vs with
        | [] => Some (vs, s)
        | (ts, val) :: rest =>
            if decide (window < as_u64 (timestamp - ts))%Z
            then expire fuel window timestamp rest (as_u64 (s - val))
            else Some (vs, s)
        end
      else Some (vs, s)
  end.

(** The [f64] quotient, as its numerator and denominator: [None] is [0.0]. *)
Definition avg (m : MovingAverage) : outcome (option (Z * Z)) :=
  if decide (length (values m) < 2) then Ret None
  else back ← unwrap (last (values m));
       front ← unwrap (head (values m));
       Ret (Some (as_u64 (sum m * 1000), as_u64 (back.1 - front.1))).

(** Each round drops an element, so the number of elements is enough fuel. *)
Definition tick (m : MovingAverage) (timestamp value : Z) : option (MovingAverage * outcome (option (Z * Z))) :=
  let vs := values m ++ [(timestamp, value)] in
  '(vs', s') ← expire (S (length vs)) (window_millis m) timestamp vs (as_u64 (sum m + value));
  let m' := {| window_millis := window_millis m; values := vs'; sum := s' |} in
  Some (m', avg m').

Definition total (vs : list (Z * Z)) : Z := foldr Z.add 0%Z vs.*2.

(** The running sum is the sum of the window, on [u64]. *)
Definition average_ok (m : MovingAverage) : Prop :=
  values m ≠ [] /\ sum m = as_u64 (total (values m)).

Lemma as_u64_add_l a b : as_u64 (as_u64 a + b) = as_u64 (a + b).
Proof. unfold as_u64. by rewrite Zplus_mod_idemp_l. Qed.
Lemma as_u64_sub_l a b : as_u64 (as_u64 a - b) = as_u64 (a - b).
Proof. unfold as_u64. by rewrite Zminus_mod_idemp_l. Qed.

Lemma total_snoc vs t v : total (vs ++ [(t, v)]) = (total vs + v)%Z.
Proof.
  unfold total. rewrite fmap_app, foldr_app. simpl. generalize vs.*2. clear vs.
  intros l. induction l as [|x l IH]; simpl; lia.
Qed.

Lemma total_cons vs t v : total ((t, v) :: vs) = (v + total vs)%Z.
Proof. reflexivity. Qed.

Lemma expire_spec fuel window timestamp vs s :
  length vs < fuel -> s = as_u64 (total vs) -> 2 <= length vs ->
  exists k vs' s', expire fuel window timestamp vs s = Some (vs', s') /\ vs' = drop k vs /\
    s' = as_u64 (total vs') /\ 2 <= length vs' /\
    (length vs' = 2 \/ exists ts v, head vs' = Some (ts, v) /\ (as_u64 (timestamp - ts) <= window)%Z).
Proof.
  revert vs s. induction fuel as [|fuel IH]; intros vs s Hf Hs Hl; simpl; [lia|].
  case_decide as H2; [|exists 0, vs, s; split_and!; try done; left; lia].
  destruct vs as [|[ts v] vs]; simpl in *; [lia|]. case_decide as Hw.
  - destruct (IH vs (as_u64 (s - v))) as (k & vs' & s' & He & Hd & Hr); [lia| |lia|].
    + rewrite Hs, as_u64_sub_l, total_cons. f_equal. lia.
    + exists (S k), vs', s'. by rewrite He.
  - exists 0, ((ts, v) :: vs), s. split_and!; try done. right.
    exists ts, v. split; [done|lia].
Qed.

(** a tick keeps the window.  It terminates, adds the value, drops only
    the oldest entries, keeps the sum equal to the sum of the entries (on
    [u64]), and ends with two entries or a first entry inside the window;
    [avg] never panics afterwards. *)
Theorem tick_ok (m : MovingAverage) (timestamp value : Z) :
  average_ok m ->
  exists m' r k, tick m timestamp value = Some (m', Ret r) /\ average_ok m' /\
    values m' = drop k (values m ++ [(timestamp, value)]) /\
    (length (values m') = 2 \/ exists ts v, head (values m') = Some (ts, v) /\
       (as_u64 (timestamp - ts) <= window_millis m)%Z).
Proof.
  intros [Hne Hs]. unfold tick.
  destruct (expire_spec (S (length (values m ++ [(timestamp, value)]))) (window_millis m) timestamp
    (values m ++ [(timestamp, value)]) (as_u64 (sum m + value))) as (k & vs' & s' & He & Hd & Hs' & Hl & Hw).
  - lia.
  - by rewrite Hs, total_snoc, as_u64_add_l.
  - rewrite length_app. destruct (values m); simpl; [done|lia].
  - rewrite He. simpl. unfold avg. simpl. rewrite decide_False by lia.
    destruct vs' as [|x vs']; [simpl in Hl; lia|]. rewrite last_cons.
    destruct (last vs') as [y|]; simpl;
      (do 3 eexists; split; [done|]; split_and!; [done..|exact Hw]).
Qed.

Lemma tick_ok_witness :
  exists m' r k, tick (new_average 3000 1000) 2000 50 = Some (m', Ret r) /\ average_ok m' /\
    values m' = drop k (values (new_average 3000 1000) ++ [(2000, 50)%Z]) /\
    (length (values m') = 2 \/ exists ts v, head (values m') = Some (ts, v) /\
       (as_u64 (2000 - ts) <= 3000)%Z).
Proof. apply (tick_ok (new_average 3000 1000) 2000 50). split; [done|reflexivity]. Defined.
