(* ===== verification/Fetcher.v ===== *)
(** * The transaction stream: [rust/processor/src/grpc_stream.rs]

    Connecting with bounded retries, reading the chain id, and the fetcher
    loop that checks, filters and splits the responses of the data service
    into messages for the processing tasks.  The network is a parameter: what
    each connection attempt and each read of the stream yields. *)
From S2P Require Import Prelude RustStr Json Externals Proto Util TransactionFilter.

Definition GRPC_API_GATEWAY_API_KEY_HEADER : string := "authorization".
Definition GRPC_REQUEST_NAME_HEADER : string := "x-aptos-request-name".
Definition RECONNECTION_MAX_RETRIES : Z := 5.

Record TransactionsPBResponse := {
  pb_transactions : list Transaction;
  pb_chain_id : Z;
  pb_start_version : Z;
  pb_end_version : Z;
  pb_start_txn_timestamp : option Timestamp;
  pb_end_txn_timestamp : option Timestamp;
  pb_size_in_bytes : Z;
}.

(** ** Requests *)

Record GetTransactionsRequest := {
  req_starting_version : option Z;
  req_transactions_count : option Z;
}.
Record Request := {
  req_message : GetTransactionsRequest;
  req_metadata : list (string * string);
}.

(** [str::parse::<MetadataValue>], [None] when the text is no header value,
    and [Itertools::chunks] with its documented behaviour. *)
Class GrpcCrates := {
  metadata_value : string -> option string;
  iter_chunks : forall {A}, nat -> list A -> list (list A);
}.
Class GrpcCratesLaws `{GrpcCrates} := {
  iter_chunks_concat : forall {A} n (l : list A), 0 < n -> concat (iter_chunks n l) = l;
  iter_chunks_size : forall {A} n (l : list A), 0 < n ->
    Forall (fun c => 0 < length c <= n) (iter_chunks n l);
}.

Definition grpc_request_builder `{GrpcCrates} (starting_version : Z) (transactions_count : option Z)
    (grpc_auth_token processor_name : string) : outcome Request :=
  bearer ← unwrap (metadata_value ("Bearer " +:+ grpc_auth_token));
  name ← unwrap (metadata_value processor_name);
  Ret {| req_message := {| req_starting_version := Some starting_version;
                           req_transactions_count := transactions_count |};
         req_metadata := [(GRPC_API_GATEWAY_API_KEY_HEADER, bearer);
                          (GRPC_REQUEST_NAME_HEADER, name)] |}.

(** ** Connections *)

(** One read of the stream under its timeout. *)
Inductive StreamItem :=
| ItemOk (r : TransactionsResponse)
| ItemErr
| ItemEnd
| ItemTimeout.

(** A response: its connection id header ([Some None] when it is not text)
    and what successive reads yield. *)
Record Response := {
  connection_id : option (option string);
  into_inner : nat -> StreamItem;
}.

(** The network during one call of [get_stream]: whether the channel and its
    TLS configuration can be built, and what the attempts yield, [None] being
    a timeout. *)
Record Network := {
  is_https : bool;
  build_channel : result unit;
  tls_config : result unit;
  connect : nat -> option (result unit);
  get_transactions : nat -> Request -> option (result Response);
}.

(** The retry loop around a timed attempt; [None] is out of fuel. *)
Fixpoint retry_loop {A} (fuel : nat) (attempt : nat -> outcome (option A)) (connect_retries : Z)
  : option (outcome (result A)) :=
  match fuel with
  | O => None
  | S fuel =>
      match attempt (Z.to_nat connect_retries) with
      | Panic => Some Panic
      | Ret (Some client) => Some (Ret (Ok client))
      | Ret None =>
          let connect_retries := (connect_retries + 1)%Z in
          if decide (RECONNECTION_MAX_RETRIES <= connect_retries)%Z then Some (Ret Err)
          else retry_loop fuel attempt connect_retries
      end
  end.

Definition retry_fuel : nat := Z.to_nat RECONNECTION_MAX_RETRIES.

Section Stream.
Context `{GrpcCrates}.
Variables (auth_token processor_name : string).

Definition transaction_count (starting_version : Z) (ending_version : option Z) : option Z :=
  (fun v => as_u64 (as_i64 v - as_i64 starting_version + 1)) <$> ending_version.

Definition get_stream (net : Network) (starting_version : Z) (ending_version : option Z)
  : option (outcome Response) :=
  match build_channel net, (if is_https net then tls_config net else Ok tt) with
  | Ok _, Ok _ =>
      connect_res ← retry_loop retry_fuel (fun i => Ret (connect net i)) 0;
      match connect_res with
      | Ret (Ok (Ok _)) =>
          let count := transaction_count starting_version ending_version in
          stream_res ← retry_loop retry_fuel (fun i =>
            request ← grpc_request_builder starting_version count auth_token processor_name;
            Ret (get_transactions net i request)) 0;
          match stream_res with
          | Ret (Ok (Ok stream)) => Some (Ret stream)
          | _ => Some Panic
          end
      | _ => Some Panic
      end
  | _, _ => Some Panic
  end.

(** [connection_id.to_str().unwrap()]. *)
Definition read_connection_id (response : Response) : outcome string :=
  match connection_id response with
  | Some id => unwrap id
  | None => Ret EmptyString
  end.

Definition get_chain_id (net : Network) : option (outcome Z) :=
  response ← get_stream net 1 (Some 2%Z);
  Some (response ← response;
        _ ← read_connection_id response;
        match into_inner response 0 with
        | ItemOk r => unwrap (tr_chain_id r)
        | _ => Panic
        end).

(** ** Termination of the retries *)

Lemma retry_loop_total {A} fuel (attempt : nat -> outcome (option A)) n :
  (RECONNECTION_MAX_RETRIES - n <= Z.of_nat fuel)%Z -> (0 < fuel) -> is_Some (retry_loop fuel attempt n).
Proof.
  revert n. induction fuel as [|fuel IH]; intros n Hn Hf; simpl; [lia|].
  destruct (attempt (Z.to_nat n)) as [[a|]|]; try by eexists.
  case_decide; [by eexists|]. apply IH; lia.
Qed.

Lemma get_stream_total net s e : is_Some (get_stream net s e).
Proof.
  unfold get_stream. destruct (build_channel net); [|by eexists].
  destruct (if is_https net then tls_config net else Ok tt); [|by eexists].
  assert (forall A (attempt : nat -> outcome (option A)), is_Some (retry_loop retry_fuel attempt 0)) as Hr.
  { intros A attempt. apply retry_loop_total; unfold retry_fuel, RECONNECTION_MAX_RETRIES; lia. }
  apply option_bind_total; [apply Hr|]. intros [[[]|]|]; try by eexists.
  apply option_bind_total; [apply Hr|]. intros [[[]|]|]; by eexists.
Qed.

(** When every attempt times out, the loop gives up after exactly
    [RECONNECTION_MAX_RETRIES] attempts; it never looks at a later one. *)
Lemma retry_loop_ext {A} fuel (f g : nat -> outcome (option A)) n :
  (0 <= n)%Z ->
  (forall i, (n <= Z.of_nat i < Z.max (n + 1) RECONNECTION_MAX_RETRIES)%Z -> f i = g i) ->
  retry_loop fuel f n = retry_loop fuel g n.
Proof.
  revert n. induction fuel as [|fuel IH]; intros n Hn Hfg; simpl; [done|].
  rewrite (Hfg (Z.to_nat n)) by lia. destruct (g (Z.to_nat n)) as [[a|]|]; try done.
  case_decide; [done|]. apply IH; [lia|]. intros i Hi. apply Hfg. lia.
Qed.

Lemma retry_loop_Ok {A} fuel (attempt : nat -> outcome (option A)) n a :
  retry_loop fuel attempt n = Some (Ret (Ok a)) -> exists i, attempt i = Ret (Some a).
Proof.
  revert n. induction fuel as [|fuel IH]; intros n; simpl; [done|].
  destruct (attempt (Z.to_nat n)) as [[x|]|] eqn:Hx; intros; simplify_eq; [by eexists|].
  case_decide; [done|]. by eapply IH.
Qed.

Lemma get_stream_Ret net s e response :
  get_stream net s e = Some (Ret response) ->
  exists i request, get_transactions net i request = Some (Ok response).
Proof.
  unfold get_stream. intros Hg.
  destruct (build_channel net), (if is_https net then tls_config net else Ok tt); try done.
  apply bind_Some in Hg as (c & _ & Hg). destruct c as [[[]|]|]; try done.
  apply bind_Some in Hg as (st & Hst & Hg). destruct st as [[[st|]|]|]; simplify_eq.
  apply retry_loop_Ok in Hst as [i Hi]. outcome_inv. eauto.
Qed.

(** connecting terminates within the retry budget.  [get_stream] always
    returns or panics, and its result depends on the first
    [RECONNECTION_MAX_RETRIES] connection attempts and requests only. *)
Theorem get_stream_bounded (n1 n2 : Network) (s : Z) (e : option Z) :
  is_https n1 = is_https n2 -> build_channel n1 = build_channel n2 ->
  tls_config n1 = tls_config n2 ->
  (forall i, i < 5 -> connect n1 i = connect n2 i) ->
  (forall i r, i < 5 -> get_transactions n1 i r = get_transactions n2 i r) ->
  is_Some (get_stream n1 s e) /\ get_stream n1 s e = get_stream n2 s e.
Proof.
  intros Hh Hb Ht Hc Hg. split; [apply get_stream_total|].
  unfold get_stream. rewrite Hh, Hb, Ht.
  destruct (build_channel n2), (if is_https n2 then tls_config n2 else Ok tt); try done.
  rewrite (retry_loop_ext _ (fun i => Ret (connect n1 i)) (fun i => Ret (connect n2 i))).
  - rewrite (retry_loop_ext _
      (fun i => request ← grpc_request_builder s (transaction_count s e) auth_token processor_name;
                Ret (get_transactions n1 i request))
      (fun i => request ← grpc_request_builder s (transaction_count s e) auth_token processor_name;
                Ret (get_transactions n2 i request))); [done|lia|].
    unfold RECONNECTION_MAX_RETRIES. intros i Hi.
    destruct (grpc_request_builder _ _ _ _); simpl; [|done]. f_equal. apply Hg. lia.
  - lia.
  - unfold RECONNECTION_MAX_RETRIES. intros i Hi. f_equal. apply Hc. lia.
Qed.
End Stream.

(** ** The fetcher loop *)

(** The variables of [create_fetcher_loop] that outlive an iteration, with the
    position in the current stream and the number of [get_stream] calls. *)
Record FetcherState := {
  resp_stream : nat -> StreamItem;
  stream_pos : nat;
  connections : nat;
  next_version_to_fetch : Z;
  reconnection_retries : Z;
  last_fetched_version : Z;
}.

(** What one iteration produced: the accepted response and its messages. *)
Record FetchedBatch := {
  fb_response : TransactionsResponse;
  fb_start : Z;
  fb_end : Z;
  fb_messages : list TransactionsPBResponse;
}.

Inductive FetcherNext :=
| Continue (f : FetcherState) (b : option FetchedBatch)
| ReachedEnd (b : option FetchedBatch).

(** Each batch starts right after the previous one. *)
Fixpoint gapless (s : Z) (bs : list FetchedBatch) : Prop :=
  match bs with
  | [] => True
  | b :: bs => fb_start b = s /\ gapless (as_u64 (fb_end b + 1)) bs
  end.

Definition fetched_end (s : Z) (bs : list FetchedBatch) : Z :=
  from_option (fun b => as_u64 (fb_end b + 1)) s (last bs).

Lemma gapless_snoc s bs b :
  gapless s (bs ++ [b]) <-> gapless s bs /\ fb_start b = fetched_end s bs.
Proof.
  revert s. induction bs as [|x bs IH]; intros s; simpl; [tauto|].
  rewrite IH. unfold fetched_end. rewrite last_cons. destruct (last bs); simpl; tauto.
Qed.

(** A batch whose versions are in order and fit the database columns. *)
Definition batch_in_order (b : FetchedBatch) : Prop :=
  (0 <= fb_start b <= fb_end b /\ fb_end b < 9223372036854775807)%Z.
Definition batch_versions (b : FetchedBatch) : Z * Z := (fb_start b, fb_end b).

Lemma fetched_end_cons s b bs : fetched_end s (b :: bs) = fetched_end (as_u64 (fb_end b + 1)) bs.
Proof. unfold fetched_end. rewrite last_cons. by destruct (last bs). Qed.

Lemma batch_in_order_next b : batch_in_order b -> as_u64 (fb_end b + 1) = (fb_end b + 1)%Z.
Proof. unfold batch_in_order. intros. apply as_u64_id. unfold in_u64. lia. Qed.

Lemma gapless_app s bs1 bs2 :
  gapless s (bs1 ++ bs2) <-> gapless s bs1 /\ gapless (fetched_end s bs1) bs2.
Proof.
  revert s. induction bs1 as [|b bs1 IH]; intros s; simpl; [tauto|].
  rewrite IH, fetched_end_cons. tauto.
Qed.

Lemma gapless_bounds s bs b :
  gapless s bs -> Forall batch_in_order bs -> b ∈ bs ->
  (s <= fb_start b /\ fb_end b < fetched_end s bs)%Z.
Proof.
  revert s b. induction bs as [|x bs IH]; intros s b Hg Ho Hb; [by apply elem_of_nil in Hb|].
  destruct Hg as [Hx Hg]. apply Forall_cons in Ho as [Hox Ho].
  rewrite (batch_in_order_next x) in Hg by done.
  rewrite fetched_end_cons, (batch_in_order_next x) by done.
  apply elem_of_cons in Hb as [->|Hb].
  - split; [lia|]. destruct bs as [|y bs]; [unfold fetched_end; simpl; lia|].
    destruct (IH _ y Hg Ho (list_elem_of_here y bs)). apply Forall_cons in Ho as [Hy _].
    unfold batch_in_order in *. lia.
  - destruct (IH _ b Hg Ho Hb). unfold batch_in_order in Hox. lia.
Qed.

Lemma gapless_NoDup s bs :
  gapless s bs -> Forall batch_in_order bs -> NoDup (fb_start <$> bs).
Proof.
  revert s. induction bs as [|x bs IH]; intros s Hg Ho; [constructor|].
  destruct Hg as [Hx Hg]. apply Forall_cons in Ho as [Hox Ho]. rewrite fmap_cons. constructor.
  - intros (y & Hy & Hin)%list_elem_of_fmap. destruct (gapless_bounds _ _ y Hg Ho Hin) as [Hs _].
    rewrite (batch_in_order_next x) in Hs by done. unfold batch_in_order in Hox. lia.
  - by eapply IH.
Qed.

Section Fetch.
Context `{Chrono, GrpcCrates, ProtoEnums}.
Variables (auth_token processor_name : string).
(** [prost::Message::encoded_len]. *)
Variable encoded_len : TransactionsResponse -> Z.
(** The network at each [get_stream] call of the loop. *)
Variable net : nat -> Network.
Variables (starting_version : Z) (request_ending_version : option Z).
Variable transaction_filter : TransactionFilter.
Variable pb_channel_txn_chunk_size : nat.

Definition iso_or_default (ts : option Timestamp) : outcome string :=
  match ts with Some t => timestamp_to_iso t | None => Ret EmptyString end.

(** The messages of one response, split when it has at least
    [pb_channel_txn_chunk_size] transactions left. *)
Definition batch_messages (txns : list Transaction) (num_txns chain_id start_version end_version : Z)
    (start_txn_timestamp end_txn_timestamp : option Timestamp) (size_in_bytes : Z)
  : outcome (list TransactionsPBResponse) :=
  let message txns size :=
    {| pb_transactions := txns; pb_chain_id := chain_id;
       pb_start_version := start_version; pb_end_version := end_version;
       pb_start_txn_timestamp := start_txn_timestamp; pb_end_txn_timestamp := end_txn_timestamp;
       pb_size_in_bytes := size |} in
  if decide (length txns < pb_channel_txn_chunk_size) then Ret [message txns size_in_bytes]
  else
    let average_size_in_bytes := (size_in_bytes / num_txns)%Z in
    if decide (pb_channel_txn_chunk_size = 0) then Panic
    else Ret ((fun c => message c (as_u64 (average_size_in_bytes * Z.of_nat (length c))))
              <$> iter_chunks pb_channel_txn_chunk_size txns).

(** A received response.  The two timestamps are formatted for the log line,
    which is written at the default level. *)
Definition receive_response (f : FetcherState) (r : TransactionsResponse)
  : outcome (FetcherState * FetchedBatch) :=
  first ← unwrap (head (tr_transactions r));
  lst ← unwrap (last (tr_transactions r));
  let start_version := t_version first in
  let end_version := t_version lst in
  chain_id ← unwrap (tr_chain_id r);
  let num_txns := Z.of_nat (length (tr_transactions r)) in
  let transactions := filter (fun txn => include transaction_filter txn = true) (tr_transactions r) in
  _ ← iso_or_default (t_timestamp first);
  _ ← iso_or_default (t_timestamp lst);
  if decide (as_i64 (last_fetched_version f + 1) ≠ as_i64 start_version) then Panic
  else
    messages ← batch_messages transactions num_txns chain_id start_version end_version
                 (t_timestamp first) (t_timestamp lst) (as_u64 (encoded_len r));
    Ret ({| resp_stream := resp_stream f; stream_pos := S (stream_pos f);
            connections := connections f;
            next_version_to_fetch := as_u64 (end_version + 1);
            reconnection_retries := 0;
            last_fetched_version := as_i64 end_version |},
         {| fb_response := r; fb_start := start_version; fb_end := end_version;
            fb_messages := messages |}).

Definition read_failed (f : FetcherState) : FetcherState :=
  {| resp_stream := resp_stream f; stream_pos := S (stream_pos f); connections := connections f;
     next_version_to_fetch := next_version_to_fetch f;
     reconnection_retries := reconnection_retries f;
     last_fetched_version := last_fetched_version f |}.

Definition is_end (f : FetcherState) : bool :=
  match request_ending_version with
  | Some ending_version => bool_decide (ending_version < next_version_to_fetch f)%Z
  | None => false
  end.

(** Give up after [RECONNECTION_MAX_RETRIES] reconnections in a row, else
    reconnect from the next version. *)
Definition reconnect (f : FetcherState) : option (outcome FetcherState) :=
  if decide (RECONNECTION_MAX_RETRIES <= reconnection_retries f)%Z then Some Panic
  else
    response ← get_stream auth_token processor_name (net (connections f))
                 (next_version_to_fetch f) request_ending_version;
    Some (response ← response;
          _ ← read_connection_id response;
          Ret {| resp_stream := into_inner response; stream_pos := 0;
                 connections := S (connections f);
                 next_version_to_fetch := next_version_to_fetch f;
                 reconnection_retries := reconnection_retries f + 1;
                 last_fetched_version := last_fetched_version f |}).

(** One iteration of the loop. *)
Definition fetcher_step (f : FetcherState) : option (outcome FetcherNext) :=
  let read := match resp_stream f (stream_pos f) with
              | ItemOk r => '(f', b) ← receive_response f r; Ret (f', Some b)
              | _ => Ret (read_failed f, None)
              end in
  match read with
  | Panic => Some Panic
  | Ret (f', b) =>
      if is_end f' then Some (Ret (ReachedEnd b))
      else match b with
           | Some _ => Some (Ret (Continue f' b))
           | None => next ← reconnect f';
                     Some (f'' ← next; Ret (Continue f'' None))
           end
  end.

(** What the fetcher does before its loop. *)
Definition start_fetcher : option (outcome FetcherState) :=
  response ← get_stream auth_token processor_name (net 0) starting_version request_ending_version;
  Some (response ← response;
        _ ← read_connection_id response;
        Ret {| resp_stream := into_inner response; stream_pos := 0; connections := 1;
               next_version_to_fetch := starting_version; reconnection_retries := 0;
               last_fetched_version := as_i64 (as_i64 starting_version - 1) |}).

(** The loop, with the batches fetched so far: it is still running (or the
    fuel is used up), has reached the ending version, or has panicked. *)
Inductive FetcherRun :=
| Running (f : FetcherState) (bs : list FetchedBatch)
| Ended (bs : list FetchedBatch)
| Crashed (bs : list FetchedBatch).

Fixpoint fetcher_run (fuel : nat) (f : FetcherState) (bs : list FetchedBatch) : FetcherRun :=
  match fuel with
  | O => Running f bs
  | S fuel =>
      match fetcher_step f with
      | Some (Ret (Continue f' b)) => fetcher_run fuel f' (bs ++ option_list b)
      | Some (Ret (ReachedEnd b)) => Ended (bs ++ option_list b)
      | _ => Crashed bs
      end
  end.

Definition run_batches (r : FetcherRun) : list FetchedBatch :=
  match r with Running _ bs | Ended bs | Crashed bs => bs end.

Lemma reconnect_total f : is_Some (reconnect f).
Proof.
  unfold reconnect. case_decide; [by eexists|].
  apply option_bind_total; [apply get_stream_total|]. intros a. by eexists.
Qed.

Lemma fetcher_step_total f : is_Some (fetcher_step f).
Proof.
  unfold fetcher_step.
  match goal with |- is_Some (match ?r with _ => _ end) => destruct r as [[f' b]|] end; [|by eexists].
  destruct (is_end f'); [by eexists|]. destruct b; [by eexists|].
  apply option_bind_total; [apply reconnect_total|]. intros a. by eexists.
Qed.

(** ** What the loop hands over *)

(** Versions are [u64] fields. *)
Definition stream_u64 (st : nat -> StreamItem) : Prop :=
  forall i r, st i = ItemOk r -> Forall (fun t => in_u64 (t_version t)) (tr_transactions r).
Definition network_u64 : Prop :=
  forall k i request response, get_transactions (net k) i request = Some (Ok response) ->
    stream_u64 (into_inner response).

(** A batch covers its response: its versions are those of the first and the
    last transaction, and its messages carry exactly the transactions that
    pass the filter, in order, at most a chunk each, under the versions of the
    whole response. *)
Definition batch_ok (b : FetchedBatch) : Prop :=
  head (t_version <$> tr_transactions (fb_response b)) = Some (fb_start b) /\
  last (t_version <$> tr_transactions (fb_response b)) = Some (fb_end b) /\
  concat (pb_transactions <$> fb_messages b) =
    filter (fun t => include transaction_filter t = true) (tr_transactions (fb_response b)) /\
  fb_messages b ≠ [] /\
  Forall (fun m => pb_start_version m = fb_start b /\ pb_end_version m = fb_end b /\
    length (pb_transactions m) <= pb_channel_txn_chunk_size) (fb_messages b).

Definition fetcher_ok (f : FetcherState) : Prop :=
  stream_u64 (resp_stream f) /\ in_u64 (next_version_to_fetch f) /\
  last_fetched_version f = as_i64 (next_version_to_fetch f - 1).

Context `{!GrpcCratesLaws}.

Lemma batch_messages_ok txns n chain s e ts te size ms :
  batch_messages txns n chain s e ts te size = Ret ms ->
  concat (pb_transactions <$> ms) = txns /\ ms ≠ [] /\
  Forall (fun m => pb_start_version m = s /\ pb_end_version m = e /\
    length (pb_transactions m) <= pb_channel_txn_chunk_size) ms.
Proof.
  unfold batch_messages. case_decide as Hl; [|case_decide as Hz]; intros; simplify_eq/=.
  - rewrite app_nil_r. split_and!; [done..|]. constructor; simpl; [lia|done].
  - rewrite <- list_fmap_compose. unfold compose. simpl. rewrite list_fmap_id.
    split_and!; [apply iter_chunks_concat; lia| |].
    + intros Hn%fmap_nil_inv. apply (f_equal (@concat _)) in Hn.
      rewrite iter_chunks_concat in Hn by lia. subst. simpl in *. lia.
    + apply Forall_fmap. eapply Forall_impl; [apply iter_chunks_size; lia|]. simpl. lia.
Qed.

Lemma receive_response_ok f i r f' b :
  fetcher_ok f -> resp_stream f i = ItemOk r -> receive_response f r = Ret (f', b) ->
  fetcher_ok f' /\ batch_ok b /\ fb_start b = next_version_to_fetch f /\
  next_version_to_fetch f' = as_u64 (fb_end b + 1) /\ reconnection_retries f' = 0%Z /\
  fb_response b = r.
Proof.
  intros (Hs & Hn & Hl) Hr Hrec. unfold receive_response in Hrec. outcome_inv.
  case_decide as Hgap; outcome_inv.
  rename select (batch_messages _ _ _ _ _ _ _ _ = _) into Hm. apply batch_messages_ok in Hm as Hm.
  rename select (head _ = _) into Hhead. rename select (last _ = _) into Hlast.
  pose proof (Hs _ _ Hr) as Hv. rewrite Forall_forall in Hv.
  assert (in_u64 (t_version x)) as Hx.
  { apply Hv. destruct (tr_transactions r); simplify_eq/=. by left. }
  assert (in_u64 (t_version x0)) as Hx0 by (apply Hv; by apply last_Some_elem_of).
  split_and!; simpl.
  - split_and!; simpl; [done|apply as_u64_range|]. clear -Hx0. word_lia.
  - split_and!; simpl; try apply Hm.
    + destruct (tr_transactions r); by simplify_eq/=.
    + by rewrite fmap_last, Hlast.
  - clear -Hgap Hl Hx Hn. rewrite Hl in Hgap. word_lia.
  - done.
  - done.
  - done.
Qed.

Lemma reconnect_ok f f' :
  network_u64 -> fetcher_ok f -> reconnect f = Some (Ret f') ->
  fetcher_ok f' /\ next_version_to_fetch f' = next_version_to_fetch f /\
  reconnection_retries f' = (reconnection_retries f + 1)%Z /\
  (reconnection_retries f < RECONNECTION_MAX_RETRIES)%Z.
Proof.
  intros Hnet (Hs & Hn & Hl) Hr. unfold reconnect in Hr. case_decide; [done|].
  apply bind_Some in Hr as (resp & Hg & Hr). injection Hr as Hr. outcome_inv.
  apply get_stream_Ret in Hg as (i & req & Hg). split_and!; simpl; try done; [|lia].
  split_and!; simpl; [by eapply Hnet|done|done].
Qed.

(** One iteration keeps the invariant and hands over at most one batch, the
    one that continues the previous ones. *)
Lemma fetcher_step_ok f next :
  network_u64 -> fetcher_ok f -> fetcher_step f = Some (Ret next) ->
  match next with
  | Continue f' (Some b) => fetcher_ok f' /\ batch_ok b /\ fb_start b = next_version_to_fetch f /\
      next_version_to_fetch f' = as_u64 (fb_end b + 1) /\ reconnection_retries f' = 0%Z /\
      resp_stream f (stream_pos f) = ItemOk (fb_response b)
  | Continue f' None => fetcher_ok f' /\ next_version_to_fetch f' = next_version_to_fetch f /\
      reconnection_retries f' = (reconnection_retries f + 1)%Z /\
      (reconnection_retries f < RECONNECTION_MAX_RETRIES)%Z
  | ReachedEnd (Some b) => batch_ok b /\ fb_start b = next_version_to_fetch f /\
      resp_stream f (stream_pos f) = ItemOk (fb_response b)
  | ReachedEnd None => True
  end.
Proof.
  intros Hnet Hf Hstep. unfold fetcher_step in Hstep.
  match type of Hstep with match ?m with _ => _ end = _ => destruct m as [[f' b]|] eqn:Hread end; [|done].
  destruct (resp_stream f (stream_pos f)) as [r| | |] eqn:Hitem.
  { outcome_inv. eapply receive_response_ok in Hf as (Hf' & Hb & Hst & Hnx & Hrr & Hresp); [|done..].
    destruct (is_end f'); injection Hstep as <-; split_and!; by rewrite ?Hresp. }
  all: outcome_inv; destruct (is_end (read_failed f)); [by injection Hstep as <-|].
  all: apply bind_Some in Hstep as (nx & Hrec & Hstep); injection Hstep as Hstep; outcome_inv.
  all: apply reconnect_ok in Hrec; [done|done|by destruct Hf].
Qed.

Lemma fetcher_run_ok fuel f bs s :
  network_u64 -> fetcher_ok f ->
  gapless s bs -> fetched_end s bs = next_version_to_fetch f -> Forall batch_ok bs ->
  gapless s (run_batches (fetcher_run fuel f bs)) /\
  Forall batch_ok (run_batches (fetcher_run fuel f bs)).
Proof.
  intros Hnet. revert f bs. induction fuel as [|fuel IH]; intros f bs Hf Hg He Hb; simpl; [done|].
  destruct (fetcher_step f) as [[next|]|] eqn:Hstep; [|done..].
  pose proof (fetcher_step_ok f next Hnet Hf Hstep) as Hok.
  destruct next as [f' [b|]|[b|]]; simpl; rewrite ?app_nil_r; [..|done].
  - destruct Hok as (Hf' & Hbb & Hst & Hnx & _). apply IH; [done| | |].
    + apply gapless_snoc. split; [done|congruence].
    + unfold fetched_end. by rewrite last_snoc.
    + apply Forall_app. split; [done|by apply Forall_singleton].
  - destruct Hok as (Hf' & Hnx & _). apply IH; [done..|congruence|done].
  - destruct Hok as (Hbb & Hst & _). split; [apply gapless_snoc; split; [done|congruence]|].
    apply Forall_app. split; [done|by apply Forall_singleton].
Qed.

Lemma start_fetcher_ok f :
  network_u64 -> in_u64 starting_version -> start_fetcher = Some (Ret f) ->
  fetcher_ok f /\ next_version_to_fetch f = starting_version /\ reconnection_retries f = 0%Z /\
  exists i request response, get_transactions (net 0) i request = Some (Ok response) /\
    resp_stream f = into_inner response.
Proof.
  intros Hnet Hs Hstart. unfold start_fetcher in Hstart.
  apply bind_Some in Hstart as (resp & Hg & Hr). injection Hr as Hr. outcome_inv.
  apply get_stream_Ret in Hg as (i & req & Hg). split_and!; simpl; try done; [|by eauto].
  split_and!; simpl; [by eapply Hnet|done|]. clear -Hs. word_lia.
Qed.

(** C7: the fetcher hands over every version once, in order.  Whatever the
    network does, the batches it has fetched so far start at the starting
    version, follow each other without gap or overlap, and their messages
    carry exactly the transactions of the responses that pass the filter. *)
Theorem fetcher_gapless (fuel : nat) (f : FetcherState) :
  network_u64 -> in_u64 starting_version -> start_fetcher = Some (Ret f) ->
  gapless starting_version (run_batches (fetcher_run fuel f [])) /\
  Forall batch_ok (run_batches (fetcher_run fuel f [])).
Proof.
  intros Hnet Hs Hstart. apply start_fetcher_ok in Hstart as (Hf & Hn & _); [|done..].
  by apply fetcher_run_ok.
Qed.

(** ** Termination with an ending version *)

(** What the data service promises about a response: the last version is not
    below the first, and versions fit the [i64] columns of the database. *)
Definition stream_ordered (st : nat -> StreamItem) : Prop :=
  forall i r, st i = ItemOk r ->
    forall a b, head (t_version <$> tr_transactions r) = Some a ->
      last (t_version <$> tr_transactions r) = Some b -> (0 <= a <= b)%Z /\ (b < 9223372036854775807)%Z.
Definition network_ordered : Prop :=
  forall k i request response, get_transactions (net k) i request = Some (Ok response) ->
    stream_ordered (into_inner response).

(** The stream of the next iteration is the current one or a new one, so what
    holds of every stream of the network holds of it. *)
Lemma fetcher_step_stream (Q : (nat -> StreamItem) -> Prop) f f' b :
  (forall k i request response, get_transactions (net k) i request = Some (Ok response) ->
     Q (into_inner response)) ->
  Q (resp_stream f) -> fetcher_step f = Some (Ret (Continue f' b)) -> Q (resp_stream f').
Proof.
  intros HQ Hso Hstep. unfold fetcher_step in Hstep.
  match type of Hstep with match ?m with _ => _ end = _ => destruct m as [[f2 b2]|] eqn:Hread end; [|done].
  assert (resp_stream f2 = resp_stream f) as Hsame.
  { destruct (resp_stream f (stream_pos f)); unfold receive_response, read_failed in Hread;
      outcome_inv; try done. case_decide; by outcome_inv. }
  destruct (is_end f2); [done|]. destruct b2; simplify_eq; [by rewrite Hsame|].
  apply bind_Some in Hstep as (nx & Hrec & Hstep). injection Hstep as Hstep. outcome_inv.
  unfold reconnect in Hrec. case_decide; [done|].
  apply bind_Some in Hrec as (resp & Hg & Hrec). injection Hrec as Hrec. outcome_inv.
  apply get_stream_Ret in Hg as (i & req & Hg). by eapply HQ.
Qed.
Lemma fetcher_step_ordered f f' b :
  network_ordered -> stream_ordered (resp_stream f) -> fetcher_step f = Some (Ret (Continue f' b)) ->
  stream_ordered (resp_stream f').
Proof. apply fetcher_step_stream. Qed.

Lemma batch_ordered st i b :
  stream_ordered st -> st i = ItemOk (fb_response b) -> batch_ok b ->
  batch_in_order b.
Proof. intros Hso Hi (Hh & Hl & _). unfold batch_in_order. destruct (Hso _ _ Hi _ _ Hh Hl). lia. Qed.

(** Iterations left: up to [RECONNECTION_MAX_RETRIES] reconnections, and a
    last read, for each version before the end. *)
Definition iterations_left (e : Z) (f : FetcherState) : Z :=
  (7 * Z.max 0 (e + 1 - next_version_to_fetch f) + (6 - reconnection_retries f))%Z.

Lemma fetcher_run_stops e fuel f bs :
  network_u64 -> network_ordered -> request_ending_version = Some e ->
  fetcher_ok f -> stream_ordered (resp_stream f) -> (0 <= reconnection_retries f <= 5)%Z ->
  (iterations_left e f <= Z.of_nat fuel)%Z ->
  forall f' bs', fetcher_run fuel f bs ≠ Running f' bs'.
Proof.
  intros Hnet Hord He. revert f bs. induction fuel as [|fuel IH]; intros f bs Hf Hso Hr Hleft f' bs'.
  { unfold iterations_left in Hleft. lia. }
  simpl. destruct (fetcher_step f) as [[next|]|] eqn:Hstep; [|done..].
  pose proof (fetcher_step_ok f next Hnet Hf Hstep) as Hok.
  destruct next as [f1 b|b]; [|done]. apply IH; clear IH.
  - by destruct b, Hok.
  - by eapply fetcher_step_ordered.
  - destruct b as [b|]; [destruct Hok as (_ & _ & _ & _ & -> & _)|destruct Hok as (_ & _ & -> & Hlt)];
      [lia|]. unfold RECONNECTION_MAX_RETRIES in Hlt. lia.
  - unfold iterations_left in *. destruct b as [b|].
    + destruct Hok as (_ & Hbo & Hst & -> & -> & Hitem).
      destruct (batch_ordered _ _ _ Hso Hitem Hbo) as [Hab Hmax].
      assert (is_end f1 = false) as Hend.
      { unfold fetcher_step in Hstep. rewrite Hitem in Hstep.
        destruct (receive_response f (fb_response b)) as [[f2 b2]|]; simpl in Hstep; [|done].
        destruct (is_end f2) eqn:He2; [done|]. by simplify_eq. }
      rewrite (as_u64_id (fb_end b + 1)) by (unfold in_u64; lia).
      unfold is_end in Hend. rewrite He in Hend. apply bool_decide_eq_false in Hend.
      assert (next_version_to_fetch f1 = (fb_end b + 1)%Z) as Hn1.
      { pose proof (fetcher_step_ok f _ Hnet Hf Hstep) as (_ & _ & _ & -> & _).
        apply as_u64_id. unfold in_u64. lia. }
      lia.
    + destruct Hok as (_ & -> & -> & _). lia.
Qed.

(** C14: with an ending version the fetcher stops.  If the data service sends
    ordered responses, then after a number of iterations computed from the
    two versions the loop has reached the end or has panicked; it cannot
    reconnect forever. *)
Theorem fetcher_terminates (e : Z) (f : FetcherState) :
  network_u64 -> network_ordered -> request_ending_version = Some e ->
  in_u64 starting_version -> start_fetcher = Some (Ret f) ->
  exists bs, fetcher_run (Z.to_nat (7 * Z.max 0 (e + 1 - starting_version) + 6)) f [] = Ended bs \/
             fetcher_run (Z.to_nat (7 * Z.max 0 (e + 1 - starting_version) + 6)) f [] = Crashed bs.
Proof.
  intros Hnet Hord He Hs Hstart.
  apply start_fetcher_ok in Hstart as (Hf & Hn & Hr & i & req & resp & Hg & Hst); [|done..].
  assert (stream_ordered (resp_stream f)) as Hso by (rewrite Hst; by eapply Hord).
  pose proof (fetcher_run_stops e (Z.to_nat (7 * Z.max 0 (e + 1 - starting_version) + 6)) f []) as Hstop.
  destruct (fetcher_run _ f []) as [f' bs|bs|bs]; [|eauto..].
  exfalso. eapply Hstop; try done; [lia|]. unfold iterations_left. rewrite Hr, Hn. lia.
Qed.
End Fetch.

(** ** A concrete network *)

Definition slice_crates : GrpcCrates :=
  {| metadata_value := Some; iter_chunks := @chunks |}.
Lemma slice_crates_laws : @GrpcCratesLaws slice_crates.
Proof. split; intros A n l Hn; [by apply chunks_concat|by apply chunks_bounds]. Defined.

(** A stream with one response per element, then its end. *)
Definition stream_of (rs : list TransactionsResponse) (i : nat) : StreamItem :=
  match rs !! i with Some r => ItemOk r | None => ItemEnd end.
Definition network_of (rs : list TransactionsResponse) : Network :=
  {| is_https := false; build_channel := Ok tt; tls_config := Ok tt;
     connect := fun _ => Some (Ok tt);
     get_transactions := fun _ _ =>
       Some (Ok {| connection_id := None; into_inner := stream_of rs |}) |}.
Definition response_of (versions : list Z) : TransactionsResponse :=
  {| tr_transactions := (fun v => user_txn v script_request) <$> versions; tr_chain_id := Some 1%Z |}.
Definition no_filter : TransactionFilter := new_filter None None false.

Definition example_net : nat -> Network := fun _ => network_of [response_of [5; 6]%Z].
Definition example_start (e : option Z) : option (outcome FetcherState) :=
  @start_fetcher slice_crates EmptyString "p" example_net 5 e.
Definition example_fetcher : FetcherState :=
  {| resp_stream := stream_of [response_of [5; 6]%Z]; stream_pos := 0; connections := 1;
     next_version_to_fetch := 5; reconnection_retries := 0; last_fetched_version := 4 |}.
Definition example_run (e : option Z) (chunk fuel : nat) : FetcherRun :=
  @fetcher_run pair_chrono slice_crates published_enums EmptyString "p" (fun _ => 100%Z)
    example_net e no_filter chunk fuel example_fetcher [].

Lemma example_net_u64 : network_u64 example_net.
Proof.
  intros k i req resp Hr. simpl in Hr. simplify_eq/=. intros j r Hj. unfold stream_of in Hj.
  destruct j as [|j]; simpl in Hj; simplify_eq/=.
  repeat (apply Forall_cons; split; [split; simpl; lia|]). apply Forall_nil_2.
Defined.

Lemma fetcher_gapless_witness :
  gapless 5 (run_batches (example_run (Some 6%Z) 1 3)) /\
  Forall (@batch_ok published_enums no_filter 1) (run_batches (example_run (Some 6%Z) 1 3)).
Proof.
  apply (@fetcher_gapless pair_chrono slice_crates published_enums EmptyString "p" (fun _ => 100%Z)
           example_net 5 (Some 6%Z) no_filter 1 slice_crates_laws 3 example_fetcher).
  - exact example_net_u64.
  - split; reflexivity || lia.
  - reflexivity.
Defined.

Lemma fetcher_terminates_witness :
  exists bs, example_run (Some 6%Z) 10 20 = Ended bs \/ example_run (Some 6%Z) 10 20 = Crashed bs.
Proof.
  apply (@fetcher_terminates pair_chrono slice_crates published_enums EmptyString "p" (fun _ => 100%Z)
           example_net 5 (Some 6%Z) no_filter 10 slice_crates_laws 6 example_fetcher).
  - exact example_net_u64.
  - intros k i req resp Hr. simpl in Hr. simplify_eq/=. intros j r Hj. unfold stream_of in Hj.
    destruct j as [|j]; simpl in Hj; simplify_eq/=. intros; simplify_eq/=. lia.
  - reflexivity.
  - split; reflexivity || lia.
  - reflexivity.
Defined.

Lemma get_stream_bounded_witness :
  is_Some (@get_stream slice_crates EmptyString "p" (network_of []) 1 (Some 2%Z)).
Proof.
  apply (@get_stream_bounded slice_crates EmptyString "p" (network_of []) (network_of []) 1 (Some 2%Z));
    reflexivity.
Defined.

(** The response of two versions is fetched, the end is reached. *)
Example fetch_two_versions :
  (fun b => (fb_start b, fb_end b, length (fb_messages b))) <$>
    run_batches (example_run (Some 6%Z) 1 3) = [(5%Z, 6%Z, 2)].
Proof. vm_compute. reflexivity. Qed.
