(* ===== verification/Worker.v ===== *)
(** * The worker: [rust/processor/src/worker.rs]

    Choosing the starting version, guarding the chain id, and what a
    processing task does with one message of the channel. *)
From S2P Require Import Prelude RustStr Json Externals Proto Util Database Processors.
From S2P Require Import TransactionFilter MovingAverage Fetcher.

Definition BUFFER_SIZE : nat := 100.

(** The fields of [Worker] that decide its behaviour; the connection pool and
    the addresses are part of the environment. *)
Record Worker := {
  processor_config : ProcessorConfig;
  worker_starting_version : option Z;
  worker_ending_version : option Z;
  number_concurrent_processing_tasks : nat;
  gap_detection_batch_size : Z;
  grpc_chain_id : option Z;
  pb_channel_txn_chunk_size : nat;
  per_table_chunk_sizes : gmap string nat;
  worker_filter : TransactionFilter;
}.

(** [Worker::new]; [conn_pool] is the result of [new_db_pool]. *)
Definition new_worker (config : ProcessorConfig) (starting_version ending_version : option Z)
    (number_concurrent_processing_tasks : option nat) (gap_detection_batch_size : Z)
    (pb_channel_txn_chunk_size : nat) (per_table_chunk_sizes : gmap string nat)
    (transaction_filter : TransactionFilter) (conn_pool : result unit) : result Worker :=
  _ ← conn_pool;
  Ok {| processor_config := config;
        worker_starting_version := starting_version;
        worker_ending_version := ending_version;
        number_concurrent_processing_tasks := default 10 number_concurrent_processing_tasks;
        gap_detection_batch_size := gap_detection_batch_size;
        grpc_chain_id := None;
        pb_channel_txn_chunk_size := pb_channel_txn_chunk_size;
        per_table_chunk_sizes := per_table_chunk_sizes;
        worker_filter := transaction_filter |}.

(** ** Starting version *)

Section Start.
Context `{Chrono}.

(** [conn] and [query] are the results of getting a connection and of the
    query; [rows] is the status table. *)
Definition get_start_version (w : Worker) (conn query : result unit)
    (rows : gmap string ProcessorStatus) : result (option Z) :=
  _ ← conn;
  _ ← query;
  match get_by_processor (config_name (processor_config w)) rows with
  | Some status => Ok (Some (as_u64 (as_u64 (last_success_version status) + 1)))
  | None => Ok None
  end.

(** The starting version [run] picks; a database error panics. *)
Definition final_starting_version (w : Worker) (conn query : result unit)
    (rows : gmap string ProcessorStatus) : outcome Z :=
  from_db ← unwrap_result (get_start_version w conn query rows);
  Ret (default (default 0%Z from_db) (worker_starting_version w)).
End Start.

(** ** Chain id *)

Record LedgerInfo := { li_chain_id : Z }.

Definition ledger_infos_upsert : Upsert LedgerInfo Z :=
  {| up_key := li_chain_id; up_action := DoNothing; up_where := None |}.

(** [LedgerInfo::get]: some row of the table, without an order. *)
Definition ledger_get (rows : gmap Z LedgerInfo) (o : option LedgerInfo) : Prop :=
  match o with
  | Some li => exists k, rows !! k = Some li
  | None => rows = ∅
  end.

Section ChainId.
Context `{!PgTable LedgerInfo Z, !DebugQuery LedgerInfo Z}.

(** [conn] and [query] are the results of getting a connection and of the
    query, [existing] the row it returned. *)
Definition check_or_update_chain_id (grpc_chain_id : Z) (conn query : result unit)
    (existing : option LedgerInfo) (s : pg_state) : pg_state * result Z :=
  match conn, query with
  | Ok _, Ok _ =>
      match existing with
      | Some li => if decide (li_chain_id li = grpc_chain_id)
                   then (s, Ok (as_u64 (li_chain_id li))) else (s, Err)
      | None =>
          let '(s', r) := execute_with_better_error_conn ledger_infos_upsert
                            [{| li_chain_id := grpc_chain_id |}] s in
          (s', match r with Ok _ => Ok (as_u64 grpc_chain_id) | Err => Err end)
      end
  | _, _ => (s, Err)
  end.

(** The table holds at most the rows of chain [c]. *)
Definition ledger_of_chain (rows : gmap Z LedgerInfo) (c : Z) : Prop :=
  rows = ∅ \/ rows = {[ c := {| li_chain_id := c |} ]}.

Context `{!PgLaws LedgerInfo Z}.

(** a database only ever holds one chain.  If it holds at most the rows
    of chain [c], then after a check that succeeded for chain [g] it holds
    exactly chain [g], and [g] is [c] unless it was empty; a check for another
    chain fails and changes nothing. *)
Theorem chain_id_guard (c g : Z) (conn query : result unit) existing s s' r :
  ledger_of_chain (pg_rows s) c -> ledger_get (pg_rows s) existing ->
  check_or_update_chain_id g conn query existing s = (s', r) ->
  match r with
  | Ok id => id = as_u64 g /\ pg_rows s' = {[ g := {| li_chain_id := g |} ]} /\
             (pg_rows s = ∅ \/ g = c)
  | Err => pg_rows s' = pg_rows s
  end /\ (pg_rows s ≠ ∅ -> g ≠ c -> r = Err).
Proof.
  intros Hl Hg Hc. unfold check_or_update_chain_id in Hc.
  destruct conn, query; simplify_eq; try done.
  destruct existing as [li|]; simpl in Hg.
  - destruct Hg as [k Hk]. destruct Hl as [Hl|Hl]; rewrite Hl in *; [by rewrite lookup_empty in Hk|].
    apply lookup_singleton_Some in Hk as [<- <-]. simpl in *.
    case_decide; simplify_eq; split; try done. split_and!; try done. by right.
  - rewrite Hg in *. split; [|done].
    destruct (execute_with_better_error_conn _ _ _) as [s1 [n|]] eqn:He; simplify_eq;
      unfold execute_with_better_error_conn in He.
    + apply pg_execute_ok in He; [|apply NoDup_singleton]. split_and!; [done| |by left].
      rewrite He, Hg. unfold upsert_rows, upsert_row. simpl. by rewrite lookup_empty.
    + apply pg_execute_err in He. by rewrite He.
Qed.
End ChainId.

Definition no_debug : DebugQuery LedgerInfo Z := fun _ _ => EmptyString.
Definition chain_one : gmap Z LedgerInfo := {[ 1%Z := {| li_chain_id := 1 |} ]}.
Lemma chain_id_guard_witness :
  @check_or_update_chain_id (mem_table LedgerInfo Z) no_debug 1 (Ok tt) (Ok tt) None
    (∅ : gmap Z LedgerInfo) = (chain_one, Ok 1%Z) /\
  chain_one = {[ 1%Z := {| li_chain_id := 1 |} ]}.
Proof.
  split; [reflexivity|].
  exact (proj1 (proj2 (proj1 (@chain_id_guard (mem_table LedgerInfo Z) no_debug
           (mem_laws LedgerInfo Z) 1 1 (Ok tt) (Ok tt) None
           (∅ : gmap Z LedgerInfo) chain_one
           (Ok 1%Z) (or_introl eq_refl) eq_refl eq_refl)))).
Defined.

(** ** Processing tasks *)

Section Tasks.
Context `{Chrono} {db : Type} `{ProcessorTrait db}.

(** A message whose transactions were all filtered out is reported as
    processed without calling the processor. *)
Definition do_processor (m : TransactionsPBResponse) (db_chain_id : Z) (d d' : db)
    (res : outcome (result ProcessingResult)) : Prop :=
  match pb_transactions m with
  | [] => d' = d /\
      res = Ret (Ok {| start_version := pb_start_version m; end_version := pb_end_version m;
                       last_transaction_timestamp := pb_end_txn_timestamp m;
                       processing_duration_in_secs := 0; db_insertion_duration_in_secs := 0 |})
  | _ :: _ => process_transactions (pb_transactions m) (pb_start_version m) (pb_end_version m)
                (Some db_chain_id) d d' res
  end.

(** One message of [launch_processor_task]'s loop, up to what it sends to the
    gap detector: the timestamps are formatted, the chain id is compared, the
    batch is processed, and the last timestamp is required for a metric. *)
Definition run_task (chain_id : Z) (m : TransactionsPBResponse) (d d' : db)
    (out : outcome ProcessingResult) : Prop :=
  match iso_or_default (pb_start_txn_timestamp m), iso_or_default (pb_end_txn_timestamp m) with
  | Ret _, Ret _ =>
      if decide (pb_chain_id m ≠ chain_id) then d' = d /\ out = Panic
      else exists res, do_processor m chain_id d d' res /\
        out = (r ← res; versions ← unwrap_result r; _ ← unwrap (pb_end_txn_timestamp m); Ret versions)
  | _, _ => d' = d /\ out = Panic
  end.

(** The version range the task reports to its counters. *)
Definition num_processed (m : TransactionsPBResponse) : Z :=
  let first_txn_version := default 0%Z (t_version <$> head (pb_transactions m)) in
  let last_txn_version := default 0%Z (t_version <$> last (pb_transactions m)) in
  as_u64 (as_u64 (last_txn_version - first_txn_version) + 1).

Context `{!ProcessorLaws db}.

(** What a task reports carries the versions of its message. *)
Lemma run_task_versions chain m d d' r :
  run_task chain m d d' (Ret r) ->
  start_version r = pb_start_version m /\ end_version r = pb_end_version m /\ pb_chain_id m = chain.
Proof.
  unfold run_task. destruct (iso_or_default (pb_start_txn_timestamp m)); [|naive_solver].
  destruct (iso_or_default (pb_end_txn_timestamp m)); [|naive_solver].
  case_decide as Hc; [naive_solver|]. intros (res & Hd & Hr). symmetry in Hr. outcome_inv.
  unfold do_processor in Hd. destruct (pb_transactions m) as [|t ts].
  - destruct Hd as [_ Hd]. by simplify_eq/=.
  - destruct (process_transactions_versions _ _ _ _ _ _ _ Hd). done.
Qed.
End Tasks.
