(* ===== verification/Pipeline.v ===== *)
(** * The running indexer

    The fetcher, the channel to the processing tasks, the tasks, the channel
    to the gap detector and the status tracker, as [Worker::run] wires them
    together in [rust/processor/src/worker.rs], running concurrently.  The
    theorems say what a status row in the database means. *)
From S2P Require Import Prelude RustStr Json Externals Proto Util Database Processors.
From S2P Require Import GapDetector TransactionFilter MovingAverage Fetcher Worker.

(** ** State *)

(** The fetcher is between two reads, is sending the messages of a batch
    ([next] is where it continues, [None] after the ending version), or has
    dropped its end of the channel. *)
Inductive FetcherPhase :=
| Fetching (f : FetcherState)
| Sending (ms : list TransactionsPBResponse) (next : option FetcherState)
| Closed.

Inductive Task :=
| Idle
| Busy (m : TransactionsPBResponse)
| Reporting (r : ProcessingResult)
| Exited.

Lemma omap_middle {A B} (f : A -> option B) l1 x l2 :
  omap f (l1 ++ x :: l2) = omap f l1 ++ option_list (f x) ++ omap f l2.
Proof. rewrite omap_app. simpl. by destruct (f x). Qed.

Section Pipeline.
Context `{Chrono, GrpcCrates, ProtoEnums}.
Context `{!PgTable ProcessorStatus string, !DebugQuery ProcessorStatus string}.
Context {db : Type} `{ProcessorTrait db}.
Variables (auth_token processor_name : string).
Variable encoded_len : TransactionsResponse -> Z.
Variable net : nat -> Network.
Variables (starting_version : Z) (request_ending_version : option Z).
Variable transaction_filter : TransactionFilter.
Variable pb_channel_txn_chunk_size : nat.
Variable chain_id : Z.

(** The last three fields record history: the batches the fetcher accepted,
    the messages whose processing succeeded, and the results the gap detector
    has received. *)
Record Pipeline := {
  fetcher : FetcherPhase;
  channel : list TransactionsPBResponse;
  tasks : list Task;
  results : list ProcessingResult;
  tracker : Tracker;
  crashed : bool;
  fetched : list FetchedBatch;
  processed : list TransactionsPBResponse;
  received : list ProcessingResult;
}.

Abbreviation fetch := (fetcher_step auth_token processor_name encoded_len net
  request_ending_version transaction_filter pb_channel_txn_chunk_size).

Definition batch_messages_of (b : option FetchedBatch) : list TransactionsPBResponse :=
  from_option fb_messages [] b.

(** ** Steps

    A panic anywhere ends the process ([handle_panic] of
    [rust/server-framework/src/lib.rs] exits), leaving the database as it
    is.  The batches of different tasks run concurrently, so what a task sees
    of the data tables is not fixed here: a task may finish with any result it
    can return on some database. *)
Inductive step (p : Pipeline) : Pipeline -> Prop :=
| step_fetch f f' b :
    crashed p = false -> fetcher p = Fetching f -> fetch f = Some (Ret (Continue f' b)) ->
    step p {| fetcher := Sending (batch_messages_of b) (Some f'); channel := channel p;
              tasks := tasks p; results := results p; tracker := tracker p; crashed := false;
              fetched := fetched p ++ option_list b; processed := processed p; received := received p |}
| step_fetch_end f b :
    crashed p = false -> fetcher p = Fetching f -> fetch f = Some (Ret (ReachedEnd b)) ->
    step p {| fetcher := Sending (batch_messages_of b) None; channel := channel p;
              tasks := tasks p; results := results p; tracker := tracker p; crashed := false;
              fetched := fetched p ++ option_list b; processed := processed p; received := received p |}
| step_send m ms next :
    crashed p = false -> fetcher p = Sending (m :: ms) next -> length (channel p) < BUFFER_SIZE ->
    step p {| fetcher := Sending ms next; channel := channel p ++ [m];
              tasks := tasks p; results := results p; tracker := tracker p; crashed := false;
              fetched := fetched p; processed := processed p; received := received p |}
| step_sent f :
    crashed p = false -> fetcher p = Sending [] (Some f) ->
    step p {| fetcher := Fetching f; channel := channel p;
              tasks := tasks p; results := results p; tracker := tracker p; crashed := false;
              fetched := fetched p; processed := processed p; received := received p |}
| step_drained :
    crashed p = false -> fetcher p = Sending [] None -> channel p = [] ->
    step p {| fetcher := Closed; channel := [];
              tasks := tasks p; results := results p; tracker := tracker p; crashed := false;
              fetched := fetched p; processed := processed p; received := received p |}
| step_receive ts1 ts2 m ch :
    crashed p = false -> tasks p = ts1 ++ Idle :: ts2 -> channel p = m :: ch ->
    step p {| fetcher := fetcher p; channel := ch;
              tasks := ts1 ++ Busy m :: ts2; results := results p; tracker := tracker p;
              crashed := false;
              fetched := fetched p; processed := processed p; received := received p |}
| step_exit ts1 ts2 :
    crashed p = false -> tasks p = ts1 ++ Idle :: ts2 -> channel p = [] -> fetcher p = Closed ->
    step p {| fetcher := fetcher p; channel := [];
              tasks := ts1 ++ Exited :: ts2; results := results p; tracker := tracker p;
              crashed := false;
              fetched := fetched p; processed := processed p; received := received p |}
| step_process ts1 ts2 m d d' r :
    crashed p = false -> tasks p = ts1 ++ Busy m :: ts2 -> run_task chain_id m d d' (Ret r) ->
    step p {| fetcher := fetcher p; channel := channel p;
              tasks := ts1 ++ Reporting r :: ts2; results := results p; tracker := tracker p;
              crashed := false;
              fetched := fetched p; processed := processed p ++ [m]; received := received p |}
| step_report ts1 ts2 r :
    crashed p = false -> tasks p = ts1 ++ Reporting r :: ts2 -> length (results p) < BUFFER_SIZE ->
    step p {| fetcher := fetcher p; channel := channel p;
              tasks := ts1 ++ Idle :: ts2; results := results p ++ [r]; tracker := tracker p;
              crashed := false;
              fetched := fetched p; processed := processed p; received := received p |}
| step_track r rs now after t :
    crashed p = false -> results p = r :: rs ->
    tracker_step processor_name now after (tracker p) r = Some (Ret t) ->
    step p {| fetcher := fetcher p; channel := channel p;
              tasks := tasks p; results := rs; tracker := t; crashed := false;
              fetched := fetched p; processed := processed p; received := received p ++ [r] |}
| step_panic :
    crashed p = false ->
    (exists f, fetcher p = Fetching f /\ fetch f = Some Panic) \/
    (exists ts1 ts2 m d d', tasks p = ts1 ++ Busy m :: ts2 /\ run_task chain_id m d d' Panic) \/
    (exists r rs now after, results p = r :: rs /\
       tracker_step processor_name now after (tracker p) r = Some Panic) ->
    step p {| fetcher := fetcher p; channel := channel p;
              tasks := tasks p; results := results p; tracker := tracker p; crashed := true;
              fetched := fetched p; processed := processed p; received := received p |}.

(** [Worker::run] after the fetcher has connected: [n] idle tasks. *)
Definition start_pipeline (f : FetcherState) (n : nat) (now : Z) (s : pg_state) : Pipeline :=
  {| fetcher := Fetching f; channel := []; tasks := replicate n Idle; results := [];
     tracker := start_tracker starting_version now s; crashed := false;
     fetched := []; processed := []; received := [] |}.

(** The messages handed over by the fetcher, sent or about to be. *)
Definition handed (p : Pipeline) : list TransactionsPBResponse := concat (fb_messages <$> fetched p).
Definition pending (ph : FetcherPhase) : list TransactionsPBResponse :=
  match ph with Sending ms _ => ms | _ => [] end.
Definition busy (t : Task) : option TransactionsPBResponse :=
  match t with Busy m => Some m | _ => None end.
Definition reporting (t : Task) : option ProcessingResult :=
  match t with Reporting r => Some r | _ => None end.

Definition message_versions (m : TransactionsPBResponse) : Z * Z := (pb_start_version m, pb_end_version m).
Definition result_versions (r : ProcessingResult) : Z * Z := (start_version r, end_version r).

(** Where the fetcher will continue. *)
Definition phase_state (ph : FetcherPhase) : option FetcherState :=
  match ph with Fetching f => Some f | Sending _ next => next | Closed => None end.

(** ** Invariant: nothing is lost or duplicated between the components *)

Record flow (p : Pipeline) : Prop := {
  flow_gapless : gapless starting_version (fetched p);
  flow_batches : Forall (batch_ok transaction_filter pb_channel_txn_chunk_size) (fetched p);
  flow_next : forall f, phase_state (fetcher p) = Some f ->
    fetcher_ok f /\ stream_ordered (resp_stream f) /\
    next_version_to_fetch f = fetched_end starting_version (fetched p);
  flow_messages : handed p ≡ₚ pending (fetcher p) ++ channel p ++ omap busy (tasks p) ++ processed p;
  flow_results : message_versions <$> processed p ≡ₚ
    result_versions <$> (omap reporting (tasks p) ++ results p ++ received p);
  flow_detector : process_all (new starting_version) (received p) = Some (gap_detector (tracker p));
  flow_ordered : Forall batch_in_order (fetched p);
}.

Context `{!GrpcCratesLaws, !ProcessorLaws db}.
Hypothesis Hnet : network_u64 net.
Hypothesis Hord : network_ordered net.

Lemma flow_start f n now s :
  in_u64 starting_version ->
  start_fetcher auth_token processor_name net starting_version request_ending_version = Some (Ret f) ->
  flow (start_pipeline f n now s).
Proof.
  intros Hs Hf. apply start_fetcher_ok in Hf as (Hok & Hn & Hr & i & req & resp & Hg & Hst); [|done..].
  assert (omap busy (replicate n Idle) = [] /\ omap reporting (replicate n Idle) = []) as [Hb Hrp].
  { induction n; simpl; done. }
  split; simpl; try done.
  - intros f' [= <-]. split_and!; [done| |done]. rewrite Hst. by eapply Hord.
  - by rewrite Hb.
  - by rewrite Hrp.
Qed.

(** The batch a read produced extends the fetched ones. *)
Lemma flow_fetch p f next b :
  flow p -> fetcher p = Fetching f -> fetch f = Some (Ret next) ->
  match next with Continue _ b' | ReachedEnd b' => b' = b end ->
  gapless starting_version (fetched p ++ option_list b) /\
  Forall (batch_ok transaction_filter pb_channel_txn_chunk_size) (fetched p ++ option_list b) /\
  Forall batch_in_order (fetched p ++ option_list b) /\
  concat (fb_messages <$> fetched p ++ option_list b) = handed p ++ batch_messages_of b /\
  (forall f', match next with Continue f'' _ => f'' = f' | ReachedEnd _ => False end ->
     fetcher_ok f' /\ stream_ordered (resp_stream f') /\
     next_version_to_fetch f' = fetched_end starting_version (fetched p ++ option_list b)).
Proof.
  intros Hp Hf Hs Hb. destruct (flow_next p Hp f) as (Hok & Hso & Hn); [by rewrite Hf|].
  pose proof (fetcher_step_ok _ _ _ _ _ _ _ f next Hnet Hok Hs) as Hstep.
  assert (match b with
          | Some b => batch_ok transaction_filter pb_channel_txn_chunk_size b /\
                      fb_start b = next_version_to_fetch f /\
                      resp_stream f (stream_pos f) = ItemOk (fb_response b)
          | None => True end) as Hb'.
  { destruct next as [f' [b'|]|[b'|]]; subst; naive_solver. }
  assert (forall f', match next with Continue f'' _ => f'' = f' | ReachedEnd _ => False end ->
    stream_ordered (resp_stream f')) as Hso'.
  { intros f' Hf'. destruct next as [f'' b'|]; [|done]. subst. by eapply fetcher_step_ordered. }
  destruct b as [b|]; simpl; rewrite ?app_nil_r.
  - destruct Hb' as (Hbo & Hst & Hit). split_and!.
    + apply gapless_snoc. split; [apply (flow_gapless p Hp)|congruence].
    + apply Forall_app. split; [apply (flow_batches p Hp)|by apply Forall_singleton].
    + apply Forall_app. split; [apply (flow_ordered p Hp)|].
      apply Forall_singleton. by eapply batch_ordered.
    + unfold handed. rewrite fmap_app, concat_app. simpl. by rewrite app_nil_r.
    + intros f' Hf'. split_and!; [|by apply Hso'|];
        (destruct next as [f'' [b'|]|]; [|done..]; simplify_eq; destruct Hstep as (? & ? & ? & ? & ?));
        [done|]. unfold fetched_end. by rewrite last_snoc.
  - destruct Hp. split_and!; [done..|]. intros f' Hf'. split_and!; [|by apply Hso'|];
      (destruct next as [f'' [b'|]|]; [done| |done]; simplify_eq; destruct Hstep as (? & ? & ?));
      [done|congruence].
Qed.

Lemma flow_step p p' : flow p -> step p p' -> flow p'.
Proof.
  intros Hp Hstep. pose proof Hp as [Hgap Hbat Hnext Hmsg Hres Hdet Hordered].
  destruct Hstep as [f f' b Hc Hf Hs|f b Hc Hf Hs|m ms next Hc Hf Hl|f Hc Hf|Hc Hf Hch
    |ts1 ts2 m ch Hc Ht Hch|ts1 ts2 Hc Ht Hch Hf|ts1 ts2 m d d' r Hc Ht Hr|ts1 ts2 r Hc Ht Hl
    |r rs now after t Hc Hrs Ht|Hc Hpanic].
  1,2: rewrite Hf in Hmsg; simpl in Hmsg;
    eapply flow_fetch in Hs as (Hg & Hb & Ho & Hh & Hn); [|done..];
    split; simpl; try done; unfold handed; simpl;
    solve [by intros f'' [= <-]; apply Hn | rewrite Hh, Hmsg; solve_Permutation].
  all: unfold handed in Hmsg; try rewrite Ht in Hmsg; try rewrite Ht in Hres;
    try rewrite Hch in Hmsg; try rewrite Hf in Hmsg; try rewrite Hf in Hnext;
    try rewrite Hrs in Hres; try rewrite omap_middle in Hmsg; try rewrite omap_middle in Hres;
    simpl in Hmsg, Hres, Hnext.
  all: split; simpl; unfold handed; simpl; rewrite ?omap_middle; simpl; try rewrite Hf; try done.
  all: try (rewrite Hmsg; solve_Permutation).
  - destruct (run_task_versions chain_id m d d' r Hr) as (H1' & H2' & _).
    rewrite fmap_app, Hres, !fmap_app. simpl.
    assert (message_versions m = result_versions r) as ->
      by (unfold message_versions, result_versions; congruence).
    solve_Permutation.
  - rewrite Hres, !fmap_app. simpl. rewrite ?fmap_app. simpl. solve_Permutation.
  - apply tracker_step_inv in Ht as [[res Hpv] _].
    rewrite Hres, !fmap_app. simpl. rewrite ?fmap_app. simpl. solve_Permutation.
  - apply tracker_step_inv in Ht as [[res Hpv] _].
    rewrite process_all_snoc, Hdet. simpl. by rewrite Hpv.
Qed.

(** ** Unsplit batches *)

(** Every response was sent as one message. *)
Definition unsplit (p : Pipeline) : Prop := Forall (fun b => length (fb_messages b) = 1) (fetched p).

Lemma handed_versions p :
  flow p -> unsplit p -> message_versions <$> handed p = batch_versions <$> fetched p.
Proof.
  intros Hp Hu. pose proof (flow_batches p Hp) as Hb. unfold unsplit in Hu. unfold handed.
  induction (fetched p) as [|b bs IH]; [done|].
  change (concat (fb_messages <$> b :: bs)) with (fb_messages b ++ concat (fb_messages <$> bs)).
  apply Forall_cons in Hu as [H1' Hu]. apply Forall_cons in Hb as [(_ & _ & _ & _ & Hm) Hb].
  destruct (fb_messages b) as [|m [|]]; simpl in H1'; try lia.
  apply Forall_cons in Hm as [(Hs & He & _) _]. rewrite fmap_app, IH by done. simpl.
  unfold message_versions, batch_versions. by rewrite Hs, He.
Qed.

Lemma handed_NoDup p : flow p -> unsplit p -> NoDup (pb_start_version <$> handed p).
Proof.
  intros Hp Hu.
  assert (pb_start_version <$> handed p = fb_start <$> fetched p) as ->.
  { pose proof (f_equal (fmap fst) (handed_versions p Hp Hu)) as Hv.
    by rewrite <- !list_fmap_compose in Hv. }
  eapply gapless_NoDup; [apply (flow_gapless p Hp)|apply (flow_ordered p Hp)].
Qed.

Lemma processed_handed p m : flow p -> m ∈ processed p -> m ∈ handed p.
Proof. intros Hp Hm. rewrite (flow_messages p Hp), !elem_of_app. auto. Qed.

Lemma received_NoDup p : flow p -> unsplit p -> NoDup (start_version <$> received p).
Proof.
  intros Hp Hu. pose proof (handed_NoDup p Hp Hu) as Hn.
  rewrite (flow_messages p Hp) in Hn. rewrite !fmap_app in Hn.
  apply NoDup_app in Hn as (_ & _ & (_ & _ & (_ & _ & Hn)%NoDup_app)%NoDup_app).
  pose proof (fmap_Permutation fst _ _ (flow_results p Hp)) as Hr.
  rewrite <- !list_fmap_compose in Hr. unfold compose, message_versions, result_versions in Hr. simpl in Hr.
  rewrite Hr, !fmap_app in Hn. by apply NoDup_app in Hn as (_ & _ & (_ & _ & Hn)%NoDup_app).
Qed.

Lemma received_processed p r :
  flow p -> r ∈ received p -> exists m, m ∈ processed p /\ message_versions m = result_versions r.
Proof.
  intros Hp Hr. assert (result_versions r ∈ message_versions <$> processed p) as Hin.
  { rewrite (flow_results p Hp). apply list_elem_of_fmap. exists r. split; [done|].
    rewrite !elem_of_app. auto. }
  apply list_elem_of_fmap in Hin as (m & Hm & Hin). eauto.
Qed.

(** A contiguous run of results over gapless batches is a run over the first
    batches. *)
Lemma run_prefix s c bs :
  NoDup (start_version <$> c) -> contiguous s c -> gapless s bs -> Forall batch_in_order bs ->
  (forall r, r ∈ c -> exists b, b ∈ bs /\ batch_versions b = result_versions r) ->
  exists bs1 bs2, bs = bs1 ++ bs2 /\ result_versions <$> c = batch_versions <$> bs1.
Proof.
  revert s bs. induction c as [|r c IH]; intros s bs Hn Hc Hg Ho Hin; [by exists [], bs|].
  destruct Hc as [Hr Hc]. rewrite fmap_cons in Hn. apply NoDup_cons in Hn as [Hfresh Hn].
  destruct (Hin r) as (b & Hb & [= Hv1 Hv2]); [by left|].
  destruct bs as [|x bs]; [by apply elem_of_nil in Hb|].
  assert (b = x) as ->.
  { apply (NoDup_fmap_key_inj fb_start (x :: bs)); [by eapply gapless_NoDup|done|by left|].
    destruct Hg as [Hx _]. congruence. }
  destruct Hg as [Hx Hg]. apply Forall_cons in Ho as [Hox Ho].
  unfold version_after in Hc. rewrite <- Hv2 in Hc.
  destruct (IH (as_u64 (fb_end x + 1)) bs Hn Hc Hg Ho) as (bs1 & bs2 & -> & He).
  - intros r' Hr'. destruct (Hin r') as (b' & Hb' & Hv'); [by right|].
    apply elem_of_cons in Hb' as [->|Hb']; [|eauto]. destruct Hfresh.
    apply list_elem_of_fmap. exists r'. split; [|done]. injection Hv' as Hv' _. congruence.
  - exists (x :: bs1), bs2. split; [done|]. rewrite !fmap_cons, He. f_equal.
    unfold result_versions, batch_versions. congruence.
Qed.

Lemma elem_of_handed p m : m ∈ handed p <-> exists b, b ∈ fetched p /\ m ∈ fb_messages b.
Proof.
  unfold handed. rewrite list_elem_of_In, in_concat. split.
  - intros (ms & Hms & Hin). apply list_elem_of_In, list_elem_of_fmap in Hms as (b & -> & Hb).
    exists b. split; [done|by apply list_elem_of_In].
  - intros (b & Hb & Hin). exists (fb_messages b). rewrite <- !list_elem_of_In.
    split; [by apply list_elem_of_fmap_2|done].
Qed.

Lemma batch_message_versions p b m :
  flow p -> b ∈ fetched p -> m ∈ fb_messages b -> message_versions m = batch_versions b.
Proof.
  intros Hp Hb Hm. pose proof (flow_batches p Hp) as Hbo. rewrite Forall_forall in Hbo.
  destruct (Hbo b Hb) as (_ & _ & _ & _ & Hall). rewrite Forall_forall in Hall.
  destruct (Hall m Hm) as (Hs & He & _). unfold message_versions, batch_versions. congruence.
Qed.

Lemma received_batch p r :
  flow p -> r ∈ received p -> exists b, b ∈ fetched p /\ batch_versions b = result_versions r.
Proof.
  intros Hp (m & Hm & Hv)%(received_processed p); [|done]. apply processed_handed in Hm; [|done].
  apply elem_of_handed in Hm as (b & Hb & Hin). exists b. split; [done|].
  rewrite <- Hv. symmetry. by eapply batch_message_versions.
Qed.

(** The results up to the last success batch are those of the first batches. *)
Lemma frontier_batches p b :
  flow p -> unsplit p -> last_success_batch (gap_detector (tracker p)) = Some b ->
  exists bs1 bs2 x, fetched p = bs1 ++ bs2 /\ last bs1 = Some x /\ fb_end x = end_version b /\
    forall y, y ∈ bs1 -> exists r, r ∈ received p /\ result_versions r = batch_versions y.
Proof.
  intros Hp Hu Hlast. pose proof (received_NoDup p Hp Hu) as Hrn.
  destruct (process_all_state _ _ _ Hrn (flow_detector p Hp)) as (c & (Hperm & Hc & _) & _ & _ & Hl).
  assert (forall r, r ∈ c -> r ∈ received p) as Hcr by (intros r Hr; rewrite Hperm, elem_of_app; auto).
  destruct (run_prefix starting_version c (fetched p)) as (bs1 & bs2 & Hbs & Hvs).
  { rewrite Hperm, fmap_app in Hrn. by apply NoDup_app in Hrn as (? & _). }
  { done. } { apply Hp. } { apply Hp. } { intros r Hr. apply received_batch; auto. }
  assert (last (batch_versions <$> bs1) = Some (result_versions b)) as Hlv
    by (rewrite <- Hvs, fmap_last, <- Hl, Hlast; done).
  rewrite fmap_last in Hlv. apply fmap_Some in Hlv as (x & Hx & [= Hx1 Hx2]).
  exists bs1, bs2, x. split_and!; try done. intros y Hy.
  assert (batch_versions y ∈ result_versions <$> c) as (r & Hr & Hrc)%list_elem_of_fmap
    by (rewrite Hvs; by apply list_elem_of_fmap_2).
  eauto.
Qed.

(** Everything up to the end of the last success batch has been processed. *)
Lemma frontier_processed p b :
  flow p -> unsplit p -> last_success_batch (gap_detector (tracker p)) = Some b ->
  (starting_version <= as_i64 (end_version b) < 9223372036854775807)%Z /\
  (as_i64 (end_version b) < fetched_end starting_version (fetched p))%Z /\
  forall m, m ∈ handed p -> (pb_start_version m <= as_i64 (end_version b))%Z -> m ∈ processed p.
Proof.
  intros Hp Hu Hlast.
  destruct (frontier_batches p b Hp Hu Hlast) as (bs1 & bs2 & x & Hbs & Hx & <- & Hrec).
  pose proof (flow_gapless p Hp) as Hg. pose proof (flow_ordered p Hp) as Ho.
  assert (x ∈ fetched p) as Hxin by (rewrite Hbs, elem_of_app; left; by apply last_Some_elem_of).
  assert (batch_in_order x) as Hxo by (rewrite Forall_forall in Ho; by apply Ho).
  rewrite as_i64_id by (unfold batch_in_order in Hxo; unfold in_i64; lia).
  pose proof (gapless_bounds starting_version (fetched p) x Hg Ho Hxin) as [Hxlo Hxhi].
  split; [unfold batch_in_order in Hxo; lia|]. split; [done|].
  intros m Hm Hle. pose proof Hm as (y & Hy & Hin)%elem_of_handed.
  pose proof (batch_message_versions p y m Hp Hy Hin) as [= Hms Hme].
  assert (y ∈ bs1) as Hy1.
  { rewrite Hbs in Hy. apply elem_of_app in Hy as [|Hy2]; [done|]. exfalso.
    rewrite Hbs in Hg, Ho. apply gapless_app in Hg as [_ Hg2]. apply Forall_app in Ho as [_ Ho2].
    destruct (gapless_bounds _ _ y Hg2 Ho2 Hy2) as [Hlo _].
    unfold fetched_end in Hlo. rewrite Hx in Hlo. simpl in Hlo.
    rewrite (batch_in_order_next x) in Hlo by done. lia. }
  destruct (Hrec y Hy1) as (r & Hr & Hry).
  destruct (received_processed p r Hp Hr) as (m' & Hm' & Hv').
  assert (m' = m) as <-; [|done].
  apply (NoDup_fmap_key_inj pb_start_version (handed p)).
  - by apply handed_NoDup.
  - by apply processed_handed.
  - done.
  - unfold message_versions, batch_versions, result_versions in *. congruence.
Qed.

(** ** What the status row means *)

Context `{!PgLaws ProcessorStatus string}.

Definition reachable (s0 : pg_state) (p : Pipeline) : Prop :=
  exists f n now, start_fetcher auth_token processor_name net starting_version request_ending_version
                    = Some (Ret f) /\
    rtc step (start_pipeline f n now s0) p.

Lemma reachable_flow s0 p : in_u64 starting_version -> reachable s0 p -> flow p.
Proof.
  intros Hs (f & n & now & Hf & Hr). pose proof (flow_start f n now s0 Hs Hf) as H0'.
  induction Hr as [|p1 p2 p3 Hstep _ IH]; [done|]. apply IH. by eapply flow_step.
Qed.

Definition status_rows (p : Pipeline) : gmap string ProcessorStatus :=
  pg_rows (status_table (tracker p)).

(** The row of the processor is the initial one, or everything up to its
    version has been processed and the stream continues behind it. *)
Definition status_sound (s0 : pg_state) (p : Pipeline) : Prop :=
  forall row, status_rows p !! processor_name = Some row ->
    pg_rows s0 !! processor_name = Some row \/
    ((starting_version <= last_success_version row < 9223372036854775807)%Z /\
     (last_success_version row < fetched_end starting_version (fetched p))%Z /\
     forall m, m ∈ handed p -> (pb_start_version m <= last_success_version row)%Z -> m ∈ processed p).

Lemma step_fetched p p' :
  flow p -> flow p' -> step p p' ->
  (exists bs, fetched p' = fetched p ++ bs) /\ (forall m, m ∈ processed p -> m ∈ processed p') /\
  (fetched_end starting_version (fetched p) <= fetched_end starting_version (fetched p'))%Z.
Proof.
  intros Hp Hp' Hstep. assert (exists bs, fetched p' = fetched p ++ bs) as [bs Hbs].
  { destruct Hstep; simpl; try (by exists []; rewrite app_nil_r); by eexists. }
  split; [by eexists|]. split; [destruct Hstep; simpl; set_solver|].
  rewrite Hbs. unfold fetched_end at 2. rewrite last_app.
  destruct (last bs) as [b|] eqn:Hb; [|done]. simpl.
  pose proof (flow_gapless p' Hp') as Hg. pose proof (flow_ordered p' Hp') as Ho.
  rewrite Hbs in Hg, Ho. apply gapless_app in Hg as [_ Hg]. apply Forall_app in Ho as [_ Ho].
  pose proof (last_Some_elem_of _ _ Hb) as Hin.
  destruct (gapless_bounds _ _ b Hg Ho Hin) as [Hlo _].
  rewrite Forall_forall in Ho. specialize (Ho b Hin). rewrite batch_in_order_next by done.
  unfold batch_in_order in Ho. lia.
Qed.

Lemma step_status p p' :
  flow p -> flow p' -> unsplit p' -> step p p' ->
  forall row, status_rows p' !! processor_name = Some row ->
    status_rows p !! processor_name = Some row \/
    ((starting_version <= last_success_version row < 9223372036854775807)%Z /\
     (last_success_version row < fetched_end starting_version (fetched p'))%Z /\
     forall m, m ∈ handed p' -> (pb_start_version m <= last_success_version row)%Z -> m ∈ processed p').
Proof.
  intros Hp Hp' Hu Hstep row.
  destruct Hstep as [| | | | | | | | |r rs now after t Hc Hrs Ht|]; try by left.
  unfold status_rows. simpl. intros Hrow.
  apply tracker_step_inv in Ht as [_ [Heq|(b & Hb & Hup)]]; [left; by rewrite Heq in Hrow|].
  destruct (update_last_processed_version_cases _ _ _ _ _ _ _ Hup Hrow) as [|[_ ->]]; [by left|].
  right. by apply (frontier_processed _ b) in Hp'.
Qed.

Lemma status_sound_step s0 p p' :
  flow p -> flow p' -> unsplit p' -> step p p' -> status_sound s0 p -> status_sound s0 p'.
Proof.
  intros Hp Hp' Hu Hstep Hs row Hrow.
  destruct (step_status p p' Hp Hp' Hu Hstep row Hrow) as [Hold|]; [|by right].
  destruct (Hs row Hold) as [|(Hr & Hlt & Hdone)]; [by left|]. right.
  destruct (step_fetched p p' Hp Hp' Hstep) as ([bs Hbs] & Hpr & Hle).
  split_and!; [lia..|]. intros m (b & Hb & Hm)%elem_of_handed Hstart.
  pose proof (batch_message_versions p' b m Hp' Hb Hm) as [= Hms _].
  rewrite Hbs in Hb. apply elem_of_app in Hb as [Hb|Hb].
  - apply Hpr, Hdone; [|done]. apply elem_of_handed. eauto.
  - exfalso. pose proof (flow_gapless p' Hp') as Hg. pose proof (flow_ordered p' Hp') as Ho.
    rewrite Hbs in Hg, Ho. apply gapless_app in Hg as [_ Hg]. apply Forall_app in Ho as [_ Ho].
    destruct (gapless_bounds _ _ b Hg Ho Hb). lia.
Qed.

(** The status table loses no row. *)
Lemma step_status_kept p p' k : step p p' -> is_Some (status_rows p !! k) -> is_Some (status_rows p' !! k).
Proof.
  intros Hstep. unfold status_rows. destruct Hstep as [| | | | | | | | |r rs now after t Hc Hrs Ht|]; try done. simpl.
  apply tracker_step_inv in Ht as [_ [->|(b & _ & Hup)]]; [done|]. by eapply update_last_processed_version_kept.
Qed.
Lemma reachable_status_kept s0 p k :
  reachable s0 p -> is_Some (pg_rows s0 !! k) -> is_Some (status_rows p !! k).
Proof.
  intros (f & n & now & _ & Hr) Hk.
  assert (is_Some (status_rows (start_pipeline f n now s0) !! k)) as Hs by done.
  induction Hr as [|p1 p2 p3 Hstep _ IH]; [done|]. by eapply IH, step_status_kept.
Qed.

Lemma unsplit_step p p' : step p p' -> unsplit p' -> unsplit p.
Proof. intros Hstep. unfold unsplit. destruct Hstep; simpl; rewrite ?Forall_app; tauto. Qed.

Lemma reachable_status_sound s0 p :
  in_u64 starting_version -> reachable s0 p -> unsplit p -> status_sound s0 p.
Proof.
  intros Hs (f & n & now & Hf & Hr). pose proof (flow_start f n now s0 Hs Hf) as H0'.
  assert (status_sound s0 (start_pipeline f n now s0)) as H1' by (intros row Hrow; by left).
  induction Hr as [|p1 p2 p3 Hstep Hr IH]; [done|]. intros Hu.
  assert (flow p2) by (by eapply flow_step). apply IH; try done.
  apply (status_sound_step s0 p1 p2); try done.
  clear -Hr Hu. induction Hr as [|a b c Hab _ IH]; [done|]. by eapply unsplit_step, IH.
Qed.

(** C3: a status row never runs ahead of the processing.  In every reachable
    state of the pipeline, whatever the interleaving, the crashes and the
    order in which tasks finish, the version recorded for the processor is
    the one found at the start, or every message handed over that starts at
    or below it has been processed, provided no response was split. *)
Theorem status_never_ahead (s0 : pg_state) (p : Pipeline) (row : ProcessorStatus) :
  in_u64 starting_version -> reachable s0 p -> unsplit p ->
  status_rows p !! processor_name = Some row ->
  pg_rows s0 !! processor_name = Some row \/
  forall m, m ∈ handed p -> (pb_start_version m <= last_success_version row)%Z -> m ∈ processed p.
Proof.
  intros Hs Hr Hu Hrow. destruct (reachable_status_sound s0 p Hs Hr Hu row Hrow) as [|(_ & _ & Hd)];
    [by left|by right].
Qed.

(** C4: a restart loses nothing.  If a worker without a configured starting
    version was started on a database, and the process stops in any reachable
    state without split responses, then the version from which a new worker
    starts is not above any message that had been handed over but not
    processed. *)
Theorem restart_loses_nothing (s0 : pg_state) (p : Pipeline) (w : Worker) (sv : Z) m :
  in_u64 starting_version -> reachable s0 p -> unsplit p ->
  config_name (processor_config w) = processor_name -> worker_starting_version w = None ->
  final_starting_version w (Ok tt) (Ok tt) (pg_rows s0) = Ret starting_version ->
  final_starting_version w (Ok tt) (Ok tt) (status_rows p) = Ret sv ->
  m ∈ handed p -> m ∉ processed p -> (sv <= pb_start_version m)%Z.
Proof.
  intros Hs Hr Hu Hname Hw Hstart Hsv Hm Hnot.
  pose proof (reachable_flow s0 p Hs Hr) as Hp.
  unfold final_starting_version, get_start_version, get_by_processor in *. rewrite Hw, Hname in *.
  assert (starting_version <= pb_start_version m)%Z as Hlow.
  { pose proof Hm as (b & Hb & Hin)%elem_of_handed.
    pose proof (batch_message_versions p b m Hp Hb Hin) as [= -> _].
    apply (gapless_bounds _ _ b (flow_gapless p Hp) (flow_ordered p Hp) Hb). }
  destruct (status_rows p !! processor_name) as [row|] eqn:Hrow.
  - destruct (reachable_status_sound s0 p Hs Hr Hu row Hrow) as [H0'|(Hrange & _ & Hd)].
    + rewrite H0' in Hstart. assert (sv = starting_version) as -> by congruence. done.
    + simpl in Hsv. simplify_eq.
      assert (last_success_version row < pb_start_version m)%Z as Hlt.
      { apply Z.nle_gt. intros Hle. by apply Hnot, Hd. }
      unfold in_u64 in Hs. rewrite (as_u64_id (last_success_version row)), as_u64_id by (unfold in_u64; lia). lia.
  - simpl in Hsv. simplify_eq. unfold in_u64 in Hs. lia.
Qed.

(** ** Completion *)

Lemma closed_empty s0 p : reachable s0 p -> fetcher p = Closed -> channel p = [].
Proof.
  intros (f & n & now & _ & Hr). set (p0 := start_pipeline f n now s0) in Hr.
  assert (fetcher p0 = Closed -> channel p0 = []) as H0' by done.
  induction Hr as [|p1 p2 p3 Hstep _ IH]; [done|]. apply IH. clear IH.
  destruct Hstep; simpl in *; intros Hcl; try congruence; auto.
  specialize (H0' Hcl). congruence.
Qed.

(** With every result received, the run covers all batches. *)
Lemma frontier_complete p :
  flow p -> unsplit p ->
  (forall b, b ∈ fetched p -> exists r, r ∈ received p /\ result_versions r = batch_versions b) ->
  next_version_to_process (gap_detector (tracker p)) = fetched_end starting_version (fetched p).
Proof.
  intros Hp Hu Hall. pose proof (received_NoDup p Hp Hu) as Hrn.
  destruct (process_all_state _ _ _ Hrn (flow_detector p Hp)) as (c & (Hperm & Hc & Hmax) & _ & -> & _).
  pose proof (flow_gapless p Hp) as Hg. pose proof (flow_ordered p Hp) as Ho.
  destruct (run_prefix starting_version c (fetched p)) as (bs1 & bs2 & Hbs & Hvs); try done.
  { rewrite Hperm, fmap_app in Hrn. by apply NoDup_app in Hrn as (? & _). }
  { intros r Hr. apply received_batch; [done|]. rewrite Hperm, elem_of_app. auto. }
  assert (run_end starting_version c = fetched_end starting_version bs1) as Hend.
  { unfold run_end, fetched_end. pose proof (f_equal last Hvs) as Hl. rewrite !fmap_last in Hl.
    unfold result_versions, batch_versions in Hl.
    destruct (last c), (last bs1); simpl in Hl; simplify_eq; [|done].
    simpl. unfold version_after. congruence. }
  destruct bs2 as [|y bs2]; [by rewrite Hend, Hbs, app_nil_r|]. exfalso.
  destruct (Hall y) as (r & Hr & Hry); [rewrite Hbs; set_solver|]. injection Hry as Hry _.
  rewrite Hbs in Hg, Ho. pose proof Hg as [_ [Hy _]]%gapless_app.
  rewrite Hperm in Hr. apply elem_of_app in Hr as [Hr|Hr].
  - assert (result_versions r ∈ batch_versions <$> bs1) as (x & [= Hx _] & Hin)%list_elem_of_fmap
      by (rewrite <- Hvs; by apply list_elem_of_fmap_2).
    pose proof Hg as [Hg1 _]%gapless_app. apply Forall_app in Ho as [Ho1 _].
    destruct (gapless_bounds _ _ x Hg1 Ho1 Hin) as [_ Hlt].
    rewrite Forall_forall in Ho1. specialize (Ho1 x Hin). unfold batch_in_order in Ho1. lia.
  - rewrite Forall_forall in Hmax. apply (Hmax r Hr). congruence.
Qed.

(** A run that has stopped, with all results received, is complete. *)
Lemma stopped_complete (s0 : pg_state) (p : Pipeline) :
  in_u64 starting_version -> reachable s0 p ->
  fetcher p = Closed -> Forall (eq Exited) (tasks p) -> results p = [] ->
  handed p ≡ₚ processed p /\
  (unsplit p -> next_version_to_process (gap_detector (tracker p)) =
                fetched_end starting_version (fetched p)).
Proof.
  intros Hs Hr Hf Ht Hres. pose proof (reachable_flow s0 p Hs Hr) as Hp.
  assert (omap busy (tasks p) = [] /\ omap reporting (tasks p) = []) as [Hb Hrp].
  { induction Ht as [|t ts <- _ IH]; [done|]. simpl. apply IH. }
  assert (handed p ≡ₚ processed p) as Hall.
  { rewrite (flow_messages p Hp), Hf, Hb, (closed_empty s0 p Hr Hf). done. }
  split; [done|]. intros Hu. apply frontier_complete; try done. intros b Hbf.
  assert (batch_versions b ∈ message_versions <$> processed p) as Hin.
  { rewrite <- Hall, handed_versions by done. by apply list_elem_of_fmap_2. }
  rewrite (flow_results p Hp), Hrp, Hres in Hin. simpl in Hin.
  apply list_elem_of_fmap in Hin as (r & Hrv & Hin). eauto.
Qed.
End Pipeline.

(** ** Concrete runs *)

Section ConcreteRuns.
#[local] Existing Instance pair_chrono.
#[local] Existing Instance slice_crates.
#[local] Existing Instance slice_crates_laws.
#[local] Existing Instance published_enums.
#[local] Instance status_mem : PgTable ProcessorStatus string := mem_table ProcessorStatus string.
#[local] Instance status_mem_laws : PgLaws ProcessorStatus string := mem_laws ProcessorStatus string.
#[local] Instance status_debug : DebugQuery ProcessorStatus string := fun _ _ => EmptyString.

(** A processor that always succeeds. *)
#[local] Instance ok_processor : ProcessorTrait unit :=
  {| processor_name := "default_processor";
     process_transactions := fun _ s e _ _ _ res => res = Ret (Ok (batch s e)) |}.
#[local] Instance ok_processor_laws : ProcessorLaws unit.
Proof. intros txns s e chain d d' r Hr. simpl in Hr. by simplify_eq/=. Qed.

Definition ex_worker : Worker :=
  {| processor_config := CfgDefault; worker_starting_version := None; worker_ending_version := Some 6%Z;
     number_concurrent_processing_tasks := 2; gap_detection_batch_size := 500;
     grpc_chain_id := Some 1%Z; pb_channel_txn_chunk_size := 10; per_table_chunk_sizes := ∅;
     worker_filter := no_filter |}.
Definition ex_row (v : Z) : ProcessorStatus :=
  {| processor := "default_processor"; last_success_version := v; status_transaction_timestamp := None |}.
(** The database says that version 4 was the last. *)
Definition ex_table : gmap string ProcessorStatus := {[ "default_processor" := ex_row 4 ]}.

Definition ex_reachable (chunk : nat) (p : Pipeline) : Prop :=
  reachable (db := unit) EmptyString "default_processor" (fun _ => 100%Z) example_net 5 (Some 6%Z)
    no_filter chunk 1 ex_table p.

Definition ex_message (versions : list Z) (size : Z) : TransactionsPBResponse :=
  {| pb_transactions := (fun v => user_txn v script_request) <$> versions; pb_chain_id := 1;
     pb_start_version := 5; pb_end_version := 6;
     pb_start_txn_timestamp := Some {| seconds := 1; nanos := 0 |};
     pb_end_txn_timestamp := Some {| seconds := 1; nanos := 0 |}; pb_size_in_bytes := size |}.
Definition ex_batch (ms : list TransactionsPBResponse) : FetchedBatch :=
  {| fb_response := response_of [5; 6]%Z; fb_start := 5; fb_end := 6; fb_messages := ms |}.
(** The tracker after the result for versions 5 to 6, two seconds in. *)
Definition ex_tracker : Tracker :=
  {| gap_detector := {| next_version_to_process := 7; seen_versions := ∅;
                        last_success_batch := Some (batch 5 6) |};
     last_update_time := 2000000000; gap_count := 0;
     status_table := ({[ "default_processor" := ex_row 6 ]} : gmap string ProcessorStatus) |}.

Ltac run_fetch := eapply rtc_l; [eapply step_fetch_end; reflexivity|simpl].
Ltac run_receive l := eapply rtc_l; [eapply step_receive with (ts1 := l); reflexivity|simpl].
Ltac run_send := eapply rtc_l; [eapply step_send; [reflexivity..|simpl; unfold BUFFER_SIZE; lia]|simpl].
Ltac run_report l1 l2 :=
  eapply rtc_l; [eapply step_report with (ts1 := l1) (ts2 := l2);
    [reflexivity..|simpl; unfold BUFFER_SIZE; lia]|simpl].
Ltac run_process l1 l2 :=
  eapply rtc_l; [eapply step_process with (ts1 := l1) (ts2 := l2) (d := tt) (d' := tt) (r := batch 5 6);
    [reflexivity..|exists (Ret (Ok (batch 5 6))); split; reflexivity]|simpl].

(** Both versions in one message: all is processed before the status moves. *)
Definition ex_whole : Pipeline :=
  let m := ex_message [5; 6]%Z 100 in
  {| fetcher := Closed; channel := []; tasks := [Exited; Exited]; results := [];
     tracker := ex_tracker; crashed := false;
     fetched := [ex_batch [m]]; processed := [m]; received := [batch 5 6] |}.

Lemma ex_whole_fetched chunk : 2 < chunk ->
  fetcher_step EmptyString "default_processor" (fun _ => 100%Z) example_net (Some 6%Z) no_filter chunk example_fetcher
    = Some (Ret (ReachedEnd (Some (ex_batch [ex_message [5; 6]%Z 100])))).
Proof.
  intros Hc. unfold fetcher_step, receive_response, batch_messages. simpl.
  rewrite decide_True by (simpl; lia). reflexivity.
Qed.
Lemma ex_whole_run chunk : 2 < chunk ->
  rtc (step (db := unit) EmptyString "default_processor" (fun _ => 100%Z) example_net (Some 6%Z) no_filter chunk 1)
    (start_pipeline 5 example_fetcher 2 0 (ex_table : pg_state)) ex_whole.
Proof.
  intros Hc. unfold start_pipeline. simpl.
  eapply rtc_l; [eapply step_fetch_end; [reflexivity|reflexivity|by apply ex_whole_fetched]|simpl]. run_send. run_receive (@nil Task).
  run_process (@nil Task) [Idle]. run_report (@nil Task) [Idle].
  eapply rtc_l; [eapply step_track with (now := 2000000000%Z) (after := 2000000000%Z); reflexivity|simpl].
  eapply rtc_l; [eapply step_drained; reflexivity|simpl].
  eapply rtc_l; [eapply step_exit with (ts1 := []); reflexivity|simpl].
  eapply rtc_l; [eapply step_exit with (ts1 := [Exited]); reflexivity|simpl].
  apply rtc_refl.
Qed.

Lemma ex_whole_reachable chunk : 2 < chunk -> ex_reachable chunk ex_whole.
Proof. intros Hc. exists example_fetcher, 2, 0%Z. split; [reflexivity|by apply ex_whole_run]. Qed.

Lemma example_net_ordered : network_ordered example_net.
Proof.
  intros k i req resp Hr. simpl in Hr. simplify_eq/=. intros j r Hj. unfold stream_of in Hj.
  destruct j as [|j]; simpl in Hj; simplify_eq/=. intros; simplify_eq/=. lia.
Qed.

Lemma status_never_ahead_witness :
  ex_table !! "default_processor" = Some (ex_row 6) \/
  forall m, m ∈ handed ex_whole -> (pb_start_version m <= 6)%Z -> m ∈ processed ex_whole.
Proof.
  apply (status_never_ahead (PgTable0 := status_mem) (db := unit) EmptyString "default_processor" (fun _ => 100%Z) example_net
           5 (Some 6%Z) no_filter 10 1 example_net_u64 example_net_ordered ex_table ex_whole (ex_row 6)).
  - split; reflexivity || lia.
  - apply ex_whole_reachable. lia.
  - repeat constructor.
  - reflexivity.
Defined.

(** Stopped before the status was written: a new run starts at version 5. *)
Definition ex_stopped : Pipeline :=
  let m := ex_message [5; 6]%Z 100 in
  {| fetcher := Sending [] None; channel := []; tasks := [Busy m; Idle]; results := [];
     tracker := start_tracker 5 0 ex_table; crashed := false;
     fetched := [ex_batch [m]]; processed := []; received := [] |}.

Lemma ex_stopped_reachable : ex_reachable 10 ex_stopped.
Proof.
  exists example_fetcher, 2, 0%Z. split; [reflexivity|]. unfold start_pipeline. simpl.
  run_fetch. run_send. run_receive (@nil Task). apply rtc_refl.
Qed.

Lemma restart_loses_nothing_witness :
  final_starting_version ex_worker (Ok tt) (Ok tt) (status_rows ex_stopped) = Ret 5%Z /\
  (5 <= pb_start_version (ex_message [5; 6] 100))%Z.
Proof.
  split; [reflexivity|].
  apply (restart_loses_nothing (PgTable0 := status_mem) (db := unit) EmptyString "default_processor" (fun _ => 100%Z) example_net
           5 (Some 6%Z) no_filter 10 1 example_net_u64 example_net_ordered ex_table ex_stopped
           ex_worker 5 (ex_message [5; 6]%Z 100)).
  - split; reflexivity || lia.
  - exact ex_stopped_reachable.
  - repeat constructor.
  - reflexivity.
  - reflexivity.
  - reflexivity.
  - reflexivity.
  - left.
  - intros Hin. inversion Hin.
Defined.

(** The same response with a chunk size of one: the second message is
    processed and reported while the first is still being processed. *)
Definition ex_ahead : Pipeline :=
  let m1 := ex_message [5]%Z 50 in
  let m2 := ex_message [6]%Z 50 in
  {| fetcher := Sending [] None; channel := []; tasks := [Busy m1; Idle]; results := [];
     tracker := ex_tracker; crashed := false;
     fetched := [ex_batch [m1; m2]]; processed := [m2]; received := [batch 5 6] |}.

Lemma ex_ahead_reachable : ex_reachable 1 ex_ahead.
Proof.
  exists example_fetcher, 2, 0%Z. split; [reflexivity|]. unfold start_pipeline. simpl.
  run_fetch. run_send. run_send. run_receive (@nil Task). run_receive [Busy (ex_message [5]%Z 50)].
  run_process [Busy (ex_message [5]%Z 50)] (@nil Task).
  run_report [Busy (ex_message [5]%Z 50)] (@nil Task).
  eapply rtc_l; [eapply step_track with (now := 2000000000%Z) (after := 2000000000%Z); reflexivity|simpl].
  apply rtc_refl.
Qed.

(** C37: split responses break the meaning of the status row.  All chunks of a
    response carry the versions of the whole response, so once one of them is
    processed the recorded version covers chunks that are not; a worker
    restarted from that status skips their transactions. *)
Theorem split_batches_run_ahead :
  exists (p : Pipeline) (m : TransactionsPBResponse), ex_reachable 1 p /\
    last_success_version <$> (status_rows p !! "default_processor") = Some 6%Z /\
    m ∈ handed p /\ (m ∉ processed p) /\ (t_version <$> pb_transactions m) = [5]%Z /\
    final_starting_version ex_worker (Ok tt) (Ok tt) (status_rows p) = Ret 7%Z.
Proof.
  exists ex_ahead, (ex_message [5]%Z 50). split; [exact ex_ahead_reachable|].
  split_and!; try reflexivity; [left|]. intros Hin%list_elem_of_singleton. discriminate Hin.
Qed.
End ConcreteRuns.
