(* ===== verification/PipelineStops.v ===== *)
(** * A run with an ending version stops

    Every interleaving of the fetcher, the tasks and the status tracker comes
    to an end when the run has an ending version: the steps of a component are
    bounded by a measure, and only a crash or a completed run has no further
    step.  In a completed run the fetcher is past the ending version and
    every message has been processed exactly once. *)
From Stdlib Require Import Relations.Relation_Operators Wellfounded.Lexicographic_Product.
From S2P Require Import Prelude RustStr Json Externals Proto Util Database Processors.
From S2P Require Import GapDetector TransactionFilter MovingAverage Fetcher Worker Pipeline.

Section Stops.
Context `{Chrono, GrpcCrates, ProtoEnums}.
Context `{!PgTable ProcessorStatus string, !DebugQuery ProcessorStatus string}.
Context {db : Type} `{ProcessorTrait db}.
Variables (auth_token processor_name : string).
Variable encoded_len : TransactionsResponse -> Z.
Variable net : nat -> Network.
Variables (starting_version ending_version : Z).
Variable transaction_filter : TransactionFilter.
Variable pb_channel_txn_chunk_size : nat.
Variable chain_id : Z.
Context `{!GrpcCratesLaws, !ProcessorLaws db, !PgLaws ProcessorStatus string}.
Hypothesis Hnet : network_u64 net.
Hypothesis Hord : network_ordered net.
Hypothesis Hstarting : in_u64 starting_version.

Abbreviation fetch := (fetcher_step auth_token processor_name encoded_len net
  (Some ending_version) transaction_filter pb_channel_txn_chunk_size).
Abbreviation moves := (step (db := db) auth_token processor_name encoded_len net
  (Some ending_version) transaction_filter pb_channel_txn_chunk_size chain_id).
Abbreviation flow := (flow starting_version transaction_filter pb_channel_txn_chunk_size).
Abbreviation reachable := (reachable (db := db) auth_token processor_name encoded_len net
  starting_version (Some ending_version) transaction_filter pb_channel_txn_chunk_size chain_id).

(** ** The fetcher *)

(** An iteration that does not end the loop uses up iterations. *)
Lemma fetch_continues f f' b :
  fetcher_ok f -> stream_ordered (resp_stream f) -> (0 <= reconnection_retries f <= 5)%Z ->
  fetch f = Some (Ret (Continue f' b)) ->
  (0 <= reconnection_retries f' <= 5)%Z /\
  (iterations_left ending_version f' < iterations_left ending_version f)%Z.
Proof.
  intros Hf Hso Hr Hstep. pose proof (fetcher_step_ok _ _ _ _ _ _ _ f _ Hnet Hf Hstep) as Hok.
  unfold iterations_left. destruct b as [b|].
  - destruct Hok as (_ & Hbo & Hst & Hn & -> & Hitem). split; [lia|].
    destruct (batch_ordered _ _ _ _ b Hso Hitem Hbo) as [Hab Hmax].
    unfold fetcher_step in Hstep. rewrite Hitem in Hstep.
    destruct (receive_response _ _ _ f (fb_response b)) as [[f2 b2]|]; simpl in Hstep; [|done].
    case_bool_decide as Hend; [done|]. simplify_eq.
    rewrite Hn, (as_u64_id (fb_end b + 1)) in * by (unfold in_u64; lia). lia.
  - destruct Hok as (_ & -> & -> & Hlt). unfold RECONNECTION_MAX_RETRIES in Hlt. lia.
Qed.

(** The loop ends behind the ending version. *)
Lemma fetch_ends f b :
  fetcher_ok f -> fetch f = Some (Ret (ReachedEnd b)) ->
  (ending_version < from_option (fun b => as_u64 (fb_end b + 1)) (next_version_to_fetch f) b)%Z.
Proof.
  intros Hf Hstep. unfold fetcher_step in Hstep.
  match type of Hstep with match ?m with _ => _ end = _ => destruct m as [[f' b']|] eqn:Hread end; [|done].
  simpl in Hstep. case_bool_decide as Hend; simplify_eq/=.
  2:{ destruct b'; [by simplify_eq|]. apply bind_Some in Hstep as (nx & _ & Hstep). injection Hstep as Hstep.
      by outcome_inv. }
  destruct (resp_stream f (stream_pos f)) as [r| | |] eqn:Hitem; outcome_inv; [|done..].
  rename select (_ = Ret (f', _)) into Hrec.
  eapply receive_response_ok in Hrec as (_ & _ & _ & Hn & _); [|done..]. by rewrite <- Hn.
Qed.

Lemma fetched_end_snoc s bs b :
  fetched_end s (bs ++ option_list b) = from_option (fun b => as_u64 (fb_end b + 1)) (fetched_end s bs) b.
Proof. destruct b as [b|]; simpl; [|by rewrite app_nil_r]. unfold fetched_end. by rewrite last_snoc. Qed.

(** ** The measure *)

(** What is left to do for a message shrinks as it moves from the fetcher to
    the status tracker; a fetcher that has reads left may bring new messages. *)
Definition fetcher_left (ph : FetcherPhase) : nat :=
  match ph with
  | Fetching f => 2 * Z.to_nat (iterations_left ending_version f) + 1
  | Sending _ (Some f) => 2 * Z.to_nat (iterations_left ending_version f) + 2
  | Sending _ None => 1
  | Closed => 0
  end.
Definition task_left (t : Task) : nat :=
  match t with Idle => 1 | Busy _ => 4 | Reporting _ => 3 | Exited => 0 end.
Definition messages_left (p : Pipeline) : nat :=
  5 * length (pending (fetcher p)) + 4 * length (channel p) + sum_list_with task_left (tasks p) +
  length (results p) + (if crashed p then 0 else 1).
Definition left_over (p : Pipeline) : nat * nat := (fetcher_left (fetcher p), messages_left p).
Definition less_left : relation (nat * nat) := slexprod nat nat lt lt.

Lemma less_left_wf : well_founded less_left.
Proof. apply wf_slexprod; apply lt_wf. Qed.

(** What a run keeps besides [flow]: the reconnections in a row are counted,
    tasks are never lost and exit only when the channel is closed, and the fetcher
    stops only behind the ending version. *)
Record running (p : Pipeline) : Prop := {
  run_flow : flow p;
  run_retries : forall f, phase_state (fetcher p) = Some f -> (0 <= reconnection_retries f <= 5)%Z;
  run_tasks : tasks p <> [];
  run_exited : fetcher p <> Closed -> Exited ∉ tasks p;
  run_closed : fetcher p = Closed -> channel p = [];
  run_end : phase_state (fetcher p) = None -> (ending_version < fetched_end starting_version (fetched p))%Z;
}.

Lemma running_start s0 f n now :
  start_fetcher auth_token processor_name net starting_version (Some ending_version) = Some (Ret f) -> n <> 0 ->
  running (start_pipeline starting_version f n now s0).
Proof.
  intros Hf Hn. split; simpl; try done.
  - by eapply flow_start.
  - intros ? [= <-]. apply start_fetcher_ok in Hf as (_ & _ & -> & _); [lia|done..].
  - by destruct n.
  - intros _ Hin. by apply elem_of_replicate in Hin as [? _].
Qed.

Lemma running_step p p' : running p -> moves p p' -> running p'.
Proof.
  intros Hp Hstep. pose proof (flow_step _ _ _ _ _ _ _ _ _ Hnet Hord p p' (run_flow p Hp) Hstep) as Hfl.
  destruct Hp as [Hflow Hret Htasks Hexited Hclosed Hend]. split; [exact Hfl|..]; clear Hfl.
  all: destruct Hstep as [f f' b Hc Hf Hs|f b Hc Hf Hs|m ms next Hc Hf Hl|f Hc Hf|Hc Hf Hch
    |ts1 ts2 m ch Hc Ht Hch|ts1 ts2 Hc Ht Hch Hf|ts1 ts2 m d d' r Hc Ht Hr|ts1 ts2 r Hc Ht Hl
    |r rs now after t Hc Hrs Ht|Hc Hpanic]; simpl; try done.
  - intros ? [= <-]. destruct (flow_next _ _ _ p Hflow f) as (Hok & Hso & _); [by rewrite Hf|].
    apply (fetch_continues f f' b); try done. apply Hret. by rewrite Hf.
  - intros f ->. apply Hret. by rewrite Hf.
  - intros ? [= <-]. apply Hret. by rewrite Hf.
  - by destruct ts1.
  - by destruct ts1.
  - by destruct ts1.
  - by destruct ts1.
  - intros _. apply Hexited. by rewrite Hf.
  - intros _. apply Hexited. by rewrite Hf.
  - intros _. apply Hexited. by rewrite Hf.
  - intros _. apply Hexited. by rewrite Hf.
  - intros Hcl. specialize (Hexited Hcl). rewrite Ht in Hexited. set_solver.
  - intros Hcl. specialize (Hexited Hcl). rewrite Ht in Hexited. set_solver.
  - intros Hcl. specialize (Hexited Hcl). rewrite Ht in Hexited. set_solver.
  - intros Hcl. specialize (Hclosed Hcl). congruence.
  - intros _. destruct (flow_next _ _ _ p Hflow f) as (Hok & _ & Hn); [by rewrite Hf|].
    rewrite fetched_end_snoc, <- Hn. by apply fetch_ends.
  - intros ->. apply Hend. by rewrite Hf.
  - intros _. apply Hend. by rewrite Hf.
Qed.

(** Every step leaves less to do. *)
Lemma step_less p p' : running p -> moves p p' -> less_left (left_over p') (left_over p).
Proof.
  intros Hp Hstep. destruct Hstep as [f f' b Hc Hf Hs|f b Hc Hf Hs|m ms next Hc Hf Hl|f Hc Hf|Hc Hf Hch
    |ts1 ts2 m ch Hc Ht Hch|ts1 ts2 Hc Ht Hch Hf|ts1 ts2 m d d' r Hc Ht Hr|ts1 ts2 r Hc Ht Hl
    |r rs now after t Hc Hrs Ht|Hc Hpanic]; unfold left_over.
  1: destruct (flow_next _ _ _ p (run_flow p Hp) f) as (Hok & Hso & _); [by rewrite Hf|];
     destruct (fetch_continues f f' b) as [Hr Hlt]; try done; [apply (run_retries p Hp); by rewrite Hf|].
  1,2,4,5: left; rewrite Hf; simpl; try lia.
  - unfold iterations_left in *. lia.
  - assert (0 <= reconnection_retries f <= 5)%Z by (apply (run_retries p Hp); by rewrite Hf).
    unfold iterations_left. lia.
  - rewrite Hf. simpl. replace (fetcher_left (Sending ms next)) with (fetcher_left (Sending (m :: ms) next)) by done.
    right. unfold messages_left. rewrite Hf, Hc. simpl. rewrite length_app. simpl. lia.
  - right. unfold messages_left. rewrite Ht, Hch, Hc. simpl. rewrite !sum_list_with_app. simpl. lia.
  - right. unfold messages_left. rewrite Ht, Hch, Hc. simpl. rewrite !sum_list_with_app. simpl. lia.
  - right. unfold messages_left. rewrite Ht, Hc. simpl. rewrite !sum_list_with_app. simpl. lia.
  - right. unfold messages_left. rewrite Ht, Hc. simpl. rewrite !sum_list_with_app, length_app. simpl. lia.
  - right. unfold messages_left. rewrite Hrs, Hc. simpl. lia.
  - right. unfold messages_left. rewrite Hc. simpl. lia.
Qed.

Lemma running_sn p : running p -> sn moves p.
Proof.
  intros Hp. remember (left_over p) as k eqn:Hk. revert p Hk Hp.
  induction k as [k IH] using (well_founded_induction less_left_wf). intros p -> Hp.
  constructor. intros p' Hstep. eapply IH; [|reflexivity|].
  - by apply step_less.
  - by eapply running_step.
Qed.
Lemma reachable_running s0 p : reachable s0 p -> tasks p <> [] -> running p.
Proof.
  intros (f & n & now & Hf & Hr) Ht.
  assert (n <> 0) as Hn.
  { intros ->. apply Ht. clear Ht Hf.
    assert (tasks (start_pipeline starting_version f 0 now s0) = []) as Hz by done.
    induction Hr as [|p1 p2 p3 Hstep _ IH]; [done|]. apply IH. clear IH.
    destruct Hstep; simpl in *; try done; rewrite Hz in *; by destruct ts1. }
  pose proof (running_start s0 f n now Hf Hn) as Hp. clear Ht.
  induction Hr as [|p1 p2 p3 Hstep _ IH]; [done|]. apply IH. by eapply running_step.
Qed.

(** ** Progress *)

(** Processing a batch ends, with a result, an error or a panic. *)
Hypothesis Hprocessing : forall txns s e chain d,
  exists (d' : db) (res : outcome (result ProcessingResult)), process_transactions txns s e chain d d' res.
Context `{!Inhabited db}.

Lemma run_task_ends m : exists d d' out, run_task (db := db) chain_id m d d' out.
Proof.
  exists inhabitant. unfold run_task.
  destruct (iso_or_default (pb_start_txn_timestamp m)); [|eauto].
  destruct (iso_or_default (pb_end_txn_timestamp m)); [|eauto].
  case_decide; [eauto|]. unfold do_processor. destruct (pb_transactions m) as [|t txns]; [do 3 eexists; by eauto|].
  destruct (Hprocessing (t :: txns) (pb_start_version m) (pb_end_version m) (Some chain_id) inhabitant)
    as (d' & res & Hr). do 3 eexists; by eauto.
Qed.

(** What a run that is over looks like. *)
Definition over (p : Pipeline) : Prop :=
  fetcher p = Closed /\ Forall (eq Exited) (tasks p) /\ results p = [].

(** A task that is busy or reporting can go on. *)
Lemma task_progress p t :
  crashed p = false -> results p = [] -> t ∈ tasks p -> t <> Idle -> t <> Exited -> exists p', moves p p'.
Proof.
  intros Hc Hrs (ts1 & ts2 & Ht)%list_elem_of_split Hni Hne. destruct t as [|m|r|]; try done.
  - destruct (run_task_ends m) as (d & d' & [r|] & Hr).
    + eexists. by eapply step_process.
    + eexists. apply step_panic; [done|]. right; left. by exists ts1, ts2, m, d, d'.
  - eexists. eapply step_report; [done..|]. rewrite Hrs. simpl. unfold BUFFER_SIZE. lia.
Qed.
(** So can the fetcher while it is reading, and behind an empty channel. *)
Lemma fetcher_progress p :
  crashed p = false -> fetcher p <> Closed ->
  channel p = [] \/ (exists f, fetcher p = Fetching f) \/ (exists f, fetcher p = Sending [] (Some f)) -> exists p', moves p p'.
Proof.
  intros Hc Hcl Hcase. destruct (fetcher p) as [f|[|m ms] [f|]|] eqn:Hf; [| | | | |done].
  - destruct (fetcher_step_total auth_token processor_name encoded_len net (Some ending_version)
      transaction_filter pb_channel_txn_chunk_size f) as [[[f' b|b]|] Hs].
    + eexists. by eapply step_fetch.
    + eexists. by eapply step_fetch_end.
    + eexists. apply step_panic; [done|]. left. by exists f.
  - eexists. by eapply step_sent.
  - eexists. eapply step_drained; try done. naive_solver.
  - eexists. eapply step_send; [done..|]. destruct Hcase as [-> |?]; [|naive_solver]. simpl. unfold BUFFER_SIZE. lia.
  - eexists. eapply step_send; [done..|]. destruct Hcase as [-> |?]; [|naive_solver]. simpl. unfold BUFFER_SIZE. lia.
Qed.

Lemma tasks_cases (ts : list Task) :
  Forall (eq Exited) ts \/ Idle ∈ ts \/ exists t, t ∈ ts /\ t <> Idle /\ t <> Exited.
Proof.
  induction ts as [|[|m|r|] ts IH]; [by left|right; left; by left| | |].
  - right; right. exists (Busy m). split; [by left|done].
  - right; right. exists (Reporting r). split; [by left|done].
  - destruct IH as [?|[?|(t & ? & ?)]]; [left; by constructor|right; left; by right|].
    right; right. exists t. split; [by right|done].
Qed.

Lemma running_progress p : running p -> crashed p = false -> over p \/ exists p', moves p p'.
Proof.
  intros Hp Hc. destruct (results p) as [|r rs] eqn:Hrs.
  2:{ right. destruct (tracker_step_total processor_name 0 0 (tracker p) r) as [[t|] Ht].
      - eexists. by eapply step_track.
      - eexists. apply step_panic; [done|]. right; right. by exists r, rs, 0%Z, 0%Z. }
  destruct (tasks_cases (tasks p)) as [Hex|[(ts1 & ts2 & Ht)%list_elem_of_split|(t & Ht & Hni & Hne)]].
  - left. split_and!; [|done..]. destruct (tasks p) as [|t ts] eqn:Ht; [by destruct (run_tasks p Hp)|].
    apply Forall_cons in Hex as [<- _]. destruct (fetcher p) eqn:Hf; [| |done].
    all: exfalso; apply (run_exited p Hp); [by rewrite Hf|rewrite Ht; by left].
  - right. destruct (channel p) as [|m ch] eqn:Hch; [|eexists; by eapply step_receive].
    destruct (fetcher p) eqn:Hf; [| |by eexists; eapply step_exit].
    all: apply fetcher_progress; [done|by rewrite Hf|by left].
  - right. by apply (task_progress p t).
Qed.

(** ** Liveness *)

Lemma over_complete s0 p :
  reachable s0 p -> over p ->
  handed p ≡ₚ processed p /\
  (unsplit p -> next_version_to_process (gap_detector (tracker p)) = fetched_end starting_version (fetched p)).
Proof. intros Hr (Hf & Ht & Hres). exact (stopped_complete _ _ _ _ _ _ _ _ _ Hnet Hord s0 p Hstarting Hr Hf Ht Hres). Qed.

(** C13: a run with an ending version stops.  With at least one task, ordered
    responses and a processor whose batches end (with success or not), every
    interleaving of the components from every reachable state is finite; and
    where no step is left, the process has crashed or the run is complete: the
    fetched batches reach behind the ending version, the fetcher has closed the
    channel, all tasks have exited, every message handed over has been processed
    exactly once and its result received, and, when no response was split, the
    gap detector has advanced past the last fetched version.  The tracker takes
    part in the steps: that the process does not wait for it is outside the
    statement. *)
Theorem bounded_run_stops (s0 : pg_state) (p : Pipeline) :
  reachable s0 p -> tasks p <> [] ->
  sn moves p /\
  forall q, rtc moves p q -> nf moves q ->
    crashed q = true \/
    (over q /\ (ending_version < fetched_end starting_version (fetched q))%Z /\ handed q ≡ₚ processed q /\
     (unsplit q -> next_version_to_process (gap_detector (tracker q)) = fetched_end starting_version (fetched q))).
Proof.
  intros Hr Ht. pose proof (reachable_running s0 p Hr Ht) as Hp. split; [by apply running_sn|].
  intros q Hpq Hnf. assert (running q) as Hq.
  { clear Hnf Hr Ht. induction Hpq as [|p1 p2 p3 Hstep _ IH]; [done|]. by eapply IH, running_step. }
  assert (reachable s0 q) as Hrq.
  { destruct Hr as (f & n & now & Hf & Hr). exists f, n, now. split; [done|]. by etrans. }
  destruct (crashed q) eqn:Hc; [by left|]. right.
  destruct (running_progress q Hq Hc) as [Hover|[q' Hq']]; [|destruct Hnf; by exists q'].
  split; [done|]. split; [|by apply (over_complete s0 q)].
  apply (run_end q Hq). destruct Hover as [-> _]. done.
Qed.
End Stops.

(** ** A concrete run *)

Section ConcreteStop.
#[local] Existing Instance pair_chrono.
#[local] Existing Instance slice_crates.
#[local] Existing Instance slice_crates_laws.
#[local] Existing Instance published_enums.
#[local] Existing Instance status_mem.
#[local] Existing Instance status_mem_laws.
#[local] Existing Instance status_debug.
#[local] Existing Instance ok_processor.
#[local] Existing Instance ok_processor_laws.

Abbreviation ex_step := (step (db := unit) EmptyString "default_processor" (fun _ => 100%Z) example_net
  (Some 6%Z) no_filter 10 1).
Lemma ex_whole_nf : nf ex_step ex_whole.
Proof.
  assert (forall t ts1 ts2, [Exited; Exited] = ts1 ++ t :: ts2 -> t = Exited) as Hts.
  { intros t [|? [|? ts1]] ts2 Ht; simplify_eq/=; try done. by destruct ts1. }
  intros [q Hq]. inversion Hq as [| | | | | | | | | |Hc Hpanic]; simplify_eq/=;
    try match goal with E : [Exited; Exited] = _ |- _ => by apply Hts in E end.
  destruct Hpanic as [(f & ? & _)|[(ts1 & ts2 & m & d & d' & Ht & _)|(r & rs & now & after & ? & _)]]; try done.
  by apply Hts in Ht.
Qed.

(** The run of one response with two tasks: every interleaving is finite, and
    the one of [ex_whole] is complete. *)
Lemma bounded_run_stops_witness :
  let p := start_pipeline 5 example_fetcher 2 0 (ex_table : pg_state) in
  sn ex_step p /\
  (crashed ex_whole = true \/
   (over ex_whole /\ (6 < fetched_end 5 (fetched ex_whole))%Z /\ handed ex_whole ≡ₚ processed ex_whole /\
    (unsplit ex_whole -> next_version_to_process (gap_detector (tracker ex_whole)) = fetched_end 5 (fetched ex_whole)))).
Proof.
  intros p. assert (in_u64 5) as H5 by (split; reflexivity || lia).
  assert (forall txns s e chain d, exists (d' : unit) res,
    process_transactions txns s e chain d d' res) as Hprocessing
    by (intros txns s e chain d; exists tt, (Ret (Ok (batch s e))); reflexivity).
  destruct (bounded_run_stops (PgTable0 := status_mem) (db := unit) EmptyString "default_processor" (fun _ => 100%Z)
           example_net 5 6 no_filter 10 1 example_net_u64 example_net_ordered H5 Hprocessing ex_table p)
    as [Hsn Hnf].
  - exists example_fetcher, 2, 0%Z. split; [reflexivity|apply rtc_refl].
  - discriminate.
  - split; [exact Hsn|]. apply Hnf; [apply ex_whole_run; lia|exact ex_whole_nf].
Defined.
End ConcreteStop.
