(* ===== verification/Startup.v ===== *)
(** * From the configuration to the running indexer

    [config.rs], the start of [Worker::run] in [worker.rs], the connection pool
    of [utils/database.rs] and [rust/server-framework/src/lib.rs].  Reading
    files, YAML, the url crate, TLS and the migrations are parameters. *)
From S2P Require Import Prelude RustStr Json Externals Proto Util Database Processors.
From S2P Require Import GapDetector TransactionFilter MovingAverage Fetcher Worker Pipeline.

(** ** The configuration: [config.rs] *)

Definition QUERY_DEFAULT_RETRIES : Z := 5.
Definition QUERY_DEFAULT_RETRY_DELAY_MS : Z := 500.

Record IndexerGrpcHttp2Config := {
  indexer_grpc_http2_ping_interval_in_secs : Z;
  indexer_grpc_http2_ping_timeout_in_secs : Z;
  indexer_grpc_connection_timeout_secs : Z;
}.
(** [Default] *)
Definition default_http2_config : IndexerGrpcHttp2Config :=
  {| indexer_grpc_http2_ping_interval_in_secs := 30; indexer_grpc_http2_ping_timeout_in_secs := 10;
     indexer_grpc_connection_timeout_secs := 5 |}.

Record IndexerGrpcProcessorConfig := {
  cfg_processor_config : ProcessorConfig;
  cfg_postgres_connection_string : string;
  cfg_indexer_grpc_data_service_address : string;
  cfg_grpc_http2_config : IndexerGrpcHttp2Config;
  cfg_auth_token : string;
  cfg_starting_version : option Z;
  cfg_ending_version : option Z;
  cfg_number_concurrent_processing_tasks : option nat;
  cfg_db_pool_size : option Z;
  cfg_gap_detection_batch_size : Z;
  cfg_pb_channel_txn_chunk_size : nat;
  cfg_per_table_chunk_sizes : gmap string nat;
  cfg_enable_verbose_logging : option bool;
  cfg_grpc_response_item_timeout_in_secs : Z;
  cfg_transaction_filter : TransactionFilter;
}.
Definition default_gap_detection_batch_size : Z := DEFAULT_GAP_DETECTION_BATCH_SIZE.
Definition default_query_retries : Z := QUERY_DEFAULT_RETRIES.
Definition default_query_retry_delay_ms : Z := QUERY_DEFAULT_RETRY_DELAY_MS.
Definition default_pb_channel_txn_chunk_size : nat := Z.to_nat 100000.
Definition default_grpc_response_item_timeout_in_secs : Z := 60.

(** [get_server_name]: the part before the first underscore, at most twelve
    bytes of it. *)
Definition get_server_name (c : IndexerGrpcProcessorConfig) : outcome string :=
  let before_underscore := default "unknown" (head (split "_" (config_name (cfg_processor_config c)))) in
  truncate (String.length before_underscore `min` 12) before_underscore.

(** ** The connection pool: [utils/database.rs] *)

Definition DEFAULT_MAX_POOL_SIZE : Z := 150.
(** The url crate: the pairs are decoded. *)
Class UrlCrate := {
  Url : Type;
  url_parse : string -> option Url;
  query_pairs : Url -> list (string * string);
  set_query : option string -> Url -> Url;
  url_to_string : Url -> string;
}.
Section Pool.
Context `{UrlCrate}.

Definition url_pair_step (acc : option string * string) (kv : string * string) : option string * string :=
  let '(cert_path, query) := acc in
  let '(k, v) := kv in
  if decide (k = "sslrootcert") then (Some v, query) else (cert_path, query +:+ k +:+ "=" +:+ v +:+ "&").
Definition parse_and_clean_db_url (url : string) : outcome (string * option string) :=
  db_url ← unwrap (url_parse url);
  let '(cert_path, query) := foldl url_pair_step (None, EmptyString) (query_pairs db_url) in
  Ret (url_to_string (set_query (Some query) db_url), cert_path).

(** How the pool opens connections: with the settings of diesel, or over TLS
    with [establish_connection]. *)
Record PoolSettings := { pool_url : string; pool_custom_setup : bool; pool_max_size : Z }.
Definition new_db_pool (database_url : string) (max_pool_size : option Z) (build : PoolSettings -> result unit)
  : outcome (result PoolSettings) :=
  '(_, cert_path) ← parse_and_clean_db_url database_url;
  let settings := {| pool_url := database_url; pool_custom_setup := bool_decide (is_Some cert_path);
                     pool_max_size := default DEFAULT_MAX_POOL_SIZE max_pool_size |} in
  Ret (_ ← build settings; Ok settings).
(** [establish_connection]: the certificate is read, parsed and trusted; every
    failure but the last panics.  The result is the url of the connection. *)
Definition establish_connection (read_file : string -> option string) (connector : string -> option unit)
    (connect try_from : string -> result unit) (database_url : string) : outcome (result string) :=
  '(url, cert_path) ← parse_and_clean_db_url database_url;
  path ← unwrap cert_path;
  cert ← unwrap (read_file path);
  _ ← unwrap (connector cert);
  _ ← unwrap_result (connect url);
  Ret (_ ← try_from url; Ok url).
End Pool.

(** ** The start of a run: [Worker::run] *)

(** [IndexerGrpcProcessorConfig::run] up to [worker.run()]. *)
Definition config_worker (c : IndexerGrpcProcessorConfig) (conn_pool : result unit) : result Worker :=
  new_worker (cfg_processor_config c) (cfg_starting_version c) (cfg_ending_version c)
    (cfg_number_concurrent_processing_tasks c) (cfg_gap_detection_batch_size c)
    (cfg_pb_channel_txn_chunk_size c) (cfg_per_table_chunk_sizes c) (cfg_transaction_filter c) conn_pool.

Definition with_chain_id (w : Worker) (chain_id : Z) : Worker :=
  {| processor_config := processor_config w; worker_starting_version := worker_starting_version w;
     worker_ending_version := worker_ending_version w;
     number_concurrent_processing_tasks := number_concurrent_processing_tasks w;
     gap_detection_batch_size := gap_detection_batch_size w; grpc_chain_id := Some chain_id;
     pb_channel_txn_chunk_size := pb_channel_txn_chunk_size w;
     per_table_chunk_sizes := per_table_chunk_sizes w; worker_filter := worker_filter w |}.

Section Start.
Context `{Chrono, GrpcCrates, ProtoEnums}.
Context `{!PgTable ProcessorStatus string, !DebugQuery ProcessorStatus string}.
Context `{!PgTable LedgerInfo Z, !DebugQuery LedgerInfo Z}.

(** What the database and the network answer before the stream starts. *)
Record StartAnswers := {
  sa_migrations : outcome unit;
  sa_status_conn : result unit;
  sa_status_query : result unit;
  sa_chain_net : Network;
  sa_ledger_conn : result unit;
  sa_ledger_query : result unit;
  sa_ledger_row : option LedgerInfo;
}.
(** From the migrations to the spawning of the tasks: the worker with its
    chain id and the starting version, and the table of chain ids. *)
Definition run_start (w : Worker) (auth_token : string) (a : StartAnswers) (statuses : gmap string ProcessorStatus)
    (ledger : pg_state (row := LedgerInfo)) : option (pg_state (row := LedgerInfo) * outcome (Worker * Z)) :=
  match (_ ← sa_migrations a; final_starting_version w (sa_status_conn a) (sa_status_query a) statuses) with
  | Panic => Some (ledger, Panic)
  | Ret starting_version =>
      chain ← get_chain_id auth_token (config_name (processor_config w)) (sa_chain_net a);
      Some (match chain with
            | Panic => (ledger, Panic)
            | Ret chain_id =>
                let '(ledger', r) := check_or_update_chain_id (as_i64 chain_id) (sa_ledger_conn a)
                                       (sa_ledger_query a) (sa_ledger_row a) ledger in
                (ledger', _ ← unwrap_result r; Ret (with_chain_id w chain_id, starting_version))
            end)
  end.

(** [launch_processor_task] needs the chain id; each task has its processor. *)
Definition launch_processor_task (w : Worker) : outcome (Task * Processor * Z) :=
  chain_id ← unwrap (grpc_chain_id w);
  Ret (Idle, build_processor (processor_config w) (per_table_chunk_sizes w), chain_id).
(** The rest of [run]: the fetcher connects, the status tracker starts at the
    starting version, and the tasks are launched. *)
Definition run_pipeline (w : Worker) (auth_token : string) (net : nat -> Network) (starting_version now : Z)
    (statuses : pg_state (row := ProcessorStatus)) : option (outcome Pipeline) :=
  f ← start_fetcher auth_token (config_name (processor_config w)) net starting_version (worker_ending_version w);
  Some (f ← f;
        tasks ← traverse (fun _ => launch_processor_task w) (seq 0 (number_concurrent_processing_tasks w));
        Ret (start_pipeline starting_version f (length tasks) now statuses)).
End Start.

(** ** The server: [rust/server-framework/src/lib.rs] *)

Section Server.
(** A configuration that can be run, and how it is read from YAML. *)
Class RunnableConfig (C : Type) := {
  config_run : C -> outcome (result unit) -> Prop;
  config_server_name : C -> outcome string;
}.
Record GenericConfig (C : Type) := { health_check_port : Z; server_config : C }.
Arguments health_check_port {C} _.
Arguments server_config {C} _.
#[export] Instance generic_runnable `{RunnableConfig C} : RunnableConfig (GenericConfig C) :=
  {| config_run := fun c => config_run (server_config c);
     config_server_name := fun c => config_server_name (server_config c) |}.

(** [load]: [read] is the content of a file that can be opened and read. *)
Definition load {A} (read : string -> option string) (from_yaml : string -> option A) (path : string) : result A :=
  contents ← context (read path);
  context (from_yaml contents).

(** How the process ends: with the result of [main], or, after a panic in any
    thread, with the exit code of the panic handler. *)
Inductive Exit := Returned (r : result unit) | ExitCode (code : Z).
Definition handle_panic : Exit := ExitCode 12.
(** [run_server_with_config]: the first of the two tasks to end decides.  The
    task of the probes only ends by a panic. *)
Inductive server_run `{RunnableConfig C} (config : GenericConfig C) : Exit -> Prop :=
| server_returns r : config_run config (Ret r) -> server_run config (Returned r)
| server_config_panics : config_run config Panic -> server_run config handle_panic
| server_probes_panic : server_run config handle_panic.
(** [ServerArgs::run]. *)
Definition server_args_run `{RunnableConfig C} (read : string -> option string)
    (from_yaml : string -> option (GenericConfig C)) (config_path : string) (e : Exit) : Prop :=
  match load read from_yaml config_path with
  | Err => e = Returned Err
  | Ok config => server_run config e
  end.
End Server.

(** ** Correctness *)

Section StartLaws.
Context `{Chrono, GrpcCrates, ProtoEnums}.
Context `{!PgTable ProcessorStatus string, !DebugQuery ProcessorStatus string}.
Context `{!PgTable LedgerInfo Z, !DebugQuery LedgerInfo Z, !PgLaws LedgerInfo Z}.

Lemma get_chain_id_total auth name net : is_Some (get_chain_id auth name net).
Proof. unfold get_chain_id. apply option_bind_total; [apply get_stream_total|by eexists]. Qed.

(** C32: a run starts on one chain only.  The start always comes to an end.
    When it succeeds, the table of chain ids holds exactly the chain of the
    stream, which is the one it held before if it held any, the tasks get this
    chain id, and the version to start from is the configured one, else the one
    after the recorded version, else zero.  When it does not, because of the
    database, the network or another chain, the process panics and the table is
    unchanged. *)
Theorem run_starts_on_one_chain (w : Worker) auth_token (a : StartAnswers) statuses ledger (c : Z) :
  ledger_of_chain (pg_rows ledger) c -> ledger_get (pg_rows ledger) (sa_ledger_row a) ->
  exists ledger' out, run_start w auth_token a statuses ledger = Some (ledger', out) /\
  match out with
  | Ret (w', starting_version) =>
      exists chain, grpc_chain_id w' = Some chain /\
        pg_rows ledger' = {[ as_i64 chain := {| li_chain_id := as_i64 chain |} ]} /\
        (pg_rows ledger = ∅ \/ as_i64 chain = c) /\
        launch_processor_task w' =
          Ret (Idle, build_processor (processor_config w) (per_table_chunk_sizes w), chain) /\
        starting_version = default (default 0%Z
          ((fun s => as_u64 (as_u64 (last_success_version s) + 1)) <$>
             statuses !! config_name (processor_config w))) (worker_starting_version w)
  | Panic => pg_rows ledger' = pg_rows ledger
  end.
Proof.
  intros Hc Hg. unfold run_start.
  destruct (_ ← sa_migrations a; _) as [sv|] eqn:Hsv; [|by exists ledger, Panic].
  destruct (get_chain_id_total auth_token (config_name (processor_config w)) (sa_chain_net a)) as [chain ->]. simpl.
  destruct chain as [chain|]; [|by exists ledger, Panic].
  destruct (check_or_update_chain_id _ _ _ _ _) as [ledger' r] eqn:Hch.
  destruct (chain_id_guard c _ _ _ _ _ _ _ Hc Hg Hch) as [Hr _].
  eexists ledger', _. split; [reflexivity|]. destruct r as [id|]; simpl; [|done].
  destruct Hr as (-> & Hrows & Hold). exists chain. split_and!; try done.
  apply bind_Ret in Hsv as (u & _ & Hsv). unfold final_starting_version, get_start_version, get_by_processor in Hsv.
  destruct (sa_status_conn a), (sa_status_query a); simpl in Hsv; try done.
  destruct (statuses !! config_name (processor_config w)); simpl in *; by injection Hsv as <-.
Qed.
End StartLaws.

(** *** Responses below the chunk size *)

Section Unsplit.
Context `{Chrono, GrpcCrates, ProtoEnums}.
Context `{!PgTable ProcessorStatus string, !DebugQuery ProcessorStatus string}.
Context {db : Type} `{ProcessorTrait db}.
Variables (auth_token processor_name : string).
Variable encoded_len : TransactionsResponse -> Z.
Variable net : nat -> Network.
Variable request_ending_version : option Z.
Variable transaction_filter : TransactionFilter.
Variable chunk_size : nat.
Variable chain_id : Z.

(** The responses have fewer transactions than a chunk. *)
Definition stream_small (st : nat -> StreamItem) : Prop :=
  forall i r, st i = ItemOk r -> length (tr_transactions r) < chunk_size.
Definition network_small : Prop :=
  forall k i request response, get_transactions (net k) i request = Some (Ok response) ->
    stream_small (into_inner response).
Hypothesis Hsmall : network_small.

Lemma receive_small f r f' b :
  length (tr_transactions r) < chunk_size ->
  receive_response encoded_len transaction_filter chunk_size f r = Ret (f', b) ->
  resp_stream f' = resp_stream f /\ length (fb_messages b) = 1.
Proof.
  intros Hr Hrec. unfold receive_response in Hrec. outcome_inv. case_decide; outcome_inv. split; [done|].
  rename select (batch_messages _ _ _ _ _ _ _ _ _ = _) into Hm. unfold batch_messages in Hm.
  rewrite decide_True in Hm; [by injection Hm as <-|].
  eapply Nat.le_lt_trans; [apply length_filter|done].
Qed.
Lemma fetcher_step_small f next :
  stream_small (resp_stream f) ->
  fetcher_step auth_token processor_name encoded_len net request_ending_version transaction_filter chunk_size f
    = Some (Ret next) ->
  match next with
  | Continue f' b => stream_small (resp_stream f') /\ Forall (fun b => length (fb_messages b) = 1) (option_list b)
  | ReachedEnd b => Forall (fun b => length (fb_messages b) = 1) (option_list b)
  end.
Proof.
  intros Hf Hstep. unfold fetcher_step in Hstep.
  match type of Hstep with match ?m with _ => _ end = _ => destruct m as [[f' b]|] eqn:Hread end; [|done].
  destruct (resp_stream f (stream_pos f)) as [r| | |] eqn:Hitem.
  { outcome_inv. rename select (receive_response _ _ _ _ _ = _) into Hrec.
    apply receive_small in Hrec as [Hst Hb]; [|by eapply Hf].
    destruct (is_end _ f'); injection Hstep as <-; simpl; rewrite ?Hst; repeat constructor; done. }
  all: outcome_inv; destruct (is_end _ (read_failed f)); [injection Hstep as <-; constructor|].
  all: apply bind_Some in Hstep as (nx & Hrec & Hstep); injection Hstep as Hstep; outcome_inv.
  all: split; [|constructor]; unfold reconnect in Hrec; case_decide; [done|].
  all: apply bind_Some in Hrec as (resp & Hg & Hrec); injection Hrec as Hrec; outcome_inv.
  all: apply get_stream_Ret in Hg as (i & req & Hg); simpl; by eapply Hsmall.
Qed.

Abbreviation pipeline_step :=
  (step auth_token processor_name encoded_len net request_ending_version transaction_filter chunk_size chain_id).
Definition small_pipeline (p : Pipeline) : Prop :=
  (forall f, phase_state (fetcher p) = Some f -> stream_small (resp_stream f)) /\ unsplit p.
Lemma small_step p p' : small_pipeline p -> pipeline_step p p' -> small_pipeline p'.
Proof.
  intros [Hf Hu] Hstep. unfold small_pipeline, unsplit in *.
  destruct Hstep as [f f' b Hc Hph Hst|f b Hc Hph Hst|? ? ? Hc Hph|? Hc Hph|? Hph| | | | | | ]; simpl; try done.
  - apply fetcher_step_small in Hst as [Hs Hb]; [|apply Hf; by rewrite Hph].
    split; [by intros ? [= <-]|]. by apply Forall_app_2.
  - apply fetcher_step_small in Hst; [|apply Hf; by rewrite Hph]. split; [done|]. by apply Forall_app_2.
  - split; [|done]. intros f. rewrite Hph in Hf. apply Hf.
  - split; [|done]. intros f'. rewrite Hph in Hf. apply Hf.
Qed.
Lemma small_steps p p' : small_pipeline p -> rtc pipeline_step p p' -> small_pipeline p'.
Proof. intros Hp Hr. induction Hr as [|p1 p2 p3 Hab _ IH]; [done|]. by eapply IH, small_step. Qed.
End Unsplit.

Section DefaultRun.
Context `{Chrono, GrpcCrates, ProtoEnums}.
Context `{!PgTable ProcessorStatus string, !DebugQuery ProcessorStatus string, !PgLaws ProcessorStatus string}.
Context {db : Type} `{ProcessorTrait db}.
Context `{!GrpcCratesLaws, !ProcessorLaws db}.
Variable encoded_len : TransactionsResponse -> Z.
Variable net : nat -> Network.

Lemma run_pipeline_start w auth_token sv now s p chain :
  grpc_chain_id w = Some chain -> run_pipeline w auth_token net sv now s = Some (Ret p) ->
  exists f, start_fetcher auth_token (config_name (processor_config w)) net sv (worker_ending_version w) = Some (Ret f) /\
    p = start_pipeline sv f (number_concurrent_processing_tasks w) now s.
Proof.
  intros Hchain Hr. unfold run_pipeline in Hr. apply bind_Some in Hr as (f & Hf & Hr). injection Hr as Hr.
  apply bind_Ret in Hr as (f' & -> & Hr). apply bind_Ret in Hr as (ts & Hts & Hr). injection Hr as <-.
  exists f'. split; [done|]. apply traverse_Ret, Forall2_length in Hts. rewrite length_seq in Hts. by rewrite <- Hts.
Qed.

(** C5: a run with the default configuration records only what is processed.
    When the chunk size is not configured and no response of the stream has as
    many as 100,000 transactions, then in every state that a run of the
    configured worker can reach, the version recorded for the processor is the
    one found at the start, or everything handed over that starts at or below it
    has been processed; no response is split; and there are as many tasks as
    configured, ten by default. *)
Theorem default_run_never_ahead (c : IndexerGrpcProcessorConfig) (w : Worker) (chain sv now : Z) s0 (p0 p : Pipeline)
    (row : ProcessorStatus) :
  config_worker c (Ok tt) = Ok w -> cfg_pb_channel_txn_chunk_size c = default_pb_channel_txn_chunk_size ->
  network_u64 net -> network_ordered net -> network_small net default_pb_channel_txn_chunk_size -> in_u64 sv ->
  run_pipeline (with_chain_id w chain) (cfg_auth_token c) net sv now s0 = Some (Ret p0) ->
  rtc (step (cfg_auth_token c) (config_name (cfg_processor_config c)) encoded_len net (cfg_ending_version c)
         (cfg_transaction_filter c) (cfg_pb_channel_txn_chunk_size c) chain) p0 p ->
  length (tasks p0) = default 10 (cfg_number_concurrent_processing_tasks c) /\ unsplit p /\
  (status_rows p !! config_name (cfg_processor_config c) = Some row ->
   pg_rows s0 !! config_name (cfg_processor_config c) = Some row \/
   forall m, m ∈ handed p -> (pb_start_version m <= last_success_version row)%Z -> m ∈ processed p).
Proof.
  intros Hw Hchunk Hu Ho Hsm Hsv Hrun Hr. injection Hw as <-. simpl in *. rewrite Hchunk in *.
  apply (run_pipeline_start _ _ _ _ _ _ chain) in Hrun as (f & Hf & ->); [|done]. simpl in *.
  pose proof Hf as (_ & _ & _ & i & req & resp & Hg & Hst)%start_fetcher_ok; [|done..].
  assert (small_pipeline default_pb_channel_txn_chunk_size p) as [_ Hun].
  { eapply small_steps; [exact Hsm| |exact Hr]. split; [|constructor]. simpl. intros ? [= <-]. rewrite Hst.
    by eapply Hsm. }
  split_and!; [apply length_replicate|done|]. intros Hrow.
  eapply reachable_status_sound in Hrow as [Hrow|(_ & _ & Hd)]; [by left|by right|try done..].
  by exists f, (default 10 (cfg_number_concurrent_processing_tasks c)), now.
Qed.
End DefaultRun.

(** ** A concrete start *)

Section ConcreteStart.
#[local] Existing Instance pair_chrono.
#[local] Existing Instance slice_crates.
#[local] Existing Instance slice_crates_laws.
#[local] Existing Instance published_enums.
#[local] Existing Instance status_mem.
#[local] Existing Instance status_mem_laws.
#[local] Existing Instance status_debug.
#[local] Existing Instance ok_processor.
#[local] Existing Instance ok_processor_laws.
#[local] Instance ledger_mem : PgTable LedgerInfo Z := mem_table LedgerInfo Z.
#[local] Instance ledger_mem_laws : PgLaws LedgerInfo Z := mem_laws LedgerInfo Z.
#[local] Existing Instance no_debug.

(** The default processor for the versions up to 6, in two tasks. *)
Definition ex_config : IndexerGrpcProcessorConfig :=
  {| cfg_processor_config := CfgDefault; cfg_postgres_connection_string := EmptyString;
     cfg_indexer_grpc_data_service_address := EmptyString; cfg_grpc_http2_config := default_http2_config;
     cfg_auth_token := EmptyString; cfg_starting_version := None; cfg_ending_version := Some 6%Z;
     cfg_number_concurrent_processing_tasks := Some 2; cfg_db_pool_size := None;
     cfg_gap_detection_batch_size := default_gap_detection_batch_size;
     cfg_pb_channel_txn_chunk_size := default_pb_channel_txn_chunk_size; cfg_per_table_chunk_sizes := ∅;
     cfg_enable_verbose_logging := None;
     cfg_grpc_response_item_timeout_in_secs := default_grpc_response_item_timeout_in_secs;
     cfg_transaction_filter := no_filter |}.
Definition ex_configured : Worker :=
  {| processor_config := CfgDefault; worker_starting_version := None; worker_ending_version := Some 6%Z;
     number_concurrent_processing_tasks := 2; gap_detection_batch_size := 500; grpc_chain_id := None;
     pb_channel_txn_chunk_size := default_pb_channel_txn_chunk_size; per_table_chunk_sizes := ∅;
     worker_filter := no_filter |}.
Example ex_server_name : get_server_name ex_config = Ret "default".
Proof. reflexivity. Qed.

Lemma default_chunk_large : 2 < default_pb_channel_txn_chunk_size.
Proof. unfold default_pb_channel_txn_chunk_size. apply Nat2Z.inj_lt. rewrite Z2Nat.id; lia. Qed.
Lemma example_net_small : network_small example_net default_pb_channel_txn_chunk_size.
Proof.
  intros k i req resp Hr. simpl in Hr. injection Hr as <-. intros j r Hj. simpl in Hj. unfold stream_of in Hj.
  destruct j as [|j]; simpl in Hj; [|done]. injection Hj as <-. exact default_chunk_large.
Qed.
Lemma default_run_never_ahead_witness :
  unsplit ex_whole /\ forall m, m ∈ handed ex_whole -> (pb_start_version m <= 6)%Z -> m ∈ processed ex_whole.
Proof.
  destruct (default_run_never_ahead (PgTable0 := status_mem) (db := unit) (fun _ => 100%Z) example_net ex_config
    ex_configured 1 5 0 ex_table (start_pipeline (PgTable0 := status_mem) 5 example_fetcher 2 0 ex_table) ex_whole
    (ex_row 6))
    as (_ & Hu & Hrow).
  - reflexivity.
  - reflexivity.
  - exact example_net_u64.
  - exact example_net_ordered.
  - exact example_net_small.
  - split; reflexivity || lia.
  - reflexivity.
  - apply ex_whole_run. exact default_chunk_large.
  - split; [exact Hu|]. destruct Hrow as [Hrow|Hrow]; [reflexivity|discriminate Hrow|exact Hrow].
Defined.

Definition ex_answers : StartAnswers :=
  {| sa_migrations := Ret tt; sa_status_conn := Ok tt; sa_status_query := Ok tt; sa_chain_net := example_net 0;
     sa_ledger_conn := Ok tt; sa_ledger_query := Ok tt; sa_ledger_row := None |}.
(** An empty database: the stream is of chain 1 and version 4 was recorded. *)
Lemma run_starts_on_one_chain_witness :
  run_start ex_configured EmptyString ex_answers ex_table (∅ : gmap Z LedgerInfo) =
    Some (chain_one, Ret (with_chain_id ex_configured 1, 5%Z)) /\
  pg_rows (chain_one : pg_state (row := LedgerInfo)) = {[ 1%Z := {| li_chain_id := 1 |} ]}.
Proof.
  split; [reflexivity|].
  destruct (run_starts_on_one_chain (PgTable1 := ledger_mem) ex_configured EmptyString
              ex_answers ex_table ∅ 1)
    as (l' & out & Hs & Hout).
  - left. reflexivity.
  - reflexivity.
  - assert (Some (l', out) = Some (chain_one, Ret (with_chain_id ex_configured 1, 5%Z))) as [= -> ->]
      by (rewrite <- Hs; reflexivity).
    destruct Hout as (chain & Hchain & Hrows & _). simpl in Hchain. injection Hchain as <-. exact Hrows.
Defined.
End ConcreteStart.
