(* ===== verification/Metrics.v ===== *)
(** * Metrics

    [rust/processor/src/utils/counters.rs] and [rust/indexer-metrics]: the
    metrics that the processor and the metrics service register, and what the
    loops of the processor write to them.  The updates are recorded as they are
    handed to prometheus; 64-bit floats and the clock are parameters. *)
From stdpp Require Import pretty.
From S2P Require Import Prelude RustStr Json Externals Proto Util Database Processors.
From S2P Require Import TransactionFilter GapDetector MovingAverage Fetcher Worker.

(** ** The registered metrics *)

Inductive MetricKind := IntCounter | IntCounterVec | IntGaugeVec | GaugeVec.
Record Metric := {
  metric_kind : MetricKind;
  metric_name : string;
  metric_help : string;
  metric_labels : list string;
}.
#[export] Instance MetricKind_dec : EqDecision MetricKind.
Proof. solve_decision. Defined.
#[export] Instance Metric_dec : EqDecision Metric.
Proof. solve_decision. Defined.

Definition PROCESSOR_DATA_RECEIVED_LATENCY_IN_SECS : Metric :=
  {| metric_kind := GaugeVec; metric_name := "indexer_processor_data_receive_latency_in_secs";
     metric_help := "Data latency when processor receives transactions";
     metric_labels := ["request_token"; "processor_name"] |}.
Definition PROCESSOR_DATA_PROCESSED_LATENCY_IN_SECS : Metric :=
  {| metric_kind := GaugeVec; metric_name := "indexer_processor_data_processed_latency_in_secs";
     metric_help := "Data latency when processor finishes processing transactions";
     metric_labels := ["request_token"; "processor_name"] |}.
Definition PROCESSOR_INVOCATIONS_COUNT : Metric :=
  {| metric_kind := IntCounterVec; metric_name := "indexer_processor_invocation_count";
     metric_help := "Number of times a given processor has been invoked";
     metric_labels := ["processor_name"] |}.
Definition PROCESSOR_ERRORS_COUNT : Metric :=
  {| metric_kind := IntCounterVec; metric_name := "indexer_processor_errors";
     metric_help := "Number of times any given processor has raised an error";
     metric_labels := ["processor_name"] |}.
Definition PROCESSOR_SUCCESSES_COUNT : Metric :=
  {| metric_kind := IntCounterVec; metric_name := "indexer_processor_success_count";
     metric_help := "Number of times a given processor has completed successfully";
     metric_labels := ["processor_name"] |}.
Definition UNABLE_TO_GET_CONNECTION_COUNT : Metric :=
  {| metric_kind := IntCounter; metric_name := "indexer_connection_pool_err";
     metric_help := "Number of times the connection pool has timed out when trying to get a connection";
     metric_labels := [] |}.
Definition GOT_CONNECTION_COUNT : Metric :=
  {| metric_kind := IntCounter; metric_name := "indexer_connection_pool_ok";
     metric_help := "Number of times the connection pool got a connection";
     metric_labels := [] |}.
Definition UNABLE_TO_FETCH_TRANSACTION : Metric :=
  {| metric_kind := IntCounter; metric_name := "indexer_unable_to_fetch_transaction_count";
     metric_help := "Number of times the indexer has been unable to fetch a transaction";
     metric_labels := [] |}.
Definition FETCHED_TRANSACTION : Metric :=
  {| metric_kind := IntCounter; metric_name := "indexer_fetched_transaction_count";
     metric_help := "Number of times the indexer has been able to fetch a transaction";
     metric_labels := [] |}.
Definition LATEST_PROCESSED_VERSION : Metric :=
  {| metric_kind := IntGaugeVec; metric_name := "indexer_processor_latest_version";
     metric_help := "Latest version a processor has fully consumed";
     metric_labels := ["processor_name"; "step"; "message"; "task_index"] |}.
Definition PROCESSED_BYTES_COUNT : Metric :=
  {| metric_kind := IntCounterVec; metric_name := "indexer_processor_processed_bytes_count";
     metric_help := "Count of bytes processed";
     metric_labels := ["processor_name"; "step"; "message"; "task_index"] |}.
Definition PB_CHANNEL_FETCH_WAIT_TIME_SECS : Metric :=
  {| metric_kind := GaugeVec; metric_name := "indexer_processor_pb_channel_fetch_wait_time_secs";
     metric_help := "Count of bytes processed";
     metric_labels := ["processor_name"; "task_index"] |}.
Definition NUM_TRANSACTIONS_PROCESSED_COUNT : Metric :=
  {| metric_kind := IntCounterVec; metric_name := "indexer_processor_num_transactions_processed_count";
     metric_help := "Number of transactions processed";
     metric_labels := ["processor_name"; "step"; "message"; "task_index"] |}.
Definition NUM_TRANSACTIONS_FILTERED_OUT_COUNT : Metric :=
  {| metric_kind := IntCounterVec; metric_name := "indexer_processor_num_transactions_filtered_out_count";
     metric_help := "Number of transactions filtered out";
     metric_labels := ["processor_name"] |}.
Definition FETCHER_THREAD_CHANNEL_SIZE : Metric :=
  {| metric_kind := IntGaugeVec; metric_name := "indexer_processor_fetcher_thread_channel_size";
     metric_help := "Size of the fetcher thread channel";
     metric_labels := ["processor_name"] |}.
Definition SINGLE_BATCH_PROCESSING_TIME_IN_SECS : Metric :=
  {| metric_kind := GaugeVec; metric_name := "indexer_processor_single_batch_processing_time_in_secs";
     metric_help := "Time taken to process a single batch of transactions";
     metric_labels := ["processor_name"; "task_index"] |}.
Definition SINGLE_BATCH_PARSING_TIME_IN_SECS : Metric :=
  {| metric_kind := GaugeVec; metric_name := "indexer_processor_single_batch_parsing_time_in_secs";
     metric_help := "Time taken to parse a single batch of transactions";
     metric_labels := ["processor_name"; "task_index"] |}.
Definition SINGLE_BATCH_DB_INSERTION_TIME_IN_SECS : Metric :=
  {| metric_kind := GaugeVec; metric_name := "indexer_processor_single_batch_db_insertion_time_in_secs";
     metric_help := "Time taken to insert to DB for a single batch of transactions";
     metric_labels := ["processor_name"; "task_index"] |}.
Definition TRANSACTION_UNIX_TIMESTAMP : Metric :=
  {| metric_kind := GaugeVec; metric_name := "indexer_processor_transaction_unix_timestamp";
     metric_help := "Transaction timestamp in unixtime";
     metric_labels := ["processor_name"; "step"; "message"; "task_index"] |}.
Definition PROCESSOR_DATA_GAP_COUNT : Metric :=
  {| metric_kind := IntGaugeVec; metric_name := "indexer_processor_data_gap_count";
     metric_help := "Data gap count";
     metric_labels := ["processor_name"] |}.
Definition GRPC_LATENCY_BY_PROCESSOR_IN_SECS : Metric :=
  {| metric_kind := GaugeVec; metric_name := "indexer_processor_grpc_latency_in_secs";
     metric_help := "GRPC latency observed by processor";
     metric_labels := ["processor_name"; "task_index"] |}.
Definition PROCESSOR_UNKNOWN_TYPE_COUNT : Metric :=
  {| metric_kind := IntCounterVec; metric_name := "indexer_processor_unknown_type_count";
     metric_help := "Processor unknown type count, e.g., comptaibility issues";
     metric_labels := ["model_name"] |}.
Definition processor_metrics : list Metric :=
  [PROCESSOR_DATA_RECEIVED_LATENCY_IN_SECS; PROCESSOR_DATA_PROCESSED_LATENCY_IN_SECS;
   PROCESSOR_INVOCATIONS_COUNT; PROCESSOR_ERRORS_COUNT;
   PROCESSOR_SUCCESSES_COUNT; UNABLE_TO_GET_CONNECTION_COUNT;
   GOT_CONNECTION_COUNT; UNABLE_TO_FETCH_TRANSACTION;
   FETCHED_TRANSACTION; LATEST_PROCESSED_VERSION;
   PROCESSED_BYTES_COUNT; PB_CHANNEL_FETCH_WAIT_TIME_SECS;
   NUM_TRANSACTIONS_PROCESSED_COUNT; NUM_TRANSACTIONS_FILTERED_OUT_COUNT;
   FETCHER_THREAD_CHANNEL_SIZE; SINGLE_BATCH_PROCESSING_TIME_IN_SECS;
   SINGLE_BATCH_PARSING_TIME_IN_SECS; SINGLE_BATCH_DB_INSERTION_TIME_IN_SECS;
   TRANSACTION_UNIX_TIMESTAMP; PROCESSOR_DATA_GAP_COUNT;
   GRPC_LATENCY_BY_PROCESSOR_IN_SECS; PROCESSOR_UNKNOWN_TYPE_COUNT].

(** Those of [rust/indexer-metrics/src/metrics.rs]. *)
Definition TASK_FAILURE_COUNT : Metric :=
  {| metric_kind := IntCounterVec; metric_name := "indexer_metrics_task_failure_count";
     metric_help := "Task failure count from indexer metrics service";
     metric_labels := ["task_name"; "chain_name"] |}.
Definition HASURA_API_LATEST_VERSION : Metric :=
  {| metric_kind := IntGaugeVec; metric_name := "indexer_metrics_hasura_latest_version";
     metric_help := "Processor latest version measured from indexer metrics service";
     metric_labels := ["processor_name"; "chain_name"] |}.
Definition HASURA_API_LATEST_VERSION_TIMESTAMP : Metric :=
  {| metric_kind := GaugeVec; metric_name := "indexer_metrics_hasura_latest_version_timestamp_secs";
     metric_help := "Processor latest timestamp (unix timestamp) measured from indexer metrics service";
     metric_labels := ["processor_name"; "chain_name"] |}.
Definition HASURA_API_LATEST_TRANSACTION_TIMESTAMP : Metric :=
  {| metric_kind := GaugeVec; metric_name := "indexer_metrics_hasura_latest_transaction_timestamp_secs";
     metric_help := "Latest transaction timestamp (unix timestamp), i.e., block timestamp.";
     metric_labels := ["processor_name"; "chain_name"] |}.
Definition HASURA_API_LATEST_TRANSACTION_LATENCY_IN_SECS : Metric :=
  {| metric_kind := GaugeVec; metric_name := "indexer_metrics_hasura_latest_transaction_latency_secs";
     metric_help := "Latest transaction e2e latency, from block timestamp to insertion time of db.";
     metric_labels := ["processor_name"; "chain_name"] |}.
Definition PFN_LEDGER_VERSION : Metric :=
  {| metric_kind := IntGaugeVec; metric_name := "indexer_metrics_pfn_ledger_version";
     metric_help := "Ledger latest version measured from indexer metrics service";
     metric_labels := ["chain_name"] |}.
Definition PFN_LEDGER_TIMESTAMP : Metric :=
  {| metric_kind := GaugeVec; metric_name := "indexer_metrics_pfn_ledger_timestamp_secs";
     metric_help := "Ledger latest timestamp (unix timestamp) measured from indexer metrics service";
     metric_labels := ["chain_name"] |}.
Definition service_metrics : list Metric :=
  [TASK_FAILURE_COUNT; HASURA_API_LATEST_VERSION;
   HASURA_API_LATEST_VERSION_TIMESTAMP; HASURA_API_LATEST_TRANSACTION_TIMESTAMP;
   HASURA_API_LATEST_TRANSACTION_LATENCY_IN_SECS; PFN_LEDGER_VERSION;
   PFN_LEDGER_TIMESTAMP].

Inductive ProcessorStep := ReceivedTxnsFromGrpc | ProcessedBatch | ProcessedMultipleBatches.
Definition get_step (s : ProcessorStep) : string :=
  match s with ReceivedTxnsFromGrpc => "1" | ProcessedBatch => "2" | ProcessedMultipleBatches => "3" end.
Definition get_label (s : ProcessorStep) : string :=
  match s with
  | ReceivedTxnsFromGrpc => "[Parser] Received transactions from GRPC. Sending transactions to channel."
  | ProcessedBatch => "[Parser] Processor finished processing one batch of transaction"
  | ProcessedMultipleBatches => "[Parser] Processor finished processing multiple batches of transactions"
  end.

(** ** Floats

    The operations on [f64] that the source uses; [f64_sci m e] is the
    literal of [m] times ten to the [e]. *)
Class Float64 := {
  f64 : Type;
  f64_of : Z -> f64;
  f64_sci : Z -> Z -> f64;
  f64_add : f64 -> f64 -> f64;
  f64_sub : f64 -> f64 -> f64;
  f64_mul : f64 -> f64 -> f64;
  f64_div : f64 -> f64 -> f64;
  f64_to_u64 : f64 -> Z;
}.
(** IEEE 754: an integer of at most 53 bits is a float. *)
Class Float64Laws `{Float64} := f64_exact : forall z, (0 <= z < 2 ^ 53)%Z -> f64_to_u64 (f64_of z) = z.

Section Metrics.
Context `{Float64}.

Definition timestamp_to_unixtime (timestamp : Timestamp) : f64 :=
  f64_add (f64_of (seconds timestamp)) (f64_mul (f64_of (nanos timestamp)) (f64_sci 1 (-9))).
(** [now] is the clock in seconds. *)
Definition time_diff_since_pb_timestamp_in_secs (now : f64) (timestamp : Timestamp) : f64 :=
  f64_sub now (f64_add (f64_of (seconds timestamp)) (f64_mul (f64_of (nanos timestamp)) (f64_sci 1 (-9)))).

(** ** Updates *)

Inductive MetricOp := Inc | IncBy (n : Z) | SetInt (n : Z) | SetFloat (x : f64).
Record MetricUpdate := { mu_metric : Metric; mu_values : list string; mu_op : MetricOp }.
Definition update (m : Metric) (values : list string) (op : MetricOp) : MetricUpdate :=
  {| mu_metric := m; mu_values := values; mu_op := op |}.

(** *** The connection: [ProcessorTrait::get_conn]

    [get n] is whether the pool answers the [n]-th request. *)
Fixpoint get_conn (fuel : nat) (get : nat -> bool) (n : nat) : option (list MetricUpdate) :=
  match fuel with
  | O => None
  | S fuel =>
      if get n then Some [update GOT_CONNECTION_COUNT [] Inc]
      else log ← get_conn fuel get (S n);
           Some (update UNABLE_TO_GET_CONNECTION_COUNT [] Inc :: log)
  end.

(** *** The fetcher: [create_fetcher_loop] *)

Definition unixtime_or_default (t : option Timestamp) : f64 := from_option timestamp_to_unixtime (f64_of 0) t.
(** A response from version [start_version] to [end_version] is received. *)
Definition receive_metrics (processor_name : string) (start_version end_version : Z)
    (start_txn_timestamp : option Timestamp) (size_in_bytes : Z) : list MetricUpdate :=
  let step := get_step ReceivedTxnsFromGrpc in
  let label := get_label ReceivedTxnsFromGrpc in
  [update LATEST_PROCESSED_VERSION [processor_name; step; label; "-"] (SetInt (as_i64 end_version));
   update TRANSACTION_UNIX_TIMESTAMP [processor_name; step; label; "-"]
     (SetFloat (unixtime_or_default start_txn_timestamp));
   update PROCESSED_BYTES_COUNT [processor_name; step; label; "-"] (IncBy size_in_bytes);
   update NUM_TRANSACTIONS_PROCESSED_COUNT [processor_name; step; label; "-"]
     (IncBy (as_u64 (as_u64 (end_version - start_version) + 1)))].
(** Its [num_txn_post_filter] transactions of [num_txns] have been sent. *)
Definition sent_metrics (processor_name : string) (num_txns num_txn_post_filter channel_size : Z)
  : list MetricUpdate :=
  let num_filtered_txns := (num_txns - num_txn_post_filter)%Z in
  [update FETCHER_THREAD_CHANNEL_SIZE [processor_name] (SetInt (as_i64 channel_size));
   update NUM_TRANSACTIONS_FILTERED_OUT_COUNT [processor_name] (IncBy num_filtered_txns)].
(** Everything for a response. *)
Definition fetcher_metrics (processor_name : string) (start_version end_version : Z)
    (start_txn_timestamp : option Timestamp) (size_in_bytes num_txns num_txn_post_filter channel_size : Z)
  : list MetricUpdate :=
  receive_metrics processor_name start_version end_version start_txn_timestamp size_in_bytes ++
  sent_metrics processor_name num_txns num_txn_post_filter channel_size.

(** *** A processing task: [fetch_transactions], [do_processor] and the rest of
    the loop of [launch_processor_task] *)

Definition fetch_metrics (processor_name : string) (task_index : nat) (waited : f64) : MetricUpdate :=
  update PB_CHANNEL_FETCH_WAIT_TIME_SECS [processor_name; pretty task_index] (SetFloat waited).
(** What [do_processor] writes before and after the batch is processed. *)
Definition received_metrics (auth_token processor_name : string) (m : TransactionsPBResponse) (now : f64)
  : list MetricUpdate :=
  match pb_transactions m with
  | [] => []
  | _ :: _ =>
      match pb_start_txn_timestamp m with
      | Some t => [update PROCESSOR_DATA_RECEIVED_LATENCY_IN_SECS [auth_token; processor_name]
                     (SetFloat (time_diff_since_pb_timestamp_in_secs now t))]
      | None => []
      end ++ [update PROCESSOR_INVOCATIONS_COUNT [processor_name] Inc]
  end.
Definition processed_metrics (auth_token processor_name : string) (m : TransactionsPBResponse) (now : f64)
  : list MetricUpdate :=
  match pb_transactions m, pb_start_txn_timestamp m with
  | _ :: _, Some t => [update PROCESSOR_DATA_PROCESSED_LATENCY_IN_SECS [auth_token; processor_name]
                         (SetFloat (time_diff_since_pb_timestamp_in_secs now t))]
  | _, _ => []
  end.
(** A batch that failed is counted before the task panics. *)
Definition outcome_metrics (processor_name : string) (res : result ProcessingResult) : MetricUpdate :=
  match res with
  | Ok _ => update PROCESSOR_SUCCESSES_COUNT [processor_name] Inc
  | Err => update PROCESSOR_ERRORS_COUNT [processor_name] Inc
  end.
Definition last_txn_version (m : TransactionsPBResponse) : Z := default 0%Z (t_version <$> last (pb_transactions m)).
(** The updates after the batch; [now] is the clock and the other floats are
    measured durations.  A missing last timestamp panics. *)
Definition task_metrics (processor_name : string) (task_index : nat) (m : TransactionsPBResponse)
    (now processing_time parsing_time db_insertion_time : f64) : outcome (list MetricUpdate) :=
  let step := get_step ProcessedBatch in
  let label := get_label ProcessedBatch in
  let task_index_str := pretty task_index in
  end_txn_timestamp ← unwrap (pb_end_txn_timestamp m);
  Ret [update GRPC_LATENCY_BY_PROCESSOR_IN_SECS [processor_name; task_index_str]
         (SetFloat (time_diff_since_pb_timestamp_in_secs now end_txn_timestamp));
       update LATEST_PROCESSED_VERSION [processor_name; step; label; task_index_str]
         (SetInt (as_i64 (last_txn_version m)));
       update TRANSACTION_UNIX_TIMESTAMP [processor_name; step; label; task_index_str]
         (SetFloat (unixtime_or_default (pb_start_txn_timestamp m)));
       update PROCESSED_BYTES_COUNT [processor_name; step; label; task_index_str]
         (IncBy (f64_to_u64 (f64_of (pb_size_in_bytes m))));
       update NUM_TRANSACTIONS_PROCESSED_COUNT [processor_name; step; label; task_index_str]
         (IncBy (num_processed m));
       update SINGLE_BATCH_PROCESSING_TIME_IN_SECS [processor_name; task_index_str] (SetFloat processing_time);
       update SINGLE_BATCH_PARSING_TIME_IN_SECS [processor_name; task_index_str] (SetFloat parsing_time);
       update SINGLE_BATCH_DB_INSERTION_TIME_IN_SECS [processor_name; task_index_str] (SetFloat db_insertion_time)].

(** *** The gap detector *)

Definition gap_metrics (processor_name : string) (num_gaps : Z) : MetricUpdate :=
  update PROCESSOR_DATA_GAP_COUNT [processor_name] (SetInt (as_i64 num_gaps)).

(** *** Unknown variants: the models that count them *)

Definition unknown_type_models : list string :=
  ["AccountTransaction"; "CoinActivity"; "Transaction"; "DelegatedStakingActivity"; "DelegatorPool"; "ProposalVote";
   "NftPoints"; "TokenActivity"; "Token"; "unspecified_signature_type"; "SignatureVariant"; "AnsProcessor";
   "EventsProcessor"; "FungibleAssetProcessor"; "TokenV2Processor"; "UserTransactionProcessor"; "TransactionPayload"].
Definition unknown_type_metrics (model_name : string) : MetricUpdate :=
  update PROCESSOR_UNKNOWN_TYPE_COUNT [model_name] Inc.

(** ** The metrics service: [rust/indexer-metrics/src/main.rs] *)

Definition QUERY_TIMEOUT_MS : Z := 500.
Definition MIN_TIME_QUERIES_MS : Z := 500.
Definition MICROSECONDS_MULTIPLIER : f64 := f64_of 1000000.

Record FullnodeResponse := { fn_ledger_version : Z; fn_ledger_timestamp : Z }.
(** A status with its times in nanoseconds. *)
Record ProcessorStatusResponse := {
  psr_processor : string;
  psr_last_updated : Z;
  psr_last_success_version : Z;
  psr_last_transaction_timestamp : Z;
}.
Record PostProcessorConfig := {
  hasura_graphql_endpoint : option string;
  fullnode_rest_api_endpoint : option string;
  chain_name : string;
}.
(** How a request with a timeout ends. *)
Inductive Fetched (A : Type) := TimedOut | RequestError | ParsingError | Answer (a : A).
Arguments TimedOut {A}.
Arguments RequestError {A}.
Arguments ParsingError {A}.
Arguments Answer {A} _.

(** One round of [start_fn_fetch]. *)
Definition fn_fetch_round (chain : string) (result : Fetched FullnodeResponse) : list MetricUpdate :=
  match result with
  | Answer resp =>
      [update PFN_LEDGER_VERSION [chain] (SetInt (as_i64 (fn_ledger_version resp)));
       update PFN_LEDGER_TIMESTAMP [chain]
         (SetFloat (f64_div (f64_of (fn_ledger_timestamp resp)) MICROSECONDS_MULTIPLIER))]
  | ParsingError | RequestError | TimedOut => [update TASK_FAILURE_COUNT ["fullnode"; chain] Inc]
  end.
(** chrono: [timestamp_micros] and [num_milliseconds] of nanoseconds. *)
Definition timestamp_micros (t : Z) : Z := (t / 1000)%Z.
Definition num_milliseconds (d : Z) : Z := Z.quot d 1000000.
(** One round of [start_processor_status_fetch]; [now] is in nanoseconds. *)
Definition processor_status_round (chain : string) (now : Z) (result : Fetched (list ProcessorStatusResponse))
  : list MetricUpdate :=
  match result with
  | Answer resp =>
      concat ((fun p =>
        [update HASURA_API_LATEST_VERSION [psr_processor p; chain] (SetInt (as_i64 (psr_last_success_version p)));
         update HASURA_API_LATEST_VERSION_TIMESTAMP [psr_processor p; chain]
           (SetFloat (f64_mul (f64_of (timestamp_micros (psr_last_updated p))) (f64_sci 1 (-6))));
         update HASURA_API_LATEST_TRANSACTION_TIMESTAMP [psr_processor p; chain]
           (SetFloat (f64_mul (f64_of (timestamp_micros (psr_last_transaction_timestamp p))) (f64_sci 1 (-6))));
         update HASURA_API_LATEST_TRANSACTION_LATENCY_IN_SECS [psr_processor p; chain]
           (SetFloat (f64_mul (f64_of (num_milliseconds (now - psr_last_transaction_timestamp p))) (f64_sci 1 (-3))))])
        <$> resp)
  | ParsingError | RequestError | TimedOut => []
  end.
(** The pause after a round whose handling took [elapsed] milliseconds. *)
Definition sleep_ms (elapsed : Z) : Z :=
  if decide (elapsed < MIN_TIME_QUERIES_MS)%Z then (MIN_TIME_QUERIES_MS - elapsed)%Z else 0%Z.

(** [PostProcessorConfig::run]: the tasks it spawns, and, where there are none,
    the panic of [unreachable!]. *)
Inductive ServiceTask := StatusTask (url chain : string) | FullnodeTask (url chain : string).
Definition service_tasks (c : PostProcessorConfig) : list ServiceTask :=
  option_list ((fun endpoint => StatusTask endpoint (chain_name c)) <$> hasura_graphql_endpoint c) ++
  option_list ((fun fullnode => FullnodeTask fullnode (chain_name c)) <$> fullnode_rest_api_endpoint c).
(** The tasks run for ever: the service runs, or has no task and panics. *)
Definition service_run (c : PostProcessorConfig) : outcome (list ServiceTask) :=
  match service_tasks c with [] => Panic | tasks => Ret tasks end.
Definition get_server_name_metrics : string := "idxbg".

(** ** Correctness *)

(** What prometheus documents: registering a name twice fails, names and
    labels are of letters, digits and underscores, and an update must give one
    value for each label. *)
Definition name_char (c : Ascii.ascii) : bool :=
  let n := Ascii.nat_of_ascii c in
  ((97 <=? n) && (n <=? 122)) || ((65 <=? n) && (n <=? 90)) || ((48 <=? n) && (n <=? 57)) || (n =? 95).
Definition metric_name_ok (s : string) : bool :=
  match s with
  | EmptyString => false
  | String c _ => negb ((48 <=? Ascii.nat_of_ascii c) && (Ascii.nat_of_ascii c <=? 57)) &&
                  forallb name_char (String.list_ascii_of_string s)
  end.
Definition registry_ok (ms : list Metric) : Prop :=
  NoDup (metric_name <$> ms) /\
  Forall (fun m => metric_name_ok (metric_name m) = true /\ NoDup (metric_labels m) /\
                   Forall (fun l => metric_name_ok l = true) (metric_labels m)) ms.
Definition op_ok (k : MetricKind) (op : MetricOp) : bool :=
  match k, op with
  | (IntCounter | IntCounterVec), (Inc | IncBy _) | IntGaugeVec, SetInt _ | GaugeVec, SetFloat _ => true
  | _, _ => false
  end.
Definition update_ok (ms : list Metric) (u : MetricUpdate) : Prop :=
  mu_metric u ∈ ms /\ length (mu_values u) = length (metric_labels (mu_metric u)) /\
  op_ok (metric_kind (mu_metric u)) (mu_op u) = true.

Lemma update_ok_intro ms m values op :
  m ∈ ms -> length values = length (metric_labels m) -> op_ok (metric_kind m) op = true ->
  update_ok ms (update m values op).
Proof. done. Qed.
#[local] Ltac one_update := apply update_ok_intro; [apply (bool_decide_unpack _); vm_compute; exact I|reflexivity..].
#[local] Ltac updates_ok := repeat (apply Forall_cons; split; [one_update|]); apply Forall_nil_2; exact I.

Lemma get_conn_log fuel get n log :
  get_conn fuel get n = Some log ->
  exists k, log = replicate k (update UNABLE_TO_GET_CONNECTION_COUNT [] Inc) ++ [update GOT_CONNECTION_COUNT [] Inc] /\
    get (n + k) = true /\ forall i, i < k -> get (n + i) = false.
Proof.
  revert n log. induction fuel as [|fuel IH]; intros n log Hl; [done|]. simpl in Hl.
  destruct (get n) eqn:Hg.
  - injection Hl as <-. exists 0. rewrite Nat.add_0_r. split_and!; [done..|lia].
  - destruct (get_conn fuel get (S n)) as [log'|] eqn:E; [|done]. injection Hl as <-.
    apply IH in E as (k & -> & Hk & Hi). exists (S k). rewrite Nat.add_succ_r. split_and!; [done..|].
    intros [|i] Hlt; [by rewrite Nat.add_0_r|]. rewrite Nat.add_succ_r. apply Hi. lia.
Qed.

(** prometheus accepts the metrics.  In both programs no name is
    registered twice and names and labels are well formed, so that registering
    them does not panic; and whatever the loops of the processor and of the
    metrics service write is an update of a registered metric of the right kind
    with one value for each of its labels, so that it does not panic either. *)
Theorem metrics_accepted :
  registry_ok processor_metrics /\ registry_ok service_metrics /\
  (forall fuel get n log, get_conn fuel get n = Some log -> Forall (update_ok processor_metrics) log) /\
  (forall name s e ts size n n' ch, Forall (update_ok processor_metrics) (fetcher_metrics name s e ts size n n' ch)) /\
  (forall auth name i m t1 t2 t3 res, Forall (update_ok processor_metrics)
     (fetch_metrics name i t1 :: received_metrics auth name m t2 ++ processed_metrics auth name m t3 ++
      [outcome_metrics name res])) /\
  (forall name i m now a b c log, task_metrics name i m now a b c = Ret log -> Forall (update_ok processor_metrics) log) /\
  (forall name gaps, update_ok processor_metrics (gap_metrics name gaps)) /\
  (forall model, update_ok processor_metrics (unknown_type_metrics model)) /\
  (forall chain now fn st, Forall (update_ok service_metrics) (fn_fetch_round chain fn ++ processor_status_round chain now st)).
Proof.
  split_and!; try (apply (bool_decide_unpack _); vm_compute; exact I).
  - intros fuel get n log (k & -> & _)%get_conn_log. apply Forall_app_2; [|updates_ok].
    apply Forall_replicate. one_update.
  - intros. updates_ok.
  - intros. apply Forall_cons; split; [one_update|].
    apply Forall_app_2; [|apply Forall_app_2].
    + unfold received_metrics. destruct (pb_transactions m), (pb_start_txn_timestamp m); simpl; updates_ok.
    + unfold processed_metrics. destruct (pb_transactions m), (pb_start_txn_timestamp m); simpl; updates_ok.
    + destruct res; updates_ok.
  - intros name i m now a b c log Hl. unfold task_metrics in Hl. apply bind_Ret in Hl as (t & _ & Hl).
    injection Hl as <-. updates_ok.
  - intros. one_update.
  - intros. one_update.
  - intros chain now fn st. apply Forall_app_2; [destruct fn; updates_ok|].
    destruct st as [| | |resp]; try constructor. simpl. apply Forall_concat, Forall_fmap, Forall_true.
    intros p. unfold compose. updates_ok.
Qed.

(** *** What is counted for a batch *)

Definition ops_of (m : Metric) (log : list MetricUpdate) : list MetricOp :=
  mu_op <$> filter (fun u => mu_metric u = m) log.
Definition consecutive (v : Z) (txns : list Transaction) : Prop :=
  forall i t, txns !! i = Some t -> t_version t = (v + Z.of_nat i)%Z.

Lemma consecutive_ends v txns first lst :
  consecutive v txns -> head txns = Some first -> last txns = Some lst ->
  t_version first = v /\ t_version lst = (v + Z.of_nat (length txns) - 1)%Z /\ 0 < length txns.
Proof.
  intros Hc Hf Hl. rewrite head_lookup in Hf. rewrite last_lookup in Hl. pose proof (lookup_lt_Some _ _ _ Hf).
  rewrite (Hc _ _ Hf), (Hc _ _ Hl). lia.
Qed.
Lemma num_processed_consecutive m v :
  pb_transactions m ≠ [] -> consecutive v (pb_transactions m) -> (0 <= v)%Z ->
  (v + Z.of_nat (length (pb_transactions m)) < 2 ^ 64)%Z ->
  num_processed m = Z.of_nat (length (pb_transactions m)) /\
  last_txn_version m = (v + Z.of_nat (length (pb_transactions m)) - 1)%Z.
Proof.
  intros Hne Hc Hv Hb. unfold num_processed, last_txn_version.
  destruct (head (pb_transactions m)) as [first|] eqn:Hf; [|by apply head_None in Hf].
  destruct (last (pb_transactions m)) as [lst|] eqn:Hl; [|by apply last_None in Hl].
  destruct (consecutive_ends v _ first lst Hc Hf Hl) as (E1 & E2 & Hpos). simpl. rewrite E1, E2.
  rewrite !as_u64_id; unfold in_u64; [lia|..]; rewrite ?as_u64_id; unfold in_u64; lia.
Qed.

Lemma list_filter_all {A} (P : A -> Prop) `{forall x, Decision (P x)} (l : list A) : Forall P l -> filter P l = l.
Proof. induction 1 as [|x l Hx _ IH]; [done|]. rewrite filter_cons_True by done. by rewrite IH. Qed.

Section BatchCounts.
Context `{Chrono, GrpcCrates, ProtoEnums}.
Variables (encoded_len : TransactionsResponse -> Z) (transaction_filter : TransactionFilter) (chunk_size : nat).

(** The message of a response that is neither filtered nor split. *)
Lemma receive_whole f r f' b first :
  receive_response encoded_len transaction_filter chunk_size f r = Ret (f', b) ->
  Forall (fun t => include transaction_filter t = true) (tr_transactions r) ->
  length (tr_transactions r) < chunk_size -> head (tr_transactions r) = Some first ->
  exists lst m, last (tr_transactions r) = Some lst /\ fb_start b = t_version first /\ fb_end b = t_version lst /\
    fb_messages b = [m] /\ pb_transactions m = tr_transactions r /\
    pb_start_txn_timestamp m = t_timestamp first /\ pb_size_in_bytes m = as_u64 (encoded_len r).
Proof.
  intros Hr Hall Hlen Hf. unfold receive_response in Hr. rewrite Hf in Hr. simpl in Hr.
  apply bind_Ret in Hr as (lst & Hl%unwrap_Ret & Hr). apply bind_Ret in Hr as (chain & _ & Hr).
  apply bind_Ret in Hr as (i1 & _ & Hr). apply bind_Ret in Hr as (i2 & _ & Hr). case_decide; [done|].
  apply bind_Ret in Hr as (ms & Hms & Hr). injection Hr as <- <-. unfold batch_messages in Hms.
  rewrite list_filter_all in Hms by done. rewrite decide_True in Hms by done. injection Hms as <-.
  exists lst. eexists. by split_and!.
Qed.

(** a batch is counted alike on both sides of the channel.  For a
    response whose versions follow each other and which is neither filtered nor
    split, the task that processes its message reports the same latest version,
    time, bytes and number of transactions as the fetcher did, and the number is
    that of the transactions in the response. *)
Theorem batch_counts_agree `{!Float64Laws} f r f' b m v first
    (name : string) (i : nat) (ch : Z) (now t1 t2 t3 : f64) (log : list MetricUpdate) :
  receive_response encoded_len transaction_filter chunk_size f r = Ret (f', b) ->
  Forall (fun t => include transaction_filter t = true) (tr_transactions r) ->
  length (tr_transactions r) < chunk_size -> head (tr_transactions r) = Some first ->
  consecutive v (tr_transactions r) -> (0 <= v)%Z -> (v + Z.of_nat (length (tr_transactions r)) < 2 ^ 64)%Z ->
  (0 <= encoded_len r < 2 ^ 53)%Z ->
  m ∈ fb_messages b -> task_metrics name i m now t1 t2 t3 = Ret log ->
  let num_txns := Z.of_nat (length (tr_transactions r)) in
  let sent := fetcher_metrics name (fb_start b) (fb_end b) (t_timestamp first) (as_u64 (encoded_len r))
                num_txns (Z.of_nat (length (pb_transactions m))) ch in
  ops_of NUM_TRANSACTIONS_PROCESSED_COUNT log = [IncBy num_txns] /\
  ops_of NUM_TRANSACTIONS_PROCESSED_COUNT sent = ops_of NUM_TRANSACTIONS_PROCESSED_COUNT log /\
  ops_of LATEST_PROCESSED_VERSION sent = ops_of LATEST_PROCESSED_VERSION log /\
  ops_of PROCESSED_BYTES_COUNT sent = ops_of PROCESSED_BYTES_COUNT log /\
  ops_of TRANSACTION_UNIX_TIMESTAMP sent = ops_of TRANSACTION_UNIX_TIMESTAMP log /\
  ops_of NUM_TRANSACTIONS_FILTERED_OUT_COUNT sent = [IncBy 0].
Proof.
  intros Hr Hall Hlen Hf Hc Hv Hb Hsize Hm Hlog num_txns sent.
  destruct (receive_whole _ _ _ _ _ Hr Hall Hlen Hf) as (lst & m' & Hl & Es & Ee & Hms & Htx & Hts & Hsz).
  rewrite Hms in Hm. apply list_elem_of_singleton in Hm as ->. unfold task_metrics in Hlog.
  apply bind_Ret in Hlog as (ts & _ & Hlog). injection Hlog as <-.
  destruct (consecutive_ends v _ _ _ Hc Hf Hl) as (E1 & E2 & Hpos).
  destruct (num_processed_consecutive m' v) as [Hn Hlast]; rewrite ?Htx; [by destruct (tr_transactions r)|done..|].
  rewrite Htx in Hn, Hlast. unfold sent, fetcher_metrics, receive_metrics, sent_metrics. rewrite Hn, Hlast, Es, Ee, E1, E2, Hts, Hsz, Htx.
  rewrite as_u64_id in * by (unfold in_u64; lia). rewrite f64_exact by done.
  replace (as_u64 (as_u64 (v + Z.of_nat (length (tr_transactions r)) - 1 - v) + 1)) with num_txns
    by (unfold num_txns; rewrite !as_u64_id; unfold in_u64; [lia|..]; rewrite ?as_u64_id; unfold in_u64; lia).
  replace (num_txns - Z.of_nat (length (tr_transactions r)))%Z with 0%Z by (unfold num_txns; lia).
  split_and!; reflexivity.
Qed.
End BatchCounts.

(** a batch without transactions is counted as one transaction.  When the
    filter drops every transaction of a response, the task that takes its empty
    message sets the latest version to zero and counts one transaction. *)
Theorem empty_batch_miscounted (name : string) (i : nat) (m : TransactionsPBResponse) (now t1 t2 t3 : f64) log :
  pb_transactions m = [] -> task_metrics name i m now t1 t2 t3 = Ret log ->
  ops_of LATEST_PROCESSED_VERSION log = [SetInt 0] /\ ops_of NUM_TRANSACTIONS_PROCESSED_COUNT log = [IncBy 1].
Proof.
  intros Hm Hlog. unfold task_metrics in Hlog. apply bind_Ret in Hlog as (ts & _ & Hlog). injection Hlog as <-.
  unfold num_processed, last_txn_version. rewrite Hm. split; reflexivity.
Qed.

(** the metrics service runs with an endpoint and panics without one.  A
    failed request to a full node is counted once; a failed request for the
    status of the processors leaves no trace; and a round with its pause takes at
    least the minimal time, the pause at most that. *)
Theorem metrics_service (c : PostProcessorConfig) (chain : string) (now elapsed : Z) :
  (service_run c = Panic <-> hasura_graphql_endpoint c = None /\ fullnode_rest_api_endpoint c = None) /\
  (forall r : Fetched FullnodeResponse, (forall a, r ≠ Answer a) ->
     fn_fetch_round chain r = [update TASK_FAILURE_COUNT ["fullnode"; chain] Inc]) /\
  (forall r : Fetched (list ProcessorStatusResponse), (forall a, r ≠ Answer a) -> processor_status_round chain now r = []) /\
  ((0 <= elapsed)%Z -> (0 <= sleep_ms elapsed <= MIN_TIME_QUERIES_MS)%Z /\ (MIN_TIME_QUERIES_MS <= elapsed + sleep_ms elapsed)%Z).
Proof.
  split_and!.
  - unfold service_run, service_tasks.
    destruct (hasura_graphql_endpoint c), (fullnode_rest_api_endpoint c); simpl; split; naive_solver.
  - intros [| | |a] Hr; try done. by destruct (Hr a).
  - intros [| | |a] Hr; try done. by destruct (Hr a).
  - intros He. unfold sleep_ms, MIN_TIME_QUERIES_MS. case_decide; lia.
Qed.
End Metrics.

(** ** A concrete batch

    Floats are integers. *)
Section ConcreteMetrics.
#[local] Existing Instance pair_chrono.
#[local] Existing Instance slice_crates.
#[local] Existing Instance published_enums.
Definition int_floats : Float64 :=
  {| f64 := Z; f64_of := id; f64_sci := fun m _ => m; f64_add := Z.add; f64_sub := Z.sub; f64_mul := Z.mul;
     f64_div := Z.div; f64_to_u64 := id |}.
#[local] Existing Instance int_floats.
#[local] Instance int_floats_laws : Float64Laws.
Proof. done. Qed.

Definition ex_counted : FetcherState * FetchedBatch :=
  ret_or (example_fetcher, {| fb_response := response_of []; fb_start := 0; fb_end := 0; fb_messages := [] |})
    (receive_response (fun _ => 100%Z) no_filter 10 example_fetcher (response_of [5; 6]%Z)).
Lemma ex_counted_ok :
  receive_response (fun _ => 100%Z) no_filter 10 example_fetcher (response_of [5; 6]%Z) =
    Ret (ex_counted.1, ex_counted.2).
Proof. vm_compute. reflexivity. Qed.
Definition ex_counted_message : TransactionsPBResponse :=
  {| pb_transactions := tr_transactions (response_of [5; 6]%Z); pb_chain_id := 1; pb_start_version := 5;
     pb_end_version := 6; pb_start_txn_timestamp := t_timestamp (user_txn 5 script_request);
     pb_end_txn_timestamp := t_timestamp (user_txn 6 script_request); pb_size_in_bytes := 100 |}.
Definition ex_empty_message : TransactionsPBResponse :=
  {| pb_transactions := []; pb_chain_id := 1; pb_start_version := 5; pb_end_version := 6;
     pb_start_txn_timestamp := Some {| seconds := 5; nanos := 0 |};
     pb_end_txn_timestamp := Some {| seconds := 6; nanos := 0 |}; pb_size_in_bytes := 100 |}.
Definition ex_log (m : TransactionsPBResponse) : list MetricUpdate :=
  ret_or [] (task_metrics "default_processor" 0 m (f64_of 10) (f64_of 1) (f64_of 1) (f64_of 1)).
Lemma batch_counts_agree_witness :
  ops_of NUM_TRANSACTIONS_PROCESSED_COUNT (ex_log ex_counted_message) = [IncBy 2].
Proof.
  refine (proj1 (batch_counts_agree (fun _ => 100%Z) no_filter 10 example_fetcher (response_of [5; 6]%Z)
    ex_counted.1 ex_counted.2 ex_counted_message 5 (user_txn 5 script_request) "default_processor" 0 0 (f64_of 10) (f64_of 1) (f64_of 1) (f64_of 1)
    (ex_log ex_counted_message) ex_counted_ok _ _ _ _ _ _ _ _ _)).
  - repeat constructor.
  - apply Nat.ltb_lt. reflexivity.
  - reflexivity.
  - intros [|[|i]] t Ht; by simplify_eq/=.
  - lia.
  - simpl. lia.
  - lia.
  - left.
  - reflexivity.
Defined.
Lemma empty_batch_miscounted_witness :
  ops_of LATEST_PROCESSED_VERSION (ex_log ex_empty_message) = [SetInt 0] /\
  ops_of NUM_TRANSACTIONS_PROCESSED_COUNT (ex_log ex_empty_message) = [IncBy 1].
Proof.
  apply (empty_batch_miscounted "default_processor" 0 ex_empty_message (f64_of 10) (f64_of 1) (f64_of 1) (f64_of 1) (ex_log ex_empty_message)).
  - reflexivity.
  - reflexivity.
Defined.
End ConcreteMetrics.
