(* ===== verification/Signatures.v ===== *)
(** * Signatures: [models/user_transactions_models/signatures.rs]

    A transaction signature is flattened into rows, one per signature of every
    signer. *)
From S2P Require Import Prelude RustStr Json Externals Proto Util.

Record Signature := {
  sig_transaction_version : Z;
  multi_agent_index : Z;
  multi_sig_index : Z;
  sig_transaction_block_height : Z;
  signer : string;
  is_sender_primary : bool;
  sig_type : string;
  public_key : string;
  signature : string;
  threshold : Z;
  public_key_indices : Value;
}.

Section Signatures.
Context `{HexCodec, ProtoEnums}.

Definition hex_0x (b : bytes) : string := "0x" +:+ hex_encode b.
Definition json_indices (l : list Z) : Value := Array ((fun i => Number (JInt (as_i64 i))) <$> l).

Definition get_signature_type (t : SignaturePB) : outcome string :=
  s ← unwrap (sg_signature t);
  match s with
  | SgEd25519 _ => Ret "ed25519_signature"
  | SgMultiEd25519 _ => Ret "multi_ed25519_signature"
  | SgMultiAgent _ => Ret "multi_agent_signature"
  | SgFeePayer _ => Ret "fee_payer_signature"
  | SgSingleSender sender =>
      account_signature ← unwrap (ss_sender sender);
      signature ← unwrap (ac_signature account_signature);
      Ret (match signature with
           | AcEd25519 _ => "ed25519_signature"
           | AcMultiEd25519 _ => "multi_ed25519_signature"
           | AcSingleKeySignature _ => "single_key_signature"
           | AcMultiKeySignature _ => "multi_key_signature"
           end)
  end.

Definition get_fee_payer_address (t : SignaturePB) (transaction_version : Z) : outcome (option string) :=
  sig ← unwrap (sg_signature t);
  match sig with
  | SgFeePayer sig => Ret (Some (standardize_address (fp_fee_payer_address sig)))
  | _ => Ret None
  end.

Definition get_any_signature_bytes (signature_variant : option SignatureVariant) : option bytes :=
  match signature_variant with
  | Some (SvEd25519 sig) => Some sig
  | Some (SvKeyless sig) => Some sig
  | Some (SvWebauthn sig) => Some sig
  | Some (SvSecp256k1Ecdsa sig) => Some sig
  | None => None
  end.

Definition get_any_signature_type (signature_variant : option SignatureVariant)
    (is_single_sender : bool) : option string :=
  let prefix := if is_single_sender then "single_sender" else "multi_key" in
  match signature_variant with
  | Some (SvEd25519 _) => Some (prefix +:+ "_ed25519_signature")
  | Some (SvKeyless _) => Some (prefix +:+ "_keyless_signature")
  | Some (SvWebauthn _) => Some (prefix +:+ "_webauthn_signature")
  | Some (SvSecp256k1Ecdsa _) => Some (prefix +:+ "_secp256k1_ecdsa_signature")
  | None => None
  end.

Section Rows.
Variables (sender : string) (transaction_version transaction_block_height : Z).

Definition parse_ed25519_signature (s : Ed25519SignaturePB) (primary : bool) (agent : Z)
    (override_address : option string) : Signature :=
  {| sig_transaction_version := transaction_version;
     sig_transaction_block_height := transaction_block_height;
     signer := standardize_address (default sender override_address);
     is_sender_primary := primary;
     sig_type := "ed25519_signature";
     public_key := hex_0x (ed_public_key s);
     threshold := 1;
     public_key_indices := Array [];
     signature := hex_0x (ed_signature s);
     multi_agent_index := agent;
     multi_sig_index := 0 |}.

Definition parse_multi_ed25519_signature (s : MultiEd25519SignaturePB) (primary : bool) (agent : Z)
    (override_address : option string) : outcome (list Signature) :=
  let signer := standardize_address (default sender override_address) in
  let indices := me_public_key_indices s in
  traverse (fun '(index, sg) =>
    key_index ← unwrap (indices !! Z.to_nat index);
    key ← unwrap (me_public_keys s !! Z.to_nat key_index);
    Ret {| sig_transaction_version := transaction_version;
           sig_transaction_block_height := transaction_block_height;
           signer := signer;
           is_sender_primary := primary;
           sig_type := "multi_ed25519_signature";
           public_key := hex_0x key;
           threshold := me_threshold s;
           signature := hex_0x sg;
           public_key_indices := json_indices indices;
           multi_agent_index := agent;
           multi_sig_index := index |})
    (enumerate (me_signatures s)).

Definition parse_single_key_signature (s : SingleKeySignaturePB) (primary : bool) (agent : Z)
    (override_address : option string) : outcome Signature :=
  let signer := standardize_address (default sender override_address) in
  sg ← unwrap (sk_signature s);
  let signature_bytes := default (as_signature sg) (get_any_signature_bytes (as_signature_variant sg)) in
  let type_ :=
    match get_any_signature_type (as_signature_variant sg) true with
    | Some t => t
    | None => match any_signature_type (as_type sg) with
              | Some AstEd25519 => "single_key_ed25519_signature"
              | Some AstSecp256k1Ecdsa => "single_key_secp256k1_ecdsa_signature"
              | _ => EmptyString
              end
    end in
  key ← unwrap (sk_public_key s);
  Ret {| sig_transaction_version := transaction_version;
         sig_transaction_block_height := transaction_block_height;
         signer := signer;
         is_sender_primary := primary;
         sig_type := type_;
         public_key := hex_0x (apk_public_key key);
         threshold := 1;
         public_key_indices := Array [];
         signature := hex_0x signature_bytes;
         multi_agent_index := agent;
         multi_sig_index := 0 |}.

(** The public key of a signature is looked up at the position of the
    signature, not at its key index. *)
Definition parse_multi_key_signature (s : MultiKeySignaturePB) (primary : bool) (agent : Z)
    (override_address : option string) : outcome (list Signature) :=
  let signer := standardize_address (default sender override_address) in
  let indices := is_index <$> mk_signatures s in
  traverse (fun '(index, sg) =>
    key ← unwrap (mk_public_keys s !! Z.to_nat index);
    any ← unwrap (is_signature sg);
    let signature_bytes := default (as_signature any) (get_any_signature_bytes (as_signature_variant any)) in
    let type_ :=
      match get_any_signature_type (as_signature_variant any) false with
      | Some t => t
      | None => match any_signature_type (as_type any) with
                | Some AstEd25519 => "multi_key_ed25519_signature"
                | Some AstSecp256k1Ecdsa => "multi_key_secp256k1_ecdsa_signature"
                | _ => "unknown"
                end
      end in
    Ret {| sig_transaction_version := transaction_version;
           sig_transaction_block_height := transaction_block_height;
           signer := signer;
           is_sender_primary := primary;
           sig_type := type_;
           public_key := hex_0x (apk_public_key key);
           threshold := mk_signatures_required s;
           signature := hex_0x signature_bytes;
           public_key_indices := json_indices indices;
           multi_agent_index := agent;
           multi_sig_index := index |})
    (enumerate (mk_signatures s)).

Definition parse_multi_agent_signature_helper (s : AccountSignature) (primary : bool) (agent : Z)
    (override_address : option string) : outcome (list Signature) :=
  sg ← unwrap (ac_signature s);
  match sg with
  | AcEd25519 sig => Ret [parse_ed25519_signature sig primary agent override_address]
  | AcMultiEd25519 sig => parse_multi_ed25519_signature sig primary agent override_address
  | AcSingleKeySignature sig => r ← parse_single_key_signature sig primary agent override_address; Ret [r]
  | AcMultiKeySignature sig => parse_multi_key_signature sig primary agent override_address
  end.

(** The loop over the secondary signers, shared by the two callers. *)
Fixpoint parse_secondary_signers (signers : list AccountSignature) (addresses : list (Z * string))
  : outcome (result (list Signature)) :=
  match addresses with
  | [] => Ret (Ok [])
  | (index, address) :: addresses =>
      match signers !! Z.to_nat index with
      | None => Ret Err
      | Some secondary_sig =>
          sigs ← parse_multi_agent_signature_helper secondary_sig false index (Some address);
          rest <-? parse_secondary_signers signers addresses;
          Ret (Ok (sigs ++ rest))
      end
  end.

Definition parse_multi_agent_signature (s : MultiAgentSignature) : outcome (result (list Signature)) :=
  sender_sig ← unwrap (ma_sender s);
  sigs ← parse_multi_agent_signature_helper sender_sig true 0 None;
  rest <-? parse_secondary_signers (ma_secondary_signers s) (enumerate (ma_secondary_signer_addresses s));
  Ret (Ok (sigs ++ rest)).

Definition parse_fee_payer_signature (s : FeePayerSignature) : outcome (result (list Signature)) :=
  sender_sig ← unwrap (fp_sender s);
  sigs ← parse_multi_agent_signature_helper sender_sig true 0 None;
  rest <-? parse_secondary_signers (fp_secondary_signers s) (enumerate (fp_secondary_signer_addresses s));
  Ret (Ok (sigs ++ rest)).

Definition parse_single_sender (s : SingleSender) : outcome (list Signature) :=
  sg ← unwrap (ss_sender s);
  match ac_signature sg with
  | Some (AcSingleKeySignature s) => r ← parse_single_key_signature s true 0 None; Ret [r]
  | Some (AcMultiKeySignature s) => parse_multi_key_signature s true 0 None
  | Some (AcEd25519 s) => Ret [parse_ed25519_signature s true 0 None]
  | Some (AcMultiEd25519 s) => parse_multi_ed25519_signature s true 0 None
  | None => Ret []
  end.

Definition from_user_transaction (s : SignaturePB) : outcome (result (list Signature)) :=
  sg ← unwrap (sg_signature s);
  match sg with
  | SgEd25519 sig => Ret (Ok [parse_ed25519_signature sig true 0 None])
  | SgMultiEd25519 sig => Ok <$> parse_multi_ed25519_signature sig true 0 None
  | SgMultiAgent sig => parse_multi_agent_signature sig
  | SgFeePayer sig => parse_fee_payer_signature sig
  | SgSingleSender s => Ok <$> parse_single_sender s
  end.

(** ** Primary keys *)

(** The primary key of the table. *)
Definition signature_key (s : Signature) : Z * Z * Z * bool :=
  (sig_transaction_version s, multi_agent_index s, multi_sig_index s, is_sender_primary s).

(** The rows of one signer: its position, and distinct signature indices. *)
Definition signer_rows (primary : bool) (agent : Z) (l : list Signature) : Prop :=
  Forall (fun r => sig_transaction_version r = transaction_version /\
                   is_sender_primary r = primary /\ multi_agent_index r = agent) l /\
  NoDup (multi_sig_index <$> l).

Lemma signer_rows_single primary agent r :
  sig_transaction_version r = transaction_version -> is_sender_primary r = primary ->
  multi_agent_index r = agent -> signer_rows primary agent [r].
Proof. intros. split; [by apply Forall_singleton|apply NoDup_singleton]. Qed.

(** Rows produced by a traversal of an enumeration. *)
Lemma signer_rows_traverse {A} primary agent (f : Z * A -> outcome Signature) l rows :
  (forall i x r, f (i, x) = Ret r -> sig_transaction_version r = transaction_version /\
     is_sender_primary r = primary /\ multi_agent_index r = agent /\ multi_sig_index r = i) ->
  traverse f (enumerate l) = Ret rows -> signer_rows primary agent rows.
Proof.
  intros Hf Ht%traverse_Ret. split.
  - clear -Hf Ht. induction Ht as [|[i x] r ls rs Hr _ IH]; constructor; [|done].
    destruct (Hf i x r Hr) as (? & ? & ? & ?). done.
  - assert (multi_sig_index <$> rows = (enumerate l).*1) as ->; [|apply NoDup_enumerate_from].
    clear -Hf Ht. induction Ht as [|[i x] r ls rs Hr _ IH]; [done|].
    rewrite !fmap_cons, IH. by destruct (Hf i x r Hr) as (? & ? & ? & ->).
Qed.

Lemma multi_ed25519_rows s primary agent o rows :
  parse_multi_ed25519_signature s primary agent o = Ret rows -> signer_rows primary agent rows.
Proof. apply signer_rows_traverse. intros i x r Hr. by outcome_inv. Qed.

Lemma multi_key_rows s primary agent o rows :
  parse_multi_key_signature s primary agent o = Ret rows -> signer_rows primary agent rows.
Proof. apply signer_rows_traverse. intros i x r Hr. by outcome_inv. Qed.

Lemma ed25519_rows s primary agent o :
  signer_rows primary agent [parse_ed25519_signature s primary agent o].
Proof. by apply signer_rows_single. Qed.

Lemma single_key_rows s primary agent o r :
  parse_single_key_signature s primary agent o = Ret r -> signer_rows primary agent [r].
Proof. intros Hr. unfold parse_single_key_signature in Hr. outcome_inv. by apply signer_rows_single. Qed.
End Rows.
#[local] Hint Resolve multi_ed25519_rows multi_key_rows ed25519_rows single_key_rows : indexer.

Section Keys.
Variables (sender : string) (transaction_version transaction_block_height : Z).

Lemma helper_rows s primary agent o rows :
  parse_multi_agent_signature_helper sender transaction_version transaction_block_height
    s primary agent o = Ret rows -> signer_rows transaction_version primary agent rows.
Proof.
  unfold parse_multi_agent_signature_helper. intros Hr. outcome_inv.
  destruct (_ : AccountSignatureEnum); outcome_inv; eauto with indexer.
Qed.

Lemma signer_rows_NoDup primary agent rows :
  signer_rows transaction_version primary agent rows -> NoDup (signature_key <$> rows).
Proof.
  intros [_ Hn]. apply (NoDup_fmap_1 (fun k : Z * Z * Z * bool => k.1.2)).
  by rewrite <- list_fmap_compose.
Qed.

(** The rows of the secondary signers: not primary, and grouped by position. *)
Lemma secondary_rows signers addresses i rows :
  parse_secondary_signers sender transaction_version transaction_block_height signers
    (enumerate_from i addresses) = Ret (Ok rows) ->
  NoDup (signature_key <$> rows) /\
  Forall (fun r => sig_transaction_version r = transaction_version /\
                   is_sender_primary r = false /\ (i <= multi_agent_index r)%Z) rows.
Proof.
  revert i rows. induction addresses as [|a addresses IH]; intros i rows Hr; simpl in Hr.
  { outcome_inv. split; constructor. }
  destruct (signers !! Z.to_nat i) as [s|]; [|done]. outcome_inv.
  rename select (parse_multi_agent_signature_helper _ _ _ _ _ _ _ = _) into Hh.
  apply helper_rows in Hh. destruct (IH (i + 1)%Z x0) as [Hn Hf]; [done|].
  pose proof Hh as [Hall _]. split.
  - rewrite fmap_app. apply NoDup_app. split_and!; [by eapply signer_rows_NoDup| |done].
    intros k (r & -> & Hr1)%list_elem_of_fmap (r' & Hk & Hr2)%list_elem_of_fmap.
    rewrite Forall_forall in Hall, Hf. destruct (Hall r Hr1) as (_ & _ & Hi).
    destruct (Hf r' Hr2) as (_ & _ & Hi'). unfold signature_key in Hk. simplify_eq. lia.
  - apply Forall_app. split.
    + eapply Forall_impl; [exact Hall|]. simpl. intros r (? & ? & ?). split_and!; [done..|lia].
    + eapply Forall_impl; [exact Hf|]. simpl. intros r (? & ? & ?). split_and!; [done..|lia].
Qed.

Lemma sender_and_secondary_NoDup rows1 rows2 :
  signer_rows transaction_version true 0 rows1 -> NoDup (signature_key <$> rows2) ->
  Forall (fun r => sig_transaction_version r = transaction_version /\
                   is_sender_primary r = false /\ (0 <= multi_agent_index r)%Z) rows2 ->
  NoDup (signature_key <$> rows1 ++ rows2).
Proof.
  intros H1 Hn H2. rewrite fmap_app. apply NoDup_app. split_and!; [by eapply signer_rows_NoDup| |done].
  destruct H1 as [H1 _]. rewrite Forall_forall in H1, H2.
  intros k (r & -> & Hr1)%list_elem_of_fmap (r' & Hk & Hr2)%list_elem_of_fmap.
  destruct (H1 r Hr1) as (_ & Hp & _). destruct (H2 r' Hr2) as (_ & Hp' & _).
  unfold signature_key in Hk. simplify_eq. congruence.
Qed.

Lemma single_sender_rows s rows :
  parse_single_sender sender transaction_version transaction_block_height s = Ret rows ->
  rows = [] \/ signer_rows transaction_version true 0 rows.
Proof.
  intros (sg & _ & Hr)%bind_Ret. destruct (ac_signature sg) as [[]|].
  - injection Hr as <-. right. apply ed25519_rows.
  - right. eauto with indexer.
  - apply bind_Ret in Hr as (r & Hr & [= <-]). right. eauto with indexer.
  - right. eauto with indexer.
  - injection Hr as <-. by left.
Qed.

Lemma from_user_transaction_keys s rows :
  from_user_transaction sender transaction_version transaction_block_height s = Ret (Ok rows) ->
  NoDup (signature_key <$> rows) /\
  Forall (fun r => sig_transaction_version r = transaction_version) rows.
Proof.
  assert (forall agent l, signer_rows transaction_version true agent l ->
    NoDup (signature_key <$> l) /\ Forall (fun r => sig_transaction_version r = transaction_version) l) as Hone.
  { intros agent l Hl. split; [by eapply signer_rows_NoDup|]. destruct Hl as [Hl _].
    eapply Forall_impl; [exact Hl|]. by intros r (? & _). }
  assert (forall l1 l2, signer_rows transaction_version true 0 l1 -> NoDup (signature_key <$> l2) /\
    Forall (fun r => sig_transaction_version r = transaction_version /\
                     is_sender_primary r = false /\ (0 <= multi_agent_index r)%Z) l2 ->
    NoDup (signature_key <$> l1 ++ l2) /\
    Forall (fun r => sig_transaction_version r = transaction_version) (l1 ++ l2)) as Htwo.
  { intros l1 l2 H1 [Hn H2]. split; [by apply sender_and_secondary_NoDup|]. apply Forall_app.
    split; [by apply (Hone 0%Z)|]. eapply Forall_impl; [exact H2|]. by intros r (? & _). }
  unfold from_user_transaction. intros Hr. outcome_inv. destruct x as [sg|sg|sg|sg|sg].
  - injection Hr as <-. eapply Hone, ed25519_rows.
  - outcome_inv. eapply Hone; eauto with indexer.
  - unfold parse_multi_agent_signature in Hr. outcome_inv. apply Htwo; eauto using helper_rows, secondary_rows.
  - unfold parse_fee_payer_signature in Hr. outcome_inv. apply Htwo; eauto using helper_rows, secondary_rows.
  - outcome_inv. rename select (parse_single_sender _ _ _ _ = _) into Hs.
    destruct (single_sender_rows _ _ Hs) as [->|Hl]; [split; constructor|by eapply Hone].
Qed.

(** signature rows never collide.  The rows of one transaction, whatever
    the kind of its signature, have distinct primary keys and carry the
    version of the transaction, so inserting them with [ON CONFLICT DO
    NOTHING] drops none of them. *)
Theorem signature_rows_distinct (s : SignaturePB) (rows : list Signature) :
  from_user_transaction sender transaction_version transaction_block_height s = Ret (Ok rows) ->
  NoDup (signature_key <$> rows) /\
  Forall (fun r => sig_transaction_version r = transaction_version) rows.
Proof. apply from_user_transaction_keys. Qed.

Lemma hex_0x_inj `{!HexLaws} a b : hex_0x a = hex_0x b -> a = b.
Proof.
  unfold hex_0x. intros He. simpl in He. simplify_eq.
  assert (Some a = Some b) as Hs; [|by simplify_eq]. rewrite <- !hex_decode_encode. by rewrite He.
Qed.

(** a multi-key signature may be stored with the wrong public key.  Each
    signature names the key it belongs to, but the row gets the key at the
    position of the signature: whenever the two keys differ, so do the stored
    key and the key that signed. *)
Theorem multi_key_wrong_public_key `{!HexLaws} (s : MultiKeySignaturePB) primary agent o rows n
    (row : Signature) (sg : IndexedSignature) (at_position signed_by : AnyPublicKey) :
  parse_multi_key_signature sender transaction_version transaction_block_height s primary agent o = Ret rows ->
  rows !! n = Some row -> mk_signatures s !! n = Some sg ->
  mk_public_keys s !! n = Some at_position ->
  mk_public_keys s !! Z.to_nat (is_index sg) = Some signed_by ->
  public_key row = hex_0x (apk_public_key at_position) /\
  (apk_public_key at_position ≠ apk_public_key signed_by ->
   public_key row ≠ hex_0x (apk_public_key signed_by)).
Proof.
  intros Hp Hrow Hsg Hkey Hsigned.
  apply traverse_Ret in Hp. eapply Forall2_lookup_r in Hp as ([i x] & Hx & Hr); [|exact Hrow].
  rewrite enumerate_from_lookup, Hsg in Hx. injection Hx as <- <-.
  replace (Z.to_nat (0 + Z.of_nat n)) with n in Hr by lia.
  rewrite Hkey in Hr. simpl in Hr. outcome_inv. simpl.
  split; [done|]. intros Hne He%hex_0x_inj. done.
Qed.
End Keys.
End Signatures.

(** ** Concrete signatures *)

Definition ex_any (b : bytes) : AnySignature :=
  {| as_type := 1; as_signature := EmptyString; as_signature_variant := Some (SvEd25519 b) |}.
(** A two-key account whose second key has signed. *)
Definition ex_multi_key : MultiKeySignaturePB :=
  {| mk_public_keys := [{| apk_public_key := "A" |}; {| apk_public_key := "B" |}];
     mk_signatures := [{| is_index := 1; is_signature := Some (ex_any "s") |}];
     mk_signatures_required := 1 |}.
Definition ex_fee_payer : SignaturePB :=
  {| sg_signature := Some (SgFeePayer
       {| fp_sender := Some {| ac_signature := Some (AcMultiKeySignature ex_multi_key) |};
          fp_secondary_signer_addresses := ["0x2"];
          fp_secondary_signers := [{| ac_signature := Some (AcEd25519
            {| ed_public_key := "C"; ed_signature := "t" |}) |}];
          fp_fee_payer_address := "0x3"; fp_fee_payer_signer := None |}) |}.
Definition ex_rows (s : SignaturePB) : list Signature :=
  match @from_user_transaction plain_hex published_enums "0x1" 7 3 s with
  | Ret (Ok rows) => rows | _ => [] end.

Lemma signature_rows_distinct_witness :
  length (ex_rows ex_fee_payer) = 2 /\ NoDup (signature_key <$> ex_rows ex_fee_payer) /\
  Forall (fun r => sig_transaction_version r = 7%Z) (ex_rows ex_fee_payer).
Proof.
  split; [reflexivity|].
  apply (@signature_rows_distinct plain_hex published_enums "0x1" 7 3 ex_fee_payer). reflexivity.
Defined.

Definition ex_multi_key_rows : list Signature :=
  match @parse_multi_key_signature plain_hex published_enums "0x1" 7 3 ex_multi_key true 0 None with
  | Ret rows => rows | Panic => [] end.

Lemma multi_key_wrong_public_key_witness :
  exists row, ex_multi_key_rows !! 0 = Some row /\ public_key row = "0x41".
Proof.
  eexists. split; [reflexivity|].
  exact (proj1 (@multi_key_wrong_public_key plain_hex published_enums "0x1" 7 3 plain_hex_laws
    ex_multi_key true 0 None ex_multi_key_rows 0 _ {| is_index := 1; is_signature := Some (ex_any "s") |}
    {| apk_public_key := "A" |} {| apk_public_key := "B" |}
    eq_refl eq_refl eq_refl eq_refl eq_refl)).
Defined.
