(* ===== verification/UserTransactions.v ===== *)
(** * User transactions

    [models/user_transactions_models/user_transactions.rs] and
    [processors/user_transaction_processor.rs]: the rows of a batch of
    transactions and how the processor stores them. *)
From S2P Require Import Prelude RustStr Json Externals Proto Util Database Processors Signatures.

Section UserTransactions.
Context `{Chrono, BigDec, HexCodec, ProtoEnums}.

Record UserTransaction := {
  ut_version : Z;
  ut_block_height : Z;
  parent_signature_type : string;
  ut_sender : string;
  ut_sequence_number : Z;
  max_gas_amount : BigDecimal;
  expiration_timestamp_secs : NaiveDateTime;
  gas_unit_price : BigDecimal;
  ut_timestamp : NaiveDateTime;
  entry_function_id_str : string;
  ut_epoch : Z;
}.
#[export] Instance UserTransaction_fields : FieldCount UserTransaction := 11.
#[export] Instance Signature_fields : FieldCount Signature := 11.

Definition get_signatures (user_request : UserTransactionRequest) (version block_height : Z)
  : outcome (list Signature) :=
  match utr_signature user_request with
  | Some s => r ← from_user_transaction (utr_sender user_request) version block_height s; unwrap_result r
  | None => Ret []
  end.

Definition from_transaction (txn : UserTransactionPB) (timestamp : Timestamp)
    (block_height epoch version : Z) : outcome (UserTransaction * list Signature) :=
  user_request ← unwrap (ut_request txn);
  signature_type ← match utr_signature user_request with
                   | Some s => get_signature_type s
                   | None => Ret EmptyString
                   end;
  expiration ← unwrap (utr_expiration_timestamp_secs user_request);
  expiration ← parse_timestamp expiration version;
  ts ← parse_timestamp timestamp version;
  entry_function ← get_entry_function_from_user_request user_request;
  signatures ← get_signatures user_request version block_height;
  Ret ({| ut_version := version;
          ut_block_height := block_height;
          parent_signature_type := signature_type;
          ut_sender := standardize_address (utr_sender user_request);
          ut_sequence_number := as_i64 (utr_sequence_number user_request);
          max_gas_amount := u64_to_bigdecimal (utr_max_gas_amount user_request);
          expiration_timestamp_secs := expiration;
          gas_unit_price := u64_to_bigdecimal (utr_gas_unit_price user_request);
          ut_timestamp := ts;
          entry_function_id_str := default EmptyString entry_function;
          ut_epoch := epoch |},
       signatures).

(** ** The processor *)

Definition insert_user_transactions_query : Upsert UserTransaction Z :=
  {| up_key := ut_version;
     up_action := DoUpdate (fun old new =>
       {| ut_version := ut_version old; ut_block_height := ut_block_height old;
          parent_signature_type := parent_signature_type old; ut_sender := ut_sender old;
          ut_sequence_number := ut_sequence_number old; max_gas_amount := max_gas_amount old;
          expiration_timestamp_secs := expiration_timestamp_secs new;
          gas_unit_price := gas_unit_price old; ut_timestamp := ut_timestamp old;
          entry_function_id_str := entry_function_id_str old; ut_epoch := ut_epoch old |});
     up_where := None |}.

Definition insert_signatures_query : Upsert Signature (Z * Z * Z * bool) :=
  {| up_key := signature_key; up_action := DoNothing; up_where := None |}.

(** One round of the loop over the transactions. *)
Definition user_transaction_step (acc : list UserTransaction * list Signature) (txn : Transaction)
  : outcome (list UserTransaction * list Signature) :=
  let '(user_transactions, signatures) := acc in
  match t_txn_data txn with
  | Some (TdUser inner) =>
      ts ← unwrap (t_timestamp txn);
      '(user_transaction, sigs) ← from_transaction inner ts (as_i64 (t_block_height txn))
                                    (as_i64 (t_epoch txn)) (as_i64 (t_version txn));
      Ret (user_transactions ++ [user_transaction], signatures ++ sigs)
  | _ => Ret (user_transactions, signatures)
  end.

Definition user_transaction_rows (transactions : list Transaction)
  : outcome (list UserTransaction * list Signature) :=
  foldM user_transaction_step ([], []) transactions.

Context `{!PgTable UserTransaction Z, !DebugQuery UserTransaction Z,
          !Serialize UserTransaction, !Deserialize UserTransaction}.
Context `{!PgTable Signature (Z * Z * Z * bool), !DebugQuery Signature (Z * Z * Z * bool),
          !Serialize Signature, !Deserialize Signature}.

Record UserTransactionDb := {
  user_transactions_table : pg_state (row := UserTransaction) (key := Z);
  signatures_table : pg_state (row := Signature) (key := Z * Z * Z * bool);
}.

Definition insert_to_db (user_transactions : list UserTransaction) (signatures : list Signature)
    (sizes : gmap string nat) (d d' : UserTransactionDb) (res : outcome (result unit)) : Prop :=
  exists ut_res is_res,
    write_table insert_user_transactions_query "user_transactions" sizes user_transactions
      (user_transactions_table d) (user_transactions_table d') ut_res /\
    write_table insert_signatures_query "signatures" sizes signatures
      (signatures_table d) (signatures_table d') is_res /\
    res = join_results [ut_res; is_res].

(** [UserTransactionProcessor::process_transactions]. *)
Definition process_user_transactions (sizes : gmap string nat)
  : list Transaction -> Z -> Z -> option Z -> UserTransactionDb -> UserTransactionDb ->
    outcome (result ProcessingResult) -> Prop :=
  process_batch user_transaction_rows (fun rows => insert_to_db rows.1 rows.2 sizes).

#[export] Instance user_transaction_processor (sizes : gmap string nat) : ProcessorTrait UserTransactionDb :=
  {| processor_name := "user_transaction_processor";
     process_transactions := process_user_transactions sizes |}.

(** The processor meets the interface the gap detector relies on. *)
#[export] Instance user_transaction_processor_laws sizes :
  @ProcessorLaws UserTransactionDb (user_transaction_processor sizes).
Proof. intros txns s e chain d d' r Hr. by apply (process_batch_ok _ _ _ _ _ chain) in Hr as [? _]. Qed.

(** ** Rows of a batch *)

Definition user_txn_versions (transactions : list Transaction) : list Z :=
  omap (fun t => match t_txn_data t with Some (TdUser _) => Some (as_i64 (t_version t)) | _ => None end)
    transactions.

Lemma get_signatures_keys req version height rows :
  get_signatures req version height = Ret rows ->
  NoDup (signature_key <$> rows) /\ Forall (fun r => sig_transaction_version r = version) rows.
Proof.
  unfold get_signatures. destruct (utr_signature req) as [s|]; intros Hr; outcome_inv.
  - by eapply from_user_transaction_keys.
  - split; constructor.
Qed.

Lemma from_transaction_rows txn ts height epoch version ut sigs :
  from_transaction txn ts height epoch version = Ret (ut, sigs) ->
  ut_version ut = version /\ NoDup (signature_key <$> sigs) /\
  Forall (fun r => sig_transaction_version r = version) sigs.
Proof.
  unfold from_transaction. intros Hr. outcome_inv. split; [done|]. by eapply get_signatures_keys.
Qed.

Lemma user_transaction_rows_spec transactions uts sigs :
  user_transaction_rows transactions = Ret (uts, sigs) ->
  ut_version <$> uts = user_txn_versions transactions /\
  (NoDup (user_txn_versions transactions) -> NoDup (signature_key <$> sigs)) /\
  Forall (fun r => sig_transaction_version r ∈ user_txn_versions transactions) sigs.
Proof.
  unfold user_transaction_rows. revert uts sigs.
  induction transactions as [|txn txns IH] using rev_ind; intros uts sigs Hr.
  { simpl in Hr. outcome_inv. split_and!; [done|constructor..]. }
  rewrite foldM_app in Hr. apply bind_Ret in Hr as ([uts0 sigs0] & H0' & Hr). simpl in Hr.
  apply bind_Ret in Hr as (acc & Hstep & Hr). outcome_inv.
  destruct (IH uts0 sigs0 H0') as (Hv & Hn & Hf). unfold user_txn_versions. rewrite omap_app.
  fold (user_txn_versions txns). unfold user_transaction_step in Hstep. simpl.
  destruct (t_txn_data txn) as [[| | |u|]|]; outcome_inv; rewrite ?app_nil_r; try done.
  rename select (from_transaction _ _ _ _ _ = _) into Hft.
  apply from_transaction_rows in Hft as (Hu & Hsn & Hsf). split_and!.
  - rewrite fmap_app, Hv. simpl. by rewrite Hu.
  - intros (Hnt & Hd & _)%NoDup_app. rewrite fmap_app. apply NoDup_app. split_and!; [by apply Hn| |done].
    intros k (r & -> & Hr1)%list_elem_of_fmap (r' & Hk & Hr2)%list_elem_of_fmap.
    rewrite Forall_forall in Hf, Hsf. apply (Hd (sig_transaction_version r)); [by apply Hf|].
    rewrite (Hsf r' Hr2) in Hk || (injection Hk as Hk _ _ _; rewrite Hk, (Hsf r' Hr2)); left.
  - apply Forall_app. split; (eapply Forall_impl; [eassumption|]); simpl; intros r Hr; set_solver.
Qed.

Lemma user_txn_versions_NoDup transactions :
  Forall (fun t => in_u64 (t_version t)) transactions -> NoDup (t_version <$> transactions) ->
  NoDup (user_txn_versions transactions).
Proof.
  induction transactions as [|t ts IH]; intros Hv Hn; [constructor|].
  apply Forall_cons in Hv as [Ht Hv]. rewrite fmap_cons in Hn. apply NoDup_cons in Hn as [Hnot Hn].
  unfold user_txn_versions. simpl. fold (user_txn_versions ts).
  destruct (t_txn_data t) as [[| | |u|]|]; try by apply IH. constructor; [|by apply IH].
  intros Hin. apply list_elem_of_omap in Hin as (t' & Ht' & Hd).
  destruct (t_txn_data t') as [[| | |u'|]|]; simplify_eq.
  apply Hnot, list_elem_of_fmap. exists t'. split; [|done].
  rewrite Forall_forall in Hv. apply as_i64_inj; auto.
Qed.

(** nothing of a batch is dropped.  If the processor reports success for
    transactions with distinct versions, and cleaning keeps the primary keys,
    then afterwards every user transaction of the batch and every one of its
    signature rows has a row in its table. *)
Theorem user_transactions_stored `{!PgLaws UserTransaction Z, !PgLaws Signature (Z * Z * Z * bool)}
    (sizes : gmap string nat) (transactions : list Transaction) (s e : Z) (chain : option Z)
    (d d' : UserTransactionDb) (r : ProcessingResult) uts sigs :
  Forall (fun t => in_u64 (t_version t)) transactions -> NoDup (t_version <$> transactions) ->
  user_transaction_rows transactions = Ret (uts, sigs) ->
  Forall (clean_keeps_key insert_user_transactions_query) uts ->
  Forall (clean_keeps_key insert_signatures_query) sigs ->
  process_user_transactions sizes transactions s e chain d d' (Ret (Ok r)) ->
  (forall v, v ∈ user_txn_versions transactions -> is_Some (pg_rows (user_transactions_table d') !! v)) /\
  Forall (fun row => is_Some (pg_rows (signatures_table d') !! signature_key row)) sigs.
Proof.
  intros Hv Hn Hrows Hcu Hcs Hp. apply (process_batch_ok _ _ _ _ _ chain) in Hp as (_ & rows & Hrows' & Hins).
  assert (rows = (uts, sigs)) as -> by congruence.
  destruct Hins as (ur & sr & Hu & Hs & Htx). simpl in Hu, Hs.
  symmetry in Htx. apply join_results_ok in Htx. apply Forall_cons in Htx as [<- Htx].
  apply Forall_cons in Htx as [<- _].
  destruct (user_transaction_rows_spec _ _ _ Hrows) as (Hver & Hsn & _).
  assert (NoDup (user_txn_versions transactions)) as Hnv by (by apply user_txn_versions_NoDup).
  split.
  - assert (Forall (fun t => is_Some (pg_rows (user_transactions_table d') !! ut_version t)) uts) as Hall.
    { eapply (write_table_keys insert_user_transactions_query); [|done|done|exact Hu].
      simpl. by rewrite Hver. }
    intros v Hin. rewrite <- Hver in Hin. apply list_elem_of_fmap in Hin as (t & -> & Ht).
    rewrite Forall_forall in Hall. by apply Hall.
  - eapply (write_table_keys insert_signatures_query); [|done|done|exact Hs]. by apply Hsn.
Qed.
End UserTransactions.

(** ** A concrete batch *)

Section ConcreteBatch.
#[local] Existing Instance pair_chrono.
#[local] Existing Instance int_bigdec.
#[local] Existing Instance plain_hex.
#[local] Existing Instance published_enums.

Definition ex_ut (v : Z) : UserTransaction :=
  {| ut_version := v; ut_block_height := 1; parent_signature_type := "ed25519_signature";
     ut_sender := standardize_address "0x1"; ut_sequence_number := 0; max_gas_amount := 10%Z;
     expiration_timestamp_secs := (9, 0)%Z; gas_unit_price := 100%Z; ut_timestamp := (1, 0)%Z;
     entry_function_id_str := EmptyString; ut_epoch := 0 |}.
Definition ex_sig (v : Z) : Signature :=
  {| sig_transaction_version := v; multi_agent_index := 0; multi_sig_index := 0;
     sig_transaction_block_height := 1; signer := standardize_address "0x1"; is_sender_primary := true;
     sig_type := "ed25519_signature"; public_key := "0x41"; signature := "0x42"; threshold := 1;
     public_key_indices := Array [] |}.

(** Encodings that only vary in the version. *)
#[local] Instance ex_ut_ser : Serialize UserTransaction := fun r => Some (Number (JInt (ut_version r))).
#[local] Instance ex_ut_de : Deserialize UserTransaction :=
  {| de_from_str := fun _ => None;
     de_from_value := fun v => match v with Number (JInt n) => Some (ex_ut n) | _ => None end |}.
#[local] Instance ex_sig_ser : Serialize Signature := fun r => Some (Number (JInt (sig_transaction_version r))).
#[local] Instance ex_sig_de : Deserialize Signature :=
  {| de_from_str := fun _ => None;
     de_from_value := fun v => match v with Number (JInt n) => Some (ex_sig n) | _ => None end |}.
#[local] Instance ex_ut_table : PgTable UserTransaction Z := mem_table UserTransaction Z.
#[local] Instance ex_sig_table : PgTable Signature (Z * Z * Z * bool) := mem_table Signature (Z * Z * Z * bool).
#[local] Instance ex_ut_debug : DebugQuery UserTransaction Z := fun _ _ => EmptyString.
#[local] Instance ex_sig_debug : DebugQuery Signature (Z * Z * Z * bool) := fun _ _ => EmptyString.

Definition ex_request : UserTransactionRequest :=
  {| utr_sender := "0x1"; utr_sequence_number := 0; utr_max_gas_amount := 10;
     utr_gas_unit_price := 100; utr_expiration_timestamp_secs := Some {| seconds := 9; nanos := 0 |};
     utr_payload := Some {| tp_type := 2; tp_payload := Some (PlScriptPayload
       {| sp_code := None; sp_type_arguments := []; sp_arguments := [] |}) |};
     utr_signature := Some {| sg_signature := Some (SgEd25519
       {| ed_public_key := "A"; ed_signature := "B" |}) |} |}.
Definition ex_transaction : Transaction :=
  {| t_timestamp := Some {| seconds := 1; nanos := 0 |}; t_version := 7; t_info := None;
     t_epoch := 0; t_block_height := 1; t_type := 4;
     t_size_info := None; t_txn_data := Some (TdUser {| ut_request := Some ex_request; ut_events := [] |}) |}.
Definition ex_empty_db : UserTransactionDb :=
  {| user_transactions_table := (∅ : gmap Z UserTransaction);
     signatures_table := (∅ : gmap (Z * Z * Z * bool) Signature) |}.
Definition ex_full_db : UserTransactionDb :=
  {| user_transactions_table := ({[ 7%Z := ex_ut 7 ]} : gmap Z UserTransaction);
     signatures_table := ({[ (7, 0, 0, true)%Z := ex_sig 7 ]} : gmap (Z * Z * Z * bool) Signature) |}.
Definition ex_result : ProcessingResult :=
  {| start_version := 7; end_version := 7;
     last_transaction_timestamp := Some {| seconds := 1; nanos := 0 |};
     processing_duration_in_secs := 0; db_insertion_duration_in_secs := 0 |}.

Definition ex_sizes : gmap string nat := {[ "user_transactions" := 10; "signatures" := 10 ]}.

(** One task commits the single chunk. *)
Ltac one_chunk := eexists; split;
  [eapply rtc_l; [eapply (tasks_step_at _ 0); reflexivity|apply rtc_refl]
  |right; split_and!; [set_solver|reflexivity..]].

Lemma ex_process :
  process_user_transactions ex_sizes [ex_transaction] 7 7 None ex_empty_db ex_full_db (Ret (Ok ex_result)).
Proof.
  assert (user_transaction_rows [ex_transaction] = Ret ([ex_ut 7], [ex_sig 7])) as Hrows by reflexivity.
  unfold process_user_transactions, process_batch. rewrite Hrows. simpl.
  exists (Ret (Ok tt)), 0%Z, 0%Z. split; [|reflexivity].
  exists (Ret (Ok tt)), (Ret (Ok tt)). split; [one_chunk|split; [one_chunk|reflexivity]].
Qed.

Lemma user_transactions_stored_witness :
  (forall v, v ∈ user_txn_versions [ex_transaction] ->
     is_Some (pg_rows (user_transactions_table ex_full_db) !! v)) /\
  Forall (fun row => is_Some (pg_rows (signatures_table ex_full_db) !! signature_key row)) [ex_sig 7].
Proof.
  apply (user_transactions_stored (PgLaws0 := mem_laws UserTransaction Z)
           (PgLaws1 := mem_laws Signature (Z * Z * Z * bool))
           ex_sizes [ex_transaction] 7 7 None ex_empty_db ex_full_db ex_result [ex_ut 7] [ex_sig 7]).
  - apply Forall_singleton. split; simpl; lia.
  - apply NoDup_singleton.
  - reflexivity.
  - apply Forall_singleton. intros r' Hr. change (Ret (ex_ut 7) = Ret r') in Hr. by injection Hr as <-.
  - apply Forall_singleton. intros r' Hr. change (Ret (ex_sig 7) = Ret r') in Hr. by injection Hr as <-.
  - exact ex_process.
Defined.
End ConcreteBatch.
