(* ===== verification/Events.v ===== *)
(** * Events

    [models/events_models/events.rs] and [processors/events_processor.rs]: the
    rows of the events of user transactions, the row added for a created
    multisig account, and how the processor stores them. *)
From Stdlib Require Import Ascii.
From S2P Require Import Prelude RustStr Json Externals Proto Util Database Processors.

Section Events.
Context `{Chrono, JsonParse}.
Context `{!Serialize EntryFunctionPayload}.

Definition EVENT_TYPE_MAX_LENGTH : nat := 600.

Record Event := {
  e_sequence_number : Z;
  e_creation_number : Z;
  e_account_address : string;
  e_transaction_version : Z;
  e_transaction_block_height : Z;
  e_type : string;
  e_data : Value;
  e_event_index : Z;
  e_indexed_type : string;
  e_from : string;
  e_entry_function_payload : Value;
  e_entry_function_id_str : string;
  e_module_address : string;
  e_module_name : string;
  e_event_name : string;
  e_inserted_at : NaiveDateTime;
}.
#[export] Instance Event_fields : FieldCount Event := 16.
Definition event_key (e : Event) : Z * Z := (e_transaction_version e, e_event_index e).

(** [NaiveDateTime::from_timestamp] panics where [from_timestamp_opt] is
    [None]. *)
Definition timestamp_to_naive (t : option Timestamp) : outcome NaiveDateTime :=
  match t with
  | Some timestamp => unwrap (from_timestamp_opt (seconds timestamp) (as_u32 (nanos timestamp)))
  | None => unwrap (from_timestamp_opt 0 0)
  end.

(** The third part of a type, without its type arguments. *)
Definition event_name_of (t : string) : string :=
  let parts := split "::" t in
  let event_name := default EmptyString (parts !! 2) in
  default EmptyString (head (split "<" event_name)).

Definition from_event (event : EventPB) (transaction_version transaction_block_height event_index : Z)
    (request : option UserTransactionRequest) (inserted_at : option Timestamp) : outcome Event :=
  let t := ev_type_str event in
  let request_data := match request with Some r => utr_payload r | None => None end in
  key ← unwrap (ev_key event);
  data ← unwrap (json_from_str (ev_data event));
  indexed_type ← truncate_str t EVENT_TYPE_MAX_LENGTH;
  inserted ← timestamp_to_naive inserted_at;
  match request_data with
  | Some rd =>
      payload ← unwrap (tp_payload rd);
      let entry_function_payload_json :=
        match payload with PlEntryFunctionPayload p => to_value p | _ => None end in
      let entry_function_id_str :=
        match payload with PlEntryFunctionPayload p => efp_entry_function_id_str p | _ => EmptyString end in
      r ← unwrap request;
      Ret {| e_account_address := standardize_address (ek_account_address key);
             e_creation_number := as_i64 (ek_creation_number key);
             e_sequence_number := as_i64 (ev_sequence_number event);
             e_transaction_version := transaction_version;
             e_transaction_block_height := transaction_block_height;
             e_type := t;
             e_data := data;
             e_event_index := event_index;
             e_indexed_type := indexed_type;
             e_from := utr_sender r;
             e_entry_function_payload := default Null entry_function_payload_json;
             e_entry_function_id_str := entry_function_id_str;
             e_module_address := default EmptyString (head (split "::" t));
             e_module_name := default EmptyString (split "::" t !! 1);
             e_event_name := event_name_of t;
             e_inserted_at := inserted |}
  | None =>
      module_address ← unwrap (head (split "::" t));
      module_name ← unwrap (split "::" t !! 1);
      Ret {| e_account_address := standardize_address (ek_account_address key);
             e_creation_number := as_i64 (ek_creation_number key);
             e_sequence_number := as_i64 (ev_sequence_number event);
             e_transaction_version := transaction_version;
             e_transaction_block_height := transaction_block_height;
             e_type := t;
             e_data := data;
             e_event_index := event_index;
             e_indexed_type := indexed_type;
             e_from := EmptyString;
             e_entry_function_payload := Null;
             e_entry_function_id_str := EmptyString;
             e_module_address := module_address;
             e_module_name := module_name;
             e_event_name := event_name_of t;
             e_inserted_at := inserted |}
  end.

Definition from_events (events : list EventPB) (transaction_version transaction_block_height : Z)
    (request : option UserTransactionRequest) (inserted_at : option Timestamp)
  : outcome (list Event) :=
  traverse (fun '(index, event) =>
    from_event event transaction_version transaction_block_height index request inserted_at)
    (enumerate events).

(** Whether the transaction of an event calls [create_with_owners]. *)
Definition is_multisig_wallet_created_transaction (txn_event : Event) : bool :=
  match as_object (e_entry_function_payload txn_event) with
  | None => false
  | Some _ =>
      match value_get "function" (e_entry_function_payload txn_event) with
      | None => false
      | Some function =>
          match value_get "name" function with
          | None => false
          | Some name =>
              match as_str name with
              | None => false
              | Some name_str => bool_decide (name_str = "create_with_owners")
              end
          end
      end
  end.

(** ** The processor *)

Definition FILTERED_EVENTS : list string :=
  ["0x1::transaction_fee::FeeStatement"; "0x1::multisig_account::create_with_owners"].

Definition REQUIRED_EVENTS : list string :=
  ["0x111ae3e5bc816a5e63c2da97d0aa3886519e0cd5e4b046659fa35796bd11542a";
   "0x9770fa9c725cbd97eb50b2be5f7416efdfd1f1554beb0750d4dae4c64e860da3";
   "0x190d44266241744264b964a37b8f09863167a12d3e70cda39376cfb4e3561e12";
   "0x61d2c22a6cb7831bee0f48363b0eec92369357aece0d1142062f7d5d85c7bef8";
   "0xc7efb4076dbe143cbcd98cfaaa929ecfc8f299203dfff63b95ccb6bfe19850fa";
   "0x48271d39d0b05bd6efca2278f22277d6fcc375504f9839fd73f74ace240861af";
   "0x5ae6789dd2fec1a9ec9cccfb3acaf12e93d432f0a3a42c92fe1a9d490b7bbc06";
   "0x31a6675cbe84365bf2b0cbce617ece6c47023ef70826533bde5203d32171dc3c";
   "0xe11c12ec495f3989c35e1c6a0af414451223305b579291fc8f3d9d0575a23c26";
   "0x584b50b999c78ade62f8359c91b5165ff390338d45f8e55969a04e65d76258c9";
   "0xd520d8669b0a3de23119898dcdff3e0a27910db247663646ad18cf16e44c6f5";
   "0xc0deb00c405f84c85dc13442e305df75d1288100cdd82675695f6148c7ece51c";
   "0x17f1e926a81639e9557f4e4934df93452945ec30bc962e11351db59eb0d78c33";
   "0x1::voting";
   "0x1::aptos_governance";
   "0x1::delegation_pool";
   "0x05a97986a9d031c4567e15b797be516910cfcb4156312482efc6a19c0a30c948";
   "0xfaf4e633ae9eb31366c9ca24214231760926576c7b625313b3688b5e900731f6";
   "0x163df34fccbf003ce219d3f1d9e70d140b60622cb9dd47599c25fb2f797ba6e";
   "0x4bf51972879e3b95c4781a5cdcb9e1ee24ef483e7d22f2d903626f126df62bd1";
   "0x3c1d4a86594d681ff7e5d5a233965daeabdc6a15fe5672ceeda5260038857183";
   "0xc6bc659f1649553c1a3fa05d9727433dc03843baac29473c817d06d39e7621ba";
   "0x167f411fc5a678fb40d86e0af646fa8f62458b686ad8996215248447037af40c";
   "0x1::multisig_account::CreateTransactionEvent";
   "0x1::multisig_account::AddOwnersEvent";
   "0x1::multisig_account::RemoveOwnersEvent";
   "0x1::multisig_account::VoteEvent";
   "0x1::multisig_account::TransactionExecutionSucceededEvent";
   "0x1::multisig_account::TransactionExecutionFailedEvent";
   "0x1::multisig_account::ExecuteRejectedTransactionEvent";
   "0xccd1a84ccea93531d7f165b90134aa0415feb30e8757ab1632dac68c0055f5c2"].

Definition multisig_account_type : string := "0x1::multisig_account::MultisigAccount".

Definition insert_events_query : Upsert Event (Z * Z) :=
  {| up_key := event_key;
     up_action := DoUpdate (fun old new =>
       {| e_account_address := e_account_address old;
          e_creation_number := e_creation_number old;
          e_sequence_number := e_sequence_number old;
          e_transaction_version := e_transaction_version old;
          e_transaction_block_height := e_transaction_block_height old;
          e_type := e_type old;
          e_data := e_data old;
          e_event_index := e_event_index old;
          e_indexed_type := e_indexed_type new;
          e_from := e_from old;
          e_entry_function_payload := e_entry_function_payload old;
          e_entry_function_id_str := e_entry_function_id_str old;
          e_module_address := e_module_address old;
          e_module_name := e_module_name old;
          e_event_name := e_event_name old;
          e_inserted_at := e_inserted_at new |});
     up_where := None |}.

(** The [filter] and [for_each] over the changes: a written multisig account
    adds an event, whose index is the number of events collected so far. *)
Definition push_multisig_event (txn_version block_height : Z) (request : UserTransactionRequest)
    (inserted_at : option Timestamp) (events : list Event) (c : WriteSetChangePB)
  : outcome (list Event) :=
  change ← unwrap (wsc_change c);
  match change with
  | ChangeWriteResource write_resource =>
      if decide (wr_type_str write_resource = multisig_account_type) then
        let event := {| ev_key := Some {| ek_account_address := standardize_address (utr_sender request);
                                          ek_creation_number := utr_sequence_number request |};
                        ev_sequence_number := utr_sequence_number request;
                        ev_type := None;
                        ev_type_str := wr_type_str write_resource;
                        ev_data := wr_data write_resource |} in
        txn_create_multisig_event ←
          from_event event txn_version block_height (as_i64 (Z.of_nat (length events)))
            (Some request) inserted_at;
        Ret (events ++ [txn_create_multisig_event])
      else Ret events
  | _ => Ret events
  end.

Definition keep_event (txn_event : Event) : bool :=
  (negb (bool_decide (e_type txn_event ∈ FILTERED_EVENTS))
   || bool_decide (e_type txn_event ∈ REQUIRED_EVENTS))
  && negb (bool_decide (e_entry_function_id_str txn_event ∈ FILTERED_EVENTS)).

(** One round of the loop over the transactions. *)
Definition events_step (events : list Event) (txn : Transaction) : outcome (list Event) :=
  let txn_version := as_i64 (t_version txn) in
  let block_height := as_i64 (t_block_height txn) in
  match t_txn_data txn with
  | None => Ret events
  | Some txn_data =>
      let raw_events := match txn_data with
                        | TdBlockMetadata inner => bm_events inner
                        | TdGenesis inner => gt_events inner
                        | TdUser inner => ut_events inner
                        | _ => []
                        end in
      let tnx_user_request := match txn_data with TdUser inner => ut_request inner | _ => None end in
      match tnx_user_request with
      | None => Ret events
      | Some request =>
          let inserted_at := t_timestamp txn in
          events ← match txn_data with
                   | TdUser _ =>
                       info ← unwrap (t_info txn);
                       foldM (push_multisig_event txn_version block_height request inserted_at)
                         events (ti_changes info)
                   | _ => Ret events
                   end;
          txn_events ← from_events raw_events txn_version block_height tnx_user_request inserted_at;
          Ret (events ++ filter (fun e => keep_event e = true) txn_events)
      end
  end.

Definition event_rows (transactions : list Transaction) : outcome (list Event) :=
  foldM events_step [] transactions.

Context `{!PgTable Event (Z * Z), !DebugQuery Event (Z * Z), !Serialize Event, !Deserialize Event}.

Definition insert_events (sizes : gmap string nat) (events : list Event) (d d' : pg_state)
    (res : outcome (result unit)) : Prop :=
  write_table insert_events_query "events" sizes events d d' res.

(** [EventsProcessor::process_transactions]. *)
Definition process_events (sizes : gmap string nat)
  : list Transaction -> Z -> Z -> option Z -> pg_state -> pg_state ->
    outcome (result ProcessingResult) -> Prop :=
  process_batch event_rows (insert_events sizes).

#[export] Instance events_processor (sizes : gmap string nat)
  : ProcessorTrait (pg_state (row := Event) (key := Z * Z)) :=
  {| processor_name := "events_processor"; process_transactions := process_events sizes |}.
#[export] Instance events_processor_laws sizes : @ProcessorLaws _ (events_processor sizes).
Proof. intros txns s e chain d d' r Hr. by apply (process_batch_ok _ _ _ _ _ chain) in Hr as [? _]. Qed.
(** ** Rows of one event *)

Lemma from_event_key event v h i req ts e :
  from_event event v h i req ts = Ret e -> event_key e = (v, i) /\ e_type e = ev_type_str event.
Proof.
  unfold from_event. intros He. repeat outcome_step.
  destruct (match req with Some r => utr_payload r | None => None end) as [rd|]; outcome_inv; done.
Qed.

Lemma from_events_rows events v h req ts rows :
  from_events events v h req ts = Ret rows ->
  event_key <$> rows = (fun i => (v, i)) <$> (enumerate events).*1 /\
  (forall row, row ∈ rows <-> exists n ev, events !! n = Some ev /\
     from_event ev v h (Z.of_nat n) req ts = Ret row).
Proof.
  unfold from_events. intros Hr%traverse_Ret. split.
  - induction Hr as [|[i ev] row l rows Hrow _ IH]; [done|].
    rewrite !fmap_cons, IH. f_equal. by eapply from_event_key.
  - intros row. split.
    + intros [j Hj]%list_elem_of_lookup. destruct (Forall2_lookup_r _ _ _ _ _ Hr Hj) as ([i ev] & Hi & Hrow).
      rewrite enumerate_from_lookup in Hi. destruct (events !! j) as [ev'|] eqn:Hev; simplify_eq/=. eauto.
    + intros (n & ev & Hn & Hrow).
      assert (enumerate events !! n = Some (Z.of_nat n, ev)) as Hi.
      { rewrite enumerate_from_lookup, Hn. done. }
      destruct (Forall2_lookup_l _ _ _ _ _ Hr Hi) as (row' & Hj & Hrow'). simpl in Hrow'.
      assert (row' = row) as -> by congruence. by eapply list_elem_of_lookup_2.
Qed.

(** No name is both filtered and required, so [REQUIRED_EVENTS] never
    matters. *)
Lemma required_not_filtered : Forall (fun t => t ∉ FILTERED_EVENTS) REQUIRED_EVENTS.
Proof. apply (bool_decide_unpack _). vm_compute. done. Qed.

Lemma keep_event_spec e :
  keep_event e = true <->
  (e_type e ∉ FILTERED_EVENTS) /\ (e_entry_function_id_str e ∉ FILTERED_EVENTS).
Proof.
  pose proof required_not_filtered as Hr. rewrite Forall_forall in Hr. specialize (Hr (e_type e)).
  unfold keep_event. rewrite andb_true_iff, orb_true_iff, !negb_true_iff, !bool_decide_eq_false,
    bool_decide_eq_true. tauto.
Qed.

(** ** Rows of a batch *)

(** The change writes a multisig account. *)
Definition multisig_write (c : WriteSetChangePB) : Prop :=
  match wsc_change c with
  | Some (ChangeWriteResource wr) => wr_type_str wr = multisig_account_type
  | _ => False
  end.
Definition no_multisig_write (t : Transaction) : Prop :=
  forall info c, t_info t = Some info -> c ∈ ti_changes info -> ~ multisig_write c.

(** [row] is the row of an event of the user transaction [t] that is not
    filtered, neither by its type nor by the entry function called. *)
Definition event_row_of (t : Transaction) (row : Event) : Prop :=
  exists u req n ev, t_txn_data t = Some (TdUser u) /\ ut_request u = Some req /\
    ut_events u !! n = Some ev /\
    from_event ev (as_i64 (t_version t)) (as_i64 (t_block_height t)) (Z.of_nat n) (Some req)
      (t_timestamp t) = Ret row /\
    (ev_type_str ev ∉ FILTERED_EVENTS) /\ (e_entry_function_id_str row ∉ FILTERED_EVENTS).

Lemma push_multisig_event_none v h req ts events changes events' :
  (forall c, c ∈ changes -> ~ multisig_write c) ->
  foldM (push_multisig_event v h req ts) events changes = Ret events' -> events' = events.
Proof.
  intros Hc. apply (foldM_ind (fun es => es = events)); [done|].
  intros es c es' Hin -> Hp. specialize (Hc c Hin). unfold multisig_write in Hc.
  unfold push_multisig_event in Hp. outcome_step. outcome_inv.
  destruct x; outcome_inv; try done. rewrite H1 in Hc. case_decide; [done|]. by outcome_inv.
Qed.
Lemma events_step_rows events txn events' :
  no_multisig_write txn -> events_step events txn = Ret events' ->
  exists new, events' = events ++ new /\ NoDup (event_key <$> new) /\
    Forall (fun r => e_transaction_version r = as_i64 (t_version txn)) new /\
    (forall row, row ∈ new <-> event_row_of txn row).
Proof.
  intros Hm Hs. unfold events_step in Hs.
  assert ((exists u req, t_txn_data txn = Some (TdUser u) /\ ut_request u = Some req) \/
          (events' = events /\ forall row, ~ event_row_of txn row)) as [(u & req & Hd & Hreq)|[-> Hn]].
  { destruct (t_txn_data txn) as [[| | |u|]|] eqn:Hd; outcome_inv;
      try (right; split; [done|]; intros row (u' & req' & n & ev & Hd' & _); congruence).
    destruct (ut_request u) as [req|] eqn:Hreq; [left; eauto|]. outcome_inv. right. split; [done|].
    intros row (u' & req' & n & ev & Hd' & Hreq' & _). congruence. }
  - rewrite Hd, Hreq in Hs. outcome_inv.
    rename select (foldM _ _ _ = _) into Hf. apply push_multisig_event_none in Hf as ->; [|by intros c Hc; apply (Hm x1 c)].
    rename select (from_events _ _ _ _ _ = _) into Hr. apply from_events_rows in Hr as [Hk Hin].
    eexists. split_and!; [done|..].
    + eapply sublist_NoDup; [|apply fmap_sublist, sublist_filter]. rewrite Hk.
      apply NoDup_fmap_2; [by intros ?? [=]|apply NoDup_enumerate_from].
    + apply Forall_forall. intros r [_ Hr]%list_elem_of_filter.
      assert (event_key r ∈ event_key <$> x0) as Hkr by (by apply list_elem_of_fmap_2).
      rewrite Hk in Hkr. apply list_elem_of_fmap in Hkr as (i & [= Hv _] & _). done.
    + intros row. rewrite list_elem_of_filter, keep_event_spec, Hin. split.
      * intros ([Ht He] & n & ev & Hn & Hrow). exists u, req, n, ev. split_and!; try done.
        apply from_event_key in Hrow as [_ <-]. done.
      * intros (u' & req' & n & ev & Hd' & Hreq' & Hn & Hrow & Ht & He). simplify_eq.
        split; [|eauto]. pose proof (from_event_key _ _ _ _ _ _ _ Hrow) as [_ ->]. done.
  - exists []. rewrite app_nil_r. split_and!; [done|constructor|constructor|].
    intros row. split; [by intros ?%not_elem_of_nil|by intros ?%Hn].
Qed.

(** the rows of a batch are exactly its events.  For transactions with
    distinct versions of which none writes a multisig account, the rows have
    distinct primary keys, and a row is stored exactly when it is the row, at
    its index in the transaction, of an event of a user transaction with a
    request such that neither the type of the event nor the entry function
    called is one of the two filtered names. *)
Theorem event_rows_exact (transactions : list Transaction) (rows : list Event) :
  Forall (fun t => in_u64 (t_version t)) transactions -> NoDup (t_version <$> transactions) ->
  Forall no_multisig_write transactions -> event_rows transactions = Ret rows ->
  NoDup (event_key <$> rows) /\
  (forall row, row ∈ rows <-> exists t, t ∈ transactions /\ event_row_of t row).
Proof.
  intros Hv Hn Hm Hr. rewrite Forall_forall in Hm. split.
  - eapply (appended_rows_NoDup events_step id e_transaction_version event_key) in Hr as [Hnd _];
      [done| |by intros ?? [=]|done|by apply batch_versions_NoDup].
    intros es t es' Ht Hs. apply events_step_rows in Hs as (new & ? & ? & ? & _); [|by apply Hm]. eauto.
  - revert rows Hr. unfold event_rows.
    induction transactions as [|txn txns IH] using rev_ind; intros rows Hr.
    { simpl in Hr. outcome_inv. set_solver. }
    rewrite foldM_app in Hr. apply bind_Ret in Hr as (rows0 & Hr0 & Hr). simpl in Hr. outcome_inv.
    rename select (events_step _ _ = _) into Hs.
    apply events_step_rows in Hs as (new & -> & _ & _ & Hni); [|apply Hm; set_solver].
    intros row. rewrite elem_of_app, Hni, IH; [set_solver| | | |done].
    + by apply Forall_app in Hv as [? _].
    + rewrite fmap_app in Hn. by apply NoDup_app in Hn as [? _].
    + intros t Ht. apply Hm. set_solver.
Qed.

(** ** Parts of an event type *)

Lemma event_name_of_generic a m n args :
  ":"%char ∉ String.list_ascii_of_string a -> ":"%char ∉ String.list_ascii_of_string m ->
  ":"%char ∉ String.list_ascii_of_string n -> "<"%char ∉ String.list_ascii_of_string n ->
  args = EmptyString \/ (exists rest, args = "<" +:+ rest) ->
  exists tl, split "::" (a +:+ "::" +:+ m +:+ "::" +:+ n +:+ args) = a :: m :: tl /\
    event_name_of (a +:+ "::" +:+ m +:+ "::" +:+ n +:+ args) = n.
Proof.
  intros Ha Hm Hn Hn' Hargs. unfold event_name_of.
  rewrite (split_cons ":"%char ":" a), (split_cons ":"%char ":" m) by done. eexists. split; [done|]. simpl.
  destruct Hargs as [->|[rest ->]].
  - rewrite str_app_nil_r, (split_nil ":"%char ":" n) by done. simpl. by rewrite split_nil.
  - unfold split at 2. rewrite split_go_copy by done.
    destruct (split_go_head "::" 0 (n +:+ "<") rest) as (x & l & Hx).
    assert (split_go "::" 0 n ("<" +:+ rest) = (n +:+ "<" +:+ x) :: l) as Hs.
    { rewrite <- str_app_assoc, <- Hx. apply (split_go_copy ":"%char ":" n "<" rest).
      simpl. apply not_elem_of_cons. split; [done|apply not_elem_of_nil]. }
    change (EmptyString +:+ n) with n. rewrite Hs. simpl.
    change (String "<" x) with ("<" +:+ x). rewrite split_cons by done. done.
Qed.

(** the columns split from the type of an event name its parts.  For an
    event of type [a::m::n], with or without type arguments, where [a] and [m]
    contain no colon and [n] neither a colon nor an opening bracket, the row
    has module address [a], module name [m] and event name [n], whatever the
    request is. *)
Theorem event_type_parts (event : EventPB) v h i req ts (e : Event) a m n args :
  ":"%char ∉ String.list_ascii_of_string a -> ":"%char ∉ String.list_ascii_of_string m ->
  ":"%char ∉ String.list_ascii_of_string n -> "<"%char ∉ String.list_ascii_of_string n ->
  args = EmptyString \/ (exists rest, args = "<" +:+ rest) ->
  ev_type_str event = a +:+ "::" +:+ m +:+ "::" +:+ n +:+ args ->
  from_event event v h i req ts = Ret e ->
  e_module_address e = a /\ e_module_name e = m /\ e_event_name e = n.
Proof.
  intros Ha Hm Hn Hn' Hargs Ht He.
  destruct (event_name_of_generic a m n args) as (tl & Hsplit & Hname); [done..|].
  unfold from_event in He. rewrite Ht, Hsplit in He. repeat outcome_step.
  destruct (match req with Some r => utr_payload r | None => None end) as [rd|]; outcome_inv; done.
Qed.
(** ** Created multisig accounts *)

(** The added events are numbered on from the events collected so far. *)
Lemma push_multisig_event_some v h req ts events changes events' :
  foldM (push_multisig_event v h req ts) events changes = Ret events' ->
  exists new, events' = events ++ new /\
    (forall r, head new = Some r -> event_key r = (v, as_i64 (Z.of_nat (length events)))) /\
    ((exists c, c ∈ changes /\ multisig_write c) -> new ≠ []).
Proof.
  revert events. induction changes as [|c changes IH]; intros events Hf; simpl in Hf.
  { outcome_inv. exists []. rewrite app_nil_r. split_and!; [done..|].
    by intros (c & ?%not_elem_of_nil & _). }
  outcome_inv. rename select (push_multisig_event _ _ _ _ _ _ = _) into Hp.
  apply IH in Hf as (new & -> & Hk & Hne). unfold push_multisig_event in Hp.
  apply bind_Ret in Hp as (ch & Hch & Hp). apply unwrap_Ret in Hch.
  assert (x = events /\ ~ multisig_write c \/
          exists r, x = events ++ [r] /\ event_key r = (v, as_i64 (Z.of_nat (length events))))
    as [[-> Hno]|(r & -> & Hr)].
  { unfold multisig_write. rewrite Hch. destruct ch as [| | | |wr|]; outcome_inv; auto.
    case_decide; outcome_inv; [right|by left]. eexists. split; [done|]. by eapply from_event_key. }
  - exists new. split_and!; [done..|]. intros (c' & Hin & Hw). apply Hne. exists c'.
    split; [|done]. apply elem_of_cons in Hin as [->|]; done.
  - exists (r :: new). rewrite <- app_assoc. split_and!; [done| |done]. by intros ? [= <-].
Qed.

Lemma events_step_prefix events txn events' :
  events_step events txn = Ret events' -> exists new, events' = events ++ new.
Proof.
  unfold events_step. intros Hs.
  destruct (t_txn_data txn) as [[| | |u|]|]; outcome_inv; try by (exists []; rewrite app_nil_r).
  destruct (ut_request u); outcome_inv; [|by exists []; rewrite app_nil_r].
  rename select (foldM _ _ _ = _) into Hf.
  apply push_multisig_event_some in Hf as (new & -> & _). rewrite <- app_assoc. eauto.
Qed.

Lemma event_rows_prefix events txns rows :
  foldM events_step events txns = Ret rows -> exists new, rows = events ++ new.
Proof.
  apply (foldM_ind (fun es => exists new, es = events ++ new)).
  - exists []. by rewrite app_nil_r.
  - intros es t es' _ [new ->] [new' ->]%events_step_prefix. rewrite <- app_assoc. eauto.
Qed.

(** The first transaction of a batch writes a multisig account and its first
    event is stored: two rows with index 0. *)
Lemma multisig_event_collides txn txns rows info c row :
  t_info txn = Some info -> c ∈ ti_changes info -> multisig_write c ->
  event_row_of txn row -> e_event_index row = 0%Z ->
  event_rows (txn :: txns) = Ret rows -> ~ NoDup (event_key <$> rows).
Proof.
  intros Hi Hc Hm (u & req & n & ev & Hd & Hreq & Hn & Hrow & Ht & He) H0i Hr.
  unfold event_rows in Hr. simpl in Hr. apply bind_Ret in Hr as (es & Hs & Hr).
  apply event_rows_prefix in Hr as [rest ->]. unfold events_step in Hs. rewrite Hd, Hreq, Hi in Hs.
  simpl in Hs. outcome_inv. rename select (foldM _ _ _ = _) into Hf.
  apply push_multisig_event_some in Hf as (new & -> & Hk & Hne).
  destruct new as [|r new]; [by destruct Hne; eauto|]. specialize (Hk r eq_refl).
  rename select (from_events _ _ _ _ _ = _) into Hfr. apply from_events_rows in Hfr as [_ Hin].
  pose proof (from_event_key _ _ _ _ _ _ _ Hrow) as [Hkey Hty].
  assert (row ∈ filter (fun e => keep_event e = true) x0) as Hrin.
  { apply list_elem_of_filter. split; [apply keep_event_spec; by rewrite Hty|]. apply Hin. eauto. }
  assert (event_key r = event_key row) as Heq.
  { rewrite Hk, Hkey. injection Hkey as _ Hidx. rewrite Hidx in H0i. by rewrite H0i. }
  simpl. intros [Hnot _]%NoDup_cons. apply Hnot. rewrite Heq. apply list_elem_of_fmap_2. set_solver.
Qed.

(** a created multisig account makes a batch fail.  If the first
    transaction of a batch writes a multisig account and its first event is
    kept, and the rows fit in one statement, then processing never succeeds:
    the row added for the account takes the index of that event, and the
    server refuses a statement that touches a row twice. *)
Theorem multisig_batch_fails `{!PgLaws Event (Z * Z)} (sizes : gmap string nat) (size : nat)
    (txn : Transaction) (txns : list Transaction) (rows : list Event) info c row s e chain d d' r :
  t_info txn = Some info -> c ∈ ti_changes info -> multisig_write c ->
  event_row_of txn row -> e_event_index row = 0%Z ->
  event_rows (txn :: txns) = Ret rows -> Forall (clean_keeps_key insert_events_query) rows ->
  sizes !! "events" = Some size -> length rows <= size ->
  ~ process_events sizes (txn :: txns) s e chain d d' (Ret (Ok r)).
Proof.
  intros Hi Hc Hm Hrow H0i Hr Hck Hsize Hlen Hp.
  apply (process_batch_ok _ _ _ _ _ chain) in Hp as (_ & rows' & Hr' & Hw).
  assert (rows' = rows) as -> by congruence.
  unfold insert_events, write_table, get_config_table_chunk_size in Hw. rewrite Hsize in Hw.
  eapply (repeated_key_fails insert_events_query); [done|done| |done|exact Hlen|exact Hw].
  by eapply multisig_event_collides.
Qed.
End Events.

(** ** A concrete batch *)

Section ConcreteEvents.
#[local] Existing Instance pair_chrono.
#[local] Existing Instance text_json.
#[local] Instance ex_payload_ser : Serialize EntryFunctionPayload := fun p =>
  Some (Str (efp_entry_function_id_str p)).

Definition ex_event_pb (t : string) : EventPB :=
  {| ev_key := Some {| ek_account_address := "0xcafe"; ek_creation_number := 3 |};
     ev_sequence_number := 5; ev_type := None; ev_type_str := t; ev_data := "data" |}.
Definition ex_withdraw : EventPB :=
  ex_event_pb "0x1::coin::WithdrawEvent<0x1::aptos_coin::AptosCoin>".
Definition ex_fee : EventPB := ex_event_pb "0x1::transaction_fee::FeeStatement".
Definition ex_event_request : UserTransactionRequest :=
  {| utr_sender := "0xcafe"; utr_sequence_number := 12; utr_max_gas_amount := 10;
     utr_gas_unit_price := 100; utr_expiration_timestamp_secs := None;
     utr_payload := Some {| tp_type := 1; tp_payload := Some (PlEntryFunctionPayload
       {| efp_function := None; efp_type_arguments := []; efp_arguments := [];
          efp_entry_function_id_str := "0x1::coin::transfer" |}) |};
     utr_signature := None |}.
Definition ex_event_info (changes : list WriteSetChangePB) : TransactionInfo :=
  {| ti_hash := EmptyString; ti_state_change_hash := EmptyString; ti_event_root_hash := EmptyString;
     ti_state_checkpoint_hash := None; ti_gas_used := 1; ti_success := true;
     ti_vm_status := EmptyString; ti_accumulator_root_hash := EmptyString; ti_changes := changes |}.
Definition ex_event_txn (changes : list WriteSetChangePB) : Transaction :=
  {| t_timestamp := Some {| seconds := 1; nanos := 0 |}; t_version := 7;
     t_info := Some (ex_event_info changes);
     t_epoch := 0; t_block_height := 1; t_type := 4;
     t_size_info := None; t_txn_data := Some (TdUser {| ut_request := Some ex_event_request;
                                   ut_events := [ex_withdraw; ex_fee] |}) |}.
Definition ex_event : Event :=
  {| e_sequence_number := 5; e_creation_number := 3;
     e_account_address := standardize_address "0xcafe";
     e_transaction_version := 7; e_transaction_block_height := 1;
     e_type := ev_type_str ex_withdraw; e_data := Str "data"; e_event_index := 0;
     e_indexed_type := ev_type_str ex_withdraw; e_from := "0xcafe";
     e_entry_function_payload := Str "0x1::coin::transfer";
     e_entry_function_id_str := "0x1::coin::transfer";
     e_module_address := "0x1"; e_module_name := "coin"; e_event_name := "WithdrawEvent";
     e_inserted_at := (1, 0)%Z |}.

(** The fee event is filtered, the other one is stored. *)
Lemma event_rows_exact_witness :
  event_rows [ex_event_txn []] = Ret [ex_event] /\
  NoDup (event_key <$> [ex_event]) /\
  (forall row, row ∈ [ex_event] <-> exists t, t ∈ [ex_event_txn []] /\ event_row_of t row).
Proof.
  assert (event_rows [ex_event_txn []] = Ret [ex_event]) as Hr by reflexivity.
  split; [exact Hr|]. apply (event_rows_exact [ex_event_txn []] [ex_event]).
  - apply Forall_singleton. split; simpl; lia.
  - apply NoDup_singleton.
  - apply Forall_singleton. intros info c Hi Hc. injection Hi as <-. by apply not_elem_of_nil in Hc.
  - exact Hr.
Defined.

Lemma event_type_parts_witness :
  e_module_address ex_event = "0x1" /\ e_module_name ex_event = "coin" /\
  e_event_name ex_event = "WithdrawEvent".
Proof.
  apply (event_type_parts ex_withdraw 7 1 0 (Some ex_event_request) (Some {| seconds := 1; nanos := 0 |})
           ex_event "0x1" "coin" "WithdrawEvent" "<0x1::aptos_coin::AptosCoin>").
  1-4: apply (bool_decide_unpack _); vm_compute; exact I.
  - right. by exists "0x1::aptos_coin::AptosCoin>".
  - reflexivity.
  - reflexivity.
Defined.

(** The first transaction of the batch also writes a multisig account. *)
Definition ex_multisig_write : WriteSetChangePB :=
  {| wsc_type := 5; wsc_change := Some (ChangeWriteResource
       {| wr_address := "0xbeef"; wr_state_key_hash := EmptyString; wr_type := None;
          wr_type_str := "0x1::multisig_account::MultisigAccount"; wr_data := "owners" |}) |}.
Definition ex_multisig_event : Event :=
  {| e_sequence_number := 12; e_creation_number := 12;
     e_account_address := standardize_address "0xcafe";
     e_transaction_version := 7; e_transaction_block_height := 1;
     e_type := multisig_account_type; e_data := Str "owners"; e_event_index := 0;
     e_indexed_type := multisig_account_type; e_from := "0xcafe";
     e_entry_function_payload := Str "0x1::coin::transfer";
     e_entry_function_id_str := "0x1::coin::transfer";
     e_module_address := "0x1"; e_module_name := "multisig_account"; e_event_name := "MultisigAccount";
     e_inserted_at := (1, 0)%Z |}.

#[local] Instance ex_event_ser : Serialize Event := fun r => Some (Number (JInt (e_sequence_number r))).
#[local] Instance ex_event_de : Deserialize Event :=
  {| de_from_str := fun _ => None;
     de_from_value := fun v => match v with
                               | Number (JInt 5) => Some ex_event
                               | Number (JInt 12) => Some ex_multisig_event
                               | _ => None
                               end |}.
#[local] Instance ex_event_table : PgTable Event (Z * Z) := mem_table Event (Z * Z).
#[local] Instance ex_event_debug : DebugQuery Event (Z * Z) := fun _ _ => EmptyString.

Definition ex_event_result : ProcessingResult :=
  {| start_version := 7; end_version := 7;
     last_transaction_timestamp := Some {| seconds := 1; nanos := 0 |};
     processing_duration_in_secs := 0; db_insertion_duration_in_secs := 0 |}.

Lemma multisig_batch_fails_witness :
  event_rows [ex_event_txn [ex_multisig_write]] = Ret [ex_multisig_event; ex_event] /\
  ~ process_events {[ "events" := 10 ]} [ex_event_txn [ex_multisig_write]] 7 7 None
      ∅ {[ (7, 0)%Z := ex_event ]} (Ret (Ok ex_event_result)).
Proof.
  assert (event_rows [ex_event_txn [ex_multisig_write]] = Ret [ex_multisig_event; ex_event]) as Hr
    by reflexivity.
  split; [exact Hr|].
  apply (multisig_batch_fails (PgLaws0 := mem_laws Event (Z * Z)) {[ "events" := 10 ]} 10
           (ex_event_txn [ex_multisig_write]) [] [ex_multisig_event; ex_event]
           (ex_event_info [ex_multisig_write]) ex_multisig_write ex_event).
  - reflexivity.
  - by left.
  - reflexivity.
  - exists {| ut_request := Some ex_event_request; ut_events := [ex_withdraw; ex_fee] |},
      ex_event_request, 0, ex_withdraw.
    split_and!; [reflexivity..|apply (bool_decide_unpack _); vm_compute; exact I
                              |apply (bool_decide_unpack _); vm_compute; exact I].
  - reflexivity.
  - exact Hr.
  - repeat constructor; intros r' Hc.
    + change (Ret ex_multisig_event = Ret r') in Hc. by injection Hc as <-.
    + change (Ret ex_event = Ret r') in Hc. by injection Hc as <-.
  - reflexivity.
  - simpl. lia.
Defined.
End ConcreteEvents.
