(* ===== verification/DefaultModels.v ===== *)
(** * Transactions and write sets: [models/default_models]

    The rows the default processor derives from a transaction: the
    transaction itself, block metadata, and one row per write-set change with
    its module, resource or table detail. *)
From S2P Require Import Prelude RustStr Json Externals Proto Util.

(** [serde_json::to_value] on messages of the protos; [None] is the error. *)
Class ProtoJson := {
  move_type_json : MoveType -> option Value;
  move_function_json : MoveFunction -> option Value;
  move_module_id_json : MoveModuleId -> option Value;
  move_struct_json : MoveStruct -> option Value;
}.

(** ** Rows *)

Record CurrentTableItem := {
  cti_table_handle : string;
  cti_key_hash : string;
  cti_key : string;
  cti_decoded_key : Value;
  cti_decoded_value : option Value;
  cti_last_transaction_version : Z;
  cti_is_deleted : bool;
}.
Record TableItem := {
  ti_transaction_version : Z;
  ti_write_set_change_index : Z;
  ti_transaction_block_height : Z;
  ti_key : string;
  ti_table_handle : string;
  ti_decoded_key : Value;
  ti_decoded_value : option Value;
  ti_is_deleted : bool;
}.
Record TableMetadata := { tm_handle : string; tm_key_type : string; tm_value_type : string }.

Record MoveResource := {
  mr_transaction_version : Z;
  mr_write_set_change_index : Z;
  mr_transaction_block_height : Z;
  mr_name : string;
  mr_type : string;
  mr_address : string;
  mr_module : string;
  mr_generic_type_params : option Value;
  mr_data : option Value;
  mr_is_deleted : bool;
  mr_state_key_hash : string;
}.
(** [move_resources::MoveStructTag], the parsed tag. *)
Record ParsedStructTag := {
  pst_address : string;
  pst_module : string;
  pst_name : string;
  pst_generic_type_params : option Value;
}.

Record MoveModule := {
  mod_transaction_version : Z;
  mod_write_set_change_index : Z;
  mod_transaction_block_height : Z;
  mod_name : string;
  mod_address : string;
  mod_bytecode : option bytes;
  mod_exposed_functions : option Value;
  mod_friends : option Value;
  mod_structs : option Value;
  mod_is_deleted : bool;
}.
Record MoveModuleByteCodeParsed := {
  mbp_address : string;
  mbp_name : string;
  mbp_bytecode : bytes;
  mbp_exposed_functions : Value;
  mbp_friends : Value;
  mbp_structs : Value;
}.

Record WriteSetChange := {
  wsc_transaction_version : Z;
  wsc_index : Z;
  wsc_hash : string;
  wsc_transaction_block_height : Z;
  wsc_type_ : string;
  wsc_address : string;
}.
Inductive WriteSetChangeDetail :=
| DetailModule (m : MoveModule)
| DetailResource (r : MoveResource)
| DetailTable (t : TableItem) (c : CurrentTableItem) (m : option TableMetadata).

Section Models.
Context `{Chrono, BigDec, HexCodec, Sha256, ProtoEnums, JsonParse, ProtoJson}.
Context `{!Serialize EntryFunctionPayloadClean, !Serialize ScriptPayloadClean,
          !Serialize MultisigPayloadClean}.

Definition hash_hex (b : bytes) : string := standardize_address (hex_encode b).

(** ** Tables: [move_tables.rs] *)

(** [serde_json::from_str] into [Option<Value>]: JSON [null] is [None]. *)
Definition json_from_str_opt (s : string) : option (option Value) :=
  v ← json_from_str s;
  Some (match v with Null => None | _ => Some v end).

Definition from_write_table_item (write_table_item : WriteTableItem)
    (write_set_change_index transaction_version transaction_block_height : Z)
  : outcome (TableItem * CurrentTableItem) :=
  data ← unwrap (wti_data write_table_item);
  decoded_key ← unwrap (json_from_str (wtd_key data));
  decoded_value ← unwrap (json_from_str_opt (wtd_value data));
  Ret ({| ti_transaction_version := transaction_version;
          ti_write_set_change_index := write_set_change_index;
          ti_transaction_block_height := transaction_block_height;
          ti_key := wti_key write_table_item;
          ti_table_handle := standardize_address (wti_handle write_table_item);
          ti_decoded_key := decoded_key;
          ti_decoded_value := decoded_value;
          ti_is_deleted := false |},
       {| cti_table_handle := standardize_address (wti_handle write_table_item);
          cti_key_hash := hash_str (wti_key write_table_item);
          cti_key := wti_key write_table_item;
          cti_decoded_key := decoded_key;
          cti_decoded_value := decoded_value;
          cti_last_transaction_version := transaction_version;
          cti_is_deleted := false |}).

Definition from_delete_table_item (delete_table_item : DeleteTableItem)
    (write_set_change_index transaction_version transaction_block_height : Z)
  : outcome (TableItem * CurrentTableItem) :=
  data ← unwrap (dti_data delete_table_item);
  decoded_key ← unwrap (json_from_str (dtd_key data));
  Ret ({| ti_transaction_version := transaction_version;
          ti_write_set_change_index := write_set_change_index;
          ti_transaction_block_height := transaction_block_height;
          ti_key := dti_key delete_table_item;
          ti_table_handle := standardize_address (dti_handle delete_table_item);
          ti_decoded_key := decoded_key;
          ti_decoded_value := None;
          ti_is_deleted := true |},
       {| cti_table_handle := standardize_address (dti_handle delete_table_item);
          cti_key_hash := hash_str (dti_key delete_table_item);
          cti_key := dti_key delete_table_item;
          cti_decoded_key := decoded_key;
          cti_decoded_value := None;
          cti_last_transaction_version := transaction_version;
          cti_is_deleted := true |}).

(** The handle is stored as it is, unlike in the two item tables. *)
Definition metadata_from_write_table_item (table_item : WriteTableItem) : outcome TableMetadata :=
  data ← unwrap (wti_data table_item);
  Ret {| tm_handle := wti_handle table_item;
         tm_key_type := wtd_key_type data;
         tm_value_type := wtd_value_type data |}.

(** ** Resources: [move_resources.rs] *)

(** [collect] into [Result<Option<Value>>]: one failing element makes the
    whole [None]. *)
Definition convert_move_struct_tag (struct_tag : MoveStructTag) : ParsedStructTag :=
  {| pst_address := standardize_address (st_address struct_tag);
     pst_module := st_module struct_tag;
     pst_name := st_name struct_tag;
     pst_generic_type_params :=
       Array <$> mapM move_type_json (st_generic_type_params struct_tag) |}.

Definition get_address (t : ParsedStructTag) : string := standardize_address (pst_address t).

Definition from_write_resource (write_resource : WriteResource)
    (write_set_change_index transaction_version transaction_block_height : Z) : outcome MoveResource :=
  tag ← unwrap (wr_type write_resource);
  let parsed_data := convert_move_struct_tag tag in
  data ← unwrap (json_from_str (wr_data write_resource));
  Ret {| mr_transaction_version := transaction_version;
         mr_transaction_block_height := transaction_block_height;
         mr_write_set_change_index := write_set_change_index;
         mr_type := wr_type_str write_resource;
         mr_name := pst_name parsed_data;
         mr_address := standardize_address (wr_address write_resource);
         mr_module := pst_module parsed_data;
         mr_generic_type_params := pst_generic_type_params parsed_data;
         mr_data := Some data;
         mr_is_deleted := false;
         mr_state_key_hash := hash_hex (wr_state_key_hash write_resource) |}.

Definition from_delete_resource (delete_resource : DeleteResource)
    (write_set_change_index transaction_version transaction_block_height : Z) : outcome MoveResource :=
  tag ← unwrap (dr_type delete_resource);
  let parsed_data := convert_move_struct_tag tag in
  Ret {| mr_transaction_version := transaction_version;
         mr_transaction_block_height := transaction_block_height;
         mr_write_set_change_index := write_set_change_index;
         mr_type := dr_type_str delete_resource;
         mr_name := pst_name parsed_data;
         mr_address := standardize_address (dr_address delete_resource);
         mr_module := pst_module parsed_data;
         mr_generic_type_params := pst_generic_type_params parsed_data;
         mr_data := None;
         mr_is_deleted := true;
         mr_state_key_hash := hash_hex (dr_state_key_hash delete_resource) |}.

Definition get_outer_type_from_resource (write_resource : WriteResource) : outcome string :=
  tag ← unwrap (wr_type write_resource);
  let move_struct_tag := convert_move_struct_tag tag in
  Ret (get_address move_struct_tag +:+ "::" +:+ pst_module move_struct_tag +:+ "::"
       +:+ pst_name move_struct_tag).

(** ** Modules: [move_modules.rs] *)

Definition convert_move_module (move_module : MoveModulePB) (bytecode : bytes)
  : outcome MoveModuleByteCodeParsed :=
  functions ← traverse (fun f => unwrap (move_function_json f)) (mm_exposed_functions move_module);
  friends ← traverse (fun m => unwrap (move_module_id_json m)) (mm_friends move_module);
  structs ← traverse (fun s => unwrap (move_struct_json s)) (mm_structs move_module);
  Ret {| mbp_address := standardize_address (mm_address move_module);
         mbp_name := mm_name move_module;
         mbp_bytecode := bytecode;
         mbp_exposed_functions := Array functions;
         mbp_friends := Array friends;
         mbp_structs := Array structs |}.

Definition convert_move_module_bytecode (mmb : MoveModuleBytecode)
  : outcome (option MoveModuleByteCodeParsed) :=
  match mmb_abi mmb with
  | Some abi => Some <$> convert_move_module abi (mmb_bytecode mmb)
  | None => Ret None
  end.

Definition from_write_module (write_module : WriteModule)
    (write_set_change_index transaction_version transaction_block_height : Z) : outcome MoveModule :=
  data ← unwrap (wm_data write_module);
  parsed_data ← convert_move_module_bytecode data;
  Ret {| mod_transaction_version := transaction_version;
         mod_transaction_block_height := transaction_block_height;
         mod_write_set_change_index := write_set_change_index;
         mod_name := default EmptyString (mbp_name <$> parsed_data);
         mod_address := standardize_address (wm_address write_module);
         mod_bytecode := mbp_bytecode <$> parsed_data;
         mod_exposed_functions := mbp_exposed_functions <$> parsed_data;
         mod_friends := mbp_friends <$> parsed_data;
         mod_structs := mbp_structs <$> parsed_data;
         mod_is_deleted := false |}.

Definition from_delete_module (delete_module : DeleteModule)
    (write_set_change_index transaction_version transaction_block_height : Z) : MoveModule :=
  {| mod_transaction_version := transaction_version;
     mod_transaction_block_height := transaction_block_height;
     mod_write_set_change_index := write_set_change_index;
     mod_name := default EmptyString (mmi_name <$> dm_module delete_module);
     mod_address := standardize_address (dm_address delete_module);
     mod_bytecode := None;
     mod_exposed_functions := None;
     mod_friends := None;
     mod_structs := None;
     mod_is_deleted := true |}.

(** ** Changes: [write_set_changes.rs] *)

Definition get_write_set_change_type (t : WriteSetChangePB) : outcome string :=
  ty ← unwrap (write_set_change_type (Proto.wsc_type t));
  match ty with
  | WscDeleteModule => Ret "delete_module"
  | WscDeleteResource => Ret "delete_resource"
  | WscDeleteTableItem => Ret "delete_table_item"
  | WscWriteModule => Ret "write_module"
  | WscWriteResource => Ret "write_resource"
  | WscWriteTableItem => Ret "write_table_item"
  | WscUnspecified => Panic
  end.

Definition from_write_set_change (write_set_change : WriteSetChangePB)
    (index transaction_version transaction_block_height : Z)
  : outcome (WriteSetChange * WriteSetChangeDetail) :=
  type_ ← get_write_set_change_type write_set_change;
  change ← unwrap (wsc_change write_set_change);
  let row hash address :=
    {| wsc_transaction_version := transaction_version; wsc_hash := hash_hex hash;
       wsc_transaction_block_height := transaction_block_height; wsc_type_ := type_;
       wsc_address := address; wsc_index := index |} in
  match change with
  | ChangeWriteModule inner =>
      m ← from_write_module inner index transaction_version transaction_block_height;
      Ret (row (wm_state_key_hash inner) (standardize_address (wm_address inner)), DetailModule m)
  | ChangeDeleteModule inner =>
      Ret (row (dm_state_key_hash inner) (standardize_address (dm_address inner)),
           DetailModule (from_delete_module inner index transaction_version transaction_block_height))
  | ChangeWriteResource inner =>
      r ← from_write_resource inner index transaction_version transaction_block_height;
      Ret (row (wr_state_key_hash inner) (standardize_address (wr_address inner)), DetailResource r)
  | ChangeDeleteResource inner =>
      r ← from_delete_resource inner index transaction_version transaction_block_height;
      Ret (row (dr_state_key_hash inner) (standardize_address (dr_address inner)), DetailResource r)
  | ChangeWriteTableItem inner =>
      '(ti, cti) ← from_write_table_item inner index transaction_version transaction_block_height;
      metadata ← metadata_from_write_table_item inner;
      Ret (row (wti_state_key_hash inner) EmptyString, DetailTable ti cti (Some metadata))
  | ChangeDeleteTableItem inner =>
      '(ti, cti) ← from_delete_table_item inner index transaction_version transaction_block_height;
      Ret (row (dti_state_key_hash inner) EmptyString, DetailTable ti cti None)
  end.

Definition from_write_set_changes (write_set_changes : list WriteSetChangePB)
    (transaction_version transaction_block_height : Z)
  : outcome (list WriteSetChange * list WriteSetChangeDetail) :=
  rows ← traverse (fun '(index, c) =>
           from_write_set_change c index transaction_version transaction_block_height)
           (enumerate write_set_changes);
  Ret (rows.*1, rows.*2).

(** ** Block metadata: [block_metadata_transactions.rs] *)

Record BlockMetadataTransaction := {
  bmt_version : Z;
  bmt_block_height : Z;
  bmt_id : string;
  bmt_round : Z;
  bmt_epoch : Z;
  bmt_previous_block_votes_bitvec : Value;
  bmt_proposer : string;
  bmt_failed_proposer_indices : Value;
  bmt_timestamp : NaiveDateTime;
}.

(** A vector of numbers as JSON. *)
Definition json_numbers (l : list Z) : Value := Array ((fun n => Number (JInt n)) <$> l).
Definition byte_values (b : bytes) : list Z :=
  (fun c => Z.of_N (Ascii.N_of_ascii c)) <$> String.list_ascii_of_string b.

Definition block_metadata_from_transaction (txn : BlockMetadataTransactionPB)
    (version block_height epoch : Z) (timestamp : Timestamp) : outcome BlockMetadataTransaction :=
  ts ← parse_timestamp timestamp version;
  Ret {| bmt_version := version;
         bmt_block_height := block_height;
         bmt_id := bm_id txn;
         bmt_epoch := epoch;
         bmt_round := as_i64 (bm_round txn);
         bmt_proposer := standardize_address (bm_proposer txn);
         bmt_failed_proposer_indices := json_numbers (bm_failed_proposer_indices txn);
         bmt_previous_block_votes_bitvec := json_numbers (byte_values (bm_previous_block_votes_bitvec txn));
         bmt_timestamp := ts |}.

(** ** Transactions: [transactions.rs] *)

Record TransactionModel := {
  tx_version : Z;
  tx_block_height : Z;
  tx_hash : string;
  tx_type : string;
  tx_payload : option Value;
  tx_state_change_hash : string;
  tx_event_root_hash : string;
  tx_state_checkpoint_hash : option string;
  tx_gas_used : BigDecimal;
  tx_success : bool;
  tx_vm_status : string;
  tx_accumulator_root_hash : string;
  tx_num_events : Z;
  tx_num_write_set_changes : Z;
  tx_epoch : Z;
  tx_payload_type : option string;
}.

Definition from_transaction_info_with_data (info : TransactionInfo) (payload : option Value)
    (payload_type : option string) (version : Z) (type_ : string)
    (num_events block_height epoch : Z) : TransactionModel :=
  {| tx_type := type_;
     tx_payload := payload;
     tx_version := version;
     tx_block_height := block_height;
     tx_hash := hash_hex (ti_hash info);
     tx_state_change_hash := hash_hex (ti_state_change_hash info);
     tx_event_root_hash := hash_hex (ti_event_root_hash info);
     tx_state_checkpoint_hash := hash_hex <$> ti_state_checkpoint_hash info;
     tx_gas_used := u64_to_bigdecimal (ti_gas_used info);
     tx_success := ti_success info;
     tx_vm_status := ti_vm_status info;
     tx_accumulator_root_hash := hash_hex (ti_accumulator_root_hash info);
     tx_num_events := num_events;
     tx_num_write_set_changes := Z.of_nat (length (ti_changes info));
     tx_epoch := epoch;
     tx_payload_type := payload_type |}.

(** The fields the source takes from [Default] are the empty ones. *)
Definition from_transaction_info (info : TransactionInfo) (version epoch block_height : Z)
  : TransactionModel :=
  {| tx_version := version;
     tx_block_height := block_height;
     tx_hash := hash_hex (ti_hash info);
     tx_state_change_hash := hash_hex (ti_state_change_hash info);
     tx_event_root_hash := hash_hex (ti_event_root_hash info);
     tx_state_checkpoint_hash := hash_hex <$> ti_state_checkpoint_hash info;
     tx_gas_used := u64_to_bigdecimal (ti_gas_used info);
     tx_success := ti_success info;
     tx_vm_status := ti_vm_status info;
     tx_accumulator_root_hash := hash_hex (ti_accumulator_root_hash info);
     tx_num_write_set_changes := Z.of_nat (length (ti_changes info));
     tx_epoch := epoch;
     tx_type := EmptyString;
     tx_payload := None;
     tx_num_events := 0;
     tx_payload_type := None |}.

Definition from_transaction (transaction : Transaction)
  : outcome (TransactionModel * option BlockMetadataTransaction *
             list WriteSetChange * list WriteSetChangeDetail) :=
  let block_height := as_i64 (t_block_height transaction) in
  let epoch := as_i64 (t_epoch transaction) in
  let version := as_i64 (t_version transaction) in
  transaction_info ← unwrap (t_info transaction);
  match t_txn_data transaction with
  | None => Ret (from_transaction_info transaction_info version epoch block_height, None, [], [])
  | Some txn_data =>
      transaction_type ← unwrap (transaction_type_name (t_type transaction));
      timestamp ← unwrap (t_timestamp transaction);
      match txn_data with
      | TdUser user_txn =>
          '(wsc, wsc_detail) ← from_write_set_changes (ti_changes transaction_info) version block_height;
          request ← unwrap (ut_request user_txn);
          payload ← unwrap (utr_payload request);
          payload_cleaned ← get_clean_payload payload version;
          Ret (from_transaction_info_with_data transaction_info payload_cleaned
                 (Some (get_payload_type payload)) version transaction_type
                 (Z.of_nat (length (ut_events user_txn))) block_height epoch,
               None, wsc, wsc_detail)
      | TdGenesis genesis_txn =>
          '(wsc, wsc_detail) ← from_write_set_changes (ti_changes transaction_info) version block_height;
          payload ← unwrap (gt_payload genesis_txn);
          payload_cleaned ← get_clean_writeset payload version;
          Ret (from_transaction_info_with_data transaction_info payload_cleaned None version
                 transaction_type (Z.of_nat (length (gt_events genesis_txn))) block_height epoch,
               None, wsc, wsc_detail)
      | TdBlockMetadata block_metadata_txn =>
          '(wsc, wsc_detail) ← from_write_set_changes (ti_changes transaction_info) version block_height;
          metadata ← block_metadata_from_transaction block_metadata_txn version block_height epoch timestamp;
          Ret (from_transaction_info_with_data transaction_info None None version transaction_type
                 (Z.of_nat (length (bm_events block_metadata_txn))) block_height epoch,
               Some metadata, wsc, wsc_detail)
      | TdStateCheckpoint | TdValidator =>
          Ret (from_transaction_info_with_data transaction_info None None version transaction_type
                 0 block_height epoch, None, [], [])
      end
  end.

(** The loop of [from_transactions]: one round appends the rows of one
    transaction. *)
Definition TransactionRows : Type :=
  list TransactionModel * list BlockMetadataTransaction * list WriteSetChange * list WriteSetChangeDetail.

Definition from_transactions_step (acc : TransactionRows) (txn : Transaction) : outcome TransactionRows :=
  let '(txns, block_metadata_txns, wscs, wsc_details) := acc in
  '(txn, block_metadata, wsc_list, wsc_detail_list) ← from_transaction txn;
  Ret (txns ++ [txn], block_metadata_txns ++ option_list block_metadata,
       wscs ++ wsc_list, wsc_details ++ wsc_detail_list).

Definition from_transactions (transactions : list Transaction) : outcome TransactionRows :=
  foldM from_transactions_step ([], [], [], []) transactions.
End Models.

(** ** Keys of the write-set rows *)

Definition change_key (w : WriteSetChange) : Z * Z := (wsc_transaction_version w, wsc_index w).
Definition detail_key (d : WriteSetChangeDetail) : Z * Z :=
  match d with
  | DetailModule m => (mod_transaction_version m, mod_write_set_change_index m)
  | DetailResource r => (mr_transaction_version r, mr_write_set_change_index r)
  | DetailTable t _ _ => (ti_transaction_version t, ti_write_set_change_index t)
  end.
(** The current item of a table change has the version of its change. *)
Definition detail_current (d : WriteSetChangeDetail) : option CurrentTableItem :=
  match d with DetailTable _ c _ => Some c | _ => None end.

Section Keys.
Context `{Chrono, BigDec, HexCodec, Sha256, ProtoEnums, JsonParse, ProtoJson}.
Context `{!Serialize EntryFunctionPayloadClean, !Serialize ScriptPayloadClean,
          !Serialize MultisigPayloadClean}.

Lemma from_write_set_change_key c i v h w d :
  from_write_set_change c i v h = Ret (w, d) ->
  change_key w = (v, i) /\ detail_key d = (v, i) /\
  from_option (fun cti => cti_last_transaction_version cti = v) True (detail_current d).
Proof.
  unfold from_write_set_change. intros Hr. outcome_inv.
  destruct (_ : ChangeEnum);
    unfold from_write_module, from_write_resource, from_delete_resource, from_write_table_item,
      from_delete_table_item in *; by outcome_inv.
Qed.

Lemma from_write_set_changes_keys cs v h wscs details :
  from_write_set_changes cs v h = Ret (wscs, details) ->
  change_key <$> wscs = (fun i => (v, i)) <$> (enumerate cs).*1 /\
  detail_key <$> details = change_key <$> wscs /\
  Forall (fun d => from_option (fun cti => cti_last_transaction_version cti = v) True (detail_current d)) details.
Proof.
  unfold from_write_set_changes. intros Hr. outcome_inv.
  rename select (traverse _ _ = _) into Ht. apply traverse_Ret in Ht.
  induction Ht as [|[i c] [w d] ics rows Hr _ IH]; [by split_and!|].
  destruct IH as (IH1 & IH2 & IH3).
  destruct (from_write_set_change_key c i v h w d Hr) as (Hw & Hd & Hc).
  rewrite !fmap_cons. simpl. split_and!; [congruence|congruence|by constructor].
Qed.

(** What one transaction contributes. *)
Lemma from_transaction_keys t txn bm wscs details :
  from_transaction t = Ret (txn, bm, wscs, details) ->
  let v := as_i64 (t_version t) in
  tx_version txn = v /\ from_option (fun b => bmt_version b = v) True bm /\
  (exists cs, change_key <$> wscs = (fun i => (v, i)) <$> (enumerate_from (A := WriteSetChangePB) 0 cs).*1) /\
  detail_key <$> details = change_key <$> wscs /\
  Forall (fun d => from_option (fun cti => cti_last_transaction_version cti = v) True (detail_current d)) details /\
  tx_num_write_set_changes txn = Z.of_nat (from_option (fun i => length (ti_changes i)) 0 (t_info t)) /\
  (wscs = [] \/ Z.of_nat (length wscs) = tx_num_write_set_changes txn).
Proof.
  unfold from_transaction. intros Hr. outcome_inv. rename select (t_info t = _) into Hi. rewrite Hi.
  assert (forall cs h w d, from_write_set_changes cs (as_i64 (t_version t)) h = Ret (w, d) ->
    length w = length cs) as Hlen.
  { intros cs h w d (Hk & _ & _)%from_write_set_changes_keys.
    apply (f_equal length) in Hk. by rewrite !length_fmap, length_enumerate_from in Hk. }
  destruct (t_txn_data t) as [[b|g| |u|]|]; unfold block_metadata_from_transaction in *; outcome_inv.
  all: try (split_and!; [done|done|by exists []|done|constructor|done|by left]).
  all: rename select (from_write_set_changes _ _ _ = _) into Hw; pose proof (Hlen _ _ _ _ Hw);
    apply from_write_set_changes_keys in Hw as (Hk & Hd & Hc);
    split_and!; try done; [by eexists|right; simpl; by f_equal].
Qed.

(** The rows of a batch, transaction by transaction. *)
Lemma from_transactions_keys transactions txns bms wscs details :
  from_transactions transactions = Ret (txns, bms, wscs, details) ->
  tx_version <$> txns = (fun t => as_i64 (t_version t)) <$> transactions /\
  detail_key <$> details = change_key <$> wscs /\
  Forall (fun w => wsc_transaction_version w ∈ tx_version <$> txns) wscs /\
  (NoDup (tx_version <$> txns) -> NoDup (change_key <$> wscs)) /\
  Forall (fun d => from_option (fun cti =>
    cti_last_transaction_version cti = (detail_key d).1) True (detail_current d)) details.
Proof.
  unfold from_transactions. revert txns bms wscs details.
  induction transactions as [|t ts IH] using rev_ind; intros txns bms wscs details Hr.
  { simpl in Hr. outcome_inv. split_and!; done || constructor. }
  rewrite foldM_app in Hr. apply bind_Ret in Hr as ([[[txns0 bms0] wscs0] details0] & H0' & Hr).
  simpl in Hr. apply bind_Ret in Hr as (acc & Hstep & Hr). outcome_inv.
  rename select (from_transaction t = _) into Ht.
  apply from_transaction_keys in Ht as (Hv & _ & (cs & Hcs) & Hd & Hc & _ & _).
  destruct (IH _ _ _ _ H0') as (IHv & IHd & IHin & IHn & IHc).
  match goal with H : change_key <$> ?l = _ <$> _ |- _ => rename l into wl end.
  assert (Forall (fun w => wsc_transaction_version w = as_i64 (t_version t)) wl) as Hwl.
  { apply Forall_forall. intros w Hw.
    assert (change_key w ∈ change_key <$> wl) as Hk by (by apply list_elem_of_fmap_2).
    rewrite Hcs in Hk. apply list_elem_of_fmap in Hk as (i & [= Hk _] & _). done. }
  split_and!.
  - rewrite !fmap_app, IHv. simpl. by rewrite Hv.
  - rewrite !fmap_app. congruence.
  - apply Forall_app. split.
    + eapply Forall_impl; [exact IHin|]. simpl. intros w Hw. rewrite fmap_app. set_solver.
    + eapply Forall_impl; [exact Hwl|]. simpl. intros w Hw. rewrite fmap_app, Hw, <- Hv. set_solver.
  - rewrite !fmap_app. intros (Hn0 & Hnd & _)%NoDup_app. apply NoDup_app. split_and!; [by apply IHn| |].
    + intros k (w & -> & Hw)%list_elem_of_fmap (w' & Hk & Hw')%list_elem_of_fmap.
      rewrite Forall_forall in IHin, Hwl. injection Hk as Hk _. rewrite (Hwl w' Hw') in Hk.
      apply (Hnd (wsc_transaction_version w)); [by apply IHin|]. rewrite Hk. simpl. rewrite Hv. set_solver.
    + rewrite Hcs. apply NoDup_fmap_2; [by intros ?? [=]|apply NoDup_enumerate_from].
  - apply Forall_app. split; [done|].
    apply Forall_forall. intros d Hdin. rewrite Forall_forall in Hc. specialize (Hc d Hdin).
    destruct (detail_current d) as [cti|]; [simpl in *|done]. rewrite Hc.
    assert (detail_key d ∈ change_key <$> wl) as Hk by (rewrite <- Hd; by apply list_elem_of_fmap_2).
    rewrite Hcs in Hk. by apply list_elem_of_fmap in Hk as (i & -> & _).
Qed.

(** The block metadata of a batch, in the order of the transactions. *)
Lemma from_transactions_blocks transactions txns bms wscs details :
  from_transactions transactions = Ret (txns, bms, wscs, details) ->
  (bmt_version <$> bms) `sublist_of` (fun t => as_i64 (t_version t)) <$> transactions.
Proof.
  unfold from_transactions. revert txns bms wscs details.
  induction transactions as [|t ts IH] using rev_ind; intros txns bms wscs details Hr.
  { simpl in Hr. by outcome_inv. }
  rewrite foldM_app in Hr. apply bind_Ret in Hr as ([[[txns0 bms0] wscs0] details0] & H0' & Hr).
  simpl in Hr. apply bind_Ret in Hr as (acc & Hstep & Hr). outcome_inv.
  rename select (from_transaction t = _) into Ht.
  apply from_transaction_keys in Ht as (_ & Hb & _). rewrite !fmap_app. apply sublist_app; [by eapply IH|].
  match goal with |- context [option_list ?o] => destruct o as [b|] end; simpl in *; [by rewrite Hb|].
  apply sublist_nil_l.
Qed.
End Keys.
