(* ===== verification/DefaultProcessor.v ===== *)
(** * The default processor: [processors/default_processor.rs]

    Splits the write-set details of a batch into tables, keeps the last write
    of every table item, and stores eight tables concurrently. *)
From S2P Require Import Prelude RustStr Json Externals Proto Util Database Processors DefaultModels.

Section DefaultProcessor.
Context `{Chrono, BigDec, HexCodec, Sha256, ProtoEnums, JsonParse, ProtoJson, HashOrder}.
Context `{!Serialize EntryFunctionPayloadClean, !Serialize ScriptPayloadClean,
          !Serialize MultisigPayloadClean}.

(** ** Rows of a batch *)

Definition current_item_key (c : CurrentTableItem) : string * string :=
  (cti_table_handle c, cti_key_hash c).

(** The variables the loop over the details fills. *)
Record DetailTables := {
  move_modules : list MoveModule;
  move_resources : list MoveResource;
  table_items : list TableItem;
  current_table_items : gmap (string * string) CurrentTableItem;
  table_metadata : gmap string TableMetadata;
}.

Definition add_detail (acc : DetailTables) (detail : WriteSetChangeDetail) : DetailTables :=
  match detail with
  | DetailModule m =>
      {| move_modules := move_modules acc ++ [m]; move_resources := move_resources acc;
         table_items := table_items acc; current_table_items := current_table_items acc;
         table_metadata := table_metadata acc |}
  | DetailResource r =>
      {| move_modules := move_modules acc; move_resources := move_resources acc ++ [r];
         table_items := table_items acc; current_table_items := current_table_items acc;
         table_metadata := table_metadata acc |}
  | DetailTable item current_item metadata =>
      {| move_modules := move_modules acc; move_resources := move_resources acc;
         table_items := table_items acc ++ [item];
         current_table_items :=
           <[(cti_table_handle current_item, cti_key_hash current_item) := current_item]>
             (current_table_items acc);
         table_metadata := match metadata with
                           | Some meta => <[tm_handle meta := meta]> (table_metadata acc)
                           | None => table_metadata acc
                           end |}
  end.

Record DefaultRows := {
  rows_transactions : list TransactionModel;
  rows_block_metadata : list BlockMetadataTransaction;
  rows_write_set_changes : list WriteSetChange;
  rows_move_modules : list MoveModule;
  rows_move_resources : list MoveResource;
  rows_table_items : list TableItem;
  rows_current_table_items : list CurrentTableItem;
  rows_table_metadata : list TableMetadata;
}.

(** The free function [process_transactions]. *)
Definition default_rows (transactions : list Transaction) : outcome DefaultRows :=
  '(txns, block_metadata_txns, write_set_changes, wsc_details) ← from_transactions transactions;
  let acc := foldl add_detail
    {| move_modules := []; move_resources := []; table_items := [];
       current_table_items := ∅; table_metadata := ∅ |} wsc_details in
  Ret {| rows_transactions := txns;
         rows_block_metadata := block_metadata_txns;
         rows_write_set_changes := write_set_changes;
         rows_move_modules := move_modules acc;
         rows_move_resources := move_resources acc;
         rows_table_items := table_items acc;
         rows_current_table_items := sort_by current_item_key (into_values (current_table_items acc));
         rows_table_metadata := sort_by tm_handle (into_values (table_metadata acc)) |}.

(** ** Statements *)

Definition insert_transactions_query : Upsert TransactionModel Z :=
  {| up_key := tx_version;
     up_action := DoUpdate (fun old new =>
       {| tx_version := tx_version old; tx_block_height := tx_block_height old; tx_hash := tx_hash old;
          tx_type := tx_type old; tx_payload := tx_payload old;
          tx_state_change_hash := tx_state_change_hash old; tx_event_root_hash := tx_event_root_hash old;
          tx_state_checkpoint_hash := tx_state_checkpoint_hash old; tx_gas_used := tx_gas_used old;
          tx_success := tx_success old; tx_vm_status := tx_vm_status old;
          tx_accumulator_root_hash := tx_accumulator_root_hash old; tx_num_events := tx_num_events old;
          tx_num_write_set_changes := tx_num_write_set_changes old; tx_epoch := tx_epoch old;
          tx_payload_type := tx_payload_type new |});
     up_where := None |}.
Definition insert_block_metadata_transactions_query : Upsert BlockMetadataTransaction Z :=
  {| up_key := bmt_version; up_action := DoNothing; up_where := None |}.
Definition insert_write_set_changes_query : Upsert WriteSetChange (Z * Z) :=
  {| up_key := change_key; up_action := DoNothing; up_where := None |}.
Definition insert_move_modules_query : Upsert MoveModule (Z * Z) :=
  {| up_key := fun m => (mod_transaction_version m, mod_write_set_change_index m);
     up_action := DoNothing; up_where := None |}.
Definition insert_move_resources_query : Upsert MoveResource (Z * Z) :=
  {| up_key := fun r => (mr_transaction_version r, mr_write_set_change_index r);
     up_action := DoNothing; up_where := None |}.
Definition insert_table_items_query : Upsert TableItem (Z * Z) :=
  {| up_key := fun t => (ti_transaction_version t, ti_write_set_change_index t);
     up_action := DoNothing; up_where := None |}.

Definition set_current_table_item (old new : CurrentTableItem) : CurrentTableItem :=
  {| cti_table_handle := cti_table_handle old;
     cti_key_hash := cti_key_hash old;
     cti_key := cti_key new;
     cti_decoded_key := cti_decoded_key new;
     cti_decoded_value := cti_decoded_value new;
     cti_is_deleted := cti_is_deleted new;
     cti_last_transaction_version := cti_last_transaction_version new |}.
Definition insert_current_table_items_query : Upsert CurrentTableItem (string * string) :=
  {| up_key := current_item_key;
     up_action := DoUpdate set_current_table_item;
     up_where := Some (fun old new =>
       bool_decide (cti_last_transaction_version old <= cti_last_transaction_version new)%Z) |}.
Definition insert_table_metadata_query : Upsert TableMetadata string :=
  {| up_key := tm_handle; up_action := DoNothing; up_where := None |}.

#[export] Instance current_table_items_lww : Lww insert_current_table_items_query.
Proof.
  refine {| lww_rank := cti_last_transaction_version; lww_static_type := unit;
            lww_static := fun _ => tt; lww_set := set_current_table_item |}; try done.
  intros [] [] [= -> ->] _. done.
Defined.

(** ** The processor *)

#[export] Instance TransactionModel_fields : FieldCount TransactionModel := 16.
#[export] Instance BlockMetadataTransaction_fields : FieldCount BlockMetadataTransaction := 9.
#[export] Instance WriteSetChange_fields : FieldCount WriteSetChange := 6.
#[export] Instance MoveModule_fields : FieldCount MoveModule := 10.
#[export] Instance MoveResource_fields : FieldCount MoveResource := 11.
#[export] Instance TableItem_fields : FieldCount TableItem := 8.
#[export] Instance CurrentTableItem_fields : FieldCount CurrentTableItem := 7.
#[export] Instance TableMetadata_fields : FieldCount TableMetadata := 3.

Context `{!Table TransactionModel Z, !Table BlockMetadataTransaction Z, !Table WriteSetChange (Z * Z),
          !Table MoveModule (Z * Z), !Table MoveResource (Z * Z), !Table TableItem (Z * Z),
          !Table CurrentTableItem (string * string), !Table TableMetadata string}.

Record DefaultDb := {
  db_transactions : table_state TransactionModel Z;
  db_block_metadata : table_state BlockMetadataTransaction Z;
  db_write_set_changes : table_state WriteSetChange (Z * Z);
  db_move_modules : table_state MoveModule (Z * Z);
  db_move_resources : table_state MoveResource (Z * Z);
  db_table_items : table_state TableItem (Z * Z);
  db_current_table_items : table_state CurrentTableItem (string * string);
  db_table_metadata : table_state TableMetadata string;
}.

Definition insert_default_rows (rows : DefaultRows) (sizes : gmap string nat) (d d' : DefaultDb)
    (res : outcome (result unit)) : Prop :=
  exists txns_res bmt_res wst_res mm_res mr_res ti_res cti_res tm_res,
    write_table insert_transactions_query "transactions" sizes (rows_transactions rows)
      (db_transactions d) (db_transactions d') txns_res /\
    write_table insert_block_metadata_transactions_query "block_metadata_transactions" sizes
      (rows_block_metadata rows) (db_block_metadata d) (db_block_metadata d') bmt_res /\
    write_table insert_write_set_changes_query "write_set_changes" sizes (rows_write_set_changes rows)
      (db_write_set_changes d) (db_write_set_changes d') wst_res /\
    write_table insert_move_modules_query "move_modules" sizes (rows_move_modules rows)
      (db_move_modules d) (db_move_modules d') mm_res /\
    write_table insert_move_resources_query "move_resources" sizes (rows_move_resources rows)
      (db_move_resources d) (db_move_resources d') mr_res /\
    write_table insert_table_items_query "table_items" sizes (rows_table_items rows)
      (db_table_items d) (db_table_items d') ti_res /\
    write_table insert_current_table_items_query "current_table_items" sizes
      (rows_current_table_items rows) (db_current_table_items d) (db_current_table_items d') cti_res /\
    write_table insert_table_metadata_query "table_metadatas" sizes (rows_table_metadata rows)
      (db_table_metadata d) (db_table_metadata d') tm_res /\
    res = join_results [txns_res; bmt_res; wst_res; mm_res; mr_res; ti_res; cti_res; tm_res].

Definition process_default (sizes : gmap string nat)
  : list Transaction -> Z -> Z -> option Z -> DefaultDb -> DefaultDb ->
    outcome (result ProcessingResult) -> Prop :=
  process_batch default_rows (fun rows => insert_default_rows rows sizes).

#[export] Instance default_processor (sizes : gmap string nat) : ProcessorTrait DefaultDb :=
  {| processor_name := "default_processor"; process_transactions := process_default sizes |}.

#[export] Instance default_processor_laws sizes : @ProcessorLaws DefaultDb (default_processor sizes).
Proof. intros txns s e chain d d' r Hr. by apply (process_batch_ok _ _ _ _ _ chain) in Hr as [? _]. Qed.
End DefaultProcessor.

(** ** The tables filled by the loop *)

Definition empty_tables : DetailTables :=
  {| move_modules := []; move_resources := []; table_items := [];
     current_table_items := ∅; table_metadata := ∅ |}.
Definition detail_module (d : WriteSetChangeDetail) : option MoveModule :=
  match d with DetailModule m => Some m | _ => None end.
Definition detail_resource (d : WriteSetChangeDetail) : option MoveResource :=
  match d with DetailResource r => Some r | _ => None end.
Definition detail_item (d : WriteSetChangeDetail) : option TableItem :=
  match d with DetailTable t _ _ => Some t | _ => None end.
Definition detail_metadata (d : WriteSetChangeDetail) : option TableMetadata :=
  match d with DetailTable _ _ m => m | _ => None end.

(** Each table is the projection of the details; the two maps keep the last
    value of a key. *)
Lemma add_details_spec ds :
  foldl add_detail empty_tables ds =
  {| move_modules := omap detail_module ds; move_resources := omap detail_resource ds;
     table_items := omap detail_item ds;
     current_table_items := index_by current_item_key (omap detail_current ds);
     table_metadata := index_by tm_handle (omap detail_metadata ds) |}.
Proof.
  induction ds as [|d ds IH] using rev_ind; [done|]. rewrite foldl_app, IH, !omap_app. simpl.
  unfold index_by. rewrite !foldl_app.
  destruct d as [m|r|t c [m|]]; simpl; by rewrite ?app_nil_r.
Qed.

(** A projection of details keeps their keys distinct. *)
Lemma omap_keys_NoDup {A K} (key : WriteSetChangeDetail -> K) (f : WriteSetChangeDetail -> option A)
    (key' : A -> K) ds :
  (forall d x, f d = Some x -> key' x = key d) -> NoDup (key <$> ds) -> NoDup (key' <$> omap f ds).
Proof.
  intros Hf. induction ds as [|d ds IH]; intros Hn; [constructor|].
  rewrite fmap_cons in Hn. apply NoDup_cons in Hn as [Hd Hn]. simpl.
  destruct (f d) as [x|] eqn:Hx; [|by apply IH]. rewrite fmap_cons. constructor; [|by apply IH].
  intros (y & Hy & (d' & Hd' & Hfd)%list_elem_of_omap)%list_elem_of_fmap. apply Hd.
  rewrite <- (Hf d x Hx), Hy, (Hf d' y Hfd). by apply list_elem_of_fmap_2.
Qed.

Section Batches.
Context `{Chrono, BigDec, HexCodec, Sha256, ProtoEnums, JsonParse, ProtoJson}.
Context `{!Serialize EntryFunctionPayloadClean, !Serialize ScriptPayloadClean,
          !Serialize MultisigPayloadClean}.

Lemma default_rows_details `{HashOrder} transactions rows :
  default_rows transactions = Ret rows ->
  exists bms details,
    from_transactions transactions =
      Ret (rows_transactions rows, bms, rows_write_set_changes rows, details) /\
    rows_move_modules rows = omap detail_module details /\
    rows_move_resources rows = omap detail_resource details /\
    rows_table_items rows = omap detail_item details /\
    rows_current_table_items rows = sort_by current_item_key
      (into_values (index_by current_item_key (omap detail_current details))) /\
    rows_table_metadata rows = sort_by tm_handle
      (into_values (index_by tm_handle (omap detail_metadata details))) /\
    rows_block_metadata rows = bms.
Proof.
  unfold default_rows. intros Hr. apply bind_Ret in Hr as ([[[txns bms] wscs] details] & Hf & Hr).
  fold empty_tables in Hr. rewrite add_details_spec in Hr. injection Hr as <-. simpl. eauto 10.
Qed.

(** C16: the rows of a batch never collide.  For transactions with distinct
    versions, the rows of each of the eight tables, keyed by version, by version and
    change index, by table item and by table handle, have distinct primary
    keys, so no statement fails for touching a row twice and no row is
    silently dropped. *)
Theorem default_rows_distinct `{HashOrder} (transactions : list Transaction) (rows : DefaultRows) :
  Forall (fun t => in_u64 (t_version t)) transactions -> NoDup (t_version <$> transactions) ->
  default_rows transactions = Ret rows ->
  NoDup (up_key insert_transactions_query <$> rows_transactions rows) /\
  NoDup (up_key insert_block_metadata_transactions_query <$> rows_block_metadata rows) /\
  NoDup (up_key insert_write_set_changes_query <$> rows_write_set_changes rows) /\
  NoDup (up_key insert_move_modules_query <$> rows_move_modules rows) /\
  NoDup (up_key insert_move_resources_query <$> rows_move_resources rows) /\
  NoDup (up_key insert_table_items_query <$> rows_table_items rows) /\
  NoDup (up_key insert_current_table_items_query <$> rows_current_table_items rows) /\
  NoDup (up_key insert_table_metadata_query <$> rows_table_metadata rows).
Proof.
  intros Hv Hn Hr. apply default_rows_details in Hr as (bms & details & Hf & -> & -> & -> & -> & -> & ->).
  pose proof (from_transactions_blocks _ _ _ _ _ Hf) as Hb.
  apply from_transactions_keys in Hf as (Hver & Hd & _ & Hnd & _).
  assert (NoDup (tx_version <$> rows_transactions rows)) as Ht
    by (rewrite Hver; by apply batch_versions_NoDup).
  specialize (Hnd Ht). pose proof Hnd as Hdn. rewrite <- Hd in Hdn. split_and!; try done.
  - eapply sublist_NoDup; [|exact Hb]. by apply batch_versions_NoDup.
  - apply (omap_keys_NoDup detail_key); [|done]. by intros [] ? [= <-].
  - apply (omap_keys_NoDup detail_key); [|done]. by intros [] ? [= <-].
  - apply (omap_keys_NoDup detail_key); [|done]. by intros [] ? [= <-].
  - apply sorted_values_NoDup.
  - apply sorted_values_NoDup.
Qed.

(** The current items of a batch: the last write of each key. *)
Lemma default_current_items `{HashOrder} transactions rows c :
  default_rows transactions = Ret rows -> c ∈ rows_current_table_items rows ->
  exists txns bms wscs details, from_transactions transactions = Ret (txns, bms, wscs, details) /\
    last (filter (fun x => current_item_key x = current_item_key c) (omap detail_current details)) = Some c.
Proof.
  intros Hr Hc. apply default_rows_details in Hr as (bms & details & Hf & _ & _ & _ & He & _).
  rewrite He, sort_by_perm in Hc. apply elem_of_into_values in Hc as [k Hk].
  do 4 eexists. split; [exact Hf|]. rewrite <- index_by_lookup.
  by rewrite (keyed_index_by current_item_key _ _ _ Hk).
Qed.

(** the batch keeps the last write of every table item.  The current
    items are sorted by their key, do not depend on the hasher, and contain,
    for exactly the keys written in the batch, the item of the last change
    to that key. *)
Theorem current_items_last_write (o1 o2 : HashOrder) (transactions : list Transaction)
    (r1 r2 : DefaultRows) txns bms wscs details :
  @default_rows _ _ _ _ _ _ _ o1 _ _ _ transactions = Ret r1 ->
  @default_rows _ _ _ _ _ _ _ o2 _ _ _ transactions = Ret r2 ->
  from_transactions transactions = Ret (txns, bms, wscs, details) ->
  rows_current_table_items r1 = rows_current_table_items r2 /\
  key_sorted current_item_key (rows_current_table_items r1) /\
  (forall c, c ∈ rows_current_table_items r1 <->
     last (filter (fun x => current_item_key x = current_item_key c) (omap detail_current details)) = Some c).
Proof.
  intros H1' H2' Hf.
  apply (@default_rows_details o1) in H1' as (b1 & d1 & Hf1 & _ & _ & _ & He1 & _).
  apply (@default_rows_details o2) in H2' as (b2 & d2 & Hf2 & _ & _ & _ & He2 & _).
  assert (d1 = details /\ d2 = details) as [-> ->] by (split; congruence).
  rewrite He1, He2. split_and!.
  - apply sort_into_values_unique, keyed_index_by.
  - apply sort_by_sorted.
  - intros c. apply elem_of_sorted_values.
Qed.

(** Rows of different batches: distinct versions. *)
Lemma current_item_version `{HashOrder} transactions rows c :
  default_rows transactions = Ret rows -> c ∈ rows_current_table_items rows ->
  cti_last_transaction_version c ∈ txn_versions transactions.
Proof.
  unfold txn_versions. intros Hr Hc. destruct (default_current_items _ _ _ Hr Hc) as (txns & bms & wscs & details & Hf & Hl).
  apply from_transactions_keys in Hf as (<- & Hd & Hin & _ & Hcv).
  apply last_Some_elem_of, list_elem_of_filter in Hl as [_ (d & Hdd & Hdc)%list_elem_of_omap].
  rewrite Forall_forall in Hcv. rewrite Forall_forall in Hin. specialize (Hcv d Hdd). rewrite Hdc in Hcv. simpl in Hcv. rewrite Hcv.
  assert (detail_key d ∈ change_key <$> wscs) as (w & -> & Hw)%list_elem_of_fmap
    by (rewrite <- Hd; by apply list_elem_of_fmap_2).
  by apply Hin.
Qed.

Lemma current_items_coherent `{HashOrder} (batches : list (list Transaction)) (rows : list DefaultRows) :
  NoDup (txn_versions (concat batches)) ->
  Forall2 (fun b r => default_rows b = Ret r) batches rows ->
  lww_coherent insert_current_table_items_query (concat (rows_current_table_items <$> rows)).
Proof.
  apply (batches_coherent _ _ _ cti_last_transaction_version); [done..|]. intros b r _ Hr. split; [|intros c; by eapply current_item_version].
  apply default_rows_details in Hr as (bms & details & _ & _ & _ & _ & -> & _). apply sorted_values_NoDup.
Qed.

(** C15: concurrently written batches converge.  When the current table items
    that batches of distinct versions emit are written in any order, the table ends
    up the same, and for each item it holds the emitted row with the largest
    version over all batches. *)
Theorem current_items_converge `{HashOrder} (batches : list (list Transaction)) (rows : list DefaultRows)
    (order : list CurrentTableItem) k c :
  NoDup (txn_versions (concat batches)) ->
  Forall2 (fun b r => default_rows b = Ret r) batches rows ->
  order ≡ₚ concat (rows_current_table_items <$> rows) ->
  upsert_rows insert_current_table_items_query ∅ order =
    upsert_rows insert_current_table_items_query ∅ (concat (rows_current_table_items <$> rows)) /\
  (upsert_rows insert_current_table_items_query ∅ order !! k = Some c ->
   c ∈ order /\ current_item_key c = k /\
   forall c', c' ∈ order -> current_item_key c' = k ->
     (cti_last_transaction_version c' <= cti_last_transaction_version c)%Z).
Proof.
  intros Hn Hrows Hp.
  assert (lww_coherent insert_current_table_items_query order) as Hc.
  { eapply lww_coherent_perm; [symmetry; exact Hp|]. by eapply current_items_coherent. }
  split.
  - eapply lww_rows_perm; [done| |done]. intros j o r Ho. by rewrite lookup_empty in Ho.
  - intros Hk. exact (lww_rows_newest insert_current_table_items_query order k c Hc Hk).
Qed.
End Batches.

(** ** Concrete batches *)

Section ConcreteBatches.
#[local] Existing Instance pair_chrono.
#[local] Existing Instance int_bigdec.
#[local] Existing Instance plain_hex.
#[local] Existing Instance plain_sha.
#[local] Existing Instance published_enums.
#[local] Existing Instance text_json.
#[local] Instance text_proto_json : ProtoJson :=
  {| move_type_json := fun _ => Some Null; move_function_json := fun s => Some (Str s);
     move_module_id_json := fun m => Some (Str (mmi_name m)); move_struct_json := fun s => Some (Str s) |}.
#[local] Instance no_entry_json : Serialize EntryFunctionPayloadClean := fun _ => None.
#[local] Instance no_script_json : Serialize ScriptPayloadClean := fun _ => None.
#[local] Instance no_multisig_json : Serialize MultisigPayloadClean := fun _ => None.

(** A write of a value to the item [k] of the table [0x5]. *)
Definition ex_table_write (k value : string) : WriteSetChangePB :=
  {| Proto.wsc_type := 6; wsc_change := Some (ChangeWriteTableItem
       {| wti_state_key_hash := "h"; wti_handle := "0x5"; wti_key := k;
          wti_data := Some {| wtd_key := k; wtd_key_type := "u64"; wtd_value := value;
                              wtd_value_type := "u64" |} |}) |}.
Definition ex_block (v : Z) (changes : list WriteSetChangePB) : Transaction :=
  {| t_timestamp := Some {| seconds := 1; nanos := 0 |}; t_version := v;
     t_info := Some {| ti_hash := "a"; ti_state_change_hash := "b"; ti_event_root_hash := "c";
       ti_state_checkpoint_hash := None; ti_gas_used := 0; ti_success := true; ti_vm_status := "ok";
       ti_accumulator_root_hash := "d"; ti_changes := changes |};
     t_epoch := 1; t_block_height := 2; t_type := 2;
     t_size_info := None; t_txn_data := Some (TdBlockMetadata {| bm_id := "i"; bm_round := 1; bm_events := [];
       bm_previous_block_votes_bitvec := EmptyString; bm_proposer := "0x1";
       bm_failed_proposer_indices := [] |}) |}.
(** Two writes to one key in version 7, one in version 8. *)
Definition ex_blocks : list Transaction :=
  [ex_block 7 [ex_table_write "k" "one"; ex_table_write "k" "two"]; ex_block 8 [ex_table_write "k" "three"]].
Definition no_rows : DefaultRows :=
  {| rows_transactions := []; rows_block_metadata := []; rows_write_set_changes := [];
     rows_move_modules := []; rows_move_resources := []; rows_table_items := [];
     rows_current_table_items := []; rows_table_metadata := [] |}.
Definition ex_rows_of (o : HashOrder) (txns : list Transaction) : DefaultRows :=
  ret_or no_rows (@default_rows _ _ _ _ _ _ _ o _ _ _ txns).
Definition ex_details (txns : list Transaction) : TransactionRows :=
  ret_or ([], [], [], []) (from_transactions txns).

(** The last write wins within the batch. *)
Example ex_current_item :
  (fun c => (cti_decoded_value c, cti_last_transaction_version c)) <$>
    rows_current_table_items (ex_rows_of map_order ex_blocks) = [(Some (Str "three"), 8%Z)].
Proof. vm_compute. reflexivity. Qed.

Lemma default_rows_distinct_witness :
  NoDup (up_key insert_table_items_query <$> rows_table_items (ex_rows_of map_order ex_blocks)).
Proof.
  apply (@default_rows_distinct _ _ _ _ _ _ _ _ _ _ map_order ex_blocks (ex_rows_of map_order ex_blocks)).
  - repeat (apply Forall_cons; split; [split; simpl; lia|]). apply Forall_nil_2.
  - apply (bool_decide_unpack _). vm_compute. exact I.
  - apply ret_or_eq. vm_compute. reflexivity.
Defined.

Lemma current_items_last_write_witness :
  rows_current_table_items (ex_rows_of map_order ex_blocks) =
  rows_current_table_items (ex_rows_of rev_order ex_blocks).
Proof.
  apply (@current_items_last_write _ _ _ _ _ _ _ _ _ _ map_order rev_order ex_blocks
           (ex_rows_of map_order ex_blocks) (ex_rows_of rev_order ex_blocks)
           (ex_details ex_blocks).1.1.1 (ex_details ex_blocks).1.1.2
           (ex_details ex_blocks).1.2 (ex_details ex_blocks).2).
  - apply ret_or_eq. vm_compute. reflexivity.
  - apply ret_or_eq. vm_compute. reflexivity.
  - rewrite <- !surjective_pairing. apply ret_or_eq. vm_compute. reflexivity.
Defined.

Lemma current_items_converge_witness :
  let r7 := ex_rows_of map_order [ex_block 7 [ex_table_write "k" "two"]] in
  let r8 := ex_rows_of map_order [ex_block 8 [ex_table_write "k" "three"]] in
  upsert_rows insert_current_table_items_query ∅
    (rows_current_table_items r8 ++ rows_current_table_items r7) =
  upsert_rows insert_current_table_items_query ∅
    (rows_current_table_items r7 ++ rows_current_table_items r8 ++ []).
Proof.
  intros r7 r8.
  apply (@current_items_converge _ _ _ _ _ _ _ _ _ _ map_order
           [[ex_block 7 [ex_table_write "k" "two"]]; [ex_block 8 [ex_table_write "k" "three"]]]
           [r7; r8] (rows_current_table_items r8 ++ rows_current_table_items r7)
           (EmptyString, EmptyString)
           {| cti_table_handle := EmptyString; cti_key_hash := EmptyString; cti_key := EmptyString;
              cti_decoded_key := Null; cti_decoded_value := None; cti_last_transaction_version := 0;
              cti_is_deleted := false |}).
  - apply (bool_decide_unpack _). vm_compute. exact I.
  - constructor; [apply ret_or_eq; vm_compute; reflexivity|].
    constructor; [apply ret_or_eq; vm_compute; reflexivity|constructor].
  - simpl. rewrite app_nil_r. apply Permutation_app_comm.
Defined.
End ConcreteBatches.
