(* ===== verification/TokenResources.v ===== *)
(** * Resources and events of objects and tokens

    [models/token_v2_models/v2_token_utils.rs] and the object core of
    [models/object_models/v2_object_utils.rs]: which resources and events of
    the object and token modules the indexer understands, and how they are
    read from a write set or an event. *)
From S2P Require Import Prelude RustStr Json Externals Proto Util DefaultModels.

Definition COIN_ADDR : string :=
  "0x0000000000000000000000000000000000000000000000000000000000000001".
Definition TOKEN_V2_ADDR : string :=
  "0x0000000000000000000000000000000000000000000000000000000000000004".
Definition NAME_LENGTH : nat := 128.
Definition URI_LENGTH : nat := 512.

(** [Table] of [token_utils.rs]. *)
Record MoveTable := { table_handle : string }.
Definition get_handle (t : MoveTable) : string := standardize_address (table_handle t).

(** The token standard, as it is printed. *)
Inductive TokenStandard := StandardV1 | StandardV2.
Definition standard_to_string (t : TokenStandard) : string :=
  match t with StandardV1 => "v1" | StandardV2 => "v2" end.

(** ** Data *)

Section Data.
Context `{BigDec}.

Record AggregatorU64 := { agg_value : BigDecimal; agg_max_value : BigDecimal }.
Record AggregatorSnapshotU64 := { snapshot_value : BigDecimal }.
Record DerivedStringSnapshot := { derived_value : string }.

Record ObjectCore := {
  allow_ungated_transfer : bool;
  guid_creation_num : BigDecimal;
  owner : string;
}.
Record Collection := {
  col_creator : string; col_description : string; col_name : string; col_uri : string }.
Record AptosCollection := { mutable_description : bool; mutable_uri : bool }.
Record ResourceReference := { reference_inner : string }.
Record TokenV2 := {
  tok_collection : ResourceReference; tok_description : string; tok_name : string; tok_uri : string }.
Record FixedSupply := {
  fs_current_supply : BigDecimal; fs_max_supply : BigDecimal; fs_total_minted : BigDecimal }.
Record UnlimitedSupply := { us_current_supply : BigDecimal; us_total_minted : BigDecimal }.
Record ConcurrentSupply := { cs_current_supply : AggregatorU64; cs_total_minted : AggregatorU64 }.
Record PropertyMapModel := { pm_inner : Value }.
Record TokenIdentifiers := { tid_name : DerivedStringSnapshot }.

Inductive V2TokenResource :=
| ResAptosCollection (r : AptosCollection)
| ResCollection (r : Collection)
| ResConcurrentSupply (r : ConcurrentSupply)
| ResFixedSupply (r : FixedSupply)
| ResObjectCore (r : ObjectCore)
| ResUnlimitedSupply (r : UnlimitedSupply)
| ResTokenV2 (r : TokenV2)
| ResPropertyMapModel (r : PropertyMapModel)
| ResTokenIdentifiers (r : TokenIdentifiers).

Record MintEvent := { me_index : BigDecimal; me_token : string }.
Record Mint := { mint_collection : string; mint_index : AggregatorSnapshotU64; mint_token : string }.
Record TokenMutationEvent := {
  mutated_field_name : string; old_value : string; new_value : string }.
Record BurnEvent := { be_index : BigDecimal; be_token : string }.
Record Burn := { burn_collection : string; burn_token : string; previous_owner : string }.
Record TransferEvent := { te_from : string; te_to : string; te_object : string }.

Inductive V2TokenEvent :=
| EvMint (e : Mint)
| EvMintEvent (e : MintEvent)
| EvTokenMutationEvent (e : TokenMutationEvent)
| EvBurn (e : Burn)
| EvBurnEvent (e : BurnEvent)
| EvTransferEvent (e : TransferEvent).

(** The derived [Deserialize] implementations. *)
Class TokenCodec := {
  de_ObjectCore :: Deserialize ObjectCore;
  de_Collection :: Deserialize Collection;
  de_ConcurrentSupply :: Deserialize ConcurrentSupply;
  de_FixedSupply :: Deserialize FixedSupply;
  de_UnlimitedSupply :: Deserialize UnlimitedSupply;
  de_AptosCollection :: Deserialize AptosCollection;
  de_TokenV2 :: Deserialize TokenV2;
  de_TokenIdentifiers :: Deserialize TokenIdentifiers;
  de_PropertyMapModel :: Deserialize PropertyMapModel;
  de_Mint :: Deserialize Mint;
  de_MintEvent :: Deserialize MintEvent;
  de_TokenMutationEvent :: Deserialize TokenMutationEvent;
  de_Burn :: Deserialize Burn;
  de_BurnEvent :: Deserialize BurnEvent;
  de_TransferEvent :: Deserialize TransferEvent;
}.

(** ** Accessors *)

Definition get_owner_address (o : ObjectCore) : string := standardize_address (owner o).
Definition get_creator_address (c : Collection) : string := standardize_address (col_creator c).
Definition collection_uri_trunc (c : Collection) : outcome string := truncate_str (col_uri c) URI_LENGTH.
Definition collection_name_trunc (c : Collection) : outcome string := truncate_str (col_name c) NAME_LENGTH.
Definition get_reference_address (r : ResourceReference) : string :=
  standardize_address (reference_inner r).
Definition token_collection_address (t : TokenV2) : string := get_reference_address (tok_collection t).
Definition token_uri_trunc (t : TokenV2) : outcome string := truncate_str (tok_uri t) URI_LENGTH.
Definition token_name_trunc (t : TokenV2) : outcome string := truncate_str (tok_name t) NAME_LENGTH.
Definition identifiers_name_trunc (t : TokenIdentifiers) : outcome string :=
  truncate_str (derived_value (tid_name t)) NAME_LENGTH.
Definition mint_event_token_address (e : MintEvent) : string := standardize_address (me_token e).
Definition mint_token_address (e : Mint) : string := standardize_address (mint_token e).
Definition burn_event_token_address (e : BurnEvent) : string := standardize_address (be_token e).
Definition new_burn (collection token previous_owner : string) : Burn :=
  {| burn_collection := collection; burn_token := token; previous_owner := previous_owner |}.
Definition burn_token_address (b : Burn) : string := standardize_address (burn_token b).
Definition get_previous_owner_address (b : Burn) : option string :=
  if decide (previous_owner b = EmptyString) then None
  else Some (standardize_address (previous_owner b)).
Definition burn_collection_address (b : Burn) : string := standardize_address (burn_collection b).
Definition get_from_address (e : TransferEvent) : string := standardize_address (te_from e).
Definition get_to_address (e : TransferEvent) : string := standardize_address (te_to e).
Definition get_object_address (e : TransferEvent) : string := standardize_address (te_object e).

(** ** Parsing *)

Definition is_resource_supported (data_type : string) : bool :=
  bool_decide (data_type ∈
    [COIN_ADDR +:+ "::object::ObjectCore";
     TOKEN_V2_ADDR +:+ "::collection::Collection";
     TOKEN_V2_ADDR +:+ "::collection::ConcurrentSupply";
     TOKEN_V2_ADDR +:+ "::collection::FixedSupply";
     TOKEN_V2_ADDR +:+ "::collection::UnlimitedSupply";
     TOKEN_V2_ADDR +:+ "::aptos_token::AptosCollection";
     TOKEN_V2_ADDR +:+ "::token::Token";
     TOKEN_V2_ADDR +:+ "::property_map::PropertyMap";
     TOKEN_V2_ADDR +:+ "::token::TokenIdentifiers"]).

Context `{!TokenCodec}.

(** A data type that is not matched is the second error, a failing parse the
    first. *)
Definition from_resource (data_type : string) (data : Value) (txn_version : Z) : result V2TokenResource :=
  if decide (data_type = COIN_ADDR +:+ "::object::ObjectCore") then
    ResObjectCore <$> context (de_from_value data)
  else if decide (data_type = TOKEN_V2_ADDR +:+ "::collection::Collection") then
    ResCollection <$> context (de_from_value data)
  else if decide (data_type = TOKEN_V2_ADDR +:+ "::collection::ConcurrentSupply") then
    ResConcurrentSupply <$> context (de_from_value data)
  else if decide (data_type = TOKEN_V2_ADDR +:+ "::collection::FixedSupply") then
    ResFixedSupply <$> context (de_from_value data)
  else if decide (data_type = TOKEN_V2_ADDR +:+ "::collection::UnlimitedSupply") then
    ResUnlimitedSupply <$> context (de_from_value data)
  else if decide (data_type = TOKEN_V2_ADDR +:+ "::aptos_token::AptosCollection") then
    ResAptosCollection <$> context (de_from_value data)
  else if decide (data_type = TOKEN_V2_ADDR +:+ "::token::Token") then
    ResTokenV2 <$> context (de_from_value data)
  else if decide (data_type = TOKEN_V2_ADDR +:+ "::token::TokenIdentifiers") then
    ResTokenIdentifiers <$> context (de_from_value data)
  else if decide (data_type = TOKEN_V2_ADDR +:+ "::property_map::PropertyMap") then
    ResPropertyMapModel <$> context (de_from_value data)
  else Err.

(** [V2TokenEvent::from_event]: [Ok None] for an event that is not about tokens. *)
Definition token_event (data_type data : string) (txn_version : Z) : result (option V2TokenEvent) :=
  if decide (data_type = "0x4::collection::Mint") then
    (Some ∘ EvMint) <$> context (de_from_str data)
  else if decide (data_type = "0x4::collection::MintEvent") then
    (Some ∘ EvMintEvent) <$> context (de_from_str data)
  else if decide (data_type = "0x4::token::MutationEvent") then
    (Some ∘ EvTokenMutationEvent) <$> context (de_from_str data)
  else if decide (data_type = "0x4::collection::Burn") then
    (Some ∘ EvBurn) <$> context (de_from_str data)
  else if decide (data_type = "0x4::collection::BurnEvent") then
    (Some ∘ EvBurnEvent) <$> context (de_from_str data)
  else if decide (data_type = "0x1::object::TransferEvent") then
    (Some ∘ EvTransferEvent) <$> context (de_from_str data)
  else Ok None.

(** The [from_event] of one kind of event: a parse error panics. *)
Definition event_of_kind {A} (pick : V2TokenEvent -> option A) (event : EventPB) (txn_version : Z)
  : outcome (result (option A)) :=
  e ← unwrap_result (token_event (ev_type_str event) (ev_data event) txn_version);
  Ret (Ok (e ≫= pick)).
Definition mint_event_from_event : EventPB -> Z -> outcome (result (option MintEvent)) :=
  event_of_kind (fun e => match e with EvMintEvent i => Some i | _ => None end).
Definition burn_event_from_event : EventPB -> Z -> outcome (result (option BurnEvent)) :=
  event_of_kind (fun e => match e with EvBurnEvent i => Some i | _ => None end).
Definition burn_from_event : EventPB -> Z -> outcome (result (option Burn)) :=
  event_of_kind (fun e => match e with EvBurn i => Some i | _ => None end).
Definition transfer_event_from_event : EventPB -> Z -> outcome (result (option TransferEvent)) :=
  event_of_kind (fun e => match e with EvTransferEvent i => Some i | _ => None end).

Context `{HexCodec, JsonParse, ProtoJson}.

(** The [from_write_resource] of one kind of resource. *)
Definition resource_of_kind {A} (pick : V2TokenResource -> option A)
    (write_resource : WriteResource) (txn_version : Z) : outcome (result (option A)) :=
  type_str ← get_outer_type_from_resource write_resource;
  if is_resource_supported type_str then
    resource ← DefaultModels.from_write_resource write_resource 0 txn_version 0;
    data ← unwrap (mr_data resource);
    Ret (inner ← from_resource type_str data txn_version; Ok (pick inner))
  else Ret (Ok None).
Definition aptos_collection_from_write_resource
  : WriteResource -> Z -> outcome (result (option AptosCollection)) :=
  resource_of_kind (fun r => match r with ResAptosCollection i => Some i | _ => None end).
Definition fixed_supply_from_write_resource
  : WriteResource -> Z -> outcome (result (option FixedSupply)) :=
  resource_of_kind (fun r => match r with ResFixedSupply i => Some i | _ => None end).
Definition unlimited_supply_from_write_resource
  : WriteResource -> Z -> outcome (result (option UnlimitedSupply)) :=
  resource_of_kind (fun r => match r with ResUnlimitedSupply i => Some i | _ => None end).
Definition concurrent_supply_from_write_resource
  : WriteResource -> Z -> outcome (result (option ConcurrentSupply)) :=
  resource_of_kind (fun r => match r with ResConcurrentSupply i => Some i | _ => None end).
Definition property_map_from_write_resource
  : WriteResource -> Z -> outcome (result (option PropertyMapModel)) :=
  resource_of_kind (fun r => match r with ResPropertyMapModel i => Some i | _ => None end).
Definition identifiers_from_write_resource
  : WriteResource -> Z -> outcome (result (option TokenIdentifiers)) :=
  resource_of_kind (fun r => match r with ResTokenIdentifiers i => Some i | _ => None end).

(** A token takes its name from the token identifiers found in the same
    resource. *)
Definition token_from_write_resource (write_resource : WriteResource) (txn_version : Z)
  : outcome (result (option TokenV2)) :=
  type_str ← get_outer_type_from_resource write_resource;
  if is_resource_supported type_str then
    resource ← DefaultModels.from_write_resource write_resource 0 txn_version 0;
    data ← unwrap (mr_data resource);
    match from_resource type_str data txn_version with
    | Err => Ret Err
    | Ok (ResTokenV2 inner) =>
        ids ← identifiers_from_write_resource write_resource txn_version;
        ids ← unwrap_result ids;
        Ret (Ok (Some (match ids with
                       | Some token_identifiers =>
                           {| tok_collection := tok_collection inner;
                              tok_description := tok_description inner;
                              tok_name := derived_value (tid_name token_identifiers);
                              tok_uri := tok_uri inner |}
                       | None => inner
                       end)))
    | Ok _ => Ret (Ok None)
    end
  else Ret (Ok None).

(** ** Objects *)

Record ObjectWithMetadata := { object_core : ObjectCore; object_state_key_hash : string }.

Definition object_from_write_resource (write_resource : WriteResource) (txn_version : Z)
  : outcome (result (option ObjectWithMetadata)) :=
  type_str ← get_outer_type_from_resource write_resource;
  if is_resource_supported type_str then
    data ← unwrap (json_from_str (wr_data write_resource));
    Ret (inner ← from_resource type_str data txn_version;
         Ok (match inner with
             | ResObjectCore inner =>
                 Some {| object_core := inner;
                         object_state_key_hash :=
                           standardize_address (hex_encode (wr_state_key_hash write_resource)) |}
             | _ => None
             end))
  else Ret (Ok None).

Definition get_state_key_hash (o : ObjectWithMetadata) : string :=
  standardize_address (object_state_key_hash o).

(** ** Which kind a resource is *)

(** The type of a resource decides its kind, so at most one of the
    [from_write_resource] functions yields a value. *)
Lemma resource_kind_type data_type data v r :
  from_resource data_type data v = Ok r ->
  match r with
  | ResObjectCore i => data_type = COIN_ADDR +:+ "::object::ObjectCore" /\ de_from_value data = Some i
  | ResTokenV2 i => data_type = TOKEN_V2_ADDR +:+ "::token::Token" /\ de_from_value data = Some i
  | ResTokenIdentifiers i => data_type = TOKEN_V2_ADDR +:+ "::token::TokenIdentifiers" /\ de_from_value data = Some i
  | ResCollection i => data_type = TOKEN_V2_ADDR +:+ "::collection::Collection" /\ de_from_value data = Some i
  | ResConcurrentSupply i => data_type = TOKEN_V2_ADDR +:+ "::collection::ConcurrentSupply" /\ de_from_value data = Some i
  | ResFixedSupply i => data_type = TOKEN_V2_ADDR +:+ "::collection::FixedSupply" /\ de_from_value data = Some i
  | ResUnlimitedSupply i => data_type = TOKEN_V2_ADDR +:+ "::collection::UnlimitedSupply" /\ de_from_value data = Some i
  | ResAptosCollection i => data_type = TOKEN_V2_ADDR +:+ "::aptos_token::AptosCollection" /\ de_from_value data = Some i
  | ResPropertyMapModel i => data_type = TOKEN_V2_ADDR +:+ "::property_map::PropertyMap" /\ de_from_value data = Some i
  end.
Proof.
  unfold from_resource. intros Hr.
  repeat (case_decide; [destruct (de_from_value data) eqn:Hd; simplify_eq/=; done|]). done.
Qed.

(** The name of a token is always the one in its own resource: the lookup of
    token identifiers in the same resource finds none. *)
Lemma token_name_own write_resource v t :
  token_from_write_resource write_resource v = Ret (Ok (Some t)) ->
  exists data, json_from_str (wr_data write_resource) = Some data /\ de_from_value data = Some t.
Proof.
  unfold token_from_write_resource, identifiers_from_write_resource, resource_of_kind.
  intros Ht. outcome_inv. rename select (get_outer_type_from_resource _ = _) into Hty.
  rewrite Hty in Ht. simpl in Ht. destruct (is_resource_supported x) eqn:Hsup; [|done].
  outcome_inv. rename select (DefaultModels.from_write_resource _ _ _ _ = _) into Hmr.
  pose proof Hmr as Hdata. unfold DefaultModels.from_write_resource in Hdata. outcome_inv.
  destruct (from_resource x _ v) as [r|] eqn:Hr; [|done].
  pose proof (resource_kind_type _ _ _ _ Hr) as Hk.
  destruct r as [| | | | | |inner| |]; try done.
  rewrite Hmr in Ht. simpl in Ht. rewrite Hr in Ht. simpl in Ht. outcome_inv.
  destruct Hk as [_ Hk]. eexists. split; [eassumption|exact Hk].
Qed.
End Data.

(** ** Concrete instances *)

(** No proto message can be printed. *)
Definition no_proto_json : ProtoJson :=
  {| move_type_json := fun _ => None; move_function_json := fun _ => None;
     move_module_id_json := fun _ => None; move_struct_json := fun _ => None |}.

(** An object core is written as the text of its owner;
    nothing else can be parsed. *)
Section OwnerCodec.
#[local] Existing Instance int_bigdec.
Definition no_de (A : Type) : Deserialize A :=
  {| de_from_str := fun _ => None; de_from_value := fun _ => None |}.
Definition owner_de : Deserialize ObjectCore :=
  {| de_from_str := fun _ => None;
     de_from_value := fun v => match v with
       | Str o => Some {| allow_ungated_transfer := true; guid_creation_num := 0%Z; owner := o |}
       | _ => None
       end |}.
Definition owner_codec : TokenCodec :=
  {| de_ObjectCore := owner_de; de_Collection := no_de _; de_ConcurrentSupply := no_de _;
     de_FixedSupply := no_de _; de_UnlimitedSupply := no_de _; de_AptosCollection := no_de _;
     de_TokenV2 := no_de _; de_TokenIdentifiers := no_de _; de_PropertyMapModel := no_de _;
     de_Mint := no_de _; de_MintEvent := no_de _; de_TokenMutationEvent := no_de _;
     de_Burn := no_de _; de_BurnEvent := no_de _; de_TransferEvent := no_de _ |}.
End OwnerCodec.

(** The write of an object core at an address. *)
Definition ex_object_core (address owner : string) : WriteResource :=
  {| wr_address := address; wr_state_key_hash := "K";
     wr_type := Some (mk_MoveStructTag "0x1" "object" "ObjectCore" []);
     wr_type_str := "0x1::object::ObjectCore"; wr_data := owner |}.
