(* ===== verification/AccountTransactions.v ===== *)
(** * Account transactions

    [models/account_transaction_models/account_transactions.rs] and
    [processors/account_transactions_processor.rs]: which accounts a
    transaction touches, one row for each. *)
From S2P Require Import Prelude RustStr Json Externals Proto Util Database Processors.
From S2P Require Import Signatures UserTransactions DefaultModels TokenResources.

Record AccountTransaction := { at_transaction_version : Z; at_account_address : string }.
#[export] Instance AccountTransaction_fields : FieldCount AccountTransaction := 2.

(** The key of the hash maps, and the key of the table. *)
Abbreviation AccountTransactionPK := (string * Z)%type (only parsing).
Definition account_pk (r : AccountTransaction) : AccountTransactionPK :=
  (at_account_address r, at_transaction_version r).
Definition account_sort_key (r : AccountTransaction) : Z * string :=
  (at_transaction_version r, at_account_address r).

Section AccountTransactions.
Context `{BigDec, HexCodec, ProtoEnums, JsonParse, ProtoJson}.
Context `{!TokenCodec}.

Abbreviation account_map := (gmap AccountTransactionPK AccountTransaction).
Definition account_entry (txn_version : Z) (account_address : string) : AccountTransaction :=
  {| at_transaction_version := txn_version; at_account_address := account_address |}.

Definition account_from_event (event : EventPB) (txn_version : Z) : outcome account_map :=
  key ← unwrap (ev_key event);
  let account_address := standardize_address (ek_account_address key) in
  Ret {[ (account_address, txn_version) := account_entry txn_version account_address ]}.

Definition account_from_write_resource (write_resource : WriteResource) (txn_version : Z)
  : outcome (result account_map) :=
  let account_address := standardize_address (wr_address write_resource) in
  let res : account_map :=
    {[ (account_address, txn_version) := account_entry txn_version account_address ]} in
  inner <-? object_from_write_resource write_resource txn_version;
  Ret (Ok (match inner with
           | Some inner =>
               <[(get_owner_address (object_core inner), txn_version) :=
                   account_entry txn_version (get_owner_address (object_core inner))]> res
           | None => res
           end)).

Definition account_from_delete_resource (delete_resource : DeleteResource) (txn_version : Z)
  : outcome (result account_map) :=
  let account_address := standardize_address (dr_address delete_resource) in
  Ret (Ok {[ (account_address, txn_version) := account_entry txn_version account_address ]}).

(** The three loops of [from_transaction]. *)
Definition add_signer (txn_version : Z) (m : account_map) (sig : Signature) : account_map :=
  <[(signer sig, txn_version) := account_entry txn_version (signer sig)]> m.
Definition add_event (txn_version : Z) (m : account_map) (event : EventPB) : outcome account_map :=
  m' ← account_from_event event txn_version; Ret (extend m m').
Definition add_change (txn_version : Z) (m : account_map) (wsc : WriteSetChangePB) : outcome account_map :=
  change ← unwrap (wsc_change wsc);
  match change with
  | ChangeDeleteResource res =>
      r ← account_from_delete_resource res txn_version; m' ← unwrap_result r; Ret (extend m m')
  | ChangeWriteResource res =>
      r ← account_from_write_resource res txn_version; m' ← unwrap_result r; Ret (extend m m')
  | _ => Ret m
  end.

(** [AccountTransaction::from_transaction]. *)
Definition accounts_from_transaction (transaction : Transaction) : outcome account_map :=
  let txn_version := as_i64 (t_version transaction) in
  match t_txn_data transaction with
  | None => Ret ∅
  | Some txn_data =>
      transaction_info ← unwrap (t_info transaction);
      let wscs := ti_changes transaction_info in
      parts ← match txn_data with
              | TdUser inner =>
                  request ← unwrap (ut_request inner);
                  signatures ← get_signatures request txn_version (as_i64 (t_block_height transaction));
                  Ret (Some (ut_events inner, signatures))
              | TdGenesis inner => Ret (Some (gt_events inner, []))
              | TdBlockMetadata inner => Ret (Some (bm_events inner, []))
              | _ => Ret None
              end;
      match parts with
      | None => Ret ∅
      | Some (events, signatures) =>
          let account_transactions := foldl (add_signer txn_version) ∅ signatures in
          account_transactions ← foldM (add_event txn_version) account_transactions events;
          foldM (add_change txn_version) account_transactions wscs
      end
  end.

(** ** The processor *)

Definition accounts_step (m : account_map) (txn : Transaction) : outcome account_map :=
  m' ← accounts_from_transaction txn; Ret (extend m m').
Definition account_transaction_rows `{HashOrder} (transactions : list Transaction) : outcome (list AccountTransaction) :=
  account_transactions ← foldM accounts_step ∅ transactions;
  Ret (sort_by account_sort_key (into_values account_transactions)).

Definition insert_account_transactions_query : Upsert AccountTransaction (Z * string) :=
  {| up_key := account_sort_key; up_action := DoNothing; up_where := None |}.

Context `{!Table AccountTransaction (Z * string)}.

Definition insert_account_transactions (sizes : gmap string nat) (rows : list AccountTransaction)
    (d d' : pg_state) (res : outcome (result unit)) : Prop :=
  write_table insert_account_transactions_query "account_transactions" sizes rows d d' res.

(** [AccountTransactionsProcessor::process_transactions]. *)
Definition process_account_transactions `{HashOrder} (sizes : gmap string nat)
  : list Transaction -> Z -> Z -> option Z -> pg_state -> pg_state ->
    outcome (result ProcessingResult) -> Prop :=
  process_batch account_transaction_rows (insert_account_transactions sizes).

#[export] Instance account_transactions_processor `{HashOrder} (sizes : gmap string nat)
  : ProcessorTrait (table_state AccountTransaction (Z * string)) :=
  {| processor_name := "account_transactions_processor";
     process_transactions := process_account_transactions sizes |}.
#[export] Instance account_transactions_processor_laws `{HashOrder} sizes :
  @ProcessorLaws _ (account_transactions_processor sizes).
Proof. intros txns s e chain d d' r Hr. by apply (process_batch_ok _ _ _ _ _ chain) in Hr as [? _]. Qed.

(** ** The accounts a transaction touches *)

Definition indexed_events (t : Transaction) : option (list EventPB) :=
  match t_txn_data t with
  | Some (TdUser inner) => Some (ut_events inner)
  | Some (TdGenesis inner) => Some (gt_events inner)
  | Some (TdBlockMetadata inner) => Some (bm_events inner)
  | _ => None
  end.

(** What one change of a write set adds. *)
Inductive change_touches (v : Z) (wsc : WriteSetChangePB) : string -> Prop :=
| touches_written wr :
    wsc_change wsc = Some (ChangeWriteResource wr) ->
    change_touches v wsc (standardize_address (wr_address wr))
| touches_owner wr o :
    wsc_change wsc = Some (ChangeWriteResource wr) ->
    object_from_write_resource wr v = Ret (Ok (Some o)) ->
    change_touches v wsc (get_owner_address (object_core o))
| touches_deleted dr :
    wsc_change wsc = Some (ChangeDeleteResource dr) ->
    change_touches v wsc (standardize_address (dr_address dr)).

(** The accounts of a transaction of an indexed kind: its signers, the
    accounts of its events, the accounts of the resources it writes or deletes,
    and the owners of the objects it writes. *)
Inductive touches (t : Transaction) : string -> Prop :=
| touches_signer u req sigs s :
    t_txn_data t = Some (TdUser u) -> ut_request u = Some req ->
    get_signatures req (as_i64 (t_version t)) (as_i64 (t_block_height t)) = Ret sigs -> s ∈ sigs ->
    touches t (signer s)
| touches_event evs ev key :
    indexed_events t = Some evs -> ev ∈ evs -> ev_key ev = Some key ->
    touches t (standardize_address (ek_account_address key))
| touches_change evs info wsc a :
    indexed_events t = Some evs -> t_info t = Some info -> wsc ∈ ti_changes info ->
    change_touches (as_i64 (t_version t)) wsc a -> touches t a.
Lemma add_event_files v P m ev m' :
  files account_pk P m -> add_event v m ev = Ret m' ->
  files account_pk (fun k => P k \/ exists key, ev_key ev = Some key /\
    k = (standardize_address (ek_account_address key), v)) m'.
Proof.
  unfold add_event, account_from_event. intros Hm He. outcome_inv.
  eapply files_proper; [|done|apply files_extend; [exact Hm|apply files_insert; [apply files_empty|done]]].
  intros k. naive_solver.
Qed.

(** The map of one change. *)
Lemma write_resource_files wr v m :
  account_from_write_resource wr v = Ret (Ok m) ->
  files account_pk (fun k => k = (standardize_address (wr_address wr), v) \/
    exists o, object_from_write_resource wr v = Ret (Ok (Some o)) /\
      k = (get_owner_address (object_core o), v)) m.
Proof.
  unfold account_from_write_resource. intros Hr.
  apply try_bind_Ok in Hr as (inner & Ho & Hr). rewrite Ho.
  assert (files account_pk (fun k => False \/ k = (standardize_address (wr_address wr), v))
    ({[(standardize_address (wr_address wr), v) :=
         account_entry v (standardize_address (wr_address wr))]} : account_map)) as Hone.
  { by apply files_insert; [apply files_empty|]. }
  destruct inner as [o|]; outcome_inv.
  - eapply files_proper; [|done|apply files_insert; [exact Hone|done]].
    intros k. naive_solver.
  - eapply files_proper; [|done|exact Hone]. intros k. naive_solver.
Qed.

Lemma add_change_files v P m wsc m' :
  files account_pk P m -> add_change v m wsc = Ret m' ->
  files account_pk (fun k => P k \/ (k.2 = v /\ change_touches v wsc k.1)) m'.
Proof.
  unfold add_change. intros Hm Hc. apply bind_Ret in Hc as (ch & Hch%unwrap_Ret & Hc).
  destruct ch as [|dr| | |wr|];
    try (outcome_inv; eapply files_proper; [|done|exact Hm]; intros k; split; [|tauto];
         intros [?|[_ Ht]]; [done|inversion Ht; congruence]).
  - unfold account_from_delete_resource in Hc. outcome_inv.
    eapply files_proper; [|done|apply files_extend; [exact Hm|apply files_insert; [apply files_empty|reflexivity]]].
    intros [a w]. simpl. apply or_iff_compat_l. split.
    + intros [-> Ht]. right. inversion Ht; congruence.
    + intros [[]|[= -> ->]]. split; [done|]. by eapply touches_deleted.
  - outcome_inv. rename select (account_from_write_resource _ _ = _) into Hw.
    apply write_resource_files in Hw.
    eapply files_proper; [|done|apply files_extend; [exact Hm|exact Hw]].
    intros [a w]. simpl. apply or_iff_compat_l. split.
    + intros [-> Ht]. inversion Ht; simplify_eq; naive_solver.
    + intros [[= -> ->]|(o & Ho & [= -> ->])]; (split; [done|]).
      * by eapply touches_written.
      * by eapply touches_owner.
Qed.

Lemma account_loops_files v sigs evs changes m :
  (m1 ← foldM (add_event v) (foldl (add_signer v) ∅ sigs) evs; foldM (add_change v) m1 changes) = Ret m ->
  files account_pk (fun k => k.2 = v /\
    ((exists s, s ∈ sigs /\ k.1 = signer s) \/
     (exists ev key, ev ∈ evs /\ ev_key ev = Some key /\ k.1 = standardize_address (ek_account_address key)) \/
     (exists c, c ∈ changes /\ change_touches v c k.1))) m.
Proof.
  intros Hm. outcome_inv. rename select (foldM (add_event v) _ _ = _) into He.
  assert (files account_pk (fun k => False \/ exists s, s ∈ sigs /\ k = (signer s, v))
            (foldl (add_signer v) ∅ sigs)) as Hs.
  { apply files_foldl; [|apply files_empty]. intros P m0 s _ Hm0. by apply files_insert. }
  eapply (files_foldM account_pk _ (fun ev k => exists key, ev_key ev = Some key /\
    k = (standardize_address (ek_account_address key), v))) in Hs; [|by intros; eapply add_event_files|exact He].
  eapply (files_foldM account_pk _ (fun c k => k.2 = v /\ change_touches v c k.1)) in Hs;
    [|by intros; eapply add_change_files|exact Hm].
  eapply files_proper; [|done|exact Hs]. intros [a w]. simpl. split.
  - intros [-> [(s & Hs' & ->)|[(ev & key & Hin & Hk & ->)|(c & Hin & Hc)]]]; eauto 10.
  - intros [[[[]|(s & Hs' & [= -> ->])]|(ev & Hin & key & Hk & [= -> ->])]|(c & Hin & -> & Hc)]; eauto 10.
Qed.

(** The map of a transaction has one entry for each account it touches. *)
Lemma accounts_from_transaction_files t m :
  accounts_from_transaction t = Ret m ->
  files account_pk (fun k => k.2 = as_i64 (t_version t) /\ touches t k.1) m.
Proof.
  unfold accounts_from_transaction. intros Hm.
  destruct (indexed_events t) as [evs|] eqn:Hev; pose proof Hev as Hev'; unfold indexed_events in Hev'.
  2:{ assert (m = ∅) as ->.
      { destruct (t_txn_data t) as [[]|]; outcome_inv; done. }
      eapply files_proper; [|done|apply files_empty]. intros k. split; [|done]. intros [_ Ht].
      destruct Ht; repeat case_match; simplify_eq. }
  assert (exists info sigs, t_info t = Some info /\
    (forall a, (exists s, s ∈ sigs /\ a = signer s) <->
       exists u req sigs s, t_txn_data t = Some (TdUser u) /\ ut_request u = Some req /\
         get_signatures req (as_i64 (t_version t)) (as_i64 (t_block_height t)) = Ret sigs /\
         s ∈ sigs /\ a = signer s) /\
    (m1 ← foldM (add_event (as_i64 (t_version t))) (foldl (add_signer (as_i64 (t_version t))) ∅ sigs) evs;
     foldM (add_change (as_i64 (t_version t))) m1 (ti_changes info)) = Ret m)
    as (info & sigs & Hi & Hs & Hl).
  { destruct (t_txn_data t) as [[bm|g| |u|]|] eqn:Hd; simplify_eq;
      apply bind_Ret in Hm as (info & Hi%unwrap_Ret & Hm); simpl in Hm;
      [exists info, []; split_and!; [done|set_solver|exact Hm]..|].
    apply bind_Ret in Hm as (parts & Hp & Hm). outcome_inv.
    rename select (get_signatures _ _ _ = _) into Hg. exists info, x0. split_and!; [done| |apply bind_Ret; eauto].
    intros a. split; [naive_solver|].
    intros (u' & req & sigs & s & [= <-] & Hreq & Hsig & Hin & ->). exists s. split; [|done].
    rewrite Hreq in *. simplify_eq. rewrite Hg in Hsig. by simplify_eq. }
  eapply files_proper; [|done|exact (account_loops_files _ _ _ _ _ Hl)].
  intros [a w]. simpl. apply and_iff_compat_l. rewrite Hs. split.
  - intros [u req sigs' s|evs' ev key ? Hin|evs' info' c a' ? Hi' Hin]; simplify_eq; naive_solver.
  - intros [(u & req & sg & s & ? & ? & ? & ? & ->)|[(ev & key & Hin & Hk & ->)|(c & Hin & Hc)]].
    + by eapply touches_signer.
    + by eapply touches_event.
    + by eapply touches_change.
Qed.

Lemma account_rows_files transactions m :
  foldM accounts_step ∅ transactions = Ret m ->
  files account_pk (fun k => exists t, t ∈ transactions /\ k.2 = as_i64 (t_version t) /\ touches t k.1) m.
Proof.
  intros Hm. eapply (files_foldM account_pk _ (fun t k => k.2 = as_i64 (t_version t) /\ touches t k.1)) in Hm;
    [|  |apply files_empty].
  - eapply files_proper; [|done|exact Hm]. intros k. tauto.
  - intros P m0 t m1 _ Hm0 Hst. unfold accounts_step in Hst. outcome_inv.
    apply files_extend; [done|]. by apply accounts_from_transaction_files.
Qed.

(** the rows of a batch are the accounts its transactions touch.  Whenever
    the rows are computed, there is one row for a version and an account
    exactly when a transaction of that version touches the account; the rows
    are sorted, have distinct primary keys, and do not depend on the iteration
    order of the hash maps. *)
Theorem account_rows_exact `{HashOrder} (transactions : list Transaction) (rows : list AccountTransaction) :
  account_transaction_rows transactions = Ret rows ->
  (forall row, row ∈ rows <-> exists t, t ∈ transactions /\
     at_transaction_version row = as_i64 (t_version t) /\ touches t (at_account_address row)) /\
  key_sorted account_sort_key rows /\ NoDup (account_sort_key <$> rows) /\
  (forall order : HashOrder, @account_transaction_rows order transactions = Ret rows).
Proof.
  unfold account_transaction_rows. intros Hr. apply bind_Ret in Hr as (m & Hm & Hr). rewrite Hm. outcome_inv.
  destruct (account_rows_files _ _ Hm) as [Hk HP].
  assert (forall order : HashOrder, NoDup (account_sort_key <$> into_values (H := order) m)) as Hn.
  { intros order. apply (NoDup_fmap_1 (fun k => (k.2, k.1))). rewrite <- list_fmap_compose.
    apply (into_values_NoDup account_pk) in Hk. exact Hk. }
  split_and!.
  - intros row. rewrite sort_by_perm, elem_of_into_values. split.
    + intros [k Hl]. pose proof (Hk _ _ Hl) as <-. by apply (HP (account_pk row)).
    + intros Ht. destruct (HP (account_pk row)) as [_ [row' Hl]]; [exact Ht|].
      exists (account_pk row). rewrite Hl. f_equal. pose proof (Hk _ _ Hl) as Heq.
      destruct row, row'. unfold account_pk in Heq. by simplify_eq/=.
  - apply sort_by_sorted.
  - rewrite sort_by_perm. apply Hn.
  - intros order. simpl. f_equal. apply sort_by_unique; [apply Hn|by rewrite !into_values_perm].
Qed.
End AccountTransactions.

(** ** A concrete batch *)

Section ConcreteAccounts.
#[local] Existing Instance int_bigdec.
#[local] Existing Instance plain_hex.
#[local] Existing Instance published_enums.
#[local] Existing Instance text_json.
#[local] Existing Instance map_order.
#[local] Existing Instance no_proto_json.
#[local] Existing Instance owner_codec.

Definition ex_account_change (c : ChangeEnum) : WriteSetChangePB := {| wsc_type := 0; wsc_change := Some c |}.
Definition ex_account_txn : Transaction :=
  {| t_timestamp := None; t_version := 7;
     t_info := Some
       {| ti_hash := EmptyString; ti_state_change_hash := EmptyString; ti_event_root_hash := EmptyString;
          ti_state_checkpoint_hash := None; ti_gas_used := 1; ti_success := true;
          ti_vm_status := EmptyString; ti_accumulator_root_hash := EmptyString;
          ti_changes := [ex_account_change (ChangeWriteResource (ex_object_core "0xbeef" "0xd00d"));
                         ex_account_change (ChangeDeleteResource
                           {| dr_address := "0xcafe"; dr_state_key_hash := EmptyString; dr_type := None;
                              dr_type_str := EmptyString |})] |};
     t_epoch := 0; t_block_height := 1; t_type := 1;
     t_size_info := None; t_txn_data := Some (TdGenesis {| gt_payload := None; gt_events :=
       [{| ev_key := Some {| ek_account_address := "0x1"; ek_creation_number := 3 |};
           ev_sequence_number := 5; ev_type := None; ev_type_str := EmptyString;
           ev_data := EmptyString |}] |}) |}.
Definition ex_account_rows : list AccountTransaction :=
  (fun a => account_entry 7 (standardize_address a)) <$> ["0x1"; "0xbeef"; "0xcafe"; "0xd00d"].

(** An event of 0x1, an object at 0xbeef owned by 0xd00d, and a deleted
    resource of 0xcafe. *)
Lemma account_rows_exact_witness :
  account_transaction_rows [ex_account_txn] = Ret ex_account_rows /\
  (forall row, row ∈ ex_account_rows <-> exists t, t ∈ [ex_account_txn] /\
     at_transaction_version row = as_i64 (t_version t) /\ touches t (at_account_address row)) /\
  key_sorted account_sort_key ex_account_rows /\ NoDup (account_sort_key <$> ex_account_rows) /\
  (forall order : HashOrder, @account_transaction_rows _ _ _ _ _ _ order [ex_account_txn] = Ret ex_account_rows).
Proof.
  assert (account_transaction_rows [ex_account_txn] = Ret ex_account_rows) as Hr by (vm_compute; reflexivity).
  split; [exact Hr|]. apply (account_rows_exact [ex_account_txn] ex_account_rows). exact Hr.
Defined.
End ConcreteAccounts.
