(* ===== verification/FungibleResources.v ===== *)
(** * Resources and events of fungible assets

    [models/fungible_asset_models/v2_fungible_asset_utils.rs], and the data the
    processors collect for an object ([ObjectAggregatedData] of
    [models/object_models/v2_object_utils.rs]). *)
From S2P Require Import Prelude RustStr Json Externals Proto Util DefaultModels TokenResources.

Definition FUNGIBLE_ASSET_LENGTH : nat := 32.
Definition FUNGIBLE_ASSET_SYMBOL : nat := 10.

(** ** Data *)

Section Data.
Context `{BigDec}.

Record FeeStatement := { storage_fee_refund_octas : Z }.
Record FungibleAssetMetadata := {
  fam_name : string; fam_symbol : string; fam_decimals : Z; fam_icon_uri : string;
  fam_project_uri : string }.
Record FungibleAssetStore := {
  fas_metadata : ResourceReference; fas_balance : BigDecimal; fas_frozen : bool }.
Record OptionalBigDecimal := { optional_vec : list BigDecimal }.
Record FungibleAssetSupply := { sup_current : BigDecimal; sup_maximum : OptionalBigDecimal }.
Record DepositEvent := { deposit_amount : BigDecimal }.
Record WithdrawEvent := { withdraw_amount : BigDecimal }.
Record FrozenEvent := { event_frozen : bool }.

Inductive V2FungibleAssetResource :=
| ResFungibleAssetMetadata (r : FungibleAssetMetadata)
| ResFungibleAssetStore (r : FungibleAssetStore)
| ResFungibleAssetSupply (r : FungibleAssetSupply).
Inductive FungibleAssetEvent :=
| EvDepositEvent (e : DepositEvent)
| EvWithdrawEvent (e : WithdrawEvent)
| EvFrozenEvent (e : FrozenEvent).

(** The derived [Deserialize] implementations. *)
Class FungibleCodec := {
  de_FeeStatement :: Deserialize FeeStatement;
  de_FungibleAssetMetadata :: Deserialize FungibleAssetMetadata;
  de_FungibleAssetStore :: Deserialize FungibleAssetStore;
  de_FungibleAssetSupply :: Deserialize FungibleAssetSupply;
  de_DepositEvent :: Deserialize DepositEvent;
  de_WithdrawEvent :: Deserialize WithdrawEvent;
  de_FrozenEvent :: Deserialize FrozenEvent;
}.

(** What is known of an object in a batch. *)
Record ObjectAggregatedData := {
  oad_object : ObjectWithMetadata;
  oad_transfer_events : list (Z * TransferEvent);
  oad_fungible_asset_metadata : option FungibleAssetMetadata;
  oad_fungible_asset_supply : option FungibleAssetSupply;
  oad_fungible_asset_store : option FungibleAssetStore;
  oad_aptos_collection : option AptosCollection;
  oad_fixed_supply : option FixedSupply;
  oad_property_map : option PropertyMapModel;
  oad_token : option TokenV2;
  oad_unlimited_supply : option UnlimitedSupply;
  oad_concurrent_supply : option ConcurrentSupply;
  oad_token_identifier : option TokenIdentifiers;
}.
(** An object of which only the core is known. *)
Definition new_aggregated_data (o : ObjectWithMetadata) : ObjectAggregatedData :=
  {| oad_object := o; oad_transfer_events := []; oad_fungible_asset_metadata := None;
     oad_fungible_asset_supply := None; oad_fungible_asset_store := None;
     oad_aptos_collection := None; oad_fixed_supply := None; oad_property_map := None;
     oad_token := None; oad_unlimited_supply := None; oad_concurrent_supply := None;
     oad_token_identifier := None |}.

(** ** Accessors *)

Definition fam_get_name (m : FungibleAssetMetadata) : outcome string :=
  truncate_str (fam_name m) FUNGIBLE_ASSET_LENGTH.
Definition fam_get_symbol (m : FungibleAssetMetadata) : outcome string :=
  truncate_str (fam_symbol m) FUNGIBLE_ASSET_SYMBOL.
Definition fam_get_icon_uri (m : FungibleAssetMetadata) : outcome string :=
  truncate_str (fam_icon_uri m) URI_LENGTH.
Definition fam_get_project_uri (m : FungibleAssetMetadata) : outcome string :=
  truncate_str (fam_project_uri m) URI_LENGTH.
Definition get_maximum (s : FungibleAssetSupply) : option BigDecimal :=
  head (optional_vec (sup_maximum s)).

(** ** Parsing *)

Definition is_fungible_resource_supported (data_type : string) : bool :=
  bool_decide (data_type ∈
    [COIN_ADDR +:+ "::fungible_asset::Supply";
     COIN_ADDR +:+ "::fungible_asset::Metadata";
     COIN_ADDR +:+ "::fungible_asset::FungibleStore"]).

Context `{!FungibleCodec}.

Definition fungible_from_resource (data_type : string) (data : Value) (txn_version : Z)
  : result V2FungibleAssetResource :=
  if decide (data_type = COIN_ADDR +:+ "::fungible_asset::Supply") then
    ResFungibleAssetSupply <$> context (de_from_value data)
  else if decide (data_type = COIN_ADDR +:+ "::fungible_asset::Metadata") then
    ResFungibleAssetMetadata <$> context (de_from_value data)
  else if decide (data_type = COIN_ADDR +:+ "::fungible_asset::FungibleStore") then
    ResFungibleAssetStore <$> context (de_from_value data)
  else Err.

Definition fungible_event (data_type data : string) (txn_version : Z)
  : result (option FungibleAssetEvent) :=
  if decide (data_type = "0x1::fungible_asset::DepositEvent") then
    (Some ∘ EvDepositEvent) <$> context (de_from_str data)
  else if decide (data_type = "0x1::fungible_asset::WithdrawEvent") then
    (Some ∘ EvWithdrawEvent) <$> context (de_from_str data)
  else if decide (data_type = "0x1::fungible_asset::FrozenEvent") then
    (Some ∘ EvFrozenEvent) <$> context (de_from_str data)
  else Ok None.

(** [FeeStatement::from_event]: a parse error panics. *)
Definition fee_statement_from_event (data_type data : string) (txn_version : Z)
  : outcome (option FeeStatement) :=
  if decide (data_type = "0x1::transaction_fee::FeeStatement")
  then fee_statement ← unwrap (de_from_str data); Ret (Some fee_statement)
  else Ret None.

Context `{HexCodec, JsonParse, ProtoJson}.

Definition fungible_of_kind {A} (pick : V2FungibleAssetResource -> option A)
    (write_resource : WriteResource) (txn_version : Z) : outcome (result (option A)) :=
  type_str ← get_outer_type_from_resource write_resource;
  if is_fungible_resource_supported type_str then
    resource ← DefaultModels.from_write_resource write_resource 0 txn_version 0;
    data ← unwrap (mr_data resource);
    Ret (inner ← fungible_from_resource type_str data txn_version; Ok (pick inner))
  else Ret (Ok None).
Definition metadata_from_write_resource
  : WriteResource -> Z -> outcome (result (option FungibleAssetMetadata)) :=
  fungible_of_kind (fun r => match r with ResFungibleAssetMetadata i => Some i | _ => None end).
Definition store_from_write_resource
  : WriteResource -> Z -> outcome (result (option FungibleAssetStore)) :=
  fungible_of_kind (fun r => match r with ResFungibleAssetStore i => Some i | _ => None end).
Definition supply_from_write_resource
  : WriteResource -> Z -> outcome (result (option FungibleAssetSupply)) :=
  fungible_of_kind (fun r => match r with ResFungibleAssetSupply i => Some i | _ => None end).
End Data.
