(* ===== verification/Objects.v ===== *)
(** * Objects

    [models/object_models/v2_objects.rs] and [processors/objects_processor.rs]:
    the history of the objects a batch writes or deletes, and their current
    owners. *)
From S2P Require Import Prelude RustStr Json Externals Proto Util Database Processors.
From S2P Require Import DefaultModels TokenResources FungibleResources.

Section Objects.
Context `{BigDec, HexCodec, JsonParse, ProtoJson}.
Context `{!TokenCodec}.

Record Object := {
  obj_transaction_version : Z;
  obj_write_set_change_index : Z;
  obj_object_address : string;
  obj_owner_address : string;
  obj_state_key_hash : string;
  obj_guid_creation_num : BigDecimal;
  obj_allow_ungated_transfer : bool;
  obj_is_deleted : bool;
}.
Record CurrentObject := {
  co_object_address : string;
  co_owner_address : string;
  co_state_key_hash : string;
  co_allow_ungated_transfer : bool;
  co_last_guid_creation_num : BigDecimal;
  co_last_transaction_version : Z;
  co_is_deleted : bool;
}.
#[export] Instance Object_fields : FieldCount Object := 8.
#[export] Instance CurrentObject_fields : FieldCount CurrentObject := 7.
Definition object_key (o : Object) : Z * Z := (obj_transaction_version o, obj_write_set_change_index o).

Definition row_from_write_resource (write_resource : WriteResource)
    (txn_version write_set_change_index : Z)
    (object_metadata_mapping : gmap string ObjectAggregatedData) : option (Object * CurrentObject) :=
  let address := standardize_address (wr_address write_resource) in
  match object_metadata_mapping !! address with
  | Some object_aggregated_metadata =>
      let object_with_metadata := oad_object object_aggregated_metadata in
      let core := object_core object_with_metadata in
      Some ({| obj_transaction_version := txn_version;
               obj_write_set_change_index := write_set_change_index;
               obj_object_address := address;
               obj_owner_address := get_owner_address core;
               obj_state_key_hash := object_state_key_hash object_with_metadata;
               obj_guid_creation_num := guid_creation_num core;
               obj_allow_ungated_transfer := allow_ungated_transfer core;
               obj_is_deleted := false |},
            {| co_object_address := address;
               co_owner_address := get_owner_address core;
               co_state_key_hash := object_state_key_hash object_with_metadata;
               co_allow_ungated_transfer := allow_ungated_transfer core;
               co_last_guid_creation_num := guid_creation_num core;
               co_last_transaction_version := txn_version;
               co_is_deleted := false |})
  | None => None
  end.

(** ** Lookup in the database

    [query n address] is the answer to the [n]-th lookup of [address] by
    this call: the current row, or an error. *)
Definition CurrentObjectQuery : Type := nat -> string -> result CurrentObject.

Definition get_current_object (query_retries : nat) (query : CurrentObjectQuery) (object_address : string)
  : result CurrentObject :=
  retry_lookup query_retries (fun n => query n object_address).

Definition row_from_delete_resource (delete_resource : DeleteResource)
    (txn_version write_set_change_index : Z) (object_mapping : gmap string CurrentObject)
    (query : CurrentObjectQuery) (query_retries : nat) : outcome (option (Object * CurrentObject)) :=
  if decide (dr_type_str delete_resource = "0x1::object::ObjectGroup") then
    resource ← DefaultModels.from_delete_resource delete_resource 0 txn_version 0;
    let previous_object :=
      match object_mapping !! mr_address resource with
      | Some object => Ok object
      | None => get_current_object query_retries query (mr_address resource)
      end in
    Ret (match previous_object with
         | Err => None
         | Ok previous_object =>
             Some ({| obj_transaction_version := txn_version;
                      obj_write_set_change_index := write_set_change_index;
                      obj_object_address := mr_address resource;
                      obj_owner_address := co_owner_address previous_object;
                      obj_state_key_hash := mr_state_key_hash resource;
                      obj_guid_creation_num := co_last_guid_creation_num previous_object;
                      obj_allow_ungated_transfer := co_allow_ungated_transfer previous_object;
                      obj_is_deleted := true |},
                   {| co_object_address := mr_address resource;
                      co_owner_address := co_owner_address previous_object;
                      co_state_key_hash := mr_state_key_hash resource;
                      co_last_guid_creation_num := co_last_guid_creation_num previous_object;
                      co_allow_ungated_transfer := co_allow_ungated_transfer previous_object;
                      co_last_transaction_version := txn_version;
                      co_is_deleted := true |})
         end)
  else Ret None.

(** ** The processor *)

Record ObjectsState := {
  all_objects : list Object;
  all_current_objects : gmap string CurrentObject;
  object_metadata_helper : gmap string ObjectAggregatedData;
}.

(** First pass over the changes: the object cores. *)
Definition collect_object_core (txn_version : Z) (helper : gmap string ObjectAggregatedData)
    (wsc : WriteSetChangePB) : outcome (gmap string ObjectAggregatedData) :=
  change ← unwrap (wsc_change wsc);
  match change with
  | ChangeWriteResource wr =>
      let address := standardize_address (wr_address wr) in
      o ← object_from_write_resource wr txn_version;
      o ← unwrap_result o;
      Ret (match o with
           | Some object_with_metadata => <[address := new_aggregated_data object_with_metadata]> helper
           | None => helper
           end)
  | _ => Ret helper
  end.

Definition push_object (st : ObjectsState) (r : option (Object * CurrentObject)) : ObjectsState :=
  match r with
  | Some (object, current_object) =>
      {| all_objects := all_objects st ++ [object];
         all_current_objects := <[obj_object_address object := current_object]> (all_current_objects st);
         object_metadata_helper := object_metadata_helper st |}
  | None => st
  end.

Section Batch.
(** The answers of the database to the lookups for a change, given by its
    version and index. *)
Variable queries : Z -> Z -> CurrentObjectQuery.
Variable query_retries : nat.

(** Second pass: the rows. *)
Definition object_change_step (txn_version : Z) (st : ObjectsState) (iwsc : Z * WriteSetChangePB)
  : outcome ObjectsState :=
  let '(index, wsc) := iwsc in
  change ← unwrap (wsc_change wsc);
  match change with
  | ChangeWriteResource inner =>
      Ret (push_object st (row_from_write_resource inner txn_version index (object_metadata_helper st)))
  | ChangeDeleteResource inner =>
      r ← row_from_delete_resource inner txn_version index (all_current_objects st)
            (queries txn_version index) query_retries;
      Ret (push_object st r)
  | _ => Ret st
  end.

Definition objects_step (st : ObjectsState) (txn : Transaction) : outcome ObjectsState :=
  let txn_version := as_i64 (t_version txn) in
  info ← unwrap (t_info txn);
  let changes := ti_changes info in
  helper ← foldM (collect_object_core txn_version) (object_metadata_helper st) changes;
  foldM (object_change_step txn_version)
    {| all_objects := all_objects st; all_current_objects := all_current_objects st;
       object_metadata_helper := helper |} (enumerate changes).

Definition objects_init : ObjectsState :=
  {| all_objects := []; all_current_objects := ∅; object_metadata_helper := ∅ |}.

Definition object_rows `{HashOrder} (transactions : list Transaction)
  : outcome (list Object * list CurrentObject) :=
  st ← foldM objects_step objects_init transactions;
  Ret (all_objects st, sort_by co_object_address (into_values (all_current_objects st))).

(** The column [inserted_at] is filled by the server. *)
Definition insert_objects_query : Upsert Object (Z * Z) :=
  {| up_key := object_key; up_action := DoUpdate (fun old _ => old); up_where := None |}.
Definition set_current_object (old new : CurrentObject) : CurrentObject :=
  {| co_object_address := co_object_address old;
     co_owner_address := co_owner_address new;
     co_state_key_hash := co_state_key_hash new;
     co_allow_ungated_transfer := co_allow_ungated_transfer new;
     co_last_guid_creation_num := co_last_guid_creation_num new;
     co_last_transaction_version := co_last_transaction_version new;
     co_is_deleted := co_is_deleted new |}.
Definition insert_current_objects_query : Upsert CurrentObject string :=
  {| up_key := co_object_address;
     up_action := DoUpdate set_current_object;
     up_where := Some (fun old new =>
       bool_decide (co_last_transaction_version old <= co_last_transaction_version new)%Z) |}.

#[export] Instance current_objects_lww : Lww insert_current_objects_query.
Proof.
  refine {| lww_rank := co_last_transaction_version; lww_static_type := unit;
            lww_static := fun _ => tt; lww_set := set_current_object |}; try done.
  intros [] [] Hk _. simpl in Hk. by subst.
Defined.

Context `{!Table Object (Z * Z), !Table CurrentObject string}.

Record ObjectsDb := {
  db_objects : table_state Object (Z * Z);
  db_current_objects : table_state CurrentObject string;
}.

Definition insert_objects (sizes : gmap string nat) (rows : list Object * list CurrentObject)
    (d d' : ObjectsDb) (res : outcome (result unit)) : Prop :=
  exists io_res co_res,
    write_table insert_objects_query "objects" sizes rows.1 (db_objects d) (db_objects d') io_res /\
    write_table insert_current_objects_query "current_objects" sizes rows.2
      (db_current_objects d) (db_current_objects d') co_res /\
    res = join_results [io_res; co_res].

(** [ObjectsProcessor::process_transactions]. *)
Definition process_objects `{HashOrder} (sizes : gmap string nat)
  : list Transaction -> Z -> Z -> option Z -> ObjectsDb -> ObjectsDb ->
    outcome (result ProcessingResult) -> Prop :=
  process_batch object_rows (insert_objects sizes).

#[export] Instance objects_processor `{HashOrder} (sizes : gmap string nat) : ProcessorTrait ObjectsDb :=
  {| processor_name := "objects_processor"; process_transactions := process_objects sizes |}.
#[export] Instance objects_processor_laws `{HashOrder} sizes : @ProcessorLaws _ (objects_processor sizes).
Proof. intros txns s e chain d d' r Hr. by apply (process_batch_ok _ _ _ _ _ chain) in Hr as [? _]. Qed.

(** ** History and current state *)

(** The current row that goes with a row of the history. *)
Definition current_of (o : Object) : CurrentObject :=
  {| co_object_address := obj_object_address o;
     co_owner_address := obj_owner_address o;
     co_state_key_hash := obj_state_key_hash o;
     co_allow_ungated_transfer := obj_allow_ungated_transfer o;
     co_last_guid_creation_num := obj_guid_creation_num o;
     co_last_transaction_version := obj_transaction_version o;
     co_is_deleted := obj_is_deleted o |}.

Lemma row_from_write_resource_row wr v i helper o c :
  row_from_write_resource wr v i helper = Some (o, c) -> c = current_of o /\ object_key o = (v, i).
Proof. unfold row_from_write_resource. destruct (helper !! _); intros; by simplify_eq. Qed.

Lemma row_from_delete_resource_row dr v i m query retries o c :
  row_from_delete_resource dr v i m query retries = Ret (Some (o, c)) ->
  c = current_of o /\ object_key o = (v, i).
Proof.
  unfold row_from_delete_resource. case_decide; intros Hr; [|done]. outcome_inv.
  destruct (match m !! _ with Some object => Ok object | None => _ end); by simplify_eq.
Qed.

(** [st'] is [st] with the history [new] appended and its current rows
    entered in order. *)
Definition extends_by (st st' : ObjectsState) (new : list Object) : Prop :=
  all_objects st' = all_objects st ++ new /\
  all_current_objects st' =
    foldl (fun m c => <[co_object_address c := c]> m) (all_current_objects st) (current_of <$> new).

Lemma extends_by_refl st : extends_by st st [].
Proof. split; [by rewrite app_nil_r|done]. Qed.

Lemma extends_by_trans st1 st2 st3 l1 l2 :
  extends_by st1 st2 l1 -> extends_by st2 st3 l2 -> extends_by st1 st3 (l1 ++ l2).
Proof.
  intros [Ho1 Hc1] [Ho2 Hc2]. split.
  - by rewrite Ho2, Ho1, app_assoc.
  - by rewrite fmap_app, foldl_app, Hc2, Hc1.
Qed.

Lemma object_change_step_row v st i wsc st' :
  object_change_step v st (i, wsc) = Ret st' ->
  exists new, extends_by st st' new /\ (object_key <$> new = [] \/ object_key <$> new = [(v, i)]).
Proof.
  assert (forall r : option (Object * CurrentObject),
    (forall o c, r = Some (o, c) -> c = current_of o /\ object_key o = (v, i)) ->
    exists new, extends_by st (push_object st r) new /\
      (object_key <$> new = [] \/ object_key <$> new = [(v, i)])) as Hpush.
  { intros [[o c]|] Hr; [|exists []; split; [apply extends_by_refl|by left]].
    destruct (Hr o c eq_refl) as [-> Hk]. exists [o]. split; [by split|right]. by rewrite <- Hk. }
  unfold object_change_step. intros Hs. apply bind_Ret in Hs as (ch & _ & Hs).
  destruct ch as [|dr| | |wr|]; outcome_inv;
    try by (exists []; split; [apply extends_by_refl|by left]).
  - rename select (row_from_delete_resource _ _ _ _ _ _ = _) into Hd. apply Hpush.
    intros o c ->. by eapply row_from_delete_resource_row.
  - apply Hpush. intros o c. apply row_from_write_resource_row.
Qed.

Lemma object_changes_rows v changes k st st' :
  foldM (object_change_step v) st (enumerate_from k changes) = Ret st' ->
  exists new, extends_by st st' new /\ NoDup (object_key <$> new) /\
    Forall (fun o => obj_transaction_version o = v /\ (k <= obj_write_set_change_index o)%Z) new.
Proof.
  revert k st. induction changes as [|c changes IH]; intros k st Hf; cbn [foldM enumerate_from] in Hf.
  { outcome_inv. exists []. split_and!; [apply extends_by_refl|constructor..]. }
  apply bind_Ret in Hf as (st1 & Hs & Hf).
  apply object_change_step_row in Hs as (n1 & He1 & Hk1). apply IH in Hf as (n2 & He2 & Hn2 & Hf2).
  exists (n1 ++ n2). split; [by eapply extends_by_trans|].
  assert (Forall (fun o => obj_transaction_version o = v /\ (k <= obj_write_set_change_index o)%Z) n2) as Hf2'.
  { eapply Forall_impl; [exact Hf2|]. simpl. intros o [? ?]. split; [done|lia]. }
  destruct Hk1 as [->%fmap_nil_inv|Hk1]; [done|].
  destruct n1 as [|o [|]]; simplify_eq/=. split.
  - constructor; [|done]. intros (o' & Ho' & Hin)%list_elem_of_fmap.
    rewrite Forall_forall in Hf2. destruct (Hf2 o' Hin) as [_ Hlt].
    unfold object_key in *. simplify_eq. lia.
  - constructor; [|done]. unfold object_key in *. simplify_eq/=. split; [done|lia].
Qed.

Lemma objects_step_rows st txn st' :
  objects_step st txn = Ret st' ->
  exists new, extends_by st st' new /\ NoDup (object_key <$> new) /\
    Forall (fun o => obj_transaction_version o = as_i64 (t_version txn)) new.
Proof.
  unfold objects_step. intros Hs. outcome_inv.
  rename select (foldM (object_change_step _) _ _ = _) into Hf.
  apply object_changes_rows in Hf as (new & He & Hn & Hv). exists new. split_and!; [done..|].
  eapply Forall_impl; [exact Hv|]. by intros o [? _].
Qed.

Lemma objects_rows_current transactions st :
  foldM objects_step objects_init transactions = Ret st ->
  all_current_objects st = index_by co_object_address (current_of <$> all_objects st).
Proof.
  apply (foldM_ind (fun st => all_current_objects st = index_by co_object_address (current_of <$> all_objects st)));
    [done|].
  intros st0 t st1 _ Hc (new & [Ho Hc'] & _)%objects_step_rows.
  rewrite Hc', Ho, Hc. unfold index_by. by rewrite fmap_app, foldl_app.
Qed.

Lemma object_rows_versions `{HashOrder} transactions objects current :
  object_rows transactions = Ret (objects, current) ->
  NoDup (co_object_address <$> current) /\
  forall c, c ∈ current -> co_last_transaction_version c ∈ txn_versions transactions.
Proof.
  unfold object_rows. intros Hr. apply bind_Ret in Hr as (st & Hf & Hr). simplify_eq.
  pose proof (objects_rows_current _ _ Hf) as Hc. rewrite Hc. split; [apply sorted_values_NoDup|].
  intros c. rewrite elem_of_sorted_values, filter_fmap_key, fmap_last, fmap_Some.
  intros (o & Ho%last_Some_elem_of & ->). apply list_elem_of_filter in Ho as [_ Ho]. simpl.
  enough (Forall (fun o => obj_transaction_version o ∈ txn_versions transactions) (all_objects st)) as Hall
    by (rewrite Forall_forall in Hall; by apply Hall).
  clear -Hf. revert Hf.
  apply (foldM_ind (fun st => Forall (fun o => obj_transaction_version o ∈ txn_versions transactions) (all_objects st)));
    [constructor|].
  intros s t s' Ht Hs (new & [-> _] & _ & Hv)%objects_step_rows. apply Forall_app. split; [done|].
  eapply Forall_impl; [exact Hv|]. simpl. intros o ->. by apply (list_elem_of_fmap_2 (fun t => as_i64 (t_version t))).
Qed.

(** current owners are the last entries of the history.  For a batch of
    distinct versions, whatever the database answers to the lookups of deleted
    objects: the history rows have distinct keys, and the current rows are
    sorted by address with distinct addresses, and contain for every object
    of the history exactly the state of its last row. *)
Theorem object_rows_spec `{HashOrder} (transactions : list Transaction)
    (objects : list Object) (current : list CurrentObject) :
  Forall (fun t => in_u64 (t_version t)) transactions -> NoDup (t_version <$> transactions) ->
  object_rows transactions = Ret (objects, current) ->
  NoDup (object_key <$> objects) /\
  key_sorted co_object_address current /\ NoDup (co_object_address <$> current) /\
  (forall c, c ∈ current <-> exists o,
     last (filter (fun o => obj_object_address o = co_object_address c) objects) = Some o /\
     c = current_of o).
Proof.
  unfold object_rows. intros Hv Hn Hr. apply bind_Ret in Hr as (st & Hf & Hr). simplify_eq.
  pose proof (objects_rows_current _ _ Hf) as Hc. rewrite Hc. split_and!.
  - eapply (appended_rows_NoDup objects_step all_objects obj_transaction_version object_key) in Hf as [Hnd _];
      [done| |by intros ?? [=]|done|by apply batch_versions_NoDup].
    intros s t s' _ Hs. apply objects_step_rows in Hs as (new & [Ho _] & ? & ?). eauto.
  - apply sort_by_sorted.
  - apply sorted_values_NoDup.
  - intros c. by rewrite elem_of_sorted_values, filter_fmap_key, fmap_last, fmap_Some.
Qed.

(** concurrently written batches converge on the current owners.  When
    batches of distinct versions write their current objects in any order, the
    table ends up the same, and it holds for each object the row with the
    largest version over all batches. *)
Theorem current_objects_converge `{HashOrder} (batches : list (list Transaction))
    (rows : list (list Object * list CurrentObject)) (order : list CurrentObject) k c :
  NoDup (txn_versions (concat batches)) ->
  Forall2 (fun b r => object_rows b = Ret r) batches rows ->
  order ≡ₚ concat (rows.*2) ->
  upsert_rows insert_current_objects_query ∅ order =
    upsert_rows insert_current_objects_query ∅ (concat (rows.*2)) /\
  (upsert_rows insert_current_objects_query ∅ order !! k = Some c ->
   c ∈ order /\ co_object_address c = k /\
   forall c', c' ∈ order -> co_object_address c' = k ->
     (co_last_transaction_version c' <= co_last_transaction_version c)%Z).
Proof.
  intros Hn Hrows Hp.
  assert (lww_coherent insert_current_objects_query order) as Hc.
  { eapply lww_coherent_perm; [symmetry; exact Hp|].
    eapply (batches_coherent _ object_rows snd co_last_transaction_version); [done|done| |done|done].
    intros b [os cs] _ Hr. by eapply object_rows_versions. }
  split.
  - eapply lww_rows_perm; [done| |done]. intros j o r Ho. by rewrite lookup_empty in Ho.
  - intros Hk. exact (lww_rows_newest insert_current_objects_query order k c Hc Hk).
Qed.
End Batch.
End Objects.

(** ** Concrete batches *)

Section ConcreteObjects.
#[local] Existing Instance int_bigdec.
#[local] Existing Instance plain_hex.
#[local] Existing Instance text_json.
#[local] Existing Instance map_order.
#[local] Existing Instance no_proto_json.
#[local] Existing Instance owner_codec.

Definition ex_object_txn (v : Z) (changes : list ChangeEnum) : Transaction :=
  {| t_timestamp := None; t_version := v;
     t_info := Some
       {| ti_hash := EmptyString; ti_state_change_hash := EmptyString; ti_event_root_hash := EmptyString;
          ti_state_checkpoint_hash := None; ti_gas_used := 1; ti_success := true;
          ti_vm_status := EmptyString; ti_accumulator_root_hash := EmptyString;
          ti_changes := (fun c => {| wsc_type := 0; wsc_change := Some c |}) <$> changes |};
     t_epoch := 0; t_block_height := 1; t_type := 1; t_size_info := None; t_txn_data := None |}.
Definition ex_object_delete (address : string) : ChangeEnum :=
  ChangeDeleteResource
    {| dr_address := address; dr_state_key_hash := "K";
       dr_type := Some (mk_MoveStructTag "0x1" "object" "ObjectGroup" []);
       dr_type_str := "0x1::object::ObjectGroup" |}.
Definition ex_history (v i : Z) (address owner : string) (deleted : bool) : Object :=
  {| obj_transaction_version := v; obj_write_set_change_index := i;
     obj_object_address := standardize_address address; obj_owner_address := standardize_address owner;
     obj_state_key_hash := standardize_address "4b"; obj_guid_creation_num := 0%Z;
     obj_allow_ungated_transfer := true; obj_is_deleted := deleted |}.
(** The database never answers. *)
Definition no_queries (v i : Z) : CurrentObjectQuery := fun _ _ => Err.

(** The object at 0xa changes its owner and is deleted; 0xb is written once;
    the delete of 0xc, which the database does not know, leaves no row. *)
Definition ex_object_batch : list Transaction :=
  [ex_object_txn 7 [ChangeWriteResource (ex_object_core "0xa" "0x1");
                    ChangeWriteResource (ex_object_core "0xb" "0x2")];
   ex_object_txn 8 [ChangeWriteResource (ex_object_core "0xa" "0x3")];
   ex_object_txn 9 [ex_object_delete "0xa"; ex_object_delete "0xc"]].
Definition ex_objects : list Object :=
  [ex_history 7 0 "0xa" "0x1" false; ex_history 7 1 "0xb" "0x2" false;
   ex_history 8 0 "0xa" "0x3" false; ex_history 9 0 "0xa" "0x3" true].
Definition ex_current_objects : list CurrentObject :=
  [current_of (ex_history 9 0 "0xa" "0x3" true); current_of (ex_history 7 1 "0xb" "0x2" false)].

Lemma ex_object_rows : object_rows no_queries 2 ex_object_batch = Ret (ex_objects, ex_current_objects).
Proof. reflexivity. Qed.

Lemma object_rows_spec_witness :
  NoDup (object_key <$> ex_objects) /\
  key_sorted co_object_address ex_current_objects /\ NoDup (co_object_address <$> ex_current_objects) /\
  (forall c, c ∈ ex_current_objects <-> exists o,
     last (filter (fun o => obj_object_address o = co_object_address c) ex_objects) = Some o /\
     c = current_of o).
Proof.
  apply (object_rows_spec no_queries 2 ex_object_batch).
  - repeat constructor; simpl; lia.
  - apply (bool_decide_unpack _). vm_compute. exact I.
  - exact ex_object_rows.
Defined.

(** Two batches, written in the reverse order. *)
Lemma current_objects_converge_witness :
  upsert_rows insert_current_objects_query ∅
      (reverse (concat [ex_current_objects; [current_of (ex_history 10 0 "0xb" "0x4" false)]])) =
    upsert_rows insert_current_objects_query ∅
      (concat [ex_current_objects; [current_of (ex_history 10 0 "0xb" "0x4" false)]]).
Proof.
  apply (current_objects_converge no_queries 2
    [ex_object_batch; [ex_object_txn 10 [ChangeWriteResource (ex_object_core "0xb" "0x4")]]]
    [(ex_objects, ex_current_objects);
     ([ex_history 10 0 "0xb" "0x4" false], [current_of (ex_history 10 0 "0xb" "0x4" false)])]
    _ EmptyString (current_of (ex_history 10 0 "0xb" "0x4" false))).
  - apply (bool_decide_unpack _). vm_compute. exact I.
  - constructor; [exact ex_object_rows|]. constructor; [reflexivity|constructor].
  - apply reverse_Permutation.
Defined.
End ConcreteObjects.
