(* ===== verification/Coins.v ===== *)
(** * Coins

    [models/coin_models] and [processors/coin_processor.rs]: coin activities
    from events, balances and infos from resources, the supply of the native
    coin from its aggregator table, and how the processor stores them. *)
From S2P Require Import Prelude RustStr Json Externals Proto Util Database Processors.
From S2P Require Import Signatures DefaultModels TokenResources FungibleResources.

Definition COIN_TYPE_HASH_LENGTH : nat := 5000.
Definition COIN_TYPE_MAX : nat := 1000.
Definition APTOS_COIN_TYPE_STR : string := "0x1::aptos_coin::AptosCoin".
Definition GAS_FEE_EVENT : string := "0x1::aptos_coin::GasFeeEvent".
Definition BURN_GAS_EVENT_CREATION_NUM : Z := -1.
Definition BURN_GAS_EVENT_INDEX : Z := -1.
Definition APTOS_COIN_SUPPLY_TABLE_HANDLE : string :=
  "0x1b854694ae746cdbd8d44186ca4929b2b337df21d1c74633be19b2710552fdca".
Definition APTOS_COIN_SUPPLY_TABLE_KEY : string :=
  "0x619dc29a0aac8fa146714058e8dd6d2d0f3bdf5f6331907bf91f3acd81e6935".

(** The crate [regex]: group 2 of the first match of the expression [RE], what
    is between the leftmost opening and the last closing angle bracket. *)
Class RegexCrate := angle_captures : string -> option string.

(** ** Resources and events: [coin_utils.rs] *)

Section Resources.
Context `{BigDec}.

Record AggregatorResource := { agg_handle : string; agg_key : string }.
Record IntegerResource := { integer_value : BigDecimal }.
Record IntegerWrapperResource := { integer_vec : list IntegerResource }.
Record AggregatorWrapperResource := { aggregator_vec : list AggregatorResource }.
Record OptionalAggregatorResource := {
  oar_aggregator : AggregatorWrapperResource; oar_integer : IntegerWrapperResource }.
Record OptionalAggregatorWrapperResource := { oaw_vec : list OptionalAggregatorResource }.
Record CoinInfoResource := {
  cir_name : string; cir_symbol : string; cir_decimals : Z;
  cir_supply : OptionalAggregatorWrapperResource }.
Record EventGuidResource := { guid_addr : string; guid_creation_number : Z }.
Record EventGuidResourceWrapper := { guid_id : EventGuidResource }.
Record DepositEventResource := { deposit_guid : EventGuidResourceWrapper }.
Record WithdrawEventResource := { withdraw_guid : EventGuidResourceWrapper }.
Record Coin := { coin_value : BigDecimal }.
Record CoinStoreResource := {
  csr_coin : Coin; csr_deposit_events : DepositEventResource;
  csr_withdraw_events : WithdrawEventResource; csr_frozen : bool }.
Record WithdrawCoinEvent := { wce_amount : BigDecimal }.
Record DepositCoinEvent := { dce_amount : BigDecimal }.
Record CoinInfoType := { cit_coin_type : string; cit_creator_address : string }.
Inductive CoinResource :=
| ResCoinInfo (r : CoinInfoResource)
| ResCoinStore (r : CoinStoreResource).
Inductive CoinEvent :=
| EvWithdrawCoin (e : WithdrawCoinEvent)
| EvDepositCoin (e : DepositCoinEvent).

#[export] Instance EventGuidResource_dec : EqDecision EventGuidResource.
Proof. solve_decision. Defined.
#[export] Instance EventGuidResource_countable : Countable EventGuidResource.
Proof.
  apply (inj_countable' (fun g => (guid_addr g, guid_creation_number g))
           (fun p => {| guid_addr := p.1; guid_creation_number := p.2 |})).
  by intros [].
Defined.

(** The derived [Deserialize] implementations. *)
Class CoinCodec := {
  de_CoinInfoResource :: Deserialize CoinInfoResource;
  de_CoinStoreResource :: Deserialize CoinStoreResource;
  de_WithdrawCoinEvent :: Deserialize WithdrawCoinEvent;
  de_DepositCoinEvent :: Deserialize DepositCoinEvent;
}.

Definition cir_name_trunc (c : CoinInfoResource) : outcome string := truncate_str (cir_name c) 32.
Definition cir_symbol_trunc (c : CoinInfoResource) : outcome string := truncate_str (cir_symbol c) 10.
Definition wrapper_aggregator_metadata (w : AggregatorWrapperResource) : option AggregatorResource :=
  head (aggregator_vec w).
Definition get_aggregator_metadata (c : CoinInfoResource) : option AggregatorResource :=
  match head (oaw_vec (cir_supply c)) with
  | Some inner => wrapper_aggregator_metadata (oar_aggregator inner)
  | None => None
  end.
Definition get_supply (w : IntegerWrapperResource) : option BigDecimal :=
  integer_value <$> head (integer_vec w).
Definition guid_get_address (g : EventGuidResource) : string := standardize_address (guid_addr g).
Definition get_standardized (g : EventGuidResource) : EventGuidResource :=
  {| guid_addr := guid_get_address g; guid_creation_number := guid_creation_number g |}.

Definition from_move_type `{RegexCrate} (move_type : MoveType) (move_type_str : string) (txn_version : Z)
  : outcome CoinInfoType :=
  content ← unwrap (mt_content move_type);
  match content with
  | ContentStruct struct_tag =>
      coin_type ← unwrap (angle_captures move_type_str);
      Ret {| cit_coin_type := coin_type; cit_creator_address := st_address struct_tag |}
  | _ => Panic
  end.
Definition cit_get_creator_address (c : CoinInfoType) : string :=
  standardize_address (cit_creator_address c).
Definition to_hash `{HexCodec, Sha256} (c : CoinInfoType) : string := hash_str (cit_coin_type c).
Definition get_storage_id `{HexCodec, Sha256} (coin_type owner_address : string) : string :=
  "0x" +:+ hash_str (owner_address +:+ "::" +:+ coin_type).
Definition get_coin_type_trunc (c : CoinInfoType) : outcome string :=
  truncate_str (cit_coin_type c) COIN_TYPE_HASH_LENGTH.
Definition get_coin_type_below_max (c : CoinInfoType) : option string :=
  if decide (COIN_TYPE_MAX < String.length (cit_coin_type c)) then None else Some (cit_coin_type c).

Definition COIN_RESOURCES : list string :=
  [COIN_ADDR +:+ "::coin::CoinInfo"; COIN_ADDR +:+ "::coin::CoinStore"].
Definition is_coin_resource_supported (data_type : string) : bool :=
  bool_decide (data_type ∈ COIN_RESOURCES).

Context `{!CoinCodec}.

Definition coin_from_resource (data_type : string) (data : Value) (txn_version : Z) : result CoinResource :=
  if decide (data_type = COIN_ADDR +:+ "::coin::CoinInfo") then
    ResCoinInfo <$> context (de_from_value data)
  else if decide (data_type = COIN_ADDR +:+ "::coin::CoinStore") then
    ResCoinStore <$> context (de_from_value data)
  else Err.

(** [CoinEvent::from_event]. *)
Definition coin_event (data_type data : string) (txn_version : Z) : result (option CoinEvent) :=
  if decide (data_type = "0x1::coin::WithdrawEvent") then
    (Some ∘ EvWithdrawCoin) <$> context (de_from_str data)
  else if decide (data_type = "0x1::coin::DepositEvent") then
    (Some ∘ EvDepositCoin) <$> context (de_from_str data)
  else Ok None.

Context `{HexCodec, JsonParse, ProtoJson}.

(** [CoinResource::from_write_resource]. *)
Definition coin_from_write_resource (write_resource : WriteResource) (txn_version : Z)
  : outcome (result (option CoinResource)) :=
  type_str ← get_outer_type_from_resource write_resource;
  if is_coin_resource_supported type_str then
    resource ← DefaultModels.from_write_resource write_resource 0 txn_version 0;
    data ← unwrap (mr_data resource);
    Ret (Some <$> coin_from_resource type_str data txn_version)
  else Ret (Ok None).
End Resources.

(** ** Rows *)

Section Coins.
Context `{Chrono, BigDec, HexCodec, Sha256, JsonParse, ProtoJson, RegexCrate}.
Context `{!CoinCodec}.

Record CoinBalance := {
  cb_transaction_version : Z;
  cb_owner_address : string;
  cb_coin_type_hash : string;
  cb_coin_type : string;
  cb_amount : BigDecimal;
  cb_transaction_timestamp : NaiveDateTime;
}.
Record CurrentCoinBalance := {
  ccb_owner_address : string;
  ccb_coin_type_hash : string;
  ccb_coin_type : string;
  ccb_amount : BigDecimal;
  ccb_last_transaction_version : Z;
  ccb_last_transaction_timestamp : NaiveDateTime;
}.
Record CoinInfo := {
  ci_coin_type_hash : string;
  ci_coin_type : string;
  ci_transaction_version_created : Z;
  ci_creator_address : string;
  ci_name : string;
  ci_symbol : string;
  ci_decimals : Z;
  ci_transaction_created_timestamp : NaiveDateTime;
  ci_supply_aggregator_table_handle : option string;
  ci_supply_aggregator_table_key : option string;
}.
Record CoinSupply := {
  cs_transaction_version : Z;
  cs_coin_type_hash : string;
  cs_coin_type : string;
  cs_supply : BigDecimal;
  cs_transaction_timestamp : NaiveDateTime;
  cs_transaction_epoch : Z;
}.
Record CoinActivity := {
  ca_transaction_version : Z;
  ca_event_account_address : string;
  ca_event_creation_number : Z;
  ca_event_sequence_number : Z;
  ca_owner_address : string;
  ca_coin_type : string;
  ca_amount : BigDecimal;
  ca_activity_type : string;
  ca_is_gas_fee : bool;
  ca_is_transaction_success : bool;
  ca_entry_function_id_str : option string;
  ca_block_height : Z;
  ca_transaction_timestamp : NaiveDateTime;
  ca_event_index : option Z;
  ca_gas_fee_payer_address : option string;
  ca_storage_refund_amount : BigDecimal;
}.
#[export] Instance CoinBalance_fields : FieldCount CoinBalance := 6.
#[export] Instance CurrentCoinBalance_fields : FieldCount CurrentCoinBalance := 6.
#[export] Instance CoinInfo_fields : FieldCount CoinInfo := 10.
#[export] Instance CoinSupply_fields : FieldCount CoinSupply := 6.
#[export] Instance CoinActivity_fields : FieldCount CoinActivity := 16.

Abbreviation CurrentCoinBalancePK := (string * string)%type (only parsing).
Abbreviation EventToCoinType := (gmap EventGuidResource string) (only parsing).
Definition current_balance_pk (c : CurrentCoinBalance) : CurrentCoinBalancePK :=
  (ccb_owner_address c, ccb_coin_type c).

(** [CoinBalance::from_write_resource]. *)
Definition balance_from_write_resource (write_resource : WriteResource) (txn_version : Z)
    (txn_timestamp : NaiveDateTime)
  : outcome (result (option (CoinBalance * CurrentCoinBalance * EventToCoinType))) :=
  r <-? coin_from_write_resource write_resource txn_version;
  match r with
  | Some (ResCoinStore inner) =>
      tag ← unwrap (wr_type write_resource);
      param ← unwrap (head (st_generic_type_params tag));
      coin_info_type ← from_move_type param (wr_type_str write_resource) txn_version;
      coin_type ← get_coin_type_trunc coin_info_type;
      let owner_address := standardize_address (wr_address write_resource) in
      let coin_balance :=
        {| cb_transaction_version := txn_version;
           cb_owner_address := owner_address;
           cb_coin_type_hash := to_hash coin_info_type;
           cb_coin_type := coin_type;
           cb_amount := coin_value (csr_coin inner);
           cb_transaction_timestamp := txn_timestamp |} in
      let current_coin_balance :=
        {| ccb_owner_address := owner_address;
           ccb_coin_type_hash := to_hash coin_info_type;
           ccb_coin_type := coin_type;
           ccb_amount := coin_value (csr_coin inner);
           ccb_last_transaction_version := txn_version;
           ccb_last_transaction_timestamp := txn_timestamp |} in
      let event_to_coin_mapping : EventToCoinType :=
        <[get_standardized (guid_id (deposit_guid (csr_deposit_events inner))) := coin_type]>
          {[get_standardized (guid_id (withdraw_guid (csr_withdraw_events inner))) := coin_type]} in
      Ret (Ok (Some (coin_balance, current_coin_balance, event_to_coin_mapping)))
  | _ => Ret (Ok None)
  end.

(** [CoinInfo::from_write_resource]. *)
Definition info_from_write_resource (write_resource : WriteResource) (txn_version : Z)
    (txn_timestamp : NaiveDateTime) : outcome (result (option CoinInfo)) :=
  r <-? coin_from_write_resource write_resource txn_version;
  match r with
  | Some (ResCoinInfo inner) =>
      tag ← unwrap (wr_type write_resource);
      param ← unwrap (head (st_generic_type_params tag));
      coin_info_type ← from_move_type param (wr_type_str write_resource) txn_version;
      let '(handle, key) := match get_aggregator_metadata inner with
                            | Some agg => (Some (agg_handle agg), Some (agg_key agg))
                            | None => (None, None)
                            end in
      coin_type ← get_coin_type_trunc coin_info_type;
      name ← cir_name_trunc inner;
      symbol ← cir_symbol_trunc inner;
      Ret (Ok (Some {| ci_coin_type_hash := to_hash coin_info_type;
                       ci_coin_type := coin_type;
                       ci_transaction_version_created := txn_version;
                       ci_creator_address := cit_get_creator_address coin_info_type;
                       ci_name := name;
                       ci_symbol := symbol;
                       ci_decimals := cir_decimals inner;
                       ci_transaction_created_timestamp := txn_timestamp;
                       ci_supply_aggregator_table_handle := handle;
                       ci_supply_aggregator_table_key := key |}))
  | _ => Ret (Ok None)
  end.

(** [CoinSupply::from_write_table_item]. *)
Definition supply_from_write_table_item (write_table_item : WriteTableItem) (txn_version : Z)
    (txn_timestamp : NaiveDateTime) (txn_epoch : Z) : outcome (result (option CoinSupply)) :=
  match wti_data write_table_item with
  | Some data =>
      if negb (bool_decide (wtd_key_type data = "address") && bool_decide (wtd_value_type data = "u128"))
      then Ret (Ok None)
      else if decide (wti_handle write_table_item ≠ APTOS_COIN_SUPPLY_TABLE_HANDLE) then Ret (Ok None)
      else
        '(table_item_model, _) ← from_write_table_item write_table_item 0 txn_version 0;
        table_key ← unwrap (as_str (ti_decoded_key table_item_model));
        if decide (table_key ≠ APTOS_COIN_SUPPLY_TABLE_KEY) then Ret (Ok None)
        else
          value ← unwrap (ti_decoded_value table_item_model);
          text ← unwrap (as_str value);
          Ret (supply ← context (bd_parse text);
               Ok (Some {| cs_transaction_version := txn_version;
                           cs_coin_type_hash := hash_str APTOS_COIN_TYPE_STR;
                           cs_coin_type := APTOS_COIN_TYPE_STR;
                           cs_supply := supply;
                           cs_transaction_timestamp := txn_timestamp;
                           cs_transaction_epoch := txn_epoch |}))
  | None => Ret (Ok None)
  end.

(** ** Activities: [coin_activities.rs] *)

Definition from_parsed_event (event_type : string) (event : EventPB) (coin_event : CoinEvent)
    (txn_version : Z) (event_to_coin_type : EventToCoinType) (block_height : Z)
    (entry_function_id_str : option string) (transaction_timestamp : NaiveDateTime) (event_index : Z)
  : outcome CoinActivity :=
  let amount := match coin_event with
                | EvWithdrawCoin inner => wce_amount inner
                | EvDepositCoin inner => dce_amount inner
                end in
  key ← unwrap (ev_key event);
  let event_move_guid := {| guid_addr := standardize_address (ek_account_address key);
                            guid_creation_number := as_i64 (ek_creation_number key) |} in
  coin_type ← unwrap (event_to_coin_type !! event_move_guid);
  Ret {| ca_transaction_version := txn_version;
         ca_event_account_address := standardize_address (ek_account_address key);
         ca_event_creation_number := as_i64 (ek_creation_number key);
         ca_event_sequence_number := as_i64 (ev_sequence_number event);
         ca_owner_address := standardize_address (ek_account_address key);
         ca_coin_type := coin_type;
         ca_amount := amount;
         ca_activity_type := event_type;
         ca_is_gas_fee := false;
         ca_is_transaction_success := true;
         ca_entry_function_id_str := entry_function_id_str;
         ca_block_height := block_height;
         ca_transaction_timestamp := transaction_timestamp;
         ca_event_index := Some event_index;
         ca_gas_fee_payer_address := None;
         ca_storage_refund_amount := bd_zero |}.

(** The row of the gas fee; the calls of this function are commented out.
    The product is on [u64]. *)
Definition get_gas_event (txn_info : TransactionInfo) (user_transaction_request : UserTransactionRequest)
    (entry_function_id_str : option string) (transaction_version : Z)
    (transaction_timestamp : NaiveDateTime) (block_height : Z) (fee_statement : option FeeStatement)
  : outcome CoinActivity :=
  let aptos_coin_burned :=
    bd_from_u64 (as_u64 (ti_gas_used txn_info * utr_gas_unit_price user_transaction_request)) in
  signature ← unwrap (utr_signature user_transaction_request);
  gas_fee_payer_address ← get_fee_payer_address signature transaction_version;
  Ret {| ca_transaction_version := transaction_version;
         ca_event_account_address := standardize_address (utr_sender user_transaction_request);
         ca_event_creation_number := BURN_GAS_EVENT_CREATION_NUM;
         ca_event_sequence_number := as_i64 (utr_sequence_number user_transaction_request);
         ca_owner_address := standardize_address (utr_sender user_transaction_request);
         ca_coin_type := APTOS_COIN_TYPE_STR;
         ca_amount := aptos_coin_burned;
         ca_activity_type := GAS_FEE_EVENT;
         ca_is_gas_fee := true;
         ca_is_transaction_success := ti_success txn_info;
         ca_entry_function_id_str := entry_function_id_str;
         ca_block_height := block_height;
         ca_transaction_timestamp := transaction_timestamp;
         ca_event_index := Some BURN_GAS_EVENT_INDEX;
         ca_gas_fee_payer_address := gas_fee_payer_address;
         ca_storage_refund_amount :=
           match fee_statement with
           | Some fs => u64_to_bigdecimal (storage_fee_refund_octas fs)
           | None => bd_zero
           end |}.

(** What a transaction, and in the end a batch, yields. *)
Record CoinData := {
  coin_activities : list CoinActivity;
  coin_balances : list CoinBalance;
  coin_infos : gmap string CoinInfo;
  current_coin_balances : gmap CurrentCoinBalancePK CurrentCoinBalance;
  coin_supply : list CoinSupply;
}.
Definition no_coins : CoinData :=
  {| coin_activities := []; coin_balances := []; coin_infos := ∅; current_coin_balances := ∅;
     coin_supply := [] |}.

(** One round of the loop over the changes. *)
Definition coin_change_step (txn_version txn_epoch : Z) (txn_timestamp : NaiveDateTime)
    (acc : CoinData * EventToCoinType) (wsc : WriteSetChangePB) : outcome (CoinData * EventToCoinType) :=
  let '(data, all_event_to_coin_type) := acc in
  change ← unwrap (wsc_change wsc);
  '(maybe_coin_info, maybe_coin_balance_data) ←
    match change with
    | ChangeWriteResource write_resource =>
        i ← info_from_write_resource write_resource txn_version txn_timestamp;
        i ← unwrap_result i;
        b ← balance_from_write_resource write_resource txn_version txn_timestamp;
        b ← unwrap_result b;
        Ret (i, b)
    | _ => Ret (None, None)
    end;
  maybe_coin_supply ←
    match change with
    | ChangeWriteTableItem table_item =>
        s ← supply_from_write_table_item table_item txn_version txn_timestamp txn_epoch;
        unwrap_result s
    | _ => Ret None
    end;
  Ret ({| coin_activities := coin_activities data;
          coin_balances := coin_balances data ++
            match maybe_coin_balance_data with Some (b, _, _) => [b] | None => [] end;
          coin_infos := match maybe_coin_info with
                        | Some i => <[ci_coin_type i := i]> (coin_infos data)
                        | None => coin_infos data
                        end;
          current_coin_balances :=
            match maybe_coin_balance_data with
            | Some (b, c, _) =>
                <[(cb_owner_address b, cb_coin_type b) := c]> (current_coin_balances data)
            | None => current_coin_balances data
            end;
          coin_supply := coin_supply data ++ option_list maybe_coin_supply |},
       match maybe_coin_balance_data with
       | Some (_, _, m) => extend all_event_to_coin_type m
       | None => all_event_to_coin_type
       end).

(** One round of the loop over the events. *)
Definition coin_event_step (txn_version block_height : Z) (entry_function_id_str : option string)
    (txn_timestamp : NaiveDateTime) (mapping : EventToCoinType) (acc : list CoinActivity)
    (iev : Z * EventPB) : outcome (list CoinActivity) :=
  let '(index, event) := iev in
  parsed ← unwrap_result (coin_event (ev_type_str event) (ev_data event) txn_version);
  match parsed with
  | Some parsed_event =>
      a ← from_parsed_event (ev_type_str event) event parsed_event txn_version mapping block_height
            entry_function_id_str txn_timestamp index;
      Ret (acc ++ [a])
  | None => Ret acc
  end.

(** [CoinActivity::from_transaction]. *)
Definition coins_from_transaction (transaction : Transaction) : outcome CoinData :=
  let parts := match t_txn_data transaction with
               | Some (TdGenesis inner) => Some (gt_events inner, None)
               | Some (TdUser inner) => Some (ut_events inner, ut_request inner)
               | _ => None
               end in
  match parts with
  | None => Ret no_coins
  | Some (events, maybe_user_request) =>
      let txn_version := as_i64 (t_version transaction) in
      let txn_epoch := as_i64 (t_epoch transaction) in
      let block_height := as_i64 (t_block_height transaction) in
      transaction_info ← unwrap (t_info transaction);
      ts ← unwrap (t_timestamp transaction);
      txn_timestamp ← unwrap (from_timestamp_opt (seconds ts) 0);
      entry_function_id_str ← match maybe_user_request with
                              | Some user_request => get_entry_function_from_user_request user_request
                              | None => Ret None
                              end;
      '(data, mapping) ← foldM (coin_change_step txn_version txn_epoch txn_timestamp) (no_coins, ∅)
                           (ti_changes transaction_info);
      activities ← foldM (coin_event_step txn_version block_height entry_function_id_str txn_timestamp mapping)
                     [] (enumerate events);
      Ret {| coin_activities := activities; coin_balances := coin_balances data;
             coin_infos := coin_infos data; current_coin_balances := current_coin_balances data;
             coin_supply := coin_supply data |}
  end.

(** ** The processor *)

(** [entry(key).or_insert(value)]. *)
Definition or_insert {K V} `{Countable K} (m : gmap K V) (kv : K * V) : gmap K V :=
  match m !! kv.1 with Some _ => m | None => <[kv.1 := kv.2]> m end.

(** One round of the loop over the transactions. *)
Definition coins_step `{HashOrder} (all : CoinData) (txn : Transaction) : outcome CoinData :=
  data ← coins_from_transaction txn;
  Ret {| coin_activities := coin_activities all ++ coin_activities data;
         coin_balances := coin_balances all ++ coin_balances data;
         coin_infos := foldl or_insert (coin_infos all) (hash_iter (coin_infos data));
         current_coin_balances := extend (current_coin_balances all) (current_coin_balances data);
         coin_supply := coin_supply all ++ coin_supply data |}.

Record CoinRows := {
  rows_coin_activities : list CoinActivity;
  rows_coin_infos : list CoinInfo;
  rows_coin_balances : list CoinBalance;
  rows_current_coin_balances : list CurrentCoinBalance;
  rows_coin_supply : list CoinSupply;
}.
Definition coin_rows `{HashOrder} (transactions : list Transaction) : outcome CoinRows :=
  all ← foldM coins_step no_coins transactions;
  Ret {| rows_coin_activities := coin_activities all;
         rows_coin_infos := sort_by ci_coin_type (into_values (coin_infos all));
         rows_coin_balances := coin_balances all;
         rows_current_coin_balances :=
           sort_by current_balance_pk (into_values (current_coin_balances all));
         rows_coin_supply := coin_supply all |}.

Definition insert_coin_activities_query : Upsert CoinActivity (Z * string * Z * Z) :=
  {| up_key := fun a => (ca_transaction_version a, ca_event_account_address a,
                         ca_event_creation_number a, ca_event_sequence_number a);
     up_action := DoUpdate (fun old new =>
       {| ca_transaction_version := ca_transaction_version old;
          ca_event_account_address := ca_event_account_address old;
          ca_event_creation_number := ca_event_creation_number old;
          ca_event_sequence_number := ca_event_sequence_number old;
          ca_owner_address := ca_owner_address old;
          ca_coin_type := ca_coin_type old;
          ca_amount := ca_amount old;
          ca_activity_type := ca_activity_type old;
          ca_is_gas_fee := ca_is_gas_fee old;
          ca_is_transaction_success := ca_is_transaction_success old;
          ca_entry_function_id_str := ca_entry_function_id_str new;
          ca_block_height := ca_block_height old;
          ca_transaction_timestamp := ca_transaction_timestamp old;
          ca_event_index := ca_event_index old;
          ca_gas_fee_payer_address := ca_gas_fee_payer_address old;
          ca_storage_refund_amount := ca_storage_refund_amount old |});
     up_where := None |}.
Definition set_coin_info (old new : CoinInfo) : CoinInfo :=
  {| ci_coin_type_hash := ci_coin_type_hash old;
     ci_coin_type := ci_coin_type old;
     ci_transaction_version_created := ci_transaction_version_created new;
     ci_creator_address := ci_creator_address new;
     ci_name := ci_name new;
     ci_symbol := ci_symbol new;
     ci_decimals := ci_decimals new;
     ci_transaction_created_timestamp := ci_transaction_created_timestamp new;
     ci_supply_aggregator_table_handle := ci_supply_aggregator_table_handle new;
     ci_supply_aggregator_table_key := ci_supply_aggregator_table_key new |}.
Definition insert_coin_infos_query : Upsert CoinInfo string :=
  {| up_key := ci_coin_type_hash;
     up_action := DoUpdate set_coin_info;
     up_where := Some (fun old new =>
       bool_decide (ci_transaction_version_created new <= ci_transaction_version_created old)%Z) |}.
Definition insert_coin_balances_query : Upsert CoinBalance (Z * string * string) :=
  {| up_key := fun b => (cb_transaction_version b, cb_owner_address b, cb_coin_type_hash b);
     up_action := DoNothing; up_where := None |}.
Definition set_current_coin_balance (old new : CurrentCoinBalance) : CurrentCoinBalance :=
  {| ccb_owner_address := ccb_owner_address old;
     ccb_coin_type_hash := ccb_coin_type_hash old;
     ccb_coin_type := ccb_coin_type old;
     ccb_amount := ccb_amount new;
     ccb_last_transaction_version := ccb_last_transaction_version new;
     ccb_last_transaction_timestamp := ccb_last_transaction_timestamp new |}.
Definition insert_current_coin_balances_query : Upsert CurrentCoinBalance (string * string) :=
  {| up_key := fun c => (ccb_owner_address c, ccb_coin_type_hash c);
     up_action := DoUpdate set_current_coin_balance;
     up_where := Some (fun old new =>
       bool_decide (ccb_last_transaction_version old <= ccb_last_transaction_version new)%Z) |}.
Definition insert_coin_supply_query : Upsert CoinSupply (Z * string) :=
  {| up_key := fun c => (cs_transaction_version c, cs_coin_type_hash c);
     up_action := DoNothing; up_where := None |}.

(** The info table keeps the oldest version, the balance table the newest;
    neither updates the coin type. *)
#[export] Instance coin_infos_lww : Lww insert_coin_infos_query.
Proof.
  refine {| lww_rank := fun i => (- ci_transaction_version_created i)%Z; lww_static_type := string;
            lww_static := ci_coin_type; lww_set := set_coin_info |}; [done|..].
  - intros old new. apply bool_decide_ext. lia.
  - intros [] [] Hk Hs. simpl in Hk, Hs. by subst.
Defined.
#[export] Instance current_coin_balances_lww : Lww insert_current_coin_balances_query.
Proof.
  refine {| lww_rank := ccb_last_transaction_version; lww_static_type := string;
            lww_static := ccb_coin_type; lww_set := set_current_coin_balance |}; try done.
  intros [] [] Hk Hs. simpl in Hk, Hs. by simplify_eq/=.
Defined.

Context `{!Table CoinActivity (Z * string * Z * Z), !Table CoinInfo string,
          !Table CoinBalance (Z * string * string), !Table CurrentCoinBalance (string * string),
          !Table CoinSupply (Z * string)}.

Record CoinDb := {
  db_coin_activities : table_state CoinActivity (Z * string * Z * Z);
  db_coin_infos : table_state CoinInfo string;
  db_coin_balances : table_state CoinBalance (Z * string * string);
  db_current_coin_balances : table_state CurrentCoinBalance (string * string);
  db_coin_supply : table_state CoinSupply (Z * string);
}.

Definition insert_coins (sizes : gmap string nat) (rows : CoinRows) (d d' : CoinDb)
    (res : outcome (result unit)) : Prop :=
  exists ca_res ci_res cb_res ccb_res cs_res,
    write_table insert_coin_activities_query "coin_activities" sizes (rows_coin_activities rows)
      (db_coin_activities d) (db_coin_activities d') ca_res /\
    write_table insert_coin_infos_query "coin_infos" sizes (rows_coin_infos rows)
      (db_coin_infos d) (db_coin_infos d') ci_res /\
    write_table insert_coin_balances_query "coin_balances" sizes (rows_coin_balances rows)
      (db_coin_balances d) (db_coin_balances d') cb_res /\
    write_table insert_current_coin_balances_query "current_coin_balances" sizes
      (rows_current_coin_balances rows) (db_current_coin_balances d) (db_current_coin_balances d') ccb_res /\
    write_table insert_coin_supply_query "coin_supply" sizes (rows_coin_supply rows)
      (db_coin_supply d) (db_coin_supply d') cs_res /\
    res = join_results [ca_res; ci_res; cb_res; ccb_res; cs_res].

(** [CoinProcessor::process_transactions].  The rows are computed in a task of
    their own, so a panic there is an error here. *)
Definition process_coins `{HashOrder} (sizes : gmap string nat) (transactions : list Transaction)
    (s e : Z) (db_chain_id : option Z) (d d' : CoinDb) (res : outcome (result ProcessingResult)) : Prop :=
  match last transactions, coin_rows transactions with
  | Some _, Panic => d' = d /\ res = Ret Err
  | _, _ => process_batch coin_rows (insert_coins sizes) transactions s e db_chain_id d d' res
  end.

#[export] Instance coin_processor `{HashOrder} (sizes : gmap string nat) : ProcessorTrait CoinDb :=
  {| processor_name := "coin_processor"; process_transactions := process_coins sizes |}.
#[export] Instance coin_processor_laws `{HashOrder} sizes : @ProcessorLaws _ (coin_processor sizes).
Proof.
  intros txns s e chain d d' r Hr. simpl in Hr. unfold process_coins in Hr.
  destruct (last txns), (coin_rows txns); try (by destruct Hr);
    by apply (process_batch_ok _ _ _ _ _ chain) in Hr as [? _].
Qed.

(** ** One transaction *)

(** The current row that goes with a balance row. *)
Definition current_of_balance (b : CoinBalance) : CurrentCoinBalance :=
  {| ccb_owner_address := cb_owner_address b;
     ccb_coin_type_hash := cb_coin_type_hash b;
     ccb_coin_type := cb_coin_type b;
     ccb_amount := cb_amount b;
     ccb_last_transaction_version := cb_transaction_version b;
     ccb_last_transaction_timestamp := cb_transaction_timestamp b |}.

Lemma balance_from_write_resource_row wr v ts b c m :
  balance_from_write_resource wr v ts = Ret (Ok (Some (b, c, m))) ->
  cb_transaction_version b = v /\ c = current_of_balance b /\
  (forall g ty, m !! g = Some ty -> ty = cb_coin_type b).
Proof.
  unfold balance_from_write_resource. intros Hb. apply try_bind_Ok in Hb as (r & _ & Hb).
  destruct r as [[|inner]|]; try done. outcome_inv. split_and!; [done..|].
  intros g ty. rewrite lookup_insert_Some, lookup_singleton_Some. naive_solver.
Qed.

Lemma info_from_write_resource_row wr v ts i :
  info_from_write_resource wr v ts = Ret (Ok (Some i)) -> ci_transaction_version_created i = v.
Proof.
  unfold info_from_write_resource. intros Hi. apply try_bind_Ok in Hi as (r & _ & Hi).
  destruct r as [[inner|]|]; try done. by outcome_inv.
Qed.

(** What holds of the data collected from the changes of a transaction. *)
Definition changes_inv (v : Z) (acc : CoinData * EventToCoinType) : Prop :=
  current_coin_balances acc.1 =
    index_by current_balance_pk (current_of_balance <$> coin_balances acc.1) /\
  Forall (fun b => cb_transaction_version b = v) (coin_balances acc.1) /\
  keyed ci_coin_type (coin_infos acc.1) /\
  (forall k i, coin_infos acc.1 !! k = Some i -> ci_transaction_version_created i = v) /\
  (forall g ty, acc.2 !! g = Some ty -> exists b, b ∈ coin_balances acc.1 /\ cb_coin_type b = ty).

Lemma coin_change_step_inv v ep ts acc wsc acc' :
  changes_inv v acc -> coin_change_step v ep ts acc wsc = Ret acc' -> changes_inv v acc'.
Proof.
  destruct acc as [data m]. intros (Hc & Hv & Hk & Hi & Hm) Hs. simpl in *.
  unfold coin_change_step in Hs. apply bind_Ret in Hs as (ch & _ & Hs).
  apply bind_Ret in Hs as ([mi mb] & Hib & Hs). apply bind_Ret in Hs as (ms & _ & Hs). injection Hs as <-.
  assert ((forall i, mi = Some i -> ci_transaction_version_created i = v) /\
          (forall b c m', mb = Some (b, c, m') -> cb_transaction_version b = v /\ c = current_of_balance b /\
             forall g ty, m' !! g = Some ty -> ty = cb_coin_type b)) as [Hmi Hmb].
  { destruct ch as [| | | |wr|]; outcome_inv; try done.
    split; [intros i ->; by eapply info_from_write_resource_row|].
    intros b c m' ->. by eapply balance_from_write_resource_row. }
  unfold changes_inv. simpl. split_and!.
  - destruct mb as [[[b c] m']|]; [|by rewrite app_nil_r].
    destruct (Hmb b c m' eq_refl) as (_ & -> & _). rewrite fmap_app. unfold index_by. rewrite foldl_app.
    simpl. by rewrite Hc.
  - apply Forall_app. split; [done|]. destruct mb as [[[b c] m']|]; [|constructor].
    apply Forall_singleton. by eapply Hmb.
  - destruct mi as [i|]; [|done]. intros k i'. rewrite lookup_insert_Some. intros [[<- <-]|[_ ?]]; auto.
  - destruct mi as [i|]; [|done]. intros k i'. rewrite lookup_insert_Some. intros [[_ <-]|[_ ?]]; eauto.
  - intros g ty. destruct mb as [[[b c] m']|]; [|rewrite app_nil_r; apply Hm].
    destruct (Hmb b c m' eq_refl) as (_ & _ & Hty). unfold extend.
    intros [Hg|[_ Hg]]%lookup_union_Some_raw.
    + exists b. split; [set_solver|]. symmetry. by eapply Hty.
    + destruct (Hm g ty Hg) as (b' & Hb' & <-). exists b'. split; [set_solver|done].
Qed.

(** The activities of a list of events, numbered from [k]. *)
Lemma coin_events_rows v h fn ts mapping evs k acc acts :
  foldM (coin_event_step v h fn ts mapping) acc (enumerate_from k evs) = Ret acts ->
  exists new, acts = acc ++ new /\
    (forall a, a ∈ new <-> exists n ev p, evs !! n = Some ev /\
       coin_event (ev_type_str ev) (ev_data ev) v = Ok (Some p) /\
       from_parsed_event (ev_type_str ev) ev p v mapping h fn ts (k + Z.of_nat n) = Ret a) /\
    (forall n ev p, evs !! n = Some ev -> coin_event (ev_type_str ev) (ev_data ev) v = Ok (Some p) ->
       exists a, from_parsed_event (ev_type_str ev) ev p v mapping h fn ts (k + Z.of_nat n) = Ret a).
Proof.
  revert k acc. induction evs as [|ev evs IH]; intros k acc Hf; cbn [foldM enumerate_from] in Hf.
  { outcome_inv. exists []. rewrite app_nil_r. split_and!; [done|set_solver|done]. }
  apply bind_Ret in Hf as (acc1 & Hs & Hf). apply IH in Hf as (new & -> & Hnew & Hall).
  unfold coin_event_step in Hs. apply bind_Ret in Hs as (parsed & Hp%unwrap_result_Ret & Hs).
  assert (exists new1, acc1 = acc ++ new1 /\ forall a, a ∈ new1 <-> exists p, parsed = Some p /\
    from_parsed_event (ev_type_str ev) ev p v mapping h fn ts k = Ret a) as (new1 & -> & Hn1).
  { destruct parsed as [p|]; outcome_inv; [|exists []; rewrite app_nil_r; set_solver].
    exists [x]. split; [done|]. intros a. rewrite list_elem_of_singleton. naive_solver congruence. }
  exists (new1 ++ new). rewrite app_assoc. split_and!; [done| |].
  2:{ intros [|n] ev' p Hn He; simplify_eq/=.
      - rewrite Hp in He. injection He as ->. outcome_inv. rewrite Z.add_0_r. eauto.
      - replace (k + Z.of_nat (S n))%Z with (k + 1 + Z.of_nat n)%Z by lia. eauto. }
  intros a. rewrite elem_of_app, Hn1, Hnew. split.
  - intros [(p & -> & Ha)|(n & ev' & p & Hn & He & Ha)].
    + exists 0, ev, p. rewrite Z.add_0_r. done.
    + exists (S n), ev', p. replace (k + Z.of_nat (S n))%Z with (k + 1 + Z.of_nat n)%Z by lia. done.
  - intros ([|n] & ev' & p & Hn & He & Ha); simplify_eq/=.
    + left. rewrite Hp in He. rewrite Z.add_0_r in Ha. naive_solver.
    + right. exists n, ev', p. replace (k + 1 + Z.of_nat n)%Z with (k + Z.of_nat (S n))%Z by lia. done.
Qed.

(** The events of the transactions that carry coin events. *)
Definition coin_events (t : Transaction) : option (list EventPB) :=
  match t_txn_data t with
  | Some (TdGenesis inner) => Some (gt_events inner)
  | Some (TdUser inner) => Some (ut_events inner)
  | _ => None
  end.
Definition event_amount (p : CoinEvent) : BigDecimal :=
  match p with EvWithdrawCoin e => wce_amount e | EvDepositCoin e => dce_amount e end.

(** [a] is the activity of the event at position [n] of the transaction. *)
Definition activity_of (t : Transaction) (n : nat) (a : CoinActivity) : Prop :=
  exists evs ev p key, coin_events t = Some evs /\ evs !! n = Some ev /\
    coin_event (ev_type_str ev) (ev_data ev) (as_i64 (t_version t)) = Ok (Some p) /\
    ev_key ev = Some key /\
    ca_transaction_version a = as_i64 (t_version t) /\ ca_event_index a = Some (Z.of_nat n) /\
    ca_activity_type a = ev_type_str ev /\ ca_amount a = event_amount p /\
    ca_owner_address a = standardize_address (ek_account_address key).

Lemma from_parsed_event_row ty ev p v mapping h fn ts i a :
  from_parsed_event ty ev p v mapping h fn ts i = Ret a ->
  ca_transaction_version a = v /\ ca_event_index a = Some i /\ ca_activity_type a = ty /\
  ca_amount a = event_amount p /\
  (exists key, ev_key ev = Some key /\ ca_owner_address a = standardize_address (ek_account_address key)) /\
  exists g, mapping !! g = Some (ca_coin_type a).
Proof. unfold from_parsed_event. intros Ha. outcome_inv. split_and!; eauto. Qed.

(** What a transaction yields. *)
Definition txn_coins_ok (t : Transaction) (data : CoinData) : Prop :=
  current_coin_balances data =
    index_by current_balance_pk (current_of_balance <$> coin_balances data) /\
  Forall (fun b => cb_transaction_version b = as_i64 (t_version t)) (coin_balances data) /\
  keyed ci_coin_type (coin_infos data) /\
  (forall k i, coin_infos data !! k = Some i -> ci_transaction_version_created i = as_i64 (t_version t)) /\
  (forall a, a ∈ coin_activities data -> (exists n, activity_of t n a) /\
     exists b, b ∈ coin_balances data /\ cb_coin_type b = ca_coin_type a) /\
  (forall evs n ev p, coin_events t = Some evs -> evs !! n = Some ev ->
     coin_event (ev_type_str ev) (ev_data ev) (as_i64 (t_version t)) = Ok (Some p) ->
     exists a, a ∈ coin_activities data /\ activity_of t n a).

Lemma coins_from_transaction_ok t data :
  coins_from_transaction t = Ret data -> txn_coins_ok t data.
Proof.
  unfold coins_from_transaction. intros Hd.
  destruct (coin_events t) as [evs|] eqn:Hev; pose proof Hev as Hev'; unfold coin_events in Hev'.
  2:{ assert (data = no_coins) as -> by (destruct (t_txn_data t) as [[]|]; by simplify_eq).
      unfold txn_coins_ok. rewrite Hev. simpl. split_and!; try done. intros a Ha. by apply not_elem_of_nil in Ha. }
  set (v := as_i64 (t_version t)) in *.
  assert (exists req, (match t_txn_data t with
    | Some (TdGenesis inner) => Some (gt_events inner, None)
    | Some (TdUser inner) => Some (ut_events inner, ut_request inner)
    | _ => None end) = Some (evs, req)) as [req Hreq].
  { destruct (t_txn_data t) as [[]|]; simplify_eq; eauto. }
  rewrite Hreq in Hd. clear Hreq Hev'.
  apply bind_Ret in Hd as (info & _ & Hd). apply bind_Ret in Hd as (ts & _ & Hd).
  apply bind_Ret in Hd as (nts & _ & Hd). apply bind_Ret in Hd as (fn & _ & Hd).
  apply bind_Ret in Hd as ([cd mapping] & Hch & Hd). apply bind_Ret in Hd as (acts & Hacts & Hd).
  injection Hd as <-.
  assert (changes_inv v (cd, mapping)) as (Hc & Hv & Hk & Hi & Hm).
  { eapply (foldM_ind (changes_inv v)); [|by intros; eapply coin_change_step_inv|exact Hch].
    unfold changes_inv. simpl. by split_and!. }
  apply coin_events_rows in Hacts as (new & -> & Hnew & Hall). simpl in *.
  unfold txn_coins_ok. simpl. split_and!; try done.
  - intros a (n & ev & p & Hn & Hp & Ha)%Hnew.
    pose proof (from_parsed_event_row _ _ _ _ _ _ _ _ _ _ Ha) as (? & ? & ? & ? & (key & ? & ?) & g & Hg).
    split; [|by eapply Hm]. exists n, evs, ev, p, key. rewrite Z.add_0_l in *. by split_and!.
  - intros evs' n ev p He Hn Hp. rewrite Hev in He. injection He as <-. destruct (Hall n ev p Hn Hp) as [a Ha].
    pose proof (from_parsed_event_row _ _ _ _ _ _ _ _ _ _ Ha) as (? & ? & ? & ? & (key & ? & ?) & g & Hg).
    exists a. split; [apply Hnew; by exists n, ev, p|]. exists evs, ev, p, key. rewrite Z.add_0_l in *. by split_and!.
Qed.

(** ** A batch *)

Lemma or_insert_union `{HashOrder} {K V} `{Countable K} (m m2 : gmap K V) :
  foldl or_insert m (hash_iter m2) = m ∪ m2.
Proof.
  assert (forall (l : list (K * V)) (m : gmap K V), NoDup l.*1 ->
            foldl or_insert m l = m ∪ list_to_map l) as Hl.
  { induction l as [|[k v] l IH]; intros m0 Hn; simpl; [by rewrite map_union_empty|].
    apply NoDup_cons in Hn as [Hk Hn]. rewrite IH by done. unfold or_insert. simpl.
    apply not_elem_of_list_to_map_1 in Hk. simpl in Hk. destruct (m0 !! k) as [v0|] eqn:Hm0.
    - apply map_eq. intros j. rewrite !lookup_union. destruct (decide (j = k)) as [->|].
      + by rewrite Hm0, lookup_insert_eq, Hk.
      + by rewrite lookup_insert_ne.
    - rewrite <- insert_union_l. by rewrite insert_union_r. }
  rewrite Hl.
  - f_equal. rewrite (list_to_map_proper (hash_iter m2) (map_to_list m2)); [apply list_to_map_to_list| |apply hash_iter_perm].
    rewrite hash_iter_perm. apply NoDup_fst_map_to_list.
  - rewrite hash_iter_perm. apply NoDup_fst_map_to_list.
Qed.

(** The data of a batch is put together from the data of its transactions. *)
Lemma coins_fold_data `{HashOrder} transactions all :
  foldM coins_step no_coins transactions = Ret all ->
  exists ds, Forall2 (fun t d => coins_from_transaction t = Ret d) transactions ds /\
    coin_activities all = concat (coin_activities <$> ds) /\
    coin_balances all = concat (coin_balances <$> ds) /\
    coin_infos all = foldl union ∅ (coin_infos <$> ds) /\
    current_coin_balances all = foldl extend ∅ (current_coin_balances <$> ds).
Proof.
  revert all. induction transactions as [|t ts IH] using rev_ind; intros all Hf.
  { simpl in Hf. outcome_inv. exists []. split_and!; [constructor|done..]. }
  rewrite foldM_app in Hf. apply bind_Ret in Hf as (all0 & Hf0 & Hf). simpl in Hf.
  apply bind_Ret in Hf as (all1 & Hs & Hf). simplify_eq. unfold coins_step in Hs. outcome_inv.
  destruct (IH all0 Hf0) as (ds & Hds & Ha & Hb & Hi & Hc). exists (ds ++ [x]). split_and!.
  - apply Forall2_app; [done|]. by repeat constructor.
  - rewrite fmap_app, concat_app, Ha. simpl. by rewrite app_nil_r.
  - rewrite fmap_app, concat_app, Hb. simpl. by rewrite app_nil_r.
  - rewrite fmap_app, foldl_app, <- Hi. simpl. apply or_insert_union.
  - by rewrite fmap_app, foldl_app, <- Hc.
Qed.

Lemma coins_fold_current `{HashOrder} transactions all :
  foldM coins_step no_coins transactions = Ret all ->
  current_coin_balances all = index_by current_balance_pk (current_of_balance <$> coin_balances all) /\
  keyed ci_coin_type (coin_infos all).
Proof.
  apply (foldM_ind (fun all =>
    current_coin_balances all = index_by current_balance_pk (current_of_balance <$> coin_balances all) /\
    keyed ci_coin_type (coin_infos all)));
    [split; [reflexivity|]; intros k v Hk; simpl in Hk; by rewrite lookup_empty in Hk|].
  intros all0 t all1 _ [Hc Hk] Hs. unfold coins_step in Hs. outcome_inv.
  rename select (coins_from_transaction _ = _) into Ht.
  apply coins_from_transaction_ok in Ht as (Hc' & _ & Hk' & _). split; simpl.
  - by rewrite fmap_app, index_by_app, Hc, Hc'.
  - rewrite or_insert_union. intros k v [?|[_ ?]]%lookup_union_Some_raw; auto.
Qed.

(** The first of a list of maps that has a key. *)
Lemma foldl_union_first {K V} `{Countable K} (ms : list (gmap K V)) k v :
  foldl union ∅ ms !! k = Some v <->
  exists l1 m l2, ms = l1 ++ m :: l2 /\ m !! k = Some v /\ Forall (fun m' => m' !! k = None) l1.
Proof.
  revert v. induction ms as [|m ms IH] using rev_ind; intros v.
  { simpl. rewrite lookup_empty. split; [done|]. by intros ([|? ?] & ? & ? & ? & _). }
  assert (foldl union ∅ ms !! k = None -> Forall (fun m' => m' !! k = None) ms) as Hnone.
  { clear IH. induction ms as [|m' ms IH] using rev_ind; [constructor|].
    rewrite foldl_app. simpl. rewrite lookup_union_None. intros [? ?].
    apply Forall_app. split; [by apply IH|by apply Forall_singleton]. }
  rewrite foldl_app. simpl. rewrite lookup_union_Some_raw, IH. split.
  - intros [(l1 & m' & l2 & -> & Hm & Hl)|[Hn Hm]].
    + exists l1, m', (l2 ++ [m]). by rewrite <- app_assoc.
    + exists ms, m, []. auto.
  - intros (l1 & m' & l2 & Heq & Hm & Hl).
    destruct l2 as [|m2 l2 _] using rev_ind.
    + apply app_inj_tail in Heq as [-> ->]. right. split; [|done].
      apply eq_None_not_Some. intros [w Hw]. revert Hw. clear -Hl.
      induction l1 as [|m l1 IH] using rev_ind; [simpl; by rewrite lookup_empty|].
      apply Forall_app in Hl as [Hl Hm]. rewrite Forall_singleton in Hm. rewrite foldl_app. simpl.
      intros [?|[_ Hw]]%lookup_union_Some_raw; [by apply IH|]. by rewrite Hm in Hw.
    + rewrite app_comm_cons, app_assoc in Heq. apply app_inj_tail in Heq as [-> ->]. left. eauto 10.
Qed.

(** the current rows of a batch.  The current balances of a batch are
    sorted, and for each owner and coin type they hold the last balance row of
    the batch; the coin infos are sorted by coin type, and for each coin type
    they hold the one of the first transaction of the batch that has it. *)
Theorem coin_rows_spec `{HashOrder} (transactions : list Transaction) (rows : CoinRows) :
  coin_rows transactions = Ret rows ->
  key_sorted current_balance_pk (rows_current_coin_balances rows) /\
  (forall c, c ∈ rows_current_coin_balances rows <-> exists b,
     last (filter (fun b => (cb_owner_address b, cb_coin_type b) = current_balance_pk c)
             (rows_coin_balances rows)) = Some b /\ c = current_of_balance b) /\
  key_sorted ci_coin_type (rows_coin_infos rows) /\
  (forall i, i ∈ rows_coin_infos rows <-> exists before t after data,
     transactions = before ++ t :: after /\ coins_from_transaction t = Ret data /\
     coin_infos data !! ci_coin_type i = Some i /\
     forall t', t' ∈ before -> exists data', coins_from_transaction t' = Ret data' /\
       coin_infos data' !! ci_coin_type i = None).
Proof.
  unfold coin_rows. intros Hr. apply bind_Ret in Hr as (all & Hf & Hr). injection Hr as <-. simpl.
  destruct (coins_fold_current _ _ Hf) as [Hc Hk].
  destruct (coins_fold_data _ _ Hf) as (ds & Hds & _ & _ & Hi & _).
  split_and!; [apply sort_by_sorted| |apply sort_by_sorted|].
  - intros c. by rewrite Hc, elem_of_sorted_values, filter_fmap_key, fmap_last, fmap_Some.
  - intros i. rewrite sort_by_perm, elem_of_into_values. split.
    + intros [k Hki]. pose proof (Hk _ _ Hki) as <-.
      rewrite Hi in Hki. apply foldl_union_first in Hki as (l1 & m & l2 & Heq & Hm & Hl1).
      apply fmap_app_inv in Heq as (d1 & d2 & -> & Hd2 & ->).
      symmetry in Hd2. apply fmap_cons_inv in Hd2 as (d & d2' & -> & -> & ->).
      apply Forall2_app_inv_r in Hds as (t1 & t2 & Ht1 & Ht2 & ->).
      apply Forall2_cons_inv_r in Ht2 as (t & t2' & Ht & Ht2 & ->).
      exists t1, t, t2', d. split_and!; [done..|]. intros t' Hin.
      apply list_elem_of_lookup in Hin as [n Hn].
      destruct (Forall2_lookup_l _ _ _ _ _ Ht1 Hn) as (d' & Hd' & Hdt).
      exists d'. split; [done|]. apply Forall_fmap in Hl1. by eapply (Forall_lookup_1 _ _ n d') in Hl1.
    + intros (before & t & after & data & -> & Ht & Hti & Hbefore). exists (ci_coin_type i).
      rewrite Hi. apply foldl_union_first.
      apply Forall2_app_inv_l in Hds as (d1 & d2 & Hd1 & Hd2 & ->).
      apply Forall2_cons_inv_l in Hd2 as (d & d2' & Hd & _ & ->).
      rewrite Ht in Hd. injection Hd as <-.
      exists (coin_infos <$> d1), (coin_infos data), (coin_infos <$> d2'). rewrite fmap_app.
      split_and!; [done..|]. apply Forall_fmap, Forall_lookup. intros n d' Hn.
      destruct (Forall2_lookup_r _ _ _ _ _ Hd1 Hn) as (t' & Hn' & Ht').
      destruct (Hbefore t') as (d'' & Hd'' & Hnone); [by eapply list_elem_of_lookup_2|].
      simpl. congruence.
Qed.

(** no coin event is lost and none is invented.  The activities of a batch
    are exactly those of the withdraw and deposit events of its user and
    genesis transactions, with the amount, owner and position of the event,
    and the coin type of every activity is the one of a balance row of the
    same version. *)
Theorem coin_activities_exact `{HashOrder} (transactions : list Transaction) (rows : CoinRows) :
  coin_rows transactions = Ret rows ->
  (forall a, a ∈ rows_coin_activities rows ->
     (exists t n, t ∈ transactions /\ activity_of t n a) /\
     exists b, b ∈ rows_coin_balances rows /\ cb_coin_type b = ca_coin_type a /\
       cb_transaction_version b = ca_transaction_version a) /\
  (forall t evs n ev p, t ∈ transactions -> coin_events t = Some evs -> evs !! n = Some ev ->
     coin_event (ev_type_str ev) (ev_data ev) (as_i64 (t_version t)) = Ok (Some p) ->
     exists a, a ∈ rows_coin_activities rows /\ activity_of t n a).
Proof.
  unfold coin_rows. intros Hr. apply bind_Ret in Hr as (all & Hf & Hr). injection Hr as <-. simpl.
  destruct (coins_fold_data _ _ Hf) as (ds & Hds & -> & -> & _ & _). split.
  - intros a (l & Hl & Ha)%list_elem_of_In%in_concat. apply list_elem_of_In in Hl, Ha.
    apply list_elem_of_fmap in Hl as (d & -> & [i Hi]%list_elem_of_lookup).
    destruct (Forall2_lookup_r _ _ _ _ _ Hds Hi) as (t & Ht & Hd).
    apply coins_from_transaction_ok in Hd as (_ & Hv & _ & _ & Hacts & _).
    destruct (Hacts a Ha) as [[n Hn] (b & Hb & Hty)]. split.
    + exists t, n. split; [by eapply list_elem_of_lookup_2|done].
    + exists b. split_and!; [|done|].
      * apply list_elem_of_In, in_concat. exists (coin_balances d). rewrite <- !list_elem_of_In.
        split; [|done]. apply list_elem_of_fmap_2. by eapply list_elem_of_lookup_2.
      * rewrite Forall_forall in Hv. rewrite (Hv b Hb). destruct Hn as (? & ? & ? & ? & _ & _ & _ & _ & -> & _). done.
  - intros t evs n ev p [i Hi]%list_elem_of_lookup Hev Hn Hp.
    destruct (Forall2_lookup_l _ _ _ _ _ Hds Hi) as (d & Hd & Ht).
    apply coins_from_transaction_ok in Ht as (_ & _ & _ & _ & _ & Hall).
    destruct (Hall evs n ev p) as (a & Ha & Hact); [done..|]. exists a. split; [|done].
    apply list_elem_of_In, in_concat. exists (coin_activities d). rewrite <- !list_elem_of_In.
    split; [|done]. apply list_elem_of_fmap_2. by eapply list_elem_of_lookup_2.
Qed.

(** ** Concurrent batches *)

Lemma coin_rows_versions `{HashOrder} transactions rows :
  coin_rows transactions = Ret rows ->
  NoDup (current_balance_pk <$> rows_current_coin_balances rows) /\
  NoDup (ci_coin_type <$> rows_coin_infos rows) /\
  (forall c, c ∈ rows_current_coin_balances rows ->
     ccb_last_transaction_version c ∈ txn_versions transactions) /\
  (forall i, i ∈ rows_coin_infos rows -> ci_transaction_version_created i ∈ txn_versions transactions).
Proof.
  unfold coin_rows. intros Hr. apply bind_Ret in Hr as (all & Hf & Hr). injection Hr as <-. simpl.
  destruct (coins_fold_current _ _ Hf) as [Hc Hk].
  destruct (coins_fold_data _ _ Hf) as (ds & Hds & _ & Hb & Hi & _).
  assert (forall t, t ∈ transactions -> as_i64 (t_version t) ∈ txn_versions transactions) as Hver.
  { intros t. apply (list_elem_of_fmap_2 (fun t => as_i64 (t_version t))). }
  split_and!.
  - rewrite Hc. apply sorted_values_NoDup.
  - rewrite sort_by_perm. by apply into_values_NoDup.
  - intros c. rewrite Hc, elem_of_sorted_values, filter_fmap_key, fmap_last, fmap_Some.
    intros (b & [_ Hin]%last_Some_elem_of%list_elem_of_filter & ->). simpl. rewrite Hb in Hin.
    apply list_elem_of_In, in_concat in Hin as (l & Hl & Hin). apply list_elem_of_In in Hl, Hin.
    apply list_elem_of_fmap in Hl as (d & -> & [n Hn]%list_elem_of_lookup).
    destruct (Forall2_lookup_r _ _ _ _ _ Hds Hn) as (t & Ht & Hd).
    apply coins_from_transaction_ok in Hd as (_ & Hv & _). rewrite Forall_forall in Hv.
    rewrite (Hv b Hin). apply Hver. by eapply list_elem_of_lookup_2.
  - intros i. rewrite sort_by_perm, elem_of_into_values. intros [k Hki]. rewrite Hi in Hki.
    apply foldl_union_first in Hki as (l1 & m & l2 & Heq & Hm & _).
    assert (m ∈ coin_infos <$> ds) as (d & -> & [n Hn]%list_elem_of_lookup)%list_elem_of_fmap
      by (rewrite Heq; set_solver).
    destruct (Forall2_lookup_r _ _ _ _ _ Hds Hn) as (t & Ht & Hd).
    apply coins_from_transaction_ok in Hd as (_ & _ & _ & Hv & _).
    rewrite (Hv _ _ Hm). apply Hver. by eapply list_elem_of_lookup_2.
Qed.

(** concurrently written batches converge on balances and infos.  For
    batches of distinct versions, provided that rows with one coin type hash
    have one coin type: whatever the order in which the rows are written, the
    tables end up the same; a balance is the one with the largest version, and
    a coin info the one with the smallest. *)
Theorem coin_tables_converge `{HashOrder} (batches : list (list Transaction)) (rows : list CoinRows)
    (balances : list CurrentCoinBalance) (infos : list CoinInfo) kb b ki i :
  NoDup (txn_versions (concat batches)) ->
  Forall2 (fun t r => coin_rows t = Ret r) batches rows ->
  balances ≡ₚ concat (rows_current_coin_balances <$> rows) -> infos ≡ₚ concat (rows_coin_infos <$> rows) ->
  (forall x y, x ∈ balances -> y ∈ balances -> ccb_coin_type_hash x = ccb_coin_type_hash y ->
     ccb_coin_type x = ccb_coin_type y) ->
  (forall x y, x ∈ infos -> y ∈ infos -> ci_coin_type_hash x = ci_coin_type_hash y ->
     ci_coin_type x = ci_coin_type y) ->
  upsert_rows insert_current_coin_balances_query ∅ balances =
    upsert_rows insert_current_coin_balances_query ∅ (concat (rows_current_coin_balances <$> rows)) /\
  (upsert_rows insert_current_coin_balances_query ∅ balances !! kb = Some b ->
   b ∈ balances /\ forall b', b' ∈ balances -> (ccb_owner_address b', ccb_coin_type_hash b') = kb ->
     (ccb_last_transaction_version b' <= ccb_last_transaction_version b)%Z) /\
  upsert_rows insert_coin_infos_query ∅ infos =
    upsert_rows insert_coin_infos_query ∅ (concat (rows_coin_infos <$> rows)) /\
  (upsert_rows insert_coin_infos_query ∅ infos !! ki = Some i ->
   i ∈ infos /\ forall i', i' ∈ infos -> ci_coin_type_hash i' = ki ->
     (ci_transaction_version_created i <= ci_transaction_version_created i')%Z).
Proof.
  intros Hn Hrows Hpb Hpi Hhb Hhi.
  assert (lww_coherent insert_current_coin_balances_query balances) as Hcb.
  { eapply lww_coherent_perm; [symmetry; exact Hpb|]. setoid_rewrite Hpb in Hhb.
    eapply (batches_coherent _ coin_rows _ ccb_last_transaction_version); [done| | |done|done].
    - intros x y Hx Hy [= _ Hxy]. by apply Hhb.
    - intros t r Hr Ht. destruct (coin_rows_versions _ _ Ht) as (Hnb & _ & Hvb & _). split; [|done].
      eapply NoDup_fmap_coarser; [exact Hnb|]. intros x y Hx Hy [= Ho Hxy].
      unfold current_balance_pk. f_equal; [done|]. apply Hhb; [..|done];
        apply list_elem_of_In, in_concat; exists (rows_current_coin_balances r);
        rewrite <- !list_elem_of_In; (split; [by apply list_elem_of_fmap_2|done]). }
  assert (lww_coherent insert_coin_infos_query infos) as Hci.
  { eapply lww_coherent_perm; [symmetry; exact Hpi|]. setoid_rewrite Hpi in Hhi.
    eapply (batches_coherent _ coin_rows _ ci_transaction_version_created); [| | |done|done].
    - intros x y. simpl. lia.
    - intros x y Hx Hy Hxy. by apply Hhi.
    - intros t r Hr Ht. destruct (coin_rows_versions _ _ Ht) as (_ & Hni & _ & Hvi). split; [|done].
      eapply NoDup_fmap_coarser; [exact Hni|]. intros x y Hx Hy Hxy.
      apply Hhi; [..|done];
        apply list_elem_of_In, in_concat; exists (rows_coin_infos r);
        rewrite <- !list_elem_of_In; (split; [by apply list_elem_of_fmap_2|done]). }
  split_and!.
  - eapply lww_rows_perm; [done| |done]. intros j o r Ho. by rewrite lookup_empty in Ho.
  - intros Hk. destruct (lww_rows_newest insert_current_coin_balances_query balances kb b Hcb Hk) as (? & _ & ?).
    done.
  - eapply lww_rows_perm; [done| |done]. intros j o r Ho. by rewrite lookup_empty in Ho.
  - intros Hk. destruct (lww_rows_newest insert_coin_infos_query infos ki i Hci Hk) as (? & _ & Hmax).
    split; [done|]. intros i' Hi' Hki. specialize (Hmax i' Hi' Hki). simpl in Hmax. lia.
Qed.
End Coins.

(** ** A concrete batch *)

Section ConcreteCoins.
#[local] Existing Instance pair_chrono.
#[local] Existing Instance int_bigdec.
#[local] Existing Instance plain_hex.
#[local] Existing Instance plain_sha.
#[local] Existing Instance text_json.
#[local] Existing Instance map_order.
#[local] Existing Instance no_proto_json.
(** Enough of the expression for types without nested arguments. *)
#[local] Instance flat_angles : RegexCrate := fun s =>
  match split "<" s with _ :: b :: _ => head (split ">" b) | _ => None end.

(** Resources and events are written as their amount, coin infos as their
    name. *)
Definition ex_guid (n : Z) : EventGuidResourceWrapper :=
  {| guid_id := {| guid_addr := "0xcafe"; guid_creation_number := n |} |}.
#[local] Instance amount_codec : CoinCodec :=
  {| de_CoinInfoResource :=
       {| de_from_str := fun _ => None;
          de_from_value := fun v => match v with
            | Str n => Some {| cir_name := n; cir_symbol := "APT"; cir_decimals := 8;
                               cir_supply := {| oaw_vec := [] |} |}
            | _ => None
            end |};
     de_CoinStoreResource :=
       {| de_from_str := fun _ => None;
          de_from_value := fun v => match v with
            | Str n => a ← int_parse n;
                Some {| csr_coin := {| coin_value := a |};
                        csr_deposit_events := {| deposit_guid := ex_guid 2 |};
                        csr_withdraw_events := {| withdraw_guid := ex_guid 3 |};
                        csr_frozen := false |}
            | _ => None
            end |};
     de_WithdrawCoinEvent :=
       {| de_from_str := fun s => a ← int_parse s; Some {| wce_amount := a |};
          de_from_value := fun _ => None |};
     de_DepositCoinEvent :=
       {| de_from_str := fun s => a ← int_parse s; Some {| dce_amount := a |};
          de_from_value := fun _ => None |} |}.

Definition ex_coin_write (name data : string) : WriteSetChangePB :=
  {| wsc_type := 0; wsc_change := Some (ChangeWriteResource
       {| wr_address := "0xcafe"; wr_state_key_hash := EmptyString;
          wr_type := Some (mk_MoveStructTag "0x1" "coin" name
            [mk_MoveType 0 (Some (ContentStruct (mk_MoveStructTag "0x1" "aptos_coin" "AptosCoin" [])))]);
          wr_type_str := "0x1::coin::" +:+ name +:+ "<0x1::aptos_coin::AptosCoin>"; wr_data := data |}) |}.
Definition ex_withdrawal : EventPB :=
  {| ev_key := Some {| ek_account_address := "0xcafe"; ek_creation_number := 3 |};
     ev_sequence_number := 1; ev_type := None; ev_type_str := "0x1::coin::WithdrawEvent"; ev_data := "5" |}.
Definition ex_coin_txn (v : Z) (changes : list WriteSetChangePB) (events : list EventPB) : Transaction :=
  {| t_timestamp := Some {| seconds := v; nanos := 0 |}; t_version := v;
     t_info := Some
       {| ti_hash := EmptyString; ti_state_change_hash := EmptyString; ti_event_root_hash := EmptyString;
          ti_state_checkpoint_hash := None; ti_gas_used := 1; ti_success := true;
          ti_vm_status := EmptyString; ti_accumulator_root_hash := EmptyString; ti_changes := changes |};
     t_epoch := 0; t_block_height := 1; t_type := 1;
     t_size_info := None; t_txn_data := Some (TdGenesis {| gt_payload := None; gt_events := events |}) |}.
(** The info is written twice; the balance drops from 100 to 95. *)
Definition ex_coin_batch : list Transaction :=
  [ex_coin_txn 7 [ex_coin_write "CoinInfo" "Aptos"; ex_coin_write "CoinStore" "100"] [];
   ex_coin_txn 8 [ex_coin_write "CoinInfo" "Aptos Coin"; ex_coin_write "CoinStore" "95"] [ex_withdrawal]].
Definition ex_no_rows : CoinRows :=
  {| rows_coin_activities := []; rows_coin_infos := []; rows_coin_balances := [];
     rows_current_coin_balances := []; rows_coin_supply := [] |}.
Definition ex_coin_rows : CoinRows := ret_or ex_no_rows (coin_rows ex_coin_batch).
Definition ex_next_rows : CoinRows :=
  ret_or ex_no_rows (coin_rows [ex_coin_txn 9 [ex_coin_write "CoinInfo" "A"; ex_coin_write "CoinStore" "90"] []]).

Lemma ex_coin_rows_ok : coin_rows ex_coin_batch = Ret ex_coin_rows.
Proof. apply ret_or_eq. vm_compute. reflexivity. Qed.

Lemma coin_rows_spec_witness :
  (ci_name <$> rows_coin_infos ex_coin_rows) = ["Aptos"] /\
  (ccb_amount <$> rows_current_coin_balances ex_coin_rows) = [95%Z] /\
  key_sorted current_balance_pk (rows_current_coin_balances ex_coin_rows) /\
  key_sorted ci_coin_type (rows_coin_infos ex_coin_rows).
Proof.
  split; [vm_compute; reflexivity|]. split; [vm_compute; reflexivity|].
  destruct (coin_rows_spec ex_coin_batch ex_coin_rows ex_coin_rows_ok) as (Hb & _ & Hi & _). done.
Defined.

Definition ex_parsed : CoinEvent := EvWithdrawCoin (@Build_WithdrawCoinEvent int_bigdec 5%Z).
Lemma coin_activities_exact_witness :
  exists a, a ∈ rows_coin_activities ex_coin_rows /\ ca_amount a = 5%Z /\
    ca_owner_address a = standardize_address "0xcafe".
Proof.
  destruct (coin_activities_exact ex_coin_batch ex_coin_rows ex_coin_rows_ok) as [_ Hall].
  destruct (Hall (nth 1 ex_coin_batch (ex_coin_txn 0 [] [])) [ex_withdrawal] 0 ex_withdrawal
              ex_parsed) as (a & Ha & Hact).
  - right. left.
  - reflexivity.
  - reflexivity.
  - reflexivity.
  - exists a. split; [exact Ha|]. destruct Hact as (evs & ev & p & key & Hevs & Hev & Hp & Hk & _ & _ & _ & Ham & Ho).
    injection Hevs as <-. injection Hev as <-. injection Hk as <-. split; [|exact Ho].
    rewrite Ham. injection Hp as <-. reflexivity.
Defined.

Definition ex_other_balance : CurrentCoinBalance :=
  {| ccb_owner_address := EmptyString; ccb_coin_type_hash := EmptyString; ccb_coin_type := EmptyString;
     ccb_amount := 0%Z; ccb_last_transaction_version := 0; ccb_last_transaction_timestamp := (0, 0)%Z |}.
Definition ex_other_info : CoinInfo :=
  {| ci_coin_type_hash := EmptyString; ci_coin_type := EmptyString; ci_transaction_version_created := 0;
     ci_creator_address := EmptyString; ci_name := EmptyString; ci_symbol := EmptyString;
     ci_decimals := 0; ci_transaction_created_timestamp := (0, 0)%Z;
     ci_supply_aggregator_table_handle := None; ci_supply_aggregator_table_key := None |}.

(** The batches are written in the reverse order. *)
Lemma coin_tables_converge_witness :
  upsert_rows insert_current_coin_balances_query ∅
      (reverse (concat (rows_current_coin_balances <$> [ex_coin_rows; ex_next_rows]))) =
    upsert_rows insert_current_coin_balances_query ∅
      (concat (rows_current_coin_balances <$> [ex_coin_rows; ex_next_rows])) /\
  upsert_rows insert_coin_infos_query ∅
      (reverse (concat (rows_coin_infos <$> [ex_coin_rows; ex_next_rows]))) =
    upsert_rows insert_coin_infos_query ∅ (concat (rows_coin_infos <$> [ex_coin_rows; ex_next_rows])).
Proof.
  assert (forall x, x ∈ concat (rows_current_coin_balances <$> [ex_coin_rows; ex_next_rows]) ->
            ccb_coin_type x = APTOS_COIN_TYPE_STR) as Hb.
  { intros x Hx. assert (Forall (fun x => ccb_coin_type x = APTOS_COIN_TYPE_STR)
      (concat (rows_current_coin_balances <$> [ex_coin_rows; ex_next_rows]))) as Hall
      by (apply (bool_decide_unpack _); vm_compute; exact I).
    rewrite Forall_forall in Hall. by apply Hall. }
  assert (forall x, x ∈ concat (rows_coin_infos <$> [ex_coin_rows; ex_next_rows]) ->
            ci_coin_type x = APTOS_COIN_TYPE_STR) as Hi.
  { intros x Hx. assert (Forall (fun x => ci_coin_type x = APTOS_COIN_TYPE_STR)
      (concat (rows_coin_infos <$> [ex_coin_rows; ex_next_rows]))) as Hall
      by (apply (bool_decide_unpack _); vm_compute; exact I).
    rewrite Forall_forall in Hall. by apply Hall. }
  destruct (coin_tables_converge
    [ex_coin_batch; [ex_coin_txn 9 [ex_coin_write "CoinInfo" "A"; ex_coin_write "CoinStore" "90"] []]]
    [ex_coin_rows; ex_next_rows]
    (reverse (concat (rows_current_coin_balances <$> [ex_coin_rows; ex_next_rows])))
    (reverse (concat (rows_coin_infos <$> [ex_coin_rows; ex_next_rows])))
    (EmptyString, EmptyString) ex_other_balance EmptyString ex_other_info)
    as (Hbs & _ & His & _).
  - apply (bool_decide_unpack _). vm_compute. exact I.
  - constructor; [exact ex_coin_rows_ok|]. constructor; [|constructor].
    apply ret_or_eq. vm_compute. reflexivity.
  - apply reverse_Permutation.
  - apply reverse_Permutation.
  - intros x y Hx Hy _. rewrite elem_of_reverse in Hx, Hy. by rewrite (Hb x Hx), (Hb y Hy).
  - intros x y Hx Hy _. rewrite elem_of_reverse in Hx, Hy. by rewrite (Hi x Hx), (Hi y Hy).
  - split; [exact Hbs|exact His].
Defined.
End ConcreteCoins.
