(* ===== verification/FungibleAssets.v ===== *)
(** * Fungible assets

    [models/fungible_asset_models] and [processors/fungible_asset_processor.rs]:
    activities, balances and metadata of coins (v1) and of fungible assets
    (v2), and how the processor stores them. *)
From S2P Require Import Prelude RustStr Json Externals Proto Util Database Processors.
From S2P Require Import Signatures DefaultModels TokenResources FungibleResources Objects Coins.

Section FungibleAssets.
Context `{Chrono, BigDec, HexCodec, Sha256, Sha3_256, JsonParse, ProtoJson, RegexCrate}.
Context `{!TokenCodec, !FungibleCodec, !CoinCodec}.

(** ** Rows *)

Record FungibleAssetActivity := {
  faa_transaction_version : Z;
  faa_event_index : Z;
  faa_owner_address : string;
  faa_storage_id : string;
  faa_asset_type : string;
  faa_is_frozen : option bool;
  faa_amount : option BigDecimal;
  faa_type : string;
  faa_is_gas_fee : bool;
  faa_gas_fee_payer_address : option string;
  faa_is_transaction_success : bool;
  faa_entry_function_id_str : option string;
  faa_block_height : Z;
  faa_token_standard : string;
  faa_transaction_timestamp : NaiveDateTime;
  faa_storage_refund_amount : BigDecimal;
}.
Record FungibleAssetBalance := {
  fab_transaction_version : Z;
  fab_write_set_change_index : Z;
  fab_storage_id : string;
  fab_owner_address : string;
  fab_asset_type : string;
  fab_is_primary : bool;
  fab_is_frozen : bool;
  fab_amount : BigDecimal;
  fab_transaction_timestamp : NaiveDateTime;
  fab_token_standard : string;
}.
Record CurrentFungibleAssetBalance := {
  cfab_storage_id : string;
  cfab_owner_address : string;
  cfab_asset_type : string;
  cfab_is_primary : bool;
  cfab_is_frozen : bool;
  cfab_amount : BigDecimal;
  cfab_last_transaction_version : Z;
  cfab_last_transaction_timestamp : NaiveDateTime;
  cfab_token_standard : string;
}.
Record FungibleAssetMetadataModel := {
  fmm_asset_type : string;
  fmm_creator_address : string;
  fmm_name : string;
  fmm_symbol : string;
  fmm_decimals : Z;
  fmm_icon_uri : option string;
  fmm_project_uri : option string;
  fmm_last_transaction_version : Z;
  fmm_last_transaction_timestamp : NaiveDateTime;
  fmm_supply_aggregator_table_handle_v1 : option string;
  fmm_supply_aggregator_table_key_v1 : option string;
  fmm_token_standard : string;
  fmm_is_token_v2 : option bool;
  fmm_supply_v2 : option BigDecimal;
  fmm_maximum_v2 : option BigDecimal;
}.
#[export] Instance FungibleAssetActivity_fields : FieldCount FungibleAssetActivity := 16.
#[export] Instance FungibleAssetBalance_fields : FieldCount FungibleAssetBalance := 10.
#[export] Instance CurrentFungibleAssetBalance_fields : FieldCount CurrentFungibleAssetBalance := 9.
#[export] Instance FungibleAssetMetadataModel_fields : FieldCount FungibleAssetMetadataModel := 15.

Abbreviation ObjectMapping := (gmap string ObjectAggregatedData) (only parsing).
Abbreviation GuidToCoinType := (gmap EventGuidResource string) (only parsing).

(** ** Activities: [v2_fungible_asset_activities.rs] *)

Definition activity_v2_from_event (event : EventPB) (txn_version block_height : Z)
    (txn_timestamp : NaiveDateTime) (event_index : Z) (entry_function_id_str : option string)
    (object_aggregated_data_mapping : ObjectMapping) : outcome (result (option FungibleAssetActivity)) :=
  match fungible_event (ev_type_str event) (ev_data event) txn_version with
  | Err => Ret Err
  | Ok None => Ret (Ok None)
  | Ok (Some fa_event) =>
      key ← unwrap (ev_key event);
      let storage_id := standardize_address (ek_account_address key) in
      match object_aggregated_data_mapping !! storage_id with
      | None => Ret (Ok None)
      | Some object_metadata =>
          fungible_asset ← unwrap (oad_fungible_asset_store object_metadata);
          let '(is_frozen, amount) :=
            match fa_event with
            | EvWithdrawEvent inner => (None, Some (withdraw_amount inner))
            | EvDepositEvent inner => (None, Some (deposit_amount inner))
            | EvFrozenEvent inner => (Some (event_frozen inner), None)
            end in
          Ret (Ok (Some
            {| faa_transaction_version := txn_version;
               faa_event_index := event_index;
               faa_owner_address := get_owner_address (object_core (oad_object object_metadata));
               faa_storage_id := storage_id;
               faa_asset_type := get_reference_address (fas_metadata fungible_asset);
               faa_is_frozen := is_frozen;
               faa_amount := amount;
               faa_type := ev_type_str event;
               faa_is_gas_fee := false;
               faa_gas_fee_payer_address := None;
               faa_is_transaction_success := true;
               faa_entry_function_id_str := entry_function_id_str;
               faa_block_height := block_height;
               faa_token_standard := standard_to_string StandardV2;
               faa_transaction_timestamp := txn_timestamp;
               faa_storage_refund_amount := bd_zero |}))
      end
  end.

Definition activity_v1_from_event (event : EventPB) (txn_version block_height : Z)
    (transaction_timestamp : NaiveDateTime) (entry_function_id_str : option string)
    (event_to_coin_type : GuidToCoinType) (event_index : Z) : result (option FungibleAssetActivity) :=
  match coin_event (ev_type_str event) (ev_data event) txn_version with
  | Err => Err
  | Ok None => Ok None
  | Ok (Some inner) =>
      let amount := match inner with
                    | EvWithdrawCoin inner => wce_amount inner
                    | EvDepositCoin inner => dce_amount inner
                    end in
      event_key ← context (ev_key event);
      let event_move_guid := {| guid_addr := standardize_address (ek_account_address event_key);
                                guid_creation_number := as_i64 (ek_creation_number event_key) |} in
      match event_to_coin_type !! event_move_guid with
      | None => Ok None
      | Some coin_type =>
          Ok (Some
            {| faa_transaction_version := txn_version;
               faa_event_index := event_index;
               faa_owner_address := guid_addr event_move_guid;
               faa_storage_id := get_storage_id coin_type (guid_addr event_move_guid);
               faa_asset_type := coin_type;
               faa_is_frozen := None;
               faa_amount := Some amount;
               faa_type := ev_type_str event;
               faa_is_gas_fee := false;
               faa_gas_fee_payer_address := None;
               faa_is_transaction_success := true;
               faa_entry_function_id_str := entry_function_id_str;
               faa_block_height := block_height;
               faa_token_standard := standard_to_string StandardV1;
               faa_transaction_timestamp := transaction_timestamp;
               faa_storage_refund_amount := bd_zero |})
      end
  end.

(** [FungibleAssetActivity::get_gas_event]. *)
Definition gas_activity (txn_info : TransactionInfo) (user_transaction_request : UserTransactionRequest)
    (entry_function_id_str : option string) (transaction_version : Z)
    (transaction_timestamp : NaiveDateTime) (block_height : Z) (fee_statement : option FeeStatement)
  : outcome FungibleAssetActivity :=
  v1_activity ← get_gas_event txn_info user_transaction_request entry_function_id_str
                  transaction_version transaction_timestamp block_height fee_statement;
  event_index ← unwrap (ca_event_index v1_activity);
  Ret {| faa_transaction_version := transaction_version;
         faa_event_index := event_index;
         faa_owner_address := ca_owner_address v1_activity;
         faa_storage_id := get_storage_id (ca_coin_type v1_activity) (ca_owner_address v1_activity);
         faa_asset_type := ca_coin_type v1_activity;
         faa_is_frozen := None;
         faa_amount := Some (ca_amount v1_activity);
         faa_type := ca_activity_type v1_activity;
         faa_is_gas_fee := ca_is_gas_fee v1_activity;
         faa_gas_fee_payer_address := ca_gas_fee_payer_address v1_activity;
         faa_is_transaction_success := ca_is_transaction_success v1_activity;
         faa_entry_function_id_str := ca_entry_function_id_str v1_activity;
         faa_block_height := block_height;
         faa_token_standard := standard_to_string StandardV1;
         faa_transaction_timestamp := transaction_timestamp;
         faa_storage_refund_amount := ca_storage_refund_amount v1_activity |}.

(** ** Balances: [v2_fungible_asset_balances.rs] *)

(** [<[u8; 32]>::from_hex]. *)
Definition address_from_hex (s : string) : option bytes :=
  b ← hex_decode s;
  if decide (String.length b = 32) then Some b else None.

Definition primary_store_suffix : bytes := String (Ascii.ascii_of_N 252) EmptyString.

Definition is_primary (owner_address metadata_address fungible_store_address : string) : outcome bool :=
  owner_hex ← slice_from 2 owner_address;
  owner_address_bytes ← unwrap (address_from_hex owner_hex);
  metadata_hex ← slice_from 2 metadata_address;
  metadata_address_bytes ← unwrap (address_from_hex metadata_hex);
  let hash_result :=
    sha3_256_digest (owner_address_bytes +:+ metadata_address_bytes +:+ primary_store_suffix) in
  store_hex ← slice_from 2 fungible_store_address;
  Ret (bool_decide (hex_encode hash_result = store_hex)).

Definition balance_v2_from_write_resource (write_resource : WriteResource)
    (write_set_change_index txn_version : Z) (txn_timestamp : NaiveDateTime)
    (object_metadatas : ObjectMapping)
  : outcome (result (option (FungibleAssetBalance * CurrentFungibleAssetBalance))) :=
  store <-? store_from_write_resource write_resource txn_version;
  match store with
  | None => Ret (Ok None)
  | Some inner =>
      let storage_id := standardize_address (wr_address write_resource) in
      match object_metadatas !! storage_id with
      | None => Ret (Ok None)
      | Some object_data =>
          let owner_address := get_owner_address (object_core (oad_object object_data)) in
          let asset_type := get_reference_address (fas_metadata inner) in
          primary ← is_primary owner_address asset_type storage_id;
          Ret (Ok (Some
            ({| fab_transaction_version := txn_version;
                fab_write_set_change_index := write_set_change_index;
                fab_storage_id := storage_id;
                fab_owner_address := owner_address;
                fab_asset_type := asset_type;
                fab_is_primary := primary;
                fab_is_frozen := fas_frozen inner;
                fab_amount := fas_balance inner;
                fab_transaction_timestamp := txn_timestamp;
                fab_token_standard := standard_to_string StandardV2 |},
             {| cfab_storage_id := storage_id;
                cfab_owner_address := owner_address;
                cfab_asset_type := asset_type;
                cfab_is_primary := primary;
                cfab_is_frozen := fas_frozen inner;
                cfab_amount := fas_balance inner;
                cfab_last_transaction_version := txn_version;
                cfab_last_transaction_timestamp := txn_timestamp;
                cfab_token_standard := standard_to_string StandardV2 |})))
      end
  end.

Definition balance_v1_from_write_resource (write_resource : WriteResource)
    (write_set_change_index txn_version : Z) (txn_timestamp : NaiveDateTime)
  : outcome (result (option (FungibleAssetBalance * CurrentFungibleAssetBalance * GuidToCoinType))) :=
  r <-? coin_from_write_resource write_resource txn_version;
  match r with
  | Some (ResCoinStore inner) =>
      tag ← unwrap (wr_type write_resource);
      param ← unwrap (head (st_generic_type_params tag));
      coin_info_type ← from_move_type param (wr_type_str write_resource) txn_version;
      match get_coin_type_below_max coin_info_type with
      | None => Ret (Ok None)
      | Some coin_type =>
          let owner_address := standardize_address (wr_address write_resource) in
          let storage_id := get_storage_id coin_type owner_address in
          let coin_balance :=
            {| fab_transaction_version := txn_version;
               fab_write_set_change_index := write_set_change_index;
               fab_storage_id := storage_id;
               fab_owner_address := owner_address;
               fab_asset_type := coin_type;
               fab_is_primary := true;
               fab_is_frozen := csr_frozen inner;
               fab_amount := coin_value (csr_coin inner);
               fab_transaction_timestamp := txn_timestamp;
               fab_token_standard := standard_to_string StandardV1 |} in
          let current_coin_balance :=
            {| cfab_storage_id := storage_id;
               cfab_owner_address := owner_address;
               cfab_asset_type := coin_type;
               cfab_is_primary := true;
               cfab_is_frozen := csr_frozen inner;
               cfab_amount := coin_value (csr_coin inner);
               cfab_last_transaction_version := txn_version;
               cfab_last_transaction_timestamp := txn_timestamp;
               cfab_token_standard := standard_to_string StandardV1 |} in
          let event_to_coin_mapping : GuidToCoinType :=
            <[get_standardized (guid_id (deposit_guid (csr_deposit_events inner))) := coin_type]>
              {[get_standardized (guid_id (withdraw_guid (csr_withdraw_events inner))) := coin_type]} in
          Ret (Ok (Some (coin_balance, current_coin_balance, event_to_coin_mapping)))
      end
  | _ => Ret (Ok None)
  end.

(** ** Metadata: [v2_fungible_metadata.rs] *)

Definition metadata_v2_from_write_resource (write_resource : WriteResource) (txn_version : Z)
    (txn_timestamp : NaiveDateTime) (object_metadatas : ObjectMapping)
  : outcome (result (option FungibleAssetMetadataModel)) :=
  metadata <-? metadata_from_write_resource write_resource txn_version;
  match metadata with
  | None => Ret (Ok None)
  | Some inner =>
      let asset_type := standardize_address (wr_address write_resource) in
      match object_metadatas !! asset_type with
      | None => Ret (Ok None)
      | Some object_metadata =>
          let '(maximum_v2, supply_v2) :=
            match oad_fungible_asset_supply object_metadata with
            | Some supply => (get_maximum supply, Some (sup_current supply))
            | None => (None, None)
            end in
          name ← fam_get_name inner;
          symbol ← fam_get_symbol inner;
          icon_uri ← fam_get_icon_uri inner;
          project_uri ← fam_get_project_uri inner;
          Ret (Ok (Some
            {| fmm_asset_type := asset_type;
               fmm_creator_address := get_owner_address (object_core (oad_object object_metadata));
               fmm_name := name;
               fmm_symbol := symbol;
               fmm_decimals := fam_decimals inner;
               fmm_icon_uri := Some icon_uri;
               fmm_project_uri := Some project_uri;
               fmm_last_transaction_version := txn_version;
               fmm_last_transaction_timestamp := txn_timestamp;
               fmm_supply_aggregator_table_handle_v1 := None;
               fmm_supply_aggregator_table_key_v1 := None;
               fmm_token_standard := standard_to_string StandardV2;
               fmm_is_token_v2 := None;
               fmm_supply_v2 := supply_v2;
               fmm_maximum_v2 := maximum_v2 |}))
      end
  end.

Definition metadata_v1_from_write_resource (write_resource : WriteResource) (txn_version : Z)
    (txn_timestamp : NaiveDateTime) : outcome (result (option FungibleAssetMetadataModel)) :=
  r <-? coin_from_write_resource write_resource txn_version;
  match r with
  | Some (ResCoinInfo inner) =>
      tag ← unwrap (wr_type write_resource);
      param ← unwrap (head (st_generic_type_params tag));
      coin_info_type ← from_move_type param (wr_type_str write_resource) txn_version;
      let '(handle, key) := match get_aggregator_metadata inner with
                            | Some agg => (Some (agg_handle agg), Some (agg_key agg))
                            | None => (None, None)
                            end in
      match get_coin_type_below_max coin_info_type with
      | None => Ret (Ok None)
      | Some asset_type =>
          name ← cir_name_trunc inner;
          symbol ← cir_symbol_trunc inner;
          Ret (Ok (Some
            {| fmm_asset_type := asset_type;
               fmm_creator_address := cit_get_creator_address coin_info_type;
               fmm_name := name;
               fmm_symbol := symbol;
               fmm_decimals := cir_decimals inner;
               fmm_icon_uri := None;
               fmm_project_uri := None;
               fmm_last_transaction_version := txn_version;
               fmm_last_transaction_timestamp := txn_timestamp;
               fmm_supply_aggregator_table_handle_v1 := handle;
               fmm_supply_aggregator_table_key_v1 := key;
               fmm_token_standard := standard_to_string StandardV1;
               fmm_is_token_v2 := None;
               fmm_supply_v2 := None;
               fmm_maximum_v2 := None |}))
      end
  | _ => Ret (Ok None)
  end.

(** ** The processor: [fungible_asset_processor.rs] *)

Record FaState := {
  fungible_asset_activities : list FungibleAssetActivity;
  fungible_asset_balances : list FungibleAssetBalance;
  current_fungible_asset_balances : gmap string CurrentFungibleAssetBalance;
  fungible_asset_metadata : gmap string FungibleAssetMetadataModel;
  fungible_asset_object_helper : ObjectMapping;
}.
Definition fa_init : FaState :=
  {| fungible_asset_activities := []; fungible_asset_balances := [];
     current_fungible_asset_balances := ∅; fungible_asset_metadata := ∅;
     fungible_asset_object_helper := ∅ |}.
Definition fa_set_helper (st : FaState) (helper : ObjectMapping) : FaState :=
  {| fungible_asset_activities := fungible_asset_activities st;
     fungible_asset_balances := fungible_asset_balances st;
     current_fungible_asset_balances := current_fungible_asset_balances st;
     fungible_asset_metadata := fungible_asset_metadata st;
     fungible_asset_object_helper := helper |}.
Definition push_fa_activity (st : FaState) (a : option FungibleAssetActivity) : FaState :=
  {| fungible_asset_activities := fungible_asset_activities st ++ option_list a;
     fungible_asset_balances := fungible_asset_balances st;
     current_fungible_asset_balances := current_fungible_asset_balances st;
     fungible_asset_metadata := fungible_asset_metadata st;
     fungible_asset_object_helper := fungible_asset_object_helper st |}.
Definition push_fa_balance (st : FaState) (b : option (FungibleAssetBalance * CurrentFungibleAssetBalance))
  : FaState :=
  match b with
  | Some (balance, current_balance) =>
      {| fungible_asset_activities := fungible_asset_activities st;
         fungible_asset_balances := fungible_asset_balances st ++ [balance];
         current_fungible_asset_balances :=
           <[cfab_storage_id current_balance := current_balance]> (current_fungible_asset_balances st);
         fungible_asset_metadata := fungible_asset_metadata st;
         fungible_asset_object_helper := fungible_asset_object_helper st |}
  | None => st
  end.
Definition push_fa_metadata (st : FaState) (m : option FungibleAssetMetadataModel) : FaState :=
  match m with
  | Some fa_metadata =>
      {| fungible_asset_activities := fungible_asset_activities st;
         fungible_asset_balances := fungible_asset_balances st;
         current_fungible_asset_balances := current_fungible_asset_balances st;
         fungible_asset_metadata := <[fmm_asset_type fa_metadata := fa_metadata]> (fungible_asset_metadata st);
         fungible_asset_object_helper := fungible_asset_object_helper st |}
  | None => st
  end.

(** [helper.get_mut(address)] filled from one resource. *)
Definition fill_fa_object (txn_version : Z) (write_resource : WriteResource) (helper : ObjectMapping)
  : outcome ObjectMapping :=
  let address := standardize_address (wr_address write_resource) in
  match helper !! address with
  | None => Ret helper
  | Some d =>
      m ← metadata_from_write_resource write_resource txn_version; m ← unwrap_result m;
      s ← store_from_write_resource write_resource txn_version; s ← unwrap_result s;
      p ← supply_from_write_resource write_resource txn_version; p ← unwrap_result p;
      Ret (<[address :=
        {| oad_object := oad_object d; oad_transfer_events := oad_transfer_events d;
           oad_fungible_asset_metadata := from_option Some (oad_fungible_asset_metadata d) m;
           oad_fungible_asset_supply := from_option Some (oad_fungible_asset_supply d) p;
           oad_fungible_asset_store := from_option Some (oad_fungible_asset_store d) s;
           oad_aptos_collection := oad_aptos_collection d; oad_fixed_supply := oad_fixed_supply d;
           oad_property_map := oad_property_map d; oad_token := oad_token d;
           oad_unlimited_supply := oad_unlimited_supply d;
           oad_concurrent_supply := oad_concurrent_supply d;
           oad_token_identifier := oad_token_identifier d |}]> helper)
  end.

(** Second loop over the changes: v1 balances, and the v2 data of objects. *)
Definition fa_change_step (txn_version : Z) (txn_timestamp : NaiveDateTime)
    (acc : FaState * GuidToCoinType) (iwsc : Z * WriteSetChangePB) : outcome (FaState * GuidToCoinType) :=
  let '(st, event_to_v1_coin_type) := acc in
  let '(index, wsc) := iwsc in
  change ← unwrap (wsc_change wsc);
  match change with
  | ChangeWriteResource write_resource =>
      b ← balance_v1_from_write_resource write_resource index txn_version txn_timestamp;
      b ← unwrap_result b;
      helper ← fill_fa_object txn_version write_resource (fungible_asset_object_helper st);
      Ret (match b with
           | Some (balance, current_balance, event_to_coin) =>
               (fa_set_helper (push_fa_balance st (Some (balance, current_balance))) helper,
                extend event_to_v1_coin_type event_to_coin)
           | None => (fa_set_helper st helper, event_to_v1_coin_type)
           end)
  | _ => Ret acc
  end.

(** [events.iter().find_map(FeeStatement::from_event)]. *)
Fixpoint find_fee_statement (txn_version : Z) (events : list EventPB) : outcome (option FeeStatement) :=
  match events with
  | [] => Ret None
  | event :: events =>
      f ← fee_statement_from_event (ev_type_str event) (ev_data event) txn_version;
      match f with
      | Some fee_statement => Ret (Some fee_statement)
      | None => find_fee_statement txn_version events
      end
  end.

(** The loop over the events. *)
Definition fa_event_step (txn_version block_height : Z) (txn_timestamp : NaiveDateTime)
    (entry_function_id_str : option string) (event_to_v1_coin_type : GuidToCoinType)
    (st : FaState) (iev : Z * EventPB) : outcome FaState :=
  let '(index, event) := iev in
  v1_activity ← unwrap_result (activity_v1_from_event event txn_version block_height txn_timestamp
                  entry_function_id_str event_to_v1_coin_type index);
  v2_activity ← activity_v2_from_event event txn_version block_height txn_timestamp index
                  entry_function_id_str (fungible_asset_object_helper st);
  v2_activity ← unwrap_result v2_activity;
  Ret (push_fa_activity (push_fa_activity st v1_activity) v2_activity).

(** The last loop over the changes: metadata and v2 balances. *)
Definition fa_resource_step (txn_version : Z) (txn_timestamp : NaiveDateTime)
    (st : FaState) (iwsc : Z * WriteSetChangePB) : outcome FaState :=
  let '(index, wsc) := iwsc in
  change ← unwrap (wsc_change wsc);
  match change with
  | ChangeWriteResource write_resource =>
      m1 ← metadata_v1_from_write_resource write_resource txn_version txn_timestamp;
      m1 ← unwrap_result m1;
      m2 ← metadata_v2_from_write_resource write_resource txn_version txn_timestamp
             (fungible_asset_object_helper st);
      m2 ← unwrap_result m2;
      b ← balance_v2_from_write_resource write_resource index txn_version txn_timestamp
            (fungible_asset_object_helper st);
      b ← unwrap_result b;
      Ret (push_fa_balance (push_fa_metadata (push_fa_metadata st m1) m2) b)
  | _ => Ret st
  end.

(** The events, the request and the entry function of a transaction. *)
Definition fa_txn_parts (txn_data : TxnData)
  : outcome (list EventPB * option UserTransactionRequest * option string) :=
  match txn_data with
  | TdBlockMetadata tx_inner => Ret (bm_events tx_inner, None, None)
  | TdGenesis tx_inner => Ret (gt_events tx_inner, None, None)
  | TdUser tx_inner =>
      user_request ← unwrap (ut_request tx_inner);
      entry ← get_entry_function_from_user_request user_request;
      Ret (ut_events tx_inner, Some user_request, entry)
  | _ => Ret ([], None, None)
  end.

(** One round of the loop of [parse_v2_coin]. *)
Definition fa_step (st : FaState) (txn : Transaction) : outcome FaState :=
  let txn_version := as_i64 (t_version txn) in
  let block_height := as_i64 (t_block_height txn) in
  match t_txn_data txn with
  | None => Ret st
  | Some txn_data =>
      transaction_info ← unwrap (t_info txn);
      ts ← unwrap (t_timestamp txn);
      txn_timestamp ← unwrap (from_timestamp_opt (seconds ts) 0);
      '(events, user_request, entry_function_id_str) ← fa_txn_parts txn_data;
      let changes := ti_changes transaction_info in
      helper ← foldM (collect_object_core txn_version) (fungible_asset_object_helper st) changes;
      '(st, event_to_v1_coin_type) ←
        foldM (fa_change_step txn_version txn_timestamp) (fa_set_helper st helper, ∅) (enumerate changes);
      gas ← match user_request with
            | Some req =>
                fee_statement ← find_fee_statement txn_version events;
                gas_event ← gas_activity transaction_info req entry_function_id_str txn_version
                              txn_timestamp block_height fee_statement;
                Ret (Some gas_event)
            | None => Ret None
            end;
      st ← foldM (fa_event_step txn_version block_height txn_timestamp entry_function_id_str
                    event_to_v1_coin_type) (push_fa_activity st gas) (enumerate events);
      foldM (fa_resource_step txn_version txn_timestamp) st (enumerate changes)
  end.

Record FaRows := {
  rows_fa_activities : list FungibleAssetActivity;
  rows_fa_metadata : list FungibleAssetMetadataModel;
  rows_fa_balances : list FungibleAssetBalance;
  rows_current_fa_balances : list CurrentFungibleAssetBalance;
}.
Definition parse_v2_coin `{HashOrder} (transactions : list Transaction) : outcome FaRows :=
  st ← foldM fa_step fa_init transactions;
  Ret {| rows_fa_activities := fungible_asset_activities st;
         rows_fa_metadata := sort_by fmm_asset_type (into_values (fungible_asset_metadata st));
         rows_fa_balances := fungible_asset_balances st;
         rows_current_fa_balances :=
           sort_by cfab_storage_id (into_values (current_fungible_asset_balances st)) |}.

(** *** Queries

    The column [inserted_at] is filled by the server. *)
Definition insert_fungible_asset_activities_query : Upsert FungibleAssetActivity (Z * Z) :=
  {| up_key := fun a => (faa_transaction_version a, faa_event_index a);
     up_action := DoNothing; up_where := None |}.
Definition set_fa_metadata (old new : FungibleAssetMetadataModel) : FungibleAssetMetadataModel :=
  {| fmm_asset_type := fmm_asset_type old;
     fmm_creator_address := fmm_creator_address new;
     fmm_name := fmm_name new;
     fmm_symbol := fmm_symbol new;
     fmm_decimals := fmm_decimals new;
     fmm_icon_uri := fmm_icon_uri new;
     fmm_project_uri := fmm_project_uri new;
     fmm_last_transaction_version := fmm_last_transaction_version new;
     fmm_last_transaction_timestamp := fmm_last_transaction_timestamp new;
     fmm_supply_aggregator_table_handle_v1 := fmm_supply_aggregator_table_handle_v1 new;
     fmm_supply_aggregator_table_key_v1 := fmm_supply_aggregator_table_key_v1 new;
     fmm_token_standard := fmm_token_standard new;
     fmm_is_token_v2 := fmm_is_token_v2 new;
     fmm_supply_v2 := fmm_supply_v2 new;
     fmm_maximum_v2 := fmm_maximum_v2 new |}.
Definition insert_fungible_asset_metadata_query : Upsert FungibleAssetMetadataModel string :=
  {| up_key := fmm_asset_type;
     up_action := DoUpdate set_fa_metadata;
     up_where := Some (fun old new =>
       bool_decide (fmm_last_transaction_version old <= fmm_last_transaction_version new)%Z) |}.
Definition insert_fungible_asset_balances_query : Upsert FungibleAssetBalance (Z * Z) :=
  {| up_key := fun b => (fab_transaction_version b, fab_write_set_change_index b);
     up_action := DoNothing; up_where := None |}.
Definition set_current_fa_balance (old new : CurrentFungibleAssetBalance) : CurrentFungibleAssetBalance :=
  {| cfab_storage_id := cfab_storage_id old;
     cfab_owner_address := cfab_owner_address new;
     cfab_asset_type := cfab_asset_type new;
     cfab_is_primary := cfab_is_primary new;
     cfab_is_frozen := cfab_is_frozen new;
     cfab_amount := cfab_amount new;
     cfab_last_transaction_version := cfab_last_transaction_version new;
     cfab_last_transaction_timestamp := cfab_last_transaction_timestamp new;
     cfab_token_standard := cfab_token_standard new |}.
Definition insert_current_fungible_asset_balances_query : Upsert CurrentFungibleAssetBalance string :=
  {| up_key := cfab_storage_id;
     up_action := DoUpdate set_current_fa_balance;
     up_where := Some (fun old new =>
       bool_decide (cfab_last_transaction_version old <= cfab_last_transaction_version new)%Z) |}.

#[export] Instance fa_metadata_lww : Lww insert_fungible_asset_metadata_query.
Proof.
  refine {| lww_rank := fmm_last_transaction_version; lww_static_type := unit;
            lww_static := fun _ => tt; lww_set := set_fa_metadata |}; try done.
  intros [] [] Hk _. simpl in Hk. by subst.
Defined.
#[export] Instance current_fa_balances_lww : Lww insert_current_fungible_asset_balances_query.
Proof.
  refine {| lww_rank := cfab_last_transaction_version; lww_static_type := unit;
            lww_static := fun _ => tt; lww_set := set_current_fa_balance |}; try done.
  intros [] [] Hk _. simpl in Hk. by subst.
Defined.

Context `{!Table FungibleAssetActivity (Z * Z), !Table FungibleAssetMetadataModel string,
          !Table FungibleAssetBalance (Z * Z), !Table CurrentFungibleAssetBalance string}.

Record FaDb := {
  db_fa_activities : table_state FungibleAssetActivity (Z * Z);
  db_fa_metadata : table_state FungibleAssetMetadataModel string;
  db_fa_balances : table_state FungibleAssetBalance (Z * Z);
  db_current_fa_balances : table_state CurrentFungibleAssetBalance string;
}.
Definition insert_fungible_assets (sizes : gmap string nat) (rows : FaRows) (d d' : FaDb)
    (res : outcome (result unit)) : Prop :=
  exists faa_res fam_res fab_res cfab_res,
    write_table insert_fungible_asset_activities_query "fungible_asset_activities" sizes
      (rows_fa_activities rows) (db_fa_activities d) (db_fa_activities d') faa_res /\
    write_table insert_fungible_asset_metadata_query "fungible_asset_metadata" sizes
      (rows_fa_metadata rows) (db_fa_metadata d) (db_fa_metadata d') fam_res /\
    write_table insert_fungible_asset_balances_query "fungible_asset_balances" sizes
      (rows_fa_balances rows) (db_fa_balances d) (db_fa_balances d') fab_res /\
    write_table insert_current_fungible_asset_balances_query "current_fungible_asset_balances" sizes
      (rows_current_fa_balances rows) (db_current_fa_balances d) (db_current_fa_balances d') cfab_res /\
    res = join_results [faa_res; fam_res; fab_res; cfab_res].

(** [FungibleAssetProcessor::process_transactions]. *)
Definition process_fungible_assets `{HashOrder} (sizes : gmap string nat)
  : list Transaction -> Z -> Z -> option Z -> FaDb -> FaDb -> outcome (result ProcessingResult) -> Prop :=
  process_batch parse_v2_coin (insert_fungible_assets sizes).

#[export] Instance fungible_asset_processor `{HashOrder} (sizes : gmap string nat) : ProcessorTrait FaDb :=
  {| processor_name := "fungible_asset_processor"; process_transactions := process_fungible_assets sizes |}.
#[export] Instance fungible_asset_processor_laws `{HashOrder} sizes :
  @ProcessorLaws _ (fungible_asset_processor sizes).
Proof. intros txns s e chain d d' r Hr. by apply (process_batch_ok _ _ _ _ _ chain) in Hr as [? _]. Qed.

(** ** What a batch logs

    The loops append activities and balances, and enter the current balance
    that goes with a balance, and metadata, into maps.  [fa_log st rows st']
    says that [st'] is [st] with the rows written. *)

Inductive FaRow :=
| FaActivity (a : FungibleAssetActivity)
| FaBalance (b : FungibleAssetBalance)
| FaMetadata (m : FungibleAssetMetadataModel).
Definition log_activity (r : FaRow) := match r with FaActivity a => Some a | _ => None end.
Definition log_balance (r : FaRow) := match r with FaBalance b => Some b | _ => None end.
Definition log_metadata (r : FaRow) := match r with FaMetadata m => Some m | _ => None end.

(** The current row that goes with a balance row. *)
Definition current_of_fa_balance (b : FungibleAssetBalance) : CurrentFungibleAssetBalance :=
  {| cfab_storage_id := fab_storage_id b;
     cfab_owner_address := fab_owner_address b;
     cfab_asset_type := fab_asset_type b;
     cfab_is_primary := fab_is_primary b;
     cfab_is_frozen := fab_is_frozen b;
     cfab_amount := fab_amount b;
     cfab_last_transaction_version := fab_transaction_version b;
     cfab_last_transaction_timestamp := fab_transaction_timestamp b;
     cfab_token_standard := fab_token_standard b |}.

Definition fa_log (st : FaState) (rows : list FaRow) (st' : FaState) : Prop :=
  fungible_asset_activities st' = fungible_asset_activities st ++ omap log_activity rows /\
  fungible_asset_balances st' = fungible_asset_balances st ++ omap log_balance rows /\
  current_fungible_asset_balances st' =
    inserts cfab_storage_id (current_fungible_asset_balances st)
      (current_of_fa_balance <$> omap log_balance rows) /\
  fungible_asset_metadata st' =
    inserts fmm_asset_type (fungible_asset_metadata st) (omap log_metadata rows).

Lemma fa_log_refl st : fa_log st [] st.
Proof. unfold fa_log. simpl. by rewrite !app_nil_r. Qed.

Lemma fa_log_trans st1 l1 st2 l2 st3 :
  fa_log st1 l1 st2 -> fa_log st2 l2 st3 -> fa_log st1 (l1 ++ l2) st3.
Proof.
  intros (Ha1 & Hb1 & Hc1 & Hm1) (Ha2 & Hb2 & Hc2 & Hm2). unfold fa_log.
  rewrite !omap_app, fmap_app, !inserts_app, Ha2, Hb2, Hc2, Hm2, Ha1, Hb1, Hc1, Hm1.
  by rewrite !app_assoc.
Qed.

Lemma fa_log_helper st h : fa_log st [] (fa_set_helper st h).
Proof. unfold fa_log. simpl. by rewrite !app_nil_r. Qed.
Lemma fa_log_activity st a : fa_log st (FaActivity <$> option_list a) (push_fa_activity st a).
Proof. destruct a; unfold fa_log; simpl; by rewrite !app_nil_r. Qed.
Lemma fa_log_metadata st m : fa_log st (FaMetadata <$> option_list m) (push_fa_metadata st m).
Proof. destruct m; unfold fa_log; simpl; by rewrite !app_nil_r. Qed.
Lemma fa_log_balance st b :
  (forall x c, b = Some (x, c) -> c = current_of_fa_balance x) ->
  fa_log st (FaBalance <$> option_list (fst <$> b)) (push_fa_balance st b).
Proof.
  intros Hb. destruct b as [[x c]|]; unfold fa_log; simpl; rewrite !app_nil_r; [|done].
  rewrite (Hb x c) by done. done.
Qed.

(** *** The rows of the model functions *)

Lemma balance_v1_row wr i v ts b c m :
  balance_v1_from_write_resource wr i v ts = Ret (Ok (Some (b, c, m))) ->
  c = current_of_fa_balance b /\ fab_transaction_version b = v /\ fab_write_set_change_index b = i.
Proof.
  unfold balance_v1_from_write_resource. intros Hb. apply try_bind_Ok in Hb as (r & _ & Hb).
  destruct r as [[|inner]|]; try done. outcome_inv. case_match; by outcome_inv.
Qed.

Lemma balance_v2_row wr i v ts helper b c :
  balance_v2_from_write_resource wr i v ts helper = Ret (Ok (Some (b, c))) ->
  c = current_of_fa_balance b /\ fab_transaction_version b = v /\ fab_write_set_change_index b = i.
Proof.
  unfold balance_v2_from_write_resource. intros Hb. apply try_bind_Ok in Hb as (r & _ & Hb).
  destruct r as [inner|]; [|done]. destruct (helper !! _); [|done]. by outcome_inv.
Qed.

Lemma metadata_v1_row wr v ts m :
  metadata_v1_from_write_resource wr v ts = Ret (Ok (Some m)) -> fmm_last_transaction_version m = v.
Proof.
  unfold metadata_v1_from_write_resource. intros Hm. apply try_bind_Ok in Hm as (r & _ & Hm).
  destruct r as [[inner|]|]; try done. outcome_inv. case_match; by outcome_inv.
Qed.

Lemma metadata_v2_row wr v ts helper m :
  metadata_v2_from_write_resource wr v ts helper = Ret (Ok (Some m)) -> fmm_last_transaction_version m = v.
Proof.
  unfold metadata_v2_from_write_resource. intros Hm. apply try_bind_Ok in Hm as (r & _ & Hm).
  destruct r as [inner|]; [|done]. destruct (helper !! _) as [d|]; [|done].
  destruct (oad_fungible_asset_supply d); by outcome_inv.
Qed.

(** A resource is a coin store or a fungible store, not both: the types
    differ in their module. *)
Lemma outer_type_coin wr v r :
  coin_from_write_resource wr v = Ret (Ok (Some r)) ->
  exists ty, get_outer_type_from_resource wr = Ret ty /\ is_coin_resource_supported ty = true.
Proof.
  unfold coin_from_write_resource. intros Hr. apply bind_Ret in Hr as (ty & Hty & Hr).
  exists ty. split; [done|]. by destruct (is_coin_resource_supported ty).
Qed.

Lemma outer_type_fungible {A} (pick : V2FungibleAssetResource -> option A) wr v r :
  fungible_of_kind pick wr v = Ret (Ok (Some r)) ->
  exists ty, get_outer_type_from_resource wr = Ret ty /\ is_fungible_resource_supported ty = true.
Proof.
  unfold fungible_of_kind. intros Hr. apply bind_Ret in Hr as (ty & Hty & Hr).
  exists ty. split; [done|]. by destruct (is_fungible_resource_supported ty).
Qed.

Lemma coin_not_fungible ty :
  is_coin_resource_supported ty = true -> is_fungible_resource_supported ty = false.
Proof.
  unfold is_coin_resource_supported, is_fungible_resource_supported, COIN_RESOURCES.
  rewrite bool_decide_eq_true, bool_decide_eq_false, !elem_of_cons, elem_of_nil.
  intros [->|[->|[]]]; vm_compute; intuition discriminate.
Qed.

Lemma balance_versions_exclusive wr i v ts helper b c m r :
  balance_v1_from_write_resource wr i v ts = Ret (Ok (Some (b, c, m))) ->
  balance_v2_from_write_resource wr i v ts helper = Ret (Ok r) -> r = None.
Proof.
  unfold balance_v1_from_write_resource, balance_v2_from_write_resource. intros Hv1 Hv2.
  apply try_bind_Ok in Hv1 as (r1 & Hv1 & Hb). destruct r1 as [r1|]; [|done].
  apply outer_type_coin in Hv1 as (ty & Hty & Hc). apply try_bind_Ok in Hv2 as (r2 & Hv2 & Hb2).
  destruct r2 as [r2|]; [|by simplify_eq/=]. apply outer_type_fungible in Hv2 as (ty' & Hty' & Hf).
  assert (ty = ty') as <- by congruence. by rewrite (coin_not_fungible ty Hc) in Hf.
Qed.

(** An event is a coin event or a fungible asset event, not both. *)
Lemma event_kinds_exclusive ty data v p q :
  coin_event ty data v = Ok (Some p) -> fungible_event ty data v = Ok q -> q = None.
Proof.
  unfold coin_event, fungible_event. intros Hp Hq.
  destruct (decide (ty = "0x1::coin::WithdrawEvent")) as [->|]; [by simplify_eq/=|].
  destruct (decide (ty = "0x1::coin::DepositEvent")) as [->|]; [by simplify_eq/=|done].
Qed.

(** *** The loops *)

(** Second loop over the changes: at most one v1 balance for a change. *)
Definition v1_change_log (v : Z) (ts : NaiveDateTime) (iwsc : Z * WriteSetChangePB) (rows : list FaRow) : Prop :=
  exists b, rows = FaBalance <$> option_list b /\
    forall x, b = Some x -> exists wr c m, wsc_change iwsc.2 = Some (ChangeWriteResource wr) /\
      balance_v1_from_write_resource wr iwsc.1 v ts = Ret (Ok (Some (x, c, m))).

Lemma fa_changes_log v ts acc iwscs acc' :
  foldM (fa_change_step v ts) acc iwscs = Ret acc' ->
  exists logs, Forall2 (v1_change_log v ts) iwscs logs /\ fa_log acc.1 (concat logs) acc'.1.
Proof.
  intros Hf. eapply (foldM_log (fun _ => True) (fun a rows b => fa_log a.1 rows b.1)) in Hf as [_ Hf];
    [exact Hf|intros; apply fa_log_refl|by intros; eapply fa_log_trans| |done].
  clear. intros [st m] [i wsc] [st' m'] _ _ Hs. split; [done|]. unfold fa_change_step in Hs.
  apply bind_Ret in Hs as (ch & Hch%unwrap_Ret & Hs).
  destruct ch as [| | | |wr|];
    try (injection Hs as <- <-; exists []; split; [apply fa_log_refl|by exists None]).
  apply bind_Ret in Hs as (r & Hr & Hs). apply bind_Ret in Hs as (b & Hb%unwrap_result_Ret & Hs).
  apply bind_Ret in Hs as (helper & _ & Hs). subst r.
  destruct b as [[[b c] e]|]; injection Hs as <- <-; simpl.
  - exists [FaBalance b]. split.
    + change [FaBalance b] with ([FaBalance b] ++ []). eapply fa_log_trans; [|apply fa_log_helper].
      apply (fa_log_balance st (Some (b, c))). intros x y [= <- <-]. by apply balance_v1_row in Hr as [-> _].
    + exists (Some b). split; [done|]. intros x [= <-]. eauto.
  - exists []. split; [apply fa_log_helper|by exists None].
Qed.

(** The events: at most one activity for an event. *)
Definition event_log (v h : Z) (ts : NaiveDateTime) (fn : option string) (m : GuidToCoinType)
    (helper : ObjectMapping) (iev : Z * EventPB) (rows : list FaRow) : Prop :=
  exists a1 a2, activity_v1_from_event iev.2 v h ts fn m iev.1 = Ok a1 /\
    activity_v2_from_event iev.2 v h ts iev.1 fn helper = Ret (Ok a2) /\
    rows = (FaActivity <$> option_list a1) ++ (FaActivity <$> option_list a2).

Lemma fa_events_log v h ts fn m st ievs st' :
  foldM (fa_event_step v h ts fn m) st ievs = Ret st' ->
  fungible_asset_object_helper st' = fungible_asset_object_helper st /\
  exists logs, Forall2 (event_log v h ts fn m (fungible_asset_object_helper st)) ievs logs /\
    fa_log st (concat logs) st'.
Proof.
  intros Hf.
  eapply (foldM_log (fun s => fungible_asset_object_helper s = fungible_asset_object_helper st) fa_log) in Hf;
    [exact Hf|apply fa_log_refl|apply fa_log_trans| |done].
  clear. intros s [i ev] s' _ Hh Hs. unfold fa_event_step in Hs.
  apply bind_Ret in Hs as (a1 & Ha1%unwrap_result_Ret & Hs). apply bind_Ret in Hs as (r & Hr & Hs).
  apply bind_Ret in Hs as (a2 & Ha2%unwrap_result_Ret & Hs). injection Hs as <-. subst r.
  split; [done|]. eexists. split; [eapply fa_log_trans; apply fa_log_activity|].
  exists a1, a2. simpl. by rewrite <- Hh.
Qed.

(** The last loop over the changes: metadata, and at most one v2 balance. *)
Definition v2_change_log (v : Z) (ts : NaiveDateTime) (helper : ObjectMapping)
    (iwsc : Z * WriteSetChangePB) (rows : list FaRow) : Prop :=
  exists ms b, rows = (FaMetadata <$> ms) ++ (FaBalance <$> option_list b) /\
    Forall (fun m => fmm_last_transaction_version m = v) ms /\
    forall x, b = Some x -> exists wr c, wsc_change iwsc.2 = Some (ChangeWriteResource wr) /\
      balance_v2_from_write_resource wr iwsc.1 v ts helper = Ret (Ok (Some (x, c))).

Lemma fa_resources_log v ts st iwscs st' :
  foldM (fa_resource_step v ts) st iwscs = Ret st' ->
  exists logs, Forall2 (v2_change_log v ts (fungible_asset_object_helper st)) iwscs logs /\
    fa_log st (concat logs) st'.
Proof.
  intros Hf.
  eapply (foldM_log (fun s => fungible_asset_object_helper s = fungible_asset_object_helper st) fa_log)
    in Hf as [_ Hf]; [exact Hf|apply fa_log_refl|apply fa_log_trans| |done].
  clear. intros s [i wsc] s' _ Hh Hs. unfold fa_resource_step in Hs.
  apply bind_Ret in Hs as (ch & Hch%unwrap_Ret & Hs).
  destruct ch as [| | | |wr|];
    try (injection Hs as <-; split; [done|]; exists []; split; [apply fa_log_refl|by exists [], None]).
  apply bind_Ret in Hs as (r1 & Hr1 & Hs). apply bind_Ret in Hs as (m1 & Hm1%unwrap_result_Ret & Hs).
  apply bind_Ret in Hs as (r2 & Hr2 & Hs). apply bind_Ret in Hs as (m2 & Hm2%unwrap_result_Ret & Hs).
  apply bind_Ret in Hs as (r3 & Hr3 & Hs). apply bind_Ret in Hs as (b & Hb%unwrap_result_Ret & Hs).
  injection Hs as <-. subst r1 r2 r3. split; [by destruct m1, m2, b as [[]|]|].
  exists ((FaMetadata <$> (option_list m1 ++ option_list m2)) ++ (FaBalance <$> option_list (fst <$> b))). split.
  - rewrite fmap_app. eapply fa_log_trans; [eapply fa_log_trans; apply fa_log_metadata|].
    apply fa_log_balance. intros x c ->. by apply balance_v2_row in Hr3 as [-> _].
  - exists (option_list m1 ++ option_list m2), (fst <$> b). split_and!; [done| |].
    + apply Forall_app. split; [destruct m1|destruct m2]; constructor; try constructor.
      * by eapply metadata_v1_row.
      * by eapply metadata_v2_row.
    + intros x. rewrite fmap_Some. intros ([y c] & -> & ->). rewrite <- Hh. eauto.
Qed.

(** *** A transaction *)

Definition fa_txn_log (t : Transaction) (rows : list FaRow) : Prop :=
  let v := as_i64 (t_version t) in
  let h := as_i64 (t_block_height t) in
  match t_txn_data t with
  | None => rows = []
  | Some d => exists info ts nts events req fn st0 st1 m logs1 gas logs2 logs3,
      t_info t = Some info /\ t_timestamp t = Some ts /\ from_timestamp_opt (seconds ts) 0 = Some nts /\
      fa_txn_parts d = Ret (events, req, fn) /\
      foldM (fa_change_step v nts) (st0, ∅) (enumerate (ti_changes info)) = Ret (st1, m) /\
      fa_log st0 (concat logs1) st1 /\
      rows = concat logs1 ++ (FaActivity <$> option_list gas) ++ concat logs2 ++ concat logs3 /\
      Forall2 (v1_change_log v nts) (enumerate (ti_changes info)) logs1 /\
      match req with
      | Some req => exists fee a, find_fee_statement v events = Ret fee /\
          gas_activity info req fn v nts h fee = Ret a /\ gas = Some a
      | None => gas = None
      end /\
      Forall2 (event_log v h nts fn m (fungible_asset_object_helper st1)) (enumerate events) logs2 /\
      Forall2 (v2_change_log v nts (fungible_asset_object_helper st1)) (enumerate (ti_changes info)) logs3
  end.

Lemma fa_step_log st t st' :
  fa_step st t = Ret st' -> exists rows, fa_log st rows st' /\ fa_txn_log t rows.
Proof.
  unfold fa_step, fa_txn_log. destruct (t_txn_data t) as [d|].
  2:{ intros [= <-]. exists []. split; [apply fa_log_refl|done]. }
  intros Hs. apply bind_Ret in Hs as (info & Hinfo%unwrap_Ret & Hs).
  apply bind_Ret in Hs as (ts & Hts%unwrap_Ret & Hs). apply bind_Ret in Hs as (nts & Hnts%unwrap_Ret & Hs).
  apply bind_Ret in Hs as ([[events req] fn] & Hparts & Hs). apply bind_Ret in Hs as (helper & _ & Hs).
  apply bind_Ret in Hs as ([st1 m] & Hch & Hs). apply bind_Ret in Hs as (gas & Hgas & Hs).
  apply bind_Ret in Hs as (st2 & Hev & Hs).
  destruct (fa_changes_log _ _ _ _ _ Hch) as (logs1 & Hlogs1 & HL1). simpl in HL1.
  apply fa_events_log in Hev as (Hh & logs2 & Hlogs2 & HL2).
  apply fa_resources_log in Hs as (logs3 & Hlogs3 & HL3).
  exists (concat logs1 ++ (FaActivity <$> option_list gas) ++ concat logs2 ++ concat logs3). split.
  - change (concat logs1) with ([] ++ concat logs1). rewrite <- app_assoc.
    eapply fa_log_trans; [apply fa_log_helper|]. eapply fa_log_trans; [exact HL1|].
    eapply fa_log_trans; [apply fa_log_activity|]. by eapply fa_log_trans.
  - exists info, ts, nts, events, req, fn, (fa_set_helper st helper), st1, m, logs1, gas, logs2, logs3.
    rewrite Hh in Hlogs3. split_and!; try done.
    destruct req; [|by simplify_eq]. apply bind_Ret in Hgas as (fee & Hfee & Hgas).
    apply bind_Ret in Hgas as (a & Ha & Hgas). injection Hgas as <-. eauto.
Qed.

Lemma gas_activity_row info req fn v ts h fee a :
  gas_activity info req fn v ts h fee = Ret a ->
  faa_transaction_version a = v /\ faa_event_index a = BURN_GAS_EVENT_INDEX /\
  faa_is_gas_fee a = true /\ faa_asset_type a = APTOS_COIN_TYPE_STR /\
  faa_owner_address a = standardize_address (utr_sender req) /\
  faa_amount a = Some (bd_from_u64 (as_u64 (ti_gas_used info * utr_gas_unit_price req))) /\
  faa_is_transaction_success a = ti_success info.
Proof. unfold gas_activity, get_gas_event. intros Ha. by outcome_inv. Qed.

Lemma activity_v1_row ev v h ts fn m i a :
  activity_v1_from_event ev v h ts fn m i = Ok (Some a) ->
  faa_transaction_version a = v /\ faa_event_index a = i /\ faa_is_gas_fee a = false /\
  exists p, coin_event (ev_type_str ev) (ev_data ev) v = Ok (Some p).
Proof.
  unfold activity_v1_from_event. destruct (coin_event _ _ _) as [[p|]|] eqn:Hp; try done.
  destruct (ev_key ev); [simpl|done]. destruct (m !! _); [|done]. intros [= <-]. simpl. eauto.
Qed.

Lemma activity_v2_row ev v h ts fn helper i a :
  activity_v2_from_event ev v h ts i fn helper = Ret (Ok (Some a)) ->
  faa_transaction_version a = v /\ faa_event_index a = i /\ faa_is_gas_fee a = false /\
  exists p, fungible_event (ev_type_str ev) (ev_data ev) v = Ok (Some p).
Proof.
  unfold activity_v2_from_event. destruct (fungible_event _ _ _) as [[p|]|] eqn:Hp; try done.
  intros Ha. outcome_inv. destruct (helper !! _) as [d|]; [|done]. outcome_inv.
  destruct p; simplify_eq/=; eauto.
Qed.

(** At most one activity for an event, with its version and position. *)
Lemma event_log_single v h ts fn m helper iev rows :
  event_log v h ts fn m helper iev rows ->
  length (omap log_activity rows) <= 1 /\ omap log_balance rows = [] /\ omap log_metadata rows = [] /\
  Forall (fun a => faa_transaction_version a = v /\ faa_event_index a = iev.1 /\
                   faa_is_gas_fee a = false) (omap log_activity rows).
Proof.
  intros (a1 & a2 & Ha1 & Ha2 & ->). destruct a1 as [a1|].
  - apply activity_v1_row in Ha1 as (? & ? & ? & p & Hp). destruct a2 as [a2|].
    + apply activity_v2_row in Ha2 as (_ & _ & _ & q & Hq).
      by pose proof (event_kinds_exclusive _ _ _ _ _ Hp Hq).
    + simpl. split_and!; [lia|done|done|]. by repeat constructor.
  - destruct a2 as [a2|]; simpl; [|split_and!; [lia|done|done|constructor]].
    apply activity_v2_row in Ha2 as (? & ? & ? & _). split_and!; [lia|done|done|]. by repeat constructor.
Qed.

Lemma v1_change_log_rows v ts iwsc rows :
  v1_change_log v ts iwsc rows ->
  omap log_activity rows = [] /\ omap log_metadata rows = [] /\ length (omap log_balance rows) <= 1 /\
  forall b, b ∈ omap log_balance rows ->
    fab_transaction_version b = v /\ fab_write_set_change_index b = iwsc.1 /\
    exists wr c m, wsc_change iwsc.2 = Some (ChangeWriteResource wr) /\
      balance_v1_from_write_resource wr iwsc.1 v ts = Ret (Ok (Some (b, c, m))).
Proof.
  intros ([b|] & -> & Hb); simpl; split_and!; try done; try lia; [|set_solver].
  intros x ->%list_elem_of_singleton. destruct (Hb b eq_refl) as (wr & c & m & Hwr & Hr).
  apply balance_v1_row in Hr as Hrow. naive_solver.
Qed.

Lemma v2_change_log_rows v ts helper iwsc rows :
  v2_change_log v ts helper iwsc rows ->
  omap log_activity rows = [] /\ length (omap log_balance rows) <= 1 /\
  (forall m, m ∈ omap log_metadata rows -> fmm_last_transaction_version m = v) /\
  forall b, b ∈ omap log_balance rows ->
    fab_transaction_version b = v /\ fab_write_set_change_index b = iwsc.1 /\
    exists wr c, wsc_change iwsc.2 = Some (ChangeWriteResource wr) /\
      balance_v2_from_write_resource wr iwsc.1 v ts helper = Ret (Ok (Some (b, c))).
Proof.
  intros (ms & b & -> & Hms & Hb). rewrite !omap_app.
  rewrite !(omap_fmap FaMetadata log_activity (fun _ => None)) by done.
  rewrite !(omap_fmap FaMetadata log_balance (fun _ => None)) by done.
  rewrite !(omap_fmap FaMetadata log_metadata Some) by done.
  rewrite !omap_none, omap_some. rewrite Forall_forall in Hms. destruct b as [b|]; simpl; split_and!; try done; try lia.
  - intros m. rewrite app_nil_r. apply Hms.
  - intros x ->%list_elem_of_singleton. destruct (Hb b eq_refl) as (wr & c & Hwr & Hr).
    apply balance_v2_row in Hr as Hrow. naive_solver.
  - intros m. rewrite app_nil_r. apply Hms.
  - set_solver.
Qed.

(** What the logs of the loops do not contain. *)
Lemma v1_logs_none v ts l logs :
  Forall2 (v1_change_log v ts) l logs ->
  omap log_activity (concat logs) = [] /\ omap log_metadata (concat logs) = [].
Proof.
  intros Hf. split; (eapply log_rows_nil; [|exact Hf]); intros x r Hr; by apply v1_change_log_rows in Hr as (? & ? & _).
Qed.
Lemma event_logs_none v h ts fn m helper l logs :
  Forall2 (event_log v h ts fn m helper) l logs ->
  omap log_balance (concat logs) = [] /\ omap log_metadata (concat logs) = [].
Proof.
  intros Hf. split; (eapply log_rows_nil; [|exact Hf]); intros x r Hr; by apply event_log_single in Hr as (_ & ? & ? & _).
Qed.
Lemma v2_logs_none v ts helper l logs :
  Forall2 (v2_change_log v ts helper) l logs -> omap log_activity (concat logs) = [].
Proof. intros Hf. eapply log_rows_nil; [|exact Hf]. intros x r Hr. by apply v2_change_log_rows in Hr as (? & _). Qed.

(** The activities of a transaction have its version and distinct indices. *)
Lemma fa_txn_activities t rows :
  fa_txn_log t rows ->
  Forall (fun a => faa_transaction_version a = as_i64 (t_version t)) (omap log_activity rows) /\
  NoDup (faa_event_index <$> omap log_activity rows).
Proof.
  unfold fa_txn_log. destruct (t_txn_data t) as [d|]; [|intros ->; split; constructor].
  intros (info & ts & nts & events & req & fn & st0 & st1 & m & logs1 & gas & logs2 & logs3 &
          _ & _ & _ & _ & _ & _ & -> & H1' & Hgas & H2' & H3').
  rewrite !omap_app.
  destruct (v1_logs_none _ _ _ _ H1') as [-> _]. rewrite (v2_logs_none _ _ _ _ _ H3').
  rewrite app_nil_r, (omap_fmap FaActivity log_activity Some), omap_some by done. simpl.
  eapply (log_rows_NoDup _ log_activity faa_event_index) in H2' as Hidx; [destruct Hidx as [Hn Hpos]|].
  2:{ intros ix r (? & _ & _ & Hf)%event_log_single. split; [done|].
      eapply Forall_impl; [exact Hf|]. naive_solver. }
  assert (Forall (fun a => faa_transaction_version a = as_i64 (t_version t)) (omap log_activity (concat logs2))) as Hv.
  { apply Forall_forall. intros a Ha. destruct (elem_of_log _ _ _ _ _ H2' Ha) as (x & r & _ & Hr & Har).
    destruct (event_log_single _ _ _ _ _ _ _ _ Hr) as (_ & _ & _ & Hf).
    rewrite Forall_forall in Hf. by apply Hf. }
  destruct req as [req|]; [|by subst gas].
  destruct Hgas as (fee & a & _ & Ha & ->). apply gas_activity_row in Ha as (Hav & Hai & _). simpl.
  split; [by constructor|]. constructor; [|done].
  intros (a' & Ha' & Hin)%list_elem_of_fmap. rewrite Forall_forall in Hpos. specialize (Hpos a' Hin).
  rewrite <- Ha', Hai in Hpos. unfold BURN_GAS_EVENT_INDEX in Hpos. lia.
Qed.

(** The balances of a transaction have its version and distinct indices. *)
Lemma fa_txn_balances t rows :
  fa_txn_log t rows ->
  Forall (fun b => fab_transaction_version b = as_i64 (t_version t)) (omap log_balance rows) /\
  NoDup (fab_write_set_change_index <$> omap log_balance rows).
Proof.
  unfold fa_txn_log. destruct (t_txn_data t) as [d|]; [|intros ->; split; constructor].
  intros (info & ts & nts & events & req & fn & st0 & st1 & m & logs1 & gas & logs2 & logs3 &
          _ & _ & _ & _ & _ & _ & -> & H1' & _ & H2' & H3').
  rewrite !omap_app.
  destruct (event_logs_none _ _ _ _ _ _ _ _ H2') as [-> _].
  rewrite (omap_fmap FaActivity log_balance (fun _ => None)), omap_none by done. simpl.
  assert (forall b, b ∈ omap log_balance (concat logs1) -> exists i wsc wr c m,
    (i, wsc) ∈ enumerate (ti_changes info) /\ fab_transaction_version b = as_i64 (t_version t) /\
    fab_write_set_change_index b = i /\ wsc_change wsc = Some (ChangeWriteResource wr) /\
    balance_v1_from_write_resource wr i (as_i64 (t_version t)) nts = Ret (Ok (Some (b, c, m)))) as Hb1.
  { intros b Hb. destruct (elem_of_log _ _ _ _ _ H1' Hb) as ([i wsc] & r & Hx & Hr & Hin).
    apply v1_change_log_rows in Hr as (_ & _ & _ & Hr). destruct (Hr b Hin) as (? & ? & wr & c & m' & ? & ?).
    by exists i, wsc, wr, c, m'. }
  assert (forall b, b ∈ omap log_balance (concat logs3) -> exists i wsc wr c,
    (i, wsc) ∈ enumerate (ti_changes info) /\ fab_transaction_version b = as_i64 (t_version t) /\
    fab_write_set_change_index b = i /\ wsc_change wsc = Some (ChangeWriteResource wr) /\
    balance_v2_from_write_resource wr i (as_i64 (t_version t)) nts (fungible_asset_object_helper st1)
      = Ret (Ok (Some (b, c)))) as Hb3.
  { intros b Hb. destruct (elem_of_log _ _ _ _ _ H3' Hb) as ([i wsc] & r & Hx & Hr & Hin).
    apply v2_change_log_rows in Hr as (_ & _ & _ & Hr). destruct (Hr b Hin) as (? & ? & wr & c & ? & ?).
    by exists i, wsc, wr, c. }
  split.
  - apply Forall_app. split; apply Forall_forall; intros b Hb; [destruct (Hb1 b Hb)|destruct (Hb3 b Hb)]; naive_solver.
  - rewrite fmap_app. apply NoDup_app. split_and!.
    + eapply (log_rows_NoDup _ log_balance fab_write_set_change_index); [|exact H1'].
      intros ix r (_ & _ & Hl & Hr)%v1_change_log_rows. split; [done|].
      apply Forall_forall. intros b Hb. by destruct (Hr b Hb) as (_ & ? & _).
    + intros k (b & -> & Hb)%list_elem_of_fmap (b' & Hk & Hb')%list_elem_of_fmap.
      destruct (Hb1 b Hb) as (i & wsc & wr & c & m' & Hi & _ & Hbi & Hwr & Hr).
      destruct (Hb3 b' Hb') as (i' & wsc' & wr' & c' & Hi' & _ & Hbi' & Hwr' & Hr').
      assert (i = i') as <- by congruence.
      apply elem_of_enumerate_from in Hi as (n & -> & Hn), Hi' as (n' & Hnn & Hn').
      assert (n = n') as <- by lia. assert (wr = wr') as <- by congruence.
      by pose proof (balance_versions_exclusive _ _ _ _ _ _ _ _ _ Hr Hr').
    + eapply (log_rows_NoDup _ log_balance fab_write_set_change_index); [|exact H3'].
      intros ix r (_ & Hl & _ & Hr)%v2_change_log_rows. split; [done|].
      apply Forall_forall. intros b Hb. by destruct (Hr b Hb) as (_ & ? & _).
Qed.

Lemma fa_txn_metadata t rows :
  fa_txn_log t rows ->
  Forall (fun m => fmm_last_transaction_version m = as_i64 (t_version t)) (omap log_metadata rows).
Proof.
  unfold fa_txn_log. destruct (t_txn_data t) as [d|]; [|intros ->; constructor].
  intros (info & ts & nts & events & req & fn & st0 & st1 & m & logs1 & gas & logs2 & logs3 &
          _ & _ & _ & _ & _ & _ & -> & H1' & _ & H2' & H3').
  rewrite !omap_app.
  destruct (event_logs_none _ _ _ _ _ _ _ _ H2') as [_ ->]. destruct (v1_logs_none _ _ _ _ H1') as [_ ->].
  rewrite (omap_fmap FaActivity log_metadata (fun _ => None)), omap_none by done. simpl.
  apply Forall_forall. intros x Hx. destruct (elem_of_log _ _ _ _ _ H3' Hx) as (iw & r & _ & Hr & Hin).
  apply v2_change_log_rows in Hr as (_ & _ & Hr & _). by apply Hr.
Qed.

(** *** A batch *)

Lemma fa_fold_log transactions st :
  foldM fa_step fa_init transactions = Ret st ->
  exists logs, Forall2 fa_txn_log transactions logs /\ fa_log fa_init (concat logs) st.
Proof.
  intros Hf. eapply (foldM_log (fun _ => True) fa_log fa_txn_log) in Hf as [_ Hf];
    [done|apply fa_log_refl|apply fa_log_trans| |done].
  intros s t s' _ _ Hs. split; [done|]. by apply fa_step_log.
Qed.

(** no row of a fungible asset batch collides with another.  In a batch of
    distinct versions the activities have distinct versions and event indices
    (the artificial gas row included), and the balances distinct versions and
    change indices, so that the statements, which skip a row whose key is
    taken, skip none of them; the current balances and the metadata have
    distinct keys as well. *)
Theorem fa_rows_distinct `{HashOrder} (transactions : list Transaction) (rows : FaRows) :
  Forall (fun t => in_u64 (t_version t)) transactions -> NoDup (t_version <$> transactions) ->
  parse_v2_coin transactions = Ret rows ->
  NoDup (up_key insert_fungible_asset_activities_query <$> rows_fa_activities rows) /\
  NoDup (up_key insert_fungible_asset_balances_query <$> rows_fa_balances rows) /\
  NoDup (up_key insert_fungible_asset_metadata_query <$> rows_fa_metadata rows) /\
  NoDup (up_key insert_current_fungible_asset_balances_query <$> rows_current_fa_balances rows).
Proof.
  unfold parse_v2_coin. intros Hv Hn Hr. apply bind_Ret in Hr as (st & Hf & Hr). injection Hr as <-. simpl.
  pose proof (batch_versions_NoDup _ Hv Hn) as Hvn.
  apply fa_fold_log in Hf as (logs & Hlogs & (Ha & Hb & Hc & Hm)). simpl in Ha, Hb, Hc, Hm.
  rewrite Ha, Hb, Hc, Hm. split_and!.
  - eapply (batch_log_NoDup _ log_activity faa_transaction_version); [exact Hlogs| | |done]; apply fa_txn_activities.
  - eapply (batch_log_NoDup _ log_balance fab_transaction_version); [exact Hlogs| | |done]; apply fa_txn_balances.
  - apply sorted_values_NoDup.
  - apply sorted_values_NoDup.
Qed.

(** The current rows of a batch: the last balance of each storage, and the
    last metadata of each asset, with versions of the batch. *)
Lemma fa_rows_current `{HashOrder} (transactions : list Transaction) (rows : FaRows) :
  parse_v2_coin transactions = Ret rows ->
  (forall c, c ∈ rows_current_fa_balances rows <-> exists b,
     last (filter (fun b => fab_storage_id b = cfab_storage_id c) (rows_fa_balances rows)) = Some b /\
     c = current_of_fa_balance b) /\
  NoDup (cfab_storage_id <$> rows_current_fa_balances rows) /\
  NoDup (fmm_asset_type <$> rows_fa_metadata rows) /\
  (forall c, c ∈ rows_current_fa_balances rows -> cfab_last_transaction_version c ∈ txn_versions transactions) /\
  (forall m, m ∈ rows_fa_metadata rows -> fmm_last_transaction_version m ∈ txn_versions transactions).
Proof.
  unfold parse_v2_coin. intros Hr. apply bind_Ret in Hr as (st & Hf & Hr). injection Hr as <-. simpl.
  apply fa_fold_log in Hf as (logs & Hlogs & (Ha & Hb & Hc & Hm)). simpl in Ha, Hb, Hc, Hm.
  rewrite Hb, Hc, Hm.
  assert (forall c, c ∈ sort_by cfab_storage_id (into_values (inserts cfab_storage_id ∅
            (current_of_fa_balance <$> omap log_balance (concat logs)))) <-> exists b,
     last (filter (fun b => fab_storage_id b = cfab_storage_id c) (omap log_balance (concat logs))) = Some b /\
     c = current_of_fa_balance b) as Hcur.
  { intros c. unfold inserts. fold (index_by cfab_storage_id (current_of_fa_balance <$> omap log_balance (concat logs))).
    by rewrite elem_of_sorted_values, filter_fmap_key, fmap_last, fmap_Some. }
  split_and!; [exact Hcur|apply sorted_values_NoDup..| |].
  - intros c (b & Hl & ->)%Hcur. simpl. apply last_Some_elem_of, list_elem_of_filter in Hl as [_ Hin].
    eapply (batch_log_version _ log_balance fab_transaction_version); [exact Hlogs|apply fa_txn_balances|done].
  - intros x. unfold inserts. fold (index_by fmm_asset_type (omap log_metadata (concat logs))).
    rewrite elem_of_sorted_values. intros Hl. apply last_Some_elem_of, list_elem_of_filter in Hl as [_ Hin].
    eapply (batch_log_version _ log_metadata fmm_last_transaction_version); [exact Hlogs|apply fa_txn_metadata|done].
Qed.

(** C17: concurrently written fungible asset batches converge.  For batches of
    distinct versions: within a batch the current balance of a storage is the
    last balance row; and whatever the order in which the rows of the batches
    are written, the current balances and the metadata end up the same, each
    the row with the largest version for its key. *)
Theorem fa_tables_converge `{HashOrder} (batches : list (list Transaction)) (rows : list FaRows)
    (balances : list CurrentFungibleAssetBalance) (metadata : list FungibleAssetMetadataModel) kb b km m :
  NoDup (txn_versions (concat batches)) ->
  Forall2 (fun t r => parse_v2_coin t = Ret r) batches rows ->
  balances ≡ₚ concat (rows_current_fa_balances <$> rows) -> metadata ≡ₚ concat (rows_fa_metadata <$> rows) ->
  Forall (fun r => forall c, c ∈ rows_current_fa_balances r <-> exists b,
    last (filter (fun b => fab_storage_id b = cfab_storage_id c) (rows_fa_balances r)) = Some b /\
    c = current_of_fa_balance b) rows /\
  upsert_rows insert_current_fungible_asset_balances_query ∅ balances =
    upsert_rows insert_current_fungible_asset_balances_query ∅ (concat (rows_current_fa_balances <$> rows)) /\
  (upsert_rows insert_current_fungible_asset_balances_query ∅ balances !! kb = Some b ->
   b ∈ balances /\ forall b', b' ∈ balances -> cfab_storage_id b' = kb ->
     (cfab_last_transaction_version b' <= cfab_last_transaction_version b)%Z) /\
  upsert_rows insert_fungible_asset_metadata_query ∅ metadata =
    upsert_rows insert_fungible_asset_metadata_query ∅ (concat (rows_fa_metadata <$> rows)) /\
  (upsert_rows insert_fungible_asset_metadata_query ∅ metadata !! km = Some m ->
   m ∈ metadata /\ forall m', m' ∈ metadata -> fmm_asset_type m' = km ->
     (fmm_last_transaction_version m' <= fmm_last_transaction_version m)%Z).
Proof.
  intros Hn Hrows Hpb Hpm.
  assert (lww_coherent insert_current_fungible_asset_balances_query balances) as Hcb.
  { eapply lww_coherent_perm; [symmetry; exact Hpb|].
    eapply (batches_coherent _ parse_v2_coin _ cfab_last_transaction_version); [done|done| |done|done].
    intros t r _ Ht. by destruct (fa_rows_current _ _ Ht) as (_ & ? & _ & ? & _). }
  assert (lww_coherent insert_fungible_asset_metadata_query metadata) as Hcm.
  { eapply lww_coherent_perm; [symmetry; exact Hpm|].
    eapply (batches_coherent _ parse_v2_coin _ fmm_last_transaction_version); [done|done| |done|done].
    intros t r _ Ht. by destruct (fa_rows_current _ _ Ht) as (_ & _ & ? & _ & ?). }
  split_and!.
  - clear -Hrows. induction Hrows as [|t r ts rs Hr _ IH]; constructor; [|done]. by apply (fa_rows_current t r).
  - by apply (lww_empty_perm insert_current_fungible_asset_balances_query).
  - intros Hk. by destruct (lww_rows_newest insert_current_fungible_asset_balances_query balances kb b Hcb Hk) as (? & _ & ?).
  - by apply (lww_empty_perm insert_fungible_asset_metadata_query).
  - intros Hk. by destruct (lww_rows_newest insert_fungible_asset_metadata_query metadata km m Hcm Hk) as (? & _ & ?).
Qed.

(** C12: every user transaction is charged once.  In a batch of distinct
    versions a user transaction has exactly one gas row: it belongs to the
    sender, names the native coin, and its amount is the gas used times the
    unit price, as the [u64] product; other transactions have none. *)
Theorem fa_gas_once `{HashOrder} (transactions : list Transaction) (rows : FaRows) t :
  Forall (fun t => in_u64 (t_version t)) transactions -> NoDup (t_version <$> transactions) ->
  parse_v2_coin transactions = Ret rows -> t ∈ transactions ->
  let gas := filter (fun a => faa_is_gas_fee a = true /\ faa_transaction_version a = as_i64 (t_version t))
               (rows_fa_activities rows) in
  match t_txn_data t with
  | Some (TdUser user) => exists req info a, ut_request user = Some req /\ t_info t = Some info /\
      gas = [a] /\ faa_owner_address a = standardize_address (utr_sender req) /\
      faa_asset_type a = APTOS_COIN_TYPE_STR /\ faa_event_index a = BURN_GAS_EVENT_INDEX /\
      faa_amount a = Some (bd_from_u64 (as_u64 (ti_gas_used info * utr_gas_unit_price req))) /\
      faa_is_transaction_success a = ti_success info
  | _ => gas = []
  end.
Proof.
  unfold parse_v2_coin. intros Hv Hn Hr Ht. apply bind_Ret in Hr as (st & Hf & Hr). injection Hr as <-. simpl.
  pose proof (batch_versions_NoDup _ Hv Hn) as Hvn.
  apply fa_fold_log in Hf as (logs & Hlogs & (-> & _)). simpl.
  apply list_elem_of_split in Ht as (ts1 & ts2 & ->).
  apply Forall2_app_inv_l in Hlogs as (l1 & l2 & Hl1 & Hl2 & ->).
  apply Forall2_cons_inv_l in Hl2 as (rows & l3 & Htl & Hl3 & ->).
  unfold txn_versions in Hvn. rewrite fmap_app in Hvn. simpl in Hvn.
  apply NoDup_app in Hvn as (_ & Hd1 & Hd2). apply NoDup_cons in Hd2 as [Hd2 _].
  rewrite concat_app, omap_app. simpl. rewrite omap_app, !filter_app.
  assert (forall ts ls, Forall2 fa_txn_log ts ls -> as_i64 (t_version t) ∉ txn_versions ts ->
    filter (fun a => faa_is_gas_fee a = true /\ faa_transaction_version a = as_i64 (t_version t))
      (omap log_activity (concat ls)) = []) as Hother.
  { intros ts ls Hls Hnot. apply filter_nil_iff. intros a Ha [_ Hav]. apply Hnot. rewrite <- Hav.
    eapply (batch_log_version _ log_activity faa_transaction_version); [exact Hls|apply fa_txn_activities|done]. }
  rewrite (Hother ts1 l1 Hl1), (Hother ts2 l3 Hl3), app_nil_r; [|done|set_solver]. simpl.
  clear Hother Hl1 Hl3 Hd1 Hd2. unfold fa_txn_log in Htl. destruct (t_txn_data t) as [d|]; [|by subst rows].
  destruct Htl as (info & tst & nts & events & req & fn & st0 & st1 & m & logs1 & gas & logs2 & logs3 &
    Hinfo & _ & _ & Hparts & _ & _ & -> & H1' & Hgas & H2' & H3').
  rewrite !omap_app. destruct (v1_logs_none _ _ _ _ H1') as [-> _]. rewrite (v2_logs_none _ _ _ _ _ H3').
  rewrite app_nil_r, (omap_fmap FaActivity log_activity Some), omap_some by done. simpl.
  rewrite filter_app.
  assert (filter (fun a => faa_is_gas_fee a = true /\ faa_transaction_version a = as_i64 (t_version t))
            (omap log_activity (concat logs2)) = []) as ->.
  { apply filter_nil_iff. intros a Ha [Hg _].
    destruct (elem_of_log _ _ _ _ _ H2' Ha) as (x & r & _ & (_ & _ & _ & Hr)%event_log_single & Hin).
    rewrite Forall_forall in Hr. destruct (Hr a Hin) as (_ & _ & Hng). congruence. }
  rewrite app_nil_r. destruct d; simpl in Hparts; outcome_inv; try done.
  destruct Hgas as (fee & a & _ & Ha & ->).
  apply gas_activity_row in Ha as (Hav & Hai & Hag & Hat & Hao & Ham & Has).
  eexists _, info, a. split_and!; try done. simpl. rewrite filter_cons, decide_True by done. done.
Qed.

(** ** Coins are fungible assets

    The processor covers what the coin processor stores, for coin types that
    are not too long. *)












(** ** Primary stores *)

Lemma slice_from_0x s : is_ascii_str s = true -> slice_from 2 ("0x" +:+ s) = Ret s.
Proof.
  intros Ha. unfold slice_from. destruct s as [|c s]; [done|].
  unfold is_ascii_str in Ha. simpl in Ha. apply andb_true_iff in Ha as [Hc _]. simpl. by rewrite Hc.
Qed.

(** a store is primary exactly when its address is derived from its owner
    and its asset.  For addresses of 32 bytes in their standard form the check
    does not panic, and says whether the store is the SHA3-256 hash of owner,
    asset and the suffix 0xFC. *)
Theorem is_primary_spec `{!HexLaws} (owner metadata store : bytes) :
  String.length owner = 32 -> String.length metadata = 32 ->
  is_primary ("0x" +:+ hex_encode owner) ("0x" +:+ hex_encode metadata) ("0x" +:+ hex_encode store) =
    Ret (bool_decide (store = sha3_256_digest (owner +:+ metadata +:+ primary_store_suffix))).
Proof.
  intros Ho Hm. unfold is_primary, address_from_hex.
  rewrite !slice_from_0x by apply hex_encode_ascii. simpl. rewrite !hex_decode_encode. simpl.
  rewrite !decide_True by done. simpl. f_equal. apply bool_decide_ext. split; [|by intros ->].
  intros He. apply (f_equal hex_decode) in He. rewrite !hex_decode_encode in He. by injection He.
Qed.
End FungibleAssets.

(** ** A concrete batch *)

Section ConcreteFungibleAssets.
#[local] Existing Instance pair_chrono.
#[local] Existing Instance int_bigdec.
#[local] Existing Instance plain_hex.
#[local] Existing Instance plain_sha.
#[local] Existing Instance plain_sha3.
#[local] Existing Instance text_json.
#[local] Existing Instance map_order.
#[local] Existing Instance no_proto_json.
#[local] Existing Instance flat_angles.
#[local] Existing Instance owner_codec.
#[local] Existing Instance amount_codec.

(** Stores and events are written as their amount, metadata as its name. *)
#[local] Instance fa_amount_codec : FungibleCodec :=
  {| de_FeeStatement := {| de_from_str := fun s => a ← int_parse s; Some {| storage_fee_refund_octas := a |};
                           de_from_value := fun _ => None |};
     de_FungibleAssetMetadata :=
       {| de_from_str := fun _ => None;
          de_from_value := fun v => match v with
            | Str n => Some {| fam_name := n; fam_symbol := "G"; fam_decimals := 8;
                               fam_icon_uri := EmptyString; fam_project_uri := EmptyString |}
            | _ => None
            end |};
     de_FungibleAssetStore :=
       {| de_from_str := fun _ => None;
          de_from_value := fun v => match v with
            | Str n => a ← int_parse n;
                Some {| fas_metadata := {| reference_inner := "0xb" |}; fas_balance := a; fas_frozen := false |}
            | _ => None
            end |};
     de_FungibleAssetSupply := no_de _;
     de_DepositEvent := {| de_from_str := fun s => a ← int_parse s; Some {| deposit_amount := a |};
                           de_from_value := fun _ => None |};
     de_WithdrawEvent := {| de_from_str := fun s => a ← int_parse s; Some {| withdraw_amount := a |};
                            de_from_value := fun _ => None |};
     de_FrozenEvent := no_de _ |}.

Definition ex_fa_write (address name data : string) : WriteSetChangePB :=
  {| wsc_type := 0; wsc_change := Some (ChangeWriteResource
       {| wr_address := address; wr_state_key_hash := EmptyString;
          wr_type := Some (mk_MoveStructTag "0x1" "fungible_asset" name []);
          wr_type_str := "0x1::fungible_asset::" +:+ name; wr_data := data |}) |}.
Definition ex_core_write (address owner : string) : WriteSetChangePB :=
  {| wsc_type := 0; wsc_change := Some (ChangeWriteResource (ex_object_core address owner)) |}.
Definition ex_fa_event (type data : string) : EventPB :=
  {| ev_key := Some {| ek_account_address := "0xa"; ek_creation_number := 1 |};
     ev_sequence_number := 1; ev_type := None; ev_type_str := type; ev_data := data |}.
Definition ex_fa_request : UserTransactionRequest :=
  {| utr_sender := "0xcafe"; utr_sequence_number := 1; utr_max_gas_amount := 100;
     utr_gas_unit_price := 100; utr_expiration_timestamp_secs := None;
     utr_payload := Some {| tp_type := 2; tp_payload := None |};
     utr_signature := Some {| sg_signature :=
       Some (SgEd25519 {| ed_public_key := EmptyString; ed_signature := EmptyString |}) |} |}.
Definition ex_fa_txn (v : Z) (changes : list WriteSetChangePB) (events : list EventPB) : Transaction :=
  {| t_timestamp := Some {| seconds := v; nanos := 0 |}; t_version := v;
     t_info := Some
       {| ti_hash := EmptyString; ti_state_change_hash := EmptyString; ti_event_root_hash := EmptyString;
          ti_state_checkpoint_hash := None; ti_gas_used := 7; ti_success := true;
          ti_vm_status := EmptyString; ti_accumulator_root_hash := EmptyString; ti_changes := changes |};
     t_epoch := 0; t_block_height := 1; t_type := 4;
     t_size_info := None; t_txn_data := Some (TdUser {| ut_request := Some ex_fa_request; ut_events := events |}) |}.

(** A user withdraws 5 coins, and 3 units of an asset are deposited in the
    store at 0xa, which then holds 30; a second transaction leaves 20 in it. *)
Definition ex_fa_txn1 : Transaction :=
  ex_fa_txn 7 [ex_coin_write "CoinStore" "95"; ex_core_write "0xa" "0xcafe";
               ex_fa_write "0xa" "FungibleStore" "30"; ex_core_write "0xb" "0xd";
               ex_fa_write "0xb" "Metadata" "Gold"]
    [ex_withdrawal; ex_fa_event "0x1::fungible_asset::DepositEvent" "3";
     ex_fa_event "0x1::transaction_fee::FeeStatement" "9"].
Definition ex_fa_txn2 : Transaction :=
  ex_fa_txn 8 [ex_core_write "0xa" "0xcafe"; ex_fa_write "0xa" "FungibleStore" "20"] [].
Definition ex_fa_batch : list Transaction := [ex_fa_txn1; ex_fa_txn2].
Definition ex_no_fa_rows : FaRows :=
  {| rows_fa_activities := []; rows_fa_metadata := []; rows_fa_balances := [];
     rows_current_fa_balances := [] |}.
Definition ex_fa_rows : FaRows := ret_or ex_no_fa_rows (parse_v2_coin ex_fa_batch).
Definition ex_fa_next : FaRows :=
  ret_or ex_no_fa_rows
    (parse_v2_coin [ex_fa_txn 9 [ex_core_write "0xa" "0xe"; ex_fa_write "0xa" "FungibleStore" "10"] []]).

Lemma ex_fa_rows_ok : parse_v2_coin ex_fa_batch = Ret ex_fa_rows.
Proof. apply ret_or_eq. vm_compute. reflexivity. Qed.
Lemma ex_fa_versions :
  Forall (fun t => in_u64 (t_version t)) ex_fa_batch /\ NoDup (t_version <$> ex_fa_batch).
Proof. split; [repeat constructor; simpl; lia|]. apply (bool_decide_unpack _). vm_compute. exact I. Qed.

Lemma fa_rows_distinct_witness :
  (faa_amount <$> rows_fa_activities ex_fa_rows) = [Some 700; Some 5; Some 3; Some 700]%Z /\
  (fab_amount <$> rows_fa_balances ex_fa_rows) = [95; 30; 20]%Z /\
  NoDup (up_key insert_fungible_asset_activities_query <$> rows_fa_activities ex_fa_rows) /\
  NoDup (up_key insert_fungible_asset_balances_query <$> rows_fa_balances ex_fa_rows).
Proof.
  split; [vm_compute; reflexivity|]. split; [vm_compute; reflexivity|].
  destruct ex_fa_versions as [Hv Hn].
  destruct (fa_rows_distinct ex_fa_batch ex_fa_rows Hv Hn ex_fa_rows_ok) as (Ha & Hb & _). done.
Defined.

Lemma fa_gas_once_witness :
  exists a, filter (fun a => faa_is_gas_fee a = true /\ faa_transaction_version a = 7%Z)
    (rows_fa_activities ex_fa_rows) = [a] /\ faa_amount a = Some 700%Z /\
    faa_owner_address a = standardize_address "0xcafe".
Proof.
  destruct ex_fa_versions as [Hv Hn].
  destruct (fa_gas_once ex_fa_batch ex_fa_rows ex_fa_txn1 Hv Hn ex_fa_rows_ok)
    as (req & info & a & Hreq & Hinfo & Hgas & Hown & _ & _ & Ham & _).
  - left.
  - injection Hreq as <-. injection Hinfo as <-. exists a. split; [exact Hgas|]. split; [exact Ham|exact Hown].
Defined.


(** The batches are written in the reverse order. *)
Lemma fa_tables_converge_witness :
  upsert_rows insert_current_fungible_asset_balances_query ∅
      (reverse (concat (rows_current_fa_balances <$> [ex_fa_rows; ex_fa_next]))) =
    upsert_rows insert_current_fungible_asset_balances_query ∅
      (concat (rows_current_fa_balances <$> [ex_fa_rows; ex_fa_next])).
Proof.
  destruct (fa_tables_converge
    [ex_fa_batch; [ex_fa_txn 9 [ex_core_write "0xa" "0xe"; ex_fa_write "0xa" "FungibleStore" "10"] []]]
    [ex_fa_rows; ex_fa_next]
    (reverse (concat (rows_current_fa_balances <$> [ex_fa_rows; ex_fa_next])))
    (reverse (concat (rows_fa_metadata <$> [ex_fa_rows; ex_fa_next])))
    EmptyString (current_of_fa_balance (hd (Build_FungibleAssetBalance 0 0 EmptyString EmptyString EmptyString
      false false (0%Z : @BigDecimal int_bigdec) ((0, 0)%Z : @NaiveDateTime pair_chrono) EmptyString)
      (rows_fa_balances ex_fa_rows)))
    EmptyString (Build_FungibleAssetMetadataModel EmptyString EmptyString EmptyString EmptyString 0 None None
      0 ((0, 0)%Z : @NaiveDateTime pair_chrono) None None EmptyString None None None))
    as (_ & Hb & _).
  - apply (bool_decide_unpack _). vm_compute. exact I.
  - constructor; [exact ex_fa_rows_ok|]. constructor; [|constructor]. apply ret_or_eq. vm_compute. reflexivity.
  - apply reverse_Permutation.
  - apply reverse_Permutation.
  - exact Hb.
Defined.

Definition ex_32_bytes : bytes := repeat_char zero_char 32.
Lemma is_primary_spec_witness :
  is_primary ("0x" +:+ hex_encode ex_32_bytes) ("0x" +:+ hex_encode ex_32_bytes)
    ("0x" +:+ hex_encode (ex_32_bytes +:+ ex_32_bytes +:+ primary_store_suffix)) = Ret true.
Proof.
  rewrite (@is_primary_spec plain_hex plain_sha3 plain_hex_laws).
  - rewrite bool_decide_eq_true_2 by reflexivity. reflexivity.
  - reflexivity.
  - reflexivity.
Defined.
End ConcreteFungibleAssets.
