(* ===== verification/Stake.v ===== *)
(** * Delegated staking

    [models/stake_models] and [processors/stake_processor.rs]: stake pools and
    their voters, governance votes, the activities and balances of delegators,
    and delegated voting.  What the database answers to a lookup is a
    parameter. *)
From S2P Require Import Prelude RustStr Json Externals Proto Util Database Processors.
From S2P Require Import DefaultModels TokenResources.

(** ** Resources and events: [stake_utils.rs] *)

Definition STAKE_ADDR : string :=
  "0x0000000000000000000000000000000000000000000000000000000000000001".

Section Resources.
Context `{BigDec}.

Record StakePoolResource := { delegated_voter : string; spr_operator_address : string }.
Record SharesInnerResource := { shares_inner : MoveTable }.
Record PoolResource := {
  pool_shares : SharesInnerResource;
  pool_total_coins : BigDecimal;
  pool_total_shares : BigDecimal;
  pool_scaling_factor : BigDecimal;
}.
Record DelegationPoolResource := {
  active_shares : PoolResource;
  inactive_shares : MoveTable;
  dpr_operator_commission_percentage : BigDecimal;
}.
Record GovernanceVoteEvent := {
  gv_proposal_id : Z;
  gv_voter : string;
  gv_stake_pool : string;
  gv_num_votes : BigDecimal;
  gv_should_pass : bool;
}.
Record DistributeRewardsEvent := { dr_pool_address : string; rewards_amount : Z }.
Record AddStakeEvent := {
  amount_added : Z; as_delegator_address : string; as_pool_address : string }.
Record UnlockStakeEvent := {
  amount_unlocked : Z; us_delegator_address : string; us_pool_address : string }.
Record WithdrawStakeEvent := {
  amount_withdrawn : Z; ws_delegator_address : string; ws_pool_address : string }.
Record ReactivateStakeEvent := {
  amount_reactivated : Z; rs_delegator_address : string; rs_pool_address : string }.
Record VoteDelegationResource := { vdr_voter : string; vdr_pending_voter : string }.
Record VoteDelegationVector := { vdv_key : string; vdv_value : VoteDelegationResource }.
Record VoteDelegationInnerResource := { vdi_inner : MoveTable }.
Record VoteDelegationBucketsResource := { vdb_buckets : VoteDelegationInnerResource }.
Record GovernanceRecordsResource := { vote_delegation : VoteDelegationBucketsResource }.

Inductive StakeTableItem := StPool (p : PoolResource).
Inductive StakeResource :=
| SrStakePool (r : StakePoolResource)
| SrDelegationPool (r : DelegationPoolResource).
Inductive StakeEvent :=
| SeGovernanceVoteEvent (e : GovernanceVoteEvent)
| SeDistributeRewardsEvent (e : DistributeRewardsEvent)
| SeAddStakeEvent (e : AddStakeEvent)
| SeUnlockStakeEvent (e : UnlockStakeEvent)
| SeWithdrawStakeEvent (e : WithdrawStakeEvent)
| SeReactivateStakeEvent (e : ReactivateStakeEvent).
Inductive VoteDelegationTableItem := VdVector (v : list VoteDelegationVector).
Inductive DelegationVoteGovernanceRecordsResource := GovernanceRecords (r : GovernanceRecordsResource).

(** The derived [Deserialize] implementations. *)
Class StakeCodec := {
  de_StakePoolResource :: Deserialize StakePoolResource;
  de_DelegationPoolResource :: Deserialize DelegationPoolResource;
  de_PoolResource :: Deserialize PoolResource;
  de_GovernanceVoteEvent :: Deserialize GovernanceVoteEvent;
  de_DistributeRewardsEvent :: Deserialize DistributeRewardsEvent;
  de_AddStakeEvent :: Deserialize AddStakeEvent;
  de_UnlockStakeEvent :: Deserialize UnlockStakeEvent;
  de_WithdrawStakeEvent :: Deserialize WithdrawStakeEvent;
  de_ReactivateStakeEvent :: Deserialize ReactivateStakeEvent;
  de_VoteDelegationVectors :: Deserialize (list VoteDelegationVector);
  de_GovernanceRecordsResource :: Deserialize GovernanceRecordsResource;
}.

Definition get_delegated_voter (s : StakePoolResource) : string := standardize_address (delegated_voter s).
Definition get_operator_address (s : StakePoolResource) : string := standardize_address (spr_operator_address s).
Definition get_delegator_address (v : VoteDelegationVector) : string := standardize_address (vdv_key v).
Definition get_voter (v : VoteDelegationResource) : string := standardize_address (vdr_voter v).
Definition get_pending_voter (v : VoteDelegationResource) : string := standardize_address (vdr_pending_voter v).

Definition is_stake_resource_supported (data_type : string) : bool :=
  bool_decide (data_type ∈
    [STAKE_ADDR +:+ "::stake::StakePool"; STAKE_ADDR +:+ "::delegation_pool::DelegationPool"]).

Context `{!StakeCodec}.

(** [StakeTableItem::from_table_item_type]. *)
Definition stake_table_item (data_type data : string) (txn_version : Z) : result (option StakeTableItem) :=
  if decide (data_type = "0x1::pool_u64_unbound::Pool") then
    (Some ∘ StPool) <$> context (de_from_str data)
  else Ok None.

(** [StakeResource::from_resource]. *)
Definition stake_from_resource (data_type : string) (data : Value) (txn_version : Z) : result StakeResource :=
  if decide (data_type = STAKE_ADDR +:+ "::stake::StakePool") then
    SrStakePool <$> context (de_from_value data)
  else if decide (data_type = STAKE_ADDR +:+ "::delegation_pool::DelegationPool") then
    SrDelegationPool <$> context (de_from_value data)
  else Err.

(** [StakeEvent::from_event]. *)
Definition stake_event (data_type data : string) (txn_version : Z) : result (option StakeEvent) :=
  if decide (data_type = "0x1::aptos_governance::VoteEvent") then
    (Some ∘ SeGovernanceVoteEvent) <$> context (de_from_str data)
  else if decide (data_type = "0x1::stake::DistributeRewardsEvent") then
    (Some ∘ SeDistributeRewardsEvent) <$> context (de_from_str data)
  else if decide (data_type = "0x1::delegation_pool::AddStakeEvent") then
    (Some ∘ SeAddStakeEvent) <$> context (de_from_str data)
  else if decide (data_type = "0x1::delegation_pool::UnlockStakeEvent") then
    (Some ∘ SeUnlockStakeEvent) <$> context (de_from_str data)
  else if decide (data_type = "0x1::delegation_pool::WithdrawStakeEvent") then
    (Some ∘ SeWithdrawStakeEvent) <$> context (de_from_str data)
  else if decide (data_type = "0x1::delegation_pool::ReactivateStakeEvent") then
    (Some ∘ SeReactivateStakeEvent) <$> context (de_from_str data)
  else Ok None.

(** [VoteDelegationTableItem::from_table_item_type]. *)
Definition vote_delegation_table_item (data_type data : string) (txn_version : Z)
  : result (option VoteDelegationTableItem) :=
  if decide (data_type =
      "vector<0x1::smart_table::Entry<address, 0x1::delegation_pool::VoteDelegation>>") then
    vote_delegation_vector ← context (de_from_str data);
    Ok (Some (VdVector vote_delegation_vector))
  else Ok None.

(** [DelegationVoteGovernanceRecordsResource::from_resource]. *)
Definition records_from_resource (data_type : string) (data : Value) (txn_version : Z)
  : result (option DelegationVoteGovernanceRecordsResource) :=
  if decide (data_type = STAKE_ADDR +:+ "::delegation_pool::GovernanceRecords") then
    (Some ∘ GovernanceRecords) <$> context (de_from_value data)
  else Ok None.

Context `{HexCodec, JsonParse, ProtoJson}.

(** [StakeResource::from_write_resource]. *)
Definition stake_from_write_resource (write_resource : WriteResource) (txn_version : Z)
  : outcome (result (option StakeResource)) :=
  type_str ← get_outer_type_from_resource write_resource;
  if is_stake_resource_supported type_str then
    resource ← DefaultModels.from_write_resource write_resource 0 txn_version 0;
    data ← unwrap (mr_data resource);
    Ret (Some <$> stake_from_resource type_str data txn_version)
  else Ret (Ok None).

(** [DelegationVoteGovernanceRecordsResource::from_write_resource]: the data
    of every resource is parsed. *)
Definition records_from_write_resource (write_resource : WriteResource) (txn_version : Z)
  : outcome (result (option DelegationVoteGovernanceRecordsResource)) :=
  type_str ← get_outer_type_from_resource write_resource;
  resource ← DefaultModels.from_write_resource write_resource 0 txn_version 0;
  data ← unwrap (mr_data resource);
  Ret (records_from_resource type_str data txn_version).
End Resources.

Section Stake.
Context `{Chrono, BigDec, HexCodec, Sha256, JsonParse, ProtoJson}.
Context `{!StakeCodec}.

(** ** Rows *)

Record CurrentStakingPoolVoter := {
  spv_staking_pool_address : string;
  spv_voter_address : string;
  spv_last_transaction_version : Z;
  spv_operator_address : string;
}.
Record ProposalVote := {
  pvo_transaction_version : Z;
  pvo_proposal_id : Z;
  pvo_voter_address : string;
  pvo_staking_pool_address : string;
  pvo_num_votes : BigDecimal;
  pvo_should_pass : bool;
  pvo_transaction_timestamp : NaiveDateTime;
}.
Record DelegatedStakingActivity := {
  dsa_transaction_version : Z;
  dsa_event_index : Z;
  dsa_delegator_address : string;
  dsa_pool_address : string;
  dsa_event_type : string;
  dsa_amount : BigDecimal;
}.
Record CurrentDelegatorBalance := {
  cdb_delegator_address : string;
  cdb_pool_address : string;
  cdb_pool_type : string;
  cdb_table_handle : string;
  cdb_last_transaction_version : Z;
  cdb_shares : BigDecimal;
  cdb_parent_table_handle : string;
}.
Record DelegatorBalance := {
  dbl_transaction_version : Z;
  dbl_write_set_change_index : Z;
  dbl_delegator_address : string;
  dbl_pool_address : string;
  dbl_pool_type : string;
  dbl_table_handle : string;
  dbl_shares : BigDecimal;
  dbl_parent_table_handle : string;
}.
Record DelegatorPool := { dpl_staking_pool_address : string; dpl_first_transaction_version : Z }.
Record DelegatorPoolBalanceMetadata := {
  pbm_transaction_version : Z;
  pbm_staking_pool_address : string;
  pbm_total_coins : BigDecimal;
  pbm_total_shares : BigDecimal;
  pbm_scaling_factor : BigDecimal;
  pbm_operator_commission_percentage : BigDecimal;
  pbm_active_share_table_handle : string;
  pbm_inactive_share_table_handle : string;
}.
Record PoolBalanceMetadata := {
  ipm_transaction_version : Z;
  ipm_total_coins : BigDecimal;
  ipm_total_shares : BigDecimal;
  ipm_scaling_factor : BigDecimal;
  ipm_shares_table_handle : string;
  ipm_parent_table_handle : string;
}.
Record DelegatorPoolBalance := {
  dpb_transaction_version : Z;
  dpb_staking_pool_address : string;
  dpb_total_coins : BigDecimal;
  dpb_total_shares : BigDecimal;
  dpb_operator_commission_percentage : BigDecimal;
  dpb_inactive_table_handle : string;
  dpb_active_table_handle : string;
}.
Record CurrentDelegatorPoolBalance := {
  cpb_staking_pool_address : string;
  cpb_total_coins : BigDecimal;
  cpb_total_shares : BigDecimal;
  cpb_last_transaction_version : Z;
  cpb_operator_commission_percentage : BigDecimal;
  cpb_inactive_table_handle : string;
  cpb_active_table_handle : string;
}.
Record CurrentDelegatedVoter := {
  cdv_delegation_pool_address : string;
  cdv_delegator_address : string;
  cdv_table_handle : option string;
  cdv_voter : option string;
  cdv_pending_voter : option string;
  cdv_last_transaction_version : Z;
  cdv_last_transaction_timestamp : NaiveDateTime;
}.
#[export] Instance CurrentStakingPoolVoter_fields : FieldCount CurrentStakingPoolVoter := 4.
#[export] Instance ProposalVote_fields : FieldCount ProposalVote := 7.
#[export] Instance DelegatedStakingActivity_fields : FieldCount DelegatedStakingActivity := 6.
#[export] Instance CurrentDelegatorBalance_fields : FieldCount CurrentDelegatorBalance := 7.
#[export] Instance DelegatorBalance_fields : FieldCount DelegatorBalance := 8.
#[export] Instance DelegatorPool_fields : FieldCount DelegatorPool := 2.
#[export] Instance DelegatorPoolBalance_fields : FieldCount DelegatorPoolBalance := 7.
#[export] Instance CurrentDelegatorPoolBalance_fields : FieldCount CurrentDelegatorPoolBalance := 7.
#[export] Instance CurrentDelegatedVoter_fields : FieldCount CurrentDelegatedVoter := 7.

Abbreviation ShareToStakingPoolMapping := (gmap string DelegatorPoolBalanceMetadata) (only parsing).
Abbreviation ShareToPoolMapping := (gmap string PoolBalanceMetadata) (only parsing).
Abbreviation DelegatedVoterMap := (gmap (string * string) CurrentDelegatedVoter) (only parsing).
Definition current_delegator_balance_pk (c : CurrentDelegatorBalance) : string * string * string :=
  (cdb_delegator_address c, cdb_pool_address c, cdb_pool_type c).
Definition voter_pk (c : CurrentDelegatedVoter) : string * string :=
  (cdv_delegation_pool_address c, cdv_delegator_address c).
(** The order of [Ord for CurrentDelegatedVoter]. *)
Definition voter_order (c : CurrentDelegatedVoter) : string * string :=
  (cdv_delegator_address c, cdv_delegation_pool_address c).

(** ** Voters: [staking_pool_voter.rs], [proposal_votes.rs] *)

Definition pool_voter_step (txn_version : Z) (staking_pool_voters : gmap string CurrentStakingPoolVoter)
    (wsc : WriteSetChangePB) : outcome (result (gmap string CurrentStakingPoolVoter)) :=
  change ← unwrap (wsc_change wsc);
  match change with
  | ChangeWriteResource write_resource =>
      r <-? stake_from_write_resource write_resource txn_version;
      Ret (Ok (match r with
               | Some (SrStakePool inner) =>
                   let staking_pool_address := standardize_address (wr_address write_resource) in
                   <[staking_pool_address :=
                      {| spv_staking_pool_address := staking_pool_address;
                         spv_voter_address := get_delegated_voter inner;
                         spv_last_transaction_version := txn_version;
                         spv_operator_address := get_operator_address inner |}]> staking_pool_voters
               | _ => staking_pool_voters
               end))
  | _ => Ret (Ok staking_pool_voters)
  end.
(** [CurrentStakingPoolVoter::from_transaction]. *)
Definition pool_voters_from_transaction (transaction : Transaction)
  : outcome (result (gmap string CurrentStakingPoolVoter)) :=
  info ← unwrap (t_info transaction);
  foldTry (pool_voter_step (as_i64 (t_version transaction))) ∅ (ti_changes info).

Definition proposal_vote_step (transaction : Transaction) (txn_version : Z) (proposal_votes : list ProposalVote)
    (event : EventPB) : outcome (result (list ProposalVote)) :=
  e <-? Ret (stake_event (ev_type_str event) (ev_data event) txn_version);
  match e with
  | Some (SeGovernanceVoteEvent ev) =>
      ts ← unwrap (t_timestamp transaction);
      transaction_timestamp ← parse_timestamp ts txn_version;
      Ret (Ok (proposal_votes ++
        [{| pvo_transaction_version := txn_version;
            pvo_proposal_id := as_i64 (gv_proposal_id ev);
            pvo_voter_address := standardize_address (gv_voter ev);
            pvo_staking_pool_address := standardize_address (gv_stake_pool ev);
            pvo_num_votes := gv_num_votes ev;
            pvo_should_pass := gv_should_pass ev;
            pvo_transaction_timestamp := transaction_timestamp |}]))
  | _ => Ret (Ok proposal_votes)
  end.
(** [ProposalVote::from_transaction]. *)
Definition votes_from_transaction (transaction : Transaction) : outcome (result (list ProposalVote)) :=
  match t_txn_data transaction with
  | Some (TdUser user_txn) =>
      foldTry (proposal_vote_step transaction (as_i64 (t_version transaction))) [] (ut_events user_txn)
  | _ => Ret (Ok [])
  end.

(** ** Activities: [delegator_activities.rs] *)

Definition activity_of_stake_event (txn_version event_index : Z) (event_type : string) (e : StakeEvent)
  : option DelegatedStakingActivity :=
  let activity delegator_address pool_address amount :=
    Some {| dsa_transaction_version := txn_version;
            dsa_event_index := event_index;
            dsa_delegator_address := delegator_address;
            dsa_pool_address := standardize_address pool_address;
            dsa_event_type := event_type;
            dsa_amount := u64_to_bigdecimal amount |} in
  match e with
  | SeAddStakeEvent inner =>
      activity (standardize_address (as_delegator_address inner)) (as_pool_address inner) (amount_added inner)
  | SeUnlockStakeEvent inner =>
      activity (standardize_address (us_delegator_address inner)) (us_pool_address inner) (amount_unlocked inner)
  | SeWithdrawStakeEvent inner =>
      activity (standardize_address (ws_delegator_address inner)) (ws_pool_address inner) (amount_withdrawn inner)
  | SeReactivateStakeEvent inner =>
      activity (standardize_address (rs_delegator_address inner)) (rs_pool_address inner)
        (amount_reactivated inner)
  | SeDistributeRewardsEvent inner => activity EmptyString (dr_pool_address inner) (rewards_amount inner)
  | SeGovernanceVoteEvent _ => None
  end.
Definition stake_activity_step (txn_version : Z) (delegator_activities : list DelegatedStakingActivity)
    (iev : Z * EventPB) : outcome (result (list DelegatedStakingActivity)) :=
  let '(event_index, event) := iev in
  Ret (e ← stake_event (ev_type_str event) (ev_data event) txn_version;
       Ok (delegator_activities ++
           option_list (e ≫= activity_of_stake_event txn_version event_index (ev_type_str event)))).
(** [DelegatedStakingActivity::from_transaction]. *)
Definition stake_activities_from_transaction (transaction : Transaction)
  : outcome (result (list DelegatedStakingActivity)) :=
  let events := match t_txn_data transaction with
                | Some (TdUser txn) => Some (ut_events txn)
                | Some (TdBlockMetadata txn) => Some (bm_events txn)
                | _ => None
                end in
  match events with
  | Some events => foldTry (stake_activity_step (as_i64 (t_version transaction))) [] (enumerate events)
  | None => Ret (Ok [])
  end.

(** ** Pools: [delegator_pools.rs] *)

Definition get_delegated_pool_metadata_from_write_resource (write_resource : WriteResource) (txn_version : Z)
  : outcome (result (option DelegatorPoolBalanceMetadata)) :=
  r <-? stake_from_write_resource write_resource txn_version;
  match r with
  | Some (SrDelegationPool inner) =>
      let pool := active_shares inner in
      total_shares ← unwrap (bd_div (pool_total_shares pool) (pool_scaling_factor pool));
      Ret (Ok (Some
        {| pbm_transaction_version := txn_version;
           pbm_staking_pool_address := standardize_address (wr_address write_resource);
           pbm_total_coins := pool_total_coins pool;
           pbm_total_shares := total_shares;
           pbm_scaling_factor := pool_scaling_factor pool;
           pbm_operator_commission_percentage := dpr_operator_commission_percentage inner;
           pbm_active_share_table_handle := get_handle (shares_inner (pool_shares pool));
           pbm_inactive_share_table_handle := get_handle (inactive_shares inner) |}))
  | _ => Ret (Ok None)
  end.

Definition get_inactive_pool_metadata_from_write_table_item (write_table_item : WriteTableItem)
    (txn_version : Z) : outcome (result (option PoolBalanceMetadata)) :=
  table_item_data ← unwrap (wti_data write_table_item);
  r <-? Ret (stake_table_item (wtd_value_type table_item_data) (wtd_value table_item_data) txn_version);
  match r with
  | Some (StPool inner) =>
      total_shares ← unwrap (bd_div (pool_total_shares inner) (pool_scaling_factor inner));
      Ret (Ok (Some
        {| ipm_transaction_version := txn_version;
           ipm_total_coins := pool_total_coins inner;
           ipm_total_shares := total_shares;
           ipm_scaling_factor := pool_scaling_factor inner;
           ipm_shares_table_handle := get_handle (shares_inner (pool_shares inner));
           ipm_parent_table_handle := standardize_address (wti_handle write_table_item) |}))
  | None => Ret (Ok None)
  end.

(** [DelegatorPool::from_write_resource]. *)
Definition pool_from_write_resource (write_resource : WriteResource) (txn_version : Z)
  : outcome (result (option (DelegatorPool * DelegatorPoolBalance * CurrentDelegatorPoolBalance))) :=
  balance <-? get_delegated_pool_metadata_from_write_resource write_resource txn_version;
  Ret (Ok (match balance with
    | Some balance =>
        Some ({| dpl_staking_pool_address := pbm_staking_pool_address balance;
                 dpl_first_transaction_version := pbm_transaction_version balance |},
              {| dpb_transaction_version := pbm_transaction_version balance;
                 dpb_staking_pool_address := pbm_staking_pool_address balance;
                 dpb_total_coins := pbm_total_coins balance;
                 dpb_total_shares := pbm_total_shares balance;
                 dpb_operator_commission_percentage := pbm_operator_commission_percentage balance;
                 dpb_inactive_table_handle := pbm_inactive_share_table_handle balance;
                 dpb_active_table_handle := pbm_active_share_table_handle balance |},
              {| cpb_staking_pool_address := pbm_staking_pool_address balance;
                 cpb_total_coins := pbm_total_coins balance;
                 cpb_total_shares := pbm_total_shares balance;
                 cpb_last_transaction_version := pbm_transaction_version balance;
                 cpb_operator_commission_percentage := pbm_operator_commission_percentage balance;
                 cpb_inactive_table_handle := pbm_inactive_share_table_handle balance;
                 cpb_active_table_handle := pbm_active_share_table_handle balance |})
    | None => None
    end)).

Record PoolData := {
  delegator_pool_map : gmap string DelegatorPool;
  delegator_pool_balances : list DelegatorPoolBalance;
  delegator_pool_balances_map : gmap string CurrentDelegatorPoolBalance;
}.
Definition no_pools : PoolData :=
  {| delegator_pool_map := ∅; delegator_pool_balances := []; delegator_pool_balances_map := ∅ |}.
Definition pool_step (txn_version : Z) (d : PoolData) (wsc : WriteSetChangePB) : outcome (result PoolData) :=
  change ← unwrap (wsc_change wsc);
  match change with
  | ChangeWriteResource write_resource =>
      r <-? pool_from_write_resource write_resource txn_version;
      Ret (Ok (match r with
        | Some (pool, pool_balances, current_pool_balances) =>
            {| delegator_pool_map := <[dpl_staking_pool_address pool := pool]> (delegator_pool_map d);
               delegator_pool_balances := delegator_pool_balances d ++ [pool_balances];
               delegator_pool_balances_map :=
                 <[dpl_staking_pool_address pool := current_pool_balances]> (delegator_pool_balances_map d) |}
        | None => d
        end))
  | _ => Ret (Ok d)
  end.
(** [DelegatorPool::from_transaction]. *)
Definition pools_from_transaction (transaction : Transaction) : outcome (result PoolData) :=
  match t_txn_data transaction with
  | Some (TdUser _) =>
      info ← unwrap (t_info transaction);
      foldTry (pool_step (as_i64 (t_version transaction))) no_pools (ti_changes info)
  | _ => Ret (Ok no_pools)
  end.

(** ** Balances: [delegator_balances.rs] *)

(** The number of shares a table item holds, scaled. *)
Definition parse_shares (write_table_item : WriteTableItem) (txn_version : Z) (scaling_factor : BigDecimal)
  : outcome (result BigDecimal) :=
  '(table_item_model, _) ← from_write_table_item write_table_item 0 txn_version 0;
  value ← unwrap (ti_decoded_value table_item_model);
  text ← unwrap (as_str value);
  shares <-? Ret (context (bd_parse text));
  scaled ← unwrap (bd_div shares scaling_factor);
  Ret (Ok scaled).

Definition get_active_share_from_write_table_item (write_table_item : WriteTableItem)
    (txn_version write_set_change_index : Z) (active_pool_to_staking_pool : ShareToStakingPoolMapping)
  : outcome (result (option (DelegatorBalance * CurrentDelegatorBalance))) :=
  let table_handle := standardize_address (wti_handle write_table_item) in
  match active_pool_to_staking_pool !! table_handle with
  | None => Ret (Ok None)
  | Some pool_balance =>
      let pool_address := pbm_staking_pool_address pool_balance in
      let delegator_address := standardize_address (wti_key write_table_item) in
      shares <-? parse_shares write_table_item txn_version (pbm_scaling_factor pool_balance);
      Ret (Ok (Some
        ({| dbl_transaction_version := txn_version;
            dbl_write_set_change_index := write_set_change_index;
            dbl_delegator_address := delegator_address;
            dbl_pool_address := pool_address;
            dbl_pool_type := "active_shares";
            dbl_table_handle := table_handle;
            dbl_shares := shares;
            dbl_parent_table_handle := table_handle |},
         {| cdb_delegator_address := delegator_address;
            cdb_pool_address := pool_address;
            cdb_pool_type := "active_shares";
            cdb_table_handle := table_handle;
            cdb_last_transaction_version := txn_version;
            cdb_shares := shares;
            cdb_parent_table_handle := table_handle |})))
  end.

(** The lookup of the pool an inactive share table belongs to; [query n] is
    the pool address in the answer to the [n]-th attempt. *)
Definition get_staking_pool_from_inactive_share_handle (query_retries : nat)
    (query : nat -> string -> result string) (table_handle : string) : result string :=
  retry_lookup query_retries (fun n => query n table_handle).

Definition get_inactive_share_from_write_table_item (write_table_item : WriteTableItem)
    (txn_version write_set_change_index : Z) (inactive_pool_to_staking_pool : ShareToStakingPoolMapping)
    (inactive_share_to_pool : ShareToPoolMapping) (query : nat -> string -> result string)
    (query_retries : nat) : outcome (result (option (DelegatorBalance * CurrentDelegatorBalance))) :=
  let table_handle := standardize_address (wti_handle write_table_item) in
  match inactive_share_to_pool !! table_handle with
  | None => Ret (Ok None)
  | Some pool_balance =>
      let inactive_pool_handle := ipm_parent_table_handle pool_balance in
      let pool_address :=
        match pbm_staking_pool_address <$> inactive_pool_to_staking_pool !! inactive_pool_handle with
        | Some pool_address => Ok pool_address
        | None => get_staking_pool_from_inactive_share_handle query_retries query inactive_pool_handle
        end in
      match pool_address with
      | Err => Ret (Ok None)
      | Ok pool_address =>
          let delegator_address := standardize_address (wti_key write_table_item) in
          shares <-? parse_shares write_table_item txn_version (ipm_scaling_factor pool_balance);
          Ret (Ok (Some
            ({| dbl_transaction_version := txn_version;
                dbl_write_set_change_index := write_set_change_index;
                dbl_delegator_address := delegator_address;
                dbl_pool_address := pool_address;
                dbl_pool_type := "inactive_shares";
                dbl_table_handle := table_handle;
                dbl_shares := shares;
                dbl_parent_table_handle := inactive_pool_handle |},
             {| cdb_delegator_address := delegator_address;
                cdb_pool_address := pool_address;
                cdb_pool_type := "inactive_shares";
                cdb_table_handle := table_handle;
                cdb_last_transaction_version := txn_version;
                cdb_shares := shares;
                cdb_parent_table_handle := inactive_pool_handle |})))
      end
  end.

Definition get_active_share_from_delete_table_item (delete_table_item : DeleteTableItem)
    (txn_version write_set_change_index : Z) (active_pool_to_staking_pool : ShareToStakingPoolMapping)
  : option (DelegatorBalance * CurrentDelegatorBalance) :=
  let table_handle := standardize_address (dti_handle delete_table_item) in
  match active_pool_to_staking_pool !! table_handle with
  | None => None
  | Some pool_balance =>
      let delegator_address := standardize_address (dti_key delete_table_item) in
      Some
        ({| dbl_transaction_version := txn_version;
            dbl_write_set_change_index := write_set_change_index;
            dbl_delegator_address := delegator_address;
            dbl_pool_address := pbm_staking_pool_address pool_balance;
            dbl_pool_type := "active_shares";
            dbl_table_handle := table_handle;
            dbl_shares := bd_zero;
            dbl_parent_table_handle := table_handle |},
         {| cdb_delegator_address := delegator_address;
            cdb_pool_address := pbm_staking_pool_address pool_balance;
            cdb_pool_type := "active_shares";
            cdb_table_handle := table_handle;
            cdb_last_transaction_version := txn_version;
            cdb_shares := bd_zero;
            cdb_parent_table_handle := table_handle |})
  end.

Definition get_inactive_share_from_delete_table_item (delete_table_item : DeleteTableItem)
    (txn_version write_set_change_index : Z) (inactive_pool_to_staking_pool : ShareToStakingPoolMapping)
    (inactive_share_to_pool : ShareToPoolMapping) (query : nat -> string -> result string)
    (query_retries : nat) : result (option (DelegatorBalance * CurrentDelegatorBalance)) :=
  let table_handle := standardize_address (dti_handle delete_table_item) in
  match inactive_share_to_pool !! table_handle with
  | None => Ok None
  | Some pool_balance =>
      let inactive_pool_handle := ipm_parent_table_handle pool_balance in
      pool_address ←
        match pbm_staking_pool_address <$> inactive_pool_to_staking_pool !! inactive_pool_handle with
        | Some pool_address => Ok pool_address
        | None => get_staking_pool_from_inactive_share_handle query_retries query inactive_pool_handle
        end;
      let delegator_address := standardize_address (dti_key delete_table_item) in
      Ok (Some
        ({| dbl_transaction_version := txn_version;
            dbl_write_set_change_index := write_set_change_index;
            dbl_delegator_address := delegator_address;
            dbl_pool_address := pool_address;
            dbl_pool_type := "inactive_shares";
            dbl_table_handle := table_handle;
            dbl_shares := bd_zero;
            dbl_parent_table_handle := inactive_pool_handle |},
         {| cdb_delegator_address := delegator_address;
            cdb_pool_address := pool_address;
            cdb_pool_type := "inactive_shares";
            cdb_table_handle := table_handle;
            cdb_last_transaction_version := txn_version;
            cdb_shares := bd_zero;
            cdb_parent_table_handle := table_handle |}))
  end.

Definition get_active_pool_to_staking_pool_mapping (write_resource : WriteResource) (txn_version : Z)
  : outcome (result (option ShareToStakingPoolMapping)) :=
  balance <-? get_delegated_pool_metadata_from_write_resource write_resource txn_version;
  Ret (Ok ((fun balance => {[pbm_active_share_table_handle balance := balance]}) <$> balance)).
Definition get_inactive_pool_to_staking_pool_mapping (write_resource : WriteResource) (txn_version : Z)
  : outcome (result (option ShareToStakingPoolMapping)) :=
  balance <-? get_delegated_pool_metadata_from_write_resource write_resource txn_version;
  Ret (Ok ((fun balance => {[pbm_inactive_share_table_handle balance := balance]}) <$> balance)).
Definition get_inactive_share_to_pool_mapping (write_table_item : WriteTableItem) (txn_version : Z)
  : outcome (result (option ShareToPoolMapping)) :=
  balance <-? get_inactive_pool_metadata_from_write_table_item write_table_item txn_version;
  Ret (Ok ((fun balance => {[ipm_shares_table_handle balance := balance]}) <$> balance)).

Definition extend_opt {K V} `{Countable K} (m : gmap K V) (o : option (gmap K V)) : gmap K V :=
  from_option (extend m) m o.

(** First pass over the changes: the inactive pools and their share tables. *)
Definition inactive_pools_step (txn_version : Z) (acc : ShareToStakingPoolMapping * ShareToPoolMapping)
    (wsc : WriteSetChangePB) : outcome (ShareToStakingPoolMapping * ShareToPoolMapping) :=
  let '(inactive_pool_to_staking_pool, inactive_share_to_pool) := acc in
  change ← unwrap (wsc_change wsc);
  match change with
  | ChangeWriteResource write_resource =>
      r ← get_inactive_pool_to_staking_pool_mapping write_resource txn_version;
      map ← unwrap_result r;
      Ret (extend_opt inactive_pool_to_staking_pool map, inactive_share_to_pool)
  | ChangeWriteTableItem table_item =>
      r ← get_inactive_share_to_pool_mapping table_item txn_version;
      map ← unwrap_result r;
      Ret (inactive_pool_to_staking_pool, extend_opt inactive_share_to_pool map)
  | _ => Ret acc
  end.

(** The balance of one change. *)
Definition delegator_balance_of_change (txn_version index : Z) (change : ChangeEnum)
    (active_pool_to_staking_pool inactive_pool_to_staking_pool : ShareToStakingPoolMapping)
    (inactive_share_to_pool : ShareToPoolMapping) (query : nat -> string -> result string)
    (query_retries : nat) : outcome (option (DelegatorBalance * CurrentDelegatorBalance)) :=
  match change with
  | ChangeDeleteTableItem table_item =>
      match get_active_share_from_delete_table_item table_item txn_version index
              active_pool_to_staking_pool with
      | Some b => Ret (Some b)
      | None => unwrap_result (get_inactive_share_from_delete_table_item table_item txn_version index
                  inactive_pool_to_staking_pool inactive_share_to_pool query query_retries)
      end
  | ChangeWriteTableItem table_item =>
      r ← get_active_share_from_write_table_item table_item txn_version index active_pool_to_staking_pool;
      active ← unwrap_result r;
      match active with
      | Some b => Ret (Some b)
      | None =>
          r ← get_inactive_share_from_write_table_item table_item txn_version index
                inactive_pool_to_staking_pool inactive_share_to_pool query query_retries;
          unwrap_result r
      end
  | _ => Ret None
  end.

(** The answers of the database to the lookups made for a change, which is
    given by the version and its position: the pool an inactive share table
    belongs to, the pool of a vote delegation table, and whether a delegator
    has a voter in a pool. *)
Record StakeQueries := {
  q_pool_by_inactive_handle : Z -> Z -> nat -> string -> result string;
  q_pool_by_table_handle : Z -> Z -> nat -> string -> result string;
  q_voter_by_pk : Z -> Z -> nat -> string -> string -> result unit;
}.
Variable queries : StakeQueries.
Variable query_retries : nat.

Definition delegator_balance_step (txn_version : Z)
    (active_pool_to_staking_pool inactive_pool_to_staking_pool : ShareToStakingPoolMapping)
    (inactive_share_to_pool : ShareToPoolMapping)
    (acc : list DelegatorBalance * gmap (string * string * string) CurrentDelegatorBalance)
    (iwsc : Z * WriteSetChangePB)
  : outcome (list DelegatorBalance * gmap (string * string * string) CurrentDelegatorBalance) :=
  let '(delegator_balances, current_delegator_balances) := acc in
  let '(index, wsc) := iwsc in
  change ← unwrap (wsc_change wsc);
  b ← delegator_balance_of_change txn_version index change active_pool_to_staking_pool
        inactive_pool_to_staking_pool inactive_share_to_pool
        (q_pool_by_inactive_handle queries txn_version index) query_retries;
  Ret (match b with
       | Some (delegator_balance, current_delegator_balance) =>
           (delegator_balances ++ [delegator_balance],
            <[current_delegator_balance_pk current_delegator_balance := current_delegator_balance]>
              current_delegator_balances)
       | None => acc
       end).
(** [CurrentDelegatorBalance::from_transaction]. *)
Definition delegator_balances_from_transaction (transaction : Transaction)
    (active_pool_to_staking_pool : ShareToStakingPoolMapping)
  : outcome (list DelegatorBalance * gmap (string * string * string) CurrentDelegatorBalance) :=
  let txn_version := as_i64 (t_version transaction) in
  info ← unwrap (t_info transaction);
  '(inactive_pool_to_staking_pool, inactive_share_to_pool) ←
    foldM (inactive_pools_step txn_version) (∅, ∅) (ti_changes info);
  foldM (delegator_balance_step txn_version active_pool_to_staking_pool inactive_pool_to_staking_pool
           inactive_share_to_pool) ([], ∅) (enumerate (ti_changes info)).

(** ** Delegated voting: [current_delegated_voter.rs] *)

Definition get_delegation_pool_address_by_table_handle (query : nat -> string -> result string)
    (table_handle : string) : result string :=
  retry_lookup query_retries (fun n => query n table_handle).
Definition get_existence_by_pk (query : nat -> string -> string -> result unit)
    (delegator_address delegation_pool_address : string) : bool :=
  match retry_lookup query_retries (fun n => query n delegator_address delegation_pool_address) with
  | Ok _ => true
  | Err => false
  end.

(** [CurrentDelegatedVoter::from_write_table_item]. *)
Definition voters_from_write_table_item (write_table_item : WriteTableItem) (txn_version : Z)
    (txn_timestamp : NaiveDateTime) (vote_delegation_handle_to_pool_address : gmap string string)
    (query : nat -> string -> result string) : outcome (result DelegatedVoterMap) :=
  table_item_data ← unwrap (wti_data write_table_item);
  let table_handle := standardize_address (wti_handle write_table_item) in
  r <-? Ret (vote_delegation_table_item (wtd_value_type table_item_data) (wtd_value table_item_data) txn_version);
  Ret (Ok (match r with
    | Some (VdVector vote_delegation_vector) =>
        let pool_address :=
          match vote_delegation_handle_to_pool_address !! table_handle with
          | Some pool_address => pool_address
          | None => match get_delegation_pool_address_by_table_handle query table_handle with
                    | Ok pool_address => pool_address
                    | Err => EmptyString
                    end
          end in
        if decide (pool_address = EmptyString) then ∅
        else foldl (fun delegated_voter_map inner =>
          let delegator_address := get_delegator_address inner in
          <[(pool_address, delegator_address) :=
             {| cdv_delegation_pool_address := pool_address;
                cdv_delegator_address := delegator_address;
                cdv_table_handle := Some table_handle;
                cdv_voter := Some (get_voter (vdv_value inner));
                cdv_pending_voter := Some (get_pending_voter (vdv_value inner));
                cdv_last_transaction_version := txn_version;
                cdv_last_transaction_timestamp := txn_timestamp |}]> delegated_voter_map)
          ∅ vote_delegation_vector
    | None => ∅
    end)).

Definition get_delegators_pre_contract_deployment (write_table_item : WriteTableItem) (txn_version : Z)
    (txn_timestamp : NaiveDateTime) (active_pool_to_staking_pool : ShareToStakingPoolMapping)
    (previous_delegated_voters : DelegatedVoterMap) (query : nat -> string -> string -> result unit)
  : outcome (result (option CurrentDelegatedVoter)) :=
  r <-? get_active_share_from_write_table_item write_table_item txn_version 0 active_pool_to_staking_pool;
  Ret (Ok (match r with
    | Some (_, active_balance) =>
        let pool_address := cdb_pool_address active_balance in
        let delegator_address := cdb_delegator_address active_balance in
        let already_exists :=
          match previous_delegated_voters !! (pool_address, delegator_address) with
          | Some _ => true
          | None => get_existence_by_pk query delegator_address pool_address
          end in
        if already_exists then None
        else Some {| cdv_delegation_pool_address := pool_address;
                     cdv_delegator_address := delegator_address;
                     cdv_table_handle := None;
                     cdv_voter := Some delegator_address;
                     cdv_pending_voter := Some delegator_address;
                     cdv_last_transaction_version := txn_version;
                     cdv_last_transaction_timestamp := txn_timestamp |}
    | None => None
    end)).

(** ** The processor: [stake_processor.rs] *)

Record StakeState := {
  all_current_stake_pool_voters : gmap string CurrentStakingPoolVoter;
  all_proposal_votes : list ProposalVote;
  all_delegator_activities : list DelegatedStakingActivity;
  all_delegator_balances : list DelegatorBalance;
  all_current_delegator_balances : gmap (string * string * string) CurrentDelegatorBalance;
  all_delegator_pools : gmap string DelegatorPool;
  all_delegator_pool_balances : list DelegatorPoolBalance;
  all_current_delegator_pool_balances : gmap string CurrentDelegatorPoolBalance;
  active_pool_to_staking_pool : ShareToStakingPoolMapping;
  all_current_delegated_voter : DelegatedVoterMap;
  all_vote_delegation_handle_to_pool_address : gmap string string;
}.
Definition stake_init : StakeState :=
  {| all_current_stake_pool_voters := ∅; all_proposal_votes := []; all_delegator_activities := [];
     all_delegator_balances := []; all_current_delegator_balances := ∅; all_delegator_pools := ∅;
     all_delegator_pool_balances := []; all_current_delegator_pool_balances := ∅;
     active_pool_to_staking_pool := ∅; all_current_delegated_voter := ∅;
     all_vote_delegation_handle_to_pool_address := ∅ |}.

(** The metadata pass over the changes; the error of the governance records is
    returned, not unwrapped. *)
Definition stake_metadata_step (txn_version : Z) (acc : gmap string string * ShareToStakingPoolMapping)
    (wsc : WriteSetChangePB) : outcome (result (gmap string string * ShareToStakingPoolMapping)) :=
  let '(handle_to_pool, active_pool) := acc in
  change ← unwrap (wsc_change wsc);
  match change with
  | ChangeWriteResource write_resource =>
      records <-? records_from_write_resource write_resource txn_version;
      let handle_to_pool :=
        match records with
        | Some (GovernanceRecords inner) =>
            <[get_handle (vdi_inner (vdb_buckets (vote_delegation inner))) :=
               standardize_address (wr_address write_resource)]> handle_to_pool
        | None => handle_to_pool
        end in
      r ← get_active_pool_to_staking_pool_mapping write_resource txn_version;
      map ← unwrap_result r;
      Ret (Ok (handle_to_pool, extend_opt active_pool map))
  | _ => Ret (Ok acc)
  end.

(** The pass that collects the recorded voters. *)
Definition voter_step (txn_version : Z) (txn_timestamp : NaiveDateTime) (handle_to_pool : gmap string string)
    (voters : DelegatedVoterMap) (iwsc : Z * WriteSetChangePB) : outcome DelegatedVoterMap :=
  let '(index, wsc) := iwsc in
  change ← unwrap (wsc_change wsc);
  match change with
  | ChangeWriteTableItem write_table_item =>
      r ← voters_from_write_table_item write_table_item txn_version txn_timestamp handle_to_pool
            (q_pool_by_table_handle queries txn_version index);
      voter_map ← unwrap_result r;
      Ret (extend voters voter_map)
  | _ => Ret voters
  end.

(** The pass that adds the default voters. *)
Definition default_voter_step (txn_version : Z) (txn_timestamp : NaiveDateTime)
    (active_pool : ShareToStakingPoolMapping) (voters : DelegatedVoterMap) (iwsc : Z * WriteSetChangePB)
  : outcome DelegatedVoterMap :=
  let '(index, wsc) := iwsc in
  change ← unwrap (wsc_change wsc);
  match change with
  | ChangeWriteTableItem write_table_item =>
      r ← get_delegators_pre_contract_deployment write_table_item txn_version txn_timestamp active_pool
            voters (q_voter_by_pk queries txn_version index);
      voter ← unwrap_result r;
      Ret (match voter with Some voter => <[voter_pk voter := voter]> voters | None => voters end)
  | _ => Ret voters
  end.

(** One round of the loop over the transactions. *)
Definition stake_step (st : StakeState) (txn : Transaction) : outcome (result StakeState) :=
  r ← pool_voters_from_transaction txn; current_stake_pool_voter ← unwrap_result r;
  r ← votes_from_transaction txn; proposal_votes ← unwrap_result r;
  r ← stake_activities_from_transaction txn; delegator_activities ← unwrap_result r;
  r ← pools_from_transaction txn; pools ← unwrap_result r;
  let txn_version := as_i64 (t_version txn) in
  ts ← unwrap (t_timestamp txn);
  txn_timestamp ← parse_timestamp ts txn_version;
  transaction_info ← unwrap (t_info txn);
  let changes := ti_changes transaction_info in
  '(handle_to_pool, active_pool) <-?
    foldTry (stake_metadata_step txn_version)
      (all_vote_delegation_handle_to_pool_address st, active_pool_to_staking_pool st) changes;
  '(delegator_balances, current_delegator_balances) ← delegator_balances_from_transaction txn active_pool;
  voters ← foldM (voter_step txn_version txn_timestamp handle_to_pool) (all_current_delegated_voter st)
             (enumerate changes);
  voters ← foldM (default_voter_step txn_version txn_timestamp active_pool) voters (enumerate changes);
  Ret (Ok
    {| all_current_stake_pool_voters := extend (all_current_stake_pool_voters st) current_stake_pool_voter;
       all_proposal_votes := all_proposal_votes st ++ proposal_votes;
       all_delegator_activities := all_delegator_activities st ++ delegator_activities;
       all_delegator_balances := all_delegator_balances st ++ delegator_balances;
       all_current_delegator_balances :=
         extend (all_current_delegator_balances st) current_delegator_balances;
       all_delegator_pools := extend (all_delegator_pools st) (delegator_pool_map pools);
       all_delegator_pool_balances := all_delegator_pool_balances st ++ delegator_pool_balances pools;
       all_current_delegator_pool_balances :=
         extend (all_current_delegator_pool_balances st) (delegator_pool_balances_map pools);
       active_pool_to_staking_pool := active_pool;
       all_current_delegated_voter := voters;
       all_vote_delegation_handle_to_pool_address := handle_to_pool |}).

Record StakeRows := {
  rows_pool_voters : list CurrentStakingPoolVoter;
  rows_proposal_votes : list ProposalVote;
  rows_delegator_activities : list DelegatedStakingActivity;
  rows_delegator_balances : list DelegatorBalance;
  rows_current_delegator_balances : list CurrentDelegatorBalance;
  rows_delegator_pools : list DelegatorPool;
  rows_delegator_pool_balances : list DelegatorPoolBalance;
  rows_current_delegator_pool_balances : list CurrentDelegatorPoolBalance;
  rows_delegated_voters : list CurrentDelegatedVoter;
}.
Definition stake_rows `{HashOrder} (transactions : list Transaction) : outcome (result StakeRows) :=
  st <-? foldTry stake_step stake_init transactions;
  Ret (Ok
    {| rows_pool_voters := sort_by spv_staking_pool_address (into_values (all_current_stake_pool_voters st));
       rows_proposal_votes := all_proposal_votes st;
       rows_delegator_activities := all_delegator_activities st;
       rows_delegator_balances := all_delegator_balances st;
       rows_current_delegator_balances :=
         sort_by current_delegator_balance_pk (into_values (all_current_delegator_balances st));
       rows_delegator_pools := sort_by dpl_staking_pool_address (into_values (all_delegator_pools st));
       rows_delegator_pool_balances := all_delegator_pool_balances st;
       rows_current_delegator_pool_balances :=
         sort_by cpb_staking_pool_address (into_values (all_current_delegator_pool_balances st));
       rows_delegated_voters := sort_by voter_order (into_values (all_current_delegated_voter st)) |}).

(** *** Queries

    The column [inserted_at] is filled by the server. *)
Definition set_pool_voter (_ new : CurrentStakingPoolVoter) : CurrentStakingPoolVoter :=
  {| spv_staking_pool_address := spv_staking_pool_address new;
     spv_voter_address := spv_voter_address new;
     spv_last_transaction_version := spv_last_transaction_version new;
     spv_operator_address := spv_operator_address new |}.
Definition insert_current_stake_pool_voter_query : Upsert CurrentStakingPoolVoter string :=
  {| up_key := spv_staking_pool_address;
     up_action := DoUpdate set_pool_voter;
     up_where := Some (fun old new =>
       bool_decide (spv_last_transaction_version old <= spv_last_transaction_version new)%Z) |}.
Definition insert_proposal_votes_query : Upsert ProposalVote (Z * Z * string) :=
  {| up_key := fun v => (pvo_transaction_version v, pvo_proposal_id v, pvo_voter_address v);
     up_action := DoNothing; up_where := None |}.
Definition insert_delegator_activities_query : Upsert DelegatedStakingActivity (Z * Z) :=
  {| up_key := fun a => (dsa_transaction_version a, dsa_event_index a);
     up_action := DoNothing; up_where := None |}.
Definition insert_delegator_balances_query : Upsert DelegatorBalance (Z * Z) :=
  {| up_key := fun b => (dbl_transaction_version b, dbl_write_set_change_index b);
     up_action := DoNothing; up_where := None |}.
Definition set_current_delegator_balance (old new : CurrentDelegatorBalance) : CurrentDelegatorBalance :=
  {| cdb_delegator_address := cdb_delegator_address old;
     cdb_pool_address := cdb_pool_address old;
     cdb_pool_type := cdb_pool_type old;
     cdb_table_handle := cdb_table_handle old;
     cdb_last_transaction_version := cdb_last_transaction_version new;
     cdb_shares := cdb_shares new;
     cdb_parent_table_handle := cdb_parent_table_handle new |}.
Definition insert_current_delegator_balances_query
  : Upsert CurrentDelegatorBalance (string * string * string * string) :=
  {| up_key := fun c => (cdb_delegator_address c, cdb_pool_address c, cdb_pool_type c, cdb_table_handle c);
     up_action := DoUpdate set_current_delegator_balance;
     up_where := Some (fun old new =>
       bool_decide (cdb_last_transaction_version old <= cdb_last_transaction_version new)%Z) |}.
Definition set_delegator_pool (old new : DelegatorPool) : DelegatorPool :=
  {| dpl_staking_pool_address := dpl_staking_pool_address old;
     dpl_first_transaction_version := dpl_first_transaction_version new |}.
Definition insert_delegator_pools_query : Upsert DelegatorPool string :=
  {| up_key := dpl_staking_pool_address;
     up_action := DoUpdate set_delegator_pool;
     up_where := Some (fun old new =>
       bool_decide (dpl_first_transaction_version new <= dpl_first_transaction_version old)%Z) |}.
Definition insert_delegator_pool_balances_query : Upsert DelegatorPoolBalance (Z * string) :=
  {| up_key := fun b => (dpb_transaction_version b, dpb_staking_pool_address b);
     up_action := DoNothing; up_where := None |}.
Definition set_current_pool_balance (old new : CurrentDelegatorPoolBalance) : CurrentDelegatorPoolBalance :=
  {| cpb_staking_pool_address := cpb_staking_pool_address old;
     cpb_total_coins := cpb_total_coins new;
     cpb_total_shares := cpb_total_shares new;
     cpb_last_transaction_version := cpb_last_transaction_version new;
     cpb_operator_commission_percentage := cpb_operator_commission_percentage new;
     cpb_inactive_table_handle := cpb_inactive_table_handle new;
     cpb_active_table_handle := cpb_active_table_handle new |}.
Definition insert_current_delegator_pool_balances_query : Upsert CurrentDelegatorPoolBalance string :=
  {| up_key := cpb_staking_pool_address;
     up_action := DoUpdate set_current_pool_balance;
     up_where := Some (fun old new =>
       bool_decide (cpb_last_transaction_version old <= cpb_last_transaction_version new)%Z) |}.
Definition set_delegated_voter (old new : CurrentDelegatedVoter) : CurrentDelegatedVoter :=
  {| cdv_delegation_pool_address := cdv_delegation_pool_address old;
     cdv_delegator_address := cdv_delegator_address old;
     cdv_table_handle := cdv_table_handle new;
     cdv_voter := cdv_voter new;
     cdv_pending_voter := cdv_pending_voter new;
     cdv_last_transaction_version := cdv_last_transaction_version new;
     cdv_last_transaction_timestamp := cdv_last_transaction_timestamp new |}.
Definition insert_current_delegated_voter_query : Upsert CurrentDelegatedVoter (string * string) :=
  {| up_key := voter_pk;
     up_action := DoUpdate set_delegated_voter;
     up_where := Some (fun old new =>
       bool_decide (cdv_last_transaction_version old <= cdv_last_transaction_version new)%Z) |}.

(** The pool table keeps the smallest version, the others the largest. *)
#[export] Instance pool_voters_lww : Lww insert_current_stake_pool_voter_query.
Proof.
  refine {| lww_rank := spv_last_transaction_version; lww_static_type := unit;
            lww_static := fun _ => tt; lww_set := set_pool_voter |}; try done.
  by intros [] [].
Defined.
#[export] Instance current_delegator_balances_lww : Lww insert_current_delegator_balances_query.
Proof.
  refine {| lww_rank := cdb_last_transaction_version; lww_static_type := unit;
            lww_static := fun _ => tt; lww_set := set_current_delegator_balance |}; try done.
  intros [] [] Hk _. simpl in Hk. by simplify_eq/=.
Defined.
#[export] Instance delegator_pools_lww : Lww insert_delegator_pools_query.
Proof.
  refine {| lww_rank := fun p => (- dpl_first_transaction_version p)%Z; lww_static_type := unit;
            lww_static := fun _ => tt; lww_set := set_delegator_pool |}; [done|..].
  - intros old new. apply bool_decide_ext. lia.
  - intros [] [] Hk _. simpl in Hk. by subst.
Defined.
#[export] Instance current_pool_balances_lww : Lww insert_current_delegator_pool_balances_query.
Proof.
  refine {| lww_rank := cpb_last_transaction_version; lww_static_type := unit;
            lww_static := fun _ => tt; lww_set := set_current_pool_balance |}; try done.
  intros [] [] Hk _. simpl in Hk. by subst.
Defined.
#[export] Instance delegated_voters_lww : Lww insert_current_delegated_voter_query.
Proof.
  refine {| lww_rank := cdv_last_transaction_version; lww_static_type := unit;
            lww_static := fun _ => tt; lww_set := set_delegated_voter |}; try done.
  intros [] [] Hk _. unfold voter_pk in Hk. simpl in Hk. by simplify_eq/=.
Defined.

Context `{!Table CurrentStakingPoolVoter string, !Table ProposalVote (Z * Z * string),
          !Table DelegatedStakingActivity (Z * Z), !Table DelegatorBalance (Z * Z),
          !Table CurrentDelegatorBalance (string * string * string * string),
          !Table DelegatorPool string, !Table DelegatorPoolBalance (Z * string),
          !Table CurrentDelegatorPoolBalance string, !Table CurrentDelegatedVoter (string * string)}.

Record StakeDb := {
  db_pool_voters : table_state CurrentStakingPoolVoter string;
  db_proposal_votes : table_state ProposalVote (Z * Z * string);
  db_delegator_activities : table_state DelegatedStakingActivity (Z * Z);
  db_delegator_balances : table_state DelegatorBalance (Z * Z);
  db_current_delegator_balances : table_state CurrentDelegatorBalance (string * string * string * string);
  db_delegator_pools : table_state DelegatorPool string;
  db_delegator_pool_balances : table_state DelegatorPoolBalance (Z * string);
  db_current_delegator_pool_balances : table_state CurrentDelegatorPoolBalance string;
  db_delegated_voters : table_state CurrentDelegatedVoter (string * string);
}.
Definition insert_stake (sizes : gmap string nat) (rows : StakeRows) (d d' : StakeDb)
    (res : outcome (result unit)) : Prop :=
  exists cspv_res pv_res da_res db_res cdb_res dp_res dpb_res cdpb_res cdv_res,
    write_table insert_current_stake_pool_voter_query "current_staking_pool_voter" sizes
      (rows_pool_voters rows) (db_pool_voters d) (db_pool_voters d') cspv_res /\
    write_table insert_proposal_votes_query "proposal_votes" sizes
      (rows_proposal_votes rows) (db_proposal_votes d) (db_proposal_votes d') pv_res /\
    write_table insert_delegator_activities_query "delegated_staking_activities" sizes
      (rows_delegator_activities rows) (db_delegator_activities d) (db_delegator_activities d') da_res /\
    write_table insert_delegator_balances_query "delegator_balances" sizes
      (rows_delegator_balances rows) (db_delegator_balances d) (db_delegator_balances d') db_res /\
    write_table insert_current_delegator_balances_query "current_delegator_balances" sizes
      (rows_current_delegator_balances rows) (db_current_delegator_balances d)
      (db_current_delegator_balances d') cdb_res /\
    write_table insert_delegator_pools_query "delegated_staking_pools" sizes
      (rows_delegator_pools rows) (db_delegator_pools d) (db_delegator_pools d') dp_res /\
    write_table insert_delegator_pool_balances_query "delegated_staking_pool_balances" sizes
      (rows_delegator_pool_balances rows) (db_delegator_pool_balances d) (db_delegator_pool_balances d')
      dpb_res /\
    write_table insert_current_delegator_pool_balances_query "current_delegated_staking_pool_balances" sizes
      (rows_current_delegator_pool_balances rows) (db_current_delegator_pool_balances d)
      (db_current_delegator_pool_balances d') cdpb_res /\
    write_table insert_current_delegated_voter_query "current_delegated_voter" sizes
      (rows_delegated_voters rows) (db_delegated_voters d) (db_delegated_voters d') cdv_res /\
    res = join_results [cspv_res; pv_res; da_res; db_res; cdb_res; dp_res; dpb_res; cdpb_res; cdv_res].

(** [StakeProcessor::process_transactions]. *)
Definition process_stake `{HashOrder} (sizes : gmap string nat)
  : list Transaction -> Z -> Z -> option Z -> StakeDb -> StakeDb -> outcome (result ProcessingResult) -> Prop :=
  process_batch_try stake_rows (insert_stake sizes).

#[export] Instance stake_processor `{HashOrder} (sizes : gmap string nat) : ProcessorTrait StakeDb :=
  {| processor_name := "stake_processor"; process_transactions := process_stake sizes |}.
#[export] Instance stake_processor_laws `{HashOrder} sizes : @ProcessorLaws _ (stake_processor sizes).
Proof. intros txns s e chain d d' r Hr. by apply (process_batch_try_ok _ _ _ _ _ chain) in Hr as [? _]. Qed.
End Stake.
