(* ===== verification/StakeLaws.v ===== *)
(** * Delegated staking: correctness

    What the rows of a stake batch are, and that the tables of current state
    do not depend on the order in which batches are written. *)
From S2P Require Import Prelude RustStr Json Externals Proto Util Database Processors.
From S2P Require Import DefaultModels TokenResources Stake.

Section StakeLaws.
Context `{Chrono, BigDec, HexCodec, Sha256, JsonParse, ProtoJson}.
Context `{!StakeCodec}.
Variable queries : StakeQueries.
Variable query_retries : nat.

(** ** The maps of one transaction *)

Lemma pool_voters_hold t m :
  pool_voters_from_transaction t = Ret (Ok m) ->
  holds spv_staking_pool_address (fun c => spv_last_transaction_version c = as_i64 (t_version t)) m.
Proof.
  unfold pool_voters_from_transaction. intros Hm. outcome_inv.
  eapply foldTry_ind; [apply holds_empty| |eassumption].
  intros c wsc c' _ Hc Hs. unfold pool_voter_step in Hs. outcome_inv.
  match type of Hs with context [match ?ch with _ => _ end] => destruct ch end; outcome_inv; try done.
  repeat case_match; try done. by apply holds_insert.
Qed.

Lemma pool_rows r v p b c :
  pool_from_write_resource r v = Ret (Ok (Some (p, b, c))) ->
  dpl_first_transaction_version p = v /\ cpb_last_transaction_version c = v /\
  cpb_staking_pool_address c = dpl_staking_pool_address p.
Proof.
  unfold pool_from_write_resource, get_delegated_pool_metadata_from_write_resource. intros Hp.
  outcome_inv. case_match; [|done]. simplify_eq. case_match; [|done]. case_match; [done|].
  outcome_inv. done.
Qed.

Lemma pools_hold t d :
  pools_from_transaction t = Ret (Ok d) ->
  holds dpl_staking_pool_address (fun p => dpl_first_transaction_version p = as_i64 (t_version t))
    (delegator_pool_map d) /\
  holds cpb_staking_pool_address (fun c => cpb_last_transaction_version c = as_i64 (t_version t))
    (delegator_pool_balances_map d).
Proof.
  unfold pools_from_transaction. intros Hd.
  assert (forall v l d, foldTry (pool_step v) no_pools l = Ret (Ok d) ->
    holds dpl_staking_pool_address (fun p => dpl_first_transaction_version p = v) (delegator_pool_map d) /\
    holds cpb_staking_pool_address (fun c => cpb_last_transaction_version c = v)
      (delegator_pool_balances_map d)) as Hloop.
  { clear. intros v l d'.
    apply (foldTry_ind (fun d =>
      holds dpl_staking_pool_address (fun p => dpl_first_transaction_version p = v) (delegator_pool_map d) /\
      holds cpb_staking_pool_address (fun c => cpb_last_transaction_version c = v)
        (delegator_pool_balances_map d))); [split; apply holds_empty|].
    intros c wsc c' _ [Hp Hb] Hs. unfold pool_step in Hs. outcome_inv.
    match type of Hs with context [match ?ch with _ => _ end] => destruct ch end; outcome_inv; try done.
    match goal with Hr : pool_from_write_resource _ _ = Ret (Ok ?r) |- _ => destruct r as [[[p b] cb]|]; [|done] end.
    destruct (pool_rows _ _ _ _ _ ltac:(eassumption)) as (? & ? & ?). split; by apply holds_insert. }
  case_match; outcome_inv; [|split; apply holds_empty].
  case_match; outcome_inv; try (split; apply holds_empty). by eapply Hloop.
Qed.

(** *** Balances *)

Definition balance_pk (b : DelegatorBalance) : string * string * string :=
  (dbl_delegator_address b, dbl_pool_address b, dbl_pool_type b).
(** A current row says what the balance says. *)
Definition mirrors (b : DelegatorBalance) (c : CurrentDelegatorBalance) : Prop :=
  current_delegator_balance_pk c = balance_pk b /\ cdb_table_handle c = dbl_table_handle b /\
  cdb_last_transaction_version c = dbl_transaction_version b /\ cdb_shares c = dbl_shares b.
(** The map holds the last balance for every key. *)
Definition last_mirrored (bs : list DelegatorBalance)
    (m : gmap (string * string * string) CurrentDelegatorBalance) : Prop :=
  forall k, option_Forall2 mirrors (last (filter (fun b => balance_pk b = k) bs)) (m !! k).

Lemma last_mirrored_nil : last_mirrored [] ∅.
Proof. intros k. rewrite lookup_empty. constructor. Qed.
Lemma last_mirrored_app bs1 bs2 m1 m2 :
  last_mirrored bs1 m1 -> last_mirrored bs2 m2 -> last_mirrored (bs1 ++ bs2) (extend m1 m2).
Proof.
  intros Hm1 Hm2 k. specialize (Hm1 k). specialize (Hm2 k). unfold extend.
  rewrite filter_app, last_app, lookup_union.
  destruct Hm2 as [b c Hbc|]; [destruct (m1 !! k); by constructor|].
  by destruct (m1 !! k); inversion Hm1; constructor.
Qed.
Lemma last_mirrored_snoc bs m b c :
  last_mirrored bs m -> mirrors b c ->
  last_mirrored (bs ++ [b]) (<[current_delegator_balance_pk c := c]> m).
Proof.
  intros Hm Hbc. rewrite (insert_union_singleton_l m). apply last_mirrored_app; [done|].
  intros k. destruct Hbc as [Hk Hrest]. rewrite filter_cons, filter_nil, Hk. case_decide as Hd; simpl.
  - subst. rewrite lookup_singleton_eq. by constructor.
  - rewrite lookup_singleton_ne by done. constructor.
Qed.

Lemma active_write_row r v i m b c :
  get_active_share_from_write_table_item r v i m = Ret (Ok (Some (b, c))) ->
  mirrors b c /\ dbl_transaction_version b = v /\ dbl_write_set_change_index b = i.
Proof.
  unfold get_active_share_from_write_table_item. intros Hb. case_match; outcome_inv. by split_and!.
Qed.

Lemma balance_of_change_row v i change active inactive shares query b c :
  delegator_balance_of_change v i change active inactive shares query query_retries = Ret (Some (b, c)) ->
  mirrors b c /\ dbl_transaction_version b = v /\ dbl_write_set_change_index b = i.
Proof.
  unfold delegator_balance_of_change. destruct change as [| |r| | |r]; try done.
  - destruct (get_active_share_from_delete_table_item r v i active) as [p|] eqn:Ha.
    + intros [= ->]. unfold get_active_share_from_delete_table_item in Ha. case_match; simplify_eq. by split_and!.
    + intros Hb. outcome_inv. unfold get_inactive_share_from_delete_table_item in Hb.
      case_match; [|done]. destruct (match _ with Some _ => _ | None => _ end); simplify_eq/=. by split_and!.
  - intros Hb. apply bind_Ret in Hb as (ra & Ha & Hb). apply bind_Ret in Hb as (a & Hra%unwrap_result_Ret & Hb).
    subst ra. destruct a as [p|]; [simplify_eq; by eapply active_write_row|].
    apply bind_Ret in Hb as (rb & Hi & Hb%unwrap_result_Ret). subst rb.
    unfold get_inactive_share_from_write_table_item in Hi. case_match; [|done].
    destruct (match _ with Some _ => _ | None => _ end); outcome_inv. by split_and!.
Qed.

(** The balances of a transaction have its version and distinct indices, and
    the current balances are the last ones. *)
Lemma balances_spec t active bs m :
  delegator_balances_from_transaction queries query_retries t active = Ret (bs, m) ->
  last_mirrored bs m /\ NoDup (dbl_write_set_change_index <$> bs) /\
  Forall (fun b => dbl_transaction_version b = as_i64 (t_version t)) bs.
Proof.
  unfold delegator_balances_from_transaction. intros Hb.
  apply bind_Ret in Hb as (info & _ & Hb). apply bind_Ret in Hb as ([inactive shares] & _ & Hb).
  eapply (foldM_log (fun acc => last_mirrored acc.1 acc.2) (fun acc rows acc' => acc'.1 = acc.1 ++ rows)
    (fun ix rows => length rows <= 1 /\ Forall (fun b => dbl_write_set_change_index b = ix.1 /\
       dbl_transaction_version b = as_i64 (t_version t)) rows)) in Hb
    as (Hm & logs & Hlogs & Hbs); [simpl in *; subst bs| | | |apply last_mirrored_nil].
  - split; [done|]. split.
    + eapply (enumerate_log_NoDup dbl_write_set_change_index 0). eapply Forall2_impl; [exact Hlogs|].
      simpl. intros ix rows [Hl Hf]. split; [done|]. eapply Forall_impl; [exact Hf|]. naive_solver.
    + apply Forall_forall. intros b Hb. destruct (elem_of_concat_Forall2 _ _ _ _ Hlogs Hb) as (ix & rows & _ & [_ Hf] & Hin).
      rewrite Forall_forall in Hf. by apply Hf.
  - intros. by rewrite app_nil_r.
  - intros s1 l1 s2 l2 s3 H12 H23. by rewrite app_assoc, <- H12.
  - intros [bs0 m0] [i wsc] [bs1 m1] _ Hm Hs. unfold delegator_balance_step in Hs.
    apply bind_Ret in Hs as (change & _ & Hs). apply bind_Ret in Hs as ([[b c]|] & Hbc & Hs); simplify_eq/=.
    + apply balance_of_change_row in Hbc as (Hmir & Hv & Hi). split; [by apply last_mirrored_snoc|].
      exists [b]. split; [done|]. split; [done|]. by repeat constructor.
    + split; [done|]. exists []. rewrite app_nil_r. split; [done|]. split; [simpl; lia|constructor].
Qed.

(** *** Voters *)

Lemma voters_hold v ts handles l voters voters' (P : Z -> Prop) :
  P v -> holds voter_pk (fun c => P (cdv_last_transaction_version c)) voters ->
  foldM (voter_step queries query_retries v ts handles) voters l = Ret voters' ->
  holds voter_pk (fun c => P (cdv_last_transaction_version c)) voters'.
Proof.
  intros Hv Hm.
  apply (foldM_ind (holds voter_pk (fun c => P (cdv_last_transaction_version c)))); [done|].
  intros c [i wsc] c' _ Hc Hs. unfold voter_step in Hs.
  apply bind_Ret in Hs as (change & _ & Hs). destruct change; simplify_eq/=; try done.
  apply bind_Ret in Hs as (r & Hr & Hs). apply bind_Ret in Hs as (m & Hm'%unwrap_result_Ret & Hs).
  simplify_eq. apply holds_extend; [done|]. unfold voters_from_write_table_item in Hr.
  apply bind_Ret in Hr as (d & _ & Hr). apply try_bind_Ok in Hr as ([[o]|] & _ & Hr); injection Hr as <-;
    [|apply holds_empty]. case_decide; [apply holds_empty|].
  apply holds_foldl; [|apply holds_empty]. done.
Qed.

Lemma default_voter_row r v ts active voters query c :
  get_delegators_pre_contract_deployment query_retries r v ts active voters query = Ret (Ok (Some c)) ->
  voters !! voter_pk c = None /\ cdv_last_transaction_version c = v /\ cdv_table_handle c = None /\
  cdv_voter c = Some (cdv_delegator_address c) /\ cdv_pending_voter c = Some (cdv_delegator_address c) /\
  forall n, n < query_retries -> query n (cdv_delegator_address c) (cdv_delegation_pool_address c) = Err.
Proof.
  unfold get_delegators_pre_contract_deployment. intros Hc.
  apply try_bind_Ok in Hc as ([[b cb]|] & _ & Hc); [|done].
  destruct (voters !! _) eqn:Hl; [by simplify_eq/=|]. unfold get_existence_by_pk in Hc.
  destruct (retry_lookup _ _) eqn:Hq; [by simplify_eq/=|]. simplify_eq/=.
  by rewrite retry_lookup_Err in Hq.
Qed.

Lemma default_voters_hold v ts active l voters voters' (P : Z -> Prop) :
  P v -> holds voter_pk (fun c => P (cdv_last_transaction_version c)) voters ->
  foldM (default_voter_step queries query_retries v ts active) voters l = Ret voters' ->
  holds voter_pk (fun c => P (cdv_last_transaction_version c)) voters'.
Proof.
  intros Hv Hm.
  apply (foldM_ind (holds voter_pk (fun c => P (cdv_last_transaction_version c)))); [done|].
  intros c [i wsc] c' _ Hc Hs. unfold default_voter_step in Hs.
  apply bind_Ret in Hs as (change & _ & Hs). destruct change; simplify_eq/=; try done.
  apply bind_Ret in Hs as (r & Hr & Hs). apply bind_Ret in Hs as ([d|] & Hd%unwrap_result_Ret & Hs);
    simplify_eq; [|done].
  apply default_voter_row in Hr as (_ & Hdv & _). apply holds_insert; [done..|]. by rewrite Hdv.
Qed.

Lemma default_voters_added v ts active changes voters voters' :
  foldM (default_voter_step queries query_retries v ts active) voters (enumerate changes) = Ret voters' ->
  voters ⊆ voters' /\
  forall pool delegator c, voters' !! (pool, delegator) = Some c -> voters !! (pool, delegator) = None ->
    cdv_voter c = Some delegator /\ cdv_pending_voter c = Some delegator /\ cdv_table_handle c = None /\
    cdv_last_transaction_version c = v /\
    exists index, forall n, n < query_retries -> q_voter_by_pk queries v index n delegator pool = Err.
Proof.
  intros Hf. pattern voters'. eapply foldM_ind; [| |exact Hf]; [split; [done|congruence]|].
  intros m [i wsc] m' _ [Hsub Hnew] Hs. unfold default_voter_step in Hs.
  apply bind_Ret in Hs as (change & _ & Hs). destruct change; simplify_eq/=; try done.
  apply bind_Ret in Hs as (r & Hr & Hs). apply bind_Ret in Hs as ([d|] & Hd%unwrap_result_Ret & Hs);
    simplify_eq; [|done].
  apply default_voter_row in Hr as (Hnone & Hv & Ht & Hvo & Hpe & Hq). split.
  - etrans; [exact Hsub|]. by apply insert_subseteq.
  - intros pool delegator cv. rewrite lookup_insert_Some. intros [[Hk ->]|[_ Hl]] Hold; [|by eapply Hnew].
    unfold voter_pk in Hk. injection Hk as <- <-. split_and!; try done. by exists i.
Qed.

(** default voters never displace recorded ones.  The pass that registers
    a delegator as its own voter keeps every voter the batch already knows; an
    entry it adds names the delegator itself as the voter and the pending voter
    and has no table, and it is added only when every attempt to find the
    delegator in the database failed. *)
Theorem default_voters_safe v ts active changes voters voters' :
  foldM (default_voter_step queries query_retries v ts active) voters (enumerate changes) = Ret voters' ->
  voters ⊆ voters' /\
  forall pool delegator c, voters' !! (pool, delegator) = Some c -> voters !! (pool, delegator) = None ->
    cdv_voter c = Some delegator /\ cdv_pending_voter c = Some delegator /\ cdv_table_handle c = None /\
    cdv_last_transaction_version c = v /\
    exists index, forall n, n < query_retries -> q_voter_by_pk queries v index n delegator pool = Err.
Proof. exact (default_voters_added v ts active changes voters voters'). Qed.

(** *** Activities *)

(** The events that are activities, with their positions. *)
Definition txn_stake_activities (t : Transaction) : list DelegatedStakingActivity :=
  let v := as_i64 (t_version t) in
  let events := match t_txn_data t with
                | Some (TdUser txn) => ut_events txn
                | Some (TdBlockMetadata txn) => bm_events txn
                | _ => []
                end in
  omap (fun iev => match stake_event (ev_type_str iev.2) (ev_data iev.2) v with
                   | Ok (Some e) => activity_of_stake_event v iev.1 (ev_type_str iev.2) e
                   | _ => None
                   end) (enumerate events).

Lemma activities_spec t l :
  stake_activities_from_transaction t = Ret (Ok l) -> l = txn_stake_activities t.
Proof.
  assert (forall v evs acc l, foldTry (stake_activity_step v) acc evs = Ret (Ok l) ->
    l = acc ++ omap (fun iev => match stake_event (ev_type_str iev.2) (ev_data iev.2) v with
                   | Ok (Some e) => activity_of_stake_event v iev.1 (ev_type_str iev.2) e
                   | _ => None
                   end) evs) as Hloop.
  { clear. intros v evs. induction evs as [|[i ev] evs IH]; intros acc l Hl.
    - injection Hl as <-. by rewrite app_nil_r.
    - apply (try_bind_Ok (stake_activity_step v acc (i, ev))) in Hl as (acc' & Hs & Hl).
      apply IH in Hl as ->. injection Hs as Hs.
      csimpl. destruct (stake_event _ _ _) as [[e|]|]; simplify_eq/=.
      + destruct (activity_of_stake_event _ _ _ _); simpl; by rewrite <- app_assoc.
      + by rewrite app_nil_r. }
  unfold stake_activities_from_transaction, txn_stake_activities. intros Hl.
  destruct (t_txn_data t) as [[]|]; try (by injection Hl as <-); by apply Hloop in Hl.
Qed.

Lemma activity_row v i ty e a :
  activity_of_stake_event v i ty e = Some a -> dsa_transaction_version a = v /\ dsa_event_index a = i.
Proof. unfold activity_of_stake_event. destruct e; intros; by simplify_eq/=. Qed.

Lemma txn_activities_distinct t :
  NoDup (dsa_event_index <$> txn_stake_activities t) /\
  Forall (fun a => dsa_transaction_version a = as_i64 (t_version t)) (txn_stake_activities t).
Proof.
  unfold txn_stake_activities. set (events := match t_txn_data t with Some _ => _ | None => _ end).
  set (pick := fun iev : Z * EventPB => match stake_event _ _ _ with Ok _ => _ | Err => _ end).
  assert (forall iev a, pick iev = Some a -> dsa_transaction_version a = as_i64 (t_version t) /\
    dsa_event_index a = iev.1) as Hpick.
  { intros iev a. unfold pick. destruct (stake_event _ _ _) as [[e|]|]; try done. by intros ?%activity_row. }
  clearbody pick. split.
  - generalize 0%Z as k. generalize (NoDup_enumerate_from 0%Z events) as Hn. intros Hn k.
    clear Hn. revert k. induction events as [|ev l IH]; intros k; csimpl; [constructor|].
    destruct (pick (k, ev)) as [a|] eqn:Ha; [|apply IH]. csimpl. constructor; [|apply IH].
    intros (b & Hb & Hin)%list_elem_of_fmap. apply list_elem_of_omap in Hin as ([j e] & Hj & Hp).
    apply Hpick in Ha as [_ Ha], Hp as [_ Hp]. apply elem_of_enumerate_from in Hj as (n & -> & _). simpl in *. lia.
  - apply Forall_forall. intros a (iev & _ & Ha%Hpick)%list_elem_of_omap. by destruct Ha.
Qed.

(** ** A batch *)

Definition stake_inv (vs : list Z) (st : StakeState) : Prop :=
  holds spv_staking_pool_address (fun c => spv_last_transaction_version c ∈ vs) (all_current_stake_pool_voters st) /\
  last_mirrored (all_delegator_balances st) (all_current_delegator_balances st) /\
  Forall (fun b => dbl_transaction_version b ∈ vs) (all_delegator_balances st) /\
  holds dpl_staking_pool_address (fun c => dpl_first_transaction_version c ∈ vs) (all_delegator_pools st) /\
  holds cpb_staking_pool_address (fun c => cpb_last_transaction_version c ∈ vs)
    (all_current_delegator_pool_balances st) /\
  holds voter_pk (fun c => cdv_last_transaction_version c ∈ vs) (all_current_delegated_voter st).

(** What one round adds. *)
Lemma stake_step_parts st t st' :
  stake_step queries query_retries st t = Ret (Ok st') ->
  exists pool_voters active balances current pools,
    pool_voters_from_transaction t = Ret (Ok pool_voters) /\
    pools_from_transaction t = Ret (Ok pools) /\
    delegator_balances_from_transaction queries query_retries t active = Ret (balances, current) /\
    all_current_stake_pool_voters st' = extend (all_current_stake_pool_voters st) pool_voters /\
    all_delegator_activities st' = all_delegator_activities st ++ txn_stake_activities t /\
    all_delegator_balances st' = all_delegator_balances st ++ balances /\
    all_current_delegator_balances st' = extend (all_current_delegator_balances st) current /\
    all_delegator_pools st' = extend (all_delegator_pools st) (delegator_pool_map pools) /\
    all_current_delegator_pool_balances st' =
      extend (all_current_delegator_pool_balances st) (delegator_pool_balances_map pools) /\
    forall P : Z -> Prop, P (as_i64 (t_version t)) ->
      holds voter_pk (fun c => P (cdv_last_transaction_version c)) (all_current_delegated_voter st) ->
      holds voter_pk (fun c => P (cdv_last_transaction_version c)) (all_current_delegated_voter st').
Proof.
  unfold stake_step. intros Hs.
  apply bind_Ret in Hs as (r1 & Hr1 & Hs). apply bind_Ret in Hs as (pv & ->%unwrap_result_Ret & Hs).
  apply bind_Ret in Hs as (r2 & Hr2 & Hs). apply bind_Ret in Hs as (votes & ->%unwrap_result_Ret & Hs).
  apply bind_Ret in Hs as (r3 & Hr3 & Hs). apply bind_Ret in Hs as (acts & ->%unwrap_result_Ret & Hs).
  apply bind_Ret in Hs as (r4 & Hr4 & Hs). apply bind_Ret in Hs as (pools & ->%unwrap_result_Ret & Hs).
  apply bind_Ret in Hs as (ts & _ & Hs). apply bind_Ret in Hs as (nts & _ & Hs).
  apply bind_Ret in Hs as (info & _ & Hs). apply try_bind_Ok in Hs as ([handles active] & _ & Hs).
  apply bind_Ret in Hs as ([bs m] & Hb & Hs). apply bind_Ret in Hs as (voters & Hv & Hs).
  apply bind_Ret in Hs as (voters' & Hv' & Hs). apply activities_spec in Hr3 as ->.
  exists pv, active, bs, m, pools. injection Hs as <-. simpl. split_and!; try done.
  intros P HP Hold. eapply default_voters_hold; [done| |exact Hv']. by eapply voters_hold; [..|exact Hv].
Qed.

Lemma stake_fold_inv transactions st :
  foldTry (stake_step queries query_retries) stake_init transactions = Ret (Ok st) ->
  stake_inv (txn_versions transactions) st.
Proof.
  intros Hf. set (vs := txn_versions transactions).
  eapply (foldTry_ind (stake_inv vs)); [| |exact Hf].
  { unfold stake_inv; simpl. split_and!; try apply holds_empty; [apply last_mirrored_nil|constructor]. }
  intros c t c' Ht (I1 & I2 & I3 & I4 & I5 & I6) Hs.
  assert (as_i64 (t_version t) ∈ vs) as Hin by (by apply (list_elem_of_fmap_2 (fun t => as_i64 (t_version t)))).
  apply stake_step_parts in Hs as (pv & active & bs & m & pools & Hpv & Hpo & Hb & E1 & _ & E2 & E3 & E4 & E5 & E7).
  unfold stake_inv. rewrite E1, E2, E3, E4, E5. apply pool_voters_hold in Hpv. apply pools_hold in Hpo as [Hp1 Hp2].
  apply balances_spec in Hb as (Hm & _ & Hv). split_and!.
  - apply holds_extend; [done|]. eapply holds_impl; [|exact Hpv]. by intros ? ->.
  - by apply last_mirrored_app.
  - apply Forall_app. split; [done|]. eapply Forall_impl; [exact Hv|]. by intros ? ->.
  - apply holds_extend; [done|]. eapply holds_impl; [|exact Hp1]. by intros ? ->.
  - apply holds_extend; [done|]. eapply holds_impl; [|exact Hp2]. by intros ? ->.
  - by apply (E7 (fun z => z ∈ vs)).
Qed.

Lemma stake_rows_state `{HashOrder} transactions rows :
  stake_rows queries query_retries transactions = Ret (Ok rows) ->
  exists st, foldTry (stake_step queries query_retries) stake_init transactions = Ret (Ok st) /\
    stake_inv (txn_versions transactions) st /\
    rows_pool_voters rows ≡ₚ into_values (all_current_stake_pool_voters st) /\
    rows_delegator_activities rows = all_delegator_activities st /\
    rows_delegator_balances rows = all_delegator_balances st /\
    rows_current_delegator_balances rows ≡ₚ into_values (all_current_delegator_balances st) /\
    rows_delegator_pools rows ≡ₚ into_values (all_delegator_pools st) /\
    rows_current_delegator_pool_balances rows ≡ₚ into_values (all_current_delegator_pool_balances st) /\
    rows_delegated_voters rows ≡ₚ into_values (all_current_delegated_voter st).
Proof.
  unfold stake_rows. intros Hr. apply try_bind_Ok in Hr as (st & Hf & Hr). injection Hr as <-.
  exists st. split; [done|]. split; [by apply stake_fold_inv|]. simpl. split_and!; try done; apply sort_by_perm.
Qed.

(** What a batch makes of its balances: one current row for every delegator,
    pool and kind with a balance, which repeats the last of them. *)
Definition batch_balances (rows : StakeRows) : Prop :=
  NoDup (current_delegator_balance_pk <$> rows_current_delegator_balances rows) /\
  (forall c, c ∈ rows_current_delegator_balances rows -> exists b,
     last (filter (fun b => balance_pk b = current_delegator_balance_pk c) (rows_delegator_balances rows)) = Some b /\
     mirrors b c) /\
  (forall b, b ∈ rows_delegator_balances rows -> exists c,
     c ∈ rows_current_delegator_balances rows /\ current_delegator_balance_pk c = balance_pk b).
(** And of its pools: one row for every pool written in the batch, that of the
    last user transaction that writes it. *)
Definition batch_pools (transactions : list Transaction) (rows : StakeRows) : Prop :=
  forall a p, p ∈ rows_delegator_pools rows /\ dpl_staking_pool_address p = a <->
    exists i t d, transactions !! i = Some t /\ pools_from_transaction t = Ret (Ok d) /\
      delegator_pool_map d !! a = Some p /\
      forall j t' d', i < j -> transactions !! j = Some t' -> pools_from_transaction t' = Ret (Ok d') ->
        delegator_pool_map d' !! a = None.

(** a batch keeps one current balance per delegator, pool and kind.  For
    every delegator, pool and kind (active or inactive) with a balance in the
    batch there is exactly one current row, and it repeats the last balance;
    the table the shares are in is not part of the key, although it is part of
    the key of the database, so of two inactive balances of a delegator in a
    pool only the later becomes current. *)
Theorem current_balances_last `{HashOrder} (transactions : list Transaction) (rows : StakeRows) :
  stake_rows queries query_retries transactions = Ret (Ok rows) -> batch_balances rows.
Proof.
  intros Hr. unfold batch_balances. apply stake_rows_state in Hr as (st & _ & (_ & I2 & _) & _ & _ & -> & Hp & _).
  assert (keyed current_delegator_balance_pk (all_current_delegator_balances st)) as Hk.
  { intros k c Hc. specialize (I2 k). rewrite Hc in I2. inversion I2 as [b ? (Hpk & _) Hl|]; subst.
    symmetry in Hl. by apply last_Some_elem_of, list_elem_of_filter in Hl as [<- _]. }
  split_and!.
  - rewrite Hp. by apply into_values_NoDup.
  - intros c Hc. rewrite Hp, elem_of_into_values in Hc. destruct Hc as [k Hc].
    rewrite (Hk k c Hc). specialize (I2 k). rewrite Hc in I2. inversion I2; subst. eauto.
  - intros b Hb. specialize (I2 (balance_pk b)).
    destruct (all_current_delegator_balances st !! balance_pk b) as [c|] eqn:Hc.
    + exists c. split; [|by apply Hk]. rewrite Hp, elem_of_into_values. eauto.
    + inversion I2 as [|Hl]; subst. symmetry in Hl. apply last_None in Hl.
      exfalso. eapply filter_nil_iff; [exact Hl|exact Hb|done].
Qed.

(** the activities of a batch are exactly those of its events, in order;
    in a batch of distinct versions no two activities, and no two balances,
    have the same key, so none is lost when they are stored. *)
Theorem stake_activities_exact `{HashOrder} (transactions : list Transaction) (rows : StakeRows) :
  Forall (fun t => in_u64 (t_version t)) transactions -> NoDup (t_version <$> transactions) ->
  stake_rows queries query_retries transactions = Ret (Ok rows) ->
  rows_delegator_activities rows = transactions ≫= txn_stake_activities /\
  NoDup (up_key insert_delegator_activities_query <$> rows_delegator_activities rows) /\
  NoDup (up_key insert_delegator_balances_query <$> rows_delegator_balances rows).
Proof.
  intros Hv Hn Hr. pose proof (batch_versions_NoDup _ Hv Hn) as Hvn.
  apply stake_rows_state in Hr as (st & Hf%foldTry_Ok & _ & _ & -> & -> & _). split_and!.
  - revert st Hf. clear. induction transactions as [|t ts IH] using rev_ind; intros st Hf.
    { by injection Hf as <-. }
    rewrite foldM_app in Hf. apply bind_Ret in Hf as (s0 & Hf0 & Hf). apply (bind_Ret _ _ st) in Hf as (s1 & Hs & Hf).
    injection Hf as ->. apply bind_Ret in Hs as (r & Hs & ->%unwrap_result_Ret).
    apply stake_step_parts in Hs as (? & ? & ? & ? & ? & _ & _ & _ & _ & -> & _).
    rewrite (IH s0 Hf0), bind_app. csimpl. by rewrite app_nil_r.
  - eapply (appended_rows_NoDup _ all_delegator_activities dsa_transaction_version
      (up_key insert_delegator_activities_query) stake_init); [|by intros ?? [=]|done|exact Hvn|exact Hf].
    intros s t s' _ Hs. apply bind_Ret in Hs as (r & Hs & ->%unwrap_result_Ret).
    apply stake_step_parts in Hs as (? & ? & ? & ? & ? & _ & _ & _ & _ & -> & _).
    destruct (txn_activities_distinct t). eexists. split; [done|]. split; [|done].
    eapply NoDup_fmap_coarser; [done|]. by intros ?? _ _ [=].
  - eapply (appended_rows_NoDup _ all_delegator_balances dbl_transaction_version
      (up_key insert_delegator_balances_query) stake_init); [|by intros ?? [=]|done|exact Hvn|exact Hf].
    intros s t s' _ Hs. apply bind_Ret in Hs as (r & Hs & ->%unwrap_result_Ret).
    apply stake_step_parts in Hs as (? & ? & ? & ? & ? & _ & _ & Hb & _ & _ & -> & _).
    apply balances_spec in Hb as (_ & Hnd & Hbv). eexists. split; [done|]. split; [|done].
    eapply NoDup_fmap_coarser; [done|]. by intros ?? _ _ [=].
Qed.

Lemma batch_pools_last `{HashOrder} (transactions : list Transaction) (rows : StakeRows) :
  stake_rows queries query_retries transactions = Ret (Ok rows) -> batch_pools transactions rows.
Proof.
  intros Hr a p. apply stake_rows_state in Hr as (st & Hf%foldTry_Ok & (_ & _ & _ & I4 & _) & _ & _ & _ & _ & Hp & _).
  eapply (foldM_log (fun _ => True)
    (fun s ms s' => all_delegator_pools s' = foldl extend (all_delegator_pools s) ms)
    (fun t ms => exists d, pools_from_transaction t = Ret (Ok d) /\ ms = [delegator_pool_map d])) in Hf
    as (_ & logs & Hlogs & Hst); [|done|by intros; rewrite foldl_app; congruence| |done].
  2:{ intros s t s' _ _ Hs. apply bind_Ret in Hs as (r & Hs & ->%unwrap_result_Ret).
      apply stake_step_parts in Hs as (? & ? & ? & ? & pools & _ & Hpo & _ & _ & _ & _ & _ & E & _).
      split; [done|]. exists [delegator_pool_map pools]. split; [done|]. eauto. }
  assert (Forall2 (fun t m => exists d, pools_from_transaction t = Ret (Ok d) /\ m = delegator_pool_map d)
    transactions (concat logs)) as Hall.
  { clear -Hlogs. induction Hlogs as [|t l ts ls (d & Hd & ->) _ IH]; constructor; eauto. }
  transitivity (all_delegator_pools st !! a = Some p).
  { rewrite Hp, elem_of_into_values. split.
    - intros [[k Hk] <-]. by destruct (I4 k p Hk) as [<- _].
    - intros Hk. destruct (I4 a p Hk) as [Hkey _]. eauto. }
  rewrite Hst. simpl. rewrite foldl_extend_lookup. split.
  - intros (i & m & Hi & Hm & Hlast). destruct (Forall2_lookup_r _ _ _ _ _ Hall Hi) as (t & Ht & d & Hd & ->).
    exists i, t, d. split_and!; try done. intros j t' d' Hj Ht' Hd'.
    destruct (Forall2_lookup_l _ _ _ _ _ Hall Ht') as (m' & Hm' & d'' & Hd'' & ->).
    rewrite Hd' in Hd''. injection Hd'' as <-. by eapply Hlast.
  - intros (i & t & d & Ht & Hd & Hm & Hlast). destruct (Forall2_lookup_l _ _ _ _ _ Hall Ht) as (m & Hi & d' & Hd' & ->).
    rewrite Hd in Hd'. injection Hd' as <-. exists i, (delegator_pool_map d). split_and!; try done.
    intros j m Hj Hjm. destruct (Forall2_lookup_r _ _ _ _ _ Hall Hjm) as (t' & Ht' & d' & Hd' & ->). by eapply Hlast.
Qed.

(** the first version of a pool is the last one of the batch.  The row of
    a pool carries the version of the last user transaction of the batch that
    writes the pool, not of the first, since a later row replaces an earlier
    one before anything is written. *)
Theorem pool_first_version_is_last `{HashOrder} (transactions : list Transaction) (rows : StakeRows) p :
  stake_rows queries query_retries transactions = Ret (Ok rows) -> p ∈ rows_delegator_pools rows ->
  exists i t d, transactions !! i = Some t /\ pools_from_transaction t = Ret (Ok d) /\
    delegator_pool_map d !! dpl_staking_pool_address p = Some p /\
    dpl_first_transaction_version p = as_i64 (t_version t) /\
    forall j t' d', i < j -> transactions !! j = Some t' -> pools_from_transaction t' = Ret (Ok d') ->
      delegator_pool_map d' !! dpl_staking_pool_address p = None.
Proof.
  intros Hr Hin. destruct (proj1 (batch_pools_last _ _ Hr (dpl_staking_pool_address p) p) (conj Hin eq_refl))
    as (i & t & d & Ht & Hd & Hm & Hlast).
  exists i, t, d. split_and!; try done. by destruct (proj1 (pools_hold _ _ Hd) _ _ Hm).
Qed.

(** C19: the current state does not depend on the order of the batches.  Each
    batch emits one row for every pool it writes, that of the last transaction that
    writes it, and one current balance for every delegator, pool and kind with a
    balance, the last of them.  When the rows that batches with distinct versions
    emit are written in any order, each of the five tables of current state ends up
    the same, and a row of it is the newest of the emitted rows of its key; in the
    table of pools, the emitted row with the smallest first version.  Of several
    writes of a pool inside one batch only the last is emitted, so its first version
    need not be the smallest over the transactions. *)
Theorem stake_tables_converge `{HashOrder} (batches : list (list Transaction)) (rows : list StakeRows)
    pool_voters balances pools pool_balances voters :
  NoDup (txn_versions (concat batches)) ->
  Forall2 (fun b r => stake_rows queries query_retries b = Ret (Ok r)) batches rows ->
  pool_voters ≡ₚ concat (rows_pool_voters <$> rows) ->
  balances ≡ₚ concat (rows_current_delegator_balances <$> rows) ->
  pools ≡ₚ concat (rows_delegator_pools <$> rows) ->
  pool_balances ≡ₚ concat (rows_current_delegator_pool_balances <$> rows) ->
  voters ≡ₚ concat (rows_delegated_voters <$> rows) ->
  Forall2 batch_pools batches rows /\ Forall batch_balances rows /\
  settles insert_current_stake_pool_voter_query pool_voters (concat (rows_pool_voters <$> rows)) /\
  settles insert_current_delegator_balances_query balances (concat (rows_current_delegator_balances <$> rows)) /\
  settles insert_delegator_pools_query pools (concat (rows_delegator_pools <$> rows)) /\
  settles insert_current_delegator_pool_balances_query pool_balances
    (concat (rows_current_delegator_pool_balances <$> rows)) /\
  settles insert_current_delegated_voter_query voters (concat (rows_delegated_voters <$> rows)).
Proof.
  intros Hn Hrows H1' H2' H3' H4' H5'. split_and!.
  - eapply Forall2_impl; [exact Hrows|]. intros b r. apply batch_pools_last.
  - clear -Hrows. induction Hrows; constructor; [by eapply current_balances_last|done].
  - eapply (batches_settle _ _ _ spv_last_transaction_version); [done|done| |done|exact Hrows|done].
    intros b r Hr. apply stake_rows_state in Hr as (st & _ & (I1 & _) & Hp & _). by eapply holds_rows.
  - eapply (batches_settle _ _ _ cdb_last_transaction_version); [done|done| |done|exact Hrows|done].
    intros b r Hr. apply stake_rows_state in Hr as (st & _ & (_ & I2 & I3 & _) & _ & _ & _ & Hp & _).
    assert (holds current_delegator_balance_pk (fun c => cdb_last_transaction_version c ∈ txn_versions b)
      (all_current_delegator_balances st)) as Hh.
    { intros k c Hk. specialize (I2 k). rewrite Hk in I2. inversion I2 as [bal ? (Hpk & _ & Hv & _) Hl|]; subst.
      symmetry in Hl. apply last_Some_elem_of, list_elem_of_filter in Hl as [<- Hin].
      rewrite Forall_forall in I3. rewrite Hv. auto. }
    destruct (holds_rows _ _ _ _ Hh Hp) as [Hnd Hv]. split; [|done].
    eapply NoDup_fmap_coarser; [exact Hnd|]. by intros x y _ _ [= ? ? ? ?]; unfold current_delegator_balance_pk; f_equal; [f_equal|].
  - eapply (batches_settle _ _ _ dpl_first_transaction_version); [simpl; lia|done| |done|exact Hrows|done].
    intros b r Hr. apply stake_rows_state in Hr as (st & _ & (_ & _ & _ & I4 & _) & _ & _ & _ & _ & Hp & _).
    by eapply holds_rows.
  - eapply (batches_settle _ _ _ cpb_last_transaction_version); [done|done| |done|exact Hrows|done].
    intros b r Hr. apply stake_rows_state in Hr as (st & _ & (_ & _ & _ & _ & I5 & _) & _ & _ & _ & _ & _ & Hp & _).
    by eapply holds_rows.
  - eapply (batches_settle _ _ _ cdv_last_transaction_version); [done|done| |done|exact Hrows|done].
    intros b r Hr. apply stake_rows_state in Hr as (st & _ & (_ & _ & _ & _ & _ & I6) & _ & _ & _ & _ & _ & _ & Hp).
    by eapply holds_rows.
Qed.

End StakeLaws.

(** ** A concrete batch *)

Section ConcreteStake.
#[local] Existing Instance pair_chrono.
#[local] Existing Instance int_bigdec.
#[local] Existing Instance plain_hex.
#[local] Existing Instance plain_sha.
#[local] Existing Instance text_json.
#[local] Existing Instance map_order.
#[local] Existing Instance no_proto_json.

(** A pool is written as the handle of its shares; a delegation pool has its
    active shares in the table it is written as, and its inactive pools in the
    table 0xb1; an added stake is written as its amount. *)
Definition ex_share_pool (handle : string) : PoolResource :=
  {| pool_shares := {| shares_inner := {| table_handle := handle |} |};
     pool_total_coins := 1000%Z : @BigDecimal int_bigdec;
     pool_total_shares := 1000%Z : @BigDecimal int_bigdec;
     pool_scaling_factor := 10%Z : @BigDecimal int_bigdec |}.
#[local] Instance stake_text_codec : StakeCodec :=
  {| de_StakePoolResource := no_de _;
     de_DelegationPoolResource :=
       {| de_from_str := fun _ => None;
          de_from_value := fun v => match v with
            | Str n => Some {| active_shares := ex_share_pool n; inactive_shares := {| table_handle := "0xb1" |};
                               dpr_operator_commission_percentage := 5%Z : @BigDecimal int_bigdec |}
            | _ => None
            end |};
     de_PoolResource := {| de_from_str := fun s => Some (ex_share_pool s); de_from_value := fun _ => None |};
     de_GovernanceVoteEvent := no_de _;
     de_DistributeRewardsEvent := no_de _;
     de_AddStakeEvent :=
       {| de_from_str := fun s => a ← int_parse s;
            Some {| amount_added := a; as_delegator_address := "0xd"; as_pool_address := "0x9" |};
          de_from_value := fun _ => None |};
     de_UnlockStakeEvent := no_de _;
     de_WithdrawStakeEvent := no_de _;
     de_ReactivateStakeEvent := no_de _;
     de_VoteDelegationVectors := no_de _;
     de_GovernanceRecordsResource := no_de _ |}.

Definition ex_pool_write (active : string) : WriteSetChangePB :=
  {| wsc_type := 0; wsc_change := Some (ChangeWriteResource
       {| wr_address := "0x9"; wr_state_key_hash := EmptyString;
          wr_type := Some (mk_MoveStructTag "0x1" "delegation_pool" "DelegationPool" []);
          wr_type_str := "0x1::delegation_pool::DelegationPool"; wr_data := active |}) |}.
Definition ex_item_write (handle key value_type value : string) : WriteSetChangePB :=
  {| wsc_type := 0; wsc_change := Some (ChangeWriteTableItem
       {| wti_state_key_hash := EmptyString; wti_handle := handle; wti_key := key;
          wti_data := Some {| wtd_key := key; wtd_key_type := "address"; wtd_value := value;
                              wtd_value_type := value_type |} |}) |}.
Definition ex_stake_txn (v : Z) (changes : list WriteSetChangePB) (events : list EventPB) : Transaction :=
  {| t_timestamp := Some {| seconds := v; nanos := 0 |}; t_version := v;
     t_info := Some
       {| ti_hash := EmptyString; ti_state_change_hash := EmptyString; ti_event_root_hash := EmptyString;
          ti_state_checkpoint_hash := None; ti_gas_used := 7; ti_success := true;
          ti_vm_status := EmptyString; ti_accumulator_root_hash := EmptyString; ti_changes := changes |};
     t_epoch := 0; t_block_height := 1; t_type := 4;
     t_size_info := None; t_txn_data := Some (TdUser {| ut_request := None; ut_events := events |}) |}.
Definition ex_add_stake : EventPB :=
  {| ev_key := None; ev_sequence_number := 1; ev_type := None;
     ev_type_str := "0x1::delegation_pool::AddStakeEvent"; ev_data := "40" |}.

(** The delegator 0xd adds stake to the pool 0x9, and later has shares in two
    inactive pools. *)
Definition ex_stake_batch : list Transaction :=
  [ex_stake_txn 7 [ex_pool_write "0xa1"; ex_item_write "0xa1" "0xd" "u128" "400"] [ex_add_stake];
   ex_stake_txn 8 [ex_pool_write "0xa1";
                   ex_item_write "0xb1" "1" "0x1::pool_u64_unbound::Pool" "0xc1";
                   ex_item_write "0xb1" "2" "0x1::pool_u64_unbound::Pool" "0xc2";
                   ex_item_write "0xc1" "0xd" "u128" "50"; ex_item_write "0xc2" "0xd" "u128" "60"] []].
Definition ex_stake_next : list Transaction :=
  [ex_stake_txn 9 [ex_pool_write "0xa1"; ex_item_write "0xa1" "0xd" "u128" "300"] []].
(** A database that knows nothing. *)
Definition ex_no_answers : StakeQueries :=
  {| q_pool_by_inactive_handle := fun _ _ _ _ => Err; q_pool_by_table_handle := fun _ _ _ _ => Err;
     q_voter_by_pk := fun _ _ _ _ _ => Err |}.
Definition ex_no_stake : StakeRows :=
  {| rows_pool_voters := []; rows_proposal_votes := []; rows_delegator_activities := [];
     rows_delegator_balances := []; rows_current_delegator_balances := []; rows_delegator_pools := [];
     rows_delegator_pool_balances := []; rows_current_delegator_pool_balances := [];
     rows_delegated_voters := [] |}.
Definition ok_or {A} (d : A) (r : result A) : A := match r with Ok a => a | Err => d end.
Definition ex_stake_of (ts : list Transaction) : StakeRows :=
  ok_or ex_no_stake (ret_or Err (stake_rows ex_no_answers 5 ts)).

Lemma ex_stake_ok ts :
  match stake_rows ex_no_answers 5 ts with Ret (Ok _) => true | _ => false end = true ->
  stake_rows ex_no_answers 5 ts = Ret (Ok (ex_stake_of ts)).
Proof. unfold ex_stake_of. by destruct (stake_rows _ _ _) as [[]|]. Qed.
Lemma ex_stake_batch_ok : stake_rows ex_no_answers 5 ex_stake_batch = Ret (Ok (ex_stake_of ex_stake_batch)).
Proof. apply ex_stake_ok. vm_compute. reflexivity. Qed.
Lemma ex_stake_next_ok : stake_rows ex_no_answers 5 ex_stake_next = Ret (Ok (ex_stake_of ex_stake_next)).
Proof. apply ex_stake_ok. vm_compute. reflexivity. Qed.

Lemma stake_activities_exact_witness :
  (dsa_amount <$> rows_delegator_activities (ex_stake_of ex_stake_batch)) = [40%Z] /\
  rows_delegator_activities (ex_stake_of ex_stake_batch) = ex_stake_batch ≫= txn_stake_activities.
Proof.
  split; [vm_compute; reflexivity|].
  destruct (stake_activities_exact ex_no_answers 5 ex_stake_batch (ex_stake_of ex_stake_batch)) as [Ha _].
  - repeat constructor; simpl; lia.
  - apply (bool_decide_unpack _). vm_compute. exact I.
  - exact ex_stake_batch_ok.
  - exact Ha.
Defined.

(** Three balances, of which the first inactive one does not become current. *)
Lemma current_balances_last_witness :
  (dbl_shares <$> rows_delegator_balances (ex_stake_of ex_stake_batch)) = [40; 5; 6]%Z /\
  (cdb_shares <$> rows_current_delegator_balances (ex_stake_of ex_stake_batch)) = [40; 6]%Z /\
  NoDup (current_delegator_balance_pk <$> rows_current_delegator_balances (ex_stake_of ex_stake_batch)).
Proof.
  split; [vm_compute; reflexivity|]. split; [vm_compute; reflexivity|].
  apply (current_balances_last ex_no_answers 5 ex_stake_batch). exact ex_stake_batch_ok.
Defined.

(** The pool is written by versions 7 and 8, and 8 is stored as the first. *)
Lemma pool_first_version_is_last_witness :
  exists p, rows_delegator_pools (ex_stake_of ex_stake_batch) = [p] /\ dpl_first_transaction_version p = 8%Z /\
  exists i t d, ex_stake_batch !! i = Some t /\ pools_from_transaction t = Ret (Ok d) /\
    delegator_pool_map d !! dpl_staking_pool_address p = Some p /\
    dpl_first_transaction_version p = as_i64 (t_version t).
Proof.
  exists {| dpl_staking_pool_address := standardize_address "0x9"; dpl_first_transaction_version := 8 |}.
  split; [vm_compute; reflexivity|]. split; [reflexivity|].
  destruct (pool_first_version_is_last ex_no_answers 5 ex_stake_batch (ex_stake_of ex_stake_batch)
    {| dpl_staking_pool_address := standardize_address "0x9"; dpl_first_transaction_version := 8 |})
    as (i & t & d & Ht & Hd & Hm & Hv & _).
  - exact ex_stake_batch_ok.
  - replace (rows_delegator_pools (ex_stake_of ex_stake_batch)) with
      [{| dpl_staking_pool_address := standardize_address "0x9"; dpl_first_transaction_version := 8 |}]
      by (vm_compute; reflexivity). left.
  - exists i, t, d. split; [exact Ht|]. split; [exact Hd|]. split; [exact Hm|exact Hv].
Defined.

Definition ex_active_pool : gmap string DelegatorPoolBalanceMetadata :=
  {[standardize_address "0xa1" :=
     {| pbm_transaction_version := 8; pbm_staking_pool_address := standardize_address "0x9";
        pbm_total_coins := 1000%Z : @BigDecimal int_bigdec; pbm_total_shares := 100%Z : @BigDecimal int_bigdec;
        pbm_scaling_factor := 10%Z : @BigDecimal int_bigdec;
        pbm_operator_commission_percentage := 5%Z : @BigDecimal int_bigdec;
        pbm_active_share_table_handle := standardize_address "0xa1";
        pbm_inactive_share_table_handle := standardize_address "0xb1" |}]}.
Definition ex_default_voters : gmap (string * string) CurrentDelegatedVoter :=
  ret_or ∅ (foldM (default_voter_step ex_no_answers 5 9 ((0, 0)%Z : @NaiveDateTime pair_chrono) ex_active_pool) ∅
    (enumerate [ex_item_write "0xa1" "0xd" "u128" "300"])).
Lemma default_voters_safe_witness :
  exists c, ex_default_voters !! (standardize_address "0x9", standardize_address "0xd") = Some c /\
    cdv_voter c = Some (standardize_address "0xd").
Proof.
  destruct (default_voters_safe ex_no_answers 5 9 ((0, 0)%Z : @NaiveDateTime pair_chrono) ex_active_pool
    [ex_item_write "0xa1" "0xd" "u128" "300"] ∅ ex_default_voters) as [_ Hnew].
  - apply ret_or_eq. vm_compute. reflexivity.
  - destruct (ex_default_voters !! (standardize_address "0x9", standardize_address "0xd")) as [c|] eqn:Hc.
    + exists c. split; [reflexivity|]. apply (Hnew _ _ c Hc). apply lookup_empty.
    + assert (match ex_default_voters !! (standardize_address "0x9", standardize_address "0xd") with
              | Some _ => true | None => false end = true) as Hs by (vm_compute; reflexivity).
      rewrite Hc in Hs. discriminate Hs.
Defined.

(** The batches are written in the reverse order. *)
Lemma stake_tables_converge_witness :
  let rows := [ex_stake_of ex_stake_batch; ex_stake_of ex_stake_next] in
  settles insert_current_delegator_balances_query
    (reverse (concat (rows_current_delegator_balances <$> rows)))
    (concat (rows_current_delegator_balances <$> rows)).
Proof.
  intros rows.
  destruct (stake_tables_converge ex_no_answers 5 [ex_stake_batch; ex_stake_next] rows
    (reverse (concat (rows_pool_voters <$> rows)))
    (reverse (concat (rows_current_delegator_balances <$> rows)))
    (reverse (concat (rows_delegator_pools <$> rows)))
    (reverse (concat (rows_current_delegator_pool_balances <$> rows)))
    (reverse (concat (rows_delegated_voters <$> rows)))) as (_ & _ & _ & Hb & _).
  - apply (bool_decide_unpack _). vm_compute. exact I.
  - constructor; [exact ex_stake_batch_ok|]. constructor; [exact ex_stake_next_ok|constructor].
  - apply reverse_Permutation.
  - apply reverse_Permutation.
  - apply reverse_Permutation.
  - apply reverse_Permutation.
  - apply reverse_Permutation.
  - exact Hb.
Defined.
End ConcreteStake.
