(* ===== verification/Ans.v ===== *)
(** * Aptos names

    [models/ans_models] and [processors/ans_processor.rs]: name records and
    primary names of both versions of the name service.  The rows of version 1
    are also written to the tables of version 2. *)
From S2P Require Import Prelude RustStr Json Externals Proto Util Database Processors.
From S2P Require Import DefaultModels TokenResources.

(** ** Records and events: [ans_utils.rs] *)

Definition DOMAIN_LENGTH : nat := 64.

Record OptionalString := { os_vec : list string }.
Definition get_string (o : OptionalString) : option string := head (os_vec o).

Definition get_token_name (domain_name subdomain_name : string) : outcome string :=
  domain ← truncate_str domain_name DOMAIN_LENGTH;
  subdomain ← truncate_str subdomain_name DOMAIN_LENGTH;
  let token_name := domain +:+ ".apt" in
  Ret (if decide (subdomain = EmptyString) then token_name else subdomain +:+ "." +:+ token_name).

Section AnsRecords.
Context `{Chrono, BigDec, ProtoJson}.

Record OptionalBigDecimal := { obd_vec : list BigDecimal }.
Definition get_big_decimal (o : OptionalBigDecimal) : option BigDecimal := head (obd_vec o).

Record NameRecordKeyV1 := { nrk_domain_name : string; nrk_subdomain_name : OptionalString }.
Definition key_domain_trunc (k : NameRecordKeyV1) : outcome string :=
  truncate_str (nrk_domain_name k) DOMAIN_LENGTH.
Definition key_subdomain_trunc (k : NameRecordKeyV1) : outcome string :=
  truncate_str (default EmptyString (get_string (nrk_subdomain_name k))) DOMAIN_LENGTH.
Definition key_token_name (k : NameRecordKeyV1) : outcome string :=
  domain ← key_domain_trunc k;
  subdomain ← key_subdomain_trunc k;
  get_token_name domain subdomain.

Record NameRecordV1 := {
  nr1_expiration_time_sec : BigDecimal;
  nr1_property_version : BigDecimal;
  nr1_target_address : OptionalString;
}.
Definition record_v1_expiration_time (r : NameRecordV1) : outcome NaiveDateTime :=
  secs ← bigdecimal_to_u64 (nr1_expiration_time_sec r);
  parse_timestamp_secs secs 0.
Definition get_property_version (r : NameRecordV1) : outcome Z := bigdecimal_to_u64 (nr1_property_version r).
Definition record_v1_target_address (r : NameRecordV1) : option string :=
  standardize_address <$> get_string (nr1_target_address r).

Record NameRecordV2 := {
  nr2_domain_name : string;
  nr2_expiration_time_sec : BigDecimal;
  nr2_target_address : OptionalString;
}.
Definition record_v2_domain_trunc (r : NameRecordV2) : outcome string :=
  truncate_str (nr2_domain_name r) DOMAIN_LENGTH.
Definition record_v2_expiration_time (r : NameRecordV2) : outcome NaiveDateTime :=
  secs ← bigdecimal_to_u64 (nr2_expiration_time_sec r);
  parse_timestamp_secs secs 0.
Definition record_v2_target_address (r : NameRecordV2) : option string :=
  standardize_address <$> get_string (nr2_target_address r).

Record SubdomainExtV2 := { subdomain_expiration_policy : Z; sde_subdomain_name : string }.
Definition ext_subdomain_trunc (e : SubdomainExtV2) : outcome string :=
  truncate_str (sde_subdomain_name e) DOMAIN_LENGTH.

Record RenewNameEvent := {
  rne_domain_name : string;
  rne_expiration_time_secs : BigDecimal;
  rne_is_primary_name : bool;
  rne_subdomain_name : OptionalString;
  rne_target_address : OptionalString;
}.
Record SetReverseLookupEvent := {
  srl_account_addr : string;
  srl_curr_domain_name : OptionalString;
  srl_curr_expiration_time_secs : OptionalBigDecimal;
  srl_curr_subdomain_name : OptionalString;
  srl_prev_domain_name : OptionalString;
  srl_prev_expiration_time_secs : OptionalBigDecimal;
  srl_prev_subdomain_name : OptionalString;
}.
Definition get_account_addr (e : SetReverseLookupEvent) : string := standardize_address (srl_account_addr e).
Definition get_curr_domain_trunc (e : SetReverseLookupEvent) : outcome string :=
  truncate_str (default EmptyString (get_string (srl_curr_domain_name e))) DOMAIN_LENGTH.
Definition get_curr_subdomain_trunc (e : SetReverseLookupEvent) : outcome string :=
  truncate_str (default EmptyString (get_string (srl_curr_subdomain_name e))) DOMAIN_LENGTH.
Definition get_curr_token_name (e : SetReverseLookupEvent) : outcome string :=
  domain ← get_curr_domain_trunc e;
  subdomain ← get_curr_subdomain_trunc e;
  get_token_name domain subdomain.
Definition optional_expiration (secs : OptionalBigDecimal) : outcome (option NaiveDateTime) :=
  match get_big_decimal secs with
  | Some x => x ← bigdecimal_to_u64 x; t ← parse_timestamp_secs x 0; Ret (Some t)
  | None => Ret None
  end.
Definition get_curr_expiration_time (e : SetReverseLookupEvent) : outcome (option NaiveDateTime) :=
  optional_expiration (srl_curr_expiration_time_secs e).
Definition get_prev_domain_trunc (e : SetReverseLookupEvent) : outcome string :=
  truncate_str (default EmptyString (get_string (srl_prev_domain_name e))) DOMAIN_LENGTH.
Definition get_prev_subdomain_trunc (e : SetReverseLookupEvent) : outcome string :=
  truncate_str (default EmptyString (get_string (srl_prev_subdomain_name e))) DOMAIN_LENGTH.
Definition get_prev_token_name (e : SetReverseLookupEvent) : outcome string :=
  domain ← get_prev_domain_trunc e;
  subdomain ← get_prev_subdomain_trunc e;
  get_token_name domain subdomain.
Definition get_prev_expiration_time (e : SetReverseLookupEvent) : outcome (option NaiveDateTime) :=
  optional_expiration (srl_prev_expiration_time_secs e).

Inductive AnsTableItem :=
| AtNameRecordKeyV1 (k : NameRecordKeyV1)
| AtNameRecordV1 (r : NameRecordV1).
Inductive AnsWriteResource :=
| AwNameRecordV2 (r : NameRecordV2)
| AwSubdomainExtV2 (e : SubdomainExtV2).
Inductive V2AnsEvent :=
| AeSetReverseLookupEvent (e : SetReverseLookupEvent)
| AeRenewNameEvent (e : RenewNameEvent).

(** The derived [Deserialize] implementations. *)
Class AnsCodec := {
  de_NameRecordKeyV1 :: Deserialize NameRecordKeyV1;
  de_NameRecordV1 :: Deserialize NameRecordV1;
  de_NameRecordV2 :: Deserialize NameRecordV2;
  de_SubdomainExtV2 :: Deserialize SubdomainExtV2;
  de_RenewNameEvent :: Deserialize RenewNameEvent;
  de_SetReverseLookupEvent :: Deserialize SetReverseLookupEvent;
}.
Context `{!AnsCodec}.

(** [AnsTableItem::from_table_item]. *)
Definition ans_table_item (data_type_name data : string) (txn_version : Z) : result (option AnsTableItem) :=
  if decide (data_type_name = "NameRecordKeyV1") then (Some ∘ AtNameRecordKeyV1) <$> context (de_from_str data)
  else if decide (data_type_name = "NameRecordV1") then (Some ∘ AtNameRecordV1) <$> context (de_from_str data)
  else Ok None.

(** [AnsWriteResource::from_write_resource]: the configured address is
    compared with the standard form of the resource's. *)
Definition ans_write_resource (write_resource : WriteResource) (ans_v2_contract_address : string)
    (txn_version : Z) : outcome (result (option AnsWriteResource)) :=
  type_str ← get_outer_type_from_resource write_resource;
  let data := wr_data write_resource in
  Ret (if decide (type_str = ans_v2_contract_address +:+ "::v2_1_domains::NameRecord") then
         (Some ∘ AwNameRecordV2) <$> context (de_from_str data)
       else if decide (type_str = ans_v2_contract_address +:+ "::v2_1_domains::SubdomainExt") then
         (Some ∘ AwSubdomainExtV2) <$> context (de_from_str data)
       else Ok None).
Definition name_record_v2_from_write_resource (write_resource : WriteResource)
    (ans_v2_contract_address : string) (txn_version : Z) : outcome (result (option NameRecordV2)) :=
  r <-? ans_write_resource write_resource ans_v2_contract_address txn_version;
  Ret (Ok (match r with Some (AwNameRecordV2 inner) => Some inner | _ => None end)).
Definition subdomain_ext_from_write_resource (write_resource : WriteResource)
    (ans_v2_contract_address : string) (txn_version : Z) : outcome (result (option SubdomainExtV2)) :=
  r <-? ans_write_resource write_resource ans_v2_contract_address txn_version;
  Ret (Ok (match r with Some (AwSubdomainExtV2 inner) => Some inner | _ => None end)).

Definition is_event_supported (event_type ans_v2_contract_address : string) : bool :=
  bool_decide (event_type ∈
    [ans_v2_contract_address +:+ "::v2_1_domains::SetReverseLookupEvent";
     ans_v2_contract_address +:+ "::v2_1_domains::RenewNameEvent"]).
(** [V2AnsEvent::from_event]. *)
Definition v2_ans_event (event : EventPB) (ans_v2_contract_address : string) (txn_version : Z)
  : result (option V2AnsEvent) :=
  let type_str := ev_type_str event in
  let data := ev_data event in
  if is_event_supported type_str ans_v2_contract_address then
    if decide (type_str = ans_v2_contract_address +:+ "::v2_1_domains::SetReverseLookupEvent") then
      (Some ∘ AeSetReverseLookupEvent) <$> context (de_from_str data)
    else if decide (type_str = ans_v2_contract_address +:+ "::v2_1_domains::RenewNameEvent") then
      (Some ∘ AeRenewNameEvent) <$> context (de_from_str data)
    else Ok None
  else Ok None.
Definition renew_name_from_event (event : EventPB) (ans_v2_contract_address : string) (txn_version : Z)
  : outcome (result (option RenewNameEvent)) :=
  e ← unwrap_result (v2_ans_event event ans_v2_contract_address txn_version);
  Ret (Ok (match e with Some (AeRenewNameEvent inner) => Some inner | _ => None end)).
Definition set_reverse_lookup_from_event (event : EventPB) (ans_v2_contract_address : string) (txn_version : Z)
  : outcome (result (option SetReverseLookupEvent)) :=
  e ← unwrap_result (v2_ans_event event ans_v2_contract_address txn_version);
  Ret (Ok (match e with Some (AeSetReverseLookupEvent inner) => Some inner | _ => None end)).
End AnsRecords.

Section Ans.
Context `{Chrono, BigDec, JsonParse, ProtoJson}.
Context `{!AnsCodec}.

(** ** Rows *)

Record CurrentAnsLookup := {
  cal_domain : string;
  cal_subdomain : string;
  cal_registered_address : option string;
  cal_last_transaction_version : Z;
  cal_expiration_timestamp : NaiveDateTime;
  cal_token_name : string;
  cal_is_deleted : bool;
}.
Record AnsLookup := {
  al_transaction_version : Z;
  al_write_set_change_index : Z;
  al_domain : string;
  al_subdomain : string;
  al_registered_address : option string;
  al_expiration_timestamp : NaiveDateTime;
  al_token_name : string;
  al_is_deleted : bool;
}.
Record CurrentAnsPrimaryName := {
  cap_registered_address : string;
  cap_domain : option string;
  cap_subdomain : option string;
  cap_token_name : option string;
  cap_is_deleted : bool;
  cap_last_transaction_version : Z;
}.
Record AnsPrimaryName := {
  ap_transaction_version : Z;
  ap_write_set_change_index : Z;
  ap_registered_address : string;
  ap_domain : option string;
  ap_subdomain : option string;
  ap_token_name : option string;
  ap_is_deleted : bool;
}.
Record CurrentAnsLookupV2 := {
  cal2_domain : string;
  cal2_subdomain : string;
  cal2_token_standard : string;
  cal2_registered_address : option string;
  cal2_last_transaction_version : Z;
  cal2_expiration_timestamp : NaiveDateTime;
  cal2_token_name : string;
  cal2_is_deleted : bool;
  cal2_subdomain_expiration_policy : option Z;
}.
Record AnsLookupV2 := {
  al2_transaction_version : Z;
  al2_write_set_change_index : Z;
  al2_domain : string;
  al2_subdomain : string;
  al2_token_standard : string;
  al2_registered_address : option string;
  al2_expiration_timestamp : NaiveDateTime;
  al2_token_name : string;
  al2_is_deleted : bool;
  al2_subdomain_expiration_policy : option Z;
}.
Record CurrentAnsPrimaryNameV2 := {
  cap2_registered_address : string;
  cap2_token_standard : string;
  cap2_domain : option string;
  cap2_subdomain : option string;
  cap2_token_name : option string;
  cap2_is_deleted : bool;
  cap2_last_transaction_version : Z;
}.
Record AnsPrimaryNameV2 := {
  ap2_transaction_version : Z;
  ap2_write_set_change_index : Z;
  ap2_registered_address : string;
  ap2_token_standard : string;
  ap2_domain : option string;
  ap2_subdomain : option string;
  ap2_token_name : option string;
  ap2_is_deleted : bool;
}.
#[export] Instance CurrentAnsLookup_fields : FieldCount CurrentAnsLookup := 7.
#[export] Instance AnsLookup_fields : FieldCount AnsLookup := 8.
#[export] Instance CurrentAnsPrimaryName_fields : FieldCount CurrentAnsPrimaryName := 6.
#[export] Instance AnsPrimaryName_fields : FieldCount AnsPrimaryName := 7.
#[export] Instance CurrentAnsLookupV2_fields : FieldCount CurrentAnsLookupV2 := 9.
#[export] Instance AnsLookupV2_fields : FieldCount AnsLookupV2 := 10.
#[export] Instance CurrentAnsPrimaryNameV2_fields : FieldCount CurrentAnsPrimaryNameV2 := 7.
#[export] Instance AnsPrimaryNameV2_fields : FieldCount AnsPrimaryNameV2 := 8.

Definition cal_pk (c : CurrentAnsLookup) : string * string := (cal_domain c, cal_subdomain c).
Definition cap_pk (c : CurrentAnsPrimaryName) : string := cap_registered_address c.
Definition cal2_pk (c : CurrentAnsLookupV2) : string * string * string :=
  (cal2_domain c, cal2_subdomain c, cal2_token_standard c).
Definition cap2_pk (c : CurrentAnsPrimaryNameV2) : string * string :=
  (cap2_registered_address c, cap2_token_standard c).

(** ** Version 1: [ans_lookup.rs] *)

Definition parse_name_record_from_write_table_item_v1 (write_table_item : WriteTableItem)
    (ans_v1_name_records_table_handle : string) (txn_version write_set_change_index : Z)
  : outcome (result (option (CurrentAnsLookup * AnsLookup))) :=
  let table_handle := standardize_address (wti_handle write_table_item) in
  if decide (table_handle = standardize_address ans_v1_name_records_table_handle) then
    match wti_data write_table_item with
    | Some data =>
        key_type_name ← get_name_from_unnested_move_type (wtd_key_type data);
        key <-? Ret (ans_table_item key_type_name (wtd_key data) txn_version);
        match key with
        | Some (AtNameRecordKeyV1 name_record_key) =>
            value_type_name ← get_name_from_unnested_move_type (wtd_value_type data);
            value <-? Ret (ans_table_item value_type_name (wtd_value data) txn_version);
            match value with
            | Some (AtNameRecordV1 name_record) =>
                domain ← key_domain_trunc name_record_key;
                subdomain ← key_subdomain_trunc name_record_key;
                expiration ← record_v1_expiration_time name_record;
                token_name ← key_token_name name_record_key;
                Ret (Ok (Some
                  ({| cal_domain := domain; cal_subdomain := subdomain;
                      cal_registered_address := record_v1_target_address name_record;
                      cal_last_transaction_version := txn_version;
                      cal_expiration_timestamp := expiration; cal_token_name := token_name;
                      cal_is_deleted := false |},
                   {| al_transaction_version := txn_version;
                      al_write_set_change_index := write_set_change_index;
                      al_domain := domain; al_subdomain := subdomain;
                      al_registered_address := record_v1_target_address name_record;
                      al_expiration_timestamp := expiration; al_token_name := token_name;
                      al_is_deleted := false |})))
            | _ => Ret (Ok None)
            end
        | _ => Ret (Ok None)
        end
    | None => Ret (Ok None)
    end
  else Ret (Ok None).

Definition parse_name_record_from_delete_table_item_v1 (delete_table_item : DeleteTableItem)
    (ans_v1_name_records_table_handle : string) (txn_version write_set_change_index : Z)
  : outcome (result (option (CurrentAnsLookup * AnsLookup))) :=
  let table_handle := standardize_address (dti_handle delete_table_item) in
  if decide (table_handle = standardize_address ans_v1_name_records_table_handle) then
    match dti_data delete_table_item with
    | Some data =>
        key_type_name ← get_name_from_unnested_move_type (dtd_key_type data);
        key <-? Ret (ans_table_item key_type_name (dtd_key data) txn_version);
        match key with
        | Some (AtNameRecordKeyV1 name_record_key) =>
            domain ← key_domain_trunc name_record_key;
            subdomain ← key_subdomain_trunc name_record_key;
            token_name ← key_token_name name_record_key;
            Ret (Ok (Some
              ({| cal_domain := domain; cal_subdomain := subdomain; cal_registered_address := None;
                  cal_last_transaction_version := txn_version;
                  cal_expiration_timestamp := naive_default; cal_token_name := token_name;
                  cal_is_deleted := true |},
               {| al_transaction_version := txn_version;
                  al_write_set_change_index := write_set_change_index;
                  al_domain := domain; al_subdomain := subdomain; al_registered_address := None;
                  al_expiration_timestamp := naive_default; al_token_name := token_name;
                  al_is_deleted := true |})))
        | _ => Ret (Ok None)
        end
    | None => Ret (Ok None)
    end
  else Ret (Ok None).

(** [serde_json::from_str::<String>]. *)
Definition string_from_str (s : string) : option string := json_from_str s ≫= as_str.

Definition parse_primary_name_record_from_write_table_item_v1 (write_table_item : WriteTableItem)
    (ans_v1_primary_names_table_handle : string) (txn_version write_set_change_index : Z)
  : outcome (result (option (CurrentAnsPrimaryName * AnsPrimaryName))) :=
  let table_handle := standardize_address (wti_handle write_table_item) in
  if decide (table_handle = standardize_address ans_v1_primary_names_table_handle) then
    match wti_data write_table_item with
    | Some data =>
        if decide (wtd_key_type data = "address") then
          decoded_key ← unwrap (string_from_str (wtd_key data));
          let registered_address := standardize_address decoded_key in
          value_type_name ← get_name_from_unnested_move_type (wtd_value_type data);
          value <-? Ret (ans_table_item value_type_name (wtd_value data) txn_version);
          match value with
          | Some (AtNameRecordKeyV1 name_record_key) =>
              domain ← key_domain_trunc name_record_key;
              subdomain ← key_subdomain_trunc name_record_key;
              token_name ← key_token_name name_record_key;
              Ret (Ok (Some
                ({| cap_registered_address := registered_address; cap_domain := Some domain;
                    cap_subdomain := Some subdomain; cap_token_name := Some token_name;
                    cap_is_deleted := false; cap_last_transaction_version := txn_version |},
                 {| ap_transaction_version := txn_version;
                    ap_write_set_change_index := write_set_change_index;
                    ap_registered_address := registered_address; ap_domain := Some domain;
                    ap_subdomain := Some subdomain; ap_token_name := Some token_name;
                    ap_is_deleted := false |})))
          | _ => Ret (Ok None)
          end
        else Ret (Ok None)
    | None => Ret (Ok None)
    end
  else Ret (Ok None).

Definition parse_primary_name_record_from_delete_table_item_v1 (delete_table_item : DeleteTableItem)
    (ans_v1_primary_names_table_handle : string) (txn_version write_set_change_index : Z)
  : outcome (result (option (CurrentAnsPrimaryName * AnsPrimaryName))) :=
  let table_handle := standardize_address (dti_handle delete_table_item) in
  if decide (table_handle = standardize_address ans_v1_primary_names_table_handle) then
    match dti_data delete_table_item with
    | Some data =>
        if decide (dtd_key_type data = "address") then
          decoded_key ← unwrap (string_from_str (dtd_key data));
          let registered_address := standardize_address decoded_key in
          Ret (Ok (Some
            ({| cap_registered_address := registered_address; cap_domain := None; cap_subdomain := None;
                cap_token_name := None; cap_is_deleted := true;
                cap_last_transaction_version := txn_version |},
             {| ap_transaction_version := txn_version;
                ap_write_set_change_index := write_set_change_index;
                ap_registered_address := registered_address; ap_domain := None; ap_subdomain := None;
                ap_token_name := None; ap_is_deleted := true |})))
        else Ret (Ok None)
    | None => Ret (Ok None)
    end
  else Ret (Ok None).

(** ** Version 2: [ans_lookup_v2.rs] *)

(** [CurrentAnsLookupV2::get_v2_from_v1]. *)
Definition lookup_v2_from_v1 (c : CurrentAnsLookup) (l : AnsLookup) : CurrentAnsLookupV2 * AnsLookupV2 :=
  ({| cal2_domain := cal_domain c; cal2_subdomain := cal_subdomain c;
      cal2_token_standard := standard_to_string StandardV1;
      cal2_registered_address := cal_registered_address c;
      cal2_last_transaction_version := cal_last_transaction_version c;
      cal2_expiration_timestamp := cal_expiration_timestamp c;
      cal2_token_name := cal_token_name c; cal2_is_deleted := cal_is_deleted c;
      cal2_subdomain_expiration_policy := None |},
   {| al2_transaction_version := al_transaction_version l;
      al2_write_set_change_index := al_write_set_change_index l;
      al2_domain := al_domain l; al2_subdomain := al_subdomain l;
      al2_token_standard := standard_to_string StandardV1;
      al2_registered_address := al_registered_address l;
      al2_expiration_timestamp := al_expiration_timestamp l;
      al2_token_name := al_token_name l; al2_is_deleted := al_is_deleted l;
      al2_subdomain_expiration_policy := None |}).
(** [CurrentAnsPrimaryNameV2::get_v2_from_v1]. *)
Definition primary_v2_from_v1 (c : CurrentAnsPrimaryName) (p : AnsPrimaryName)
  : CurrentAnsPrimaryNameV2 * AnsPrimaryNameV2 :=
  ({| cap2_registered_address := cap_registered_address c;
      cap2_token_standard := standard_to_string StandardV1;
      cap2_domain := cap_domain c; cap2_subdomain := cap_subdomain c;
      cap2_token_name := cap_token_name c; cap2_is_deleted := cap_is_deleted c;
      cap2_last_transaction_version := cap_last_transaction_version c |},
   {| ap2_transaction_version := ap_transaction_version p;
      ap2_write_set_change_index := ap_write_set_change_index p;
      ap2_registered_address := ap_registered_address p;
      ap2_token_standard := standard_to_string StandardV1;
      ap2_domain := ap_domain p; ap2_subdomain := ap_subdomain p;
      ap2_token_name := ap_token_name p; ap2_is_deleted := ap_is_deleted p |}).

Definition parse_name_record_from_write_resource_v2 (write_resource : WriteResource)
    (ans_v2_contract_address : string) (txn_version write_set_change_index : Z)
    (address_to_subdomain_ext : gmap string SubdomainExtV2)
  : outcome (result (option (CurrentAnsLookupV2 * AnsLookupV2))) :=
  r ← name_record_v2_from_write_resource write_resource ans_v2_contract_address txn_version;
  r ← unwrap_result r;
  match r with
  | Some inner =>
      '(subdomain_name, policy) ←
        match address_to_subdomain_ext !! standardize_address (wr_address write_resource) with
        | Some s => name ← ext_subdomain_trunc s; Ret (name, Some (subdomain_expiration_policy s))
        | None => Ret (EmptyString, None)
        end;
      domain ← record_v2_domain_trunc inner;
      token_name ← get_token_name domain subdomain_name;
      expiration ← record_v2_expiration_time inner;
      Ret (Ok (Some
        ({| cal2_domain := domain; cal2_subdomain := subdomain_name;
            cal2_token_standard := standard_to_string StandardV2;
            cal2_registered_address := record_v2_target_address inner;
            cal2_last_transaction_version := txn_version;
            cal2_expiration_timestamp := expiration; cal2_token_name := token_name;
            cal2_is_deleted := false; cal2_subdomain_expiration_policy := policy |},
         {| al2_transaction_version := txn_version;
            al2_write_set_change_index := write_set_change_index;
            al2_domain := domain; al2_subdomain := subdomain_name;
            al2_token_standard := standard_to_string StandardV2;
            al2_registered_address := record_v2_target_address inner;
            al2_expiration_timestamp := expiration; al2_token_name := token_name;
            al2_is_deleted := false; al2_subdomain_expiration_policy := policy |})))
  | None => Ret (Ok None)
  end.

(** The index of an event is made negative; it is below [2^63 - 1], so that
    nothing overflows. *)
Definition parse_v2_primary_name_record_from_event (event : EventPB) (txn_version event_index : Z)
    (ans_v2_contract_address : string)
  : outcome (result (option (CurrentAnsPrimaryNameV2 * AnsPrimaryNameV2))) :=
  r ← set_reverse_lookup_from_event event ans_v2_contract_address txn_version;
  r ← unwrap_result r;
  match r with
  | Some e =>
      domain ← get_curr_domain_trunc e;
      if decide (domain = EmptyString) then
        Ret (Ok (Some
          ({| cap2_registered_address := get_account_addr e;
              cap2_token_standard := standard_to_string StandardV2;
              cap2_domain := None; cap2_subdomain := None; cap2_token_name := None;
              cap2_is_deleted := true; cap2_last_transaction_version := txn_version |},
           {| ap2_transaction_version := txn_version;
              ap2_write_set_change_index := (- (event_index + 1))%Z;
              ap2_registered_address := get_account_addr e;
              ap2_token_standard := standard_to_string StandardV2;
              ap2_domain := None; ap2_subdomain := None; ap2_token_name := None;
              ap2_is_deleted := true |})))
      else
        subdomain ← get_curr_subdomain_trunc e;
        token_name ← get_curr_token_name e;
        Ret (Ok (Some
          ({| cap2_registered_address := get_account_addr e;
              cap2_token_standard := standard_to_string StandardV2;
              cap2_domain := Some domain; cap2_subdomain := Some subdomain;
              cap2_token_name := Some token_name;
              cap2_is_deleted := false; cap2_last_transaction_version := txn_version |},
           {| ap2_transaction_version := txn_version;
              ap2_write_set_change_index := (- (event_index + 1))%Z;
              ap2_registered_address := get_account_addr e;
              ap2_token_standard := standard_to_string StandardV2;
              ap2_domain := Some domain; ap2_subdomain := Some subdomain;
              ap2_token_name := Some token_name; ap2_is_deleted := false |})))
  | None => Ret (Ok None)
  end.

(** ** The processor: [ans_processor.rs] *)

Record AnsState := {
  all_current_ans_lookups : gmap (string * string) CurrentAnsLookup;
  all_ans_lookups : list AnsLookup;
  all_current_ans_primary_names : gmap string CurrentAnsPrimaryName;
  all_ans_primary_names : list AnsPrimaryName;
  all_current_ans_lookups_v2 : gmap (string * string * string) CurrentAnsLookupV2;
  all_ans_lookups_v2 : list AnsLookupV2;
  all_current_ans_primary_names_v2 : gmap (string * string) CurrentAnsPrimaryNameV2;
  all_ans_primary_names_v2 : list AnsPrimaryNameV2;
}.
Definition ans_init : AnsState :=
  {| all_current_ans_lookups := ∅; all_ans_lookups := [];
     all_current_ans_primary_names := ∅; all_ans_primary_names := [];
     all_current_ans_lookups_v2 := ∅; all_ans_lookups_v2 := [];
     all_current_ans_primary_names_v2 := ∅; all_ans_primary_names_v2 := [] |}.

Definition push_lookup_v2 (st : AnsState) (p : CurrentAnsLookupV2 * AnsLookupV2) : AnsState :=
  {| all_current_ans_lookups := all_current_ans_lookups st;
     all_ans_lookups := all_ans_lookups st;
     all_current_ans_primary_names := all_current_ans_primary_names st;
     all_ans_primary_names := all_ans_primary_names st;
     all_current_ans_lookups_v2 := <[cal2_pk p.1 := p.1]> (all_current_ans_lookups_v2 st);
     all_ans_lookups_v2 := all_ans_lookups_v2 st ++ [p.2];
     all_current_ans_primary_names_v2 := all_current_ans_primary_names_v2 st;
     all_ans_primary_names_v2 := all_ans_primary_names_v2 st |}.
Definition push_primary_v2 (st : AnsState) (p : CurrentAnsPrimaryNameV2 * AnsPrimaryNameV2) : AnsState :=
  {| all_current_ans_lookups := all_current_ans_lookups st;
     all_ans_lookups := all_ans_lookups st;
     all_current_ans_primary_names := all_current_ans_primary_names st;
     all_ans_primary_names := all_ans_primary_names st;
     all_current_ans_lookups_v2 := all_current_ans_lookups_v2 st;
     all_ans_lookups_v2 := all_ans_lookups_v2 st;
     all_current_ans_primary_names_v2 := <[cap2_pk p.1 := p.1]> (all_current_ans_primary_names_v2 st);
     all_ans_primary_names_v2 := all_ans_primary_names_v2 st ++ [p.2] |}.
(** A row of version 1 is stored, and its copy of version 2. *)
Definition push_lookup_v1 (st : AnsState) (p : CurrentAnsLookup * AnsLookup) : AnsState :=
  push_lookup_v2
    {| all_current_ans_lookups := <[cal_pk p.1 := p.1]> (all_current_ans_lookups st);
       all_ans_lookups := all_ans_lookups st ++ [p.2];
       all_current_ans_primary_names := all_current_ans_primary_names st;
       all_ans_primary_names := all_ans_primary_names st;
       all_current_ans_lookups_v2 := all_current_ans_lookups_v2 st;
       all_ans_lookups_v2 := all_ans_lookups_v2 st;
       all_current_ans_primary_names_v2 := all_current_ans_primary_names_v2 st;
       all_ans_primary_names_v2 := all_ans_primary_names_v2 st |}
    (lookup_v2_from_v1 p.1 p.2).
Definition push_primary_v1 (st : AnsState) (p : CurrentAnsPrimaryName * AnsPrimaryName) : AnsState :=
  push_primary_v2
    {| all_current_ans_lookups := all_current_ans_lookups st;
       all_ans_lookups := all_ans_lookups st;
       all_current_ans_primary_names := <[cap_pk p.1 := p.1]> (all_current_ans_primary_names st);
       all_ans_primary_names := all_ans_primary_names st ++ [p.2];
       all_current_ans_lookups_v2 := all_current_ans_lookups_v2 st;
       all_ans_lookups_v2 := all_ans_lookups_v2 st;
       all_current_ans_primary_names_v2 := all_current_ans_primary_names_v2 st;
       all_ans_primary_names_v2 := all_ans_primary_names_v2 st |}
    (primary_v2_from_v1 p.1 p.2).

Variable config : AnsProcessorConfig.

(** The events; the renewals are collected and not used further. *)
Definition ans_event_step (txn_version : Z) (acc : AnsState * list RenewNameEvent) (iev : Z * EventPB)
  : outcome (AnsState * list RenewNameEvent) :=
  let '(st, v2_renew_name_events) := acc in
  let '(event_index, event) := iev in
  r ← renew_name_from_event event (ans_v2_contract_address config) txn_version;
  renew ← unwrap_result r;
  let v2_renew_name_events := v2_renew_name_events ++ option_list renew in
  r ← parse_v2_primary_name_record_from_event event txn_version event_index (ans_v2_contract_address config);
  primary ← unwrap_result r;
  Ret (from_option (push_primary_v2 st) st primary, v2_renew_name_events).

(** The subdomain extensions, by the address of their account. *)
Definition subdomain_ext_step (txn_version : Z) (v2_address_to_subdomain_ext : gmap string SubdomainExtV2)
    (wsc : WriteSetChangePB) : outcome (gmap string SubdomainExtV2) :=
  change ← unwrap (wsc_change wsc);
  match change with
  | ChangeWriteResource write_resource =>
      r ← subdomain_ext_from_write_resource write_resource (ans_v2_contract_address config) txn_version;
      ext ← unwrap_result r;
      Ret (match ext with
           | Some subdomain_ext =>
               <[standardize_address (wr_address write_resource) := subdomain_ext]> v2_address_to_subdomain_ext
           | None => v2_address_to_subdomain_ext
           end)
  | _ => Ret v2_address_to_subdomain_ext
  end.

Definition ans_change_step (txn_version : Z) (v2_address_to_subdomain_ext : gmap string SubdomainExtV2)
    (st : AnsState) (iwsc : Z * WriteSetChangePB) : outcome AnsState :=
  let '(wsc_index, wsc) := iwsc in
  change ← unwrap (wsc_change wsc);
  match change with
  | ChangeWriteTableItem table_item =>
      r ← parse_name_record_from_write_table_item_v1 table_item (ans_v1_name_records_table_handle config)
            txn_version wsc_index;
      lookup ← unwrap_result r;
      let st := from_option (push_lookup_v1 st) st lookup in
      r ← parse_primary_name_record_from_write_table_item_v1 table_item
            (ans_v1_primary_names_table_handle config) txn_version wsc_index;
      primary ← unwrap_result r;
      Ret (from_option (push_primary_v1 st) st primary)
  | ChangeDeleteTableItem table_item =>
      r ← parse_name_record_from_delete_table_item_v1 table_item (ans_v1_name_records_table_handle config)
            txn_version wsc_index;
      lookup ← unwrap_result r;
      let st := from_option (push_lookup_v1 st) st lookup in
      r ← parse_primary_name_record_from_delete_table_item_v1 table_item
            (ans_v1_primary_names_table_handle config) txn_version wsc_index;
      primary ← unwrap_result r;
      Ret (from_option (push_primary_v1 st) st primary)
  | ChangeWriteResource write_resource =>
      r ← parse_name_record_from_write_resource_v2 write_resource (ans_v2_contract_address config)
            txn_version wsc_index v2_address_to_subdomain_ext;
      lookup ← unwrap_result r;
      Ret (from_option (push_lookup_v2 st) st lookup)
  | _ => Ret st
  end.

(** One round of the loop over the transactions. *)
Definition ans_step (st : AnsState) (transaction : Transaction) : outcome AnsState :=
  let txn_version := as_i64 (t_version transaction) in
  match t_txn_data transaction with
  | None => Ret st
  | Some txn_data =>
      transaction_info ← unwrap (t_info transaction);
      match txn_data with
      | TdUser user_txn =>
          '(st, _) ← foldM (ans_event_step txn_version) (st, []) (enumerate (ut_events user_txn));
          exts ← foldM (subdomain_ext_step txn_version) ∅ (ti_changes transaction_info);
          foldM (ans_change_step txn_version exts) st (enumerate (ti_changes transaction_info))
      | _ => Ret st
      end
  end.

Record AnsRows := {
  rows_current_ans_lookups : list CurrentAnsLookup;
  rows_ans_lookups : list AnsLookup;
  rows_current_ans_primary_names : list CurrentAnsPrimaryName;
  rows_ans_primary_names : list AnsPrimaryName;
  rows_current_ans_lookups_v2 : list CurrentAnsLookupV2;
  rows_ans_lookups_v2 : list AnsLookupV2;
  rows_current_ans_primary_names_v2 : list CurrentAnsPrimaryNameV2;
  rows_ans_primary_names_v2 : list AnsPrimaryNameV2;
}.
(** The rows of version 2 are sorted without regard to the standard. *)
Definition cal2_order (c : CurrentAnsLookupV2) : string * string := (cal2_domain c, cal2_subdomain c).
Definition parse_ans `{HashOrder} (transactions : list Transaction) : outcome AnsRows :=
  st ← foldM ans_step ans_init transactions;
  Ret {| rows_current_ans_lookups := sort_by cal_pk (into_values (all_current_ans_lookups st));
         rows_ans_lookups := all_ans_lookups st;
         rows_current_ans_primary_names :=
           sort_by cap_registered_address (into_values (all_current_ans_primary_names st));
         rows_ans_primary_names := all_ans_primary_names st;
         rows_current_ans_lookups_v2 := sort_by cal2_order (into_values (all_current_ans_lookups_v2 st));
         rows_ans_lookups_v2 := all_ans_lookups_v2 st;
         rows_current_ans_primary_names_v2 :=
           sort_by cap2_registered_address (into_values (all_current_ans_primary_names_v2 st));
         rows_ans_primary_names_v2 := all_ans_primary_names_v2 st |}.

(** *** Queries

    The column [inserted_at] is filled by the server. *)
Definition set_current_ans_lookup (old new : CurrentAnsLookup) : CurrentAnsLookup :=
  {| cal_domain := cal_domain old;
     cal_subdomain := cal_subdomain old;
     cal_registered_address := cal_registered_address new;
     cal_last_transaction_version := cal_last_transaction_version new;
     cal_expiration_timestamp := cal_expiration_timestamp new;
     cal_token_name := cal_token_name new;
     cal_is_deleted := cal_is_deleted new |}.
Definition insert_current_ans_lookups_query : Upsert CurrentAnsLookup (string * string) :=
  {| up_key := cal_pk;
     up_action := DoUpdate set_current_ans_lookup;
     up_where := Some (fun old new =>
       bool_decide (cal_last_transaction_version old <= cal_last_transaction_version new)%Z) |}.
Definition insert_ans_lookups_query : Upsert AnsLookup (Z * Z) :=
  {| up_key := fun l => (al_transaction_version l, al_write_set_change_index l);
     up_action := DoNothing; up_where := None |}.
Definition set_current_ans_primary_name (old new : CurrentAnsPrimaryName) : CurrentAnsPrimaryName :=
  {| cap_registered_address := cap_registered_address old;
     cap_domain := cap_domain new;
     cap_subdomain := cap_subdomain new;
     cap_token_name := cap_token_name new;
     cap_is_deleted := cap_is_deleted new;
     cap_last_transaction_version := cap_last_transaction_version new |}.
Definition insert_current_ans_primary_names_query : Upsert CurrentAnsPrimaryName string :=
  {| up_key := cap_registered_address;
     up_action := DoUpdate set_current_ans_primary_name;
     up_where := Some (fun old new =>
       bool_decide (cap_last_transaction_version old <= cap_last_transaction_version new)%Z) |}.
Definition insert_ans_primary_names_query : Upsert AnsPrimaryName (Z * Z) :=
  {| up_key := fun p => (ap_transaction_version p, ap_write_set_change_index p);
     up_action := DoNothing; up_where := None |}.
Definition set_current_ans_lookup_v2 (old new : CurrentAnsLookupV2) : CurrentAnsLookupV2 :=
  {| cal2_domain := cal2_domain old;
     cal2_subdomain := cal2_subdomain old;
     cal2_token_standard := cal2_token_standard old;
     cal2_registered_address := cal2_registered_address new;
     cal2_last_transaction_version := cal2_last_transaction_version new;
     cal2_expiration_timestamp := cal2_expiration_timestamp new;
     cal2_token_name := cal2_token_name new;
     cal2_is_deleted := cal2_is_deleted new;
     cal2_subdomain_expiration_policy := cal2_subdomain_expiration_policy new |}.
Definition insert_current_ans_lookups_v2_query : Upsert CurrentAnsLookupV2 (string * string * string) :=
  {| up_key := cal2_pk;
     up_action := DoUpdate set_current_ans_lookup_v2;
     up_where := Some (fun old new =>
       bool_decide (cal2_last_transaction_version old <= cal2_last_transaction_version new)%Z) |}.
Definition set_ans_lookup_v2 (old new : AnsLookupV2) : AnsLookupV2 :=
  {| al2_transaction_version := al2_transaction_version old;
     al2_write_set_change_index := al2_write_set_change_index old;
     al2_domain := al2_domain old;
     al2_subdomain := al2_subdomain old;
     al2_token_standard := al2_token_standard old;
     al2_registered_address := al2_registered_address old;
     al2_expiration_timestamp := al2_expiration_timestamp old;
     al2_token_name := al2_token_name old;
     al2_is_deleted := al2_is_deleted old;
     al2_subdomain_expiration_policy := al2_subdomain_expiration_policy new |}.
Definition insert_ans_lookups_v2_query : Upsert AnsLookupV2 (Z * Z) :=
  {| up_key := fun l => (al2_transaction_version l, al2_write_set_change_index l);
     up_action := DoUpdate set_ans_lookup_v2; up_where := None |}.
Definition set_current_ans_primary_name_v2 (old new : CurrentAnsPrimaryNameV2) : CurrentAnsPrimaryNameV2 :=
  {| cap2_registered_address := cap2_registered_address old;
     cap2_token_standard := cap2_token_standard old;
     cap2_domain := cap2_domain new;
     cap2_subdomain := cap2_subdomain new;
     cap2_token_name := cap2_token_name new;
     cap2_is_deleted := cap2_is_deleted new;
     cap2_last_transaction_version := cap2_last_transaction_version new |}.
Definition insert_current_ans_primary_names_v2_query : Upsert CurrentAnsPrimaryNameV2 (string * string) :=
  {| up_key := cap2_pk;
     up_action := DoUpdate set_current_ans_primary_name_v2;
     up_where := Some (fun old new =>
       bool_decide (cap2_last_transaction_version old <= cap2_last_transaction_version new)%Z) |}.
Definition insert_ans_primary_names_v2_query : Upsert AnsPrimaryNameV2 (Z * Z) :=
  {| up_key := fun p => (ap2_transaction_version p, ap2_write_set_change_index p);
     up_action := DoNothing; up_where := None |}.

#[export] Instance current_ans_lookups_lww : Lww insert_current_ans_lookups_query.
Proof.
  refine {| lww_rank := cal_last_transaction_version; lww_static_type := unit;
            lww_static := fun _ => tt; lww_set := set_current_ans_lookup |}; try done.
  intros [] [] Hk _. unfold cal_pk in Hk. simpl in Hk. by simplify_eq/=.
Defined.
#[export] Instance current_ans_primary_names_lww : Lww insert_current_ans_primary_names_query.
Proof.
  refine {| lww_rank := cap_last_transaction_version; lww_static_type := unit;
            lww_static := fun _ => tt; lww_set := set_current_ans_primary_name |}; try done.
  intros [] [] Hk _. simpl in Hk. by subst.
Defined.
#[export] Instance current_ans_lookups_v2_lww : Lww insert_current_ans_lookups_v2_query.
Proof.
  refine {| lww_rank := cal2_last_transaction_version; lww_static_type := unit;
            lww_static := fun _ => tt; lww_set := set_current_ans_lookup_v2 |}; try done.
  intros [] [] Hk _. unfold cal2_pk in Hk. simpl in Hk. by simplify_eq/=.
Defined.
#[export] Instance current_ans_primary_names_v2_lww : Lww insert_current_ans_primary_names_v2_query.
Proof.
  refine {| lww_rank := cap2_last_transaction_version; lww_static_type := unit;
            lww_static := fun _ => tt; lww_set := set_current_ans_primary_name_v2 |}; try done.
  intros [] [] Hk _. unfold cap2_pk in Hk. simpl in Hk. by simplify_eq/=.
Defined.

Context `{!Table CurrentAnsLookup (string * string), !Table AnsLookup (Z * Z),
          !Table CurrentAnsPrimaryName string, !Table AnsPrimaryName (Z * Z),
          !Table CurrentAnsLookupV2 (string * string * string), !Table AnsLookupV2 (Z * Z),
          !Table CurrentAnsPrimaryNameV2 (string * string), !Table AnsPrimaryNameV2 (Z * Z)}.

Record AnsDb := {
  db_current_ans_lookups : table_state CurrentAnsLookup (string * string);
  db_ans_lookups : table_state AnsLookup (Z * Z);
  db_current_ans_primary_names : table_state CurrentAnsPrimaryName string;
  db_ans_primary_names : table_state AnsPrimaryName (Z * Z);
  db_current_ans_lookups_v2 : table_state CurrentAnsLookupV2 (string * string * string);
  db_ans_lookups_v2 : table_state AnsLookupV2 (Z * Z);
  db_current_ans_primary_names_v2 : table_state CurrentAnsPrimaryNameV2 (string * string);
  db_ans_primary_names_v2 : table_state AnsPrimaryNameV2 (Z * Z);
}.
Definition insert_ans (sizes : gmap string nat) (rows : AnsRows) (d d' : AnsDb)
    (res : outcome (result unit)) : Prop :=
  exists cal_res al_res capn_res apn_res cal_v2_res al_v2_res capn_v2_res apn_v2_res,
    write_table insert_current_ans_lookups_query "current_ans_lookup" sizes
      (rows_current_ans_lookups rows) (db_current_ans_lookups d) (db_current_ans_lookups d') cal_res /\
    write_table insert_ans_lookups_query "ans_lookup" sizes
      (rows_ans_lookups rows) (db_ans_lookups d) (db_ans_lookups d') al_res /\
    write_table insert_current_ans_primary_names_query "current_ans_primary_name" sizes
      (rows_current_ans_primary_names rows) (db_current_ans_primary_names d)
      (db_current_ans_primary_names d') capn_res /\
    write_table insert_ans_primary_names_query "ans_primary_name" sizes
      (rows_ans_primary_names rows) (db_ans_primary_names d) (db_ans_primary_names d') apn_res /\
    write_table insert_current_ans_lookups_v2_query "current_ans_lookup_v2" sizes
      (rows_current_ans_lookups_v2 rows) (db_current_ans_lookups_v2 d) (db_current_ans_lookups_v2 d')
      cal_v2_res /\
    write_table insert_ans_lookups_v2_query "ans_lookup_v2" sizes
      (rows_ans_lookups_v2 rows) (db_ans_lookups_v2 d) (db_ans_lookups_v2 d') al_v2_res /\
    write_table insert_current_ans_primary_names_v2_query "current_ans_primary_name_v2" sizes
      (rows_current_ans_primary_names_v2 rows) (db_current_ans_primary_names_v2 d)
      (db_current_ans_primary_names_v2 d') capn_v2_res /\
    write_table insert_ans_primary_names_v2_query "ans_primary_name_v2" sizes
      (rows_ans_primary_names_v2 rows) (db_ans_primary_names_v2 d) (db_ans_primary_names_v2 d') apn_v2_res /\
    res = join_results [cal_res; al_res; capn_res; apn_res; cal_v2_res; al_v2_res; capn_v2_res; apn_v2_res].

(** [AnsProcessor::process_transactions]. *)
Definition process_ans `{HashOrder} (sizes : gmap string nat)
  : list Transaction -> Z -> Z -> option Z -> AnsDb -> AnsDb -> outcome (result ProcessingResult) -> Prop :=
  process_batch parse_ans (insert_ans sizes).

#[export] Instance ans_processor `{HashOrder} (sizes : gmap string nat) : ProcessorTrait AnsDb :=
  {| processor_name := "ans_processor"; process_transactions := process_ans sizes |}.
#[export] Instance ans_processor_laws `{HashOrder} sizes : @ProcessorLaws _ (ans_processor sizes).
Proof. intros txns s e chain d d' r Hr. by apply (process_batch_ok _ _ _ _ _ chain) in Hr as [? _]. Qed.
End Ans.
