(* ===== verification/AnsLaws.v ===== *)
(** * Aptos names: correctness

    The rows of a batch of names: distinct, the same in any order of the
    batches, and complete in the tables of version 2; token names can be read
    back. *)
From Stdlib Require Import Ascii.
From S2P Require Import Prelude RustStr Json Externals Proto Util Database Processors.
From S2P Require Import DefaultModels TokenResources Ans.

(** ** Token names *)

Definition dot : ascii := "."%char.

(** Reading a token name: the parts between the dots. *)
Definition parse_token_name (token_name : string) : option (string * string) :=
  match split "." token_name with
  | [domain; suffix] => if decide (suffix = "apt") then Some (domain, EmptyString) else None
  | [subdomain; domain; suffix] => if decide (suffix = "apt") then Some (domain, subdomain) else None
  | _ => None
  end.

Lemma truncate_short n s : String.length s < n -> truncate n s = Ret s.
Proof. intros Hl. unfold truncate. by rewrite decide_False by lia. Qed.

(** a token name determines the name it was made for.  The name of a
    domain and a subdomain of fewer than 64 bytes without dots splits at its
    dots into exactly these two parts, so different names have different token
    names. *)
Theorem token_name_roundtrip (domain subdomain : string) :
  String.length domain < DOMAIN_LENGTH -> String.length subdomain < DOMAIN_LENGTH ->
  dot ∉ String.list_ascii_of_string domain -> dot ∉ String.list_ascii_of_string subdomain ->
  exists token_name, get_token_name domain subdomain = Ret token_name /\
    parse_token_name token_name = Some (domain, subdomain).
Proof.
  intros Hd Hs Hdd Hsd. unfold get_token_name, truncate_str. rewrite !truncate_short by done. simpl.
  eexists. split; [reflexivity|]. unfold parse_token_name.
  assert (split "." (domain +:+ ".apt") = [domain; "apt"]) as Hdom.
  { change ".apt" with ("." +:+ "apt"). by rewrite split_cons. }
  case_decide as He; [by rewrite Hdom, He|].
  rewrite split_cons, Hdom by done. reflexivity.
Qed.

Lemma token_name_roundtrip_witness :
  get_token_name "aptos" "dao" = Ret "dao.aptos.apt" /\ parse_token_name "dao.aptos.apt" = Some ("aptos", "dao").
Proof.
  split; [reflexivity|].
  destruct (token_name_roundtrip "aptos" "dao") as (n & Hn & Hp).
  - unfold DOMAIN_LENGTH. simpl. lia.
  - unfold DOMAIN_LENGTH. simpl. lia.
  - apply (bool_decide_unpack _). vm_compute. exact I.
  - apply (bool_decide_unpack _). vm_compute. exact I.
  - injection Hn as <-. exact Hp.
Defined.

Section AnsLaws.
Context `{Chrono, BigDec, JsonParse, ProtoJson}.
Context `{!AnsCodec}.
Variable config : AnsProcessorConfig.

(** ** The log of a batch

    Every round pushes rows and files their current versions in maps. *)
Inductive AnsRow :=
| LogLookupV1 (l : AnsLookup)
| LogPrimaryV1 (p : AnsPrimaryName)
| LogLookupV2 (l : AnsLookupV2)
| LogPrimaryV2 (p : AnsPrimaryNameV2).

Definition current_of_lookup (l : AnsLookup) : CurrentAnsLookup :=
  {| cal_domain := al_domain l; cal_subdomain := al_subdomain l;
     cal_registered_address := al_registered_address l;
     cal_last_transaction_version := al_transaction_version l;
     cal_expiration_timestamp := al_expiration_timestamp l; cal_token_name := al_token_name l;
     cal_is_deleted := al_is_deleted l |}.
Definition current_of_primary (p : AnsPrimaryName) : CurrentAnsPrimaryName :=
  {| cap_registered_address := ap_registered_address p; cap_domain := ap_domain p;
     cap_subdomain := ap_subdomain p; cap_token_name := ap_token_name p; cap_is_deleted := ap_is_deleted p;
     cap_last_transaction_version := ap_transaction_version p |}.
Definition current_of_lookup_v2 (l : AnsLookupV2) : CurrentAnsLookupV2 :=
  {| cal2_domain := al2_domain l; cal2_subdomain := al2_subdomain l;
     cal2_token_standard := al2_token_standard l; cal2_registered_address := al2_registered_address l;
     cal2_last_transaction_version := al2_transaction_version l;
     cal2_expiration_timestamp := al2_expiration_timestamp l; cal2_token_name := al2_token_name l;
     cal2_is_deleted := al2_is_deleted l;
     cal2_subdomain_expiration_policy := al2_subdomain_expiration_policy l |}.
Definition current_of_primary_v2 (p : AnsPrimaryNameV2) : CurrentAnsPrimaryNameV2 :=
  {| cap2_registered_address := ap2_registered_address p; cap2_token_standard := ap2_token_standard p;
     cap2_domain := ap2_domain p; cap2_subdomain := ap2_subdomain p; cap2_token_name := ap2_token_name p;
     cap2_is_deleted := ap2_is_deleted p; cap2_last_transaction_version := ap2_transaction_version p |}.
(** The copies in the tables of version 2. *)
Definition copy_lookup (l : AnsLookup) : AnsLookupV2 := (lookup_v2_from_v1 (current_of_lookup l) l).2.
Definition copy_primary (p : AnsPrimaryName) : AnsPrimaryNameV2 := (primary_v2_from_v1 (current_of_primary p) p).2.

Definition log_lookup (r : AnsRow) : option AnsLookup :=
  match r with LogLookupV1 l => Some l | _ => None end.
Definition log_primary (r : AnsRow) : option AnsPrimaryName :=
  match r with LogPrimaryV1 p => Some p | _ => None end.
Definition log_lookup_v2 (r : AnsRow) : option AnsLookupV2 :=
  match r with LogLookupV1 l => Some (copy_lookup l) | LogLookupV2 l => Some l | _ => None end.
Definition log_primary_v2 (r : AnsRow) : option AnsPrimaryNameV2 :=
  match r with LogPrimaryV1 p => Some (copy_primary p) | LogPrimaryV2 p => Some p | _ => None end.

Definition ans_log (st : AnsState) (rows : list AnsRow) (st' : AnsState) : Prop :=
  all_ans_lookups st' = all_ans_lookups st ++ omap log_lookup rows /\
  all_ans_primary_names st' = all_ans_primary_names st ++ omap log_primary rows /\
  all_ans_lookups_v2 st' = all_ans_lookups_v2 st ++ omap log_lookup_v2 rows /\
  all_ans_primary_names_v2 st' = all_ans_primary_names_v2 st ++ omap log_primary_v2 rows /\
  all_current_ans_lookups st' =
    inserts cal_pk (all_current_ans_lookups st) (current_of_lookup <$> omap log_lookup rows) /\
  all_current_ans_primary_names st' =
    inserts cap_registered_address (all_current_ans_primary_names st)
      (current_of_primary <$> omap log_primary rows) /\
  all_current_ans_lookups_v2 st' =
    inserts cal2_pk (all_current_ans_lookups_v2 st) (current_of_lookup_v2 <$> omap log_lookup_v2 rows) /\
  all_current_ans_primary_names_v2 st' =
    inserts cap2_pk (all_current_ans_primary_names_v2 st) (current_of_primary_v2 <$> omap log_primary_v2 rows).

Lemma ans_log_refl st : ans_log st [] st.
Proof. unfold ans_log. simpl. by rewrite !app_nil_r. Qed.
Lemma ans_log_trans st1 l1 st2 l2 st3 :
  ans_log st1 l1 st2 -> ans_log st2 l2 st3 -> ans_log st1 (l1 ++ l2) st3.
Proof.
  intros (A1 & A2 & A3 & A4 & A5 & A6 & A7 & A8) (B1 & B2 & B3 & B4 & B5 & B6 & B7 & B8). unfold ans_log.
  rewrite !omap_app, !fmap_app, !inserts_app, B1, B2, B3, B4, B5, B6, B7, B8, A1, A2, A3, A4, A5, A6, A7, A8.
  by rewrite !app_assoc.
Qed.

Lemma push_lookup_v1_log st l :
  ans_log st (LogLookupV1 <$> option_list l) (from_option (push_lookup_v1 st) st ((fun l => (current_of_lookup l, l)) <$> l)).
Proof. destruct l; [|apply ans_log_refl]. unfold ans_log. simpl. by rewrite !app_nil_r. Qed.
Lemma push_primary_v1_log st p :
  ans_log st (LogPrimaryV1 <$> option_list p) (from_option (push_primary_v1 st) st ((fun p => (current_of_primary p, p)) <$> p)).
Proof. destruct p; [|apply ans_log_refl]. unfold ans_log. simpl. by rewrite !app_nil_r. Qed.
Lemma push_lookup_v2_log st l :
  ans_log st (LogLookupV2 <$> option_list l) (from_option (push_lookup_v2 st) st ((fun l => (current_of_lookup_v2 l, l)) <$> l)).
Proof. destruct l; [|apply ans_log_refl]. unfold ans_log. simpl. by rewrite !app_nil_r. Qed.
Lemma push_primary_v2_log st p :
  ans_log st (LogPrimaryV2 <$> option_list p) (from_option (push_primary_v2 st) st ((fun p => (current_of_primary_v2 p, p)) <$> p)).
Proof. destruct p; [|apply ans_log_refl]. unfold ans_log. simpl. by rewrite !app_nil_r. Qed.

(** ** The rows of the parsers *)

(** A pair of a current row and its row, at a version and an index. *)
Definition lookup_at (v i : Z) (r : option (CurrentAnsLookup * AnsLookup)) : Prop :=
  exists l, r = (fun l => (current_of_lookup l, l)) <$> l /\
    forall x, l = Some x -> al_transaction_version x = v /\ al_write_set_change_index x = i.
Definition primary_at (v i : Z) (r : option (CurrentAnsPrimaryName * AnsPrimaryName)) : Prop :=
  exists p, r = (fun p => (current_of_primary p, p)) <$> p /\
    forall x, p = Some x -> ap_transaction_version x = v /\ ap_write_set_change_index x = i.
Definition lookup_v2_at (v i : Z) (r : option (CurrentAnsLookupV2 * AnsLookupV2)) : Prop :=
  exists l, r = (fun l => (current_of_lookup_v2 l, l)) <$> l /\
    forall x, l = Some x -> al2_transaction_version x = v /\ al2_write_set_change_index x = i /\
      al2_token_standard x = standard_to_string StandardV2.
Definition primary_v2_at (v i : Z) (r : option (CurrentAnsPrimaryNameV2 * AnsPrimaryNameV2)) : Prop :=
  exists p, r = (fun p => (current_of_primary_v2 p, p)) <$> p /\
    forall x, p = Some x -> ap2_transaction_version x = v /\ ap2_write_set_change_index x = i /\
      ap2_token_standard x = standard_to_string StandardV2.

Ltac no_row := exists None; split; [done|by intros ? [=]].
Ltac one_row :=
  match goal with |- _ _ _ (Some (_, ?l)) => exists (Some l); split; [reflexivity|by intros ? [= <-]] end.

Lemma parse_lookup_write_at item v i r :
  parse_name_record_from_write_table_item_v1 item (ans_v1_name_records_table_handle config) v i = Ret (Ok r) ->
  lookup_at v i r.
Proof.
  unfold parse_name_record_from_write_table_item_v1. case_decide; [|intros; simplify_eq; no_row].
  destruct (wti_data item) as [data|]; [|intros; simplify_eq; no_row]. intros Hr.
  apply bind_Ret in Hr as (kt & _ & Hr). apply try_bind_Ok in Hr as (key & _ & Hr).
  destruct key as [[k|]|]; [|simplify_eq; no_row..].
  apply bind_Ret in Hr as (vt & _ & Hr). apply try_bind_Ok in Hr as (value & _ & Hr).
  destruct value as [[|rec]|]; [simplify_eq; no_row| |simplify_eq; no_row].
  outcome_inv. one_row.
Qed.
Lemma parse_lookup_delete_at item v i r :
  parse_name_record_from_delete_table_item_v1 item (ans_v1_name_records_table_handle config) v i = Ret (Ok r) ->
  lookup_at v i r.
Proof.
  unfold parse_name_record_from_delete_table_item_v1. case_decide; [|intros; simplify_eq; no_row].
  destruct (dti_data item) as [data|]; [|intros; simplify_eq; no_row]. intros Hr.
  apply bind_Ret in Hr as (kt & _ & Hr). apply try_bind_Ok in Hr as (key & _ & Hr).
  destruct key as [[k|]|]; [|simplify_eq; no_row..]. outcome_inv. one_row.
Qed.
Lemma parse_primary_write_at item v i r :
  parse_primary_name_record_from_write_table_item_v1 item (ans_v1_primary_names_table_handle config) v i
    = Ret (Ok r) -> primary_at v i r.
Proof.
  unfold parse_primary_name_record_from_write_table_item_v1. case_decide; [|intros; simplify_eq; no_row].
  destruct (wti_data item) as [data|]; [|intros; simplify_eq; no_row].
  case_decide; [|intros; simplify_eq; no_row]. intros Hr.
  apply bind_Ret in Hr as (key & _ & Hr). apply bind_Ret in Hr as (vt & _ & Hr).
  apply try_bind_Ok in Hr as (value & _ & Hr).
  destruct value as [[k|]|]; [|simplify_eq; no_row..]. outcome_inv. one_row.
Qed.
Lemma parse_primary_delete_at item v i r :
  parse_primary_name_record_from_delete_table_item_v1 item (ans_v1_primary_names_table_handle config) v i
    = Ret (Ok r) -> primary_at v i r.
Proof.
  unfold parse_primary_name_record_from_delete_table_item_v1. case_decide; [|intros; simplify_eq; no_row].
  destruct (dti_data item) as [data|]; [|intros; simplify_eq; no_row].
  case_decide; [|intros; simplify_eq; no_row]. intros Hr. outcome_inv. one_row.
Qed.
Lemma parse_lookup_v2_at res v i exts r :
  parse_name_record_from_write_resource_v2 res (ans_v2_contract_address config) v i exts = Ret (Ok r) ->
  lookup_v2_at v i r.
Proof.
  unfold parse_name_record_from_write_resource_v2. intros Hr.
  apply bind_Ret in Hr as (r0 & _ & Hr). apply bind_Ret in Hr as ([inner|] & _ & Hr); [|simplify_eq; no_row].
  apply bind_Ret in Hr as ([name policy] & _ & Hr). outcome_inv. one_row.
Qed.
Lemma parse_primary_v2_at ev v i r :
  parse_v2_primary_name_record_from_event ev v i (ans_v2_contract_address config) = Ret (Ok r) ->
  primary_v2_at v (- (i + 1)) r.
Proof.
  unfold parse_v2_primary_name_record_from_event. intros Hr.
  apply bind_Ret in Hr as (r0 & _ & Hr). apply bind_Ret in Hr as ([e|] & _ & Hr); [|simplify_eq; no_row].
  apply bind_Ret in Hr as (domain & _ & Hr). case_decide; outcome_inv; one_row.
Qed.

(** ** The log of a transaction *)

Definition ans_event_log (v : Z) (iev : Z * EventPB) (rows : list AnsRow) : Prop :=
  exists p, rows = LogPrimaryV2 <$> option_list p /\
    forall x, p = Some x -> ap2_transaction_version x = v /\ ap2_write_set_change_index x = (- (iev.1 + 1))%Z /\
      ap2_token_standard x = standard_to_string StandardV2.
Definition change_rows (v : Z) (iwsc : Z * WriteSetChangePB) (rows : list AnsRow) : Prop :=
  (exists l p, rows = (LogLookupV1 <$> option_list l) ++ (LogPrimaryV1 <$> option_list p) /\
     (forall x, l = Some x -> al_transaction_version x = v /\ al_write_set_change_index x = iwsc.1) /\
     (forall x, p = Some x -> ap_transaction_version x = v /\ ap_write_set_change_index x = iwsc.1)) \/
  (exists l, rows = LogLookupV2 <$> option_list l /\
     forall x, l = Some x -> al2_transaction_version x = v /\ al2_write_set_change_index x = iwsc.1 /\
       al2_token_standard x = standard_to_string StandardV2).

Lemma ans_events_log v st l st' renew renew' :
  foldM (ans_event_step config v) (st, renew) l = Ret (st', renew') ->
  exists logs, Forall2 (ans_event_log v) l logs /\ ans_log st (concat logs) st'.
Proof.
  intros Hf.
  eapply (foldM_log (fun _ => True) (fun s rows s' => ans_log s.1 rows s'.1) (ans_event_log v)) in Hf
    as [_ Hf]; [done|intros; apply ans_log_refl|intros *; apply ans_log_trans| |done].
  intros [s re] [i ev] [s' re'] _ _ Hs. split; [done|]. unfold ans_event_step in Hs.
  apply bind_Ret in Hs as (r1 & _ & Hs). apply bind_Ret in Hs as (rn & _ & Hs).
  apply bind_Ret in Hs as (r2 & Hr & Hs). apply bind_Ret in Hs as (p & Hp%unwrap_result_Ret & Hs). subst r2.
  injection Hs as <- _. apply parse_primary_v2_at in Hr as (q & -> & Hq).
  exists (LogPrimaryV2 <$> option_list q). split; [apply push_primary_v2_log|]. by exists q.
Qed.

Lemma ans_changes_log v exts st l st' :
  foldM (ans_change_step config v exts) st l = Ret st' ->
  exists logs, Forall2 (change_rows v) l logs /\ ans_log st (concat logs) st'.
Proof.
  intros Hf.
  eapply (foldM_log (fun _ => True) ans_log (change_rows v)) in Hf as [_ Hf];
    [done|apply ans_log_refl|apply ans_log_trans| |done].
  intros s [i wsc] s' _ _ Hs. split; [done|]. unfold ans_change_step in Hs.
  apply bind_Ret in Hs as (change & _ & Hs).
  assert (forall lk pr, lookup_at v i lk -> primary_at v i pr -> exists rows,
    ans_log s rows (from_option (push_primary_v1 (from_option (push_lookup_v1 s) s lk))
      (from_option (push_lookup_v1 s) s lk) pr) /\ change_rows v (i, wsc) rows) as Hv1.
  { intros lk pr (l' & -> & Hl) (p' & -> & Hp). eexists. split.
    - eapply ans_log_trans; [apply push_lookup_v1_log|apply push_primary_v1_log].
    - left. by exists l', p'. }
  destruct change as [| |item| |res|item].
  - injection Hs as <-. exists []. split; [apply ans_log_refl|]. right. exists None. by split; [|intros ? [=]].
  - injection Hs as <-. exists []. split; [apply ans_log_refl|]. right. exists None. by split; [|intros ? [=]].
  - apply bind_Ret in Hs as (r1 & H1' & Hs). apply bind_Ret in Hs as (lk & ->%unwrap_result_Ret & Hs).
    apply bind_Ret in Hs as (r2 & H2' & Hs). apply bind_Ret in Hs as (pr & ->%unwrap_result_Ret & Hs).
    injection Hs as <-. apply Hv1; [by eapply parse_lookup_delete_at|by eapply parse_primary_delete_at].
  - injection Hs as <-. exists []. split; [apply ans_log_refl|]. right. exists None. by split; [|intros ? [=]].
  - apply bind_Ret in Hs as (r1 & H1' & Hs). apply bind_Ret in Hs as (lk & ->%unwrap_result_Ret & Hs).
    injection Hs as <-. apply parse_lookup_v2_at in H1' as (l' & -> & Hl).
    exists (LogLookupV2 <$> option_list l'). split; [apply push_lookup_v2_log|]. right. by exists l'.
  - apply bind_Ret in Hs as (r1 & H1' & Hs). apply bind_Ret in Hs as (lk & ->%unwrap_result_Ret & Hs).
    apply bind_Ret in Hs as (r2 & H2' & Hs). apply bind_Ret in Hs as (pr & ->%unwrap_result_Ret & Hs).
    injection Hs as <-. apply Hv1; [by eapply parse_lookup_write_at|by eapply parse_primary_write_at].
Qed.

Definition ans_txn_log (t : Transaction) (rows : list AnsRow) : Prop :=
  exists (events : list EventPB) (changes : list WriteSetChangePB) logs_e logs_c,
    rows = concat logs_e ++ concat logs_c /\
    Forall2 (ans_event_log (as_i64 (t_version t))) (enumerate events) logs_e /\
    Forall2 (change_rows (as_i64 (t_version t))) (enumerate changes) logs_c.

Lemma ans_step_log st t st' :
  ans_step config st t = Ret st' -> exists rows, ans_log st rows st' /\ ans_txn_log t rows.
Proof.
  intros Hs.
  assert (st' = st -> exists rows, ans_log st rows st' /\ ans_txn_log t rows) as Hnone.
  { intros ->. exists []. split; [apply ans_log_refl|]. by exists [], [], [], []. }
  unfold ans_step in Hs. destruct (t_txn_data t) as [d|]; [|apply Hnone; by injection Hs].
  apply bind_Ret in Hs as (info & _ & Hs). destruct d as [| | |user|]; try (apply Hnone; by injection Hs).
  apply bind_Ret in Hs as ([st1 renew] & He & Hs). apply bind_Ret in Hs as (exts & _ & Hs).
  apply ans_events_log in He as (logs_e & Hle & He). apply ans_changes_log in Hs as (logs_c & Hlc & Hc).
  exists (concat logs_e ++ concat logs_c). split; [by eapply ans_log_trans|].
  by exists (ut_events user), (ti_changes info), logs_e, logs_c.
Qed.

Lemma ans_fold_log transactions st :
  foldM (ans_step config) ans_init transactions = Ret st ->
  exists logs, Forall2 ans_txn_log transactions logs /\ ans_log ans_init (concat logs) st.
Proof.
  intros Hf. eapply (foldM_log (fun _ => True) ans_log ans_txn_log) in Hf as [_ Hf];
    [done|apply ans_log_refl|apply ans_log_trans| |done].
  intros s t s' _ _ Hs. split; [done|]. by apply ans_step_log.
Qed.

(** At most one row of each kind for a change, with its version and index. *)
Definition single_at {R} (pick : AnsRow -> option R) (version index : R -> Z) (v i : Z) (rows : list AnsRow) : Prop :=
  length (omap pick rows) <= 1 /\ Forall (fun r => version r = v /\ index r = i) (omap pick rows).

Ltac one_or_none := solve [lia | done | apply Forall_singleton; done | apply Forall_nil; done].

Lemma change_rows_single v ix rows :
  change_rows v ix rows ->
  single_at log_lookup al_transaction_version al_write_set_change_index v ix.1 rows /\
  single_at log_primary ap_transaction_version ap_write_set_change_index v ix.1 rows /\
  single_at log_lookup_v2 al2_transaction_version al2_write_set_change_index v ix.1 rows /\
  single_at log_primary_v2 ap2_transaction_version ap2_write_set_change_index v ix.1 rows.
Proof.
  unfold single_at. intros [(l & p & -> & Hl & Hp)|(l & -> & Hl)].
  - destruct l as [l|]; [specialize (Hl l eq_refl)|]; (destruct p as [p|]; [specialize (Hp p eq_refl)|]);
      simpl; split_and!; one_or_none.
  - destruct l as [l|]; [destruct (Hl l eq_refl) as (? & ? & _)|]; simpl; split_and!; one_or_none.
Qed.

Lemma ans_event_log_single v ix rows :
  ans_event_log v ix rows ->
  omap log_lookup rows = [] /\ omap log_primary rows = [] /\ omap log_lookup_v2 rows = [] /\
  single_at log_primary_v2 ap2_transaction_version ap2_write_set_change_index v (- (ix.1 + 1)) rows.
Proof.
  intros ([p|] & -> & Hp); [destruct (Hp p eq_refl) as (? & ? & _)|]; unfold single_at; simpl;
    split_and!; one_or_none.
Qed.

Section TxnRows.
Context {R : Type} (pick : AnsRow -> option R) (version index : R -> Z) (t : Transaction).
Let v := as_i64 (t_version t).

Lemma changes_single logs (changes : list WriteSetChangePB) :
  (forall ix rows, change_rows v ix rows -> single_at pick version index v ix.1 rows) ->
  Forall2 (change_rows v) (enumerate changes) logs ->
  Forall (fun r => version r = v) (omap pick (concat logs)) /\
  NoDup (index <$> omap pick (concat logs)) /\ Forall (fun r => 0 <= index r)%Z (omap pick (concat logs)).
Proof.
  intros Hone Hf. split.
  - apply Forall_forall. intros r Hr. destruct (elem_of_log _ _ _ _ _ Hf Hr) as (ix & rows & _ & Hrows & Hin).
    apply Hone in Hrows as [_ Hall]. rewrite Forall_forall in Hall. by apply Hall.
  - eapply log_rows_NoDup; [|exact Hf]. intros ix rows [Hl Hall]%Hone. split; [done|].
    eapply Forall_impl; [exact Hall|]. by intros ? [_ ?].
Qed.

(** Rows that only come from the changes. *)
Lemma txn_rows_distinct rows :
  (forall ix rows, ans_event_log v ix rows -> omap pick rows = []) ->
  (forall ix rows, change_rows v ix rows -> single_at pick version index v ix.1 rows) ->
  ans_txn_log t rows ->
  Forall (fun r => version r = v) (omap pick rows) /\ NoDup (index <$> omap pick rows).
Proof.
  intros Hnone Hone (events & changes & logs_e & logs_c & -> & He & Hc).
  rewrite omap_app, (log_rows_nil _ _ _ _ Hnone He). by destruct (changes_single _ _ Hone Hc) as (? & ? & _).
Qed.
End TxnRows.

Lemma txn_lookups t rows :
  ans_txn_log t rows ->
  Forall (fun r => al_transaction_version r = as_i64 (t_version t)) (omap log_lookup rows) /\
  NoDup (al_write_set_change_index <$> omap log_lookup rows).
Proof. apply txn_rows_distinct; [by intros ? ? (? & _)%ans_event_log_single|by intros ? ? (? & _)%change_rows_single]. Qed.
Lemma txn_primaries t rows :
  ans_txn_log t rows ->
  Forall (fun r => ap_transaction_version r = as_i64 (t_version t)) (omap log_primary rows) /\
  NoDup (ap_write_set_change_index <$> omap log_primary rows).
Proof. apply txn_rows_distinct; [by intros ? ? (_ & ? & _)%ans_event_log_single|by intros ? ? (_ & ? & _)%change_rows_single]. Qed.
Lemma txn_lookups_v2 t rows :
  ans_txn_log t rows ->
  Forall (fun r => al2_transaction_version r = as_i64 (t_version t)) (omap log_lookup_v2 rows) /\
  NoDup (al2_write_set_change_index <$> omap log_lookup_v2 rows).
Proof. apply txn_rows_distinct; [by intros ? ? (_ & _ & ? & _)%ans_event_log_single|by intros ? ? (_ & _ & ? & _)%change_rows_single]. Qed.

(** The primary names of events have negative indices. *)
Lemma txn_primaries_v2 t rows :
  ans_txn_log t rows ->
  Forall (fun r => ap2_transaction_version r = as_i64 (t_version t)) (omap log_primary_v2 rows) /\
  NoDup (ap2_write_set_change_index <$> omap log_primary_v2 rows).
Proof.
  intros (events & changes & logs_e & logs_c & -> & He & Hc). rewrite omap_app.
  eapply (changes_single log_primary_v2 ap2_transaction_version ap2_write_set_change_index) in Hc
    as (Hv & Hn & Hpos); [|by intros ? ? (_ & _ & _ & ?)%change_rows_single].
  eapply (log_rows_NoDup _ log_primary_v2 (fun p => (- ap2_write_set_change_index p - 1)%Z)) in He as Hidx;
    [destruct Hidx as [Hne Hneg]|].
  2:{ intros ix r (_ & _ & _ & Hl & Hall)%ans_event_log_single. split; [done|].
      eapply Forall_impl; [exact Hall|]. simpl. intros ? [_ ->]. lia. }
  split; [apply Forall_app; split; [|done]|rewrite fmap_app; apply NoDup_app; split_and!; [|..|done]].
  - apply Forall_forall. intros r Hr. destruct (elem_of_log _ _ _ _ _ He Hr) as (ix & rs & _ & Hrs & Hin).
    apply ans_event_log_single in Hrs as (_ & _ & _ & _ & Hall). rewrite Forall_forall in Hall. by apply Hall.
  - eapply NoDup_fmap_coarser; [exact Hne|]. simpl. lia.
  - intros k (a & -> & Ha)%list_elem_of_fmap (b & Hk & Hb)%list_elem_of_fmap.
    rewrite Forall_forall in Hpos. rewrite Forall_forall in Hneg. specialize (Hpos b Hb). specialize (Hneg a Ha).
    simpl in *. lia.
Qed.

Lemma parse_ans_log `{HashOrder} transactions rows :
  parse_ans config transactions = Ret rows ->
  exists logs, Forall2 ans_txn_log transactions logs /\
    rows_ans_lookups rows = omap log_lookup (concat logs) /\
    rows_ans_primary_names rows = omap log_primary (concat logs) /\
    rows_ans_lookups_v2 rows = omap log_lookup_v2 (concat logs) /\
    rows_ans_primary_names_v2 rows = omap log_primary_v2 (concat logs) /\
    rows_current_ans_lookups rows ≡ₚ
      into_values (index_by cal_pk (current_of_lookup <$> rows_ans_lookups rows)) /\
    rows_current_ans_primary_names rows ≡ₚ
      into_values (index_by cap_registered_address (current_of_primary <$> rows_ans_primary_names rows)) /\
    rows_current_ans_lookups_v2 rows ≡ₚ
      into_values (index_by cal2_pk (current_of_lookup_v2 <$> rows_ans_lookups_v2 rows)) /\
    rows_current_ans_primary_names_v2 rows ≡ₚ
      into_values (index_by cap2_pk (current_of_primary_v2 <$> rows_ans_primary_names_v2 rows)).
Proof.
  unfold parse_ans. intros Hr. apply bind_Ret in Hr as (st & Hf & Hr). injection Hr as <-.
  apply ans_fold_log in Hf as (logs & Hlogs & (A1 & A2 & A3 & A4 & A5 & A6 & A7 & A8)).
  simpl in A1, A2, A3, A4, A5, A6, A7, A8. exists logs. split; [done|]. simpl.
  rewrite A1, A2, A3, A4, A5, A6, A7, A8. split_and!; try done; apply sort_by_perm.
Qed.

(** no row of names collides with another.  In a batch of distinct versions
    the lookups and the primary names of both versions have distinct versions
    and indices: the primary names of version 2 that come from events have
    negative indices and those that come from changes do not. *)
Theorem ans_rows_distinct `{HashOrder} (transactions : list Transaction) (rows : AnsRows) :
  Forall (fun t => in_u64 (t_version t)) transactions -> NoDup (t_version <$> transactions) ->
  parse_ans config transactions = Ret rows ->
  NoDup (up_key insert_ans_lookups_query <$> rows_ans_lookups rows) /\
  NoDup (up_key insert_ans_primary_names_query <$> rows_ans_primary_names rows) /\
  NoDup (up_key insert_ans_lookups_v2_query <$> rows_ans_lookups_v2 rows) /\
  NoDup (up_key insert_ans_primary_names_v2_query <$> rows_ans_primary_names_v2 rows).
Proof.
  intros Hv Hn Hr. pose proof (batch_versions_NoDup _ Hv Hn) as Hvn.
  apply parse_ans_log in Hr as (logs & Hlogs & -> & -> & -> & -> & _). split_and!.
  - eapply (batch_log_NoDup _ log_lookup al_transaction_version); [exact Hlogs| | |done]; apply txn_lookups.
  - eapply (batch_log_NoDup _ log_primary ap_transaction_version); [exact Hlogs| | |done]; apply txn_primaries.
  - eapply (batch_log_NoDup _ log_lookup_v2 al2_transaction_version); [exact Hlogs| | |done]; apply txn_lookups_v2.
  - eapply (batch_log_NoDup _ log_primary_v2 ap2_transaction_version); [exact Hlogs| | |done]; apply txn_primaries_v2.
Qed.

(** C21: the current names do not depend on the order of the batches.  When the
    rows of batches with distinct versions are written in any order, each of
    the four tables of current names ends up the same and holds the newest row
    of each name or address. *)
Theorem ans_tables_converge `{HashOrder} (batches : list (list Transaction)) (rows : list AnsRows)
    lookups primaries lookups_v2 primaries_v2 :
  NoDup (txn_versions (concat batches)) ->
  Forall2 (fun b r => parse_ans config b = Ret r) batches rows ->
  lookups ≡ₚ concat (rows_current_ans_lookups <$> rows) ->
  primaries ≡ₚ concat (rows_current_ans_primary_names <$> rows) ->
  lookups_v2 ≡ₚ concat (rows_current_ans_lookups_v2 <$> rows) ->
  primaries_v2 ≡ₚ concat (rows_current_ans_primary_names_v2 <$> rows) ->
  settles insert_current_ans_lookups_query lookups (concat (rows_current_ans_lookups <$> rows)) /\
  settles insert_current_ans_primary_names_query primaries (concat (rows_current_ans_primary_names <$> rows)) /\
  settles insert_current_ans_lookups_v2_query lookups_v2 (concat (rows_current_ans_lookups_v2 <$> rows)) /\
  settles insert_current_ans_primary_names_v2_query primaries_v2
    (concat (rows_current_ans_primary_names_v2 <$> rows)).
Proof.
  intros Hn Hrows P1 P2 P3 P4. split_and!.
  - eapply (batches_settle _ _ _ cal_last_transaction_version); [done|done| |done|exact Hrows|done].
    intros b r (logs & Hlogs & Hl & _ & _ & _ & Hp & _)%parse_ans_log. apply index_by_rows in Hp as (Hd & _ & Hin).
    split; [done|]. intros c (l & -> & Hc)%Hin%list_elem_of_fmap. rewrite Hl in Hc.
    by eapply (batch_log_version _ log_lookup al_transaction_version); [exact Hlogs|apply txn_lookups|].
  - eapply (batches_settle _ _ _ cap_last_transaction_version); [done|done| |done|exact Hrows|done].
    intros b r (logs & Hlogs & _ & Hl & _ & _ & _ & Hp & _)%parse_ans_log. apply index_by_rows in Hp as (Hd & _ & Hin).
    split; [done|]. intros c (l & -> & Hc)%Hin%list_elem_of_fmap. rewrite Hl in Hc.
    by eapply (batch_log_version _ log_primary ap_transaction_version); [exact Hlogs|apply txn_primaries|].
  - eapply (batches_settle _ _ _ cal2_last_transaction_version); [done|done| |done|exact Hrows|done].
    intros b r (logs & Hlogs & _ & _ & Hl & _ & _ & _ & Hp & _)%parse_ans_log. apply index_by_rows in Hp as (Hd & _ & Hin).
    split; [done|]. intros c (l & -> & Hc)%Hin%list_elem_of_fmap. rewrite Hl in Hc.
    by eapply (batch_log_version _ log_lookup_v2 al2_transaction_version); [exact Hlogs|apply txn_lookups_v2|].
  - eapply (batches_settle _ _ _ cap2_last_transaction_version); [done|done| |done|exact Hrows|done].
    intros b r (logs & Hlogs & _ & _ & _ & Hl & _ & _ & _ & Hp)%parse_ans_log. apply index_by_rows in Hp as (Hd & _ & Hin).
    split; [done|]. intros c (l & -> & Hc)%Hin%list_elem_of_fmap. rewrite Hl in Hc.
    by eapply (batch_log_version _ log_primary_v2 ap2_transaction_version); [exact Hlogs|apply txn_primaries_v2|].
Qed.

(** *** The tables of version 2 contain version 1 *)

(** Rows copied from one table to another: the current rows that stem from
    copies are the copies of the current rows. *)
Section Copies.
Context {L1 L2 C1 C2 K1 K2 : Type} `{EqDecision K1, EqDecision K2}.
Context (cur1 : L1 -> C1) (cur2 : L2 -> C2) (key1 : C1 -> K1) (key2 : C2 -> K2) (copy : L1 -> L2).
Context (V1 : L2 -> Prop) `{!forall x, Decision (V1 x)}.
Variables (l1 : list L1) (l2 : list L2) (rows1 : list C1) (rows2 : list C2).
Hypothesis Hcopies : filter V1 l2 = copy <$> l1.
Hypothesis Hkeys : forall a b, key2 (cur2 (copy a)) = key2 (cur2 (copy b)) <-> key1 (cur1 a) = key1 (cur1 b).
Hypothesis Hstd : forall x y, key2 (cur2 x) = key2 (cur2 y) -> V1 x -> V1 y.
Hypothesis Hcur : forall a b, cur1 a = cur1 b -> cur2 (copy a) = cur2 (copy b).
Hypothesis Hrows1 : forall c, c ∈ rows1 <-> last (filter (fun x => key1 x = key1 c) (cur1 <$> l1)) = Some c.
Hypothesis Hrows2 : forall c, c ∈ rows2 <-> last (filter (fun x => key2 x = key2 c) (cur2 <$> l2)) = Some c.

Lemma last_of_key k x :
  V1 x -> key2 (cur2 x) = k ->
  last (filter (fun c => key2 c = k) (cur2 <$> l2)) =
  (cur2 ∘ copy) <$> last (filter (fun a => key2 (cur2 (copy a)) = k) l1).
Proof.
  intros Hx <-. rewrite filter_fmap_key, fmap_last.
  rewrite <- (filter_within _ V1) by (intros y _ Hy; by apply (Hstd x y)).
  rewrite Hcopies, (filter_fmap_key copy (key2 ∘ cur2)), fmap_last. simpl.
  by rewrite <- option_fmap_compose.
Qed.

Lemma current_copies c :
  c ∈ rows2 /\ (exists x, c = cur2 x /\ V1 x) <-> exists a, cur1 a ∈ rows1 /\ c = cur2 (copy a).
Proof.
  assert (forall a, last (filter (fun c => key1 c = key1 (cur1 a)) (cur1 <$> l1)) =
    cur1 <$> last (filter (fun b => key2 (cur2 (copy b)) = key2 (cur2 (copy a))) l1)) as Hl1.
  { intros a. rewrite (filter_fmap_key cur1 key1), fmap_last. do 2 f_equal. apply list_filter_iff.
    intros b. symmetry. apply Hkeys. }
  split.
  - intros (Hc%Hrows2 & x & -> & Hx). rewrite (last_of_key _ x) in Hc by done.
    apply fmap_Some in Hc as (a & Ha & Hca). exists a. split; [|done]. apply Hrows1. rewrite Hl1.
    rewrite Hca in Ha. simpl in Ha. by rewrite Ha.
  - intros (a & Ha%Hrows1 & ->). rewrite Hl1 in Ha. apply fmap_Some in Ha as (b & Hb & Hab).
    assert (V1 (copy b)) as Hv.
    { apply last_Some_elem_of, list_elem_of_filter in Hb as [_ Hb].
      assert (copy b ∈ filter V1 l2) as [? _]%list_elem_of_filter by (rewrite Hcopies; by apply list_elem_of_fmap_2).
      done. }
    rewrite (Hcur _ _ Hab) in *. split; [|eauto]. apply Hrows2. rewrite (last_of_key _ (copy b)) by done.
    by rewrite Hb.
Qed.
End Copies.


Lemma txn_log_standards t rows :
  ans_txn_log t rows ->
  Forall (fun r => match r with
    | LogLookupV2 l => al2_token_standard l = standard_to_string StandardV2
    | LogPrimaryV2 p => ap2_token_standard p = standard_to_string StandardV2
    | _ => True
    end) rows.
Proof.
  intros (events & changes & logs_e & logs_c & -> & He & Hc).
  apply Forall_app; split; apply Forall_forall; intros r Hr.
  - destruct (elem_of_concat_Forall2 _ _ _ _ He Hr) as (ix & rs & _ & ([p|] & -> & Hp) & Hin); [|set_solver].
    apply list_elem_of_singleton in Hin as ->. by destruct (Hp p eq_refl) as (_ & _ & ?).
  - destruct (elem_of_concat_Forall2 _ _ _ _ Hc Hr) as
      (ix & rs & _ & [(l & p & -> & _ & _)|([l|] & -> & Hl)] & Hin); [| |set_solver].
    + rewrite elem_of_app, !list_elem_of_fmap in Hin. by destruct Hin as [(? & -> & _)|(? & -> & _)].
    + apply list_elem_of_singleton in Hin as ->. by destruct (Hl l eq_refl) as (_ & _ & ?).
Qed.

Lemma log_copies (rows : list AnsRow) :
  Forall (fun r => match r with
    | LogLookupV2 l => al2_token_standard l = standard_to_string StandardV2
    | LogPrimaryV2 p => ap2_token_standard p = standard_to_string StandardV2
    | _ => True
    end) rows ->
  filter (fun l => al2_token_standard l = standard_to_string StandardV1) (omap log_lookup_v2 rows) =
    copy_lookup <$> omap log_lookup rows /\
  filter (fun p => ap2_token_standard p = standard_to_string StandardV1) (omap log_primary_v2 rows) =
    copy_primary <$> omap log_primary rows.
Proof.
  induction 1 as [|r rows Hr _ [IH1 IH2]]; [done|].
  csimpl in *. destruct r as [l|p|l|p]; csimpl; (split; [rewrite ?filter_cons, IH1|rewrite ?filter_cons, IH2]); try done.
  - by rewrite Hr.
  - by rewrite Hr.
Qed.

(** C22: the names of version 1 are all in the tables of version 2.  The rows of
    a batch with the standard v1 are exactly the copies of the rows of version
    1, in order, and the current rows with that standard are exactly the
    copies of the current rows of version 1. *)
Theorem ans_v1_in_v2 `{HashOrder} (transactions : list Transaction) (rows : AnsRows) :
  parse_ans config transactions = Ret rows ->
  filter (fun l => al2_token_standard l = standard_to_string StandardV1) (rows_ans_lookups_v2 rows) =
    (fun l => (lookup_v2_from_v1 (current_of_lookup l) l).2) <$> rows_ans_lookups rows /\
  filter (fun p => ap2_token_standard p = standard_to_string StandardV1) (rows_ans_primary_names_v2 rows) =
    (fun p => (primary_v2_from_v1 (current_of_primary p) p).2) <$> rows_ans_primary_names rows /\
  (forall c, c ∈ rows_current_ans_lookups_v2 rows /\ cal2_token_standard c = standard_to_string StandardV1 <->
     exists l, current_of_lookup l ∈ rows_current_ans_lookups rows /\
       c = (lookup_v2_from_v1 (current_of_lookup l) l).1) /\
  (forall c, c ∈ rows_current_ans_primary_names_v2 rows /\ cap2_token_standard c = standard_to_string StandardV1 <->
     exists p, current_of_primary p ∈ rows_current_ans_primary_names rows /\
       c = (primary_v2_from_v1 (current_of_primary p) p).1).
Proof.
  intros Hr. apply parse_ans_log in Hr as (logs & Hlogs & L1 & L2 & L3 & L4 & P1 & P2 & P3 & P4).
  assert (Forall (fun r => match r with
    | LogLookupV2 l => al2_token_standard l = standard_to_string StandardV2
    | LogPrimaryV2 p => ap2_token_standard p = standard_to_string StandardV2
    | _ => True end) (concat logs)) as Hst.
  { apply Forall_forall. intros r Hin. destruct (elem_of_concat_Forall2 _ _ _ _ Hlogs Hin) as (t & rs & _ & Hl & Hr).
    apply txn_log_standards in Hl. rewrite Forall_forall in Hl. by apply Hl. }
  destruct (log_copies _ Hst) as [C1 C2]. rewrite <- L1, <- L3 in C1. rewrite <- L2, <- L4 in C2.
  apply index_by_rows in P1 as (_ & P1 & _), P2 as (_ & P2 & _), P3 as (_ & P3 & _), P4 as (_ & P4 & _).
  split; [exact C1|]. split; [exact C2|]. split; intros c.
  - etransitivity; [|apply (current_copies current_of_lookup current_of_lookup_v2 cal_pk cal2_pk copy_lookup _ _ _ _
      (rows_current_ans_lookups_v2 rows) C1)]; try done.
    + split; intros [Hc Hs]; (split; [done|]); [|by destruct Hs as (x & -> & ?)].
      apply P3, last_Some_elem_of in Hc. apply list_elem_of_filter in Hc as [_ Hc].
      apply list_elem_of_fmap in Hc as (x & -> & _). by exists x.
    + intros [] []. unfold cal_pk, cal2_pk. simpl. naive_solver.
    + intros [] [] [=]. simpl. congruence.
    + intros [] [] [=]. by subst.
  - etransitivity; [|apply (current_copies current_of_primary current_of_primary_v2 cap_registered_address cap2_pk
      copy_primary _ _ _ _ (rows_current_ans_primary_names_v2 rows) C2)]; try done.
    + split; intros [Hc Hs]; (split; [done|]); [|by destruct Hs as (x & -> & ?)].
      apply P4, last_Some_elem_of in Hc. apply list_elem_of_filter in Hc as [_ Hc].
      apply list_elem_of_fmap in Hc as (x & -> & _). by exists x.
    + intros [] []. unfold cap2_pk. simpl. naive_solver.
    + intros [] [] [=]. simpl. congruence.
    + intros [] [] [=]. by subst.
Qed.
End AnsLaws.

(** ** A concrete batch *)

Section ConcreteAns.
#[local] Existing Instance pair_chrono.
#[local] Existing Instance int_bigdec.
#[local] Existing Instance text_json.
#[local] Existing Instance map_order.
#[local] Existing Instance no_proto_json.

(** Name records and keys are written as their domain. *)
#[local] Instance ans_text_codec : AnsCodec :=
  {| de_NameRecordKeyV1 :=
       {| de_from_str := fun s => Some {| nrk_domain_name := s; nrk_subdomain_name := {| os_vec := [] |} |};
          de_from_value := fun _ => None |};
     de_NameRecordV1 :=
       {| de_from_str := fun s => Some
            {| nr1_expiration_time_sec := 1000%Z : @BigDecimal int_bigdec;
               nr1_property_version := 0%Z : @BigDecimal int_bigdec; nr1_target_address := {| os_vec := [s] |} |};
          de_from_value := fun _ => None |};
     de_NameRecordV2 :=
       {| de_from_str := fun s => Some
            {| nr2_domain_name := s; nr2_expiration_time_sec := 2000%Z : @BigDecimal int_bigdec;
               nr2_target_address := {| os_vec := [] |} |};
          de_from_value := fun _ => None |};
     de_SubdomainExtV2 :=
       {| de_from_str := fun s => Some {| subdomain_expiration_policy := 1; sde_subdomain_name := s |};
          de_from_value := fun _ => None |};
     de_RenewNameEvent := no_de _;
     de_SetReverseLookupEvent :=
       {| de_from_str := fun s => Some
            {| srl_account_addr := "0xa"; srl_curr_domain_name := {| os_vec := [s] |};
               srl_curr_expiration_time_secs := {| obd_vec := [] |};
               srl_curr_subdomain_name := {| os_vec := [] |}; srl_prev_domain_name := {| os_vec := [] |};
               srl_prev_expiration_time_secs := {| obd_vec := [] |}; srl_prev_subdomain_name := {| os_vec := [] |} |};
          de_from_value := fun _ => None |} |}.

Definition ex_contract : string := standardize_address "0xf".
Definition ex_ans_config : AnsProcessorConfig :=
  {| ans_v1_primary_names_table_handle := "0x1a"; ans_v1_name_records_table_handle := "0x1b";
     ans_v2_contract_address := ex_contract |}.
Definition ex_name_write (key value : string) : WriteSetChangePB :=
  {| wsc_type := 0; wsc_change := Some (ChangeWriteTableItem
       {| wti_state_key_hash := EmptyString; wti_handle := "0x1b"; wti_key := key;
          wti_data := Some {| wtd_key := key; wtd_key_type := "0xf::domains::NameRecordKeyV1";
                              wtd_value := value; wtd_value_type := "0xf::domains::NameRecordV1" |} |}) |}.
Definition ex_primary_write (address domain : string) : WriteSetChangePB :=
  {| wsc_type := 0; wsc_change := Some (ChangeWriteTableItem
       {| wti_state_key_hash := EmptyString; wti_handle := "0x1a"; wti_key := address;
          wti_data := Some {| wtd_key := address; wtd_key_type := "address";
                              wtd_value := domain; wtd_value_type := "0xf::domains::NameRecordKeyV1" |} |}) |}.
Definition ex_name_v2_write (name data : string) : WriteSetChangePB :=
  {| wsc_type := 0; wsc_change := Some (ChangeWriteResource
       {| wr_address := "0x77"; wr_state_key_hash := EmptyString;
          wr_type := Some (mk_MoveStructTag "0xf" "v2_1_domains" name []);
          wr_type_str := EmptyString; wr_data := data |}) |}.
Definition ex_set_primary (domain : string) : EventPB :=
  {| ev_key := None; ev_sequence_number := 1; ev_type := None;
     ev_type_str := ex_contract +:+ "::v2_1_domains::SetReverseLookupEvent"; ev_data := domain |}.
Definition ex_ans_txn (v : Z) (changes : list WriteSetChangePB) (events : list EventPB) : Transaction :=
  {| t_timestamp := Some {| seconds := v; nanos := 0 |}; t_version := v;
     t_info := Some
       {| ti_hash := EmptyString; ti_state_change_hash := EmptyString; ti_event_root_hash := EmptyString;
          ti_state_checkpoint_hash := None; ti_gas_used := 7; ti_success := true;
          ti_vm_status := EmptyString; ti_accumulator_root_hash := EmptyString; ti_changes := changes |};
     t_epoch := 0; t_block_height := 1; t_type := 4;
     t_size_info := None; t_txn_data := Some (TdUser {| ut_request := None; ut_events := events |}) |}.

(** The domain alice of version 1, the name dao.bob of version 2, and primary
    names of both. *)
Definition ex_ans_batch : list Transaction :=
  [ex_ans_txn 7 [ex_name_write "alice" "0xa"; ex_primary_write "0xa" "alice";
                 ex_name_v2_write "SubdomainExt" "dao"; ex_name_v2_write "NameRecord" "bob"]
     [ex_set_primary "bob"]].
Definition ex_ans_next : list Transaction := [ex_ans_txn 8 [ex_name_write "alice" "0xb"] [ex_set_primary EmptyString]].
Definition ex_no_names : AnsRows :=
  {| rows_current_ans_lookups := []; rows_ans_lookups := []; rows_current_ans_primary_names := [];
     rows_ans_primary_names := []; rows_current_ans_lookups_v2 := []; rows_ans_lookups_v2 := [];
     rows_current_ans_primary_names_v2 := []; rows_ans_primary_names_v2 := [] |}.
Definition ex_ans_rows (ts : list Transaction) : AnsRows := ret_or ex_no_names (parse_ans ex_ans_config ts).
Lemma ex_ans_batch_ok : parse_ans ex_ans_config ex_ans_batch = Ret (ex_ans_rows ex_ans_batch).
Proof. apply ret_or_eq. vm_compute. reflexivity. Qed.
Lemma ex_ans_next_ok : parse_ans ex_ans_config ex_ans_next = Ret (ex_ans_rows ex_ans_next).
Proof. apply ret_or_eq. vm_compute. reflexivity. Qed.

Lemma ans_rows_distinct_witness :
  (ap2_write_set_change_index <$> rows_ans_primary_names_v2 (ex_ans_rows ex_ans_batch)) = [-1; 1]%Z /\
  NoDup (up_key insert_ans_primary_names_v2_query <$> rows_ans_primary_names_v2 (ex_ans_rows ex_ans_batch)).
Proof.
  split; [vm_compute; reflexivity|].
  destruct (ans_rows_distinct ex_ans_config ex_ans_batch (ex_ans_rows ex_ans_batch)) as (_ & _ & _ & Hp).
  - repeat constructor; simpl; lia.
  - apply (bool_decide_unpack _). vm_compute. exact I.
  - exact ex_ans_batch_ok.
  - exact Hp.
Defined.

Lemma ans_v1_in_v2_witness :
  (al2_token_name <$> rows_ans_lookups_v2 (ex_ans_rows ex_ans_batch)) = ["alice.apt"; "dao.bob.apt"] /\
  filter (fun l => al2_token_standard l = standard_to_string StandardV1)
      (rows_ans_lookups_v2 (ex_ans_rows ex_ans_batch)) =
    (fun l => (lookup_v2_from_v1 (current_of_lookup l) l).2) <$> rows_ans_lookups (ex_ans_rows ex_ans_batch).
Proof.
  split; [vm_compute; reflexivity|].
  apply (ans_v1_in_v2 ex_ans_config ex_ans_batch). exact ex_ans_batch_ok.
Defined.

(** The batches are written in the reverse order. *)
Lemma ans_tables_converge_witness :
  let rows := [ex_ans_rows ex_ans_batch; ex_ans_rows ex_ans_next] in
  settles insert_current_ans_lookups_query
    (reverse (concat (rows_current_ans_lookups <$> rows))) (concat (rows_current_ans_lookups <$> rows)).
Proof.
  intros rows.
  destruct (ans_tables_converge ex_ans_config [ex_ans_batch; ex_ans_next] rows
    (reverse (concat (rows_current_ans_lookups <$> rows)))
    (reverse (concat (rows_current_ans_primary_names <$> rows)))
    (reverse (concat (rows_current_ans_lookups_v2 <$> rows)))
    (reverse (concat (rows_current_ans_primary_names_v2 <$> rows)))) as (Hl & _).
  - apply (bool_decide_unpack _). vm_compute. exact I.
  - constructor; [exact ex_ans_batch_ok|]. constructor; [exact ex_ans_next_ok|constructor].
  - apply reverse_Permutation.
  - apply reverse_Permutation.
  - apply reverse_Permutation.
  - apply reverse_Permutation.
  - exact Hl.
Defined.

(** The address of the contract has to be spelled in two ways: resources are
    compared in the standard form, events as they are written. *)
Example contract_spelling :
  name_record_v2_from_write_resource
    {| wr_address := "0x77"; wr_state_key_hash := EmptyString;
       wr_type := Some (mk_MoveStructTag "0xf" "v2_1_domains" "NameRecord" []);
       wr_type_str := EmptyString; wr_data := "bob" |} "0xf" 7 = Ret (Ok None) /\
  v2_ans_event
    {| ev_key := None; ev_sequence_number := 1; ev_type := None;
       ev_type_str := "0xf::v2_1_domains::SetReverseLookupEvent"; ev_data := "bob" |}
    (standardize_address "0xf") 7 = Ok None.
Proof. split; [vm_cast_no_check (eq_refl (Ret (Ok (@None NameRecordV2))))|vm_cast_no_check (eq_refl (Ok (@None V2AnsEvent)))]. Qed.
End ConcreteAns.
