(* ===== verification/TokenUtils.v ===== *)
(** * Types of the first token contract

    [models/token_models/token_utils.rs]: identifiers of tokens and
    collections, table items, events and resources of the modules at 0x3. *)
From S2P Require Import Prelude RustStr Json Externals Proto Util TokenResources.

Definition TOKEN_ADDR : string :=
  "0x0000000000000000000000000000000000000000000000000000000000000003".

(** ** Identifiers *)

Section Ids.
Context `{HexCodec, Sha256}.

Record CollectionDataIdType := { cid_creator : string; cid_name : string }.
(** [Display], [to_hash], [to_id]. *)
Definition collection_id_display (c : CollectionDataIdType) : string :=
  standardize_address (cid_creator c) +:+ "::" +:+ cid_name c.
Definition collection_to_hash (c : CollectionDataIdType) : string := hash_str (collection_id_display c).
Definition collection_to_id (c : CollectionDataIdType) : string := "0x" +:+ collection_to_hash c.
Definition collection_name_trunc (c : CollectionDataIdType) : outcome string :=
  truncate_str (cid_name c) NAME_LENGTH.

Record TokenDataIdType := { tdi_creator : string; tdi_collection : string; tdi_name : string }.
Definition token_data_id_display (t : TokenDataIdType) : string :=
  standardize_address (tdi_creator t) +:+ "::" +:+ tdi_collection t +:+ "::" +:+ tdi_name t.
Definition token_to_hash (t : TokenDataIdType) : string := hash_str (token_data_id_display t).
Definition token_to_id (t : TokenDataIdType) : string := "0x" +:+ token_to_hash t.
Definition token_collection_trunc (t : TokenDataIdType) : outcome string :=
  truncate_str (tdi_collection t) NAME_LENGTH.
Definition token_name_trunc (t : TokenDataIdType) : outcome string := truncate_str (tdi_name t) NAME_LENGTH.
Definition get_collection_data_id_hash (t : TokenDataIdType) : string :=
  collection_to_hash {| cid_creator := tdi_creator t; cid_name := tdi_collection t |}.
Definition get_collection_id (t : TokenDataIdType) : string :=
  collection_to_id {| cid_creator := tdi_creator t; cid_name := tdi_collection t |}.
Definition token_creator_address (t : TokenDataIdType) : string := standardize_address (tdi_creator t).
End Ids.

Section TokenUtils.
Context `{BigDec}.

Record TokenIdType := { tki_token_data_id : TokenDataIdType; tki_property_version : BigDecimal }.
Definition token_id_display (t : TokenIdType) : string :=
  token_data_id_display (tki_token_data_id t) +:+ "::" +:+ bd_to_string (tki_property_version t).

(** ** Data *)

Record TokenDataMutabilityConfigType := {
  tmc_description : bool; tmc_maximum : bool; tmc_properties : bool; tmc_royalty : bool; tmc_uri : bool }.
Record RoyaltyType := {
  roy_payee_address : string;
  royalty_points_denominator : BigDecimal;
  royalty_points_numerator : BigDecimal;
}.
Definition get_payee_address (r : RoyaltyType) : string := standardize_address (roy_payee_address r).
Record TokenDataType := {
  tdt_default_properties : Value;
  tdt_description : string;
  tdt_largest_property_version : BigDecimal;
  tdt_maximum : BigDecimal;
  tdt_mutability_config : TokenDataMutabilityConfigType;
  tdt_name : string;
  tdt_royalty : RoyaltyType;
  tdt_supply : BigDecimal;
  tdt_uri : string;
}.
Definition token_data_uri_trunc (t : TokenDataType) : outcome string := truncate_str (tdt_uri t) URI_LENGTH.
Definition token_data_name_trunc (t : TokenDataType) : outcome string := truncate_str (tdt_name t) NAME_LENGTH.
Record TokenType := { tt_amount : BigDecimal; tt_id : TokenIdType; tt_token_properties : Value }.
Record CollectionDataMutabilityConfigType := { cmc_description : bool; cmc_maximum : bool; cmc_uri : bool }.
Record CollectionDataType := {
  cdt_description : string;
  cdt_maximum : BigDecimal;
  cdt_mutability_config : CollectionDataMutabilityConfigType;
  cdt_name : string;
  cdt_supply : BigDecimal;
  cdt_uri : string;
}.
Definition collection_data_uri_trunc (c : CollectionDataType) : outcome string :=
  truncate_str (cdt_uri c) URI_LENGTH.
Definition collection_data_name_trunc (c : CollectionDataType) : outcome string :=
  truncate_str (cdt_name c) NAME_LENGTH.
Record TokenOfferIdType := { toi_to_addr : string; toi_token_id : TokenIdType }.
Definition offer_to_address (o : TokenOfferIdType) : string := standardize_address (toi_to_addr o).

Record CollectionResourceType := { crt_collection_data : MoveTable; crt_token_data : MoveTable }.
Record TokenStoreResourceType := { tsr_tokens : MoveTable }.
Record PendingClaimsResourceType := { pcr_pending_claims : MoveTable }.

Record WithdrawTokenEventType := { wte_amount : BigDecimal; wte_id : TokenIdType }.
Record DepositTokenEventType := { dte_amount : BigDecimal; dte_id : TokenIdType }.
Record MintTokenEventType := { mte_amount : BigDecimal; mte_id : TokenDataIdType }.
Record BurnTokenEventType := { bte_amount : BigDecimal; bte_id : TokenIdType }.
Record MutateTokenPropertyMapEventType := { mpe_old_id : TokenIdType; mpe_new_id : TokenIdType }.
Record OfferTokenEventType := { ote_amount : BigDecimal; ote_to_address : string; ote_token_id : TokenIdType }.
Record CancelTokenOfferEventType := {
  cte_amount : BigDecimal; cte_to_address : string; cte_token_id : TokenIdType }.
Record ClaimTokenEventType := { clm_amount : BigDecimal; clm_to_address : string; clm_token_id : TokenIdType }.

Inductive TokenWriteSet :=
| TwTokenDataId (i : TokenDataIdType)
| TwTokenId (i : TokenIdType)
| TwTokenData (d : TokenDataType)
| TwToken (t : TokenType)
| TwCollectionData (d : CollectionDataType)
| TwTokenOfferId (i : TokenOfferIdType).
Inductive TokenEvent :=
| TeMintTokenEvent (e : MintTokenEventType)
| TeBurnTokenEvent (e : BurnTokenEventType)
| TeMutateTokenPropertyMapEvent (e : MutateTokenPropertyMapEventType)
| TeWithdrawTokenEvent (e : WithdrawTokenEventType)
| TeDepositTokenEvent (e : DepositTokenEventType)
| TeOfferTokenEvent (e : OfferTokenEventType)
| TeCancelTokenOfferEvent (e : CancelTokenOfferEventType)
| TeClaimTokenEvent (e : ClaimTokenEventType).
Inductive TokenResource :=
| TrCollectionResource (r : CollectionResourceType)
| TrTokenStoreResource (r : TokenStoreResourceType)
| TrPendingClaimsResource (r : PendingClaimsResourceType).

(** The derived [Deserialize] implementations. *)
Class TokenV1Codec := {
  de_TokenDataIdType :: Deserialize TokenDataIdType;
  de_TokenIdType :: Deserialize TokenIdType;
  de_TokenDataType :: Deserialize TokenDataType;
  de_TokenType :: Deserialize TokenType;
  de_CollectionDataType :: Deserialize CollectionDataType;
  de_TokenOfferIdType :: Deserialize TokenOfferIdType;
  de_MintTokenEventType :: Deserialize MintTokenEventType;
  de_BurnTokenEventType :: Deserialize BurnTokenEventType;
  de_MutateTokenPropertyMapEventType :: Deserialize MutateTokenPropertyMapEventType;
  de_WithdrawTokenEventType :: Deserialize WithdrawTokenEventType;
  de_DepositTokenEventType :: Deserialize DepositTokenEventType;
  de_OfferTokenEventType :: Deserialize OfferTokenEventType;
  de_CancelTokenOfferEventType :: Deserialize CancelTokenOfferEventType;
  de_ClaimTokenEventType :: Deserialize ClaimTokenEventType;
  de_CollectionResourceType :: Deserialize CollectionResourceType;
  de_TokenStoreResourceType :: Deserialize TokenStoreResourceType;
  de_PendingClaimsResourceType :: Deserialize PendingClaimsResourceType;
}.
Context `{!TokenV1Codec}.

(** [TokenWriteSet::from_table_item_type]. *)
Definition token_write_set (data_type data : string) (txn_version : Z) : result (option TokenWriteSet) :=
  if decide (data_type = "0x3::token::TokenDataId") then (Some ∘ TwTokenDataId) <$> context (de_from_str data)
  else if decide (data_type = "0x3::token::TokenId") then (Some ∘ TwTokenId) <$> context (de_from_str data)
  else if decide (data_type = "0x3::token::TokenData") then (Some ∘ TwTokenData) <$> context (de_from_str data)
  else if decide (data_type = "0x3::token::Token") then (Some ∘ TwToken) <$> context (de_from_str data)
  else if decide (data_type = "0x3::token::CollectionData") then
    (Some ∘ TwCollectionData) <$> context (de_from_str data)
  else if decide (data_type = "0x3::token_transfers::TokenOfferId") then
    (Some ∘ TwTokenOfferId) <$> context (de_from_str data)
  else Ok None.

(** [TokenEvent::from_event]. *)
Definition v1_token_event (data_type data : string) (txn_version : Z) : result (option TokenEvent) :=
  if decide (data_type = "0x3::token::MintTokenEvent") then
    (Some ∘ TeMintTokenEvent) <$> context (de_from_str data)
  else if decide (data_type = "0x3::token::BurnTokenEvent") then
    (Some ∘ TeBurnTokenEvent) <$> context (de_from_str data)
  else if decide (data_type = "0x3::token::MutateTokenPropertyMapEvent") then
    (Some ∘ TeMutateTokenPropertyMapEvent) <$> context (de_from_str data)
  else if decide (data_type = "0x3::token::WithdrawEvent") then
    (Some ∘ TeWithdrawTokenEvent) <$> context (de_from_str data)
  else if decide (data_type = "0x3::token::DepositEvent") then
    (Some ∘ TeDepositTokenEvent) <$> context (de_from_str data)
  else if decide (data_type = "0x3::token_transfers::TokenOfferEvent") then
    (Some ∘ TeOfferTokenEvent) <$> context (de_from_str data)
  else if decide (data_type = "0x3::token_transfers::TokenCancelOfferEvent") then
    (Some ∘ TeCancelTokenOfferEvent) <$> context (de_from_str data)
  else if decide (data_type = "0x3::token_transfers::TokenClaimEvent") then
    (Some ∘ TeClaimTokenEvent) <$> context (de_from_str data)
  else Ok None.

Definition is_token_resource_supported (data_type : string) : bool :=
  bool_decide (data_type ∈
    [TOKEN_ADDR +:+ "::token::Collections"; TOKEN_ADDR +:+ "::token::TokenStore";
     TOKEN_ADDR +:+ "::token_transfers::PendingClaims"]).
(** [TokenResource::from_resource]. *)
Definition token_resource (data_type : string) (data : Value) (txn_version : Z) : result TokenResource :=
  if decide (data_type = TOKEN_ADDR +:+ "::token::Collections") then
    TrCollectionResource <$> context (de_from_value data)
  else if decide (data_type = TOKEN_ADDR +:+ "::token::TokenStore") then
    TrTokenStoreResource <$> context (de_from_value data)
  else if decide (data_type = TOKEN_ADDR +:+ "::token_transfers::PendingClaims") then
    TrPendingClaimsResource <$> context (de_from_value data)
  else Err.
End TokenUtils.
