(* ===== verification/TokensV1.v ===== *)
(** * Tokens of the first contract

    [models/token_models] and [processors/token_processor.rs]: tokens, their
    ownership, token and collection data, activities, pending claims and NFT
    points.  The handles of the tables of a batch are collected first; the
    answers of the database to a lookup are a parameter. *)
From S2P Require Import Prelude RustStr Json Externals Proto Util Database Processors.
From S2P Require Import DefaultModels TokenResources TokenUtils.

Section TokensV1.
Context `{Chrono, BigDec, HexCodec, Sha256, JsonParse, ProtoJson}.
Context `{!BigDecKey, !TokenV1Codec}.

(** ** Rows *)

Record Token := {
  tkn_token_data_id_hash : string;
  tkn_property_version : BigDecimal;
  tkn_transaction_version : Z;
  tkn_creator_address : string;
  tkn_collection_name : string;
  tkn_name : string;
  tkn_token_properties : Value;
  tkn_collection_data_id_hash : string;
  tkn_transaction_timestamp : NaiveDateTime;
}.
Record TokenOwnership := {
  own_token_data_id_hash : string;
  own_property_version : BigDecimal;
  own_transaction_version : Z;
  own_table_handle : string;
  own_creator_address : string;
  own_collection_name : string;
  own_name : string;
  own_owner_address : option string;
  own_amount : BigDecimal;
  own_table_type : option string;
  own_collection_data_id_hash : string;
  own_transaction_timestamp : NaiveDateTime;
}.
Record CurrentTokenOwnership := {
  cto_token_data_id_hash : string;
  cto_property_version : BigDecimal;
  cto_owner_address : string;
  cto_creator_address : string;
  cto_collection_name : string;
  cto_name : string;
  cto_amount : BigDecimal;
  cto_token_properties : Value;
  cto_last_transaction_version : Z;
  cto_collection_data_id_hash : string;
  cto_table_type : string;
  cto_last_transaction_timestamp : NaiveDateTime;
}.
Record TokenData := {
  tda_token_data_id_hash : string;
  tda_transaction_version : Z;
  tda_creator_address : string;
  tda_collection_name : string;
  tda_name : string;
  tda_maximum : BigDecimal;
  tda_supply : BigDecimal;
  tda_largest_property_version : BigDecimal;
  tda_metadata_uri : string;
  tda_payee_address : string;
  tda_royalty_points_numerator : BigDecimal;
  tda_royalty_points_denominator : BigDecimal;
  tda_maximum_mutable : bool;
  tda_uri_mutable : bool;
  tda_description_mutable : bool;
  tda_properties_mutable : bool;
  tda_royalty_mutable : bool;
  tda_default_properties : Value;
  tda_collection_data_id_hash : string;
  tda_transaction_timestamp : NaiveDateTime;
  tda_description : string;
}.
Record CurrentTokenData := {
  ctd_token_data_id_hash : string;
  ctd_creator_address : string;
  ctd_collection_name : string;
  ctd_name : string;
  ctd_maximum : BigDecimal;
  ctd_supply : BigDecimal;
  ctd_largest_property_version : BigDecimal;
  ctd_metadata_uri : string;
  ctd_payee_address : string;
  ctd_royalty_points_numerator : BigDecimal;
  ctd_royalty_points_denominator : BigDecimal;
  ctd_maximum_mutable : bool;
  ctd_uri_mutable : bool;
  ctd_description_mutable : bool;
  ctd_properties_mutable : bool;
  ctd_royalty_mutable : bool;
  ctd_default_properties : Value;
  ctd_last_transaction_version : Z;
  ctd_collection_data_id_hash : string;
  ctd_last_transaction_timestamp : NaiveDateTime;
  ctd_description : string;
}.
Record CollectionData := {
  cda_collection_data_id_hash : string;
  cda_transaction_version : Z;
  cda_creator_address : string;
  cda_collection_name : string;
  cda_description : string;
  cda_metadata_uri : string;
  cda_supply : BigDecimal;
  cda_maximum : BigDecimal;
  cda_maximum_mutable : bool;
  cda_uri_mutable : bool;
  cda_description_mutable : bool;
  cda_table_handle : string;
  cda_transaction_timestamp : NaiveDateTime;
}.
Record CurrentCollectionData := {
  ccd_collection_data_id_hash : string;
  ccd_creator_address : string;
  ccd_collection_name : string;
  ccd_description : string;
  ccd_metadata_uri : string;
  ccd_supply : BigDecimal;
  ccd_maximum : BigDecimal;
  ccd_maximum_mutable : bool;
  ccd_uri_mutable : bool;
  ccd_description_mutable : bool;
  ccd_last_transaction_version : Z;
  ccd_table_handle : string;
  ccd_last_transaction_timestamp : NaiveDateTime;
}.
Record TokenActivity := {
  tac_transaction_version : Z;
  tac_event_account_address : string;
  tac_event_creation_number : Z;
  tac_event_sequence_number : Z;
  tac_token_data_id_hash : string;
  tac_property_version : BigDecimal;
  tac_creator_address : string;
  tac_collection_name : string;
  tac_name : string;
  tac_transfer_type : string;
  tac_from_address : option string;
  tac_to_address : option string;
  tac_token_amount : BigDecimal;
  tac_coin_type : option string;
  tac_coin_amount : option BigDecimal;
  tac_collection_data_id_hash : string;
  tac_transaction_timestamp : NaiveDateTime;
  tac_event_index : option Z;
}.
Record CurrentTokenPendingClaim := {
  tpc_token_data_id_hash : string;
  tpc_property_version : BigDecimal;
  tpc_from_address : string;
  tpc_to_address : string;
  tpc_collection_data_id_hash : string;
  tpc_creator_address : string;
  tpc_collection_name : string;
  tpc_name : string;
  tpc_amount : BigDecimal;
  tpc_table_handle : string;
  tpc_last_transaction_version : Z;
  tpc_last_transaction_timestamp : NaiveDateTime;
  tpc_token_data_id : string;
  tpc_collection_id : string;
}.
Record NftPoints := {
  nfp_transaction_version : Z;
  nfp_owner_address : string;
  nfp_token_name : string;
  nfp_point_type : string;
  nfp_amount : BigDecimal;
  nfp_transaction_timestamp : NaiveDateTime;
}.
#[export] Instance Token_fields : FieldCount Token := 9.
#[export] Instance TokenOwnership_fields : FieldCount TokenOwnership := 12.
#[export] Instance CurrentTokenOwnership_fields : FieldCount CurrentTokenOwnership := 12.
#[export] Instance TokenData_fields : FieldCount TokenData := 21.
#[export] Instance CurrentTokenData_fields : FieldCount CurrentTokenData := 21.
#[export] Instance CollectionData_fields : FieldCount CollectionData := 13.
#[export] Instance CurrentCollectionData_fields : FieldCount CurrentCollectionData := 13.
#[export] Instance TokenActivity_fields : FieldCount TokenActivity := 18.
#[export] Instance CurrentTokenPendingClaim_fields : FieldCount CurrentTokenPendingClaim := 14.
#[export] Instance NftPoints_fields : FieldCount NftPoints := 6.

Definition token_pk (t : Token) : string * BigDecimal := (tkn_token_data_id_hash t, tkn_property_version t).
Definition cto_pk (c : CurrentTokenOwnership) : string * BigDecimal * string :=
  (cto_token_data_id_hash c, cto_property_version c, cto_owner_address c).
Definition tpc_pk (c : CurrentTokenPendingClaim) : string * BigDecimal * string * string :=
  (tpc_token_data_id_hash c, tpc_property_version c, tpc_from_address c, tpc_to_address c).

(** ** Table handles: [TableMetadataForToken] *)

Record TableMetadataForToken := { tm_owner_address : string; tm_table_type : string }.
Abbreviation TableHandleToOwner := (gmap string TableMetadataForToken) (only parsing).
Definition get_owner_address (t : TableMetadataForToken) : string := standardize_address (tm_owner_address t).

Definition get_table_handle_to_owner (write_resource : WriteResource) (txn_version : Z)
  : outcome (result (option TableHandleToOwner)) :=
  type_str ← get_outer_type_from_resource write_resource;
  if is_token_resource_supported type_str then
    resource ← DefaultModels.from_write_resource write_resource 0 txn_version 0;
    let value := {| tm_owner_address := mr_address resource; tm_table_type := wr_type_str write_resource |} in
    data ← unwrap (mr_data resource);
    r <-? Ret (token_resource type_str data txn_version);
    let table_handle :=
      match r with
      | TrCollectionResource collection_resource => get_handle (crt_collection_data collection_resource)
      | TrTokenStoreResource inner => get_handle (tsr_tokens inner)
      | TrPendingClaimsResource inner => get_handle (pcr_pending_claims inner)
      end in
    Ret (Ok (Some {[standardize_address table_handle := value]}))
  else Ret (Ok None).

Definition table_handle_step (txn_version : Z) (table_handle_to_owner : TableHandleToOwner)
    (wsc : WriteSetChangePB) : outcome TableHandleToOwner :=
  change ← unwrap (wsc_change wsc);
  match change with
  | ChangeWriteResource write_resource =>
      r ← get_table_handle_to_owner write_resource txn_version;
      maybe_map ← unwrap_result r;
      Ret (from_option (extend table_handle_to_owner) table_handle_to_owner maybe_map)
  | _ => Ret table_handle_to_owner
  end.
Definition get_table_handle_to_owner_from_transactions (transactions : list Transaction)
  : outcome TableHandleToOwner :=
  foldM (fun table_handle_to_owner transaction =>
    match t_txn_data transaction with
    | Some (TdUser _) =>
        info ← unwrap (t_info transaction);
        foldM (table_handle_step (as_i64 (t_version transaction))) table_handle_to_owner (ti_changes info)
    | _ => Ret table_handle_to_owner
    end) ∅ transactions.

(** ** Ownership: [token_ownerships.rs] *)

(** [TokenOwnership::from_token]. *)
Definition ownership_from_token (token : Token) (table_item_key_type table_item_key : string)
    (amount : BigDecimal) (table_handle : string) (table_handle_to_owner : TableHandleToOwner)
  : result (option (TokenOwnership * option CurrentTokenOwnership)) :=
  let txn_version := tkn_transaction_version token in
  maybe_token_id ← token_write_set table_item_key_type table_item_key txn_version;
  Ok (match maybe_token_id with
    | Some (TwTokenId _) =>
        let table_handle := standardize_address table_handle in
        let maybe_table_metadata := table_handle_to_owner !! table_handle in
        let ownership owner_address table_type :=
          {| own_token_data_id_hash := tkn_token_data_id_hash token;
             own_property_version := tkn_property_version token;
             own_transaction_version := tkn_transaction_version token;
             own_table_handle := table_handle;
             own_creator_address := standardize_address (tkn_creator_address token);
             own_collection_name := tkn_collection_name token;
             own_name := tkn_name token;
             own_owner_address := standardize_address <$> owner_address;
             own_amount := amount;
             own_table_type := table_type;
             own_collection_data_id_hash := tkn_collection_data_id_hash token;
             own_transaction_timestamp := tkn_transaction_timestamp token |} in
        match maybe_table_metadata with
        | Some tm =>
            if decide (tm_table_type tm = "0x3::token::TokenStore") then
              Some (ownership (Some (get_owner_address tm)) (Some (tm_table_type tm)),
                    Some {| cto_token_data_id_hash := tkn_token_data_id_hash token;
                            cto_property_version := tkn_property_version token;
                            cto_owner_address := get_owner_address tm;
                            cto_creator_address := standardize_address (tkn_creator_address token);
                            cto_collection_name := tkn_collection_name token;
                            cto_name := tkn_name token;
                            cto_amount := amount;
                            cto_token_properties := tkn_token_properties token;
                            cto_last_transaction_version := txn_version;
                            cto_collection_data_id_hash := tkn_collection_data_id_hash token;
                            cto_table_type := tm_table_type tm;
                            cto_last_transaction_timestamp := tkn_transaction_timestamp token |})
            else None
        | None => Some (ownership None None, None)
        end
    | _ => None
    end).

(** ** Tokens: [tokens.rs] *)

Abbreviation TokenWithOwnership := (Token * option TokenOwnership * option CurrentTokenOwnership)%type.
(** The pair of optional rows of an ownership. *)
Definition split_ownership (token : Token)
    (o : option (TokenOwnership * option CurrentTokenOwnership)) : TokenWithOwnership :=
  match o with
  | Some (token_ownership, current_token_ownership) => (token, Some token_ownership, current_token_ownership)
  | None => (token, None, None)
  end.

(** [Token::from_write_table_item]. *)
Definition token_from_write_table_item (table_item : WriteTableItem) (txn_version : Z)
    (txn_timestamp : NaiveDateTime) (table_handle_to_owner : TableHandleToOwner)
  : outcome (result (option TokenWithOwnership)) :=
  table_item_data ← unwrap (wti_data table_item);
  r <-? Ret (token_write_set (wtd_value_type table_item_data) (wtd_value table_item_data) txn_version);
  match r with
  | Some (TwToken token) =>
      let token_id := tt_id token in
      let token_data_id := tki_token_data_id token_id in
      collection_name ← token_collection_trunc token_data_id;
      name ← token_name_trunc token_data_id;
      let token_pg :=
        {| tkn_token_data_id_hash := token_to_hash token_data_id;
           tkn_property_version := tki_property_version token_id;
           tkn_transaction_version := txn_version;
           tkn_creator_address := token_creator_address token_data_id;
           tkn_collection_name := collection_name;
           tkn_name := name;
           tkn_token_properties := tt_token_properties token;
           tkn_collection_data_id_hash := get_collection_data_id_hash token_data_id;
           tkn_transaction_timestamp := txn_timestamp |} in
      o <-? Ret (ownership_from_token token_pg (wtd_key_type table_item_data) (wtd_key table_item_data)
                   (ensure_not_negative (tt_amount token)) (wti_handle table_item) table_handle_to_owner);
      Ret (Ok (Some (split_ownership token_pg o)))
  | _ => Ret (Ok None)
  end.

(** [Token::from_delete_table_item]. *)
Definition token_from_delete_table_item (table_item : DeleteTableItem) (txn_version : Z)
    (txn_timestamp : NaiveDateTime) (table_handle_to_owner : TableHandleToOwner)
  : outcome (result (option TokenWithOwnership)) :=
  table_item_data ← unwrap (dti_data table_item);
  r <-? Ret (token_write_set (dtd_key_type table_item_data) (dtd_key table_item_data) txn_version);
  match r with
  | Some (TwTokenId token_id) =>
      let token_data_id := tki_token_data_id token_id in
      collection_name ← token_collection_trunc token_data_id;
      name ← token_name_trunc token_data_id;
      let token :=
        {| tkn_token_data_id_hash := token_to_hash token_data_id;
           tkn_property_version := tki_property_version token_id;
           tkn_transaction_version := txn_version;
           tkn_creator_address := token_creator_address token_data_id;
           tkn_collection_name := collection_name;
           tkn_name := name;
           tkn_token_properties := Null;
           tkn_collection_data_id_hash := get_collection_data_id_hash token_data_id;
           tkn_transaction_timestamp := txn_timestamp |} in
      o <-? Ret (ownership_from_token token (dtd_key_type table_item_data) (dtd_key table_item_data)
                   bd_zero (dti_handle table_item) table_handle_to_owner);
      Ret (Ok (Some (split_ownership token o)))
  | _ => Ret (Ok None)
  end.

(** ** Token data: [token_datas.rs] *)

(** [TokenData::from_write_table_item]. *)
Definition token_data_from_write_table_item (table_item : WriteTableItem) (txn_version : Z)
    (txn_timestamp : NaiveDateTime) : outcome (result (option (TokenData * CurrentTokenData))) :=
  table_item_data ← unwrap (wti_data table_item);
  r <-? Ret (token_write_set (wtd_value_type table_item_data) (wtd_value table_item_data) txn_version);
  match r with
  | Some (TwTokenData token_data) =>
      k <-? Ret (token_write_set (wtd_key_type table_item_data) (wtd_key table_item_data) txn_version);
      match k with
      | Some (TwTokenDataId token_data_id) =>
          let collection_data_id_hash := get_collection_data_id_hash token_data_id in
          let token_data_id_hash := token_to_hash token_data_id in
          collection_name ← token_collection_trunc token_data_id;
          name ← token_name_trunc token_data_id;
          metadata_uri ← token_data_uri_trunc token_data;
          let config := tdt_mutability_config token_data in
          let royalty := tdt_royalty token_data in
          Ret (Ok (Some
            ({| tda_token_data_id_hash := token_data_id_hash;
                tda_transaction_version := txn_version;
                tda_creator_address := token_creator_address token_data_id;
                tda_collection_name := collection_name;
                tda_name := name;
                tda_maximum := tdt_maximum token_data;
                tda_supply := tdt_supply token_data;
                tda_largest_property_version := tdt_largest_property_version token_data;
                tda_metadata_uri := metadata_uri;
                tda_payee_address := get_payee_address royalty;
                tda_royalty_points_numerator := royalty_points_numerator royalty;
                tda_royalty_points_denominator := royalty_points_denominator royalty;
                tda_maximum_mutable := tmc_maximum config;
                tda_uri_mutable := tmc_uri config;
                tda_description_mutable := tmc_description config;
                tda_properties_mutable := tmc_properties config;
                tda_royalty_mutable := tmc_royalty config;
                tda_default_properties := tdt_default_properties token_data;
                tda_collection_data_id_hash := collection_data_id_hash;
                tda_transaction_timestamp := txn_timestamp;
                tda_description := tdt_description token_data |},
             {| ctd_token_data_id_hash := token_data_id_hash;
                ctd_creator_address := token_creator_address token_data_id;
                ctd_collection_name := collection_name;
                ctd_name := name;
                ctd_maximum := tdt_maximum token_data;
                ctd_supply := tdt_supply token_data;
                ctd_largest_property_version := tdt_largest_property_version token_data;
                ctd_metadata_uri := metadata_uri;
                ctd_payee_address := get_payee_address royalty;
                ctd_royalty_points_numerator := royalty_points_numerator royalty;
                ctd_royalty_points_denominator := royalty_points_denominator royalty;
                ctd_maximum_mutable := tmc_maximum config;
                ctd_uri_mutable := tmc_uri config;
                ctd_description_mutable := tmc_description config;
                ctd_properties_mutable := tmc_properties config;
                ctd_royalty_mutable := tmc_royalty config;
                ctd_default_properties := tdt_default_properties token_data;
                ctd_last_transaction_version := txn_version;
                ctd_collection_data_id_hash := collection_data_id_hash;
                ctd_last_transaction_timestamp := txn_timestamp;
                ctd_description := tdt_description token_data |})))
      | _ => Ret (Ok None)
      end
  | _ => Ret (Ok None)
  end.

(** ** Collections: [collection_datas.rs] *)

(** The lookup of the creator of a collection; [query n] is the creator in
    the answer to the [n]-th attempt. *)
Definition get_collection_creator (query_retries : nat) (query : nat -> string -> result string)
    (table_handle : string) : result string :=
  retry_lookup query_retries (fun n => query n table_handle).

(** [CollectionData::from_write_table_item]. *)
Definition collection_data_from_write_table_item (table_item : WriteTableItem) (txn_version : Z)
    (txn_timestamp : NaiveDateTime) (table_handle_to_owner : TableHandleToOwner)
    (query : nat -> string -> result string) (query_retries : nat)
  : outcome (result (option (CollectionData * CurrentCollectionData))) :=
  table_item_data ← unwrap (wti_data table_item);
  r <-? Ret (token_write_set (wtd_value_type table_item_data) (wtd_value table_item_data) txn_version);
  match r with
  | Some (TwCollectionData collection_data) =>
      let table_handle := wti_handle table_item in
      let creator_address :=
        match get_owner_address <$> table_handle_to_owner !! standardize_address table_handle with
        | Some ca => Ok ca
        | None => get_collection_creator query_retries query table_handle
        end in
      match creator_address with
      | Err => Ret (Ok None)
      | Ok creator_address =>
          let creator_address := standardize_address creator_address in
          let collection_data_id := {| cid_creator := creator_address; cid_name := cdt_name collection_data |} in
          let collection_data_id_hash := collection_to_hash collection_data_id in
          collection_name ← collection_data_name_trunc collection_data;
          metadata_uri ← collection_data_uri_trunc collection_data;
          let config := cdt_mutability_config collection_data in
          Ret (Ok (Some
            ({| cda_collection_data_id_hash := collection_data_id_hash;
                cda_transaction_version := txn_version;
                cda_creator_address := creator_address;
                cda_collection_name := collection_name;
                cda_description := cdt_description collection_data;
                cda_metadata_uri := metadata_uri;
                cda_supply := cdt_supply collection_data;
                cda_maximum := cdt_maximum collection_data;
                cda_maximum_mutable := cmc_maximum config;
                cda_uri_mutable := cmc_uri config;
                cda_description_mutable := cmc_description config;
                cda_table_handle := table_handle;
                cda_transaction_timestamp := txn_timestamp |},
             {| ccd_collection_data_id_hash := collection_data_id_hash;
                ccd_creator_address := creator_address;
                ccd_collection_name := collection_name;
                ccd_description := cdt_description collection_data;
                ccd_metadata_uri := metadata_uri;
                ccd_supply := cdt_supply collection_data;
                ccd_maximum := cdt_maximum collection_data;
                ccd_maximum_mutable := cmc_maximum config;
                ccd_uri_mutable := cmc_uri config;
                ccd_description_mutable := cmc_description config;
                ccd_last_transaction_version := txn_version;
                ccd_table_handle := table_handle;
                ccd_last_transaction_timestamp := txn_timestamp |})))
      end
  | _ => Ret (Ok None)
  end.

(** ** Claims: [token_claims.rs] *)

(** The row of a claim on an offered token. *)
Definition pending_claim (offer : TokenOfferIdType) (table_metadata : TableMetadataForToken)
    (amount : BigDecimal) (table_handle : string) (txn_version : Z) (txn_timestamp : NaiveDateTime)
  : outcome CurrentTokenPendingClaim :=
  let token_id := toi_token_id offer in
  let token_data_id_struct := tki_token_data_id token_id in
  collection_name ← token_collection_trunc token_data_id_struct;
  name ← token_name_trunc token_data_id_struct;
  Ret {| tpc_token_data_id_hash := token_to_hash token_data_id_struct;
         tpc_property_version := tki_property_version token_id;
         tpc_from_address := get_owner_address table_metadata;
         tpc_to_address := offer_to_address offer;
         tpc_collection_data_id_hash := get_collection_data_id_hash token_data_id_struct;
         tpc_creator_address := token_creator_address token_data_id_struct;
         tpc_collection_name := collection_name;
         tpc_name := name;
         tpc_amount := amount;
         tpc_table_handle := table_handle;
         tpc_last_transaction_version := txn_version;
         tpc_last_transaction_timestamp := txn_timestamp;
         tpc_token_data_id := token_to_id token_data_id_struct;
         tpc_collection_id := get_collection_id token_data_id_struct |}.

(** [CurrentTokenPendingClaim::from_write_table_item]. *)
Definition claim_from_write_table_item (table_item : WriteTableItem) (txn_version : Z)
    (txn_timestamp : NaiveDateTime) (table_handle_to_owner : TableHandleToOwner)
  : outcome (result (option CurrentTokenPendingClaim)) :=
  table_item_data ← unwrap (wti_data table_item);
  k <-? Ret (token_write_set (wtd_key_type table_item_data) (wtd_key table_item_data) txn_version);
  match k with
  | Some (TwTokenOfferId offer) =>
      r <-? Ret (token_write_set (wtd_value_type table_item_data) (wtd_value table_item_data) txn_version);
      match r with
      | Some (TwToken token) =>
          let table_handle := standardize_address (wti_handle table_item) in
          match table_handle_to_owner !! table_handle with
          | Some table_metadata =>
              c ← pending_claim offer table_metadata (tt_amount token) table_handle txn_version txn_timestamp;
              Ret (Ok (Some c))
          | None => Ret (Ok None)
          end
      | _ => Ret (Ok None)
      end
  | _ => Ret (Ok None)
  end.

(** [CurrentTokenPendingClaim::from_delete_table_item]: a claim in a table
    without an owner panics. *)
Definition claim_from_delete_table_item (table_item : DeleteTableItem) (txn_version : Z)
    (txn_timestamp : NaiveDateTime) (table_handle_to_owner : TableHandleToOwner)
  : outcome (result (option CurrentTokenPendingClaim)) :=
  table_item_data ← unwrap (dti_data table_item);
  k <-? Ret (token_write_set (dtd_key_type table_item_data) (dtd_key table_item_data) txn_version);
  match k with
  | Some (TwTokenOfferId offer) =>
      let table_handle := standardize_address (dti_handle table_item) in
      table_metadata ← unwrap (table_handle_to_owner !! table_handle);
      c ← pending_claim offer table_metadata bd_zero table_handle txn_version txn_timestamp;
      Ret (Ok (Some c))
  | _ => Ret (Ok None)
  end.

(** ** Activities: [token_activities.rs] *)

Record TokenActivityHelper := {
  tah_token_data_id : TokenDataIdType;
  tah_property_version : BigDecimal;
  tah_from_address : option string;
  tah_to_address : option string;
  tah_token_amount : BigDecimal;
  tah_coin_type : option string;
  tah_coin_amount : option BigDecimal;
}.
Definition activity_helper (event_account_address : string) (e : TokenEvent) : TokenActivityHelper :=
  let helper token_data_id property_version from_address to_address token_amount :=
    {| tah_token_data_id := token_data_id; tah_property_version := property_version;
       tah_from_address := from_address; tah_to_address := to_address; tah_token_amount := token_amount;
       tah_coin_type := None; tah_coin_amount := None |} in
  let of_token (id : TokenIdType) := helper (tki_token_data_id id) (tki_property_version id) in
  match e with
  | TeMintTokenEvent inner => helper (mte_id inner) bd_zero (Some event_account_address) None (mte_amount inner)
  | TeBurnTokenEvent inner => of_token (bte_id inner) (Some event_account_address) None (bte_amount inner)
  | TeMutateTokenPropertyMapEvent inner => of_token (mpe_new_id inner) (Some event_account_address) None bd_zero
  | TeWithdrawTokenEvent inner => of_token (wte_id inner) (Some event_account_address) None (wte_amount inner)
  | TeDepositTokenEvent inner =>
      of_token (dte_id inner) None (Some (standardize_address event_account_address)) (dte_amount inner)
  | TeOfferTokenEvent inner =>
      of_token (ote_token_id inner) (Some event_account_address)
        (Some (standardize_address (ote_to_address inner))) (ote_amount inner)
  | TeCancelTokenOfferEvent inner =>
      of_token (cte_token_id inner) (Some event_account_address)
        (Some (standardize_address (cte_to_address inner))) (cte_amount inner)
  | TeClaimTokenEvent inner =>
      of_token (clm_token_id inner) (Some event_account_address)
        (Some (standardize_address (clm_to_address inner))) (clm_amount inner)
  end.
(** [TokenActivity::from_parsed_event]. *)
Definition activity_from_parsed_event (event_type : string) (event : EventPB) (e : TokenEvent)
    (txn_version : Z) (txn_timestamp : NaiveDateTime) (event_index : Z) : outcome TokenActivity :=
  key ← unwrap (ev_key event);
  let event_account_address := standardize_address (ek_account_address key) in
  let token_activity_helper := activity_helper event_account_address e in
  let token_data_id := tah_token_data_id token_activity_helper in
  collection_name ← token_collection_trunc token_data_id;
  name ← token_name_trunc token_data_id;
  Ret {| tac_transaction_version := txn_version;
         tac_event_account_address := event_account_address;
         tac_event_creation_number := as_i64 (ek_creation_number key);
         tac_event_sequence_number := as_i64 (ev_sequence_number event);
         tac_token_data_id_hash := token_to_hash token_data_id;
         tac_property_version := tah_property_version token_activity_helper;
         tac_creator_address := token_creator_address token_data_id;
         tac_collection_name := collection_name;
         tac_name := name;
         tac_transfer_type := event_type;
         tac_from_address := tah_from_address token_activity_helper;
         tac_to_address := tah_to_address token_activity_helper;
         tac_token_amount := tah_token_amount token_activity_helper;
         tac_coin_type := tah_coin_type token_activity_helper;
         tac_coin_amount := tah_coin_amount token_activity_helper;
         tac_collection_data_id_hash := get_collection_data_id_hash token_data_id;
         tac_transaction_timestamp := txn_timestamp;
         tac_event_index := Some event_index |}.
Definition token_activity_step (transaction : Transaction) (token_activities : list TokenActivity)
    (iev : Z * EventPB) : outcome (list TokenActivity) :=
  let '(index, event) := iev in
  let txn_version := as_i64 (t_version transaction) in
  e ← unwrap_result (v1_token_event (ev_type_str event) (ev_data event) txn_version);
  match e with
  | Some e =>
      ts ← unwrap (t_timestamp transaction);
      txn_timestamp ← parse_timestamp ts txn_version;
      a ← activity_from_parsed_event (ev_type_str event) event e txn_version txn_timestamp index;
      Ret (token_activities ++ [a])
  | None => Ret token_activities
  end.
(** [TokenActivity::from_transaction]. *)
Definition token_activities_from_transaction (transaction : Transaction) : outcome (list TokenActivity) :=
  match t_txn_data transaction with
  | Some (TdUser user_txn) => foldM (token_activity_step transaction) [] (enumerate (ut_events user_txn))
  | _ => Ret []
  end.

(** ** NFT points: [nft_points.rs] *)

Context `{!Serialize EntryFunctionPayloadClean, !Serialize ScriptPayloadClean,
          !Serialize MultisigPayloadClean, !Unescape}.

(** [NftPoints::from_transaction]. *)
Definition nft_points_from_transaction (transaction : Transaction) (nft_points_contract : option string)
  : outcome (option NftPoints) :=
  match t_txn_data transaction with
  | None => Ret None
  | Some txn_data =>
      let version := as_i64 (t_version transaction) in
      timestamp ← unwrap (t_timestamp transaction);
      transaction_info ← unwrap (t_info transaction);
      match nft_points_contract, txn_data with
      | Some contract, TdUser user_txn =>
          user_request ← unwrap (ut_request user_txn);
          payload ← unwrap (utr_payload user_request);
          entry_function ← get_entry_function_from_user_request user_request;
          if ti_success transaction_info then
            if decide (default EmptyString entry_function = contract) then
              clean ← get_clean_payload payload version;
              payload_cleaned ← unwrap clean;
              arguments ← unwrap (as_array (default Null (value_get "arguments" payload_cleaned)));
              args ← traverse (fun x => text ← unwrap (as_str x); unwrap (unescape text)) arguments;
              owner ← unwrap (args !! 0);
              amount_text ← unwrap (args !! 2);
              amount ← unwrap (bd_parse amount_text);
              transaction_timestamp ← parse_timestamp timestamp version;
              token_name ← unwrap (args !! 1);
              point_type ← unwrap (args !! 3);
              Ret (Some {| nfp_transaction_version := version;
                           nfp_owner_address := standardize_address owner;
                           nfp_token_name := token_name;
                           nfp_point_type := point_type;
                           nfp_amount := amount;
                           nfp_transaction_timestamp := transaction_timestamp |})
            else Ret None
          else Ret None
      | _, _ => Ret None
      end
  end.

(** ** A transaction: [Token::from_transaction] *)

(** The answers of the database to the lookup of a collection's creator for a
    change, given by the version and the position. *)
Variable query_creator : Z -> Z -> nat -> string -> result string.
Variable query_retries : nat.

Record TokenTxn := {
  txn_tokens : gmap (string * BigDecimal) Token;
  txn_token_ownerships : list TokenOwnership;
  txn_token_datas : list TokenData;
  txn_collection_datas : list CollectionData;
  txn_current_token_ownerships : gmap (string * BigDecimal * string) CurrentTokenOwnership;
  txn_current_token_datas : gmap string CurrentTokenData;
  txn_current_collection_datas : gmap string CurrentCollectionData;
  txn_current_token_claims : gmap (string * BigDecimal * string * string) CurrentTokenPendingClaim;
}.
Definition no_tokens : TokenTxn :=
  {| txn_tokens := ∅; txn_token_ownerships := []; txn_token_datas := []; txn_collection_datas := [];
     txn_current_token_ownerships := ∅; txn_current_token_datas := ∅; txn_current_collection_datas := ∅;
     txn_current_token_claims := ∅ |}.

(** The rows of one change. *)
Record TokenChange := {
  maybe_token_w_ownership : option TokenWithOwnership;
  maybe_token_data : option (TokenData * CurrentTokenData);
  maybe_collection_data : option (CollectionData * CurrentCollectionData);
  maybe_current_token_claim : option CurrentTokenPendingClaim;
}.
Definition no_token_change : TokenChange :=
  {| maybe_token_w_ownership := None; maybe_token_data := None; maybe_collection_data := None;
     maybe_current_token_claim := None |}.
Definition token_change (txn_version : Z) (txn_timestamp : NaiveDateTime) (handles : TableHandleToOwner)
    (index : Z) (change : ChangeEnum) : outcome TokenChange :=
  match change with
  | ChangeWriteTableItem write_table_item =>
      r ← token_from_write_table_item write_table_item txn_version txn_timestamp handles;
      token ← unwrap_result r;
      r ← token_data_from_write_table_item write_table_item txn_version txn_timestamp;
      data ← unwrap_result r;
      r ← collection_data_from_write_table_item write_table_item txn_version txn_timestamp handles
            (query_creator txn_version index) query_retries;
      collection ← unwrap_result r;
      r ← claim_from_write_table_item write_table_item txn_version txn_timestamp handles;
      claim ← unwrap_result r;
      Ret {| maybe_token_w_ownership := token; maybe_token_data := data;
             maybe_collection_data := collection; maybe_current_token_claim := claim |}
  | ChangeDeleteTableItem delete_table_item =>
      r ← token_from_delete_table_item delete_table_item txn_version txn_timestamp handles;
      token ← unwrap_result r;
      r ← claim_from_delete_table_item delete_table_item txn_version txn_timestamp handles;
      claim ← unwrap_result r;
      Ret {| maybe_token_w_ownership := token; maybe_token_data := None;
             maybe_collection_data := None; maybe_current_token_claim := claim |}
  | _ => Ret no_token_change
  end.
Definition store_token_change (acc : TokenTxn) (c : TokenChange) : TokenTxn :=
  let acc :=
    match maybe_token_w_ownership c with
    | Some (token, maybe_token_ownership, maybe_current_token_ownership) =>
        {| txn_tokens := <[token_pk token := token]> (txn_tokens acc);
           txn_token_ownerships := txn_token_ownerships acc ++ option_list maybe_token_ownership;
           txn_token_datas := txn_token_datas acc;
           txn_collection_datas := txn_collection_datas acc;
           txn_current_token_ownerships :=
             inserts cto_pk (txn_current_token_ownerships acc) (option_list maybe_current_token_ownership);
           txn_current_token_datas := txn_current_token_datas acc;
           txn_current_collection_datas := txn_current_collection_datas acc;
           txn_current_token_claims := txn_current_token_claims acc |}
    | None => acc
    end in
  {| txn_tokens := txn_tokens acc;
     txn_token_ownerships := txn_token_ownerships acc;
     txn_token_datas := txn_token_datas acc ++ option_list (fst <$> maybe_token_data c);
     txn_collection_datas := txn_collection_datas acc ++ option_list (fst <$> maybe_collection_data c);
     txn_current_token_ownerships := txn_current_token_ownerships acc;
     txn_current_token_datas :=
       inserts ctd_token_data_id_hash (txn_current_token_datas acc) (option_list (snd <$> maybe_token_data c));
     txn_current_collection_datas :=
       inserts ccd_collection_data_id_hash (txn_current_collection_datas acc)
         (option_list (snd <$> maybe_collection_data c));
     txn_current_token_claims :=
       inserts tpc_pk (txn_current_token_claims acc) (option_list (maybe_current_token_claim c)) |}.
Definition token_change_step (txn_version : Z) (txn_timestamp : NaiveDateTime) (handles : TableHandleToOwner)
    (acc : TokenTxn) (iwsc : Z * WriteSetChangePB) : outcome TokenTxn :=
  let '(index, wsc) := iwsc in
  change ← unwrap (wsc_change wsc);
  c ← token_change txn_version txn_timestamp handles index change;
  Ret (store_token_change acc c).
Definition tokens_from_transaction (transaction : Transaction) (handles : TableHandleToOwner)
  : outcome TokenTxn :=
  match t_txn_data transaction with
  | Some (TdUser _) =>
      let txn_version := as_i64 (t_version transaction) in
      ts ← unwrap (t_timestamp transaction);
      txn_timestamp ← parse_timestamp ts txn_version;
      transaction_info ← unwrap (t_info transaction);
      foldM (token_change_step txn_version txn_timestamp handles) no_tokens
        (enumerate (ti_changes transaction_info))
  | _ => Ret no_tokens
  end.

(** ** The processor: [token_processor.rs] *)

Variable config : TokenProcessorConfig.

Record TokenRows := {
  rows_tokens : list Token;
  rows_token_ownerships : list TokenOwnership;
  rows_token_datas : list TokenData;
  rows_collection_datas : list CollectionData;
  rows_token_activities : list TokenActivity;
  rows_current_token_ownerships : list CurrentTokenOwnership;
  rows_current_token_datas : list CurrentTokenData;
  rows_current_collection_datas : list CurrentCollectionData;
  rows_current_token_claims : list CurrentTokenPendingClaim;
  rows_nft_points : list NftPoints;
}.
(** The accumulators of the loop: the rows of a batch, the current ones still
    in maps. *)
Record TokenState := {
  all_tokens : list Token;
  all_token_ownerships : list TokenOwnership;
  all_token_datas : list TokenData;
  all_collection_datas : list CollectionData;
  all_token_activities : list TokenActivity;
  all_current_token_ownerships : gmap (string * BigDecimal * string) CurrentTokenOwnership;
  all_current_token_datas : gmap string CurrentTokenData;
  all_current_collection_datas : gmap string CurrentCollectionData;
  all_current_token_claims : gmap (string * BigDecimal * string * string) CurrentTokenPendingClaim;
  all_nft_points : list NftPoints;
}.
Definition token_init : TokenState :=
  {| all_tokens := []; all_token_ownerships := []; all_token_datas := []; all_collection_datas := [];
     all_token_activities := []; all_current_token_ownerships := ∅; all_current_token_datas := ∅;
     all_current_collection_datas := ∅; all_current_token_claims := ∅; all_nft_points := [] |}.
Definition token_step `{HashOrder} (handles : TableHandleToOwner) (st : TokenState) (txn : Transaction)
  : outcome TokenState :=
  d ← tokens_from_transaction txn handles;
  activities ← token_activities_from_transaction txn;
  nft_points ← nft_points_from_transaction txn (nft_points_contract config);
  Ret {| all_tokens := all_tokens st ++ into_values (txn_tokens d);
         all_token_ownerships := all_token_ownerships st ++ txn_token_ownerships d;
         all_token_datas := all_token_datas st ++ txn_token_datas d;
         all_collection_datas := all_collection_datas st ++ txn_collection_datas d;
         all_token_activities := all_token_activities st ++ activities;
         all_current_token_ownerships :=
           extend (all_current_token_ownerships st) (txn_current_token_ownerships d);
         all_current_token_datas := extend (all_current_token_datas st) (txn_current_token_datas d);
         all_current_collection_datas :=
           extend (all_current_collection_datas st) (txn_current_collection_datas d);
         all_current_token_claims := extend (all_current_token_claims st) (txn_current_token_claims d);
         all_nft_points := all_nft_points st ++ option_list nft_points |}.
(** The comparison of the claims ends with [a.to_address] on both sides, so
    that the recipient does not count. *)
Definition claim_order (c : CurrentTokenPendingClaim) : string * BigDecimal * string :=
  (tpc_token_data_id_hash c, tpc_property_version c, tpc_from_address c).
Definition token_rows `{HashOrder} (transactions : list Transaction) : outcome TokenRows :=
  handles ← get_table_handle_to_owner_from_transactions transactions;
  st ← foldM (token_step handles) token_init transactions;
  Ret {| rows_tokens := all_tokens st;
         rows_token_ownerships := all_token_ownerships st;
         rows_token_datas := all_token_datas st;
         rows_collection_datas := all_collection_datas st;
         rows_token_activities := all_token_activities st;
         rows_current_token_ownerships := sort_by cto_pk (into_values (all_current_token_ownerships st));
         rows_current_token_datas :=
           sort_by ctd_token_data_id_hash (into_values (all_current_token_datas st));
         rows_current_collection_datas :=
           sort_by ccd_collection_data_id_hash (into_values (all_current_collection_datas st));
         rows_current_token_claims := sort_by claim_order (into_values (all_current_token_claims st));
         rows_nft_points := all_nft_points st |}.

(** *** Queries

    The column [inserted_at] is filled by the server.  The updates of the
    current tables do not set [last_transaction_timestamp]. *)
Definition insert_tokens_query : Upsert Token (string * BigDecimal * Z) :=
  {| up_key := fun t => (tkn_token_data_id_hash t, tkn_property_version t, tkn_transaction_version t);
     up_action := DoNothing; up_where := None |}.
Definition insert_token_ownerships_query : Upsert TokenOwnership (string * BigDecimal * Z * string) :=
  {| up_key := fun o => (own_token_data_id_hash o, own_property_version o, own_transaction_version o,
                         own_table_handle o);
     up_action := DoNothing; up_where := None |}.
Definition insert_token_datas_query : Upsert TokenData (string * Z) :=
  {| up_key := fun d => (tda_token_data_id_hash d, tda_transaction_version d);
     up_action := DoNothing; up_where := None |}.
Definition insert_collection_datas_query : Upsert CollectionData (string * Z) :=
  {| up_key := fun d => (cda_collection_data_id_hash d, cda_transaction_version d);
     up_action := DoNothing; up_where := None |}.
Definition set_current_token_ownership (old new : CurrentTokenOwnership) : CurrentTokenOwnership :=
  {| cto_token_data_id_hash := cto_token_data_id_hash old;
     cto_property_version := cto_property_version old;
     cto_owner_address := cto_owner_address old;
     cto_creator_address := cto_creator_address new;
     cto_collection_name := cto_collection_name new;
     cto_name := cto_name new;
     cto_amount := cto_amount new;
     cto_token_properties := cto_token_properties new;
     cto_last_transaction_version := cto_last_transaction_version new;
     cto_collection_data_id_hash := cto_collection_data_id_hash new;
     cto_table_type := cto_table_type new;
     cto_last_transaction_timestamp := cto_last_transaction_timestamp old |}.
Definition insert_current_token_ownerships_query
  : Upsert CurrentTokenOwnership (string * BigDecimal * string) :=
  {| up_key := cto_pk;
     up_action := DoUpdate set_current_token_ownership;
     up_where := Some (fun old new =>
       bool_decide (cto_last_transaction_version old <= cto_last_transaction_version new)%Z) |}.
Definition set_current_token_data (old new : CurrentTokenData) : CurrentTokenData :=
  {| ctd_token_data_id_hash := ctd_token_data_id_hash old;
     ctd_creator_address := ctd_creator_address new;
     ctd_collection_name := ctd_collection_name new;
     ctd_name := ctd_name new;
     ctd_maximum := ctd_maximum new;
     ctd_supply := ctd_supply new;
     ctd_largest_property_version := ctd_largest_property_version new;
     ctd_metadata_uri := ctd_metadata_uri new;
     ctd_payee_address := ctd_payee_address new;
     ctd_royalty_points_numerator := ctd_royalty_points_numerator new;
     ctd_royalty_points_denominator := ctd_royalty_points_denominator new;
     ctd_maximum_mutable := ctd_maximum_mutable new;
     ctd_uri_mutable := ctd_uri_mutable new;
     ctd_description_mutable := ctd_description_mutable new;
     ctd_properties_mutable := ctd_properties_mutable new;
     ctd_royalty_mutable := ctd_royalty_mutable new;
     ctd_default_properties := ctd_default_properties new;
     ctd_last_transaction_version := ctd_last_transaction_version new;
     ctd_collection_data_id_hash := ctd_collection_data_id_hash new;
     ctd_last_transaction_timestamp := ctd_last_transaction_timestamp old;
     ctd_description := ctd_description new |}.
Definition insert_current_token_datas_query : Upsert CurrentTokenData string :=
  {| up_key := ctd_token_data_id_hash;
     up_action := DoUpdate set_current_token_data;
     up_where := Some (fun old new =>
       bool_decide (ctd_last_transaction_version old <= ctd_last_transaction_version new)%Z) |}.
Definition set_current_collection_data (old new : CurrentCollectionData) : CurrentCollectionData :=
  {| ccd_collection_data_id_hash := ccd_collection_data_id_hash old;
     ccd_creator_address := ccd_creator_address new;
     ccd_collection_name := ccd_collection_name new;
     ccd_description := ccd_description new;
     ccd_metadata_uri := ccd_metadata_uri new;
     ccd_supply := ccd_supply new;
     ccd_maximum := ccd_maximum new;
     ccd_maximum_mutable := ccd_maximum_mutable new;
     ccd_uri_mutable := ccd_uri_mutable new;
     ccd_description_mutable := ccd_description_mutable new;
     ccd_last_transaction_version := ccd_last_transaction_version new;
     ccd_table_handle := ccd_table_handle new;
     ccd_last_transaction_timestamp := ccd_last_transaction_timestamp old |}.
Definition insert_current_collection_datas_query : Upsert CurrentCollectionData string :=
  {| up_key := ccd_collection_data_id_hash;
     up_action := DoUpdate set_current_collection_data;
     up_where := Some (fun old new =>
       bool_decide (ccd_last_transaction_version old <= ccd_last_transaction_version new)%Z) |}.
Definition insert_token_activities_query : Upsert TokenActivity (Z * string * Z * Z) :=
  {| up_key := fun a => (tac_transaction_version a, tac_event_account_address a, tac_event_creation_number a,
                         tac_event_sequence_number a);
     up_action := DoNothing; up_where := None |}.
Definition set_current_token_claim (old new : CurrentTokenPendingClaim) : CurrentTokenPendingClaim :=
  {| tpc_token_data_id_hash := tpc_token_data_id_hash old;
     tpc_property_version := tpc_property_version old;
     tpc_from_address := tpc_from_address old;
     tpc_to_address := tpc_to_address old;
     tpc_collection_data_id_hash := tpc_collection_data_id_hash new;
     tpc_creator_address := tpc_creator_address new;
     tpc_collection_name := tpc_collection_name new;
     tpc_name := tpc_name new;
     tpc_amount := tpc_amount new;
     tpc_table_handle := tpc_table_handle new;
     tpc_last_transaction_version := tpc_last_transaction_version new;
     tpc_last_transaction_timestamp := tpc_last_transaction_timestamp old;
     tpc_token_data_id := tpc_token_data_id new;
     tpc_collection_id := tpc_collection_id new |}.
Definition insert_current_token_claims_query
  : Upsert CurrentTokenPendingClaim (string * BigDecimal * string * string) :=
  {| up_key := tpc_pk;
     up_action := DoUpdate set_current_token_claim;
     up_where := Some (fun old new =>
       bool_decide (tpc_last_transaction_version old <= tpc_last_transaction_version new)%Z) |}.
Definition insert_nft_points_query : Upsert NftPoints Z :=
  {| up_key := nfp_transaction_version; up_action := DoNothing; up_where := None |}.

(** The timestamp is the column that no update touches. *)
#[export] Instance current_token_ownerships_lww : Lww insert_current_token_ownerships_query.
Proof.
  refine {| lww_rank := cto_last_transaction_version; lww_static_type := NaiveDateTime;
            lww_static := cto_last_transaction_timestamp; lww_set := set_current_token_ownership |}; try done.
  intros [] [] Hk Hs. unfold cto_pk in Hk. simpl in *. by simplify_eq/=.
Defined.
#[export] Instance current_token_datas_lww : Lww insert_current_token_datas_query.
Proof.
  refine {| lww_rank := ctd_last_transaction_version; lww_static_type := NaiveDateTime;
            lww_static := ctd_last_transaction_timestamp; lww_set := set_current_token_data |}; try done.
  intros [] [] Hk Hs. simpl in *. by subst.
Defined.
#[export] Instance current_collection_datas_lww : Lww insert_current_collection_datas_query.
Proof.
  refine {| lww_rank := ccd_last_transaction_version; lww_static_type := NaiveDateTime;
            lww_static := ccd_last_transaction_timestamp; lww_set := set_current_collection_data |}; try done.
  intros [] [] Hk Hs. simpl in *. by subst.
Defined.
#[export] Instance current_token_claims_lww : Lww insert_current_token_claims_query.
Proof.
  refine {| lww_rank := tpc_last_transaction_version; lww_static_type := NaiveDateTime;
            lww_static := tpc_last_transaction_timestamp; lww_set := set_current_token_claim |}; try done.
  intros [] [] Hk Hs. unfold tpc_pk in Hk. simpl in *. by simplify_eq/=.
Defined.

Context `{!Table Token (string * BigDecimal * Z), !Table TokenOwnership (string * BigDecimal * Z * string),
          !Table TokenData (string * Z), !Table CollectionData (string * Z),
          !Table CurrentTokenOwnership (string * BigDecimal * string), !Table CurrentTokenData string,
          !Table CurrentCollectionData string, !Table TokenActivity (Z * string * Z * Z),
          !Table CurrentTokenPendingClaim (string * BigDecimal * string * string), !Table NftPoints Z}.

Record TokenDb := {
  db_tokens : table_state Token (string * BigDecimal * Z);
  db_token_ownerships : table_state TokenOwnership (string * BigDecimal * Z * string);
  db_token_datas : table_state TokenData (string * Z);
  db_collection_datas : table_state CollectionData (string * Z);
  db_current_token_ownerships : table_state CurrentTokenOwnership (string * BigDecimal * string);
  db_current_token_datas : table_state CurrentTokenData string;
  db_current_collection_datas : table_state CurrentCollectionData string;
  db_token_activities : table_state TokenActivity (Z * string * Z * Z);
  db_current_token_claims : table_state CurrentTokenPendingClaim (string * BigDecimal * string * string);
  db_nft_points : table_state NftPoints Z;
}.
Definition insert_token_rows (sizes : gmap string nat) (rows : TokenRows) (d d' : TokenDb)
    (res : outcome (result unit)) : Prop :=
  exists t_res to_res td_res cd_res cto_res ctd_res ccd_res ta_res ctc_res np_res,
    write_table insert_tokens_query "tokens" sizes (rows_tokens rows) (db_tokens d) (db_tokens d') t_res /\
    write_table insert_token_ownerships_query "token_ownerships" sizes
      (rows_token_ownerships rows) (db_token_ownerships d) (db_token_ownerships d') to_res /\
    write_table insert_token_datas_query "token_datas" sizes
      (rows_token_datas rows) (db_token_datas d) (db_token_datas d') td_res /\
    write_table insert_collection_datas_query "collection_datas" sizes
      (rows_collection_datas rows) (db_collection_datas d) (db_collection_datas d') cd_res /\
    write_table insert_current_token_ownerships_query "current_token_ownerships" sizes
      (rows_current_token_ownerships rows) (db_current_token_ownerships d) (db_current_token_ownerships d')
      cto_res /\
    write_table insert_current_token_datas_query "current_token_datas" sizes
      (rows_current_token_datas rows) (db_current_token_datas d) (db_current_token_datas d') ctd_res /\
    write_table insert_current_collection_datas_query "current_collection_datas" sizes
      (rows_current_collection_datas rows) (db_current_collection_datas d) (db_current_collection_datas d')
      ccd_res /\
    write_table insert_token_activities_query "token_activities" sizes
      (rows_token_activities rows) (db_token_activities d) (db_token_activities d') ta_res /\
    write_table insert_current_token_claims_query "current_token_pending_claims" sizes
      (rows_current_token_claims rows) (db_current_token_claims d) (db_current_token_claims d') ctc_res /\
    write_table insert_nft_points_query "nft_points" sizes
      (rows_nft_points rows) (db_nft_points d) (db_nft_points d') np_res /\
    res = join_results
      [t_res; to_res; td_res; cd_res; cto_res; ctd_res; ccd_res; ta_res; ctc_res; np_res].

(** [TokenProcessor::process_transactions]. *)
Definition process_tokens `{HashOrder} (sizes : gmap string nat)
  : list Transaction -> Z -> Z -> option Z -> TokenDb -> TokenDb -> outcome (result ProcessingResult) -> Prop :=
  process_batch token_rows (insert_token_rows sizes).

#[export] Instance token_processor `{HashOrder} (sizes : gmap string nat) : ProcessorTrait TokenDb :=
  {| processor_name := "token_processor"; process_transactions := process_tokens sizes |}.
#[export] Instance token_processor_laws `{HashOrder} sizes : @ProcessorLaws _ (token_processor sizes).
Proof. intros txns s e chain d d' r Hr. by apply (process_batch_ok _ _ _ _ _ chain) in Hr as [? _]. Qed.
End TokensV1.
