(* ===== verification/TokensV1Laws.v ===== *)
(** * Tokens of the first contract: correctness

    The rows of a batch of tokens, and what the tables of current state keep:
    every column but the timestamp converges, the timestamp stays that of the
    first write. *)
From S2P Require Import Prelude RustStr Json Externals Proto Util Database Processors.
From S2P Require Import DefaultModels TokenResources TokenUtils TokensV1.

Section TokensV1Laws.
Context `{Chrono, BigDec, HexCodec, Sha256, JsonParse, ProtoJson}.
Context `{!BigDecKey, !TokenV1Codec}.
Context `{!Serialize EntryFunctionPayloadClean, !Serialize ScriptPayloadClean,
          !Serialize MultisigPayloadClean, !Unescape}.
Variable query_creator : Z -> Z -> nat -> string -> result string.
Variable query_retries : nat.
Variable config : TokenProcessorConfig.

(** ** Rows without their timestamp *)

Definition erase_ownership (c : CurrentTokenOwnership) : CurrentTokenOwnership :=
  {| cto_token_data_id_hash := cto_token_data_id_hash c; cto_property_version := cto_property_version c;
     cto_owner_address := cto_owner_address c; cto_creator_address := cto_creator_address c;
     cto_collection_name := cto_collection_name c; cto_name := cto_name c; cto_amount := cto_amount c;
     cto_token_properties := cto_token_properties c;
     cto_last_transaction_version := cto_last_transaction_version c;
     cto_collection_data_id_hash := cto_collection_data_id_hash c; cto_table_type := cto_table_type c;
     cto_last_transaction_timestamp := naive_default |}.
Definition erase_token_data (c : CurrentTokenData) : CurrentTokenData :=
  {| ctd_token_data_id_hash := ctd_token_data_id_hash c; ctd_creator_address := ctd_creator_address c;
     ctd_collection_name := ctd_collection_name c; ctd_name := ctd_name c; ctd_maximum := ctd_maximum c;
     ctd_supply := ctd_supply c; ctd_largest_property_version := ctd_largest_property_version c;
     ctd_metadata_uri := ctd_metadata_uri c; ctd_payee_address := ctd_payee_address c;
     ctd_royalty_points_numerator := ctd_royalty_points_numerator c;
     ctd_royalty_points_denominator := ctd_royalty_points_denominator c;
     ctd_maximum_mutable := ctd_maximum_mutable c; ctd_uri_mutable := ctd_uri_mutable c;
     ctd_description_mutable := ctd_description_mutable c; ctd_properties_mutable := ctd_properties_mutable c;
     ctd_royalty_mutable := ctd_royalty_mutable c; ctd_default_properties := ctd_default_properties c;
     ctd_last_transaction_version := ctd_last_transaction_version c;
     ctd_collection_data_id_hash := ctd_collection_data_id_hash c;
     ctd_last_transaction_timestamp := naive_default; ctd_description := ctd_description c |}.
Definition erase_collection_data (c : CurrentCollectionData) : CurrentCollectionData :=
  {| ccd_collection_data_id_hash := ccd_collection_data_id_hash c; ccd_creator_address := ccd_creator_address c;
     ccd_collection_name := ccd_collection_name c; ccd_description := ccd_description c;
     ccd_metadata_uri := ccd_metadata_uri c; ccd_supply := ccd_supply c; ccd_maximum := ccd_maximum c;
     ccd_maximum_mutable := ccd_maximum_mutable c; ccd_uri_mutable := ccd_uri_mutable c;
     ccd_description_mutable := ccd_description_mutable c;
     ccd_last_transaction_version := ccd_last_transaction_version c; ccd_table_handle := ccd_table_handle c;
     ccd_last_transaction_timestamp := naive_default |}.
Definition erase_claim (c : CurrentTokenPendingClaim) : CurrentTokenPendingClaim :=
  {| tpc_token_data_id_hash := tpc_token_data_id_hash c; tpc_property_version := tpc_property_version c;
     tpc_from_address := tpc_from_address c; tpc_to_address := tpc_to_address c;
     tpc_collection_data_id_hash := tpc_collection_data_id_hash c; tpc_creator_address := tpc_creator_address c;
     tpc_collection_name := tpc_collection_name c; tpc_name := tpc_name c; tpc_amount := tpc_amount c;
     tpc_table_handle := tpc_table_handle c; tpc_last_transaction_version := tpc_last_transaction_version c;
     tpc_last_transaction_timestamp := naive_default; tpc_token_data_id := tpc_token_data_id c;
     tpc_collection_id := tpc_collection_id c |}.
#[export] Instance erase_ownership_ok : Erasure insert_current_token_ownerships_query erase_ownership.
Proof. done. Qed.
#[export] Instance erase_token_data_ok : Erasure insert_current_token_datas_query erase_token_data.
Proof. done. Qed.
#[export] Instance erase_collection_data_ok : Erasure insert_current_collection_datas_query erase_collection_data.
Proof. done. Qed.
#[export] Instance erase_claim_ok : Erasure insert_current_token_claims_query erase_claim.
Proof. done. Qed.

(** ** The rows of a change *)

Lemma ownership_rows token kt k amount handle handles o c :
  ownership_from_token token kt k amount handle handles = Ok (Some (o, c)) ->
  own_token_data_id_hash o = tkn_token_data_id_hash token /\ own_property_version o = tkn_property_version token /\
  own_transaction_version o = tkn_transaction_version token /\
  match c with
  | Some c => cto_token_data_id_hash c = tkn_token_data_id_hash token /\
      cto_property_version c = tkn_property_version token /\
      cto_last_transaction_version c = tkn_transaction_version token /\ cto_amount c = own_amount o /\
      own_owner_address o = Some (standardize_address (cto_owner_address c)) /\
      cto_table_type c = "0x3::token::TokenStore"
  | None => own_owner_address o = None
  end.
Proof.
  unfold ownership_from_token. destruct (token_write_set _ _ _) as [[[]|]|]; simpl; try done.
  destruct (handles !! _) as [tm|]; [case_decide as Ht; [|done]|]; intros [= <- <-]; simpl; done.
Qed.

(** The rows of a change carry its version. *)
Definition token_change_at (v : Z) (c : TokenChange) : Prop :=
  (forall t o co, maybe_token_w_ownership c = Some (t, o, co) ->
     tkn_transaction_version t = v /\
     (forall o', o = Some o' -> own_transaction_version o' = v) /\
     (forall co', co = Some co' -> cto_last_transaction_version co' = v /\ cto_table_type co' = "0x3::token::TokenStore")) /\
  (forall d cd, maybe_token_data c = Some (d, cd) -> ctd_last_transaction_version cd = v) /\
  (forall d cd, maybe_collection_data c = Some (d, cd) -> ccd_last_transaction_version cd = v) /\
  (forall cl, maybe_current_token_claim c = Some cl -> tpc_last_transaction_version cl = v).

Lemma split_ownership_at v token kt k amount handle handles r :
  tkn_transaction_version token = v ->
  ownership_from_token token kt k amount handle handles = Ok r ->
  forall t o co, split_ownership token r = (t, o, co) ->
     tkn_transaction_version t = v /\
     (forall o', o = Some o' -> own_transaction_version o' = v) /\
     (forall co', co = Some co' -> cto_last_transaction_version co' = v /\ cto_table_type co' = "0x3::token::TokenStore").
Proof.
  intros Hv Hr t o co Hs. destruct r as [[o' c']|]; simplify_eq/=; [|done].
  apply ownership_rows in Hr as (_ & _ & Hov & Hc). split_and!; [done|naive_solver|].
  intros co' ->. by destruct Hc as (_ & _ & -> & _ & _ & ->).
Qed.

Lemma pending_claim_at offer tm amount handle v ts c :
  pending_claim offer tm amount handle v ts = Ret c -> tpc_last_transaction_version c = v.
Proof. unfold pending_claim. intros Hc. by outcome_inv. Qed.

Lemma token_write_at item v ts handles t o co :
  token_from_write_table_item item v ts handles = Ret (Ok (Some (t, o, co))) ->
  tkn_transaction_version t = v /\ (forall o', o = Some o' -> own_transaction_version o' = v) /\
  (forall co', co = Some co' -> cto_last_transaction_version co' = v /\ cto_table_type co' = "0x3::token::TokenStore").
Proof.
  unfold token_from_write_table_item. intros Hr. apply bind_Ret in Hr as (data & _ & Hr).
  apply try_bind_Ok in Hr as ([[| | |tok| |]|] & _ & Hr); try done.
  apply bind_Ret in Hr as (cn & _ & Hr). apply bind_Ret in Hr as (nm & _ & Hr).
  apply try_bind_Ok in Hr as (r & Hr' & Hr). injection Hr' as Hr'. injection Hr as Hr.
  eapply split_ownership_at; [|exact Hr'|exact Hr]. done.
Qed.
Lemma token_delete_at item v ts handles t o co :
  token_from_delete_table_item item v ts handles = Ret (Ok (Some (t, o, co))) ->
  tkn_transaction_version t = v /\ (forall o', o = Some o' -> own_transaction_version o' = v) /\
  (forall co', co = Some co' -> cto_last_transaction_version co' = v /\ cto_table_type co' = "0x3::token::TokenStore").
Proof.
  unfold token_from_delete_table_item. intros Hr. apply bind_Ret in Hr as (data & _ & Hr).
  apply try_bind_Ok in Hr as ([[|tid| | | |]|] & _ & Hr); try done.
  apply bind_Ret in Hr as (cn & _ & Hr). apply bind_Ret in Hr as (nm & _ & Hr).
  apply try_bind_Ok in Hr as (r & Hr' & Hr). injection Hr' as Hr'. injection Hr as Hr.
  eapply split_ownership_at; [|exact Hr'|exact Hr]. done.
Qed.
Lemma token_data_at item v ts d cd :
  token_data_from_write_table_item item v ts = Ret (Ok (Some (d, cd))) -> ctd_last_transaction_version cd = v.
Proof.
  unfold token_data_from_write_table_item. intros Hr. apply bind_Ret in Hr as (data & _ & Hr).
  apply try_bind_Ok in Hr as ([[| |td| | |]|] & _ & Hr); try done.
  apply try_bind_Ok in Hr as ([[tdi| | | | |]|] & _ & Hr); try done.
  apply bind_Ret in Hr as (cn & _ & Hr). apply bind_Ret in Hr as (nm & _ & Hr).
  apply bind_Ret in Hr as (uri & _ & Hr). by injection Hr as <- <-.
Qed.
Lemma collection_data_at item v ts handles query retries d cd :
  collection_data_from_write_table_item item v ts handles query retries = Ret (Ok (Some (d, cd))) ->
  ccd_last_transaction_version cd = v.
Proof.
  unfold collection_data_from_write_table_item. intros Hr. apply bind_Ret in Hr as (data & _ & Hr).
  apply try_bind_Ok in Hr as ([[| | | |c|]|] & _ & Hr); try done.
  destruct (match _ with Some _ => _ | None => _ end); [|done].
  apply bind_Ret in Hr as (nm & _ & Hr). apply bind_Ret in Hr as (uri & _ & Hr). by injection Hr as <- <-.
Qed.
Lemma claim_write_at item v ts handles c :
  claim_from_write_table_item item v ts handles = Ret (Ok (Some c)) -> tpc_last_transaction_version c = v.
Proof.
  unfold claim_from_write_table_item. intros Hr. apply bind_Ret in Hr as (data & _ & Hr).
  apply try_bind_Ok in Hr as ([[| | | | |offer]|] & _ & Hr); try done.
  apply try_bind_Ok in Hr as ([[| | |tok| |]|] & _ & Hr); try done.
  destruct (handles !! _); [|done]. apply bind_Ret in Hr as (c' & Hc & Hr). injection Hr as <-.
  by apply pending_claim_at in Hc.
Qed.
Lemma claim_delete_at item v ts handles c :
  claim_from_delete_table_item item v ts handles = Ret (Ok (Some c)) -> tpc_last_transaction_version c = v.
Proof.
  unfold claim_from_delete_table_item. intros Hr. apply bind_Ret in Hr as (data & _ & Hr).
  apply try_bind_Ok in Hr as ([[| | | | |offer]|] & _ & Hr); try done.
  apply bind_Ret in Hr as (tm & _ & Hr). apply bind_Ret in Hr as (c' & Hc & Hr). injection Hr as <-.
  by apply pending_claim_at in Hc.
Qed.

Lemma token_change_rows v ts handles i change c :
  token_change query_creator query_retries v ts handles i change = Ret c -> token_change_at v c.
Proof.
  unfold token_change, token_change_at. destruct change as [| |item| | |item]; intros Hc;
    try (injection Hc as <-; by split_and!).
  - apply bind_Ret in Hc as (r1 & E1 & Hc). apply bind_Ret in Hc as (t & ->%unwrap_result_Ret & Hc).
    apply bind_Ret in Hc as (r2 & E2 & Hc). apply bind_Ret in Hc as (cl & ->%unwrap_result_Ret & Hc).
    injection Hc as <-. simpl. split_and!; try done.
    + intros t' o co ->. by eapply token_delete_at.
    + intros c' ->. by eapply claim_delete_at.
  - apply bind_Ret in Hc as (r1 & E1 & Hc). apply bind_Ret in Hc as (t & ->%unwrap_result_Ret & Hc).
    apply bind_Ret in Hc as (r2 & E2 & Hc). apply bind_Ret in Hc as (d & ->%unwrap_result_Ret & Hc).
    apply bind_Ret in Hc as (r3 & E3 & Hc). apply bind_Ret in Hc as (co & ->%unwrap_result_Ret & Hc).
    apply bind_Ret in Hc as (r4 & E4 & Hc). apply bind_Ret in Hc as (cl & ->%unwrap_result_Ret & Hc).
    injection Hc as <-. simpl. split_and!.
    + intros t' o' co' ->. by eapply token_write_at.
    + intros d' cd ->. by eapply token_data_at.
    + intros d' cd ->. by eapply collection_data_at.
    + intros c' ->. by eapply claim_write_at.
Qed.

(** ** The rows of a transaction *)

Definition token_txn_at (v : Z) (d : TokenTxn) : Prop :=
  holds token_pk (fun t => tkn_transaction_version t = v) (txn_tokens d) /\
  holds cto_pk (fun c => cto_last_transaction_version c = v /\ cto_table_type c = "0x3::token::TokenStore") (txn_current_token_ownerships d) /\
  holds ctd_token_data_id_hash (fun c => ctd_last_transaction_version c = v) (txn_current_token_datas d) /\
  holds ccd_collection_data_id_hash (fun c => ccd_last_transaction_version c = v)
    (txn_current_collection_datas d) /\
  holds tpc_pk (fun c => tpc_last_transaction_version c = v) (txn_current_token_claims d).

Lemma Forall_option_list {A} (P : A -> Prop) o : (forall a, o = Some a -> P a) -> Forall P (option_list o).
Proof. destruct o; simpl; [intros Ho; constructor; [by apply Ho|constructor]|constructor]. Qed.

Lemma store_token_change_at v acc c : token_txn_at v acc -> token_change_at v c -> token_txn_at v (store_token_change acc c).
Proof.
  intros (A1 & A2 & A3 & A4 & A5) (C1 & C2 & C3 & C4). unfold token_txn_at, store_token_change.
  destruct (maybe_token_w_ownership c) as [[[t o] co]|]; simpl; split_and!; try done.
  - apply holds_insert; [done|done|]. by apply (C1 t o co).
  - apply holds_inserts; [done|]. apply Forall_option_list. intros co' ->. by apply (C1 t o (Some co')).
  - apply holds_inserts; [done|]. apply Forall_option_list. intros x ([d cd] & E & ->)%fmap_Some. by eapply C2.
  - apply holds_inserts; [done|]. apply Forall_option_list. intros x ([d cd] & E & ->)%fmap_Some. by eapply C3.
  - apply holds_inserts; [done|]. by apply Forall_option_list.
  - apply holds_inserts; [done|]. apply Forall_option_list. intros x ([d cd] & E & ->)%fmap_Some. by eapply C2.
  - apply holds_inserts; [done|]. apply Forall_option_list. intros x ([d cd] & E & ->)%fmap_Some. by eapply C3.
  - apply holds_inserts; [done|]. by apply Forall_option_list.
Qed.

Lemma tokens_from_transaction_at t handles d :
  tokens_from_transaction query_creator query_retries t handles = Ret d -> token_txn_at (as_i64 (t_version t)) d.
Proof.
  assert (forall v, token_txn_at v no_tokens) as Hnone by (intros v; split_and!; apply holds_empty).
  unfold tokens_from_transaction. destruct (t_txn_data t) as [[]|]; intros Hd; try (by injection Hd as <-).
  apply bind_Ret in Hd as (ts & _ & Hd). apply bind_Ret in Hd as (nts & _ & Hd).
  apply bind_Ret in Hd as (info & _ & Hd). revert Hd. apply (foldM_ind (token_txn_at _)); [done|].
  intros acc [i wsc] acc' _ Hacc Hs. unfold token_change_step in Hs. apply bind_Ret in Hs as (change & _ & Hs).
  apply bind_Ret in Hs as (c & Hc & Hs). injection Hs as <-.
  apply store_token_change_at; [done|]. by eapply token_change_rows.
Qed.

(** ** A batch *)

Definition token_inv (vs : list Z) (st : TokenState) : Prop :=
  holds cto_pk (fun c => cto_last_transaction_version c ∈ vs /\ cto_table_type c = "0x3::token::TokenStore")
    (all_current_token_ownerships st) /\
  holds ctd_token_data_id_hash (fun c => ctd_last_transaction_version c ∈ vs) (all_current_token_datas st) /\
  holds ccd_collection_data_id_hash (fun c => ccd_last_transaction_version c ∈ vs)
    (all_current_collection_datas st) /\
  holds tpc_pk (fun c => tpc_last_transaction_version c ∈ vs) (all_current_token_claims st).

Lemma token_step_parts `{HashOrder} handles st t st' :
  token_step query_creator query_retries config handles st t = Ret st' ->
  exists d points, tokens_from_transaction query_creator query_retries t handles = Ret d /\
    nft_points_from_transaction t (nft_points_contract config) = Ret points /\
    all_tokens st' = all_tokens st ++ into_values (txn_tokens d) /\
    all_nft_points st' = all_nft_points st ++ option_list points /\
    all_current_token_ownerships st' = extend (all_current_token_ownerships st) (txn_current_token_ownerships d) /\
    all_current_token_datas st' = extend (all_current_token_datas st) (txn_current_token_datas d) /\
    all_current_collection_datas st' =
      extend (all_current_collection_datas st) (txn_current_collection_datas d) /\
    all_current_token_claims st' = extend (all_current_token_claims st) (txn_current_token_claims d).
Proof.
  unfold token_step. intros Hs. apply bind_Ret in Hs as (d & Hd & Hs). apply bind_Ret in Hs as (acts & _ & Hs).
  apply bind_Ret in Hs as (points & Hp & Hs). exists d, points. by injection Hs as <-.
Qed.

Lemma token_fold_inv `{HashOrder} handles transactions st :
  foldM (token_step query_creator query_retries config handles) token_init transactions = Ret st ->
  token_inv (txn_versions transactions) st.
Proof.
  set (vs := txn_versions transactions). intros Hf.
  eapply (foldM_ind (token_inv vs)); [|..|exact Hf]; [split_and!; apply holds_empty|].
  intros s t s' Ht (I1 & I2 & I3 & I4) Hs.
  assert (as_i64 (t_version t) ∈ vs) as Hin by (by apply (list_elem_of_fmap_2 (fun t => as_i64 (t_version t)))).
  apply token_step_parts in Hs as (d & points & Hd & _ & _ & _ & E1 & E2 & E3 & E4).
  apply tokens_from_transaction_at in Hd as (_ & D1 & D2 & D3 & D4).
  unfold token_inv. rewrite E1, E2, E3, E4. split_and!; (apply holds_extend; [done|]).
  - eapply holds_impl; [|exact D1]. by intros ? [-> ?].
  - eapply holds_impl; [|exact D2]. by intros ? ->.
  - eapply holds_impl; [|exact D3]. by intros ? ->.
  - eapply holds_impl; [|exact D4]. by intros ? ->.
Qed.

Lemma token_rows_state `{HashOrder} transactions rows :
  token_rows query_creator query_retries config transactions = Ret rows ->
  exists handles st, foldM (token_step query_creator query_retries config handles) token_init transactions = Ret st /\
    token_inv (txn_versions transactions) st /\
    rows_tokens rows = all_tokens st /\ rows_nft_points rows = all_nft_points st /\
    rows_current_token_ownerships rows ≡ₚ into_values (all_current_token_ownerships st) /\
    rows_current_token_datas rows ≡ₚ into_values (all_current_token_datas st) /\
    rows_current_collection_datas rows ≡ₚ into_values (all_current_collection_datas st) /\
    rows_current_token_claims rows ≡ₚ into_values (all_current_token_claims st).
Proof.
  unfold token_rows. intros Hr. apply bind_Ret in Hr as (handles & _ & Hr). apply bind_Ret in Hr as (st & Hf & Hr).
  injection Hr as <-. exists handles, st. split; [done|]. split; [by eapply token_fold_inv|]. simpl.
  split_and!; try done; apply sort_by_perm.
Qed.

(** C23: the current token tables converge in every column but the timestamp.
    When the rows of batches with distinct versions are written in any order,
    the tables of current ownerships, token data, collections and claims end up
    the same up to [last_transaction_timestamp], and a row has the other
    columns of the newest row written under its key. *)
Theorem token_tables_converge `{HashOrder} (batches : list (list Transaction)) (rows : list TokenRows)
    ownerships datas collections claims :
  NoDup (txn_versions (concat batches)) ->
  Forall2 (fun b r => token_rows query_creator query_retries config b = Ret r) batches rows ->
  ownerships ≡ₚ concat (rows_current_token_ownerships <$> rows) ->
  datas ≡ₚ concat (rows_current_token_datas <$> rows) ->
  collections ≡ₚ concat (rows_current_collection_datas <$> rows) ->
  claims ≡ₚ concat (rows_current_token_claims <$> rows) ->
  settles_up_to insert_current_token_ownerships_query erase_ownership ownerships
    (concat (rows_current_token_ownerships <$> rows)) /\
  settles_up_to insert_current_token_datas_query erase_token_data datas
    (concat (rows_current_token_datas <$> rows)) /\
  settles_up_to insert_current_collection_datas_query erase_collection_data collections
    (concat (rows_current_collection_datas <$> rows)) /\
  settles_up_to insert_current_token_claims_query erase_claim claims
    (concat (rows_current_token_claims <$> rows)).
Proof.
  intros Hn Hrows P1 P2 P3 P4. split_and!.
  - eapply (batches_settle_up_to _ _ _ _ cto_last_transaction_version); [done| |done|exact Hrows|done].
    intros b r (_ & st & _ & (I1 & _) & _ & _ & Hp & _)%token_rows_state. eapply holds_rows; [|exact Hp].
    eapply holds_impl; [|exact I1]. by intros ? [? _].
  - eapply (batches_settle_up_to _ _ _ _ ctd_last_transaction_version); [done| |done|exact Hrows|done].
    intros b r (_ & st & _ & (_ & I2 & _) & _ & _ & _ & Hp & _)%token_rows_state. by eapply holds_rows.
  - eapply (batches_settle_up_to _ _ _ _ ccd_last_transaction_version); [done| |done|exact Hrows|done].
    intros b r (_ & st & _ & (_ & _ & I3 & _) & _ & _ & _ & _ & Hp & _)%token_rows_state. by eapply holds_rows.
  - eapply (batches_settle_up_to _ _ _ _ tpc_last_transaction_version); [done| |done|exact Hrows|done].
    intros b r (_ & st & _ & (_ & _ & _ & I4) & _ & _ & _ & _ & _ & Hp)%token_rows_state. by eapply holds_rows.
Qed.

(** the timestamp of a current token row is never updated.  When a row
    that is at least as new replaces a stored one, the table has the new
    version next to the old timestamp; this holds for ownerships, token data,
    collections and claims. *)
Theorem token_timestamps_stale :
  (forall t (old new : CurrentTokenOwnership), t !! cto_pk new = Some old ->
     (cto_last_transaction_version old <= cto_last_transaction_version new)%Z ->
     exists r, upsert_row insert_current_token_ownerships_query t new !! cto_pk new = Some r /\
       cto_last_transaction_version r = cto_last_transaction_version new /\
       cto_last_transaction_timestamp r = cto_last_transaction_timestamp old) /\
  (forall t (old new : CurrentTokenData), t !! ctd_token_data_id_hash new = Some old ->
     (ctd_last_transaction_version old <= ctd_last_transaction_version new)%Z ->
     exists r, upsert_row insert_current_token_datas_query t new !! ctd_token_data_id_hash new = Some r /\
       ctd_last_transaction_version r = ctd_last_transaction_version new /\
       ctd_last_transaction_timestamp r = ctd_last_transaction_timestamp old) /\
  (forall t (old new : CurrentCollectionData), t !! ccd_collection_data_id_hash new = Some old ->
     (ccd_last_transaction_version old <= ccd_last_transaction_version new)%Z ->
     exists r, upsert_row insert_current_collection_datas_query t new !! ccd_collection_data_id_hash new = Some r /\
       ccd_last_transaction_version r = ccd_last_transaction_version new /\
       ccd_last_transaction_timestamp r = ccd_last_transaction_timestamp old) /\
  (forall t (old new : CurrentTokenPendingClaim), t !! tpc_pk new = Some old ->
     (tpc_last_transaction_version old <= tpc_last_transaction_version new)%Z ->
     exists r, upsert_row insert_current_token_claims_query t new !! tpc_pk new = Some r /\
       tpc_last_transaction_version r = tpc_last_transaction_version new /\
       tpc_last_transaction_timestamp r = tpc_last_transaction_timestamp old).
Proof.
  split_and!; intros t old new Ht Hv; rewrite upsert_row_lookup, decide_True by done; rewrite Ht; simpl;
    rewrite bool_decide_true by done; by eexists.
Qed.

Lemma nft_points_version t contract p :
  nft_points_from_transaction t contract = Ret (Some p) -> nfp_transaction_version p = as_i64 (t_version t).
Proof.
  unfold nft_points_from_transaction. destruct (t_txn_data t) as [d|]; [|done]. intros Hp.
  apply bind_Ret in Hp as (ts & _ & Hp). apply bind_Ret in Hp as (info & _ & Hp).
  destruct contract as [c|]; [|done]. destruct d; try done.
  apply bind_Ret in Hp as (req & _ & Hp). apply bind_Ret in Hp as (payload & _ & Hp).
  apply bind_Ret in Hp as (entry & _ & Hp). destruct (ti_success info); [|done]. case_decide; [|done].
  outcome_inv. done.
Qed.

(** the tokens of a batch have distinct keys, and so do its NFT points.  In
    a batch of distinct versions a token appears once per version, with its
    last state, and a transaction yields at most one row of points; no current
    ownership stems from a table other than a token store. *)
Theorem token_rows_distinct `{HashOrder} (transactions : list Transaction) (rows : TokenRows) :
  Forall (fun t => in_u64 (t_version t)) transactions -> NoDup (t_version <$> transactions) ->
  token_rows query_creator query_retries config transactions = Ret rows ->
  NoDup (up_key insert_tokens_query <$> rows_tokens rows) /\
  NoDup (up_key insert_nft_points_query <$> rows_nft_points rows) /\
  NoDup (up_key insert_current_token_claims_query <$> rows_current_token_claims rows) /\
  Forall (fun c => cto_table_type c = "0x3::token::TokenStore") (rows_current_token_ownerships rows).
Proof.
  intros Hv Hn Hr. pose proof (batch_versions_NoDup _ Hv Hn) as Hvn.
  apply token_rows_state in Hr as (handles & st & Hf & (I1 & _ & _ & I4) & -> & -> & P1 & _ & _ & P4). split_and!.
  - eapply (appended_rows_NoDup _ all_tokens tkn_transaction_version (up_key insert_tokens_query) token_init);
      [|by intros ?? [=]|done|exact Hvn|exact Hf].
    intros s t s' _ Hs. apply token_step_parts in Hs as (d & points & Hd & _ & -> & _).
    apply tokens_from_transaction_at in Hd as (D & _). eexists. split; [done|].
    destruct (holds_rows _ _ _ (into_values (txn_tokens d)) D) as [Hdn Hdv]; [done|].
    split; [|by apply Forall_forall]. eapply NoDup_fmap_coarser; [exact Hdn|].
    intros a b _ _ [=]. unfold token_pk. congruence.
  - eapply (appended_rows_NoDup _ all_nft_points nfp_transaction_version (up_key insert_nft_points_query) token_init);
      [|done|done|exact Hvn|exact Hf].
    intros s t s' _ Hs. apply token_step_parts in Hs as (d & [p|] & _ & Hp & _ & -> & _); eexists; (split; [done|]).
    + apply nft_points_version in Hp. split; [apply NoDup_singleton|by repeat constructor].
    + split; constructor.
  - by destruct (holds_rows _ _ _ _ I4 P4).
  - apply Forall_forall. intros c Hc. eapply (holds_rows _ _ _ _ I1 P1) in Hc. by destruct Hc.
Qed.
End TokensV1Laws.

(** ** A concrete batch *)

Section ConcreteTokens.
#[local] Existing Instance pair_chrono.
#[local] Existing Instance int_bigdec.
#[local] Existing Instance int_bigdec_key.
#[local] Existing Instance plain_hex.
#[local] Existing Instance plain_sha.
#[local] Existing Instance text_json.
#[local] Existing Instance no_proto_json.
#[local] Instance no_entry_value : Serialize EntryFunctionPayloadClean := fun _ => None.
#[local] Instance no_script_value : Serialize ScriptPayloadClean := fun _ => None.
#[local] Instance no_multisig_value : Serialize MultisigPayloadClean := fun _ => None.
#[local] Instance plain_unescape : Unescape := Some.

(** Tokens are written as their amount, offers as their recipient, and
    resources as the handle of their table; there is one token. *)
Definition ex_token_id : TokenIdType :=
  {| tki_token_data_id := {| tdi_creator := "0xc"; tdi_collection := "art"; tdi_name := "one" |};
     tki_property_version := 0%Z : @BigDecimal int_bigdec |}.
Definition de_text {A} (f : string -> option A) : Deserialize A :=
  {| de_from_str := f; de_from_value := fun v => match v with Str s => f s | _ => None end |}.
#[local] Instance token_text_codec : TokenV1Codec :=
  {| de_TokenDataIdType := de_text (fun _ => Some (tki_token_data_id ex_token_id));
     de_TokenIdType := de_text (fun _ => Some ex_token_id);
     de_TokenDataType := no_de _;
     de_TokenType := de_text (fun s => a ← int_parse s;
       Some {| tt_amount := a : @BigDecimal int_bigdec; tt_id := ex_token_id; tt_token_properties := Null |});
     de_CollectionDataType := no_de _;
     de_TokenOfferIdType := de_text (fun s => Some {| toi_to_addr := s; toi_token_id := ex_token_id |});
     de_MintTokenEventType := no_de _; de_BurnTokenEventType := no_de _;
     de_MutateTokenPropertyMapEventType := no_de _; de_WithdrawTokenEventType := no_de _;
     de_DepositTokenEventType := no_de _; de_OfferTokenEventType := no_de _;
     de_CancelTokenOfferEventType := no_de _; de_ClaimTokenEventType := no_de _;
     de_CollectionResourceType := no_de _;
     de_TokenStoreResourceType := de_text (fun s => Some {| tsr_tokens := {| table_handle := s |} |});
     de_PendingClaimsResourceType := de_text (fun s => Some {| pcr_pending_claims := {| table_handle := s |} |}) |}.

Definition ex_token_resource (module name handle : string) : WriteSetChangePB :=
  {| wsc_type := 0; wsc_change := Some (ChangeWriteResource
       {| wr_address := "0xa"; wr_state_key_hash := EmptyString;
          wr_type := Some (mk_MoveStructTag "0x3" module name []);
          wr_type_str := "0x3::" +:+ module +:+ "::" +:+ name; wr_data := handle |}) |}.
Definition ex_token_item (handle key_type key value : string) : WriteSetChangePB :=
  {| wsc_type := 0; wsc_change := Some (ChangeWriteTableItem
       {| wti_state_key_hash := EmptyString; wti_handle := handle; wti_key := key;
          wti_data := Some {| wtd_key := key; wtd_key_type := key_type; wtd_value := value;
                              wtd_value_type := "0x3::token::Token" |} |}) |}.
Definition ex_token_txn (v : Z) (changes : list WriteSetChangePB) : Transaction :=
  {| t_timestamp := Some {| seconds := v; nanos := 0 |}; t_version := v;
     t_info := Some
       {| ti_hash := EmptyString; ti_state_change_hash := EmptyString; ti_event_root_hash := EmptyString;
          ti_state_checkpoint_hash := None; ti_gas_used := 7; ti_success := true;
          ti_vm_status := EmptyString; ti_accumulator_root_hash := EmptyString; ti_changes := changes |};
     t_epoch := 0; t_block_height := 1; t_type := 4;
     t_size_info := None; t_txn_data := Some (TdUser {| ut_request := None; ut_events := [] |}) |}.

(** The account 0xa holds three of the token and offers one each to 0xb and
    0xd; later it holds two. *)
Definition ex_token_batch : list Transaction :=
  [ex_token_txn 7 [ex_token_resource "token" "TokenStore" "0x51";
                   ex_token_resource "token_transfers" "PendingClaims" "0x52";
                   ex_token_item "0x51" "0x3::token::TokenId" "one" "3";
                   ex_token_item "0x52" "0x3::token_transfers::TokenOfferId" "0xd" "1";
                   ex_token_item "0x52" "0x3::token_transfers::TokenOfferId" "0xb" "1"]].
Definition ex_token_next : list Transaction :=
  [ex_token_txn 8 [ex_token_resource "token" "TokenStore" "0x51";
                   ex_token_item "0x51" "0x3::token::TokenId" "one" "2"]].
Definition ex_token_config : TokenProcessorConfig :=
  {| nft_points_contract := None; token_retry := {| Processors.query_retries := 5; query_retry_delay_ms := 0 |} |}.
Definition ex_no_creator : Z -> Z -> nat -> string -> result string := fun _ _ _ _ => Err.
Definition ex_no_token_rows : TokenRows :=
  {| rows_tokens := []; rows_token_ownerships := []; rows_token_datas := []; rows_collection_datas := [];
     rows_token_activities := []; rows_current_token_ownerships := []; rows_current_token_datas := [];
     rows_current_collection_datas := []; rows_current_token_claims := []; rows_nft_points := [] |}.
Definition ex_token_rows (o : HashOrder) (ts : list Transaction) : TokenRows :=
  ret_or ex_no_token_rows (@token_rows _ _ _ _ _ _ _ _ _ _ _ _ ex_no_creator 5 ex_token_config o ts).
Lemma ex_token_batch_ok :
  @token_rows _ _ _ _ _ _ _ _ _ _ _ _ ex_no_creator 5 ex_token_config map_order ex_token_batch =
    Ret (ex_token_rows map_order ex_token_batch).
Proof. apply ret_or_eq. vm_compute. reflexivity. Qed.
Lemma ex_token_next_ok :
  @token_rows _ _ _ _ _ _ _ _ _ _ _ _ ex_no_creator 5 ex_token_config map_order ex_token_next =
    Ret (ex_token_rows map_order ex_token_next).
Proof. apply ret_or_eq. vm_compute. reflexivity. Qed.

(** The claims are written in the order of the hasher, not of their keys. *)
Example claims_follow_hasher :
  (tpc_to_address <$> rows_current_token_claims (ex_token_rows map_order ex_token_batch)) =
  reverse (tpc_to_address <$> rows_current_token_claims (ex_token_rows rev_order ex_token_batch)) /\
  length (rows_current_token_claims (ex_token_rows map_order ex_token_batch)) = 2.
Proof. split; vm_compute; reflexivity. Qed.

Lemma token_rows_distinct_witness :
  (own_amount <$> rows_token_ownerships (ex_token_rows map_order ex_token_batch)) = [3%Z] /\
  length (rows_tokens (ex_token_rows map_order ex_token_batch)) = 1 /\
  NoDup (up_key insert_current_token_claims_query <$>
    rows_current_token_claims (ex_token_rows map_order ex_token_batch)).
Proof.
  split; [vm_compute; reflexivity|]. split; [vm_compute; reflexivity|].
  destruct (@token_rows_distinct _ _ _ _ _ _ _ _ _ _ _ _ ex_no_creator 5 ex_token_config map_order
    ex_token_batch (ex_token_rows map_order ex_token_batch)) as (_ & _ & Hc & _).
  - repeat constructor; simpl; lia.
  - apply (bool_decide_unpack _). vm_compute. exact I.
  - exact ex_token_batch_ok.
  - exact Hc.
Defined.

(** The batches are written in the reverse order. *)
Lemma token_tables_converge_witness :
  let rows := [ex_token_rows map_order ex_token_batch; ex_token_rows map_order ex_token_next] in
  settles_up_to insert_current_token_ownerships_query erase_ownership
    (reverse (concat (rows_current_token_ownerships <$> rows)))
    (concat (rows_current_token_ownerships <$> rows)).
Proof.
  intros rows.
  destruct (@token_tables_converge _ _ _ _ _ _ _ _ _ _ _ _ ex_no_creator 5 ex_token_config map_order
    [ex_token_batch; ex_token_next] rows
    (reverse (concat (rows_current_token_ownerships <$> rows)))
    (reverse (concat (rows_current_token_datas <$> rows)))
    (reverse (concat (rows_current_collection_datas <$> rows)))
    (reverse (concat (rows_current_token_claims <$> rows)))) as (Ho & _).
  - apply (bool_decide_unpack _). vm_compute. exact I.
  - constructor; [exact ex_token_batch_ok|]. constructor; [exact ex_token_next_ok|constructor].
  - apply reverse_Permutation.
  - apply reverse_Permutation.
  - apply reverse_Permutation.
  - apply reverse_Permutation.
  - exact Ho.
Defined.

(** The ownership of version 8 is stored with the time of version 7. *)
Lemma token_timestamps_stale_witness :
  let old := hd (Build_CurrentTokenOwnership EmptyString (0%Z : @BigDecimal int_bigdec) EmptyString EmptyString
    EmptyString EmptyString (0%Z : @BigDecimal int_bigdec) Null 0 EmptyString EmptyString
    ((0, 0)%Z : @NaiveDateTime pair_chrono)) (rows_current_token_ownerships (ex_token_rows map_order ex_token_batch)) in
  let new := hd old (rows_current_token_ownerships (ex_token_rows map_order ex_token_next)) in
  cto_last_transaction_version new = 8%Z /\
  exists r, upsert_row insert_current_token_ownerships_query {[cto_pk new := old]} new !! cto_pk new = Some r /\
    cto_last_transaction_version r = cto_last_transaction_version new /\
    cto_last_transaction_timestamp r = cto_last_transaction_timestamp old.
Proof.
  intros old new. split; [vm_compute; reflexivity|].
  destruct token_timestamps_stale as (Hstale & _).
  apply (Hstale {[cto_pk new := old]} old new).
  - apply lookup_singleton_eq.
  - apply Z.leb_le. vm_compute. reflexivity.
Defined.
End ConcreteTokens.
