(* ===== verification/TokensV2.v ===== *)
(** * Tokens of both standards

    [models/token_v2_models] and [processors/token_v2_processor.rs]:
    collections, token data, ownership and activities of digital assets, and of
    the tokens of the first contract in the same tables.  What is known of an
    object is collected in a first pass over a transaction and kept for the
    rest of the batch; the answers of the database to a lookup are a
    parameter. *)
From S2P Require Import Prelude RustStr Json Externals Proto Util Database SharedTable Processors.
From S2P Require Import DefaultModels TokenResources FungibleResources Objects TokenUtils TokensV1.

Definition DEFAULT_OWNER_ADDRESS : string := "unknown".

Section TokensV2.
Context `{Chrono, BigDec, HexCodec, Sha256, JsonParse, ProtoJson}.
Context `{!BigDecKey, !TokenV1Codec, !TokenCodec, !FungibleCodec}.

(** [BigDecimal::one]. *)
Definition bd_one : BigDecimal := bd_from_u64 1.

(** ** Rows *)

Record CollectionV2 := {
  col2_transaction_version : Z;
  col2_write_set_change_index : Z;
  col2_collection_id : string;
  col2_creator_address : string;
  col2_collection_name : string;
  col2_description : string;
  col2_uri : string;
  col2_current_supply : BigDecimal;
  col2_max_supply : option BigDecimal;
  col2_total_minted_v2 : option BigDecimal;
  col2_mutable_description : option bool;
  col2_mutable_uri : option bool;
  col2_table_handle_v1 : option string;
  col2_token_standard : string;
  col2_transaction_timestamp : NaiveDateTime;
}.
Record CurrentCollectionV2 := {
  ccol2_collection_id : string;
  ccol2_creator_address : string;
  ccol2_collection_name : string;
  ccol2_description : string;
  ccol2_uri : string;
  ccol2_current_supply : BigDecimal;
  ccol2_max_supply : option BigDecimal;
  ccol2_total_minted_v2 : option BigDecimal;
  ccol2_mutable_description : option bool;
  ccol2_mutable_uri : option bool;
  ccol2_table_handle_v1 : option string;
  ccol2_token_standard : string;
  ccol2_last_transaction_version : Z;
  ccol2_last_transaction_timestamp : NaiveDateTime;
}.
Record TokenDataV2 := {
  td2_transaction_version : Z;
  td2_write_set_change_index : Z;
  td2_token_data_id : string;
  td2_collection_id : string;
  td2_token_name : string;
  td2_maximum : option BigDecimal;
  td2_supply : option BigDecimal;
  td2_largest_property_version_v1 : option BigDecimal;
  td2_token_uri : string;
  td2_token_properties : Value;
  td2_description : string;
  td2_token_standard : string;
  td2_is_fungible_v2 : option bool;
  td2_transaction_timestamp : NaiveDateTime;
  td2_decimals : option Z;
}.
Record CurrentTokenDataV2 := {
  ctd2_token_data_id : string;
  ctd2_collection_id : string;
  ctd2_token_name : string;
  ctd2_maximum : option BigDecimal;
  ctd2_supply : option BigDecimal;
  ctd2_largest_property_version_v1 : option BigDecimal;
  ctd2_token_uri : string;
  ctd2_token_properties : Value;
  ctd2_description : string;
  ctd2_token_standard : string;
  ctd2_is_fungible_v2 : option bool;
  ctd2_last_transaction_version : Z;
  ctd2_last_transaction_timestamp : NaiveDateTime;
  ctd2_decimals : option Z;
  ctd2_is_deleted_v2 : option bool;
}.
Record TokenOwnershipV2 := {
  to2_transaction_version : Z;
  to2_write_set_change_index : Z;
  to2_token_data_id : string;
  to2_property_version_v1 : BigDecimal;
  to2_owner_address : option string;
  to2_storage_id : string;
  to2_amount : BigDecimal;
  to2_table_type_v1 : option string;
  to2_token_properties_mutated_v1 : option Value;
  to2_is_soulbound_v2 : option bool;
  to2_token_standard : string;
  to2_is_fungible_v2 : option bool;
  to2_transaction_timestamp : NaiveDateTime;
  to2_non_transferrable_by_owner : option bool;
}.
Record CurrentTokenOwnershipV2 := {
  cto2_token_data_id : string;
  cto2_property_version_v1 : BigDecimal;
  cto2_owner_address : string;
  cto2_storage_id : string;
  cto2_amount : BigDecimal;
  cto2_table_type_v1 : option string;
  cto2_token_properties_mutated_v1 : option Value;
  cto2_is_soulbound_v2 : option bool;
  cto2_token_standard : string;
  cto2_is_fungible_v2 : option bool;
  cto2_last_transaction_version : Z;
  cto2_last_transaction_timestamp : NaiveDateTime;
  cto2_non_transferrable_by_owner : option bool;
}.
(** Who owned a token, in case it is burned. *)
Record NFTOwnershipV2 := {
  nfo_token_data_id : string;
  nfo_owner_address : string;
  nfo_is_soulbound : option bool;
}.
Record TokenActivityV2 := {
  ta2_transaction_version : Z;
  ta2_event_index : Z;
  ta2_event_account_address : string;
  ta2_token_data_id : string;
  ta2_property_version_v1 : BigDecimal;
  ta2_type : string;
  ta2_from_address : option string;
  ta2_to_address : option string;
  ta2_token_amount : BigDecimal;
  ta2_before_value : option string;
  ta2_after_value : option string;
  ta2_entry_function_id_str : option string;
  ta2_token_standard : string;
  ta2_is_fungible_v2 : option bool;
  ta2_transaction_timestamp : NaiveDateTime;
}.
Record CurrentTokenV2Metadata := {
  ctm_object_address : string;
  ctm_resource_type : string;
  ctm_data : Value;
  ctm_state_key_hash : string;
  ctm_last_transaction_version : Z;
}.
#[export] Instance CollectionV2_fields : FieldCount CollectionV2 := 15.
#[export] Instance CurrentCollectionV2_fields : FieldCount CurrentCollectionV2 := 14.
#[export] Instance TokenDataV2_fields : FieldCount TokenDataV2 := 15.
#[export] Instance CurrentTokenDataV2_fields : FieldCount CurrentTokenDataV2 := 15.
#[export] Instance TokenOwnershipV2_fields : FieldCount TokenOwnershipV2 := 14.
#[export] Instance CurrentTokenOwnershipV2_fields : FieldCount CurrentTokenOwnershipV2 := 13.
#[export] Instance TokenActivityV2_fields : FieldCount TokenActivityV2 := 15.
#[export] Instance CurrentTokenV2Metadata_fields : FieldCount CurrentTokenV2Metadata := 5.

Abbreviation OwnershipKey := (string * BigDecimal * string * string)%type.
Definition cto2_pk (c : CurrentTokenOwnershipV2) : OwnershipKey :=
  (cto2_token_data_id c, cto2_property_version_v1 c, cto2_owner_address c, cto2_storage_id c).
Definition ctm_pk (c : CurrentTokenV2Metadata) : string * string :=
  (ctm_object_address c, ctm_resource_type c).

Abbreviation ObjectMap := (gmap string ObjectAggregatedData) (only parsing).
Abbreviation TableHandleToOwner := (gmap string TableMetadataForToken) (only parsing).
Abbreviation TokenV2Burned := (gmap string Burn) (only parsing).

(** The answers of the database to the lookups made for a change, which is
    given by the version and its position: the creator of a collection by its
    table handle, in the tables of both processors, and an owned row of a
    token. *)
Record TokenV2Queries := {
  q_creator_v2 : Z -> Z -> nat -> string -> result string;
  q_creator_v1 : Z -> Z -> nat -> string -> result string;
  q_latest_owned : Z -> Z -> nat -> string -> result CurrentTokenOwnershipV2;
}.
Variable queries : TokenV2Queries.
Variable query_retries : nat.

(** ** Collections: [v2_collections.rs] *)

(** The supply of a collection: later sources override earlier ones. *)
Definition collection_supply (object_data : ObjectAggregatedData)
  : BigDecimal * option BigDecimal * option BigDecimal :=
  let supply := (bd_zero, None, None) in
  let supply := match oad_unlimited_supply object_data with
                | Some s => (us_current_supply s, None, Some (us_total_minted s))
                | None => supply
                end in
  let supply := match oad_fixed_supply object_data with
                | Some s => (fs_current_supply s, Some (fs_max_supply s), Some (fs_total_minted s))
                | None => supply
                end in
  match oad_concurrent_supply object_data with
  | Some s =>
      (agg_value (cs_current_supply s),
       if decide (agg_max_value (cs_current_supply s) = bd_from_u64 (2 ^ 64 - 1)) then None
       else Some (agg_max_value (cs_current_supply s)),
       Some (agg_value (cs_total_minted s)))
  | None => supply
  end.

(** [CollectionV2::get_v2_from_write_resource]. *)
Definition collection_v2_from_write_resource (write_resource : WriteResource)
    (txn_version write_set_change_index : Z) (txn_timestamp : NaiveDateTime) (object_metadatas : ObjectMap)
  : outcome (result (option (CollectionV2 * CurrentCollectionV2))) :=
  type_str ← get_outer_type_from_resource write_resource;
  if is_resource_supported type_str then
    resource ← DefaultModels.from_write_resource write_resource 0 txn_version 0;
    data ← unwrap (mr_data resource);
    r <-? Ret (from_resource type_str data txn_version);
    match r with
    | ResCollection inner =>
        match object_metadatas !! mr_address resource with
        | None => Ret (Ok None)
        | Some object_data =>
            let '(current_supply, max_supply, total_minted_v2) := collection_supply object_data in
            let mutable_desc := mutable_description <$> oad_aptos_collection object_data in
            let mutable_u := mutable_uri <$> oad_aptos_collection object_data in
            collection_name ← TokenResources.collection_name_trunc inner;
            uri ← collection_uri_trunc inner;
            Ret (Ok (Some
              ({| col2_transaction_version := txn_version;
                  col2_write_set_change_index := write_set_change_index;
                  col2_collection_id := mr_address resource;
                  col2_creator_address := get_creator_address inner;
                  col2_collection_name := collection_name;
                  col2_description := col_description inner;
                  col2_uri := uri;
                  col2_current_supply := current_supply;
                  col2_max_supply := max_supply;
                  col2_total_minted_v2 := total_minted_v2;
                  col2_mutable_description := mutable_desc;
                  col2_mutable_uri := mutable_u;
                  col2_table_handle_v1 := None;
                  col2_token_standard := standard_to_string StandardV2;
                  col2_transaction_timestamp := txn_timestamp |},
               {| ccol2_collection_id := mr_address resource;
                  ccol2_creator_address := get_creator_address inner;
                  ccol2_collection_name := collection_name;
                  ccol2_description := col_description inner;
                  ccol2_uri := uri;
                  ccol2_current_supply := current_supply;
                  ccol2_max_supply := max_supply;
                  ccol2_total_minted_v2 := total_minted_v2;
                  ccol2_mutable_description := mutable_desc;
                  ccol2_mutable_uri := mutable_u;
                  ccol2_table_handle_v1 := None;
                  ccol2_token_standard := standard_to_string StandardV2;
                  ccol2_last_transaction_version := txn_version;
                  ccol2_last_transaction_timestamp := txn_timestamp |})))
        end
    | _ => Ret (Ok None)
    end
  else Ret (Ok None).

Definition get_collection_creator_for_v1 (query : nat -> string -> result string) (table_handle : string)
  : result string :=
  retry_lookup query_retries (fun n => query n table_handle).

(** [CollectionV2::get_v1_from_write_table_item]: the creator is the owner of
    the table if the batch says so, else the one in the tables of this
    processor, else the one in the tables of the token processor. *)
Definition collection_v1_from_write_table_item (table_item : WriteTableItem)
    (txn_version write_set_change_index : Z) (txn_timestamp : NaiveDateTime)
    (table_handle_to_owner : TableHandleToOwner)
  : outcome (result (option (CollectionV2 * CurrentCollectionV2))) :=
  table_item_data ← unwrap (wti_data table_item);
  r <-? Ret (token_write_set (wtd_value_type table_item_data) (wtd_value table_item_data) txn_version);
  match r with
  | Some (TwCollectionData collection_data) =>
      let table_handle := wti_handle table_item in
      let creator_address :=
        match TokensV1.get_owner_address <$> table_handle_to_owner !! standardize_address table_handle with
        | Some ca => Ok ca
        | None =>
            match get_collection_creator_for_v1 (q_creator_v2 queries txn_version write_set_change_index)
                    table_handle with
            | Ok ca => Ok ca
            | Err => get_collection_creator query_retries
                       (q_creator_v1 queries txn_version write_set_change_index) table_handle
            end
        end in
      match creator_address with
      | Err => Ret (Ok None)
      | Ok creator_address =>
          let creator_address := standardize_address creator_address in
          let collection_id_struct := {| cid_creator := creator_address; cid_name := cdt_name collection_data |} in
          let collection_id := collection_to_id collection_id_struct in
          collection_name ← collection_data_name_trunc collection_data;
          uri ← collection_data_uri_trunc collection_data;
          let config := cdt_mutability_config collection_data in
          Ret (Ok (Some
            ({| col2_transaction_version := txn_version;
                col2_write_set_change_index := write_set_change_index;
                col2_collection_id := collection_id;
                col2_creator_address := creator_address;
                col2_collection_name := collection_name;
                col2_description := cdt_description collection_data;
                col2_uri := uri;
                col2_current_supply := cdt_supply collection_data;
                col2_max_supply := Some (cdt_maximum collection_data);
                col2_total_minted_v2 := None;
                col2_mutable_description := Some (cmc_description config);
                col2_mutable_uri := Some (cmc_uri config);
                col2_table_handle_v1 := Some table_handle;
                col2_token_standard := standard_to_string StandardV1;
                col2_transaction_timestamp := txn_timestamp |},
             {| ccol2_collection_id := collection_id;
                ccol2_creator_address := creator_address;
                ccol2_collection_name := collection_name;
                ccol2_description := cdt_description collection_data;
                ccol2_uri := uri;
                ccol2_current_supply := cdt_supply collection_data;
                ccol2_max_supply := Some (cdt_maximum collection_data);
                ccol2_total_minted_v2 := None;
                ccol2_mutable_description := Some (cmc_description config);
                ccol2_mutable_uri := Some (cmc_uri config);
                ccol2_table_handle_v1 := Some table_handle;
                ccol2_token_standard := standard_to_string StandardV1;
                ccol2_last_transaction_version := txn_version;
                ccol2_last_transaction_timestamp := txn_timestamp |})))
      end
  | _ => Ret (Ok None)
  end.

(** ** Token data: [v2_token_datas.rs] *)

(** [TokenDataV2::get_v2_from_write_resource]. *)
Definition token_data_v2_from_write_resource (write_resource : WriteResource)
    (txn_version write_set_change_index : Z) (txn_timestamp : NaiveDateTime) (object_metadatas : ObjectMap)
  : outcome (result (option (TokenDataV2 * CurrentTokenDataV2))) :=
  r <-? token_from_write_resource write_resource txn_version;
  match r with
  | Some inner =>
      let token_data_id := standardize_address (wr_address write_resource) in
      token_name ← TokenResources.token_name_trunc inner;
      match object_metadatas !! token_data_id with
      | None => Ret (Ok None)
      | Some object_metadata =>
          let is_fungible_v2 := Some (bool_decide (is_Some (oad_fungible_asset_metadata object_metadata))) in
          let token_properties := default Null (pm_inner <$> oad_property_map object_metadata) in
          token_name ← match oad_token_identifier object_metadata with
                       | Some token_identifier => identifiers_name_trunc token_identifier
                       | None => Ret token_name
                       end;
          let collection_id := token_collection_address inner in
          token_uri ← token_uri_trunc inner;
          Ret (Ok (Some
            ({| td2_transaction_version := txn_version;
                td2_write_set_change_index := write_set_change_index;
                td2_token_data_id := token_data_id;
                td2_collection_id := collection_id;
                td2_token_name := token_name;
                td2_maximum := None;
                td2_supply := None;
                td2_largest_property_version_v1 := None;
                td2_token_uri := token_uri;
                td2_token_properties := token_properties;
                td2_description := tok_description inner;
                td2_token_standard := standard_to_string StandardV2;
                td2_is_fungible_v2 := is_fungible_v2;
                td2_transaction_timestamp := txn_timestamp;
                td2_decimals := None |},
             {| ctd2_token_data_id := token_data_id;
                ctd2_collection_id := collection_id;
                ctd2_token_name := token_name;
                ctd2_maximum := None;
                ctd2_supply := None;
                ctd2_largest_property_version_v1 := None;
                ctd2_token_uri := token_uri;
                ctd2_token_properties := token_properties;
                ctd2_description := tok_description inner;
                ctd2_token_standard := standard_to_string StandardV2;
                ctd2_is_fungible_v2 := is_fungible_v2;
                ctd2_last_transaction_version := txn_version;
                ctd2_last_transaction_timestamp := txn_timestamp;
                ctd2_decimals := None;
                ctd2_is_deleted_v2 := Some false |})))
      end
  | None => Ret (Ok None)
  end.

(** The row of a burned token: [get_burned_nft_v2_from_write_resource] when
    the object is still there, [get_burned_nft_v2_from_delete_resource] when it
    is deleted. *)
Definition burned_token_data (address : string) (txn_version : Z) (txn_timestamp : NaiveDateTime)
    (tokens_burned : TokenV2Burned) : option CurrentTokenDataV2 :=
  let token_data_id := standardize_address address in
  match tokens_burned !! standardize_address token_data_id with
  | Some burn_event_v2 =>
      Some {| ctd2_token_data_id := token_data_id;
              ctd2_collection_id := burn_collection_address burn_event_v2;
              ctd2_token_name := EmptyString;
              ctd2_maximum := None;
              ctd2_supply := None;
              ctd2_largest_property_version_v1 := None;
              ctd2_token_uri := EmptyString;
              ctd2_token_properties := Null;
              ctd2_description := EmptyString;
              ctd2_token_standard := standard_to_string StandardV2;
              ctd2_is_fungible_v2 := Some false;
              ctd2_last_transaction_version := txn_version;
              ctd2_last_transaction_timestamp := txn_timestamp;
              ctd2_decimals := None;
              ctd2_is_deleted_v2 := Some true |}
  | None => None
  end.
Definition burned_token_data_from_write_resource (write_resource : WriteResource)
  : Z -> NaiveDateTime -> TokenV2Burned -> option CurrentTokenDataV2 :=
  burned_token_data (wr_address write_resource).
Definition burned_token_data_from_delete_resource (delete_resource : DeleteResource)
  : Z -> NaiveDateTime -> TokenV2Burned -> option CurrentTokenDataV2 :=
  burned_token_data (dr_address delete_resource).

(** [TokenDataV2::get_v1_from_write_table_item]. *)
Definition token_data_v1_from_write_table_item (table_item : WriteTableItem)
    (txn_version write_set_change_index : Z) (txn_timestamp : NaiveDateTime)
  : outcome (result (option (TokenDataV2 * CurrentTokenDataV2))) :=
  table_item_data ← unwrap (wti_data table_item);
  r <-? Ret (token_write_set (wtd_value_type table_item_data) (wtd_value table_item_data) txn_version);
  match r with
  | Some (TwTokenData token_data) =>
      r <-? Ret (token_write_set (wtd_key_type table_item_data) (wtd_key table_item_data) txn_version);
      match r with
      | Some (TwTokenDataId token_data_id_struct) =>
          let collection_id := get_collection_id token_data_id_struct in
          let token_data_id := token_to_id token_data_id_struct in
          token_name ← TokenUtils.token_name_trunc token_data_id_struct;
          token_uri ← token_data_uri_trunc token_data;
          Ret (Ok (Some
            ({| td2_transaction_version := txn_version;
                td2_write_set_change_index := write_set_change_index;
                td2_token_data_id := token_data_id;
                td2_collection_id := collection_id;
                td2_token_name := token_name;
                td2_maximum := Some (tdt_maximum token_data);
                td2_supply := Some (tdt_supply token_data);
                td2_largest_property_version_v1 := Some (tdt_largest_property_version token_data);
                td2_token_uri := token_uri;
                td2_token_properties := tdt_default_properties token_data;
                td2_description := tdt_description token_data;
                td2_token_standard := standard_to_string StandardV1;
                td2_is_fungible_v2 := None;
                td2_transaction_timestamp := txn_timestamp;
                td2_decimals := None |},
             {| ctd2_token_data_id := token_data_id;
                ctd2_collection_id := collection_id;
                ctd2_token_name := token_name;
                ctd2_maximum := Some (tdt_maximum token_data);
                ctd2_supply := Some (tdt_supply token_data);
                ctd2_largest_property_version_v1 := Some (tdt_largest_property_version token_data);
                ctd2_token_uri := token_uri;
                ctd2_token_properties := tdt_default_properties token_data;
                ctd2_description := tdt_description token_data;
                ctd2_token_standard := standard_to_string StandardV1;
                ctd2_is_fungible_v2 := None;
                ctd2_last_transaction_version := txn_version;
                ctd2_last_transaction_timestamp := txn_timestamp;
                ctd2_decimals := None;
                ctd2_is_deleted_v2 := None |})))
      | _ => Ret (Ok None)
      end
  | _ => Ret (Ok None)
  end.

(** ** Unknown resources of a token: [v2_token_metadata.rs] *)

(** [CurrentTokenV2Metadata::from_write_resource]. *)
Definition token_v2_metadata_from_write_resource (write_resource : WriteResource) (txn_version : Z)
    (object_metadatas : ObjectMap) : outcome (result (option CurrentTokenV2Metadata)) :=
  let object_address := standardize_address (wr_address write_resource) in
  match object_metadatas !! object_address with
  | None => Ret (Ok None)
  | Some object_data =>
      match oad_token object_data with
      | None => Ret (Ok None)
      | Some _ =>
          tag ← unwrap (wr_type write_resource);
          let resource_type_addr := get_address (convert_move_struct_tag tag) in
          if bool_decide (resource_type_addr ∈ [COIN_ADDR; TOKEN_ADDR; TOKEN_V2_ADDR]) then Ret (Ok None)
          else
            resource ← DefaultModels.from_write_resource write_resource 0 txn_version 0;
            if decide (get_state_key_hash (oad_object object_data) = mr_state_key_hash resource) then
              resource_type ← truncate_str (mr_type resource) NAME_LENGTH;
              data <-? Ret (context (mr_data resource));
              Ret (Ok (Some {| ctm_object_address := object_address;
                               ctm_resource_type := resource_type;
                               ctm_data := data;
                               ctm_state_key_hash := mr_state_key_hash resource;
                               ctm_last_transaction_version := txn_version |}))
            else Ret (Ok None)
      end
  end.

(** ** Ownership: [v2_token_ownerships.rs] *)

(** An ownership of an object: the owner, the amount, and what is known of
    whether it is bound to the owner and fungible.  The storage of such a token
    is the token itself. *)
Definition nft_ownership (txn_version write_set_change_index : Z) (txn_timestamp : NaiveDateTime)
    (token_data_id owner_address : string) (amount : BigDecimal) (is_soulbound is_fungible : option bool)
  : TokenOwnershipV2 :=
  {| to2_transaction_version := txn_version;
     to2_write_set_change_index := write_set_change_index;
     to2_token_data_id := token_data_id;
     to2_property_version_v1 := bd_zero;
     to2_owner_address := Some owner_address;
     to2_storage_id := token_data_id;
     to2_amount := amount;
     to2_table_type_v1 := None;
     to2_token_properties_mutated_v1 := None;
     to2_is_soulbound_v2 := is_soulbound;
     to2_token_standard := standard_to_string StandardV2;
     to2_is_fungible_v2 := is_fungible;
     to2_transaction_timestamp := txn_timestamp;
     to2_non_transferrable_by_owner := is_soulbound |}.
Definition current_nft_ownership (txn_version : Z) (txn_timestamp : NaiveDateTime)
    (token_data_id owner_address : string) (amount : BigDecimal) (is_soulbound is_fungible : option bool)
  : CurrentTokenOwnershipV2 :=
  {| cto2_token_data_id := token_data_id;
     cto2_property_version_v1 := bd_zero;
     cto2_owner_address := owner_address;
     cto2_storage_id := token_data_id;
     cto2_amount := amount;
     cto2_table_type_v1 := None;
     cto2_token_properties_mutated_v1 := None;
     cto2_is_soulbound_v2 := is_soulbound;
     cto2_token_standard := standard_to_string StandardV2;
     cto2_is_fungible_v2 := is_fungible;
     cto2_last_transaction_version := txn_version;
     cto2_last_transaction_timestamp := txn_timestamp;
     cto2_non_transferrable_by_owner := is_soulbound |}.

(** One transfer of a token: its sender does not own it any more.  The row has
    the negated index of the event. *)
Definition transfer_step (token_data : TokenDataV2) (is_soulbound : bool)
    (acc : list TokenOwnershipV2 * gmap OwnershipKey CurrentTokenOwnershipV2) (te : Z * TransferEvent)
  : list TokenOwnershipV2 * gmap OwnershipKey CurrentTokenOwnershipV2 :=
  let '(ownerships, current_ownerships) := acc in
  let '(event_index, transfer_event) := te in
  if decide (get_to_address transfer_event = get_from_address transfer_event) then acc
  else
    let ts := td2_transaction_timestamp token_data in
    let v := td2_transaction_version token_data in
    let id := td2_token_data_id token_data in
    let from := get_from_address transfer_event in
    let current := current_nft_ownership v ts id from bd_zero (Some is_soulbound) None in
    (ownerships ++ [nft_ownership v (-1 * event_index) ts id from bd_zero (Some is_soulbound) None],
     <[cto2_pk current := current]> current_ownerships).

(** [TokenOwnershipV2::get_nft_v2_from_token_data]. *)
Definition get_nft_v2_from_token_data (token_data : TokenDataV2) (object_metadatas : ObjectMap)
  : result (list TokenOwnershipV2 * gmap OwnershipKey CurrentTokenOwnershipV2) :=
  object_data ← context (object_metadatas !! td2_token_data_id token_data);
  let core := object_core (oad_object object_data) in
  let token_data_id := td2_token_data_id token_data in
  let owner_address := TokenResources.get_owner_address core in
  let is_soulbound := negb (allow_ungated_transfer core) in
  let v := td2_transaction_version token_data in
  let ts := td2_transaction_timestamp token_data in
  let current := current_nft_ownership v ts token_data_id owner_address bd_one (Some is_soulbound) None in
  Ok (foldl (transfer_step token_data is_soulbound)
        ([nft_ownership v (td2_write_set_change_index token_data) ts token_data_id owner_address bd_one
            (Some is_soulbound) None],
         {[ cto2_pk current := current ]})
        (oad_transfer_events object_data)).

Definition get_latest_owned_nft_by_token_data_id (query : nat -> string -> result CurrentTokenOwnershipV2)
    (token_data_id : string) : result NFTOwnershipV2 :=
  inner ← retry_lookup query_retries (fun n => query n token_data_id);
  Ok {| nfo_token_data_id := cto2_token_data_id inner;
        nfo_owner_address := cto2_owner_address inner;
        nfo_is_soulbound := cto2_is_soulbound_v2 inner |}.

(** The owner of a burned token before it was burned: the one in the event,
    else the one known in the batch, else the one in the database. *)
Definition burned_owner (burn_event : Burn) (token_address : string)
    (prior_nft_ownership : gmap string NFTOwnershipV2)
    (query : nat -> string -> result CurrentTokenOwnershipV2) : string :=
  match get_previous_owner_address burn_event with
  | Some previous_owner => previous_owner
  | None =>
      match prior_nft_ownership !! token_address with
      | Some inner => nfo_owner_address inner
      | None =>
          match get_latest_owned_nft_by_token_data_id query token_address with
          | Ok nft => nfo_owner_address nft
          | Err => DEFAULT_OWNER_ADDRESS
          end
      end
  end.
Definition get_burned_nft_v2_helper (token_address : string) (txn_version write_set_change_index : Z)
    (txn_timestamp : NaiveDateTime) (prior_nft_ownership : gmap string NFTOwnershipV2)
    (tokens_burned : TokenV2Burned) : option (TokenOwnershipV2 * CurrentTokenOwnershipV2) :=
  let token_address := standardize_address token_address in
  match tokens_burned !! token_address with
  | Some burn_event =>
      let previous_owner := burned_owner burn_event token_address prior_nft_ownership
                              (q_latest_owned queries txn_version write_set_change_index) in
      Some (nft_ownership txn_version write_set_change_index txn_timestamp token_address previous_owner
              bd_zero None None,
            current_nft_ownership txn_version txn_timestamp token_address previous_owner bd_zero None None)
  | None => None
  end.

(** [TokenOwnershipV2::get_burned_nft_v2_from_write_resource]. *)
Definition burned_nft_from_write_resource (write_resource : WriteResource)
    (txn_version write_set_change_index : Z) (txn_timestamp : NaiveDateTime)
    (prior_nft_ownership : gmap string NFTOwnershipV2) (tokens_burned : TokenV2Burned)
  : outcome (result (option (TokenOwnershipV2 * CurrentTokenOwnershipV2))) :=
  let token_data_id := standardize_address (wr_address write_resource) in
  match tokens_burned !! standardize_address token_data_id with
  | Some _ =>
      r <-? object_from_write_resource write_resource txn_version;
      Ret (Ok (match r with
        | Some object =>
            let core := object_core object in
            let owner_address := TokenResources.get_owner_address core in
            let is_soulbound := Some (negb (allow_ungated_transfer core)) in
            Some (nft_ownership txn_version write_set_change_index txn_timestamp token_data_id owner_address
                    bd_zero is_soulbound (Some false),
                  current_nft_ownership txn_version txn_timestamp token_data_id owner_address
                    bd_zero is_soulbound (Some false))
        | None => get_burned_nft_v2_helper token_data_id txn_version write_set_change_index txn_timestamp
                    prior_nft_ownership tokens_burned
        end))
  | None => Ret (Ok None)
  end.
(** [TokenOwnershipV2::get_burned_nft_v2_from_delete_resource]. *)
Definition burned_nft_from_delete_resource (delete_resource : DeleteResource)
    (txn_version write_set_change_index : Z) (txn_timestamp : NaiveDateTime)
    (prior_nft_ownership : gmap string NFTOwnershipV2) (tokens_burned : TokenV2Burned)
  : option (TokenOwnershipV2 * CurrentTokenOwnershipV2) :=
  get_burned_nft_v2_helper (standardize_address (dr_address delete_resource)) txn_version
    write_set_change_index txn_timestamp prior_nft_ownership tokens_burned.

(** An ownership of a token of the first contract: the rows of a table item
    with the given handle, or nothing when the table is not a token store. *)
Definition v1_ownership (token_id_struct : TokenIdType) (amount : BigDecimal) (token_properties : option Value)
    (handle : string) (txn_version write_set_change_index : Z) (txn_timestamp : NaiveDateTime)
    (table_handle_to_owner : TableHandleToOwner)
  : option (TokenOwnershipV2 * option CurrentTokenOwnershipV2) :=
  let table_handle := standardize_address handle in
  let token_data_id := token_to_id (tki_token_data_id token_id_struct) in
  let row owner_address table_type :=
    {| to2_transaction_version := txn_version;
       to2_write_set_change_index := write_set_change_index;
       to2_token_data_id := token_data_id;
       to2_property_version_v1 := tki_property_version token_id_struct;
       to2_owner_address := owner_address;
       to2_storage_id := table_handle;
       to2_amount := amount;
       to2_table_type_v1 := table_type;
       to2_token_properties_mutated_v1 := token_properties;
       to2_is_soulbound_v2 := None;
       to2_token_standard := standard_to_string StandardV1;
       to2_is_fungible_v2 := None;
       to2_transaction_timestamp := txn_timestamp;
       to2_non_transferrable_by_owner := None |} in
  match table_handle_to_owner !! table_handle with
  | None => Some (row None None, None)
  | Some tm =>
      if decide (tm_table_type tm = "0x3::token::TokenStore") then
        let owner_address := TokensV1.get_owner_address tm in
        Some (row (Some owner_address) (Some (tm_table_type tm)),
              Some {| cto2_token_data_id := token_data_id;
                      cto2_property_version_v1 := tki_property_version token_id_struct;
                      cto2_owner_address := owner_address;
                      cto2_storage_id := table_handle;
                      cto2_amount := amount;
                      cto2_table_type_v1 := Some (tm_table_type tm);
                      cto2_token_properties_mutated_v1 := token_properties;
                      cto2_is_soulbound_v2 := None;
                      cto2_token_standard := standard_to_string StandardV1;
                      cto2_is_fungible_v2 := None;
                      cto2_last_transaction_version := txn_version;
                      cto2_last_transaction_timestamp := txn_timestamp;
                      cto2_non_transferrable_by_owner := None |})
      else None
  end.
(** [TokenOwnershipV2::get_v1_from_write_table_item]. *)
Definition ownership_v1_from_write_table_item (table_item : WriteTableItem)
    (txn_version write_set_change_index : Z) (txn_timestamp : NaiveDateTime)
    (table_handle_to_owner : TableHandleToOwner)
  : outcome (result (option (TokenOwnershipV2 * option CurrentTokenOwnershipV2))) :=
  table_item_data ← unwrap (wti_data table_item);
  r <-? Ret (token_write_set (wtd_value_type table_item_data) (wtd_value table_item_data) txn_version);
  Ret (Ok (match r with
    | Some (TwToken token) =>
        v1_ownership (tt_id token) (ensure_not_negative (tt_amount token)) (Some (tt_token_properties token))
          (wti_handle table_item) txn_version write_set_change_index txn_timestamp table_handle_to_owner
    | _ => None
    end)).
(** [TokenOwnershipV2::get_v1_from_delete_table_item]. *)
Definition ownership_v1_from_delete_table_item (table_item : DeleteTableItem)
    (txn_version write_set_change_index : Z) (txn_timestamp : NaiveDateTime)
    (table_handle_to_owner : TableHandleToOwner)
  : outcome (result (option (TokenOwnershipV2 * option CurrentTokenOwnershipV2))) :=
  table_item_data ← unwrap (dti_data table_item);
  r <-? Ret (token_write_set (dtd_key_type table_item_data) (dtd_key table_item_data) txn_version);
  Ret (Ok (match r with
    | Some (TwTokenId token_id_struct) =>
        v1_ownership token_id_struct bd_zero None
          (dti_handle table_item) txn_version write_set_change_index txn_timestamp table_handle_to_owner
    | _ => None
    end)).

(** ** Activities: [v2_token_activities.rs] *)

Record TokenActivityHelperV1 := {
  h1_token_data_id_struct : TokenDataIdType;
  h1_property_version : BigDecimal;
  h1_from_address : option string;
  h1_to_address : option string;
  h1_token_amount : BigDecimal;
}.
Record TokenActivityHelperV2 := {
  h2_from_address : option string;
  h2_to_address : option string;
  h2_token_amount : BigDecimal;
  h2_before_value : option string;
  h2_after_value : option string;
  h2_event_type : string;
}.

(** The token an event is about: the burn and mint events are attached to the
    collection, the others to the token. *)
Definition event_token_data_id (event_account_address : string) (e : V2TokenEvent) : string :=
  match e with
  | EvMintEvent inner => mint_event_token_address inner
  | EvMint inner => mint_token_address inner
  | EvBurnEvent inner => burn_event_token_address inner
  | EvBurn inner => burn_token_address inner
  | EvTransferEvent inner => get_object_address inner
  | EvTokenMutationEvent _ => event_account_address
  end.
Definition nft_activity_helper (owner_address event_type : string) (e : V2TokenEvent) : TokenActivityHelperV2 :=
  let helper from_address to_address token_amount before_value after_value event_type :=
    {| h2_from_address := Some from_address; h2_to_address := to_address; h2_token_amount := token_amount;
       h2_before_value := before_value; h2_after_value := after_value; h2_event_type := event_type |} in
  match e with
  | EvMintEvent _ => helper owner_address None bd_one None None event_type
  | EvMint _ => helper owner_address None bd_one None None "0x4::collection::MintEvent"
  | EvTokenMutationEvent inner =>
      helper owner_address None bd_zero (Some (old_value inner)) (Some (new_value inner)) event_type
  | EvBurnEvent _ => helper owner_address None bd_one None None event_type
  | EvBurn _ => helper owner_address None bd_one None None "0x4::collection::BurnEvent"
  | EvTransferEvent inner =>
      helper (get_from_address inner) (Some (get_to_address inner)) bd_one None None event_type
  end.

(** [TokenActivityV2::get_nft_v2_from_parsed_event]: a token whose object is
    not known was burned. *)
Definition nft_activity_from_event (event : EventPB) (txn_version : Z) (txn_timestamp : NaiveDateTime)
    (event_index : Z) (entry_function_id_str : option string) (token_v2_metadata : ObjectMap)
  : outcome (result (option TokenActivityV2)) :=
  let event_type := ev_type_str event in
  r <-? Ret (token_event event_type (ev_data event) txn_version);
  match r with
  | None => Ret (Ok None)
  | Some e =>
      key ← unwrap (ev_key event);
      let event_account_address := standardize_address (ek_account_address key) in
      let token_data_id := event_token_data_id event_account_address e in
      let helper :=
        match token_v2_metadata !! token_data_id with
        | Some metadata =>
            nft_activity_helper (TokenResources.get_owner_address (object_core (oad_object metadata))) event_type e
        | None =>
            {| h2_from_address := match e with EvBurn inner => get_previous_owner_address inner | _ => None end;
               h2_to_address := None; h2_token_amount := bd_one; h2_before_value := None;
               h2_after_value := None; h2_event_type := event_type |}
        end in
      Ret (Ok (Some
        {| ta2_transaction_version := txn_version;
           ta2_event_index := event_index;
           ta2_event_account_address := event_account_address;
           ta2_token_data_id := token_data_id;
           ta2_property_version_v1 := bd_zero;
           ta2_type := h2_event_type helper;
           ta2_from_address := h2_from_address helper;
           ta2_to_address := h2_to_address helper;
           ta2_token_amount := h2_token_amount helper;
           ta2_before_value := h2_before_value helper;
           ta2_after_value := h2_after_value helper;
           ta2_entry_function_id_str := entry_function_id_str;
           ta2_token_standard := standard_to_string StandardV2;
           ta2_is_fungible_v2 := None;
           ta2_transaction_timestamp := txn_timestamp |}))
  end.

Definition v1_activity_helper (event_account_address : string) (e : TokenEvent) : TokenActivityHelperV1 :=
  let helper token_data_id_struct property_version from_address to_address token_amount :=
    {| h1_token_data_id_struct := token_data_id_struct; h1_property_version := property_version;
       h1_from_address := from_address; h1_to_address := to_address; h1_token_amount := token_amount |} in
  let of_token (id : TokenIdType) := helper (tki_token_data_id id) (tki_property_version id) in
  match e with
  | TeMintTokenEvent inner => helper (mte_id inner) bd_zero (Some event_account_address) None (mte_amount inner)
  | TeBurnTokenEvent inner => of_token (bte_id inner) (Some event_account_address) None (bte_amount inner)
  | TeMutateTokenPropertyMapEvent inner => of_token (mpe_new_id inner) (Some event_account_address) None bd_zero
  | TeWithdrawTokenEvent inner => of_token (wte_id inner) (Some event_account_address) None (wte_amount inner)
  | TeDepositTokenEvent inner =>
      of_token (dte_id inner) None (Some (standardize_address event_account_address)) (dte_amount inner)
  | TeOfferTokenEvent inner =>
      of_token (ote_token_id inner) (Some event_account_address)
        (Some (standardize_address (ote_to_address inner))) (ote_amount inner)
  | TeCancelTokenOfferEvent inner =>
      of_token (cte_token_id inner) (Some event_account_address)
        (Some (standardize_address (cte_to_address inner))) (cte_amount inner)
  | TeClaimTokenEvent inner =>
      of_token (clm_token_id inner) (Some event_account_address)
        (Some (standardize_address (clm_to_address inner))) (clm_amount inner)
  end.

(** [TokenActivityV2::get_v1_from_parsed_event]. *)
Definition v1_activity_from_event (event : EventPB) (txn_version : Z) (txn_timestamp : NaiveDateTime)
    (event_index : Z) (entry_function_id_str : option string)
  : outcome (result (option TokenActivityV2)) :=
  let event_type := ev_type_str event in
  r <-? Ret (v1_token_event event_type (ev_data event) txn_version);
  match r with
  | None => Ret (Ok None)
  | Some e =>
      key ← unwrap (ev_key event);
      let event_account_address := standardize_address (ek_account_address key) in
      let helper := v1_activity_helper event_account_address e in
      Ret (Ok (Some
        {| ta2_transaction_version := txn_version;
           ta2_event_index := event_index;
           ta2_event_account_address := event_account_address;
           ta2_token_data_id := token_to_id (h1_token_data_id_struct helper);
           ta2_property_version_v1 := h1_property_version helper;
           ta2_type := event_type;
           ta2_from_address := h1_from_address helper;
           ta2_to_address := h1_to_address helper;
           ta2_token_amount := h1_token_amount helper;
           ta2_before_value := None;
           ta2_after_value := None;
           ta2_entry_function_id_str := entry_function_id_str;
           ta2_token_standard := standard_to_string StandardV1;
           ta2_is_fungible_v2 := None;
           ta2_transaction_timestamp := txn_timestamp |}))
  end.

(** ** The processor: [token_v2_processor.rs] *)

(** The rows collected in the loop over the transactions. *)
Record TokenV2Acc := {
  collections_v2 : list CollectionV2;
  token_datas_v2 : list TokenDataV2;
  token_ownerships_v2 : list TokenOwnershipV2;
  token_activities_v2 : list TokenActivityV2;
  current_collections_v2 : gmap string CurrentCollectionV2;
  current_token_datas_v2 : gmap string CurrentTokenDataV2;
  current_deleted_token_datas_v2 : gmap string CurrentTokenDataV2;
  current_token_ownerships_v2 : gmap OwnershipKey CurrentTokenOwnershipV2;
  current_deleted_token_ownerships_v2 : gmap OwnershipKey CurrentTokenOwnershipV2;
  current_token_v2_metadata : gmap (string * string) CurrentTokenV2Metadata;
}.
Definition token_v2_init : TokenV2Acc :=
  {| collections_v2 := []; token_datas_v2 := []; token_ownerships_v2 := []; token_activities_v2 := [];
     current_collections_v2 := ∅; current_token_datas_v2 := ∅; current_deleted_token_datas_v2 := ∅;
     current_token_ownerships_v2 := ∅; current_deleted_token_ownerships_v2 := ∅;
     current_token_v2_metadata := ∅ |}.

(** What one statement of the loop adds to the rows. *)
Inductive TokenV2Write :=
| WCollection (c : CollectionV2) (cc : CurrentCollectionV2)
| WTokenData (d : TokenDataV2) (cd : CurrentTokenDataV2)
| WDeletedTokenData (cd : CurrentTokenDataV2)
| WOwnership (o : TokenOwnershipV2)
| WCurrentOwnerships (m : gmap OwnershipKey CurrentTokenOwnershipV2)
| WDeletedOwnership (co : CurrentTokenOwnershipV2)
| WActivity (a : TokenActivityV2)
| WMetadata (m : CurrentTokenV2Metadata).
Definition store (acc : TokenV2Acc) (w : TokenV2Write) : TokenV2Acc :=
  {| collections_v2 := collections_v2 acc ++ match w with WCollection c _ => [c] | _ => [] end;
     token_datas_v2 := token_datas_v2 acc ++ match w with WTokenData d _ => [d] | _ => [] end;
     token_ownerships_v2 := token_ownerships_v2 acc ++ match w with WOwnership o => [o] | _ => [] end;
     token_activities_v2 := token_activities_v2 acc ++ match w with WActivity a => [a] | _ => [] end;
     current_collections_v2 :=
       match w with
       | WCollection _ cc => <[ccol2_collection_id cc := cc]> (current_collections_v2 acc)
       | _ => current_collections_v2 acc
       end;
     current_token_datas_v2 :=
       match w with
       | WTokenData _ cd => <[ctd2_token_data_id cd := cd]> (current_token_datas_v2 acc)
       | _ => current_token_datas_v2 acc
       end;
     current_deleted_token_datas_v2 :=
       match w with
       | WDeletedTokenData cd => <[ctd2_token_data_id cd := cd]> (current_deleted_token_datas_v2 acc)
       | _ => current_deleted_token_datas_v2 acc
       end;
     current_token_ownerships_v2 :=
       match w with
       | WCurrentOwnerships m => extend (current_token_ownerships_v2 acc) m
       | _ => current_token_ownerships_v2 acc
       end;
     current_deleted_token_ownerships_v2 :=
       match w with
       | WDeletedOwnership co => <[cto2_pk co := co]> (current_deleted_token_ownerships_v2 acc)
       | _ => current_deleted_token_ownerships_v2 acc
       end;
     current_token_v2_metadata :=
       match w with
       | WMetadata m => <[ctm_pk m := m]> (current_token_v2_metadata acc)
       | _ => current_token_v2_metadata acc
       end |}.
Definition store_all (acc : TokenV2Acc) (ws : list TokenV2Write) : TokenV2Acc := foldl store acc ws.

(** Second pass over the changes: the resources that belong to an object. *)
Definition fill_token_object (txn_version : Z) (helper : ObjectMap) (wsc : WriteSetChangePB)
  : outcome ObjectMap :=
  change ← unwrap (wsc_change wsc);
  match change with
  | ChangeWriteResource wr =>
      let address := standardize_address (wr_address wr) in
      match helper !! address with
      | None => Ret helper
      | Some d =>
          fixed_supply ← fixed_supply_from_write_resource wr txn_version;
          fixed_supply ← unwrap_result fixed_supply;
          unlimited_supply ← unlimited_supply_from_write_resource wr txn_version;
          unlimited_supply ← unwrap_result unlimited_supply;
          aptos_collection ← aptos_collection_from_write_resource wr txn_version;
          aptos_collection ← unwrap_result aptos_collection;
          property_map ← property_map_from_write_resource wr txn_version;
          property_map ← unwrap_result property_map;
          concurrent_supply ← concurrent_supply_from_write_resource wr txn_version;
          concurrent_supply ← unwrap_result concurrent_supply;
          token ← token_from_write_resource wr txn_version;
          token ← unwrap_result token;
          fungible_asset_metadata ← metadata_from_write_resource wr txn_version;
          fungible_asset_metadata ← unwrap_result fungible_asset_metadata;
          token_identifier ← identifiers_from_write_resource wr txn_version;
          token_identifier ← unwrap_result token_identifier;
          Ret (<[address :=
            {| oad_object := oad_object d; oad_transfer_events := oad_transfer_events d;
               oad_fungible_asset_metadata :=
                 from_option Some (oad_fungible_asset_metadata d) fungible_asset_metadata;
               oad_fungible_asset_supply := oad_fungible_asset_supply d;
               oad_fungible_asset_store := oad_fungible_asset_store d;
               oad_aptos_collection := from_option Some (oad_aptos_collection d) aptos_collection;
               oad_fixed_supply := from_option Some (oad_fixed_supply d) fixed_supply;
               oad_property_map := from_option Some (oad_property_map d) property_map;
               oad_token := from_option Some (oad_token d) token;
               oad_unlimited_supply := from_option Some (oad_unlimited_supply d) unlimited_supply;
               oad_concurrent_supply := from_option Some (oad_concurrent_supply d) concurrent_supply;
               oad_token_identifier := from_option Some (oad_token_identifier d) token_identifier |}]> helper)
      end
  | _ => Ret helper
  end.

(** [aggregated_data.transfer_events.push(..)]. *)
Definition push_transfer (helper : ObjectMap) (index : Z) (e : TransferEvent) : ObjectMap :=
  let address := get_object_address e in
  match helper !! address with
  | None => helper
  | Some d =>
      <[address :=
        {| oad_object := oad_object d;
           oad_transfer_events := oad_transfer_events d ++ [(index, e)];
           oad_fungible_asset_metadata := oad_fungible_asset_metadata d;
           oad_fungible_asset_supply := oad_fungible_asset_supply d;
           oad_fungible_asset_store := oad_fungible_asset_store d;
           oad_aptos_collection := oad_aptos_collection d; oad_fixed_supply := oad_fixed_supply d;
           oad_property_map := oad_property_map d; oad_token := oad_token d;
           oad_unlimited_supply := oad_unlimited_supply d;
           oad_concurrent_supply := oad_concurrent_supply d;
           oad_token_identifier := oad_token_identifier d |}]> helper
  end.

(** What the pass over the events of a transaction collects. *)
Record TokenEventState := {
  te_writes : list TokenV2Write;
  te_helper : ObjectMap;
  tokens_burned : TokenV2Burned;
  tokens_minted : gset string;
}.
Definition token_v2_event_step (txn_version : Z) (txn_timestamp : NaiveDateTime)
    (entry_function_id_str : option string) (num_events : Z) (st : TokenEventState) (iev : Z * EventPB)
  : outcome TokenEventState :=
  let '(index, event) := iev in
  r ← burn_from_event event txn_version;
  burn_event ← unwrap_result r;
  let burned := match burn_event with
                | Some b => <[burn_token_address b := b]> (tokens_burned st)
                | None => tokens_burned st
                end in
  r ← burn_event_from_event event txn_version;
  old_burn_event ← unwrap_result r;
  burned ← match old_burn_event with
           | Some old =>
               key ← unwrap (ev_key event);
               let b := new_burn (standardize_address (ek_account_address key))
                          (burn_event_token_address old) EmptyString in
               Ret (<[burn_token_address b := b]> burned)
           | None => Ret burned
           end;
  r ← mint_event_from_event event txn_version;
  mint_event ← unwrap_result r;
  let minted := match mint_event with
                | Some m => {[ mint_event_token_address m ]} ∪ tokens_minted st
                | None => tokens_minted st
                end in
  r ← transfer_event_from_event event txn_version;
  transfer ← unwrap_result r;
  let helper := match transfer with
                | Some t => push_transfer (te_helper st) (if decide (index = 0%Z) then num_events else index) t
                | None => te_helper st
                end in
  r ← v1_activity_from_event event txn_version txn_timestamp index entry_function_id_str;
  v1_activity ← unwrap_result r;
  r ← nft_activity_from_event event txn_version txn_timestamp index entry_function_id_str helper;
  v2_activity ← unwrap_result r;
  Ret {| te_writes := te_writes st ++ (WActivity <$> option_list v1_activity)
                        ++ (WActivity <$> option_list v2_activity);
         te_helper := helper; tokens_burned := burned; tokens_minted := minted |}.

(** [prior_nft_ownership.insert(..)] with the owner of a current row. *)
Definition remember_owner (prior : gmap string NFTOwnershipV2) (co : CurrentTokenOwnershipV2)
  : gmap string NFTOwnershipV2 :=
  <[cto2_token_data_id co :=
    {| nfo_token_data_id := cto2_token_data_id co; nfo_owner_address := cto2_owner_address co;
       nfo_is_soulbound := cto2_is_soulbound_v2 co |}]> prior.

(** The rows of one change, and the known owners after it. *)
Abbreviation ChangeResult := (list TokenV2Write * gmap string NFTOwnershipV2)%type.

Definition write_table_item_change (txn_version : Z) (txn_timestamp : NaiveDateTime)
    (handles : TableHandleToOwner) (wsc_index : Z) (table_item : WriteTableItem)
    (prior : gmap string NFTOwnershipV2) : outcome ChangeResult :=
  r ← collection_v1_from_write_table_item table_item txn_version wsc_index txn_timestamp handles;
  collection ← unwrap_result r;
  r ← token_data_v1_from_write_table_item table_item txn_version wsc_index txn_timestamp;
  data ← unwrap_result r;
  r ← ownership_v1_from_write_table_item table_item txn_version wsc_index txn_timestamp handles;
  ownership ← unwrap_result r;
  let ws := (uncurry WCollection <$> option_list collection) ++ (uncurry WTokenData <$> option_list data) in
  Ret (match ownership with
       | Some (o, Some cto) =>
           (ws ++ [WOwnership o; WCurrentOwnerships {[ cto2_pk cto := cto ]}], remember_owner prior cto)
       | Some (o, None) => (ws ++ [WOwnership o], prior)
       | None => (ws, prior)
       end).

Definition delete_table_item_change (txn_version : Z) (txn_timestamp : NaiveDateTime)
    (handles : TableHandleToOwner) (wsc_index : Z) (table_item : DeleteTableItem)
    (prior : gmap string NFTOwnershipV2) : outcome ChangeResult :=
  r ← ownership_v1_from_delete_table_item table_item txn_version wsc_index txn_timestamp handles;
  ownership ← unwrap_result r;
  Ret (match ownership with
       | Some (o, Some cto) => ([WOwnership o; WDeletedOwnership cto], remember_owner prior cto)
       | Some (o, None) => ([WOwnership o], prior)
       | None => ([], prior)
       end).

(** A written token: its data, its owner and the earlier owners. *)
Definition token_write (helper : ObjectMap) (data : option (TokenDataV2 * CurrentTokenDataV2))
    (prior : gmap string NFTOwnershipV2) : outcome ChangeResult :=
  match data with
  | None => Ret ([], prior)
  | Some (token_data, current_token_data) =>
      '(ownerships, current_ownerships) ← unwrap_result (get_nft_v2_from_token_data token_data helper);
      prior ← match ownerships with
              | current_nft_ownership :: _ =>
                  owner_address ← unwrap (to2_owner_address current_nft_ownership);
                  Ret (<[to2_token_data_id current_nft_ownership :=
                    {| nfo_token_data_id := to2_token_data_id current_nft_ownership;
                       nfo_owner_address := owner_address;
                       nfo_is_soulbound := to2_is_soulbound_v2 current_nft_ownership |}]> prior)
              | [] => Ret prior
              end;
      Ret ((WOwnership <$> ownerships) ++ [WCurrentOwnerships current_ownerships;
                                           WTokenData token_data current_token_data], prior)
  end.
(** A burned token. *)
Definition burn_writes (prior : gmap string NFTOwnershipV2) (deleted : option CurrentTokenDataV2)
    (burned : option (TokenOwnershipV2 * CurrentTokenOwnershipV2)) : ChangeResult :=
  let ws := WDeletedTokenData <$> option_list deleted in
  match burned with
  | Some (nft_ownership, current_nft_ownership) =>
      (ws ++ [WOwnership nft_ownership; WDeletedOwnership current_nft_ownership],
       remember_owner prior current_nft_ownership)
  | None => (ws, prior)
  end.

Definition write_resource_change (txn_version : Z) (txn_timestamp : NaiveDateTime) (helper : ObjectMap)
    (burned : TokenV2Burned) (wsc_index : Z) (resource : WriteResource) (prior : gmap string NFTOwnershipV2)
  : outcome ChangeResult :=
  r ← collection_v2_from_write_resource resource txn_version wsc_index txn_timestamp helper;
  collection ← unwrap_result r;
  r ← token_data_v2_from_write_resource resource txn_version wsc_index txn_timestamp helper;
  data ← unwrap_result r;
  '(ws_token, prior) ← token_write helper data prior;
  let deleted := burned_token_data_from_write_resource resource txn_version txn_timestamp burned in
  r ← burned_nft_from_write_resource resource txn_version wsc_index txn_timestamp prior burned;
  nft ← unwrap_result r;
  let '(ws_burn, prior) := burn_writes prior deleted nft in
  r ← token_v2_metadata_from_write_resource resource txn_version helper;
  metadata ← unwrap_result r;
  Ret ((uncurry WCollection <$> option_list collection) ++ ws_token ++ ws_burn
         ++ (WMetadata <$> option_list metadata), prior).

Definition delete_resource_change (txn_version : Z) (txn_timestamp : NaiveDateTime) (burned : TokenV2Burned)
    (wsc_index : Z) (resource : DeleteResource) (prior : gmap string NFTOwnershipV2) : ChangeResult :=
  burn_writes prior (burned_token_data_from_delete_resource resource txn_version txn_timestamp burned)
    (burned_nft_from_delete_resource resource txn_version wsc_index txn_timestamp prior burned).

(** Third pass over the changes. *)
Definition token_v2_change (txn_version : Z) (txn_timestamp : NaiveDateTime) (handles : TableHandleToOwner)
    (helper : ObjectMap) (burned : TokenV2Burned) (prior : gmap string NFTOwnershipV2)
    (iwsc : Z * WriteSetChangePB) : outcome ChangeResult :=
  let '(wsc_index, wsc) := iwsc in
  change ← unwrap (wsc_change wsc);
  match change with
  | ChangeWriteTableItem table_item =>
      write_table_item_change txn_version txn_timestamp handles wsc_index table_item prior
  | ChangeDeleteTableItem table_item =>
      delete_table_item_change txn_version txn_timestamp handles wsc_index table_item prior
  | ChangeWriteResource resource =>
      write_resource_change txn_version txn_timestamp helper burned wsc_index resource prior
  | ChangeDeleteResource resource =>
      Ret (delete_resource_change txn_version txn_timestamp burned wsc_index resource prior)
  | _ => Ret ([], prior)
  end.
Definition token_v2_change_step (txn_version : Z) (txn_timestamp : NaiveDateTime)
    (handles : TableHandleToOwner) (helper : ObjectMap) (burned : TokenV2Burned)
    (st : TokenV2Acc * gmap string NFTOwnershipV2) (iwsc : Z * WriteSetChangePB)
  : outcome (TokenV2Acc * gmap string NFTOwnershipV2) :=
  '(ws, prior) ← token_v2_change txn_version txn_timestamp handles helper burned st.2 iwsc;
  Ret (store_all st.1 ws, prior).

(** The state of the loop over the transactions. *)
Record TokenV2State := {
  v2_acc : TokenV2Acc;
  prior_nft_ownership : gmap string NFTOwnershipV2;
  token_v2_metadata_helper : ObjectMap;
}.
(** One round of the loop of [parse_v2_token]. *)
Definition token_v2_step (table_handle_to_owner : TableHandleToOwner) (st : TokenV2State) (txn : Transaction)
  : outcome TokenV2State :=
  match t_txn_data txn with
  | None => Ret st
  | Some txn_data =>
      let txn_version := as_i64 (t_version txn) in
      ts ← unwrap (t_timestamp txn);
      txn_timestamp ← parse_timestamp ts txn_version;
      transaction_info ← unwrap (t_info txn);
      match txn_data with
      | TdUser user_txn =>
          user_request ← unwrap (ut_request user_txn);
          entry_function_id_str ← get_entry_function_from_user_request user_request;
          let changes := ti_changes transaction_info in
          helper ← foldM (collect_object_core txn_version) (token_v2_metadata_helper st) changes;
          helper ← foldM (fill_token_object txn_version) helper changes;
          ev ← foldM (token_v2_event_step txn_version txn_timestamp entry_function_id_str
                        (Z.of_nat (length (ut_events user_txn))))
                 {| te_writes := []; te_helper := helper; tokens_burned := ∅; tokens_minted := ∅ |}
                 (enumerate (ut_events user_txn));
          '(acc, prior) ← foldM (token_v2_change_step txn_version txn_timestamp table_handle_to_owner
                                   (te_helper ev) (tokens_burned ev))
                            (store_all (v2_acc st) (te_writes ev), prior_nft_ownership st)
                            (enumerate changes);
          Ret {| v2_acc := acc; prior_nft_ownership := prior; token_v2_metadata_helper := te_helper ev |}
      | _ => Ret st
      end
  end.

Record TokenV2Rows := {
  rows_collections_v2 : list CollectionV2;
  rows_token_datas_v2 : list TokenDataV2;
  rows_token_ownerships_v2 : list TokenOwnershipV2;
  rows_current_collections_v2 : list CurrentCollectionV2;
  rows_current_token_datas_v2 : list CurrentTokenDataV2;
  rows_current_deleted_token_datas_v2 : list CurrentTokenDataV2;
  rows_current_token_ownerships_v2 : list CurrentTokenOwnershipV2;
  rows_current_deleted_token_ownerships_v2 : list CurrentTokenOwnershipV2;
  rows_token_activities_v2 : list TokenActivityV2;
  rows_current_token_v2_metadata : list CurrentTokenV2Metadata;
}.
(** The lists and the sorted maps. *)
Definition sorted_rows `{HashOrder} (acc : TokenV2Acc) : TokenV2Rows :=
  {| rows_collections_v2 := collections_v2 acc;
     rows_token_datas_v2 := token_datas_v2 acc;
     rows_token_ownerships_v2 := token_ownerships_v2 acc;
     rows_current_collections_v2 := sort_by ccol2_collection_id (into_values (current_collections_v2 acc));
     rows_current_token_datas_v2 := sort_by ctd2_token_data_id (into_values (current_token_datas_v2 acc));
     rows_current_deleted_token_datas_v2 :=
       sort_by ctd2_token_data_id (into_values (current_deleted_token_datas_v2 acc));
     rows_current_token_ownerships_v2 := sort_by cto2_pk (into_values (current_token_ownerships_v2 acc));
     rows_current_deleted_token_ownerships_v2 :=
       sort_by cto2_pk (into_values (current_deleted_token_ownerships_v2 acc));
     rows_token_activities_v2 := token_activities_v2 acc;
     rows_current_token_v2_metadata := sort_by ctm_pk (into_values (current_token_v2_metadata acc)) |}.
Definition parse_v2_token `{HashOrder} (transactions : list Transaction)
    (table_handle_to_owner : TableHandleToOwner) : outcome TokenV2Rows :=
  st ← foldM (token_v2_step table_handle_to_owner)
         {| v2_acc := token_v2_init; prior_nft_ownership := ∅; token_v2_metadata_helper := ∅ |} transactions;
  Ret (sorted_rows (v2_acc st)).
(** The rows of a batch: the table handles of the batch first. *)
Definition token_v2_rows `{HashOrder} (transactions : list Transaction) : outcome TokenV2Rows :=
  table_handle_to_owner ← get_table_handle_to_owner_from_transactions transactions;
  parse_v2_token transactions table_handle_to_owner.

(** *** Queries

    The column [inserted_at] is filled by the server. *)
Definition insert_collections_v2_query : Upsert CollectionV2 (Z * Z) :=
  {| up_key := fun c => (col2_transaction_version c, col2_write_set_change_index c);
     up_action := DoNothing;
     up_where := None |}.
Definition set_token_data_v2 (old new : TokenDataV2) : TokenDataV2 :=
  {| td2_transaction_version := td2_transaction_version old;
     td2_write_set_change_index := td2_write_set_change_index old;
     td2_token_data_id := td2_token_data_id old;
     td2_collection_id := td2_collection_id old;
     td2_token_name := td2_token_name old;
     td2_maximum := td2_maximum new;
     td2_supply := td2_supply new;
     td2_largest_property_version_v1 := td2_largest_property_version_v1 old;
     td2_token_uri := td2_token_uri old;
     td2_token_properties := td2_token_properties old;
     td2_description := td2_description old;
     td2_token_standard := td2_token_standard old;
     td2_is_fungible_v2 := td2_is_fungible_v2 new;
     td2_transaction_timestamp := td2_transaction_timestamp old;
     td2_decimals := td2_decimals new |}.
Definition insert_token_datas_v2_query : Upsert TokenDataV2 (Z * Z) :=
  {| up_key := fun d => (td2_transaction_version d, td2_write_set_change_index d);
     up_action := DoUpdate set_token_data_v2;
     up_where := None |}.
Definition set_token_ownership_v2 (old new : TokenOwnershipV2) : TokenOwnershipV2 :=
  {| to2_transaction_version := to2_transaction_version old;
     to2_write_set_change_index := to2_write_set_change_index old;
     to2_token_data_id := to2_token_data_id old;
     to2_property_version_v1 := to2_property_version_v1 old;
     to2_owner_address := to2_owner_address old;
     to2_storage_id := to2_storage_id old;
     to2_amount := to2_amount old;
     to2_table_type_v1 := to2_table_type_v1 old;
     to2_token_properties_mutated_v1 := to2_token_properties_mutated_v1 old;
     to2_is_soulbound_v2 := to2_is_soulbound_v2 old;
     to2_token_standard := to2_token_standard old;
     to2_is_fungible_v2 := to2_is_fungible_v2 new;
     to2_transaction_timestamp := to2_transaction_timestamp old;
     to2_non_transferrable_by_owner := to2_non_transferrable_by_owner old |}.
Definition insert_token_ownerships_v2_query : Upsert TokenOwnershipV2 (Z * Z) :=
  {| up_key := fun o => (to2_transaction_version o, to2_write_set_change_index o);
     up_action := DoUpdate set_token_ownership_v2;
     up_where := None |}.
Definition set_current_collection_v2 (old new : CurrentCollectionV2) : CurrentCollectionV2 :=
  {| ccol2_collection_id := ccol2_collection_id old;
     ccol2_creator_address := ccol2_creator_address new;
     ccol2_collection_name := ccol2_collection_name new;
     ccol2_description := ccol2_description new;
     ccol2_uri := ccol2_uri new;
     ccol2_current_supply := ccol2_current_supply new;
     ccol2_max_supply := ccol2_max_supply new;
     ccol2_total_minted_v2 := ccol2_total_minted_v2 new;
     ccol2_mutable_description := ccol2_mutable_description new;
     ccol2_mutable_uri := ccol2_mutable_uri new;
     ccol2_table_handle_v1 := ccol2_table_handle_v1 new;
     ccol2_token_standard := ccol2_token_standard new;
     ccol2_last_transaction_version := ccol2_last_transaction_version new;
     ccol2_last_transaction_timestamp := ccol2_last_transaction_timestamp new |}.
Definition insert_current_collections_v2_query : Upsert CurrentCollectionV2 string :=
  {| up_key := ccol2_collection_id;
     up_action := DoUpdate set_current_collection_v2;
     up_where := Some (fun old new =>
       bool_decide (ccol2_last_transaction_version old <= ccol2_last_transaction_version new)%Z) |}.
(** The update with a live token leaves [is_deleted_v2] alone. *)
Definition set_current_token_data_v2 (old new : CurrentTokenDataV2) : CurrentTokenDataV2 :=
  {| ctd2_token_data_id := ctd2_token_data_id old;
     ctd2_collection_id := ctd2_collection_id new;
     ctd2_token_name := ctd2_token_name new;
     ctd2_maximum := ctd2_maximum new;
     ctd2_supply := ctd2_supply new;
     ctd2_largest_property_version_v1 := ctd2_largest_property_version_v1 new;
     ctd2_token_uri := ctd2_token_uri new;
     ctd2_token_properties := ctd2_token_properties new;
     ctd2_description := ctd2_description new;
     ctd2_token_standard := ctd2_token_standard new;
     ctd2_is_fungible_v2 := ctd2_is_fungible_v2 new;
     ctd2_last_transaction_version := ctd2_last_transaction_version new;
     ctd2_last_transaction_timestamp := ctd2_last_transaction_timestamp new;
     ctd2_decimals := ctd2_decimals new;
     ctd2_is_deleted_v2 := ctd2_is_deleted_v2 old |}.
Definition insert_current_token_datas_v2_query : Upsert CurrentTokenDataV2 string :=
  {| up_key := ctd2_token_data_id;
     up_action := DoUpdate set_current_token_data_v2;
     up_where := Some (fun old new =>
       bool_decide (ctd2_last_transaction_version old <= ctd2_last_transaction_version new)%Z) |}.
Definition set_current_deleted_token_data_v2 (old new : CurrentTokenDataV2) : CurrentTokenDataV2 :=
  {| ctd2_token_data_id := ctd2_token_data_id old;
     ctd2_collection_id := ctd2_collection_id old;
     ctd2_token_name := ctd2_token_name old;
     ctd2_maximum := ctd2_maximum old;
     ctd2_supply := ctd2_supply old;
     ctd2_largest_property_version_v1 := ctd2_largest_property_version_v1 old;
     ctd2_token_uri := ctd2_token_uri old;
     ctd2_token_properties := ctd2_token_properties old;
     ctd2_description := ctd2_description old;
     ctd2_token_standard := ctd2_token_standard old;
     ctd2_is_fungible_v2 := ctd2_is_fungible_v2 old;
     ctd2_last_transaction_version := ctd2_last_transaction_version new;
     ctd2_last_transaction_timestamp := ctd2_last_transaction_timestamp new;
     ctd2_decimals := ctd2_decimals old;
     ctd2_is_deleted_v2 := ctd2_is_deleted_v2 new |}.
Definition insert_current_deleted_token_datas_v2_query : Upsert CurrentTokenDataV2 string :=
  {| up_key := ctd2_token_data_id;
     up_action := DoUpdate set_current_deleted_token_data_v2;
     up_where := Some (fun old new =>
       bool_decide (ctd2_last_transaction_version old <= ctd2_last_transaction_version new)%Z) |}.
Definition set_current_token_ownership_v2 (old new : CurrentTokenOwnershipV2) : CurrentTokenOwnershipV2 :=
  {| cto2_token_data_id := cto2_token_data_id old;
     cto2_property_version_v1 := cto2_property_version_v1 old;
     cto2_owner_address := cto2_owner_address old;
     cto2_storage_id := cto2_storage_id old;
     cto2_amount := cto2_amount new;
     cto2_table_type_v1 := cto2_table_type_v1 new;
     cto2_token_properties_mutated_v1 := cto2_token_properties_mutated_v1 new;
     cto2_is_soulbound_v2 := cto2_is_soulbound_v2 new;
     cto2_token_standard := cto2_token_standard new;
     cto2_is_fungible_v2 := cto2_is_fungible_v2 new;
     cto2_last_transaction_version := cto2_last_transaction_version new;
     cto2_last_transaction_timestamp := cto2_last_transaction_timestamp new;
     cto2_non_transferrable_by_owner := cto2_non_transferrable_by_owner new |}.
Definition insert_current_token_ownerships_v2_query : Upsert CurrentTokenOwnershipV2 OwnershipKey :=
  {| up_key := cto2_pk;
     up_action := DoUpdate set_current_token_ownership_v2;
     up_where := Some (fun old new =>
       bool_decide (cto2_last_transaction_version old <= cto2_last_transaction_version new)%Z) |}.
Definition set_current_deleted_token_ownership_v2 (old new : CurrentTokenOwnershipV2) : CurrentTokenOwnershipV2 :=
  {| cto2_token_data_id := cto2_token_data_id old;
     cto2_property_version_v1 := cto2_property_version_v1 old;
     cto2_owner_address := cto2_owner_address old;
     cto2_storage_id := cto2_storage_id old;
     cto2_amount := cto2_amount new;
     cto2_table_type_v1 := cto2_table_type_v1 old;
     cto2_token_properties_mutated_v1 := cto2_token_properties_mutated_v1 old;
     cto2_is_soulbound_v2 := cto2_is_soulbound_v2 old;
     cto2_token_standard := cto2_token_standard old;
     cto2_is_fungible_v2 := cto2_is_fungible_v2 new;
     cto2_last_transaction_version := cto2_last_transaction_version new;
     cto2_last_transaction_timestamp := cto2_last_transaction_timestamp new;
     cto2_non_transferrable_by_owner := cto2_non_transferrable_by_owner old |}.
Definition insert_current_deleted_token_ownerships_v2_query : Upsert CurrentTokenOwnershipV2 OwnershipKey :=
  {| up_key := cto2_pk;
     up_action := DoUpdate set_current_deleted_token_ownership_v2;
     up_where := Some (fun old new =>
       bool_decide (cto2_last_transaction_version old <= cto2_last_transaction_version new)%Z) |}.
Definition set_token_activity_v2 (old new : TokenActivityV2) : TokenActivityV2 :=
  {| ta2_transaction_version := ta2_transaction_version old;
     ta2_event_index := ta2_event_index old;
     ta2_event_account_address := ta2_event_account_address old;
     ta2_token_data_id := ta2_token_data_id old;
     ta2_property_version_v1 := ta2_property_version_v1 old;
     ta2_type := ta2_type old;
     ta2_from_address := ta2_from_address old;
     ta2_to_address := ta2_to_address old;
     ta2_token_amount := ta2_token_amount old;
     ta2_before_value := ta2_before_value old;
     ta2_after_value := ta2_after_value old;
     ta2_entry_function_id_str := ta2_entry_function_id_str old;
     ta2_token_standard := ta2_token_standard old;
     ta2_is_fungible_v2 := ta2_is_fungible_v2 new;
     ta2_transaction_timestamp := ta2_transaction_timestamp old |}.
Definition insert_token_activities_v2_query : Upsert TokenActivityV2 (Z * Z) :=
  {| up_key := fun a => (ta2_transaction_version a, ta2_event_index a);
     up_action := DoUpdate set_token_activity_v2;
     up_where := None |}.
Definition set_current_token_v2_metadata (old new : CurrentTokenV2Metadata) : CurrentTokenV2Metadata :=
  {| ctm_object_address := ctm_object_address old;
     ctm_resource_type := ctm_resource_type old;
     ctm_data := ctm_data new;
     ctm_state_key_hash := ctm_state_key_hash new;
     ctm_last_transaction_version := ctm_last_transaction_version new |}.
Definition insert_current_token_v2_metadatas_query : Upsert CurrentTokenV2Metadata (string * string) :=
  {| up_key := ctm_pk;
     up_action := DoUpdate set_current_token_v2_metadata;
     up_where := Some (fun old new =>
       bool_decide (ctm_last_transaction_version old <= ctm_last_transaction_version new)%Z) |}.

#[export] Instance current_collections_v2_lww : Lww insert_current_collections_v2_query.
Proof.
  refine {| lww_rank := ccol2_last_transaction_version; lww_static_type := unit; lww_static := fun _ => tt;
            lww_set := set_current_collection_v2 |}; try done.
  intros [] [] Hk _. simpl in *. by subst.
Defined.
#[export] Instance current_token_v2_metadata_lww : Lww insert_current_token_v2_metadatas_query.
Proof.
  refine {| lww_rank := ctm_last_transaction_version; lww_static_type := unit; lww_static := fun _ => tt;
            lww_set := set_current_token_v2_metadata |}; try done.
  intros [] [] Hk _. unfold ctm_pk in Hk. simpl in *. by simplify_eq/=.
Defined.

Context `{!Table CollectionV2 (Z * Z), !Table TokenDataV2 (Z * Z), !Table TokenOwnershipV2 (Z * Z),
          !Table CurrentCollectionV2 string, !Table CurrentTokenDataV2 string,
          !Table CurrentTokenOwnershipV2 OwnershipKey, !Table TokenActivityV2 (Z * Z),
          !Table CurrentTokenV2Metadata (string * string)}.

Record TokenV2Db := {
  db_collections_v2 : table_state CollectionV2 (Z * Z);
  db_token_datas_v2 : table_state TokenDataV2 (Z * Z);
  db_token_ownerships_v2 : table_state TokenOwnershipV2 (Z * Z);
  db_current_collections_v2 : table_state CurrentCollectionV2 string;
  db_current_token_datas_v2 : table_state CurrentTokenDataV2 string;
  db_current_token_ownerships_v2 : table_state CurrentTokenOwnershipV2 OwnershipKey;
  db_token_activities_v2 : table_state TokenActivityV2 (Z * Z);
  db_current_token_v2_metadata : table_state CurrentTokenV2Metadata (string * string);
}.
(** [insert_to_db]: current token data and ownerships are written by two
    queries each, on one table. *)
Definition insert_token_v2_rows (sizes : gmap string nat) (rows : TokenV2Rows) (d d' : TokenV2Db)
    (res : outcome (result unit)) : Prop :=
  exists coll_v2_res td_v2_res to_v2_res cc_v2_res ctd_v2_res cdtd_v2_res cto_v2_res cdto_v2_res ta_v2_res ct_v2_res,
    write_table insert_collections_v2_query "collections_v2" sizes
      (rows_collections_v2 rows) (db_collections_v2 d) (db_collections_v2 d') coll_v2_res /\
    write_table insert_token_datas_v2_query "token_datas_v2" sizes
      (rows_token_datas_v2 rows) (db_token_datas_v2 d) (db_token_datas_v2 d') td_v2_res /\
    write_table insert_token_ownerships_v2_query "token_ownerships_v2" sizes
      (rows_token_ownerships_v2 rows) (db_token_ownerships_v2 d) (db_token_ownerships_v2 d') to_v2_res /\
    write_table insert_current_collections_v2_query "current_collections_v2" sizes
      (rows_current_collections_v2 rows) (db_current_collections_v2 d) (db_current_collections_v2 d') cc_v2_res /\
    write_table_both insert_current_token_datas_v2_query insert_current_deleted_token_datas_v2_query
      "current_token_datas_v2" sizes (rows_current_token_datas_v2 rows) (rows_current_deleted_token_datas_v2 rows)
      (db_current_token_datas_v2 d) (db_current_token_datas_v2 d') ctd_v2_res cdtd_v2_res /\
    write_table_both insert_current_token_ownerships_v2_query insert_current_deleted_token_ownerships_v2_query
      "current_token_ownerships_v2" sizes (rows_current_token_ownerships_v2 rows)
      (rows_current_deleted_token_ownerships_v2 rows)
      (db_current_token_ownerships_v2 d) (db_current_token_ownerships_v2 d') cto_v2_res cdto_v2_res /\
    write_table insert_token_activities_v2_query "token_activities_v2" sizes
      (rows_token_activities_v2 rows) (db_token_activities_v2 d) (db_token_activities_v2 d') ta_v2_res /\
    write_table insert_current_token_v2_metadatas_query "current_token_v2_metadata" sizes
      (rows_current_token_v2_metadata rows) (db_current_token_v2_metadata d) (db_current_token_v2_metadata d')
      ct_v2_res /\
    res = join_results [coll_v2_res; td_v2_res; to_v2_res; cc_v2_res; ctd_v2_res; cdtd_v2_res; cto_v2_res;
                        cdto_v2_res; ta_v2_res; ct_v2_res].

(** [TokenV2Processor::process_transactions]. *)
Definition process_tokens_v2 `{HashOrder} (sizes : gmap string nat)
  : list Transaction -> Z -> Z -> option Z -> TokenV2Db -> TokenV2Db -> outcome (result ProcessingResult) -> Prop :=
  process_batch token_v2_rows (insert_token_v2_rows sizes).

#[export] Instance token_v2_processor `{HashOrder} (sizes : gmap string nat) : ProcessorTrait TokenV2Db :=
  {| processor_name := "token_v2_processor"; process_transactions := process_tokens_v2 sizes |}.
#[export] Instance token_v2_processor_laws `{HashOrder} sizes : @ProcessorLaws _ (token_v2_processor sizes).
Proof. intros txns s e chain d d' r Hr. by apply (process_batch_ok _ _ _ _ _ chain) in Hr as [? _]. Qed.
End TokensV2.
