(* ===== verification/TokensV2Example.v ===== *)
(** * Concrete digital assets

    Codecs for the tests of the token processor, and batches in which a token
    is transferred, burned and minted again. *)
From S2P Require Import Prelude RustStr Json Externals Proto Util Database SharedTable Processors.
From S2P Require Import DefaultModels TokenResources FungibleResources Objects FungibleAssets TokenUtils TokensV1 TokensV1Laws TokensV2.

Section ExampleTokens.
#[local] Existing Instance pair_chrono.
#[local] Existing Instance int_bigdec.
#[local] Existing Instance int_bigdec_key.
#[local] Existing Instance plain_hex.
#[local] Existing Instance plain_sha.
#[local] Existing Instance text_json.
#[local] Existing Instance map_order.
#[local] Existing Instance no_proto_json.
#[local] Existing Instance token_text_codec.
#[local] Existing Instance fa_amount_codec.
#[local] Existing Instance no_entry_value.
#[local] Existing Instance no_script_value.
#[local] Existing Instance no_multisig_value.
#[local] Existing Instance plain_unescape.

(** A core is written as its owner, a token as its name, a transfer of the
    token 0x77 as the three characters of each address, and a burn of it as the
    previous owner. *)
Definition asset_codec : TokenCodec :=
  {| de_ObjectCore := de_text (fun s =>
       Some {| allow_ungated_transfer := true; guid_creation_num := 0%Z : @BigDecimal int_bigdec; owner := s |});
     de_Collection := no_de _; de_ConcurrentSupply := no_de _; de_FixedSupply := no_de _;
     de_UnlimitedSupply := no_de _; de_AptosCollection := no_de _;
     de_TokenV2 := de_text (fun s =>
       Some {| tok_collection := {| reference_inner := "0xc" |}; tok_description := EmptyString;
               tok_name := s; tok_uri := "uri" |});
     de_TokenIdentifiers := no_de _; de_PropertyMapModel := no_de _; de_Mint := no_de _; de_MintEvent := no_de _;
     de_TokenMutationEvent := no_de _;
     de_Burn := de_text (fun s => Some {| burn_collection := "0xc"; burn_token := "0x77"; previous_owner := s |});
     de_BurnEvent := no_de _;
     de_TransferEvent := de_text (fun s =>
       Some {| te_from := String.substring 0 3 s; te_to := String.substring 3 3 s; te_object := "0x77" |}) |}.
#[local] Existing Instance asset_codec.

Definition ex_asset_write (name : string) : WriteSetChangePB :=
  {| wsc_type := 0; wsc_change := Some (ChangeWriteResource
       {| wr_address := "0x77"; wr_state_key_hash := EmptyString;
          wr_type := Some (mk_MoveStructTag "0x4" "token" "Token" []);
          wr_type_str := "0x4::token::Token"; wr_data := name |}) |}.
Definition ex_asset_delete : WriteSetChangePB :=
  {| wsc_type := 0; wsc_change := Some (ex_object_delete "0x77") |}.
Definition ex_asset_transfer (from_to : string) : EventPB := ex_fa_event "0x1::object::TransferEvent" from_to.
Definition ex_asset_burn (owner : string) : EventPB := ex_fa_event "0x4::collection::Burn" owner.

(** The token goes from 0xa over 0xb to 0xd; then 0xd burns it. *)
Definition ex_asset_batch : list Transaction :=
  [ex_fa_txn 7 [ex_core_write "0x77" "0xd"; ex_asset_write "one"]
     [ex_asset_transfer "0xa0xb"; ex_asset_transfer "0xb0xd"]].
Definition ex_burn_batch : list Transaction := [ex_fa_txn 8 [ex_asset_delete] [ex_asset_burn "0xd"]].
Definition ex_asset_queries : TokenV2Queries :=
  {| q_creator_v2 := fun _ _ _ _ => Err; q_creator_v1 := fun _ _ _ _ => Err; q_latest_owned := fun _ _ _ _ => Err |}.
Definition ex_no_asset_rows : TokenV2Rows :=
  {| rows_collections_v2 := []; rows_token_datas_v2 := []; rows_token_ownerships_v2 := [];
     rows_current_collections_v2 := []; rows_current_token_datas_v2 := [];
     rows_current_deleted_token_datas_v2 := []; rows_current_token_ownerships_v2 := [];
     rows_current_deleted_token_ownerships_v2 := []; rows_token_activities_v2 := [];
     rows_current_token_v2_metadata := [] |}.
Definition ex_rows_of (ts : list Transaction) : outcome TokenV2Rows := token_v2_rows ex_asset_queries 2 ts.
Definition ex_asset_rows : TokenV2Rows := ret_or ex_no_asset_rows (ex_rows_of ex_asset_batch).
Definition ex_burn_rows : TokenV2Rows := ret_or ex_no_asset_rows (ex_rows_of ex_burn_batch).
Lemma ex_asset_rows_ok : ex_rows_of ex_asset_batch = Ret ex_asset_rows.
Proof. apply ret_or_eq. vm_compute. reflexivity. Qed.
Lemma ex_burn_rows_ok : ex_rows_of ex_burn_batch = Ret ex_burn_rows.
Proof. apply ret_or_eq. vm_compute. reflexivity. Qed.

(** The data of the token in the two batches. *)
Definition ex_no_data : CurrentTokenDataV2 :=
  {| ctd2_token_data_id := EmptyString; ctd2_collection_id := EmptyString; ctd2_token_name := EmptyString;
     ctd2_maximum := None; ctd2_supply := None; ctd2_largest_property_version_v1 := None;
     ctd2_token_uri := EmptyString; ctd2_token_properties := Null; ctd2_description := EmptyString;
     ctd2_token_standard := EmptyString; ctd2_is_fungible_v2 := None; ctd2_last_transaction_version := 0;
     ctd2_last_transaction_timestamp := (0, 0)%Z; ctd2_decimals := None; ctd2_is_deleted_v2 := None |}.
Definition ex_live_row : CurrentTokenDataV2 := hd ex_no_data (rows_current_token_datas_v2 ex_asset_rows).
Definition ex_burn_row : CurrentTokenDataV2 := hd ex_no_data (rows_current_deleted_token_datas_v2 ex_burn_rows).
Lemma hd_singleton {A} (d : A) l : length l = 1 -> l = [hd d l].
Proof. by destruct l as [|x [|]]. Qed.
Lemma ex_token_data_rows :
  rows_current_token_datas_v2 ex_asset_rows = [ex_live_row] /\
  rows_current_deleted_token_datas_v2 ex_asset_rows = [] /\
  rows_current_token_datas_v2 ex_burn_rows = [] /\
  rows_current_deleted_token_datas_v2 ex_burn_rows = [ex_burn_row] /\
  rows_current_deleted_token_ownerships_v2 ex_asset_rows = [] /\
  rows_current_token_ownerships_v2 ex_burn_rows = [].
Proof.
  split_and!; try (apply hd_singleton; vm_compute; reflexivity); apply nil_length_inv; vm_compute; reflexivity.
Qed.

(** The sender of the first event is filed under the number of events. *)
Example ex_asset_history :
  ((fun o => (to2_write_set_change_index o, to2_owner_address o, to2_amount o)) <$>
     rows_token_ownerships_v2 ex_asset_rows) =
  [(1, Some (standardize_address "0xd"), 1); (-2, Some (standardize_address "0xa"), 0);
   (-1, Some (standardize_address "0xb"), 0)]%Z.
Proof. vm_compute. reflexivity. Qed.
Example ex_burn_history :
  ((fun o => (to2_owner_address o, to2_amount o)) <$> rows_token_ownerships_v2 ex_burn_rows) =
  [(Some (standardize_address "0xd"), 0%Z)].
Proof. vm_compute. reflexivity. Qed.
End ExampleTokens.
