(* ===== verification/TokensV2Owners.v ===== *)
(** * Owners of digital assets

    Who owns a token after the transfers of a transaction. *)
From S2P Require Import Prelude RustStr Json Externals Proto Util Database SharedTable Processors.
From S2P Require Import DefaultModels TokenResources FungibleResources Objects FungibleAssets TokenUtils TokensV1 TokensV1Laws TokensV2 TokensV2Example.

Section Owners.
Context `{Chrono, BigDec, HexCodec, Sha256, JsonParse, ProtoJson}.
Context `{!BigDecKey, !TokenV1Codec, !TokenCodec, !FungibleCodec}.
Implicit Types (l : list (Z * TransferEvent)) (td : TokenDataV2) (d : ObjectAggregatedData).

(** ** Transfers *)

Definition moves (e : TransferEvent) : bool := bool_decide (get_to_address e ≠ get_from_address e).
(** Some transfer that is not to oneself was made by [a]. *)
Definition sent_by (a : string) l : bool :=
  existsb (fun te => moves te.2 && bool_decide (get_from_address te.2 = a)) l.

(** The owner that follows from the transfers, when each is made by the owner
    at that time. *)
Fixpoint follow_transfers (owner : string) l : option string :=
  match l with
  | [] => Some owner
  | (_, e) :: l =>
      if bool_decide (get_from_address e = owner) then follow_transfers (get_to_address e) l else None
  end.

Definition nft_key td (a : string) : string * BigDecimal * string * string :=
  (td2_token_data_id td, bd_zero, a, td2_token_data_id td).
Definition owner_row td (sb : bool) (amount : BigDecimal) (a : string) : CurrentTokenOwnershipV2 :=
  current_nft_ownership (td2_transaction_version td) (td2_transaction_timestamp td) (td2_token_data_id td) a
    amount (Some sb) None.

Lemma transfers_current td (sb : bool) l (os : list TokenOwnershipV2) m a :
  (foldl (transfer_step td sb) (os, m) l).2 !! nft_key td a =
    if sent_by a l then Some (owner_row td sb bd_zero a) else m !! nft_key td a.
Proof.
  revert os m. induction l as [|[i e] l IH]; intros os m; simpl; [done|]. unfold moves, sent_by in *. simpl.
  case_decide as Hs; [rewrite (bool_decide_false (_ ≠ _)) by tauto; simpl; apply IH|].
  rewrite (bool_decide_true (_ ≠ _)) by done. simpl. rewrite IH. destruct (existsb _ l); [by rewrite orb_true_r|].
  rewrite orb_false_r. case_bool_decide as Ha.
  - subst a. apply lookup_insert_eq.
  - apply lookup_insert_ne. unfold cto2_pk, nft_key. simpl. congruence.
Qed.
Lemma transfers_keys td (sb : bool) l (os : list TokenOwnershipV2) m k :
  (forall a, k ≠ nft_key td a) -> (foldl (transfer_step td sb) (os, m) l).2 !! k = m !! k.
Proof.
  intros Hk. revert os m. induction l as [|[i e] l IH]; intros os m; simpl; [done|].
  case_decide; [apply IH|]. rewrite IH. apply lookup_insert_ne. intros <-. by eapply Hk.
Qed.

(** The history: the owner, and one row for each transfer that moves the token. *)
Lemma transfers_history td (sb : bool) l (os : list TokenOwnershipV2) (m : gmap (string * BigDecimal * string * string) CurrentTokenOwnershipV2) :
  (foldl (transfer_step td sb) (os, m) l).1 = os ++
    ((fun te => nft_ownership (td2_transaction_version td) (- te.1) (td2_transaction_timestamp td)
        (td2_token_data_id td) (get_from_address te.2) bd_zero (Some sb) None) <$> filter (fun te => moves te.2 = true) l).
Proof.
  revert os m. induction l as [|[i e] l IH]; intros os m; csimpl; [by rewrite app_nil_r|].
  destruct (decide (moves e = true)) as [Hm|Hm].
  - rewrite (list.filter_cons_True _ (i, e)) by exact Hm. unfold moves in Hm. apply bool_decide_eq_true in Hm.
    rewrite decide_False by exact Hm. rewrite IH, <- app_assoc. csimpl. do 3 f_equal.
  - rewrite (list.filter_cons_False _ (i, e)) by exact Hm. unfold moves in Hm. rewrite bool_decide_eq_true in Hm.
    rewrite decide_True by (by apply dec_stable). apply IH.
Qed.

(** The owners of a token in a transaction.  Whoever sent the token on is
    listed with the amount zero, the owner of the object with the amount one
    unless it is one of the senders, and nobody else is listed; the history has
    the owner and one row for each transfer that is not to oneself. *)
Lemma nft_rows td helper d :
  helper !! td2_token_data_id td = Some d ->
  let core := object_core (oad_object d) in
  let owner := TokenResources.get_owner_address core in
  let sb := negb (allow_ungated_transfer core) in
  exists ownerships current, get_nft_v2_from_token_data td helper = Ok (ownerships, current) /\
    (forall a, current !! nft_key td a =
       if sent_by a (oad_transfer_events d) then Some (owner_row td sb bd_zero a)
       else if decide (a = owner) then Some (owner_row td sb bd_one a) else None) /\
    (forall k, is_Some (current !! k) -> exists a, k = nft_key td a) /\
    length ownerships = 1 + length (filter (fun te => moves te.2 = true) (oad_transfer_events d)).
Proof.
  intros Hd core owner sb. unfold get_nft_v2_from_token_data. rewrite Hd. simpl. fold core owner sb.
  destruct (foldl _ _ _) as [os m] eqn:Hf. exists os, m. split; [done|].
  apply (f_equal snd) in Hf as Hm. apply (f_equal fst) in Hf as Ho. simpl in Hm, Ho. subst os m. split_and!.
  - intros a. rewrite transfers_current. destruct (sent_by a _); [done|].
    unfold cto2_pk, nft_key. simpl. case_decide as Ha; [by subst a; rewrite lookup_singleton_eq|].
    apply lookup_singleton_ne. congruence.
  - intros k [r Hr]. destruct (decide (k = nft_key td k.1.2)) as [->|Hk]; [eauto|].
    rewrite transfers_keys in Hr by (intros a ->; by apply Hk).
    apply lookup_singleton_Some in Hr as [<- _]. by eexists.
  - by rewrite transfers_history, length_app, length_fmap.
Qed.

(** The rows of a token whose object is known. *)
Definition nft_owners td helper :=
  match get_nft_v2_from_token_data td helper with Ok r => r | Err => ([], ∅) end.
Lemma nft_owners_ok td helper d :
  helper !! td2_token_data_id td = Some d ->
  get_nft_v2_from_token_data td helper = Ok ((nft_owners td helper).1, (nft_owners td helper).2).
Proof.
  intros (os & m & Hg & _)%nft_rows. unfold nft_owners. by rewrite Hg.
Qed.

(** ** Following the transfers *)

Lemma follow_sent owner l last :
  follow_transfers owner l = Some last -> sent_by owner l = false -> last = owner.
Proof.
  revert owner. induction l as [|[i e] l IH]; intros owner Hf Hs; simpl in *; [by injection Hf|].
  case_bool_decide as He; [|done]. unfold moves in Hs. apply orb_false_iff in Hs as [Hm Hs].
  rewrite andb_true_r, bool_decide_eq_false in Hm. apply dec_stable in Hm. apply IH; [congruence|done].
Qed.
Lemma follow_moves owner l last :
  follow_transfers owner l = Some last -> existsb (fun te => moves te.2) l = true -> sent_by owner l = true.
Proof.
  revert owner. induction l as [|[i e] l IH]; intros owner Hf Hm; simpl in *; [done|].
  case_bool_decide as He; [|done]. destruct (moves e) eqn:Hme; simpl in *.
  { done. }
  unfold moves in Hme. apply bool_decide_eq_false in Hme. apply dec_stable in Hme. apply IH; [congruence|done].
Qed.

(** C26: a token that moves without coming back has one owner.  When the
    transfers of a transaction lead from the first owner to the owner of the
    object, who did not send the token itself, that owner is the only one
    listed with the amount one, and the first owner is listed with the amount
    zero if it is another. *)
Theorem moved_token_one_owner td helper d first ownerships current :
  helper !! td2_token_data_id td = Some d ->
  let owner := TokenResources.get_owner_address (object_core (oad_object d)) in
  follow_transfers first (oad_transfer_events d) = Some owner ->
  sent_by owner (oad_transfer_events d) = false ->
  bd_one ≠ bd_zero ->
  get_nft_v2_from_token_data td helper = Ok (ownerships, current) ->
  (forall k r, current !! k = Some r -> cto2_amount r = bd_one <-> k = nft_key td owner) /\
  is_Some (current !! nft_key td owner) /\
  (first ≠ owner -> exists r, current !! nft_key td first = Some r /\ cto2_amount r = bd_zero).
Proof.
  intros Hd owner Hf Hs Hne Hg. destruct (nft_rows td helper d) as (os & m & Hg' & Hm & Hk & _); [done|].
  rewrite Hg in Hg'. injection Hg' as <- <-. fold owner in Hm. split_and!.
  - intros k r Hr. destruct (Hk k) as [a ->]; [by eexists|]. rewrite Hm in Hr.
    destruct (sent_by a _) eqn:Ha.
    + injection Hr as <-. simpl. split; [intros He; by destruct Hne|]. intros [= ->]. congruence.
    + case_decide as Hao; [|done]. injection Hr as <-. by subst a.
  - rewrite Hm, Hs, decide_True by done. by eexists.
  - intros Hfo. rewrite Hm. destruct (sent_by first _) eqn:Hsf; [by eexists|]. by apply follow_sent in Hf.
Qed.

(** C35: a token that comes back has no owner.  When the transfers of a
    transaction lead from the owner of the object to others and back to it,
    every row of the token has the amount zero: the true owner is
    recorded as having given the token away. *)
Theorem returned_token_no_owner td helper d ownerships current :
  helper !! td2_token_data_id td = Some d ->
  let owner := TokenResources.get_owner_address (object_core (oad_object d)) in
  follow_transfers owner (oad_transfer_events d) = Some owner ->
  existsb (fun te => moves te.2) (oad_transfer_events d) = true ->
  get_nft_v2_from_token_data td helper = Ok (ownerships, current) ->
  is_Some (current !! nft_key td owner) /\ forall k r, current !! k = Some r -> cto2_amount r = bd_zero.
Proof.
  intros Hd owner Hf Hmv Hg. destruct (nft_rows td helper d) as (os & m & Hg' & Hm & Hk & _); [done|].
  rewrite Hg in Hg'. injection Hg' as <- <-. fold owner in Hm.
  pose proof (follow_moves _ _ _ Hf Hmv) as Hs. split; [rewrite Hm, Hs; by eexists|].
  intros k r Hr. destruct (Hk k) as [a ->]; [by eexists|]. rewrite Hm in Hr. destruct (sent_by a _) eqn:Ha.
  - by injection Hr as <-.
  - case_decide as Hao; [|done]. subst a. congruence.
Qed.
End Owners.

(** ** A concrete token *)

Section ConcreteOwners.
#[local] Existing Instance pair_chrono.
#[local] Existing Instance int_bigdec.
#[local] Existing Instance int_bigdec_key.
#[local] Existing Instance plain_hex.
#[local] Existing Instance plain_sha.
#[local] Existing Instance text_json.
#[local] Existing Instance map_order.
#[local] Existing Instance no_proto_json.
#[local] Existing Instance token_text_codec.
#[local] Existing Instance fa_amount_codec.
#[local] Existing Instance asset_codec.
#[local] Existing Instance no_entry_value.
#[local] Existing Instance no_script_value.
#[local] Existing Instance no_multisig_value.
#[local] Existing Instance plain_unescape.

Definition ex_transfer (i : Z) (from to : string) : Z * TransferEvent :=
  (i, {| te_from := from; te_to := to; te_object := "0x77" |}).
(** The token 0x77, owned by [owner] after the transfers. *)
Definition ex_token_object (owner : string) (l : list (Z * TransferEvent)) : ObjectAggregatedData :=
  {| oad_object := {| object_core := {| allow_ungated_transfer := true;
                        guid_creation_num := 0%Z : @BigDecimal int_bigdec; owner := owner |};
                      object_state_key_hash := EmptyString |};
     oad_transfer_events := l; oad_fungible_asset_metadata := None; oad_fungible_asset_supply := None;
     oad_fungible_asset_store := None; oad_aptos_collection := None; oad_fixed_supply := None;
     oad_property_map := None; oad_token := None; oad_unlimited_supply := None; oad_concurrent_supply := None;
     oad_token_identifier := None |}.
Definition ex_object (owner : string) (l : list (Z * TransferEvent)) : gmap string ObjectAggregatedData :=
  {[ standardize_address "0x77" := ex_token_object owner l ]}.
Definition ex_data : TokenDataV2 :=
  hd {| td2_transaction_version := 0; td2_write_set_change_index := 0; td2_token_data_id := EmptyString;
        td2_collection_id := EmptyString; td2_token_name := EmptyString; td2_maximum := None; td2_supply := None;
        td2_largest_property_version_v1 := None; td2_token_uri := EmptyString; td2_token_properties := Null;
        td2_description := EmptyString; td2_token_standard := EmptyString; td2_is_fungible_v2 := None;
        td2_transaction_timestamp := (0, 0)%Z; td2_decimals := None |}
    (rows_token_datas_v2 ex_asset_rows).
Definition ex_owners (owner : string) (l : list (Z * TransferEvent)) := nft_owners ex_data (ex_object owner l).

Lemma ex_object_lookup owner l : ex_object owner l !! td2_token_data_id ex_data = Some (ex_token_object owner l).
Proof.
  unfold ex_object. replace (td2_token_data_id ex_data) with (standardize_address "0x77") by (vm_compute; reflexivity).
  apply lookup_singleton_eq.
Qed.
Lemma ex_owners_ok owner l :
  get_nft_v2_from_token_data ex_data (ex_object owner l) = Ok ((ex_owners owner l).1, (ex_owners owner l).2).
Proof. exact (nft_owners_ok ex_data (ex_object owner l) _ (ex_object_lookup owner l)). Qed.

Lemma moved_token_one_owner_witness :
  let l := [ex_transfer 2 "0xa" "0xb"; ex_transfer 1 "0xb" "0xd"] in
  (forall k r, (ex_owners "0xd" l).2 !! k = Some r ->
     cto2_amount r = 1%Z <-> k = nft_key ex_data (standardize_address "0xd")) /\
  (exists r, (ex_owners "0xd" l).2 !! nft_key ex_data (standardize_address "0xa") = Some r /\ cto2_amount r = 0%Z).
Proof.
  intros l.
  destruct (moved_token_one_owner ex_data (ex_object "0xd" l) (ex_token_object "0xd" l) (standardize_address "0xa")
    (ex_owners "0xd" l).1 (ex_owners "0xd" l).2) as (H1 & _ & H2).
  - apply ex_object_lookup.
  - vm_compute. reflexivity.
  - vm_compute. reflexivity.
  - vm_compute. discriminate.
  - apply ex_owners_ok.
  - split; [exact H1|]. apply H2. vm_compute. discriminate.
Defined.
Lemma returned_token_no_owner_witness :
  let l := [ex_transfer 2 "0xa" "0xb"; ex_transfer 1 "0xb" "0xa"] in
  is_Some ((ex_owners "0xa" l).2 !! nft_key ex_data (standardize_address "0xa")) /\
  forall k r, (ex_owners "0xa" l).2 !! k = Some r -> cto2_amount r = 0%Z.
Proof.
  intros l.
  apply (returned_token_no_owner ex_data (ex_object "0xa" l) (ex_token_object "0xa" l)
    (ex_owners "0xa" l).1 (ex_owners "0xa" l).2).
  - apply ex_object_lookup.
  - vm_compute. reflexivity.
  - vm_compute. reflexivity.
  - apply ex_owners_ok.
Defined.
End ConcreteOwners.
