(* ===== verification/TokensV2Laws.v ===== *)
(** * Tokens of both standards: correctness

    The rows of a batch, the tables written by two queries, and who owns a
    token after its transfers. *)
From S2P Require Import Prelude RustStr Json Externals Proto Util Database SharedTable Processors.
From S2P Require Import DefaultModels TokenResources FungibleResources Objects FungibleAssets TokenUtils TokensV1 TokensV1Laws TokensV2 TokensV2Example TokensV2Owners.

Section TokensV2Laws.
Context `{Chrono, BigDec, HexCodec, Sha256, JsonParse, ProtoJson}.
Context `{!BigDecKey, !TokenV1Codec, !TokenCodec, !FungibleCodec}.
Context `{!Serialize EntryFunctionPayloadClean, !Serialize ScriptPayloadClean,
          !Serialize MultisigPayloadClean, !Unescape}.
Variable queries : TokenV2Queries.
Variable query_retries : nat.

(** ** The rows of a change *)

Definition pick_collection (w : TokenV2Write) := match w with WCollection c _ => Some c | _ => None end.
Definition pick_token_data (w : TokenV2Write) := match w with WTokenData d _ => Some d | _ => None end.
Definition pick_ownership (w : TokenV2Write) := match w with WOwnership o => Some o | _ => None end.
Definition pick_activity (w : TokenV2Write) := match w with WActivity a => Some a | _ => None end.

(** The rows carry the version, and the history rows of collections and token
    data the index. *)
Definition write_at (v i : Z) (w : TokenV2Write) : Prop :=
  match w with
  | WCollection c cc => col2_transaction_version c = v /\ col2_write_set_change_index c = i /\
                        ccol2_last_transaction_version cc = v
  | WTokenData d cd => td2_transaction_version d = v /\ td2_write_set_change_index d = i /\
                       ctd2_last_transaction_version cd = v
  | WDeletedTokenData cd => ctd2_last_transaction_version cd = v /\ ctd2_is_deleted_v2 cd = Some true
  | WOwnership o => to2_transaction_version o = v
  | WCurrentOwnerships m => holds cto2_pk (fun c => cto2_last_transaction_version c = v) m
  | WDeletedOwnership co => cto2_last_transaction_version co = v
  | WActivity a => ta2_transaction_version a = v /\ ta2_event_index a = i
  | WMetadata m => ctm_last_transaction_version m = v
  end.

Lemma collection_v2_at wr v i ts helper c cc :
  collection_v2_from_write_resource wr v i ts helper = Ret (Ok (Some (c, cc))) -> write_at v i (WCollection c cc).
Proof.
  unfold collection_v2_from_write_resource. intros Hr. apply bind_Ret in Hr as (ty & _ & Hr).
  destruct (is_resource_supported ty); [|done]. apply bind_Ret in Hr as (res & _ & Hr).
  apply bind_Ret in Hr as (data & _ & Hr). apply try_bind_Ok in Hr as ([|inner| | | | | | |] & _ & Hr); try done.
  destruct (helper !! mr_address res) as [d|]; [|done].
  destruct (collection_supply d) as [[cs ms] tm].
  apply bind_Ret in Hr as (nm & _ & Hr). apply bind_Ret in Hr as (uri & _ & Hr). by injection Hr as <- <-.
Qed.
Lemma collection_v1_at item v i ts handles c cc :
  collection_v1_from_write_table_item queries query_retries item v i ts handles = Ret (Ok (Some (c, cc))) ->
  write_at v i (WCollection c cc).
Proof.
  unfold collection_v1_from_write_table_item. intros Hr. apply bind_Ret in Hr as (data & _ & Hr).
  apply try_bind_Ok in Hr as ([[| | | |cd|]|] & _ & Hr); try done.
  destruct (match _ with Some _ => _ | None => _ end); [|done].
  apply bind_Ret in Hr as (nm & _ & Hr). apply bind_Ret in Hr as (uri & _ & Hr). by injection Hr as <- <-.
Qed.
Lemma token_data_v2_at wr v i ts helper d cd :
  token_data_v2_from_write_resource wr v i ts helper = Ret (Ok (Some (d, cd))) ->
  write_at v i (WTokenData d cd) /\ td2_token_data_id d = standardize_address (wr_address wr) /\
  exists t, token_from_write_resource wr v = Ret (Ok (Some t)).
Proof.
  unfold token_data_v2_from_write_resource. intros Hr. apply try_bind_Ok in Hr as ([inner|] & Ht & Hr); [|done].
  apply bind_Ret in Hr as (nm & _ & Hr). destruct (helper !! _) as [o|]; [|done].
  apply bind_Ret in Hr as (nm' & _ & Hr). apply bind_Ret in Hr as (uri & _ & Hr). injection Hr as <- <-.
  split_and!; [done..|]. by exists inner.
Qed.
Lemma token_data_v1_at item v i ts d cd :
  token_data_v1_from_write_table_item item v i ts = Ret (Ok (Some (d, cd))) -> write_at v i (WTokenData d cd).
Proof.
  unfold token_data_v1_from_write_table_item. intros Hr. apply bind_Ret in Hr as (data & _ & Hr).
  apply try_bind_Ok in Hr as ([[| |td| | |]|] & _ & Hr); try done.
  apply try_bind_Ok in Hr as ([[tdi| | | | |]|] & _ & Hr); try done.
  apply bind_Ret in Hr as (nm & _ & Hr). apply bind_Ret in Hr as (uri & _ & Hr). by injection Hr as <- <-.
Qed.
Lemma burned_token_data_at address v ts burned cd :
  burned_token_data address v ts burned = Some cd ->
  ctd2_last_transaction_version cd = v /\ ctd2_is_deleted_v2 cd = Some true.
Proof. unfold burned_token_data. case_match; [|done]. by intros [= <-]. Qed.
Lemma token_v2_metadata_at wr v helper m :
  token_v2_metadata_from_write_resource wr v helper = Ret (Ok (Some m)) -> ctm_last_transaction_version m = v.
Proof.
  unfold token_v2_metadata_from_write_resource. intros Hr. destruct (helper !! _) as [d|]; [|done].
  destruct (oad_token d); [|done]. apply bind_Ret in Hr as (tag & _ & Hr). case_bool_decide; [done|].
  apply bind_Ret in Hr as (res & _ & Hr). case_decide; [|done]. apply bind_Ret in Hr as (ty & _ & Hr).
  apply try_bind_Ok in Hr as (data & _ & Hr). by injection Hr as <-.
Qed.
Lemma v1_ownership_at id amount props handle v i ts handles o co :
  v1_ownership id amount props handle v i ts handles = Some (o, co) ->
  to2_transaction_version o = v /\ to2_write_set_change_index o = i /\
  (forall c, co = Some c -> cto2_last_transaction_version c = v).
Proof.
  unfold v1_ownership. destruct (handles !! _) as [tm|]; [case_decide; [|done]|]; intros [= <- <-]; naive_solver.
Qed.
Lemma ownership_v1_write_at item v i ts handles o co :
  ownership_v1_from_write_table_item item v i ts handles = Ret (Ok (Some (o, co))) ->
  to2_transaction_version o = v /\ to2_write_set_change_index o = i /\
  (forall c, co = Some c -> cto2_last_transaction_version c = v).
Proof.
  unfold ownership_v1_from_write_table_item. intros Hr. apply bind_Ret in Hr as (data & _ & Hr).
  apply try_bind_Ok in Hr as ([[| | |tok| |]|] & _ & Hr); try done. injection Hr as Hr. by eapply v1_ownership_at.
Qed.
Lemma ownership_v1_delete_at item v i ts handles o co :
  ownership_v1_from_delete_table_item item v i ts handles = Ret (Ok (Some (o, co))) ->
  to2_transaction_version o = v /\ to2_write_set_change_index o = i /\
  (forall c, co = Some c -> cto2_last_transaction_version c = v).
Proof.
  unfold ownership_v1_from_delete_table_item. intros Hr. apply bind_Ret in Hr as (data & _ & Hr).
  apply try_bind_Ok in Hr as ([[|tid| | | |]|] & _ & Hr); try done. injection Hr as Hr. by eapply v1_ownership_at.
Qed.

(** A burned token has its row only when its address was burned. *)
Lemma burned_helper_at address v i ts prior burned o co :
  get_burned_nft_v2_helper queries query_retries address v i ts prior burned = Some (o, co) ->
  to2_transaction_version o = v /\ to2_write_set_change_index o = i /\ cto2_last_transaction_version co = v /\
  is_Some (burned !! standardize_address address).
Proof. unfold get_burned_nft_v2_helper. case_match; [|done]. intros [= <- <-]. naive_solver. Qed.
Lemma burned_write_at wr v i ts prior burned o co :
  burned_nft_from_write_resource queries query_retries wr v i ts prior burned = Ret (Ok (Some (o, co))) ->
  to2_transaction_version o = v /\ to2_write_set_change_index o = i /\ cto2_last_transaction_version co = v /\
  is_Some (burned !! standardize_address (standardize_address (wr_address wr))).
Proof.
  unfold burned_nft_from_write_resource. intros Hr. destruct (burned !! _) as [b|] eqn:Hb; [|done].
  apply try_bind_Ok in Hr as ([obj|] & _ & Hr); [by injection Hr as <- <-|]. injection Hr as Hr.
  by apply burned_helper_at in Hr as (? & ? & ? & _).
Qed.

(** The rows of a token and of its transfers. *)
Lemma transfers_at td sb l acc :
  Forall (fun o => to2_transaction_version o = td2_transaction_version td) acc.1 ->
  holds cto2_pk (fun c => cto2_last_transaction_version c = td2_transaction_version td) acc.2 ->
  let acc' := foldl (transfer_step td sb) acc l in
  Forall (fun o => to2_transaction_version o = td2_transaction_version td) acc'.1 /\
  holds cto2_pk (fun c => cto2_last_transaction_version c = td2_transaction_version td) acc'.2.
Proof.
  revert acc. induction l as [|[i e] l IH]; intros [os m] Ho Hm; simpl; [done|]. apply IH; case_decide; try done; simpl.
  - apply Forall_app. split; [done|]. by constructor.
  - by apply holds_insert.
Qed.
Lemma get_nft_at td helper os m :
  get_nft_v2_from_token_data td helper = Ok (os, m) ->
  Forall (fun o => to2_transaction_version o = td2_transaction_version td) os /\
  holds cto2_pk (fun c => cto2_last_transaction_version c = td2_transaction_version td) m.
Proof.
  unfold get_nft_v2_from_token_data. destruct (helper !! _) as [d|]; [|done]. simpl. intros [= Hf].
  match type of Hf with foldl (transfer_step _ ?sb) ?a ?l = _ => pose proof (transfers_at td sb l a) as Ht end.
  rewrite Hf in Ht. apply Ht; simpl; [by constructor|].
  rewrite <- insert_empty. apply holds_insert; [apply holds_empty|done..].
Qed.

(** One goal for each row of a list. *)
Ltac each_row := repeat first [apply Forall_nil_2 | apply Forall_cons_2].

(** At most one collection and one token data row, each at the index of the
    change; no activity. *)
Definition change_writes_at (v i : Z) (ws : list TokenV2Write) : Prop :=
  Forall (write_at v i) ws /\ length (omap (M := list) pick_collection ws) <= 1 /\
  length (omap (M := list) pick_token_data ws) <= 1 /\ omap (M := list) pick_activity ws = [].

Lemma change_writes_app v i ws1 ws2 :
  Forall (write_at v i) ws1 -> omap (M := list) pick_collection ws1 = [] ->
  omap (M := list) pick_token_data ws1 = [] -> omap (M := list) pick_activity ws1 = [] ->
  change_writes_at v i ws2 -> change_writes_at v i (ws2 ++ ws1).
Proof.
  intros Hw H1' H2' H3' (Hw2 & ? & ? & H4'). unfold change_writes_at. rewrite !omap_app, H1', H2', H3', H4', !app_nil_r.
  split_and!; [by apply Forall_app|done..].
Qed.

Lemma asset_write_at helper v i data prior ws prior' :
  (forall d cd, data = Some (d, cd) -> write_at v i (WTokenData d cd)) ->
  token_write helper data prior = Ret (ws, prior') ->
  Forall (write_at v i) ws /\ omap (M := list) pick_collection ws = [] /\
  length (omap (M := list) pick_token_data ws) <= 1 /\ omap (M := list) pick_activity ws = [].
Proof.
  intros Hd Hr. unfold token_write in Hr. destruct data as [[d cd]|]; [|by injection Hr as <- _; split_and!; simpl; [|done|lia|]].
  apply bind_Ret in Hr as ([os m] & Hn%unwrap_result_Ret & Hr). apply bind_Ret in Hr as (pr & _ & Hr).
  injection Hr as <- _. apply get_nft_at in Hn as [Ho Hm]. specialize (Hd d cd eq_refl).
  assert (td2_transaction_version d = v) as Hv by apply Hd. rewrite Hv in Ho, Hm.
  rewrite !omap_app, !(omap_fmap _ _ (fun _ => None)), !omap_none by done. simpl. split_and!; [|done|lia|done].
  apply Forall_app. split; [|by each_row]. by apply Forall_fmap.
Qed.

Lemma burn_writes_at v i prior deleted nft ws prior' :
  (forall cd, deleted = Some cd -> ctd2_last_transaction_version cd = v /\ ctd2_is_deleted_v2 cd = Some true) ->
  (forall o co, nft = Some (o, co) -> to2_transaction_version o = v /\ cto2_last_transaction_version co = v) ->
  burn_writes prior deleted nft = (ws, prior') ->
  Forall (write_at v i) ws /\ omap (M := list) pick_collection ws = [] /\
  omap (M := list) pick_token_data ws = [] /\ omap (M := list) pick_activity ws = [].
Proof.
  intros Hd Hn Hw. unfold burn_writes in Hw.
  assert (Forall (write_at v i) (WDeletedTokenData <$> option_list deleted)) as Hf.
  { destruct deleted; each_row. by apply Hd. }
  destruct nft as [[o co]|]; injection Hw as <- _; rewrite ?omap_app;
    (split_and!; [|by destruct deleted..]); [|done].
  apply Forall_app. split; [done|]. destruct (Hn o co eq_refl). by each_row.
Qed.

Lemma token_v2_change_at v ts handles helper burned prior i wsc ws prior' :
  token_v2_change queries query_retries v ts handles helper burned prior (i, wsc) = Ret (ws, prior') ->
  change_writes_at v i ws.
Proof.
  unfold token_v2_change. intros Hr. apply bind_Ret in Hr as (change & _ & Hr).
  destruct change as [|res|item| |res|item];
    try (injection Hr as <- _; unfold change_writes_at; simpl; split_and!; [each_row|lia|lia|done]).
  - injection Hr as Hr. unfold delete_resource_change in Hr.
    apply (burn_writes_at v i) in Hr as (? & E1 & E2 & E3).
    + unfold change_writes_at. rewrite E1, E2, E3. simpl. split_and!; [done|lia|lia|done].
    + intros cd Hcd. by apply burned_token_data_at in Hcd.
    + intros o co Ho. by apply burned_helper_at in Ho as (? & _ & ? & _).
  - unfold delete_table_item_change in Hr. apply bind_Ret in Hr as (r & Ho & Hr).
    apply bind_Ret in Hr as (ow & ->%unwrap_result_Ret & Hr). injection Hr as Hr.
    destruct ow as [[o [co|]]|]; injection Hr as <- _; unfold change_writes_at; simpl;
      (split_and!; [|lia|lia|done]); [..|each_row];
      destruct (ownership_v1_delete_at _ _ _ _ _ _ _ Ho) as (? & _ & Hc); each_row; [done| |done].
    by apply Hc.
  - unfold write_resource_change in Hr. apply bind_Ret in Hr as (r1 & E1 & Hr).
    apply bind_Ret in Hr as (col & ->%unwrap_result_Ret & Hr). apply bind_Ret in Hr as (r2 & E2 & Hr).
    apply bind_Ret in Hr as (data & ->%unwrap_result_Ret & Hr). apply bind_Ret in Hr as ([wt p1] & Ht & Hr).
    apply bind_Ret in Hr as (r3 & E3 & Hr). apply bind_Ret in Hr as (nft & ->%unwrap_result_Ret & Hr).
    destruct (burn_writes _ _ _) as [wb p2] eqn:Hb. apply bind_Ret in Hr as (r4 & E4 & Hr).
    apply bind_Ret in Hr as (meta & ->%unwrap_result_Ret & Hr). injection Hr as <- _.
    apply (asset_write_at _ v i) in Ht as (T1 & T2 & T3 & T4);
      [|intros d cd ->; by apply token_data_v2_at in E2 as [? _]].
    apply (burn_writes_at v i) in Hb as (B1 & B2 & B3 & B4);
      [|intros cd Hcd; by apply burned_token_data_at in Hcd
       |intros o co ->; by apply burned_write_at in E3 as (? & _ & ? & _)].
    rewrite !app_assoc. apply change_writes_app; [|by destruct meta..|].
    { destruct meta; each_row. by apply token_v2_metadata_at in E4. }
    apply change_writes_app; [done..|]. unfold change_writes_at. rewrite !omap_app, T2, T4, !app_nil_r.
    split_and!; [|by destruct col as [[]|]; simpl; lia|by destruct col as [[]|]|by destruct col as [[]|]].
    apply Forall_app. split; [|done]. destruct col as [[c cc]|]; each_row; by apply collection_v2_at in E1 as (? & ? & ?).
  - unfold write_table_item_change in Hr. apply bind_Ret in Hr as (r1 & E1 & Hr).
    apply bind_Ret in Hr as (col & ->%unwrap_result_Ret & Hr). apply bind_Ret in Hr as (r2 & E2 & Hr).
    apply bind_Ret in Hr as (data & ->%unwrap_result_Ret & Hr). apply bind_Ret in Hr as (r3 & E3 & Hr).
    apply bind_Ret in Hr as (ow & ->%unwrap_result_Ret & Hr). injection Hr as Hr.
    assert (change_writes_at v i ((uncurry WCollection <$> option_list col) ++ (uncurry WTokenData <$> option_list data)))
      as Hbase.
    { unfold change_writes_at. rewrite Forall_app, !omap_app.
      split_and!; [| |by destruct col as [[]|], data as [[]|]; simpl; lia..|by destruct col as [[]|], data as [[]|]].
      - destruct col as [[c cc]|]; each_row; by apply collection_v1_at in E1 as (? & ? & ?).
      - destruct data as [[d cd]|]; each_row; by apply token_data_v1_at in E2 as (? & ? & ?). }
    destruct ow as [[o [co|]]|]; injection Hr as <- _; [| |done];
      (apply change_writes_app; [|done..]); destruct (ownership_v1_write_at _ _ _ _ _ _ _ E3) as (? & _ & Hc);
      each_row; [done| |done].
    simpl. rewrite <- insert_empty. apply holds_insert; [apply holds_empty|done|by apply Hc].
Qed.

(** ** The rows of an event *)

Lemma v1_activity_at ev v ts i ef a :
  v1_activity_from_event ev v ts i ef = Ret (Ok (Some a)) ->
  write_at v i (WActivity a) /\ exists e, v1_token_event (ev_type_str ev) (ev_data ev) v = Ok (Some e).
Proof.
  unfold v1_activity_from_event. intros Hr. apply try_bind_Ok in Hr as ([e|] & [= He] & Hr); [|done].
  apply bind_Ret in Hr as (key & _ & Hr). injection Hr as <-. split; [done|]. by exists e.
Qed.
Lemma nft_activity_at ev v ts i ef helper a :
  nft_activity_from_event ev v ts i ef helper = Ret (Ok (Some a)) ->
  write_at v i (WActivity a) /\ exists e, token_event (ev_type_str ev) (ev_data ev) v = Ok (Some e).
Proof.
  unfold nft_activity_from_event. intros Hr. apply try_bind_Ok in Hr as ([e|] & [= He] & Hr); [|done].
  apply bind_Ret in Hr as (key & _ & Hr). injection Hr as <-. split; [done|]. by exists e.
Qed.
(** No event belongs to both standards. *)
Lemma event_one_standard ty d v e : v1_token_event ty d v = Ok (Some e) -> token_event ty d v = Ok None.
Proof. unfold v1_token_event. repeat (case_decide; [by subst|]). done. Qed.

Definition event_writes_at (v i : Z) (ws : list TokenV2Write) : Prop :=
  Forall (write_at v i) ws /\ length (omap (M := list) pick_activity ws) <= 1 /\
  omap (M := list) pick_collection ws = [] /\ omap (M := list) pick_token_data ws = [] /\
  omap (M := list) pick_ownership ws = [].

(** What one event does. *)
Lemma token_v2_event_at v ts ef n st i ev st' :
  token_v2_event_step v ts ef n st (i, ev) = Ret st' ->
  exists ws tr, te_writes st' = te_writes st ++ ws /\ event_writes_at v i ws /\
    transfer_event_from_event ev v = Ret (Ok tr) /\
    te_helper st' = match tr with
                    | Some t => push_transfer (te_helper st) (if decide (i = 0%Z) then n else i) t
                    | None => te_helper st
                    end /\
    forall a b, tokens_burned st' !! a = Some b -> tokens_burned st !! a = Some b \/
      (exists e, burn_from_event ev v = Ret (Ok (Some e)) /\ burn_token_address e = a) \/
      (exists e, burn_event_from_event ev v = Ret (Ok (Some e)) /\
         standardize_address (burn_event_token_address e) = a).
Proof.
  unfold token_v2_event_step. intros Hs. apply bind_Ret in Hs as (r1 & E1 & Hs).
  apply bind_Ret in Hs as (b1 & ->%unwrap_result_Ret & Hs). apply bind_Ret in Hs as (r2 & E2 & Hs).
  apply bind_Ret in Hs as (b2 & ->%unwrap_result_Ret & Hs). apply bind_Ret in Hs as (burned & Eb & Hs).
  apply bind_Ret in Hs as (r3 & _ & Hs). apply bind_Ret in Hs as (mt & _ & Hs).
  apply bind_Ret in Hs as (r4 & E4 & Hs). apply bind_Ret in Hs as (tr & ->%unwrap_result_Ret & Hs).
  apply bind_Ret in Hs as (r5 & E5 & Hs). apply bind_Ret in Hs as (a1 & ->%unwrap_result_Ret & Hs).
  apply bind_Ret in Hs as (r6 & E6 & Hs). apply bind_Ret in Hs as (a2 & ->%unwrap_result_Ret & Hs).
  injection Hs as <-. simpl. exists ((WActivity <$> option_list a1) ++ (WActivity <$> option_list a2)), tr.
  split; [done|]. split; [|split; [done|]; split; [done|]].
  - unfold event_writes_at. rewrite !omap_app, Forall_app.
    split_and!; [| | |by destruct a1, a2..].
    + destruct a1; each_row. by apply v1_activity_at in E5 as [? _].
    + destruct a2; each_row. by apply nft_activity_at in E6 as [? _].
    + destruct a1 as [a1|], a2 as [a2|]; simpl; try lia.
      apply v1_activity_at in E5 as (_ & e1 & He1%event_one_standard).
      apply nft_activity_at in E6 as (_ & e2 & He2). congruence.
  - intros a b Hb.
    assert (forall (m : gmap string Burn) (o : option Burn), match o with Some x => <[burn_token_address x := x]> m | None => m end !! a = Some b ->
      m !! a = Some b \/ exists x, o = Some x /\ burn_token_address x = a) as Hins.
    { intros m [x|]; [|by left]. intros [[<- <-]|[_ ?]]%lookup_insert_Some; [right|left]; eauto. }
    destruct b2 as [old|].
    + apply bind_Ret in Eb as (key & _ & Eb). injection Eb as <-.
      apply lookup_insert_Some in Hb as [[<- _]|[_ Hb]]; [right; right; eauto|].
      apply Hins in Hb as [?|(x & -> & ?)]; eauto 6.
    + injection Eb as <-. apply Hins in Hb as [?|(x & -> & ?)]; eauto 6.
Qed.

(** ** The rows of a transaction *)

Lemma store_all_app acc ws1 ws2 : store_all acc (ws1 ++ ws2) = store_all (store_all acc ws1) ws2.
Proof. apply foldl_app. Qed.

Definition change_writes (v : Z) (ts : NaiveDateTime) (handles : gmap string TableMetadataForToken)
    (helper : gmap string ObjectAggregatedData) (burned : gmap string Burn) (iwsc : Z * WriteSetChangePB)
    (ws : list TokenV2Write) : Prop :=
  exists prior prior', token_v2_change queries query_retries v ts handles helper burned prior iwsc = Ret (ws, prior').

Lemma token_v2_changes_log v ts handles helper burned l st st' :
  foldM (token_v2_change_step queries query_retries v ts handles helper burned) st l = Ret st' ->
  exists logs, Forall2 (change_writes v ts handles helper burned) l logs /\ st'.1 = store_all st.1 (concat logs).
Proof.
  intros Hf. eapply (foldM_log (fun _ => True) (fun s rows s' => s'.1 = store_all s.1 rows)
    (change_writes v ts handles helper burned)) in Hf as [_ ?]; [done|done| | |done].
  - intros s1 l1 s2 l2 s3 E1 E2. by rewrite E2, E1, store_all_app.
  - intros [acc prior] iwsc st2 _ _ Hs. split; [done|]. unfold token_v2_change_step in Hs.
    apply bind_Ret in Hs as ([ws prior'] & Hc & Hs). injection Hs as <-. exists ws. split; [done|]. by exists prior, prior'.
Qed.

Lemma token_v2_events_log v ts ef n l st st' :
  foldM (token_v2_event_step v ts ef n) st l = Ret st' ->
  exists logs, Forall2 (fun iev ws => event_writes_at v iev.1 ws) l logs /\ te_writes st' = te_writes st ++ concat logs.
Proof.
  intros Hf. eapply (foldM_log (fun _ => True) (fun s rows s' => te_writes s' = te_writes s ++ rows)
    (fun iev ws => event_writes_at v iev.1 ws)) in Hf as [_ ?]; [done| | | |done].
  - intros s. by rewrite app_nil_r.
  - intros s1 l1 s2 l2 s3 E1 E2. by rewrite E2, E1, app_assoc.
  - intros s [i ev] s' _ _ Hs. split; [done|].
    apply token_v2_event_at in Hs as (ws & tr & -> & Hw & _). by exists ws.
Qed.

(** One transaction: nothing unless it is a user transaction, else the rows of
    its events and then of its changes. *)
Lemma token_v2_step_parts handles st t st' :
  token_v2_step queries query_retries handles st t = Ret st' ->
  (st' = st /\ forall user_txn, t_txn_data t ≠ Some (TdUser user_txn)) \/
  exists user_txn info ts ef helper0 helper ev prior logs,
    t_txn_data t = Some (TdUser user_txn) /\ t_info t = Some info /\
    let v := as_i64 (t_version t) in
    (stamp ← unwrap (t_timestamp t); parse_timestamp stamp v) = Ret ts /\
    foldM (collect_object_core v) (token_v2_metadata_helper st) (ti_changes info) = Ret helper0 /\
    foldM (fill_token_object v) helper0 (ti_changes info) = Ret helper /\
    foldM (token_v2_event_step v ts ef (Z.of_nat (length (ut_events user_txn))))
      {| te_writes := []; te_helper := helper; tokens_burned := ∅; tokens_minted := ∅ |}
      (enumerate (ut_events user_txn)) = Ret ev /\
    Forall2 (change_writes v ts handles (te_helper ev) (tokens_burned ev)) (enumerate (ti_changes info)) logs /\
    st' = {| v2_acc := store_all (v2_acc st) (te_writes ev ++ concat logs); prior_nft_ownership := prior;
             token_v2_metadata_helper := te_helper ev |}.
Proof.
  unfold token_v2_step. intros Hs. destruct (t_txn_data t) as [data|] eqn:Ed; [|left; split; congruence].
  apply bind_Ret in Hs as (tss & Ets & Hs). apply bind_Ret in Hs as (ts & Eparse & Hs).
  apply bind_Ret in Hs as (info & Hi%unwrap_Ret & Hs).
  destruct data; try (left; split; congruence). right.
  apply bind_Ret in Hs as (req & _ & Hs). apply bind_Ret in Hs as (ef & _ & Hs).
  apply bind_Ret in Hs as (helper0 & E1 & Hs). apply bind_Ret in Hs as (helper & E2 & Hs).
  apply bind_Ret in Hs as (ev & E3 & Hs). apply bind_Ret in Hs as ([acc prior] & E4 & Hs). injection Hs as <-.
  apply token_v2_changes_log in E4 as (logs & Hl & Ha). simpl in Ha. subst acc.
  eexists _, info, ts, ef, helper0, helper, ev, prior, logs. rewrite store_all_app, Ets. split_and!; done.
Qed.

(** ** The indices of the ownership rows of a transaction *)

Definition token_address (v : Z) (wsc : WriteSetChangePB) : option string :=
  match wsc_change wsc with
  | Some (ChangeWriteResource wr) =>
      match token_from_write_resource wr v with
      | Ret (Ok (Some _)) => Some (standardize_address (wr_address wr))
      | _ => None
      end
  | _ => None
  end.
Definition core_address (v : Z) (wsc : WriteSetChangePB) : option string :=
  match wsc_change wsc with
  | Some (ChangeWriteResource wr) =>
      match object_from_write_resource wr v with
      | Ret (Ok (Some _)) => Some (standardize_address (wr_address wr))
      | _ => None
      end
  | _ => None
  end.
Definition burned_by (v : Z) (ev : EventPB) : list string :=
  match burn_from_event ev v with Ret (Ok (Some e)) => [burn_token_address e] | _ => [] end ++
  match burn_event_from_event ev v with
  | Ret (Ok (Some e)) => [standardize_address (burn_event_token_address e)]
  | _ => []
  end.

(** What the resource groups of the chain guarantee: a token is written once
    in a transaction, together with the core of its object, and is not burned
    there. *)
Definition token_txn_ok (t : Transaction) : Prop :=
  match t_txn_data t, t_info t with
  | Some (TdUser u), Some info =>
      let v := as_i64 (t_version t) in
      let tokens := omap (M := list) (token_address v) (ti_changes info) in
      NoDup tokens /\ forall a, a ∈ tokens -> a ∈ omap (M := list) (core_address v) (ti_changes info) /\
        a ∉ concat (burned_by v <$> ut_events u)
  | _, _ => True
  end.

Definition transfers_of (helper : gmap string ObjectAggregatedData) (a : string) : list (Z * TransferEvent) :=
  from_option oad_transfer_events [] (helper !! a).

Lemma transfers_insert helper a d b :
  transfers_of (<[a := d]> helper) b = if decide (a = b) then oad_transfer_events d else transfers_of helper b.
Proof.
  unfold transfers_of. case_decide as Hab; [subst; by rewrite lookup_insert_eq|by rewrite lookup_insert_ne].
Qed.

(** The first pass knows every object that is written, and starts it anew. *)
Lemma collect_core v changes helper helper' a :
  foldM (collect_object_core v) helper changes = Ret helper' ->
  a ∈ omap (M := list) (core_address v) changes -> exists o, helper' !! a = Some (new_aggregated_data o).
Proof.
  assert (forall h wsc h', collect_object_core v h wsc = Ret h' ->
    (core_address v wsc = Some a -> exists o, h' !! a = Some (new_aggregated_data o)) /\
    ((exists o, h !! a = Some (new_aggregated_data o)) -> exists o, h' !! a = Some (new_aggregated_data o))) as Hstep.
  { intros h wsc h' Hs. unfold collect_object_core in Hs. apply bind_Ret in Hs as (change & Hc%unwrap_Ret & Hs).
    unfold core_address. rewrite Hc. destruct change as [| | | |wr|]; try (by injection Hs as <-).
    apply bind_Ret in Hs as (r & Hr & Hs). apply bind_Ret in Hs as (o & ->%unwrap_result_Ret & Hs).
    rewrite Hr. injection Hs as <-. destruct o as [o|]; [|done].
    split; [intros [= ->]; exists o; by rewrite lookup_insert_eq|]. intros [o' Ho].
    destruct (decide (standardize_address (wr_address wr) = a)) as [<-|Ha]; [exists o; by rewrite lookup_insert_eq|].
    exists o'. by rewrite lookup_insert_ne. }
  intros Hf (wsc & Hin & Hw)%list_elem_of_omap. apply list_elem_of_split in Hin as (l1 & l2 & ->).
  rewrite foldM_app in Hf. apply bind_Ret in Hf as (h1 & _ & Hf). simpl in Hf.
  apply bind_Ret in Hf as (h2 & Hs & Hf). revert Hf.
  apply (foldM_ind (fun h => exists o, h !! a = Some (new_aggregated_data o))); [by apply Hstep in Hs as [Hs _]; apply Hs|].
  intros b x b' _ Hb Hx. by eapply Hstep.
Qed.
Lemma collect_transfers v changes helper helper' a :
  foldM (collect_object_core v) helper changes = Ret helper' ->
  a ∈ omap (M := list) (core_address v) changes -> transfers_of helper' a = [].
Proof. intros Hf Ha. destruct (collect_core _ _ _ _ _ Hf Ha) as [o Ho]. unfold transfers_of. by rewrite Ho. Qed.
(** The second pass keeps all transfers. *)
Lemma fill_transfers v changes helper helper' a :
  foldM (fill_token_object v) helper changes = Ret helper' -> transfers_of helper' a = transfers_of helper a.
Proof.
  apply (foldM_ind (fun h => transfers_of h a = transfers_of helper a)); [done|].
  intros h wsc h' _ <- Hs. unfold fill_token_object in Hs. apply bind_Ret in Hs as (change & _ & Hs).
  destruct change as [| | | |res|]; try (by injection Hs as <-). destruct (h !! _) as [d|] eqn:Hd; [|by injection Hs as <-].
  repeat (apply bind_Ret in Hs as (? & _ & Hs)). injection Hs as <-. rewrite transfers_insert. simpl.
  case_decide as Ha; [|done]. unfold transfers_of. by rewrite <- Ha, Hd.
Qed.

(** The index of the row of a transfer: the first event takes the number of
    events. *)
Definition slot (n j : Z) : Z := if decide (j = 0)%Z then n else j.

(** The transfers of the objects in [fresh] have distinct indices, all of them
    of events before [k]. *)
Definition slots_ok (fresh : list string) (n k : Z) (helper : gmap string ObjectAggregatedData) : Prop :=
  (forall a, a ∈ fresh -> NoDup (transfers_of helper a).*1 /\
     forall i, i ∈ (transfers_of helper a).*1 -> exists j, (0 <= j < k)%Z /\ i = slot n j) /\
  (forall a b i, a ∈ fresh -> b ∈ fresh -> i ∈ (transfers_of helper a).*1 -> i ∈ (transfers_of helper b).*1 -> a = b).

Lemma slots_ok_weaken fresh n k helper : slots_ok fresh n k helper -> slots_ok fresh n (k + 1) helper.
Proof.
  intros [Ho Hd]. split; [|done]. intros a Ha. destruct (Ho a Ha) as [Hn Hu]. split; [done|].
  intros i Hi. destruct (Hu i Hi) as (j & ? & ->). exists j. split; [lia|done].
Qed.
Lemma slots_ok_push fresh n k helper e :
  (0 <= k < n)%Z -> slots_ok fresh n k helper -> slots_ok fresh n (k + 1) (push_transfer helper (slot n k) e).
Proof.
  intros Hk Hok. unfold push_transfer. destruct (helper !! _) as [d|] eqn:Hd; [|by apply slots_ok_weaken].
  assert (forall a, a ∈ fresh -> slot n k ∉ (transfers_of helper a).*1) as Hfresh.
  { intros a Ha Hi. apply Hok in Hi as (j & Hj & Hs); [|done]. unfold slot in Hs. repeat case_decide; lia. }
  set (o := get_object_address e) in *.
  match goal with |- slots_ok _ _ _ ?h => assert (forall a, transfers_of h a =
    if decide (o = a) then transfers_of helper a ++ [(slot n k, e)] else transfers_of helper a) as Ht end.
  { intros a. rewrite transfers_insert. case_decide as Ha; [|done]. simpl. unfold transfers_of. by rewrite <- Ha, Hd. }
  apply slots_ok_weaken in Hok as [Ho Hdis]. split.
  - intros a Ha. rewrite Ht. destruct (Ho a Ha) as [Hn Hu]. case_decide; [|done]. rewrite fmap_app. split.
    + apply NoDup_app. split_and!; [done| |apply NoDup_singleton].
      intros i Hi ->%list_elem_of_singleton. by eapply Hfresh.
    + intros i [Hi| ->%list_elem_of_singleton]%elem_of_app; [by apply Hu|]. exists k. split; [lia|done].
  - intros a b i Ha Hb. rewrite !Ht. repeat case_decide; try congruence; try by apply Hdis.
    + rewrite fmap_app. csimpl. rewrite elem_of_app, list_elem_of_singleton. intros [Hi| ->] Hj; [by eapply Hdis|].
      by destruct (Hfresh b Hb).
    + rewrite fmap_app. csimpl. rewrite elem_of_app, list_elem_of_singleton. intros Hi [Hj| ->]; [by eapply Hdis|].
      by destruct (Hfresh a Ha).
Qed.

Lemma events_slots fresh v ts ef n k (l : list EventPB) st st' :
  (0 <= k)%Z -> (k + Z.of_nat (length l) = n)%Z -> slots_ok fresh n k (te_helper st) ->
  foldM (token_v2_event_step v ts ef n) st (enumerate_from k l) = Ret st' ->
  slots_ok fresh n n (te_helper st') /\
  forall a b, tokens_burned st' !! a = Some b ->
    is_Some (tokens_burned st !! a) \/ a ∈ concat (burned_by v <$> l).
Proof.
  revert k st. induction l as [|ev l IH]; intros k st Hk Hn Hok Hf; csimpl in *.
  { injection Hf as <-. replace k with n in Hok by lia. split; [done|]. intros a b ->. left. by eexists. }
  apply bind_Ret in Hf as (st1 & Hs & Hf). apply token_v2_event_at in Hs as (ws & tr & _ & _ & _ & Hh & Hb).
  apply IH in Hf as [Hok' Hb']; [|lia|lia|].
  - split; [done|]. intros a b Ha. rewrite elem_of_app. apply Hb' in Ha as [[b' Ha]|?]; [|by right; right].
    apply Hb in Ha as [Ha|[(e & He & <-)|(e & He & <-)]]; [left; by eexists| |]; right; left;
      unfold burned_by; rewrite He; [by left|]. apply elem_of_app. right. by left.
  - rewrite Hh. destruct tr as [tr|]; [|by apply slots_ok_weaken]. apply slots_ok_push; [lia|done].
Qed.

(** *** The rows of the changes *)

Definition own_indices (ws : list TokenV2Write) : list Z :=
  to2_write_set_change_index <$> omap (M := list) pick_ownership ws.
(** The rows of the transfers of a token. *)
Definition moved (helper : gmap string ObjectAggregatedData) (a : string) : list Z :=
  (fun te => - te.1)%Z <$> filter (fun te => moves te.2 = true) (transfers_of helper a).
Definition moved_by (v : Z) (helper : gmap string ObjectAggregatedData) (wsc : WriteSetChangePB) : list Z :=
  from_option (moved helper) [] (token_address v wsc).

Lemma get_nft_indices td helper os m :
  get_nft_v2_from_token_data td helper = Ok (os, m) ->
  to2_write_set_change_index <$> os = td2_write_set_change_index td :: moved helper (td2_token_data_id td).
Proof.
  unfold get_nft_v2_from_token_data, moved, transfers_of. destruct (helper !! _) as [d|]; [|done]. simpl. intros [= Hf].
  apply (f_equal fst) in Hf. simpl in Hf. subst os. rewrite transfers_history. csimpl. f_equal.
  by rewrite <- list_fmap_compose.
Qed.
Lemma token_write_indices helper data prior ws prior' :
  token_write helper data prior = Ret (ws, prior') ->
  own_indices ws = match data with
                   | Some (d, _) => td2_write_set_change_index d :: moved helper (td2_token_data_id d)
                   | None => []
                   end.
Proof.
  unfold token_write, own_indices. destruct data as [[d cd]|]; [|by intros [= <- _]]. intros Hr.
  apply bind_Ret in Hr as ([os m] & Hn%unwrap_result_Ret & Hr). apply bind_Ret in Hr as (pr & _ & Hr).
  injection Hr as <- _. rewrite omap_app, (omap_fmap _ _ Some), omap_some by done. simpl. rewrite app_nil_r.
  by apply get_nft_indices in Hn.
Qed.
Lemma burn_writes_indices prior deleted nft ws prior' :
  burn_writes prior deleted nft = (ws, prior') ->
  own_indices ws = to2_write_set_change_index <$> option_list (fst <$> nft).
Proof.
  unfold burn_writes, own_indices. destruct nft as [[o co]|]; intros [= <- _]; by destruct deleted.
Qed.
Lemma own_indices_app ws1 ws2 : own_indices (ws1 ++ ws2) = own_indices ws1 ++ own_indices ws2.
Proof. unfold own_indices. by rewrite omap_app, fmap_app. Qed.

(** A token whose object is unknown has no row and no transfers. *)
Lemma unwritten_token_moves wr v i ts helper :
  token_data_v2_from_write_resource wr v i ts helper = Ret (Ok None) ->
  (exists t, token_from_write_resource wr v = Ret (Ok (Some t))) ->
  moved helper (standardize_address (wr_address wr)) = [].
Proof.
  intros Hr [t Ht]. unfold token_data_v2_from_write_resource in Hr. rewrite Ht in Hr. simpl in Hr.
  apply bind_Ret in Hr as (nm & _ & Hr). unfold moved, transfers_of.
  destruct (helper !! _) as [d|]; [|done].
  by repeat (apply bind_Ret in Hr as (? & _ & Hr)).
Qed.

Definition indexed (i : Z) (neg idxs : list Z) : Prop :=
  exists pos, length pos <= 1 /\ Forall (eq i) pos /\ idxs = pos ++ neg.
Lemma indexed_none i neg : indexed i neg neg.
Proof. exists []. split_and!; [simpl; lia|constructor|done]. Qed.
Lemma indexed_one i neg : indexed i neg (i :: neg).
Proof. exists [i]. split_and!; [simpl; lia|by repeat constructor|done]. Qed.

(** A change has at most one ownership row of its own index, and the rows of
    the transfers when it writes a token. *)
Lemma change_ownerships v ts handles helper burned i wsc ws :
  change_writes v ts handles helper burned (i, wsc) ws ->
  (forall a, token_address v wsc = Some a -> burned !! a = None) ->
  indexed i (moved_by v helper wsc) (own_indices ws).
Proof.
  intros (prior & prior' & Hr) Hburn. unfold token_v2_change in Hr. apply bind_Ret in Hr as (change & Hc%unwrap_Ret & Hr).
  unfold moved_by, token_address in *. rewrite Hc in *.
  destruct change as [|res|item| |res|item]; try (injection Hr as <- _; apply indexed_none).
  - injection Hr as Hr%burn_writes_indices. rewrite Hr.
    destruct (burned_nft_from_delete_resource _ _ _ _ _ _ _ _) as [[o co]|] eqn:Hb; [|apply indexed_none].
    apply burned_helper_at in Hb as (_ & <- & _). apply indexed_one.
  - unfold delete_table_item_change in Hr. apply bind_Ret in Hr as (r & Ho & Hr).
    apply bind_Ret in Hr as (ow & ->%unwrap_result_Ret & Hr). injection Hr as Hr.
    destruct ow as [[o [co|]]|]; injection Hr as <- _; [..|apply indexed_none];
      apply ownership_v1_delete_at in Ho as (_ & <- & _); apply indexed_one.
  - unfold write_resource_change in Hr. apply bind_Ret in Hr as (r1 & _ & Hr).
    apply bind_Ret in Hr as (col & _ & Hr). apply bind_Ret in Hr as (r2 & E2 & Hr).
    apply bind_Ret in Hr as (data & ->%unwrap_result_Ret & Hr).
    apply bind_Ret in Hr as ([wt p1] & Ht%token_write_indices & Hr).
    apply bind_Ret in Hr as (r3 & E3 & Hr). apply bind_Ret in Hr as (nft & ->%unwrap_result_Ret & Hr).
    destruct (burn_writes _ _ _) as [wb p2] eqn:Hb. apply burn_writes_indices in Hb. apply bind_Ret in Hr as (r4 & _ & Hr).
    apply bind_Ret in Hr as (meta & _ & Hr). injection Hr as <- _.
    rewrite !own_indices_app, Ht, Hb. replace (own_indices (uncurry WCollection <$> option_list col)) with (@nil Z) by (by destruct col as [[]|]).
    replace (own_indices (WMetadata <$> option_list meta)) with (@nil Z) by (by destruct meta). rewrite app_nil_r.
    destruct data as [[d cd]|].
    + apply token_data_v2_at in E2 as ((_ & <- & _) & Hid & [t Htok]). rewrite Htok in *. simpl.
      destruct nft as [[o co]|].
      { apply burned_write_at in E3 as (_ & _ & _ & [b Hbt]). rewrite (proj1 (standardize_address_stable _)) in Hbt.
        by rewrite (Hburn _ eq_refl) in Hbt. }
      simpl. rewrite app_nil_r, Hid. apply indexed_one.
    + exists (to2_write_set_change_index <$> option_list (fst <$> nft)). simpl. split_and!.
      * by destruct nft as [[]|]; simpl; lia.
      * destruct nft as [[o co]|]; repeat constructor. apply burned_write_at in E3 as (_ & <- & _). done.
      * destruct (token_from_write_resource res v) as [[[t|]|]|] eqn:Htok; simpl; rewrite ?app_nil_r; [|done..].
        by rewrite (unwritten_token_moves _ _ _ _ _ E2), app_nil_r by eauto.
  - unfold write_table_item_change in Hr. apply bind_Ret in Hr as (r1 & _ & Hr).
    apply bind_Ret in Hr as (col & _ & Hr). apply bind_Ret in Hr as (r2 & _ & Hr).
    apply bind_Ret in Hr as (data & _ & Hr). apply bind_Ret in Hr as (r3 & E3 & Hr).
    apply bind_Ret in Hr as (ow & ->%unwrap_result_Ret & Hr). injection Hr as Hr.
    destruct ow as [[o [co|]]|]; injection Hr as <- _; rewrite ?own_indices_app;
      [..|by destruct col as [[]|], data as [[]|]; apply indexed_none];
      apply ownership_v1_write_at in E3 as (_ & <- & _); destruct col as [[]|], data as [[]|]; apply indexed_one.
Qed.

(** *** The rows of a transaction *)

Lemma Forall2_impl_in {A B} (P Q : A -> B -> Prop) l k :
  Forall2 P l k -> (forall x y, x ∈ l -> P x y -> Q x y) -> Forall2 Q l k.
Proof.
  intros Hf. induction Hf as [|x y l k Hx _ IH]; intros HQ; constructor; [apply HQ; [by left|done]|].
  apply IH. intros. apply HQ; [by right|done].
Qed.
Lemma concat_fmap_rows {A B C} (f : B -> C) (g : A -> list B) (l : list A) :
  f <$> concat (g <$> l) = concat ((fun a => f <$> g a) <$> l).
Proof. induction l as [|a l IH]; csimpl; [done|]. by rewrite fmap_app, IH. Qed.

Lemma indexed_NoDup {A} (neg : A -> list Z) k (l : list A) idxs :
  (0 <= k)%Z -> NoDup (concat (neg <$> l)) -> Forall (fun i => (i < 0)%Z) (concat (neg <$> l)) ->
  Forall2 (fun ix => indexed ix.1 (neg ix.2)) (enumerate_from k l) idxs ->
  NoDup (concat idxs) /\ forall i, i ∈ concat idxs -> (k <= i)%Z \/ i ∈ concat (neg <$> l).
Proof.
  revert k idxs. induction l as [|x l IH]; intros k idxs Hk Hn Hneg; simpl.
  { inversion 1; subst. split; [constructor|]. by intros i ?%elem_of_nil. }
  intros (row & idxs' & (pos & Hlen & Hpos & ->) & Hf & ->)%Forall2_cons_inv_l. csimpl in *.
  apply NoDup_app in Hn as (Hn1 & Hdis & Hn2). apply Forall_app in Hneg as [Hneg1 Hneg2].
  destruct (IH (k + 1)%Z idxs') as [Hnd Hin]; [lia|done..|]. rewrite Forall_forall in Hpos, Hneg1, Hneg2.
  assert (forall i, i ∈ pos -> (i ∉ neg x) /\ (i ∉ concat idxs')) as Hsep.
  { intros i <-%Hpos. split; [intros Hi%Hneg1; lia|]. intros [?|Hi%Hneg2]%Hin; lia. }
  split.
  - rewrite <- app_assoc. apply NoDup_app. split_and!.
    + destruct pos as [|p [|]]; simpl in *; [constructor|apply NoDup_singleton|lia].
    + intros i Hi. rewrite elem_of_app. specialize (Hsep i Hi). tauto.
    + apply NoDup_app. split_and!; [done| |done]. intros i Hi [Hc|Hc]%Hin; [specialize (Hneg1 i Hi); lia|by eapply Hdis].
  - intros i. rewrite !elem_of_app. intros [[<-%Hpos|?]|[?|?]%Hin]; [left; lia|by right; left|left; lia|by right; right].
Qed.

Lemma elem_of_moved helper a x : x ∈ moved helper a -> (- x)%Z ∈ (transfers_of helper a).*1.
Proof.
  intros ([i e] & -> & [_ Hin]%list_elem_of_filter)%list_elem_of_fmap. simpl. rewrite Z.opp_involutive.
  by apply (list_elem_of_fmap_2 fst) in Hin.
Qed.
Lemma moved_NoDup_one helper a : NoDup (transfers_of helper a).*1 -> NoDup (moved helper a).
Proof.
  unfold moved. induction (transfers_of helper a) as [|[i e] l IH]; csimpl; [constructor|].
  intros [Hi Hn]%NoDup_cons. destruct (decide (moves e = true)) as [Hm|Hm].
  - rewrite list.filter_cons_True by exact Hm. csimpl. apply NoDup_cons. split; [|by apply IH].
    intros ([j f] & Hj & [_ Hin]%list_elem_of_filter)%list_elem_of_fmap. simpl in Hj. apply Hi.
    replace i with j by lia. by apply (list_elem_of_fmap_2 fst) in Hin.
  - rewrite list.filter_cons_False by exact Hm. by apply IH.
Qed.
Lemma moved_NoDup fresh n helper tokens :
  slots_ok fresh n n helper -> (forall a, a ∈ tokens -> a ∈ fresh) -> NoDup tokens ->
  NoDup (concat (moved helper <$> tokens)) /\ Forall (fun i => (i < 0)%Z) (concat (moved helper <$> tokens)).
Proof.
  intros [Ho Hd] Hsub Hn. split.
  - revert Hsub. induction Hn as [|a tokens Ha _ IH]; intros Hsub; csimpl; [constructor|].
    apply NoDup_app. split_and!.
    + apply moved_NoDup_one. apply Ho, Hsub. by left.
    + intros x Hx%elem_of_moved (row & (b & -> & Hb)%list_elem_of_fmap & Hx'%elem_of_moved)%elem_of_concat.
      rewrite (Hd a b (- x)%Z) in Ha; [done|apply Hsub; by left|apply Hsub; by right|done..].
    + apply IH. intros b Hb. apply Hsub. by right.
  - apply Forall_forall. intros x (row & (b & -> & Hb)%list_elem_of_fmap & Hx%elem_of_moved)%elem_of_concat.
    apply Ho in Hx as (j & Hj & Hs); [|by apply Hsub]. unfold slot in Hs. case_decide; lia.
Qed.
Lemma concat_moved v helper changes :
  concat (moved_by v helper <$> changes) = concat (moved helper <$> omap (M := list) (token_address v) changes).
Proof.
  induction changes as [|wsc l IH]; csimpl; [done|]. unfold moved_by at 1. rewrite IH.
  by destruct (token_address v wsc).
Qed.

(** The ownership rows of a transaction have distinct indices. *)
Lemma txn_own_indices t u info ts ef helper0 helper1 helper ev handles logs :
  t_txn_data t = Some (TdUser u) -> t_info t = Some info -> token_txn_ok t ->
  let v := as_i64 (t_version t) in
  foldM (collect_object_core v) helper0 (ti_changes info) = Ret helper1 ->
  foldM (fill_token_object v) helper1 (ti_changes info) = Ret helper ->
  foldM (token_v2_event_step v ts ef (Z.of_nat (length (ut_events u))))
    {| te_writes := []; te_helper := helper; tokens_burned := ∅; tokens_minted := ∅ |}
    (enumerate (ut_events u)) = Ret ev ->
  Forall2 (change_writes v ts handles (te_helper ev) (tokens_burned ev)) (enumerate (ti_changes info)) logs ->
  NoDup (own_indices (concat logs)).
Proof.
  intros Ed Ei Hok v H1' H2' H3' Hl. unfold token_txn_ok in Hok. rewrite Ed, Ei in Hok. destruct Hok as [Hn Htok].
  set (fresh := omap (M := list) (core_address v) (ti_changes info)) in *.
  apply (events_slots fresh) in H3' as [Hok Hburn]; [|lia|lia|].
  2:{ assert (forall a, a ∈ fresh -> transfers_of helper a = []) as Hnone.
      { intros a Ha. by rewrite (fill_transfers _ _ _ _ _ H2'), (collect_transfers _ _ _ _ _ H1' Ha). }
      split; simpl.
      - intros a Ha. rewrite Hnone by done. split; [constructor|]. by intros i ?%elem_of_nil.
      - intros a b i Ha _. rewrite Hnone by done. by intros ?%elem_of_nil. }
  destruct (moved_NoDup fresh _ (te_helper ev) (omap (M := list) (token_address v) (ti_changes info)) Hok)
    as [Hmn Hneg]; [by intros a Ha; apply Htok|done|].
  rewrite <- concat_moved in Hmn, Hneg.
  apply (indexed_NoDup (moved_by v (te_helper ev)) 0 _ (own_indices <$> logs)) in Hmn as [Hnd _]; [|lia|done|].
  - unfold own_indices at 1. rewrite omap_concat, concat_fmap_rows. exact Hnd.
  - apply Forall2_fmap_r. eapply Forall2_impl_in; [exact Hl|]. intros [i wsc] ws Hin Hc. simpl.
    eapply change_ownerships; [exact Hc|]. intros a Ha.
    destruct (tokens_burned ev !! a) as [b|] eqn:Hb; [|done].
    apply Hburn in Hb as [[? He]|Hb]; [simpl in He; by rewrite lookup_empty in He|].
    exfalso. eapply Htok; [|exact Hb]. apply list_elem_of_omap. exists wsc. split; [|done].
    apply elem_of_enumerate_from in Hin as (j & _ & Hj). by eapply list_elem_of_lookup_2.
Qed.

(** ** A batch *)

(** The current rows are filed under their keys and carry versions of the
    batch; a row in the table of deleted token data is marked deleted. *)
Definition acc_inv (vs : list Z) (acc : TokenV2Acc) : Prop :=
  holds ccol2_collection_id (fun c => ccol2_last_transaction_version c ∈ vs) (current_collections_v2 acc) /\
  holds ctd2_token_data_id (fun c => ctd2_last_transaction_version c ∈ vs) (current_token_datas_v2 acc) /\
  holds ctd2_token_data_id (fun c => ctd2_last_transaction_version c ∈ vs /\ ctd2_is_deleted_v2 c = Some true)
    (current_deleted_token_datas_v2 acc) /\
  holds cto2_pk (fun c => cto2_last_transaction_version c ∈ vs) (current_token_ownerships_v2 acc) /\
  holds cto2_pk (fun c => cto2_last_transaction_version c ∈ vs) (current_deleted_token_ownerships_v2 acc) /\
  holds ctm_pk (fun c => ctm_last_transaction_version c ∈ vs) (current_token_v2_metadata acc).

Lemma store_inv vs v i acc w : v ∈ vs -> acc_inv vs acc -> write_at v i w -> acc_inv vs (store acc w).
Proof.
  intros Hv (I1 & I2 & I3 & I4 & I5 & I6) Hw. unfold acc_inv, store.
  destruct w; simpl in *; split_and!; try done; try (apply holds_insert; [done|done|]); try (destruct_and?; split_and?; congruence).
  apply holds_extend; [done|]. eapply holds_impl; [|exact Hw]. by intros c ->.
Qed.
Lemma store_all_inv vs v acc ws :
  v ∈ vs -> acc_inv vs acc -> Forall (fun w => exists i, write_at v i w) ws -> acc_inv vs (store_all acc ws).
Proof.
  intros Hv. revert acc. induction ws as [|w ws IH]; intros acc Ha Hw; simpl; [done|].
  apply Forall_cons in Hw as [[i Hw] Hws]. apply IH; [|done]. by eapply store_inv.
Qed.

(** The writes of a transaction. *)
Definition txn_writes (t : Transaction) (ws : list TokenV2Write) : Prop :=
  Forall (fun w => exists i, write_at (as_i64 (t_version t)) i w) ws /\
  NoDup (col2_write_set_change_index <$> omap (M := list) pick_collection ws) /\
  NoDup (td2_write_set_change_index <$> omap (M := list) pick_token_data ws) /\
  NoDup (ta2_event_index <$> omap (M := list) pick_activity ws) /\
  (token_txn_ok t -> NoDup (own_indices ws)).

Lemma Forall_concat_log {A B} (P : A -> list B -> Prop) (Q : B -> Prop) l logs :
  (forall x rows, P x rows -> Forall Q rows) -> Forall2 P l logs -> Forall Q (concat logs).
Proof.
  intros HP Hf. apply Forall_concat, Forall_forall. intros rows Hr.
  apply list_elem_of_lookup in Hr as [i Hi]. destruct (Forall2_lookup_r _ _ _ _ _ Hf Hi) as (x & _ & Hx). eauto.
Qed.

Lemma pick_at {R} (pick : TokenV2Write -> option R) (idx : R -> Z) v i ws :
  (forall w r, pick w = Some r -> write_at v i w -> idx r = i) ->
  Forall (write_at v i) ws -> Forall (fun r => idx r = i) (omap (M := list) pick ws).
Proof.
  intros Hp Hw. apply Forall_forall. intros r (w & Hin & Hr)%list_elem_of_omap.
  rewrite Forall_forall in Hw. eauto.
Qed.

Lemma pick_version {R} (pick : TokenV2Write -> option R) (version : R -> Z) v ws :
  (forall w r i, pick w = Some r -> write_at v i w -> version r = v) ->
  Forall (fun w => exists i, write_at v i w) ws -> Forall (fun r => version r = v) (omap (M := list) pick ws).
Proof.
  intros Hp Hw. apply Forall_forall. intros r (w & Hin & Hr)%list_elem_of_omap.
  rewrite Forall_forall in Hw. destruct (Hw w Hin) as [i Hi]. eauto.
Qed.

Lemma txn_writes_of v ts handles ef n helper burned events changes st ev logs t :
  v = as_i64 (t_version t) ->
  te_writes st = [] ->
  foldM (token_v2_event_step v ts ef n) st (enumerate events) = Ret ev ->
  Forall2 (change_writes v ts handles helper burned) (enumerate changes) logs ->
  (token_txn_ok t -> NoDup (own_indices (concat logs))) ->
  txn_writes t (te_writes ev ++ concat logs).
Proof.
  intros -> Hst He Hl Hown. apply token_v2_events_log in He as (elogs & Hel & ->). rewrite Hst. simpl.
  set (v := as_i64 (t_version t)) in *.
  assert (Forall2 (fun iwsc ws => change_writes_at v iwsc.1 ws) (enumerate changes) logs) as Hl'.
  { eapply Forall2_impl; [exact Hl|]. intros [i wsc] ws (p & p' & Hc). by eapply token_v2_change_at. }
  unfold txn_writes. rewrite !omap_app. split_and!.
  - apply Forall_app. split.
    + eapply Forall_concat_log; [|exact Hel]. intros iev ws [Hw _].
      eapply Forall_impl; [exact Hw|]. simpl. eauto.
    + eapply Forall_concat_log; [|exact Hl']. intros iwsc ws [Hw _].
      eapply Forall_impl; [exact Hw|]. simpl. eauto.
  - rewrite (log_rows_nil _ pick_collection _ _ (fun x rows Hx => proj1 (proj2 (proj2 Hx))) Hel). simpl.
    apply (log_rows_NoDup (fun iwsc ws => change_writes_at v iwsc.1 ws) pick_collection col2_write_set_change_index) in Hl' as [? _]; [done|].
    intros ix rows (Hw & Hlen & _). split; [done|]. eapply pick_at; [|exact Hw].
    intros [] r; simpl; naive_solver.
  - rewrite (log_rows_nil _ pick_token_data _ _ (fun x rows Hx => proj1 (proj2 (proj2 (proj2 Hx)))) Hel). simpl.
    apply (log_rows_NoDup (fun iwsc ws => change_writes_at v iwsc.1 ws) pick_token_data td2_write_set_change_index) in Hl' as [? _]; [done|].
    intros ix rows (Hw & _ & Hlen & _). split; [done|]. eapply pick_at; [|exact Hw].
    intros [] r; simpl; naive_solver.
  - rewrite (log_rows_nil _ pick_activity _ _ (fun x rows Hx => proj2 (proj2 (proj2 Hx))) Hl'). rewrite app_nil_r.
    apply (log_rows_NoDup (fun iev ws => event_writes_at v iev.1 ws) pick_activity ta2_event_index) in Hel as [? _]; [done|].
    intros ix rows (Hw & Hlen & _). split; [done|]. eapply pick_at; [|exact Hw].
    intros [] r; simpl; naive_solver.
  - intros Ht. rewrite own_indices_app.
    replace (own_indices (concat elogs)) with (@nil Z); [by apply Hown|]. symmetry. unfold own_indices.
    by rewrite (log_rows_nil _ pick_ownership _ _ (fun x rows Hx => proj2 (proj2 (proj2 (proj2 Hx)))) Hel).
Qed.

Lemma token_v2_fold_log handles transactions st st' :
  foldM (token_v2_step queries query_retries handles) st transactions = Ret st' ->
  exists logs, Forall2 txn_writes transactions logs /\ v2_acc st' = store_all (v2_acc st) (concat logs).
Proof.
  intros Hf. eapply (foldM_log (fun _ => True) (fun s rows s' => v2_acc s' = store_all (v2_acc s) rows)
    txn_writes) in Hf as [_ ?]; [done|done| | |done].
  - intros s1 l1 s2 l2 s3 E1 E2. by rewrite E2, E1, store_all_app.
  - intros s t s' _ _ Hs. split; [done|].
    apply token_v2_step_parts in Hs as [[-> _]|(u & info & ts & ef & h0 & h & ev & prior & logs & Ed & Ei & _ & H1' & H2' & He & Hl & ->)].
    + exists []. split; [done|]. unfold txn_writes. simpl. split_and!; constructor.
    + exists (te_writes ev ++ concat logs). split; [done|]. eapply txn_writes_of; [reflexivity| |exact He|exact Hl|]; [done|].
      intros Ht. by eapply txn_own_indices.
Qed.

Lemma Forall2_app_store transactions logs acc vs :
  Forall2 txn_writes transactions logs -> (forall t, t ∈ transactions -> as_i64 (t_version t) ∈ vs) ->
  acc_inv vs acc -> acc_inv vs (store_all acc (concat logs)).
Proof.
  intros Hl. revert acc. induction Hl as [|t ws ts logs Hw _ IH]; intros acc Hv Ha; simpl; [done|].
  rewrite store_all_app. apply IH; [intros; apply Hv; by right|].
  eapply store_all_inv; [apply Hv; by left|done|]. by destruct Hw as [? _].
Qed.

Lemma token_v2_rows_state `{HashOrder} transactions rows :
  token_v2_rows queries query_retries transactions = Ret rows ->
  exists handles st logs, foldM (token_v2_step queries query_retries handles)
      {| v2_acc := token_v2_init; prior_nft_ownership := ∅; token_v2_metadata_helper := ∅ |} transactions = Ret st /\
    Forall2 txn_writes transactions logs /\ v2_acc st = store_all token_v2_init (concat logs) /\
    acc_inv (txn_versions transactions) (v2_acc st) /\ rows = sorted_rows (v2_acc st).
Proof.
  unfold token_v2_rows, parse_v2_token. intros Hr. apply bind_Ret in Hr as (handles & _ & Hr).
  apply bind_Ret in Hr as (st & Hf & Hr). injection Hr as <-.
  destruct (token_v2_fold_log _ _ _ _ Hf) as (logs & Hl & Ha). exists handles, st, logs. split_and!; try done.
  rewrite Ha. eapply Forall2_app_store; [exact Hl| |split_and!; apply holds_empty].
  intros t Ht. by apply (list_elem_of_fmap_2 (fun t => as_i64 (t_version t))).
Qed.

(** ** Tables written by two queries *)

(** The columns of an ownership that both queries set. *)
Record OwnershipView := {
  ov_key : string * BigDecimal * string * string;
  ov_amount : BigDecimal;
  ov_is_fungible_v2 : option bool;
  ov_last_transaction_version : Z;
  ov_last_transaction_timestamp : NaiveDateTime;
}.
Definition ownership_view (c : CurrentTokenOwnershipV2) : OwnershipView :=
  {| ov_key := cto2_pk c; ov_amount := cto2_amount c; ov_is_fungible_v2 := cto2_is_fungible_v2 c;
     ov_last_transaction_version := cto2_last_transaction_version c;
     ov_last_transaction_timestamp := cto2_last_transaction_timestamp c |}.
Definition set_ownership_view (old new : OwnershipView) : OwnershipView :=
  {| ov_key := ov_key old; ov_amount := ov_amount new; ov_is_fungible_v2 := ov_is_fungible_v2 new;
     ov_last_transaction_version := ov_last_transaction_version new;
     ov_last_transaction_timestamp := ov_last_transaction_timestamp new |}.
Definition ownership_view_query : Upsert OwnershipView (string * BigDecimal * string * string) :=
  {| up_key := ov_key;
     up_action := DoUpdate set_ownership_view;
     up_where := Some (fun old new =>
       bool_decide (ov_last_transaction_version old <= ov_last_transaction_version new)%Z) |}.
#[export] Instance ownership_view_lww : Lww ownership_view_query.
Proof.
  refine {| lww_rank := ov_last_transaction_version; lww_static_type := unit; lww_static := fun _ => tt;
            lww_set := set_ownership_view |}; try done.
  intros [] [] Hk _. simpl in *. by subst.
Defined.
#[export] Instance live_ownership_projects :
  Projects ownership_view ownership_view_query insert_current_token_ownerships_v2_query.
Proof. done. Qed.
#[export] Instance deleted_ownership_projects :
  Projects ownership_view ownership_view_query insert_current_deleted_token_ownerships_v2_query.
Proof. done. Qed.

(** The identity and the version of token data. *)
Definition token_data_view (c : CurrentTokenDataV2) : string * Z :=
  (ctd2_token_data_id c, ctd2_last_transaction_version c).
#[export] Instance live_token_data_projects :
  Projects token_data_view version_query insert_current_token_datas_v2_query.
Proof. done. Qed.
#[export] Instance deleted_token_data_projects :
  Projects token_data_view version_query insert_current_deleted_token_datas_v2_query.
Proof. done. Qed.

(** The writes of a batch to the two tables, with their queries. *)
Definition token_data_writes (rows : TokenV2Rows) : list (Upsert CurrentTokenDataV2 string * CurrentTokenDataV2) :=
  tag insert_current_token_datas_v2_query (rows_current_token_datas_v2 rows) ++
  tag insert_current_deleted_token_datas_v2_query (rows_current_deleted_token_datas_v2 rows).
Definition ownership_writes (rows : TokenV2Rows)
  : list (Upsert CurrentTokenOwnershipV2 (string * BigDecimal * string * string) * CurrentTokenOwnershipV2) :=
  tag insert_current_token_ownerships_v2_query (rows_current_token_ownerships_v2 rows) ++
  tag insert_current_deleted_token_ownerships_v2_query (rows_current_deleted_token_ownerships_v2 rows).

Lemma fmap_snd_tag {row key C} (f : row -> C) (u : Upsert row key) (l : list row) :
  (fun w => f w.2) <$> tag u l = f <$> l.
Proof. unfold tag. rewrite <- list_fmap_compose. done. Qed.
Lemma Forall_tag {row key} (P : Upsert row key -> Prop) u (l : list row) : P u -> Forall (fun w => P w.1) (tag u l).
Proof. intros Hu. apply Forall_fmap, Forall_true. by intros r. Qed.
Lemma Forall_concat_fmap {A B} (P : B -> Prop) (g : A -> list B) (l : list A) :
  (forall a, Forall P (g a)) -> Forall P (concat (g <$> l)).
Proof. intros Hg. induction l as [|a l IH]; csimpl; [constructor|]. by apply Forall_app. Qed.

(** No token is both held and given up by one owner in one transaction. *)
Definition held_or_given (rows : TokenV2Rows) : Prop :=
  forall a b, a ∈ rows_current_token_ownerships_v2 rows -> b ∈ rows_current_deleted_token_ownerships_v2 rows ->
    cto2_pk a = cto2_pk b -> cto2_last_transaction_version a ≠ cto2_last_transaction_version b.

Lemma rows_holds `{HashOrder} {K V} `{Countable K, !KeyOrder K, !KeyOrderLaws K} (key : V -> K) (P : V -> Prop)
    (m : gmap K V) :
  holds key P m ->
  NoDup (key <$> sort_by key (into_values m)) /\ forall c, c ∈ sort_by key (into_values m) -> P c.
Proof. intros Hm. eapply holds_rows; [exact Hm|]. apply sort_by_perm. Qed.

Lemma token_v2_current `{HashOrder} transactions rows :
  token_v2_rows queries query_retries transactions = Ret rows ->
  let vs := txn_versions transactions in
  (NoDup (ccol2_collection_id <$> rows_current_collections_v2 rows) /\
     forall c, c ∈ rows_current_collections_v2 rows -> ccol2_last_transaction_version c ∈ vs) /\
  (NoDup (ctd2_token_data_id <$> rows_current_token_datas_v2 rows) /\
     forall c, c ∈ rows_current_token_datas_v2 rows -> ctd2_last_transaction_version c ∈ vs) /\
  (NoDup (ctd2_token_data_id <$> rows_current_deleted_token_datas_v2 rows) /\
     forall c, c ∈ rows_current_deleted_token_datas_v2 rows ->
       ctd2_last_transaction_version c ∈ vs /\ ctd2_is_deleted_v2 c = Some true) /\
  (NoDup (cto2_pk <$> rows_current_token_ownerships_v2 rows) /\
     forall c, c ∈ rows_current_token_ownerships_v2 rows -> cto2_last_transaction_version c ∈ vs) /\
  (NoDup (cto2_pk <$> rows_current_deleted_token_ownerships_v2 rows) /\
     forall c, c ∈ rows_current_deleted_token_ownerships_v2 rows -> cto2_last_transaction_version c ∈ vs) /\
  (NoDup (ctm_pk <$> rows_current_token_v2_metadata rows) /\
     forall c, c ∈ rows_current_token_v2_metadata rows -> ctm_last_transaction_version c ∈ vs).
Proof.
  intros (handles & st & logs & _ & _ & _ & (I1 & I2 & I3 & I4 & I5 & I6) & ->)%token_v2_rows_state.
  repeat (split; [by apply rows_holds|]). by apply rows_holds.
Qed.

(** The rows of the lists, from the writes. *)
Lemma store_all_lists acc ws :
  collections_v2 (store_all acc ws) = collections_v2 acc ++ omap (M := list) pick_collection ws /\
  token_datas_v2 (store_all acc ws) = token_datas_v2 acc ++ omap (M := list) pick_token_data ws /\
  token_ownerships_v2 (store_all acc ws) = token_ownerships_v2 acc ++ omap (M := list) pick_ownership ws /\
  token_activities_v2 (store_all acc ws) = token_activities_v2 acc ++ omap (M := list) pick_activity ws.
Proof.
  revert acc. induction ws as [|w ws IH]; intros acc; simpl; [by rewrite !app_nil_r|].
  destruct (IH (store acc w)) as (-> & -> & -> & ->).
  destruct w; csimpl; rewrite ?app_nil_r, <- ?app_assoc; done.
Qed.

(** C25: no statement of the token processor has a key twice.  In a batch of
    distinct versions in which a token is written once per transaction,
    together with its object, and not also burned there, the keys of every
    list of rows are distinct: of the history of
    ownerships too, where a transfer is filed under the negated index of its
    event, and the first event under the number of events. *)
Theorem token_v2_rows_distinct `{HashOrder} (transactions : list Transaction) (rows : TokenV2Rows) :
  Forall (fun t => in_u64 (t_version t)) transactions -> NoDup (t_version <$> transactions) ->
  Forall token_txn_ok transactions ->
  token_v2_rows queries query_retries transactions = Ret rows ->
  NoDup (up_key insert_collections_v2_query <$> rows_collections_v2 rows) /\
  NoDup (up_key insert_token_datas_v2_query <$> rows_token_datas_v2 rows) /\
  NoDup (up_key insert_token_ownerships_v2_query <$> rows_token_ownerships_v2 rows) /\
  NoDup (up_key insert_token_activities_v2_query <$> rows_token_activities_v2 rows) /\
  NoDup (up_key insert_current_collections_v2_query <$> rows_current_collections_v2 rows) /\
  NoDup (up_key insert_current_token_datas_v2_query <$> rows_current_token_datas_v2 rows) /\
  NoDup (up_key insert_current_deleted_token_datas_v2_query <$> rows_current_deleted_token_datas_v2 rows) /\
  NoDup (up_key insert_current_token_ownerships_v2_query <$> rows_current_token_ownerships_v2 rows) /\
  NoDup (up_key insert_current_deleted_token_ownerships_v2_query <$> rows_current_deleted_token_ownerships_v2 rows) /\
  NoDup (up_key insert_current_token_v2_metadatas_query <$> rows_current_token_v2_metadata rows).
Proof.
  intros Hv Hn Hok Hr. pose proof (batch_versions_NoDup _ Hv Hn) as Hvn.
  pose proof (token_v2_current _ _ Hr) as ([C1 _] & [C2 _] & [C3 _] & [C4 _] & [C5 _] & [C6 _]).
  apply token_v2_rows_state in Hr as (handles & st & logs & _ & Hl & Ha & _ & ->).
  destruct (store_all_lists token_v2_init (concat logs)) as (L1 & L2 & L3 & L4). rewrite <- Ha in L1, L2, L3, L4.
  assert (Forall2 (fun t ws => txn_writes t ws /\ NoDup (own_indices ws)) transactions logs) as Hl'.
  { eapply Forall2_impl_in; [exact Hl|]. intros t ws Ht Hw. split; [done|].
    rewrite Forall_forall in Hok. by apply Hw, Hok. }
  simpl. rewrite L1, L2, L3, L4. simpl. split_and!; try done.
  - eapply (batch_log_NoDup _ pick_collection col2_transaction_version); [exact Hl'| | |done].
    + intros t ws [[Hw _] _]. eapply pick_version; [|exact Hw]. intros [] r i; simpl; naive_solver.
    + intros t ws [(_ & ? & _) _]. done.
  - eapply (batch_log_NoDup _ pick_token_data td2_transaction_version); [exact Hl'| | |done].
    + intros t ws [[Hw _] _]. eapply pick_version; [|exact Hw]. intros [] r i; simpl; naive_solver.
    + intros t ws [(_ & _ & ? & _) _]. done.
  - eapply (batch_log_NoDup _ pick_ownership to2_transaction_version); [exact Hl'| | |done].
    + intros t ws [[Hw _] _]. eapply pick_version; [|exact Hw]. intros [] r i; simpl; naive_solver.
    + intros t ws [_ Hnd]. done.
  - eapply (batch_log_NoDup _ pick_activity ta2_transaction_version); [exact Hl'| | |done].
    + intros t ws [[Hw _] _]. eapply pick_version; [|exact Hw]. intros [] r i; simpl; naive_solver.
    + intros t ws [(_ & _ & _ & ? & _) _]. done.
Qed.

(** C24: the current tables of the token processor converge.  When the rows that
    batches with distinct versions emit are written in any order, the tables of
    collections and of metadata end up the same, with the newest rows.  The two
    tables that are written by two queries each, one for live and one for deleted
    rows, end up the same in some of the columns both queries set, and only in those:
    for token data the version is that of the newest write; for an ownership the
    amount, fungibility, version and timestamp are those of its newest write,
    provided that no batch emits for one owner and one transaction both a held and a
    given-up row of a token. *)
Theorem token_v2_tables_converge `{HashOrder} (batches : list (list Transaction)) (rows : list TokenV2Rows)
    collections metadata datas ownerships :
  NoDup (txn_versions (concat batches)) ->
  Forall2 (fun b r => token_v2_rows queries query_retries b = Ret r) batches rows ->
  collections ≡ₚ concat (rows_current_collections_v2 <$> rows) ->
  metadata ≡ₚ concat (rows_current_token_v2_metadata <$> rows) ->
  datas ≡ₚ concat (token_data_writes <$> rows) ->
  ownerships ≡ₚ concat (ownership_writes <$> rows) ->
  settles insert_current_collections_v2_query collections (concat (rows_current_collections_v2 <$> rows)) /\
  settles insert_current_token_v2_metadatas_query metadata (concat (rows_current_token_v2_metadata <$> rows)) /\
  view_settles token_data_view version_query datas (concat (token_data_writes <$> rows)) /\
  (Forall held_or_given rows ->
   view_settles ownership_view ownership_view_query ownerships (concat (ownership_writes <$> rows))).
Proof.
  intros Hn Hrows P1 P2 P3 P4. split_and!.
  - eapply (batches_settle _ _ _ ccol2_last_transaction_version); [done|done| |done|exact Hrows|done].
    intros b r Hr. by apply token_v2_current in Hr as (? & _).
  - eapply (batches_settle _ _ _ ctm_last_transaction_version); [done|done| |done|exact Hrows|done].
    intros b r Hr. by apply token_v2_current in Hr as (_ & _ & _ & _ & _ & ?).
  - apply (lww_view_settles token_data_view version_query); [| |done].
    { apply Forall_concat_fmap. intros r. apply Forall_app. split; apply Forall_tag; apply _. }
    rewrite concat_fmap_rows.
    eapply (batches_coherent_gen _ _ _ snd); [done|done| |done|exact Hrows].
    intros b r _ Hr. apply token_v2_current in Hr as (_ & [_ V1] & [_ V2] & _). split.
    + intros [] [] _ _ E1 E2. simpl in *. congruence.
    + intros c. unfold token_data_writes. rewrite fmap_app, !fmap_snd_tag, elem_of_app.
      intros [(x & -> & Hx)%list_elem_of_fmap|(x & -> & Hx)%list_elem_of_fmap]; simpl; [auto|by apply V2].
  - intros Hhg. apply (lww_view_settles ownership_view ownership_view_query); [| |done].
    { apply Forall_concat_fmap. intros r. apply Forall_app. split; apply Forall_tag; apply _. }
    rewrite concat_fmap_rows.
    eapply (batches_coherent_gen _ _ _ ov_last_transaction_version); [done|done| |done|exact Hrows].
    intros b r Hin Hr. rewrite Forall_forall in Hhg. specialize (Hhg r Hin).
    apply token_v2_current in Hr as (_ & _ & _ & [N1 V1] & [N2 V2] & _).
    unfold ownership_writes. rewrite fmap_app, !fmap_snd_tag. split.
    + intros c c'. rewrite !elem_of_app.
      intros [(x & -> & Hx)%list_elem_of_fmap|(x & -> & Hx)%list_elem_of_fmap]
             [(y & -> & Hy)%list_elem_of_fmap|(y & -> & Hy)%list_elem_of_fmap]; simpl; intros Hk Hv.
      * by rewrite (NoDup_fmap_key_inj cto2_pk (rows_current_token_ownerships_v2 r) x y).
      * by destruct (Hhg x y).
      * by destruct (Hhg y x).
      * by rewrite (NoDup_fmap_key_inj cto2_pk (rows_current_deleted_token_ownerships_v2 r) x y).
    + intros c. rewrite elem_of_app.
      intros [(x & -> & Hx)%list_elem_of_fmap|(x & -> & Hx)%list_elem_of_fmap]; simpl; auto.
Qed.
End TokensV2Laws.

(** ** Concrete batches *)

Section ConcreteTokensV2.
#[local] Existing Instance pair_chrono.
#[local] Existing Instance int_bigdec.
#[local] Existing Instance int_bigdec_key.
#[local] Existing Instance plain_hex.
#[local] Existing Instance plain_sha.
#[local] Existing Instance text_json.
#[local] Existing Instance map_order.
#[local] Existing Instance no_proto_json.
#[local] Existing Instance token_text_codec.
#[local] Existing Instance fa_amount_codec.
#[local] Existing Instance asset_codec.
#[local] Existing Instance no_entry_value.
#[local] Existing Instance no_script_value.
#[local] Existing Instance no_multisig_value.
#[local] Existing Instance plain_unescape.

Lemma token_v2_rows_distinct_witness :
  length (rows_token_ownerships_v2 ex_asset_rows) = 3 /\
  NoDup (up_key insert_token_ownerships_v2_query <$> rows_token_ownerships_v2 ex_asset_rows).
Proof.
  split; [vm_compute; reflexivity|].
  destruct (token_v2_rows_distinct ex_asset_queries 2 ex_asset_batch ex_asset_rows) as (_ & _ & Ho & _).
  - repeat constructor; simpl; lia.
  - apply (bool_decide_unpack _). vm_compute. exact I.
  - constructor; [|constructor]. simpl. split; [apply (bool_decide_unpack _); vm_compute; exact I|].
    intros a Ha. replace a with (standardize_address "0x77").
    + split; apply (bool_decide_unpack _); vm_compute; exact I.
    + symmetry. apply list_elem_of_singleton. exact Ha.
  - exact ex_asset_rows_ok.
  - exact Ho.
Defined.

(** The writes in the reverse order: the burn first. *)
Lemma token_v2_tables_converge_witness :
  let rows := [ex_asset_rows; ex_burn_rows] in
  view_settles ownership_view ownership_view_query (reverse (concat (ownership_writes <$> rows)))
    (concat (ownership_writes <$> rows)).
Proof.
  intros rows.
  destruct (token_v2_tables_converge ex_asset_queries 2 [ex_asset_batch; ex_burn_batch] rows
    (reverse (concat (rows_current_collections_v2 <$> rows)))
    (reverse (concat (rows_current_token_v2_metadata <$> rows)))
    (reverse (concat (token_data_writes <$> rows)))
    (reverse (concat (ownership_writes <$> rows)))) as (_ & _ & _ & Ho).
  - apply (bool_decide_unpack _). vm_compute. exact I.
  - constructor; [exact ex_asset_rows_ok|]. constructor; [exact ex_burn_rows_ok|constructor].
  - apply reverse_Permutation.
  - apply reverse_Permutation.
  - apply reverse_Permutation.
  - apply reverse_Permutation.
  - apply Ho. destruct ex_token_data_rows as (_ & _ & _ & _ & E1 & E2).
    constructor; [|constructor; [|constructor]]; intros a b Ha Hb.
    + rewrite E1 in Hb. destruct (not_elem_of_nil _ Hb).
    + rewrite E2 in Ha. destruct (not_elem_of_nil _ Ha).
Defined.
End ConcreteTokensV2.
