(* ===== verification/TokensV2Burns.v ===== *)
(** * Burned digital assets

    What the table of current token data holds after a burn. *)
From S2P Require Import Prelude RustStr Json Externals Proto Util Database SharedTable Processors.
From S2P Require Import DefaultModels TokenResources FungibleResources Objects FungibleAssets TokenUtils TokensV1 TokensV1Laws TokensV2 TokensV2Example TokensV2Owners TokensV2Laws.

(** ** Burned tokens *)

Section Burns.
Context `{Chrono, BigDec, HexCodec, Sha256, JsonParse, ProtoJson}.
Context `{!BigDecKey, !TokenV1Codec, !TokenCodec, !FungibleCodec}.
Context `{!Serialize EntryFunctionPayloadClean, !Serialize ScriptPayloadClean,
          !Serialize MultisigPayloadClean, !Unescape}.
Variable queries : TokenV2Queries.
Variable query_retries : nat.

Lemma token_data_writes_guarded (rows : list TokenV2Rows) :
  Forall (fun w => Projects token_data_view version_query w.1) (concat (token_data_writes <$> rows)).
Proof. apply Forall_concat_fmap. intros r. apply Forall_app. split; apply Forall_tag; apply _. Qed.

(** C27: a burned token ends up deleted.  If the newest write of a token in some
    batches is the one of its burn, the table has the token marked as deleted,
    with the version and the time of the burn, in whichever order the batches
    and the two statements on the table are executed. *)
Theorem burned_token_is_deleted `{HashOrder} (batches : list (list Transaction)) (rows : list TokenV2Rows)
    (r : TokenV2Rows) (burn : CurrentTokenDataV2) datas :
  Forall2 (fun b r => token_v2_rows queries query_retries b = Ret r) batches rows ->
  r ∈ rows -> burn ∈ rows_current_deleted_token_datas_v2 r ->
  datas ≡ₚ concat (token_data_writes <$> rows) ->
  (forall w, w ∈ datas -> ctd2_token_data_id w.2 = ctd2_token_data_id burn ->
     w = (insert_current_deleted_token_datas_v2_query, burn) \/
     (ctd2_last_transaction_version w.2 < ctd2_last_transaction_version burn)%Z) ->
  exists c, write_rows ∅ datas !! ctd2_token_data_id burn = Some c /\
    ctd2_is_deleted_v2 c = Some true /\
    ctd2_last_transaction_version c = ctd2_last_transaction_version burn /\
    ctd2_last_transaction_timestamp c = ctd2_last_transaction_timestamp burn.
Proof.
  intros Hrows Hr Hb Hp Hnew.
  assert (ctd2_is_deleted_v2 burn = Some true) as Hdel.
  { apply list_elem_of_lookup in Hr as [i Hi]. destruct (Forall2_lookup_r _ _ _ _ _ Hrows Hi) as (b & _ & Hc).
    apply token_v2_current in Hc as (_ & _ & [_ Hd] & _). by apply Hd. }
  destruct (newest_write token_data_view (insert_current_deleted_token_datas_v2_query, burn) datas)
    as (c & Hc & Hs & Hv).
  - rewrite Hp. apply token_data_writes_guarded.
  - rewrite Hp, elem_of_concat. exists (token_data_writes r). split; [by apply list_elem_of_fmap_2|].
    apply elem_of_app. right. by apply list_elem_of_fmap_2.
  - exact Hnew.
  - exists c. split; [exact Hc|]. destruct Hs as [->|(set & old & [= <-] & ->)]; done.
Qed.

Lemma written_token_is_live wr v i ts helper d cd :
  token_data_v2_from_write_resource wr v i ts helper = Ret (Ok (Some (d, cd))) ->
  ctd2_is_deleted_v2 cd = Some false /\ ctd2_last_transaction_version cd = v.
Proof.
  unfold token_data_v2_from_write_resource. intros Hr. apply try_bind_Ok in Hr as ([inner|] & Ht & Hr); [|done].
  apply bind_Ret in Hr as (nm & _ & Hr). destruct (helper !! _) as [o|]; [|done].
  apply bind_Ret in Hr as (nm' & _ & Hr). apply bind_Ret in Hr as (uri & _ & Hr). by injection Hr as <- <-.
Qed.

(** C36: a token that is minted again stays deleted.  The row of a written token
    says that it is not deleted, but the update of the table leaves the mark of
    an earlier burn in place while it takes the new version, name and
    collection. *)
Theorem reminted_token_stays_deleted wr v i ts helper d cd t old :
  token_data_v2_from_write_resource wr v i ts helper = Ret (Ok (Some (d, cd))) ->
  t !! ctd2_token_data_id cd = Some old -> ctd2_is_deleted_v2 old = Some true ->
  (ctd2_last_transaction_version old <= v)%Z ->
  ctd2_is_deleted_v2 cd = Some false /\
  exists r, upsert_row insert_current_token_datas_v2_query t cd !! ctd2_token_data_id cd = Some r /\
    ctd2_is_deleted_v2 r = Some true /\ ctd2_last_transaction_version r = v /\
    ctd2_token_name r = ctd2_token_name cd /\ ctd2_collection_id r = ctd2_collection_id cd.
Proof.
  intros Hw Hold Hdel Hv. apply written_token_is_live in Hw as [Hl Hcd]. split; [done|].
  exists (set_current_token_data_v2 old cd). split; [|done].
  rewrite upsert_row_lookup, decide_True by done. rewrite Hold. unfold upsert_at. simpl.
  by rewrite bool_decide_true by lia.
Qed.

(** what is known of a burned token depends on the order of the writes.  If
    its data is written before the burn, the name and the address stay in the
    table; if the burn of the later version comes first, the row has no name,
    no address and no properties, and the older data is not stored any more. *)
Theorem burned_token_data_depends_on_order address v ts burned live burn :
  burned_token_data address v ts burned = Some burn ->
  ctd2_token_data_id live = ctd2_token_data_id burn -> (ctd2_last_transaction_version live < v)%Z ->
  let id := ctd2_token_data_id burn in
  let before := (insert_current_token_datas_v2_query, live) in
  let after := (insert_current_deleted_token_datas_v2_query, burn) in
  (exists r, write_rows ∅ [before; after] !! id = Some r /\ ctd2_is_deleted_v2 r = Some true /\
     ctd2_token_name r = ctd2_token_name live /\ ctd2_token_uri r = ctd2_token_uri live /\
     ctd2_token_properties r = ctd2_token_properties live) /\
  (exists r, write_rows ∅ [after; before] !! id = Some r /\ ctd2_is_deleted_v2 r = Some true /\
     ctd2_token_name r = EmptyString /\ ctd2_token_uri r = EmptyString /\ ctd2_token_properties r = Null).
Proof.
  intros Hb Hid Hv. simpl. rewrite !upsert_row_lookup. simpl. rewrite Hid, !decide_True, !lookup_empty by done.
  assert (ctd2_last_transaction_version burn = v /\ ctd2_is_deleted_v2 burn = Some true /\
    ctd2_token_name burn = EmptyString /\ ctd2_token_uri burn = EmptyString /\ ctd2_token_properties burn = Null)
    as (Hbv & Hd & Hn & Hu & Hp).
  { unfold burned_token_data in Hb. case_match; [|done]. by injection Hb as <-. }
  unfold upsert_at. simpl. rewrite bool_decide_true, bool_decide_false by lia. split; by eexists.
Qed.
End Burns.

(** ** A concrete burn *)

Section ConcreteBurns.
#[local] Existing Instance pair_chrono.
#[local] Existing Instance int_bigdec.
#[local] Existing Instance int_bigdec_key.
#[local] Existing Instance plain_hex.
#[local] Existing Instance plain_sha.
#[local] Existing Instance text_json.
#[local] Existing Instance map_order.
#[local] Existing Instance no_proto_json.
#[local] Existing Instance token_text_codec.
#[local] Existing Instance fa_amount_codec.
#[local] Existing Instance asset_codec.
#[local] Existing Instance no_entry_value.
#[local] Existing Instance no_script_value.
#[local] Existing Instance no_multisig_value.
#[local] Existing Instance plain_unescape.

Lemma two_data_writes (a b : TokenV2Rows) x y :
  rows_current_token_datas_v2 a = [x] -> rows_current_deleted_token_datas_v2 a = [] ->
  rows_current_token_datas_v2 b = [] -> rows_current_deleted_token_datas_v2 b = [y] ->
  concat (token_data_writes <$> [a; b]) =
    [(insert_current_token_datas_v2_query, x); (insert_current_deleted_token_datas_v2_query, y)].
Proof. unfold token_data_writes. csimpl. by intros -> -> -> ->. Qed.
Lemma ex_data_writes :
  concat (token_data_writes <$> [ex_asset_rows; ex_burn_rows]) =
    [(insert_current_token_datas_v2_query, ex_live_row); (insert_current_deleted_token_datas_v2_query, ex_burn_row)].
Proof. destruct ex_token_data_rows as (E1 & E2 & E3 & E4 & _). exact (two_data_writes _ _ _ _ E1 E2 E3 E4). Qed.

Lemma burned_token_is_deleted_witness :
  let datas := reverse (concat (token_data_writes <$> [ex_asset_rows; ex_burn_rows])) in
  exists c, write_rows ∅ datas !! standardize_address "0x77" = Some c /\ ctd2_is_deleted_v2 c = Some true /\
    ctd2_last_transaction_version c = 8%Z.
Proof.
  intros datas.
  destruct (burned_token_is_deleted ex_asset_queries 2 [ex_asset_batch; ex_burn_batch] [ex_asset_rows; ex_burn_rows]
    ex_burn_rows ex_burn_row datas) as (c & Hc & Hd & Hv & _).
  - constructor; [exact ex_asset_rows_ok|]. constructor; [exact ex_burn_rows_ok|constructor].
  - right. left.
  - destruct ex_token_data_rows as (_ & _ & _ & -> & _). left.
  - apply reverse_Permutation.
  - intros w Hw _. unfold datas in Hw. rewrite ex_data_writes in Hw.
    apply elem_of_reverse, elem_of_cons in Hw as [->|Hw].
    + right. vm_compute. reflexivity.
    + left. exact (proj1 (list_elem_of_singleton _ _) Hw).
  - exists c. split; [exact Hc|]. split; [exact Hd|]. rewrite Hv. vm_compute. reflexivity.
Defined.

(** The token is minted again in version 9 under another name. *)
Definition ex_reminted : WriteResource :=
  {| wr_address := "0x77"; wr_state_key_hash := EmptyString;
     wr_type := Some (mk_MoveStructTag "0x4" "token" "Token" []);
     wr_type_str := "0x4::token::Token"; wr_data := "two" |}.
Definition is_some_result {A} (m : outcome (result (option A))) : bool :=
  match m with Ret (Ok (Some _)) => true | _ => false end.
Definition some_result {A} (d : A) (m : outcome (result (option A))) : A :=
  match m with Ret (Ok (Some r)) => r | _ => d end.
Lemma some_result_eq {A B} (d : A * B) m :
  is_some_result m = true -> m = Ret (Ok (Some ((some_result d m).1, (some_result d m).2))).
Proof. by destruct m as [[[[]|]|]|]. Qed.
Definition ex_remint_result : TokenDataV2 * CurrentTokenDataV2 :=
  some_result (ex_data, ex_no_data)
    (token_data_v2_from_write_resource ex_reminted 9 1 (9, 0)%Z (ex_object "0xa" [])).
Lemma ex_burn_lookup :
  ({[ standardize_address "0x77" := ex_burn_row ]} : gmap string CurrentTokenDataV2)
    !! ctd2_token_data_id ex_remint_result.2 = Some ex_burn_row.
Proof.
  replace (ctd2_token_data_id ex_remint_result.2) with (standardize_address "0x77") by (vm_compute; reflexivity).
  apply lookup_singleton_eq.
Qed.
Lemma ex_remint_ok :
  token_data_v2_from_write_resource ex_reminted 9 1 (9, 0)%Z (ex_object "0xa" []) =
    Ret (Ok (Some (ex_remint_result.1, ex_remint_result.2))).
Proof.
  apply some_result_eq. vm_compute. reflexivity.
Qed.
Lemma reminted_token_stays_deleted_witness :
  ctd2_is_deleted_v2 ex_remint_result.2 = Some false /\
  exists r, upsert_row insert_current_token_datas_v2_query {[ standardize_address "0x77" := ex_burn_row ]}
      ex_remint_result.2 !! standardize_address "0x77" = Some r /\
    ctd2_is_deleted_v2 r = Some true /\ ctd2_last_transaction_version r = 9%Z /\ ctd2_token_name r = "two".
Proof.
  destruct (reminted_token_stays_deleted ex_reminted 9 1 ((9, 0)%Z : @NaiveDateTime pair_chrono) (ex_object "0xa" []) ex_remint_result.1
    ex_remint_result.2 {[ standardize_address "0x77" := ex_burn_row ]} ex_burn_row)
    as (Hl & r & Hr & Hd & Hv & Hn & _).
  - exact ex_remint_ok.
  - exact ex_burn_lookup.
  - vm_compute. reflexivity.
  - apply Z.leb_le. vm_compute. reflexivity.
  - split; [exact Hl|]. exists r. split; [exact Hr|]. split; [exact Hd|]. split; [exact Hv|].
    rewrite Hn. vm_compute. reflexivity.
Defined.

Definition ex_burned : gmap string Burn :=
  {[ standardize_address "0x77" := {| burn_collection := "0xc"; burn_token := "0x77"; previous_owner := "0xd" |} ]}.
Definition ex_order_burn : CurrentTokenDataV2 :=
  default ex_no_data (burned_token_data "0x77" 8 ((8, 0)%Z : @NaiveDateTime pair_chrono) ex_burned).
Lemma default_Some {A} (d : A) (o : option A) : bool_decide (is_Some o) = true -> o = Some (default d o).
Proof. intros Ho%bool_decide_eq_true. by destruct Ho as [x ->]. Qed.
Lemma burned_token_data_depends_on_order_witness :
  exists r, write_rows ∅ [(insert_current_deleted_token_datas_v2_query, ex_order_burn);
                          (insert_current_token_datas_v2_query, ex_live_row)]
      !! standardize_address "0x77" = Some r /\ ctd2_token_name r = EmptyString.
Proof.
  destruct (burned_token_data_depends_on_order "0x77" 8 ((8, 0)%Z : @NaiveDateTime pair_chrono) ex_burned
    (ex_live_row) ex_order_burn) as (_ & r & Hr & _ & Hn & _).
  - apply default_Some. vm_compute. reflexivity.
  - vm_compute. reflexivity.
  - vm_compute. reflexivity.
  - exists r. split; [exact Hr|exact Hn].
Defined.
End ConcreteBurns.
