(* ===== verification/TransactionMetadata.v ===== *)
(** * Sizes of transactions, and the processor that only watches

    [models/transaction_metadata_model], [transaction_metadata_processor.rs]
    and [monitoring_processor.rs].  The tables of the sizes are written one
    after the other: an error ends the batch before the next table is
    touched. *)
From S2P Require Import Prelude RustStr Json Externals Proto Util Database Processors.

(** ** Rows *)

Record TransactionSize := { tsz_transaction_version : Z; tsz_size_bytes : Z }.
Record EventSize := {
  evs_transaction_version : Z;
  evs_index : Z;
  evs_type_tag_bytes : Z;
  evs_total_bytes : Z;
}.
Record WriteSetSize := {
  wss_transaction_version : Z;
  wss_index : Z;
  wss_key_bytes : Z;
  wss_value_bytes : Z;
}.
#[export] Instance TransactionSize_fields : FieldCount TransactionSize := 2.
#[export] Instance EventSize_fields : FieldCount EventSize := 4.
#[export] Instance WriteSetSize_fields : FieldCount WriteSetSize := 4.

(** [TransactionSize::from_transaction_info]. *)
Definition transaction_size (info : TransactionSizeInfo) (transaction_version : Z) : TransactionSize :=
  {| tsz_transaction_version := transaction_version;
     tsz_size_bytes := as_i64 (tsi_transaction_bytes info) |}.
(** [EventSize::from_event_size_info]. *)
Definition from_event_size_info (info : EventSizeInfo) (transaction_version index : Z) : EventSize :=
  {| evs_transaction_version := transaction_version;
     evs_index := index;
     evs_type_tag_bytes := as_i64 (esi_type_tag_bytes info);
     evs_total_bytes := as_i64 (esi_total_bytes info) |}.
(** [WriteSetSize::from_transaction_info]. *)
Definition write_set_size (info : WriteOpSizeInfo) (transaction_version index : Z) : WriteSetSize :=
  {| wss_transaction_version := transaction_version;
     wss_index := index;
     wss_key_bytes := as_i64 (wos_key_bytes info);
     wss_value_bytes := as_i64 (wos_value_bytes info) |}.

Record SizeRows := {
  transaction_sizes : list TransactionSize;
  event_sizes : list EventSize;
  write_set_sizes : list WriteSetSize;
}.
(** One round of the loop: a transaction without size information is skipped. *)
Definition size_step (rows : SizeRows) (txn : Transaction) : SizeRows :=
  let txn_version := as_i64 (t_version txn) in
  match t_size_info txn with
  | None => rows
  | Some size_info =>
      {| transaction_sizes := transaction_sizes rows ++ [transaction_size size_info txn_version];
         event_sizes := event_sizes rows ++
           ((fun ix => from_event_size_info ix.2 txn_version ix.1) <$> enumerate (tsi_event_size_info size_info));
         write_set_sizes := write_set_sizes rows ++
           ((fun ix => write_set_size ix.2 txn_version ix.1) <$> enumerate (tsi_write_op_size_info size_info)) |}
  end.
Definition size_rows (transactions : list Transaction) : SizeRows :=
  foldl size_step {| transaction_sizes := []; event_sizes := []; write_set_sizes := [] |} transactions.

(** ** Queries *)

Definition insert_transaction_sizes_query : Upsert TransactionSize Z :=
  {| up_key := tsz_transaction_version; up_action := DoNothing; up_where := None |}.
Definition insert_event_sizes_query : Upsert EventSize (Z * Z) :=
  {| up_key := fun r => (evs_transaction_version r, evs_index r); up_action := DoNothing; up_where := None |}.
Definition insert_write_set_sizes_query : Upsert WriteSetSize (Z * Z) :=
  {| up_key := fun r => (wss_transaction_version r, wss_index r); up_action := DoNothing; up_where := None |}.

(** ** The processor *)

Section SizesProcessor.
Context `{!Table TransactionSize Z, !Table EventSize (Z * Z), !Table WriteSetSize (Z * Z)}.

Record SizesDb := {
  db_transaction_sizes : table_state TransactionSize Z;
  db_event_sizes : table_state EventSize (Z * Z);
  db_write_set_sizes : table_state WriteSetSize (Z * Z);
}.
(** [insert_to_db]: each write is awaited, and its error returned, before the
    next one starts. *)
Definition insert_sizes (sizes : gmap string nat) (rows : SizeRows) (d d' : SizesDb)
    (res : outcome (result unit)) : Prop :=
  exists ts_res,
    write_table insert_transaction_sizes_query "transaction_size_info" sizes (transaction_sizes rows)
      (db_transaction_sizes d) (db_transaction_sizes d') ts_res /\
    match ts_res with
    | Ret (Ok _) => exists es_res,
        write_table insert_event_sizes_query "event_size_info" sizes (event_sizes rows)
          (db_event_sizes d) (db_event_sizes d') es_res /\
        match es_res with
        | Ret (Ok _) =>
            write_table insert_write_set_sizes_query "write_set_size_info" sizes (write_set_sizes rows)
              (db_write_set_sizes d) (db_write_set_sizes d') res
        | _ => db_write_set_sizes d' = db_write_set_sizes d /\ res = es_res
        end
    | _ => db_event_sizes d' = db_event_sizes d /\ db_write_set_sizes d' = db_write_set_sizes d /\ res = ts_res
    end.

(** [TransactionMetadataProcessor::process_transactions]: the last transaction
    is looked for only after the writes. *)
Definition process_sizes (sizes : gmap string nat) (transactions : list Transaction) (s e : Z)
    (db_chain_id : option Z) (d d' : SizesDb) (res : outcome (result ProcessingResult)) : Prop :=
  exists tx_result processing_duration db_duration,
    insert_sizes sizes (size_rows transactions) d d' tx_result /\
    res = match tx_result with
          | Ret (Ok _) =>
              lst ← unwrap (last transactions);
              Ret (Ok {| start_version := s; end_version := e; last_transaction_timestamp := t_timestamp lst;
                         processing_duration_in_secs := processing_duration;
                         db_insertion_duration_in_secs := db_duration |})
          | Ret Err => Ret Err
          | Panic => Panic
          end.

#[export] Instance transaction_metadata_processor (sizes : gmap string nat) : ProcessorTrait SizesDb :=
  {| processor_name := "transaction_metadata_processor"; process_transactions := process_sizes sizes |}.

Lemma process_sizes_ok sizes transactions s e chain d d' r :
  process_sizes sizes transactions s e chain d d' (Ret (Ok r)) ->
  (start_version r = s /\ end_version r = e) /\
  insert_sizes sizes (size_rows transactions) d d' (Ret (Ok tt)) /\ transactions ≠ [].
Proof.
  intros (tx & pd & dd & Hins & Hr). destruct tx as [[[]|]|]; try done.
  destruct (last transactions) as [lst|] eqn:Hl; [|done]. simpl in Hr. injection Hr as ->.
  split_and!; try done. by intros ->.
Qed.
#[export] Instance transaction_metadata_laws sizes : @ProcessorLaws _ (transaction_metadata_processor sizes).
Proof. intros txns s e chain d d' r Hr. by apply process_sizes_ok in Hr as [? _]. Qed.

(** ** The monitoring processor

    [MonitoringProcessor::process_transactions]: nothing is written, and no
    time is spent. *)
Definition process_monitoring {db : Type} (transactions : list Transaction) (s e : Z) (db_chain_id : option Z)
    (d d' : db) (res : outcome (result ProcessingResult)) : Prop :=
  d' = d /\
  res = (lst ← unwrap (last transactions);
         Ret (Ok {| start_version := s; end_version := e; last_transaction_timestamp := t_timestamp lst;
                    processing_duration_in_secs := 0; db_insertion_duration_in_secs := 0 |})).
Definition monitoring_processor (db : Type) : ProcessorTrait db :=
  {| processor_name := "monitoring_processor"; process_transactions := process_monitoring |}.
Lemma monitoring_laws db : @ProcessorLaws db (monitoring_processor db).
Proof.
  intros txns s e chain d d' r [_ Hr]. destruct (last txns); [|done]. by injection Hr as ->.
Qed.
End SizesProcessor.

(** ** The rows of a batch *)

Definition txn_transaction_sizes (t : Transaction) : list TransactionSize :=
  option_list ((fun info => transaction_size info (as_i64 (t_version t))) <$> t_size_info t).
Definition txn_event_sizes (t : Transaction) : list EventSize :=
  (fun ix => from_event_size_info ix.2 (as_i64 (t_version t)) ix.1) <$>
    enumerate (default [] (tsi_event_size_info <$> t_size_info t)).
Definition txn_write_set_sizes (t : Transaction) : list WriteSetSize :=
  (fun ix => write_set_size ix.2 (as_i64 (t_version t)) ix.1) <$>
    enumerate (default [] (tsi_write_op_size_info <$> t_size_info t)).

Lemma size_rows_flat transactions :
  size_rows transactions =
    {| transaction_sizes := concat (txn_transaction_sizes <$> transactions);
       event_sizes := concat (txn_event_sizes <$> transactions);
       write_set_sizes := concat (txn_write_set_sizes <$> transactions) |}.
Proof.
  induction transactions as [|t ts IH] using rev_ind; [done|].
  unfold size_rows in *. rewrite foldl_app, IH. simpl. rewrite !fmap_app, !concat_app. csimpl. rewrite !app_nil_r.
  unfold size_step, txn_transaction_sizes, txn_event_sizes, txn_write_set_sizes.
  destruct (t_size_info t) as [info|]; [done|]. simpl. by rewrite !app_nil_r.
Qed.

(** Rows of the version of their transaction, told apart by an index. *)
Lemma concat_version_NoDup {R K} (rows : Transaction -> list R) (version : R -> Z) (idx : R -> K)
    (transactions : list Transaction) :
  (forall t, Forall (fun r => version r = as_i64 (t_version t)) (rows t) /\ NoDup (idx <$> rows t)) ->
  NoDup (txn_versions transactions) ->
  NoDup ((fun r => (version r, idx r)) <$> concat (rows <$> transactions)).
Proof.
  intros Hrows Hn. rewrite <- (omap_some (concat _)).
  eapply (batch_log_NoDup (fun t l => l = rows t) Some version); [| | |exact Hn].
  - apply Forall2_fmap_r, Forall_Forall2_diag. by apply Forall_true.
  - intros t l ->. rewrite omap_some. apply Hrows.
  - intros t l ->. rewrite omap_some. apply Hrows.
Qed.
Lemma enumerate_rows_NoDup {A R} (f : Z * A -> R) (idx : R -> Z) (l : list A) :
  (forall ix, idx (f ix) = ix.1) -> NoDup (idx <$> (f <$> enumerate l)).
Proof.
  intros Hf. rewrite <- list_fmap_compose. rewrite (list_fmap_ext (idx ∘ f) fst (enumerate l)); [apply NoDup_enumerate_from|].
  intros i x _. apply Hf.
Qed.
Lemma elem_of_indexed_rows {A R} (f : Z * A -> R) (l : list A) (r : R) :
  r ∈ f <$> enumerate l <-> exists i x, l !! i = Some x /\ r = f (Z.of_nat i, x).
Proof.
  rewrite list_elem_of_fmap. split.
  - intros ([j x] & -> & Hin). apply elem_of_enumerate_from in Hin as (i & -> & Hi). exists i, x. by rewrite Z.add_0_l.
  - intros (i & x & Hi & ->). exists (Z.of_nat i, x). split; [done|]. apply elem_of_enumerate_from. by exists i.
Qed.

Lemma size_rows_keys transactions :
  NoDup (txn_versions transactions) ->
  NoDup (up_key insert_transaction_sizes_query <$> transaction_sizes (size_rows transactions)) /\
  NoDup (up_key insert_event_sizes_query <$> event_sizes (size_rows transactions)) /\
  NoDup (up_key insert_write_set_sizes_query <$> write_set_sizes (size_rows transactions)).
Proof.
  intros Hn. rewrite size_rows_flat. simpl. split_and!.
  - eapply NoDup_fmap_coarser; [|].
    + apply (concat_version_NoDup txn_transaction_sizes tsz_transaction_version (fun _ => tt) transactions); [|done].
      intros t. unfold txn_transaction_sizes.
      destruct (t_size_info t); simpl; (split; [by repeat constructor|]); [apply NoDup_singleton|constructor].
    + intros a b _ _ Hk. simpl in *. by rewrite Hk.
  - apply (concat_version_NoDup txn_event_sizes evs_transaction_version evs_index); [|done]. intros t. split.
    + apply Forall_fmap, Forall_true. done.
    + by apply enumerate_rows_NoDup.
  - apply (concat_version_NoDup txn_write_set_sizes wss_transaction_version wss_index); [|done]. intros t. split.
    + apply Forall_fmap, Forall_true. done.
    + by apply enumerate_rows_NoDup.
Qed.

(** the size rows of a batch are exactly the sizes its transactions carry:
    one row for each transaction with size information, and one for each of
    the sizes of its events and writes, at its position.  In a batch of
    distinct versions no table gets a key twice. *)
Theorem size_rows_exact (transactions : list Transaction) :
  Forall (fun t => in_u64 (t_version t)) transactions -> NoDup (t_version <$> transactions) ->
  let rows := size_rows transactions in
  (forall r, r ∈ transaction_sizes rows <-> exists t info, t ∈ transactions /\ t_size_info t = Some info /\
     r = transaction_size info (as_i64 (t_version t))) /\
  (forall r, r ∈ event_sizes rows <-> exists t info i e, t ∈ transactions /\ t_size_info t = Some info /\
     tsi_event_size_info info !! i = Some e /\ r = from_event_size_info e (as_i64 (t_version t)) (Z.of_nat i)) /\
  (forall r, r ∈ write_set_sizes rows <-> exists t info i w, t ∈ transactions /\ t_size_info t = Some info /\
     tsi_write_op_size_info info !! i = Some w /\ r = write_set_size w (as_i64 (t_version t)) (Z.of_nat i)) /\
  NoDup (up_key insert_transaction_sizes_query <$> transaction_sizes rows) /\
  NoDup (up_key insert_event_sizes_query <$> event_sizes rows) /\
  NoDup (up_key insert_write_set_sizes_query <$> write_set_sizes rows).
Proof.
  intros Hv Hn rows. pose proof (size_rows_keys _ (batch_versions_NoDup _ Hv Hn)) as Hkeys.
  split; [|split; [|split; [|exact Hkeys]]]; intros r; unfold rows; rewrite size_rows_flat; simpl;
    rewrite elem_of_concat; setoid_rewrite list_elem_of_fmap.
  - split.
    + intros (l & (t & -> & Ht) & Hr). unfold txn_transaction_sizes in Hr.
      destruct (t_size_info t) as [info|] eqn:Hi; [|by apply elem_of_nil in Hr].
      apply list_elem_of_singleton in Hr as ->. by exists t, info.
    + intros (t & info & Ht & Hi & ->). exists (txn_transaction_sizes t). split; [by exists t|].
      unfold txn_transaction_sizes. rewrite Hi. by left.
  - split.
    + intros (l & (t & -> & Ht) & (i & e & He & ->)%elem_of_indexed_rows).
      destruct (t_size_info t) as [info|] eqn:Hi; [|done]. by exists t, info, i, e.
    + intros (t & info & i & e & Ht & Hi & He & ->). exists (txn_event_sizes t). split; [by exists t|].
      unfold txn_event_sizes. apply elem_of_indexed_rows. rewrite Hi. by exists i, e.
  - split.
    + intros (l & (t & -> & Ht) & (i & w & Hw & ->)%elem_of_indexed_rows).
      destruct (t_size_info t) as [info|] eqn:Hi; [|done]. by exists t, info, i, w.
    + intros (t & info & i & w & Ht & Hi & Hw & ->). exists (txn_write_set_sizes t). split; [by exists t|].
      unfold txn_write_set_sizes. apply elem_of_indexed_rows. rewrite Hi. by exists i, w.
Qed.

(** ** The order of the writes *)

Section SizesStored.
Context `{!Table TransactionSize Z, !Table EventSize (Z * Z), !Table WriteSetSize (Z * Z)}.
Context `{!PgLaws TransactionSize Z, !PgLaws EventSize (Z * Z), !PgLaws WriteSetSize (Z * Z)}.

Definition sizes_stored (rows : SizeRows) (d : SizesDb) : Prop :=
  Forall (fun r => is_Some (pg_rows (db_transaction_sizes d) !! tsz_transaction_version r)) (transaction_sizes rows).
Definition event_sizes_stored (rows : SizeRows) (d : SizesDb) : Prop :=
  Forall (fun r => is_Some (pg_rows (db_event_sizes d) !! (evs_transaction_version r, evs_index r))) (event_sizes rows).
Definition write_set_sizes_stored (rows : SizeRows) (d : SizesDb) : Prop :=
  Forall (fun r => is_Some (pg_rows (db_write_set_sizes d) !! (wss_transaction_version r, wss_index r)))
    (write_set_sizes rows).

(** the tables of sizes are filled in order.  However a batch ends, the
    table of event sizes is touched only when the sizes of all transactions of
    the batch are stored, the table of write sizes only when the event
    sizes are stored too; a batch that succeeds is not empty and has stored all of
    them. *)
Theorem size_tables_in_order (sizes : gmap string nat) (transactions : list Transaction) (s e : Z)
    (chain : option Z) (d d' : SizesDb) (res : outcome (result ProcessingResult)) :
  let rows := size_rows transactions in
  NoDup (txn_versions transactions) ->
  Forall (clean_keeps_key insert_transaction_sizes_query) (transaction_sizes rows) ->
  Forall (clean_keeps_key insert_event_sizes_query) (event_sizes rows) ->
  Forall (clean_keeps_key insert_write_set_sizes_query) (write_set_sizes rows) ->
  process_sizes sizes transactions s e chain d d' res ->
  (db_event_sizes d' = db_event_sizes d \/ sizes_stored rows d') /\
  (db_write_set_sizes d' = db_write_set_sizes d \/ (sizes_stored rows d' /\ event_sizes_stored rows d')) /\
  (forall r, res = Ret (Ok r) ->
     sizes_stored rows d' /\ event_sizes_stored rows d' /\ write_set_sizes_stored rows d' /\ transactions ≠ []).
Proof.
  intros rows Hn C1 C2 C3 (tx & pd & dd & (r1 & W1 & Hrest) & Hres).
  destruct (size_rows_keys _ Hn) as (N1 & N2 & N3).
  destruct r1 as [[[]|]|].
  2,3: destruct Hrest as (E2 & E3 & ->); split_and!; [by left|by left|naive_solver].
  assert (sizes_stored rows d') as S1.
  { by eapply (write_table_keys insert_transaction_sizes_query). }
  destruct Hrest as (r2 & W2 & Hrest). destruct r2 as [[[]|]|].
  2,3: destruct Hrest as (E3 & ->); split_and!; [by right|by left|naive_solver].
  assert (event_sizes_stored rows d') as S2.
  { by eapply (write_table_keys insert_event_sizes_query). }
  split_and!; [by right|by right|].
  intros r ->. destruct tx as [[[]|]|]; try done. split_and!; [done..| |by intros ->].
  by eapply (write_table_keys insert_write_set_sizes_query).
Qed.
End SizesStored.

(** ** A concrete batch *)

Section ConcreteSizes.
Definition ex_size_txn (v : Z) (info : option TransactionSizeInfo) : Transaction :=
  {| t_timestamp := Some {| seconds := 1; nanos := 0 |}; t_version := v; t_info := None; t_epoch := 0;
     t_block_height := 1; t_type := 4; t_size_info := info; t_txn_data := None |}.
(** A transaction of 100 bytes with one event, and one without sizes. *)
Definition ex_size_batch : list Transaction :=
  [ex_size_txn 7 (Some {| tsi_transaction_bytes := 100;
                          tsi_event_size_info := [{| esi_type_tag_bytes := 3; esi_total_bytes := 40 |}];
                          tsi_write_op_size_info := [] |});
   ex_size_txn 8 None].
Definition ex_tsz : TransactionSize := {| tsz_transaction_version := 7; tsz_size_bytes := 100 |}.
Definition ex_evs : EventSize :=
  {| evs_transaction_version := 7; evs_index := 0; evs_type_tag_bytes := 3; evs_total_bytes := 40 |}.

Lemma size_rows_exact_witness :
  ex_evs ∈ event_sizes (size_rows ex_size_batch) /\
  NoDup (up_key insert_event_sizes_query <$> event_sizes (size_rows ex_size_batch)).
Proof.
  destruct (size_rows_exact ex_size_batch) as (_ & He & _ & _ & Hk & _).
  - repeat constructor; simpl; lia.
  - apply (bool_decide_unpack _). vm_compute. exact I.
  - split; [|exact Hk]. apply He. eexists _, _, 0, _. split; [left|]. split; [reflexivity|]. split; reflexivity.
Defined.

(** Tables in memory whose rows are read back unchanged from the one encoding
    that is used. *)
Definition ex_row_table {row} (key : Type) `{Countable key} (r : row) : Table row key :=
  {| table_pg := mem_table row key; table_debug := fun _ _ => EmptyString;
     table_serialize := fun _ => Some Null;
     table_deserialize := {| de_from_str := fun _ => None; de_from_value := fun _ => Some r |} |}.
#[local] Instance ex_tsz_table : Table TransactionSize Z := ex_row_table Z ex_tsz.
#[local] Instance ex_evs_table : Table EventSize (Z * Z) := ex_row_table (Z * Z) ex_evs.
#[local] Instance ex_wss_table : Table WriteSetSize (Z * Z) :=
  ex_row_table (Z * Z) {| wss_transaction_version := 0; wss_index := 0; wss_key_bytes := 0; wss_value_bytes := 0 |}.
Definition ex_sizes_empty : SizesDb :=
  {| db_transaction_sizes := (∅ : gmap Z TransactionSize); db_event_sizes := (∅ : gmap (Z * Z) EventSize);
     db_write_set_sizes := (∅ : gmap (Z * Z) WriteSetSize) |}.
Definition ex_sizes_full : SizesDb :=
  {| db_transaction_sizes := ({[ 7%Z := ex_tsz ]} : gmap Z TransactionSize);
     db_event_sizes := ({[ (7, 0)%Z := ex_evs ]} : gmap (Z * Z) EventSize);
     db_write_set_sizes := (∅ : gmap (Z * Z) WriteSetSize) |}.
Definition ex_size_chunks : gmap string nat :=
  {[ "transaction_size_info" := 10; "event_size_info" := 10; "write_set_size_info" := 10 ]}.
Definition ex_sizes_result : ProcessingResult :=
  {| start_version := 7; end_version := 8; last_transaction_timestamp := Some {| seconds := 1; nanos := 0 |};
     processing_duration_in_secs := 0; db_insertion_duration_in_secs := 0 |}.
Ltac one_chunk := eexists; split;
  [eapply rtc_l; [eapply (tasks_step_at _ 0); reflexivity|apply rtc_refl]
  |right; split_and!; [set_solver|reflexivity..]].
Lemma ex_sizes_processed :
  process_sizes ex_size_chunks ex_size_batch 7 8 None ex_sizes_empty ex_sizes_full (Ret (Ok ex_sizes_result)).
Proof.
  exists (Ret (Ok tt)), 0%Z, 0%Z. split; [|reflexivity].
  exists (Ret (Ok tt)). split; [one_chunk|]. exists (Ret (Ok tt)). split; [one_chunk|].
  exists []. split; [apply rtc_refl|]. right. split_and!; [set_solver|reflexivity..].
Qed.
Lemma size_tables_in_order_witness :
  sizes_stored (size_rows ex_size_batch) ex_sizes_full /\ event_sizes_stored (size_rows ex_size_batch) ex_sizes_full.
Proof.
  destruct (size_tables_in_order (Table0 := ex_tsz_table) (Table1 := ex_evs_table) (Table2 := ex_wss_table)
    (PgLaws0 := mem_laws TransactionSize Z) (PgLaws1 := mem_laws EventSize (Z * Z))
    (PgLaws2 := mem_laws WriteSetSize (Z * Z)) ex_size_chunks ex_size_batch 7 8 None ex_sizes_empty ex_sizes_full
    (Ret (Ok ex_sizes_result))) as (_ & _ & Hok).
  - apply (bool_decide_unpack _). vm_compute. exact I.
  - apply Forall_singleton. intros r' Hr. change (Ret ex_tsz = Ret r') in Hr. by injection Hr as <-.
  - apply Forall_singleton. intros r' Hr. change (Ret ex_evs = Ret r') in Hr. by injection Hr as <-.
  - constructor.
  - exact ex_sizes_processed.
  - destruct (Hok _ eq_refl) as (H1 & H2 & _). split; [exact H1|exact H2].
Defined.
End ConcreteSizes.
