(* ===== verification/NftMetadata.v ===== *)
(** * Messages about digital assets

    [processors/nft_metadata_processor.rs]: the token data and collections of a
    batch are published to a topic of a message queue, for a crawler to read.
    The queue and its client are a parameter; the time that orders the
    messages too. *)
From stdpp Require Import pretty.
From Stdlib Require Import Ascii.
From S2P Require Import Prelude RustStr Json Externals Proto Util Database SharedTable Processors.
From S2P Require Import DefaultModels TokenResources FungibleResources Objects FungibleAssets TokenUtils TokensV1 TokensV1Laws TokensV2 TokensV2Example TokensV2Owners TokensV2Laws.

(** ** The queue

    A [PubsubMessage] with the fields that are set. *)
Record PubsubMessage := { msg_data : string; msg_ordering_key : string }.
#[export] Instance PubsubMessage_dec : EqDecision PubsubMessage.
Proof. solve_decision. Defined.
Definition CHUNK_SIZE : nat := 1000.

(** google-cloud-pubsub: connecting, and publishing some messages and waiting
    for the answer to each of them. *)
Class PubSub := {
  topic_state : Type;
  topic_messages : topic_state -> list PubsubMessage;
  connect : result unit;
  publish_bulk : list PubsubMessage -> topic_state -> topic_state * result unit;
}.
(** The documentation: delivery is at least once.  What appears in the topic are
    messages that were handed over, possibly repeated, because the client retries;
    an answer without error for each of them means that all are in the topic. *)
Class PubSubLaws `{PubSub} := {
  publish_adds : forall ms t t' r, publish_bulk ms t = (t', r) ->
    exists sent, topic_messages t' ≡ₚ topic_messages t ++ sent /\ (forall m, m ∈ sent -> m ∈ ms) /\
      (r = Ok tt -> forall m, m ∈ ms -> m ∈ sent);
}.
(** chrono: [Display] for [NaiveDateTime]. *)
Class ChronoDisplay `{Chrono} := naive_display : NaiveDateTime -> string.

(** serde: a [String] is a JSON string. *)
#[export] Instance string_serialize : Serialize string := fun s => Some (Str s).
#[export] Instance string_deserialize : Deserialize string :=
  {| de_from_str := fun _ => None; de_from_value := fun v => match v with Str s => Some s | _ => None end |}.

Section NftMetadata.
Context `{Chrono, BigDec, HexCodec, Sha256, JsonParse, ProtoJson}.
Context `{!BigDecKey, !TokenV1Codec, !TokenCodec, !FungibleCodec, !ChronoDisplay}.
Context `{!Serialize EntryFunctionPayloadClean, !Serialize ScriptPayloadClean,
          !Serialize MultisigPayloadClean, !Unescape}.
Variable queries : TokenV2Queries.
Variable query_retries : nat.

(** ** Messages *)

Definition pubsub_text (id uri : string) (version : Z) (timestamp : NaiveDateTime) (db_chain_id : Z) : string :=
  id +:+ "," +:+ uri +:+ "," +:+ pretty version +:+ "," +:+ naive_display timestamp +:+ ","
    +:+ pretty db_chain_id +:+ "," +:+ "false".
Definition clean_token_pubsub_message (ctd : CurrentTokenDataV2) (db_chain_id : Z) : outcome string :=
  remove_null_bytes (pubsub_text (ctd2_token_data_id ctd) (ctd2_token_uri ctd)
    (ctd2_last_transaction_version ctd) (ctd2_last_transaction_timestamp ctd) db_chain_id).
Definition clean_collection_pubsub_message (cc : CurrentCollectionV2) (db_chain_id : Z) : outcome string :=
  remove_null_bytes (pubsub_text (ccol2_collection_id cc) (ccol2_uri cc)
    (ccol2_last_transaction_version cc) (ccol2_last_transaction_timestamp cc) db_chain_id).

(** ** The rows of a batch *)

Record NftState := {
  nft_token_datas : gmap string CurrentTokenDataV2;
  nft_collections : gmap string CurrentCollectionV2;
}.
Definition nft_insert_data (data : option (TokenDataV2 * CurrentTokenDataV2)) (st : NftState) : NftState :=
  match data with
  | Some (_, current_token_data) =>
      {| nft_token_datas := <[ctd2_token_data_id current_token_data := current_token_data]> (nft_token_datas st);
         nft_collections := nft_collections st |}
  | None => st
  end.
Definition nft_insert_collection (collection : option (CollectionV2 * CurrentCollectionV2)) (st : NftState)
  : NftState :=
  match collection with
  | Some (_, current_collection) =>
      {| nft_token_datas := nft_token_datas st;
         nft_collections := <[ccol2_collection_id current_collection := current_collection]> (nft_collections st) |}
  | None => st
  end.
Definition nft_change_step (txn_version : Z) (txn_timestamp : NaiveDateTime)
    (table_handle_to_owner : gmap string TableMetadataForToken) (helper : gmap string ObjectAggregatedData)
    (st : NftState) (iwsc : Z * WriteSetChangePB) : outcome NftState :=
  let '(wsc_index, wsc) := iwsc in
  change ← unwrap (wsc_change wsc);
  match change with
  | ChangeWriteTableItem table_item =>
      r ← token_data_v1_from_write_table_item table_item txn_version wsc_index txn_timestamp;
      data ← unwrap_result r;
      r ← collection_v1_from_write_table_item queries query_retries table_item txn_version wsc_index txn_timestamp
            table_handle_to_owner;
      collection ← unwrap_result r;
      Ret (nft_insert_collection collection (nft_insert_data data st))
  | ChangeWriteResource resource =>
      r ← token_data_v2_from_write_resource resource txn_version wsc_index txn_timestamp helper;
      data ← unwrap_result r;
      r ← collection_v2_from_write_resource resource txn_version wsc_index txn_timestamp helper;
      collection ← unwrap_result r;
      Ret (nft_insert_collection collection (nft_insert_data data st))
  | _ => Ret st
  end.
(** One round of the loop: the objects of a transaction are collected anew. *)
Definition nft_step (table_handle_to_owner : gmap string TableMetadataForToken) (st : NftState) (txn : Transaction)
  : outcome NftState :=
  let txn_version := as_i64 (t_version txn) in
  ts ← unwrap (t_timestamp txn);
  txn_timestamp ← parse_timestamp ts txn_version;
  transaction_info ← unwrap (t_info txn);
  helper ← foldM (collect_object_core txn_version) ∅ (ti_changes transaction_info);
  foldM (nft_change_step txn_version txn_timestamp table_handle_to_owner helper) st
    (enumerate (ti_changes transaction_info)).
Definition nft_parse_v2_token `{HashOrder} (transactions : list Transaction)
    (table_handle_to_owner : gmap string TableMetadataForToken)
  : outcome (list CurrentTokenDataV2 * list CurrentCollectionV2) :=
  st ← foldM (nft_step table_handle_to_owner) {| nft_token_datas := ∅; nft_collections := ∅ |} transactions;
  Ret (into_values (nft_token_datas st), into_values (nft_collections st)).

(** The messages of a batch, all with one ordering key. *)
Definition pubsub_messages `{HashOrder} (transactions : list Transaction)
    (table_handle_to_owner : gmap string TableMetadataForToken) (ordering_key : string) (db_chain_id : Z)
  : outcome (list PubsubMessage) :=
  '(token_datas, collections) ← nft_parse_v2_token transactions table_handle_to_owner;
  tokens ← traverse (fun ctd => clean_token_pubsub_message ctd db_chain_id) token_datas;
  colls ← traverse (fun cc => clean_collection_pubsub_message cc db_chain_id) collections;
  Ret ((fun data => {| msg_data := data; msg_ordering_key := ordering_key |}) <$> (tokens ++ colls)).

(** ** The processor *)

Context `{PubSub}.

(** The loop over the chunks: the first error ends it. *)
Fixpoint publish_chunks (cs : list (list PubsubMessage)) (t : topic_state) : topic_state * result unit :=
  match cs with
  | [] => (t, Ok tt)
  | chunk :: cs =>
      match publish_bulk chunk t with
      | (t', Ok _) => publish_chunks cs t'
      | (t', Err) => (t', Err)
      end
  end.

(** [NftMetadataProcessor::process_transactions]; [ordering_key] is what the
    clock says. *)
Definition process_nft `{HashOrder} (ordering_key : string) (transactions : list Transaction) (s e : Z)
    (db_chain_id : option Z) (d d' : topic_state) (res : outcome (result ProcessingResult)) : Prop :=
  match (lst ← unwrap (last transactions); chain ← unwrap db_chain_id;
         handles ← get_table_handle_to_owner_from_transactions transactions; Ret (lst, chain, handles)) with
  | Panic => d' = d /\ res = Panic
  | Ret (lst, chain, handles) =>
      match connect with
      | Err => d' = d /\ res = Ret Err
      | Ok _ =>
          match pubsub_messages transactions handles ordering_key chain with
          | Panic => d' = d /\ res = Panic
          | Ret messages =>
              exists processing_duration db_duration,
                d' = (publish_chunks (chunks CHUNK_SIZE messages) d).1 /\
                res = Ret (_ ← (publish_chunks (chunks CHUNK_SIZE messages) d).2;
                           Ok {| start_version := s; end_version := e;
                                 last_transaction_timestamp := t_timestamp lst;
                                 processing_duration_in_secs := processing_duration;
                                 db_insertion_duration_in_secs := db_duration |})
          end
      end
  end.
#[export] Instance nft_metadata_processor `{HashOrder} (ordering_key : string) : ProcessorTrait topic_state :=
  {| processor_name := "nft_metadata_processor"; process_transactions := process_nft ordering_key |}.
End NftMetadata.
