(* ===== verification/NftMetadataLaws.v ===== *)
(** * Messages about digital assets: correctness

    What is in the topic after a batch, that a message can be read back, and
    that the messages are about the same tokens and collections as the
    tables of the token processor. *)
From stdpp Require Import pretty.
From Stdlib Require Import Ascii.
From S2P Require Import Prelude RustStr Json Externals Proto Util Database SharedTable Processors.
From S2P Require Import DefaultModels TokenResources FungibleResources Objects FungibleAssets TokenUtils TokensV1 TokensV1Laws TokensV2 TokensV2Example TokensV2Owners TokensV2Laws NftMetadata.

(** ** Publishing *)

Section Publishing.
Context `{PubSubLaws}.

Lemma publish_chunks_messages cs t t' r :
  publish_chunks cs t = (t', r) ->
  exists sent, topic_messages t' ≡ₚ topic_messages t ++ sent /\ (forall m, m ∈ sent -> m ∈ concat cs) /\
    (r = Ok tt -> forall m, m ∈ concat cs -> m ∈ sent).
Proof.
  revert t. induction cs as [|c cs IH]; intros t Hp; simpl in Hp.
  { injection Hp as <- <-. exists []. by rewrite app_nil_r. }
  destruct (publish_bulk c t) as [t1 rc] eqn:Hb. pose proof Hb as (sent1 & Ht1 & Hfrom1 & Hall1)%publish_adds.
  destruct rc as [[]|].
  - apply IH in Hp as (sent & Ht & Hfrom & Hall). exists (sent1 ++ sent). split_and!.
    + by rewrite Ht, Ht1, app_assoc.
    + intros m. simpl. rewrite !elem_of_app. naive_solver.
    + intros Hr m. simpl. rewrite !elem_of_app. naive_solver.
  - injection Hp as <- <-. exists sent1. split_and!; [done| |done]. intros m Hm. simpl. apply elem_of_app. auto.
Qed.
End Publishing.

Section NftLaws.
Context `{Chrono, BigDec, HexCodec, Sha256, JsonParse, ProtoJson}.
Context `{!BigDecKey, !TokenV1Codec, !TokenCodec, !FungibleCodec, !ChronoDisplay}.
Context `{!Serialize EntryFunctionPayloadClean, !Serialize ScriptPayloadClean,
          !Serialize MultisigPayloadClean, !Unescape}.
Variable queries : TokenV2Queries.
Variable query_retries : nat.
Context `{PubSubLaws}.

#[export] Instance nft_metadata_laws `{HashOrder} key :
  @ProcessorLaws _ (nft_metadata_processor queries query_retries key).
Proof.
  intros txns s e chain d d' r Hr. simpl in Hr. unfold process_nft in Hr.
  destruct (lst ← unwrap (last txns); _) as [[[lst c] handles]|]; [|naive_solver].
  destruct connect; [|naive_solver]. destruct (pubsub_messages _ _ _ _ _ _) as [ms|]; [|naive_solver].
  destruct Hr as (pd & dd & _ & Hr). destruct (publish_chunks _ _) as [t' [[]|]]; [|done]. by injection Hr as ->.
Qed.

(** The messages of a batch, once its chain and its table handles are known. *)
Definition batch_messages_are `{HashOrder} (key : string) (transactions : list Transaction)
    (db_chain_id : option Z) (messages : list PubsubMessage) : Prop :=
  exists handles chain, db_chain_id = Some chain /\
    get_table_handle_to_owner_from_transactions transactions = Ret handles /\
    pubsub_messages queries query_retries transactions handles key chain = Ret messages.

Lemma process_nft_cases `{HashOrder} key transactions s e db_chain_id d d' res :
  process_nft queries query_retries key transactions s e db_chain_id d d' res ->
  (d' = d /\ (forall r, res ≠ Ret (Ok r)) /\ (db_chain_id = None \/ transactions = [] -> res = Panic)) \/
  exists messages r, transactions ≠ [] /\ db_chain_id ≠ None /\
    batch_messages_are key transactions db_chain_id messages /\
    publish_chunks (chunks CHUNK_SIZE messages) d = (d', r) /\ (forall x, res = Ret (Ok x) -> r = Ok tt).
Proof.
  unfold process_nft. destruct (last transactions) as [lst|] eqn:El; simpl; [|naive_solver].
  assert (transactions ≠ []) as Hne by (by intros ->).
  destruct db_chain_id as [chain|]; simpl; [|naive_solver].
  destruct (get_table_handle_to_owner_from_transactions transactions) as [handles|] eqn:Eh; simpl; [|naive_solver].
  destruct connect as [[]|]; [|naive_solver].
  destruct (pubsub_messages _ _ _ _ _ _) as [ms|] eqn:Em; [|naive_solver].
  intros (pd & dd & -> & ->). right. destruct (publish_chunks _ d) as [t' r] eqn:Hpc. exists ms, r.
  split_and!; [done..|by exists handles, chain|done|]. intros x Hx. by destruct r as [[]|].
Qed.

(** C31: every message is published.  However a batch ends, the messages that
    were in the topic stay and what it adds are messages of the batch; a batch that
    succeeds has all its messages in the topic, each at least once, over all its
    chunks.  Without a chain id or without transactions, nothing is published and
    the batch panics. *)
Theorem nft_published_all `{HashOrder} key (transactions : list Transaction) (s e : Z) (db_chain_id : option Z)
    (d d' : topic_state) (res : outcome (result ProcessingResult)) :
  process_nft queries query_retries key transactions s e db_chain_id d d' res ->
  (exists sent, topic_messages d' ≡ₚ topic_messages d ++ sent /\
     (sent = [] \/ exists messages, batch_messages_are key transactions db_chain_id messages /\
                     forall m, m ∈ sent -> m ∈ messages)) /\
  (forall r, res = Ret (Ok r) -> exists messages sent, batch_messages_are key transactions db_chain_id messages /\
     topic_messages d' ≡ₚ topic_messages d ++ sent /\ forall m, m ∈ sent <-> m ∈ messages) /\
  (db_chain_id = None \/ transactions = [] -> res = Panic /\ d' = d).
Proof.
  intros [(-> & Hres & Hp)|(ms & r & Hne & Hc & Hms & Hpc & Hr)]%process_nft_cases.
  { split_and!; [|naive_solver..]. exists []. rewrite app_nil_r. auto. }
  apply publish_chunks_messages in Hpc as (sent & Ht & Hfrom & Hall).
  rewrite chunks_concat in Hfrom, Hall by (unfold CHUNK_SIZE; lia). split_and!; [by eauto 8| |naive_solver].
  intros x Hx. exists ms, sent. split_and!; [done..|]. intros m. split; [apply Hfrom|apply Hall, (Hr x Hx)].
Qed.
End NftLaws.

(** ** The tables of the token processor *)

Section SameAssets.
Context `{Chrono, BigDec, HexCodec, Sha256, JsonParse, ProtoJson}.
Context `{!BigDecKey, !TokenV1Codec, !TokenCodec, !FungibleCodec, !ChronoDisplay}.
Context `{!Serialize EntryFunctionPayloadClean, !Serialize ScriptPayloadClean,
          !Serialize MultisigPayloadClean, !Unescape}.
Variable queries : TokenV2Queries.
Variable query_retries : nat.
Implicit Types (data : option (TokenDataV2 * CurrentTokenDataV2)) (col : option (CollectionV2 * CurrentCollectionV2)).
Implicit Types (helper : gmap string ObjectAggregatedData).

(** What a message says. *)
Definition data_view (c : CurrentTokenDataV2) : string * string * Z * NaiveDateTime :=
  (ctd2_token_data_id c, ctd2_token_uri c, ctd2_last_transaction_version c, ctd2_last_transaction_timestamp c).
Definition collection_view (c : CurrentCollectionV2) : string * string * Z * NaiveDateTime :=
  (ccol2_collection_id c, ccol2_uri c, ccol2_last_transaction_version c, ccol2_last_transaction_timestamp c).

(** *** The rows of a change in both processors *)

Definition pick_current_data (w : TokenV2Write) := match w with WTokenData _ cd => Some cd | _ => None end.
Definition pick_current_collection (w : TokenV2Write) := match w with WCollection _ cc => Some cc | _ => None end.

Definition change_rows (v : Z) (ts : NaiveDateTime) handles helper (i : Z) (wsc : WriteSetChangePB) data col : Prop :=
  match wsc_change wsc with
  | Some (ChangeWriteTableItem item) =>
      token_data_v1_from_write_table_item item v i ts = Ret (Ok data) /\
      collection_v1_from_write_table_item queries query_retries item v i ts handles = Ret (Ok col)
  | Some (ChangeWriteResource res) =>
      token_data_v2_from_write_resource res v i ts helper = Ret (Ok data) /\
      collection_v2_from_write_resource res v i ts helper = Ret (Ok col)
  | _ => data = None /\ col = None
  end.

Lemma nft_change_rows v ts handles helper st i wsc st' :
  nft_change_step queries query_retries v ts handles helper st (i, wsc) = Ret st' ->
  exists data col, change_rows v ts handles helper i wsc data col /\
    st' = nft_insert_collection col (nft_insert_data data st).
Proof.
  unfold nft_change_step, change_rows. intros Hs. apply bind_Ret in Hs as (change & ->%unwrap_Ret & Hs).
  destruct change; try (injection Hs as <-; by exists None, None);
    apply bind_Ret in Hs as (r1 & E1 & Hs); apply bind_Ret in Hs as (data & ->%unwrap_result_Ret & Hs);
    apply bind_Ret in Hs as (r2 & E2 & Hs); apply bind_Ret in Hs as (col & ->%unwrap_result_Ret & Hs);
    injection Hs as <-; by exists data, col.
Qed.

Lemma omap_burn_writes {B} (pick : TokenV2Write -> option B) prior deleted nft ws prior' :
  (forall cd, pick (WDeletedTokenData cd) = None) -> (forall o, pick (WOwnership o) = None) ->
  (forall o, pick (WDeletedOwnership o) = None) ->
  burn_writes prior deleted nft = (ws, prior') -> omap (M := list) pick ws = [].
Proof.
  intros P1 P2 P3. unfold burn_writes. destruct nft as [[o co]|]; intros [= <- _]; rewrite ?omap_app;
    destruct deleted; csimpl; by rewrite ?P1, ?P2, ?P3.
Qed.
Lemma token_write_currents helper data prior ws prior' :
  token_write helper data prior = Ret (ws, prior') ->
  omap (M := list) pick_current_data ws = option_list (snd <$> data) /\
  omap (M := list) pick_current_collection ws = [].
Proof.
  unfold token_write. destruct data as [[d cd]|]; [|by intros [= <- _]]. intros Hr.
  apply bind_Ret in Hr as ([os m] & _ & Hr). apply bind_Ret in Hr as (pr & _ & Hr). injection Hr as <- _.
  rewrite !omap_app, !(omap_fmap _ _ (fun _ => None)), !omap_none by done. done.
Qed.

Lemma token_v2_change_rows v ts handles helper burned i wsc ws :
  change_writes queries query_retries v ts handles helper burned (i, wsc) ws ->
  exists data col, change_rows v ts handles helper i wsc data col /\
    omap (M := list) pick_current_data ws = option_list (snd <$> data) /\
    omap (M := list) pick_current_collection ws = option_list (snd <$> col).
Proof.
  intros (prior & prior' & Hr). unfold token_v2_change, change_rows in *.
  apply bind_Ret in Hr as (change & ->%unwrap_Ret & Hr).
  destruct change as [|res|item| |res|item]; try (injection Hr as <- _; by exists None, None).
  - injection Hr as Hr. unfold delete_resource_change in Hr. exists None, None.
    split_and!; [done..| |]; (eapply omap_burn_writes; [done..|exact Hr]).
  - unfold delete_table_item_change in Hr. apply bind_Ret in Hr as (r & _ & Hr).
    apply bind_Ret in Hr as (ow & _ & Hr). injection Hr as Hr. exists None, None.
    by destruct ow as [[o [co|]]|]; injection Hr as <- _.
  - unfold write_resource_change in Hr. apply bind_Ret in Hr as (r1 & E1 & Hr).
    apply bind_Ret in Hr as (col & ->%unwrap_result_Ret & Hr). apply bind_Ret in Hr as (r2 & E2 & Hr).
    apply bind_Ret in Hr as (data & ->%unwrap_result_Ret & Hr).
    apply bind_Ret in Hr as ([wt p1] & [T1 T2]%token_write_currents & Hr).
    apply bind_Ret in Hr as (r3 & _ & Hr). apply bind_Ret in Hr as (nft & _ & Hr).
    destruct (burn_writes _ _ _) as [wb p2] eqn:Hb. apply bind_Ret in Hr as (r4 & _ & Hr).
    apply bind_Ret in Hr as (meta & _ & Hr). injection Hr as <- _. exists data, col. split; [done|].
    rewrite !omap_app, T1, T2.
    rewrite (omap_burn_writes pick_current_data _ _ _ _ _ (fun _ => eq_refl) (fun _ => eq_refl) (fun _ => eq_refl) Hb).
    rewrite (omap_burn_writes pick_current_collection _ _ _ _ _ (fun _ => eq_refl) (fun _ => eq_refl) (fun _ => eq_refl) Hb).
    by destruct col as [[]|], data as [[]|], meta.
  - unfold write_table_item_change in Hr. apply bind_Ret in Hr as (r1 & E1 & Hr).
    apply bind_Ret in Hr as (col & ->%unwrap_result_Ret & Hr). apply bind_Ret in Hr as (r2 & E2 & Hr).
    apply bind_Ret in Hr as (data & ->%unwrap_result_Ret & Hr). apply bind_Ret in Hr as (r3 & _ & Hr).
    apply bind_Ret in Hr as (ow & _ & Hr). injection Hr as Hr. exists data, col. split; [done|].
    destruct col as [[]|], data as [[]|], ow as [[o [co|]]|]; by injection Hr as <- _.
Qed.

Lemma store_all_current acc ws :
  current_token_datas_v2 (store_all acc ws) =
    foldl (fun m cd => <[ctd2_token_data_id cd := cd]> m) (current_token_datas_v2 acc)
      (omap (M := list) pick_current_data ws) /\
  current_collections_v2 (store_all acc ws) =
    foldl (fun m cc => <[ccol2_collection_id cc := cc]> m) (current_collections_v2 acc)
      (omap (M := list) pick_current_collection ws).
Proof.
  revert acc. induction ws as [|w ws IH]; intros acc; [done|]. csimpl.
  destruct (IH (store acc w)) as [-> ->]. by destruct w.
Qed.

(** *** The objects of a transaction *)

Definition collection_address (v : Z) (wsc : WriteSetChangePB) : option string :=
  match wsc_change wsc with
  | Some (ChangeWriteResource wr) =>
      match resource_of_kind (fun r => match r with ResCollection i => Some i | _ => None end) wr v with
      | Ret (Ok (Some _)) => Some (standardize_address (wr_address wr))
      | _ => None
      end
  | _ => None
  end.

Lemma fill_dom v changes helper helper' a :
  foldM (fill_token_object v) helper changes = Ret helper' -> is_Some (helper !! a) -> is_Some (helper' !! a).
Proof.
  intros Hf Ha. revert Hf. apply (foldM_ind (fun h => is_Some (h !! a))); [done|].
  intros h wsc h' _ Hh Hs. unfold fill_token_object in Hs. apply bind_Ret in Hs as (change & _ & Hs).
  destruct change as [| | | |res|]; try (by injection Hs as <-).
  destruct (h !! standardize_address (wr_address res)) as [d|]; [|by injection Hs as <-].
  repeat (apply bind_Ret in Hs as (? & _ & Hs)). injection Hs as <-. apply lookup_insert_is_Some'. by right.
Qed.
Lemma events_dom v ts ef n l st st' a :
  foldM (token_v2_event_step v ts ef n) st l = Ret st' -> is_Some (te_helper st !! a) -> is_Some (te_helper st' !! a).
Proof.
  intros Hf Ha. revert Hf. apply (foldM_ind (fun st => is_Some (te_helper st !! a))); [done|].
  intros c [i ev] c' _ Hc Hs. apply token_v2_event_at in Hs as (ws & tr & _ & _ & _ & -> & _).
  destruct tr as [tr|]; [|done]. unfold push_transfer. destruct (te_helper c !! get_object_address tr); [|done].
  apply lookup_insert_is_Some'. by right.
Qed.

(** What a message says of a written resource does not depend on what else is
    known of its object. *)
Lemma token_data_same wr v i ts h1 h2 d1 d2 :
  token_data_v2_from_write_resource wr v i ts h1 = Ret (Ok d1) ->
  token_data_v2_from_write_resource wr v i ts h2 = Ret (Ok d2) ->
  (forall t, token_from_write_resource wr v = Ret (Ok (Some t)) ->
     is_Some (h1 !! standardize_address (wr_address wr)) /\ is_Some (h2 !! standardize_address (wr_address wr))) ->
  data_view ∘ snd <$> d1 = data_view ∘ snd <$> d2.
Proof.
  unfold token_data_v2_from_write_resource. intros H1' H2' Hh.
  apply try_bind_Ok in H1' as (r & Ht & H1'). rewrite Ht in H2'. simpl in H2'.
  destruct r as [inner|]; [|congruence]. destruct (Hh inner Ht) as [[o1 Ho1] [o2 Ho2]]. rewrite Ho1 in H1'. rewrite Ho2 in H2'.
  destruct (token_uri_trunc inner) as [u|] eqn:Hu;
    [|repeat (apply bind_Ret in H1' as (? & ? & H1')); congruence].
  apply bind_Ret in H1' as (? & _ & H1'). apply bind_Ret in H2' as (? & _ & H2').
  apply bind_Ret in H1' as (? & _ & H1'). apply bind_Ret in H2' as (? & _ & H2').
  simpl in H1', H2'. injection H1' as <-. by injection H2' as <-.
Qed.
Lemma collection_same wr v i ts h1 h2 c1 c2 :
  collection_v2_from_write_resource wr v i ts h1 = Ret (Ok c1) ->
  collection_v2_from_write_resource wr v i ts h2 = Ret (Ok c2) ->
  (forall c, resource_of_kind (fun r => match r with ResCollection i => Some i | _ => None end) wr v = Ret (Ok (Some c)) ->
     is_Some (h1 !! standardize_address (wr_address wr)) /\ is_Some (h2 !! standardize_address (wr_address wr))) ->
  collection_view ∘ snd <$> c1 = collection_view ∘ snd <$> c2.
Proof.
  unfold collection_v2_from_write_resource, resource_of_kind. intros H1' H2' Hh.
  apply bind_Ret in H1' as (ty & Ety & H1'). rewrite Ety in H2', Hh. simpl in H2', Hh.
  destruct (is_resource_supported ty); [|congruence].
  apply bind_Ret in H1' as (res & Eres & H1'). rewrite Eres in H2', Hh. simpl in H2', Hh.
  apply bind_Ret in H1' as (dat & Edat & H1'). rewrite Edat in H2', Hh. simpl in H2', Hh.
  apply try_bind_Ok in H1' as (r & [= Er] & H1'). rewrite Er in H2', Hh. simpl in H2', Hh.
  destruct r as [|inner| | | | | | |]; try congruence. destruct (Hh inner eq_refl) as [[o1 Ho1] [o2 Ho2]].
  assert (mr_address res = standardize_address (wr_address wr)) as Ha.
  { unfold DefaultModels.from_write_resource in Eres. repeat (apply bind_Ret in Eres as (? & _ & Eres)). by injection Eres as <-. }
  rewrite Ha in H1', H2'. rewrite Ho1 in H1'. rewrite Ho2 in H2'.
  destruct (collection_supply o1) as [[? ?] ?], (collection_supply o2) as [[? ?] ?].
  apply bind_Ret in H1' as (nm & Enm & H1'). rewrite Enm in H2'. simpl in H2'.
  apply bind_Ret in H1' as (u & Eu & H1'). rewrite Eu in H2'. simpl in H2'.
  injection H1' as <-. by injection H2' as <-.
Qed.

(** *** The loops *)

Definition same_assets (st : NftState) (acc : TokenV2Acc) : Prop :=
  data_view <$> nft_token_datas st = data_view <$> current_token_datas_v2 acc /\
  collection_view <$> nft_collections st = collection_view <$> current_collections_v2 acc.
Definition known (h1 h2 : gmap string ObjectAggregatedData) (v : Z) (wsc : WriteSetChangePB) : Prop :=
  forall a, token_address v wsc = Some a \/ collection_address v wsc = Some a -> is_Some (h1 !! a) /\ is_Some (h2 !! a).

Lemma change_rows_same v ts handles h1 h2 i wsc d1 c1 d2 c2 :
  change_rows v ts handles h1 i wsc d1 c1 -> change_rows v ts handles h2 i wsc d2 c2 -> known h1 h2 v wsc ->
  data_view ∘ snd <$> d1 = data_view ∘ snd <$> d2 /\ collection_view ∘ snd <$> c1 = collection_view ∘ snd <$> c2.
Proof.
  unfold change_rows, known, token_address, collection_address.
  destruct (wsc_change wsc) as [[|res|item| |res|item]|]; intros [D1 C1] [D2 C2] Hk; try (by subst).
  - split.
    + eapply token_data_same; [exact D1|exact D2|]. intros t Ht. apply Hk. rewrite Ht. by left.
    + eapply collection_same; [exact C1|exact C2|]. intros c Hc. apply Hk. rewrite Hc. by right.
  - rewrite D1 in D2. rewrite C1 in C2. injection D2 as ->. by injection C2 as ->.
Qed.

Lemma insert_same data col data' col' st acc ws :
  omap (M := list) pick_current_data ws = option_list (snd <$> data') ->
  omap (M := list) pick_current_collection ws = option_list (snd <$> col') ->
  data_view ∘ snd <$> data = data_view ∘ snd <$> data' ->
  collection_view ∘ snd <$> col = collection_view ∘ snd <$> col' ->
  same_assets st acc -> same_assets (nft_insert_collection col (nft_insert_data data st)) (store_all acc ws).
Proof.
  intros P1 P2 Hd Hc [S1 S2]. destruct (store_all_current acc ws) as [E1 E2].
  unfold same_assets. rewrite E1, E2, P1, P2. split.
  - assert (nft_token_datas (nft_insert_collection col (nft_insert_data data st)) = nft_token_datas (nft_insert_data data st))
      as -> by (by destruct col as [[]|]).
    destruct data as [[d cd]|], data' as [[d' cd']|]; try done. simpl.
    assert (data_view cd = data_view cd') as Hv by (simpl in Hd; congruence).
    pose proof (f_equal (fun x => x.1.1.1) Hv) as He. simpl in He. by rewrite !fmap_insert, S1, Hv, He.
  - assert (nft_collections (nft_insert_data data st) = nft_collections st) as Hn by (by destruct data as [[]|]).
    destruct col as [[c cc]|], col' as [[c' cc']|]; try done; simpl; rewrite Hn; [|done].
    assert (collection_view cc = collection_view cc') as Hv by (simpl in Hc; congruence).
    pose proof (f_equal (fun x => x.1.1.1) Hv) as He. simpl in He. by rewrite !fmap_insert, S2, Hv, He.
Qed.

Lemma changes_same v ts handles h1 h2 burned l logs st st' acc :
  (forall i wsc, (i, wsc) ∈ l -> known h1 h2 v wsc) ->
  foldM (nft_change_step queries query_retries v ts handles h1) st l = Ret st' ->
  Forall2 (change_writes queries query_retries v ts handles h2 burned) l logs ->
  same_assets st acc -> same_assets st' (store_all acc (concat logs)).
Proof.
  intros Hk Hf Hl. revert st acc Hf. induction Hl as [|[i wsc] ws l logs Hw _ IH]; intros st acc Hf Hs.
  { by injection Hf as <-. }
  simpl in Hf. apply bind_Ret in Hf as (st1 & Hn & Hf). simpl. rewrite store_all_app.
  apply nft_change_rows in Hn as (d1 & c1 & R1 & ->). apply token_v2_change_rows in Hw as (d2 & c2 & R2 & P1 & P2).
  destruct (change_rows_same _ _ _ _ _ _ _ _ _ _ _ R1 R2) as [Hd Hc]; [eapply Hk; by left|].
  eapply IH; [intros; eapply Hk; by right|exact Hf|]. by eapply insert_same.
Qed.

(** A user transaction writes the core of each object it writes as a token or a
    collection; other transactions write no tokens or collections. *)
Definition asset_txn_ok (t : Transaction) : Prop :=
  forall info wsc, t_info t = Some info -> wsc ∈ ti_changes info ->
  let v := as_i64 (t_version t) in
  match t_txn_data t with
  | Some (TdUser _) => forall a, token_address v wsc = Some a \/ collection_address v wsc = Some a ->
                         a ∈ omap (M := list) (core_address v) (ti_changes info)
  | _ => forall ts handles helper i data col, change_rows v ts handles helper i wsc data col -> data = None /\ col = None
  end.

Lemma no_changes v ts handles helper l st st' :
  (forall i wsc, (i, wsc) ∈ l -> forall data col, change_rows v ts handles helper i wsc data col -> data = None /\ col = None) ->
  foldM (nft_change_step queries query_retries v ts handles helper) st l = Ret st' -> st' = st.
Proof.
  intros Hno Hf. revert Hf. apply (foldM_ind (fun s => s = st)); [done|]. intros s [i wsc] s' Hin -> Hs.
  apply nft_change_rows in Hs as (data & col & Hr & ->). by destruct (Hno i wsc Hin data col Hr) as [-> ->].
Qed.
Lemma omap_current_data ws : omap (M := list) pick_token_data ws = [] -> omap (M := list) pick_current_data ws = [].
Proof. induction ws as [|[] ws IH]; csimpl; auto; done. Qed.
Lemma omap_current_collection ws : omap (M := list) pick_collection ws = [] -> omap (M := list) pick_current_collection ws = [].
Proof. induction ws as [|[] ws IH]; csimpl; auto; done. Qed.
Lemma events_same v ts ef n l st ev acc nft :
  te_writes st = [] -> foldM (token_v2_event_step v ts ef n) st l = Ret ev ->
  same_assets nft acc -> same_assets nft (store_all acc (te_writes ev)).
Proof.
  intros Hst (logs & Hl & ->)%token_v2_events_log Hs. rewrite Hst. simpl.
  destruct (store_all_current acc (concat logs)) as [E1 E2]. unfold same_assets. rewrite E1, E2.
  rewrite (omap_current_data (concat logs)), (omap_current_collection (concat logs)); [done| |].
  - eapply log_rows_nil; [|exact Hl]. by intros x rows (_ & _ & ? & _).
  - eapply log_rows_nil; [|exact Hl]. by intros x rows (_ & _ & _ & ? & _).
Qed.

Lemma step_same handles st acc_st t st' acc_st' :
  asset_txn_ok t -> nft_step queries query_retries handles st t = Ret st' ->
  token_v2_step queries query_retries handles acc_st t = Ret acc_st' ->
  same_assets st (v2_acc acc_st) -> same_assets st' (v2_acc acc_st').
Proof.
  intros Hok Hn Hv Hs. unfold nft_step in Hn. apply bind_Ret in Hn as (tss & Ets & Hn).
  apply bind_Ret in Hn as (ts & Eparse & Hn). apply bind_Ret in Hn as (info & Ei%unwrap_Ret & Hn).
  apply bind_Ret in Hn as (h1 & Eh1 & Hn).
  apply token_v2_step_parts in Hv as
    [[-> Hu]|(u & info' & ts' & ef & h0 & h & ev & prior & logs & Ed & Ei' & Et & E1 & E2 & E3 & Hl & ->)].
  - apply no_changes in Hn as ->; [done|]. intros i wsc (j & _ & Hj)%elem_of_enumerate_from data col Hr.
    specialize (Hok info wsc Ei (list_elem_of_lookup_2 _ _ _ Hj)). simpl in Hok.
    destruct (t_txn_data t) as [[| | |u|]|] in Hok, Hu; try exact (Hok _ _ _ _ _ _ Hr). by destruct (Hu u).
  - rewrite Ei' in Ei. injection Ei as ->. rewrite Ets in Et. simpl in Et. rewrite Eparse in Et. injection Et as ->.
    simpl. rewrite store_all_app. eapply changes_same; [|exact Hn|exact Hl|].
    2:{ eapply events_same; [|exact E3|exact Hs]. done. }
    intros i wsc (j & _ & Hj)%elem_of_enumerate_from a Ha.
    specialize (Hok info wsc Ei' (list_elem_of_lookup_2 _ _ _ Hj)). simpl in Hok. rewrite Ed in Hok.
    specialize (Hok a Ha). split.
    + destruct (collect_core _ _ _ _ _ Eh1 Hok) as [o Ho]. by eexists.
    + eapply events_dom; [exact E3|]. simpl. eapply fill_dom; [exact E2|].
      destruct (collect_core _ _ _ _ _ E1 Hok) as [o Ho]. by eexists.
Qed.

Lemma folds_same handles transactions st acc_st st' acc_st' :
  Forall asset_txn_ok transactions ->
  foldM (nft_step queries query_retries handles) st transactions = Ret st' ->
  foldM (token_v2_step queries query_retries handles) acc_st transactions = Ret acc_st' ->
  same_assets st (v2_acc acc_st) -> same_assets st' (v2_acc acc_st').
Proof.
  intros Hok. revert st acc_st. induction Hok as [|t ts Ht _ IH]; intros st acc_st Hn Hv Hs; simpl in *.
  { injection Hn as <-. by injection Hv as <-. }
  apply bind_Ret in Hn as (st1 & Hn1 & Hn). apply bind_Ret in Hv as (acc1 & Hv1 & Hv).
  eapply IH; [exact Hn|exact Hv|]. by eapply step_same.
Qed.

Lemma into_values_view `{HashOrder} {K V W} `{Countable K, !KeyOrder K, !KeyOrderLaws K} (f : V -> W) (key : V -> K) (m1 m2 : gmap K V) :
  f <$> m1 = f <$> m2 -> f <$> into_values m1 ≡ₚ f <$> sort_by key (into_values m2).
Proof.
  intros Hm. rewrite sort_by_perm, !into_values_perm, <- !list_fmap_compose.
  assert (forall m : gmap K V, (f ∘ snd) <$> map_to_list m ≡ₚ (map_to_list (f <$> m)).*2) as Hv.
  { intros m. rewrite map_to_list_fmap, <- list_fmap_compose. apply reflexive_eq. by apply list_fmap_ext. }
  by rewrite !Hv, Hm.
Qed.

(** C30: the messages are about the rows of the token processor.  For a batch
    in which an object that is written as a token or collection is written
    with its core, the tokens and collections that are published are those
    that the token processor stores for the batch, with the same address,
    version and time. *)
Theorem nft_same_assets `{HashOrder} (transactions : list Transaction) handles (rows : TokenV2Rows)
    token_datas collections :
  Forall asset_txn_ok transactions ->
  get_table_handle_to_owner_from_transactions transactions = Ret handles ->
  token_v2_rows queries query_retries transactions = Ret rows ->
  nft_parse_v2_token queries query_retries transactions handles = Ret (token_datas, collections) ->
  data_view <$> token_datas ≡ₚ data_view <$> rows_current_token_datas_v2 rows /\
  collection_view <$> collections ≡ₚ collection_view <$> rows_current_collections_v2 rows.
Proof.
  intros Hok Hh Hv Hn. unfold token_v2_rows, parse_v2_token in Hv. rewrite Hh in Hv. simpl in Hv.
  apply bind_Ret in Hv as (acc_st & Hv & Hrows). injection Hrows as <-.
  unfold nft_parse_v2_token in Hn. apply bind_Ret in Hn as (st & Hn & Hr). injection Hr as <- <-.
  assert (same_assets st (v2_acc acc_st)) as [S1 S2].
  { eapply folds_same; [exact Hok|exact Hn|exact Hv|]. split; simpl; by rewrite !fmap_empty. }
  simpl. split; by apply into_values_view.
Qed.
End SameAssets.

(** ** A concrete batch

    A queue in memory that takes every message, and some of them twice. *)
Section ConcreteMessages.
#[local] Existing Instance pair_chrono.
#[local] Existing Instance int_bigdec.
#[local] Existing Instance int_bigdec_key.
#[local] Existing Instance plain_hex.
#[local] Existing Instance plain_sha.
#[local] Existing Instance text_json.
#[local] Existing Instance map_order.
#[local] Existing Instance no_proto_json.
#[local] Existing Instance token_text_codec.
#[local] Existing Instance fa_amount_codec.
#[local] Existing Instance asset_codec.
#[local] Existing Instance no_entry_value.
#[local] Existing Instance no_script_value.
#[local] Existing Instance no_multisig_value.
#[local] Existing Instance plain_unescape.

(** A queue that delivers the first message of a request twice. *)
Definition memory_queue : PubSub :=
  {| topic_state := list PubsubMessage; topic_messages := id; connect := Ok tt;
     publish_bulk := fun ms t => (t ++ option_list (head ms) ++ ms, Ok tt) |}.
#[local] Existing Instance memory_queue.
#[local] Instance memory_queue_laws : PubSubLaws.
Proof.
  split. intros ms t t' r Hp. simpl in Hp. injection Hp as <- <-. exists (option_list (head ms) ++ ms).
  split; [reflexivity|]. split; [|set_solver]. intros m. destruct ms; set_solver.
Qed.
Definition second_display : @ChronoDisplay pair_chrono := fun t => pretty t.1.
#[local] Existing Instance second_display.

Definition ex_handles : gmap string TableMetadataForToken :=
  ret_or ∅ (get_table_handle_to_owner_from_transactions ex_asset_batch).
Lemma ex_handles_ok : get_table_handle_to_owner_from_transactions ex_asset_batch = Ret ex_handles.
Proof. apply ret_or_eq. vm_compute. reflexivity. Qed.
Definition ex_messages : list PubsubMessage :=
  ret_or [] (pubsub_messages ex_asset_queries 2 ex_asset_batch ex_handles "1000" 1).
Lemma ex_messages_ok : pubsub_messages ex_asset_queries 2 ex_asset_batch ex_handles "1000" 1 = Ret ex_messages.
Proof. apply ret_or_eq. vm_compute. reflexivity. Qed.
Example ex_messages_data :
  msg_data <$> ex_messages = [standardize_address "0x77" +:+ ",uri,7,7,1,false"].
Proof. vm_compute. reflexivity. Qed.

Definition ex_delivered : list PubsubMessage := option_list (head ex_messages) ++ ex_messages.
Lemma ex_nft_processed :
  exists res, process_nft ex_asset_queries 2 "1000" ex_asset_batch 7 7 (Some 1%Z) [] ex_delivered (Ret (Ok res)).
Proof.
  assert (exists lst, last ex_asset_batch = Some lst) as [lst El] by (eexists; reflexivity).
  eexists. unfold process_nft. rewrite El, ex_handles_ok. cbn [unwrap mbind outcome_bind]. simpl (connect).
  rewrite ex_messages_ok. exists 0%Z, 0%Z.
  assert (publish_chunks (chunks CHUNK_SIZE ex_messages) ([] : @topic_state memory_queue) = (ex_delivered, Ok tt)) as Hp
    by (vm_compute; reflexivity).
  rewrite Hp. split; reflexivity.
Qed.
Lemma nft_published_all_witness :
  exists messages sent, batch_messages_are ex_asset_queries 2 "1000" ex_asset_batch (Some 1%Z) messages /\
    topic_messages (ex_delivered : @topic_state memory_queue) ≡ₚ [] ++ sent /\ forall m, m ∈ sent <-> m ∈ messages.
Proof.
  destruct ex_nft_processed as [res Hres].
  exact (proj1 (proj2 (nft_published_all ex_asset_queries 2 "1000" ex_asset_batch 7 7 (Some 1%Z) [] ex_delivered _ Hres))
    res eq_refl).
Defined.

Lemma ex_asset_batch_cores : Forall (asset_txn_ok ex_asset_queries 2) ex_asset_batch.
Proof.
  constructor; [|constructor]. intros info wsc Hi Hw. injection Hi as <-. simpl in Hw. simpl.
  intros a Ha. apply elem_of_cons in Hw as [->|Hw].
  - destruct Ha as [Ha|Ha]; by vm_compute in Ha.
  - apply list_elem_of_singleton in Hw as ->. destruct Ha as [Ha|Ha]; [|by vm_compute in Ha].
    assert (a = standardize_address "0x77") as -> by (vm_compute in Ha; by injection Ha as <-).
    left.
Qed.
Definition ex_nft_assets : list CurrentTokenDataV2 * list CurrentCollectionV2 :=
  ret_or ([], []) (nft_parse_v2_token ex_asset_queries 2 ex_asset_batch ex_handles).
Lemma ex_nft_assets_ok :
  nft_parse_v2_token ex_asset_queries 2 ex_asset_batch ex_handles = Ret (ex_nft_assets.1, ex_nft_assets.2).
Proof. rewrite <- surjective_pairing. apply ret_or_eq. vm_compute. reflexivity. Qed.
Lemma nft_same_assets_witness :
  data_view <$> ex_nft_assets.1 ≡ₚ [(standardize_address "0x77", "uri", 7, (7, 0))]%Z.
Proof.
  destruct (nft_same_assets ex_asset_queries 2 ex_asset_batch ex_handles ex_asset_rows ex_nft_assets.1 ex_nft_assets.2
    ex_asset_batch_cores ex_handles_ok ex_asset_rows_ok ex_nft_assets_ok) as [Hd _].
  etransitivity; [exact Hd|]. apply reflexive_eq. vm_compute. reflexivity.
Defined.
End ConcreteMessages.
