(* ===== verification/Rows.v ===== *)
(** * Rows and tables

    The [Insertable] implementations that diesel derives for the models: which
    value of a row goes to which column of which table of [schema.rs]; and the
    statements of the processors with their conflict targets and the names
    under which their chunk sizes are configured. *)
From S2P Require Import Prelude RustStr Json Externals Proto Util Database Schema SharedTable Processors.
From S2P Require Import Signatures UserTransactions Events DefaultModels DefaultProcessor AccountTransactions Objects Coins FungibleAssets Stake Ans TokensV1 TokensV2 TransactionMetadata.

(** ** Values *)

Inductive SqlValue `{Chrono, BigDec} :=
| VNull | VBool (b : bool) | VBytea (b : bytes) | VInt4 (z : Z) | VInt8 (z : Z) | VJsonb (v : Value)
| VNumeric (n : BigDecimal) | VText (s : string) | VTimestamp (t : NaiveDateTime).

Section Insertables.
Context `{Chrono, BigDec}.

(** diesel's [AsExpression] for the types of the fields. *)
Class ToSql (T : Type) := to_sql : T -> SqlValue.
#[export] Instance bool_to_sql : ToSql bool := VBool.
#[export] Instance Z_to_sql : ToSql Z := VInt8.
#[export] Instance string_to_sql : ToSql string := VText.
#[export] Instance Value_to_sql : ToSql Value := VJsonb.
#[export] Instance BigDecimal_to_sql : ToSql BigDecimal := VNumeric.
#[export] Instance NaiveDateTime_to_sql : ToSql NaiveDateTime := VTimestamp.
#[export] Instance option_to_sql `{ToSql T} : ToSql (option T) := fun o => from_option to_sql VNull o.

(** Whether a column takes a value; of a text with a bounded column not more
    characters than it has. *)
Definition has_type (t : SqlType) (v : SqlValue) : bool :=
  match t, v with
  | TBool, VBool _ | TBytea, VBytea _ | TJsonb, VJsonb _ | TNumeric, VNumeric _
  | TText, VText _ | TTimestamp, VTimestamp _ | TVarchar _, VText _ | TInt4, VInt4 _ | TInt8, VInt8 _ => true
  | _, _ => false
  end.
Definition column_takes (c : Column) (v : SqlValue) : bool :=
  match v with VNull => c_nullable c | _ => has_type (c_type c) v end.

(** diesel's derived [Insertable]. *)
Class Insertable (row : Type) := {
  insert_table : TableDef;
  insert_values : row -> list (string * SqlValue);
}.

(** ** The models *)

#[export] Instance AccountTransaction_insert : Insertable AccountTransaction :=
  {| insert_table := schema.account_transactions;
     insert_values := fun r => [("transaction_version", to_sql (at_transaction_version r));
                             ("account_address", to_sql (at_account_address r))] |}.
#[export] Instance CurrentAnsLookup_insert : Insertable CurrentAnsLookup :=
  {| insert_table := schema.current_ans_lookup;
     insert_values := fun r => [("domain", to_sql (cal_domain r)); ("subdomain", to_sql (cal_subdomain r));
                             ("registered_address", to_sql (cal_registered_address r));
                             ("last_transaction_version", to_sql (cal_last_transaction_version r));
                             ("expiration_timestamp", to_sql (cal_expiration_timestamp r));
                             ("token_name", to_sql (cal_token_name r)); ("is_deleted", to_sql (cal_is_deleted r))] |}.
#[export] Instance AnsLookup_insert : Insertable AnsLookup :=
  {| insert_table := schema.ans_lookup;
     insert_values := fun r => [("transaction_version", to_sql (al_transaction_version r));
                             ("write_set_change_index", to_sql (al_write_set_change_index r)); ("domain", to_sql (al_domain r));
                             ("subdomain", to_sql (al_subdomain r)); ("registered_address", to_sql (al_registered_address r));
                             ("expiration_timestamp", to_sql (al_expiration_timestamp r));
                             ("token_name", to_sql (al_token_name r)); ("is_deleted", to_sql (al_is_deleted r))] |}.
#[export] Instance CurrentAnsPrimaryName_insert : Insertable CurrentAnsPrimaryName :=
  {| insert_table := schema.current_ans_primary_name;
     insert_values := fun r => [("registered_address", to_sql (cap_registered_address r)); ("domain", to_sql (cap_domain r));
                             ("subdomain", to_sql (cap_subdomain r)); ("token_name", to_sql (cap_token_name r));
                             ("is_deleted", to_sql (cap_is_deleted r));
                             ("last_transaction_version", to_sql (cap_last_transaction_version r))] |}.
#[export] Instance AnsPrimaryName_insert : Insertable AnsPrimaryName :=
  {| insert_table := schema.ans_primary_name;
     insert_values := fun r => [("transaction_version", to_sql (ap_transaction_version r));
                             ("write_set_change_index", to_sql (ap_write_set_change_index r));
                             ("registered_address", to_sql (ap_registered_address r)); ("domain", to_sql (ap_domain r));
                             ("subdomain", to_sql (ap_subdomain r)); ("token_name", to_sql (ap_token_name r));
                             ("is_deleted", to_sql (ap_is_deleted r))] |}.
#[export] Instance CurrentAnsLookupV2_insert : Insertable CurrentAnsLookupV2 :=
  {| insert_table := schema.current_ans_lookup_v2;
     insert_values := fun r => [("domain", to_sql (cal2_domain r)); ("subdomain", to_sql (cal2_subdomain r));
                             ("token_standard", to_sql (cal2_token_standard r));
                             ("registered_address", to_sql (cal2_registered_address r));
                             ("last_transaction_version", to_sql (cal2_last_transaction_version r));
                             ("expiration_timestamp", to_sql (cal2_expiration_timestamp r));
                             ("token_name", to_sql (cal2_token_name r)); ("is_deleted", to_sql (cal2_is_deleted r));
                             ("subdomain_expiration_policy", to_sql (cal2_subdomain_expiration_policy r))] |}.
#[export] Instance AnsLookupV2_insert : Insertable AnsLookupV2 :=
  {| insert_table := schema.ans_lookup_v2;
     insert_values := fun r => [("transaction_version", to_sql (al2_transaction_version r));
                             ("write_set_change_index", to_sql (al2_write_set_change_index r)); ("domain", to_sql (al2_domain r));
                             ("subdomain", to_sql (al2_subdomain r)); ("token_standard", to_sql (al2_token_standard r));
                             ("registered_address", to_sql (al2_registered_address r));
                             ("expiration_timestamp", to_sql (al2_expiration_timestamp r));
                             ("token_name", to_sql (al2_token_name r)); ("is_deleted", to_sql (al2_is_deleted r));
                             ("subdomain_expiration_policy", to_sql (al2_subdomain_expiration_policy r))] |}.
#[export] Instance CurrentAnsPrimaryNameV2_insert : Insertable CurrentAnsPrimaryNameV2 :=
  {| insert_table := schema.current_ans_primary_name_v2;
     insert_values := fun r => [("registered_address", to_sql (cap2_registered_address r));
                             ("token_standard", to_sql (cap2_token_standard r)); ("domain", to_sql (cap2_domain r));
                             ("subdomain", to_sql (cap2_subdomain r)); ("token_name", to_sql (cap2_token_name r));
                             ("is_deleted", to_sql (cap2_is_deleted r));
                             ("last_transaction_version", to_sql (cap2_last_transaction_version r))] |}.
#[export] Instance AnsPrimaryNameV2_insert : Insertable AnsPrimaryNameV2 :=
  {| insert_table := schema.ans_primary_name_v2;
     insert_values := fun r => [("transaction_version", to_sql (ap2_transaction_version r));
                             ("write_set_change_index", to_sql (ap2_write_set_change_index r));
                             ("registered_address", to_sql (ap2_registered_address r));
                             ("token_standard", to_sql (ap2_token_standard r)); ("domain", to_sql (ap2_domain r));
                             ("subdomain", to_sql (ap2_subdomain r)); ("token_name", to_sql (ap2_token_name r));
                             ("is_deleted", to_sql (ap2_is_deleted r))] |}.
#[export] Instance CoinActivity_insert : Insertable CoinActivity :=
  {| insert_table := schema.coin_activities;
     insert_values := fun r => [("transaction_version", to_sql (ca_transaction_version r));
                             ("event_account_address", to_sql (ca_event_account_address r));
                             ("event_creation_number", to_sql (ca_event_creation_number r));
                             ("event_sequence_number", to_sql (ca_event_sequence_number r));
                             ("owner_address", to_sql (ca_owner_address r)); ("coin_type", to_sql (ca_coin_type r));
                             ("amount", to_sql (ca_amount r)); ("activity_type", to_sql (ca_activity_type r));
                             ("is_gas_fee", to_sql (ca_is_gas_fee r));
                             ("is_transaction_success", to_sql (ca_is_transaction_success r));
                             ("entry_function_id_str", to_sql (ca_entry_function_id_str r));
                             ("block_height", to_sql (ca_block_height r));
                             ("transaction_timestamp", to_sql (ca_transaction_timestamp r));
                             ("event_index", to_sql (ca_event_index r));
                             ("gas_fee_payer_address", to_sql (ca_gas_fee_payer_address r));
                             ("storage_refund_amount", to_sql (ca_storage_refund_amount r))] |}.
#[export] Instance CoinBalance_insert : Insertable CoinBalance :=
  {| insert_table := schema.coin_balances;
     insert_values := fun r => [("transaction_version", to_sql (cb_transaction_version r));
                             ("owner_address", to_sql (cb_owner_address r)); ("coin_type_hash", to_sql (cb_coin_type_hash r));
                             ("coin_type", to_sql (cb_coin_type r)); ("amount", to_sql (cb_amount r));
                             ("transaction_timestamp", to_sql (cb_transaction_timestamp r))] |}.
#[export] Instance CurrentCoinBalance_insert : Insertable CurrentCoinBalance :=
  {| insert_table := schema.current_coin_balances;
     insert_values := fun r => [("owner_address", to_sql (ccb_owner_address r)); ("coin_type_hash", to_sql (ccb_coin_type_hash r));
                             ("coin_type", to_sql (ccb_coin_type r)); ("amount", to_sql (ccb_amount r));
                             ("last_transaction_version", to_sql (ccb_last_transaction_version r));
                             ("last_transaction_timestamp", to_sql (ccb_last_transaction_timestamp r))] |}.
#[export] Instance CoinInfo_insert : Insertable CoinInfo :=
  {| insert_table := schema.coin_infos;
     insert_values := fun r => [("coin_type_hash", to_sql (ci_coin_type_hash r)); ("coin_type", to_sql (ci_coin_type r));
                             ("transaction_version_created", to_sql (ci_transaction_version_created r));
                             ("creator_address", to_sql (ci_creator_address r)); ("name", to_sql (ci_name r));
                             ("symbol", to_sql (ci_symbol r)); ("decimals", VInt4 (ci_decimals r));
                             ("transaction_created_timestamp", to_sql (ci_transaction_created_timestamp r));
                             ("supply_aggregator_table_handle", to_sql (ci_supply_aggregator_table_handle r));
                             ("supply_aggregator_table_key", to_sql (ci_supply_aggregator_table_key r))] |}.
#[export] Instance CoinSupply_insert : Insertable CoinSupply :=
  {| insert_table := schema.coin_supply;
     insert_values := fun r => [("transaction_version", to_sql (cs_transaction_version r));
                             ("coin_type_hash", to_sql (cs_coin_type_hash r)); ("coin_type", to_sql (cs_coin_type r));
                             ("supply", to_sql (cs_supply r)); ("transaction_timestamp", to_sql (cs_transaction_timestamp r));
                             ("transaction_epoch", to_sql (cs_transaction_epoch r))] |}.
#[export] Instance BlockMetadataTransaction_insert : Insertable BlockMetadataTransaction :=
  {| insert_table := schema.block_metadata_transactions;
     insert_values := fun r => [("version", to_sql (bmt_version r)); ("block_height", to_sql (bmt_block_height r));
                             ("id", to_sql (bmt_id r)); ("round", to_sql (bmt_round r)); ("epoch", to_sql (bmt_epoch r));
                             ("previous_block_votes_bitvec", to_sql (bmt_previous_block_votes_bitvec r));
                             ("proposer", to_sql (bmt_proposer r));
                             ("failed_proposer_indices", to_sql (bmt_failed_proposer_indices r));
                             ("timestamp", to_sql (bmt_timestamp r))] |}.
#[export] Instance MoveModule_insert : Insertable MoveModule :=
  {| insert_table := schema.move_modules;
     insert_values := fun r => [("transaction_version", to_sql (mod_transaction_version r));
                             ("write_set_change_index", to_sql (mod_write_set_change_index r));
                             ("transaction_block_height", to_sql (mod_transaction_block_height r)); ("name", to_sql (mod_name r));
                             ("address", to_sql (mod_address r)); ("bytecode", from_option VBytea VNull (mod_bytecode r));
                             ("exposed_functions", to_sql (mod_exposed_functions r)); ("friends", to_sql (mod_friends r));
                             ("structs", to_sql (mod_structs r)); ("is_deleted", to_sql (mod_is_deleted r))] |}.
#[export] Instance MoveResource_insert : Insertable MoveResource :=
  {| insert_table := schema.move_resources;
     insert_values := fun r => [("transaction_version", to_sql (mr_transaction_version r));
                             ("write_set_change_index", to_sql (mr_write_set_change_index r));
                             ("transaction_block_height", to_sql (mr_transaction_block_height r)); ("name", to_sql (mr_name r));
                             ("type_", to_sql (mr_type r)); ("address", to_sql (mr_address r)); ("module", to_sql (mr_module r));
                             ("generic_type_params", to_sql (mr_generic_type_params r)); ("data", to_sql (mr_data r));
                             ("is_deleted", to_sql (mr_is_deleted r)); ("state_key_hash", to_sql (mr_state_key_hash r))] |}.
#[export] Instance CurrentTableItem_insert : Insertable CurrentTableItem :=
  {| insert_table := schema.current_table_items;
     insert_values := fun r => [("table_handle", to_sql (cti_table_handle r)); ("key_hash", to_sql (cti_key_hash r));
                             ("key", to_sql (cti_key r)); ("decoded_key", to_sql (cti_decoded_key r));
                             ("decoded_value", to_sql (cti_decoded_value r));
                             ("last_transaction_version", to_sql (cti_last_transaction_version r));
                             ("is_deleted", to_sql (cti_is_deleted r))] |}.
#[export] Instance TableItem_insert : Insertable TableItem :=
  {| insert_table := schema.table_items;
     insert_values := fun r => [("transaction_version", to_sql (ti_transaction_version r));
                             ("write_set_change_index", to_sql (ti_write_set_change_index r));
                             ("transaction_block_height", to_sql (ti_transaction_block_height r)); ("key", to_sql (ti_key r));
                             ("table_handle", to_sql (ti_table_handle r)); ("decoded_key", to_sql (ti_decoded_key r));
                             ("decoded_value", to_sql (ti_decoded_value r)); ("is_deleted", to_sql (ti_is_deleted r))] |}.
#[export] Instance TableMetadata_insert : Insertable TableMetadata :=
  {| insert_table := schema.table_metadatas;
     insert_values := fun r => [("handle", to_sql (tm_handle r)); ("key_type", to_sql (tm_key_type r));
                             ("value_type", to_sql (tm_value_type r))] |}.
#[export] Instance TransactionModel_insert : Insertable TransactionModel :=
  {| insert_table := schema.transactions;
     insert_values := fun r => [("version", to_sql (tx_version r)); ("block_height", to_sql (tx_block_height r));
                             ("hash", to_sql (tx_hash r)); ("type_", to_sql (tx_type r)); ("payload", to_sql (tx_payload r));
                             ("state_change_hash", to_sql (tx_state_change_hash r));
                             ("event_root_hash", to_sql (tx_event_root_hash r));
                             ("state_checkpoint_hash", to_sql (tx_state_checkpoint_hash r)); ("gas_used", to_sql (tx_gas_used r));
                             ("success", to_sql (tx_success r)); ("vm_status", to_sql (tx_vm_status r));
                             ("accumulator_root_hash", to_sql (tx_accumulator_root_hash r));
                             ("num_events", to_sql (tx_num_events r));
                             ("num_write_set_changes", to_sql (tx_num_write_set_changes r)); ("epoch", to_sql (tx_epoch r));
                             ("payload_type", to_sql (tx_payload_type r))] |}.
#[export] Instance WriteSetChange_insert : Insertable WriteSetChange :=
  {| insert_table := schema.write_set_changes;
     insert_values := fun r => [("transaction_version", to_sql (wsc_transaction_version r)); ("index", to_sql (wsc_index r));
                             ("hash", to_sql (wsc_hash r)); ("transaction_block_height", to_sql (wsc_transaction_block_height r));
                             ("type_", to_sql (wsc_type_ r)); ("address", to_sql (wsc_address r))] |}.
#[export] Instance Event_insert : Insertable Event :=
  {| insert_table := schema.events;
     insert_values := fun r => [("sequence_number", to_sql (e_sequence_number r)); ("creation_number", to_sql (e_creation_number r));
                             ("account_address", to_sql (e_account_address r));
                             ("transaction_version", to_sql (e_transaction_version r));
                             ("transaction_block_height", to_sql (e_transaction_block_height r)); ("type_", to_sql (e_type r));
                             ("data", to_sql (e_data r)); ("event_index", to_sql (e_event_index r));
                             ("indexed_type", to_sql (e_indexed_type r)); ("from", to_sql (e_from r));
                             ("entry_function_payload", to_sql (e_entry_function_payload r));
                             ("entry_function_id_str", to_sql (e_entry_function_id_str r));
                             ("module_address", to_sql (e_module_address r)); ("module_name", to_sql (e_module_name r));
                             ("event_name", to_sql (e_event_name r)); ("inserted_at", to_sql (e_inserted_at r))] |}.
#[export] Instance FungibleAssetActivity_insert : Insertable FungibleAssetActivity :=
  {| insert_table := schema.fungible_asset_activities;
     insert_values := fun r => [("transaction_version", to_sql (faa_transaction_version r));
                             ("event_index", to_sql (faa_event_index r)); ("owner_address", to_sql (faa_owner_address r));
                             ("storage_id", to_sql (faa_storage_id r)); ("asset_type", to_sql (faa_asset_type r));
                             ("is_frozen", to_sql (faa_is_frozen r)); ("amount", to_sql (faa_amount r));
                             ("type_", to_sql (faa_type r)); ("is_gas_fee", to_sql (faa_is_gas_fee r));
                             ("gas_fee_payer_address", to_sql (faa_gas_fee_payer_address r));
                             ("is_transaction_success", to_sql (faa_is_transaction_success r));
                             ("entry_function_id_str", to_sql (faa_entry_function_id_str r));
                             ("block_height", to_sql (faa_block_height r)); ("token_standard", to_sql (faa_token_standard r));
                             ("transaction_timestamp", to_sql (faa_transaction_timestamp r));
                             ("storage_refund_amount", to_sql (faa_storage_refund_amount r))] |}.
#[export] Instance FungibleAssetBalance_insert : Insertable FungibleAssetBalance :=
  {| insert_table := schema.fungible_asset_balances;
     insert_values := fun r => [("transaction_version", to_sql (fab_transaction_version r));
                             ("write_set_change_index", to_sql (fab_write_set_change_index r));
                             ("storage_id", to_sql (fab_storage_id r)); ("owner_address", to_sql (fab_owner_address r));
                             ("asset_type", to_sql (fab_asset_type r)); ("is_primary", to_sql (fab_is_primary r));
                             ("is_frozen", to_sql (fab_is_frozen r)); ("amount", to_sql (fab_amount r));
                             ("transaction_timestamp", to_sql (fab_transaction_timestamp r));
                             ("token_standard", to_sql (fab_token_standard r))] |}.
#[export] Instance CurrentFungibleAssetBalance_insert : Insertable CurrentFungibleAssetBalance :=
  {| insert_table := schema.current_fungible_asset_balances;
     insert_values := fun r => [("storage_id", to_sql (cfab_storage_id r)); ("owner_address", to_sql (cfab_owner_address r));
                             ("asset_type", to_sql (cfab_asset_type r)); ("is_primary", to_sql (cfab_is_primary r));
                             ("is_frozen", to_sql (cfab_is_frozen r)); ("amount", to_sql (cfab_amount r));
                             ("last_transaction_version", to_sql (cfab_last_transaction_version r));
                             ("last_transaction_timestamp", to_sql (cfab_last_transaction_timestamp r));
                             ("token_standard", to_sql (cfab_token_standard r))] |}.
#[export] Instance FungibleAssetMetadataModel_insert : Insertable FungibleAssetMetadataModel :=
  {| insert_table := schema.fungible_asset_metadata;
     insert_values := fun r => [("asset_type", to_sql (fmm_asset_type r)); ("creator_address", to_sql (fmm_creator_address r));
                             ("name", to_sql (fmm_name r)); ("symbol", to_sql (fmm_symbol r));
                             ("decimals", VInt4 (fmm_decimals r)); ("icon_uri", to_sql (fmm_icon_uri r));
                             ("project_uri", to_sql (fmm_project_uri r));
                             ("last_transaction_version", to_sql (fmm_last_transaction_version r));
                             ("last_transaction_timestamp", to_sql (fmm_last_transaction_timestamp r));
                             ("supply_aggregator_table_handle_v1", to_sql (fmm_supply_aggregator_table_handle_v1 r));
                             ("supply_aggregator_table_key_v1", to_sql (fmm_supply_aggregator_table_key_v1 r));
                             ("token_standard", to_sql (fmm_token_standard r)); ("is_token_v2", to_sql (fmm_is_token_v2 r));
                             ("supply_v2", to_sql (fmm_supply_v2 r)); ("maximum_v2", to_sql (fmm_maximum_v2 r))] |}.
#[export] Instance Object_insert : Insertable Object :=
  {| insert_table := schema.objects;
     insert_values := fun r => [("transaction_version", to_sql (obj_transaction_version r));
                             ("write_set_change_index", to_sql (obj_write_set_change_index r));
                             ("object_address", to_sql (obj_object_address r)); ("owner_address", to_sql (obj_owner_address r));
                             ("state_key_hash", to_sql (obj_state_key_hash r));
                             ("guid_creation_num", to_sql (obj_guid_creation_num r));
                             ("allow_ungated_transfer", to_sql (obj_allow_ungated_transfer r));
                             ("is_deleted", to_sql (obj_is_deleted r))] |}.
#[export] Instance CurrentObject_insert : Insertable CurrentObject :=
  {| insert_table := schema.current_objects;
     insert_values := fun r => [("object_address", to_sql (co_object_address r)); ("owner_address", to_sql (co_owner_address r));
                             ("state_key_hash", to_sql (co_state_key_hash r));
                             ("allow_ungated_transfer", to_sql (co_allow_ungated_transfer r));
                             ("last_guid_creation_num", to_sql (co_last_guid_creation_num r));
                             ("last_transaction_version", to_sql (co_last_transaction_version r));
                             ("is_deleted", to_sql (co_is_deleted r))] |}.
#[export] Instance CurrentDelegatedVoter_insert : Insertable CurrentDelegatedVoter :=
  {| insert_table := schema.current_delegated_voter;
     insert_values := fun r => [("delegation_pool_address", to_sql (cdv_delegation_pool_address r));
                             ("delegator_address", to_sql (cdv_delegator_address r));
                             ("table_handle", to_sql (cdv_table_handle r)); ("voter", to_sql (cdv_voter r));
                             ("pending_voter", to_sql (cdv_pending_voter r));
                             ("last_transaction_version", to_sql (cdv_last_transaction_version r));
                             ("last_transaction_timestamp", to_sql (cdv_last_transaction_timestamp r))] |}.
#[export] Instance DelegatedStakingActivity_insert : Insertable DelegatedStakingActivity :=
  {| insert_table := schema.delegated_staking_activities;
     insert_values := fun r => [("transaction_version", to_sql (dsa_transaction_version r));
                             ("event_index", to_sql (dsa_event_index r)); ("delegator_address", to_sql (dsa_delegator_address r));
                             ("pool_address", to_sql (dsa_pool_address r)); ("event_type", to_sql (dsa_event_type r));
                             ("amount", to_sql (dsa_amount r))] |}.
#[export] Instance CurrentDelegatorBalance_insert : Insertable CurrentDelegatorBalance :=
  {| insert_table := schema.current_delegator_balances;
     insert_values := fun r => [("delegator_address", to_sql (cdb_delegator_address r));
                             ("pool_address", to_sql (cdb_pool_address r)); ("pool_type", to_sql (cdb_pool_type r));
                             ("table_handle", to_sql (cdb_table_handle r));
                             ("last_transaction_version", to_sql (cdb_last_transaction_version r));
                             ("shares", to_sql (cdb_shares r)); ("parent_table_handle", to_sql (cdb_parent_table_handle r))] |}.
#[export] Instance DelegatorBalance_insert : Insertable DelegatorBalance :=
  {| insert_table := schema.delegator_balances;
     insert_values := fun r => [("transaction_version", to_sql (dbl_transaction_version r));
                             ("write_set_change_index", to_sql (dbl_write_set_change_index r));
                             ("delegator_address", to_sql (dbl_delegator_address r));
                             ("pool_address", to_sql (dbl_pool_address r)); ("pool_type", to_sql (dbl_pool_type r));
                             ("table_handle", to_sql (dbl_table_handle r)); ("shares", to_sql (dbl_shares r));
                             ("parent_table_handle", to_sql (dbl_parent_table_handle r))] |}.
#[export] Instance DelegatorPool_insert : Insertable DelegatorPool :=
  {| insert_table := schema.delegated_staking_pools;
     insert_values := fun r => [("staking_pool_address", to_sql (dpl_staking_pool_address r));
                             ("first_transaction_version", to_sql (dpl_first_transaction_version r))] |}.
#[export] Instance DelegatorPoolBalance_insert : Insertable DelegatorPoolBalance :=
  {| insert_table := schema.delegated_staking_pool_balances;
     insert_values := fun r => [("transaction_version", to_sql (dpb_transaction_version r));
                             ("staking_pool_address", to_sql (dpb_staking_pool_address r));
                             ("total_coins", to_sql (dpb_total_coins r)); ("total_shares", to_sql (dpb_total_shares r));
                             ("operator_commission_percentage", to_sql (dpb_operator_commission_percentage r));
                             ("inactive_table_handle", to_sql (dpb_inactive_table_handle r));
                             ("active_table_handle", to_sql (dpb_active_table_handle r))] |}.
#[export] Instance CurrentDelegatorPoolBalance_insert : Insertable CurrentDelegatorPoolBalance :=
  {| insert_table := schema.current_delegated_staking_pool_balances;
     insert_values := fun r => [("staking_pool_address", to_sql (cpb_staking_pool_address r));
                             ("total_coins", to_sql (cpb_total_coins r)); ("total_shares", to_sql (cpb_total_shares r));
                             ("last_transaction_version", to_sql (cpb_last_transaction_version r));
                             ("operator_commission_percentage", to_sql (cpb_operator_commission_percentage r));
                             ("inactive_table_handle", to_sql (cpb_inactive_table_handle r));
                             ("active_table_handle", to_sql (cpb_active_table_handle r))] |}.
#[export] Instance ProposalVote_insert : Insertable ProposalVote :=
  {| insert_table := schema.proposal_votes;
     insert_values := fun r => [("transaction_version", to_sql (pvo_transaction_version r));
                             ("proposal_id", to_sql (pvo_proposal_id r)); ("voter_address", to_sql (pvo_voter_address r));
                             ("staking_pool_address", to_sql (pvo_staking_pool_address r));
                             ("num_votes", to_sql (pvo_num_votes r)); ("should_pass", to_sql (pvo_should_pass r));
                             ("transaction_timestamp", to_sql (pvo_transaction_timestamp r))] |}.
#[export] Instance CurrentStakingPoolVoter_insert : Insertable CurrentStakingPoolVoter :=
  {| insert_table := schema.current_staking_pool_voter;
     insert_values := fun r => [("staking_pool_address", to_sql (spv_staking_pool_address r));
                             ("voter_address", to_sql (spv_voter_address r));
                             ("last_transaction_version", to_sql (spv_last_transaction_version r));
                             ("operator_address", to_sql (spv_operator_address r))] |}.
#[export] Instance CollectionData_insert : Insertable CollectionData :=
  {| insert_table := schema.collection_datas;
     insert_values := fun r => [("collection_data_id_hash", to_sql (cda_collection_data_id_hash r));
                             ("transaction_version", to_sql (cda_transaction_version r));
                             ("creator_address", to_sql (cda_creator_address r));
                             ("collection_name", to_sql (cda_collection_name r)); ("description", to_sql (cda_description r));
                             ("metadata_uri", to_sql (cda_metadata_uri r)); ("supply", to_sql (cda_supply r));
                             ("maximum", to_sql (cda_maximum r)); ("maximum_mutable", to_sql (cda_maximum_mutable r));
                             ("uri_mutable", to_sql (cda_uri_mutable r));
                             ("description_mutable", to_sql (cda_description_mutable r));
                             ("table_handle", to_sql (cda_table_handle r));
                             ("transaction_timestamp", to_sql (cda_transaction_timestamp r))] |}.
#[export] Instance CurrentCollectionData_insert : Insertable CurrentCollectionData :=
  {| insert_table := schema.current_collection_datas;
     insert_values := fun r => [("collection_data_id_hash", to_sql (ccd_collection_data_id_hash r));
                             ("creator_address", to_sql (ccd_creator_address r));
                             ("collection_name", to_sql (ccd_collection_name r)); ("description", to_sql (ccd_description r));
                             ("metadata_uri", to_sql (ccd_metadata_uri r)); ("supply", to_sql (ccd_supply r));
                             ("maximum", to_sql (ccd_maximum r)); ("maximum_mutable", to_sql (ccd_maximum_mutable r));
                             ("uri_mutable", to_sql (ccd_uri_mutable r));
                             ("description_mutable", to_sql (ccd_description_mutable r));
                             ("last_transaction_version", to_sql (ccd_last_transaction_version r));
                             ("table_handle", to_sql (ccd_table_handle r));
                             ("last_transaction_timestamp", to_sql (ccd_last_transaction_timestamp r))] |}.
#[export] Instance NftPoints_insert : Insertable NftPoints :=
  {| insert_table := schema.nft_points;
     insert_values := fun r => [("transaction_version", to_sql (nfp_transaction_version r));
                             ("owner_address", to_sql (nfp_owner_address r)); ("token_name", to_sql (nfp_token_name r));
                             ("point_type", to_sql (nfp_point_type r)); ("amount", to_sql (nfp_amount r));
                             ("transaction_timestamp", to_sql (nfp_transaction_timestamp r))] |}.
#[export] Instance TokenActivity_insert : Insertable TokenActivity :=
  {| insert_table := schema.token_activities;
     insert_values := fun r => [("transaction_version", to_sql (tac_transaction_version r));
                             ("event_account_address", to_sql (tac_event_account_address r));
                             ("event_creation_number", to_sql (tac_event_creation_number r));
                             ("event_sequence_number", to_sql (tac_event_sequence_number r));
                             ("token_data_id_hash", to_sql (tac_token_data_id_hash r));
                             ("property_version", to_sql (tac_property_version r));
                             ("creator_address", to_sql (tac_creator_address r));
                             ("collection_name", to_sql (tac_collection_name r)); ("name", to_sql (tac_name r));
                             ("transfer_type", to_sql (tac_transfer_type r)); ("from_address", to_sql (tac_from_address r));
                             ("to_address", to_sql (tac_to_address r)); ("token_amount", to_sql (tac_token_amount r));
                             ("coin_type", to_sql (tac_coin_type r)); ("coin_amount", to_sql (tac_coin_amount r));
                             ("collection_data_id_hash", to_sql (tac_collection_data_id_hash r));
                             ("transaction_timestamp", to_sql (tac_transaction_timestamp r));
                             ("event_index", to_sql (tac_event_index r))] |}.
#[export] Instance CurrentTokenPendingClaim_insert : Insertable CurrentTokenPendingClaim :=
  {| insert_table := schema.current_token_pending_claims;
     insert_values := fun r => [("token_data_id_hash", to_sql (tpc_token_data_id_hash r));
                             ("property_version", to_sql (tpc_property_version r)); ("from_address", to_sql (tpc_from_address r));
                             ("to_address", to_sql (tpc_to_address r));
                             ("collection_data_id_hash", to_sql (tpc_collection_data_id_hash r));
                             ("creator_address", to_sql (tpc_creator_address r));
                             ("collection_name", to_sql (tpc_collection_name r)); ("name", to_sql (tpc_name r));
                             ("amount", to_sql (tpc_amount r)); ("table_handle", to_sql (tpc_table_handle r));
                             ("last_transaction_version", to_sql (tpc_last_transaction_version r));
                             ("last_transaction_timestamp", to_sql (tpc_last_transaction_timestamp r));
                             ("token_data_id", to_sql (tpc_token_data_id r)); ("collection_id", to_sql (tpc_collection_id r))] |}.
#[export] Instance TokenData_insert : Insertable TokenData :=
  {| insert_table := schema.token_datas;
     insert_values := fun r => [("token_data_id_hash", to_sql (tda_token_data_id_hash r));
                             ("transaction_version", to_sql (tda_transaction_version r));
                             ("creator_address", to_sql (tda_creator_address r));
                             ("collection_name", to_sql (tda_collection_name r)); ("name", to_sql (tda_name r));
                             ("maximum", to_sql (tda_maximum r)); ("supply", to_sql (tda_supply r));
                             ("largest_property_version", to_sql (tda_largest_property_version r));
                             ("metadata_uri", to_sql (tda_metadata_uri r)); ("payee_address", to_sql (tda_payee_address r));
                             ("royalty_points_numerator", to_sql (tda_royalty_points_numerator r));
                             ("royalty_points_denominator", to_sql (tda_royalty_points_denominator r));
                             ("maximum_mutable", to_sql (tda_maximum_mutable r)); ("uri_mutable", to_sql (tda_uri_mutable r));
                             ("description_mutable", to_sql (tda_description_mutable r));
                             ("properties_mutable", to_sql (tda_properties_mutable r));
                             ("royalty_mutable", to_sql (tda_royalty_mutable r));
                             ("default_properties", to_sql (tda_default_properties r));
                             ("collection_data_id_hash", to_sql (tda_collection_data_id_hash r));
                             ("transaction_timestamp", to_sql (tda_transaction_timestamp r));
                             ("description", to_sql (tda_description r))] |}.
#[export] Instance CurrentTokenData_insert : Insertable CurrentTokenData :=
  {| insert_table := schema.current_token_datas;
     insert_values := fun r => [("token_data_id_hash", to_sql (ctd_token_data_id_hash r));
                             ("creator_address", to_sql (ctd_creator_address r));
                             ("collection_name", to_sql (ctd_collection_name r)); ("name", to_sql (ctd_name r));
                             ("maximum", to_sql (ctd_maximum r)); ("supply", to_sql (ctd_supply r));
                             ("largest_property_version", to_sql (ctd_largest_property_version r));
                             ("metadata_uri", to_sql (ctd_metadata_uri r)); ("payee_address", to_sql (ctd_payee_address r));
                             ("royalty_points_numerator", to_sql (ctd_royalty_points_numerator r));
                             ("royalty_points_denominator", to_sql (ctd_royalty_points_denominator r));
                             ("maximum_mutable", to_sql (ctd_maximum_mutable r)); ("uri_mutable", to_sql (ctd_uri_mutable r));
                             ("description_mutable", to_sql (ctd_description_mutable r));
                             ("properties_mutable", to_sql (ctd_properties_mutable r));
                             ("royalty_mutable", to_sql (ctd_royalty_mutable r));
                             ("default_properties", to_sql (ctd_default_properties r));
                             ("last_transaction_version", to_sql (ctd_last_transaction_version r));
                             ("collection_data_id_hash", to_sql (ctd_collection_data_id_hash r));
                             ("last_transaction_timestamp", to_sql (ctd_last_transaction_timestamp r));
                             ("description", to_sql (ctd_description r))] |}.
#[export] Instance TokenOwnership_insert : Insertable TokenOwnership :=
  {| insert_table := schema.token_ownerships;
     insert_values := fun r => [("token_data_id_hash", to_sql (own_token_data_id_hash r));
                             ("property_version", to_sql (own_property_version r));
                             ("transaction_version", to_sql (own_transaction_version r));
                             ("table_handle", to_sql (own_table_handle r)); ("creator_address", to_sql (own_creator_address r));
                             ("collection_name", to_sql (own_collection_name r)); ("name", to_sql (own_name r));
                             ("owner_address", to_sql (own_owner_address r)); ("amount", to_sql (own_amount r));
                             ("table_type", to_sql (own_table_type r));
                             ("collection_data_id_hash", to_sql (own_collection_data_id_hash r));
                             ("transaction_timestamp", to_sql (own_transaction_timestamp r))] |}.
#[export] Instance CurrentTokenOwnership_insert : Insertable CurrentTokenOwnership :=
  {| insert_table := schema.current_token_ownerships;
     insert_values := fun r => [("token_data_id_hash", to_sql (cto_token_data_id_hash r));
                             ("property_version", to_sql (cto_property_version r));
                             ("owner_address", to_sql (cto_owner_address r)); ("creator_address", to_sql (cto_creator_address r));
                             ("collection_name", to_sql (cto_collection_name r)); ("name", to_sql (cto_name r));
                             ("amount", to_sql (cto_amount r)); ("token_properties", to_sql (cto_token_properties r));
                             ("last_transaction_version", to_sql (cto_last_transaction_version r));
                             ("collection_data_id_hash", to_sql (cto_collection_data_id_hash r));
                             ("table_type", to_sql (cto_table_type r));
                             ("last_transaction_timestamp", to_sql (cto_last_transaction_timestamp r))] |}.
#[export] Instance Token_insert : Insertable Token :=
  {| insert_table := schema.tokens;
     insert_values := fun r => [("token_data_id_hash", to_sql (tkn_token_data_id_hash r));
                             ("property_version", to_sql (tkn_property_version r));
                             ("transaction_version", to_sql (tkn_transaction_version r));
                             ("creator_address", to_sql (tkn_creator_address r));
                             ("collection_name", to_sql (tkn_collection_name r)); ("name", to_sql (tkn_name r));
                             ("token_properties", to_sql (tkn_token_properties r));
                             ("collection_data_id_hash", to_sql (tkn_collection_data_id_hash r));
                             ("transaction_timestamp", to_sql (tkn_transaction_timestamp r))] |}.
#[export] Instance CollectionV2_insert : Insertable CollectionV2 :=
  {| insert_table := schema.collections_v2;
     insert_values := fun r => [("transaction_version", to_sql (col2_transaction_version r));
                             ("write_set_change_index", to_sql (col2_write_set_change_index r));
                             ("collection_id", to_sql (col2_collection_id r));
                             ("creator_address", to_sql (col2_creator_address r));
                             ("collection_name", to_sql (col2_collection_name r)); ("description", to_sql (col2_description r));
                             ("uri", to_sql (col2_uri r)); ("current_supply", to_sql (col2_current_supply r));
                             ("max_supply", to_sql (col2_max_supply r)); ("total_minted_v2", to_sql (col2_total_minted_v2 r));
                             ("mutable_description", to_sql (col2_mutable_description r));
                             ("mutable_uri", to_sql (col2_mutable_uri r)); ("table_handle_v1", to_sql (col2_table_handle_v1 r));
                             ("token_standard", to_sql (col2_token_standard r));
                             ("transaction_timestamp", to_sql (col2_transaction_timestamp r))] |}.
#[export] Instance CurrentCollectionV2_insert : Insertable CurrentCollectionV2 :=
  {| insert_table := schema.current_collections_v2;
     insert_values := fun r => [("collection_id", to_sql (ccol2_collection_id r));
                             ("creator_address", to_sql (ccol2_creator_address r));
                             ("collection_name", to_sql (ccol2_collection_name r)); ("description", to_sql (ccol2_description r));
                             ("uri", to_sql (ccol2_uri r)); ("current_supply", to_sql (ccol2_current_supply r));
                             ("max_supply", to_sql (ccol2_max_supply r)); ("total_minted_v2", to_sql (ccol2_total_minted_v2 r));
                             ("mutable_description", to_sql (ccol2_mutable_description r));
                             ("mutable_uri", to_sql (ccol2_mutable_uri r)); ("table_handle_v1", to_sql (ccol2_table_handle_v1 r));
                             ("token_standard", to_sql (ccol2_token_standard r));
                             ("last_transaction_version", to_sql (ccol2_last_transaction_version r));
                             ("last_transaction_timestamp", to_sql (ccol2_last_transaction_timestamp r))] |}.
#[export] Instance TokenActivityV2_insert : Insertable TokenActivityV2 :=
  {| insert_table := schema.token_activities_v2;
     insert_values := fun r => [("transaction_version", to_sql (ta2_transaction_version r));
                             ("event_index", to_sql (ta2_event_index r));
                             ("event_account_address", to_sql (ta2_event_account_address r));
                             ("token_data_id", to_sql (ta2_token_data_id r));
                             ("property_version_v1", to_sql (ta2_property_version_v1 r)); ("type_", to_sql (ta2_type r));
                             ("from_address", to_sql (ta2_from_address r)); ("to_address", to_sql (ta2_to_address r));
                             ("token_amount", to_sql (ta2_token_amount r)); ("before_value", to_sql (ta2_before_value r));
                             ("after_value", to_sql (ta2_after_value r));
                             ("entry_function_id_str", to_sql (ta2_entry_function_id_str r));
                             ("token_standard", to_sql (ta2_token_standard r)); ("is_fungible_v2", to_sql (ta2_is_fungible_v2 r));
                             ("transaction_timestamp", to_sql (ta2_transaction_timestamp r))] |}.
#[export] Instance TokenDataV2_insert : Insertable TokenDataV2 :=
  {| insert_table := schema.token_datas_v2;
     insert_values := fun r => [("transaction_version", to_sql (td2_transaction_version r));
                             ("write_set_change_index", to_sql (td2_write_set_change_index r));
                             ("token_data_id", to_sql (td2_token_data_id r)); ("collection_id", to_sql (td2_collection_id r));
                             ("token_name", to_sql (td2_token_name r)); ("maximum", to_sql (td2_maximum r));
                             ("supply", to_sql (td2_supply r));
                             ("largest_property_version_v1", to_sql (td2_largest_property_version_v1 r));
                             ("token_uri", to_sql (td2_token_uri r)); ("token_properties", to_sql (td2_token_properties r));
                             ("description", to_sql (td2_description r)); ("token_standard", to_sql (td2_token_standard r));
                             ("is_fungible_v2", to_sql (td2_is_fungible_v2 r));
                             ("transaction_timestamp", to_sql (td2_transaction_timestamp r));
                             ("decimals", to_sql (td2_decimals r))] |}.
#[export] Instance CurrentTokenDataV2_insert : Insertable CurrentTokenDataV2 :=
  {| insert_table := schema.current_token_datas_v2;
     insert_values := fun r => [("token_data_id", to_sql (ctd2_token_data_id r)); ("collection_id", to_sql (ctd2_collection_id r));
                             ("token_name", to_sql (ctd2_token_name r)); ("maximum", to_sql (ctd2_maximum r));
                             ("supply", to_sql (ctd2_supply r));
                             ("largest_property_version_v1", to_sql (ctd2_largest_property_version_v1 r));
                             ("token_uri", to_sql (ctd2_token_uri r)); ("token_properties", to_sql (ctd2_token_properties r));
                             ("description", to_sql (ctd2_description r)); ("token_standard", to_sql (ctd2_token_standard r));
                             ("is_fungible_v2", to_sql (ctd2_is_fungible_v2 r));
                             ("last_transaction_version", to_sql (ctd2_last_transaction_version r));
                             ("last_transaction_timestamp", to_sql (ctd2_last_transaction_timestamp r));
                             ("decimals", to_sql (ctd2_decimals r)); ("is_deleted_v2", to_sql (ctd2_is_deleted_v2 r))] |}.
#[export] Instance CurrentTokenV2Metadata_insert : Insertable CurrentTokenV2Metadata :=
  {| insert_table := schema.current_token_v2_metadata;
     insert_values := fun r => [("object_address", to_sql (ctm_object_address r)); ("resource_type", to_sql (ctm_resource_type r));
                             ("data", to_sql (ctm_data r)); ("state_key_hash", to_sql (ctm_state_key_hash r));
                             ("last_transaction_version", to_sql (ctm_last_transaction_version r))] |}.
#[export] Instance TokenOwnershipV2_insert : Insertable TokenOwnershipV2 :=
  {| insert_table := schema.token_ownerships_v2;
     insert_values := fun r => [("transaction_version", to_sql (to2_transaction_version r));
                             ("write_set_change_index", to_sql (to2_write_set_change_index r));
                             ("token_data_id", to_sql (to2_token_data_id r));
                             ("property_version_v1", to_sql (to2_property_version_v1 r));
                             ("owner_address", to_sql (to2_owner_address r)); ("storage_id", to_sql (to2_storage_id r));
                             ("amount", to_sql (to2_amount r)); ("table_type_v1", to_sql (to2_table_type_v1 r));
                             ("token_properties_mutated_v1", to_sql (to2_token_properties_mutated_v1 r));
                             ("is_soulbound_v2", to_sql (to2_is_soulbound_v2 r));
                             ("token_standard", to_sql (to2_token_standard r)); ("is_fungible_v2", to_sql (to2_is_fungible_v2 r));
                             ("transaction_timestamp", to_sql (to2_transaction_timestamp r));
                             ("non_transferrable_by_owner", to_sql (to2_non_transferrable_by_owner r))] |}.
#[export] Instance CurrentTokenOwnershipV2_insert : Insertable CurrentTokenOwnershipV2 :=
  {| insert_table := schema.current_token_ownerships_v2;
     insert_values := fun r => [("token_data_id", to_sql (cto2_token_data_id r));
                             ("property_version_v1", to_sql (cto2_property_version_v1 r));
                             ("owner_address", to_sql (cto2_owner_address r)); ("storage_id", to_sql (cto2_storage_id r));
                             ("amount", to_sql (cto2_amount r)); ("table_type_v1", to_sql (cto2_table_type_v1 r));
                             ("token_properties_mutated_v1", to_sql (cto2_token_properties_mutated_v1 r));
                             ("is_soulbound_v2", to_sql (cto2_is_soulbound_v2 r));
                             ("token_standard", to_sql (cto2_token_standard r));
                             ("is_fungible_v2", to_sql (cto2_is_fungible_v2 r));
                             ("last_transaction_version", to_sql (cto2_last_transaction_version r));
                             ("last_transaction_timestamp", to_sql (cto2_last_transaction_timestamp r));
                             ("non_transferrable_by_owner", to_sql (cto2_non_transferrable_by_owner r))] |}.
#[export] Instance EventSize_insert : Insertable EventSize :=
  {| insert_table := schema.event_size_info;
     insert_values := fun r => [("transaction_version", to_sql (evs_transaction_version r)); ("index", to_sql (evs_index r));
                             ("type_tag_bytes", to_sql (evs_type_tag_bytes r)); ("total_bytes", to_sql (evs_total_bytes r))] |}.
#[export] Instance TransactionSize_insert : Insertable TransactionSize :=
  {| insert_table := schema.transaction_size_info;
     insert_values := fun r => [("transaction_version", to_sql (tsz_transaction_version r));
                             ("size_bytes", to_sql (tsz_size_bytes r))] |}.
#[export] Instance WriteSetSize_insert : Insertable WriteSetSize :=
  {| insert_table := schema.write_set_size_info;
     insert_values := fun r => [("transaction_version", to_sql (wss_transaction_version r)); ("index", to_sql (wss_index r));
                             ("key_bytes", to_sql (wss_key_bytes r)); ("value_bytes", to_sql (wss_value_bytes r))] |}.
#[export] Instance Signature_insert : Insertable Signature :=
  {| insert_table := schema.signatures;
     insert_values := fun r => [("transaction_version", to_sql (sig_transaction_version r));
                             ("multi_agent_index", to_sql (multi_agent_index r)); ("multi_sig_index", to_sql (multi_sig_index r));
                             ("transaction_block_height", to_sql (sig_transaction_block_height r)); ("signer", to_sql (signer r));
                             ("is_sender_primary", to_sql (is_sender_primary r)); ("type_", to_sql (sig_type r));
                             ("public_key", to_sql (public_key r)); ("signature", to_sql (signature r));
                             ("threshold", to_sql (threshold r)); ("public_key_indices", to_sql (public_key_indices r))] |}.
#[export] Instance UserTransaction_insert : Insertable UserTransaction :=
  {| insert_table := schema.user_transactions;
     insert_values := fun r => [("version", to_sql (ut_version r)); ("block_height", to_sql (ut_block_height r));
                             ("parent_signature_type", to_sql (parent_signature_type r)); ("sender", to_sql (ut_sender r));
                             ("sequence_number", to_sql (ut_sequence_number r)); ("max_gas_amount", to_sql (max_gas_amount r));
                             ("expiration_timestamp_secs", to_sql (expiration_timestamp_secs r));
                             ("gas_unit_price", to_sql (gas_unit_price r)); ("timestamp", to_sql (ut_timestamp r));
                             ("entry_function_id_str", to_sql (entry_function_id_str r)); ("epoch", to_sql (ut_epoch r))] |}.
#[export] Instance ProcessorStatus_insert : Insertable ProcessorStatus :=
  {| insert_table := schema.processor_status;
     insert_values := fun r => [("processor", to_sql (processor r)); ("last_success_version", to_sql (last_success_version r));
                             ("last_transaction_timestamp", to_sql (status_transaction_timestamp r))] |}.

(** ** The statements *)

(** The values of a key. *)
Class KeySql (key : Type) := key_values : key -> list SqlValue.
#[export] Instance one_key `{ToSql T} : KeySql T | 2 := fun k => [to_sql k].
#[export] Instance pair_key `{KeySql A, ToSql B} : KeySql (A * B) | 1 := fun k => key_values k.1 ++ [to_sql k.2].

(** A statement with the columns of its [on_conflict], and, where it is run in
    chunks, the name of its entry in the configuration of the chunk sizes and
    the number of fields by which the chunks are bounded. *)
Inductive Statement :=
| statement {row key : Type} `{Insertable row, KeySql key} (u : Upsert row key) (on_conflict : list string)
    (chunks : option (string * nat)).

Definition chunked (table_name : string) (T : Type) `{FieldCount T} : option (string * nat) :=
  Some (table_name, field_count (T := T)).

Definition processor_statements `{!BigDecKey} : list Statement :=
  [statement insert_account_transactions_query ["transaction_version"; "account_address"] (chunked "account_transactions" AccountTransaction);
   statement insert_current_ans_lookups_query ["domain"; "subdomain"] (chunked "current_ans_lookup" CurrentAnsLookup);
   statement insert_ans_lookups_query ["transaction_version"; "write_set_change_index"] (chunked "ans_lookup" AnsLookup);
   statement insert_current_ans_primary_names_query ["registered_address"] (chunked "current_ans_primary_name" CurrentAnsPrimaryName);
   statement insert_ans_primary_names_query ["transaction_version"; "write_set_change_index"] (chunked "ans_primary_name" AnsPrimaryName);
   statement insert_current_ans_lookups_v2_query ["domain"; "subdomain"; "token_standard"] (chunked "current_ans_lookup_v2" CurrentAnsLookupV2);
   statement insert_ans_lookups_v2_query ["transaction_version"; "write_set_change_index"] (chunked "ans_lookup_v2" AnsLookupV2);
   statement insert_current_ans_primary_names_v2_query ["registered_address"; "token_standard"] (chunked "current_ans_primary_name_v2" CurrentAnsPrimaryNameV2);
   statement insert_ans_primary_names_v2_query ["transaction_version"; "write_set_change_index"] (chunked "ans_primary_name_v2" AnsPrimaryNameV2);
   statement insert_coin_activities_query ["transaction_version"; "event_account_address"; "event_creation_number"; "event_sequence_number"] (chunked "coin_activities" CoinActivity);
   statement insert_coin_infos_query ["coin_type_hash"] (chunked "coin_infos" CoinInfo);
   statement insert_coin_balances_query ["transaction_version"; "owner_address"; "coin_type_hash"] (chunked "coin_balances" CoinBalance);
   statement insert_current_coin_balances_query ["owner_address"; "coin_type_hash"] (chunked "current_coin_balances" CurrentCoinBalance);
   statement insert_coin_supply_query ["transaction_version"; "coin_type_hash"] (chunked "coin_supply" CoinSupply);
   statement insert_transactions_query ["version"] (chunked "transactions" TransactionModel);
   statement insert_block_metadata_transactions_query ["version"] (chunked "block_metadata_transactions" BlockMetadataTransaction);
   statement insert_write_set_changes_query ["transaction_version"; "index"] (chunked "write_set_changes" WriteSetChange);
   statement insert_move_modules_query ["transaction_version"; "write_set_change_index"] (chunked "move_modules" MoveModule);
   statement insert_move_resources_query ["transaction_version"; "write_set_change_index"] (chunked "move_resources" MoveResource);
   statement insert_table_items_query ["transaction_version"; "write_set_change_index"] (chunked "table_items" TableItem);
   statement insert_current_table_items_query ["table_handle"; "key_hash"] (chunked "current_table_items" CurrentTableItem);
   statement insert_table_metadata_query ["handle"] (chunked "table_metadatas" TableMetadata);
   statement insert_events_query ["transaction_version"; "event_index"] (chunked "events" Event);
   statement insert_fungible_asset_activities_query ["transaction_version"; "event_index"] (chunked "fungible_asset_activities" FungibleAssetActivity);
   statement insert_fungible_asset_metadata_query ["asset_type"] (chunked "fungible_asset_metadata" FungibleAssetMetadataModel);
   statement insert_fungible_asset_balances_query ["transaction_version"; "write_set_change_index"] (chunked "fungible_asset_balances" FungibleAssetBalance);
   statement insert_current_fungible_asset_balances_query ["storage_id"] (chunked "current_fungible_asset_balances" CurrentFungibleAssetBalance);
   statement insert_objects_query ["transaction_version"; "write_set_change_index"] (chunked "objects" Object);
   statement insert_current_objects_query ["object_address"] (chunked "current_objects" CurrentObject);
   statement insert_current_stake_pool_voter_query ["staking_pool_address"] (chunked "current_staking_pool_voter" CurrentStakingPoolVoter);
   statement insert_proposal_votes_query ["transaction_version"; "proposal_id"; "voter_address"] (chunked "proposal_votes" ProposalVote);
   statement insert_delegator_activities_query ["transaction_version"; "event_index"] (chunked "delegated_staking_activities" DelegatedStakingActivity);
   statement insert_delegator_balances_query ["transaction_version"; "write_set_change_index"] (chunked "delegator_balances" DelegatorBalance);
   statement insert_current_delegator_balances_query ["delegator_address"; "pool_address"; "pool_type"; "table_handle"] (chunked "current_delegator_balances" CurrentDelegatorBalance);
   statement insert_delegator_pools_query ["staking_pool_address"] (chunked "delegated_staking_pools" DelegatorPool);
   statement insert_delegator_pool_balances_query ["transaction_version"; "staking_pool_address"] (chunked "delegated_staking_pool_balances" DelegatorPoolBalance);
   statement insert_current_delegator_pool_balances_query ["staking_pool_address"] (chunked "current_delegated_staking_pool_balances" CurrentDelegatorPoolBalance);
   statement insert_current_delegated_voter_query ["delegation_pool_address"; "delegator_address"] (chunked "current_delegated_voter" CurrentDelegatedVoter);
   statement insert_tokens_query ["token_data_id_hash"; "property_version"; "transaction_version"] (chunked "tokens" Token);
   statement insert_token_ownerships_query ["token_data_id_hash"; "property_version"; "transaction_version"; "table_handle"] (chunked "token_ownerships" TokenOwnership);
   statement insert_token_datas_query ["token_data_id_hash"; "transaction_version"] (chunked "token_datas" TokenData);
   statement insert_collection_datas_query ["collection_data_id_hash"; "transaction_version"] (chunked "collection_datas" CollectionData);
   statement insert_current_token_ownerships_query ["token_data_id_hash"; "property_version"; "owner_address"] (chunked "current_token_ownerships" CurrentTokenOwnership);
   statement insert_current_token_datas_query ["token_data_id_hash"] (chunked "current_token_datas" CurrentTokenData);
   statement insert_current_collection_datas_query ["collection_data_id_hash"] (chunked "current_collection_datas" CurrentCollectionData);
   statement insert_token_activities_query ["transaction_version"; "event_account_address"; "event_creation_number"; "event_sequence_number"] (chunked "token_activities" TokenActivity);
   statement insert_current_token_claims_query ["token_data_id_hash"; "property_version"; "from_address"; "to_address"] (chunked "current_token_pending_claims" CurrentTokenPendingClaim);
   statement insert_nft_points_query ["transaction_version"] (chunked "nft_points" NftPoints);
   statement insert_collections_v2_query ["transaction_version"; "write_set_change_index"] (chunked "collections_v2" CollectionV2);
   statement insert_token_datas_v2_query ["transaction_version"; "write_set_change_index"] (chunked "token_datas_v2" TokenDataV2);
   statement insert_token_ownerships_v2_query ["transaction_version"; "write_set_change_index"] (chunked "token_ownerships_v2" TokenOwnershipV2);
   statement insert_current_collections_v2_query ["collection_id"] (chunked "current_collections_v2" CurrentCollectionV2);
   statement insert_current_token_datas_v2_query ["token_data_id"] (chunked "current_token_datas_v2" CurrentTokenDataV2);
   statement insert_current_deleted_token_datas_v2_query ["token_data_id"] (chunked "current_token_datas_v2" CurrentTokenDataV2);
   statement insert_current_token_ownerships_v2_query ["token_data_id"; "property_version_v1"; "owner_address"; "storage_id"] (chunked "current_token_ownerships_v2" CurrentTokenOwnershipV2);
   statement insert_current_deleted_token_ownerships_v2_query ["token_data_id"; "property_version_v1"; "owner_address"; "storage_id"] (chunked "current_token_ownerships_v2" CurrentTokenOwnershipV2);
   statement insert_token_activities_v2_query ["transaction_version"; "event_index"] (chunked "token_activities_v2" TokenActivityV2);
   statement insert_current_token_v2_metadatas_query ["object_address"; "resource_type"] (chunked "current_token_v2_metadata" CurrentTokenV2Metadata);
   statement insert_transaction_sizes_query ["transaction_version"] (chunked "transaction_size_info" TransactionSize);
   statement insert_event_sizes_query ["transaction_version"; "index"] (chunked "event_size_info" EventSize);
   statement insert_write_set_sizes_query ["transaction_version"; "index"] (chunked "write_set_size_info" WriteSetSize);
   statement insert_user_transactions_query ["version"] (chunked "user_transactions" UserTransaction);
   statement insert_signatures_query ["transaction_version"; "multi_agent_index"; "multi_sig_index"; "is_sender_primary"] (chunked "signatures" Signature);
   statement processor_status_upsert ["processor"] None].
End Insertables.
