(* ===== verification/RowsLaws.v ===== *)
(** * Rows and tables: correctness

    Every statement of the processors fits the schema: its rows are typed, its
    conflict target is the primary key of its table, and its default chunks
    stay below the number of parameters of a query. *)
From S2P Require Import Prelude RustStr Json Externals Proto Util Database Schema SharedTable Processors.
From S2P Require Import TokensV1 Rows.

Section RowsLaws.
Context `{Chrono, BigDec}.

(** The columns with the default [NOW()] in the migrations. *)
Definition server_filled : list string := ["inserted_at"; "last_updated"].
Definition value_typed (t : TableDef) (nv : string * SqlValue) : Prop :=
  exists c, column t nv.1 = Some c /\ column_takes c nv.2 = true.
(** The values name columns of the table, each once and with its type, and
    every other column is nullable or filled by the server. *)
Definition row_typed (t : TableDef) (values : list (string * SqlValue)) : Prop :=
  Forall (value_typed t) values /\ NoDup values.*1 /\
  Forall (fun c => c_nullable c = true \/ c_name c ∈ values.*1 \/ c_name c ∈ server_filled) (columns t).
(** The values of some columns, in order. *)
Definition values_at (names : list string) (values : list (string * SqlValue)) : list (option SqlValue) :=
  (fun n => (list_to_map values : gmap string SqlValue) !! n) <$> names.

Definition statement_ok (s : Statement) : Prop :=
  match s with
  | @statement _ _ row _ ins _ u on_conflict chunks =>
      insert_table (row := row) ∈ schema.allow_tables_to_appear_in_same_query /\
      on_conflict ≡ₚ primary_key (insert_table (row := row)) /\
      (forall r : row,
         row_typed insert_table (insert_values r) /\
         values_at on_conflict (insert_values r) = Some <$> key_values (up_key u r) /\
         forall name n, chunks = Some (name, n) ->
           name = table_name (insert_table (row := row)) /\ n = length (insert_values r) /\
           0 < MAX_DIESEL_PARAM_SIZE / n /\ MAX_DIESEL_PARAM_SIZE / n * length (insert_values r) <= Z.to_nat 65535)
  end.

Lemma takes_option `{ToSql T} (c : Column) (o : option T) :
  c_nullable c = true -> (forall x : T, column_takes c (to_sql x) = true) -> column_takes c (to_sql o) = true.
Proof. intros Hc Hx. destruct o as [x|]; [apply Hx|exact Hc]. Qed.
Lemma chunk_parameters n k :
  n = k -> 0 < k -> k <= 21 -> n = k /\ 0 < MAX_DIESEL_PARAM_SIZE / n /\ MAX_DIESEL_PARAM_SIZE / n * k <= Z.to_nat 65535.
Proof.
  intros -> Hpos Hk. assert (MAX_DIESEL_PARAM_SIZE = Z.to_nat 32767) as -> by reflexivity. split_and!; [done| |].
  - apply Nat.div_str_pos. lia.
  - pose proof (Nat.Div0.mul_div_le (Z.to_nat 32767) k). lia.
Qed.
End RowsLaws.

(** Proves that a statement fits the schema, column by column. *)
Ltac typed_value :=
  eexists; split; [reflexivity|];
  first [reflexivity | apply takes_option; [reflexivity|intros x; reflexivity]
        | match goal with |- column_takes _ (from_option _ _ ?o) = _ => destruct o; reflexivity end].
Ltac typed_statement :=
  split; [refine (bool_decide_unpack _ _); vm_compute; exact I|];
  split; [refine (bool_decide_unpack _ _); vm_compute; exact I|];
  intros r; split; [split; [|split]|split];
  [solve [repeat (apply Forall_cons; split; [typed_value|]); apply Forall_nil_2]
  |refine (bool_decide_unpack _ _); vm_compute; exact I
  |refine (bool_decide_unpack _ _); vm_compute; exact I
  |reflexivity
  |intros ? ? Hch; first [discriminate Hch | injection Hch as <- <-; split; [reflexivity|apply chunk_parameters; [reflexivity|simpl; lia..]]]].

Section StatementsFit.
Context `{Chrono, BigDec}.

(** C28: the statements fit the schema.  For each of the statements that the
    processors send: its table is in the schema; its conflict target is the
    primary key of the table, and the key by which the model of the statement
    finds the existing row are the values of these columns; the values of every
    row have the types of their columns, each column at most once, a null only
    where the column allows it, and no column without a default is left out;
    the size of its chunks is configured under the name of the table, the
    counted fields are the values of a row, and a chunk of default size is not
    empty and has no more parameters than a query can have. *)
Theorem statements_fit_schema `{!BigDecKey} : Forall statement_ok processor_statements.
Proof.
  unfold processor_statements. repeat (apply Forall_cons; split; [typed_statement|]). by apply Forall_nil_2.
Qed.
End StatementsFit.
