(* ===== verification/RowsFit.v ===== *)
(** * Rows and the lengths of their columns

    PostgreSQL refuses a text that is longer than the [varchar] it is written
    to, and with it the whole chunk.  The models cut names, links and types and
    hash identifiers so that this does not happen. *)
From S2P Require Import Prelude RustStr Json Externals Proto Util Database Schema SharedTable Processors.
From S2P Require Import DefaultModels TokenResources TokenUtils TokensV1 TokensV1Laws Rows.

(** A sha2 digest has 32 bytes. *)
Class Sha256Laws `{Sha256} := sha256_length : forall b, String.length (sha256_digest b) = 32.

Section Fits.
Context `{Chrono, BigDec}.

(** A text that can only be too long because an address has more than the 64
    digits of an address. *)
Definition long_address (s : string) : Prop :=
  exists a, s = standardize_address a /\ 64 < char_count (strip_0x a).
Definition value_fits (c : Column) (v : SqlValue) : Prop :=
  match c_type c, v with
  | TVarchar (Some n), VText s => (Z.of_nat (char_count s) <= n)%Z \/ long_address s
  | _, _ => True
  end.
(** The columns of a row are wide enough. *)
Definition row_fits {row} `{!Insertable row} (r : row) : Prop :=
  Forall (fun nv => forall c, column (insert_table (row := row)) nv.1 = Some c -> value_fits c nv.2) (insert_values r).

(** ** Texts of bounded length *)

(** What is known of a text in a column of [n] characters. *)
Definition fits_in (n : Z) (s : string) : Prop := (Z.of_nat (char_count s) <= n)%Z \/ long_address s.

Lemma fits_value c v :
  (forall n s, c_type c = TVarchar (Some n) -> v = VText s -> fits_in n s) -> value_fits c v.
Proof. unfold value_fits. intros Hf. destruct (c_type c) as [| | | | | | | |[n|]], v; try done. by apply Hf. Qed.
Lemma fits_address n a : (66 <= n)%Z -> fits_in n (standardize_address a).
Proof.
  intros Hn. destruct (decide (64 < char_count (strip_0x a))) as [Hl|Hl]; [right; by exists a|left].
  rewrite (proj2 (proj2 (standardize_address_stable a))). lia.
Qed.
Lemma fits_cut s k n t : truncate_str s k = Ret t -> (Z.of_nat k <= n)%Z -> fits_in n t.
Proof.
  intros Ht Hk. left. unfold truncate_str, truncate in Ht. pose proof (char_count_le t).
  case_decide as Hl; [destruct (is_char_boundary s k); [|done]|]; injection Ht as <-.
  - rewrite length_str_take in *; lia.
  - lia.
Qed.
Lemma fits_hash `{HexCodec, Sha256, !HexLaws, !Sha256Laws} n s : (64 <= n)%Z -> fits_in n (hash_str s).
Proof.
  intros Hn. left. pose proof (char_count_le (hash_str s)) as Hc. unfold hash_str in *.
  rewrite hex_encode_length, sha256_length in Hc. lia.
Qed.
Lemma fits_hash_id `{HexCodec, Sha256, !HexLaws, !Sha256Laws} n s : (66 <= n)%Z -> fits_in n ("0x" +:+ hash_str s).
Proof.
  intros Hn. left. pose proof (char_count_le (hash_str s)) as Hc. unfold hash_str in *.
  rewrite hex_encode_length, sha256_length in Hc. rewrite char_count_app. simpl char_count at 1. lia.
Qed.
Lemma fits_short n s : (Z.of_nat (char_count s) <= n)%Z -> fits_in n s.
Proof. by left. Qed.
End Fits.

(** Goes through the columns of a row: those that are not bounded texts, then
    the texts by the lemmas above. *)
Ltac fit_text :=
  first
    [ eapply fits_cut; [eassumption|]; by vm_compute
    | apply fits_address; by vm_compute
    | apply fits_hash; by vm_compute
    | apply fits_hash_id; by vm_compute
    | apply fits_short; by vm_compute
    | assumption ].
Ltac fit_column :=
  let c := fresh "c" in let Hc := fresh "Hc" in
  intros c Hc; injection Hc as <-;
  first [exact I
        | let n := fresh "n" in let s := fresh "s" in let Hn := fresh "Hn" in let Hs := fresh "Hs" in
          apply fits_value; intros n s Hn Hs; injection Hn as <-; simpl in Hs; try discriminate Hs;
          injection Hs as <-; fit_text].
Ltac fit_row := unfold row_fits; simpl; repeat (apply Forall_cons; split; [fit_column|]); try (apply Forall_nil_2; exact I).

Section TokensFit.
Context `{Chrono, BigDec, HexCodec, Sha256, JsonParse, ProtoJson}.
Context `{!BigDecKey, !TokenV1Codec, !HexLaws, !Sha256Laws}.

Lemma pending_claim_fits offer tm amount handle v ts c :
  pending_claim offer tm amount (standardize_address handle) v ts = Ret c -> row_fits c.
Proof.
  unfold pending_claim. intros Hc. apply bind_Ret in Hc as (cn & Hcn & Hc). apply bind_Ret in Hc as (nm & Hnm & Hc).
  injection Hc as <-. fit_row.
Qed.
Lemma ownership_fits token kt k amount handle handles o c :
  fits_in 64 (tkn_token_data_id_hash token) -> fits_in 64 (tkn_collection_data_id_hash token) ->
  fits_in 128 (tkn_collection_name token) -> fits_in 128 (tkn_name token) ->
  ownership_from_token token kt k amount handle handles = Ok (Some (o, c)) ->
  row_fits o /\ (forall c', c = Some c' -> row_fits c').
Proof.
  intros F1 F2 F3 F4. unfold ownership_from_token. destruct (token_write_set _ _ _) as [[[]|]|]; simpl; try done.
  destruct (handles !! _) as [tm|]; [case_decide as Ht; [|done]|]; intros [= <- <-].
  - split; [fit_row|]. intros c' [= <-]. fit_row.
  - split; [fit_row|done].
Qed.
Lemma split_ownership_fits token kt k amount handle handles r t o co :
  row_fits token -> fits_in 64 (tkn_token_data_id_hash token) -> fits_in 64 (tkn_collection_data_id_hash token) ->
  fits_in 128 (tkn_collection_name token) -> fits_in 128 (tkn_name token) ->
  ownership_from_token token kt k amount handle handles = Ok r ->
  split_ownership token r = (t, o, co) ->
  row_fits t /\ (forall o', o = Some o' -> row_fits o') /\ (forall c', co = Some c' -> row_fits c').
Proof.
  intros Ht F1 F2 F3 F4 Hr Hs. destruct r as [[o' c']|]; simplify_eq/=; [|done].
  eapply ownership_fits in Hr as [Ho Hc]; [|done..]. split_and!; [done| |done]. by intros ? [= <-].
Qed.
Lemma token_write_fits item v ts handles t o co :
  token_from_write_table_item item v ts handles = Ret (Ok (Some (t, o, co))) ->
  row_fits t /\ (forall o', o = Some o' -> row_fits o') /\ (forall c', co = Some c' -> row_fits c').
Proof.
  unfold token_from_write_table_item. intros Hr. apply bind_Ret in Hr as (data & _ & Hr).
  apply try_bind_Ok in Hr as ([[| | |tok| |]|] & _ & Hr); try done.
  apply bind_Ret in Hr as (cn & Hcn & Hr). apply bind_Ret in Hr as (nm & Hnm & Hr).
  apply try_bind_Ok in Hr as (r & Hr' & Hr). injection Hr' as Hr'. injection Hr as Hr.
  eapply split_ownership_fits; [..|exact Hr'|exact Hr]; [fit_row|simpl; fit_text..].
Qed.
Lemma token_delete_fits item v ts handles t o co :
  token_from_delete_table_item item v ts handles = Ret (Ok (Some (t, o, co))) ->
  row_fits t /\ (forall o', o = Some o' -> row_fits o') /\ (forall c', co = Some c' -> row_fits c').
Proof.
  unfold token_from_delete_table_item. intros Hr. apply bind_Ret in Hr as (data & _ & Hr).
  apply try_bind_Ok in Hr as ([[|tid| | | |]|] & _ & Hr); try done.
  apply bind_Ret in Hr as (cn & Hcn & Hr). apply bind_Ret in Hr as (nm & Hnm & Hr).
  apply try_bind_Ok in Hr as (r & Hr' & Hr). injection Hr' as Hr'. injection Hr as Hr.
  eapply split_ownership_fits; [..|exact Hr'|exact Hr]; [fit_row|simpl; fit_text..].
Qed.
Lemma token_data_fits item v ts d cd :
  token_data_from_write_table_item item v ts = Ret (Ok (Some (d, cd))) -> row_fits d /\ row_fits cd.
Proof.
  unfold token_data_from_write_table_item. intros Hr. apply bind_Ret in Hr as (data & _ & Hr).
  apply try_bind_Ok in Hr as ([[| |td| | |]|] & _ & Hr); try done.
  apply try_bind_Ok in Hr as ([[tdi| | | | |]|] & _ & Hr); try done.
  apply bind_Ret in Hr as (cn & Hcn & Hr). apply bind_Ret in Hr as (nm & Hnm & Hr).
  apply bind_Ret in Hr as (uri & Huri & Hr). injection Hr as <- <-. split; fit_row.
Qed.
Lemma collection_data_fits item v ts handles query retries d cd :
  fits_in 66 (wti_handle item) ->
  collection_data_from_write_table_item item v ts handles query retries = Ret (Ok (Some (d, cd))) ->
  row_fits d /\ row_fits cd.
Proof.
  intros Hh. unfold collection_data_from_write_table_item. intros Hr. apply bind_Ret in Hr as (data & _ & Hr).
  apply try_bind_Ok in Hr as ([[| | | |c|]|] & _ & Hr); try done.
  destruct (match _ with Some _ => _ | None => _ end); [|done].
  apply bind_Ret in Hr as (nm & Hnm & Hr). apply bind_Ret in Hr as (uri & Huri & Hr). injection Hr as <- <-.
  split; fit_row.
Qed.
Lemma claim_write_fits item v ts handles c :
  claim_from_write_table_item item v ts handles = Ret (Ok (Some c)) -> row_fits c.
Proof.
  unfold claim_from_write_table_item. intros Hr. apply bind_Ret in Hr as (data & _ & Hr).
  apply try_bind_Ok in Hr as ([[| | | | |offer]|] & _ & Hr); try done.
  apply try_bind_Ok in Hr as ([[| | |tok| |]|] & _ & Hr); try done.
  destruct (handles !! _); [|done]. apply bind_Ret in Hr as (c' & Hc & Hr). injection Hr as <-.
  by eapply pending_claim_fits.
Qed.
Lemma claim_delete_fits item v ts handles c :
  claim_from_delete_table_item item v ts handles = Ret (Ok (Some c)) -> row_fits c.
Proof.
  unfold claim_from_delete_table_item. intros Hr. apply bind_Ret in Hr as (data & _ & Hr).
  apply try_bind_Ok in Hr as ([[| | | | |offer]|] & _ & Hr); try done.
  apply bind_Ret in Hr as (tm & _ & Hr). apply bind_Ret in Hr as (c' & Hc & Hr). injection Hr as <-.
  by eapply pending_claim_fits.
Qed.

(** The types of the events of a token are known, and short. *)
Lemma token_event_type ty data v e : v1_token_event ty data v = Ok (Some e) -> char_count ty <= 50.
Proof.
  unfold v1_token_event. intros He. apply Nat.leb_le.
  repeat (case_decide as Hty; [subst ty; reflexivity|clear Hty]). discriminate He.
Qed.
Lemma activity_fits ty ev e v ts i a :
  char_count ty <= 50 -> activity_from_parsed_event ty ev e v ts i = Ret a -> row_fits a.
Proof.
  intros Hty. assert (fits_in 50 ty) as Hft by (apply fits_short; lia). unfold activity_from_parsed_event. intros Ha.
  apply bind_Ret in Ha as (key & _ & Ha). apply bind_Ret in Ha as (cn & Hcn & Ha).
  apply bind_Ret in Ha as (nm & Hnm & Ha). injection Ha as <-. destruct e; fit_row.
Qed.

(** *** A transaction *)

Context `{!Serialize EntryFunctionPayloadClean, !Serialize ScriptPayloadClean,
          !Serialize MultisigPayloadClean, !Unescape}.
Variable query_creator : Z -> Z -> nat -> string -> result string.
Variable query_retries : nat.
Variable config : TokenProcessorConfig.

Definition short_handle (wsc : WriteSetChangePB) : Prop :=
  match wsc_change wsc with
  | Some (ChangeWriteTableItem item) => char_count (wti_handle item) <= 66
  | _ => True
  end.
Definition short_handles (t : Transaction) : Prop :=
  forall info, t_info t = Some info -> Forall short_handle (ti_changes info).

Definition token_change_fits (c : TokenChange) : Prop :=
  (forall t o co, maybe_token_w_ownership c = Some (t, o, co) ->
     row_fits t /\ (forall o', o = Some o' -> row_fits o') /\ (forall c', co = Some c' -> row_fits c')) /\
  (forall d cd, maybe_token_data c = Some (d, cd) -> row_fits d /\ row_fits cd) /\
  (forall d cd, maybe_collection_data c = Some (d, cd) -> row_fits d /\ row_fits cd) /\
  (forall cl, maybe_current_token_claim c = Some cl -> row_fits cl).
Lemma token_change_rows_fit v ts handles i change c :
  match change with ChangeWriteTableItem item => char_count (wti_handle item) <= 66 | _ => True end ->
  token_change query_creator query_retries v ts handles i change = Ret c -> token_change_fits c.
Proof.
  unfold token_change, token_change_fits. destruct change as [| |item| | |item]; intros Hh Hc;
    try (injection Hc as <-; by split_and!).
  - apply bind_Ret in Hc as (r1 & E1 & Hc). apply bind_Ret in Hc as (t & ->%unwrap_result_Ret & Hc).
    apply bind_Ret in Hc as (r2 & E2 & Hc). apply bind_Ret in Hc as (cl & ->%unwrap_result_Ret & Hc).
    injection Hc as <-. simpl. split_and!; try done.
    + intros t' o co ->. by eapply token_delete_fits.
    + intros c' ->. by eapply claim_delete_fits.
  - apply bind_Ret in Hc as (r1 & E1 & Hc). apply bind_Ret in Hc as (t & ->%unwrap_result_Ret & Hc).
    apply bind_Ret in Hc as (r2 & E2 & Hc). apply bind_Ret in Hc as (d & ->%unwrap_result_Ret & Hc).
    apply bind_Ret in Hc as (r3 & E3 & Hc). apply bind_Ret in Hc as (co & ->%unwrap_result_Ret & Hc).
    apply bind_Ret in Hc as (r4 & E4 & Hc). apply bind_Ret in Hc as (cl & ->%unwrap_result_Ret & Hc).
    injection Hc as <-. simpl. split_and!.
    + intros t' o' co' ->. by eapply token_write_fits.
    + intros d' cd ->. by eapply token_data_fits.
    + intros d' cd ->. eapply collection_data_fits; [|exact E3]. apply fits_short. lia.
    + intros c' ->. by eapply claim_write_fits.
Qed.

Definition token_txn_fits (d : TokenTxn) : Prop :=
  holds token_pk row_fits (txn_tokens d) /\ Forall row_fits (txn_token_ownerships d) /\
  Forall row_fits (txn_token_datas d) /\ Forall row_fits (txn_collection_datas d) /\
  holds cto_pk row_fits (txn_current_token_ownerships d) /\
  holds ctd_token_data_id_hash row_fits (txn_current_token_datas d) /\
  holds ccd_collection_data_id_hash row_fits (txn_current_collection_datas d) /\
  holds tpc_pk row_fits (txn_current_token_claims d).
Lemma store_token_change_fits acc c :
  token_txn_fits acc -> token_change_fits c -> token_txn_fits (store_token_change acc c).
Proof.
  intros (A1 & A2 & A3 & A4 & A5 & A6 & A7 & A8) (C1 & C2 & C3 & C4).
  assert (Forall row_fits (option_list (fst <$> maybe_token_data c)) /\
          Forall row_fits (option_list (snd <$> maybe_token_data c))) as [D1 D2].
  { split; apply Forall_option_list; intros x ([d cd] & E & ->)%fmap_Some; by destruct (C2 d cd E). }
  assert (Forall row_fits (option_list (fst <$> maybe_collection_data c)) /\
          Forall row_fits (option_list (snd <$> maybe_collection_data c))) as [E1 E2].
  { split; apply Forall_option_list; intros x ([d cd] & E & ->)%fmap_Some; by destruct (C3 d cd E). }
  assert (Forall row_fits (option_list (maybe_current_token_claim c))) as F1 by (by apply Forall_option_list).
  unfold token_txn_fits, store_token_change.
  destruct (maybe_token_w_ownership c) as [[[t o] co]|] eqn:Ec; simpl; split_and!; try done;
    try (by apply Forall_app_2); try (by apply holds_inserts); destruct (C1 t o co eq_refl) as (T1 & T2 & T3).
  - by apply holds_insert.
  - apply Forall_app_2; [done|]. by apply Forall_option_list.
  - apply holds_inserts; [done|]. by apply Forall_option_list.
Qed.
Lemma tokens_from_transaction_fits t handles d :
  short_handles t ->
  tokens_from_transaction query_creator query_retries t handles = Ret d -> token_txn_fits d.
Proof.
  intros Hh. assert (token_txn_fits no_tokens) as Hnone by (split_and!; first [apply holds_empty|constructor]).
  unfold tokens_from_transaction. destruct (t_txn_data t) as [[]|]; intros Hd; try (by injection Hd as <-).
  apply bind_Ret in Hd as (ts & _ & Hd). apply bind_Ret in Hd as (nts & _ & Hd).
  apply bind_Ret in Hd as (info & Hinfo%unwrap_Ret & Hd). revert Hd. apply (foldM_ind token_txn_fits); [done|].
  intros acc [i wsc] acc' Hin Hacc Hs. unfold token_change_step in Hs.
  apply bind_Ret in Hs as (change & Hch%unwrap_Ret & Hs).
  apply bind_Ret in Hs as (c & Hc & Hs). injection Hs as <-. apply store_token_change_fits; [done|].
  eapply token_change_rows_fit; [|exact Hc]. specialize (Hh info Hinfo). rewrite Forall_forall in Hh.
  apply (list_elem_of_fmap_2 snd) in Hin. unfold enumerate in Hin. rewrite enumerate_from_snd in Hin.
  apply Hh in Hin. unfold short_handle in Hin. simpl in Hin. by rewrite Hch in Hin.
Qed.
Lemma token_activities_fit t l : token_activities_from_transaction t = Ret l -> Forall row_fits l.
Proof.
  unfold token_activities_from_transaction. destruct (t_txn_data t) as [[]|]; intros Hl;
    try (injection Hl as <-; constructor).
  revert Hl. apply (foldM_ind (Forall row_fits)); [constructor|]. intros acc [i ev] acc' _ Hacc Hs.
  unfold token_activity_step in Hs. apply bind_Ret in Hs as (e & He%unwrap_result_Ret & Hs).
  destruct e as [e|]; [|by injection Hs as <-]. apply token_event_type in He.
  apply bind_Ret in Hs as (ts & _ & Hs). apply bind_Ret in Hs as (nts & _ & Hs).
  apply bind_Ret in Hs as (a & Ha & Hs). injection Hs as <-.
  apply Forall_app_2; [done|]. constructor; [|constructor]. by eapply activity_fits.
Qed.
Lemma nft_points_fit t contract p : nft_points_from_transaction t contract = Ret (Some p) -> row_fits p.
Proof.
  unfold nft_points_from_transaction. destruct (t_txn_data t) as [d|]; [|done]. intros Hp.
  apply bind_Ret in Hp as (ts & _ & Hp). apply bind_Ret in Hp as (info & _ & Hp).
  destruct contract as [c|]; [|done]. destruct d; try done.
  apply bind_Ret in Hp as (req & _ & Hp). apply bind_Ret in Hp as (payload & _ & Hp).
  apply bind_Ret in Hp as (entry & _ & Hp). destruct (ti_success info); [|done]. case_decide; [|done].
  outcome_inv. fit_row.
Qed.

(** *** A batch *)

Definition token_state_fits (st : TokenState) : Prop :=
  Forall row_fits (all_tokens st) /\ Forall row_fits (all_token_ownerships st) /\
  Forall row_fits (all_token_datas st) /\ Forall row_fits (all_collection_datas st) /\
  Forall row_fits (all_token_activities st) /\ Forall row_fits (all_nft_points st) /\
  holds cto_pk row_fits (all_current_token_ownerships st) /\
  holds ctd_token_data_id_hash row_fits (all_current_token_datas st) /\
  holds ccd_collection_data_id_hash row_fits (all_current_collection_datas st) /\
  holds tpc_pk row_fits (all_current_token_claims st).
Lemma holds_Forall `{HashOrder} {K V} `{Countable K} (key : V -> K) (P : V -> Prop) m l :
  holds key P m -> l ≡ₚ into_values m -> Forall P l.
Proof. intros Hm Hl. apply Forall_forall. by eapply holds_rows. Qed.
Lemma token_step_fits `{HashOrder} handles st t st' :
  short_handles t -> token_state_fits st ->
  token_step query_creator query_retries config handles st t = Ret st' -> token_state_fits st'.
Proof.
  intros Hh (S1 & S2 & S3 & S4 & S5 & S6 & S7 & S8 & S9 & S10) Hs. unfold token_step in Hs.
  apply bind_Ret in Hs as (d & Hd & Hs). apply bind_Ret in Hs as (acts & Hacts%token_activities_fit & Hs).
  apply bind_Ret in Hs as (points & Hp & Hs). injection Hs as <-.
  apply tokens_from_transaction_fits in Hd as (D1 & D2 & D3 & D4 & D5 & D6 & D7 & D8); [|done].
  unfold token_state_fits. simpl. split_and!; try (by apply Forall_app_2); try (by apply holds_extend).
  - apply Forall_app_2; [done|]. by eapply holds_Forall.
  - apply Forall_app_2; [done|]. apply Forall_option_list. intros p ->. by eapply nft_points_fit.
Qed.

(** C29: the rows of the token tables fit their columns.  When the handles of
    the written tables have the length of an address, no text of a row that
    the token processor makes from a batch is longer than its column, unless
    the contract names an address with more than 64 digits: names and links
    are cut, identifiers hashed, and the types of the events are short. *)
Theorem token_rows_fit `{HashOrder} (transactions : list Transaction) (rows : TokenRows) :
  Forall short_handles transactions ->
  token_rows query_creator query_retries config transactions = Ret rows ->
  Forall row_fits (rows_tokens rows) /\ Forall row_fits (rows_token_ownerships rows) /\
  Forall row_fits (rows_token_datas rows) /\ Forall row_fits (rows_collection_datas rows) /\
  Forall row_fits (rows_token_activities rows) /\ Forall row_fits (rows_nft_points rows) /\
  Forall row_fits (rows_current_token_ownerships rows) /\ Forall row_fits (rows_current_token_datas rows) /\
  Forall row_fits (rows_current_collection_datas rows) /\ Forall row_fits (rows_current_token_claims rows).
Proof.
  intros Hh Hr. unfold token_rows in Hr. apply bind_Ret in Hr as (handles & _ & Hr).
  apply bind_Ret in Hr as (st & Hf & Hr). injection Hr as <-.
  assert (token_state_fits st) as (S1 & S2 & S3 & S4 & S5 & S6 & S7 & S8 & S9 & S10).
  { revert Hf. apply (foldM_ind token_state_fits); [split_and!; first [apply holds_empty|constructor]|].
    intros s t s' Ht Hs. apply token_step_fits; [|done]. by eapply Forall_forall. }
  simpl. split_and!; try done; (eapply holds_Forall; [eassumption|]; apply sort_by_perm).
Qed.
End TokensFit.

(** ** A concrete batch

    With digests of 32 bytes. *)
Section ConcreteFit.
#[local] Existing Instance pair_chrono.
#[local] Existing Instance int_bigdec.
#[local] Existing Instance int_bigdec_key.
#[local] Existing Instance plain_hex.
#[local] Existing Instance text_json.
#[local] Existing Instance map_order.
#[local] Existing Instance no_proto_json.
#[local] Existing Instance token_text_codec.
#[local] Existing Instance no_entry_value.
#[local] Existing Instance no_script_value.
#[local] Existing Instance no_multisig_value.
#[local] Existing Instance plain_unescape.
#[local] Existing Instance plain_hex_laws.

Definition fixed_sha : Sha256 := fun b => str_take 32 (b +:+ repeat_char zero_char 32).
#[local] Existing Instance fixed_sha.
#[local] Instance fixed_sha_laws : Sha256Laws.
Proof.
  intros b. unfold sha256_digest, fixed_sha. rewrite length_str_take; [done|].
  rewrite length_str_app, length_repeat_char. lia.
Qed.
Definition ex_hashed_rows : TokenRows :=
  ret_or ex_no_token_rows (token_rows ex_no_creator 5 ex_token_config ex_token_batch).
Lemma ex_hashed_rows_ok : token_rows ex_no_creator 5 ex_token_config ex_token_batch = Ret ex_hashed_rows.
Proof. apply ret_or_eq. vm_compute. reflexivity. Qed.
Lemma token_rows_fit_witness :
  length (rows_current_token_claims ex_hashed_rows) = 2 /\
  Forall row_fits (rows_current_token_claims ex_hashed_rows).
Proof.
  split; [vm_compute; reflexivity|].
  destruct (token_rows_fit ex_no_creator 5 ex_token_config ex_token_batch ex_hashed_rows) as (_ & _ & _ & _ & _ & _ & _ & _ & _ & Hc).
  - constructor; [|constructor]. intros info Hi. injection Hi as <-. repeat constructor; vm_compute; lia.
  - exact ex_hashed_rows_ok.
  - exact Hc.
Defined.
End ConcreteFit.
