(* ===== verification/Lookups.v ===== *)
(** * Lookups in the tables

    The select statements of the models: the [Queryable] structs, their
    conditions and what the retried lookups of the processors find in the tables
    that other batches have written.  In the models of the processors the answers
    of the database are parameters; here they come from tables. *)
From S2P Require Import Prelude RustStr Json Externals Proto Util Database Schema SharedTable Processors.
From S2P Require Import DefaultModels TokenResources FungibleResources Objects Stake StakeLaws TokenUtils TokensV1 TokensV2.

(** ** Queryable structs

    diesel fills the fields of a [Queryable] struct from the columns of the
    table by position. *)
Inductive FieldType := FString | FI64 | FBool | FBigDecimal | FJson | FNaiveDateTime.
Record QueryField := { qf_name : string; qf_type : FieldType; qf_optional : bool }.
Record QueryStruct := { qs_table : TableDef; qs_fields : list QueryField }.
Definition field (name : string) (t : FieldType) : QueryField := {| qf_name := name; qf_type := t; qf_optional := false |}.
Definition ofield (name : string) (t : FieldType) : QueryField := {| qf_name := name; qf_type := t; qf_optional := true |}.

Definition CurrentObjectQuery_struct : QueryStruct :=
  {| qs_table := schema.current_objects;
     qs_fields := [field "object_address" FString; field "owner_address" FString; field "state_key_hash" FString;
                   field "allow_ungated_transfer" FBool; field "last_guid_creation_num" FBigDecimal;
                   field "last_transaction_version" FI64; field "is_deleted" FBool;
                   field "inserted_at" FNaiveDateTime] |}.
Definition CurrentDelegatedVoterQuery : QueryStruct :=
  {| qs_table := schema.current_delegated_voter;
     qs_fields := [field "delegation_pool_address" FString; field "delegator_address" FString;
                   ofield "table_handle" FString; ofield "voter" FString; ofield "pending_voter" FString;
                   field "last_transaction_version" FI64; field "last_transaction_timestamp" FNaiveDateTime;
                   field "inserted_at" FNaiveDateTime] |}.
Definition CurrentDelegatorBalanceQuery : QueryStruct :=
  {| qs_table := schema.current_delegator_balances;
     qs_fields := [field "delegator_address" FString; field "pool_address" FString; field "pool_type" FString;
                   field "table_handle" FString; field "last_transaction_version" FI64;
                   field "inserted_at" FNaiveDateTime; field "shares" FBigDecimal;
                   field "parent_table_handle" FString] |}.
Definition CurrentCollectionDataQuery : QueryStruct :=
  {| qs_table := schema.current_collection_datas;
     qs_fields := [field "collection_data_id_hash" FString; field "creator_address" FString;
                   field "collection_name" FString; field "description" FString; field "metadata_uri" FString;
                   field "supply" FBigDecimal; field "maximum" FBigDecimal; field "maximum_mutable" FBool;
                   field "uri_mutable" FBool; field "description_mutable" FBool;
                   field "last_transaction_version" FI64; field "inserted_at" FNaiveDateTime;
                   field "table_handle" FString; field "last_transaction_timestamp" FNaiveDateTime] |}.
Definition CurrentTokenOwnershipV2Query : QueryStruct :=
  {| qs_table := schema.current_token_ownerships_v2;
     qs_fields := [field "token_data_id" FString; field "property_version_v1" FBigDecimal;
                   field "owner_address" FString; field "storage_id" FString; field "amount" FBigDecimal;
                   ofield "table_type_v1" FString; ofield "token_properties_mutated_v1" FJson;
                   ofield "is_soulbound_v2" FBool; field "token_standard" FString; ofield "is_fungible_v2" FBool;
                   field "last_transaction_version" FI64; field "last_transaction_timestamp" FNaiveDateTime;
                   field "inserted_at" FNaiveDateTime; ofield "non_transferrable_by_owner" FBool] |}.
Definition ProcessorStatusQuery : QueryStruct :=
  {| qs_table := schema.processor_status;
     qs_fields := [field "processor" FString; field "last_success_version" FI64;
                   field "last_updated" FNaiveDateTime; ofield "last_transaction_timestamp" FNaiveDateTime] |}.
Definition query_structs : list QueryStruct :=
  [CurrentObjectQuery_struct; CurrentDelegatedVoterQuery; CurrentDelegatorBalanceQuery; CurrentCollectionDataQuery;
   CurrentTokenOwnershipV2Query; ProcessorStatusQuery].

(** diesel's [FromSql] for the types of the fields. *)
Definition from_sql (c : SqlType) (t : FieldType) : bool :=
  match c, t with
  | (TText | TVarchar _), FString | TInt8, FI64 | TBool, FBool | TNumeric, FBigDecimal | TJsonb, FJson
  | TTimestamp, FNaiveDateTime => true
  | _, _ => false
  end.
(** The field at the position of a column is its namesake and reads its type. *)
Definition field_fits (f : QueryField) (c : Column) : bool :=
  bool_decide (qf_name f = c_name c) && from_sql (c_type c) (qf_type f) && Bool.eqb (qf_optional f) (c_nullable c).
Fixpoint fields_fit (fs : list QueryField) (cs : list Column) : bool :=
  match fs, cs with
  | [], [] => true
  | f :: fs, c :: cs => field_fits f c && fields_fit fs cs
  | _, _ => false
  end.

(** every column is read into the field of its name.  Reading is by
    position: for each struct that is read from the database the fields and the
    columns of its table agree in number, order, name, type and in whether they
    may be null. *)
Theorem query_structs_fit_schema :
  Forall (fun q => fields_fit (qs_fields q) (columns (qs_table q)) = true) query_structs.
Proof. repeat constructor. Qed.

(** ** Select statements *)

Section Select.
Context {key : Type} `{Countable key} {row : Type}.
Implicit Types (t : gmap key row) (cond : row -> bool) (r : row).

Definition selects cond t r : Prop := exists k, t !! k = Some r /\ cond r = true.
(** [first] has a limit and no order: any row that satisfies the condition, an
    error where there is none; a request that is not answered is an error. *)
Inductive first_where cond t : bool -> result row -> Prop :=
| first_row r : selects cond t r -> first_where cond t true (Ok r)
| first_not_found : (forall r, ~ selects cond t r) -> first_where cond t true Err
| first_unanswered : first_where cond t false Err.

(** One possible answer. *)
Definition run_first cond t (answered : bool) : result row :=
  if answered then match list_find (fun kr => cond kr.2 = true) (map_to_list t) with
                   | Some (_, kr) => Ok kr.2
                   | None => Err
                   end
  else Err.
Lemma run_first_where cond t answered : first_where cond t answered (run_first cond t answered).
Proof.
  destruct answered; simpl; [|constructor].
  destruct (list_find _ _) as [[i [k r]]|] eqn:E.
  - apply list_find_Some in E as (E & Hc & _). constructor. exists k.
    split; [|done]. apply elem_of_map_to_list. by eapply list_elem_of_lookup_2.
  - constructor. apply list_find_None in E. intros r (k & Hk & Hc). rewrite Forall_forall in E.
    apply (E (k, r)); [by apply elem_of_map_to_list|done].
Qed.

(** The requests of a lookup: request [n] sees the table [tables n], and
    [read] is what the lookup takes of the row. *)
Definition answers {A} cond (read : row -> A) (tables : nat -> gmap key row) (answered : nat -> bool)
    (query : nat -> result A) : Prop :=
  forall n, exists res, first_where cond (tables n) (answered n) res /\ query n = read <$> res.

Lemma answers_run {A} cond (read : row -> A) tables answered :
  answers cond read tables answered (fun n => read <$> run_first cond (tables n) (answered n)).
Proof. intros n. eexists. split; [apply run_first_where|done]. Qed.

Section Lookup.
Context {A : Type} (cond : row -> bool) (read : row -> A) (tables : nat -> gmap key row).
Context (answered : nat -> bool) (query : nat -> result A) (retries : nat).
Hypothesis Hanswers : answers cond read tables answered query.

Lemma lookup_sound a :
  retry_lookup retries query = Ok a ->
  exists n r, n < retries /\ answered n = true /\ selects cond (tables n) r /\ a = read r.
Proof.
  intros (n & Hn & Hq & _)%retry_lookup_Ok. destruct (Hanswers n) as (r & Hr & E). rewrite Hq in E.
  inversion Hr as [r' Hs Ha E'| |]; subst; simplify_eq/=. by exists n, r'.
Qed.
Lemma lookup_found n r :
  n < retries -> answered n = true -> selects cond (tables n) r -> exists a, retry_lookup retries query = Ok a.
Proof.
  intros Hn Ha Hs. destruct (retry_lookup retries query) as [a|] eqn:E; [by exists a|].
  rewrite retry_lookup_Err in E. specialize (E n Hn). destruct (Hanswers n) as (r' & Hr & E'). rewrite Ha in Hr.
  inversion Hr as [r1 Hs1 E1| Hno |]; subst; simplify_eq/=; [congruence|]. by destruct (Hno r).
Qed.
Lemma lookup_missing :
  (forall n r, n < retries -> answered n = true -> ~ selects cond (tables n) r) ->
  retry_lookup retries query = Err.
Proof.
  intros Hno. destruct (retry_lookup retries query) as [a|] eqn:E; [|done].
  apply lookup_sound in E as (n & r & Hn & Ha & Hs & _). by destruct (Hno n r).
Qed.
(** A condition that determines what is read. *)
Lemma lookup_unique n r :
  (forall n r', n < retries -> selects cond (tables n) r' -> read r' = read r) ->
  n < retries -> answered n = true -> selects cond (tables n) r -> retry_lookup retries query = Ok (read r).
Proof.
  intros Hu Hn Ha Hs. destruct (lookup_found n r Hn Ha Hs) as [a E]. rewrite E. f_equal.
  apply lookup_sound in E as (n' & r' & Hn' & _ & Hs' & ->). by eapply Hu.
Qed.
End Lookup.

(** The rows of a table are filed under their keys. *)
Definition filed (key_of : row -> key) t : Prop := forall k r, t !! k = Some r -> key_of r = k.
Lemma filed_upsert_rows (u : Upsert row key) t l :
  (forall set old new, up_action u = DoUpdate set -> up_key u (set old new) = up_key u old) ->
  filed (up_key u) t -> filed (up_key u) (upsert_rows u t l).
Proof.
  intros Hset. revert t. induction l as [|r l IH]; intros t Ht; simpl; [done|]. apply IH. intros k o.
  rewrite upsert_row_lookup. case_decide as Hk; [|apply Ht]. unfold upsert_at.
  destruct (t !! k) as [old|] eqn:Eo; [|intros [= <-]; done]. specialize (Ht k old Eo).
  repeat case_match; intros; simplify_eq; try done. rewrite Hset; done.
Qed.
Lemma upsert_singleton (u : Upsert row key) r : upsert_rows u ∅ [r] !! up_key u r = Some r.
Proof. simpl. by rewrite upsert_row_lookup, decide_True, lookup_empty. Qed.
Lemma filed_empty key_of : filed key_of ∅.
Proof. intros k r. by rewrite lookup_empty. Qed.
End Select.

(** ** The lookups of the processors *)

Section Lookups.
Context `{Chrono, BigDec, HexCodec, Sha256, JsonParse, ProtoJson}.
Context `{!BigDecKey, !TokenV1Codec, !TokenCodec, !FungibleCodec, !StakeCodec}.

(** *** Conditions *)

(** [CurrentObjectQuery::get_by_address] *)
Definition object_by_address (object_address : string) (r : CurrentObject) : bool :=
  bool_decide (co_object_address r = object_address).
(** [CurrentDelegatedVoterQuery::get_by_table_handle] *)
Definition voter_by_table_handle (table_handle : string) (r : CurrentDelegatedVoter) : bool :=
  bool_decide (cdv_table_handle r = Some table_handle).
(** [CurrentDelegatedVoterQuery::get_by_pk] *)
Definition voter_by_pk (delegator_address delegation_pool_address : string) (r : CurrentDelegatedVoter) : bool :=
  bool_decide (cdv_delegator_address r = delegator_address) &&
  bool_decide (cdv_delegation_pool_address r = delegation_pool_address).
(** [CurrentDelegatorBalanceQuery::get_by_inactive_share_handle] *)
Definition balance_by_inactive_share_handle (table_handle : string) (r : CurrentDelegatorBalance) : bool :=
  bool_decide (cdb_parent_table_handle r = table_handle).
(** [CurrentCollectionDataQuery::get_by_table_handle] *)
Definition collection_data_by_table_handle (table_handle : string) (r : CurrentCollectionData) : bool :=
  bool_decide (ccd_table_handle r = table_handle).
(** [CurrentTokenOwnershipV2Query::get_latest_owned_nft_by_token_data_id_impl]:
    the amount is greater than zero. *)
Definition owned_nft_by_token_data_id (token_data_id : string) (r : CurrentTokenOwnershipV2) : bool :=
  bool_decide (cto2_token_data_id r = token_data_id) &&
  negb (bd_is_negative (cto2_amount r)) && bool_decide (cto2_amount r ≠ bd_zero).
(** [CollectionV2::get_by_table_handle]: all rows are read and one is taken. *)
Definition collection_by_table_handle (table_handle : string) (r : CurrentCollectionV2) : bool :=
  bool_decide (ccol2_table_handle_v1 r = Some table_handle).

(** *** Deleted objects *)

Lemma object_filed t l :
  filed co_object_address t -> filed co_object_address (upsert_rows insert_current_objects_query t l).
Proof. apply (filed_upsert_rows insert_current_objects_query). by intros set old new [= <-]. Qed.

(** C33: a deletion keeps what the database knows of the object.  When an object
    that the batch has not seen is deleted, the table of current objects has a
    row of it that is not newer, and one of the retried requests is answered, the
    deletion is recorded with the owner of that row; after it is written the row
    of the object has the same owner, number of creations and permission to
    transfer and is marked as deleted. *)
Theorem deleted_object_keeps_owner (dr : DeleteResource) (tag : MoveStructTag) (v i : Z) mapping written
    (query : CurrentObjectQuery) (answered : nat -> bool) (retries n : nat) (old : CurrentObject) :
  let address := standardize_address (dr_address dr) in
  let t := upsert_rows insert_current_objects_query ∅ written in
  dr_type_str dr = "0x1::object::ObjectGroup" -> dr_type dr = Some tag ->
  mapping !! address = None -> t !! address = Some old -> (co_last_transaction_version old <= v)%Z ->
  answers (object_by_address address) id (fun _ => t) answered (fun n => query n address) ->
  n < retries -> answered n = true ->
  exists o c, row_from_delete_resource dr v i mapping query retries = Ret (Some (o, c)) /\
    obj_owner_address o = co_owner_address old /\
    upsert_rows insert_current_objects_query t [c] !! address =
      Some {| co_object_address := address; co_owner_address := co_owner_address old;
              co_state_key_hash := hash_hex (dr_state_key_hash dr);
              co_allow_ungated_transfer := co_allow_ungated_transfer old;
              co_last_guid_creation_num := co_last_guid_creation_num old;
              co_last_transaction_version := v; co_is_deleted := true |}.
Proof.
  intros address t Htype Htag Hm Hold Hv Hq Hn Ha.
  assert (filed co_object_address t) as Hf by apply object_filed, filed_empty.
  assert (retry_lookup retries (fun n => query n address) = Ok old) as E.
  { apply (lookup_unique _ _ _ _ _ _ Hq n old); [|done|done|].
    - intros _ r _ (k & Hk & Hc). apply bool_decide_eq_true in Hc. pose proof (Hf k r Hk). simplify_eq/=. congruence.
    - exists address. split; [done|]. apply bool_decide_eq_true, Hf, Hold. }
  unfold row_from_delete_resource. rewrite decide_True by done. unfold DefaultModels.from_delete_resource.
  rewrite Htag. simpl. fold address. rewrite Hm. unfold get_current_object. rewrite E.
  eexists _, _. split_and!; [reflexivity|reflexivity|]. simpl.
  rewrite upsert_row_lookup, decide_True by done. rewrite Hold. simpl. rewrite bool_decide_eq_true_2 by done.
  unfold set_current_object. simpl. by rewrite (Hf _ _ Hold).
Qed.

(** *** Default voters *)

Lemma voter_selected t pool delegator c :
  filed voter_pk t -> t !! (pool, delegator) = Some c -> selects (voter_by_pk delegator pool) t c.
Proof.
  intros Hf Hc. exists (pool, delegator). split; [done|]. pose proof (Hf _ _ Hc) as [= <- <-].
  unfold voter_by_pk. by rewrite !bool_decide_eq_true_2.
Qed.
Lemma voter_filed t l :
  filed voter_pk t -> filed voter_pk (upsert_rows insert_current_delegated_voter_query t l).
Proof. apply (filed_upsert_rows insert_current_delegated_voter_query). by intros set old new [= <-]. Qed.

(** C20: a stored voter is not replaced by a default one.  When the requests of
    the pass that registers delegators as their own voters are answered from the
    table of voters, at least one request of each lookup, the pass adds no row for
    a delegator and a pool that have a row in the table. *)
Theorem stored_voters_kept (queries : StakeQueries) (retries : nat) v ts active changes voters voters' written
    (answered : Z -> nat -> bool) :
  let t := upsert_rows insert_current_delegated_voter_query ∅ written in
  foldM (default_voter_step queries retries v ts active) voters (enumerate changes) = Ret voters' ->
  (forall index delegator pool, answers (voter_by_pk delegator pool) (fun _ => tt) (fun _ => t) (answered index)
     (fun n => q_voter_by_pk queries v index n delegator pool)) ->
  (forall index, exists n, n < retries /\ answered index n = true) ->
  forall k, is_Some (t !! k) -> voters' !! k = voters !! k.
Proof.
  intros t Hfold Hq Hans [pool delegator] [c Hc].
  destruct (default_voters_added _ _ _ _ _ _ _ _ Hfold) as [Hsub Hnew].
  destruct (voters' !! (pool, delegator)) as [c'|] eqn:Hc'.
  - destruct (voters !! (pool, delegator)) as [c0|] eqn:Hc0.
    { eapply lookup_weaken in Hc0; [|exact Hsub]. congruence. }
    destruct (Hnew _ _ _ Hc' Hc0) as (_ & _ & _ & _ & index & Hall).
    destruct (Hans index) as (n & Hn & Ha).
    destruct (lookup_found _ _ _ _ _ _ (Hq index delegator pool) n c Hn Ha) as [u Hu].
    { apply voter_selected; [|done]. apply voter_filed, filed_empty. }
    apply retry_lookup_Ok in Hu as (n' & Hn' & Hu & _). by rewrite (Hall n' Hn') in Hu.
  - destruct (voters !! (pool, delegator)) as [c0|] eqn:Hc0; [|done].
    eapply lookup_weaken in Hc0; [|exact Hsub]. congruence.
Qed.

(** C39: a lookup without an answer replaces the stored voter.  When none of the
    retried requests is answered, the lookup takes the delegator for unknown: the
    delegator becomes its own voter, and writing the row replaces the voter that
    was stored for it. *)
Theorem unanswered_lookup_replaces_voter (wti : WriteTableItem) (retries : nat) v ts active voters
    (query : nat -> string -> string -> result unit) t (answered : nat -> bool) balance current old :
  let delegator := cdb_delegator_address current in
  let pool := cdb_pool_address current in
  get_active_share_from_write_table_item wti v 0 active = Ret (Ok (Some (balance, current))) ->
  voters !! (pool, delegator) = None ->
  t !! (pool, delegator) = Some old -> (cdv_last_transaction_version old <= v)%Z ->
  answers (voter_by_pk delegator pool) (fun _ => tt) (fun _ => t) answered (fun n => query n delegator pool) ->
  (forall n, n < retries -> answered n = false) ->
  exists c, get_delegators_pre_contract_deployment retries wti v ts active voters query = Ret (Ok (Some c)) /\
    from_option (fun r => (cdv_voter r, cdv_table_handle r)) (None, None)
      (upsert_row insert_current_delegated_voter_query t c !! (pool, delegator)) = (Some delegator, None).
Proof.
  intros delegator pool Hs Hv Ht Hver Hq Hans. unfold get_delegators_pre_contract_deployment. rewrite Hs. simpl.
  fold pool delegator. rewrite Hv. unfold get_existence_by_pk.
  rewrite (lookup_missing _ _ _ _ _ retries Hq) by (intros n r Hn Ha; by rewrite Hans in Ha).
  eexists. split; [reflexivity|]. rewrite upsert_row_lookup, decide_True, Ht by done. simpl.
  by rewrite bool_decide_eq_true_2.
Qed.

(** *** Inactive shares *)

Definition balance_key (c : CurrentDelegatorBalance) : string * string * string * string :=
  up_key insert_current_delegator_balances_query c.

(** C40: a withdrawn share hides its pool.  The row of a deleted inactive share
    names its own table as the parent: if the row it replaces is the only one
    stored below the table of inactive shares of the pool, the lookup of the pool
    by that table finds it before the deletion is written, and nothing
    afterwards. *)
Theorem deleted_share_hides_pool (dti : DeleteTableItem) v i pools shares query retries balance current old t
    (before after : nat -> string -> result string) (answered : nat -> bool) n :
  let parent := dbl_parent_table_handle balance in
  get_inactive_share_from_delete_table_item dti v i pools shares query retries = Ok (Some (balance, current)) ->
  dbl_table_handle balance ≠ parent ->
  t !! balance_key current = Some old -> cdb_parent_table_handle old = parent ->
  (cdb_last_transaction_version old <= v)%Z ->
  (forall k r, t !! k = Some r -> cdb_parent_table_handle r = parent -> k = balance_key current) ->
  let t' := upsert_row insert_current_delegator_balances_query t current in
  n < retries -> answered n = true ->
  answers (balance_by_inactive_share_handle parent) cdb_pool_address (fun _ => t) answered (fun n => before n parent) ->
  answers (balance_by_inactive_share_handle parent) cdb_pool_address (fun _ => t') answered (fun n => after n parent) ->
  get_staking_pool_from_inactive_share_handle retries before parent = Ok (cdb_pool_address old) /\
  get_staking_pool_from_inactive_share_handle retries after parent = Err.
Proof.
  intros parent Hrow Hne Hold Hpo Hle Honly t' Hn Ha Hb Hq. split.
  { apply (lookup_unique _ _ _ _ _ _ Hb n old); [|done|done|].
    - intros _ r _ (k & Hk & Hc). apply bool_decide_eq_true in Hc. rewrite (Honly k r Hk Hc) in Hk. congruence.
    - exists (balance_key current). split; [done|]. by apply bool_decide_eq_true. }
  apply (lookup_missing _ _ _ _ _ _ Hq).
  assert (cdb_parent_table_handle current = dbl_table_handle balance /\ cdb_last_transaction_version current = v)
    as [Hpar Hver].
  { unfold get_inactive_share_from_delete_table_item in Hrow.
    destruct (shares !! _) as [pb|]; [|done].
    destruct (match _ with Some _ => _ | None => _ end) as [pool|]; [|done]. by simplify_eq/=. }
  intros _ r _ _ (k & Hk & Hc). apply bool_decide_eq_true in Hc. unfold t' in Hk.
  rewrite upsert_row_lookup in Hk. case_decide as Hkey; [|by rewrite (Honly k r Hk Hc) in Hkey].
  fold (balance_key current) in Hkey. subst k. rewrite Hold in Hk. simpl in Hk.
  rewrite bool_decide_eq_true_2 in Hk by lia. simplify_eq/=. congruence.
Qed.

(** *** Burned tokens *)

Definition only_ownership (c : CurrentTokenOwnershipV2)
  : gmap (string * BigDecimal * string * string) CurrentTokenOwnershipV2 := {[cto2_pk c := c]}.
Lemma only_ownership_selects cond c : cond c = true -> selects cond (only_ownership c) c.
Proof. intros Hc. exists (cto2_pk c). split; [apply lookup_singleton_eq|done]. Qed.
Lemma only_ownership_unique cond c r : selects cond (only_ownership c) r -> r = c.
Proof. intros (k & Hk & _). unfold only_ownership in Hk. by apply lookup_singleton_Some in Hk as [_ <-]. Qed.

(** the owner of a burned token is the stored one.  For a token of which
    neither the event nor the batch names the owner, the burn is recorded for the
    owner in the table of current ownerships, where all rows with a positive
    amount have the same owner and a request is answered, and for an unknown owner
    where there is no such row. *)
Theorem burned_owner_stored (burn : Burn) (token : string)
    (prior : gmap string NFTOwnershipV2) (queries : nat -> string -> result CurrentTokenOwnershipV2)
    (retries : nat) (t : gmap (string * BigDecimal * string * string) CurrentTokenOwnershipV2) (answered : nat -> bool) n :
  get_previous_owner_address burn = None -> prior !! token = None ->
  answers (owned_nft_by_token_data_id token) id (fun _ => t) answered (fun n => queries n token) ->
  n < retries -> answered n = true ->
  ((forall r, ~ selects (owned_nft_by_token_data_id token) t r) ->
     burned_owner retries burn token prior queries = DEFAULT_OWNER_ADDRESS) /\
  (forall owner r, selects (owned_nft_by_token_data_id token) t r ->
     (forall r', selects (owned_nft_by_token_data_id token) t r' -> cto2_owner_address r' = owner) ->
     burned_owner retries burn token prior queries = owner).
Proof.
  intros Hb Hp Hq Hn Ha. unfold burned_owner, get_latest_owned_nft_by_token_data_id. rewrite Hb, Hp. split.
  - intros Hno. rewrite (lookup_missing _ _ _ _ _ _ Hq); [done|]. intros _ r _ _. apply Hno.
  - intros owner r Hr Hall. destruct (lookup_found _ _ _ _ _ _ Hq n r Hn Ha Hr) as [a E]. rewrite E. simpl.
    apply (lookup_sound _ _ _ _ _ _ Hq) in E as (_ & r' & _ & _ & Hr' & ->). by apply Hall.
Qed.
End Lookups.

(** ** Concrete lookups *)

Section ConcreteLookups.
#[local] Existing Instance pair_chrono.
#[local] Existing Instance int_bigdec.
#[local] Existing Instance int_bigdec_key.
#[local] Existing Instance plain_hex.
#[local] Existing Instance plain_sha.
#[local] Existing Instance text_json.
#[local] Existing Instance no_proto_json.
#[local] Existing Instance stake_text_codec.

(** The first request is not answered. *)
Definition ex_second (n : nat) : bool := 0 <? n.

(** The object at 0xa has the owner 0x1 and is deleted in version 9. *)
Definition ex_object_written : list CurrentObject := [current_of (ex_history 7 0 "0xa" "0x1" false)].
Definition ex_object_query : CurrentObjectQuery := fun n address =>
  id <$> run_first (object_by_address address)
           (upsert_rows insert_current_objects_query ∅ ex_object_written) (ex_second n).
Definition ex_deleted : DeleteResource :=
  {| dr_address := "0xa"; dr_state_key_hash := "K";
     dr_type := Some (mk_MoveStructTag "0x1" "object" "ObjectGroup" []);
     dr_type_str := "0x1::object::ObjectGroup" |}.
Lemma deleted_object_keeps_owner_witness :
  exists o c, row_from_delete_resource ex_deleted 9 0 ∅ ex_object_query 2 = Ret (Some (o, c)) /\
    obj_owner_address o = standardize_address "0x1".
Proof.
  destruct (deleted_object_keeps_owner ex_deleted (mk_MoveStructTag "0x1" "object" "ObjectGroup" []) 9 0 ∅
    ex_object_written ex_object_query ex_second 2 1 (current_of (ex_history 7 0 "0xa" "0x1" false)))
    as (o & c & Hr & Ho & _).
  - reflexivity.
  - reflexivity.
  - apply lookup_empty.
  - exact (upsert_singleton insert_current_objects_query (current_of (ex_history 7 0 "0xa" "0x1" false))).
  - apply Z.leb_le. reflexivity.
  - apply answers_run.
  - lia.
  - reflexivity.
  - exists o, c. split; [exact Hr|exact Ho].
Defined.

(** The delegator 0xd of the pool 0x9 has given its votes to 0xe. *)
Definition ex_voter : CurrentDelegatedVoter :=
  {| cdv_delegation_pool_address := standardize_address "0x9"; cdv_delegator_address := standardize_address "0xd";
     cdv_table_handle := Some (standardize_address "0xf"); cdv_voter := Some (standardize_address "0xe");
     cdv_pending_voter := Some (standardize_address "0xe"); cdv_last_transaction_version := 7;
     cdv_last_transaction_timestamp := (0, 0)%Z : @NaiveDateTime pair_chrono |}.
Definition ex_voter_table : gmap (string * string) CurrentDelegatedVoter :=
  upsert_rows insert_current_delegated_voter_query ∅ [ex_voter].
Definition ex_voter_queries : StakeQueries :=
  {| q_pool_by_inactive_handle := fun _ _ _ _ => Err; q_pool_by_table_handle := fun _ _ _ _ => Err;
     q_voter_by_pk := fun _ _ n delegator pool =>
       (fun _ => tt) <$> run_first (voter_by_pk delegator pool) ex_voter_table (ex_second n) |}.
Definition ex_kept_voters : gmap (string * string) CurrentDelegatedVoter :=
  ret_or ∅ (foldM (default_voter_step ex_voter_queries 5 9 ((0, 0)%Z : @NaiveDateTime pair_chrono) ex_active_pool) ∅
    (enumerate [ex_item_write "0xa1" "0xd" "u128" "300"])).
Lemma stored_voters_kept_witness :
  ex_kept_voters !! (standardize_address "0x9", standardize_address "0xd") = None.
Proof.
  rewrite <- (lookup_empty (M := gmap (string * string)) (A := CurrentDelegatedVoter)
                (standardize_address "0x9", standardize_address "0xd")).
  apply (stored_voters_kept ex_voter_queries 5 9 ((0, 0)%Z : @NaiveDateTime pair_chrono) ex_active_pool
    [ex_item_write "0xa1" "0xd" "u128" "300"] ∅ ex_kept_voters [ex_voter] (fun _ => ex_second)).
  - apply ret_or_eq. vm_compute. reflexivity.
  - intros index delegator pool. apply answers_run.
  - intros index. exists 1. split; [lia|reflexivity].
  - exists ex_voter. exact (upsert_singleton insert_current_delegated_voter_query ex_voter).
Defined.

(** No request is answered: the delegator becomes its own voter. *)
Definition ex_share_item : WriteTableItem :=
  {| wti_state_key_hash := EmptyString; wti_handle := "0xa1"; wti_key := "0xd";
     wti_data := Some {| wtd_key := "0xd"; wtd_key_type := "address"; wtd_value := "300"; wtd_value_type := "u128" |} |}.
Definition ex_share : DelegatorBalance * CurrentDelegatorBalance :=
  ({| dbl_transaction_version := 9; dbl_write_set_change_index := 0;
      dbl_delegator_address := standardize_address "0xd"; dbl_pool_address := standardize_address "0x9";
      dbl_pool_type := "active_shares"; dbl_table_handle := standardize_address "0xa1";
      dbl_shares := 30%Z : @BigDecimal int_bigdec; dbl_parent_table_handle := standardize_address "0xa1" |},
   {| cdb_delegator_address := standardize_address "0xd"; cdb_pool_address := standardize_address "0x9";
      cdb_pool_type := "active_shares"; cdb_table_handle := standardize_address "0xa1";
      cdb_last_transaction_version := 9; cdb_shares := 30%Z : @BigDecimal int_bigdec;
      cdb_parent_table_handle := standardize_address "0xa1" |}).
Lemma ex_share_ok : get_active_share_from_write_table_item ex_share_item 9 0 ex_active_pool = Ret (Ok (Some ex_share)).
Proof. reflexivity. Qed.
Lemma unanswered_lookup_replaces_voter_witness :
  exists c, from_option (fun r => (cdv_voter r, cdv_table_handle r)) (None, None)
    (upsert_row insert_current_delegated_voter_query ex_voter_table c !!
       (standardize_address "0x9", standardize_address "0xd")) = (Some (standardize_address "0xd"), None).
Proof.
  destruct (unanswered_lookup_replaces_voter ex_share_item 5 9 ((0, 0)%Z : @NaiveDateTime pair_chrono) ex_active_pool ∅
    (fun n delegator pool => (fun _ => tt) <$> run_first (voter_by_pk delegator pool) ex_voter_table false)
    ex_voter_table (fun _ => false) ex_share.1 ex_share.2 ex_voter) as (c & _ & Hc).
  - exact ex_share_ok.
  - apply lookup_empty.
  - exact (upsert_singleton insert_current_delegated_voter_query ex_voter).
  - apply Z.leb_le. reflexivity.
  - apply answers_run.
  - reflexivity.
  - exists c. exact Hc.
Defined.

(** The only inactive share of the pool 0x9 is withdrawn in version 9. *)
Definition ex_withdrawn : DeleteTableItem :=
  {| dti_state_key_hash := EmptyString; dti_handle := "0xc1"; dti_key := "0xd"; dti_data := None |}.
Definition ex_inactive_pool : gmap string PoolBalanceMetadata :=
  {[standardize_address "0xc1" :=
     {| ipm_transaction_version := 9; ipm_total_coins := 1000%Z : @BigDecimal int_bigdec;
        ipm_total_shares := 100%Z : @BigDecimal int_bigdec; ipm_scaling_factor := 10%Z : @BigDecimal int_bigdec;
        ipm_shares_table_handle := standardize_address "0xc1"; ipm_parent_table_handle := standardize_address "0xb1" |}]}.
Definition ex_balance (version shares : Z) (parent : string) : CurrentDelegatorBalance :=
  {| cdb_delegator_address := standardize_address "0xd"; cdb_pool_address := standardize_address "0x9";
     cdb_pool_type := "inactive_shares"; cdb_table_handle := standardize_address "0xc1";
     cdb_last_transaction_version := version; cdb_shares := shares : @BigDecimal int_bigdec;
     cdb_parent_table_handle := standardize_address parent |}.
Definition ex_balance_table : gmap (string * string * string * string) CurrentDelegatorBalance :=
  upsert_rows insert_current_delegator_balances_query ∅ [ex_balance 7 20 "0xb1"].
Definition ex_pool_query (t : gmap (string * string * string * string) CurrentDelegatorBalance) (n : nat)
    (handle : string) : result string :=
  cdb_pool_address <$> run_first (balance_by_inactive_share_handle handle) t (ex_second n).
Definition ex_withdrawal : DelegatorBalance :=
  {| dbl_transaction_version := 9; dbl_write_set_change_index := 0;
     dbl_delegator_address := standardize_address "0xd"; dbl_pool_address := standardize_address "0x9";
     dbl_pool_type := "inactive_shares"; dbl_table_handle := standardize_address "0xc1";
     dbl_shares := bd_zero; dbl_parent_table_handle := standardize_address "0xb1" |}.
Lemma ex_balance_table_lookup k r :
  ex_balance_table !! k = Some r -> k = balance_key (ex_balance 9 0 "0xc1") /\ r = ex_balance 7 20 "0xb1".
Proof.
  unfold ex_balance_table. simpl. rewrite upsert_row_lookup, lookup_empty. case_decide as Hk; [|done].
  intros [= <-]. by rewrite <- Hk.
Qed.
Lemma deleted_share_hides_pool_witness :
  let t' := upsert_row insert_current_delegator_balances_query ex_balance_table (ex_balance 9 0 "0xc1") in
  get_staking_pool_from_inactive_share_handle 5 (ex_pool_query ex_balance_table) (standardize_address "0xb1") =
    Ok (standardize_address "0x9") /\
  get_staking_pool_from_inactive_share_handle 5 (ex_pool_query t') (standardize_address "0xb1") = Err.
Proof.
  intros t'.
  apply (deleted_share_hides_pool ex_withdrawn 9 0 ∅ ex_inactive_pool
    (ex_pool_query ex_balance_table) 5 ex_withdrawal (ex_balance 9 0 "0xc1") (ex_balance 7 20 "0xb1")
    ex_balance_table (ex_pool_query ex_balance_table) (ex_pool_query t') ex_second 1).
  - reflexivity.
  - intros E. apply (f_equal (fun s => bool_decide (s = standardize_address "0xb1"))) in E. discriminate E.
  - exact (upsert_singleton insert_current_delegator_balances_query (ex_balance 7 20 "0xb1")).
  - reflexivity.
  - apply Z.leb_le. reflexivity.
  - intros k r Hk _. by apply ex_balance_table_lookup in Hk as [-> _].
  - lia.
  - reflexivity.
  - apply answers_run.
  - apply answers_run.
Defined.

(** The token 0x77 belongs to 0x5 and is burned by an event without an owner. *)
Definition ex_ownership : CurrentTokenOwnershipV2 :=
  {| cto2_token_data_id := standardize_address "0x77"; cto2_property_version_v1 := 0%Z : @BigDecimal int_bigdec;
     cto2_owner_address := standardize_address "0x5"; cto2_storage_id := standardize_address "0x77";
     cto2_amount := 1%Z : @BigDecimal int_bigdec; cto2_table_type_v1 := None; cto2_token_properties_mutated_v1 := None;
     cto2_is_soulbound_v2 := Some false; cto2_token_standard := "v2"; cto2_is_fungible_v2 := None;
     cto2_last_transaction_version := 7;
     cto2_last_transaction_timestamp := (0, 0)%Z : @NaiveDateTime pair_chrono;
     cto2_non_transferrable_by_owner := None |}.
Definition ex_ownerships := only_ownership ex_ownership.
Definition ex_owner_query (n : nat) (token : string) : result CurrentTokenOwnershipV2 :=
  id <$> run_first (owned_nft_by_token_data_id token) ex_ownerships (ex_second n).
Definition ex_event : Burn := {| burn_collection := "0xc"; burn_token := "0x77"; previous_owner := EmptyString |}.
Lemma burned_owner_stored_witness :
  burned_owner 5 ex_event (standardize_address "0x77") ∅ ex_owner_query = standardize_address "0x5".
Proof.
  destruct (burned_owner_stored ex_event (standardize_address "0x77") ∅ ex_owner_query 5 ex_ownerships ex_second 1)
    as [_ Hown].
  - reflexivity.
  - apply lookup_empty.
  - apply answers_run.
  - lia.
  - reflexivity.
  - apply (Hown _ ex_ownership).
    + apply only_ownership_selects. reflexivity.
    + intros r' Hr'. apply only_ownership_unique in Hr' as ->. reflexivity.
Defined.
End ConcreteLookups.
