(* ===== verification/EndToEnd.v ===== *)
(** * The indexer from the stream to the table

    Runs of the whole indexer, with crashes and restarts in between, and what
    they leave in a table that keeps the newest row of each key, or in one that
    keeps every row.  The specification is an indexer that takes the transactions one at a time, in the
    order of their versions, and never fails. *)
From S2P Require Import Prelude RustStr Json Externals Proto Util Database Processors.
From S2P Require Import GapDetector TransactionFilter MovingAverage Fetcher Worker Pipeline Startup.

(** ** Tables of newest rows *)

Section Newest.
Context {row key : Type} `{Countable key} (u : Upsert row key) `{!Lww u}.

Lemma coherent_sub (l1 l2 : list row) :
  (forall r, r ∈ l1 -> r ∈ l2) -> lww_coherent u l2 -> lww_coherent u l1.
Proof. intros Hsub Hc a b Ha Hb. apply Hc; by apply Hsub. Qed.

(** Rows that are all among others and, for each of those, have one at least
    as new leave the same table. *)
Lemma newest_determined (l1 l2 : list row) :
  lww_coherent u l2 -> (forall r, r ∈ l1 -> r ∈ l2) ->
  (forall w, w ∈ l2 -> exists r, r ∈ l1 /\ up_key u r = up_key u w /\ (lww_rank w <= lww_rank r)%Z) ->
  upsert_rows u ∅ l1 = upsert_rows u ∅ l2.
Proof.
  intros Hc Hsub Hcov. pose proof (coherent_sub l1 l2 Hsub Hc) as Hc1. apply map_eq. intros k.
  destruct (upsert_rows u ∅ l1 !! k) as [a|] eqn:Ha, (upsert_rows u ∅ l2 !! k) as [b|] eqn:Hb; [| | |done].
  - apply (lww_rows_newest u) in Ha as (Ha & <- & Hamax); [|done].
    apply (lww_rows_newest u) in Hb as (Hb & Hk & Hbmax); [|done].
    destruct (Hcov b Hb) as (r & Hr & Hrk & Hle). f_equal.
    specialize (Hamax r Hr (eq_trans Hrk Hk)). specialize (Hbmax a (Hsub a Ha) eq_refl).
    destruct (Hc a b (Hsub a Ha) Hb (eq_sym Hk)) as [_ Heq]. apply Heq. lia.
  - apply (lww_rows_newest u) in Ha as (Ha & <- & _); [|done].
    destruct (upsert_rows_dom u ∅ l2 a (Hsub a Ha)) as [x Hx]. congruence.
  - apply (lww_rows_newest u) in Hb as (Hb & <- & _); [|done]. destruct (Hcov b Hb) as (r & Hr & Hrk & _).
    destruct (upsert_rows_dom u ∅ l1 r Hr) as [x Hx]. rewrite Hrk in Hx. congruence.
Qed.

(** A row of the same key that is at least as new. *)
Definition newer (r' r : row) : Prop := up_key u r' = up_key u r /\ (lww_rank r <= lww_rank r')%Z.
End Newest.

(** ** Tables of all rows *)

Section History.
Context {row key : Type} `{Countable key} (u : Upsert row key).

(** Writing a row again changes nothing. *)
Definition writes_once : Prop :=
  match up_action u with DoNothing => True | DoUpdate set => forall r, set r r = r end.
Definition keys_coherent (l : list row) : Prop :=
  forall a b, a ∈ l -> b ∈ l -> up_key u a = up_key u b -> a = b.

Lemma history_again (t : gmap key row) r : writes_once -> t !! up_key u r = Some r -> upsert_row u t r = t.
Proof.
  intros Hu Hr. unfold upsert_row, writes_once in *. rewrite Hr. destruct (up_action u) as [|set]; [done|].
  destruct (from_option _ _ _); [|done]. rewrite Hu. by apply insert_id.
Qed.
Lemma history_lookup (l : list row) :
  writes_once -> keys_coherent l ->
  forall k r, upsert_rows u ∅ l !! k = Some r <-> r ∈ l /\ up_key u r = k.
Proof.
  intros Hu. induction l as [|a l IH] using rev_ind; intros Hc k r.
  - simpl. rewrite lookup_empty. split; [done|]. intros [Hr _]. by apply elem_of_nil in Hr.
  - assert (keys_coherent l) as Hcl by (intros x y Hx Hy; apply Hc; apply elem_of_app; by left).
    specialize (IH Hcl). rewrite upsert_rows_app, elem_of_app, list_elem_of_singleton. simpl.
    destruct (upsert_rows u ∅ l !! up_key u a) as [old|] eqn:Hold.
    + pose proof Hold as [Ho Hk]%IH.
      assert (old = a) as -> by (apply Hc; [apply elem_of_app; by left|apply elem_of_app; right; by left|done]).
      rewrite history_again by done. rewrite IH. naive_solver.
    + unfold upsert_row. rewrite Hold. destruct (decide (up_key u a = k)) as [<-|Hne].
      * rewrite lookup_insert_eq. split; [naive_solver|]. intros [[Hr| ->] Hk]; [|done].
        pose proof (proj2 (IH _ _) (conj Hr Hk)). congruence.
      * rewrite lookup_insert_ne by done. rewrite IH. naive_solver.
Qed.

(** The table depends on the set of the rows. *)
Lemma history_determined (l1 l2 : list row) :
  writes_once -> keys_coherent l2 -> (forall r, r ∈ l1 <-> r ∈ l2) -> upsert_rows u ∅ l1 = upsert_rows u ∅ l2.
Proof.
  intros Hu Hc Hl. assert (keys_coherent l1) as Hc1 by (intros a b Ha%Hl Hb%Hl; by apply Hc).
  apply map_eq. intros k. apply option_eq. intros r. rewrite !history_lookup by done. by rewrite Hl.
Qed.
End History.

(** ** What the table of a processor promises

    [rows] is the part of a processor that computes the rows of a batch for
    one table.  The rows of a batch are rows of its transactions taken alone; for
    each row of a transaction the batch has one for the same key that is at least
    as new, when the batch is in the order of the versions. *)
Definition in_version_order (txns : list Transaction) : Prop :=
  StronglySorted (fun t t' => (t_version t < t_version t')%Z) txns /\
  Forall (fun t => (0 <= t_version t < 9223372036854775807)%Z) txns.

Class BatchTable {row key : Type} `{Countable key} (u : Upsert row key) `{!Lww u}
    (rows : list Transaction -> outcome (list row)) : Prop := {
  bt_alone : forall txns rs t, rows txns = Ret rs -> t ∈ txns -> exists ws, rows [t] = Ret ws;
  bt_from : forall txns rs r, rows txns = Ret rs -> r ∈ rs ->
    exists t ws, t ∈ txns /\ rows [t] = Ret ws /\ r ∈ ws;
  bt_newest : forall txns rs t ws w, in_version_order txns -> rows txns = Ret rs ->
    t ∈ txns -> rows [t] = Ret ws -> w ∈ ws ->
    exists r, r ∈ rs /\ up_key u r = up_key u w /\ (lww_rank w <= lww_rank r)%Z;
  bt_rank : forall t ws w, rows [t] = Ret ws -> w ∈ ws -> lww_rank w = as_i64 (t_version t);
  bt_keys : forall t ws, rows [t] = Ret ws -> NoDup (up_key u <$> ws);
  bt_static : forall t1 ws1 w1 t2 ws2 w2, rows [t1] = Ret ws1 -> w1 ∈ ws1 -> rows [t2] = Ret ws2 -> w2 ∈ ws2 ->
    up_key u w1 = up_key u w2 -> lww_static w1 = lww_static w2;
}.

(** What a run needs of the rows of a batch: they are rows of its transactions
    taken alone, and each of those is covered by one of the batch. *)
Class BatchRows {row : Type} (rows : list Transaction -> outcome (list row)) (covers : row -> row -> Prop) : Prop := {
  br_from : forall txns rs r, rows txns = Ret rs -> r ∈ rs -> exists t ws, t ∈ txns /\ rows [t] = Ret ws /\ r ∈ ws;
  br_covers : forall txns rs t ws w, in_version_order txns -> rows txns = Ret rs ->
    t ∈ txns -> rows [t] = Ret ws -> w ∈ ws -> exists r, r ∈ rs /\ covers r w;
}.
#[export] Instance batch_table_rows {row key : Type} `{Countable key} (u : Upsert row key) `{!Lww u} rows :
  BatchTable u rows -> BatchRows rows (newer u).
Proof. intros Hb. split; [apply bt_from|apply bt_newest]. Qed.

(** What the table of a history promises: the rows of a batch are those of its
    transactions, and the version of the transaction is part of the key. *)
Class HistoryTable {row key : Type} (u : Upsert row key) (rows : list Transaction -> outcome (list row))
    (key_version : key -> Z) : Prop := {
  ht_once : writes_once u;
  ht_rows : forall txns rs, rows txns = Ret rs ->
    exists logs, Forall2 (fun t l => rows [t] = Ret l) txns logs /\ forall r, r ∈ rs <-> r ∈ concat logs;
  ht_version : forall t ws w, rows [t] = Ret ws -> w ∈ ws -> key_version (up_key u w) = as_i64 (t_version t);
  ht_keys : forall t ws, rows [t] = Ret ws -> NoDup (up_key u <$> ws);
}.
#[export] Instance history_table_rows {row key : Type} (u : Upsert row key) rows kv :
  HistoryTable u rows kv -> BatchRows rows eq.
Proof.
  intros Hh. split.
  - intros txns rs r (logs & Hl & Hin)%ht_rows Hr.
    apply Hin in Hr. destruct (elem_of_concat_Forall2 _ _ _ _ Hl Hr) as (t & ws & Ht & Hws & Hr'). by exists t, ws.
  - intros txns rs t ws w _ (logs & Hl & Hin)%ht_rows Ht Hws Hw. exists w. split; [|done]. apply Hin.
    destruct (Forall2_elem_of_concat _ _ _ _ Hl Ht) as (l & Hr & Hsub). rewrite Hws in Hr. injection Hr as <-. auto.
Qed.

(** ** The ledger and the streams that serve it *)

Lemma StronglySorted_filter_sub {A} (R : relation A) (P : A -> Prop) `{forall x, Decision (P x)} (l : list A) :
  StronglySorted R l -> StronglySorted R (filter P l).
Proof.
  induction 1 as [|x l Hl IH Hx]; [constructor|]. rewrite filter_cons. case_decide; [|done].
  constructor; [done|]. apply Forall_forall. intros y [_ Hy]%list_elem_of_filter.
  rewrite Forall_forall in Hx. by apply Hx.
Qed.

Section Ledger.
Context `{Chrono, GrpcCrates, ProtoEnums}.
Variable ledger : Z -> Transaction.
Variable last_version : Z.
Variable chunk_size : nat.
Variable transaction_filter : TransactionFilter.
Hypothesis Hledger : forall v, t_version (ledger v) = v.
Hypothesis Hlast : (last_version < 9223372036854775807)%Z.

(** A response is a stretch of the ledger, smaller than a chunk. *)
Definition response_ok (r : TransactionsResponse) : Prop :=
  exists a n, tr_transactions r = ledger <$> seqZ a n /\
    (0 <= a)%Z /\ (a + n <= last_version + 1)%Z /\ (0 <= n < Z.of_nat chunk_size)%Z.
Definition stream_serves (st : nat -> StreamItem) : Prop := forall j r, st j = ItemOk r -> response_ok r.
Definition serves (net : nat -> Network) : Prop :=
  forall k i request response, get_transactions (net k) i request = Some (Ok response) ->
    stream_serves (into_inner response).

Lemma stretch_versions a n : t_version <$> (ledger <$> seqZ a n) = seqZ a n.
Proof.
  rewrite <- list_fmap_compose. rewrite <- (list_fmap_id (seqZ a n)) at 2. apply list_fmap_ext.
  intros i v _. apply Hledger.
Qed.
Lemma stretch_sorted a n : StronglySorted (fun t t' => (t_version t < t_version t')%Z) (ledger <$> seqZ a n).
Proof.
  destruct (Z.le_gt_cases n 0) as [Hn|Hn]; [rewrite seqZ_nil by lia; constructor|].
  replace n with (Z.of_nat (Z.to_nat n)) by lia. generalize (Z.to_nat n) as k. clear Hn. intros k.
  revert a. induction k as [|k IH]; intros a; [constructor|]. rewrite seqZ_cons by lia.
  replace (Z.pred (Z.of_nat (S k))) with (Z.of_nat k) by lia. simpl. constructor; [apply IH|].
  apply Forall_forall. intros t (v & -> & Hv%elem_of_seqZ)%list_elem_of_fmap. rewrite !Hledger. lia.
Qed.
Lemma seqZ_head a n x : head (seqZ a n) = Some x -> x = a /\ (0 < n)%Z.
Proof.
  destruct (Z.le_gt_cases n 0); [by rewrite seqZ_nil by lia|]. rewrite seqZ_cons by lia. simpl.
  intros [= <-]. lia.
Qed.
Lemma seqZ_last a n x : last (seqZ a n) = Some x -> x = (a + n - 1)%Z /\ (0 < n)%Z.
Proof.
  rewrite last_lookup. intros Hx. apply lookup_seqZ in Hx as [-> Hx]. rewrite length_seqZ in *. lia.
Qed.

Lemma serves_u64 net : serves net -> network_u64 net.
Proof.
  intros Hs k i req resp Hg j r Hr. destruct (Hs k i req resp Hg j r Hr) as (a & n & Ht & Ha & Hn & _).
  apply Forall_forall. intros t Hin. rewrite Ht in Hin. apply list_elem_of_fmap in Hin as (v & -> & Hv).
  rewrite Hledger. apply elem_of_seqZ in Hv. unfold in_u64. lia.
Qed.
Lemma serves_ordered net : serves net -> network_ordered net.
Proof.
  intros Hs k i req resp Hg j r Hr x y. destruct (Hs k i req resp Hg j r Hr) as (a & n & Ht & Ha & Hn & _).
  rewrite Ht, stretch_versions. intros [-> ?]%seqZ_head [-> ?]%seqZ_last. lia.
Qed.
Lemma serves_small net : serves net -> network_small net chunk_size.
Proof.
  intros Hs k i req resp Hg j r Hr. destruct (Hs k i req resp Hg j r Hr) as (a & n & Ht & _ & _ & Hn).
  rewrite Ht, length_fmap, length_seqZ. lia.
Qed.

(** The transactions of a batch that pass the filter. *)
Definition batch_txns (b : FetchedBatch) : list Transaction :=
  filter (fun t => include transaction_filter t = true)
    (ledger <$> seqZ (fb_start b) (fb_end b - fb_start b + 1)).
Lemma batch_message_txns b m :
  batch_ok transaction_filter chunk_size b -> response_ok (fb_response b) ->
  length (fb_messages b) = 1 -> m ∈ fb_messages b ->
  pb_transactions m = batch_txns b /\ (0 <= fb_start b)%Z /\ (fb_end b <= last_version)%Z.
Proof.
  intros (Hh & Hl & Hc & _) (a & n & Ht & Ha & Hn & _) Hone Hm.
  rewrite Ht, stretch_versions in Hh, Hl. apply seqZ_head in Hh as [Hs Hpos]. apply seqZ_last in Hl as [He _].
  destruct (fb_messages b) as [|m' [|]]; simpl in Hone; try lia. apply list_elem_of_singleton in Hm as ->.
  simpl in Hc. rewrite app_nil_r in Hc. unfold batch_txns.
  replace (fb_end b - fb_start b + 1)%Z with n by lia. rewrite Hs, <- Ht. split; [done|lia].
Qed.
Lemma elem_of_batch_txns b t :
  t ∈ batch_txns b <-> exists v, t = ledger v /\ (fb_start b <= v <= fb_end b)%Z /\
    include transaction_filter (ledger v) = true.
Proof.
  unfold batch_txns. rewrite list_elem_of_filter, list_elem_of_fmap. split.
  - intros (Hi & v & -> & Hv%elem_of_seqZ). exists v. split; [done|]. split; [lia|done].
  - intros (v & -> & Hv & Hi). split; [done|]. exists v. split; [done|]. apply elem_of_seqZ. lia.
Qed.
Lemma batch_txns_order b :
  (0 <= fb_start b)%Z -> (fb_end b <= last_version)%Z -> in_version_order (batch_txns b).
Proof.
  intros Hs He. split.
  - apply StronglySorted_filter_sub, stretch_sorted.
  - apply Forall_forall. intros t (v & -> & Hv & _)%elem_of_batch_txns. rewrite Hledger. lia.
Qed.

(** The batches of a run cover the versions from the first to the last. *)
Lemma gapless_covers s bs v :
  gapless s bs -> Forall batch_in_order bs -> (s <= v < fetched_end s bs)%Z ->
  exists b, b ∈ bs /\ (fb_start b <= v <= fb_end b)%Z.
Proof.
  revert s. induction bs as [|b bs IH]; intros s Hg Ho Hv; [unfold fetched_end in Hv; simpl in Hv; lia|].
  destruct Hg as [Hs Hg]. apply Forall_cons in Ho as [Hb Ho]. rewrite fetched_end_cons in Hv.
  rewrite (batch_in_order_next b Hb) in *. destruct (Z.le_gt_cases v (fb_end b)).
  - exists b. split; [by left|]. lia.
  - destruct (IH _ Hg Ho) as (b' & Hb' & Hv'); [lia|]. exists b'. split; [by right|done].
Qed.
End Ledger.

(** ** Runs *)

(** ** The commits of a write

    At any moment of a call of [execute_in_chunks] on rows that need no
    cleaning, the statements so far have committed rows of the call, one after
    another; when the call returns success they have committed all of them. *)
Section Commits.
Context {row key : Type} `{PgLaws row key, DebugQuery row key, Serialize row, Deserialize row}.
Variable u : Upsert row key.

Lemma clean_unchanged (c rows : list row) :
  Forall (fun r => remove_null_bytes r = Ret r) c -> chunk_rows c rows -> rows = c.
Proof.
  intros Hc [->|Hr]; [done|]. apply traverse_Ret in Hr. induction Hr as [|r r' c rows Hr _ IH]; [done|].
  apply Forall_cons in Hc as [Hr' Hc]. f_equal; [congruence|by apply IH].
Qed.
Lemma chunks_elem n (items c : list row) r : 0 < n -> c ∈ chunks n items -> r ∈ c -> r ∈ items.
Proof.
  intros Hn Hc Hr. rewrite <- (chunks_concat n items) by done. apply list_elem_of_In, in_concat.
  exists c. by rewrite <- !list_elem_of_In.
Qed.

Lemma writes_commit_rows (items : list row) n s ts' s' :
  0 < n -> NoDup (up_key u <$> items) -> Forall (fun r => remove_null_bytes r = Ret r) items ->
  (forall c, c ∈ chunks n items -> additional_where u c = up_where u) ->
  rtc (tasks_step u) (FirstTry <$> chunks n items, s) (ts', s') ->
  exists rows', pg_rows s' = upsert_rows u (pg_rows s) rows' /\ (forall r, r ∈ rows' -> r ∈ items) /\
    (join_tasks ts' (Ret (Ok tt)) -> forall r, r ∈ items -> r ∈ rows').
Proof.
  intros Hn Hnd Hclean Hw Hsteps.
  assert (forall c, c ∈ chunks n items -> Forall (fun r => remove_null_bytes r = Ret r) c) as Hcc.
  { intros c Hc. apply Forall_forall. intros r Hr. rewrite Forall_forall in Hclean.
    by apply Hclean, (chunks_elem n items c). }
  assert (Forall (chunk_ok u) (chunks n items)) as Hok.
  { apply spawned_chunks_ok; [done..| |].
    - apply Forall_forall. intros r Hr r' Hr'. rewrite Forall_forall in Hclean. specialize (Hclean r Hr). congruence.
    - intros c rows Hc ->%clean_unchanged; [by apply Hw|by apply Hcc]. }
  destruct (chunk_inv_steps u (chunks n items) s [] (FirstTry <$> chunks n items, s) (ts', s')) as (dn & Hrows & Hinv);
    [done|split; [done|apply task_inv_init]|done|].
  exists (concat dn.*2). simpl in *. split_and!; [done| |].
  - intros r (c & Hc & Hr)%list_elem_of_In%in_concat. apply list_elem_of_In in Hc, Hr.
    apply list_elem_of_fmap in Hc as ([i c'] & -> & Hin). destruct Hinv as (_ & _ & Hd & _).
    destruct (Hd i c' Hin) as (_ & c0 & Hc0 & ->%clean_unchanged).
    + eapply chunks_elem; [done|by eapply list_elem_of_lookup_2|done].
    + eapply Hcc. by eapply list_elem_of_lookup_2.
  - intros Hj%join_tasks_ok r Hr. destruct (task_inv_complete _ _ _ Hinv Hj) as (eff & Heff & Hp). rewrite Hp.
    assert (eff = chunks n items) as ->; [|by rewrite chunks_concat].
    clear -Heff Hcc. induction Heff as [|c rows cs eff Hc _ IH]; [done|].
    rewrite (clean_unchanged c rows (Hcc c ltac:(left)) Hc), IH; [done|]. intros c' Hc'. apply Hcc. by right.
Qed.
End Commits.

(** *** The specification: one transaction at a time *)

Section Sequential.
Context `{ProtoEnums}.
Context {row : Type} (rows : list Transaction -> outcome (list row)) (w : Worker) (ledger : Z -> Transaction).

Definition version_row (v : Z) (r : row) : Prop :=
  include (worker_filter w) (ledger v) = true /\ exists ws, rows [ledger v] = Ret ws /\ r ∈ ws.
Definition txn_rows (v : Z) : list row :=
  if include (worker_filter w) (ledger v) then match rows [ledger v] with Ret ws => ws | Panic => [] end else [].
Lemma elem_of_txn_rows v r : r ∈ txn_rows v <-> version_row v r.
Proof.
  unfold txn_rows, version_row. destruct (include _ _); [|set_solver].
  destruct (rows [ledger v]) as [ws|]; split; try set_solver; naive_solver.
Qed.
Lemma elem_of_sequential lo hi r :
  r ∈ concat (txn_rows <$> seqZ lo (hi - lo)) <-> exists v, (lo <= v < hi)%Z /\ version_row v r.
Proof.
  rewrite list_elem_of_In, in_concat. split.
  - intros (l & Hl & Hr). apply list_elem_of_In, list_elem_of_fmap in Hl as (v & -> & Hv%elem_of_seqZ).
    exists v. split; [lia|]. by apply elem_of_txn_rows, list_elem_of_In.
  - intros (v & Hv & Hr). exists (txn_rows v). rewrite <- !list_elem_of_In. split; [|by apply elem_of_txn_rows].
    apply list_elem_of_fmap_2, elem_of_seqZ. lia.
Qed.

Context {key : Type} `{Countable key} (u : Upsert row key).
Definition sequential (lo hi : Z) : gmap key row :=
  foldl (fun t v => upsert_rows u t (txn_rows v)) ∅ (seqZ lo (hi - lo)).

Lemma sequential_rows lo hi : sequential lo hi = upsert_rows u ∅ (concat (txn_rows <$> seqZ lo (hi - lo))).
Proof.
  unfold sequential. generalize (∅ : gmap key row) as t. induction (seqZ lo (hi - lo)) as [|v vs IH]; intros t; [done|].
  simpl. by rewrite IH, upsert_rows_app.
Qed.
End Sequential.

Section Runs.
Context `{Chrono, GrpcCrates, ProtoEnums}.
Context `{!PgTable ProcessorStatus string, !DebugQuery ProcessorStatus string, !PgLaws ProcessorStatus string}.
Context {db : Type} `{ProcessorTrait db}.
Context `{!GrpcCratesLaws, !ProcessorLaws db}.
Context {row : Type} (rows : list Transaction -> outcome (list row)) (covers : row -> row -> Prop) `{!BatchRows rows covers}.
Variables (auth_token : string) (w : Worker) (chain_id : Z) (encoded_len : TransactionsResponse -> Z).
Variables (ledger : Z -> Transaction) (last_version : Z).
Hypothesis Hledger : forall v, t_version (ledger v) = v.
Hypothesis Hlast : (last_version < 9223372036854775807)%Z.

Abbreviation run_name := (config_name (processor_config w)).
Abbreviation chunk := (pb_channel_txn_chunk_size w).
Abbreviation pipeline_step net :=
  (step auth_token run_name encoded_len net (worker_ending_version w) (worker_filter w) chunk chain_id).
Abbreviation serves := (serves ledger last_version chunk).
Abbreviation version_row := (version_row rows w ledger).

(** The rows of a message are among the committed ones. *)
Definition message_done (m : TransactionsPBResponse) (log : list row) : Prop :=
  pb_transactions m = [] \/ exists rs, rows (pb_transactions m) = Ret rs /\ forall r, r ∈ rs -> r ∈ log.

(** The pipeline together with the rows committed to the table, in the order
    of the commits.  While a task is busy its statements commit rows of its batch,
    between those of the other tasks; it reports success when all are committed
    ([writes_commit_rows]). *)
Inductive run_step (net : nat -> Network) : Pipeline * list row -> Pipeline * list row -> Prop :=
| run_commit p log ts1 ts2 m rs rows' :
    crashed p = false -> tasks p = ts1 ++ Busy m :: ts2 -> rows (pb_transactions m) = Ret rs ->
    (forall r, r ∈ rows' -> r ∈ rs) -> run_step net (p, log) (p, log ++ rows')
| run_other p p' log :
    pipeline_step net p p' ->
    (forall m, processed p' = processed p ++ [m] -> message_done m log) ->
    run_step net (p, log) (p', log).

(** One run of the process, from a version on a database. *)
Definition run_from (net : nat -> Network) (sv : Z) (s : pg_state) (log : list row) (p : Pipeline) (log' : list row)
  : Prop :=
  exists f n now, start_fetcher auth_token run_name net sv (worker_ending_version w) = Some (Ret f) /\
    rtc (run_step net) (start_pipeline sv f n now s, log) (p, log').

Definition starts_at (s : pg_state) (sv : Z) : Prop := final_starting_version w (Ok tt) (Ok tt) (pg_rows s) = Ret sv.

(** What the runs so far, each ended at any moment, have left: the status
    table and the committed rows. *)
Inductive indexed (s0 : pg_state) : pg_state -> list row -> Prop :=
| indexed_new : indexed s0 s0 []
| indexed_run s log net sv p log' :
    indexed s0 s log -> serves net -> starts_at s sv -> run_from net sv s log p log' ->
    indexed s0 (status_table (tracker p)) log'.

(** *** One run *)

Definition log_covers (lo hi : Z) (log : list row) : Prop :=
  forall v r, (lo <= v < hi)%Z -> version_row v r ->
    exists r', r' ∈ log /\ covers r' r.

Record run_inv (net : nat -> Network) (sv : Z) (s : pg_state) (log0 : list row) (p : Pipeline) (log : list row)
  : Prop := {
  ri_reach : reachable auth_token run_name encoded_len net sv (worker_ending_version w) (worker_filter w) chunk chain_id s p;
  ri_small : small_pipeline chunk p;
  ri_stream : forall f, phase_state (fetcher p) = Some f -> stream_serves ledger last_version chunk (resp_stream f);
  ri_responses : Forall (fun b => response_ok ledger last_version chunk (fb_response b)) (fetched p);
  ri_keep : forall r, r ∈ log0 -> r ∈ log;
  ri_from : forall r, r ∈ log -> r ∈ log0 \/ exists v, (sv <= v <= last_version)%Z /\ version_row v r;
  ri_done : forall m, m ∈ processed p -> message_done m log;
}.

Section OneRun.
Variables (net : nat -> Network) (sv : Z) (s : pg_state) (log0 : list row).
Hypothesis Hserves : serves net.
Hypothesis Hsv : in_u64 sv.
Abbreviation inv := (run_inv net sv s log0).
Let Hu64 : network_u64 net := serves_u64 ledger last_version chunk Hledger Hlast net Hserves.
Let Hord : network_ordered net := serves_ordered ledger last_version chunk Hledger Hlast net Hserves.

Lemma inv_flow p log : inv p log -> flow sv (worker_filter w) chunk p.
Proof.
  intros I. exact (reachable_flow auth_token run_name encoded_len net sv (worker_ending_version w) (worker_filter w) chunk
    chain_id Hu64 Hord s p Hsv (ri_reach _ _ _ _ _ _ I)).
Qed.

Lemma inv_message p log m :
  inv p log -> m ∈ handed p ->
  exists b, b ∈ fetched p /\ message_versions m = batch_versions b /\
    pb_transactions m = batch_txns ledger (worker_filter w) b /\
    (0 <= fb_start b)%Z /\ (fb_end b <= last_version)%Z /\ (sv <= fb_start b)%Z.
Proof.
  intros I (b & Hb & Hm)%elem_of_handed. pose proof (inv_flow p log I) as Hp.
  pose proof (flow_batches _ _ _ _ Hp) as Hok. rewrite Forall_forall in Hok.
  pose proof (ri_responses _ _ _ _ _ _ I) as Hr. rewrite Forall_forall in Hr.
  destruct (ri_small _ _ _ _ _ _ I) as [_ Hu]. unfold unsplit in Hu. rewrite Forall_forall in Hu.
  destruct (batch_message_txns ledger last_version chunk (worker_filter w) Hledger b m (Hok b Hb) (Hr b Hb) (Hu b Hb) Hm)
    as (Ht & Hlo & Hhi).
  exists b. split_and!; try done; [by eapply batch_message_versions|].
  by apply (gapless_bounds sv (fetched p) b (flow_gapless _ _ _ _ Hp) (flow_ordered _ _ _ _ Hp)).
Qed.

Lemma inv_responses p p' log :
  inv p log -> pipeline_step net p p' ->
  (forall f, phase_state (fetcher p') = Some f -> stream_serves ledger last_version chunk (resp_stream f)) /\
  Forall (fun b => response_ok ledger last_version chunk (fb_response b)) (fetched p').
Proof.
  intros I Hstep. pose proof (inv_flow p log I) as Hp. pose proof (ri_stream _ _ _ _ _ _ I) as Hst.
  pose proof (ri_responses _ _ _ _ _ _ I) as Hr.
  destruct Hstep as [f f' b Hc Hf Hs|f b Hc Hf Hs|? ? ? Hc Hf|? Hc Hf|Hc Hf| | | | | |]; simpl; try done.
  1,2: rewrite Hf in Hst; specialize (Hst f eq_refl); simpl in Hst;
    destruct (flow_next _ _ _ _ Hp f) as (Hok & _); [by rewrite Hf|];
    pose proof (fetcher_step_ok _ _ _ _ _ _ _ f _ Hu64 Hok Hs) as Hi.
  - split; [intros ? [= <-]; exact (fetcher_step_stream _ _ _ _ _ _ _ _ f f' b Hserves Hst Hs)|].
    apply Forall_app_2; [done|]. destruct b as [b|]; simpl; repeat constructor. eapply Hst. apply Hi.
  - split; [done|]. apply Forall_app_2; [done|]. destruct b as [b|]; simpl; repeat constructor. eapply Hst. apply Hi.
  - split; [|done]. rewrite Hf in Hst. exact Hst.
  - split; [|done]. rewrite Hf in Hst. exact Hst.
Qed.

Lemma message_done_mono m log log' :
  (forall r, r ∈ log -> r ∈ log') -> message_done m log -> message_done m log'.
Proof. intros Hsub [Hm|(rs & Hrs & Hin)]; [by left|]. right. exists rs. split; [done|]. auto. Qed.

Lemma inv_row p log m rs r :
  inv p log -> m ∈ handed p -> rows (pb_transactions m) = Ret rs -> r ∈ rs ->
  exists v, (sv <= v <= last_version)%Z /\ version_row v r.
Proof.
  intros I Hm Hrs Hr. destruct (inv_message p log m I Hm) as (b & Hb & _ & Ht & H0' & Hhi & Hlo).
  destruct (br_from _ _ _ Hrs Hr) as (t & ws & Hin & Hws & Hrw). rewrite Ht in Hin.
  apply elem_of_batch_txns in Hin as (v & -> & Hv & Hi). exists v. split; [lia|]. split; [done|]. by exists ws.
Qed.

Lemma inv_commit p log ts1 ts2 m rs rows' :
  inv p log -> tasks p = ts1 ++ Busy m :: ts2 -> rows (pb_transactions m) = Ret rs ->
  (forall r, r ∈ rows' -> r ∈ rs) -> inv p (log ++ rows').
Proof.
  intros I Ht Hrs Hsub. pose proof (inv_flow p log I) as Hp. destruct I as [I1 I2 I3 I4 I5 I6 I7] eqn:EI. clear EI.
  split; try done.
  - intros r Hr. apply elem_of_app. auto.
  - intros r [Hr|Hr]%elem_of_app; [by apply I6|]. right. eapply (inv_row p log m rs); [by split|..|by apply Hsub]; [|done].
    rewrite (flow_messages _ _ _ _ Hp), Ht, omap_middle, !elem_of_app. simpl. set_solver.
  - intros m' Hm'. eapply message_done_mono; [|by apply I7]. intros r Hr. apply elem_of_app. auto.
Qed.

Lemma step_processed p p' m :
  pipeline_step net p p' -> m ∈ processed p' -> m ∈ processed p \/ processed p' = processed p ++ [m].
Proof.
  destruct 1; simpl; try tauto. intros [Hm|Hm]%elem_of_app; [by left|].
  apply list_elem_of_singleton in Hm as ->. by right.
Qed.
Lemma inv_other p p' log :
  inv p log -> pipeline_step net p p' -> (forall m, processed p' = processed p ++ [m] -> message_done m log) ->
  inv p' log.
Proof.
  intros I Hstep Hdone. destruct (inv_responses p p' log I Hstep) as [Hs Hr]. split.
  - destruct (ri_reach _ _ _ _ _ _ I) as (f & n & now & Hf & Hrtc). exists f, n, now. split; [done|].
    by eapply rtc_r.
  - eapply small_step; [|exact (ri_small _ _ _ _ _ _ I)|exact Hstep]. by eapply serves_small.
  - exact Hs.
  - exact Hr.
  - apply I.
  - apply I.
  - intros m [Hm|Hm]%(step_processed _ _ _ Hstep); [by apply I|by apply Hdone].
Qed.

Lemma run_from_inv p log : run_from net sv s log0 p log -> inv p log.
Proof.
  intros (f & n & now & Hf & Hrun).
  assert (inv (start_pipeline sv f n now s) log0) as I.
  { pose proof (start_fetcher_ok _ _ _ _ _ f Hu64 Hsv Hf) as (_ & _ & _ & i & req & resp & Hg & Hst). split.
    - exists f, n, now. split; [done|]. apply rtc_refl.
    - split; [|constructor]. simpl. intros ? [= <-]. rewrite Hst. by eapply serves_small.
    - simpl. intros ? [= <-]. rewrite Hst. by eapply Hserves.
    - constructor.
    - done.
    - by left.
    - simpl. intros m Hm. by apply elem_of_nil in Hm. }
  remember (start_pipeline sv f n now s, log0) as a eqn:Ea. remember (p, log) as c eqn:Ec.
  assert (inv a.1 a.2) as Ia by (by rewrite Ea). clear Ea I. revert Ec Ia.
  induction Hrun as [a|a b c Hab Hrun IH]; intros -> Ia; [done|]. apply IH; [done|].
  destruct Hab; simpl in *; [by eapply inv_commit|by eapply inv_other].
Qed.

(** Processed messages cover their versions. *)
Lemma inv_covers p log hi :
  inv p log -> (hi <= fetched_end sv (fetched p))%Z ->
  (forall m, m ∈ handed p -> (pb_start_version m < hi)%Z -> m ∈ processed p) -> log_covers sv hi log.
Proof.
  intros I Hhi Hproc v r Hv [Hi (ws & Hws & Hr)]. pose proof (inv_flow p log I) as Hp.
  destruct (gapless_covers sv (fetched p) v (flow_gapless _ _ _ _ Hp) (flow_ordered _ _ _ _ Hp)) as (b & Hb & Hvb); [lia|].
  destruct (ri_small _ _ _ _ _ _ I) as [_ Hu]. unfold unsplit in Hu. rewrite Forall_forall in Hu. specialize (Hu b Hb).
  destruct (fb_messages b) as [|m ms] eqn:Hms; [done|].
  assert (m ∈ handed p) as Hm by (apply elem_of_handed; exists b; rewrite Hms; split; [done|left]).
  destruct (inv_message p log m I Hm) as (b' & Hb' & Hmv & Ht & Hlo & Hle & _).
  assert (message_versions m = batch_versions b) as Hbv
    by (eapply batch_message_versions; [exact Hp|done|]; rewrite Hms; left).
  assert (b' = b) as ->.
  { apply (NoDup_fmap_key_inj fb_start (fetched p)); [|done|done|].
    - eapply gapless_NoDup; [apply (flow_gapless _ _ _ _ Hp)|apply (flow_ordered _ _ _ _ Hp)].
    - unfold batch_versions in *. congruence. }
  injection Hbv as Hstart _.
  destruct (ri_done _ _ _ _ _ _ I m (Hproc m Hm ltac:(lia))) as [He|(rs & Hrs & Hsub)].
  - exfalso. assert (ledger v ∈ pb_transactions m) as Hin.
    { rewrite Ht. apply elem_of_batch_txns. by exists v. }
    rewrite He in Hin. by apply elem_of_nil in Hin.
  - assert (in_version_order (pb_transactions m)) as Hord' by (rewrite Ht; by eapply batch_txns_order).
    destruct (br_covers _ rs (ledger v) ws r Hord' Hrs) as (r' & Hr' & Hcr); [|done..|].
    { rewrite Ht. apply elem_of_batch_txns. by exists v. }
    exists r'. split; [by apply Hsub|done].
Qed.
End OneRun.

(** *** Several runs *)

Hypothesis Hstart : worker_starting_version w = None.

Definition recorded_start (s : pg_state) : Z :=
  from_option (fun row => as_u64 (as_u64 (last_success_version row) + 1)) 0%Z (pg_rows s !! run_name).
Lemma starts_at_recorded s sv : starts_at s sv <-> sv = recorded_start s.
Proof.
  unfold starts_at, recorded_start, final_starting_version, get_start_version, get_by_processor. rewrite Hstart.
  destruct (pg_rows s !! run_name); simpl; split; congruence.
Qed.
Lemma recorded_start_u64 s : in_u64 (recorded_start s).
Proof. unfold recorded_start. destruct (pg_rows s !! run_name); simpl; [apply as_u64_range|unfold in_u64; lia]. Qed.

Lemma log_covers_mono lo hi log log' :
  (forall r, r ∈ log -> r ∈ log') -> log_covers lo hi log -> log_covers lo hi log'.
Proof. intros Hsub Hc v r Hv Hr. destruct (Hc v r Hv Hr) as (r' & Hr' & Hk). exists r'. auto. Qed.
Lemma log_covers_join lo mid hi log :
  log_covers lo mid log -> log_covers mid hi log -> log_covers lo hi log.
Proof. intros H1' H2' v r Hv Hr. destruct (Z.lt_ge_cases v mid); [apply (H1' v)|apply (H2' v)]; try done; lia. Qed.

(** What is recorded when a run ends is covered by what it has committed. *)
Lemma run_recorded net s log0 p log :
  serves net -> run_inv net (recorded_start s) s log0 p log ->
  (recorded_start s <= recorded_start (status_table (tracker p)))%Z /\
  log_covers (recorded_start s) (recorded_start (status_table (tracker p))) log.
Proof.
  intros Hsrv I. pose proof (recorded_start_u64 s) as Hsv. set (sv := recorded_start s) in *.
  assert (recorded_start (status_table (tracker p)) = sv \/
    exists st, status_rows p !! run_name = Some st /\ recorded_start (status_table (tracker p)) = (last_success_version st + 1)%Z /\
      (sv <= last_success_version st)%Z /\ (last_success_version st < fetched_end sv (fetched p))%Z /\
      forall m, m ∈ handed p -> (pb_start_version m <= last_success_version st)%Z -> m ∈ processed p) as [->|Hrow].
  { pose proof (reachable_status_kept _ _ _ _ _ _ _ _ _ s p run_name (ri_reach _ _ _ _ _ _ I)) as Hkept.
    destruct (status_rows p !! run_name) as [st|] eqn:Hrow.
    - destruct (reachable_status_sound auth_token run_name encoded_len net sv (worker_ending_version w) (worker_filter w) chunk
        chain_id (serves_u64 _ _ _ Hledger Hlast net Hsrv) (serves_ordered _ _ _ Hledger Hlast net Hsrv) s p Hsv
        (ri_reach _ _ _ _ _ _ I) (proj2 (ri_small _ _ _ _ _ _ I)) st Hrow) as [Hold|(Hr & Hlt & Hd)].
      + left. unfold sv, recorded_start. fold (status_rows p). by rewrite Hrow, Hold.
      + right. exists st. split_and!; try done; [|lia]. unfold recorded_start. fold (status_rows p). rewrite Hrow. simpl.
        unfold in_u64 in Hsv. rewrite (as_u64_id (last_success_version st)), as_u64_id by (unfold in_u64; lia). done.
    - left. unfold sv, recorded_start. fold (status_rows p). rewrite Hrow.
      destruct (pg_rows s !! run_name); [|done]. by destruct Hkept. }
  - split; [lia|]. intros v r Hv. lia.
  - destruct Hrow as (st & _ & -> & Hle & Hlt & Hd). split; [lia|].
    eapply inv_covers; [exact Hsrv|exact Hsv|exact I|lia|]. intros m Hm Hmv. apply Hd; [done|lia].
Qed.

(** The runs of a history have committed rows of the ledger only, and cover
    the versions up to the one at which the next run starts. *)
Lemma indexed_inv s0 s log :
  indexed s0 s log ->
  (recorded_start s0 <= recorded_start s)%Z /\
  (forall r, r ∈ log -> exists v, (recorded_start s0 <= v <= last_version)%Z /\ version_row v r) /\
  log_covers (recorded_start s0) (recorded_start s) log.
Proof.
  induction 1 as [|s log net sv p log' _ IH Hsrv Hsv Hrun].
  - split; [done|]. split; [intros r Hr; by apply elem_of_nil in Hr|]. intros v r Hv. lia.
  - destruct IH as (Hle & Hfrom & Hcov). apply starts_at_recorded in Hsv as ->.
    pose proof (run_from_inv net _ s log Hsrv (recorded_start_u64 s) p log' Hrun) as I.
    destruct (run_recorded net s log p log' Hsrv I) as [Hle' Hcov']. split_and!; [lia| |].
    + intros r Hr. destruct (ri_from _ _ _ _ _ _ I r Hr) as [Hr0|(v & Hv & Hvr)]; [by apply Hfrom|].
      exists v. split; [lia|done].
    + eapply log_covers_join; [|exact Hcov']. eapply log_covers_mono; [exact (ri_keep _ _ _ _ _ _ I)|done].
Qed.

(** Complete runs: the last one has reached the last version. *)
Definition completed (s0 s : pg_state) (log log' : list row) (net : nat -> Network) (sv0 sv : Z) (p : Pipeline) : Prop :=
  starts_at s0 sv0 /\ indexed s0 s log /\
  serves net /\ starts_at s sv /\ run_from net sv s log p log' /\
  fetcher p = Closed /\ Forall (eq Exited) (tasks p) /\ fetched_end sv (fetched p) = (last_version + 1)%Z.
Lemma completed_rows s0 s log log' net sv0 sv p :
  completed s0 s log log' net sv0 sv p ->
  (0 <= sv0)%Z /\ (forall r, r ∈ log' -> exists v, (sv0 <= v < last_version + 1)%Z /\ version_row v r) /\
  log_covers sv0 (last_version + 1) log'.
Proof.
  intros (H0' & Hix & Hsrv & Hsv & Hrun & Hcl & Hex & Hend).
  apply starts_at_recorded in H0' as ->. apply starts_at_recorded in Hsv as ->.
  destruct (indexed_inv s0 s log Hix) as (Hle & Hfrom & Hcov).
  pose proof (run_from_inv net _ s log Hsrv (recorded_start_u64 s) p log' Hrun) as I.
  pose proof (inv_flow net _ s log Hsrv (recorded_start_u64 s) p log' I) as Hp.
  assert (forall m, m ∈ handed p -> m ∈ processed p) as Hall.
  { intros m. rewrite (flow_messages _ _ _ _ Hp), Hcl.
    rewrite (closed_empty _ _ _ _ _ _ _ _ _ s p (ri_reach _ _ _ _ _ _ I) Hcl).
    assert (omap busy (tasks p) = []) as -> by (clear -Hex; induction Hex as [|t ts <- _ IH]; [done|exact IH]). done. }
  pose proof (recorded_start_u64 s0) as [Hlo _]. split_and!; [done| |].
  - intros r Hr. destruct (ri_from _ _ _ _ _ _ I r Hr) as [Hr0|(v & Hv & Hvr)].
    + destruct (Hfrom r Hr0) as (v & Hv & Hvr). exists v. split; [lia|done].
    + exists v. split; [lia|done].
  - eapply log_covers_join; [eapply log_covers_mono; [exact (ri_keep _ _ _ _ _ _ I)|exact Hcov]|].
    eapply inv_covers; [exact Hsrv|apply recorded_start_u64|exact I|lia|]. intros m Hm _. by apply Hall.
Qed.

End Runs.

(** ** Refinement *)

Section Refinement.
Context `{Chrono, GrpcCrates, ProtoEnums}.
Context `{!PgTable ProcessorStatus string, !DebugQuery ProcessorStatus string, !PgLaws ProcessorStatus string}.
Context {db : Type} `{ProcessorTrait db}.
Context `{!GrpcCratesLaws, !ProcessorLaws db}.
Context {row key : Type} `{Countable key} (u : Upsert row key) (rows : list Transaction -> outcome (list row)).
Variables (auth_token : string) (w : Worker) (chain_id : Z) (encoded_len : TransactionsResponse -> Z).
Variables (ledger : Z -> Transaction) (last_version : Z).
Hypothesis Hledger : forall v, t_version (ledger v) = v.
Hypothesis Hlast : (last_version < 9223372036854775807)%Z.
Hypothesis Hstart : worker_starting_version w = None.
Abbreviation completed := (completed rows auth_token w chain_id encoded_len ledger last_version).
Abbreviation sequential := (sequential rows w ledger u).
Abbreviation ledger_rows lo := (concat (txn_rows rows w ledger <$> seqZ lo (last_version + 1 - lo))).

Lemma sequential_coherent `{!Lww u, !BatchTable u rows} lo : (0 <= lo)%Z -> lww_coherent u (ledger_rows lo).
Proof.
  intros Hlo a b (v1 & Hv1 & _ & ws1 & Hws1 & Ha)%elem_of_sequential (v2 & Hv2 & _ & ws2 & Hws2 & Hb)%elem_of_sequential Hk.
  split; [exact (bt_static _ _ _ _ _ _ Hws1 Ha Hws2 Hb Hk)|]. intros Hrank.
  rewrite (bt_rank _ _ _ Hws1 Ha), (bt_rank _ _ _ Hws2 Hb), !Hledger, !as_i64_id in Hrank by (unfold in_i64; lia).
  subst v2. rewrite Hws1 in Hws2. injection Hws2 as <-.
  apply (NoDup_fmap_key_inj (up_key u) ws1); try done. by eapply bt_keys.
Qed.
Lemma sequential_keys key_version `{!HistoryTable u rows key_version} lo : (0 <= lo)%Z -> keys_coherent u (ledger_rows lo).
Proof.
  intros Hlo a b (v1 & Hv1 & _ & ws1 & Hws1 & Ha)%elem_of_sequential (v2 & Hv2 & _ & ws2 & Hws2 & Hb)%elem_of_sequential Hk.
  pose proof (ht_version _ _ _ Hws1 Ha) as Hva. pose proof (ht_version _ _ _ Hws2 Hb) as Hvb.
  rewrite Hk, Hvb, !Hledger, !as_i64_id in Hva by (unfold in_i64; lia).
  subst v2. rewrite Hws1 in Hws2. injection Hws2 as <-.
  apply (NoDup_fmap_key_inj (up_key u) ws1); try done. by eapply ht_keys.
Qed.

(** A table that keeps the newest row of each key, and one that keeps every row,
    hold after complete runs what the specification leaves in them. *)
Lemma newest_refines `{!Lww u, !BatchTable u rows} (s0 s : pg_state) (log log' : list row)
    (net : nat -> Network) (sv0 sv : Z) (p : Pipeline) :
  completed s0 s log log' net sv0 sv p -> upsert_rows u ∅ log' = sequential sv0 (last_version + 1).
Proof.
  intros Hc. apply (completed_rows _ (newer u)) in Hc as (Hlo & Hfrom & Hcov); try done. rewrite sequential_rows.
  apply (newest_determined u); [by apply sequential_coherent|..].
  - intros r Hr. apply elem_of_sequential. by apply Hfrom.
  - intros r (v & Hv & Hvr)%elem_of_sequential. by apply (Hcov v).
Qed.

Lemma history_refines key_version `{!HistoryTable u rows key_version} (s0 s : pg_state)
    (log log' : list row) (net : nat -> Network) (sv0 sv : Z) (p : Pipeline) :
  completed s0 s log log' net sv0 sv p -> upsert_rows u ∅ log' = sequential sv0 (last_version + 1).
Proof.
  intros Hc. apply (completed_rows _ eq) in Hc as (Hlo & Hfrom & Hcov); try done. rewrite sequential_rows.
  apply (history_determined u); [apply ht_once|by eapply sequential_keys|]. intros r. rewrite elem_of_sequential.
  split; [apply Hfrom|]. intros (v & Hv & Hvr). by destruct (Hcov v r Hv Hvr) as (r' & Hr' & <-).
Qed.
End Refinement.
