(* ===== verification/EndToEndTables.v ===== *)
(** * Tables of the end-to-end theorem

    Implementations of [BatchTable]: tables of the last writes of a batch and of
    merged maps, with those of the default and of the stake processor; and a
    concrete pair of runs. *)
From S2P Require Import Prelude RustStr Json Externals Proto Util Database Processors.
From S2P Require Import GapDetector TransactionFilter MovingAverage Fetcher Worker Pipeline Startup.
From S2P Require Import DefaultModels DefaultProcessor TokenResources Stake StakeLaws EndToEnd.

(** ** Tables of last writes

    A batch that keeps the last of the items of its transactions for each key
    keeps the promise of a table. *)
Lemma last_filter_concat {A} (P : A -> Prop) `{forall x, Decision (P x)} (ls : list (list A)) c :
  last (filter P (concat ls)) = Some c -> exists l, l ∈ ls /\ last (filter P l) = Some c.
Proof.
  induction ls as [|l ls IH]; simpl; [done|]. rewrite filter_app, last_app.
  destruct (last (filter P (concat ls))) as [x|] eqn:E.
  - intros [= ->]. destruct (IH eq_refl) as (l' & Hl' & Hc). exists l'. split; [by right|done].
  - intros Hc. exists l. split; [left|done].
Qed.
Lemma last_filter_sorted {A} (rank : A -> Z) (P : A -> Prop) `{forall x, Decision (P x)} (l : list A) x :
  StronglySorted (fun a b => (rank a <= rank b)%Z) l -> x ∈ l -> P x ->
  exists c, last (filter P l) = Some c /\ (rank x <= rank c)%Z.
Proof.
  induction 1 as [|a l Hl IH Ha]; intros Hx HP; [by apply elem_of_nil in Hx|].
  rewrite filter_cons. apply elem_of_cons in Hx as [<-|Hx].
  - rewrite decide_True by done. rewrite last_cons. destruct (last (filter P l)) as [c|] eqn:E; [|by exists x].
    exists c. split; [done|]. rewrite Forall_forall in Ha. apply Ha.
    by apply last_Some_elem_of, list_elem_of_filter in E as [_ E].
  - destruct (IH Hx HP) as (c & Hc & Hle). exists c. split; [|done].
    case_decide; [|done]. rewrite last_cons. by rewrite Hc.
Qed.

Lemma Forall2_in_l {A B} (R : A -> B -> Prop) l k x : Forall2 R l k -> x ∈ l -> exists y, y ∈ k /\ R x y.
Proof.
  intros Hf (i & Hi)%list_elem_of_lookup. destruct (Forall2_lookup_l _ _ _ _ _ Hf Hi) as (y & Hy & Hr).
  exists y. split; [by eapply list_elem_of_lookup_2|done].
Qed.
Lemma Forall2_in_r {A B} (R : A -> B -> Prop) l k y : Forall2 R l k -> y ∈ k -> exists x, x ∈ l /\ R x y.
Proof.
  intros Hf (i & Hi)%list_elem_of_lookup. destruct (Forall2_lookup_r _ _ _ _ _ Hf Hi) as (x & Hx & Hr).
  exists x. split; [by eapply list_elem_of_lookup_2|done].
Qed.

Section LastWrites.
Context {row key : Type} `{Countable key} (u : Upsert row key) `{!Lww u}.
Context (rows : list Transaction -> outcome (list row)) (items : Transaction -> outcome (list row)).
Hypothesis Hrows : forall txns rs, rows txns = Ret rs -> NoDup (up_key u <$> rs) /\
  exists logs, Forall2 (fun t l => items t = Ret l) txns logs /\
    forall c, c ∈ rs <-> last (filter (fun x => up_key u x = up_key u c) (concat logs)) = Some c.
Hypothesis Halone : forall t l, items t = Ret l -> exists rs, rows [t] = Ret rs.
Hypothesis Hrank : forall t l r, items t = Ret l -> r ∈ l -> lww_rank r = as_i64 (t_version t).
Hypothesis Hstatic : forall a b : row, lww_static a = lww_static b.

Lemma alone_rows t l ws :
  items t = Ret l -> rows [t] = Ret ws ->
  forall c, c ∈ ws <-> last (filter (fun x => up_key u x = up_key u c) l) = Some c.
Proof.
  intros Hl (_ & logs & Hlogs & Hin)%Hrows c. rewrite Hin.
  apply Forall2_cons_inv_l in Hlogs as (l' & logs' & Hl' & Hnil & ->). apply Forall2_nil_inv_l in Hnil as ->.
  rewrite Hl in Hl'. injection Hl' as <-. simpl. by rewrite app_nil_r.
Qed.
Lemma logs_sorted txns logs :
  in_version_order txns -> Forall2 (fun t l => items t = Ret l) txns logs ->
  StronglySorted (fun a b => (lww_rank a <= lww_rank b)%Z) (concat logs).
Proof.
  intros [Hs Hr] Hl. revert Hs Hr. induction Hl as [|t l txns logs Hl Hls IH]; intros Hs Hr; [constructor|].
  simpl. apply StronglySorted_inv in Hs as [Hs Ht]. apply Forall_cons in Hr as [Hrt Hr]. specialize (IH Hs Hr).
  assert (forall r, r ∈ l -> lww_rank r = t_version t) as Hrk.
  { intros r Hin. rewrite (Hrank t l r Hl Hin). apply as_i64_id. unfold in_i64. lia. }
  assert (forall r, r ∈ concat logs -> (t_version t <= lww_rank r)%Z) as Hge.
  { intros r Hin. apply list_elem_of_In, in_concat in Hin as (l' & Hl' & Hin).
    apply list_elem_of_In in Hl', Hin. destruct (Forall2_in_r _ _ _ _ Hls Hl') as (t' & Ht' & Hit).
    rewrite (Hrank t' l' r Hit Hin). rewrite Forall_forall in Ht, Hr. specialize (Ht t' Ht'). specialize (Hr t' Ht').
    rewrite as_i64_id by (unfold in_i64; lia). lia. }
  clear Hl. induction l as [|a l IHl]; [done|]. simpl. constructor.
  - apply IHl. intros r Hin. apply Hrk. by right.
  - apply Forall_forall. intros r [Hin|Hin]%elem_of_app; rewrite (Hrk a) by left; [|by apply Hge].
    rewrite (Hrk r) by (by right). done.
Qed.

Lemma last_writes_table : BatchTable u rows.
Proof.
  split.
  - intros txns rs t (_ & logs & Hlogs & _)%Hrows Ht.
    destruct (Forall2_in_l _ _ _ _ Hlogs Ht) as (l & _ & Hl). by eapply Halone.
  - intros txns rs r (_ & logs & Hlogs & Hin)%Hrows Hr. apply Hin, last_filter_concat in Hr as (l & Hl & Hlast).
    destruct (Forall2_in_r _ _ _ _ Hlogs Hl) as (t & Ht & Hit). destruct (Halone t l Hit) as [ws Hws].
    exists t, ws. split_and!; try done. by apply (alone_rows t l ws).
  - intros txns rs t ws x Ho (_ & logs & Hlogs & Hin)%Hrows Ht Hws Hx.
    destruct (Forall2_in_l _ _ _ _ Hlogs Ht) as (l & Hl & Hit).
    pose proof (last_Some_elem_of _ _ (proj1 (alone_rows t l ws Hit Hws x) Hx)) as [_ Hxl]%list_elem_of_filter.
    destruct (last_filter_sorted lww_rank (fun y => up_key u y = up_key u x) (concat logs) x) as (c & Hc & Hle).
    + by eapply logs_sorted.
    + apply list_elem_of_In, in_concat. exists l. rewrite <- !list_elem_of_In. done.
    + done.
    + pose proof (last_Some_elem_of _ _ Hc) as [Hk _]%list_elem_of_filter. exists c. split_and!; try done.
      apply Hin. by rewrite Hk.
  - intros t ws x Hws Hx. pose proof Hws as (_ & logs & Hlogs & _)%Hrows.
    apply Forall2_cons_inv_l in Hlogs as (l & logs' & Hl & _ & _).
    pose proof (last_Some_elem_of _ _ (proj1 (alone_rows t l ws Hl Hws x) Hx)) as [_ Hxl]%list_elem_of_filter.
    by eapply Hrank.
  - intros t ws [Hn _]%Hrows. done.
  - intros. apply Hstatic.
Qed.
End LastWrites.

(** ** Tables of merged maps

    A processor that collects a map of rows from every transaction and extends
    the map of the batch with it. *)

Lemma index_by_values {K V} `{Countable K} (f : V -> K) (m : gmap K V) :
  keyed f m -> index_by f (map_to_list m).*2 = m.
Proof.
  intros Hm. assert (forall v, v ∈ (map_to_list m).*2 -> m !! f v = Some v) as Hin.
  { intros v ([k v'] & -> & Hkv%elem_of_map_to_list)%list_elem_of_fmap. simpl. by rewrite (Hm _ _ Hkv). }
  apply map_eq. intros k. destruct (index_by f (map_to_list m).*2 !! k) as [v|] eqn:Hk.
  - pose proof (keyed_index_by _ _ _ _ Hk) as <-. rewrite index_by_lookup in Hk.
    apply last_Some_elem_of, list_elem_of_filter in Hk as [_ Hv]. by rewrite (Hin v Hv).
  - destruct (m !! k) as [v|] eqn:Hv; [|done]. exfalso. rewrite index_by_lookup in Hk. apply last_None in Hk.
    assert (v ∈ filter (fun x => f x = k) (map_to_list m).*2) as Hc; [|rewrite Hk in Hc; by apply elem_of_nil in Hc].
    apply list_elem_of_filter. split; [by apply Hm|].
    apply (list_elem_of_fmap_2' snd _ (k, v)); [by apply elem_of_map_to_list|done].
Qed.

Section MergedMaps.
Context `{HashOrder} {row key : Type} `{Countable key} (u : Upsert row key) `{!Lww u}.
Variable maps : Transaction -> outcome (gmap key row).
Hypothesis Hmaps : forall t m, maps t = Ret m -> holds (up_key u) (fun r => lww_rank r = as_i64 (t_version t)) m.
Hypothesis Hstatic : forall a b : row, lww_static a = lww_static b.

Definition merged_rows (txns : list Transaction) : outcome (list row) :=
  ms ← traverse maps txns; Ret (into_values (foldl extend ∅ ms)).
Definition map_items (t : Transaction) : outcome (list row) :=
  match maps t with Ret m => Ret (map_to_list m).*2 | Panic => Panic end.

Lemma merged_index txns ms :
  Forall2 (fun t m => maps t = Ret m) txns ms ->
  Forall2 (fun t l => map_items t = Ret l) txns ((fun m => (map_to_list m).*2) <$> ms) /\
  foldl extend ∅ ms = index_by (up_key u) (concat ((fun m => (map_to_list m).*2) <$> ms)).
Proof.
  intros Hms. split.
  - induction Hms as [|t m txns ms Hm _ IH]; [constructor|]. constructor; [|done]. unfold map_items. by rewrite Hm.
  - assert (Forall (keyed (up_key u)) ms) as Hk.
    { clear Hstatic. induction Hms as [|t m txns ms Hm _ IH]; constructor; [|done]. eapply holds_keyed, Hmaps, Hm. }
    clear Hms. induction ms as [|m ms IH] using rev_ind; [done|]. apply Forall_app in Hk as [Hk Hm].
    rewrite Forall_singleton in Hm. rewrite foldl_app, fmap_app, concat_app, index_by_app, <- (IH Hk).
    change (concat ((fun m => (map_to_list m).*2) <$> [m])) with ((map_to_list m).*2 ++ []).
    by rewrite app_nil_r, index_by_values.
Qed.

Lemma merged_table : BatchTable u merged_rows.
Proof.
  apply (last_writes_table u merged_rows map_items); [| | |done].
  - intros txns rs (ms & Hms%traverse_Ret & Hrs)%bind_Ret. injection Hrs as <-.
    apply merged_index in Hms as [Hi ->]. split; [apply into_values_NoDup, keyed_index_by|].
    eexists. split; [exact Hi|]. intros c. rewrite elem_of_into_values, <- index_by_lookup. split; [|eauto].
    intros [k Hk]. by rewrite (keyed_index_by _ _ _ _ Hk).
  - unfold map_items, merged_rows. intros t l Hl. simpl. destruct (maps t) as [m|]; [|done]. by eexists.
  - unfold map_items. intros t l r Hl Hr. destruct (maps t) as [m|] eqn:Hm; [|done]. injection Hl as <-.
    apply list_elem_of_fmap in Hr as ([k r'] & -> & Hkr%elem_of_map_to_list). by apply (Hmaps t m Hm k).
Qed.
End MergedMaps.

(** ** The current table items of the default processor *)

Section DefaultItems.
Context `{Chrono, BigDec, HexCodec, Sha256, ProtoEnums, JsonParse, ProtoJson, HashOrder}.
Context `{!Serialize EntryFunctionPayloadClean, !Serialize ScriptPayloadClean, !Serialize MultisigPayloadClean}.

Definition item_rows (txns : list Transaction) : outcome (list CurrentTableItem) :=
  r ← default_rows txns; Ret (rows_current_table_items r).
Definition txn_items (t : Transaction) : outcome (list CurrentTableItem) :=
  match DefaultModels.from_transaction t with
  | Ret (_, _, _, details) => Ret (omap detail_current details)
  | Panic => Panic
  end.

Lemma from_transactions_items txns out :
  from_transactions txns = Ret out ->
  exists logs, Forall2 (fun t l => txn_items t = Ret l) txns logs /\ omap detail_current out.2 = concat logs.
Proof.
  unfold from_transactions. intros Hf.
  apply (foldM_log (fun _ => True) (fun a l b => omap detail_current b.2 = omap detail_current a.2 ++ l)
           (fun t l => txn_items t = Ret l)) in Hf as (_ & logs & Hl & Hc); [by exists logs| | | |done].
  - intros s. by rewrite app_nil_r.
  - intros s1 l1 s2 l2 s3 E1 E2. by rewrite E2, E1, app_assoc.
  - intros [[[a b] c] d] t c' _ _ Hs. simpl in Hs. unfold txn_items.
    destruct (DefaultModels.from_transaction t) as [[[[x1 x2] x3] x4]|]; [|done]. simpl in Hs. injection Hs as <-.
    split; [done|]. eexists. split; [|reflexivity]. simpl. apply omap_app.
Qed.

Lemma txn_items_alone t l : txn_items t = Ret l -> exists rs, item_rows [t] = Ret rs.
Proof.
  unfold txn_items, item_rows, default_rows, from_transactions. intros Hl. simpl.
  destruct (DefaultModels.from_transaction t) as [[[[x1 x2] x3] x4]|]; [|done]. simpl. by eexists.
Qed.
Lemma item_rows_last txns rs :
  item_rows txns = Ret rs -> NoDup (current_item_key <$> rs) /\
  exists logs, Forall2 (fun t l => txn_items t = Ret l) txns logs /\
    forall c, c ∈ rs <-> last (filter (fun x => current_item_key x = current_item_key c) (concat logs)) = Some c.
Proof.
  intros (r & Hr & Hrs)%bind_Ret. injection Hrs as <-.
  apply default_rows_details in Hr as (bms & details & Hf & _ & _ & _ & -> & _). split; [apply sorted_values_NoDup|].
  apply from_transactions_items in Hf as (logs & Hl & Hc). exists logs. split; [done|]. intros c. simpl in Hc.
  rewrite <- Hc. apply elem_of_sorted_values.
Qed.
Lemma txn_items_version t l r : txn_items t = Ret l -> r ∈ l -> cti_last_transaction_version r = as_i64 (t_version t).
Proof.
  intros Hl Hr. unfold txn_items in Hl.
  destruct (DefaultModels.from_transaction t) as [[[[x1 x2] x3] details]|] eqn:Ht; [|done]. injection Hl as <-.
  assert (from_transactions [t] = Ret ([x1], option_list x2, x3, details)) as Hf.
  { unfold from_transactions. simpl. rewrite Ht. done. }
  apply from_transactions_keys in Hf as (Hv & Hd & Hin & _ & Hcv).
  apply list_elem_of_omap in Hr as (d & Hdd & Hdc). rewrite Forall_forall in Hcv. rewrite Forall_forall in Hin.
  specialize (Hcv d Hdd). rewrite Hdc in Hcv. simpl in Hcv. rewrite Hcv.
  assert (detail_key d ∈ change_key <$> x3) as (w & -> & Hw)%list_elem_of_fmap
    by (rewrite <- Hd; by apply list_elem_of_fmap_2).
  specialize (Hin w Hw). rewrite Hv in Hin. by apply list_elem_of_singleton in Hin.
Qed.

#[export] Instance default_items_table : BatchTable insert_current_table_items_query item_rows.
Proof.
  apply (last_writes_table insert_current_table_items_query item_rows txn_items).
  - apply item_rows_last.
  - apply txn_items_alone.
  - apply txn_items_version.
  - done.
Qed.
End DefaultItems.

(** ** The pools of the stake processor

    The voters and the balances of the pools are merged maps; the rows are
    those of [stake_rows], which also looks at the rest of a batch. *)

Section StakePools.
Context `{Chrono, BigDec, HexCodec, Sha256, JsonParse, ProtoJson, HashOrder}.
Context `{!StakeCodec}.

Definition pool_voter_map (t : Transaction) : outcome (gmap string CurrentStakingPoolVoter) :=
  r ← pool_voters_from_transaction t; unwrap_result r.
Definition pool_balance_map (t : Transaction) : outcome (gmap string CurrentDelegatorPoolBalance) :=
  r ← pools_from_transaction t; d ← unwrap_result r; Ret (delegator_pool_balances_map d).

Lemma stake_pool_rows (queries : StakeQueries) (retries : nat) txns r :
  stake_rows queries retries txns = Ret (Ok r) ->
  exists voters balances,
    merged_rows pool_voter_map txns = Ret voters /\ rows_pool_voters r ≡ₚ voters /\
    merged_rows pool_balance_map txns = Ret balances /\ rows_current_delegator_pool_balances r ≡ₚ balances.
Proof.
  intros (st & Hf%foldTry_Ok & _ & Hv & _ & _ & _ & _ & Hb & _)%stake_rows_state.
  eapply (foldM_log (fun _ => True)
    (fun s ms s' => all_current_stake_pool_voters s' = foldl extend (all_current_stake_pool_voters s) ms.*1 /\
       all_current_delegator_pool_balances s' = foldl extend (all_current_delegator_pool_balances s) ms.*2)
    (fun t ms => exists a b, pool_voter_map t = Ret a /\ pool_balance_map t = Ret b /\ ms = [(a, b)])) in Hf
    as (_ & logs & Hlogs & Hs1 & Hs2); [|done| | |done].
  - exists (into_values (foldl extend ∅ (concat logs).*1)), (into_values (foldl extend ∅ (concat logs).*2)).
    unfold merged_rows. simpl in Hs1, Hs2. rewrite Hs1 in Hv. rewrite Hs2 in Hb.
    assert (traverse pool_voter_map txns = Ret (concat logs).*1 /\
            traverse pool_balance_map txns = Ret (concat logs).*2) as [-> ->]; [|done].
    rewrite !traverse_Ret. clear -Hlogs.
    induction Hlogs as [|t l ts ls (a & b & Ha & Hb & ->) _ [IH1 IH2]]; [split; constructor|].
    split; simpl; by constructor.
  - intros s1 l1 s2 l2 s3 [E1 E2] [E3 E4]. rewrite !fmap_app, !foldl_app. split; congruence.
  - intros s t s' _ _ Hs. apply bind_Ret in Hs as (x & Hs & ->%unwrap_result_Ret).
    apply stake_step_parts in Hs as (pv & ? & ? & ? & pools & Hpv & Hpo & _ & E1 & _ & _ & _ & _ & E2 & _).
    split; [done|]. exists [(pv, delegator_pool_balances_map pools)]. split; [by split|].
    exists pv, (delegator_pool_balances_map pools). unfold pool_voter_map, pool_balance_map.
    by rewrite Hpv, Hpo.
Qed.

#[export] Instance pool_voters_table : BatchTable insert_current_stake_pool_voter_query (merged_rows pool_voter_map).
Proof.
  apply merged_table; [|done]. intros t m (r & Hr & ->%unwrap_result_Ret)%bind_Ret. by apply pool_voters_hold.
Qed.
#[export] Instance pool_balances_table
  : BatchTable insert_current_delegator_pool_balances_query (merged_rows pool_balance_map).
Proof.
  apply merged_table; [|done]. intros t m (r & Hr & (d & ->%unwrap_result_Ret & Hm)%bind_Ret)%bind_Ret.
  injection Hm as <-. by apply pools_hold.
Qed.
End StakePools.

(** ** A concrete pair of runs

    The default processor on a ledger that writes one table item at every
    version: a first run stops after the rows of its batch are committed and
    before the status is written, a second one does the batch again. *)

Section ConcreteRuns.
#[local] Existing Instance pair_chrono.
#[local] Existing Instance slice_crates.
#[local] Existing Instance slice_crates_laws.
#[local] Existing Instance int_bigdec.
#[local] Existing Instance plain_hex.
#[local] Existing Instance plain_sha.
#[local] Existing Instance published_enums.
#[local] Existing Instance text_json.
#[local] Existing Instance text_proto_json.
#[local] Existing Instance no_entry_json.
#[local] Existing Instance no_script_json.
#[local] Existing Instance no_multisig_json.
#[local] Existing Instance map_order.
#[local] Existing Instance status_mem.
#[local] Existing Instance status_mem_laws.
#[local] Existing Instance status_debug.
#[local] Existing Instance ok_processor.
#[local] Existing Instance ok_processor_laws.

Definition item_ledger (v : Z) : Transaction :=
  ex_block v [ex_table_write "k" (if decide (v = 5%Z) then "one" else "two")].
Definition item_response : TransactionsResponse :=
  {| tr_transactions := item_ledger <$> seqZ 5 2; tr_chain_id := Some 1%Z |}.
Definition item_net : nat -> Network := fun _ => network_of [item_response].
Definition item_fetcher : FetcherState :=
  {| resp_stream := stream_of [item_response]; stream_pos := 0; connections := 1;
     next_version_to_fetch := 5; reconnection_retries := 0; last_fetched_version := 4 |}.
Definition item_message : TransactionsPBResponse :=
  {| pb_transactions := item_ledger <$> seqZ 5 2; pb_chain_id := 1; pb_start_version := 5; pb_end_version := 6;
     pb_start_txn_timestamp := Some {| seconds := 1; nanos := 0 |};
     pb_end_txn_timestamp := Some {| seconds := 1; nanos := 0 |}; pb_size_in_bytes := 100 |}.
Definition item_batch : FetchedBatch :=
  {| fb_response := item_response; fb_start := 5; fb_end := 6; fb_messages := [item_message] |}.
(** The batch in a task, and the end of the run. *)
Definition items_busy : Pipeline :=
  {| fetcher := Sending [] None; channel := []; tasks := [Busy item_message; Idle]; results := [];
     tracker := start_tracker 5 0 ex_table; crashed := false;
     fetched := [item_batch]; processed := []; received := [] |}.
Definition items_whole : Pipeline :=
  {| fetcher := Closed; channel := []; tasks := [Exited; Exited]; results := []; tracker := ex_tracker;
     crashed := false; fetched := [item_batch]; processed := [item_message]; received := [batch 5 6] |}.

Lemma item_serves : serves item_ledger 6 10 item_net.
Proof.
  intros k i req resp Hr. simpl in Hr. injection Hr as <-. intros j r Hj. simpl in Hj. unfold stream_of in Hj.
  destruct j as [|j]; simpl in Hj; [|done]. injection Hj as <-. exists 5%Z, 2%Z. split; [reflexivity|]. lia.
Qed.

Ltac quiet := let m := fresh in let E := fresh in intros m E; discriminate E.
Ltac run_with s := eapply rtc_l; [apply run_other; [s|quiet]|simpl].

(** The runs, whatever table is looked at. *)
Section AnyTable.
Context {row : Type} (rows : list Transaction -> outcome (list row)) (commit : list row).
Hypothesis Hcommit : rows (pb_transactions item_message) = Ret commit.
Abbreviation item_run_step := (run_step (db := unit) rows EmptyString ex_worker 1 (fun _ => 100%Z) item_net).

Lemma items_to_busy log :
  rtc item_run_step (start_pipeline 5 item_fetcher 2 0 (ex_table : pg_state), log) (items_busy, log ++ commit).
Proof.
  unfold start_pipeline. simpl.
  run_with ltac:(eapply step_fetch_end; reflexivity).
  run_with ltac:(eapply step_send; [reflexivity..|simpl; unfold BUFFER_SIZE; lia]).
  run_with ltac:(eapply step_receive with (ts1 := []); reflexivity).
  eapply rtc_l; [|apply rtc_refl].
  eapply (run_commit _ _ _ _ _ _ _ _ [] [Idle] item_message commit commit); [reflexivity..|exact Hcommit|auto].
Qed.

Lemma items_to_whole log :
  (forall r, r ∈ commit -> r ∈ log) -> rtc item_run_step (items_busy, log) (items_whole, log).
Proof.
  intros Hlog. unfold items_busy.
  eapply rtc_l; [apply run_other;
    [eapply step_process with (ts1 := []) (ts2 := [Idle]) (d := tt) (d' := tt) (r := batch 5 6);
       [reflexivity..|exists (Ret (Ok (batch 5 6))); split; reflexivity]|]|simpl].
  { intros m E. injection E as <-. right. exists commit. split; [exact Hcommit|exact Hlog]. }
  run_with ltac:(eapply step_report with (ts1 := []) (ts2 := [Idle]); [reflexivity..|simpl; unfold BUFFER_SIZE; lia]).
  run_with ltac:(eapply step_track with (now := 2000000000%Z) (after := 2000000000%Z); reflexivity).
  run_with ltac:(eapply step_drained; reflexivity).
  run_with ltac:(eapply step_exit with (ts1 := []); reflexivity).
  run_with ltac:(eapply step_exit with (ts1 := [Exited]); reflexivity).
  apply rtc_refl.
Qed.

Lemma items_completed :
  completed (PgTable0 := status_mem) (db := unit) rows EmptyString ex_worker 1 (fun _ => 100%Z) item_ledger 6
    ex_table ex_table commit (commit ++ commit) item_net 5 5 items_whole.
Proof.
  repeat split.
  - apply (indexed_run (PgTable0 := status_mem) (db := unit) _ _ _ _ _ _ _ ex_table ex_table [] item_net 5 items_busy commit).
    + apply indexed_new.
    + exact item_serves.
    + reflexivity.
    + exists item_fetcher, 2, 0%Z. split; [reflexivity|exact (items_to_busy [])].
  - exact item_serves.
  - exists item_fetcher, 2, 0%Z. split; [reflexivity|]. etrans; [exact (items_to_busy commit)|].
    apply items_to_whole. intros r Hr. apply elem_of_app. by left.
  - repeat constructor.
Qed.
End AnyTable.

Definition item_commit : list CurrentTableItem := ret_or [] (item_rows (pb_transactions item_message)).
Lemma item_commit_rows : item_rows (pb_transactions item_message) = Ret item_commit.
Proof. apply ret_or_eq. vm_compute. reflexivity. Qed.
End ConcreteRuns.
