(* ===== verification/EndToEndNames.v ===== *)
(** * The tables of the names in the end-to-end theorem

    The four current tables of the name processor are implementations of
    [BatchTable]: what a transaction adds does not depend on the transactions
    before it. *)
From S2P Require Import Prelude RustStr Json Externals Proto Util Database Processors.
From S2P Require Import DefaultModels TokenResources Ans AnsLaws EndToEnd EndToEndTables.

Section Names.
Context `{Chrono, BigDec, JsonParse, ProtoJson, HashOrder}.
Context `{!AnsCodec}.
Variable config : AnsProcessorConfig.

(** ** A step adds the same rows to every state *)

Definition grows (s1 s2 s1' s2' : AnsState) : Prop := exists rows, ans_log s1 rows s1' /\ ans_log s2 rows s2'.
Lemma grows_refl s1 s2 : grows s1 s2 s1 s2.
Proof. exists []. split; apply ans_log_refl. Qed.
Lemma grows_trans s1 s2 s1' s2' s1'' s2'' : grows s1 s2 s1' s2' -> grows s1' s2' s1'' s2'' -> grows s1 s2 s1'' s2''.
Proof. intros (l & A & B) (l' & A' & B'). exists (l ++ l'). split; by eapply ans_log_trans. Qed.

(** A step that succeeds from one state succeeds from every other. *)
Definition uniform {A} (f : AnsState -> A -> outcome AnsState) : Prop :=
  forall s1 s2 x s1', f s1 x = Ret s1' -> exists s2', f s2 x = Ret s2' /\ grows s1 s2 s1' s2'.
Lemma foldM_uniform {A} (f : AnsState -> A -> outcome AnsState) l s1 s2 s1' :
  uniform f -> foldM f s1 l = Ret s1' -> exists s2', foldM f s2 l = Ret s2' /\ grows s1 s2 s1' s2'.
Proof.
  intros Hf. revert s1 s2. induction l as [|x l IH]; intros s1 s2; simpl.
  - intros [= <-]. exists s2. split; [done|apply grows_refl].
  - intros (s & Hs & Hl)%bind_Ret. destruct (Hf s1 s2 x s Hs) as (s' & -> & Hg). simpl.
    destruct (IH s s' Hl) as (s2' & -> & Hg'). exists s2'. split; [done|by eapply grows_trans].
Qed.

Lemma event_uniform v s1 s2 re x s1' re' :
  ans_event_step config v (s1, re) x = Ret (s1', re') ->
  exists s2', ans_event_step config v (s2, re) x = Ret (s2', re') /\ grows s1 s2 s1' s2'.
Proof.
  destruct x as [i ev]. simpl. intros (r1 & Hr1 & Hs)%bind_Ret. rewrite Hr1. simpl.
  apply bind_Ret in Hs as (rn & Hrn & Hs). rewrite Hrn. simpl. apply bind_Ret in Hs as (r2 & Hr & Hs). rewrite Hr. simpl.
  apply bind_Ret in Hs as (p & Hp & Hs). rewrite Hp. simpl. apply unwrap_result_Ret in Hp as ->. injection Hs as <- <-.
  eexists. split; [reflexivity|]. apply parse_primary_v2_at in Hr as (q & -> & _).
  eexists. split; apply push_primary_v2_log.
Qed.
Lemma events_uniform v l s1 s2 re s1' re' :
  foldM (ans_event_step config v) (s1, re) l = Ret (s1', re') ->
  exists s2', foldM (ans_event_step config v) (s2, re) l = Ret (s2', re') /\ grows s1 s2 s1' s2'.
Proof.
  revert s1 s2 re. induction l as [|x l IH]; intros s1 s2 re.
  - intros Hs. injection Hs as <- <-. exists s2. split; [reflexivity|apply grows_refl].
  - intros ([s re1] & Hs & Hl)%bind_Ret. destruct (event_uniform v s1 s2 re x s re1 Hs) as (s' & Hs' & Hg).
    destruct (IH s s' re1 Hl) as (s2' & Hl' & Hg'). exists s2'. split; [|by eapply grows_trans].
    cbn [foldM]. rewrite Hs'. exact Hl'.
Qed.

(** Rows of the first contract, which come in pairs. *)
Lemma push_v1_grows s1 s2 v i lk pr :
  lookup_at v i lk -> primary_at v i pr ->
  grows s1 s2
    (from_option (push_primary_v1 (from_option (push_lookup_v1 s1) s1 lk)) (from_option (push_lookup_v1 s1) s1 lk) pr)
    (from_option (push_primary_v1 (from_option (push_lookup_v1 s2) s2 lk)) (from_option (push_lookup_v1 s2) s2 lk) pr).
Proof.
  intros (l & -> & _) (p & -> & _). eexists. split; eapply ans_log_trans; apply push_lookup_v1_log || apply push_primary_v1_log.
Qed.
Lemma change_uniform v exts : uniform (ans_change_step config v exts).
Proof.
  intros s1 s2 [i wsc] s1'. simpl. intros (change & -> & Hs)%bind_Ret. simpl.
  destruct change as [| |item| |res|item]; try (injection Hs as <-; eexists; split; [reflexivity|apply grows_refl]).
  - apply bind_Ret in Hs as (r1 & H1' & Hs). apply bind_Ret in Hs as (lk & ->%unwrap_result_Ret & Hs).
    apply bind_Ret in Hs as (r2 & H2' & Hs). apply bind_Ret in Hs as (pr & ->%unwrap_result_Ret & Hs).
    injection Hs as <-. rewrite H1'. simpl. rewrite H2'. eexists. split; [reflexivity|].
    eapply push_v1_grows; [by eapply parse_lookup_delete_at|by eapply parse_primary_delete_at].
  - apply bind_Ret in Hs as (r1 & H1' & Hs). apply bind_Ret in Hs as (lk & ->%unwrap_result_Ret & Hs).
    injection Hs as <-. rewrite H1'. eexists. split; [reflexivity|].
    apply parse_lookup_v2_at in H1' as (l & -> & _). eexists. split; apply push_lookup_v2_log.
  - apply bind_Ret in Hs as (r1 & H1' & Hs). apply bind_Ret in Hs as (lk & ->%unwrap_result_Ret & Hs).
    apply bind_Ret in Hs as (r2 & H2' & Hs). apply bind_Ret in Hs as (pr & ->%unwrap_result_Ret & Hs).
    injection Hs as <-. rewrite H1'. simpl. rewrite H2'. eexists. split; [reflexivity|].
    eapply push_v1_grows; [by eapply parse_lookup_write_at|by eapply parse_primary_write_at].
Qed.
Lemma step_uniform : uniform (ans_step config).
Proof.
  intros s1 s2 t s1' Hs. unfold ans_step in *.
  destruct (t_txn_data t) as [d|]; [|injection Hs as <-; eexists; split; [reflexivity|apply grows_refl]].
  apply bind_Ret in Hs as (info & -> & Hs). simpl.
  destruct d as [| | |user|]; try (injection Hs as <-; eexists; split; [reflexivity|apply grows_refl]).
  apply bind_Ret in Hs as ([st1 renew] & He & Hs). apply bind_Ret in Hs as (exts & Hx & Hs).
  apply (events_uniform _ _ s1 s2) in He as (s & -> & Hg). simpl. rewrite Hx. simpl.
  apply (foldM_uniform _ _ _ s) in Hs as (s2' & -> & Hg'); [|apply change_uniform].
  exists s2'. split; [done|by eapply grows_trans].
Qed.

(** ** The tables *)

Section OneTable.
Context {R row key : Type} `{Countable key} (u : Upsert row key) `{!Lww u}.
Variables (pick : AnsRow -> option R) (cur : R -> row) (history : AnsState -> list R) (out : AnsRows -> list row).
Hypothesis Hhistory : forall st rows st', ans_log st rows st' -> history st' = history st ++ omap pick rows.
Hypothesis Hinit : history ans_init = [].
Hypothesis Hout : forall txns r, parse_ans config txns = Ret r ->
  exists st, foldM (ans_step config) ans_init txns = Ret st /\
    out r ≡ₚ into_values (index_by (up_key u) (cur <$> history st)).
Hypothesis Hver : forall t rows x, ans_txn_log t rows -> x ∈ omap pick rows -> lww_rank (cur x) = as_i64 (t_version t).
Hypothesis Hstatic : forall a b : row, lww_static a = lww_static b.

Definition name_rows (txns : list Transaction) : outcome (list row) :=
  r ← parse_ans config txns; Ret (out r).
Definition name_items (t : Transaction) : outcome (list row) :=
  st ← ans_step config ans_init t; Ret (cur <$> history st).

Lemma name_items_of txns st :
  foldM (ans_step config) ans_init txns = Ret st ->
  exists logs, Forall2 (fun t l => name_items t = Ret l) txns logs /\ cur <$> history st = concat logs.
Proof.
  intros Hf.
  eapply (foldM_log (fun _ => True) (fun s l s' => cur <$> history s' = (cur <$> history s) ++ l)
            (fun t l => name_items t = Ret l)) in Hf as (_ & logs & Hl & Hc); [| | | |done].
  - exists logs. split; [done|]. by rewrite Hc, Hinit.
  - intros s. by rewrite app_nil_r.
  - intros s1 l1 s2 l2 s3 E1 E2. by rewrite E2, E1, app_assoc.
  - intros s t s' _ _ Hs. split; [done|]. destruct (step_uniform s ans_init t s' Hs) as (st' & Hst & rows & Hl & Hl0).
    exists (cur <$> omap pick rows). rewrite (Hhistory _ _ _ Hl), fmap_app. split; [done|].
    unfold name_items. rewrite Hst. simpl. by rewrite (Hhistory _ _ _ Hl0), Hinit.
Qed.
Lemma names_table : BatchTable u name_rows.
Proof.
  apply (last_writes_table u name_rows name_items); [| | |done].
  - intros txns rs (r & Hr & Hrs)%bind_Ret. injection Hrs as <-. apply Hout in Hr as (st & Hst & Hp). rewrite Hp.
    apply name_items_of in Hst as (logs & Hl & Hc). rewrite Hc in Hp |- *.
    split; [apply into_values_NoDup, keyed_index_by|]. exists logs. split; [done|]. intros c.
    rewrite Hp, elem_of_into_values, <- index_by_lookup. split; [|eauto].
    intros [k Hk]. by rewrite (keyed_index_by _ _ _ _ Hk).
  - intros t l (st & Hst & _)%bind_Ret. unfold name_rows, parse_ans. simpl. rewrite Hst. by eexists.
  - intros t l r (st & Hst & Hl)%bind_Ret Hr. injection Hl as <-.
    apply ans_step_log in Hst as (rows & Hl & Ht). rewrite (Hhistory _ _ _ Hl), Hinit in Hr.
    apply list_elem_of_fmap in Hr as (x & -> & Hx). by eapply Hver.
Qed.
End OneTable.

Ltac names_of_batch :=
  let Hr := fresh in let st := fresh "st" in let Hf := fresh in
  intros txns r Hr; pose proof Hr as (st & Hf & [= <-])%bind_Ret; exists st; split; [exact Hf|];
  apply parse_ans_log in Hr as (? & _ & _ & _ & _ & _ & ? & ? & ? & ?); done.
Ltac names_version lem :=
  let Hl := fresh in intros t rows x Hl%lem Hx; destruct Hl as [Hl _]; rewrite Forall_forall in Hl; exact (Hl x Hx).

#[export] Instance current_lookups_table
  : BatchTable insert_current_ans_lookups_query (name_rows rows_current_ans_lookups).
Proof.
  apply (names_table insert_current_ans_lookups_query log_lookup current_of_lookup all_ans_lookups);
    [by intros ? ? ? (? & _)|done|names_of_batch|names_version txn_lookups|done].
Qed.
#[export] Instance current_primary_names_table
  : BatchTable insert_current_ans_primary_names_query (name_rows rows_current_ans_primary_names).
Proof.
  apply (names_table insert_current_ans_primary_names_query log_primary current_of_primary all_ans_primary_names);
    [by intros ? ? ? (_ & ? & _)|done|names_of_batch|names_version txn_primaries|done].
Qed.
#[export] Instance current_lookups_v2_table
  : BatchTable insert_current_ans_lookups_v2_query (name_rows rows_current_ans_lookups_v2).
Proof.
  apply (names_table insert_current_ans_lookups_v2_query log_lookup_v2 current_of_lookup_v2 all_ans_lookups_v2);
    [by intros ? ? ? (_ & _ & ? & _)|done|names_of_batch|names_version txn_lookups_v2|done].
Qed.
#[export] Instance current_primary_names_v2_table
  : BatchTable insert_current_ans_primary_names_v2_query (name_rows rows_current_ans_primary_names_v2).
Proof.
  apply (names_table insert_current_ans_primary_names_v2_query log_primary_v2 current_of_primary_v2 all_ans_primary_names_v2);
    [by intros ? ? ? (_ & _ & _ & ? & _)|done|names_of_batch|names_version txn_primaries_v2|done].
Qed.
End Names.
