(* ===== verification/EndToEndHistory.v ===== *)
(** * History tables of the end-to-end theorem

    Implementations of [HistoryTable]: tables that keep every row.  Those of the
    default, user transaction, account transaction, name and transaction
    metadata processors, and a concrete run. *)
From S2P Require Import Prelude RustStr Json Externals Proto Util Database Processors.
From S2P Require Import GapDetector TransactionFilter MovingAverage Fetcher Worker Pipeline Startup.
From S2P Require Import Signatures UserTransactions DefaultModels DefaultProcessor TokenResources AccountTransactions.
From S2P Require Import Ans AnsLaws TransactionMetadata EndToEnd EndToEndTables EndToEndNames.

(** ** Rows that are collected in a fold *)

Section FoldTable.
Context {S row key : Type} (u : Upsert row key) (key_version : key -> Z).
Variables (step : S -> Transaction -> outcome S) (init : S) (history : S -> list row).
(** A step adds the same rows to every state. *)
Definition appends : Prop :=
  forall s t s', step s t = Ret s' -> exists st, step init t = Ret st /\ history s' = history s ++ history st.
Definition fold_rows (txns : list Transaction) : outcome (list row) :=
  match foldM step init txns with Ret st => Ret (history st) | Panic => Panic end.

Hypothesis Honce : writes_once u.
Hypothesis Hinit : history init = [].
Hypothesis Happends : appends.
Hypothesis Hkeys : forall t st, step init t = Ret st ->
  Forall (fun r => key_version (up_key u r) = as_i64 (t_version t)) (history st) /\ NoDup (up_key u <$> history st).

Lemma fold_rows_one t l : fold_rows [t] = Ret l <-> exists st, step init t = Ret st /\ l = history st.
Proof.
  unfold fold_rows. simpl. destruct (step init t) as [st|]; simpl; split; [|naive_solver|done|naive_solver].
  intros [= <-]. by exists st.
Qed.
Lemma fold_table : HistoryTable u fold_rows key_version.
Proof.
  split; [done|..].
  - intros txns rs Hr. unfold fold_rows in Hr. destruct (foldM step init txns) as [st|] eqn:Hf; [|done]. injection Hr as <-.
    apply (foldM_log (fun _ => True) (fun s l s' => history s' = history s ++ l) (fun t l => fold_rows [t] = Ret l))
      in Hf as (_ & logs & Hl & Hc); [| | | |done].
    + exists logs. split; [done|]. by rewrite Hc, Hinit.
    + intros s. by rewrite app_nil_r.
    + intros s1 l1 s2 l2 s3 E1 E2. by rewrite E2, E1, app_assoc.
    + intros s t s' _ _ Hs. split; [done|]. apply Happends in Hs as (st0 & Hs0 & Hh). exists (history st0).
      split; [done|]. apply fold_rows_one. eauto.
  - intros t ws w (st & Hs & ->)%fold_rows_one Hw. apply Hkeys in Hs as [Hv _]. rewrite Forall_forall in Hv. by apply Hv.
  - intros t ws (st & Hs & ->)%fold_rows_one. by apply (Hkeys t).
Qed.
End FoldTable.

Lemma history_ext {row key} (u : Upsert row key) kv (rows rows' : list Transaction -> outcome (list row)) :
  (forall txns, rows' txns = rows txns) -> HistoryTable u rows kv -> HistoryTable u rows' kv.
Proof.
  intros He [Ho Hr Hv Hk]. split; [done|..].
  - intros txns rs. rewrite He. intros (logs & Hl & Hin)%Hr. exists logs. split; [|done].
    eapply Forall2_impl; [exact Hl|]. intros t l. simpl. by rewrite He.
  - intros t ws w. rewrite He. apply Hv.
  - intros t ws. rewrite He. apply Hk.
Qed.

(** ** The names *)

Section NameHistory.
Context `{Chrono, BigDec, JsonParse, ProtoJson, HashOrder}.
Context `{!AnsCodec}.
Variable config : AnsProcessorConfig.

Definition name_history {row} (out : AnsRows -> list row) (txns : list Transaction) : outcome (list row) :=
  r ← parse_ans config txns; Ret (out r).

Section OneHistory.
Context {row : Type} (u : Upsert row (Z * Z)) (pick : AnsRow -> option row) (history : AnsState -> list row).
Variables (version index : row -> Z) (out : AnsRows -> list row).
Hypothesis Honce : writes_once u.
Hypothesis Hkey : forall r, up_key u r = (version r, index r).
Hypothesis Hhistory : forall st rows st', ans_log st rows st' -> history st' = history st ++ omap pick rows.
Hypothesis Hinit : history ans_init = [].
Hypothesis Hout : forall txns, name_history out txns = fold_rows (ans_step config) ans_init history txns.
Hypothesis Htxn : forall t rows, ans_txn_log t rows ->
  Forall (fun r => version r = as_i64 (t_version t)) (omap pick rows) /\ NoDup (index <$> omap pick rows).

Lemma name_history_table : HistoryTable u (name_history out) fst.
Proof.
  eapply history_ext; [exact Hout|]. apply fold_table; try done.
  - intros s t s' Hs. destruct (step_uniform config s ans_init t s' Hs) as (st & Hst & rows & Hl & Hl0).
    exists st. split; [done|]. by rewrite (Hhistory _ _ _ Hl), (Hhistory _ _ _ Hl0), Hinit.
  - intros t st (rows & Hl & Ht)%ans_step_log. rewrite (Hhistory _ _ _ Hl), Hinit. simpl. apply Htxn in Ht as [Hv Hn].
    split; [eapply Forall_impl; [exact Hv|]; intros r; simpl; by rewrite Hkey|].
    eapply NoDup_fmap_coarser; [exact Hn|]. intros a b _ _. rewrite !Hkey. by intros [= _ ?].
Qed.
End OneHistory.

Ltac parsed_names := let txns := fresh in intros txns; unfold name_history, parse_ans, fold_rows; by destruct (foldM _ _ txns).

#[export] Instance ans_lookups_table : HistoryTable insert_ans_lookups_query (name_history rows_ans_lookups) fst.
Proof.
  apply (name_history_table _ log_lookup all_ans_lookups al_transaction_version al_write_set_change_index);
    [done|done|by intros ? ? ? (? & _)|done|parsed_names|apply txn_lookups].
Qed.
#[export] Instance ans_primary_names_table
  : HistoryTable insert_ans_primary_names_query (name_history rows_ans_primary_names) fst.
Proof.
  apply (name_history_table _ log_primary all_ans_primary_names ap_transaction_version ap_write_set_change_index);
    [done|done|by intros ? ? ? (_ & ? & _)|done|parsed_names|apply txn_primaries].
Qed.
#[export] Instance ans_lookups_v2_table : HistoryTable insert_ans_lookups_v2_query (name_history rows_ans_lookups_v2) fst.
Proof.
  apply (name_history_table _ log_lookup_v2 all_ans_lookups_v2 al2_transaction_version al2_write_set_change_index);
    [by intros []|done|by intros ? ? ? (_ & _ & ? & _)|done|parsed_names|apply txn_lookups_v2].
Qed.
#[export] Instance ans_primary_names_v2_table
  : HistoryTable insert_ans_primary_names_v2_query (name_history rows_ans_primary_names_v2) fst.
Proof.
  apply (name_history_table _ log_primary_v2 all_ans_primary_names_v2 ap2_transaction_version ap2_write_set_change_index);
    [done|done|by intros ? ? ? (_ & _ & _ & ? & _)|done|parsed_names|apply txn_primaries_v2].
Qed.
End NameHistory.

(** ** The default processor *)

Section DefaultHistory.
Context `{Chrono, BigDec, HexCodec, Sha256, ProtoEnums, JsonParse, ProtoJson, HashOrder}.
Context `{!Serialize EntryFunctionPayloadClean, !Serialize ScriptPayloadClean, !Serialize MultisigPayloadClean}.

Definition default_history {row} (out : DefaultRows -> list row) (txns : list Transaction) : outcome (list row) :=
  r ← default_rows txns; Ret (out r).

(** The rows of one transaction, as a state of the fold. *)
Lemma from_transactions_one t st :
  from_transactions_step ([], [], [], []) t = Ret st ->
  let v := as_i64 (t_version t) in
  Forall (fun r => tx_version r = v) st.1.1.1 /\ length st.1.1.1 = 1 /\
  Forall (fun r => bmt_version r = v) st.1.1.2 /\ length st.1.1.2 <= 1 /\
  Forall (fun w => (change_key w).1 = v) st.1.2 /\ NoDup (change_key <$> st.1.2) /\
  Forall (fun d => (detail_key d).1 = v) st.2 /\ NoDup (detail_key <$> st.2).
Proof.
  unfold from_transactions_step. intros ([[[tx bm] wscs] ds] & Ht & [= <-])%bind_Ret. simpl.
  apply from_transaction_keys in Ht as (Hv & Hb & (cs & Hcs) & Hd & _).
  assert (forall k, k ∈ change_key <$> wscs -> k.1 = as_i64 (t_version t)) as Hk.
  { rewrite Hcs. by intros k (i & -> & _)%list_elem_of_fmap. }
  assert (NoDup (change_key <$> wscs)) as Hn.
  { rewrite Hcs. apply NoDup_fmap_2; [by intros ?? [=]|apply NoDup_enumerate_from]. }
  split_and!; try (by rewrite ?Hd); try done.
  - by apply Forall_singleton.
  - destruct bm; [by apply Forall_singleton|constructor].
  - destruct bm; simpl; lia.
  - apply Forall_forall. intros w Hw. apply (Hk (change_key w)). by apply list_elem_of_fmap_2.
  - apply Forall_forall. intros d Hdd. apply Hk. rewrite <- Hd. by apply list_elem_of_fmap_2.
Qed.
Lemma short_NoDup {A B} (f : A -> B) (l : list A) : length l <= 1 -> NoDup (f <$> l).
Proof. destruct l as [|a [|]]; simpl; intros Hl; [constructor|apply NoDup_singleton|lia]. Qed.

Section OneDefault.
Context {row key : Type} (u : Upsert row key) (kv : key -> Z) (history : TransactionRows -> list row).
Variable out : DefaultRows -> list row.
Hypothesis Honce : writes_once u.
Hypothesis Hinit : history ([], [], [], []) = [].
Hypothesis Happ : forall a b c d a' b' c' d',
  history (a ++ a', b ++ b', c ++ c', d ++ d') = history (a, b, c, d) ++ history (a', b', c', d').
Hypothesis Hout : forall txns, default_history out txns = fold_rows from_transactions_step ([], [], [], []) history txns.
Hypothesis Hkeys : forall t st, from_transactions_step ([], [], [], []) t = Ret st ->
  Forall (fun r => kv (up_key u r) = as_i64 (t_version t)) (history st) /\ NoDup (up_key u <$> history st).
Lemma default_history_table : HistoryTable u (default_history out) kv.
Proof.
  eapply history_ext; [exact Hout|]. apply fold_table; try done.
  intros [[[a b] c] d] t s'. unfold from_transactions_step. intros ([[[tx bm] wscs] ds] & -> & [= <-])%bind_Ret.
  eexists. split; [reflexivity|]. apply Happ.
Qed.
End OneDefault.

(** Rows picked from the details of the changes. *)
Lemma detail_keys {A} (pick : WriteSetChangeDetail -> option A) (key : A -> Z * Z) v ds :
  (forall d x, pick d = Some x -> key x = detail_key d) ->
  Forall (fun d => (detail_key d).1 = v) ds -> NoDup (detail_key <$> ds) ->
  Forall (fun x => (key x).1 = v) (omap pick ds) /\ NoDup (key <$> omap pick ds).
Proof.
  intros Hp Hv Hn. split; [|by eapply omap_keys_NoDup]. apply Forall_forall.
  intros x (d & Hd & Hx)%list_elem_of_omap. rewrite (Hp d x Hx). rewrite Forall_forall in Hv. by apply Hv.
Qed.
Ltac collected_rows :=
  let txns := fresh in let a := fresh in let b := fresh in let c := fresh in let d := fresh in
  intros txns; unfold default_history, fold_rows, default_rows, from_transactions;
  destruct (foldM from_transactions_step _ txns) as [[[[a b] c] d]|]; [simpl|done];
  fold empty_tables; by rewrite ?add_details_spec.

#[export] Instance transactions_table : HistoryTable insert_transactions_query (default_history rows_transactions) id.
Proof.
  apply (default_history_table _ _ (fun st => st.1.1.1)); [by intros []|done..|collected_rows|].
  intros t st (Hv & Hl & _)%from_transactions_one. split; [exact Hv|apply short_NoDup; lia].
Qed.
#[export] Instance block_metadata_table
  : HistoryTable insert_block_metadata_transactions_query (default_history rows_block_metadata) id.
Proof.
  apply (default_history_table _ _ (fun st => st.1.1.2)); [done..|collected_rows|].
  intros t st (_ & _ & Hv & Hl & _)%from_transactions_one. split; [exact Hv|by apply short_NoDup].
Qed.
#[export] Instance write_set_changes_table
  : HistoryTable insert_write_set_changes_query (default_history rows_write_set_changes) fst.
Proof.
  apply (default_history_table _ _ (fun st => st.1.2)); [done..|collected_rows|].
  by intros t st (_ & _ & _ & _ & Hv & Hn & _)%from_transactions_one.
Qed.
#[export] Instance move_modules_table : HistoryTable insert_move_modules_query (default_history rows_move_modules) fst.
Proof.
  apply (default_history_table _ _ (fun st => omap detail_module st.2)); [done..|by intros; apply omap_app|collected_rows|].
  intros t st (_ & _ & _ & _ & _ & _ & Hv & Hn)%from_transactions_one. apply detail_keys; [by intros [] ? [= <-]|done..].
Qed.
#[export] Instance move_resources_table : HistoryTable insert_move_resources_query (default_history rows_move_resources) fst.
Proof.
  apply (default_history_table _ _ (fun st => omap detail_resource st.2)); [done..|by intros; apply omap_app|collected_rows|].
  intros t st (_ & _ & _ & _ & _ & _ & Hv & Hn)%from_transactions_one. apply detail_keys; [by intros [] ? [= <-]|done..].
Qed.
#[export] Instance table_items_table : HistoryTable insert_table_items_query (default_history rows_table_items) fst.
Proof.
  apply (default_history_table _ _ (fun st => omap detail_item st.2)); [done..|by intros; apply omap_app|collected_rows|].
  intros t st (_ & _ & _ & _ & _ & _ & Hv & Hn)%from_transactions_one. apply detail_keys; [by intros [] ? [= <-]|done..].
Qed.
End DefaultHistory.

(** ** User transactions and their signatures *)

Section UserHistory.
Context `{Chrono, BigDec, HexCodec, ProtoEnums}.

Definition user_history {row} (out : list UserTransaction * list Signature -> list row) (txns : list Transaction)
  : outcome (list row) := r ← user_transaction_rows txns; Ret (out r).
Lemma user_step_one t st :
  user_transaction_step ([], []) t = Ret st ->
  Forall (fun r => ut_version r = as_i64 (t_version t)) st.1 /\ length st.1 <= 1 /\
  Forall (fun r => sig_transaction_version r = as_i64 (t_version t)) st.2 /\ NoDup (signature_key <$> st.2).
Proof.
  unfold user_transaction_step. destruct (t_txn_data t) as [[| | |u|]|];
    try (intros [= <-]; simpl; split_and!; [constructor|lia|constructor|constructor]).
  intros (ts & _ & ([ut sigs] & Hf & [= <-])%bind_Ret)%bind_Ret.
  apply from_transaction_rows in Hf as (Hu & Hn & Hv). simpl. split_and!; [by apply Forall_singleton|lia|done|done].
Qed.
Lemma user_step_appends s t s' :
  user_transaction_step s t = Ret s' ->
  exists st, user_transaction_step ([], []) t = Ret st /\ s'.1 = s.1 ++ st.1 /\ s'.2 = s.2 ++ st.2.
Proof.
  destruct s as [uts sigs]. unfold user_transaction_step. destruct (t_txn_data t) as [[| | |u|]|];
    try (intros [= <-]; eexists; split; [reflexivity|]; simpl; by rewrite !app_nil_r).
  intros (ts & -> & ([ut sg] & Hf & [= <-])%bind_Ret)%bind_Ret. simpl. rewrite Hf. by eexists.
Qed.
#[export] Instance user_transactions_table : HistoryTable insert_user_transactions_query (user_history fst) id.
Proof.
  eapply history_ext; [|apply (fold_table _ _ user_transaction_step ([], []) fst)].
  - intros txns. unfold user_history, user_transaction_rows, fold_rows. by destruct (foldM _ _ txns).
  - by intros [].
  - done.
  - intros s t s' (st & Hst & Hu & _)%user_step_appends. by exists st.
  - intros t st (Hv & Hl & _)%user_step_one. split; [exact Hv|by apply short_NoDup].
Qed.
#[export] Instance signatures_table : HistoryTable insert_signatures_query (user_history snd) (fun k => k.1.1.1).
Proof.
  eapply history_ext; [|apply (fold_table _ _ user_transaction_step ([], []) snd)].
  - intros txns. unfold user_history, user_transaction_rows, fold_rows. by destruct (foldM _ _ txns).
  - done.
  - done.
  - intros s t s' (st & Hst & _ & Hs)%user_step_appends. by exists st.
  - by intros t st (_ & _ & Hv & Hn)%user_step_one.
Qed.
End UserHistory.

(** ** The accounts of the transactions *)

Section AccountHistory.
Context `{Chrono, BigDec, HexCodec, ProtoEnums, JsonParse, ProtoJson, HashOrder}.
Context `{!TokenCodec}.

#[export] Instance account_transactions_table
  : HistoryTable insert_account_transactions_query account_transaction_rows fst.
Proof.
  split; [done|..].
  - intros txns rs Hr. pose proof Hr as (Hin & _)%account_rows_exact.
    assert (forall t, t ∈ txns -> exists l, account_transaction_rows [t] = Ret l) as Hone.
    { intros t Ht. apply bind_Ret in Hr as (m & Hm & _). clear Hin. revert Hm. generalize (∅ : gmap (string * Z) AccountTransaction) as m0.
      induction txns as [|t' txns IH]; intros m0; [by apply elem_of_nil in Ht|].
      intros (m1 & (m' & Hm' & _)%bind_Ret & Hm)%bind_Ret. apply elem_of_cons in Ht as [->|Ht]; [|by eapply IH].
      unfold account_transaction_rows. simpl. unfold accounts_step. rewrite Hm'. by eexists. }
    set (one t := ret_or [] (account_transaction_rows [t])).
    assert (forall t, t ∈ txns -> account_transaction_rows [t] = Ret (one t)) as Hall.
    { intros t Ht. destruct (Hone t Ht) as [l Hl]. unfold one. by rewrite Hl. }
    exists (one <$> txns). split.
    { apply Forall2_fmap_r, Forall_Forall2_diag, Forall_forall. exact Hall. }
    intros r. rewrite Hin, elem_of_concat. split.
    + intros (t & Ht & Hr'). exists (one t). split; [by apply list_elem_of_fmap_2|].
      apply (proj1 (account_rows_exact _ _ (Hall t Ht))). exists t. split; [by left|done].
    + intros (l & (t & -> & Ht)%list_elem_of_fmap & Hl).
      apply (proj1 (account_rows_exact _ _ (Hall t Ht))) in Hl as (t' & ->%list_elem_of_singleton & Hr'). by exists t.
  - intros t ws w (Hin & _)%account_rows_exact (t' & ->%list_elem_of_singleton & Hv & _)%Hin. exact Hv.
  - intros t ws (_ & _ & Hn & _)%account_rows_exact. exact Hn.
Qed.
End AccountHistory.

(** ** The sizes *)

Definition size_history {row} (out : SizeRows -> list row) (txns : list Transaction) : outcome (list row) :=
  Ret (out (size_rows txns)).
Lemma size_history_table {row key} (u : Upsert row key) kv out (items : Transaction -> list row) :
  writes_once u -> (forall txns, out (size_rows txns) = concat (items <$> txns)) ->
  (forall t, Forall (fun r => kv (up_key u r) = as_i64 (t_version t)) (items t) /\ NoDup (up_key u <$> items t)) ->
  HistoryTable u (size_history out) kv.
Proof.
  intros Ho Hout Hkeys. assert (forall t, size_history out [t] = Ret (items t)) as Hone.
  { intros t. unfold size_history. rewrite Hout. simpl. by rewrite app_nil_r. }
  split; [done|..].
  - intros txns rs [= <-]. exists (items <$> txns). split; [|by rewrite Hout].
    apply Forall2_fmap_r, Forall_Forall2_diag, Forall_true. intros t. apply Hone.
  - intros t ws w. rewrite Hone. intros [= <-] Hw. destruct (Hkeys t) as [Hv _]. rewrite Forall_forall in Hv. by apply Hv.
  - intros t ws. rewrite Hone. intros [= <-]. apply Hkeys.
Qed.
Lemma indexed_rows_keys {A row key} (f : Z * A -> row) (key_of : row -> key) (index : key -> Z) (l : list A) :
  (forall ix, index (key_of (f ix)) = ix.1) -> NoDup (key_of <$> (f <$> enumerate l)).
Proof.
  intros Hf. eapply NoDup_fmap_coarser; [apply (enumerate_rows_NoDup f (fun r => index (key_of r))); exact Hf|].
  intros a b _ _ E. simpl in *. by rewrite E.
Qed.
#[export] Instance transaction_sizes_table : HistoryTable insert_transaction_sizes_query (size_history transaction_sizes) id.
Proof.
  apply (size_history_table _ _ _ txn_transaction_sizes); [done|by intros; rewrite size_rows_flat|].
  intros t. unfold txn_transaction_sizes. destruct (t_size_info t); simpl; (split; [by repeat constructor|]);
    [apply NoDup_singleton|constructor].
Qed.
#[export] Instance event_sizes_table : HistoryTable insert_event_sizes_query (size_history event_sizes) fst.
Proof.
  apply (size_history_table _ _ _ txn_event_sizes); [done|by intros; rewrite size_rows_flat|]. intros t.
  split; [by apply Forall_fmap, Forall_true|]. by apply (indexed_rows_keys _ _ snd).
Qed.
#[export] Instance write_set_sizes_table : HistoryTable insert_write_set_sizes_query (size_history write_set_sizes) fst.
Proof.
  apply (size_history_table _ _ _ txn_write_set_sizes); [done|by intros; rewrite size_rows_flat|]. intros t.
  split; [by apply Forall_fmap, Forall_true|]. by apply (indexed_rows_keys _ _ snd).
Qed.

(** ** A concrete pair of runs

    The write-set changes of the runs of [EndToEndTables]: the batch is committed
    twice, and each change is stored once. *)

Section ConcreteHistory.
#[local] Existing Instance pair_chrono.
#[local] Existing Instance slice_crates.
#[local] Existing Instance slice_crates_laws.
#[local] Existing Instance int_bigdec.
#[local] Existing Instance plain_hex.
#[local] Existing Instance plain_sha.
#[local] Existing Instance published_enums.
#[local] Existing Instance text_json.
#[local] Existing Instance text_proto_json.
#[local] Existing Instance no_entry_json.
#[local] Existing Instance no_script_json.
#[local] Existing Instance no_multisig_json.
#[local] Existing Instance map_order.
#[local] Existing Instance status_mem.
#[local] Existing Instance status_mem_laws.
#[local] Existing Instance status_debug.
#[local] Existing Instance ok_processor.
#[local] Existing Instance ok_processor_laws.

Definition change_rows_of : list Transaction -> outcome (list WriteSetChange) := default_history rows_write_set_changes.
Definition change_commit : list WriteSetChange := ret_or [] (change_rows_of (pb_transactions item_message)).
Lemma change_commit_rows : change_rows_of (pb_transactions item_message) = Ret change_commit.
Proof. apply ret_or_eq. vm_compute. reflexivity. Qed.

Example two_changes : change_key <$> change_commit = [(5%Z, 0%Z); (6%Z, 0%Z)].
Proof. vm_compute. reflexivity. Qed.
End ConcreteHistory.
