(* ===== verification/EndToEndAll.v ===== *)
(** * The tables of the processors, end to end

    The tables of newest rows and of histories for which the runs of the whole
    indexer are compared with the specification, and the comparison for each of
    them. *)
From S2P Require Import Prelude RustStr Json Externals Proto Util Database SharedTable Processors.
From S2P Require Import GapDetector TransactionFilter MovingAverage Fetcher Worker Pipeline Startup.
From S2P Require Import Signatures UserTransactions DefaultModels DefaultProcessor TokenResources AccountTransactions Stake StakeLaws Ans AnsLaws TransactionMetadata.
From S2P Require Import EndToEnd EndToEndTables EndToEndNames EndToEndHistory.

(** ** The tables *)

(** A statement together with the part of its processor that computes its rows. *)
Inductive NewestTable :=
| newest_table {row key : Type} `{Countable key} (u : Upsert row key) `{!Lww u}
    (rows : list Transaction -> outcome (list row)) `{!BatchTable u rows}.
Inductive AllRowsTable :=
| all_rows_table {row key : Type} `{Countable key} (u : Upsert row key)
    (rows : list Transaction -> outcome (list row)) (key_version : key -> Z) `{!HistoryTable u rows key_version}.

Section Tables.
Context `{Chrono, BigDec, HexCodec, Sha256, ProtoEnums, JsonParse, ProtoJson, HashOrder}.
Context `{!Serialize EntryFunctionPayloadClean, !Serialize ScriptPayloadClean, !Serialize MultisigPayloadClean}.
Context `{!AnsCodec, !StakeCodec, !TokenCodec}.
Variable config : AnsProcessorConfig.

(** The current table items; the voters and balances of the staking pools; the
    current names of both contracts. *)
Definition newest_tables : list NewestTable :=
  [newest_table insert_current_table_items_query item_rows;
   newest_table insert_current_stake_pool_voter_query (merged_rows pool_voter_map);
   newest_table insert_current_delegator_pool_balances_query (merged_rows pool_balance_map);
   newest_table insert_current_ans_lookups_query (name_rows config rows_current_ans_lookups);
   newest_table insert_current_ans_primary_names_query (name_rows config rows_current_ans_primary_names);
   newest_table insert_current_ans_lookups_v2_query (name_rows config rows_current_ans_lookups_v2);
   newest_table insert_current_ans_primary_names_v2_query (name_rows config rows_current_ans_primary_names_v2)].

(** The histories of the default processor, of the user transactions, of the
    accounts, of the names and of the sizes. *)
Definition all_rows_tables : list AllRowsTable :=
  [all_rows_table insert_transactions_query (default_history rows_transactions) id;
   all_rows_table insert_block_metadata_transactions_query (default_history rows_block_metadata) id;
   all_rows_table insert_write_set_changes_query (default_history rows_write_set_changes) fst;
   all_rows_table insert_move_modules_query (default_history rows_move_modules) fst;
   all_rows_table insert_move_resources_query (default_history rows_move_resources) fst;
   all_rows_table insert_table_items_query (default_history rows_table_items) fst;
   all_rows_table insert_user_transactions_query (user_history fst) id;
   all_rows_table insert_signatures_query (user_history snd) (fun k => k.1.1.1);
   all_rows_table insert_account_transactions_query account_transaction_rows fst;
   all_rows_table insert_ans_lookups_query (name_history config rows_ans_lookups) fst;
   all_rows_table insert_ans_primary_names_query (name_history config rows_ans_primary_names) fst;
   all_rows_table insert_ans_lookups_v2_query (name_history config rows_ans_lookups_v2) fst;
   all_rows_table insert_ans_primary_names_v2_query (name_history config rows_ans_primary_names_v2) fst;
   all_rows_table insert_transaction_sizes_query (size_history transaction_sizes) id;
   all_rows_table insert_event_sizes_query (size_history event_sizes) fst;
   all_rows_table insert_write_set_sizes_query (size_history write_set_sizes) fst].

(** ** Refinement *)

Context `{GrpcCrates}.
Context `{!PgTable ProcessorStatus string, !DebugQuery ProcessorStatus string, !PgLaws ProcessorStatus string}.
Context {db : Type} `{ProcessorTrait db}.
Context `{!GrpcCratesLaws, !ProcessorLaws db}.
Variables (auth_token : string) (w : Worker) (chain_id : Z) (encoded_len : TransactionsResponse -> Z).
Variables (ledger : Z -> Transaction) (last_version : Z).

(** What complete runs leave in a table, against the specification. *)
Definition refines {row key} `{Countable key} (u : Upsert row key) (rows : list Transaction -> outcome (list row)) : Prop :=
  forall s0 s log log' net sv0 sv p,
    completed (db := db) rows auth_token w chain_id encoded_len ledger last_version s0 s log log' net sv0 sv p ->
    upsert_rows u ∅ log' = sequential rows w ledger u sv0 (last_version + 1).

Hypothesis Hledger : forall v, t_version (ledger v) = v.
Hypothesis Hlast : (last_version < 9223372036854775807)%Z.
Hypothesis Hstart : worker_starting_version w = None.

(** C1: the indexer refines an indexer that takes one transaction at a time.
    Let the streams serve an ordered ledger in responses below the chunk size, so
    that none is split, and let the process be started, without a configured
    starting version, any number of times on one database: with any number of
    tasks, with any interleaving of the statements of the batches, ended by a crash
    or otherwise at any moment.  The rows are committed as they are, which they are
    when none needs cleaning and no printed query hides the condition of its
    statement.  When a last run has reached the last version and all its tasks have
    exited, the current table items, the voters and balances of staking pools and
    the four tables of current names, empty at the beginning, hold exactly what
    processing the transactions one after another from the first starting version
    would have left in them. *)
Theorem indexer_refines_sequential :
  Forall (fun s => match s with newest_table u rows => refines u rows end) newest_tables.
Proof.
  apply Forall_forall. intros [row key ? ? u ? rows ?] _ s0 s log log' net sv0 sv p. by eapply (newest_refines u rows).
Qed.

(** C2: the history tables refine the same specification.  Under the same
    conditions, however often the process is stopped and started again and however
    its statements interleave, each of the sixteen tables that keep every row, those
    of the default processor, of the user transactions and their signatures, of the
    accounts, of the names and of the sizes, holds in the end exactly the rows that
    processing the transactions one after another would have written: none is
    missing, and none is there twice or in another form. *)
Theorem history_refines_sequential :
  Forall (fun s => match s with all_rows_table u rows _ => refines u rows end) all_rows_tables.
Proof.
  apply Forall_forall. intros [row key ? ? u rows kv ?] _ s0 s log log' net sv0 sv p. by eapply (history_refines u rows).
Qed.
End Tables.

(** ** A concrete pair of runs

    The runs of [EndToEndTables]: the batch is committed twice, the newest item is
    kept and each change is stored once. *)

Section ConcreteAll.
#[local] Existing Instance pair_chrono.
#[local] Existing Instance slice_crates.
#[local] Existing Instance slice_crates_laws.
#[local] Existing Instance int_bigdec.
#[local] Existing Instance plain_hex.
#[local] Existing Instance plain_sha.
#[local] Existing Instance published_enums.
#[local] Existing Instance text_json.
#[local] Existing Instance text_proto_json.
#[local] Existing Instance no_entry_json.
#[local] Existing Instance no_script_json.
#[local] Existing Instance no_multisig_json.
#[local] Existing Instance map_order.
#[local] Existing Instance status_mem.
#[local] Existing Instance status_mem_laws.
#[local] Existing Instance status_debug.
#[local] Existing Instance ok_processor.
#[local] Existing Instance ok_processor_laws.

#[local] Existing Instance ans_text_codec.
#[local] Existing Instance stake_text_codec.
#[local] Existing Instance owner_codec.

Lemma indexer_refines_sequential_witness :
  upsert_rows insert_current_table_items_query ∅ (item_commit ++ item_commit) =
  sequential item_rows ex_worker item_ledger insert_current_table_items_query 5 7.
Proof.
  pose proof (indexer_refines_sequential ex_ans_config (PgTable0 := status_mem) (db := unit) EmptyString ex_worker 1
    (fun _ => 100%Z) item_ledger 6 (fun v => eq_refl) eq_refl eq_refl) as Hall.
  exact (Forall_inv Hall ex_table ex_table item_commit (item_commit ++ item_commit) item_net 5%Z 5%Z items_whole
    (items_completed item_rows item_commit item_commit_rows)).
Defined.

Lemma history_refines_sequential_witness :
  upsert_rows insert_write_set_changes_query ∅ (change_commit ++ change_commit) =
  sequential change_rows_of ex_worker item_ledger insert_write_set_changes_query 5 7.
Proof.
  pose proof (history_refines_sequential ex_ans_config (PgTable0 := status_mem) (db := unit) EmptyString ex_worker 1
    (fun _ => 100%Z) item_ledger 6 (fun v => eq_refl) eq_refl eq_refl) as Hall.
  exact (Forall_inv (Forall_inv_tail (Forall_inv_tail Hall)) ex_table ex_table change_commit (change_commit ++ change_commit)
    item_net 5%Z 5%Z items_whole (items_completed change_rows_of change_commit change_commit_rows)).
Defined.
End ConcreteAll.
