(* ===== verification/Serde.v ===== *)
(** * Derived serialization

    What the derive macros of serde generate for a struct, as functions of the
    list of its fields, over [serde_json::Value].  Reading a text goes through the
    tree of its entries ([JsonText]), in which a key may occur twice.  The texts of
    decimals and date-times are those of their crates. *)
From Stdlib Require Import Ascii.
From S2P Require Import Prelude RustStr Json Externals Util.

(** ** Texts and trees *)

(** The grammar of JSON, [None] for an error; the entries of an object as they
    are written. *)
Class JsonText := json_tree : string -> option Value.

(** Collecting the entries of an object in a [serde_json::Map]. *)
Definition merge_entries (o : list (string * Value)) : list (string * Value) :=
  foldl (fun acc kv => assoc_insert kv.1 kv.2 acc) [] o.
Fixpoint merged (v : Value) : Value :=
  match v with
  | Array l => Array (map merged l)
  | Object o => Object (merge_entries (map (fun kv => (kv.1, merged kv.2)) o))
  | _ => v
  end.

(** Every object of a [Value] has distinct keys. *)
Fixpoint distinct (v : Value) : bool :=
  match v with
  | Array l => forallb distinct l
  | Object o => bool_decide (NoDup o.*1) && forallb (fun kv => distinct kv.2) o
  | _ => true
  end.

(** ** Codecs

    [Serialize] and [Deserialize] of a type; [de_missing] is what a struct gets
    for a field that is not there, an error except for an [Option]. *)
Record Codec (T : Type) := {
  ser : T -> Value;
  de : Value -> option T;
  de_missing : option T;
}.
Arguments ser {T} _ _.
Arguments de {T} _ _.
Arguments de_missing {T} _.

Definition int_between (lo hi : Z) : Codec Z :=
  {| ser := fun z => Number (JInt z);
     de := fun v => match v with
                    | Number (JInt z) => if decide (lo <= z <= hi)%Z then Some z else None
                    | _ => None
                    end;
     de_missing := None |}.
Definition i64 : Codec Z := int_between (-9223372036854775808) 9223372036854775807.
Definition i32 : Codec Z := int_between (-2147483648) 2147483647.
Definition u64 : Codec Z := int_between 0 18446744073709551615.
Definition u8 : Codec Z := int_between 0 255.
Definition boolean : Codec bool :=
  {| ser := Bool; de := fun v => match v with Bool b => Some b | _ => None end; de_missing := None |}.
Definition text : Codec string := {| ser := Str; de := as_str; de_missing := None |}.
Definition json : Codec Value := {| ser := id; de := fun v => Some (merged v); de_missing := None |}.
Definition optional {T} (c : Codec T) : Codec (option T) :=
  {| ser := from_option (ser c) Null;
     de := fun v => match v with Null => Some None | _ => Some <$> de c v end;
     de_missing := Some None |}.
Definition vec {T} (c : Codec T) : Codec (list T) :=
  {| ser := fun l => Array (ser c <$> l);
     de := fun v => l ← as_array v; mapM (de c) l;
     de_missing := None |}.

(** A [Vec<u8>] is an array of numbers. *)
Definition byte_vec : Codec bytes :=
  {| ser := fun s => Array ((fun c => Number (JInt (Z.of_N (N_of_ascii c)))) <$> String.list_ascii_of_string s);
     de := fun v =>
       l ← as_array v; ns ← mapM (de u8) l;
       Some (String.string_of_list_ascii ((fun n => ascii_of_N (Z.to_N n)) <$> ns));
     de_missing := None |}.

(** A tuple struct of one field is that field. *)
Definition newtype {A B} (wrap : A -> B) (unwrap : B -> A) (c : Codec A) : Codec B :=
  {| ser := fun b => ser c (unwrap b); de := fun v => wrap <$> de c v; de_missing := None |}.

(** [chrono] and [bigdecimal] with the feature [serde]: a date-time is read
    from a text, a decimal from a text or a number. *)
Class SerdeCrates `{Chrono, BigDec} := {
  date_to_text : NaiveDateTime -> string;
  date_from_text : string -> option NaiveDateTime;
  bd_from_number : JsonNumber -> option BigDecimal;
}.
Definition date_time `{SerdeCrates} : Codec NaiveDateTime :=
  {| ser := fun d => Str (date_to_text d); de := fun v => s ← as_str v; date_from_text s; de_missing := None |}.
Definition big_decimal `{SerdeCrates} : Codec BigDecimal :=
  {| ser := fun b => Str (bd_to_string b);
     de := fun v => match v with Str s => bd_parse s | Number n => bd_from_number n | _ => None end;
     de_missing := None |}.

(** *** [deserialize_with]

    The attribute replaces the reader of the field, and with it the treatment
    of a missing one. *)
Definition read_with {T} (c : Codec T) (f : Value -> option T) : Codec T :=
  {| ser := ser c; de := f; de_missing := None |}.

(** [FromStr] of the integers. *)
Definition parse_unsigned (hi : Z) (s : string) : option Z :=
  let s := default s (strip_prefix "+" s) in
  z ← int_parse s; if decide (z <= hi)%Z then Some z else None.
Definition parse_signed (lo hi : Z) (s : string) : option Z :=
  match strip_prefix "-" s with
  | Some s => z ← int_parse s; if decide (lo <= - z)%Z then Some (- z)%Z else None
  | None => parse_unsigned hi s
  end.
Definition u64_from_str : string -> option Z := parse_unsigned 18446744073709551615.
Definition i64_from_str : string -> option Z := parse_signed (-9223372036854775808) 9223372036854775807.

Definition deserialize_from_string {T} (from_str : string -> option T) (deserializer : Value) : option T :=
  s ← de text deserializer;
  from_str s.

(** ** Structs *)

(** The fields of a struct [R] in the order of their declaration; [C] is the
    type of the function that builds [R] from them. *)
Inductive Fields (R : Type) : Type -> Type :=
| no_field : Fields R R
| field {T C : Type} (name : string) (c : Codec T) (get : R -> T) (rest : Fields R C) : Fields R (T -> C).
Arguments no_field {R}.
Arguments field {R T C} name c get rest.

Section Structs.
Context {R : Type}.

Fixpoint field_names {C} (fs : Fields R C) : list string :=
  match fs with no_field => [] | field name _ _ rest => name :: field_names rest end.
Fixpoint ser_fields {C} (fs : Fields R C) (r : R) : list (string * Value) :=
  match fs with
  | no_field => []
  | field name c get rest => (name, ser c (get r)) :: ser_fields rest r
  end.

(** The visitor of a map: an unknown key is skipped, a field that is given
    twice is an error. *)
Fixpoint de_fields {C} (fs : Fields R C) (new : C) (entry : string -> option Value) : option R :=
  match fs in Fields _ C return C -> option R with
  | no_field => fun r => Some r
  | field name c _ rest => fun new =>
      x ← match entry name with Some v => de c v | None => de_missing c end;
      de_fields rest (new x) entry
  end new.
Definition given_once (o : list (string * Value)) (name : string) : bool :=
  bool_decide (length (filter (fun k => k = name) o.*1) <= 1).

(** The visitor of a sequence takes the fields by position, all of them. *)
Fixpoint de_seq {C} (fs : Fields R C) (new : C) (l : list Value) : option R :=
  match fs in Fields _ C return C -> option R with
  | no_field => fun r => match l with [] => Some r | _ => None end
  | field _ c _ rest => fun new =>
      match l with
      | [] => None
      | v :: l => x ← de c v; de_seq rest (new x) l
      end
  end new.

Definition de_struct {C} (fs : Fields R C) (new : C) (v : Value) : option R :=
  match v with
  | Object o =>
      if forallb (given_once o) (field_names fs) then de_fields fs new (fun name => assoc_get name o) else None
  | Array l => de_seq fs new l
  | _ => None
  end.
Definition struct {C} (fs : Fields R C) (new : C) : Codec R :=
  {| ser := fun r => Object (ser_fields fs r); de := de_struct fs new; de_missing := None |}.

(** Building a struct again from its fields. *)
Fixpoint rebuild {C} (fs : Fields R C) (new : C) (r : R) : R :=
  match fs in Fields _ C return C -> R with
  | no_field => fun r => r
  | field _ _ get rest => fun new => rebuild rest (new (get r)) r
  end new.
End Structs.

(** A type with derived code. *)
Class Derived (T : Type) := derived_codec : Codec T.
Definition derived_serialize `{Derived T} : Serialize T := fun x => Some (ser derived_codec x).
Definition derived_deserialize `{JsonText, Derived T} : Deserialize T :=
  {| de_from_str := fun s => v ← json_tree s; de derived_codec v;
     de_from_value := de derived_codec |}.
