(* ===== verification/SerdeLaws.v ===== *)
(** * Derived serialization: correctness

    What becomes of a value that is written to JSON, cleaned of NUL bytes and
    read again: for every type constructor from what its parts do, so that the
    instances of a struct are found by class resolution. *)
From Stdlib Require Import Ascii.
From S2P Require Import Prelude RustStr Json Externals Util Serde.

Abbreviation scrub := recurse_remove_null_bytes_from_json.

(** ** Values with distinct keys *)

Lemma assoc_insert_new {V} k (v : V) o : k ∉ o.*1 -> assoc_insert k v o = o ++ [(k, v)].
Proof.
  induction o as [|[k' v'] o IH]; simpl; [done|]. intros [Hne Hk]%not_elem_of_cons.
  by rewrite decide_False, IH.
Qed.
Lemma merge_entries_distinct o : NoDup o.*1 -> merge_entries o = o.
Proof.
  unfold merge_entries. induction o as [|[k v] o IH] using rev_ind; [done|].
  rewrite fmap_app. intros (Ho & Hk & _)%NoDup_app. rewrite foldl_app, IH by done. simpl.
  apply assoc_insert_new. intros Hin. eapply Hk; [exact Hin|]. simpl. set_solver.
Qed.
Lemma merged_distinct v : distinct v = true -> merged v = v.
Proof.
  induction v as [| | |s|l IH|o IH] using Value_rect'; intros Hd; try done; simpl in *.
  - f_equal. induction IH as [|x l Hx _ IHl]; simpl in *; [done|]. apply andb_true_iff in Hd as [Hdx Hd].
    by rewrite Hx, IHl.
  - apply andb_true_iff in Hd as [Hn Hd]. apply bool_decide_eq_true in Hn. f_equal.
    assert (map (fun kv => (kv.1, merged kv.2)) o = o) as ->; [|by apply merge_entries_distinct]. clear Hn.
    induction IH as [|[k x] o Hx _ IHo]; simpl in *; [done|]. apply andb_true_iff in Hd as [Hdx Hd].
    by rewrite Hx, IHo.
Qed.
Lemma scrub_keys (o : list (string * Value)) : (map (fun kv => (kv.1, scrub kv.2)) o).*1 = o.*1.
Proof. induction o as [|[k v] o IH]; simpl; [done|]. by f_equal. Qed.
Lemma scrub_distinct v : distinct (scrub v) = distinct v.
Proof.
  induction v as [| | |s|l IH|o IH] using Value_rect'; simpl; try done.
  - by destruct s.
  - induction IH as [|x l Hx _ IHl]; simpl; [done|]. by rewrite Hx, IHl.
  - f_equal; [by rewrite scrub_keys|].
    induction IH as [|[k x] o Hx _ IHo]; simpl; [done|]. simpl in Hx. by rewrite Hx, IHo.
Qed.
Lemma scrub_str s : scrub (Str s) = Str (string_null_byte_replacement s).
Proof. by destruct s. Qed.
Lemma scrub_null v : scrub v = Null <-> v = Null.
Proof. destruct v as [| | |[]| |]; simpl; split; congruence. Qed.
Lemma assoc_get_scrub k o : assoc_get k (map (fun kv => (kv.1, scrub kv.2)) o) = scrub <$> assoc_get k o.
Proof. induction o as [|[k' v] o IH]; simpl; [done|]. by case_decide. Qed.

(** ** Codecs

    [valid] holds of the values of the Rust type, [cleaned] is what the cleaned
    value is read as, and [plain] says that there is nothing to clean. *)
Class CodecSpec {T} (c : Codec T) := {
  valid : T -> Prop;
  plain : T -> Prop;
  cleaned : T -> T;
  de_cleaned : forall x, valid x -> de c (scrub (ser c x)) = Some (cleaned x);
  cleaned_plain : forall x, plain x -> cleaned x = x;
}.
Arguments valid {T} c {_} _.
Arguments plain {T} c {_} _.
Arguments cleaned {T} c {_} _.

#[export] Instance int_spec lo hi : CodecSpec (int_between lo hi).
Proof.
  refine {| valid := fun z => (lo <= z <= hi)%Z; plain := fun _ => True; cleaned := id |}; [|done].
  intros z Hz. simpl. by rewrite decide_True.
Defined.
#[export] Instance i64_spec : CodecSpec i64 := int_spec _ _.
#[export] Instance i32_spec : CodecSpec i32 := int_spec _ _.
#[export] Instance u64_spec : CodecSpec u64 := int_spec _ _.
#[export] Instance u8_spec : CodecSpec u8 := int_spec _ _.
#[export] Instance boolean_spec : CodecSpec boolean.
Proof. by refine {| valid := fun _ => True; plain := fun _ => True; cleaned := id |}. Defined.
#[export] Instance text_spec : CodecSpec text.
Proof.
  refine {| valid := fun _ => True; plain := fun s => string_null_byte_replacement s = s;
            cleaned := string_null_byte_replacement |}; [|done].
  intros s _. cbn [de ser text]. by rewrite scrub_str.
Defined.
#[export] Instance json_spec : CodecSpec json.
Proof.
  refine {| valid := fun v => distinct v = true; plain := fun v => scrub v = v; cleaned := scrub |}; [|done].
  intros v Hv. simpl. rewrite merged_distinct; [done|]. by rewrite scrub_distinct.
Defined.

(** A JSON null is read as [None], also where it was [Some(Null)]. *)
Definition cleaned_option {T} (c : Codec T) `{!CodecSpec c} (o : option T) : option T :=
  x ← o; match ser c x with Null => None | _ => Some (cleaned c x) end.
#[export] Instance nullable_spec {T} (c : Codec T) `{!CodecSpec c} : CodecSpec (optional c).
Proof.
  refine {| valid := from_option (valid c) True;
            plain := from_option (fun x => ser c x ≠ Null /\ plain c x) True; cleaned := cleaned_option c |}.
  - intros [x|] Hx; [|done]. simpl in *. pose proof (de_cleaned x Hx) as Hd.
    assert (ser c x = Null \/ ser c x ≠ Null) as [He|He] by (destruct (ser c x); auto); [by rewrite He|].
    assert (scrub (ser c x) ≠ Null) as Hn by (by rewrite scrub_null).
    destruct (scrub (ser c x)); [done|..]; rewrite Hd; simpl; by destruct (ser c x).
  - intros [x|] Hx; [|done]. destruct Hx as [Hn Hp]. simpl. rewrite cleaned_plain by done. by destruct (ser c x).
Defined.
#[export] Instance vec_spec {T} (c : Codec T) `{!CodecSpec c} : CodecSpec (vec c).
Proof.
  refine {| valid := Forall (valid c); plain := Forall (plain c); cleaned := fmap (cleaned c) |}.
  - intros l Hl. simpl. apply mapM_Some_2. induction Hl as [|x l Hx _ IH]; [constructor|].
    constructor; [by apply de_cleaned|done].
  - intros l Hl. induction Hl as [|x l Hx _ IH]; [done|]. rewrite fmap_cons, IH. by rewrite cleaned_plain.
Defined.
#[export] Instance byte_vec_spec : CodecSpec byte_vec.
Proof.
  refine {| valid := fun _ => True; plain := fun _ => True; cleaned := id |}; [|done].
  intros s _. unfold id. rewrite <- (String.string_of_list_ascii_of_string s) at 2.
  cbn [de ser byte_vec recurse_remove_null_bytes_from_json as_array mbind option_bind].
  set (l := String.list_ascii_of_string s). clearbody l.
  rewrite (mapM_Some_2 _ _ ((fun c => Z.of_N (N_of_ascii c)) <$> l)).
  - cbn [mbind option_bind]. do 2 f_equal. induction l as [|a l IH]; simpl; [done|].
    rewrite N2Z.id, ascii_N_embedding. by f_equal.
  - induction l as [|a l IH]; constructor; [|done]. simpl. pose proof (N_ascii_bounded a).
    rewrite decide_True by lia. done.
Defined.
Definition newtype_spec {A B} (wrap : A -> B) (unwrap : B -> A) (c : Codec A) `{!CodecSpec c}
  : (forall b, wrap (unwrap b) = b) -> CodecSpec (newtype wrap unwrap c).
Proof.
  intros Hb. refine {| valid := fun b => valid c (unwrap b); plain := fun b => plain c (unwrap b);
                       cleaned := fun b => wrap (cleaned c (unwrap b)) |}.
  - intros b Hv. simpl. by rewrite de_cleaned.
  - intros b Hp. by rewrite cleaned_plain.
Defined.

(** The texts of the crates are read back, and have no NUL and no backslash in
    them. *)
Class SerdeCratesLaws `{SerdeCrates} := {
  date_text : forall d, date_from_text (date_to_text d) = Some d;
  date_plain : forall d, string_null_byte_replacement (date_to_text d) = date_to_text d;
  bd_text : forall b, bd_parse (bd_to_string b) = Some b;
  bd_plain : forall b, string_null_byte_replacement (bd_to_string b) = bd_to_string b;
}.
Section Crates.
Context `{SerdeCratesLaws}.
#[export] Instance date_time_spec : CodecSpec date_time.
Proof.
  refine {| valid := fun _ => True; plain := fun _ => True; cleaned := id |}; [|done].
  intros d _. cbn [de ser date_time]. rewrite scrub_str, date_plain. apply date_text.
Defined.
#[export] Instance big_decimal_spec : CodecSpec big_decimal.
Proof.
  refine {| valid := fun _ => True; plain := fun _ => True; cleaned := id |}; [|done].
  intros d _. cbn [de ser big_decimal]. rewrite scrub_str, bd_plain. apply bd_text.
Defined.
End Crates.

(** ** Structs *)

Lemma assoc_get_elem {V} (o : list (string * V)) k v : NoDup o.*1 -> (k, v) ∈ o -> assoc_get k o = Some v.
Proof.
  induction o as [|[k' v'] o IH]; simpl; [by intros _ ?%elem_of_nil|].
  intros [Hk Ho]%NoDup_cons [He|Hin]%elem_of_cons; [injection He as -> ->; by rewrite decide_True|].
  case_decide as Hd; [|by apply IH]. subst. destruct Hk. by apply (list_elem_of_fmap_2 fst _ _ Hin).
Qed.

Section Structs.
Context {R : Type}.

(** The fields of a struct, seen together: [clean_fields] builds it from its
    cleaned fields. *)
Class FieldsSpec {C} (fs : Fields R C) := {
  valid_fields : R -> Prop;
  plain_fields : R -> Prop;
  clean_fields : C -> R -> R;
  de_clean_fields : forall new r entry, valid_fields r ->
    (forall k v, (k, v) ∈ ser_fields fs r -> entry k = Some (scrub v)) ->
    de_fields fs new entry = Some (clean_fields new r);
  clean_plain_fields : forall new r, plain_fields r -> clean_fields new r = rebuild fs new r;
}.

#[export] Instance no_field_spec : FieldsSpec (@no_field R).
Proof. by refine {| valid_fields := fun _ => True; plain_fields := fun _ => True; clean_fields := fun r _ => r |}. Defined.
#[export] Instance field_spec {T C} name (c : Codec T) (get : R -> T) (rest : Fields R C)
    `{!CodecSpec c, !FieldsSpec rest} : FieldsSpec (field name c get rest).
Proof.
  refine {| valid_fields := fun r => valid c (get r) /\ valid_fields r;
            plain_fields := fun r => plain c (get r) /\ plain_fields r;
            clean_fields := fun new r => clean_fields (new (cleaned c (get r))) r |}.
  - intros new r entry [Hx Hr] Hentry. simpl in *. rewrite (Hentry name (ser c (get r))) by left.
    rewrite de_cleaned by done. simpl. apply de_clean_fields; [done|]. intros k v Hin. apply Hentry. by right.
  - intros new r [Hx Hr]. simpl. by rewrite cleaned_plain, clean_plain_fields.
Defined.

Lemma ser_fields_names {C} (fs : Fields R C) r : (ser_fields fs r).*1 = field_names fs.
Proof. induction fs as [|T C name c get rest IH]; [done|]. cbn [ser_fields field_names]. by rewrite fmap_cons, IH. Qed.
Lemma given_once_NoDup (o : list (string * Value)) name : NoDup o.*1 -> given_once o name = true.
Proof.
  intros Hn. apply bool_decide_eq_true. revert Hn. generalize o.*1 as l. clear o.
  induction l as [|k l IH]; [simpl; lia|]. intros [Hk Hn]%NoDup_cons. specialize (IH Hn).
  rewrite filter_cons. case_decide as Hd; [|done]. subst.
  assert (filter (fun k => k = name) l = []) as ->; [|simpl; lia].
  apply elem_of_nil_inv. intros k [-> Hin]%list_elem_of_filter. done.
Qed.

Section Struct.
Context {C : Type} (fs : Fields R C) (new : C).

(** *** Reading a struct

    Only the entries of the fields matter. *)
Lemma de_fields_ext {C'} (fs' : Fields R C') new' e1 e2 :
  (forall name, name ∈ field_names fs' -> e1 name = e2 name) -> de_fields fs' new' e1 = de_fields fs' new' e2.
Proof.
  induction fs' as [|T C' name c get rest IH]; intros He; simpl; [done|].
  rewrite <- (He name) by left. destruct (match e1 name with Some v => de c v | None => de_missing c end) as [x|]; simpl; [|done].
  apply IH. intros n Hn. apply He. by right.
Qed.
Lemma de_object o :
  NoDup o.*1 -> de_struct fs new (Object o) = de_fields fs new (fun name => assoc_get name o).
Proof.
  intros Hn. simpl. assert (forallb (given_once o) (field_names fs) = true) as ->; [|done].
  apply forallb_forall. intros name _. by apply given_once_NoDup.
Qed.
Lemma de_struct_ext o1 o2 :
  NoDup o1.*1 -> NoDup o2.*1 -> (forall name, name ∈ field_names fs -> assoc_get name o1 = assoc_get name o2) ->
  de_struct fs new (Object o1) = de_struct fs new (Object o2).
Proof. intros H1 H2 He. rewrite !de_object by done. by apply de_fields_ext. Qed.

(** *** Cleaning a struct *)
Context `{!FieldsSpec fs}.
Lemma struct_de_cleaned r :
  NoDup (field_names fs) -> valid_fields r -> de (struct fs new) (scrub (ser (struct fs new) r)) = Some (clean_fields new r).
Proof.
  intros Hn Hr. cbn [de ser struct recurse_remove_null_bytes_from_json].
  rewrite de_object by (by rewrite scrub_keys, ser_fields_names).
  apply de_clean_fields; [done|]. intros k v Hin. rewrite assoc_get_scrub, (assoc_get_elem _ k v); [done| |done].
  by rewrite ser_fields_names.
Qed.
Definition struct_spec : NoDup (field_names fs) -> (forall r, rebuild fs new r = r) -> CodecSpec (struct fs new).
Proof.
  intros Hn Hb. refine {| valid := valid_fields; plain := plain_fields; cleaned := clean_fields new |}.
  - intros r Hr. by apply struct_de_cleaned.
  - intros r Hr. by rewrite clean_plain_fields.
Defined.

Context `{JsonText}.
Lemma derived_clean (D : Derived R) r :
  D = struct fs new -> NoDup (field_names fs) -> valid_fields r ->
  @remove_null_bytes R derived_serialize derived_deserialize r = Ret (clean_fields new r).
Proof.
  intros -> Hn Hr. unfold remove_null_bytes, derived_serialize, derived_deserialize, to_value, derived_codec.
  cbn [unwrap mbind outcome_bind de_from_value]. by rewrite struct_de_cleaned.
Qed.
End Struct.
End Structs.
