(* ===== verification/RowsSerde.v ===== *)
(** * The models as JSON

    The derived [Serialize] and [Deserialize] of the models, through which rows go
    when they are cleaned ([remove_null_bytes]). *)
From S2P Require Import Prelude RustStr Json Externals Proto Util Serde SerdeLaws Database Schema SharedTable Processors.
From S2P Require Import Signatures UserTransactions Events DefaultModels DefaultProcessor AccountTransactions Objects Coins FungibleAssets Stake Ans TokensV1 TokensV2 TransactionMetadata Rows.

Section Models.
Context `{SerdeCrates}.

#[export] Instance AccountTransaction_serde : Derived AccountTransaction :=
  struct
    (field "transaction_version" i64 at_transaction_version $ field "account_address" text at_account_address $
     no_field)
    Build_AccountTransaction.
#[export] Instance CurrentAnsLookup_serde : Derived CurrentAnsLookup :=
  struct
    (field "domain" text cal_domain $ field "subdomain" text cal_subdomain $
     field "registered_address" (optional text) cal_registered_address $
     field "last_transaction_version" i64 cal_last_transaction_version $
     field "expiration_timestamp" date_time cal_expiration_timestamp $ field "token_name" text cal_token_name $
     field "is_deleted" boolean cal_is_deleted $ no_field)
    Build_CurrentAnsLookup.
#[export] Instance AnsLookup_serde : Derived AnsLookup :=
  struct
    (field "transaction_version" i64 al_transaction_version $
     field "write_set_change_index" i64 al_write_set_change_index $ field "domain" text al_domain $
     field "subdomain" text al_subdomain $ field "registered_address" (optional text) al_registered_address $
     field "expiration_timestamp" date_time al_expiration_timestamp $ field "token_name" text al_token_name $
     field "is_deleted" boolean al_is_deleted $ no_field)
    Build_AnsLookup.
#[export] Instance CurrentAnsPrimaryName_serde : Derived CurrentAnsPrimaryName :=
  struct
    (field "registered_address" text cap_registered_address $ field "domain" (optional text) cap_domain $
     field "subdomain" (optional text) cap_subdomain $ field "token_name" (optional text) cap_token_name $
     field "is_deleted" boolean cap_is_deleted $
     field "last_transaction_version" i64 cap_last_transaction_version $ no_field)
    Build_CurrentAnsPrimaryName.
#[export] Instance AnsPrimaryName_serde : Derived AnsPrimaryName :=
  struct
    (field "transaction_version" i64 ap_transaction_version $
     field "write_set_change_index" i64 ap_write_set_change_index $
     field "registered_address" text ap_registered_address $ field "domain" (optional text) ap_domain $
     field "subdomain" (optional text) ap_subdomain $ field "token_name" (optional text) ap_token_name $
     field "is_deleted" boolean ap_is_deleted $ no_field)
    Build_AnsPrimaryName.
#[export] Instance CurrentAnsLookupV2_serde : Derived CurrentAnsLookupV2 :=
  struct
    (field "domain" text cal2_domain $ field "subdomain" text cal2_subdomain $
     field "token_standard" text cal2_token_standard $
     field "registered_address" (optional text) cal2_registered_address $
     field "last_transaction_version" i64 cal2_last_transaction_version $
     field "expiration_timestamp" date_time cal2_expiration_timestamp $
     field "token_name" text cal2_token_name $ field "is_deleted" boolean cal2_is_deleted $
     field "subdomain_expiration_policy" (optional i64) cal2_subdomain_expiration_policy $ no_field)
    Build_CurrentAnsLookupV2.
#[export] Instance AnsLookupV2_serde : Derived AnsLookupV2 :=
  struct
    (field "transaction_version" i64 al2_transaction_version $
     field "write_set_change_index" i64 al2_write_set_change_index $ field "domain" text al2_domain $
     field "subdomain" text al2_subdomain $ field "token_standard" text al2_token_standard $
     field "registered_address" (optional text) al2_registered_address $
     field "expiration_timestamp" date_time al2_expiration_timestamp $ field "token_name" text al2_token_name $
     field "is_deleted" boolean al2_is_deleted $
     field "subdomain_expiration_policy" (optional i64) al2_subdomain_expiration_policy $ no_field)
    Build_AnsLookupV2.
#[export] Instance CurrentAnsPrimaryNameV2_serde : Derived CurrentAnsPrimaryNameV2 :=
  struct
    (field "registered_address" text cap2_registered_address $
     field "token_standard" text cap2_token_standard $ field "domain" (optional text) cap2_domain $
     field "subdomain" (optional text) cap2_subdomain $ field "token_name" (optional text) cap2_token_name $
     field "is_deleted" boolean cap2_is_deleted $
     field "last_transaction_version" i64 cap2_last_transaction_version $ no_field)
    Build_CurrentAnsPrimaryNameV2.
#[export] Instance AnsPrimaryNameV2_serde : Derived AnsPrimaryNameV2 :=
  struct
    (field "transaction_version" i64 ap2_transaction_version $
     field "write_set_change_index" i64 ap2_write_set_change_index $
     field "registered_address" text ap2_registered_address $ field "token_standard" text ap2_token_standard $
     field "domain" (optional text) ap2_domain $ field "subdomain" (optional text) ap2_subdomain $
     field "token_name" (optional text) ap2_token_name $ field "is_deleted" boolean ap2_is_deleted $ no_field)
    Build_AnsPrimaryNameV2.
#[export] Instance CoinActivity_serde : Derived CoinActivity :=
  struct
    (field "transaction_version" i64 ca_transaction_version $
     field "event_account_address" text ca_event_account_address $
     field "event_creation_number" i64 ca_event_creation_number $
     field "event_sequence_number" i64 ca_event_sequence_number $ field "owner_address" text ca_owner_address $
     field "coin_type" text ca_coin_type $ field "amount" big_decimal ca_amount $
     field "activity_type" text ca_activity_type $ field "is_gas_fee" boolean ca_is_gas_fee $
     field "is_transaction_success" boolean ca_is_transaction_success $
     field "entry_function_id_str" (optional text) ca_entry_function_id_str $
     field "block_height" i64 ca_block_height $
     field "transaction_timestamp" date_time ca_transaction_timestamp $
     field "event_index" (optional i64) ca_event_index $
     field "gas_fee_payer_address" (optional text) ca_gas_fee_payer_address $
     field "storage_refund_amount" big_decimal ca_storage_refund_amount $ no_field)
    Build_CoinActivity.
#[export] Instance CoinBalance_serde : Derived CoinBalance :=
  struct
    (field "transaction_version" i64 cb_transaction_version $ field "owner_address" text cb_owner_address $
     field "coin_type_hash" text cb_coin_type_hash $ field "coin_type" text cb_coin_type $
     field "amount" big_decimal cb_amount $ field "transaction_timestamp" date_time cb_transaction_timestamp $
     no_field)
    Build_CoinBalance.
#[export] Instance CurrentCoinBalance_serde : Derived CurrentCoinBalance :=
  struct
    (field "owner_address" text ccb_owner_address $ field "coin_type_hash" text ccb_coin_type_hash $
     field "coin_type" text ccb_coin_type $ field "amount" big_decimal ccb_amount $
     field "last_transaction_version" i64 ccb_last_transaction_version $
     field "last_transaction_timestamp" date_time ccb_last_transaction_timestamp $ no_field)
    Build_CurrentCoinBalance.
#[export] Instance CoinInfo_serde : Derived CoinInfo :=
  struct
    (field "coin_type_hash" text ci_coin_type_hash $ field "coin_type" text ci_coin_type $
     field "transaction_version_created" i64 ci_transaction_version_created $
     field "creator_address" text ci_creator_address $ field "name" text ci_name $
     field "symbol" text ci_symbol $ field "decimals" i32 ci_decimals $
     field "transaction_created_timestamp" date_time ci_transaction_created_timestamp $
     field "supply_aggregator_table_handle" (optional text) ci_supply_aggregator_table_handle $
     field "supply_aggregator_table_key" (optional text) ci_supply_aggregator_table_key $ no_field)
    Build_CoinInfo.
#[export] Instance CoinSupply_serde : Derived CoinSupply :=
  struct
    (field "transaction_version" i64 cs_transaction_version $ field "coin_type_hash" text cs_coin_type_hash $
     field "coin_type" text cs_coin_type $ field "supply" big_decimal cs_supply $
     field "transaction_timestamp" date_time cs_transaction_timestamp $
     field "transaction_epoch" i64 cs_transaction_epoch $ no_field)
    Build_CoinSupply.
#[export] Instance BlockMetadataTransaction_serde : Derived BlockMetadataTransaction :=
  struct
    (field "version" i64 bmt_version $ field "block_height" i64 bmt_block_height $ field "id" text bmt_id $
     field "round" i64 bmt_round $ field "epoch" i64 bmt_epoch $
     field "previous_block_votes_bitvec" json bmt_previous_block_votes_bitvec $
     field "proposer" text bmt_proposer $ field "failed_proposer_indices" json bmt_failed_proposer_indices $
     field "timestamp" date_time bmt_timestamp $ no_field)
    Build_BlockMetadataTransaction.
#[export] Instance MoveModule_serde : Derived MoveModule :=
  struct
    (field "transaction_version" i64 mod_transaction_version $
     field "write_set_change_index" i64 mod_write_set_change_index $
     field "transaction_block_height" i64 mod_transaction_block_height $ field "name" text mod_name $
     field "address" text mod_address $ field "bytecode" (optional byte_vec) mod_bytecode $
     field "exposed_functions" (optional json) mod_exposed_functions $
     field "friends" (optional json) mod_friends $ field "structs" (optional json) mod_structs $
     field "is_deleted" boolean mod_is_deleted $ no_field)
    Build_MoveModule.
#[export] Instance MoveResource_serde : Derived MoveResource :=
  struct
    (field "transaction_version" i64 mr_transaction_version $
     field "write_set_change_index" i64 mr_write_set_change_index $
     field "transaction_block_height" i64 mr_transaction_block_height $ field "name" text mr_name $
     field "type_" text mr_type $ field "address" text mr_address $ field "module" text mr_module $
     field "generic_type_params" (optional json) mr_generic_type_params $
     field "data" (optional json) mr_data $ field "is_deleted" boolean mr_is_deleted $
     field "state_key_hash" text mr_state_key_hash $ no_field)
    Build_MoveResource.
#[export] Instance CurrentTableItem_serde : Derived CurrentTableItem :=
  struct
    (field "table_handle" text cti_table_handle $ field "key_hash" text cti_key_hash $
     field "key" text cti_key $ field "decoded_key" json cti_decoded_key $
     field "decoded_value" (optional json) cti_decoded_value $
     field "last_transaction_version" i64 cti_last_transaction_version $
     field "is_deleted" boolean cti_is_deleted $ no_field)
    Build_CurrentTableItem.
#[export] Instance TableItem_serde : Derived TableItem :=
  struct
    (field "transaction_version" i64 ti_transaction_version $
     field "write_set_change_index" i64 ti_write_set_change_index $
     field "transaction_block_height" i64 ti_transaction_block_height $ field "key" text ti_key $
     field "table_handle" text ti_table_handle $ field "decoded_key" json ti_decoded_key $
     field "decoded_value" (optional json) ti_decoded_value $ field "is_deleted" boolean ti_is_deleted $
     no_field)
    Build_TableItem.
#[export] Instance TableMetadata_serde : Derived TableMetadata :=
  struct
    (field "handle" text tm_handle $ field "key_type" text tm_key_type $
     field "value_type" text tm_value_type $ no_field)
    Build_TableMetadata.
#[export] Instance TransactionModel_serde : Derived TransactionModel :=
  struct
    (field "version" i64 tx_version $ field "block_height" i64 tx_block_height $ field "hash" text tx_hash $
     field "type_" text tx_type $ field "payload" (optional json) tx_payload $
     field "state_change_hash" text tx_state_change_hash $ field "event_root_hash" text tx_event_root_hash $
     field "state_checkpoint_hash" (optional text) tx_state_checkpoint_hash $
     field "gas_used" big_decimal tx_gas_used $ field "success" boolean tx_success $
     field "vm_status" text tx_vm_status $ field "accumulator_root_hash" text tx_accumulator_root_hash $
     field "num_events" i64 tx_num_events $ field "num_write_set_changes" i64 tx_num_write_set_changes $
     field "epoch" i64 tx_epoch $ field "payload_type" (optional text) tx_payload_type $ no_field)
    Build_TransactionModel.
#[export] Instance WriteSetChange_serde : Derived WriteSetChange :=
  struct
    (field "transaction_version" i64 wsc_transaction_version $ field "index" i64 wsc_index $
     field "hash" text wsc_hash $ field "transaction_block_height" i64 wsc_transaction_block_height $
     field "type_" text wsc_type_ $ field "address" text wsc_address $ no_field)
    Build_WriteSetChange.
#[export] Instance Event_serde : Derived Event :=
  struct
    (field "sequence_number" i64 e_sequence_number $ field "creation_number" i64 e_creation_number $
     field "account_address" text e_account_address $ field "transaction_version" i64 e_transaction_version $
     field "transaction_block_height" i64 e_transaction_block_height $ field "type_" text e_type $
     field "data" json e_data $ field "event_index" i64 e_event_index $
     field "indexed_type" text e_indexed_type $ field "from" text e_from $
     field "entry_function_payload" json e_entry_function_payload $
     field "entry_function_id_str" text e_entry_function_id_str $
     field "module_address" text e_module_address $ field "module_name" text e_module_name $
     field "event_name" text e_event_name $ field "inserted_at" date_time e_inserted_at $ no_field)
    Build_Event.
#[export] Instance FungibleAssetActivity_serde : Derived FungibleAssetActivity :=
  struct
    (field "transaction_version" i64 faa_transaction_version $ field "event_index" i64 faa_event_index $
     field "owner_address" text faa_owner_address $ field "storage_id" text faa_storage_id $
     field "asset_type" text faa_asset_type $ field "is_frozen" (optional boolean) faa_is_frozen $
     field "amount" (optional big_decimal) faa_amount $ field "type_" text faa_type $
     field "is_gas_fee" boolean faa_is_gas_fee $
     field "gas_fee_payer_address" (optional text) faa_gas_fee_payer_address $
     field "is_transaction_success" boolean faa_is_transaction_success $
     field "entry_function_id_str" (optional text) faa_entry_function_id_str $
     field "block_height" i64 faa_block_height $ field "token_standard" text faa_token_standard $
     field "transaction_timestamp" date_time faa_transaction_timestamp $
     field "storage_refund_amount" big_decimal faa_storage_refund_amount $ no_field)
    Build_FungibleAssetActivity.
#[export] Instance FungibleAssetBalance_serde : Derived FungibleAssetBalance :=
  struct
    (field "transaction_version" i64 fab_transaction_version $
     field "write_set_change_index" i64 fab_write_set_change_index $ field "storage_id" text fab_storage_id $
     field "owner_address" text fab_owner_address $ field "asset_type" text fab_asset_type $
     field "is_primary" boolean fab_is_primary $ field "is_frozen" boolean fab_is_frozen $
     field "amount" big_decimal fab_amount $
     field "transaction_timestamp" date_time fab_transaction_timestamp $
     field "token_standard" text fab_token_standard $ no_field)
    Build_FungibleAssetBalance.
#[export] Instance CurrentFungibleAssetBalance_serde : Derived CurrentFungibleAssetBalance :=
  struct
    (field "storage_id" text cfab_storage_id $ field "owner_address" text cfab_owner_address $
     field "asset_type" text cfab_asset_type $ field "is_primary" boolean cfab_is_primary $
     field "is_frozen" boolean cfab_is_frozen $ field "amount" big_decimal cfab_amount $
     field "last_transaction_version" i64 cfab_last_transaction_version $
     field "last_transaction_timestamp" date_time cfab_last_transaction_timestamp $
     field "token_standard" text cfab_token_standard $ no_field)
    Build_CurrentFungibleAssetBalance.
#[export] Instance FungibleAssetMetadataModel_serde : Derived FungibleAssetMetadataModel :=
  struct
    (field "asset_type" text fmm_asset_type $ field "creator_address" text fmm_creator_address $
     field "name" text fmm_name $ field "symbol" text fmm_symbol $ field "decimals" i32 fmm_decimals $
     field "icon_uri" (optional text) fmm_icon_uri $ field "project_uri" (optional text) fmm_project_uri $
     field "last_transaction_version" i64 fmm_last_transaction_version $
     field "last_transaction_timestamp" date_time fmm_last_transaction_timestamp $
     field "supply_aggregator_table_handle_v1" (optional text) fmm_supply_aggregator_table_handle_v1 $
     field "supply_aggregator_table_key_v1" (optional text) fmm_supply_aggregator_table_key_v1 $
     field "token_standard" text fmm_token_standard $ field "is_token_v2" (optional boolean) fmm_is_token_v2 $
     field "supply_v2" (optional big_decimal) fmm_supply_v2 $
     field "maximum_v2" (optional big_decimal) fmm_maximum_v2 $ no_field)
    Build_FungibleAssetMetadataModel.
#[export] Instance Object_serde : Derived Object :=
  struct
    (field "transaction_version" i64 obj_transaction_version $
     field "write_set_change_index" i64 obj_write_set_change_index $
     field "object_address" text obj_object_address $ field "owner_address" text obj_owner_address $
     field "state_key_hash" text obj_state_key_hash $
     field "guid_creation_num" big_decimal obj_guid_creation_num $
     field "allow_ungated_transfer" boolean obj_allow_ungated_transfer $
     field "is_deleted" boolean obj_is_deleted $ no_field)
    Build_Object.
#[export] Instance CurrentObject_serde : Derived CurrentObject :=
  struct
    (field "object_address" text co_object_address $ field "owner_address" text co_owner_address $
     field "state_key_hash" text co_state_key_hash $
     field "allow_ungated_transfer" boolean co_allow_ungated_transfer $
     field "last_guid_creation_num" big_decimal co_last_guid_creation_num $
     field "last_transaction_version" i64 co_last_transaction_version $
     field "is_deleted" boolean co_is_deleted $ no_field)
    Build_CurrentObject.
#[export] Instance CurrentDelegatedVoter_serde : Derived CurrentDelegatedVoter :=
  struct
    (field "delegation_pool_address" text cdv_delegation_pool_address $
     field "delegator_address" text cdv_delegator_address $
     field "table_handle" (optional text) cdv_table_handle $ field "voter" (optional text) cdv_voter $
     field "pending_voter" (optional text) cdv_pending_voter $
     field "last_transaction_version" i64 cdv_last_transaction_version $
     field "last_transaction_timestamp" date_time cdv_last_transaction_timestamp $ no_field)
    Build_CurrentDelegatedVoter.
#[export] Instance DelegatedStakingActivity_serde : Derived DelegatedStakingActivity :=
  struct
    (field "transaction_version" i64 dsa_transaction_version $ field "event_index" i64 dsa_event_index $
     field "delegator_address" text dsa_delegator_address $ field "pool_address" text dsa_pool_address $
     field "event_type" text dsa_event_type $ field "amount" big_decimal dsa_amount $ no_field)
    Build_DelegatedStakingActivity.
#[export] Instance CurrentDelegatorBalance_serde : Derived CurrentDelegatorBalance :=
  struct
    (field "delegator_address" text cdb_delegator_address $ field "pool_address" text cdb_pool_address $
     field "pool_type" text cdb_pool_type $ field "table_handle" text cdb_table_handle $
     field "last_transaction_version" i64 cdb_last_transaction_version $
     field "shares" big_decimal cdb_shares $ field "parent_table_handle" text cdb_parent_table_handle $
     no_field)
    Build_CurrentDelegatorBalance.
#[export] Instance DelegatorBalance_serde : Derived DelegatorBalance :=
  struct
    (field "transaction_version" i64 dbl_transaction_version $
     field "write_set_change_index" i64 dbl_write_set_change_index $
     field "delegator_address" text dbl_delegator_address $ field "pool_address" text dbl_pool_address $
     field "pool_type" text dbl_pool_type $ field "table_handle" text dbl_table_handle $
     field "shares" big_decimal dbl_shares $ field "parent_table_handle" text dbl_parent_table_handle $
     no_field)
    Build_DelegatorBalance.
#[export] Instance DelegatorPool_serde : Derived DelegatorPool :=
  struct
    (field "staking_pool_address" text dpl_staking_pool_address $
     field "first_transaction_version" i64 dpl_first_transaction_version $ no_field)
    Build_DelegatorPool.
#[export] Instance DelegatorPoolBalance_serde : Derived DelegatorPoolBalance :=
  struct
    (field "transaction_version" i64 dpb_transaction_version $
     field "staking_pool_address" text dpb_staking_pool_address $
     field "total_coins" big_decimal dpb_total_coins $ field "total_shares" big_decimal dpb_total_shares $
     field "operator_commission_percentage" big_decimal dpb_operator_commission_percentage $
     field "inactive_table_handle" text dpb_inactive_table_handle $
     field "active_table_handle" text dpb_active_table_handle $ no_field)
    Build_DelegatorPoolBalance.
#[export] Instance CurrentDelegatorPoolBalance_serde : Derived CurrentDelegatorPoolBalance :=
  struct
    (field "staking_pool_address" text cpb_staking_pool_address $
     field "total_coins" big_decimal cpb_total_coins $ field "total_shares" big_decimal cpb_total_shares $
     field "last_transaction_version" i64 cpb_last_transaction_version $
     field "operator_commission_percentage" big_decimal cpb_operator_commission_percentage $
     field "inactive_table_handle" text cpb_inactive_table_handle $
     field "active_table_handle" text cpb_active_table_handle $ no_field)
    Build_CurrentDelegatorPoolBalance.
#[export] Instance ProposalVote_serde : Derived ProposalVote :=
  struct
    (field "transaction_version" i64 pvo_transaction_version $ field "proposal_id" i64 pvo_proposal_id $
     field "voter_address" text pvo_voter_address $
     field "staking_pool_address" text pvo_staking_pool_address $ field "num_votes" big_decimal pvo_num_votes $
     field "should_pass" boolean pvo_should_pass $
     field "transaction_timestamp" date_time pvo_transaction_timestamp $ no_field)
    Build_ProposalVote.
#[export] Instance CurrentStakingPoolVoter_serde : Derived CurrentStakingPoolVoter :=
  struct
    (field "staking_pool_address" text spv_staking_pool_address $
     field "voter_address" text spv_voter_address $
     field "last_transaction_version" i64 spv_last_transaction_version $
     field "operator_address" text spv_operator_address $ no_field)
    Build_CurrentStakingPoolVoter.
#[export] Instance CollectionData_serde : Derived CollectionData :=
  struct
    (field "collection_data_id_hash" text cda_collection_data_id_hash $
     field "transaction_version" i64 cda_transaction_version $
     field "creator_address" text cda_creator_address $ field "collection_name" text cda_collection_name $
     field "description" text cda_description $ field "metadata_uri" text cda_metadata_uri $
     field "supply" big_decimal cda_supply $ field "maximum" big_decimal cda_maximum $
     field "maximum_mutable" boolean cda_maximum_mutable $ field "uri_mutable" boolean cda_uri_mutable $
     field "description_mutable" boolean cda_description_mutable $ field "table_handle" text cda_table_handle $
     field "transaction_timestamp" date_time cda_transaction_timestamp $ no_field)
    Build_CollectionData.
#[export] Instance CurrentCollectionData_serde : Derived CurrentCollectionData :=
  struct
    (field "collection_data_id_hash" text ccd_collection_data_id_hash $
     field "creator_address" text ccd_creator_address $ field "collection_name" text ccd_collection_name $
     field "description" text ccd_description $ field "metadata_uri" text ccd_metadata_uri $
     field "supply" big_decimal ccd_supply $ field "maximum" big_decimal ccd_maximum $
     field "maximum_mutable" boolean ccd_maximum_mutable $ field "uri_mutable" boolean ccd_uri_mutable $
     field "description_mutable" boolean ccd_description_mutable $
     field "last_transaction_version" i64 ccd_last_transaction_version $
     field "table_handle" text ccd_table_handle $
     field "last_transaction_timestamp" date_time ccd_last_transaction_timestamp $ no_field)
    Build_CurrentCollectionData.
#[export] Instance NftPoints_serde : Derived NftPoints :=
  struct
    (field "transaction_version" i64 nfp_transaction_version $ field "owner_address" text nfp_owner_address $
     field "token_name" text nfp_token_name $ field "point_type" text nfp_point_type $
     field "amount" big_decimal nfp_amount $
     field "transaction_timestamp" date_time nfp_transaction_timestamp $ no_field)
    Build_NftPoints.
#[export] Instance TokenActivity_serde : Derived TokenActivity :=
  struct
    (field "transaction_version" i64 tac_transaction_version $
     field "event_account_address" text tac_event_account_address $
     field "event_creation_number" i64 tac_event_creation_number $
     field "event_sequence_number" i64 tac_event_sequence_number $
     field "token_data_id_hash" text tac_token_data_id_hash $
     field "property_version" big_decimal tac_property_version $
     field "creator_address" text tac_creator_address $ field "collection_name" text tac_collection_name $
     field "name" text tac_name $ field "transfer_type" text tac_transfer_type $
     field "from_address" (optional text) tac_from_address $
     field "to_address" (optional text) tac_to_address $ field "token_amount" big_decimal tac_token_amount $
     field "coin_type" (optional text) tac_coin_type $
     field "coin_amount" (optional big_decimal) tac_coin_amount $
     field "collection_data_id_hash" text tac_collection_data_id_hash $
     field "transaction_timestamp" date_time tac_transaction_timestamp $
     field "event_index" (optional i64) tac_event_index $ no_field)
    Build_TokenActivity.
#[export] Instance CurrentTokenPendingClaim_serde : Derived CurrentTokenPendingClaim :=
  struct
    (field "token_data_id_hash" text tpc_token_data_id_hash $
     field "property_version" big_decimal tpc_property_version $ field "from_address" text tpc_from_address $
     field "to_address" text tpc_to_address $
     field "collection_data_id_hash" text tpc_collection_data_id_hash $
     field "creator_address" text tpc_creator_address $ field "collection_name" text tpc_collection_name $
     field "name" text tpc_name $ field "amount" big_decimal tpc_amount $
     field "table_handle" text tpc_table_handle $
     field "last_transaction_version" i64 tpc_last_transaction_version $
     field "last_transaction_timestamp" date_time tpc_last_transaction_timestamp $
     field "token_data_id" text tpc_token_data_id $ field "collection_id" text tpc_collection_id $ no_field)
    Build_CurrentTokenPendingClaim.
#[export] Instance TokenData_serde : Derived TokenData :=
  struct
    (field "token_data_id_hash" text tda_token_data_id_hash $
     field "transaction_version" i64 tda_transaction_version $
     field "creator_address" text tda_creator_address $ field "collection_name" text tda_collection_name $
     field "name" text tda_name $ field "maximum" big_decimal tda_maximum $
     field "supply" big_decimal tda_supply $
     field "largest_property_version" big_decimal tda_largest_property_version $
     field "metadata_uri" text tda_metadata_uri $ field "payee_address" text tda_payee_address $
     field "royalty_points_numerator" big_decimal tda_royalty_points_numerator $
     field "royalty_points_denominator" big_decimal tda_royalty_points_denominator $
     field "maximum_mutable" boolean tda_maximum_mutable $ field "uri_mutable" boolean tda_uri_mutable $
     field "description_mutable" boolean tda_description_mutable $
     field "properties_mutable" boolean tda_properties_mutable $
     field "royalty_mutable" boolean tda_royalty_mutable $
     field "default_properties" json tda_default_properties $
     field "collection_data_id_hash" text tda_collection_data_id_hash $
     field "transaction_timestamp" date_time tda_transaction_timestamp $
     field "description" text tda_description $ no_field)
    Build_TokenData.
#[export] Instance CurrentTokenData_serde : Derived CurrentTokenData :=
  struct
    (field "token_data_id_hash" text ctd_token_data_id_hash $
     field "creator_address" text ctd_creator_address $ field "collection_name" text ctd_collection_name $
     field "name" text ctd_name $ field "maximum" big_decimal ctd_maximum $
     field "supply" big_decimal ctd_supply $
     field "largest_property_version" big_decimal ctd_largest_property_version $
     field "metadata_uri" text ctd_metadata_uri $ field "payee_address" text ctd_payee_address $
     field "royalty_points_numerator" big_decimal ctd_royalty_points_numerator $
     field "royalty_points_denominator" big_decimal ctd_royalty_points_denominator $
     field "maximum_mutable" boolean ctd_maximum_mutable $ field "uri_mutable" boolean ctd_uri_mutable $
     field "description_mutable" boolean ctd_description_mutable $
     field "properties_mutable" boolean ctd_properties_mutable $
     field "royalty_mutable" boolean ctd_royalty_mutable $
     field "default_properties" json ctd_default_properties $
     field "last_transaction_version" i64 ctd_last_transaction_version $
     field "collection_data_id_hash" text ctd_collection_data_id_hash $
     field "last_transaction_timestamp" date_time ctd_last_transaction_timestamp $
     field "description" text ctd_description $ no_field)
    Build_CurrentTokenData.
#[export] Instance TokenOwnership_serde : Derived TokenOwnership :=
  struct
    (field "token_data_id_hash" text own_token_data_id_hash $
     field "property_version" big_decimal own_property_version $
     field "transaction_version" i64 own_transaction_version $ field "table_handle" text own_table_handle $
     field "creator_address" text own_creator_address $ field "collection_name" text own_collection_name $
     field "name" text own_name $ field "owner_address" (optional text) own_owner_address $
     field "amount" big_decimal own_amount $ field "table_type" (optional text) own_table_type $
     field "collection_data_id_hash" text own_collection_data_id_hash $
     field "transaction_timestamp" date_time own_transaction_timestamp $ no_field)
    Build_TokenOwnership.
#[export] Instance CurrentTokenOwnership_serde : Derived CurrentTokenOwnership :=
  struct
    (field "token_data_id_hash" text cto_token_data_id_hash $
     field "property_version" big_decimal cto_property_version $ field "owner_address" text cto_owner_address $
     field "creator_address" text cto_creator_address $ field "collection_name" text cto_collection_name $
     field "name" text cto_name $ field "amount" big_decimal cto_amount $
     field "token_properties" json cto_token_properties $
     field "last_transaction_version" i64 cto_last_transaction_version $
     field "collection_data_id_hash" text cto_collection_data_id_hash $
     field "table_type" text cto_table_type $
     field "last_transaction_timestamp" date_time cto_last_transaction_timestamp $ no_field)
    Build_CurrentTokenOwnership.
#[export] Instance Token_serde : Derived Token :=
  struct
    (field "token_data_id_hash" text tkn_token_data_id_hash $
     field "property_version" big_decimal tkn_property_version $
     field "transaction_version" i64 tkn_transaction_version $
     field "creator_address" text tkn_creator_address $ field "collection_name" text tkn_collection_name $
     field "name" text tkn_name $ field "token_properties" json tkn_token_properties $
     field "collection_data_id_hash" text tkn_collection_data_id_hash $
     field "transaction_timestamp" date_time tkn_transaction_timestamp $ no_field)
    Build_Token.
#[export] Instance CollectionV2_serde : Derived CollectionV2 :=
  struct
    (field "transaction_version" i64 col2_transaction_version $
     field "write_set_change_index" i64 col2_write_set_change_index $
     field "collection_id" text col2_collection_id $ field "creator_address" text col2_creator_address $
     field "collection_name" text col2_collection_name $ field "description" text col2_description $
     field "uri" text col2_uri $ field "current_supply" big_decimal col2_current_supply $
     field "max_supply" (optional big_decimal) col2_max_supply $
     field "total_minted_v2" (optional big_decimal) col2_total_minted_v2 $
     field "mutable_description" (optional boolean) col2_mutable_description $
     field "mutable_uri" (optional boolean) col2_mutable_uri $
     field "table_handle_v1" (optional text) col2_table_handle_v1 $
     field "token_standard" text col2_token_standard $
     field "transaction_timestamp" date_time col2_transaction_timestamp $ no_field)
    Build_CollectionV2.
#[export] Instance CurrentCollectionV2_serde : Derived CurrentCollectionV2 :=
  struct
    (field "collection_id" text ccol2_collection_id $ field "creator_address" text ccol2_creator_address $
     field "collection_name" text ccol2_collection_name $ field "description" text ccol2_description $
     field "uri" text ccol2_uri $ field "current_supply" big_decimal ccol2_current_supply $
     field "max_supply" (optional big_decimal) ccol2_max_supply $
     field "total_minted_v2" (optional big_decimal) ccol2_total_minted_v2 $
     field "mutable_description" (optional boolean) ccol2_mutable_description $
     field "mutable_uri" (optional boolean) ccol2_mutable_uri $
     field "table_handle_v1" (optional text) ccol2_table_handle_v1 $
     field "token_standard" text ccol2_token_standard $
     field "last_transaction_version" i64 ccol2_last_transaction_version $
     field "last_transaction_timestamp" date_time ccol2_last_transaction_timestamp $ no_field)
    Build_CurrentCollectionV2.
#[export] Instance TokenActivityV2_serde : Derived TokenActivityV2 :=
  struct
    (field "transaction_version" i64 ta2_transaction_version $ field "event_index" i64 ta2_event_index $
     field "event_account_address" text ta2_event_account_address $
     field "token_data_id" text ta2_token_data_id $
     field "property_version_v1" big_decimal ta2_property_version_v1 $ field "type_" text ta2_type $
     field "from_address" (optional text) ta2_from_address $
     field "to_address" (optional text) ta2_to_address $ field "token_amount" big_decimal ta2_token_amount $
     field "before_value" (optional text) ta2_before_value $
     field "after_value" (optional text) ta2_after_value $
     field "entry_function_id_str" (optional text) ta2_entry_function_id_str $
     field "token_standard" text ta2_token_standard $
     field "is_fungible_v2" (optional boolean) ta2_is_fungible_v2 $
     field "transaction_timestamp" date_time ta2_transaction_timestamp $ no_field)
    Build_TokenActivityV2.
#[export] Instance TokenDataV2_serde : Derived TokenDataV2 :=
  struct
    (field "transaction_version" i64 td2_transaction_version $
     field "write_set_change_index" i64 td2_write_set_change_index $
     field "token_data_id" text td2_token_data_id $ field "collection_id" text td2_collection_id $
     field "token_name" text td2_token_name $ field "maximum" (optional big_decimal) td2_maximum $
     field "supply" (optional big_decimal) td2_supply $
     field "largest_property_version_v1" (optional big_decimal) td2_largest_property_version_v1 $
     field "token_uri" text td2_token_uri $ field "token_properties" json td2_token_properties $
     field "description" text td2_description $ field "token_standard" text td2_token_standard $
     field "is_fungible_v2" (optional boolean) td2_is_fungible_v2 $
     field "transaction_timestamp" date_time td2_transaction_timestamp $
     field "decimals" (optional i64) td2_decimals $ no_field)
    Build_TokenDataV2.
#[export] Instance CurrentTokenDataV2_serde : Derived CurrentTokenDataV2 :=
  struct
    (field "token_data_id" text ctd2_token_data_id $ field "collection_id" text ctd2_collection_id $
     field "token_name" text ctd2_token_name $ field "maximum" (optional big_decimal) ctd2_maximum $
     field "supply" (optional big_decimal) ctd2_supply $
     field "largest_property_version_v1" (optional big_decimal) ctd2_largest_property_version_v1 $
     field "token_uri" text ctd2_token_uri $ field "token_properties" json ctd2_token_properties $
     field "description" text ctd2_description $ field "token_standard" text ctd2_token_standard $
     field "is_fungible_v2" (optional boolean) ctd2_is_fungible_v2 $
     field "last_transaction_version" i64 ctd2_last_transaction_version $
     field "last_transaction_timestamp" date_time ctd2_last_transaction_timestamp $
     field "decimals" (optional i64) ctd2_decimals $
     field "is_deleted_v2" (optional boolean) ctd2_is_deleted_v2 $ no_field)
    Build_CurrentTokenDataV2.
#[export] Instance CurrentTokenV2Metadata_serde : Derived CurrentTokenV2Metadata :=
  struct
    (field "object_address" text ctm_object_address $ field "resource_type" text ctm_resource_type $
     field "data" json ctm_data $ field "state_key_hash" text ctm_state_key_hash $
     field "last_transaction_version" i64 ctm_last_transaction_version $ no_field)
    Build_CurrentTokenV2Metadata.
#[export] Instance TokenOwnershipV2_serde : Derived TokenOwnershipV2 :=
  struct
    (field "transaction_version" i64 to2_transaction_version $
     field "write_set_change_index" i64 to2_write_set_change_index $
     field "token_data_id" text to2_token_data_id $
     field "property_version_v1" big_decimal to2_property_version_v1 $
     field "owner_address" (optional text) to2_owner_address $ field "storage_id" text to2_storage_id $
     field "amount" big_decimal to2_amount $ field "table_type_v1" (optional text) to2_table_type_v1 $
     field "token_properties_mutated_v1" (optional json) to2_token_properties_mutated_v1 $
     field "is_soulbound_v2" (optional boolean) to2_is_soulbound_v2 $
     field "token_standard" text to2_token_standard $
     field "is_fungible_v2" (optional boolean) to2_is_fungible_v2 $
     field "transaction_timestamp" date_time to2_transaction_timestamp $
     field "non_transferrable_by_owner" (optional boolean) to2_non_transferrable_by_owner $ no_field)
    Build_TokenOwnershipV2.
#[export] Instance CurrentTokenOwnershipV2_serde : Derived CurrentTokenOwnershipV2 :=
  struct
    (field "token_data_id" text cto2_token_data_id $
     field "property_version_v1" big_decimal cto2_property_version_v1 $
     field "owner_address" text cto2_owner_address $ field "storage_id" text cto2_storage_id $
     field "amount" big_decimal cto2_amount $ field "table_type_v1" (optional text) cto2_table_type_v1 $
     field "token_properties_mutated_v1" (optional json) cto2_token_properties_mutated_v1 $
     field "is_soulbound_v2" (optional boolean) cto2_is_soulbound_v2 $
     field "token_standard" text cto2_token_standard $
     field "is_fungible_v2" (optional boolean) cto2_is_fungible_v2 $
     field "last_transaction_version" i64 cto2_last_transaction_version $
     field "last_transaction_timestamp" date_time cto2_last_transaction_timestamp $
     field "non_transferrable_by_owner" (optional boolean) cto2_non_transferrable_by_owner $ no_field)
    Build_CurrentTokenOwnershipV2.
#[export] Instance EventSize_serde : Derived EventSize :=
  struct
    (field "transaction_version" i64 evs_transaction_version $ field "index" i64 evs_index $
     field "type_tag_bytes" i64 evs_type_tag_bytes $ field "total_bytes" i64 evs_total_bytes $ no_field)
    Build_EventSize.
#[export] Instance TransactionSize_serde : Derived TransactionSize :=
  struct
    (field "transaction_version" i64 tsz_transaction_version $ field "size_bytes" i64 tsz_size_bytes $ no_field)
    Build_TransactionSize.
#[export] Instance WriteSetSize_serde : Derived WriteSetSize :=
  struct
    (field "transaction_version" i64 wss_transaction_version $ field "index" i64 wss_index $
     field "key_bytes" i64 wss_key_bytes $ field "value_bytes" i64 wss_value_bytes $ no_field)
    Build_WriteSetSize.
#[export] Instance Signature_serde : Derived Signature :=
  struct
    (field "transaction_version" i64 sig_transaction_version $
     field "multi_agent_index" i64 multi_agent_index $ field "multi_sig_index" i64 multi_sig_index $
     field "transaction_block_height" i64 sig_transaction_block_height $ field "signer" text signer $
     field "is_sender_primary" boolean is_sender_primary $ field "type_" text sig_type $
     field "public_key" text public_key $ field "signature" text signature $ field "threshold" i64 threshold $
     field "public_key_indices" json public_key_indices $ no_field)
    Build_Signature.
#[export] Instance UserTransaction_serde : Derived UserTransaction :=
  struct
    (field "version" i64 ut_version $ field "block_height" i64 ut_block_height $
     field "parent_signature_type" text parent_signature_type $ field "sender" text ut_sender $
     field "sequence_number" i64 ut_sequence_number $ field "max_gas_amount" big_decimal max_gas_amount $
     field "expiration_timestamp_secs" date_time expiration_timestamp_secs $
     field "gas_unit_price" big_decimal gas_unit_price $ field "timestamp" date_time ut_timestamp $
     field "entry_function_id_str" text entry_function_id_str $ field "epoch" i64 ut_epoch $ no_field)
    Build_UserTransaction.
End Models.
