(* ===== verification/Cleaning.v ===== *)
(** * Cleaned texts

    What [remove_null_bytes] should do to a text and to a JSON value, stated
    without its functions: the NUL characters are deleted, and then, from left to
    right, each occurrence of the six characters that escape one.  The code's
    functions compute exactly this. *)
From Stdlib Require Import Ascii.
From S2P Require Import Prelude RustStr Json Util SerdeLaws.

(** ** The reference *)

Definition nul_escape : string := "\u0000".

(** [erased lit s s']: [s'] is [s] without the occurrences of [lit]. *)
Inductive erased (lit : string) : string -> string -> Prop :=
| erased_end : erased lit EmptyString EmptyString
| erased_hit s s' : erased lit s s' -> erased lit (lit +:+ s) s'
| erased_keep c s s' : (forall t, String c s <> lit +:+ t) -> erased lit s s' -> erased lit (String c s) (String c s').

(** The characters of [t] are those of [s] that are not NUL. *)
Definition without_nul (s t : string) : Prop :=
  String.list_ascii_of_string t = filter (fun c => c <> zero) (String.list_ascii_of_string s).
Definition cleaned_text (s s' : string) : Prop := exists t, without_nul s t /\ erased nul_escape t s'.

(** Texts are cleaned at any depth; keys and all other values stay. *)
Inductive cleaned_json : Value -> Value -> Prop :=
| cleaned_null : cleaned_json Null Null
| cleaned_bool b : cleaned_json (Bool b) (Bool b)
| cleaned_number n : cleaned_json (Number n) (Number n)
| cleaned_str s s' : cleaned_text s s' -> cleaned_json (Str s) (Str s')
| cleaned_array l l' : Forall2 cleaned_json l l' -> cleaned_json (Array l) (Array l')
| cleaned_object o o' : Forall2 (fun kv kv' => kv'.1 = kv.1 /\ cleaned_json kv.2 kv'.2) o o' ->
    cleaned_json (Object o) (Object o').

(** ** The code computes it *)

Lemma remove_go_skip pat p s : remove_go pat (String.length p) (p +:+ s) = remove_go pat 0 s.
Proof. induction p as [|c p IH]; [done|]. exact IH. Qed.
Lemma remove_all_hit c p s : remove_all (String c p) (String c p +:+ s) = remove_all (String c p) s.
Proof.
  unfold remove_all. change (String c p +:+ s) with (String c (p +:+ s)). cbn [remove_go].
  change (String c (p +:+ s)) with (String c p +:+ s). rewrite starts_with_app. apply remove_go_skip.
Qed.
Lemma remove_all_keep pat c s :
  (forall t, String c s <> pat +:+ t) -> remove_all pat (String c s) = String c (remove_all pat s).
Proof.
  intros Hno. unfold remove_all. cbn [remove_go]. destruct (starts_with pat (String c s)) eqn:Hs; [|done].
  apply starts_with_spec in Hs as [t Ht]. by destruct (Hno t).
Qed.

Lemma erased_remove_all c p s s' : erased (String c p) s s' <-> s' = remove_all (String c p) s.
Proof.
  split.
  - induction 1 as [|s s' _ ->|d s s' Hno _ ->]; [done|by rewrite remove_all_hit|by rewrite remove_all_keep].
  - intros ->. remember (String.length s) as n eqn:Hn. revert s Hn.
    induction n as [n IH] using lt_wf_ind. intros [|d s] ->; [apply erased_end|].
    destruct (starts_with (String c p) (String d s)) eqn:Hs.
    + apply starts_with_spec in Hs as [t Ht]. rewrite Ht, remove_all_hit. apply erased_hit.
      eapply IH; [|done]. simpl in Ht. injection Ht as -> ->. simpl. rewrite length_str_app. lia.
    + assert (forall t, String d s <> String c p +:+ t) as Hno.
      { intros t Ht. assert (starts_with (String c p) (String d s) = true) by (apply starts_with_spec; by exists t). congruence. }
      rewrite remove_all_keep by done. apply erased_keep; [done|]. eapply IH; [|done]. simpl. lia.
Qed.

Lemma without_nul_remove s t : without_nul s t <-> t = remove_all nul_str s.
Proof.
  assert (without_nul s (remove_all nul_str s)) as Hr.
  { unfold without_nul. induction s as [|c s IH]; [done|]. simpl. rewrite filter_cons.
    case_decide as Hc.
    - unfold nul_str. rewrite remove_all_keep; [simpl; by f_equal|]. intros x Hx. simpl in Hx. by injection Hx as ->.
    - subst c. change (String zero s) with (nul_str +:+ s). unfold nul_str.
      rewrite remove_all_hit. exact IH. }
  split; [|by intros ->]. unfold without_nul in *. intros Ht. rewrite <- Hr in Ht.
  rewrite <- (String.string_of_list_ascii_of_string t), Ht. apply String.string_of_list_ascii_of_string.
Qed.

Lemma cleaned_text_replacement s s' : cleaned_text s s' <-> s' = string_null_byte_replacement s.
Proof.
  unfold cleaned_text, string_null_byte_replacement. split.
  - intros (t & ->%without_nul_remove & ->%erased_remove_all). done.
  - intros ->. eexists. split; [by apply without_nul_remove|by apply erased_remove_all].
Qed.

Lemma cleaned_json_scrub v v' : cleaned_json v v' <-> v' = recurse_remove_null_bytes_from_json v.
Proof.
  split.
  - revert v'. induction v as [| | |s|l IH|o IH] using Value_rect'; intros v'; inversion_clear 1 as [| | |? ? Hs|? ? Hl|? ? Ho]; try done.
    + apply cleaned_text_replacement in Hs as ->. by rewrite scrub_str.
    + simpl. f_equal. revert IH. induction Hl as [|x y l l' Hx _ IHl]; intros IH; [done|].
      apply Forall_cons in IH as [IHx IH]. simpl. f_equal; auto.
    + simpl. f_equal. revert IH. induction Ho as [|[k x] [k' y] l l' [Hk Hx] _ IHl]; intros IH; [done|].
      apply Forall_cons in IH as [IHx IH]. simpl in *. subst k'. f_equal; [|by auto]. f_equal. auto.
  - intros ->. induction v as [| | |s|l IH|o IH] using Value_rect'; try constructor.
    + rewrite scrub_str. constructor. by apply cleaned_text_replacement.
    + induction IH; simpl; by constructor.
    + induction IH as [|[k x] o Hx _ IHo]; simpl; constructor; done.
Qed.
