(* ===== verification/RowsSerdeLaws.v ===== *)
(** * The models as JSON: columns

    What cleaning the JSON of a row does to the columns it is written to. *)
From S2P Require Import Prelude RustStr Json Externals Proto Util Serde SerdeLaws Database Schema SharedTable Processors.
From S2P Require Import Signatures UserTransactions Events DefaultModels DefaultProcessor AccountTransactions Objects Coins FungibleAssets Stake Ans TokensV1 TokensV2 TransactionMetadata Rows RowsSerde Cleaning.


Section Columns.
Context `{SerdeCratesLaws, JsonText}.

(** ** Columns *)

(** The values of the Rust types: integers of their width, JSON objects with
    distinct keys. *)
Definition sql_valid (v : SqlValue) : Prop :=
  match v with
  | VInt8 z => in_i64 z
  | VInt4 z => (-2147483648 <= z <= 2147483647)%Z
  | VJsonb j => distinct j = true
  | _ => True
  end.
Definition clean_sql (v : SqlValue) : SqlValue :=
  match v with
  | VText s => VText (string_null_byte_replacement s)
  | VJsonb j => VJsonb (recurse_remove_null_bytes_from_json j)
  | _ => v
  end.
(** A JSON null in a column that can be NULL becomes NULL. *)
Definition scrubbed_column (v v' : SqlValue) : Prop := v' = clean_sql v \/ v = VJsonb Null /\ v' = VNull.
(** The same without the functions of the code: texts and the texts of JSON values
    are cleaned, a JSON null may become NULL, every other value stays. *)
Inductive cleaned_column : SqlValue -> SqlValue -> Prop :=
| cleaned_VText s s' : cleaned_text s s' -> cleaned_column (VText s) (VText s')
| cleaned_VJsonb j j' : cleaned_json j j' -> cleaned_column (VJsonb j) (VJsonb j')
| cleaned_VNull : cleaned_column (VJsonb Null) VNull
| cleaned_other v : (forall s, v <> VText s) -> (forall j, v <> VJsonb j) -> cleaned_column v v.
Lemma cleaned_scrubbed v v' : cleaned_column v v' <-> scrubbed_column v v'.
Proof.
  split.
  - destruct 1 as [s s' ->%cleaned_text_replacement|j j' ->%cleaned_json_scrub| |v Ht Hj]; [by left|by left|by right|].
    left. destruct v as [| | | | |j| |t|]; simpl; try done; [by destruct (Hj j)|by destruct (Ht t)].
  - intros [->|[-> ->]]; [|constructor]. destruct v; simpl;
      solve [constructor; by apply cleaned_json_scrub|constructor; by apply cleaned_text_replacement|by apply cleaned_other].
Qed.

(** A field, as JSON and as a column. *)
Class ColumnSpec {T} (c : Codec T) `{!CodecSpec c} (sql : T -> SqlValue) : Prop := {
  column_valid : forall x, sql_valid (sql x) -> valid c x;
  column_cleaned : forall x, scrubbed_column (sql x) (sql (cleaned c x));
  column_null : forall x, ser c x = Null -> sql x = VJsonb Null \/ sql x = VNull;
}.
Ltac column := split; [by intros|by left|by intros].
#[export] Instance i64_column : ColumnSpec i64 (to_sql (T := Z)).
Proof. split; [intros z; simpl; unfold in_i64; lia|by left|done]. Qed.
#[export] Instance i32_column : ColumnSpec i32 VInt4.
Proof. column. Qed.
#[export] Instance boolean_column : ColumnSpec boolean (to_sql (T := bool)).
Proof. column. Qed.
#[export] Instance text_column : ColumnSpec text (to_sql (T := string)).
Proof. column. Qed.
#[export] Instance json_column : ColumnSpec json (to_sql (T := Value)).
Proof. split; [done|by left|]. intros v Hv. left. simpl in Hv. unfold id in Hv. by subst. Qed.
#[export] Instance date_time_column : ColumnSpec date_time (to_sql (T := NaiveDateTime)).
Proof. column. Qed.
#[export] Instance big_decimal_column : ColumnSpec big_decimal (to_sql (T := BigDecimal)).
Proof. column. Qed.
#[export] Instance byte_vec_column : ColumnSpec byte_vec VBytea.
Proof. column. Qed.
Lemma from_option_column {T} (c : Codec T) `{!CodecSpec c} (sql : T -> SqlValue) :
  ColumnSpec c sql -> ColumnSpec (optional c) (from_option sql VNull).
Proof.
  intros Hc. split.
  - intros [x|]; [exact (column_valid (sql := sql) x)|done].
  - intros [x|]; [|by left]. simpl. unfold cleaned_option. simpl.
    assert (ser c x = Null \/ ser c x ≠ Null) as [Hn|Hn] by (destruct (ser c x); auto).
    + rewrite Hn. destruct (column_null (c := c) x Hn) as [->| ->]; [by right|by left].
    + assert (match ser c x with Null => None | _ => Some (cleaned c x) end = Some (cleaned c x)) as ->
        by (by destruct (ser c x)). exact (column_cleaned (sql := sql) x).
  - intros [x|] Hx; [exact (column_null (sql := sql) x Hx)|by right].
Qed.
#[export] Instance optional_column {T} (c : Codec T) `{!CodecSpec c, !ToSql T} :
  ColumnSpec c (to_sql (T := T)) -> ColumnSpec (optional c) (to_sql (T := option T)) := from_option_column c to_sql.
#[export] Instance optional_bytes_column : ColumnSpec (optional byte_vec) (from_option VBytea VNull) :=
  from_option_column byte_vec VBytea _.

(** The row that [remove_null_bytes] makes of a valid row. *)
Definition cleaned_row {row} `{!Insertable row, !Derived row} (r r' : row) : Prop :=
  @remove_null_bytes row derived_serialize derived_deserialize r = Ret r' /\
  Forall2 (fun kv kv' => kv'.1 = kv.1 /\ cleaned_column kv.2 kv'.2) (insert_values r) (insert_values r').
End Columns.

Ltac names_distinct := apply (bool_decide_unpack _); vm_compute; exact I.
Ltac derived_clean_goal :=
  lazymatch goal with
  | |- @remove_null_bytes _ (@derived_serialize _ ?D) _ ?r = _ =>
      let d := eval red in D in
      lazymatch d with struct ?fs ?new => refine (derived_clean fs new D r eq_refl _ _) end
  end.
Ltac by_column tac :=
  first [tac (to_sql (T := Z)) | tac (to_sql (T := string)) | tac (to_sql (T := bool)) | tac (to_sql (T := Value))
        |tac (to_sql (T := BigDecimal)) | tac (to_sql (T := NaiveDateTime)) | tac constr:(VInt4 : Z -> SqlValue)
        |tac (to_sql (T := option Z)) | tac (to_sql (T := option string)) | tac (to_sql (T := option bool))
        |tac (to_sql (T := option Value)) | tac (to_sql (T := option BigDecimal))
        |tac (to_sql (T := option NaiveDateTime)) | tac (from_option VBytea VNull)].
