(* ===== verification/Retries.v ===== *)
(** * Retried chunks

    A chunk that the server refuses is cleaned and sent again
    ([execute_or_retry_cleaned]).  With the derived serialization of the models:
    what a successful call has stored, and a row that no retry can store. *)
From Stdlib Require Import Ascii.
From S2P Require Import Prelude RustStr Json Externals Proto Util Serde SerdeLaws Database Schema SharedTable Processors.
From S2P Require Import Signatures UserTransactions Events DefaultModels DefaultProcessor AccountTransactions Objects Coins FungibleAssets Stake Ans TokensV1 TokensV2 TransactionMetadata Rows RowsSerde RowsSerdeLaws.

(** ** Keys *)

(** Cleaning a primary key. *)
Class KeyClean (key : Type) := key_clean : key -> key.
#[export] Instance Z_clean : KeyClean Z := id.
#[export] Instance bool_clean : KeyClean bool := id.
#[export] Instance string_clean : KeyClean string := string_null_byte_replacement.
#[export] Instance BigDecimal_clean `{BigDec} : KeyClean BigDecimal := id.
#[export] Instance pair_clean `{KeyClean A, KeyClean B} : KeyClean (A * B) := fun k => (key_clean k.1, key_clean k.2).

Section Statements.
Context `{SerdeCratesLaws, JsonText}.

Inductive CleanStatement :=
| clean_statement {row key : Type} `{Countable key} `{!Insertable row, !Derived row, !KeyClean key} (u : Upsert row key).
Definition clean_statements `{!BigDecKey} : list CleanStatement :=
  [clean_statement insert_account_transactions_query; clean_statement insert_current_ans_lookups_query;
   clean_statement insert_ans_lookups_query; clean_statement insert_current_ans_primary_names_query;
   clean_statement insert_ans_primary_names_query; clean_statement insert_current_ans_lookups_v2_query;
   clean_statement insert_ans_lookups_v2_query; clean_statement insert_current_ans_primary_names_v2_query;
   clean_statement insert_ans_primary_names_v2_query; clean_statement insert_coin_activities_query;
   clean_statement insert_coin_infos_query; clean_statement insert_coin_balances_query;
   clean_statement insert_current_coin_balances_query; clean_statement insert_coin_supply_query;
   clean_statement insert_transactions_query; clean_statement insert_block_metadata_transactions_query;
   clean_statement insert_write_set_changes_query; clean_statement insert_move_modules_query;
   clean_statement insert_move_resources_query; clean_statement insert_table_items_query;
   clean_statement insert_current_table_items_query; clean_statement insert_table_metadata_query;
   clean_statement insert_events_query; clean_statement insert_fungible_asset_activities_query;
   clean_statement insert_fungible_asset_metadata_query; clean_statement insert_fungible_asset_balances_query;
   clean_statement insert_current_fungible_asset_balances_query; clean_statement insert_objects_query;
   clean_statement insert_current_objects_query; clean_statement insert_current_stake_pool_voter_query;
   clean_statement insert_proposal_votes_query; clean_statement insert_delegator_activities_query;
   clean_statement insert_delegator_balances_query; clean_statement insert_current_delegator_balances_query;
   clean_statement insert_delegator_pools_query; clean_statement insert_delegator_pool_balances_query;
   clean_statement insert_current_delegator_pool_balances_query;
   clean_statement insert_current_delegated_voter_query; clean_statement insert_tokens_query;
   clean_statement insert_token_ownerships_query; clean_statement insert_token_datas_query;
   clean_statement insert_collection_datas_query; clean_statement insert_current_token_ownerships_query;
   clean_statement insert_current_token_datas_query; clean_statement insert_current_collection_datas_query;
   clean_statement insert_token_activities_query; clean_statement insert_current_token_claims_query;
   clean_statement insert_nft_points_query; clean_statement insert_collections_v2_query;
   clean_statement insert_token_datas_v2_query; clean_statement insert_token_ownerships_v2_query;
   clean_statement insert_current_collections_v2_query; clean_statement insert_current_token_datas_v2_query;
   clean_statement insert_current_deleted_token_datas_v2_query;
   clean_statement insert_current_token_ownerships_v2_query;
   clean_statement insert_current_deleted_token_ownerships_v2_query;
   clean_statement insert_token_activities_v2_query; clean_statement insert_current_token_v2_metadatas_query;
   clean_statement insert_transaction_sizes_query; clean_statement insert_event_sizes_query;
   clean_statement insert_write_set_sizes_query; clean_statement insert_user_transactions_query;
   clean_statement insert_signatures_query].

Definition row_valid {row} `{!Insertable row} (r : row) : Prop :=
  Forall (fun kv => sql_valid kv.2) (insert_values r).

Ltac statement_cleaned :=
  let r := fresh "r" in let Hr := fresh "Hr" in
  intros r Hr; unfold row_valid in Hr; eexists; split; [split|];
  [derived_clean_goal; [names_distinct|]; simpl in Hr;
   repeat (let Hc := fresh "Hc" in apply Forall_cons in Hr as [Hc Hr];
           cbn [valid_fields field_spec]; split; [by_column ltac:(fun sql => exact (column_valid (sql := sql) _ Hc))|]); exact I
  |cbn [clean_fields field_spec no_field_spec];
   repeat (apply Forall2_cons_2; [split; [reflexivity|by_column ltac:(fun sql => exact (proj2 (cleaned_scrubbed _ _) (column_cleaned (sql := sql) _)))]|]); once constructor
  |reflexivity].

(** Cleaning a row cleans its key. *)
Lemma statements_cleaned `{!BigDecKey} :
  Forall (fun s => match s with clean_statement u => forall r, row_valid r ->
    exists r', cleaned_row r r' /\ up_key u r' = key_clean (up_key u r) end) clean_statements.
Proof. unfold clean_statements. do 63 (apply Forall_cons; split; [once statement_cleaned|]). constructor. Qed.

(** The keys of all objects of a JSON value, and whether a column of a row has
    one with a NUL byte in it. *)
Fixpoint json_keys (v : Value) : list string :=
  match v with
  | Array l => concat (map json_keys l)
  | Json.Object o => o.*1 ++ concat (map (fun kv => json_keys kv.2) o)
  | _ => []
  end.
Definition has_nul (s : string) : bool := contains nul_str s.
Definition has_nul_key {row} `{!Insertable row} (r : row) : bool :=
  existsb (fun kv => match kv.2 with VJsonb v => existsb has_nul (json_keys v) | _ => false end) (insert_values r).
Lemma json_keys_scrub v : json_keys (recurse_remove_null_bytes_from_json v) = json_keys v.
Proof.
  induction v as [| | |s|l IH|o IH] using Value_rect'; simpl; try done; [by destruct s|..].
  - f_equal. rewrite map_map. induction IH as [|x l Hx _ IHl]; simpl; [done|]. by f_equal.
  - rewrite scrub_keys. do 2 f_equal. rewrite map_map. induction IH as [|x l Hx _ IHl]; simpl; [done|]. by f_equal.
Qed.

(** ** What a successful call has stored *)

Section OneStatement.
#[local] Existing Instance derived_serialize.
#[local] Existing Instance derived_deserialize.
Context {row key : Type} `{Countable key} `{!Insertable row, !Derived row, !KeyClean key} (u : Upsert row key).
Context `{!PgTable row key, !DebugQuery row key}.
Hypothesis Hclean : forall r, row_valid r -> exists r', cleaned_row r r' /\ up_key u r' = key_clean (up_key u r).

Lemma cleaned_chunk (c rows : list row) :
  Forall row_valid c -> clean_data_for_db c true = Ret rows -> Forall2 cleaned_row c rows.
Proof.
  intros Hv Hc%traverse_Ret. induction Hc as [|r r' c rows Hr _ IH]; [constructor|].
  apply Forall_cons in Hv as [Hv Hvs]. constructor; [|by apply IH].
  destruct (Hclean r Hv) as (r'' & Hc' & _). pose proof Hc' as [Hr'' _]. rewrite Hr'' in Hr. by injection Hr as <-.
Qed.


(** ** Keys of JSON objects

    Cleaning leaves the keys of objects as they are. *)
Lemma cleaned_row_nul_key (r r' : row) : cleaned_row r r' -> has_nul_key r = true -> has_nul_key r' = true.
Proof.
  intros [_ Hc]. unfold has_nul_key. induction Hc as [|[k v] [k' v'] l l' [_ Hv] _ IH]; simpl; [done|].
  intros [Hk|Hl]%orb_true_iff; apply orb_true_iff; [left|right; auto]. simpl in *.
  apply cleaned_scrubbed in Hv as [->|[-> ->]]; [|by simpl in Hk]. destruct v; simpl in *; try done. by rewrite json_keys_scrub.
Qed.

(** A task that has such a row cannot succeed on a server that refuses it. *)
Definition stuck_task (t : WriteTask) : Prop :=
  match t with
  | FirstTry c => Exists (fun r => has_nul_key r = true) c /\ Forall row_valid c
  | Retry c => Exists (fun r => has_nul_key r = true) c
  | Finished (Ok _) => False
  | _ => True
  end.
Hypothesis Hrefuse : forall v rows s, Exists (fun r => has_nul_key r = true) rows -> (pg_execute v rows s).2 = Err.

Lemma stuck_step t s t' s' : stuck_task t -> write_task_step u t s = (t', s') -> stuck_task t'.
Proof.
  unfold write_task_step, execute_with_better_error. destruct t as [c|c|[]|]; intros Ht Hs; simplify_eq/=; try done.
  - destruct Ht as [Hb Hv]. pose proof (Hrefuse (set_where u (additional_where u c)) c s Hb) as He.
    destruct (pg_execute _ c s) as [s1 r1]. simpl in He. subst r1.
    destruct (traverse remove_null_bytes c) as [rows|] eqn:Hc; simplify_eq; simpl; [|done].
    apply cleaned_chunk in Hc; [|done]. clear -Hb Hc.
    induction Hc as [|r r' c rows Hr _ IH]; [by apply Exists_nil in Hb|].
    apply Exists_cons in Hb as [Hb|Hb]; [left; by eapply cleaned_row_nul_key|right; auto].
  - pose proof (Hrefuse (set_where u (additional_where u c)) c s Ht) as He.
    destruct (pg_execute _ c s) as [s1 r1]. simpl in He. subst r1. by simplify_eq.
Qed.
Lemma stuck_steps i ts s ts' s' :
  rtc (tasks_step u) (ts, s) (ts', s') -> (exists t, ts !! i = Some t /\ stuck_task t) ->
  exists t, ts' !! i = Some t /\ stuck_task t.
Proof.
  intros Hr. remember (ts, s) as a eqn:Ha. remember (ts', s') as b eqn:Hb.
  revert ts s Ha ts' s' Hb. induction Hr as [a|a b c Hs _ IH]; intros ts s -> ts' s' Hb; [by simplify_eq|].
  intros (t & Ht & Hst). inversion Hs as [j ts0 t0 s0 t1 s1 Hj Hd Hw Heq1 Heq2]; subst. eapply IH; [done..|].
  destruct (decide (j = i)) as [->|Hne].
  - exists t1. rewrite list_lookup_insert_eq by (by eapply lookup_lt_Some). split; [done|].
    rewrite Ht in Hj. injection Hj as ->. by eapply stuck_step.
  - exists t. by rewrite list_lookup_insert_ne.
Qed.
Lemma stuck_call (items : list row) n r s s' :
  Forall row_valid items -> r ∈ items -> has_nul_key r = true -> ~ execute_in_chunks u items n s s' (Ret (Ok tt)).
Proof.
  intros Hv Hr Hk Hex. unfold execute_in_chunks, spawn_chunks in Hex. case_decide as Hn; [naive_solver|].
  destruct Hex as (ts' & Hsteps & Hj%join_tasks_ok).
  rewrite <- (chunks_concat n items) in Hv, Hr by lia. apply Forall_concat in Hv.
  apply list_elem_of_In, in_concat in Hr as (c & Hc & Hr). apply list_elem_of_In in Hc, Hr.
  apply list_elem_of_lookup in Hc as [i Hi].
  destruct (stuck_steps i _ _ _ _ Hsteps) as (t & Ht & Hst).
  - exists (FirstTry c). rewrite list_lookup_fmap, Hi. split; [done|]. split.
    + apply Exists_exists. by exists r.
    + rewrite Forall_lookup in Hv. by eapply Hv.
  - rewrite Forall_lookup in Hj. by rewrite (Hj i t Ht) in Hst.
Qed.
End OneStatement.

(** ** The statements of the processors *)

#[local] Existing Instance derived_serialize.
#[local] Existing Instance derived_deserialize.

Definition nul_free (v : SqlValue) : Prop :=
  match v with
  | VText s => zero ∉ String.list_ascii_of_string s
  | VJsonb j => Forall (fun s => zero ∉ String.list_ascii_of_string s) (json_strings j)
  | _ => True
  end.
Lemma scrub_nul_free v : Forall (fun s => zero ∉ String.list_ascii_of_string s) (json_strings (recurse_remove_null_bytes_from_json v)).
Proof.
  induction v as [| | |s|l IH|o IH] using Value_rect'; simpl; try by constructor.
  - destruct s; simpl; (constructor; [|done]); [set_solver|apply replacement_no_nul].
  - rewrite map_map. by apply Forall_concat_map.
  - rewrite map_map. simpl. by apply Forall_concat_map.
Qed.
Lemma cleaned_nul_free v v' : cleaned_column v v' -> nul_free v'.
Proof.
  intros [->|[-> ->]]%cleaned_scrubbed; [|done]. destruct v; simpl; try done; [apply scrub_nul_free|apply replacement_no_nul].
Qed.

(** C11: a retried row is the row without its NUL bytes.  For each of the 63
    statements that are run in chunks and each row of the Rust types: writing
    the row to JSON, cleaning it and reading it back does not panic.  Every column
    keeps its value except that a text, and a string at any depth of a JSON value,
    loses exactly its NUL characters and then, from left to right, the literal six
    characters that JSON escapes one with, and that a JSON null becomes NULL where
    the column can be NULL; the keys of JSON objects stay.  No text and no JSON
    string of the result has a NUL byte, and its key is the cleaned key. *)
Theorem retried_rows_cleaned `{!BigDecKey} :
  Forall (fun s => match s with clean_statement u => forall r, row_valid r ->
    exists r', remove_null_bytes r = Ret r' /\
      Forall2 (fun kv kv' => kv'.1 = kv.1 /\ cleaned_column kv.2 kv'.2) (insert_values r) (insert_values r') /\
      Forall (fun kv => nul_free kv.2) (insert_values r') /\
      up_key u r' = key_clean (up_key u r) end) clean_statements.
Proof.
  eapply Forall_impl; [exact statements_cleaned|]. intros [row key ? ? Hi Hd Hk u] Hs r Hr.
  destruct (Hs r Hr) as (r' & [Hc Hcols] & Hkey). exists r'. split_and!; try done.
  induction Hcols as [|kv kv' l l' [_ Hv] _ IH]; constructor; [by eapply cleaned_nul_free|exact IH].
Qed.


(** C34: a NUL byte in the key of a JSON object blocks a batch.  PostgreSQL
    refuses a jsonb value with such a key, and cleaning only looks at the values of
    an object: whatever the statement, the chunk size, the interleaving of the tasks
    and the other rows, a call with such a row never returns success. *)
Theorem nul_key_never_stored `{!BigDecKey} :
  Forall (fun s => match s with @clean_statement row key _ _ _ _ _ u =>
    forall (T : PgTable row key) (D : DebugQuery row key) (items : list row) n r s s',
      (forall v rows s, Exists (fun r => has_nul_key r = true) rows -> (pg_execute v rows s).2 = Err) ->
      Forall row_valid items -> r ∈ items -> has_nul_key r = true ->
      ~ execute_in_chunks u items n s s' (Ret (Ok tt)) end) clean_statements.
Proof.
  eapply Forall_impl; [exact statements_cleaned|]. intros [row key ? ? Hi Hd Hk u] Hs T D items n r s s'.
  intros Hrefuse. by apply stuck_call.
Qed.
End Statements.

(** ** Concrete rows *)

Section ConcreteRetries.
(** Numbers and times as strokes. *)
Definition strokes (z : Z) : string :=
  (if decide (z < 0)%Z then "-" else EmptyString) +:+ repeat_char "1" (Z.to_nat (Z.abs z)).
Definition count_strokes (s : string) : option Z :=
  match strip_prefix "-" s with
  | Some t => Some (- Z.of_nat (String.length t))%Z
  | None => Some (Z.of_nat (String.length s))
  end.
Lemma count_strokes_text z : count_strokes (strokes z) = Some z.
Proof.
  unfold strokes, count_strokes. case_decide as Hz.
  - change (Some (- Z.of_nat (String.length (repeat_char "1" (Z.to_nat (Z.abs z)))))%Z = Some z).
    rewrite length_repeat_char. f_equal. lia.
  - assert (strip_prefix "-" (repeat_char "1" (Z.to_nat (Z.abs z))) = None) as Hs by (by destruct (Z.to_nat (Z.abs z))).
    change (EmptyString +:+ ?t) with t. rewrite Hs, length_repeat_char. f_equal. lia.
Qed.
Lemma contains_head c p s : c ∉ String.list_ascii_of_string s -> contains (String c p) s = false.
Proof.
  intros Hc. destruct (contains (String c p) s) eqn:Hd; [|done]. exfalso.
  apply contains_spec in Hd as (s1 & s2 & ->). apply Hc. clear. induction s1 as [|a s1 IH]; simpl; [left|by right].
Qed.
Lemma strokes_plain z : string_null_byte_replacement (strokes z) = strokes z.
Proof.
  assert (forall c, c ∈ String.list_ascii_of_string (strokes z) -> c = "1"%char \/ c = "-"%char) as Hc.
  { intros c. unfold strokes. case_decide; simpl; [intros [->|Hc]%elem_of_cons; [by right|]|intros Hc]; left;
      revert Hc; induction (Z.to_nat (Z.abs z)) as [|n IH]; simpl; try (by intros ?%elem_of_nil);
      by intros [->|Hc]%elem_of_cons; auto. }
  apply replacement_id; apply contains_head; intros Hin; by destruct (Hc _ Hin).
Qed.
Definition stroke_chrono : Chrono :=
  {| NaiveDateTime := Z; from_timestamp_opt := fun s _ => Some s; format_iso := strokes; naive_default := 0%Z |}.
Definition stroke_bigdec : BigDec :=
  {| BigDecimal := Z; BigDecimal_dec := numbers.Z.eq_dec; bd_from_u64 := id; bd_zero := 0%Z;
     bd_is_negative := fun z => bool_decide (z < 0)%Z;
     bd_to_u64 := fun z => if decide (in_u64 z) then Some z else None;
     bd_parse := count_strokes; bd_to_string := strokes;
     bd_div := fun a b => if decide (b = 0%Z) then None else Some (a / b)%Z |}.
Definition stroke_key : @BigDecKey stroke_bigdec := @Build_BigDecKey stroke_bigdec Z_countable Z_key Z_key_laws.
Definition stroke_crates : @SerdeCrates stroke_chrono stroke_bigdec :=
  @Build_SerdeCrates stroke_chrono stroke_bigdec strokes count_strokes (fun _ => None).
#[local] Existing Instance stroke_chrono.
#[local] Existing Instance stroke_bigdec.
#[local] Existing Instance stroke_key.
#[local] Existing Instance stroke_crates.
#[local] Instance stroke_laws : SerdeCratesLaws.
Proof. split; intros; apply count_strokes_text || apply strokes_plain. Defined.
#[local] Instance no_text : JsonText := fun _ => None.
#[local] Existing Instance derived_serialize.
#[local] Existing Instance derived_deserialize.

Definition ex_properties_row (name : string) (properties : Value) : TokenData :=
  {| tda_token_data_id_hash := "ab"; tda_transaction_version := 7; tda_creator_address := "0x1";
     tda_collection_name := "c"; tda_name := name; tda_maximum := 1%Z; tda_supply := 1%Z;
     tda_largest_property_version := 0%Z; tda_metadata_uri := "u"; tda_payee_address := "0x1";
     tda_royalty_points_numerator := 0%Z; tda_royalty_points_denominator := 1%Z; tda_maximum_mutable := false;
     tda_uri_mutable := false; tda_description_mutable := false; tda_properties_mutable := false;
     tda_royalty_mutable := false; tda_default_properties := properties; tda_collection_data_id_hash := "cd";
     tda_transaction_timestamp := 1%Z; tda_description := "d" |}.

(** A server that refuses NUL bytes in the keys of objects. *)
Definition refusing_table : PgTable TokenData (string * Z) :=
  {| pg_state := gmap (string * Z) TokenData; pg_rows := id;
     pg_execute := fun u rows s =>
       if existsb has_nul_key rows then (s, Err) else mem_execute TokenData (string * Z) u rows s |}.
#[local] Instance silent_query : DebugQuery TokenData (string * Z) := fun _ _ => EmptyString.
Lemma refusing_refuses v rows (s : pg_state (PgTable := refusing_table)) :
  Exists (fun r : TokenData => has_nul_key r = true) rows -> (pg_execute v rows s).2 = Err.
Proof.
  intros Hr. simpl. assert (existsb has_nul_key rows = true) as ->; [|done].
  apply existsb_exists. apply Exists_exists in Hr as (r & Hr & Hk). exists r. by rewrite <- list_elem_of_In.
Qed.
Lemma ex_row_valid name properties : distinct properties = true -> row_valid (ex_properties_row name properties).
Proof. intros Hd. repeat (apply Forall_cons; split; [try exact I|]); [split; simpl; lia|exact Hd|]. apply Forall_nil_2. Qed.
Definition token_data_statement : CleanStatement := clean_statement insert_token_datas_query.
Lemma token_data_statement_in : token_data_statement ∈ clean_statements.
Proof. apply (list_elem_of_lookup_2 _ 40). reflexivity. Qed.

(** A creator names a property with a NUL byte. *)
Definition nul_property : Value := Json.Object [("rank" +:+ nul_str, Str "gold")].
Lemma nul_key_never_stored_witness :
  ~ execute_in_chunks (H0 := refusing_table) insert_token_datas_query [ex_properties_row "t" nul_property] 10 ∅ ∅ (Ret (Ok tt)).
Proof.
  apply (proj1 (Forall_forall _ _) nul_key_never_stored token_data_statement token_data_statement_in
           refusing_table silent_query [ex_properties_row "t" nul_property] 10 (ex_properties_row "t" nul_property)).
  - apply refusing_refuses.
  - apply Forall_singleton. by apply ex_row_valid.
  - by left.
  - reflexivity.
Defined.

(** The NUL byte of a name is removed, and that of a property. *)
Lemma retried_rows_cleaned_witness :
  exists r', remove_null_bytes (ex_properties_row ("t" +:+ nul_str) (Json.Object [("rank", Str (nul_str +:+ "gold"))])) = Ret r' /\
    tda_name r' = "t" /\ tda_default_properties r' = Json.Object [("rank", Str "gold")].
Proof.
  destruct (proj1 (Forall_forall _ _) retried_rows_cleaned token_data_statement token_data_statement_in
    (ex_properties_row ("t" +:+ nul_str) (Json.Object [("rank", Str (nul_str +:+ "gold"))]))) as (r' & Hr & _).
  - by apply ex_row_valid.
  - exists r'. split; [exact Hr|]. assert (Ret (ex_properties_row "t" (Json.Object [("rank", Str "gold")])) = Ret r') as He
      by (rewrite <- Hr; reflexivity). injection He as <-. done.
Defined.

End ConcreteRetries.
