(* ===== verification/MoveTypes.v ===== *)
(** * The Move types as JSON

    The derived [Deserialize] of the resources, events and table items of the
    contracts, with their [deserialize_with] attributes.  They are instances of
    the classes that the models of the processors take as parameters. *)
From S2P Require Import Prelude RustStr Json Externals Proto Util Serde Database Processors.
From S2P Require Import TokenResources FungibleResources Objects Coins FungibleAssets Stake Ans TokenUtils.

Section MoveTypes.
Context `{SerdeCrates, HexCodec, !Bcs, HashOrder, JsonText}.

(** ** Readers of single fields *)

Definition decimal_text : Codec BigDecimal := read_with big_decimal (deserialize_from_string bd_parse).
Definition i64_text : Codec Z := read_with i64 (deserialize_from_string i64_from_str).
Definition u64_text : Codec Z := read_with u64 (deserialize_from_string u64_from_str).
Definition property_map : Codec Value :=
  read_with json (fun v => s ← de json v; Some (deserialize_property_map_from_bcs_hexstring s)).
Definition object_property_map : Codec Value :=
  read_with json (fun v => s ← de json v; Some (deserialize_token_object_property_map_from_bcs_hexstring s)).
Definition hex_text : Codec string :=
  read_with text (fun v => s ← de text v; Some (deserialize_string_from_hexstring s)).

(** ** The types *)

#[export] Instance MultisigPayloadClean_serde : Derived MultisigPayloadClean :=
  struct
    (field "multisig_address" text mpc_multisig_address $
     field "transaction_payload" (optional json) mpc_transaction_payload $ no_field)
    Build_MultisigPayloadClean.
#[export] Instance AggregatorU64_serde : Derived AggregatorU64 :=
  struct
    (field "value" decimal_text agg_value $ field "max_value" decimal_text agg_max_value $ no_field)
    Build_AggregatorU64.
#[export] Instance AggregatorSnapshotU64_serde : Derived AggregatorSnapshotU64 :=
  struct
    (field "value" decimal_text snapshot_value $ no_field)
    Build_AggregatorSnapshotU64.
#[export] Instance DerivedStringSnapshot_serde : Derived DerivedStringSnapshot :=
  struct
    (field "value" text derived_value $ no_field)
    Build_DerivedStringSnapshot.
#[export] Instance Table_serde : Derived MoveTable :=
  struct
    (field "handle" text table_handle $ no_field)
    Build_MoveTable.
#[export] Instance TokenDataIdType_serde : Derived TokenDataIdType :=
  struct
    (field "creator" text tdi_creator $ field "collection" text tdi_collection $ field "name" text tdi_name $
     no_field)
    Build_TokenDataIdType.
#[export] Instance CollectionDataIdType_serde : Derived CollectionDataIdType :=
  struct
    (field "creator" text cid_creator $ field "name" text cid_name $ no_field)
    Build_CollectionDataIdType.
#[export] Instance TokenIdType_serde : Derived TokenIdType :=
  struct
    (field "token_data_id" TokenDataIdType_serde tki_token_data_id $
     field "property_version" decimal_text tki_property_version $ no_field)
    Build_TokenIdType.
#[export] Instance TokenDataMutabilityConfigType_serde : Derived TokenDataMutabilityConfigType :=
  struct
    (field "description" boolean tmc_description $ field "maximum" boolean tmc_maximum $
     field "properties" boolean tmc_properties $ field "royalty" boolean tmc_royalty $
     field "uri" boolean tmc_uri $ no_field)
    Build_TokenDataMutabilityConfigType.
#[export] Instance RoyaltyType_serde : Derived RoyaltyType :=
  struct
    (field "payee_address" text roy_payee_address $
     field "royalty_points_denominator" decimal_text royalty_points_denominator $
     field "royalty_points_numerator" decimal_text royalty_points_numerator $ no_field)
    Build_RoyaltyType.
#[export] Instance TokenDataType_serde : Derived TokenDataType :=
  struct
    (field "default_properties" property_map tdt_default_properties $
     field "description" text tdt_description $
     field "largest_property_version" decimal_text tdt_largest_property_version $
     field "maximum" decimal_text tdt_maximum $
     field "mutability_config" TokenDataMutabilityConfigType_serde tdt_mutability_config $
     field "name" text tdt_name $ field "royalty" RoyaltyType_serde tdt_royalty $
     field "supply" decimal_text tdt_supply $ field "uri" text tdt_uri $ no_field)
    Build_TokenDataType.
#[export] Instance TokenType_serde : Derived TokenType :=
  struct
    (field "amount" decimal_text tt_amount $ field "id" TokenIdType_serde tt_id $
     field "token_properties" property_map tt_token_properties $ no_field)
    Build_TokenType.
#[export] Instance CollectionDataMutabilityConfigType_serde : Derived CollectionDataMutabilityConfigType :=
  struct
    (field "description" boolean cmc_description $ field "maximum" boolean cmc_maximum $
     field "uri" boolean cmc_uri $ no_field)
    Build_CollectionDataMutabilityConfigType.
#[export] Instance CollectionDataType_serde : Derived CollectionDataType :=
  struct
    (field "description" text cdt_description $ field "maximum" decimal_text cdt_maximum $
     field "mutability_config" CollectionDataMutabilityConfigType_serde cdt_mutability_config $
     field "name" text cdt_name $ field "supply" decimal_text cdt_supply $ field "uri" text cdt_uri $ no_field)
    Build_CollectionDataType.
#[export] Instance TokenOfferIdType_serde : Derived TokenOfferIdType :=
  struct
    (field "to_addr" text toi_to_addr $ field "token_id" TokenIdType_serde toi_token_id $ no_field)
    Build_TokenOfferIdType.
#[export] Instance CollectionResourceType_serde : Derived CollectionResourceType :=
  struct
    (field "collection_data" Table_serde crt_collection_data $ field "token_data" Table_serde crt_token_data $
     no_field)
    Build_CollectionResourceType.
#[export] Instance TokenStoreResourceType_serde : Derived TokenStoreResourceType :=
  struct
    (field "tokens" Table_serde tsr_tokens $ no_field)
    Build_TokenStoreResourceType.
#[export] Instance PendingClaimsResourceType_serde : Derived PendingClaimsResourceType :=
  struct
    (field "pending_claims" Table_serde pcr_pending_claims $ no_field)
    Build_PendingClaimsResourceType.
#[export] Instance WithdrawTokenEventType_serde : Derived WithdrawTokenEventType :=
  struct
    (field "amount" decimal_text wte_amount $ field "id" TokenIdType_serde wte_id $ no_field)
    Build_WithdrawTokenEventType.
#[export] Instance DepositTokenEventType_serde : Derived DepositTokenEventType :=
  struct
    (field "amount" decimal_text dte_amount $ field "id" TokenIdType_serde dte_id $ no_field)
    Build_DepositTokenEventType.
#[export] Instance MintTokenEventType_serde : Derived MintTokenEventType :=
  struct
    (field "amount" decimal_text mte_amount $ field "id" TokenDataIdType_serde mte_id $ no_field)
    Build_MintTokenEventType.
#[export] Instance BurnTokenEventType_serde : Derived BurnTokenEventType :=
  struct
    (field "amount" decimal_text bte_amount $ field "id" TokenIdType_serde bte_id $ no_field)
    Build_BurnTokenEventType.
#[export] Instance MutateTokenPropertyMapEventType_serde : Derived MutateTokenPropertyMapEventType :=
  struct
    (field "old_id" TokenIdType_serde mpe_old_id $ field "new_id" TokenIdType_serde mpe_new_id $ no_field)
    Build_MutateTokenPropertyMapEventType.
#[export] Instance OfferTokenEventType_serde : Derived OfferTokenEventType :=
  struct
    (field "amount" decimal_text ote_amount $ field "to_address" text ote_to_address $
     field "token_id" TokenIdType_serde ote_token_id $ no_field)
    Build_OfferTokenEventType.
#[export] Instance CancelTokenOfferEventType_serde : Derived CancelTokenOfferEventType :=
  struct
    (field "amount" decimal_text cte_amount $ field "to_address" text cte_to_address $
     field "token_id" TokenIdType_serde cte_token_id $ no_field)
    Build_CancelTokenOfferEventType.
#[export] Instance ClaimTokenEventType_serde : Derived ClaimTokenEventType :=
  struct
    (field "amount" decimal_text clm_amount $ field "to_address" text clm_to_address $
     field "token_id" TokenIdType_serde clm_token_id $ no_field)
    Build_ClaimTokenEventType.
#[export] Instance Collection_serde : Derived Collection :=
  struct
    (field "creator" text col_creator $ field "description" text col_description $ field "name" text col_name $
     field "uri" text col_uri $ no_field)
    Build_Collection.
#[export] Instance AptosCollection_serde : Derived AptosCollection :=
  struct
    (field "mutable_description" boolean mutable_description $ field "mutable_uri" boolean mutable_uri $
     no_field)
    Build_AptosCollection.
#[export] Instance ResourceReference_serde : Derived ResourceReference :=
  struct
    (field "inner" text reference_inner $ no_field)
    Build_ResourceReference.
#[export] Instance TokenV2_serde : Derived TokenV2 :=
  struct
    (field "collection" ResourceReference_serde tok_collection $ field "description" text tok_description $
     field "name" text tok_name $ field "uri" text tok_uri $ no_field)
    Build_TokenV2.
#[export] Instance FixedSupply_serde : Derived FixedSupply :=
  struct
    (field "current_supply" decimal_text fs_current_supply $ field "max_supply" decimal_text fs_max_supply $
     field "total_minted" decimal_text fs_total_minted $ no_field)
    Build_FixedSupply.
#[export] Instance UnlimitedSupply_serde : Derived UnlimitedSupply :=
  struct
    (field "current_supply" decimal_text us_current_supply $
     field "total_minted" decimal_text us_total_minted $ no_field)
    Build_UnlimitedSupply.
#[export] Instance ConcurrentSupply_serde : Derived ConcurrentSupply :=
  struct
    (field "current_supply" AggregatorU64_serde cs_current_supply $
     field "total_minted" AggregatorU64_serde cs_total_minted $ no_field)
    Build_ConcurrentSupply.
#[export] Instance MintEvent_serde : Derived MintEvent :=
  struct
    (field "index" decimal_text me_index $ field "token" text me_token $ no_field)
    Build_MintEvent.
#[export] Instance Mint_serde : Derived Mint :=
  struct
    (field "collection" text mint_collection $ field "index" AggregatorSnapshotU64_serde mint_index $
     field "token" text mint_token $ no_field)
    Build_Mint.
#[export] Instance TokenMutationEvent_serde : Derived TokenMutationEvent :=
  struct
    (field "mutated_field_name" text mutated_field_name $ field "old_value" text old_value $
     field "new_value" text new_value $ no_field)
    Build_TokenMutationEvent.
#[export] Instance BurnEvent_serde : Derived BurnEvent :=
  struct
    (field "index" decimal_text be_index $ field "token" text be_token $ no_field)
    Build_BurnEvent.
#[export] Instance Burn_serde : Derived Burn :=
  struct
    (field "collection" text burn_collection $ field "token" text burn_token $
     field "previous_owner" text previous_owner $ no_field)
    Build_Burn.
#[export] Instance TransferEvent_serde : Derived TransferEvent :=
  struct
    (field "from" text te_from $ field "to" text te_to $ field "object" text te_object $ no_field)
    Build_TransferEvent.
#[export] Instance PropertyMapModel_serde : Derived PropertyMapModel :=
  struct
    (field "inner" object_property_map pm_inner $ no_field)
    Build_PropertyMapModel.
#[export] Instance TokenIdentifiers_serde : Derived TokenIdentifiers :=
  struct
    (field "name" DerivedStringSnapshot_serde tid_name $ no_field)
    Build_TokenIdentifiers.
#[export] Instance ObjectCore_serde : Derived ObjectCore :=
  struct
    (field "allow_ungated_transfer" boolean allow_ungated_transfer $
     field "guid_creation_num" decimal_text guid_creation_num $ field "owner" text owner $ no_field)
    Build_ObjectCore.
#[export] Instance ObjectWithMetadata_serde : Derived ObjectWithMetadata :=
  struct
    (field "object_core" ObjectCore_serde object_core $ field "state_key_hash" text object_state_key_hash $
     no_field)
    Build_ObjectWithMetadata.
#[export] Instance AggregatorResource_serde : Derived AggregatorResource :=
  struct
    (field "handle" text agg_handle $ field "key" text agg_key $ no_field)
    Build_AggregatorResource.
#[export] Instance AggregatorWrapperResource_serde : Derived AggregatorWrapperResource :=
  struct
    (field "vec" (vec AggregatorResource_serde) aggregator_vec $ no_field)
    Build_AggregatorWrapperResource.
#[export] Instance IntegerResource_serde : Derived IntegerResource :=
  struct
    (field "value" decimal_text integer_value $ no_field)
    Build_IntegerResource.
#[export] Instance IntegerWrapperResource_serde : Derived IntegerWrapperResource :=
  struct
    (field "vec" (vec IntegerResource_serde) integer_vec $ no_field)
    Build_IntegerWrapperResource.
#[export] Instance OptionalAggregatorResource_serde : Derived OptionalAggregatorResource :=
  struct
    (field "aggregator" AggregatorWrapperResource_serde oar_aggregator $
     field "integer" IntegerWrapperResource_serde oar_integer $ no_field)
    Build_OptionalAggregatorResource.
#[export] Instance OptionalAggregatorWrapperResource_serde : Derived OptionalAggregatorWrapperResource :=
  struct
    (field "vec" (vec OptionalAggregatorResource_serde) oaw_vec $ no_field)
    Build_OptionalAggregatorWrapperResource.
#[export] Instance CoinInfoResource_serde : Derived CoinInfoResource :=
  struct
    (field "name" text cir_name $ field "symbol" text cir_symbol $ field "decimals" i32 cir_decimals $
     field "supply" OptionalAggregatorWrapperResource_serde cir_supply $ no_field)
    Build_CoinInfoResource.
#[export] Instance Coin_serde : Derived Coin :=
  struct
    (field "value" decimal_text coin_value $ no_field)
    Build_Coin.
#[export] Instance EventGuidResource_serde : Derived EventGuidResource :=
  struct
    (field "addr" text guid_addr $ field "creation_num" i64_text guid_creation_number $ no_field)
    Build_EventGuidResource.
#[export] Instance EventGuidResourceWrapper_serde : Derived EventGuidResourceWrapper :=
  struct
    (field "id" EventGuidResource_serde guid_id $ no_field)
    Build_EventGuidResourceWrapper.
#[export] Instance DepositEventResource_serde : Derived DepositEventResource :=
  struct
    (field "guid" EventGuidResourceWrapper_serde deposit_guid $ no_field)
    Build_DepositEventResource.
#[export] Instance WithdrawEventResource_serde : Derived WithdrawEventResource :=
  struct
    (field "guid" EventGuidResourceWrapper_serde withdraw_guid $ no_field)
    Build_WithdrawEventResource.
#[export] Instance CoinStoreResource_serde : Derived CoinStoreResource :=
  struct
    (field "coin" Coin_serde csr_coin $ field "deposit_events" DepositEventResource_serde csr_deposit_events $
     field "withdraw_events" WithdrawEventResource_serde csr_withdraw_events $
     field "frozen" boolean csr_frozen $ no_field)
    Build_CoinStoreResource.
#[export] Instance WithdrawCoinEvent_serde : Derived WithdrawCoinEvent :=
  struct
    (field "amount" decimal_text wce_amount $ no_field)
    Build_WithdrawCoinEvent.
#[export] Instance DepositCoinEvent_serde : Derived DepositCoinEvent :=
  struct
    (field "amount" decimal_text dce_amount $ no_field)
    Build_DepositCoinEvent.
#[export] Instance FeeStatement_serde : Derived FeeStatement :=
  struct
    (field "storage_fee_refund_octas" u64_text storage_fee_refund_octas $ no_field)
    Build_FeeStatement.
#[export] Instance FungibleAssetMetadata_serde : Derived FungibleAssetMetadata :=
  struct
    (field "name" text fam_name $ field "symbol" text fam_symbol $ field "decimals" i32 fam_decimals $
     field "icon_uri" text fam_icon_uri $ field "project_uri" text fam_project_uri $ no_field)
    Build_FungibleAssetMetadata.
#[export] Instance FungibleAssetStore_serde : Derived FungibleAssetStore :=
  struct
    (field "metadata" ResourceReference_serde fas_metadata $ field "balance" decimal_text fas_balance $
     field "frozen" boolean fas_frozen $ no_field)
    Build_FungibleAssetStore.
#[export] Instance OptionalSupply_serde : Derived FungibleResources.OptionalBigDecimal :=
  struct
    (field "vec" (vec decimal_text) optional_vec $ no_field)
    FungibleResources.Build_OptionalBigDecimal.
#[export] Instance FungibleAssetSupply_serde : Derived FungibleAssetSupply :=
  struct
    (field "current" decimal_text sup_current $ field "maximum" OptionalSupply_serde sup_maximum $ no_field)
    Build_FungibleAssetSupply.
#[export] Instance DepositEvent_serde : Derived DepositEvent :=
  struct
    (field "amount" decimal_text deposit_amount $ no_field)
    Build_DepositEvent.
#[export] Instance WithdrawEvent_serde : Derived WithdrawEvent :=
  struct
    (field "amount" decimal_text withdraw_amount $ no_field)
    Build_WithdrawEvent.
#[export] Instance FrozenEvent_serde : Derived FrozenEvent :=
  struct
    (field "frozen" boolean event_frozen $ no_field)
    Build_FrozenEvent.
#[export] Instance OptionalString_serde : Derived OptionalString :=
  struct
    (field "vec" (vec text) os_vec $ no_field)
    Build_OptionalString.
#[export] Instance OptionalBigDecimal_serde : Derived Ans.OptionalBigDecimal :=
  struct
    (field "vec" (vec decimal_text) obd_vec $ no_field)
    Ans.Build_OptionalBigDecimal.
#[export] Instance NameRecordKeyV1_serde : Derived NameRecordKeyV1 :=
  struct
    (field "domain_name" text nrk_domain_name $
     field "subdomain_name" OptionalString_serde nrk_subdomain_name $ no_field)
    Build_NameRecordKeyV1.
#[export] Instance NameRecordV1_serde : Derived NameRecordV1 :=
  struct
    (field "expiration_time_sec" decimal_text nr1_expiration_time_sec $
     field "property_version" decimal_text nr1_property_version $
     field "target_address" OptionalString_serde nr1_target_address $ no_field)
    Build_NameRecordV1.
#[export] Instance NameRecordV2_serde : Derived NameRecordV2 :=
  struct
    (field "domain_name" text nr2_domain_name $
     field "expiration_time_sec" decimal_text nr2_expiration_time_sec $
     field "target_address" OptionalString_serde nr2_target_address $ no_field)
    Build_NameRecordV2.
#[export] Instance SubdomainExtV2_serde : Derived SubdomainExtV2 :=
  struct
    (field "subdomain_expiration_policy" i64 subdomain_expiration_policy $
     field "subdomain_name" text sde_subdomain_name $ no_field)
    Build_SubdomainExtV2.
#[export] Instance RenewNameEvent_serde : Derived RenewNameEvent :=
  struct
    (field "domain_name" text rne_domain_name $
     field "expiration_time_secs" decimal_text rne_expiration_time_secs $
     field "is_primary_name" boolean rne_is_primary_name $
     field "subdomain_name" OptionalString_serde rne_subdomain_name $
     field "target_address" OptionalString_serde rne_target_address $ no_field)
    Build_RenewNameEvent.
#[export] Instance SetReverseLookupEvent_serde : Derived SetReverseLookupEvent :=
  struct
    (field "account_addr" text srl_account_addr $
     field "curr_domain_name" OptionalString_serde srl_curr_domain_name $
     field "curr_expiration_time_secs" OptionalBigDecimal_serde srl_curr_expiration_time_secs $
     field "curr_subdomain_name" OptionalString_serde srl_curr_subdomain_name $
     field "prev_domain_name" OptionalString_serde srl_prev_domain_name $
     field "prev_expiration_time_secs" OptionalBigDecimal_serde srl_prev_expiration_time_secs $
     field "prev_subdomain_name" OptionalString_serde srl_prev_subdomain_name $ no_field)
    Build_SetReverseLookupEvent.
#[export] Instance StakePoolResource_serde : Derived StakePoolResource :=
  struct
    (field "delegated_voter" text delegated_voter $ field "operator_address" text spr_operator_address $
     no_field)
    Build_StakePoolResource.
#[export] Instance SharesInnerResource_serde : Derived SharesInnerResource :=
  struct
    (field "inner" Table_serde shares_inner $ no_field)
    Build_SharesInnerResource.
#[export] Instance PoolResource_serde : Derived PoolResource :=
  struct
    (field "shares" SharesInnerResource_serde pool_shares $ field "total_coins" decimal_text pool_total_coins $
     field "total_shares" decimal_text pool_total_shares $
     field "scaling_factor" decimal_text pool_scaling_factor $ no_field)
    Build_PoolResource.
#[export] Instance DelegationPoolResource_serde : Derived DelegationPoolResource :=
  struct
    (field "active_shares" PoolResource_serde active_shares $
     field "inactive_shares" Table_serde inactive_shares $
     field "operator_commission_percentage" decimal_text dpr_operator_commission_percentage $ no_field)
    Build_DelegationPoolResource.
#[export] Instance GovernanceVoteEvent_serde : Derived GovernanceVoteEvent :=
  struct
    (field "proposal_id" u64_text gv_proposal_id $ field "voter" text gv_voter $
     field "stake_pool" text gv_stake_pool $ field "num_votes" decimal_text gv_num_votes $
     field "should_pass" boolean gv_should_pass $ no_field)
    Build_GovernanceVoteEvent.
#[export] Instance DistributeRewardsEvent_serde : Derived DistributeRewardsEvent :=
  struct
    (field "pool_address" text dr_pool_address $ field "rewards_amount" u64_text rewards_amount $ no_field)
    Build_DistributeRewardsEvent.
#[export] Instance AddStakeEvent_serde : Derived AddStakeEvent :=
  struct
    (field "amount_added" u64_text amount_added $ field "delegator_address" text as_delegator_address $
     field "pool_address" text as_pool_address $ no_field)
    Build_AddStakeEvent.
#[export] Instance UnlockStakeEvent_serde : Derived UnlockStakeEvent :=
  struct
    (field "amount_unlocked" u64_text amount_unlocked $ field "delegator_address" text us_delegator_address $
     field "pool_address" text us_pool_address $ no_field)
    Build_UnlockStakeEvent.
#[export] Instance WithdrawStakeEvent_serde : Derived WithdrawStakeEvent :=
  struct
    (field "amount_withdrawn" u64_text amount_withdrawn $ field "delegator_address" text ws_delegator_address $
     field "pool_address" text ws_pool_address $ no_field)
    Build_WithdrawStakeEvent.
#[export] Instance ReactivateStakeEvent_serde : Derived ReactivateStakeEvent :=
  struct
    (field "amount_reactivated" u64_text amount_reactivated $
     field "delegator_address" text rs_delegator_address $ field "pool_address" text rs_pool_address $ no_field)
    Build_ReactivateStakeEvent.
#[export] Instance VoteDelegationResource_serde : Derived VoteDelegationResource :=
  struct
    (field "voter" text vdr_voter $ field "pending_voter" text vdr_pending_voter $ no_field)
    Build_VoteDelegationResource.
#[export] Instance VoteDelegationVector_serde : Derived VoteDelegationVector :=
  struct
    (field "key" text vdv_key $ field "value" VoteDelegationResource_serde vdv_value $ no_field)
    Build_VoteDelegationVector.
#[export] Instance VoteDelegationInnerResource_serde : Derived VoteDelegationInnerResource :=
  struct
    (field "inner" Table_serde vdi_inner $ no_field)
    Build_VoteDelegationInnerResource.
#[export] Instance VoteDelegationBucketsResource_serde : Derived VoteDelegationBucketsResource :=
  struct
    (field "buckets" VoteDelegationInnerResource_serde vdb_buckets $ no_field)
    Build_VoteDelegationBucketsResource.
#[export] Instance GovernanceRecordsResource_serde : Derived GovernanceRecordsResource :=
  struct
    (field "vote_delegation" VoteDelegationBucketsResource_serde vote_delegation $ no_field)
    Build_GovernanceRecordsResource.

(** ** The classes of the processors *)

#[export] Instance CoinCodec_serde : CoinCodec :=
  {| de_CoinInfoResource := derived_deserialize (H0 := CoinInfoResource_serde);
     de_CoinStoreResource := derived_deserialize (H0 := CoinStoreResource_serde);
     de_WithdrawCoinEvent := derived_deserialize (H0 := WithdrawCoinEvent_serde);
     de_DepositCoinEvent := derived_deserialize (H0 := DepositCoinEvent_serde) |}.
#[export] Instance FungibleCodec_serde : FungibleCodec :=
  {| de_FeeStatement := derived_deserialize (H0 := FeeStatement_serde);
     de_FungibleAssetMetadata := derived_deserialize (H0 := FungibleAssetMetadata_serde);
     de_FungibleAssetStore := derived_deserialize (H0 := FungibleAssetStore_serde);
     de_FungibleAssetSupply := derived_deserialize (H0 := FungibleAssetSupply_serde);
     de_DepositEvent := derived_deserialize (H0 := DepositEvent_serde);
     de_WithdrawEvent := derived_deserialize (H0 := WithdrawEvent_serde);
     de_FrozenEvent := derived_deserialize (H0 := FrozenEvent_serde) |}.
#[export] Instance AnsCodec_serde : AnsCodec :=
  {| de_NameRecordKeyV1 := derived_deserialize (H0 := NameRecordKeyV1_serde);
     de_NameRecordV1 := derived_deserialize (H0 := NameRecordV1_serde);
     de_NameRecordV2 := derived_deserialize (H0 := NameRecordV2_serde);
     de_SubdomainExtV2 := derived_deserialize (H0 := SubdomainExtV2_serde);
     de_RenewNameEvent := derived_deserialize (H0 := RenewNameEvent_serde);
     de_SetReverseLookupEvent := derived_deserialize (H0 := SetReverseLookupEvent_serde) |}.
#[export] Instance StakeCodec_serde : StakeCodec :=
  {| de_StakePoolResource := derived_deserialize (H0 := StakePoolResource_serde);
     de_DelegationPoolResource := derived_deserialize (H0 := DelegationPoolResource_serde);
     de_PoolResource := derived_deserialize (H0 := PoolResource_serde);
     de_GovernanceVoteEvent := derived_deserialize (H0 := GovernanceVoteEvent_serde);
     de_DistributeRewardsEvent := derived_deserialize (H0 := DistributeRewardsEvent_serde);
     de_AddStakeEvent := derived_deserialize (H0 := AddStakeEvent_serde);
     de_UnlockStakeEvent := derived_deserialize (H0 := UnlockStakeEvent_serde);
     de_WithdrawStakeEvent := derived_deserialize (H0 := WithdrawStakeEvent_serde);
     de_ReactivateStakeEvent := derived_deserialize (H0 := ReactivateStakeEvent_serde);
     de_VoteDelegationVectors := derived_deserialize (H0 := vec VoteDelegationVector_serde);
     de_GovernanceRecordsResource := derived_deserialize (H0 := GovernanceRecordsResource_serde) |}.
#[export] Instance TokenV1Codec_serde : TokenV1Codec :=
  {| de_TokenDataIdType := derived_deserialize (H0 := TokenDataIdType_serde);
     de_TokenIdType := derived_deserialize (H0 := TokenIdType_serde);
     de_TokenDataType := derived_deserialize (H0 := TokenDataType_serde);
     de_TokenType := derived_deserialize (H0 := TokenType_serde);
     de_CollectionDataType := derived_deserialize (H0 := CollectionDataType_serde);
     de_TokenOfferIdType := derived_deserialize (H0 := TokenOfferIdType_serde);
     de_MintTokenEventType := derived_deserialize (H0 := MintTokenEventType_serde);
     de_BurnTokenEventType := derived_deserialize (H0 := BurnTokenEventType_serde);
     de_MutateTokenPropertyMapEventType := derived_deserialize (H0 := MutateTokenPropertyMapEventType_serde);
     de_WithdrawTokenEventType := derived_deserialize (H0 := WithdrawTokenEventType_serde);
     de_DepositTokenEventType := derived_deserialize (H0 := DepositTokenEventType_serde);
     de_OfferTokenEventType := derived_deserialize (H0 := OfferTokenEventType_serde);
     de_CancelTokenOfferEventType := derived_deserialize (H0 := CancelTokenOfferEventType_serde);
     de_ClaimTokenEventType := derived_deserialize (H0 := ClaimTokenEventType_serde);
     de_CollectionResourceType := derived_deserialize (H0 := CollectionResourceType_serde);
     de_TokenStoreResourceType := derived_deserialize (H0 := TokenStoreResourceType_serde);
     de_PendingClaimsResourceType := derived_deserialize (H0 := PendingClaimsResourceType_serde) |}.
#[export] Instance TokenCodec_serde : TokenCodec :=
  {| de_ObjectCore := derived_deserialize (H0 := ObjectCore_serde);
     de_Collection := derived_deserialize (H0 := Collection_serde);
     de_ConcurrentSupply := derived_deserialize (H0 := ConcurrentSupply_serde);
     de_FixedSupply := derived_deserialize (H0 := FixedSupply_serde);
     de_UnlimitedSupply := derived_deserialize (H0 := UnlimitedSupply_serde);
     de_AptosCollection := derived_deserialize (H0 := AptosCollection_serde);
     de_TokenV2 := derived_deserialize (H0 := TokenV2_serde);
     de_TokenIdentifiers := derived_deserialize (H0 := TokenIdentifiers_serde);
     de_PropertyMapModel := derived_deserialize (H0 := PropertyMapModel_serde);
     de_Mint := derived_deserialize (H0 := Mint_serde);
     de_MintEvent := derived_deserialize (H0 := MintEvent_serde);
     de_TokenMutationEvent := derived_deserialize (H0 := TokenMutationEvent_serde);
     de_Burn := derived_deserialize (H0 := Burn_serde);
     de_BurnEvent := derived_deserialize (H0 := BurnEvent_serde);
     de_TransferEvent := derived_deserialize (H0 := TransferEvent_serde) |}.
End MoveTypes.
