(* ===== verification/MoveTypesLaws.v ===== *)
(** * The Move types as JSON: correctness

    A contract is upgraded by adding fields to its types.  What the indexer reads
    from a value it still reads from a value with more fields, at any depth; and
    the integers it reads are within their widths. *)
From Stdlib Require Import Ascii.
From S2P Require Import Prelude RustStr Json Externals Proto Util Serde SerdeLaws Database Processors.
From S2P Require Import DefaultModels TokenResources FungibleResources Objects Coins FungibleAssets Stake Ans TokenUtils MoveTypes.

(** ** Values with more fields *)

Inductive extends : Value -> Value -> Prop :=
| extends_same v : extends v v
| extends_array l l' : Forall2 extends l l' -> extends (Array l) (Array l')
| extends_object o o' :
    NoDup o'.*1 ->
    (forall k v, assoc_get k o = Some v -> exists v', assoc_get k o' = Some v' /\ extends v v') ->
    extends (Json.Object o) (Json.Object o').

Class Lenient {T} (c : Codec T) : Prop :=
  lenient : forall v v' x, extends v v' -> de c v = Some x -> de c v' = Some x.
Ltac scalar := let He := fresh in let Hd := fresh in intros v v' x He Hd; inversion He; subst; done.
#[export] Instance int_lenient lo hi : Lenient (int_between lo hi).
Proof. scalar. Qed.
#[export] Instance i64_lenient : Lenient i64 := int_lenient _ _.
#[export] Instance i32_lenient : Lenient i32 := int_lenient _ _.
#[export] Instance u64_lenient : Lenient u64 := int_lenient _ _.
#[export] Instance boolean_lenient : Lenient boolean.
Proof. scalar. Qed.
#[export] Instance text_lenient : Lenient text.
Proof. scalar. Qed.
#[export] Instance from_string_lenient {T} (c : Codec T) from_str : Lenient (read_with c (deserialize_from_string from_str)).
Proof. scalar. Qed.
#[export] Instance vec_lenient {T} (c : Codec T) `{!Lenient c} : Lenient (vec c).
Proof.
  intros v v' x He Hd. inversion He as [v0|l l' Hl|o o' Hn Ho]; subst; [done| |done]. simpl in *.
  apply mapM_Some in Hd. apply mapM_Some. clear He. revert l' Hl.
  induction Hd as [|a b l xs Ha _ IH]; intros l' Hl; inversion Hl; subst; constructor; [by eapply lenient|auto].
Qed.

(** A struct whose fields are all required. *)
Class LenientFields {R C} (fs : Fields R C) : Prop := {
  lenient_fields : forall new e e' r,
    (forall k v, e k = Some v -> exists v', e' k = Some v' /\ extends v v') ->
    de_fields fs new e = Some r -> de_fields fs new e' = Some r;
  lenient_seq : forall new l l' r, Forall2 extends l l' -> de_seq fs new l = Some r -> de_seq fs new l' = Some r;
}.
#[export] Instance no_field_lenient {R} : LenientFields (@no_field R).
Proof. split; [done|]. intros new l l' r Hl. simpl. by destruct Hl. Qed.
Lemma field_lenient {R T C} name (c : Codec T) (get : R -> T) (rest : Fields R C) :
  de_missing c = None -> Lenient c -> LenientFields rest -> LenientFields (field name c get rest).
Proof.
  intros Hm Hc Hr. split; simpl.
  - intros new e e' r He Hd. destruct (e name) as [v|] eqn:Hv; [|by rewrite Hm in Hd].
    destruct (He name v Hv) as (v' & -> & Hext). destruct (de c v) as [x|] eqn:Hx; [|done].
    rewrite (lenient _ _ _ Hext Hx). simpl in *. by eapply lenient_fields.
  - intros new l l' r Hl Hd. destruct Hl as [|v v' l l' Hv Hl]; [done|].
    destruct (de c v) as [x|] eqn:Hx; [|done]. rewrite (lenient _ _ _ Hv Hx). simpl in *. by eapply lenient_seq.
Qed.
#[export] Hint Extern 1 (LenientFields (field _ _ _ _)) => (apply field_lenient; [reflexivity|apply _|apply _]) : typeclass_instances.
#[export] Instance struct_lenient {R C} (fs : Fields R C) new `{!LenientFields fs} : Lenient (struct fs new).
Proof.
  intros v v' r He Hd. inversion He as [v0|l l' Hl|o o' Hn Ho]; subst; [done|..].
  - simpl in *. by eapply lenient_seq.
  - cbn [de struct]. rewrite de_object by done. simpl in Hd. destruct (forallb _ _); [|done].
    eapply lenient_fields; [exact Ho|exact Hd].
Qed.

(** ** The Move types *)

Section MoveTypes.
Context `{SerdeCrates, HexCodec, !Bcs, HashOrder, JsonText}.

Inductive AnyType := | move_type {T : Type} (D : Derived T).
(** All but those with a property map, which is kept as it is when it cannot be
    decoded. *)
Definition move_types : list AnyType :=
  [move_type AggregatorU64_serde; move_type AggregatorSnapshotU64_serde; move_type DerivedStringSnapshot_serde;
   move_type Table_serde; move_type TokenDataIdType_serde; move_type CollectionDataIdType_serde;
   move_type TokenIdType_serde; move_type TokenDataMutabilityConfigType_serde; move_type RoyaltyType_serde;
   move_type CollectionDataMutabilityConfigType_serde; move_type CollectionDataType_serde;
   move_type TokenOfferIdType_serde; move_type CollectionResourceType_serde;
   move_type TokenStoreResourceType_serde; move_type PendingClaimsResourceType_serde;
   move_type WithdrawTokenEventType_serde; move_type DepositTokenEventType_serde;
   move_type MintTokenEventType_serde; move_type BurnTokenEventType_serde;
   move_type MutateTokenPropertyMapEventType_serde; move_type OfferTokenEventType_serde;
   move_type CancelTokenOfferEventType_serde; move_type ClaimTokenEventType_serde; move_type Collection_serde;
   move_type AptosCollection_serde; move_type ResourceReference_serde; move_type TokenV2_serde;
   move_type FixedSupply_serde; move_type UnlimitedSupply_serde; move_type ConcurrentSupply_serde;
   move_type MintEvent_serde; move_type Mint_serde; move_type TokenMutationEvent_serde;
   move_type BurnEvent_serde; move_type Burn_serde; move_type TransferEvent_serde;
   move_type TokenIdentifiers_serde; move_type ObjectCore_serde; move_type ObjectWithMetadata_serde;
   move_type AggregatorResource_serde; move_type AggregatorWrapperResource_serde;
   move_type IntegerResource_serde; move_type IntegerWrapperResource_serde;
   move_type OptionalAggregatorResource_serde; move_type OptionalAggregatorWrapperResource_serde;
   move_type CoinInfoResource_serde; move_type Coin_serde; move_type EventGuidResource_serde;
   move_type EventGuidResourceWrapper_serde; move_type DepositEventResource_serde;
   move_type WithdrawEventResource_serde; move_type CoinStoreResource_serde; move_type WithdrawCoinEvent_serde;
   move_type DepositCoinEvent_serde; move_type FeeStatement_serde; move_type FungibleAssetMetadata_serde;
   move_type FungibleAssetStore_serde; move_type OptionalSupply_serde; move_type FungibleAssetSupply_serde;
   move_type DepositEvent_serde; move_type WithdrawEvent_serde; move_type FrozenEvent_serde;
   move_type OptionalString_serde; move_type OptionalBigDecimal_serde; move_type NameRecordKeyV1_serde;
   move_type NameRecordV1_serde; move_type NameRecordV2_serde; move_type SubdomainExtV2_serde;
   move_type RenewNameEvent_serde; move_type SetReverseLookupEvent_serde; move_type StakePoolResource_serde;
   move_type SharesInnerResource_serde; move_type PoolResource_serde; move_type DelegationPoolResource_serde;
   move_type GovernanceVoteEvent_serde; move_type DistributeRewardsEvent_serde; move_type AddStakeEvent_serde;
   move_type UnlockStakeEvent_serde; move_type WithdrawStakeEvent_serde; move_type ReactivateStakeEvent_serde;
   move_type VoteDelegationResource_serde; move_type VoteDelegationVector_serde;
   move_type VoteDelegationInnerResource_serde; move_type VoteDelegationBucketsResource_serde;
   move_type GovernanceRecordsResource_serde].

Ltac lenient_struct :=
  lazymatch goal with
  | |- @Lenient ?T ?D =>
      let d := eval red in D in
      lazymatch d with struct ?fs ?new => change (@Lenient T (struct fs new)); apply struct_lenient end
  end.
#[local] Hint Extern 1 (Lenient _) => lenient_struct : typeclass_instances.
#[local] Hint Extern 1 (Lenient (vec _)) => apply vec_lenient : typeclass_instances.
#[local] Hint Extern 1 (Lenient decimal_text) => apply from_string_lenient : typeclass_instances.
#[local] Hint Extern 1 (Lenient i64_text) => apply from_string_lenient : typeclass_instances.
#[local] Hint Extern 1 (Lenient u64_text) => apply from_string_lenient : typeclass_instances.

(** C10: upgrades of the contracts are compatible.  For each of the types without
    a property map: when a value is read, every value with more fields, at any
    depth and in any order, is read as the same. *)
Theorem upgrade_compatible :
  Forall (fun t => match t with move_type D => forall v v' x,
    de D v = Some x -> extends v v' -> de D v' = Some x end) move_types.
Proof.
  do 85 (apply Forall_cons; split; [intros v v' x Hd He; exact (lenient v v' x He Hd)|]). constructor.
Qed.
End MoveTypes.

(** ** Widths *)

Section Widths.
Context `{SerdeCrates}.
Lemma parse_digits_nonneg s acc z : (0 <= acc)%Z -> parse_digits acc s = Some z -> (0 <= z)%Z.
Proof.
  revert acc. induction s as [|c s IH]; intros acc Hacc; simpl; [by intros [= <-]|]. unfold digit_value.
  case_decide as Hc; simpl; [|done]. apply IH. lia.
Qed.
Lemma int_parse_nonneg s z : int_parse s = Some z -> (0 <= z)%Z.
Proof. destruct s; [done|]. by apply parse_digits_nonneg. Qed.
Lemma parse_unsigned_bounds hi s z : parse_unsigned hi s = Some z -> (0 <= z <= hi)%Z.
Proof.
  unfold parse_unsigned. destruct (int_parse _) as [n|] eqn:Hn; simpl; [|done].
  apply int_parse_nonneg in Hn. case_decide; [|done]. intros [= <-]. lia.
Qed.
Lemma parse_signed_bounds lo hi s z : (lo <= 0 <= hi)%Z -> parse_signed lo hi s = Some z -> (lo <= z <= hi)%Z.
Proof.
  intros Hb. unfold parse_signed. destruct (strip_prefix "-" s) as [t|].
  - destruct (int_parse t) as [n|] eqn:Hn; simpl; [|done]. apply int_parse_nonneg in Hn.
    case_decide; [|done]. intros [= <-]. lia.
  - intros Hz%parse_unsigned_bounds. lia.
Qed.

(** the integers that are read from texts are within their widths, so that
    the casts of the models do not wrap them. *)
Theorem text_integers_bounded v z :
  (de u64_text v = Some z -> in_u64 z) /\ (de i64_text v = Some z -> in_i64 z).
Proof.
  split; intros Hz; simpl in Hz; unfold deserialize_from_string in Hz; destruct (de text v) as [s|]; try done; simpl in Hz.
  - apply parse_unsigned_bounds in Hz. unfold in_u64. lia.
  - apply parse_signed_bounds in Hz; [|lia]. unfold in_i64. lia.
Qed.
End Widths.

(** ** Concrete values *)

Section ConcreteValues.
#[local] Existing Instance pair_chrono.
#[local] Existing Instance int_bigdec.
#[local] Existing Instance plain_hex.
#[local] Existing Instance map_order.
#[local] Instance decimal_crates : SerdeCrates :=
  {| date_to_text := fun _ => EmptyString; date_from_text := fun _ => None; bd_from_number := fun _ => None |}.
#[local] Instance tree_text : JsonText := fun _ => None.

(** BCS: little-endian integers; sequences of less than 128 bytes after their
    length. *)
Fixpoint le_value (b : bytes) : Z :=
  match b with EmptyString => 0 | String c b => Z.of_N (N_of_ascii c) + 256 * le_value b end.
Definition le_int (n : nat) (b : bytes) : option Z :=
  if decide (String.length b = n) then Some (le_value b) else None.
Definition short_seq (b : bytes) : option bytes :=
  match b with
  | String c b => if decide (N.to_nat (N_of_ascii c) = String.length b) then Some b else None
  | EmptyString => None
  end.
#[local] Instance le_bcs : Bcs :=
  {| bcs_bool := fun b => z ← le_int 1 b; Some (bool_decide (z ≠ 0%Z));
     bcs_u8 := le_int 1; bcs_u16 := le_int 2; bcs_u32 := le_int 4; bcs_u64 := le_int 8; bcs_u128 := le_int 16;
     bcs_BigDecimal := fun _ => None; bcs_String := fun b => s ← short_seq b; from_utf8 s; bcs_bytes := short_seq |}.

Definition obj (o : list (string * Value)) : Value := Json.Object o.

(** The values of the tests in util.rs. *)
Example hex_name : de hex_text (Str "0x6170746f735f636f696e") = Some "aptos_coin".
Proof. vm_compute. reflexivity. Qed.
Example property_map_decoded :
  let entry k t v := obj [("key", Str k); ("value", obj [("type", Str t); ("value", Str v)])] in
  value_get "creation_time_sec" <$> de property_map (obj [("map", obj [("data", Array
    [entry "type" "0x1::string::String" "0x06646f6d61696e"; entry "creation_time_sec" "u64" "0x140f4f6300000000"])])])
  = Some (Some (Str "1666125588")).
Proof. vm_compute. reflexivity. Qed.
Example object_property_map_decoded :
  value_get "Rank" <$> de object_property_map (obj [("data", Array
    [obj [("key", Str "Rank"); ("value", obj [("type", Number (JInt 9)); ("value", Str "0x0642726f6e7a65")])]])])
  = Some (Some (Str "Bronze")).
Proof. vm_compute. reflexivity. Qed.

(** The values of the tests in v2_fungible_asset_utils.rs. *)
Example supply_without_maximum :
  (fun s => (sup_current s, get_maximum s)) <$>
    de FungibleAssetSupply_serde (obj [("current", Str "0"); ("maximum", obj [("vec", Array [])])])
  = Some (0%Z, None).
Proof. vm_compute. reflexivity. Qed.
Example supply_with_maximum :
  (fun s => (sup_current s, get_maximum s)) <$>
    de FungibleAssetSupply_serde (obj [("current", Str "100"); ("maximum", obj [("vec", Array [Str "5000"])])])
  = Some (100%Z, Some 5000%Z).
Proof. vm_compute. reflexivity. Qed.

(** A coin store, in the order of its declaration and with more fields. *)
Definition ex_guid_json (n : string) : Value :=
  obj [("guid", obj [("id", obj [("addr", Str "0x1"); ("creation_num", Str n)])])].
Definition ex_store : Value :=
  obj [("coin", obj [("value", Str "25")]); ("deposit_events", ex_guid_json "2");
       ("withdraw_events", ex_guid_json "3"); ("frozen", Bool false)].
Definition ex_store_upgraded : Value :=
  obj [("version", Number (JInt 2)); ("frozen", Bool false); ("coin", obj [("paused", Bool true); ("value", Str "25")]);
       ("deposit_events", ex_guid_json "2"); ("withdraw_events", ex_guid_json "3")].
Example ex_store_amount : (fun r => coin_value (csr_coin r)) <$> de CoinStoreResource_serde ex_store = Some 25%Z.
Proof. vm_compute. reflexivity. Qed.
(** An amount that is written as a number is not read. *)
Example ex_store_number :
  de Coin_serde (obj [("value", Number (JInt 25))]) = None.
Proof. reflexivity. Qed.

Lemma ex_store_extended : extends ex_store ex_store_upgraded.
Proof.
  assert (forall k o v', assoc_get k o = Some v' -> exists v, assoc_get k o = Some v /\ extends v' v) as Hsame
    by (intros; eexists; split; [eassumption|constructor]).
  constructor; [apply (bool_decide_unpack _); vm_compute; exact I|]. intros k v. simpl.
  repeat case_decide; subst; try done; intros [= <-]; try (eexists; split; [reflexivity|constructor]).
  - apply (bool_decide_unpack _). vm_compute. exact I.
  - intros k v. simpl. repeat case_decide; subst; try done. intros [= <-]. eexists. split; [reflexivity|constructor].
Qed.
Lemma upgrade_compatible_witness :
  de CoinStoreResource_serde ex_store_upgraded = de CoinStoreResource_serde ex_store.
Proof.
  destruct (de CoinStoreResource_serde ex_store) as [r|] eqn:Hr; [|discriminate Hr].
  refine (proj1 (Forall_forall _ _) upgrade_compatible (move_type CoinStoreResource_serde) _ ex_store ex_store_upgraded r Hr _).
  - apply (list_elem_of_lookup_2 _ 51). reflexivity.
  - exact ex_store_extended.
Defined.
End ConcreteValues.
