(* ===== verification/Endpoints.v ===== *)
(** * Requests of the metrics service and endpoints of the probes

    [rust/indexer-metrics/src/util.rs] with the answers that
    [rust/indexer-metrics/src/main.rs] reads, and the routes of
    [register_probes_and_metrics_handler] in
    [rust/server-framework/src/lib.rs].  The network, the profiler, the encoder of
    prometheus and the builder of responses are parameters. *)
From stdpp Require Import pretty.
From S2P Require Import Prelude RustStr Json Externals Proto Util Database Processors Fetcher Worker.
From S2P Require Import Metrics Startup Serde SerdeLaws.

#[local] Arguments TimedOut {A}.
#[local] Arguments RequestError {A}.
#[local] Arguments ParsingError {A}.
#[local] Arguments Answer {A} _.

(** ** Requests with a timeout: [util.rs] *)

Inductive Method := GET | POST.
Record HttpRequest := { req_method : Method; req_url : string; req_json : option Value }.
(** [Err(Elapsed)], [Ok(Err(_))] and [Ok(Ok(response))] with the body, if it
    can be read. *)
Inductive Sent := Elapsed | SendError | Responded (body : option string).
(** [reqwest] under [tokio::time::timeout]. *)
Class HttpClient := send_within : Z -> HttpRequest -> Sent.

Definition post_url_with_timeout `{HttpClient} (url : string) (data : Value) (timeout_ms : Z) : Sent :=
  send_within timeout_ms {| req_method := POST; req_url := url; req_json := Some data |}.
Definition get_url_with_timeout `{HttpClient} (url : string) (timeout_ms : Z) : Sent :=
  send_within timeout_ms {| req_method := GET; req_url := url; req_json := None |}.
Definition status_query : string := "
            {
                processor_status {
                    processor
                    last_updated
                    last_success_version
                    last_transaction_timestamp
                }
            }
        ".
Definition fetch_processor_status_with_timeout `{HttpClient} (url : string) (timeout_ms : Z) : Sent :=
  post_url_with_timeout url (Object [("query", Str status_query)]) timeout_ms.

(** ** The answers: [main.rs] *)

Section Answers.
(** The texts of a [NaiveDateTime] as nanoseconds: serde's and [FromStr]'s. *)
Variable time_to_text : Z -> string.
Variable time_from_str : string -> option Z.

Definition u64_string : Codec Z := read_with u64 (deserialize_from_string u64_from_str).
Definition time_string : Codec Z :=
  {| ser := fun t => Str (time_to_text t); de := deserialize_from_string time_from_str; de_missing := None |}.

Definition fullnode_fields : Fields FullnodeResponse (Z -> Z -> FullnodeResponse) :=
  field "ledger_version" u64_string fn_ledger_version $
  field "ledger_timestamp" u64_string fn_ledger_timestamp $ no_field.
Definition FullnodeResponse_serde : Codec FullnodeResponse := struct fullnode_fields Build_FullnodeResponse.

Definition status_fields : Fields ProcessorStatusResponse (string -> Z -> Z -> Z -> ProcessorStatusResponse) :=
  field "processor" text psr_processor $
  field "last_updated" time_string psr_last_updated $
  field "last_success_version" u64 psr_last_success_version $
  field "last_transaction_timestamp" time_string psr_last_transaction_timestamp $ no_field.
Definition ProcessorStatusResponse_serde : Codec ProcessorStatusResponse :=
  struct status_fields Build_ProcessorStatusResponse.

Record ProcessorsResponseInner := { pri_processor_status : list ProcessorStatusResponse }.
Definition ProcessorsResponseInner_serde : Codec ProcessorsResponseInner :=
  struct (field "processor_status" (vec ProcessorStatusResponse_serde) pri_processor_status no_field)
    Build_ProcessorsResponseInner.
Record ProcessorsResponse := { prs_data : ProcessorsResponseInner }.
Definition ProcessorsResponse_serde : Codec ProcessorsResponse :=
  struct (field "data" ProcessorsResponseInner_serde prs_data no_field) Build_ProcessorsResponse.

Context `{HttpClient, JsonText, Float64}.

(** [response.json::<T>()] *)
Definition response_json {T} (c : Codec T) (s : Sent) : Fetched T :=
  match s with
  | Elapsed => TimedOut
  | SendError => RequestError
  | Responded body => from_option Answer ParsingError (body ← body; v ← json_tree body; de c v)
  end.
Definition fetched_map {A B} (f : A -> B) (r : Fetched A) : Fetched B :=
  match r with
  | TimedOut => TimedOut
  | RequestError => RequestError
  | ParsingError => ParsingError
  | Answer a => Answer (f a)
  end.

(** A round of each loop from the request on. *)
Definition start_fn_fetch_round (url chain : string) : list MetricUpdate :=
  fn_fetch_round chain (response_json FullnodeResponse_serde (get_url_with_timeout url QUERY_TIMEOUT_MS)).
Definition start_processor_status_fetch_round (url chain : string) (now : Z) : list MetricUpdate :=
  processor_status_round chain now
    (fetched_map (fun r => pri_processor_status (prs_data r))
       (response_json ProcessorsResponse_serde (fetch_processor_status_with_timeout url QUERY_TIMEOUT_MS))).
End Answers.

(** The updates of the first rounds of [start_fn_fetch], when the network
    answers round [i] with [client i]. *)
Definition start_fn_fetch `{JsonText, Float64} (client : nat -> HttpClient) (url chain : string) (rounds : nat)
  : list MetricUpdate :=
  concat ((fun i => start_fn_fetch_round (H := client i) url chain) <$> seq 0 rounds).

(** ** The probes: [register_probes_and_metrics_handler] *)

Record HttpResponse := { resp_status : Z; resp_headers : list (string * string); resp_body : bytes }.
Definition plain_response (body : bytes) : HttpResponse := {| resp_status := 200; resp_headers := []; resp_body := body |}.
Definition with_status (r : HttpResponse) (code : Z) : HttpResponse :=
  {| resp_status := code; resp_headers := resp_headers r; resp_body := resp_body r |}.

Section Probes.
(** [Response::builder()] with headers and a body; an error as its debug text. *)
Variable builder : list (string * string) -> bytes -> HttpResponse + string.
(** Encoding the gathered metrics, and the profile or the debug text of an error. *)
Variable encode : option bytes.
Variable start_cpu_profiling : bytes + string.
Variable target_os_linux : bool.

(** [warp::path]: the first segment of the path. *)
Definition warp_path (segment : string) (path : list string) : bool := bool_decide (head path = Some segment).
Definition readiness : HttpResponse := with_status (plain_response "ready") 200.
Definition internal_server_error : HttpResponse := with_status (plain_response EmptyString) 500.
Definition metrics_endpoint : outcome HttpResponse :=
  encode_buffer ← unwrap encode;
  Ret match builder [("Content-Type", "text/plain")] encode_buffer with
      | inl r => r
      | inr _ => internal_server_error
      end.
Definition profiling_failed (e : string) : HttpResponse :=
  with_status (plain_response ("Profiling failed: " +:+ e +:+ ".")) 500.
Definition profilez : HttpResponse :=
  match start_cpu_profiling with
  | inl body =>
      match builder [("Content-Length", pretty (String.length body)); ("Content-Disposition", "inline");
                     ("Content-Type", "image/svg+xml")] body with
      | inl res => with_status res 200
      | inr e => profiling_failed e
      end
  | inr e => profiling_failed e
  end.
(** The routes in their order; [None] is the rejection of an unknown path. *)
Definition register_probes_and_metrics_handler (path : list string) : outcome (option HttpResponse) :=
  if warp_path "readiness" path then Ret (Some readiness)
  else if warp_path "metrics" path then r ← metrics_endpoint; Ret (Some r)
  else if target_os_linux && warp_path "profilez" path then Ret (Some profilez)
  else Ret None.

(** A request to the probes ends the process or not. *)
Definition probe_exit (path : list string) : option Exit :=
  match register_probes_and_metrics_handler path with
  | Ret _ => None
  | Panic => Some handle_panic
  end.
End Probes.

(** [setup_logging]: the filter of the environment, or [info]. *)
Definition setup_logging {F} (default_env : option F) (try_new : string -> option F) : outcome F :=
  unwrap (match default_env with Some f => Some f | None => try_new "info" end).

(** ** Correctness *)

Section RequestLaws.
Context `{JsonText, Float64}.

Definition fn_answer (client : HttpClient) (url : string) : Fetched FullnodeResponse :=
  response_json FullnodeResponse_serde (get_url_with_timeout url QUERY_TIMEOUT_MS).
Definition answered {A} (r : Fetched A) : option A := match r with Answer a => Some a | _ => None end.

Lemma ops_of_app m l l' : ops_of m (l ++ l') = ops_of m l ++ ops_of m l'.
Proof. unfold ops_of. by rewrite filter_app, fmap_app. Qed.
Lemma fn_round_ops chain r :
  ops_of TASK_FAILURE_COUNT (fn_fetch_round chain r) = match answered r with Some _ => [] | None => [Inc] end /\
  ops_of PFN_LEDGER_VERSION (fn_fetch_round chain r) =
    option_list ((fun a => SetInt (as_i64 (fn_ledger_version a))) <$> answered r).
Proof. by destruct r. Qed.

(** Every failed round of the full node task is counted, and every answered one
    sets the ledger version: over any number of rounds, whatever the network
    does, the counter of failures is incremented once for each round without a
    readable answer, and the gauge takes the versions of the others in order. *)
Theorem fn_fetch_counts (client : nat -> HttpClient) url chain rounds :
  let answers := (fun i => answered (fn_answer (client i) url)) <$> seq 0 rounds in
  ops_of TASK_FAILURE_COUNT (start_fn_fetch client url chain rounds)
    = replicate (length (filter (fun a => a = None) answers)) Inc /\
  ops_of PFN_LEDGER_VERSION (start_fn_fetch client url chain rounds)
    = (fun a => SetInt (as_i64 (fn_ledger_version a))) <$> omap id answers.
Proof.
  unfold start_fn_fetch. simpl. induction (seq 0 rounds) as [|i l [IHc IHv]]; [done|].
  rewrite !fmap_cons. simpl concat. rewrite !ops_of_app, IHc, IHv.
  unfold start_fn_fetch_round. destruct (fn_round_ops chain (fn_answer (client i) url)) as [Hc Hv].
  unfold fn_answer in *. rewrite Hc, Hv. by destruct (answered _).
Qed.

(** The query asks for exactly the fields that the answer is read from. *)
Lemma status_query_asks to_text from_str :
  String.words status_query = ["{"; "processor_status"; "{"] ++ field_names (status_fields to_text from_str) ++ ["}"; "}"].
Proof. reflexivity. Qed.
End RequestLaws.

Section ProbeLaws.
Variable builder : list (string * string) -> bytes -> HttpResponse + string.
Variable encode : option bytes.
Variable start_cpu_profiling : bytes + string.
Variable target_os_linux : bool.

(** A probe ends the process exactly when it asks for the metrics and they
    cannot be encoded; a readiness probe of a running process is always
    answered. *)
Theorem probes_end_process path :
  let serve := register_probes_and_metrics_handler builder encode start_cpu_profiling target_os_linux in
  let exit := probe_exit builder encode start_cpu_profiling target_os_linux path in
  (exit = Some (ExitCode 12) <-> head path = Some "metrics" /\ encode = None) /\
  (exit = None <-> is_Some (match serve path with Ret r => Some r | Panic => None end)) /\
  (head path = Some "readiness" -> serve path = Ret (Some readiness)).
Proof.
  simpl. unfold probe_exit, register_probes_and_metrics_handler, warp_path, metrics_endpoint.
  destruct path as [|s path]; simpl.
  { rewrite andb_false_r. split_and!; naive_solver. }
  case_bool_decide as Hr; [split_and!; naive_solver|].
  case_bool_decide as Hm; [destruct encode; simpl; split_and!; naive_solver|].
  destruct (target_os_linux && _); split_and!; naive_solver.
Qed.
End ProbeLaws.

(** *** A full node that answers every second request *)

Section ConcreteRequests.
#[local] Instance one_answer_text : JsonText := fun s =>
  if decide (s = "ok") then Some (Object [("ledger_version", Str "41"); ("ledger_timestamp", Str "7")]) else None.
Definition every_second : nat -> HttpClient := fun i _ _ => if Nat.even i then Responded (Some "ok") else Elapsed.
Definition ex_float : Float64 :=
  {| f64 := Z; f64_of := id; f64_sci := fun m _ => m; f64_add := Z.add; f64_sub := Z.sub; f64_mul := Z.mul;
     f64_div := Z.div; f64_to_u64 := id |}.
#[local] Existing Instance ex_float.
Example every_second_counted :
  ops_of TASK_FAILURE_COUNT (start_fn_fetch every_second "http://node" "main" 3) = [Inc] /\
  ops_of PFN_LEDGER_VERSION (start_fn_fetch every_second "http://node" "main" 3) = [SetInt 41; SetInt 41].
Proof. split; reflexivity. Qed.
End ConcreteRequests.
